(* ===== verification/_CoqProject ===== *)
-Q . S2P
Prelude.v
Util.v
CLib.v
Mfile.v
Sbn.v
Stats.v
Pctldb.v
Pctl.v
Framep.v
SbnPack.v
EndToEnd.v
Nreadn.v
Packfp.v
Rtxdb.v
Spooldb.v
Qdb.v
File.v
Mspool.v
Nbsp.v
Nbs1.v
Emwin.v
Serverc.v
Strsplit.v
Stoi.v
Slavet.v
Slavenbs.v
Per.v
Slavefp.v
Conn.v
Serverm.v
Serverinv.v
Serverdist.v
Filters.v
Filterinv.v
Slave.v
Slavethr.v
Npcast.v
Nbspinsert.v
Double.v
Nids.v
Nidspoly.v
Nidsout.v
