(* ===== verification/Prelude.v ===== *)
(** * Verification of nbsp, a NOAAPORT broadcast system processor

    ** The program

    nbsp (C, under src/) receives the SBN data stream of the NOAAPORT satellite
    broadcast, or the same products from another instance of itself, assembles
    the products, stores them in a spool and passes them on:

<<
      frames ---> frame processor ---> processing queue ---> processor
      (network)   framep.c, sbn.c      pctl.c, pctldb.c      nbsp.c
                                                              |
        packets of another server                             +--> spool (files, or a
        slavenbs, nbs1r.c  ---> processing queue              |    database in memory)
                                                              +--> retransmission database
                                                              +--> queues of the filters
                                                              |    and of the servers
        clients <--- serverc.c, nbs1s.c, emwin.c, packfp.c <--+
>>

    A reader thread gives each frame to the frame processor, which unpacks its
    headers (sbn.c), finds the WMO heading of the first frame of a product, and
    appends the data of each frame to the memory file (mfile.c) of the channel
    (pctl.c). A complete product is put in the processing queue: a queue of
    descriptors beside a btree of the memory files, under time stamps (pctldb.c,
    pctlmfdb.c). The processor thread (nbsp.c) takes the products, writes them
    to the spool, whose book (spooldb.c) says which file to delete, records them
    in the database of retransmissions (rtxdb.c), and puts a packet with their
    name and path (packfp.c) in the distribution queues (libqdb, nbspq.c). The
    main thread of the server (serverm.c, libconnth) keeps the table of the
    clients and copies each packet to the queues of those that are allowed it.
    The filter thread (filters.c) writes the name and path of each product on
    the pipes of the programs that want it. The thread of each client (serverc.c) reads the product again and sends it, as
    packets (nbs1s.c), as EMWIN packets (emwin.c) or by its path only; a slave
    (slavenbs) receives such packets and feeds its own processing queue; one
    that receives only paths (slavefp, slavein) feeds its distribution queues.
    The table of the slaves is made from the configuration (slavet.c). The
    tool sbnpack (tools/nbspmcast/sbnpack) makes SBN frames out of files. Among
    the programs that the filters run, nbspradgis (filters/filterlib/c/dcnids)
    makes the polygons of a radar product and writes them as a shapefile.

    ** The files and what they model

    Each file translates the functions of the C files named, with their names;
    where a function is long, its parts have names of their own.

    - Prelude: outcomes of C code, machine integers, memory as lists, tactics.
    - Util: util.c, packing of integers, the checksum, trimming.
    - CLib: the parts of the C library that are used: strings, sscanf, decimal
      numbers.
    - Mfile: mfile.c, memory files.
    - Sbn: sbn.c and unz.c, the headers of a frame and the WMO heading.
    - Stats: stats.c, the counters.
    - Pctldb: pctldb.c and pctlmfdb.c, the processing queue.
    - Pctl: pctl.c, the elements of the channels.
    - Framep: framep.c, the frame processor.
    - SbnPack: tools/nbspmcast/sbnpack, from a file to frames.
    - EndToEnd: the packer and the frame processor together.
    - Nreadn: nreadn.c, reads and writes with timeouts.
    - Packfp: pack.c, packfp.c, packfpu.c, the packets with a path.
    - Rtxdb: rtxdb.c and ertxdb.c, the database of retransmissions.
    - Spooldb: spooldb.c, the book of the spool.
    - Qdb: libqdb/qdb.c and nbspq.c, the distribution queues.
    - File: file.c, files and directories.
    - Mspool: libspoolbdb, nbspmspoolbdb.c, spooltype.c, the spool in memory.
    - Nbsp: nbsp.c and efile.c, the processor.
    - Nbs1: nbs1s.c and nbs1r.c, whole products as packets.
    - Emwin: emwin.c, products as EMWIN packets.
    - Serverc: serverc.c and the elements of libconnth, the clients.
    - Strsplit: strsplit.c, splitting a string.
    - Stoi: stoi.c, numbers in strings.
    - Slavet: slavet.c, the table of the slaves and its configuration.
    - Slavenbs: slavenbs/framep.c and slavenbs/reader.c, the slave that receives
      whole products.
    - Per: per.c, the periodic events.
    - Slavefp: slavefp and slavein, the slaves that receive paths, from a server
      or from a fifo.
    - Conn: libconnth (conn.c, ce.c, cq.c, poll.c) and appdata.c, the table of
      connections and its polling.
    - Serverm: serverm.c and serverf.c, the main thread of the server, and the
      reading of a filter (pfilter.c).
    - Serverinv: the invariant of the table of connections.
    - Serverdist: what the main thread does for its clients.
    - Slave: slave.c, slave_net.c and slave_in.c, the threads of the slaves.
    - Slavethr: what the threads of the slaves do.
    - Npcast: npcast.c and reader.c, the sockets and the threads of the noaaport
      readers, with the frame processor and the packer.
    - Nbspinsert: tools/nbspinsert, inserting a product from the command line.
    - Filters: filters.c and pfilter.c, the filter thread.
    - Filterinv: what the filter thread does with its filters.
    - Double: the type double of C, with its rounding, and loops over doubles.
    - Nids: filters/filterlib/c/dcnids, from the file of a radar product to its
      polygons (nbspradgis.c, nbspradinfo.c, dcnids_header.c, dcnids_bunz.c,
      dcnids_decode_*.c, dcnids_transform.c).
    - Nidspoly: the polygons against the list of the cells of the product.
    - Nidsout: dcnids_shp.c, dcnids_dbf.c, dcnids_name.c and dbfread.c, the files
      that are written, and reading them back.

    ** How C is represented

    A call is a function to [outcome]: [Done] with its value and the new state,
    [Abrt] when an assertion fails, [Undef] when memory outside an object is
    read or written, a null pointer is followed, or an array has no terminator.
    Integers are in [Z] with the wrap-around of their width written out ([u32],
    [s32], ...). An array is a list of bytes, a pointer into it an index;
    reading and writing ([rd], [wr], ...) check the bounds. Structures are
    records, and a function that changes one returns it. A function protected
    by a mutex is one step. Log messages are left out, as are the errors of
    mutexes and condition variables.

    What is not in the repository is a parameter, a class, with the laws that
    its documentation gives in another class (Spec) and, where a theorem needs
    that nothing fails, a third one (Reliable): zlib ([Zlib]), malloc ([Heap]),
    the clock ([Clock]), the regular expressions of the configuration ([Regex],
    [QueueRegex]), Berkeley DB as a queue ([Db], [QueueDb]), a btree ([Btree])
    and the spool ([SpoolBdb]), the file system ([FileSys], [FileRead]), the
    local time ([LocalTime]), the Tcl interpreter of the access filter
    ([NetFilter]), sines and cosines ([Libm]) and libbz2 ([Bzlib]). Each has an
    instance, with which the witnesses of the theorems are computed. One class
    supposes more than the documentation says: for the theorems about the
    processing queue, and those that go through it, the clock works and does not
    go back by a second ([Pctldb.ClockSpec]). A socket or fifo is the sequence of what
    happens on it ([Nreadn.event]), and no theorem assumes more of it than it
    says.

    ** What is shown

    - From frames to the queue. Whatever bytes a frame has, unpacking it is
      total and leaves the pointers inside the buffers
      ([Sbn.sbn_unpack_frame_correct]), and processing it is safe and keeps the
      state well formed ([Framep.sbnframeproc_safe]). The frames of a product
      that come in order are put in the queue as one element with their data
      ([Framep.product_reassembly]), with the name of the WMO heading
      ([Sbn.split_wmo_header_parses]). With the packer and the reader threads
      this is a statement about files ([Npcast.packed_file_received]), on the
      sockets that the configuration opens ([Npcast.np_open_joins]).
    - The processing queue implements a FIFO queue with limits
      ([Pctldb.pctldb_fifo], [Pctldb.pctldb_ops_invariant],
      [Pctldb.pctldb_hard_limits_hold]).
    - The processor implements an abstract machine with a queue, a file store,
      the book, the table of received products and the output queues
      ([Nbsp.processor_refines]), and empties the queue ([Nbsp.queue_drained]).
    - The stores: the distribution queues ([Qdb.qtable_fifo]), the spool in
      memory ([Mspool.mspool_recalls]), the book ([Spooldb.spooldb_keeps_last],
      [Spooldb.spooldb_saved]), the retransmissions ([Rtxdb.rtxdb_recalls]).
    - The network: reads and writes with timeouts end and transfer what they
      say ([Nreadn.sreadm_correct], [Nreadn.writem_correct]); a packet with a
      path is received with its number, name and path, and its codes as signed
      characters ([Packfp.fp_packet_received]), and a corrupted one refused ([Packfp.fp_corruption_detected]); a product goes
      from the spool of a server to the queue of a slave
      ([Slavethr.product_transferred]); an EMWIN client can recover the
      file ([Serverc.emwin_file_sent]); a slave that receives paths passes on
      what was sent ([Slavefp.nbs2_relayed]), and one that reads lines from a
      fifo what they say ([Slavethr.slavein_thread_relays]), which the tool
      nbspinsert writes ([Nbspinsert.inserted_line_queued]).
    - The main thread of the server: in any history of connections, products
      and ends of threads it is safe and keeps its table well formed
      ([Serverinv.server_table_safe]); it gives each product to the right
      clients ([Serverdist.product_distributed]), removes those that have
      finished ([Serverdist.finished_removed]), and a client that comes back
      finds its queue ([Serverdist.reconnection_keeps_queue]).
    - The filter thread is safe whatever happens to its pipes
      ([Filterinv.filter_thread_safe]), writes the line of a product to the
      filters that want it, in order ([Filterinv.product_filtered]), and finds
      its filters again on a reload ([Filterinv.reload_finds_filters]).
    - The configuration of the slaves gives the table that it describes
      ([Slave.init_slavet_correct]).
    - Radar products: the two passes over the radials end, and draw the cells
      of the product that are kept ([Nidspoly.radar_product_decoded]), whatever
      the sines and cosines; compressed data are expanded
      ([Nidspoly.bunz_expands]); what the box of the polygons is,
      whose northern limit the code does not set ([Nidspoly.bounding_box]); what
      is written can be read back ([Nidsout.shapefile_reads_back],
      [Nidsout.levels_table]), by dbfread as long as it fits its array.
    - Errors: inputs from the network that stop the program or make it write
      out of bounds ([Sbn.copy_ctrlheader_aborts],
      [Sbn.negative_frame_data_accepted], [Packfp.recv_fp_packet_overflow],
      [Nbs1.recv_nbs_packet_overflow]), a damaged header that is refused
      ([Sbn.sbn_header_corruption_rejected]), a queue that is closed twice
      ([Serverdist.spawn_failure_double_free]) and a filter whose silence is
      taken for an answer ([Serverdist.emwin_timeout_accepted]).
    - Support: memory files, packing, checksum, directories, splitting of
      strings, the schedule of the periodic events.

    ** Fuel and bounds

    The loops of the code that are not structural have fuel, which is enough
    by a lemma used in the theorem about the function: growing a memory file
    doubles it at least, so 64 turns are enough for 64-bit sizes; the decimal
    digits of a number have 20 turns; reading or writing [n] bytes has [n]
    turns, since each transfers a byte or stops; making a directory tree has
    one turn for each character of the path; splitting a string one for each
    character; the loops over blocks, parts, frames and databases have their
    number. The loops over radii and angles, which are doubles, have [2 ^ 64]
    turns, with a measure on their values that shows that they end before; the
    loop of dcnids_bunz.c has 14, and a theorem says when it does not end.
    Waiting on a condition is an input with the list of what wakes the
    thread up, or stops with [None].

    Hypotheses on sizes (sequence numbers below [2 ^ 32], a product below
    32735 blocks, fewer than 100000 EMWIN parts) are the ranges outside of
    which the fields of the formats or an [int] overflow.

    ** What is not modelled

    The interleaving inside a locked operation, the cancellation of threads,
    signals, logging; the calls that open sockets (mcast.c, libconnth/sock.c,
    libconnth/tcpsock.c); opening and reloading the filters of the server and
    the reports of its state; the filters themselves, which are other programs,
    and the Tcl interpreters of the access filter (sfilter.c); the configuration
    (libtclconf) and the web server; the other decoders of data formats that run
    outside of the daemon (dcgini, dcgoesr, nbspunz and the like under filters/),
    which are tables of projections and calls of libraries; the text outputs
    with decimals of the radar programs; the regular expressions of ure.c and
    the reports of qstate.c.

    ** Prelude

    The rest of this file is the vocabulary that the others share. *)

From Stdlib Require Export ZArith Lia.
From stdpp Require Export base tactics list numbers.

#[export] Set Default Goal Selector "!".

Declare Scope c_scope.
Delimit Scope c_scope with C.
Open Scope Z_scope.

(** ** Outcomes of C code

    A call finishes ([Done]), fails an [assert] ([Abrt]: the program is built
    with assertions enabled) or touches memory outside an object ([Undef]). *)

Inductive outcome (A : Type) :=
| Done (a : A)
| Abrt
| Undef.
Arguments Done {A} _.
Arguments Abrt {A}.
Arguments Undef {A}.

Definition obind {A B} (m : outcome A) (k : A -> outcome B) : outcome B :=
  match m with
  | Done a => k a
  | Abrt => Abrt
  | Undef => Undef
  end.

Notation "'let*' x ':=' m 'in' k" := (obind m (fun x => k))
  (at level 10, x pattern, m at level 100, k at level 200) : c_scope.
Open Scope c_scope.

(** [assert(b); k] *)
Definition c_assert {A} (b : bool) (k : outcome A) : outcome A :=
  if b then k else Abrt.

Lemma obind_Done {A B} (m : outcome A) (k : A -> outcome B) b :
  obind m k = Done b <-> exists a, m = Done a /\ k a = Done b.
Proof.
  destruct m; simpl; split; try done.
  - eauto.
  - by intros (? & [= ->] & ?).
  - by intros (? & ? & ?).
  - by intros (? & ? & ?).
Qed.

Lemma c_assert_true {A} (b : bool) (k : outcome A) :
  b = true -> c_assert b k = k.
Proof. by intros ->. Qed.

(** ** Machine integers (LP64: [int] 32 bits, [size_t] 64 bits) *)

Definition u8 (z : Z) : Z := z mod 2 ^ 8.
Definition u16 (z : Z) : Z := z mod 2 ^ 16.
Definition u32 (z : Z) : Z := z mod 2 ^ 32.
Definition u64 (z : Z) : Z := z mod 2 ^ 64.
(** [int] from a wider value *)
Definition s32 (z : Z) : Z := (z + 2 ^ 31) mod 2 ^ 32 - 2 ^ 31.
(** value of a byte read through a plain (signed) [char] *)
Definition schar (b : Z) : Z := if b <? 128 then b else b - 256.

Lemma u8_small z : 0 <= z < 256 -> u8 z = z.
Proof. intros. apply Z.mod_small. lia. Qed.
Lemma u16_small z : 0 <= z < 65536 -> u16 z = z.
Proof. intros. apply Z.mod_small. lia. Qed.
Lemma u32_small z : 0 <= z < 4294967296 -> u32 z = z.
Proof. intros. apply Z.mod_small. lia. Qed.
Lemma u64_small z : 0 <= z < 18446744073709551616 -> u64 z = z.
Proof. intros. apply Z.mod_small. lia. Qed.
Lemma s32_small z : - 2147483648 <= z < 2147483648 -> s32 z = z.
Proof. intros. unfold s32. rewrite Z.mod_small; lia. Qed.
Lemma u8_range z : 0 <= u8 z < 256.
Proof. apply (Z.mod_pos_bound z (2 ^ 8)). lia. Qed.
Lemma u16_range z : 0 <= u16 z < 65536.
Proof. apply (Z.mod_pos_bound z (2 ^ 16)). lia. Qed.
Lemma u32_range z : 0 <= u32 z < 4294967296.
Proof. apply (Z.mod_pos_bound z (2 ^ 32)). lia. Qed.
Lemma u64_range z : 0 <= u64 z < 18446744073709551616.
Proof. apply (Z.mod_pos_bound z (2 ^ 64)). lia. Qed.

(** ** Bytes and byte strings *)

Definition is_byte (b : Z) : Prop := 0 <= b < 256.
Definition bytes (l : list Z) : Prop := Forall is_byte l.

#[export] Instance is_byte_dec b : Decision (is_byte b).
Proof. unfold is_byte. apply _. Defined.
#[export] Instance bytes_dec l : Decision (bytes l).
Proof. unfold bytes. apply _. Defined.

Section zlists.
Context {A : Type}.
Implicit Types (l k : list A) (n i : Z).

Definition zlen l : Z := Z.of_nat (length l).
Definition ztake n l : list A := take (Z.to_nat n) l.
Definition zdrop n l : list A := drop (Z.to_nat n) l.
(** the [n] elements of [l] from index [off] on *)
Definition zsub off n l : list A := ztake n (zdrop off l).
Definition znth l i : option A := if i <? 0 then None else l !! Z.to_nat i.

Lemma zlen_nil : zlen [] = 0.
Proof. done. Qed.
Lemma zlen_nonneg l : 0 <= zlen l.
Proof. unfold zlen. lia. Qed.
Lemma zlen_app l k : zlen (l ++ k) = zlen l + zlen k.
Proof. unfold zlen. rewrite length_app. lia. Qed.
Lemma zlen_cons x l : zlen (x :: l) = 1 + zlen l.
Proof. unfold zlen. simpl. lia. Qed.
Lemma zlen_take n l : 0 <= n <= zlen l -> zlen (ztake n l) = n.
Proof. unfold zlen, ztake. rewrite length_take. lia. Qed.
Lemma zlen_take_le n l : zlen (ztake n l) <= Z.max 0 n.
Proof. unfold zlen, ztake. rewrite length_take. lia. Qed.
Lemma zlen_drop n l : 0 <= n <= zlen l -> zlen (zdrop n l) = zlen l - n.
Proof. unfold zlen, zdrop. rewrite length_drop. lia. Qed.
Lemma zlen_sub off n l :
  0 <= off -> 0 <= n -> off + n <= zlen l -> zlen (zsub off n l) = n.
Proof. intros. unfold zsub. rewrite zlen_take; rewrite ?zlen_drop; lia. Qed.
Lemma zlen_replicate (n : nat) (x : A) : zlen (replicate n x) = Z.of_nat n.
Proof. unfold zlen. by rewrite length_replicate. Qed.

Lemma ztake_app_le n l k : n <= zlen l -> ztake n (l ++ k) = ztake n l.
Proof. unfold zlen, ztake. intros. rewrite take_app_le; [done|lia]. Qed.
Lemma ztake_app_exact n l k : n = zlen l -> ztake n (l ++ k) = l.
Proof. unfold zlen, ztake. intros ->. rewrite Nat2Z.id. apply take_app_length. Qed.
Lemma zdrop_app_exact n l k : n = zlen l -> zdrop n (l ++ k) = k.
Proof. unfold zlen, zdrop. intros ->. rewrite Nat2Z.id. apply drop_app_length. Qed.
Lemma zdrop_app_le n l k : n <= zlen l -> zdrop n (l ++ k) = zdrop n l ++ k.
Proof. unfold zlen, zdrop. intros. rewrite drop_app_le; [done|lia]. Qed.
Lemma zdrop_app_ge n l k :
  zlen l <= n -> zdrop n (l ++ k) = zdrop (n - zlen l) k.
Proof.
  unfold zlen, zdrop. intros. rewrite drop_app_ge; [|lia].
  f_equal. lia.
Qed.
Lemma zdrop_0 l : zdrop 0 l = l.
Proof. done. Qed.
Lemma ztake_0 l : ztake 0 l = [].
Proof. done. Qed.
Lemma ztake_ge n l : zlen l <= n -> ztake n l = l.
Proof. unfold zlen, ztake. intros. apply take_ge. lia. Qed.
Lemma zdrop_ge n l : zlen l <= n -> zdrop n l = [].
Proof. unfold zlen, zdrop. intros. apply drop_ge. lia. Qed.
Lemma zdrop_drop a b l : 0 <= a -> 0 <= b -> zdrop a (zdrop b l) = zdrop (b + a) l.
Proof. intros. unfold zdrop. rewrite drop_drop. f_equal. lia. Qed.
Lemma ztake_add a b l : 0 <= a -> 0 <= b -> ztake (a + b) l = ztake a l ++ ztake b (zdrop a l).
Proof.
  intros. unfold ztake, zdrop. rewrite Z2Nat.inj_add by done.
  rewrite <- (take_drop (Z.to_nat a) l) at 1. rewrite take_app, length_take.
  rewrite take_take. destruct (decide (Z.to_nat a <= length l)%nat).
  - f_equal; [f_equal; lia|]. f_equal. lia.
  - rewrite !drop_ge by lia. rewrite !take_nil, !app_nil_r. rewrite !take_ge by lia. done.
Qed.
Lemma ztake_zdrop n l : ztake n l ++ zdrop n l = l.
Proof. apply take_drop. Qed.

Lemma zsub_app_l off n l k :
  0 <= off -> 0 <= n -> off + n <= zlen l -> zsub off n (l ++ k) = zsub off n l.
Proof.
  intros. unfold zsub. rewrite zdrop_app_le by lia.
  rewrite ztake_app_le; [done|]. rewrite zlen_drop; lia.
Qed.
Lemma zsub_app_r off n l k :
  zlen l <= off -> zsub off n (l ++ k) = zsub (off - zlen l) n k.
Proof. intros. unfold zsub. by rewrite zdrop_app_ge. Qed.
Lemma zsub_app_exact l k m off n :
  off = zlen l -> n = zlen k -> zsub off n (l ++ k ++ m) = k.
Proof.
  intros -> ->. unfold zsub. rewrite zdrop_app_exact by done.
  by apply ztake_app_exact.
Qed.

Lemma znth_lookup l i : 0 <= i -> znth l i = l !! Z.to_nat i.
Proof. intros. unfold znth. by destruct (Z.ltb_spec i 0); [lia|]. Qed.
Lemma znth_Some_lt l i x : znth l i = Some x -> 0 <= i < zlen l.
Proof.
  unfold znth, zlen. destruct (Z.ltb_spec i 0); [done|].
  intros ?%lookup_lt_Some. lia.
Qed.
Lemma znth_is_Some l i : 0 <= i < zlen l -> exists x, znth l i = Some x.
Proof.
  intros. rewrite znth_lookup by lia.
  apply lookup_lt_is_Some. unfold zlen in *. lia.
Qed.
Lemma znth_app_l l k i : 0 <= i < zlen l -> znth (l ++ k) i = znth l i.
Proof.
  intros. rewrite !znth_lookup by lia.
  apply lookup_app_l. unfold zlen in *. lia.
Qed.
Lemma znth_app_r l k i : zlen l <= i -> znth (l ++ k) i = znth k (i - zlen l).
Proof.
  pose proof (zlen_nonneg l). intros. rewrite !znth_lookup by lia.
  rewrite lookup_app_r by (unfold zlen in *; lia).
  f_equal. unfold zlen in *. lia.
Qed.
Lemma znth_Forall (P : A -> Prop) l i x :
  Forall P l -> znth l i = Some x -> P x.
Proof.
  intros HF Hx. pose proof (znth_Some_lt _ _ _ Hx).
  rewrite znth_lookup in Hx by lia. by eapply Forall_lookup_1.
Qed.
End zlists.

Lemma bytes_app l k : bytes (l ++ k) <-> bytes l /\ bytes k.
Proof. apply Forall_app. Qed.
Lemma bytes_ztake n l : bytes l -> bytes (ztake n l).
Proof. apply Forall_take. Qed.
Lemma bytes_zdrop n l : bytes l -> bytes (zdrop n l).
Proof. apply Forall_drop. Qed.
Lemma bytes_zsub off n l : bytes l -> bytes (zsub off n l).
Proof. intros. by apply bytes_ztake, bytes_zdrop. Qed.

(** ** Array accesses

    Arrays are lists; a pointer into an array is an index. *)

(** [a[i]] *)
Definition rd {A} (a : list A) (i : Z) : outcome A :=
  match znth a i with Some b => Done b | None => Undef end.

(** the [n] bytes at [&a[off]], as [memcpy] reads them *)
Definition rdn {A} (a : list A) (off n : Z) : outcome (list A) :=
  if (0 <=? off) && (0 <=? n) && (off + n <=? zlen a)
  then Done (zsub off n a) else Undef.

(** overwrite from [&a[off]] with the bytes [d] *)
Definition wr {A} (a : list A) (off : Z) (d : list A) : outcome (list A) :=
  if (0 <=? off) && (off + zlen d <=? zlen a)
  then Done (ztake off a ++ d ++ zdrop (off + zlen d) a) else Undef.

Lemma rd_Done {A} (a : list A) i x : rd a i = Done x <-> znth a i = Some x.
Proof. unfold rd. destruct (znth a i); naive_solver. Qed.

Lemma rdn_ok {A} (a : list A) off n :
  0 <= off -> 0 <= n -> off + n <= zlen a -> rdn a off n = Done (zsub off n a).
Proof.
  intros. unfold rdn.
  by rewrite (proj2 (Z.leb_le 0 off)), (proj2 (Z.leb_le 0 n)),
    (proj2 (Z.leb_le (off + n) (zlen a))).
Qed.

Lemma wr_ok {A} (a : list A) off d :
  0 <= off -> off + zlen d <= zlen a ->
  wr a off d = Done (ztake off a ++ d ++ zdrop (off + zlen d) a).
Proof.
  intros. unfold wr.
  by rewrite (proj2 (Z.leb_le 0 off)), (proj2 (Z.leb_le (off + zlen d) (zlen a))).
Qed.

Lemma wr_length {A} (a a' : list A) off d : wr a off d = Done a' -> zlen a' = zlen a.
Proof.
  unfold wr. pose proof (zlen_nonneg d).
  destruct ((0 <=? off) && (off + zlen d <=? zlen a)) eqn:E; [|done].
  apply andb_true_iff in E as [E1%Z.leb_le E2%Z.leb_le].
  intros [= <-]. rewrite !zlen_app, zlen_take, zlen_drop; lia.
Qed.

Lemma wr_bytes a a' off d : wr a off d = Done a' -> bytes a -> bytes d -> bytes a'.
Proof.
  unfold wr. destruct ((0 <=? off) && (off + zlen d <=? zlen a)); [|done].
  intros [= <-] ??. apply bytes_app. split; [by apply bytes_ztake|].
  apply bytes_app. split; [done|by apply bytes_zdrop].
Qed.

Lemma wr_app {A} (s r d : list A) n :
  n = zlen s -> zlen d <= zlen r -> wr (s ++ r) n d = Done (s ++ d ++ zdrop (zlen d) r).
Proof.
  intros -> Hd. pose proof (zlen_nonneg s). pose proof (zlen_nonneg d).
  rewrite wr_ok; [|lia|rewrite zlen_app; lia].
  rewrite ztake_app_exact by done. rewrite zdrop_app_ge by lia.
  do 4 f_equal. lia.
Qed.

Lemma wr_0 {A} (r d : list A) : zlen d <= zlen r -> wr r 0 d = Done (d ++ zdrop (zlen d) r).
Proof. intros. by apply (wr_app [] r d 0). Qed.

Lemma rd_total {A} (a : list A) i : 0 <= i < zlen a -> exists x, rd a i = Done x.
Proof. intros [x Hx]%znth_is_Some. exists x. by apply rd_Done. Qed.

(** a sequence of writes at [&a[base + offset]] *)
Fixpoint wrs (a : list Z) (base : Z) (l : list (Z * list Z)) : outcome (list Z) :=
  match l with
  | [] => Done a
  | (o, d) :: l => let* a := wr a (base + o) d in wrs a base l
  end.

(** consecutive writes *)
Fixpoint contig (k : Z) (l : list (Z * list Z)) : Prop :=
  match l with
  | [] => True
  | (o, d) :: l => o = k /\ contig (k + zlen d) l
  end.

Lemma wrs_contig l : forall s r base k,
  contig k l -> base + k = zlen s -> zlen (concat (snd <$> l)) <= zlen r ->
  wrs (s ++ r) base l = Done (s ++ concat (snd <$> l) ++ zdrop (zlen (concat (snd <$> l))) r).
Proof.
  induction l as [|[o d] l IH]; intros s r base k Hc Hk Hl; cbn [wrs fmap list_fmap concat snd].
  { cbn. by rewrite zdrop_0. }
  destruct Hc as [-> Hc]. cbn [fmap list_fmap concat snd] in Hl. rewrite zlen_app in Hl.
  pose proof (zlen_nonneg d). pose proof (zlen_nonneg (concat (snd <$> l))).
  rewrite wr_app by lia. cbn [obind]. rewrite app_assoc.
  rewrite (IH (s ++ d) _ base (k + zlen d)); [|done|rewrite zlen_app; lia|rewrite zlen_drop; lia].
  rewrite <- !app_assoc. do 3 f_equal. rewrite zdrop_drop by lia. by rewrite zlen_app.
Qed.

(** ** Automation *)

Create HintDb nbsp discriminated.
Create Rewrite HintDb zlen.
#[export] Hint Resolve zlen_nonneg bytes_ztake bytes_zdrop bytes_zsub : nbsp.
#[export] Hint Rewrite @zlen_app @zlen_cons @zlen_nil @zlen_replicate : zlen.

(** open a conjunction of integer comparisons that the code tests *)
Ltac zbool :=
  repeat match goal with
  | H : _ && _ = true |- _ => apply andb_true_iff in H as [??]
  | H : _ || _ = false |- _ => apply orb_false_iff in H as [??]
  | H : negb _ = true |- _ => apply negb_true_iff in H
  | H : negb _ = false |- _ => apply negb_false_iff in H
  | H : (_ <=? _) = true |- _ => apply Z.leb_le in H
  | H : (_ <=? _) = false |- _ => apply Z.leb_gt in H
  | H : (_ <? _) = true |- _ => apply Z.ltb_lt in H
  | H : (_ <? _) = false |- _ => apply Z.ltb_ge in H
  | H : (_ =? _) = true |- _ => apply Z.eqb_eq in H
  | H : (_ =? _) = false |- _ => apply Z.eqb_neq in H
  end.

(** case analysis on the integer tests of the code *)
Ltac ztest :=
  repeat match goal with
  | |- context [?a <=? ?b] => destruct (Z.leb_spec a b)
  | |- context [?a <? ?b] => destruct (Z.ltb_spec a b)
  | |- context [?a =? ?b] => destruct (Z.eqb_spec a b)
  end.

(** run an [obind] whose head has become [Done] *)
Ltac ostep :=
  repeat match goal with
  | H : obind _ _ = Done _ |- _ =>
      let a := fresh "a" in let H1 := fresh "H" in
      apply obind_Done in H as (a & H1 & H)
  | H : Done _ = Done _ |- _ => injection H as H
  | H : Abrt = Done _ |- _ => discriminate H
  | H : Undef = Done _ |- _ => discriminate H
  end.

(** [oinv H as p E]: the first step of the run [H] returned [p] *)
Tactic Notation "oinv" ident(H) "as" simple_intropattern(p) ident(E) :=
  apply obind_Done in H as (p & E & H); cbv beta iota in H.
