(* ===== verification/Util.v ===== *)
(** * Util: src/src/util.c

    Packing and unpacking of big-endian integers inside a byte buffer, the
    additive checksum of the NBS packets, and the string trimming helpers.
    A buffer is a list of bytes; an access outside it is [Undef]. *)

From S2P Require Import Prelude.

(** ** Operations *)

(** [uptr[0..3]] combined, most significant byte first, as a [uint32_t] *)
Definition be32 (b0 b1 b2 b3 : Z) : Z :=
  u32 (Z.shiftl b0 24 + Z.shiftl b1 16 + Z.shiftl b2 8 + b3).

Definition be16 (b0 b1 : Z) : Z := u16 (Z.shiftl b0 8 + b1).

Definition unpack_uint32 (p : list Z) (start : Z) : outcome Z :=
  let* b0 := rd p start in
  let* b1 := rd p (start + 1) in
  let* b2 := rd p (start + 2) in
  let* b3 := rd p (start + 3) in
  Done (be32 b0 b1 b2 b3).

Definition split32 (u : Z) : list Z :=
  [Z.land (Z.shiftr u 24) 255; Z.land (Z.shiftr u 16) 255;
   Z.land (Z.shiftr u 8) 255; Z.land u 255].

Definition pack_uint32 (p : list Z) (u start : Z) : outcome (list Z) :=
  wr p start (split32 (u32 u)).

Definition unpack_uint16 (p : list Z) (start : Z) : outcome Z :=
  let* b0 := rd p start in
  let* b1 := rd p (start + 1) in
  Done (be16 b0 b1).

Definition split16 (u : Z) : list Z :=
  [Z.land (Z.shiftr u 8) 255; Z.land u 255].

Definition pack_uint16 (p : list Z) (u start : Z) : outcome (list Z) :=
  wr p start (split16 (u16 u)).

(** the loop [for(i = 0; i < size; ++i) cs += p[i]] on a [uint32_t] *)
Definition checksum_loop (cs : Z) (l : list Z) : Z :=
  fold_left (fun cs b => u32 (cs + b)) l cs.

Definition calc_checksum (data : list Z) (size : Z) : outcome Z :=
  let* l := rdn data 0 size in
  Done (checksum_loop 0 l).

(** [valid_str(s)]: [s] is a possibly NULL pointer to a C string *)
Definition valid_str (s : option (list Z)) : Z :=
  match s with
  | Some (c :: _) => if c =? 0 then 0 else 1
  | _ => 0
  end.

Definition isspace (c : Z) : bool :=
  (c =? 32) || ((9 <=? c) && (c <=? 13)).

(** the characters the loops of [trimleft]/[trimright] skip: white space when
    [t] is NULL, otherwise the characters of [t] *)
Definition trim_char (t : option (list Z)) (c : Z) : bool :=
  match t with
  | None => isspace c
  | Some s => bool_decide (c ∈ s)
  end.

Fixpoint trimleft_loop (t : option (list Z)) (p : list Z) : list Z :=
  match p with
  | [] => []
  | c :: p' => if trim_char t c then trimleft_loop t p' else p
  end.

(** [s] is the string without its terminator; a string of skippable
    characters only is returned whole *)
Definition trimleft (s : list Z) (t : option (list Z)) : list Z :=
  match trimleft_loop t s with
  | [] => s
  | p => p
  end.

(** the loop of [trimright] from the last character down; [q != s] keeps the
    first character whatever it is *)
Fixpoint trimright_loop (t : option (list Z)) (r : list Z) : list Z :=
  match r with
  | [] => []
  | c :: r' =>
      match r' with
      | [] => r
      | _ => if trim_char t c then trimright_loop t r' else r
      end
  end.

Definition trimright (s : list Z) (t : option (list Z)) : list Z :=
  rev (trimright_loop t (rev s)).

(** ** Lemmas *)

Lemma land_255 z : Z.land z 255 = z mod 256.
Proof. change 255 with (Z.ones 8). by rewrite Z.land_ones. Qed.

Lemma be32_range b0 b1 b2 b3 : 0 <= be32 b0 b1 b2 b3 < 4294967296.
Proof. apply u32_range. Qed.

Lemma be32_split u :
  0 <= u < 4294967296 ->
  be32 (Z.land (Z.shiftr u 24) 255) (Z.land (Z.shiftr u 16) 255)
    (Z.land (Z.shiftr u 8) 255) (Z.land u 255) = u.
Proof.
  intros Hu. unfold be32. rewrite !land_255, !Z.shiftl_mul_pow2 by lia.
  rewrite !Z.shiftr_div_pow2 by lia.
  change (2 ^ 24) with 16777216. change (2 ^ 16) with 65536.
  change (2 ^ 8) with 256.
  rewrite u32_small; Z.to_euclidean_division_equations; lia.
Qed.

Lemma be16_split u :
  0 <= u < 65536 ->
  be16 (Z.land (Z.shiftr u 8) 255) (Z.land u 255) = u.
Proof.
  intros Hu. unfold be16. rewrite !land_255, Z.shiftl_mul_pow2 by lia.
  rewrite Z.shiftr_div_pow2 by lia. change (2 ^ 8) with 256.
  rewrite u16_small; Z.to_euclidean_division_equations; lia.
Qed.

Lemma be16_value b0 b1 : is_byte b0 -> is_byte b1 -> be16 b0 b1 = 256 * b0 + b1.
Proof.
  unfold is_byte, be16. intros. rewrite Z.shiftl_mul_pow2 by lia.
  change (2 ^ 8) with 256. rewrite u16_small; lia.
Qed.

Lemma split32_bytes u : bytes (split32 u).
Proof.
  unfold split32, bytes, is_byte. rewrite !land_255.
  repeat constructor; try (apply Z.mod_pos_bound; lia).
Qed.

Lemma split16_bytes u : bytes (split16 u).
Proof.
  unfold split16, bytes, is_byte. rewrite !land_255.
  repeat constructor; try (apply Z.mod_pos_bound; lia).
Qed.

(** an access inside a block written at [off] reads the block *)
Lemma znth_written {A} (a d : list A) off i :
  0 <= off <= zlen a -> 0 <= i < zlen d ->
  znth (ztake off a ++ d ++ zdrop (off + zlen d) a) (off + i) = znth d i.
Proof.
  intros. rewrite znth_app_r by (rewrite zlen_take; lia).
  rewrite zlen_take by lia. rewrite znth_app_l by lia. f_equal. lia.
Qed.

Lemma rd_written {A} (a a' d : list A) off i x :
  wr a off d = Done a' -> znth d i = Some x -> rd a' (off + i) = Done x.
Proof.
  unfold wr.
  destruct ((0 <=? off) && (off + zlen d <=? zlen a)) eqn:E; [|done].
  zbool. intros [= <-] Hx. pose proof (znth_Some_lt _ _ _ Hx).
  apply rd_Done. by rewrite znth_written by lia.
Qed.

(** an access outside the written block is unchanged *)
Lemma rd_unwritten {A} (a a' d : list A) off i :
  wr a off d = Done a' -> i < off \/ off + zlen d <= i -> rd a' i = rd a i.
Proof.
  unfold wr. pose proof (zlen_nonneg d).
  destruct ((0 <=? off) && (off + zlen d <=? zlen a)) eqn:E; [|done].
  zbool. intros [= <-] Hi. unfold rd. f_equal.
  destruct (decide (i < 0)) as [Hn|Hn].
  { unfold znth. by destruct (Z.ltb_spec i 0); [|lia]. }
  assert (a = ztake off a ++ zsub off (zlen d) a ++ zdrop (off + zlen d) a) as Ha.
  { unfold zsub. rewrite <-(zdrop_drop (zlen d) off) by lia.
    by rewrite (ztake_zdrop (zlen d)), ztake_zdrop. }
  assert (zlen (zsub off (zlen d) a) = zlen d) as Hs by (apply zlen_sub; lia).
  assert (zlen (ztake off a) = off) as Ht by (apply zlen_take; lia).
  apply (f_equal (fun l => znth l i)) in Ha. simpl in Ha. rewrite Ha.
  destruct Hi as [Hi|Hi].
  - by rewrite !znth_app_l by lia.
  - rewrite !(znth_app_r (ztake off a)) by lia.
    rewrite !znth_app_r by lia. by rewrite Hs.
Qed.

Lemma pack_unpack32 p p' u start :
  pack_uint32 p u start = Done p' -> unpack_uint32 p' start = Done (u32 u).
Proof.
  unfold pack_uint32, unpack_uint32. intros Hw.
  replace (rd p' start) with (rd p' (start + 0)) by (f_equal; lia).
  rewrite (rd_written _ _ _ _ 0 _ Hw eq_refl), (rd_written _ _ _ _ 1 _ Hw eq_refl),
    (rd_written _ _ _ _ 2 _ Hw eq_refl), (rd_written _ _ _ _ 3 _ Hw eq_refl).
  simpl. f_equal. apply be32_split, u32_range.
Qed.

Lemma pack_unpack16 p p' u start :
  pack_uint16 p u start = Done p' -> unpack_uint16 p' start = Done (u16 u).
Proof.
  unfold pack_uint16, unpack_uint16. intros Hw.
  replace (rd p' start) with (rd p' (start + 0)) by (f_equal; lia).
  rewrite (rd_written _ _ _ _ 0 _ Hw eq_refl), (rd_written _ _ _ _ 1 _ Hw eq_refl).
  simpl. f_equal. apply be16_split, u16_range.
Qed.

Definition zsum (l : list Z) : Z := foldr Z.add 0 l.

Lemma zsum_app l k : zsum (l ++ k) = zsum l + zsum k.
Proof. induction l; simpl; [done|]. rewrite IHl. lia. Qed.

Lemma checksum_loop_sum cs b l : checksum_loop cs (b :: l) = u32 (cs + zsum (b :: l)).
Proof.
  unfold checksum_loop. simpl.
  revert cs b. induction l as [|c l IH]; intros cs b; simpl.
  { f_equal. lia. }
  rewrite IH. unfold u32. rewrite Zplus_mod_idemp_l. f_equal. lia.
Qed.

Lemma calc_checksum_sum l : calc_checksum l (zlen l) = Done (u32 (zsum l)).
Proof.
  unfold calc_checksum. rewrite rdn_ok; [|pose proof (zlen_nonneg l); lia..].
  unfold zsub. rewrite zdrop_0, ztake_ge by lia. simpl.
  destruct l; [done|]. by rewrite checksum_loop_sum.
Qed.

(** ** Properties *)

(** [pack_uint32] followed by [unpack_uint32] at the same place gives back
    the 32-bit value, and packing changes no other byte of the buffer. *)
Theorem pack_uint32_roundtrip (p p' : list Z) (u start : Z) :
  0 <= u < 2 ^ 32 ->
  pack_uint32 p u start = Done p' ->
  unpack_uint32 p' start = Done u /\ zlen p' = zlen p /\
  (forall i, i < start \/ start + 4 <= i -> rd p' i = rd p i).
Proof.
  intros Hu Hp. split_and!.
  - rewrite (pack_unpack32 _ _ _ _ Hp). by rewrite u32_small.
  - by eapply wr_length.
  - intros i Hi. eapply rd_unwritten; [exact Hp|]. done.
Qed.

Lemma pack_uint32_roundtrip_witness :
  unpack_uint32 [7; 18; 52; 86; 120; 9] 1 = Done 305419896.
Proof.
  apply (pack_uint32_roundtrip [7; 0; 0; 0; 0; 9] [7; 18; 52; 86; 120; 9] 305419896 1).
  - lia.
  - reflexivity.
Defined.

Lemma checksum_byte_change l k b c : is_byte b -> is_byte c -> b <> c ->
  u32 (zsum (l ++ [b] ++ k)) <> u32 (zsum (l ++ [c] ++ k)).
Proof.
  unfold is_byte, u32. rewrite !zsum_app. simpl. intros Hb Hc Hne E.
  assert ((b - c) mod 2 ^ 32 = 0) as E'.
  { replace (b - c) with ((zsum l + (b + zsum k)) - (zsum l + (c + zsum k))) by lia.
    rewrite Zminus_mod, !Z.add_0_r in *. by rewrite E, Z.sub_diag. }
  apply Z.mod_divide in E' as [q Hq]; [|lia]. lia.
Qed.

(** the packet checksum detects every single-byte corruption: changing one
    byte of the data always changes [calc_checksum]. *)
Theorem checksum_detects_one_byte (l k : list Z) (b c cs cs' : Z) :
  is_byte b -> is_byte c -> b <> c ->
  calc_checksum (l ++ [b] ++ k) (zlen (l ++ [b] ++ k)) = Done cs ->
  calc_checksum (l ++ [c] ++ k) (zlen (l ++ [c] ++ k)) = Done cs' ->
  cs <> cs'.
Proof.
  intros ??? E1 E2. rewrite !calc_checksum_sum in *. injection E1 as <-. injection E2 as <-.
  by apply checksum_byte_change.
Qed.

Lemma checksum_detects_one_byte_witness :
  exists cs cs', calc_checksum [100; 3; 1] 3 = Done cs /\
    calc_checksum [100; 4; 1] 3 = Done cs' /\ cs <> cs'.
Proof.
  exists 104, 105. split; [reflexivity|]. split; [reflexivity|].
  apply (checksum_detects_one_byte [100] [1] 3 4).
  - unfold is_byte; lia.
  - unfold is_byte; lia.
  - lia.
  - reflexivity.
  - reflexivity.
Defined.
