(* ===== verification/CLib.v ===== *)
(** * CLib: the parts of the C library the modelled code calls

    Character classes of the C locale, NUL-terminated strings inside byte
    arrays, [strncpy]/[strncat], the ["%<w>s"] conversions of [sscanf] and the
    conversions of [snprintf] that the sources use. A C string is the list of
    its bytes without the terminator; a character array is a list of bytes in
    which the string ends at the first 0. Reading past the end of the array is
    [Undef]. *)

From S2P Require Import Prelude Util.

(** ** Character classes *)

Definition isupper (c : Z) : bool := (65 <=? c) && (c <=? 90).
Definition islower (c : Z) : bool := (97 <=? c) && (c <=? 122).
Definition isalpha (c : Z) : bool := isupper c || islower c.
Definition isdigit (c : Z) : bool := (48 <=? c) && (c <=? 57).
Definition isalnum (c : Z) : bool := isalpha c || isdigit c.
Definition tolower (c : Z) : Z := if isupper c then c + 32 else c.
Definition toupper (c : Z) : Z := if islower c then c - 32 else c.

(** ** Strings in arrays *)

(** the string held by an array; [Undef] when no terminator is found *)
Fixpoint cstr (a : list Z) : outcome (list Z) :=
  match a with
  | [] => Undef
  | c :: a' => if c =? 0 then Done [] else let* s := cstr a' in Done (c :: s)
  end.

(** [strncpy(&a[off], src, n)]: at most [n] bytes of [src], padded with zeros *)
Definition strncpy_bytes (src : list Z) (n : Z) : list Z :=
  ztake n src ++ replicate (Z.to_nat (n - zlen src)) 0.
Definition strncpy (a : list Z) (off : Z) (src : list Z) (n : Z) : outcome (list Z) :=
  wr a off (strncpy_bytes src n).

(** [strncat(a, src, n)] *)
Definition strncat (a src : list Z) (n : Z) : outcome (list Z) :=
  let* s := cstr a in
  wr a (zlen s) (ztake n src ++ [0]).

(** [strchr(s, c)], as the text before the first [c] and the text after it *)
Fixpoint strchr_split (c : Z) (s : list Z) : option (list Z * list Z) :=
  match s with
  | [] => None
  | x :: s' =>
      if x =? c then Some ([], s')
      else match strchr_split c s' with
           | Some (l, r) => Some (x :: l, r)
           | None => None
           end
  end.

(** [strrchr(s, c)], as the text after the last [c] *)
Fixpoint strrchr_after (c : Z) (s : list Z) : option (list Z) :=
  match s with
  | [] => None
  | x :: s' =>
      match strrchr_after c s' with
      | Some r => Some r
      | None => if x =? c then Some s' else None
      end
  end.

(** ** [sscanf] with ["%<w>s"] conversions *)

Fixpoint skip_ws (inp : list Z) : outcome (list Z) :=
  match inp with
  | [] => Undef
  | c :: inp' => if isspace c then skip_ws inp' else Done inp
  end.

(** up to [w] characters that are neither white space nor the terminator *)
Fixpoint scan_chars (w : nat) (inp : list Z) : outcome (list Z * list Z) :=
  match w with
  | O => Done ([], inp)
  | S w' =>
      match inp with
      | [] => Undef
      | c :: inp' =>
          if isspace c || (c =? 0) then Done ([], inp)
          else let* (s, rest) := scan_chars w' inp' in Done (c :: s, rest)
      end
  end.

(** one ["%<w>s"]; an empty word is an input failure (the string ended) *)
Definition scan_word (w : nat) (inp : list Z) : outcome (list Z * list Z) :=
  let* inp1 := skip_ws inp in
  scan_chars w inp1.

(** the words converted by ["%<w1>s %<w2>s ..."]; their number is the value
    that [sscanf] returns (0 here when it returns EOF) *)
Fixpoint sscanf (ws : list nat) (inp : list Z) : outcome (list (list Z)) :=
  match ws with
  | [] => Done []
  | w :: ws' =>
      let* (s, rest) := scan_word w inp in
      match s with
      | [] => Done []
      | _ => let* l := sscanf ws' rest in Done (s :: l)
      end
  end.

(** ** Decimal conversions *)

Fixpoint dec_loop (fuel : nat) (n : Z) : list Z :=
  match fuel with
  | O => [48 + n mod 10]
  | S f => if n <? 10 then [48 + n] else dec_loop f (n / 10) ++ [48 + n mod 10]
  end.

(** ["%u"]; a [uint32_t] has at most ten digits *)
Definition dec (n : Z) : list Z := dec_loop 20 n.
(** ["%d"] *)
Definition sdec (n : Z) : list Z := if n <? 0 then 45 :: dec (- n) else dec n.

(** [snprintf(a, size, ...)] of the text [full]: the returned length and the
    string left in [a] *)
Definition snprintf (size : Z) (full : list Z) : Z * list Z :=
  (zlen full, ztake (size - 1) full).

(** ** Error numbers *)

Definition ENOMEM : Z := 12.
Definition EINVAL : Z := 22.
Definition ETIMEDOUT : Z := 110.

(** ** Lemmas *)

Definition nonul (s : list Z) : Prop := Forall (fun c => c <> 0) s.

Lemma cstr_app s a : nonul s -> cstr (s ++ 0 :: a) = Done s.
Proof.
  induction 1 as [|c s Hc _ IH]; [done|]. simpl.
  destruct (Z.eqb_spec c 0); [done|]. by rewrite IH.
Qed.

Lemma cstr_nonul a s : cstr a = Done s -> nonul s.
Proof.
  revert s. induction a as [|c a IH]; intros s; simpl; [done|].
  destruct (Z.eqb_spec c 0) as [|Hc]; [intros [= <-]; constructor|].
  intros H. ostep. subst s. constructor; [done|]. by apply IH.
Qed.

Lemma scan_chars_spec w inp s rest :
  scan_chars w inp = Done (s, rest) ->
  inp = s ++ rest /\ (length s <= w)%nat /\ nonul s /\
  Forall (fun c => isspace c = false) s.
Proof.
  revert inp s rest. induction w as [|w IH]; intros inp s rest; simpl.
  { intros [= <- <-]. split_and!; done || constructor. }
  destruct inp as [|c inp]; [done|].
  destruct (isspace c || (c =? 0)) eqn:E.
  { intros [= <- <-]. split_and!; try done; try constructor. simpl; lia. }
  zbool. intros H'. oinv H' as [s1 r1] Hc. injection H' as <- <-.
  apply IH in Hc as (-> & ? & ? & ?).
  split_and!; [done|simpl; lia|by constructor|by constructor].
Qed.

Lemma sscanf_words ws inp l :
  sscanf ws inp = Done l ->
  (length l <= length ws)%nat /\
  Forall2 (fun w s => s <> [] /\ (length s <= w)%nat /\ nonul s /\
                      Forall (fun c => isspace c = false) s)
    (take (length l) ws) l.
Proof.
  revert inp l. induction ws as [|w ws IH]; intros inp l; simpl.
  { intros [= <-]. split; [done|constructor]. }
  intros H. oinv H as [s rest] Hw.
  unfold scan_word in Hw. oinv Hw as inp1 Hs.
  destruct s as [|c s].
  { injection H as <-. split; [simpl; lia|constructor]. }
  oinv H as l' Hl. injection H as <-.
  apply scan_chars_spec in Hw as (-> & ? & ? & ?).
  apply IH in Hl as [? ?]. simpl. split; [lia|].
  constructor; [|done]. done.
Qed.

Lemma tolower_nonzero c : c <> 0 -> tolower c <> 0.
Proof. unfold tolower, isupper. ztest; simpl; lia. Qed.
Lemma toupper_nonzero c : c <> 0 -> toupper c <> 0.
Proof. unfold toupper, islower. ztest; simpl; lia. Qed.

Lemma isalnum_nonzero c : isalnum c = true -> c <> 0.
Proof. by intros H ->. Qed.

Lemma dec_loop_length f n k :
  0 <= n < 10 ^ Z.of_nat (S k) -> (k <= f)%nat -> (length (dec_loop f n) <= S k)%nat.
Proof.
  revert n k. induction f as [|f IH]; intros n k Hn Hk; simpl.
  { lia. }
  destruct (Z.ltb_spec n 10); [simpl; lia|].
  destruct k as [|k]; [simpl in Hn; lia|].
  rewrite length_app. simpl.
  assert (length (dec_loop f (n / 10)) <= S k)%nat; [|lia].
  apply IH; [|lia]. split; [apply Z.div_pos; lia|].
  apply Z.div_lt_upper_bound; [lia|].
  replace (10 * 10 ^ Z.of_nat (S k)) with (10 ^ Z.of_nat (S (S k))); [lia|].
  rewrite (Nat2Z.inj_succ (S k)), Z.pow_succ_r by lia. done.
Qed.

Lemma dec_length_u32 n : 0 <= n < 4294967296 -> zlen (dec n) <= 10.
Proof.
  intros. unfold zlen, dec. change 10 with (Z.of_nat 10). apply inj_le.
  apply (dec_loop_length 20 n 9); [|lia]. change (Z.of_nat 10) with 10. lia.
Qed.

Lemma dec_loop_digits f n : 0 <= n -> Forall (fun c => isdigit c = true) (dec_loop f n).
Proof.
  assert (forall m, 0 <= m < 10 -> isdigit (48 + m) = true) as Hd.
  { intros. unfold isdigit. ztest; simpl; lia. }
  revert n. induction f as [|f IH]; intros n Hn; simpl.
  { constructor; [|done]. apply Hd, Z.mod_pos_bound. lia. }
  destruct (Z.ltb_spec n 10).
  { constructor; [|done]. apply Hd. lia. }
  apply Forall_app. split; [apply IH, Z.div_pos; lia|].
  constructor; [|done]. apply Hd, Z.mod_pos_bound. lia.
Qed.

Lemma dec_digits n : 0 <= n -> Forall (fun c => isdigit c = true) (dec n).
Proof. apply dec_loop_digits. Qed.

Lemma strchr_split_app c l r :
  Forall (fun x => x <> c) l -> strchr_split c (l ++ c :: r) = Some (l, r).
Proof.
  induction 1 as [|x l Hx _ IH]; simpl.
  - by rewrite Z.eqb_refl.
  - destruct (Z.eqb_spec x c); [done|]. by rewrite IH.
Qed.

Lemma strchr_split_None c s :
  Forall (fun x => x <> c) s -> strchr_split c s = None.
Proof.
  induction 1 as [|x l Hx _ IH]; simpl; [done|].
  destruct (Z.eqb_spec x c); [done|]. by rewrite IH.
Qed.
