(* ===== verification/Mfile.v ===== *)
(** * Mfile: src/src/mfile.c, the memory files

    A memory file is a growing block of bytes with a write position ([size])
    and a read position ([nread]). The products are assembled in memory files:
    either as plain bytes ([write_memfile]) or as a sequence of frames, each
    preceded by its [struct memframe_info_st] ([write_memframe]).

    [mf_p] holds the first [mf_size] bytes of the block; what the block holds
    beyond them is indeterminate and no operation reads it. [size_t] is 64 bits
    wide and [int] 32 (LP64, little endian, as the layout of
    [struct memframe_info_st] is kept). *)

From S2P Require Import Prelude Util.

(** ** The allocator

    [malloc_ok n]: a request of [n] bytes succeeds. [pad7]: the indeterminate
    padding bytes of [struct memframe_info_st]. *)
Class Heap := {
  malloc_ok : Z -> bool;
  pad7 : list Z
}.

(** What the code relies on: no object is as large as half of the address
    space, and the structure has seven padding bytes. *)
Class HeapSpec (H : Heap) : Prop := {
  malloc_bound : forall n, 2 ^ 63 <= n -> malloc_ok n = false;
  pad7_length : length pad7 = 7%nat;
  pad7_bytes : bytes pad7
}.

(** ** State *)

Record memfile := Memfile {
  mf_allocsize : Z;
  mf_maxallocsize : Z;
  mf_size : Z;
  mf_nread : Z;
  mf_p : list Z
}.

Definition MF_STATIC_POOL_SIZE_MIN : Z := 8192.
Definition GROW_FACTOR : Z := 2.

(** ** Little-endian image of a [size_t] *)

Fixpoint le_split (n : nat) (z : Z) : list Z :=
  match n with
  | O => []
  | S n' => z mod 256 :: le_split n' (z / 256)
  end.

Definition le_join (l : list Z) : Z := foldr (fun b acc => b + 256 * acc) 0 l.

(** ** Operations *)

Section mfile.
Context `{Heap}.

Definition create_memfile (mpoolsize : Z) : option memfile :=
  let allocsize :=
    if MF_STATIC_POOL_SIZE_MIN <? mpoolsize then mpoolsize
    else MF_STATIC_POOL_SIZE_MIN in
  if malloc_ok 40 then            (* sizeof(struct memfile_st) *)
    if malloc_ok allocsize then Some (Memfile allocsize allocsize 0 0 [])
    else None
  else None.

Definition open_memfile (mf : memfile) : Z :=
  if negb (mf_size mf =? 0) || negb (mf_nread mf =? 0) then 1 else 0.

Definition close_memfile (mf : memfile) : memfile :=
  Memfile (mf_allocsize mf) (mf_maxallocsize mf) 0 0 [].

Definition realloc_memfile (mf : memfile) (newsize : Z) : Z * memfile :=
  if malloc_ok newsize then
    let maxalloc :=
      if mf_maxallocsize mf <? newsize then newsize else mf_maxallocsize mf in
    let size :=
      if newsize <=? mf_size mf then u64 (newsize - 1) else mf_size mf in
    let nread :=
      if newsize <=? mf_nread mf then u64 (newsize - 1) else mf_nread mf in
    (0, Memfile newsize maxalloc size nread (ztake size (mf_p mf)))
  else (-1, mf).

Definition grow_memfile (mf : memfile) : Z * memfile :=
  realloc_memfile mf (u64 (GROW_FACTOR * mf_allocsize mf)).

Definition get_memfile_allocated_size (mf : memfile) : Z := mf_allocsize mf.
Definition get_memfile_data_size (mf : memfile) : Z := mf_size mf.

(** [while((mf->size + data_size > mf->allocsize) && (status == 0))
       status = grow_memfile(mf);]
    [data_size] is an [int] converted to [size_t]. Each turn doubles the
    block, so 64 turns are enough ([write_loop_total]). *)
Fixpoint write_loop (fuel : nat) (mf : memfile) (data_size : Z) : outcome (Z * memfile) :=
  if mf_allocsize mf <? u64 (mf_size mf + data_size) then
    match fuel with
    | O => Undef
    | S f =>
        let (status, mf1) := grow_memfile mf in
        if status =? 0 then write_loop f mf1 data_size else Done (status, mf1)
    end
  else Done (0, mf).

(** [data]: the bytes readable from the source pointer on *)
Definition write_memfile (mf : memfile) (data : list Z) (data_size : Z)
  : outcome (Z * memfile) :=
  let* (status, mf1) := write_loop 64 mf data_size in
  if negb (status =? 0) then Done (status, mf1) else
  let* d := rdn data 0 (u64 data_size) in
  Done (status,
        Memfile (mf_allocsize mf1) (mf_maxallocsize mf1)
          (u64 (mf_size mf1 + data_size)) (mf_nread mf1) (mf_p mf1 ++ d)).

Definition write_memfile_fixed (mf : memfile) (data : list Z) (data_size : Z)
  : outcome (Z * memfile) :=
  if mf_allocsize mf <? u64 (mf_size mf + data_size) then Done (1, mf)
  else write_memfile mf data data_size.

(** [sys_write n]: what [write(fd, p, n)] returns. The results are the status
    and the bytes that reached the file. *)
Definition save_memfile (sys_write : Z -> Z) (mf : memfile) : Z * list Z :=
  let n := sys_write (mf_size mf) in
  let status := if (n <? 0) || negb (n =? mf_size mf) then -1 else 0 in
  (status, ztake n (mf_p mf)).

Definition save_memfile_skip (sys_write : Z -> Z) (mf : memfile) (skip : Z)
  : Z * list Z :=
  if mf_size mf <=? skip then (1, [])
  else
    let size := mf_size mf - skip in
    let n := sys_write size in
    let status := if (n <? 0) || negb (n =? size) then -1 else 0 in
    (status, ztake n (zdrop skip (mf_p mf))).

(** the returned size, the bytes at [*pdata] ([None]: not set), the file *)
Definition read_memfile (mf : memfile) (data_size : Z)
  : Z * option (list Z) * memfile :=
  let rsize :=
    if mf_size mf <? u64 (mf_nread mf + data_size)
    then s32 (mf_size mf - mf_nread mf) else data_size in
  let rp := zdrop (mf_nread mf) (mf_p mf) in
  (rsize,
   if 0 <? rsize then Some rp else None,
   Memfile (mf_allocsize mf) (mf_maxallocsize mf) (mf_size mf)
     (u64 (mf_nread mf + rsize)) (mf_p mf)).

(** the bytes of [struct memframe_info_st] *)
Definition memframe_info (f_compressed size : Z) : list Z :=
  u8 f_compressed :: pad7 ++ le_split 8 (u64 size).

Definition MEMFRAME_INFO_SIZE : Z := 16.

Definition write_memframe_info (mf : memfile) (total_size f_compressed : Z)
  : outcome (Z * memfile) :=
  write_memfile mf (memframe_info f_compressed total_size) MEMFRAME_INFO_SIZE.

Definition write_memframe_data (mf : memfile) (data : list Z) (data_size : Z)
  : outcome (Z * memfile) :=
  write_memfile mf data data_size.

Definition write_memframe (mf : memfile) (frdata : list Z)
    (frdata_size f_compressed : Z) : outcome (Z * memfile) :=
  let* (n, mf1) := write_memframe_info mf frdata_size f_compressed in
  if negb (n =? -1) then write_memframe_data mf1 frdata frdata_size
  else Done (n, mf1).

Record memframe := Memframe {
  fr_n : Z;                  (* returned value *)
  fr_compressed : Z;
  fr_data : list Z;          (* bytes readable from *frdata on *)
}.

(** [*frdata] and [*f_compressed] are set only when a frame is found *)
Definition get_memframe (mf : memfile) : outcome (Z * option memframe * memfile) :=
  let '(n, p, mf1) := read_memfile mf MEMFRAME_INFO_SIZE in
  if n =? 0 then Done (0, None, mf1) else
  match p with
  | None => Undef
  | Some info =>
      let* c := rd info 0 in
      let* szb := rdn info 8 8 in
      let n := s32 (le_join szb) in
      let '(frdata_size, p2, mf2) := read_memfile mf1 n in
      if frdata_size =? n then
        Done (n, Some (Memframe n c (default info p2)), mf2)
      else Done (-1, None, mf2)
  end.

Definition adjust_memfile_size (mf : memfile) (estimated_size : Z) : Z * memfile :=
  let oldsize := mf_allocsize mf in
  let newsize :=
    if oldsize <? estimated_size then estimated_size
    else if (u64 (estimated_size * GROW_FACTOR) <? oldsize)
            && (oldsize =? mf_maxallocsize mf)
    then oldsize / GROW_FACTOR else 0 in
  if negb (newsize =? 0) then realloc_memfile mf newsize else (0, mf).

End mfile.

#[global] Arguments memframe_info : simpl never.
#[global] Arguments read_memfile : simpl never.
#[global] Arguments write_memfile : simpl never.

(** ** Well-formed memory files *)

Record memfile_wf (mf : memfile) : Prop := MemfileWf {
  wf_alloc : 4096 <= mf_allocsize mf <= mf_maxallocsize mf;
  wf_max : 8192 <= mf_maxallocsize mf < 2 ^ 63;
  wf_ratio : mf_maxallocsize mf <= 2 * mf_allocsize mf + 1;
  wf_size : 0 <= mf_size mf <= mf_allocsize mf;
  wf_nread : 0 <= mf_nread mf <= mf_size mf;
  wf_p : zlen (mf_p mf) = mf_size mf;
  wf_bytes : bytes (mf_p mf)
}.

(** [mf2] is [mf1] with another allocation *)
Definition same_content (mf1 mf2 : memfile) : Prop :=
  mf_p mf2 = mf_p mf1 /\ mf_size mf2 = mf_size mf1 /\ mf_nread mf2 = mf_nread mf1.

Lemma le_join_split n z : 0 <= z < 256 ^ Z.of_nat n -> le_join (le_split n z) = z.
Proof.
  revert z. induction n as [|n IH]; intros z Hz; simpl.
  { simpl in Hz. lia. }
  fold (le_join (le_split n (z / 256))). rewrite IH.
  - pose proof (Z.div_mod z 256). lia.
  - rewrite Nat2Z.inj_succ, Z.pow_succ_r in Hz by lia.
    split; [apply Z.div_pos; lia|]. apply Z.div_lt_upper_bound; lia.
Qed.

Lemma le_split_length n z : length (le_split n z) = n.
Proof. revert z. induction n as [|n IH]; intros z; simpl; [done|]. by rewrite IH. Qed.

Lemma le_split_bytes n z : bytes (le_split n z).
Proof.
  revert z. induction n as [|n IH]; intros z; simpl; [constructor|].
  constructor; [|apply IH]. apply (Z.mod_pos_bound z 256). lia.
Qed.

#[global] Arguments le_split : simpl never.

Ltac mfsimpl := cbn [mf_allocsize mf_maxallocsize mf_size mf_nread mf_p] in *.

Section theory.
Context `{HS : HeapSpec}.

Lemma memframe_info_length f sz : zlen (memframe_info f sz) = 16.
Proof.
  unfold memframe_info. rewrite zlen_cons, zlen_app. unfold zlen.
  rewrite pad7_length, le_split_length. lia.
Qed.

Lemma memframe_info_bytes f sz : bytes (memframe_info f sz).
Proof.
  constructor; [apply u8_range|]. apply Forall_app.
  split; [apply pad7_bytes|apply le_split_bytes].
Qed.

Lemma create_wf n mf : create_memfile n = Some mf -> n < 2 ^ 63 -> memfile_wf mf.
Proof.
  unfold create_memfile, MF_STATIC_POOL_SIZE_MIN.
  destruct (malloc_ok 40); [|done].
  destruct (malloc_ok _); [|done]. intros [= <-] ?.
  destruct (Z.ltb_spec 8192 n); split; simpl; rewrite ?zlen_nil; try lia; constructor.
Qed.

Lemma close_wf mf : memfile_wf mf -> memfile_wf (close_memfile mf).
Proof. intros []. split; simpl; rewrite ?zlen_nil; try lia. constructor. Qed.

(** growing a file to a larger block keeps its content *)
Lemma realloc_larger mf newsize st mf' :
  memfile_wf mf -> mf_allocsize mf < newsize ->
  realloc_memfile mf newsize = (st, mf') ->
  memfile_wf mf' /\ same_content mf mf' /\
  ((st = 0 /\ mf_allocsize mf' = newsize) \/ (st = -1 /\ mf' = mf)).
Proof.
  intros [] ? Hr. unfold realloc_memfile in Hr.
  destruct (malloc_ok newsize) eqn:Hok.
  2: { injection Hr as <- <-. split_and!; [by split|done|by right]. }
  assert (newsize < 2 ^ 63).
  { destruct (Z.lt_ge_cases newsize (2 ^ 63)); [done|]. by rewrite malloc_bound in Hok. }
  destruct (Z.leb_spec newsize (mf_size mf)); [lia|].
  destruct (Z.leb_spec newsize (mf_nread mf)); [lia|].
  rewrite ztake_ge in Hr by lia.
  destruct (Z.ltb_spec (mf_maxallocsize mf) newsize); injection Hr as <- <-;
    (split_and!; [split; simpl; done || lia|done|by left]).
Qed.

Lemma write_loop_total fuel mf ds :
  memfile_wf mf -> 0 <= ds < 2 ^ 31 -> 2 ^ 63 <= mf_allocsize mf * 2 ^ Z.of_nat fuel ->
  exists st mf', write_loop fuel mf ds = Done (st, mf') /\ memfile_wf mf' /\
    same_content mf mf' /\
    ((st = 0 /\ mf_size mf + ds <= mf_allocsize mf') \/ st = -1).
Proof.
  revert mf. induction fuel as [|fuel IH]; intros mf Hwf Hds Hf;
    pose proof Hwf as [[??] [??] ? [??] ? ? ?]; simpl.
  { simpl in Hf. lia. }
  rewrite u64_small by lia.
  destruct (Z.ltb_spec (mf_allocsize mf) (mf_size mf + ds)) as [Hlt|Hge].
  2: { exists 0, mf. split_and!; done || by left. }
  unfold grow_memfile, GROW_FACTOR. rewrite u64_small by lia.
  destruct (realloc_memfile mf (2 * mf_allocsize mf)) as [st mf1] eqn:Hr.
  apply realloc_larger in Hr as (Hwf1 & (Hp & Hsz & Hn) & Hst); [|done|lia].
  destruct Hst as [[-> Ha]|[-> ->]]; simpl.
  - destruct (IH mf1) as (st & mf' & -> & ? & (?&?&?) & ?); [done|lia| |].
    { rewrite Ha. rewrite Nat2Z.inj_succ, Z.pow_succ_r in Hf by lia. lia. }
    exists st, mf'. rewrite Hsz in *. split_and!; try done; try congruence.
    split_and!; congruence.
  - exists (-1), mf. split_and!; done || by right.
Qed.

(** [write_memfile] returns, and either appends the bytes or fails with -1
    and leaves the content alone *)
Lemma write_memfile_spec mf data ds :
  memfile_wf mf -> bytes data -> 0 <= ds < 2 ^ 31 -> ds <= zlen data ->
  exists st mf', write_memfile mf data ds = Done (st, mf') /\ memfile_wf mf' /\
    mf_nread mf' = mf_nread mf /\
    ((st = 0 /\ mf_p mf' = mf_p mf ++ ztake ds data) \/
     (st = -1 /\ mf_p mf' = mf_p mf)).
Proof.
  intros Hwf Hb Hds Hlen. pose proof Hwf as [[??] [??] ? [??] ? ? ?].
  destruct (write_loop_total 64 mf ds Hwf Hds) as (st & mf1 & Hl & Hwf1 & (Hp & Hs & Hn) & Hst).
  { change (Z.of_nat 64) with 64. lia. }
  unfold write_memfile. rewrite Hl. simpl.
  pose proof Hwf1 as [[??] [??] ? [??] ? ? ?].
  destruct Hst as [[-> Hfit]| ->]; simpl.
  2: { exists (-1), mf1. split_and!; [done..|]. right. done. }
  rewrite (u64_small ds) by lia. rewrite rdn_ok by lia. simpl.
  unfold zsub. rewrite zdrop_0. rewrite u64_small by lia.
  eexists 0, _. split_and!; [done| |done|left; split; [done|simpl; by rewrite Hp]].
  split; simpl; try lia.
  - rewrite zlen_app, zlen_take by lia. lia.
  - apply Forall_app. split; [done|]. by apply bytes_ztake.
Qed.

(** the reading position moves over [n] bytes that are there *)
Lemma read_memfile_ok mf n :
  memfile_wf mf -> 0 <= n < 2 ^ 31 -> mf_nread mf + n <= mf_size mf ->
  read_memfile mf n =
    (n, if 0 <? n then Some (zdrop (mf_nread mf) (mf_p mf)) else None,
     Memfile (mf_allocsize mf) (mf_maxallocsize mf) (mf_size mf)
       (mf_nread mf + n) (mf_p mf)).
Proof.
  intros [[??] [??] ? [??] [??] ? ?] ??. unfold read_memfile.
  rewrite !(u64_small (mf_nread mf + n)) by lia.
  destruct (Z.ltb_spec (mf_size mf) (mf_nread mf + n)); [lia|].
  by rewrite !u64_small by lia.
Qed.

Lemma read_memfile_wf mf n r p mf' :
  memfile_wf mf -> 0 <= n < 2 ^ 31 -> mf_size mf - mf_nread mf < 2 ^ 31 ->
  read_memfile mf n = (r, p, mf') -> memfile_wf mf' /\ r = Z.min n (mf_size mf - mf_nread mf).
Proof.
  intros [[??] [??] ? [??] [??] ? ?] ? ? Hr. unfold read_memfile in Hr.
  rewrite (u64_small (mf_nread mf + n)) in Hr by lia. simplify_eq.
  destruct (Z.ltb_spec (mf_size mf) (mf_nread mf + n)).
  - rewrite s32_small by lia. split; [|lia].
    split; simpl; try done; try lia. rewrite u64_small by lia. lia.
  - split; [|lia]. split; simpl; try done; try lia. rewrite u64_small by lia. lia.
Qed.

(** ** Frames *)

(** what [write_memframe] appends *)
Definition encode_frame (fr : list Z * Z) : list Z :=
  memframe_info fr.2 (zlen fr.1) ++ fr.1.

Definition frame_ok (fr : list Z * Z) : Prop :=
  bytes fr.1 /\ 0 < zlen fr.1 < 2 ^ 31 /\ is_byte fr.2.

Lemma write_memframe_spec mf fr :
  memfile_wf mf -> frame_ok fr ->
  exists st mf', write_memframe mf fr.1 (zlen fr.1) fr.2 = Done (st, mf') /\
    memfile_wf mf' /\ mf_nread mf' = mf_nread mf /\
    (st = -1 \/ (st = 0 /\ mf_p mf' = mf_p mf ++ encode_frame fr)).
Proof.
  intros Hwf (Hb & Hl & Hc). unfold write_memframe, write_memframe_info, write_memframe_data.
  destruct (write_memfile_spec mf (memframe_info fr.2 (zlen fr.1)) MEMFRAME_INFO_SIZE)
    as (st & mf1 & -> & Hwf1 & Hn1 & Hst); [done|apply memframe_info_bytes| |
      rewrite memframe_info_length; done|].
  { unfold MEMFRAME_INFO_SIZE. lia. }
  simpl. destruct Hst as [[-> Hp1]|[-> Hp1]]; simpl.
  2: { exists (-1), mf1. split_and!; try done. by left. }
  rewrite ztake_ge in Hp1 by (rewrite memframe_info_length; done).
  destruct (write_memfile_spec mf1 fr.1 (zlen fr.1))
    as (st & mf2 & -> & Hwf2 & Hn2 & Hst); [done|done|lia|done|].
  exists st, mf2. split_and!; [done|done|congruence|].
  destruct Hst as [[-> Hp2]|[-> Hp2]]; [right|by left].
  split; [done|]. rewrite Hp2, Hp1, ztake_ge by lia.
  unfold encode_frame. by rewrite app_assoc.
Qed.

Lemma get_memframe_spec mf pre fr post :
  memfile_wf mf -> frame_ok fr ->
  mf_p mf = pre ++ encode_frame fr ++ post -> mf_nread mf = zlen pre ->
  exists mf', get_memframe mf = Done (zlen fr.1, Some (Memframe (zlen fr.1) fr.2 (fr.1 ++ post)), mf') /\
    memfile_wf mf' /\ mf_p mf' = mf_p mf /\ mf_nread mf' = zlen (pre ++ encode_frame fr).
Proof.
  intros Hwf (Hb & Hl & Hc) Hp Hn. pose proof Hwf as [? ? ? [??] [??] Hlen ?].
  pose proof (memframe_info_length fr.2 (zlen fr.1)) as Hi.
  rewrite Hp in Hlen. unfold encode_frame in Hlen. rewrite !zlen_app in Hlen.
  pose proof (zlen_nonneg post). pose proof (zlen_nonneg pre).
  unfold get_memframe, MEMFRAME_INFO_SIZE.
  rewrite read_memfile_ok by (done || lia).
  cbn beta iota zeta delta [Z.eqb Z.ltb Z.compare mf_nread mf_p].
  rewrite Hp, Hn, zdrop_app_exact by done. unfold encode_frame.
  rewrite <-app_assoc.
  assert (rd (memframe_info fr.2 (zlen fr.1) ++ fr.1 ++ post) 0 = Done fr.2) as ->.
  { unfold rd, memframe_info. simpl. by rewrite u8_small. }
  cbn [obind].
  assert (rdn (memframe_info fr.2 (zlen fr.1) ++ fr.1 ++ post) 8 8
          = Done (le_split 8 (u64 (zlen fr.1)))) as ->.
  { rewrite rdn_ok; [|lia..|rewrite !zlen_app; pose proof (zlen_nonneg fr.1); lia].
    f_equal. unfold memframe_info.
    rewrite (app_comm_cons pad7), <-app_assoc. apply zsub_app_exact.
    - rewrite zlen_cons. unfold zlen. by rewrite pad7_length.
    - unfold zlen at 1. by rewrite le_split_length. }
  cbn [obind]. rewrite le_join_split by (apply u64_range).
  rewrite u64_small, s32_small by lia.
  set (mf1 := Memfile _ _ _ _ _).
  assert (memfile_wf mf1) as Hwf1.
  { unfold mf1. split; mfsimpl; try done; try lia; [rewrite !zlen_app; lia|].
    rewrite Hp in wf_bytes0. unfold encode_frame in wf_bytes0.
    by rewrite <-app_assoc in wf_bytes0. }
  rewrite read_memfile_ok by (done || (unfold mf1; mfsimpl; lia)).
  cbn beta iota zeta. rewrite Z.eqb_refl.
  destruct (Z.ltb_spec 0 (zlen fr.1)); [|lia]. unfold mf1 in *. mfsimpl.
  eexists. split_and!; [do 4 f_equal| | |].
  - f_equal. cbn [default]. rewrite (app_assoc pre). apply zdrop_app_exact.
    rewrite zlen_app. lia.
  - destruct Hwf1. split; mfsimpl; try done; lia.
  - done.
  - mfsimpl. rewrite !zlen_app. lia.
Qed.

(** ** Sequences of frames *)

(** [write_memframe] for each frame, stopping at the first failure *)
Fixpoint write_frames (mf : memfile) (frs : list (list Z * Z)) : outcome (Z * memfile) :=
  match frs with
  | [] => Done (0, mf)
  | fr :: frs' =>
      let* (st, mf1) := write_memframe mf fr.1 (zlen fr.1) fr.2 in
      if st =? 0 then write_frames mf1 frs' else Done (st, mf1)
  end.

(** [get_memframe] as often as it returns a frame, at most [n] times *)
Fixpoint read_frames (n : nat) (mf : memfile) : outcome (list (list Z * Z) * memfile) :=
  match n with
  | O => Done ([], mf)
  | S n' =>
      let* (ofr, mf1) := get_memframe mf in
      match ofr.2 with
      | Some fr =>
          let* (l, mf2) := read_frames n' mf1 in
          Done ((ztake (fr_n fr) (fr_data fr), fr_compressed fr) :: l, mf2)
      | None => Done ([], mf1)
      end
  end.

Lemma write_frames_spec mf frs :
  memfile_wf mf -> Forall frame_ok frs ->
  exists st mf', write_frames mf frs = Done (st, mf') /\ memfile_wf mf' /\
    mf_nread mf' = mf_nread mf /\
    (st = -1 \/ (st = 0 /\ mf_p mf' = mf_p mf ++ concat (encode_frame <$> frs))).
Proof.
  intros Hwf Hok. revert mf Hwf.
  induction Hok as [|fr frs Hfr _ IH]; intros mf Hwf; cbn [write_frames].
  { exists 0, mf. split_and!; try done. right. by rewrite app_nil_r. }
  destruct (write_memframe_spec mf fr Hwf Hfr) as (st & mf1 & -> & Hwf1 & Hn1 & Hst).
  cbn [obind]. destruct Hst as [->|[-> Hp1]]; cbn.
  { exists (-1), mf1. split_and!; try done. by left. }
  destruct (IH mf1 Hwf1) as (st & mf2 & -> & Hwf2 & Hn2 & Hst).
  exists st, mf2. split_and!; [done|done|congruence|].
  destruct Hst as [->|[-> Hp2]]; [by left|right]. split; [done|].
  by rewrite Hp2, Hp1, app_assoc.
Qed.

Lemma read_frames_spec frs mf pre :
  memfile_wf mf -> Forall frame_ok frs ->
  mf_p mf = pre ++ concat (encode_frame <$> frs) -> mf_nread mf = zlen pre ->
  exists mf', read_frames (length frs) mf = Done (frs, mf') /\ memfile_wf mf' /\
    mf_p mf' = mf_p mf /\ mf_nread mf' = mf_size mf'.
Proof.
  intros Hwf Hok. revert mf pre Hwf.
  induction Hok as [|fr frs Hfr _ IH]; intros mf pre Hwf Hp Hn; cbn [read_frames length].
  { exists mf. split_and!; try done.
    rewrite <-(wf_p _ Hwf), Hp. cbn. by rewrite app_nil_r. }
  cbn in Hp.
  destruct (get_memframe_spec mf pre fr _ Hwf Hfr Hp Hn) as (mf1 & -> & Hwf1 & Hp1 & Hn1).
  cbn [obind snd fr_n fr_data fr_compressed].
  destruct (IH mf1 (pre ++ encode_frame fr)) as (mf2 & -> & Hwf2 & Hp2 & Hn2);
    [done|by rewrite Hp1, Hp, app_assoc|done|].
  cbn [obind]. rewrite ztake_app_exact by done.
  exists mf2. rewrite Hp2. destruct fr. by split_and!.
Qed.

(** C18: frames written into an empty memory file are read back: when every
    [write_memframe] succeeds, the same number of [get_memframe] calls returns
    the same frames with their compression flags, in order, and consumes the
    file. *)
Theorem memframe_roundtrip (mf mf1 : memfile) (frs : list (list Z * Z)) :
  memfile_wf mf -> open_memfile mf = 0 -> Forall frame_ok frs ->
  write_frames mf frs = Done (0, mf1) ->
  exists mf2, read_frames (length frs) mf1 = Done (frs, mf2) /\
    mf_nread mf2 = mf_size mf2.
Proof.
  intros Hwf Hopen Hok Hw.
  unfold open_memfile in Hopen.
  destruct (negb (mf_size mf =? 0) || negb (mf_nread mf =? 0)) eqn:E; [done|]. zbool.
  destruct (write_frames_spec mf frs Hwf Hok) as (st & mf' & Hw' & Hwf1 & Hn & Hst).
  rewrite Hw in Hw'. simplify_eq. destruct Hst as [?|[_ Hp]]; [done|].
  assert (mf_p mf = []) as Hnil.
  { pose proof (wf_p _ Hwf). destruct (mf_p mf); [done|].
    rewrite zlen_cons in *. pose proof (zlen_nonneg l). lia. }
  destruct (read_frames_spec frs mf' [] Hwf1 Hok) as (mf2 & ? & ? & ? & ?);
    [by rewrite Hp, Hnil|by rewrite zlen_nil; congruence|].
  by exists mf2.
Qed.

(** [write_memfile] always returns for a non-negative size (the growth
    loop ends), keeps the memory file well formed, and either appends exactly
    the bytes it was given or fails with -1 and leaves the content unchanged;
    the reading position does not move. *)
Theorem write_memfile_correct (mf : memfile) (data : list Z) (ds : Z) :
  memfile_wf mf -> bytes data -> 0 <= ds < 2 ^ 31 -> ds <= zlen data ->
  exists st mf', write_memfile mf data ds = Done (st, mf') /\ memfile_wf mf' /\
    mf_nread mf' = mf_nread mf /\
    ((st = 0 /\ mf_p mf' = mf_p mf ++ ztake ds data) \/
     (st = -1 /\ mf_p mf' = mf_p mf)).
Proof. apply write_memfile_spec. Qed.

(** the estimated sizes the readers ask for keep a file well formed *)
Lemma adjust_wf mf est st mf' :
  memfile_wf mf -> mf_size mf < 4096 -> 0 <= est < 2 ^ 62 ->
  adjust_memfile_size mf est = (st, mf') ->
  memfile_wf mf' /\ same_content mf mf' /\ (st = 0 \/ st = -1).
Proof.
  intros Hwf Hsz Hest Ha. pose proof Hwf as [[??] [??] ? [??] [??] ? ?].
  unfold adjust_memfile_size, GROW_FACTOR in Ha.
  rewrite u64_small in Ha by lia.
  destruct (Z.ltb_spec (mf_allocsize mf) est).
  { destruct (Z.eqb_spec est 0); [lia|]. cbn in Ha.
    apply realloc_larger in Ha as (? & ? & [[-> ?]|[-> ?]]); auto. }
  destruct ((est * 2 <? mf_allocsize mf) && (mf_allocsize mf =? mf_maxallocsize mf)) eqn:E.
  2: { cbn in Ha. simplify_eq. split_and!; try done. by left. }
  zbool. assert (4096 <= mf_allocsize mf / 2) by (apply Z.div_le_lower_bound; lia).
  destruct (Z.eqb_spec (mf_allocsize mf / 2) 0); [lia|]. cbn in Ha.
  unfold realloc_memfile in Ha.
  assert (mf_maxallocsize mf <= 2 * (mf_allocsize mf / 2) + 1).
  { pose proof (Z.div_mod (mf_allocsize mf) 2).
    pose proof (Z.mod_pos_bound (mf_allocsize mf) 2). lia. }
  assert (mf_allocsize mf / 2 <= mf_maxallocsize mf).
  { apply Z.div_le_upper_bound; lia. }
  destruct (malloc_ok _).
  2: { simplify_eq. split_and!; try done. by right. }
  destruct (Z.leb_spec (mf_allocsize mf / 2) (mf_size mf)); [lia|].
  destruct (Z.leb_spec (mf_allocsize mf / 2) (mf_nread mf)); [lia|].
  destruct (Z.ltb_spec (mf_maxallocsize mf) (mf_allocsize mf / 2)); [lia|].
  rewrite ztake_ge in Ha by lia. simplify_eq.
  split_and!; [split; mfsimpl; try done; lia|done|by left].
Qed.

(** *** When requests below 1 TB succeed *)

(** only the first [ds] bytes matter *)
Lemma write_memfile_prefix mf data ds : 0 <= ds < 2 ^ 31 -> ds <= zlen data ->
  write_memfile mf data ds = write_memfile mf (ztake ds data) ds.
Proof.
  intros Hd Hl. unfold write_memfile. destruct (write_loop 64 mf ds) as [[st mf1]| |]; [|done..]. cbn [obind].
  destruct (negb (st =? 0)); [done|]. rewrite u64_small by lia.
  rewrite !rdn_ok by (rewrite ?zlen_take; lia). unfold zsub. rewrite !zdrop_0.
  by rewrite (ztake_ge ds (ztake ds data)) by (rewrite zlen_take; lia).
Qed.

Section memory.
Hypothesis Hmem : forall n, n < 2 ^ 40 -> malloc_ok n = true.

Lemma write_loop_mem fuel mf ds st mf' :
  memfile_wf mf -> 0 <= ds -> mf_size mf + ds < 2 ^ 38 ->
  write_loop fuel mf ds = Done (st, mf') -> st = 0.
Proof.
  revert mf. induction fuel as [|fuel IH]; intros mf Hwf Hd Hs; cbn [write_loop];
    (destruct (Z.ltb_spec (mf_allocsize mf) (u64 (mf_size mf + ds))) as [Hlt|]; [|by intros [= <-]]).
  { done. }
  pose proof (wf_size _ Hwf). rewrite u64_small in Hlt by lia. unfold grow_memfile, GROW_FACTOR.
  pose proof (wf_alloc _ Hwf). rewrite (u64_small (2 * _)) by lia.
  destruct (realloc_memfile mf (2 * mf_allocsize mf)) as [st1 mf1] eqn:Er.
  destruct (realloc_larger mf (2 * mf_allocsize mf) st1 mf1 Hwf ltac:(lia) Er)
    as (Hwf1 & (_ & Hs1 & _) & [[-> Hal]|[-> ->]]).
  2: { unfold realloc_memfile in Er. rewrite Hmem in Er by lia. done. }
  cbn [Z.eqb]. apply IH; [done|done|lia].
Qed.

Lemma write_memfile_mem mf data ds st mf' :
  memfile_wf mf -> 0 <= ds -> mf_size mf + ds < 2 ^ 38 ->
  write_memfile mf data ds = Done (st, mf') -> st = 0.
Proof.
  intros Hwf Hd Hs. unfold write_memfile.
  destruct (write_loop 64 mf ds) as [[st1 mf1]| |] eqn:El; cbn [obind]; [|done..].
  apply write_loop_mem in El as ->; [|done..]. cbn [Z.eqb negb].
  destruct (rdn data 0 (u64 ds)); cbn [obind]; by intros [= <-].
Qed.

Lemma write_memfile_ok mf data ds :
  memfile_wf mf -> bytes data -> 0 <= ds < 2 ^ 31 -> ds <= zlen data -> mf_size mf + ds < 2 ^ 38 ->
  exists mf', write_memfile mf data ds = Done (0, mf') /\ memfile_wf mf' /\
    mf_nread mf' = mf_nread mf /\ mf_p mf' = mf_p mf ++ ztake ds data.
Proof.
  intros Hwf Hb Hd Hl Hs. destruct (write_memfile_spec mf data ds) as (st & mf' & E & Hwf' & Hn & Hst);
    [done..|].
  pose proof (write_memfile_mem _ _ _ _ _ Hwf (proj1 Hd) Hs E) as ->. exists mf'.
  destruct Hst as [[_ Hp]|[? _]]; [by split_and!|done].
Qed.
End memory.
End theory.

(** ** A concrete allocator, for the witnesses *)

Definition demo_heap : Heap :=
  {| malloc_ok := fun n => n <? 2 ^ 40; pad7 := replicate 7 170 |}.

Lemma demo_heap_spec : HeapSpec demo_heap.
Proof.
  split.
  - intros n Hn. cbn. apply Z.ltb_ge. lia.
  - done.
  - repeat constructor; unfold is_byte; lia.
Qed.

Definition demo_mf : memfile := Memfile 8192 8192 0 0 [].
Lemma demo_mf_wf : memfile_wf demo_mf.
Proof. split; cbn; try lia; try done. constructor. Qed.

Lemma memframe_roundtrip_witness :
  exists mf1 mf2,
    write_frames (H := demo_heap) demo_mf [([1; 2; 3], 1); ([9], 0)] = Done (0, mf1) /\
    read_frames 2 mf1 = Done ([([1; 2; 3], 1); ([9], 0)], mf2).
Proof.
  destruct (memframe_roundtrip (HS := demo_heap_spec) demo_mf
    (Memfile 8192 8192 36 0
       (([1; 170; 170; 170; 170; 170; 170; 170; 3; 0; 0; 0; 0; 0; 0; 0] ++ [1; 2; 3]) ++
        [0; 170; 170; 170; 170; 170; 170; 170; 1; 0; 0; 0; 0; 0; 0; 0] ++ [9]))
    [([1; 2; 3], 1); ([9], 0)]) as (mf2 & Hr & _).
  - apply demo_mf_wf.
  - reflexivity.
  - repeat constructor; cbn; unfold is_byte; lia.
  - vm_compute. reflexivity.
  - eexists _, mf2. split; [|exact Hr]. vm_compute. reflexivity.
Defined.

Lemma write_memfile_correct_witness :
  exists st mf', write_memfile (H := demo_heap) demo_mf [65; 66; 67] 2 = Done (st, mf') /\
    (st = 0 -> mf_p mf' = [65; 66]).
Proof.
  destruct (write_memfile_correct (HS := demo_heap_spec) demo_mf [65; 66; 67] 2)
    as (st & mf' & H1 & _ & _ & H2).
  - apply demo_mf_wf.
  - repeat constructor; unfold is_byte; lia.
  - lia.
  - unfold zlen; simpl; lia.
  - exists st, mf'. split; [exact H1|]. intros ->. destruct H2 as [[_ H2]|[H2 _]].
    + exact H2.
    + discriminate H2.
Defined.
