(* ===== verification/Sbn.v ===== *)
(** * Sbn: src/src/sbn.h, src/src/sbn.c and src/src/unz.c

    The SBN protocol of the NOAAPort broadcast: unpacking of the frame level,
    product definition and product specific headers of a frame, location of the
    data inside the frame, and extraction of the WMO and AWIPS identifiers of
    the product from its first lines.

    A [sbn_frame] is the C structure. [rawdata] and [blkdata] are its byte
    arrays (with whatever earlier frames left in them); the members that point
    into them are [ptr] values. zlib's [uncompress] is a parameter. *)

From S2P Require Import Prelude Util CLib.

(** ** Constants (sbn.h, common.h, const.h) *)

Definition SBN_FRAME_SIZE : Z := 5200.
Definition MAX_FRDATA_SIZE : Z := 5200.
Definition CCB_SIZE : Z := 24.
Definition CTRLHDR_WMO_SIZE : Z := 21.
Definition MAX_CTRLHDR_SIZE : Z := 58.
Definition FRAME_LEVEL_HEADER_SIZE : Z := 16.
Definition PRODUCT_DEF_HEADER_SIZE : Z := 16.
Definition PRODUCT_SPEC_HEADER_SIZE : Z := 36.
Definition SBN_COMMAND_DATA_TRANSFER : Z := 3.
Definition SBN_COMMAND_SYNC_TIMING : Z := 5.
Definition SBN_COMMAND_TEST_MSG : Z := 10.
Definition PSH_STATUSFLAG_RETRANSMIT : Z := 16.
Definition PDH_TRANSFERTYPE_START : Z := 1.
Definition PDH_TRANSFERTYPE_PROGRESS : Z := 2.
Definition PDH_TRANSFERTYPE_END : Z := 4.
Definition PDH_TRANSFERTYPE_ERROR : Z := 8.
Definition PDH_TRANSFERTYPE_COMPRESSED : Z := 16.
Definition PDH_TRANSFERTYPE_ABORT : Z := 32.
Definition WMO_ID_SIZE : Z := 6.
Definition WMO_STATION_SIZE : Z := 4.
Definition WMO_TIME_SIZE : Z := 6.
Definition WMO_AWIPS_SIZE : Z := 6.
Definition WMO_NOTAWIPS_SIZE : Z := 6.
Definition WMO_BBB_SIZE : Z := 6.

(** ** Structures *)

Record frame_level_header := FrameLevelHeader {
  data_cksum : Z;
  hdlc_address : Z;
  hdlc_control : Z;
  fh_header_length : Z;
  sbn_version : Z;
  sbn_control : Z;
  sbn_command : Z;
  sbn_datstream : Z;
  sbn_src : Z;
  sbn_dest : Z;
  sbn_seq_number : Z;
  sbn_run : Z;
  sbn_cksum : Z
}.

Record product_def_header := ProductDefHeader {
  pdh_version : Z;
  transfer_type : Z;
  header_length32 : Z;
  pdh_header_length : Z;
  block_number : Z;
  data_block_offset : Z;
  data_block_size : Z;
  records_per_block : Z;
  blocks_per_record : Z;
  product_seq_number : Z
}.

Record product_spec_header := ProductSpecHeader {
  opt_field_number : Z;
  opt_field_type : Z;
  opt_field_length : Z;
  psh_version : Z;
  transfer_status_flag : Z;
  awips_data_length : Z;
  bytes_per_record : Z;
  product_type : Z;
  product_category : Z;
  product_code : Z;
  num_fragments : Z;
  next_header_offset : Z;
  reserved : Z;
  source : Z;
  orig_seq_number : Z;
  ncf_recv_time : Z;
  ncf_transmit_time : Z;
  run_id : Z;
  orig_run_id : Z
}.

(** a pointer into [rawdata] or [blkdata] of the frame *)
Inductive ptr :=
| PRaw (off : Z)
| PBlk (off : Z).

Record sbn_frame := SbnFrame {
  rawdata : list Z;
  rawdata_size : Z;
  fh : frame_level_header;
  pdh : product_def_header;
  psh : product_spec_header;
  np_channel_index : Z;
  ctrlhdr : option ptr;
  ctrlhdr_size : Z;
  frdata : option ptr;
  frdata_size : Z;
  blkdata : list Z;
  blkdata_size : Z;
  ccb : option ptr;
  ccb_size : Z;
  pdata : option ptr;
  pdata_size : Z;
  f_frdata_compressed : Z;
  f_unzstatus : Z
}.

Definition set_fh v (f : sbn_frame) := SbnFrame (rawdata f) (rawdata_size f) v
  (pdh f) (psh f) (np_channel_index f) (ctrlhdr f) (ctrlhdr_size f) (frdata f)
  (frdata_size f) (blkdata f) (blkdata_size f) (ccb f) (ccb_size f) (pdata f)
  (pdata_size f) (f_frdata_compressed f) (f_unzstatus f).
Definition set_pdh v (f : sbn_frame) := SbnFrame (rawdata f) (rawdata_size f)
  (fh f) v (psh f) (np_channel_index f) (ctrlhdr f) (ctrlhdr_size f) (frdata
  f) (frdata_size f) (blkdata f) (blkdata_size f) (ccb f) (ccb_size f) (pdata
  f) (pdata_size f) (f_frdata_compressed f) (f_unzstatus f).
Definition set_psh v (f : sbn_frame) := SbnFrame (rawdata f) (rawdata_size f)
  (fh f) (pdh f) v (np_channel_index f) (ctrlhdr f) (ctrlhdr_size f) (frdata
  f) (frdata_size f) (blkdata f) (blkdata_size f) (ccb f) (ccb_size f) (pdata
  f) (pdata_size f) (f_frdata_compressed f) (f_unzstatus f).
Definition set_ctrlhdr v (f : sbn_frame) := SbnFrame (rawdata f) (rawdata_size
  f) (fh f) (pdh f) (psh f) (np_channel_index f) v (ctrlhdr_size f) (frdata f)
  (frdata_size f) (blkdata f) (blkdata_size f) (ccb f) (ccb_size f) (pdata f)
  (pdata_size f) (f_frdata_compressed f) (f_unzstatus f).
Definition set_ctrlhdr_size v (f : sbn_frame) := SbnFrame (rawdata f)
  (rawdata_size f) (fh f) (pdh f) (psh f) (np_channel_index f) (ctrlhdr f) v
  (frdata f) (frdata_size f) (blkdata f) (blkdata_size f) (ccb f) (ccb_size f)
  (pdata f) (pdata_size f) (f_frdata_compressed f) (f_unzstatus f).
Definition set_frdata v (f : sbn_frame) := SbnFrame (rawdata f) (rawdata_size
  f) (fh f) (pdh f) (psh f) (np_channel_index f) (ctrlhdr f) (ctrlhdr_size f)
  v (frdata_size f) (blkdata f) (blkdata_size f) (ccb f) (ccb_size f) (pdata
  f) (pdata_size f) (f_frdata_compressed f) (f_unzstatus f).
Definition set_frdata_size v (f : sbn_frame) := SbnFrame (rawdata f)
  (rawdata_size f) (fh f) (pdh f) (psh f) (np_channel_index f) (ctrlhdr f)
  (ctrlhdr_size f) (frdata f) v (blkdata f) (blkdata_size f) (ccb f) (ccb_size
  f) (pdata f) (pdata_size f) (f_frdata_compressed f) (f_unzstatus f).
Definition set_blkdata v (f : sbn_frame) := SbnFrame (rawdata f) (rawdata_size
  f) (fh f) (pdh f) (psh f) (np_channel_index f) (ctrlhdr f) (ctrlhdr_size f)
  (frdata f) (frdata_size f) v (blkdata_size f) (ccb f) (ccb_size f) (pdata f)
  (pdata_size f) (f_frdata_compressed f) (f_unzstatus f).
Definition set_blkdata_size v (f : sbn_frame) := SbnFrame (rawdata f)
  (rawdata_size f) (fh f) (pdh f) (psh f) (np_channel_index f) (ctrlhdr f)
  (ctrlhdr_size f) (frdata f) (frdata_size f) (blkdata f) v (ccb f) (ccb_size
  f) (pdata f) (pdata_size f) (f_frdata_compressed f) (f_unzstatus f).
Definition set_ccb v (f : sbn_frame) := SbnFrame (rawdata f) (rawdata_size f)
  (fh f) (pdh f) (psh f) (np_channel_index f) (ctrlhdr f) (ctrlhdr_size f)
  (frdata f) (frdata_size f) (blkdata f) (blkdata_size f) v (ccb_size f)
  (pdata f) (pdata_size f) (f_frdata_compressed f) (f_unzstatus f).
Definition set_ccb_size v (f : sbn_frame) := SbnFrame (rawdata f)
  (rawdata_size f) (fh f) (pdh f) (psh f) (np_channel_index f) (ctrlhdr f)
  (ctrlhdr_size f) (frdata f) (frdata_size f) (blkdata f) (blkdata_size f)
  (ccb f) v (pdata f) (pdata_size f) (f_frdata_compressed f) (f_unzstatus f).
Definition set_pdata v (f : sbn_frame) := SbnFrame (rawdata f) (rawdata_size
  f) (fh f) (pdh f) (psh f) (np_channel_index f) (ctrlhdr f) (ctrlhdr_size f)
  (frdata f) (frdata_size f) (blkdata f) (blkdata_size f) (ccb f) (ccb_size f)
  v (pdata_size f) (f_frdata_compressed f) (f_unzstatus f).
Definition set_pdata_size v (f : sbn_frame) := SbnFrame (rawdata f)
  (rawdata_size f) (fh f) (pdh f) (psh f) (np_channel_index f) (ctrlhdr f)
  (ctrlhdr_size f) (frdata f) (frdata_size f) (blkdata f) (blkdata_size f)
  (ccb f) (ccb_size f) (pdata f) v (f_frdata_compressed f) (f_unzstatus f).
Definition set_f_frdata_compressed v (f : sbn_frame) := SbnFrame (rawdata f)
  (rawdata_size f) (fh f) (pdh f) (psh f) (np_channel_index f) (ctrlhdr f)
  (ctrlhdr_size f) (frdata f) (frdata_size f) (blkdata f) (blkdata_size f)
  (ccb f) (ccb_size f) (pdata f) (pdata_size f) v (f_unzstatus f).
Definition set_f_unzstatus v (f : sbn_frame) := SbnFrame (rawdata f)
  (rawdata_size f) (fh f) (pdh f) (psh f) (np_channel_index f) (ctrlhdr f)
  (ctrlhdr_size f) (frdata f) (frdata_size f) (blkdata f) (blkdata_size f)
  (ccb f) (ccb_size f) (pdata f) (pdata_size f) (f_frdata_compressed f) v.

Definition ptr_add (p : ptr) (n : Z) : ptr :=
  match p with PRaw o => PRaw (o + n) | PBlk o => PBlk (o + n) end.

(** the bytes readable from the pointer on *)
Definition view (f : sbn_frame) (p : ptr) : list Z :=
  match p with
  | PRaw o => zdrop o (rawdata f)
  | PBlk o => zdrop o (blkdata f)
  end.

(** reading through a possibly NULL pointer *)
Definition oview (f : sbn_frame) (p : option ptr) : list Z :=
  match p with Some q => view f q | None => [] end.

(** ** zlib *)

(** [uncompress d cap]: status (0 is [Z_OK]) and the bytes left in an output
    buffer of [cap] bytes *)
Class Zlib := { uncompress : list Z -> Z -> Z * list Z }.

Class ZlibSpec (Zl : Zlib) : Prop := {
  uncompress_fits : forall d cap e o,
    uncompress d cap = (e, o) -> 0 <= cap -> zlen o <= cap;
  uncompress_bytes : forall d cap e o, uncompress d cap = (e, o) -> bytes o
}.

Section sbn.
Context `{Zlib}.

(** [unz(out, &outlen, in, inlen)]: the code, the new [outlen], the output *)
Definition unz (outlen : Z) (inp : list Z) (inlen : Z) : outcome (Z * Z * list Z) :=
  let* d := rdn inp 0 (u64 inlen) in
  let (e, o) := uncompress d (u64 outlen) in
  Done (e, if e =? 0 then s32 (zlen o) else outlen, o).

(** ** Headers *)

(** [data[i]] of a header that has been read *)
Definition bt (data : list Z) (i : Z) : Z := default 0 (znth data i).

Definition unpack_fl_header (data : list Z) : Z * frame_level_header :=
  let version := bt data 2 in
  let cksum := Z.shiftl (bt data 14) 8 + bt data 15 in
  let dcksum := zsum (ztake (FRAME_LEVEL_HEADER_SIZE - 2) data) in
  (if cksum =? dcksum then 0 else 1,
   {| data_cksum := dcksum;
      hdlc_address := bt data 0;
      hdlc_control := bt data 1;
      fh_header_length := Z.land version 15;
      sbn_version := Z.land (Z.shiftr version 4) 15;
      sbn_control := bt data 3;
      sbn_command := bt data 4;
      sbn_datstream := bt data 5;
      sbn_src := bt data 6;
      sbn_dest := bt data 7;
      sbn_seq_number := be32 (bt data 8) (bt data 9) (bt data 10) (bt data 11);
      sbn_run := Z.shiftl (bt data 12) 8 + bt data 13;
      sbn_cksum := cksum |}).

Definition unpack_pd_header (data : list Z) : product_def_header :=
  let version := bt data 0 in
  {| pdh_version := Z.land (Z.shiftr version 4) 15;
     transfer_type := bt data 1;
     header_length32 := Z.land version 15;
     pdh_header_length := Z.shiftl (bt data 2) 8 + bt data 3;
     block_number := Z.shiftl (bt data 4) 8 + bt data 5;
     data_block_offset := Z.shiftl (bt data 6) 8 + bt data 7;
     data_block_size := Z.shiftl (bt data 8) 8 + bt data 9;
     records_per_block := bt data 10;
     blocks_per_record := bt data 11;
     product_seq_number :=
       be32 (bt data 12) (bt data 13) (bt data 14) (bt data 15) |}.

Definition unpack_ps_header (p : list Z) : product_spec_header :=
  {| opt_field_number := bt p 0;
     opt_field_type := bt p 1;
     opt_field_length := Z.shiftl (bt p 2) 8 + bt p 3;
     psh_version := bt p 4;
     transfer_status_flag := bt p 5;
     awips_data_length := Z.shiftl (bt p 6) 8 + bt p 7;
     bytes_per_record := Z.shiftl (bt p 8) 8 + bt p 9;
     product_type := bt p 10;
     product_category := bt p 11;
     product_code := Z.shiftl (bt p 12) 8 + bt p 13;
     num_fragments := Z.shiftl (bt p 14) 8 + bt p 15;
     next_header_offset := Z.shiftl (bt p 16) 8 + bt p 17;
     reserved := bt p 18;
     source := bt p 19;
     orig_seq_number := be32 (bt p 20) (bt p 21) (bt p 22) (bt p 23);
     ncf_recv_time := be32 (bt p 24) (bt p 25) (bt p 26) (bt p 27);
     ncf_transmit_time := be32 (bt p 28) (bt p 29) (bt p 30) (bt p 31);
     run_id := Z.shiftl (bt p 32) 8 + bt p 33;
     orig_run_id := Z.shiftl (bt p 34) 8 + bt p 35 |}.

(** status: 1 checksum error, 2 inconsistent frame *)
Definition unpack_sbn_headers (f : sbn_frame) : outcome (Z * sbn_frame) :=
  if rawdata_size f <? FRAME_LEVEL_HEADER_SIZE then Done (2, f) else
  let* h := rdn (rawdata f) 0 FRAME_LEVEL_HEADER_SIZE in
  let (cksum_status, flh) := unpack_fl_header h in
  let f := set_fh flh f in
  if negb (cksum_status =? 0) then Done (1, f) else
  if negb (sbn_command (fh f) =? SBN_COMMAND_DATA_TRANSFER) then Done (0, f) else
  let off := FRAME_LEVEL_HEADER_SIZE + PRODUCT_DEF_HEADER_SIZE in
  if rawdata_size f <? off then Done (2, f) else
  let* h := rdn (rawdata f) FRAME_LEVEL_HEADER_SIZE PRODUCT_DEF_HEADER_SIZE in
  let f := set_pdh (unpack_pd_header h) f in
  (* only the first frame has a PS header *)
  if block_number (pdh f) =? 0 then
    let off := off + PRODUCT_SPEC_HEADER_SIZE in
    if rawdata_size f <? off then Done (2, f) else
    let* h := rdn (rawdata f) (FRAME_LEVEL_HEADER_SIZE + PRODUCT_DEF_HEADER_SIZE)
                PRODUCT_SPEC_HEADER_SIZE in
    let f := set_psh (unpack_ps_header h) f in
    if negb (rawdata_size f =? off + data_block_size (pdh f)) then Done (2, f)
    else Done (0, f)
  else
    if negb (rawdata_size f =? off + data_block_size (pdh f)) then Done (2, f)
    else Done (0, f).

(** the part of [sbn_unpack_frame] after the data has been located, for the
    first frame of a product: find the CCB *)
Definition locate_ccb (f : sbn_frame) : outcome (Z * sbn_frame) :=
  match ctrlhdr f with
  | Some hdr =>
      let* c := rd (view f hdr) 0 in
      if isalpha c then
        Done (0, set_pdata_size 0 (set_pdata None (set_ccb_size 0 (set_ccb None f))))
      else if ctrlhdr_size f <? CCB_SIZE then Done (2, f)
      else
        Done (0, set_pdata_size 0 (set_pdata None
                   (set_ccb_size CCB_SIZE (set_ccb (Some hdr) f))))
  | None =>
      let '(pd, pdsize) :=
        if f_frdata_compressed f =? 1 then (Some (PBlk 0), blkdata_size f)
        else (frdata f, frdata_size f) in
      let* c := rd (oview f pd) 0 in
      if isalpha c then
        let f := set_ccb_size 0 (set_ccb None f) in
        Done (0, set_pdata_size pdsize (set_pdata pd f))
      else
        let f := set_ccb_size CCB_SIZE (set_ccb pd f) in
        if pdsize <? CCB_SIZE then Done (2, f)
        else
          Done (0, set_pdata_size (pdsize - CCB_SIZE)
                     (set_pdata (option_map (fun p => ptr_add p CCB_SIZE) pd) f))
  end.

(** status: those of [unpack_sbn_headers], and 3 for an uncompress error *)
Definition sbn_unpack_frame (f : sbn_frame) : outcome (Z * sbn_frame) :=
  let* (status, f) := unpack_sbn_headers f in
  if negb (status =? 0) || negb (sbn_command (fh f) =? SBN_COMMAND_DATA_TRANSFER)
  then Done (status, f) else
  let off := FRAME_LEVEL_HEADER_SIZE + PRODUCT_DEF_HEADER_SIZE in
  let off :=
    if block_number (pdh f) =? 0 then off + PRODUCT_SPEC_HEADER_SIZE else off in
  let f :=
    if data_block_offset (pdh f) =? 0 then set_ctrlhdr_size 0 (set_ctrlhdr None f)
    else set_ctrlhdr_size (data_block_offset (pdh f))
           (set_ctrlhdr (Some (PRaw off)) f) in
  if negb (data_block_offset (pdh f) =? 0) && (ctrlhdr_size f <? CTRLHDR_WMO_SIZE)
  then Done (2, f) else
  let off := off + ctrlhdr_size f in
  let f := set_frdata_size (data_block_size (pdh f) - ctrlhdr_size f) f in
  let f := set_frdata (Some (PRaw off)) f in
  let f :=
    set_f_frdata_compressed
      (if negb (Z.land (transfer_type (pdh f)) PDH_TRANSFERTYPE_COMPRESSED =? 0)
       then 1 else 0) f in
  let* (ust, f) :=
    if (block_number (pdh f) =? 0) && negb (bool_decide (is_Some (ctrlhdr f)))
       && (f_frdata_compressed f =? 1) then
      let* (e, n, o) := unz MAX_FRDATA_SIZE (oview f (frdata f)) (frdata_size f) in
      let* b := wr (blkdata f) 0 o in
      Done (e, set_f_unzstatus e (set_blkdata_size n (set_blkdata b f)))
    else Done (0, f) in
  if negb (ust =? 0) then Done (3, f) else
  if negb (block_number (pdh f) =? 0) then
    Done (0, set_ccb_size 0 (set_ccb None f))
  else locate_ccb f.

(** ** The control header and the WMO header *)

(** [copy_ctrlheader]: status, new [*ctrlheader_size], bytes copied *)
Definition copy_ctrlheader (allocatedsize : Z) (f : sbn_frame)
  : outcome (Z * Z * list Z) :=
  match ctrlhdr f with
  | None => Done (1, 0, [])
  | Some hdr =>
      if allocatedsize <? ctrlhdr_size f then
        c_assert (ctrlhdr_size f <=? allocatedsize) (Done (1, 0, []))
      else
        let* d := rdn (view f hdr) 0 (u64 (ctrlhdr_size f)) in
        Done (0, ctrlhdr_size f, d)
  end.

(** [count_char(s, n, c)] *)
Fixpoint count_char_loop (s : list Z) (i n : Z) (c count : Z) : outcome Z :=
  if n <=? i then Done count else
  match s with
  | [] => Undef
  | x :: s' =>
      if (x =? 10) || (x =? 0) then Done count
      else count_char_loop s' (i + 1) n c (if x =? c then count + 1 else count)
  end.
Definition count_char (s : list Z) (n c : Z) : outcome Z := count_char_loop s 0 n c 0.

Record wmo_header := WmoHeader {
  wmo_id : list Z;
  wmo_station : list Z;
  wmo_time : list Z;
  wmo_awips : list Z;
  wmo_notawips : list Z
}.

(** 0: valid *)
Definition validate_wmo (id station time bbb : list Z) : Z :=
  if negb (zlen id =? WMO_ID_SIZE) then 1
  else if negb (zlen station =? WMO_STATION_SIZE) then 1
  else if negb (zlen time =? WMO_TIME_SIZE) then 1
  else if negb (forallb isalnum id) then 1
  else if negb (forallb isalpha station) then 1
  else if negb (forallb isdigit time) then 1
  else if negb (forallb isalnum bbb) then 1
  else 0.

(** the loop that advances [wmo] to the end of its first line, for at most
    [data_size] characters *)
Fixpoint skip_line (wmo : list Z) (i data_size : Z) : outcome (Z * list Z) :=
  match wmo with
  | [] => Undef
  | c :: wmo' =>
      if negb (c =? 10) && (i <? data_size) then skip_line wmo' (i + 1) data_size
      else Done (i, wmo)
  end.

(** the first alphanumeric characters of the second line, at most [k] *)
Fixpoint notawips_loop (k : nat) (wmo : list Z) : outcome (list Z) :=
  match k with
  | O => Done []
  | S k' =>
      match wmo with
      | [] => Undef
      | c :: wmo' =>
          if isalnum c then let* s := notawips_loop k' wmo' in Done (c :: s)
          else Done []
      end
  end.

(** the second line: the AWIPS identifier, or else its first word, or else
    the BBB group of the first line *)
Definition second_line (wmo : list Z) (n : Z) (bbb : list Z) : outcome (list Z * list Z) :=
  let* c0 := rd wmo 0 in
  if negb (isalpha c0) then Done ([], ztake WMO_NOTAWIPS_SIZE bbb) else
  let* c8 := rd wmo 8 in
  let* (awips, notawips) :=
    if (c8 =? 10) && (9 <=? n) then
      let* l := sscanf [6%nat] wmo in
      Done (match l with [w] => w | _ => [] end, [])
    else
      let* s := notawips_loop (Z.to_nat (Z.min WMO_NOTAWIPS_SIZE n)) wmo in
      Done ([], s) in
  match awips, notawips with
  | [], [] => Done ([], ztake WMO_NOTAWIPS_SIZE bbb)
  | _, _ => Done (awips, notawips)
  end.

(** the first line of the header: the WMO fields and the BBB group *)
Definition first_line (wmo : list Z) (data_size : Z)
  : outcome (option (list Z * list Z * list Z * list Z)) :=
  let* count_blanks := count_char wmo data_size 32 in
  let* fields :=
    if count_blanks =? 3 then
      let* l := sscanf [6; 4; 6; 6]%nat wmo in
      Done (match l with [a; b; c; d] => Some (a, b, c, d) | _ => None end)
    else if count_blanks =? 2 then
      let* l := sscanf [6; 4; 6]%nat wmo in
      Done (match l with [a; b; c] => Some (a, b, c, []) | _ => None end)
    else Done None in
  match fields with
  | Some (id, station, time, bbb) =>
      if negb (validate_wmo id station time bbb =? 0) then Done None
      else Done (Some (id, station, time, bbb))
  | None => Done None
  end.

(** where the WMO header starts, and how many bytes there are *)
Definition wmo_start (f : sbn_frame) : outcome (option (list Z * Z)) :=
  match ctrlhdr f with
  | Some hdr =>
      let* c := rd (view f hdr) 0 in
      let '(wmo, data_size) :=
        if isalpha c then (view f hdr, ctrlhdr_size f)
        else (view f (ptr_add hdr CCB_SIZE), ctrlhdr_size f - CCB_SIZE) in
      if data_size <? CTRLHDR_WMO_SIZE then Done None
      else Done (Some (wmo, data_size))
  | None => Done (Some (oview f (pdata f), pdata_size f))
  end.

(** [split_wmo_header]: [None] when it returns 1 *)
Definition split_wmo_header (f : sbn_frame) : outcome (option wmo_header) :=
  let* start := wmo_start f in
  match start with
  | None => Done None
  | Some (wmo, data_size) =>
      let* l1 := first_line wmo data_size in
      match l1 with
      | None => Done None
      | Some (id, station, time, bbb) =>
          let* (i, wmo) := skip_line wmo 0 data_size in
          if data_size - 1 <=? i then Done (Some (WmoHeader id station time [] []))
          else
            let* (awips, notawips) :=
              second_line (zdrop 1 wmo) (data_size - (i + 1)) bbb in
            Done (Some (WmoHeader id station time awips notawips))
      end
  end.

End sbn.

(** ** Well-formed frames *)

(** the arrays have their declared size, and no more than the array has been
    received *)
Record frame_wf (f : sbn_frame) : Prop := FrameWf {
  fwf_raw : zlen (rawdata f) = SBN_FRAME_SIZE;
  fwf_raw_bytes : bytes (rawdata f);
  fwf_size : 0 <= rawdata_size f <= SBN_FRAME_SIZE;
  fwf_blk : zlen (blkdata f) = MAX_FRDATA_SIZE;
  fwf_blk_bytes : bytes (blkdata f)
}.

(** [f'] has the buffers of [f] *)
Definition same_buffers (f f' : sbn_frame) : Prop :=
  rawdata f' = rawdata f /\ rawdata_size f' = rawdata_size f /\
  blkdata f' = blkdata f /\ np_channel_index f' = np_channel_index f.

Lemma same_buffers_wf f f' : same_buffers f f' -> frame_wf f -> frame_wf f'.
Proof.
  intros (E1 & E2 & E3 & _) []. split; rewrite ?E1, ?E2, ?E3; done.
Qed.

Lemma bt_range d i : bytes d -> 0 <= bt d i < 256.
Proof.
  intros Hd. unfold bt. destruct (znth d i) eqn:E; simpl; [|lia].
  by apply (znth_Forall is_byte _ _ _ Hd E).
Qed.

Lemma bt16_range d i j : bytes d -> 0 <= Z.shiftl (bt d i) 8 + bt d j < 65536.
Proof.
  intros Hd. rewrite Z.shiftl_mul_pow2 by lia. change (2 ^ 8) with 256.
  pose proof (bt_range d i Hd). pose proof (bt_range d j Hd). lia.
Qed.

Lemma pd_header_ranges d : bytes d ->
  0 <= data_block_offset (unpack_pd_header d) < 65536 /\
  0 <= data_block_size (unpack_pd_header d) < 65536 /\
  0 <= block_number (unpack_pd_header d) < 65536 /\
  0 <= transfer_type (unpack_pd_header d) < 256 /\
  0 <= product_seq_number (unpack_pd_header d) < 4294967296.
Proof.
  intros Hd. unfold unpack_pd_header.
  cbn [data_block_offset data_block_size block_number transfer_type
       product_seq_number].
  split; [by apply bt16_range|]. split; [by apply bt16_range|].
  split; [by apply bt16_range|]. split; [by apply bt_range|]. apply be32_range.
Qed.

(** the offset of the data block of a frame *)
Definition data_offset (f : sbn_frame) : Z :=
  if block_number (pdh f) =? 0 then 68 else 32.

(** the headers of a frame that [unpack_sbn_headers] accepts *)
Definition headers_of (f f' : sbn_frame) : Prop :=
  fh f' = (unpack_fl_header (zsub 0 16 (rawdata f))).2 /\
  (unpack_fl_header (zsub 0 16 (rawdata f))).1 = 0 /\
  (sbn_command (fh f') = SBN_COMMAND_DATA_TRANSFER ->
   pdh f' = unpack_pd_header (zsub 16 16 (rawdata f)) /\
   psh f' = (if block_number (pdh f') =? 0
             then unpack_ps_header (zsub 32 36 (rawdata f)) else psh f) /\
   rawdata_size f = data_offset f' + data_block_size (pdh f') /\
   data_offset f' <= rawdata_size f).

Lemma unpack_sbn_headers_spec f :
  frame_wf f ->
  exists st f', unpack_sbn_headers f = Done (st, f') /\ same_buffers f f' /\
    0 <= st <= 2 /\ (st = 0 -> headers_of f f').
Proof.
  intros Hwf. pose proof Hwf as [Hr Hb Hs Hk _].
  unfold SBN_FRAME_SIZE in *.
  unfold unpack_sbn_headers, FRAME_LEVEL_HEADER_SIZE, PRODUCT_DEF_HEADER_SIZE,
    PRODUCT_SPEC_HEADER_SIZE, SBN_COMMAND_DATA_TRANSFER.
  destruct (Z.ltb_spec (rawdata_size f) 16) as [|H1].
  { eexists 2, _. split_and!; [done..|lia|lia|done]. }
  rewrite rdn_ok by lia. cbn [obind].
  destruct (unpack_fl_header (zsub 0 16 (rawdata f))) as [cks flh] eqn:Efl.
  destruct (Z.eqb_spec cks 0) as [->|]; cbn [negb].
  2: { eexists 1, _. split_and!; [done..|lia|lia|done]. }
  cbn [fh set_fh rawdata_size].
  destruct (Z.eqb_spec (sbn_command flh) 3) as [Hcmd|Hcmd]; cbn [negb].
  2: { eexists 0, _. split_and!; [done..|lia|lia|]. intros _. unfold headers_of.
       rewrite Efl. split_and!; [done|done|]. intros ?. done. }
  destruct (Z.ltb_spec (rawdata_size f) (16 + 16)) as [|H2].
  { eexists 2, _. split_and!; [done..|lia|lia|done]. }
  cbn [rawdata set_fh]. rewrite rdn_ok by lia. cbn [obind].
  set (ph := unpack_pd_header (zsub 16 16 (rawdata f))).
  cbn [pdh set_pdh set_fh rawdata_size rawdata].
  assert (headers_of f = fun f' => fh f' = flh /\ 0 = 0 /\
    (sbn_command (fh f') = 3 -> pdh f' = ph /\
     psh f' = (if block_number (pdh f') =? 0
               then unpack_ps_header (zsub 32 36 (rawdata f)) else psh f) /\
     rawdata_size f = data_offset f' + data_block_size (pdh f') /\
     data_offset f' <= rawdata_size f)) as Hh.
  { unfold headers_of. by rewrite Efl. }
  rewrite Hh. clear Hh. clearbody ph.
  destruct (Z.eqb_spec (block_number ph) 0) as [Hbn|Hbn].
  - destruct (Z.ltb_spec (rawdata_size f) (16 + 16 + 36)).
    { eexists 2, _. split_and!; [done..|lia|lia|done]. }
    rewrite rdn_ok by lia. cbn [obind set_psh set_pdh set_fh pdh rawdata_size].
    destruct (Z.eqb_spec (rawdata_size f) (16 + 16 + 36 + data_block_size ph)); cbn [negb].
    2: { eexists 2, _. split_and!; [done..|lia|lia|done]. }
    eexists 0, _. split_and!; [done..|lia|lia|]. intros _.
    unfold data_offset. cbn [set_psh set_pdh set_fh fh pdh psh]. rewrite Hbn.
    split_and!; [done..|]. intros _. split_and!; done || lia.
  - destruct (Z.eqb_spec (rawdata_size f) (16 + 16 + data_block_size ph)); cbn [negb].
    2: { eexists 2, _. split_and!; [done..|lia|lia|done]. }
    eexists 0, _. split_and!; [done..|lia|lia|]. intros _.
    unfold data_offset. cbn [set_psh set_pdh set_fh fh pdh psh].
    destruct (Z.eqb_spec (block_number ph) 0); [done|].
    split_and!; [done..|]. intros _. split_and!; done || lia.
Qed.

Lemma pdh_bytes f : frame_wf f -> bytes (zsub 16 16 (rawdata f)).
Proof. intros []. by apply bytes_zsub. Qed.

(** ** What [sbn_unpack_frame] leaves in the frame *)

(** the [n] bytes at [p] end where the received or the uncompressed data does *)
Definition ends_data (f : sbn_frame) (p : option ptr) (n : Z) : Prop :=
  0 <= n /\
  match p with
  | Some (PRaw o) => 0 <= o /\ o + n = rawdata_size f
  | Some (PBlk o) => 0 <= o /\ o + n = blkdata_size f /\
                     blkdata_size f <= MAX_FRDATA_SIZE /\ f_frdata_compressed f = 1
  | None => False
  end.

(** the data block of the frame, split into control header and frame data *)
Record located (f : sbn_frame) : Prop := Located {
  loc_hdr : ctrlhdr f =
    if data_block_offset (pdh f) =? 0 then None else Some (PRaw (data_offset f));
  loc_hdr_size : ctrlhdr_size f = data_block_offset (pdh f);
  loc_hdr_min : data_block_offset (pdh f) = 0 \/
    CTRLHDR_WMO_SIZE <= data_block_offset (pdh f);
  loc_frdata : frdata f = Some (PRaw (data_offset f + data_block_offset (pdh f)));
  loc_frdata_size : frdata_size f = data_block_size (pdh f) - data_block_offset (pdh f);
  loc_compressed : f_frdata_compressed f =
    if Z.testbit (transfer_type (pdh f)) 4 then 1 else 0;
  (* first frame: product data *)
  loc_pdata : block_number (pdh f) = 0 -> ctrlhdr f = None ->
    ends_data f (pdata f) (pdata_size f);
  loc_ccb : block_number (pdh f) = 0 ->
    ccb_size f = 0 /\ ccb f = None \/
    ccb_size f = CCB_SIZE /\ exists p, ccb f = Some p /\ CCB_SIZE <= zlen (view f p)
}.

Lemma land_bit4 t : (if negb (Z.land t 16 =? 0) then 1 else 0) = if Z.testbit t 4 then 1 else 0.
Proof.
  assert (Z.land t 16 = if Z.testbit t 4 then 16 else 0) as ->.
  { change 16 with (2 ^ 4). apply Z.bits_inj'. intros n Hn.
    rewrite Z.land_spec, Z.pow2_bits_eqb by lia.
    destruct (Z.eqb_spec 4 n) as [<-|].
    - destruct (Z.testbit t 4); [by rewrite Z.pow2_bits_eqb|by rewrite Z.testbit_0_l].
    - rewrite andb_false_r. destruct (Z.testbit t 4);
        [rewrite Z.pow2_bits_eqb by lia; symmetry; by apply Z.eqb_neq
        |by rewrite Z.testbit_0_l]. }
  by destruct (Z.testbit t 4).
Qed.

(** the state in which the CCB is looked for *)
Record split_frame (f : sbn_frame) : Prop := SplitFrame {
  sf_wf : frame_wf f;
  sf_hdr : ctrlhdr f =
    if data_block_offset (pdh f) =? 0 then None else Some (PRaw (data_offset f));
  sf_hdr_size : ctrlhdr_size f = data_block_offset (pdh f);
  sf_hdr_min : data_block_offset (pdh f) = 0 \/
    CTRLHDR_WMO_SIZE <= data_block_offset (pdh f);
  sf_frdata : frdata f = Some (PRaw (data_offset f + data_block_offset (pdh f)));
  sf_frdata_size : frdata_size f = data_block_size (pdh f) - data_block_offset (pdh f);
  sf_compressed : f_frdata_compressed f =
    if Z.testbit (transfer_type (pdh f)) 4 then 1 else 0;
  sf_size : rawdata_size f = data_offset f + data_block_size (pdh f);
  sf_dbs : 0 <= data_block_size (pdh f)
}.

(** what uncompressing the data of a first frame has to leave *)
Definition blk_ok (f : sbn_frame) : Prop :=
  ctrlhdr f = None -> f_frdata_compressed f = 1 ->
  0 <= blkdata_size f <= MAX_FRDATA_SIZE.

(** [f'] differs from [f] at most in the CCB and product data members *)
Definition same_but_ccb (f f' : sbn_frame) : Prop :=
  f' = set_pdata_size (pdata_size f') (set_pdata (pdata f')
         (set_ccb_size (ccb_size f') (set_ccb (ccb f') f))).

Lemma same_but_ccb_located f f' :
  split_frame f -> same_but_ccb f f' ->
  (block_number (pdh f) = 0 -> ctrlhdr f = None ->
   ends_data f (pdata f') (pdata_size f')) ->
  (block_number (pdh f) = 0 ->
    ccb_size f' = 0 /\ ccb f' = None \/
    ccb_size f' = CCB_SIZE /\ exists p, ccb f' = Some p /\ CCB_SIZE <= zlen (view f p)) ->
  located f'.
Proof.
  intros [] E Hp Hc.
  assert (pdh f' = pdh f) as Epd by (rewrite E; done).
  assert (data_offset f' = data_offset f) as Ed by (unfold data_offset; by rewrite Epd).
  assert (ctrlhdr f' = ctrlhdr f) as Eh by (rewrite E; done).
  split; rewrite ?Epd, ?Ed, ?Eh; try done; rewrite E; done.
Qed.

Lemma zlen_view_raw f o : frame_wf f -> 0 <= o <= 5200 -> zlen (view f (PRaw o)) = 5200 - o.
Proof. intros [] ?. unfold SBN_FRAME_SIZE in *. simpl. rewrite zlen_drop; lia. Qed.
Lemma zlen_view_blk f o : frame_wf f -> 0 <= o <= 5200 -> zlen (view f (PBlk o)) = 5200 - o.
Proof. intros [] ?. unfold MAX_FRDATA_SIZE in *. simpl. rewrite zlen_drop; lia. Qed.

Lemma locate_ccb_spec f :
  split_frame f -> block_number (pdh f) = 0 -> blk_ok f ->
  exists st f', locate_ccb f = Done (st, f') /\ same_but_ccb f f' /\
    (st = 0 \/ st = 2) /\ (st = 0 -> located f').
Proof.
  intros Hs Hb Hk. pose proof Hs as [Hwf Hh Hhs Hm Hf Hfs Hco Hsz Hd0]. unfold blk_ok in Hk.
  assert (data_offset f = 68) as Ho by (unfold data_offset; by rewrite Hb).
  pose proof (fwf_size _ Hwf) as Hrs. unfold SBN_FRAME_SIZE, MAX_FRDATA_SIZE in *.
  rewrite Ho in *.
  unfold locate_ccb, CCB_SIZE. destruct (ctrlhdr f) as [hdr|] eqn:Ehdr.
  - destruct (Z.eqb_spec (data_block_offset (pdh f)) 0); [done|]. injection Hh as ->.
    destruct (rd_total (view f (PRaw 68)) 0) as [c Ec].
    { rewrite zlen_view_raw by (done || lia). lia. }
    rewrite Ec. cbn [obind]. destruct (isalpha c).
    { eexists 0, _. split_and!; [done|done|by left|]. intros _.
      eapply same_but_ccb_located; [exact Hs|done|by rewrite Ehdr|].
      intros _. left. done. }
    destruct (Z.ltb_spec (ctrlhdr_size f) 24).
    { eexists 2, _. split_and!; [done|by destruct f|by right|done]. }
    eexists 0, _. split_and!; [done|done|by left|]. intros _.
    eapply same_but_ccb_located; [exact Hs|done|by rewrite Ehdr|].
    intros _. right. split; [done|]. eexists. split; [done|].
    rewrite zlen_view_raw by (done || lia). unfold CCB_SIZE. lia.
  - destruct (Z.eqb_spec (data_block_offset (pdh f)) 0) as [E0|]; [|done].
    rewrite E0 in *. rewrite Z.add_0_r in Hf. rewrite Z.sub_0_r in Hfs.
    set (pp := if f_frdata_compressed f =? 1 then (Some (PBlk 0), blkdata_size f)
               else (frdata f, frdata_size f)).
    assert (exists p n, pp = (Some p, n) /\ ends_data f (Some p) n /\ 24 <= zlen (view f p) /\
              forall k, 0 <= k <= n -> ends_data f (Some (ptr_add p k)) (n - k))
      as (p & n & -> & Hn & H24 & Hk').
    { unfold ends_data, MAX_FRDATA_SIZE. subst pp.
      destruct (Z.eqb_spec (f_frdata_compressed f) 1).
      - specialize (Hk eq_refl ltac:(done)). eexists _, _. split; [done|].
        rewrite zlen_view_blk by (done || lia). split_and!; try lia. intros k ?.
        cbn [ptr_add]. lia.
      - rewrite Hf, Hfs. eexists _, _. split; [done|].
        rewrite zlen_view_raw by (done || lia). split_and!; try lia. intros k ?.
        cbn [ptr_add]. lia. }
    cbn [oview option_map]. destruct (rd_total (view f p) 0) as [c Ec]; [lia|].
    rewrite Ec. cbn [obind]. destruct (isalpha c).
    { eexists 0, _. split_and!; [done|done|by left|]. intros _.
      eapply same_but_ccb_located; [exact Hs|done|done|]. intros _. left. done. }
    destruct (Z.ltb_spec n 24).
    { eexists 2, _. split_and!; [done|by destruct f|by right|done]. }
    eexists 0, _. split_and!; [done|done|by left|]. intros _.
    eapply same_but_ccb_located; [exact Hs|done| |].
    + intros _ _. cbn [pdata_size set_pdata_size pdata set_pdata]. apply Hk'. lia.
    + intros _. right. split; [done|]. eexists. split; [done|]. unfold CCB_SIZE. lia.
Qed.

(** the frame after the headers have been unpacked and the data block split *)
Definition split_of (f : sbn_frame) : sbn_frame :=
  let dbo := data_block_offset (pdh f) in
  set_f_frdata_compressed (if Z.testbit (transfer_type (pdh f)) 4 then 1 else 0)
    (set_frdata (Some (PRaw (data_offset f + dbo)))
      (set_frdata_size (data_block_size (pdh f) - dbo)
        (set_ctrlhdr_size dbo
          (set_ctrlhdr (if dbo =? 0 then None else Some (PRaw (data_offset f))) f)))).

Lemma unz_spec `{ZlibSpec} cap d n :
  0 <= cap < 2 ^ 31 -> 0 <= n <= zlen d -> n < 2 ^ 64 ->
  exists e m o, unz cap d n = Done (e, m, o) /\ zlen o <= cap /\ bytes o /\
    (e = 0 -> m = zlen o).
Proof.
  intros ???. unfold unz. rewrite (u64_small n), (u64_small cap) by lia.
  rewrite rdn_ok by lia. cbn [obind].
  destruct (uncompress (zsub 0 n d) cap) as [e o] eqn:E.
  pose proof (uncompress_fits _ _ _ _ E ltac:(lia)). pose proof (zlen_nonneg o).
  eexists e, _, o. split_and!; [done..|by eapply uncompress_bytes|].
  intros ->. cbn. apply s32_small. lia.
Qed.

Lemma split_of_split f f0 :
  frame_wf f0 -> same_buffers f0 f -> headers_of f0 f ->
  sbn_command (fh f) = SBN_COMMAND_DATA_TRANSFER ->
  data_block_offset (pdh f) = 0 \/ CTRLHDR_WMO_SIZE <= data_block_offset (pdh f) ->
  split_frame (split_of f).
Proof.
  intros Hwf Hsb (_ & _ & Hh) Hc Hm.
  destruct (Hh Hc) as (Epd & _ & Hsz & Hle).
  pose proof (pd_header_ranges _ (pdh_bytes _ Hwf)) as (_ & ? & _). rewrite <- Epd in *.
  pose proof Hsb as (_ & Ers & _).
  split; try done.
  - eapply same_buffers_wf; [|exact Hwf]. done.
  - cbn. unfold data_offset in *. cbn. lia.
  - cbn. lia.
Qed.

Lemma set_blk_split f b n e :
  split_frame f -> zlen b = MAX_FRDATA_SIZE -> bytes b ->
  split_frame (set_f_unzstatus e (set_blkdata_size n (set_blkdata b f))).
Proof.
  intros [[]] ??. by split.
Qed.

(** [f'] has the received bytes of [f] *)
Definition same_raw (f f' : sbn_frame) : Prop :=
  rawdata f' = rawdata f /\ rawdata_size f' = rawdata_size f /\
  np_channel_index f' = np_channel_index f.

Section unpack.
Context `{HZl : ZlibSpec}.

(** [f'] keeps what was received and the headers of [f] *)
Definition same_headers (f f' : sbn_frame) : Prop :=
  same_raw f f' /\ fh f' = fh f /\ pdh f' = pdh f /\ psh f' = psh f.

Lemma locate_ccb_finish f f1 :
  split_frame f1 -> same_headers f f1 -> block_number (pdh f1) = 0 -> blk_ok f1 ->
  exists st f', locate_ccb f1 = Done (st, f') /\ frame_wf f' /\ same_headers f f' /\
    (st = 0 \/ st = 2 \/ st = 3) /\ (st = 0 -> located f').
Proof.
  intros Hs Hh Hb Hk.
  destruct (locate_ccb_spec f1 Hs Hb Hk) as (st & f' & E & Esb & Est & Hl).
  exists st, f'. split; [done|]. destruct Hs as [[] _ _ _ _ _ _ _ _].
  split; [rewrite Esb; by split|]. split; [rewrite Esb; done|].
  split; [destruct Est; auto|done].
Qed.

(** the uncompressed data fits the block buffer *)
Lemma uncompress_step f :
  split_frame f -> data_block_offset (pdh f) = 0 ->
  exists e m b,
    (let* (e, n, o) := unz MAX_FRDATA_SIZE (oview f (frdata f)) (frdata_size f) in
     let* b := wr (blkdata f) 0 o in
     Done (e, set_f_unzstatus e (set_blkdata_size n (set_blkdata b f)))) =
    Done (e, set_f_unzstatus e (set_blkdata_size m (set_blkdata b f))) /\
    zlen b = MAX_FRDATA_SIZE /\ bytes b /\ (e = 0 -> 0 <= m <= MAX_FRDATA_SIZE).
Proof.
  intros [Hwf _ _ _ Hf Hfs _ Hsz Hd0] E0. pose proof Hwf as [Hr Hrb Hrs Hkl Hkb].
  unfold SBN_FRAME_SIZE in *. rewrite Hf, E0, Z.add_0_r in *. cbn [oview].
  assert (0 <= data_offset f) by (unfold data_offset; by destruct (_ =? _)).
  destruct (unz_spec MAX_FRDATA_SIZE (view f (PRaw (data_offset f))) (frdata_size f))
    as (e & m & o & Eu & Hol & Hob & Hm0); [done| |lia|].
  { rewrite zlen_view_raw by (done || lia). lia. }
  rewrite Eu. cbn [obind]. pose proof (zlen_nonneg o).
  destruct (wr (blkdata f) 0 o) as [b| |] eqn:Ew; [|rewrite wr_ok in Ew by lia; done..].
  exists e, m, b. split; [done|].
  split; [by rewrite (wr_length _ _ _ _ Ew)|]. split; [by eapply wr_bytes|].
  intros ->. rewrite Hm0 by done. lia.
Qed.

(** the tail of [sbn_unpack_frame], from the split frame on *)
Lemma sbn_unpack_tail f (k : Z * sbn_frame -> outcome (Z * sbn_frame)) :
  split_frame f ->
  (forall p, k p = if negb (p.1 =? 0) then Done (3, p.2) else
     if negb (block_number (pdh p.2) =? 0) then Done (0, set_ccb_size 0 (set_ccb None p.2))
     else locate_ccb p.2) ->
  exists st f',
    obind (if (block_number (pdh f) =? 0) && negb (bool_decide (is_Some (ctrlhdr f)))
              && (f_frdata_compressed f =? 1) then
             let* (e, n, o) := unz MAX_FRDATA_SIZE (oview f (frdata f)) (frdata_size f) in
             let* b := wr (blkdata f) 0 o in
             Done (e, set_f_unzstatus e (set_blkdata_size n (set_blkdata b f)))
           else Done (0, f)) k = Done (st, f') /\
    frame_wf f' /\ same_headers f f' /\
    (st = 0 \/ st = 2 \/ st = 3) /\ (st = 0 -> located f').
Proof.
  intros Hs Hk. pose proof (sf_wf _ Hs) as Hwf. pose proof (sf_hdr _ Hs) as Hh.
  destruct (Z.eqb_spec (block_number (pdh f)) 0) as [Hb|Hb]; cbn [andb].
  2: { cbn [obind]. rewrite Hk. cbn [fst snd Z.eqb negb].
       destruct (Z.eqb_spec (block_number (pdh f)) 0); [done|]. cbn [negb].
       eexists 0, _. split_and!; [done|by destruct Hwf|done|by left|]. intros _.
       eapply same_but_ccb_located; [exact Hs|by destruct f|done..]. }
  destruct (negb (bool_decide (is_Some (ctrlhdr f))) && (f_frdata_compressed f =? 1)) eqn:Ez.
  - apply andb_true_iff in Ez as [Ehd%negb_true_iff _].
    apply bool_decide_eq_false, eq_None_not_Some in Ehd.
    destruct (Z.eqb_spec (data_block_offset (pdh f)) 0) as [E0|]; [|congruence].
    destruct (uncompress_step f Hs E0) as (e & m & b & -> & Hbl & Hbb & Hm).
    cbn [obind]. rewrite Hk. cbn [fst snd].
    set (f1 := set_f_unzstatus e (set_blkdata_size m (set_blkdata b f))).
    assert (split_frame f1) as Hs1 by by apply set_blk_split.
    destruct (Z.eqb_spec e 0) as [->|]; cbn [negb].
    2: { eexists 3, _. split_and!; [done|apply Hs1|done|by auto|done]. }
    change (pdh f1) with (pdh f). rewrite Hb. cbn [Z.eqb negb].
    apply locate_ccb_finish; try done. intros _ _. by apply Hm.
  - cbn [obind]. rewrite Hk. cbn [fst snd Z.eqb negb]. rewrite Hb. cbn [Z.eqb negb].
    apply locate_ccb_finish; try done. intros En Hz. by rewrite En, Hz in Ez.
Qed.

Lemma sbn_unpack_frame_spec f (Hwf : frame_wf f) :
  exists st f', sbn_unpack_frame f = Done (st, f') /\
    frame_wf f' /\ same_raw f f' /\ 0 <= st <= 3 /\
    (st = 0 -> headers_of f f' /\
       (sbn_command (fh f') = SBN_COMMAND_DATA_TRANSFER -> located f')).
Proof.
  destruct (unpack_sbn_headers_spec f Hwf) as (st & f1 & E & Hsb & Hst & Hh).
  pose proof (same_buffers_wf _ _ Hsb Hwf) as Hwf1.
  assert (same_raw f f1) as Hsr by by destruct Hsb as (?&?&?&?).
  unfold sbn_unpack_frame. rewrite E. cbn [obind].
  destruct (Z.eqb_spec st 0) as [->|]; cbn [negb orb].
  2: { eexists st, _. split_and!; done || lia. }
  specialize (Hh eq_refl).
  destruct (Z.eqb_spec (sbn_command (fh f1)) SBN_COMMAND_DATA_TRANSFER) as [Hc|]; cbn [negb].
  2: { eexists 0, _. split_and!; done || lia. }
  pose proof Hh as (_ & _ & Hh'). destruct (Hh' Hc) as (Epd & _ & _ & _). clear Hh'.
  pose proof (pd_header_ranges _ (pdh_bytes _ Hwf)) as (Hdbo & _). rewrite <- Epd in Hdbo.
  change (if block_number (pdh f1) =? 0 then
            FRAME_LEVEL_HEADER_SIZE + PRODUCT_DEF_HEADER_SIZE + PRODUCT_SPEC_HEADER_SIZE
          else FRAME_LEVEL_HEADER_SIZE + PRODUCT_DEF_HEADER_SIZE) with (data_offset f1).
  set (f2 := if data_block_offset (pdh f1) =? 0 then _ else _).
  assert (f2 = set_ctrlhdr_size (data_block_offset (pdh f1))
            (set_ctrlhdr (if data_block_offset (pdh f1) =? 0 then None
                          else Some (PRaw (data_offset f1))) f1)) as ->.
  { subst f2. by destruct (Z.eqb_spec (data_block_offset (pdh f1)) 0) as [->|]. }
  cbn [pdh set_ctrlhdr_size set_ctrlhdr ctrlhdr_size].
  destruct (negb (data_block_offset (pdh f1) =? 0) &&
            (data_block_offset (pdh f1) <? CTRLHDR_WMO_SIZE)) eqn:Emin.
  { eexists 2, _. split_and!; [done|by destruct Hwf1|done|lia|lia|done]. }
  assert (split_frame (split_of f1)) as Hs.
  { eapply split_of_split; [exact Hwf|done..|]. unfold CTRLHDR_WMO_SIZE in *.
    destruct (Z.eqb_spec (data_block_offset (pdh f1)) 0); [by left|]. right.
    cbn in Emin. apply Z.ltb_ge in Emin. lia. }
  set (f3 := set_f_frdata_compressed _ _).
  assert (f3 = split_of f1) as ->.
  { subst f3. unfold split_of. cbn [pdh set_frdata set_frdata_size set_ctrlhdr_size set_ctrlhdr].
    unfold PDH_TRANSFERTYPE_COMPRESSED. by rewrite land_bit4. }
  match goal with
  | |- context [obind _ ?k] => destruct (sbn_unpack_tail (split_of f1) k Hs)
      as (st & f' & Et & Hwf' & (Hr & Efh & Epdh & Epsh) & Hst' & Hl)
  end; [by intros []|].
  exists st, f'. split_and!; [exact Et|done|destruct Hsr as (?&?&?), Hr as (?&?&?); split_and!; etrans; done|lia|lia|].
  intros ->. split; [|by auto].
    destruct Hh as (? & ? & Hh). unfold headers_of, data_offset in *.
    rewrite Efh, Epdh, Epsh. done.
Qed.


End unpack.

(** ** The WMO header *)

(** what a parsed header may hold *)
Definition wmo_valid (w : wmo_header) : Prop :=
  zlen (wmo_id w) = 6 /\ Forall (fun c => isalnum c = true) (wmo_id w) /\
  zlen (wmo_station w) = 4 /\ Forall (fun c => isalpha c = true) (wmo_station w) /\
  zlen (wmo_time w) = 6 /\ Forall (fun c => isdigit c = true) (wmo_time w) /\
  zlen (wmo_awips w) <= 6 /\
  Forall (fun c => c <> 0 /\ isspace c = false) (wmo_awips w) /\
  zlen (wmo_notawips w) <= 6 /\
  Forall (fun c => isalnum c = true) (wmo_notawips w) /\
  (wmo_awips w = [] \/ wmo_notawips w = []).

Lemma forallb_Forall' {A} (p : A -> bool) l : forallb p l = true <-> Forall (fun x => p x = true) l.
Proof.
  induction l as [|x l IH]; simpl; [by split|].
  rewrite andb_true_iff. split.
  - intros [? ?%IH]. by constructor.
  - inversion 1; subst. by rewrite IH.
Qed.

Lemma validate_wmo_0 id station time bbb :
  validate_wmo id station time bbb = 0 <->
  zlen id = 6 /\ Forall (fun c => isalnum c = true) id /\
  zlen station = 4 /\ Forall (fun c => isalpha c = true) station /\
  zlen time = 6 /\ Forall (fun c => isdigit c = true) time /\
  Forall (fun c => isalnum c = true) bbb.
Proof.
  unfold validate_wmo, WMO_ID_SIZE, WMO_STATION_SIZE, WMO_TIME_SIZE.
  rewrite <- !forallb_Forall'.
  ztest; simpl; destruct (forallb isalnum id), (forallb isalpha station),
    (forallb isdigit time), (forallb isalnum bbb); simpl; intuition congruence.
Qed.

Lemma first_line_valid wmo n id station time bbb :
  first_line wmo n = Done (Some (id, station, time, bbb)) ->
  validate_wmo id station time bbb = 0 /\ zlen bbb <= 6.
Proof.
  unfold first_line. intros H. oinv H as cb Hc. oinv H as fields Hf.
  destruct fields as [[[[a b] c] d]|]; [|done].
  destruct (Z.eqb_spec (validate_wmo a b c d) 0) as [Ev|]; [|done].
  injection H as <- <- <- <-. split; [done|].
  destruct (cb =? 3).
  - oinv Hf as l Hl. apply sscanf_words in Hl as [_ Hw].
    destruct l as [|? [|? [|? [|? [|]]]]]; simplify_eq. simpl in Hw.
    do 4 (apply Forall2_cons_1 in Hw as [? Hw]). unfold zlen. lia.
  - destruct (cb =? 2); [|done]. oinv Hf as l Hl.
    destruct l as [|? [|? [|? [|]]]]; simplify_eq. done.
Qed.

Lemma notawips_loop_spec k wmo s :
  notawips_loop k wmo = Done s ->
  (length s <= k)%nat /\ Forall (fun c => isalnum c = true) s.
Proof.
  revert wmo s. induction k as [|k IH]; intros wmo s; simpl.
  { intros [= <-]. done. }
  destruct wmo as [|c wmo]; [done|]. destruct (isalnum c) eqn:E.
  - intros H. oinv H as s' Hs. injection H as <-. apply IH in Hs as [??].
    simpl. split; [lia|by constructor].
  - intros [= <-]. simpl. split; [lia|done].
Qed.

Lemma second_line_valid wmo n bbb a na :
  second_line wmo n bbb = Done (a, na) ->
  Forall (fun c => isalnum c = true) bbb -> zlen bbb <= 6 ->
  zlen a <= 6 /\ Forall (fun c => c <> 0 /\ isspace c = false) a /\
  zlen na <= 6 /\ Forall (fun c => isalnum c = true) na /\ (a = [] \/ na = []).
Proof.
  intros H Hb Hl.
  assert (zlen (@nil Z) <= 6 /\ Forall (fun c => c <> 0 /\ isspace c = false) [] /\
    zlen (ztake 6 bbb) <= 6 /\ Forall (fun c => isalnum c = true) (ztake 6 bbb) /\
    (@nil Z = [] \/ ztake 6 bbb = [])) as Hdef.
  { rewrite ztake_ge by lia. split_and!; first [done | by left]. }
  unfold second_line, WMO_NOTAWIPS_SIZE in H. oinv H as c0 Hc.
  destruct (isalpha c0); cbn [negb] in H; [|by injection H as <- <-].
  oinv H as c8 Hc8. oinv H as [a1 n1] Hx.
  assert (zlen a1 <= 6 /\ Forall (fun c => c <> 0 /\ isspace c = false) a1 /\
    zlen n1 <= 6 /\ Forall (fun c => isalnum c = true) n1 /\ (a1 = [] \/ n1 = [])) as Hok.
  { destruct ((c8 =? 10) && (9 <=? n)).
    - oinv Hx as l Hs. injection Hx as <- <-. apply sscanf_words in Hs as [_ Hw].
      destruct l as [|w [|]]; simpl in Hw.
      + split_and!; first [done | by left].
      + apply Forall2_cons_1 in Hw as [(_ & ? & Hn & Hs) _].
        split_and!; try done; [unfold zlen; lia| |by right].
        unfold nonul in Hn. rewrite Forall_forall in *. auto.
      + split_and!; first [done | by left].
    - oinv Hx as s Hs. injection Hx as <- <-.
      apply notawips_loop_spec in Hs as [??].
      split_and!; try done; [unfold zlen; lia|by left]. }
  destruct a1, n1; injection H as <- <-; done.
Qed.

Lemma split_wmo_header_wmo_valid f w : split_wmo_header f = Done (Some w) -> wmo_valid w.
Proof.
  unfold split_wmo_header. intros H. oinv H as st Hst.
  destruct st as [[wmo n]|]; [|done]. oinv H as l1 Hl.
  destruct l1 as [[[[id sta] tm] bbb]|]; [|done]. oinv H as [i wmo1] Hsk.
  apply first_line_valid in Hl as [(?&?&?&?&?&?&?)%validate_wmo_0 ?].
  destruct (n - 1 <=? i).
  - injection H as <-. unfold wmo_valid; simpl. split_and!; first [done | by left].
  - oinv H as [aw na] Hsl. injection H as <-.
    destruct (second_line_valid _ _ _ _ _ Hsl) as (?&?&?&?&?); [done..|].
    unfold wmo_valid; simpl. split_and!; done.
Qed.

(** [n] bytes of text at the start of [v], followed inside [v] by nine more
    bytes or more and by a terminator *)
Definition text_room (v : list Z) (n : Z) : Prop :=
  0 <= n /\ n + 9 <= zlen v /\ 0 ∈ zdrop n v.

Lemma elem_of_zdrop_le (x : Z) a b l : 0 <= a <= b -> x ∈ zdrop b l -> x ∈ zdrop a l.
Proof.
  intros ? Hx. replace b with (a + (b - a)) in Hx by lia.
  rewrite <- zdrop_drop in Hx by lia.
  rewrite <- (ztake_zdrop (b - a) (zdrop a l)). apply elem_of_app. by right.
Qed.

Lemma count_char_loop_total s i n c k :
  n - i <= zlen s -> exists r, count_char_loop s i n c k = Done r.
Proof.
  revert i k. induction s as [|x s IH]; intros i k Hs; simpl.
  - change (zlen (@nil Z)) with 0 in Hs. destruct (Z.leb_spec n i); [by eauto|lia].
  - destruct (Z.leb_spec n i); [by eauto|]. destruct (_ || _); [by eauto|].
    apply IH. rewrite zlen_cons in Hs. lia.
Qed.

Lemma count_char_total s n c : n <= zlen s -> exists k, count_char s n c = Done k.
Proof. intros. apply count_char_loop_total. lia. Qed.

Lemma skip_ws_total s : 0 ∈ s -> exists r, skip_ws s = Done r /\ 0 ∈ r.
Proof.
  induction s as [|c s IH]; intros H0; [by apply elem_of_nil in H0|]. simpl.
  destruct (isspace c) eqn:Ec; [|by eauto].
  apply IH. apply elem_of_cons in H0 as [<-|]; done.
Qed.

Lemma scan_chars_total w s : 0 ∈ s -> exists x r, scan_chars w s = Done (x, r) /\ 0 ∈ r.
Proof.
  revert s. induction w as [|w IH]; intros s H0; simpl; [by eauto|].
  destruct s as [|c s]; [by apply elem_of_nil in H0|].
  destruct (isspace c || (c =? 0)) eqn:Ec; [by eauto|].
  apply elem_of_cons in H0 as [<-|H0]; [done|].
  destruct (IH s H0) as (x & r & -> & ?). simpl. by eauto.
Qed.

Lemma sscanf_total ws s : 0 ∈ s -> exists l, sscanf ws s = Done l.
Proof.
  revert s. induction ws as [|w ws IH]; intros s H0; simpl; [by eauto|].
  unfold scan_word. destruct (skip_ws_total s H0) as (r & -> & Hr). simpl.
  destruct (scan_chars_total w r Hr) as (x & r' & -> & Hr'). simpl.
  destruct x; [by eauto|]. destruct (IH _ Hr') as [l ->]. simpl. by eauto.
Qed.

Lemma skip_line_total wmo i n :
  0 <= i -> n - i < zlen wmo -> 0 < zlen wmo ->
  exists j r, skip_line wmo i n = Done (j, r) /\ i <= j <= Z.max i n /\ r = zdrop (j - i) wmo.
Proof.
  revert i. induction wmo as [|c wmo IH]; intros i Hi Hn H0; [done|]. simpl.
  destruct (Z.eqb_spec c 10); simpl.
  { exists i, (c :: wmo). split; [done|]. rewrite Z.sub_diag. split; [lia|done]. }
  destruct (Z.ltb_spec i n).
  2: { exists i, (c :: wmo). split; [done|]. rewrite Z.sub_diag. split; [lia|done]. }
  rewrite zlen_cons in *.
  destruct (IH (i + 1)) as (j & r & -> & Hj & ->); [lia..|].
  exists j, (zdrop (j - (i + 1)) wmo). split; [done|]. split; [lia|].
  replace (j - i) with (Z.succ (j - (i + 1))) by lia.
  unfold zdrop. rewrite Z2Nat.inj_succ by lia. done.
Qed.

Lemma notawips_loop_total k wmo : (k <= length wmo)%nat -> exists s, notawips_loop k wmo = Done s.
Proof.
  revert wmo. induction k as [|k IH]; intros wmo Hk; simpl; [by eauto|].
  destruct wmo as [|c wmo]; simpl in Hk; [lia|]. destruct (isalnum c); [|by eauto].
  destruct (IH wmo) as [s ->]; [lia|]. simpl. by eauto.
Qed.

Lemma second_line_total wmo n bbb : 9 <= zlen wmo -> 0 ∈ wmo ->
  exists r, second_line wmo n bbb = Done r.
Proof.
  intros H9 H0. unfold second_line, WMO_NOTAWIPS_SIZE.
  destruct (rd_total wmo 0) as [c0 ->]; [lia|]. cbn [obind].
  destruct (isalpha c0); cbn [negb]; [|by eauto].
  destruct (rd_total wmo 8) as [c8 ->]; [lia|]. cbn [obind].
  assert (forall (a na : list Z), exists r : list Z * list Z,
    match a with
    | [] => match na with [] => Done ([], ztake 6 bbb) | _ => Done (a, na) end
    | _ => Done (a, na) end = Done r) as Hfin by (intros [] []; by eauto).
  destruct ((c8 =? 10) && (9 <=? n)).
  - destruct (sscanf_total [6%nat] wmo H0) as [l ->]. cbn [obind]. apply (Hfin _ []).
  - destruct (notawips_loop_total (Z.to_nat (Z.min 6 n)) wmo) as [s ->].
    { unfold zlen in *. lia. }
    cbn [obind]. apply (Hfin []).
Qed.

Lemma first_line_total wmo n : text_room wmo n -> exists r, first_line wmo n = Done r.
Proof.
  intros (H0 & Hl & Hz). unfold first_line.
  assert (0 ∈ wmo) as Hz'.
  { rewrite <- (zdrop_0 wmo). by apply (elem_of_zdrop_le 0 0 n); [lia|]. }
  destruct (count_char_total wmo n 32) as [k ->]; [lia|]. cbn [obind].
  assert (forall o : option (list Z * list Z * list Z * list Z), exists r : option _,
    match o with
    | Some (id, station, time, bbb) =>
        if negb (validate_wmo id station time bbb =? 0) then Done None
        else Done (Some (id, station, time, bbb))
    | None => Done None end = Done r) as Hfin.
  { intros [[[[]?]?]|]; [|by eauto]. destruct (negb _); by eauto. }
  destruct (k =? 3); [|destruct (k =? 2)].
  - destruct (sscanf_total [6; 4; 6; 6]%nat wmo Hz') as [l ->]. cbn [obind]. apply Hfin.
  - destruct (sscanf_total [6; 4; 6]%nat wmo Hz') as [l ->]. cbn [obind]. apply Hfin.
  - apply (Hfin None).
Qed.

(** [split_wmo_header] on the text it has found *)
Lemma split_wmo_text_total f r :
  wmo_start f = Done r ->
  (forall v n, r = Some (v, n) -> text_room v n) ->
  exists w, split_wmo_header f = Done w.
Proof.
  intros E Hr. unfold split_wmo_header. rewrite E. cbn [obind].
  destruct r as [[v n]|]; [|by eauto]. specialize (Hr v n eq_refl).
  destruct (first_line_total v n Hr) as [[[[[id sta] tm] bbb]|] ->]; cbn [obind]; [|by eauto].
  destruct Hr as (H0 & Hl & Hz).
  destruct (skip_line_total v 0 n) as (j & r & -> & Hj & ->); [lia..|]. cbn [obind].
  destruct (Z.leb_spec (n - 1) j); [by eauto|].
  rewrite zdrop_drop by lia.
  destruct (second_line_total (zdrop (j - 0 + 1) v) (n - (j + 1)) bbb) as [[a na] ->].
  - rewrite zlen_drop; lia.
  - apply (elem_of_zdrop_le 0 _ n); [lia|done].
  - cbn [obind]. by eauto.
Qed.

(** behind the first [n] bytes of the array there are nine more and a zero *)
Definition spare (a : list Z) (n : Z) : Prop := n + 9 <= zlen a /\ 0 ∈ zdrop n a.

Lemma wmo_start_total f :
  frame_wf f -> located f -> block_number (pdh f) = 0 -> 0 <= frdata_size f ->
  rawdata_size f = data_offset f + data_block_size (pdh f) ->
  0 <= data_block_offset (pdh f) ->
  spare (rawdata f) (rawdata_size f) ->
  (f_frdata_compressed f = 1 -> spare (blkdata f) (blkdata_size f)) ->
  exists r, wmo_start f = Done r /\ forall v n, r = Some (v, n) -> text_room v n.
Proof.
  intros Hwf Hl Hb Hfr Hsz H0 [Hs1 Hs2] Hsb. unfold wmo_start.
  pose proof (loc_hdr_size _ Hl) as Hhs. pose proof (loc_frdata_size _ Hl) as Hfs.
  assert (data_offset f = 68) as Ho by (unfold data_offset; by rewrite Hb).
  pose proof (fwf_raw _ Hwf) as Hr.
  pose proof (loc_hdr _ Hl) as Hh. rewrite Ho in *. destruct (ctrlhdr f) as [h|] eqn:Eh.
  - destruct (Z.eqb_spec (data_block_offset (pdh f)) 0); [done|]. injection Hh as ->.
    assert (forall k, 0 <= k <= ctrlhdr_size f ->
              text_room (view f (PRaw (68 + k))) (ctrlhdr_size f - k)) as Hroom.
    { intros k ?. cbn [view]. split; [lia|]. rewrite zlen_drop, zdrop_drop by lia.
      split; [lia|]. apply (elem_of_zdrop_le 0 _ (rawdata_size f)); [lia|done]. }
    destruct (rd_total (view f (PRaw 68)) 0) as [c ->].
    { rewrite zlen_view_raw by (done || lia). lia. }
    cbn [obind]. unfold CTRLHDR_WMO_SIZE, CCB_SIZE.
    destruct (isalpha c); cbv beta iota.
    + destruct (Z.ltb_spec (ctrlhdr_size f) 21); eexists; (split; [done|]); [done|].
      intros ?? [= <- <-]. specialize (Hroom 0). rewrite Z.sub_0_r in Hroom. apply Hroom. lia.
    + destruct (Z.ltb_spec (ctrlhdr_size f - 24) 21); eexists; (split; [done|]); [done|].
      intros ?? [= <- <-]. apply (Hroom 24). lia.
  - eexists. split; [done|]. intros v n [= <- <-].
    destruct (loc_pdata _ Hl Hb Eh) as [Hp0 Hp]. split; [done|].
    destruct (pdata f) as [[o|o]|]; [| |done]; cbn [oview view].
    + destruct Hp as [Ho0 Hp]. rewrite zlen_drop, zdrop_drop by lia. split; [lia|].
      by rewrite Hp.
    + destruct Hp as (Ho0 & Hp & Hpm & Hc). destruct (Hsb Hc) as [Hb1 Hb2].
      pose proof (fwf_blk _ Hwf). rewrite zlen_drop, zdrop_drop by lia.
      split; [lia|]. by rewrite Hp.
Qed.

(** On the first frame of a product, with its control header inside the
    data block and some room (nine bytes and a terminator) behind the received
    data in the buffer, [split_wmo_header] always returns, and when it accepts
    the header the fields are well formed: a six character alphanumeric id, a
    four letter station, a six digit time, an AWIPS id of at most six printable
    characters or else an alphanumeric second word, never both. *)
Theorem split_wmo_header_correct (f : sbn_frame)
  (Hwf : frame_wf f) (Hl : located f) (Hb : block_number (pdh f) = 0)
  (Hfr : 0 <= frdata_size f)
  (Hsz : rawdata_size f = data_offset f + data_block_size (pdh f))
  (Hdbo : 0 <= data_block_offset (pdh f))
  (Hraw : spare (rawdata f) (rawdata_size f))
  (Hblk : f_frdata_compressed f = 1 -> spare (blkdata f) (blkdata_size f)) :
  exists r, split_wmo_header f = Done r /\ (forall w, r = Some w -> wmo_valid w).
Proof.
  destruct (wmo_start_total f) as (r & E & Hr); [done..|].
  destruct (split_wmo_text_total f r E Hr) as [w Ew].
  exists w. split; [done|]. intros w' ->. by eapply split_wmo_header_wmo_valid.
Qed.

(** ** Parsing a well-formed heading *)

Definition word (s : list Z) : Prop := Forall (fun c => isspace c = false /\ c <> 0) s.

Lemma skip_ws_word s r : s <> [] -> word s -> skip_ws (s ++ r) = Done (s ++ r).
Proof.
  destruct s as [|c s]; [done|]. intros _ Hw. inversion Hw as [|?? [Hc _]]; subst.
  simpl. by rewrite Hc.
Qed.

Lemma scan_chars_word s r : word s -> scan_chars (length s) (s ++ r) = Done (s, r).
Proof.
  induction 1 as [|c s [Hc Hz] _ IH]; simpl; [done|].
  rewrite Hc. destruct (Z.eqb_spec c 0); [done|]. simpl. by rewrite IH.
Qed.

Lemma scan_word_word s r : s <> [] -> word s -> scan_word (length s) (s ++ r) = Done (s, r).
Proof.
  intros. unfold scan_word. rewrite skip_ws_word by done. simpl. by apply scan_chars_word.
Qed.

Lemma scan_word_blank w c r : isspace c = true -> scan_word w (c :: r) = scan_word w r.
Proof. intros Hc. unfold scan_word. simpl. by rewrite Hc. Qed.

Lemma sscanf_cons s ws r : s <> [] -> word s ->
  sscanf (length s :: ws) (s ++ r) = let* l := sscanf ws r in Done (s :: l).
Proof.
  intros. cbn [sscanf]. rewrite scan_word_word by done. cbn [obind]. by destruct s.
Qed.

Lemma sscanf_blank ws c r : isspace c = true -> ws <> [] -> sscanf ws (c :: r) = sscanf ws r.
Proof. destruct ws; [done|]. intros. cbn [sscanf]. by rewrite scan_word_blank. Qed.

Lemma count_char_loop_app s r i n c k :
  Forall (fun x => x <> 10 /\ x <> 0 /\ x <> c) s -> i + zlen s <= n ->
  count_char_loop (s ++ r) i n c k = count_char_loop r (i + zlen s) n c k.
Proof.
  intros Hs. revert i. induction Hs as [|x s (H1 & H2 & H3) _ IH]; intros i Hn.
  { simpl. by rewrite zlen_nil, Z.add_0_r. }
  rewrite zlen_cons in *. pose proof (zlen_nonneg s). cbn [count_char_loop app].
  destruct (Z.leb_spec n i); [lia|]. destruct (Z.eqb_spec x 10); [done|].
  destruct (Z.eqb_spec x 0); [done|]. destruct (Z.eqb_spec x c); [done|]. simpl.
  rewrite IH by lia. f_equal. lia.
Qed.

Lemma skip_line_app s r i n :
  Forall (fun x => x <> 10) s -> i + zlen s < n ->
  skip_line (s ++ 10 :: r) i n = Done (i + zlen s, 10 :: r).
Proof.
  intros Hs. revert i. induction Hs as [|x s H1 _ IH]; intros i Hn; simpl.
  { by rewrite zlen_nil, Z.add_0_r. }
  rewrite zlen_cons in *. pose proof (zlen_nonneg s).
  destruct (Z.eqb_spec x 10); [done|]. simpl.
  destruct (Z.ltb_spec i n); [|lia]. rewrite IH by lia. do 2 f_equal. lia.
Qed.

Lemma alnum_char c : isalnum c = true ->
  isspace c = false /\ c <> 0 /\ c <> 10 /\ c <> 32 /\ c <> 13.
Proof.
  unfold isalnum, isalpha, isupper, islower, isdigit, isspace. intros H.
  assert (48 <= c) by (ztest; simpl in H; lia || done). clear H.
  ztest; simpl; lia.
Qed.

Lemma alpha_alnum c : isalpha c = true -> isalnum c = true.
Proof. intros H. unfold isalnum. by rewrite H. Qed.
Lemma digit_alnum c : isdigit c = true -> isalnum c = true.
Proof. intros H. unfold isalnum. rewrite H. apply orb_true_r. Qed.

Lemma alnum_word s : Forall (fun c => isalnum c = true) s -> word s.
Proof. apply Forall_impl. intros c ?%alnum_char. naive_solver. Qed.

Lemma alnum_plain s c : Forall (fun c => isalnum c = true) s -> c = 32 \/ c = 13 ->
  Forall (fun x => x <> 10 /\ x <> 0 /\ x <> c) s.
Proof.
  intros Hs Hc. eapply Forall_impl; [|exact Hs]. intros x ?%alnum_char. naive_solver.
Qed.

(** the first line of a heading, and a heading with an AWIPS line *)
Definition wmo_line (id station time : list Z) : list Z :=
  id ++ 32 :: station ++ 32 :: time ++ [13; 13].
Definition wmo_heading (id station time awips : list Z) : list Z :=
  wmo_line id station time ++ 10 :: awips ++ [13; 13; 10].

Section heading.
Context (id station time awips : list Z).
Hypothesis Hid : zlen id = 6 /\ Forall (fun c => isalnum c = true) id.
Hypothesis Hstation : zlen station = 4 /\ Forall (fun c => isalpha c = true) station.
Hypothesis Htime : zlen time = 6 /\ Forall (fun c => isdigit c = true) time.

Lemma station_alnum : Forall (fun c => isalnum c = true) station.
Proof. eapply Forall_impl; [apply alpha_alnum|apply Hstation]. Qed.
Lemma time_alnum : Forall (fun c => isalnum c = true) time.
Proof. eapply Forall_impl; [apply digit_alnum|apply Htime]. Qed.

Lemma zlen_wmo_line : zlen (wmo_line id station time) = 20.
Proof. unfold wmo_line. autorewrite with zlen. lia. Qed.

Lemma first_line_parses rest n :
  20 <= n ->
  first_line (wmo_line id station time ++ 10 :: rest) n = Done (Some (id, station, time, [])).
Proof.
  intros Hn. destruct Hid as [Hi1 Hi2], Hstation as [Hs1 Hs2], Htime as [Ht1 Ht2].
  pose proof station_alnum as Hs3. pose proof time_alnum as Ht3.
  assert (count_char (wmo_line id station time ++ 10 :: rest) n 32 = Done 2) as Hc.
  { unfold count_char, wmo_line. rewrite <- app_assoc. cbn [app].
    rewrite <- app_assoc. cbn [app]. rewrite <- app_assoc. cbn [app].
    rewrite count_char_loop_app by (lia || by apply alnum_plain; auto).
    cbn [count_char_loop]. destruct (Z.leb_spec n (0 + zlen id)); [lia|]. cbn [Z.eqb orb Pos.eqb].
    rewrite count_char_loop_app by (lia || by apply alnum_plain; auto).
    cbn [count_char_loop]. destruct (Z.leb_spec n (0 + zlen id + 1 + zlen station)); [lia|].
    cbn [Z.eqb orb Pos.eqb].
    rewrite count_char_loop_app by (lia || by apply alnum_plain; auto).
    cbn [count_char_loop]. ztest; simpl; done || lia. }
  unfold first_line. rewrite Hc. cbn [obind Z.eqb Pos.eqb].
  assert (sscanf [6; 4; 6]%nat (wmo_line id station time ++ 10 :: rest) =
          Done [id; station; time]) as Hsc.
  { unfold wmo_line. rewrite <- app_assoc.
    change 6%nat with (Z.to_nat 6). change 4%nat with (Z.to_nat 4).
    rewrite <- Hi1 at 1. rewrite <- Hs1, <- Ht1. unfold zlen. rewrite !Nat2Z.id.
    rewrite sscanf_cons; [|intros ->; done|by apply alnum_word].
    cbn [app]. rewrite sscanf_blank by done. rewrite <- app_assoc.
    rewrite sscanf_cons; [|intros ->; done|by apply alnum_word].
    cbn [app]. rewrite sscanf_blank by done. rewrite <- app_assoc.
    rewrite sscanf_cons; [|intros ->; done|by apply alnum_word]. done. }
  rewrite Hsc. cbn [obind].
  by rewrite (proj2 (validate_wmo_0 id station time [])) by (split_and!; done).
Qed.

Hypothesis Hawips : zlen awips = 6 /\ word awips.
Hypothesis Hawips0 : exists c s, awips = c :: s /\ isalpha c = true.

Lemma second_line_parses rest n :
  9 <= n -> second_line (awips ++ [13; 13; 10] ++ rest) n [] = Done (awips, []).
Proof.
  intros Hn. destruct Hawips as [Ha1 Ha2]. destruct Hawips0 as (c & s & Ea & Hc).
  unfold second_line.
  assert (rd (awips ++ [13; 13; 10] ++ rest) 0 = Done c) as -> by by rewrite Ea.
  assert (rd (awips ++ [13; 13; 10] ++ rest) 8 = Done 10) as ->.
  { apply rd_Done. rewrite znth_app_r by lia. by rewrite Ha1. }
  cbn [obind]. rewrite Hc. cbn [negb Z.eqb Pos.eqb andb].
  destruct (Z.leb_spec 9 n); [|lia].
  assert (sscanf [6%nat] (awips ++ [13; 13; 10] ++ rest) = Done [awips]) as ->.
  { change 6%nat with (Z.to_nat 6). rewrite <- Ha1. unfold zlen. rewrite Nat2Z.id.
    rewrite sscanf_cons; [done|intros ->; done|done]. }
  cbn [obind]. by rewrite Ea.
Qed.

Lemma split_heading f rest :
  ctrlhdr f = None -> oview f (pdata f) = wmo_heading id station time awips ++ rest ->
  30 <= pdata_size f ->
  split_wmo_header f = Done (Some (WmoHeader id station time awips [])).
Proof.
  intros Hh Ev Hn. unfold split_wmo_header, wmo_start. rewrite Hh, Ev. cbn [obind].
  unfold wmo_heading. rewrite <- app_assoc. cbn [app].
  rewrite first_line_parses by lia. cbn [obind].
  pose proof zlen_wmo_line as Hl.
  rewrite skip_line_app.
  - cbn [obind]. rewrite Hl.
    destruct (Z.leb_spec (pdata_size f - 1) (0 + 20)); [lia|].
    change (zdrop 1 (10 :: (awips ++ [13; 13; 10]) ++ rest))
      with ((awips ++ [13; 13; 10]) ++ rest).
    rewrite <- app_assoc, second_line_parses by lia. done.
  - unfold wmo_line. destruct Hid, Hstation, Htime.
    pose proof station_alnum. pose proof time_alnum.
    assert (forall s, Forall (fun c => isalnum c = true) s -> Forall (fun x => x <> 10) s) as Hp.
    { intros s. apply Forall_impl. intros c ?%alnum_char. naive_solver. }
    apply Forall_app. split; [by apply Hp|]. constructor; [done|].
    apply Forall_app. split; [by apply Hp|]. constructor; [done|].
    apply Forall_app. split; [by apply Hp|]. by repeat constructor.
  - lia.
Qed.
End heading.

(** C19: A product that starts with a standard heading (id, station and time
    separated by blanks, then a line with a six character AWIPS id) is parsed
    into exactly those fields. *)
Theorem split_wmo_header_parses (f : sbn_frame) (id station time awips rest : list Z)
  (Hid : zlen id = 6 /\ Forall (fun c => isalnum c = true) id)
  (Hstation : zlen station = 4 /\ Forall (fun c => isalpha c = true) station)
  (Htime : zlen time = 6 /\ Forall (fun c => isdigit c = true) time)
  (Hawips : zlen awips = 6 /\ word awips)
  (Hawips0 : exists c s, awips = c :: s /\ isalpha c = true)
  (Hh : ctrlhdr f = None)
  (Hdata : oview f (pdata f) = wmo_heading id station time awips ++ rest)
  (Hsize : 30 <= pdata_size f) :
  split_wmo_header f = Done (Some (WmoHeader id station time awips [])).
Proof. by eapply split_heading. Qed.

(** ** Corruption of the frame level header *)

(** what the header says of its sum, minus the sum *)
Definition fl_excess (d : list Z) : Z := Z.shiftl (bt d 14) 8 + bt d 15 - zsum (ztake 14 d).

Lemma fl_status d : (unpack_fl_header d).1 = if fl_excess d =? 0 then 0 else 1.
Proof.
  unfold unpack_fl_header, fl_excess, FRAME_LEVEL_HEADER_SIZE. cbn [fst].
  change (16 - 2) with 14. ztest; lia.
Qed.

Lemma zsum_insert l i (x b : Z) : l !! i = Some x -> zsum (<[i:=b]> l) = zsum l - x + b.
Proof.
  revert i. induction l as [|y l IH]; intros [|i] Hx; simpl in *; try done.
  - injection Hx as ->. lia.
  - rewrite (IH _ Hx). lia.
Qed.

Lemma bt_insert_eq d i b : (i < length d)%nat -> bt (<[i:=b]> d) (Z.of_nat i) = b.
Proof.
  intros. unfold bt. rewrite znth_lookup, Nat2Z.id, list_lookup_insert_eq; done || lia.
Qed.
Lemma bt_insert_ne d i b j : j <> Z.of_nat i -> bt (<[i:=b]> d) j = bt d j.
Proof.
  intros. unfold bt, znth. destruct (Z.ltb_spec j 0); [done|].
  rewrite list_lookup_insert_ne; [done|lia].
Qed.

Lemma fl_excess_insert d i x b :
  length d = 16%nat -> d !! i = Some x -> b <> x ->
  fl_excess (<[i:=b]> d) <> fl_excess d.
Proof.
  intros Hl Hx Hb. pose proof (lookup_lt_Some _ _ _ Hx) as Hi.
  unfold fl_excess. rewrite !Z.shiftl_mul_pow2 by lia. change (2 ^ 8) with 256.
  assert (bt d (Z.of_nat i) = x) as Ex.
  { unfold bt. by rewrite znth_lookup, Nat2Z.id, Hx by lia. }
  destruct (decide (i < 14)%nat).
  - rewrite !bt_insert_ne by lia. unfold ztake.
    rewrite take_insert_lt by lia.
    rewrite (zsum_insert _ _ x); [lia|]. rewrite lookup_take_lt; [done|lia].
  - unfold ztake. rewrite take_insert_ge by lia.
    destruct (decide (i = 14%nat)) as [->|].
    + change 14 with (Z.of_nat 14) at 1. rewrite bt_insert_eq by lia.
      rewrite bt_insert_ne by lia. change (Z.of_nat 14) with 14 in Ex. lia.
    + assert (i = 15%nat) as -> by lia. change 15 with (Z.of_nat 15) at 1.
      rewrite bt_insert_eq by lia. rewrite bt_insert_ne by lia.
      change (Z.of_nat 15) with 15 in Ex. lia.
Qed.

Definition set_rawdata (v : list Z) (f : sbn_frame) : sbn_frame :=
  SbnFrame v (rawdata_size f) (fh f) (pdh f) (psh f) (np_channel_index f)
    (ctrlhdr f) (ctrlhdr_size f) (frdata f) (frdata_size f) (blkdata f)
    (blkdata_size f) (ccb f) (ccb_size f) (pdata f) (pdata_size f)
    (f_frdata_compressed f) (f_unzstatus f).

Lemma bad_checksum_rejected `{Zlib} f :
  frame_wf f -> 16 <= rawdata_size f -> fl_excess (zsub 0 16 (rawdata f)) <> 0 ->
  sbn_unpack_frame f = Done (1, set_fh (unpack_fl_header (zsub 0 16 (rawdata f))).2 f).
Proof.
  intros Hwf Hs Hne. pose proof (fwf_raw _ Hwf) as Hr. unfold SBN_FRAME_SIZE in Hr.
  unfold sbn_unpack_frame, unpack_sbn_headers, FRAME_LEVEL_HEADER_SIZE.
  destruct (Z.ltb_spec (rawdata_size f) 16); [lia|]. rewrite rdn_ok by lia. cbn [obind].
  pose proof (fl_status (zsub 0 16 (rawdata f))) as Hst.
  destruct (unpack_fl_header (zsub 0 16 (rawdata f))) as [st fl]. cbn [fst snd] in *.
  destruct (Z.eqb_spec (fl_excess (zsub 0 16 (rawdata f))) 0); [done|]. by subst st.
Qed.

(** If a frame is accepted and one byte of its sixteen byte frame level
    header is altered, the altered frame is rejected with the checksum status. *)
Theorem sbn_header_corruption_rejected `{ZlibSpec} (f f' : sbn_frame) (i : nat) (b : Z)
  (Hwf : frame_wf f) (Hok : sbn_unpack_frame f = Done (0, f'))
  (Hi : (i < 16)%nat) (Hb : is_byte b) (Hne : bt (rawdata f) (Z.of_nat i) <> b) :
  exists f2, sbn_unpack_frame (set_rawdata (<[i:=b]> (rawdata f)) f) = Done (1, f2).
Proof.
  pose proof (fwf_raw _ Hwf) as Hr. unfold SBN_FRAME_SIZE in Hr.
  destruct (sbn_unpack_frame_spec f Hwf) as (st & f1 & E & _ & _ & _ & Hst).
  rewrite Hok in E. injection E as <- <-. destruct (Hst eq_refl) as [(_ & Hck & _) _].
  rewrite fl_status in Hck.
  destruct (Z.eqb_spec (fl_excess (zsub 0 16 (rawdata f))) 0) as [H0|]; [|done].
  assert (16 <= rawdata_size f).
  { unfold sbn_unpack_frame, unpack_sbn_headers, FRAME_LEVEL_HEADER_SIZE in Hok.
    destruct (Z.ltb_spec (rawdata_size f) 16); [done|lia]. }
  eexists. apply bad_checksum_rejected; [|done|].
  - destruct Hwf. split; try done; cbn [rawdata set_rawdata].
    + unfold zlen. rewrite length_insert. done.
    + by apply Forall_insert.
  - cbn [rawdata set_rawdata]. unfold zsub, ztake in *. rewrite zdrop_0 in *.
    change (Z.to_nat 16) with 16%nat in *. rewrite take_insert_lt by done.
    rewrite <- H0. unfold zlen in Hr.
    apply (fl_excess_insert _ _ (bt (rawdata f) (Z.of_nat i))); [| |done].
    + rewrite length_take. lia.
    + rewrite lookup_take_lt by lia. unfold bt. rewrite znth_lookup, Nat2Z.id by lia.
      destruct (rawdata f !! i) eqn:Ei; [done|]. apply lookup_ge_None in Ei. lia.
Qed.

(** ** Oversized control headers *)

(** A data frame whose product definition header announces a data block
    offset above [MAX_CTRLHDR_SIZE] is accepted by [sbn_unpack_frame]; copying
    its control header then fails the assertion of [copy_ctrlheader]. *)
Theorem copy_ctrlheader_aborts `{ZlibSpec} (f f' : sbn_frame)
  (Hwf : frame_wf f) (Hok : sbn_unpack_frame f = Done (0, f'))
  (Hdata : sbn_command (fh f') = SBN_COMMAND_DATA_TRANSFER)
  (Hbig : MAX_CTRLHDR_SIZE < data_block_offset (pdh f')) :
  copy_ctrlheader MAX_CTRLHDR_SIZE f' = Abrt.
Proof.
  destruct (sbn_unpack_frame_spec f Hwf) as (st & f1 & E & _ & _ & _ & Hst).
  rewrite Hok in E. injection E as <- <-. destruct (Hst eq_refl) as [_ Hl].
  specialize (Hl Hdata). unfold copy_ctrlheader, c_assert.
  rewrite (loc_hdr _ Hl), (loc_hdr_size _ Hl). unfold MAX_CTRLHDR_SIZE in *.
  destruct (Z.eqb_spec (data_block_offset (pdh f')) 0); [lia|].
  destruct (Z.ltb_spec 58 (data_block_offset (pdh f'))); [|lia].
  by destruct (Z.leb_spec (data_block_offset (pdh f')) 58); [lia|].
Qed.

(** ** Concrete frames *)

(** a stand-in for zlib that stores bytes *)
Definition demo_zlib : Zlib :=
  {| uncompress := fun d cap => if zlen d <=? cap then (0, map u8 d) else (-5, []) |}.

Lemma demo_zlib_spec : @ZlibSpec demo_zlib.
Proof.
  split; intros d cap e o; simpl; destruct (Z.leb_spec (zlen d) cap); intros [= <- <-].
  - intros _. unfold zlen in *. rewrite length_map. lia.
  - intros ?. by rewrite zlen_nil.
  - apply Forall_fmap, Forall_true. intros x. apply u8_range.
  - constructor.
Qed.

Definition zero_fh := FrameLevelHeader 0 0 0 0 0 0 0 0 0 0 0 0 0.
Definition zero_pdh := ProductDefHeader 0 0 0 0 0 0 0 0 0 0.
Definition zero_psh := ProductSpecHeader 0 0 0 0 0 0 0 0 0 0 0 0 0 0 0 0 0 0 0.

(** the frame in which the bytes [raw] have been received *)
Definition recv_frame (raw : list Z) : sbn_frame :=
  SbnFrame (ztake 5200 (raw ++ replicate (Z.to_nat 5200) 0)) (Z.min 5200 (zlen raw))
    zero_fh zero_pdh zero_psh 0 None 0 None 0 (replicate (Z.to_nat 5200) 0) 0 None 0 None 0 0 0.

Lemma recv_frame_wf raw : bytes raw -> frame_wf (recv_frame raw).
Proof.
  intros Hb. pose proof (zlen_nonneg raw).
  assert (bytes (replicate (Z.to_nat 5200) 0)) by by apply Forall_replicate.
  split; unfold recv_frame; cbn [rawdata rawdata_size blkdata]; try done.
  - unfold SBN_FRAME_SIZE. rewrite zlen_take; autorewrite with zlen; lia.
  - apply bytes_ztake, bytes_app. done.
  - unfold SBN_FRAME_SIZE. lia.
Qed.

(** headers of a first frame: [n] bytes of data, of which [off] of control header *)
Definition demo_headers (off n : Z) : list Z :=
  let fl := [255; 0; 65; 0; 3; 5; 0; 0; 0; 0; 0; 7; 0; 1] in
  fl ++ split16 (zsum fl) ++
  [65; 1; 0; 52; 0; 0] ++ split16 off ++ split16 n ++ [1; 1; 0; 0; 0; 9] ++
  replicate 36 0.

(** "SDUS53 KDVN 211802", "N0RDVN" and some text *)
Definition demo_text : list Z :=
  wmo_heading [83; 68; 85; 83; 53; 51] [75; 68; 86; 78] [50; 49; 49; 56; 48; 50]
    [78; 48; 82; 68; 86; 78] ++ [84; 69; 88; 84].

Definition demo_frame : sbn_frame := recv_frame (demo_headers 0 34 ++ demo_text).
Definition demo_unpacked : sbn_frame :=
  match @sbn_unpack_frame demo_zlib demo_frame with
  | Done (_, f) => f
  | _ => demo_frame
  end.

Lemma demo_frame_wf : frame_wf demo_frame.
Proof. apply recv_frame_wf. apply (bool_decide_unpack _). by vm_compute. Qed.

Lemma demo_unpack_eq : @sbn_unpack_frame demo_zlib demo_frame = Done (0, demo_unpacked).
Proof. by vm_compute. Qed.

Lemma demo_unpacked_ok : frame_wf demo_unpacked /\ located demo_unpacked.
Proof.
  destruct (@sbn_unpack_frame_spec demo_zlib demo_zlib_spec demo_frame demo_frame_wf)
    as (st & f' & E & Hwf & _ & _ & Hl).
  rewrite demo_unpack_eq in E. injection E as <- <-.
  split; [done|]. apply Hl; [done|]. by vm_compute.
Qed.


Lemma split_wmo_header_correct_witness :
  exists r, split_wmo_header demo_unpacked = Done r /\ (forall w, r = Some w -> wmo_valid w).
Proof.
  destruct demo_unpacked_ok as [Hwf Hl].
  apply (split_wmo_header_correct demo_unpacked); [exact Hwf|exact Hl|..].
  - by vm_compute.
  - by vm_compute.
  - by vm_compute.
  - by vm_compute.
  - apply (bool_decide_unpack _). by vm_compute.
  - intros H. by vm_compute in H.
Defined.

Lemma split_wmo_header_parses_witness :
  split_wmo_header demo_unpacked =
  Done (Some (WmoHeader [83; 68; 85; 83; 53; 51] [75; 68; 86; 78] [50; 49; 49; 56; 48; 50]
                [78; 48; 82; 68; 86; 78] [])).
Proof.
  apply (split_wmo_header_parses demo_unpacked [83; 68; 85; 83; 53; 51] [75; 68; 86; 78]
           [50; 49; 49; 56; 48; 50] [78; 48; 82; 68; 86; 78]
           (zdrop 30 (oview demo_unpacked (pdata demo_unpacked)))).
  - split; [done|by repeat constructor].
  - split; [done|by repeat constructor].
  - split; [done|by repeat constructor].
  - split; [done|by repeat constructor].
  - by eexists _, _.
  - by vm_compute.
  - by vm_compute.
  - by vm_compute.
Defined.

Lemma sbn_header_corruption_rejected_witness :
  exists f2, @sbn_unpack_frame demo_zlib
    (set_rawdata (<[5%nat:=6]> (rawdata demo_frame)) demo_frame) = Done (1, f2).
Proof.
  apply (@sbn_header_corruption_rejected demo_zlib demo_zlib_spec demo_frame demo_unpacked 5 6).
  - apply demo_frame_wf.
  - apply demo_unpack_eq.
  - lia.
  - unfold is_byte. lia.
  - by vm_compute.
Defined.

(** sixty bytes of control header *)
Definition demo_big_header : sbn_frame :=
  recv_frame (demo_headers 60 64 ++ replicate 64 65).
Definition demo_big_unpacked : sbn_frame :=
  match @sbn_unpack_frame demo_zlib demo_big_header with
  | Done (_, f) => f
  | _ => demo_big_header
  end.

Lemma copy_ctrlheader_aborts_witness :
  copy_ctrlheader MAX_CTRLHDR_SIZE demo_big_unpacked = Abrt.
Proof.
  apply (@copy_ctrlheader_aborts demo_zlib demo_zlib_spec demo_big_header).
  - apply recv_frame_wf. apply (bool_decide_unpack _). by vm_compute.
  - by vm_compute.
  - by vm_compute.
  - by vm_compute.
Defined.

(** A first frame whose control header is announced larger than its data
    block is accepted, with a negative size for the frame data. *)
Theorem negative_frame_data_accepted :
  exists raw f', bytes raw /\ zlen raw < SBN_FRAME_SIZE /\
    @sbn_unpack_frame demo_zlib (recv_frame raw) = Done (0, f') /\
    sbn_command (fh f') = SBN_COMMAND_DATA_TRANSFER /\
    frdata_size f' = -16 /\ ctrlhdr_size f' = 50.
Proof.
  exists (demo_headers 50 34 ++ demo_text).
  eexists. split; [apply (bool_decide_unpack _); by vm_compute|].
  split; [by vm_compute|]. split; [by vm_compute|]. by vm_compute.
Qed.
