(* ===== verification/Stats.v ===== *)
(** * Stats: src/src/stats.c, the counters of frames and products

    The counters are [unsigned int]s of the global [g.nbspstats], incremented
    by the readers and the processor. The time stamp of the report and the
    writing of the status file are not modelled. *)

From S2P Require Import Prelude.

Record nbsp_stats_st := NbspStats {
  frames_processed : Z;
  frames_jumps : Z;
  frames_bad : Z;
  frames_received : Z;
  frames_data_size : Z;
  products_transmitted : Z;
  products_retransmitted : Z;
  products_retransmitted_c : Z;
  products_retransmitted_p : Z;
  products_retransmitted_i : Z;
  products_retransmitted_r : Z;
  products_completed : Z;
  products_missed : Z;
  products_bad : Z;
  products_aborted : Z;
  products_rejected : Z;
  products_rtx_index : Z
}.

Definition set_frames_processed v (s : nbsp_stats_st) := NbspStats v
  (frames_jumps s) (frames_bad s) (frames_received s) (frames_data_size s)
  (products_transmitted s) (products_retransmitted s)
  (products_retransmitted_c s) (products_retransmitted_p s)
  (products_retransmitted_i s) (products_retransmitted_r s)
  (products_completed s) (products_missed s) (products_bad s)
  (products_aborted s) (products_rejected s) (products_rtx_index s).
Definition set_frames_jumps v (s : nbsp_stats_st) := NbspStats
  (frames_processed s) v (frames_bad s) (frames_received s) (frames_data_size
  s) (products_transmitted s) (products_retransmitted s)
  (products_retransmitted_c s) (products_retransmitted_p s)
  (products_retransmitted_i s) (products_retransmitted_r s)
  (products_completed s) (products_missed s) (products_bad s)
  (products_aborted s) (products_rejected s) (products_rtx_index s).
Definition set_frames_bad v (s : nbsp_stats_st) := NbspStats (frames_processed
  s) (frames_jumps s) v (frames_received s) (frames_data_size s)
  (products_transmitted s) (products_retransmitted s)
  (products_retransmitted_c s) (products_retransmitted_p s)
  (products_retransmitted_i s) (products_retransmitted_r s)
  (products_completed s) (products_missed s) (products_bad s)
  (products_aborted s) (products_rejected s) (products_rtx_index s).
Definition set_frames_received v (s : nbsp_stats_st) := NbspStats
  (frames_processed s) (frames_jumps s) (frames_bad s) v (frames_data_size s)
  (products_transmitted s) (products_retransmitted s)
  (products_retransmitted_c s) (products_retransmitted_p s)
  (products_retransmitted_i s) (products_retransmitted_r s)
  (products_completed s) (products_missed s) (products_bad s)
  (products_aborted s) (products_rejected s) (products_rtx_index s).
Definition set_frames_data_size v (s : nbsp_stats_st) := NbspStats
  (frames_processed s) (frames_jumps s) (frames_bad s) (frames_received s) v
  (products_transmitted s) (products_retransmitted s)
  (products_retransmitted_c s) (products_retransmitted_p s)
  (products_retransmitted_i s) (products_retransmitted_r s)
  (products_completed s) (products_missed s) (products_bad s)
  (products_aborted s) (products_rejected s) (products_rtx_index s).
Definition set_products_transmitted v (s : nbsp_stats_st) := NbspStats
  (frames_processed s) (frames_jumps s) (frames_bad s) (frames_received s)
  (frames_data_size s) v (products_retransmitted s) (products_retransmitted_c
  s) (products_retransmitted_p s) (products_retransmitted_i s)
  (products_retransmitted_r s) (products_completed s) (products_missed s)
  (products_bad s) (products_aborted s) (products_rejected s)
  (products_rtx_index s).
Definition set_products_retransmitted v (s : nbsp_stats_st) := NbspStats
  (frames_processed s) (frames_jumps s) (frames_bad s) (frames_received s)
  (frames_data_size s) (products_transmitted s) v (products_retransmitted_c s)
  (products_retransmitted_p s) (products_retransmitted_i s)
  (products_retransmitted_r s) (products_completed s) (products_missed s)
  (products_bad s) (products_aborted s) (products_rejected s)
  (products_rtx_index s).
Definition set_products_retransmitted_c v (s : nbsp_stats_st) := NbspStats
  (frames_processed s) (frames_jumps s) (frames_bad s) (frames_received s)
  (frames_data_size s) (products_transmitted s) (products_retransmitted s) v
  (products_retransmitted_p s) (products_retransmitted_i s)
  (products_retransmitted_r s) (products_completed s) (products_missed s)
  (products_bad s) (products_aborted s) (products_rejected s)
  (products_rtx_index s).
Definition set_products_retransmitted_p v (s : nbsp_stats_st) := NbspStats
  (frames_processed s) (frames_jumps s) (frames_bad s) (frames_received s)
  (frames_data_size s) (products_transmitted s) (products_retransmitted s)
  (products_retransmitted_c s) v (products_retransmitted_i s)
  (products_retransmitted_r s) (products_completed s) (products_missed s)
  (products_bad s) (products_aborted s) (products_rejected s)
  (products_rtx_index s).
Definition set_products_retransmitted_i v (s : nbsp_stats_st) := NbspStats
  (frames_processed s) (frames_jumps s) (frames_bad s) (frames_received s)
  (frames_data_size s) (products_transmitted s) (products_retransmitted s)
  (products_retransmitted_c s) (products_retransmitted_p s) v
  (products_retransmitted_r s) (products_completed s) (products_missed s)
  (products_bad s) (products_aborted s) (products_rejected s)
  (products_rtx_index s).
Definition set_products_retransmitted_r v (s : nbsp_stats_st) := NbspStats
  (frames_processed s) (frames_jumps s) (frames_bad s) (frames_received s)
  (frames_data_size s) (products_transmitted s) (products_retransmitted s)
  (products_retransmitted_c s) (products_retransmitted_p s)
  (products_retransmitted_i s) v (products_completed s) (products_missed s)
  (products_bad s) (products_aborted s) (products_rejected s)
  (products_rtx_index s).
Definition set_products_completed v (s : nbsp_stats_st) := NbspStats
  (frames_processed s) (frames_jumps s) (frames_bad s) (frames_received s)
  (frames_data_size s) (products_transmitted s) (products_retransmitted s)
  (products_retransmitted_c s) (products_retransmitted_p s)
  (products_retransmitted_i s) (products_retransmitted_r s) v (products_missed
  s) (products_bad s) (products_aborted s) (products_rejected s)
  (products_rtx_index s).
Definition set_products_missed v (s : nbsp_stats_st) := NbspStats
  (frames_processed s) (frames_jumps s) (frames_bad s) (frames_received s)
  (frames_data_size s) (products_transmitted s) (products_retransmitted s)
  (products_retransmitted_c s) (products_retransmitted_p s)
  (products_retransmitted_i s) (products_retransmitted_r s)
  (products_completed s) v (products_bad s) (products_aborted s)
  (products_rejected s) (products_rtx_index s).
Definition set_products_bad v (s : nbsp_stats_st) := NbspStats
  (frames_processed s) (frames_jumps s) (frames_bad s) (frames_received s)
  (frames_data_size s) (products_transmitted s) (products_retransmitted s)
  (products_retransmitted_c s) (products_retransmitted_p s)
  (products_retransmitted_i s) (products_retransmitted_r s)
  (products_completed s) (products_missed s) v (products_aborted s)
  (products_rejected s) (products_rtx_index s).
Definition set_products_aborted v (s : nbsp_stats_st) := NbspStats
  (frames_processed s) (frames_jumps s) (frames_bad s) (frames_received s)
  (frames_data_size s) (products_transmitted s) (products_retransmitted s)
  (products_retransmitted_c s) (products_retransmitted_p s)
  (products_retransmitted_i s) (products_retransmitted_r s)
  (products_completed s) (products_missed s) (products_bad s) v
  (products_rejected s) (products_rtx_index s).
Definition set_products_rejected v (s : nbsp_stats_st) := NbspStats
  (frames_processed s) (frames_jumps s) (frames_bad s) (frames_received s)
  (frames_data_size s) (products_transmitted s) (products_retransmitted s)
  (products_retransmitted_c s) (products_retransmitted_p s)
  (products_retransmitted_i s) (products_retransmitted_r s)
  (products_completed s) (products_missed s) (products_bad s)
  (products_aborted s) v (products_rtx_index s).
Definition set_products_rtx_index v (s : nbsp_stats_st) := NbspStats
  (frames_processed s) (frames_jumps s) (frames_bad s) (frames_received s)
  (frames_data_size s) (products_transmitted s) (products_retransmitted s)
  (products_retransmitted_c s) (products_retransmitted_p s)
  (products_retransmitted_i s) (products_retransmitted_r s)
  (products_completed s) (products_missed s) (products_bad s)
  (products_aborted s) (products_rejected s) v.

Definition update_stats_frames_received (frame_data_size : Z) (s : nbsp_stats_st) :=
  set_frames_data_size (u32 (frames_data_size s + frame_data_size))
    (set_frames_received (u32 (frames_received s + 1)) s).
Definition update_stats_frames_jumps (s : nbsp_stats_st) :=
  set_frames_jumps (u32 (frames_jumps s + 1)) s.
Definition update_stats_goodframes (s : nbsp_stats_st) :=
  set_frames_processed (u32 (frames_processed s + 1)) s.
Definition update_stats_badframes (s : nbsp_stats_st) :=
  set_frames_bad (u32 (frames_bad s + 1)) s.
Definition update_stats_badproducts (s : nbsp_stats_st) :=
  set_products_bad (u32 (products_bad s + 1)) s.
Definition update_stats_products_transmitted (s : nbsp_stats_st) :=
  set_products_transmitted (u32 (products_transmitted s + 1)) s.
Definition update_stats_products_retransmitted (s : nbsp_stats_st) :=
  set_products_retransmitted (u32 (products_retransmitted s + 1)) s.
Definition update_stats_products_retransmitted_c (s : nbsp_stats_st) :=
  set_products_retransmitted_c (u32 (products_retransmitted_c s + 1)) s.
Definition update_stats_products_recovered (s : nbsp_stats_st) :=
  set_products_retransmitted_r (u32 (products_retransmitted_r s + 1)) s.
Definition update_stats_products_missed (s : nbsp_stats_st) :=
  set_products_missed (u32 (products_missed s + 1)) s.
Definition update_stats_products_completed (s : nbsp_stats_st) :=
  set_products_completed (u32 (products_completed s + 1)) s.
Definition update_stats_products_aborted (s : nbsp_stats_st) :=
  set_products_aborted (u32 (products_aborted s + 1)) s.
Definition update_stats_products_rejected (s : nbsp_stats_st) :=
  set_products_rejected (u32 (products_rejected s + 1)) s.
Definition update_stats_frames (status : Z) (s : nbsp_stats_st) :=
  if status =? 0 then update_stats_goodframes s else update_stats_badframes s.
Definition update_stats_products (status : Z) (s : nbsp_stats_st) :=
  if negb (status =? 0) then update_stats_badproducts s else s.
Definition update_stats_products_retransmitted_pi (orig_status : Z) (s : nbsp_stats_st) :=
  if orig_status =? 0
  then set_products_retransmitted_i (u32 (products_retransmitted_i s + 1)) s
  else set_products_retransmitted_p (u32 (products_retransmitted_p s + 1)) s.

(** all the counters but [products_rtx_index] *)
Definition init_counters (s : nbsp_stats_st) : nbsp_stats_st :=
  NbspStats 0 0 0 0 0 0 0 0 0 0 0 0 0 0 0 0 (products_rtx_index s).

Definition update_stats_rtx_index (s : nbsp_stats_st) : nbsp_stats_st :=
  if negb (products_transmitted s =? 0) then
    set_products_rtx_index
      (u32 (products_retransmitted s * 1000) / products_transmitted s) s
  else s.

Definition nbspstats_get_rtx_index (s : nbsp_stats_st) : Z := products_rtx_index s.

Definition nbspstats_init (s : nbsp_stats_st) : nbsp_stats_st :=
  set_products_rtx_index 0 (init_counters s).

(** the seventeen numbers after the time in a line of the status file *)
Definition nbspstats_report (s : nbsp_stats_st) : list Z :=
  [frames_received s; frames_processed s; frames_jumps s; frames_bad s;
   frames_data_size s; products_transmitted s; products_completed s;
   products_missed s; products_retransmitted s; products_retransmitted_c s;
   products_retransmitted_p s; products_retransmitted_i s;
   products_retransmitted_r s; products_rejected s; products_aborted s;
   products_bad s].

(** the reported line and the counters left *)
Definition nbspstats_update (s : nbsp_stats_st) : list Z * nbsp_stats_st :=
  let s := update_stats_rtx_index s in
  (nbspstats_report s, init_counters s).
