(* ===== verification/Pctldb.v ===== *)
(** * Pctldb: src/src/pctldb.c, src/src/pctlmfdb.c and the element of pctl.h

    The queue between the readers and the processor. The elements (one per
    product) are kept in a Berkeley DB queue, and the memory file of each
    element in a Berkeley DB btree, indexed by the time at which the element
    was queued. The queue keeps a count of its elements and of the bytes of
    the memory files, and refuses an element past a hard limit.

    Berkeley DB is a parameter ([Db]), and so are the readings of the system
    clock ([Clock]). Every operation runs with the mutex of the queue held, so
    each is one step on the state; the waits on the condition variable give
    the mutex away, and are modelled by the state found on waking up. *)

From Stdlib Require Import Sorted.
From stdpp Require Import gmap.
From S2P Require Import Prelude Util CLib Mfile Sbn.

(** ** Data *)

Record timespec := Timespec { tv_sec : Z; tv_nsec : Z }.

#[export] Instance timespec_eq_dec : EqDecision timespec.
Proof. solve_decision. Defined.
#[export] Instance timespec_countable : Countable timespec.
Proof.
  refine (inj_countable' (fun t => (tv_sec t, tv_nsec t)) (fun p => Timespec p.1 p.2) _).
  by intros [].
Defined.

(** [struct pctl_element_st]; the strings without their terminator, except
    [fname], which is the whole array *)
Record pctl_element_st := Pce {
  f_complete : Z;
  pce_num_fragments : Z;
  recv_fragments : Z;
  seq_number : Z;
  pce_orig_seq_number : Z;
  pce_sbn_datstream : Z;
  psh_product_type : Z;
  psh_product_category : Z;
  psh_product_code : Z;
  pce_np_channel_index : Z;
  pce_ts : timespec;
  tsqueue : timespec;
  save_format : Z;
  saveunz_flag : Z;
  rtxdb_flag : Z;
  pce_mf : memfile;
  pce_ctrlhdr : list Z;
  pce_ctrlhdr_size : Z;
  f_has_ccb : Z;
  pce_wmo : wmo_header;
  fname : list Z;
  fbasename : list Z;
  fpath_size : Z;
  fpath : list Z
}.

Definition set_f_complete v (e : pctl_element_st) := Pce v (pce_num_fragments
  e) (recv_fragments e) (seq_number e) (pce_orig_seq_number e)
  (pce_sbn_datstream e) (psh_product_type e) (psh_product_category e)
  (psh_product_code e) (pce_np_channel_index e) (pce_ts e) (tsqueue e)
  (save_format e) (saveunz_flag e) (rtxdb_flag e) (pce_mf e) (pce_ctrlhdr e)
  (pce_ctrlhdr_size e) (f_has_ccb e) (pce_wmo e) (fname e) (fbasename e)
  (fpath_size e) (fpath e).
Definition set_recv_fragments v (e : pctl_element_st) := Pce (f_complete e)
  (pce_num_fragments e) v (seq_number e) (pce_orig_seq_number e)
  (pce_sbn_datstream e) (psh_product_type e) (psh_product_category e)
  (psh_product_code e) (pce_np_channel_index e) (pce_ts e) (tsqueue e)
  (save_format e) (saveunz_flag e) (rtxdb_flag e) (pce_mf e) (pce_ctrlhdr e)
  (pce_ctrlhdr_size e) (f_has_ccb e) (pce_wmo e) (fname e) (fbasename e)
  (fpath_size e) (fpath e).
Definition set_seq_number v (e : pctl_element_st) := Pce (f_complete e)
  (pce_num_fragments e) (recv_fragments e) v (pce_orig_seq_number e)
  (pce_sbn_datstream e) (psh_product_type e) (psh_product_category e)
  (psh_product_code e) (pce_np_channel_index e) (pce_ts e) (tsqueue e)
  (save_format e) (saveunz_flag e) (rtxdb_flag e) (pce_mf e) (pce_ctrlhdr e)
  (pce_ctrlhdr_size e) (f_has_ccb e) (pce_wmo e) (fname e) (fbasename e)
  (fpath_size e) (fpath e).
Definition set_tsqueue v (e : pctl_element_st) := Pce (f_complete e)
  (pce_num_fragments e) (recv_fragments e) (seq_number e) (pce_orig_seq_number
  e) (pce_sbn_datstream e) (psh_product_type e) (psh_product_category e)
  (psh_product_code e) (pce_np_channel_index e) (pce_ts e) v (save_format e)
  (saveunz_flag e) (rtxdb_flag e) (pce_mf e) (pce_ctrlhdr e) (pce_ctrlhdr_size
  e) (f_has_ccb e) (pce_wmo e) (fname e) (fbasename e) (fpath_size e) (fpath
  e).
Definition set_pce_mf v (e : pctl_element_st) := Pce (f_complete e)
  (pce_num_fragments e) (recv_fragments e) (seq_number e) (pce_orig_seq_number
  e) (pce_sbn_datstream e) (psh_product_type e) (psh_product_category e)
  (psh_product_code e) (pce_np_channel_index e) (pce_ts e) (tsqueue e)
  (save_format e) (saveunz_flag e) (rtxdb_flag e) v (pce_ctrlhdr e)
  (pce_ctrlhdr_size e) (f_has_ccb e) (pce_wmo e) (fname e) (fbasename e)
  (fpath_size e) (fpath e).
Definition set_pce_ts v (e : pctl_element_st) := Pce (f_complete e)
  (pce_num_fragments e) (recv_fragments e) (seq_number e) (pce_orig_seq_number
  e) (pce_sbn_datstream e) (psh_product_type e) (psh_product_category e)
  (psh_product_code e) (pce_np_channel_index e) v (tsqueue e) (save_format e)
  (saveunz_flag e) (rtxdb_flag e) (pce_mf e) (pce_ctrlhdr e) (pce_ctrlhdr_size
  e) (f_has_ccb e) (pce_wmo e) (fname e) (fbasename e) (fpath_size e) (fpath
  e).
Definition set_pce_num_fragments v (e : pctl_element_st) := Pce (f_complete e)
  v (recv_fragments e) (seq_number e) (pce_orig_seq_number e)
  (pce_sbn_datstream e) (psh_product_type e) (psh_product_category e)
  (psh_product_code e) (pce_np_channel_index e) (pce_ts e) (tsqueue e)
  (save_format e) (saveunz_flag e) (rtxdb_flag e) (pce_mf e) (pce_ctrlhdr e)
  (pce_ctrlhdr_size e) (f_has_ccb e) (pce_wmo e) (fname e) (fbasename e)
  (fpath_size e) (fpath e).
Definition set_pce_orig_seq_number v (e : pctl_element_st) := Pce (f_complete
  e) (pce_num_fragments e) (recv_fragments e) (seq_number e) v
  (pce_sbn_datstream e) (psh_product_type e) (psh_product_category e)
  (psh_product_code e) (pce_np_channel_index e) (pce_ts e) (tsqueue e)
  (save_format e) (saveunz_flag e) (rtxdb_flag e) (pce_mf e) (pce_ctrlhdr e)
  (pce_ctrlhdr_size e) (f_has_ccb e) (pce_wmo e) (fname e) (fbasename e)
  (fpath_size e) (fpath e).
Definition set_pce_sbn_datstream v (e : pctl_element_st) := Pce (f_complete e)
  (pce_num_fragments e) (recv_fragments e) (seq_number e) (pce_orig_seq_number
  e) v (psh_product_type e) (psh_product_category e) (psh_product_code e)
  (pce_np_channel_index e) (pce_ts e) (tsqueue e) (save_format e)
  (saveunz_flag e) (rtxdb_flag e) (pce_mf e) (pce_ctrlhdr e) (pce_ctrlhdr_size
  e) (f_has_ccb e) (pce_wmo e) (fname e) (fbasename e) (fpath_size e) (fpath
  e).
Definition set_psh_product_type v (e : pctl_element_st) := Pce (f_complete e)
  (pce_num_fragments e) (recv_fragments e) (seq_number e) (pce_orig_seq_number
  e) (pce_sbn_datstream e) v (psh_product_category e) (psh_product_code e)
  (pce_np_channel_index e) (pce_ts e) (tsqueue e) (save_format e)
  (saveunz_flag e) (rtxdb_flag e) (pce_mf e) (pce_ctrlhdr e) (pce_ctrlhdr_size
  e) (f_has_ccb e) (pce_wmo e) (fname e) (fbasename e) (fpath_size e) (fpath
  e).
Definition set_psh_product_category v (e : pctl_element_st) := Pce (f_complete
  e) (pce_num_fragments e) (recv_fragments e) (seq_number e)
  (pce_orig_seq_number e) (pce_sbn_datstream e) (psh_product_type e) v
  (psh_product_code e) (pce_np_channel_index e) (pce_ts e) (tsqueue e)
  (save_format e) (saveunz_flag e) (rtxdb_flag e) (pce_mf e) (pce_ctrlhdr e)
  (pce_ctrlhdr_size e) (f_has_ccb e) (pce_wmo e) (fname e) (fbasename e)
  (fpath_size e) (fpath e).
Definition set_psh_product_code v (e : pctl_element_st) := Pce (f_complete e)
  (pce_num_fragments e) (recv_fragments e) (seq_number e) (pce_orig_seq_number
  e) (pce_sbn_datstream e) (psh_product_type e) (psh_product_category e) v
  (pce_np_channel_index e) (pce_ts e) (tsqueue e) (save_format e)
  (saveunz_flag e) (rtxdb_flag e) (pce_mf e) (pce_ctrlhdr e) (pce_ctrlhdr_size
  e) (f_has_ccb e) (pce_wmo e) (fname e) (fbasename e) (fpath_size e) (fpath
  e).
Definition set_pce_np_channel_index v (e : pctl_element_st) := Pce (f_complete
  e) (pce_num_fragments e) (recv_fragments e) (seq_number e)
  (pce_orig_seq_number e) (pce_sbn_datstream e) (psh_product_type e)
  (psh_product_category e) (psh_product_code e) v (pce_ts e) (tsqueue e)
  (save_format e) (saveunz_flag e) (rtxdb_flag e) (pce_mf e) (pce_ctrlhdr e)
  (pce_ctrlhdr_size e) (f_has_ccb e) (pce_wmo e) (fname e) (fbasename e)
  (fpath_size e) (fpath e).
Definition set_save_format v (e : pctl_element_st) := Pce (f_complete e)
  (pce_num_fragments e) (recv_fragments e) (seq_number e) (pce_orig_seq_number
  e) (pce_sbn_datstream e) (psh_product_type e) (psh_product_category e)
  (psh_product_code e) (pce_np_channel_index e) (pce_ts e) (tsqueue e) v
  (saveunz_flag e) (rtxdb_flag e) (pce_mf e) (pce_ctrlhdr e) (pce_ctrlhdr_size
  e) (f_has_ccb e) (pce_wmo e) (fname e) (fbasename e) (fpath_size e) (fpath
  e).
Definition set_saveunz_flag v (e : pctl_element_st) := Pce (f_complete e)
  (pce_num_fragments e) (recv_fragments e) (seq_number e) (pce_orig_seq_number
  e) (pce_sbn_datstream e) (psh_product_type e) (psh_product_category e)
  (psh_product_code e) (pce_np_channel_index e) (pce_ts e) (tsqueue e)
  (save_format e) v (rtxdb_flag e) (pce_mf e) (pce_ctrlhdr e)
  (pce_ctrlhdr_size e) (f_has_ccb e) (pce_wmo e) (fname e) (fbasename e)
  (fpath_size e) (fpath e).
Definition set_rtxdb_flag v (e : pctl_element_st) := Pce (f_complete e)
  (pce_num_fragments e) (recv_fragments e) (seq_number e) (pce_orig_seq_number
  e) (pce_sbn_datstream e) (psh_product_type e) (psh_product_category e)
  (psh_product_code e) (pce_np_channel_index e) (pce_ts e) (tsqueue e)
  (save_format e) (saveunz_flag e) v (pce_mf e) (pce_ctrlhdr e)
  (pce_ctrlhdr_size e) (f_has_ccb e) (pce_wmo e) (fname e) (fbasename e)
  (fpath_size e) (fpath e).
Definition set_pce_ctrlhdr v (e : pctl_element_st) := Pce (f_complete e)
  (pce_num_fragments e) (recv_fragments e) (seq_number e) (pce_orig_seq_number
  e) (pce_sbn_datstream e) (psh_product_type e) (psh_product_category e)
  (psh_product_code e) (pce_np_channel_index e) (pce_ts e) (tsqueue e)
  (save_format e) (saveunz_flag e) (rtxdb_flag e) (pce_mf e) v
  (pce_ctrlhdr_size e) (f_has_ccb e) (pce_wmo e) (fname e) (fbasename e)
  (fpath_size e) (fpath e).
Definition set_pce_ctrlhdr_size v (e : pctl_element_st) := Pce (f_complete e)
  (pce_num_fragments e) (recv_fragments e) (seq_number e) (pce_orig_seq_number
  e) (pce_sbn_datstream e) (psh_product_type e) (psh_product_category e)
  (psh_product_code e) (pce_np_channel_index e) (pce_ts e) (tsqueue e)
  (save_format e) (saveunz_flag e) (rtxdb_flag e) (pce_mf e) (pce_ctrlhdr e) v
  (f_has_ccb e) (pce_wmo e) (fname e) (fbasename e) (fpath_size e) (fpath e).
Definition set_f_has_ccb v (e : pctl_element_st) := Pce (f_complete e)
  (pce_num_fragments e) (recv_fragments e) (seq_number e) (pce_orig_seq_number
  e) (pce_sbn_datstream e) (psh_product_type e) (psh_product_category e)
  (psh_product_code e) (pce_np_channel_index e) (pce_ts e) (tsqueue e)
  (save_format e) (saveunz_flag e) (rtxdb_flag e) (pce_mf e) (pce_ctrlhdr e)
  (pce_ctrlhdr_size e) v (pce_wmo e) (fname e) (fbasename e) (fpath_size e)
  (fpath e).
Definition set_pce_wmo v (e : pctl_element_st) := Pce (f_complete e)
  (pce_num_fragments e) (recv_fragments e) (seq_number e) (pce_orig_seq_number
  e) (pce_sbn_datstream e) (psh_product_type e) (psh_product_category e)
  (psh_product_code e) (pce_np_channel_index e) (pce_ts e) (tsqueue e)
  (save_format e) (saveunz_flag e) (rtxdb_flag e) (pce_mf e) (pce_ctrlhdr e)
  (pce_ctrlhdr_size e) (f_has_ccb e) v (fname e) (fbasename e) (fpath_size e)
  (fpath e).
Definition set_fname v (e : pctl_element_st) := Pce (f_complete e)
  (pce_num_fragments e) (recv_fragments e) (seq_number e) (pce_orig_seq_number
  e) (pce_sbn_datstream e) (psh_product_type e) (psh_product_category e)
  (psh_product_code e) (pce_np_channel_index e) (pce_ts e) (tsqueue e)
  (save_format e) (saveunz_flag e) (rtxdb_flag e) (pce_mf e) (pce_ctrlhdr e)
  (pce_ctrlhdr_size e) (f_has_ccb e) (pce_wmo e) v (fbasename e) (fpath_size
  e) (fpath e).
Definition set_fbasename v (e : pctl_element_st) := Pce (f_complete e)
  (pce_num_fragments e) (recv_fragments e) (seq_number e) (pce_orig_seq_number
  e) (pce_sbn_datstream e) (psh_product_type e) (psh_product_category e)
  (psh_product_code e) (pce_np_channel_index e) (pce_ts e) (tsqueue e)
  (save_format e) (saveunz_flag e) (rtxdb_flag e) (pce_mf e) (pce_ctrlhdr e)
  (pce_ctrlhdr_size e) (f_has_ccb e) (pce_wmo e) (fname e) v (fpath_size e)
  (fpath e).
Definition set_fpath v (e : pctl_element_st) := Pce (f_complete e)
  (pce_num_fragments e) (recv_fragments e) (seq_number e) (pce_orig_seq_number
  e) (pce_sbn_datstream e) (psh_product_type e) (psh_product_category e)
  (psh_product_code e) (pce_np_channel_index e) (pce_ts e) (tsqueue e)
  (save_format e) (saveunz_flag e) (rtxdb_flag e) (pce_mf e) (pce_ctrlhdr e)
  (pce_ctrlhdr_size e) (f_has_ccb e) (pce_wmo e) (fname e) (fbasename e)
  (fpath_size e) v.

(** ** Berkeley DB *)

Definition DB_BUFFER_SMALL : Z := -30999.

(** A status of 0 means success. The queue holds elements, the btree byte
    strings indexed by times. *)
Class Db := {
  qdb : Type;
  mfdb : Type;
  (* put with DB_APPEND, get with DB_CONSUME, get_re_len, number of records *)
  qdb_put : qdb -> pctl_element_st -> Z * qdb;
  qdb_consume : qdb -> Z * option pctl_element_st * qdb;
  qdb_re_len : qdb -> Z * Z;
  qdb_stat : qdb -> Z * Z;
  (* put, get into [ulen] bytes: status, size of the record, bytes *)
  mfdb_put : mfdb -> timespec -> list Z -> Z * mfdb;
  mfdb_get : mfdb -> timespec -> Z -> Z * Z * list Z;
  mfdb_del : mfdb -> timespec -> Z * mfdb;
  (* cursor from the first record on: the sizes met, and whether the walk
     ended with DB_NOTFOUND *)
  mfdb_walk : mfdb -> list Z * bool
}.

(** The documented behaviour: an operation that fails changes nothing. *)
Class DbSpec (D : Db) := {
  q_content : qdb -> list pctl_element_st;
  m_content : mfdb -> gmap timespec (list Z);
  q_reclen : qdb -> Z;
  qdb_put_law : forall q r e q', qdb_put q r = (e, q') ->
    q_reclen q' = q_reclen q /\
    q_content q' = if e =? 0 then q_content q ++ [r] else q_content q;
  qdb_consume_law : forall q e r q', qdb_consume q = (e, r, q') ->
    q_reclen q' = q_reclen q /\
    (e <> 0 -> q_content q' = q_content q) /\
    (e = 0 -> exists x, r = Some x /\ q_content q = x :: q_content q');
  qdb_re_len_law : forall q e n, qdb_re_len q = (e, n) -> e = 0 -> n = q_reclen q;
  qdb_stat_law : forall q e n, qdb_stat q = (e, n) -> e = 0 ->
    n = Z.of_nat (length (q_content q));
  mfdb_put_law : forall m k v e m', mfdb_put m k v = (e, m') ->
    m_content m' = if e =? 0 then <[k:=v]> (m_content m) else m_content m;
  mfdb_get_law : forall m k ulen e n d, mfdb_get m k ulen = (e, n, d) ->
    (e = 0 -> m_content m !! k = Some d /\ n = zlen d /\ n <= ulen) /\
    (e = DB_BUFFER_SMALL -> exists v, m_content m !! k = Some v /\ n = zlen v /\ ulen < n);
  mfdb_del_law : forall m k e m', mfdb_del m k = (e, m') ->
    m_content m' = if e =? 0 then delete k (m_content m) else m_content m;
  mfdb_walk_law : forall m l, mfdb_walk m = (l, true) ->
    l ≡ₚ (fun kv => zlen kv.2) <$> map_to_list (m_content m)
}.

(** What it takes for the operations to succeed: a record of the queue is
    there to be consumed, a key is in the btree. *)
Class DbReliable (D : Db) (S : DbSpec D) : Prop := {
  qdb_put_succeeds : forall q r, (qdb_put q r).1 = 0;
  qdb_consume_succeeds : forall q, q_content q <> [] -> (qdb_consume q).1.1 = 0;
  qdb_re_len_succeeds : forall q, (qdb_re_len q).1 = 0;
  mfdb_put_succeeds : forall m k v, (mfdb_put m k v).1 = 0;
  mfdb_get_succeeds : forall m k v ulen, m_content m !! k = Some v ->
    (mfdb_get m k ulen).1.1 = if ulen <? zlen v then DB_BUFFER_SMALL else 0;
  mfdb_del_succeeds : forall m k v, m_content m !! k = Some v -> (mfdb_del m k).1 = 0
}.

(** [clock i]: the [i]-th reading of the clock; [None] when it fails *)
Class Clock := { clock : Z -> option timespec }.

(** The clock works, and its seconds do not go back. The code reads
    CLOCK_REALTIME, which promises neither: the stamps of the queue rely on it,
    and it is an assumption of the theorems that use them. *)
Class ClockSpec (C : Clock) : Prop := {
  clock_works : forall i, is_Some (clock i);
  clock_sec_mono : forall i j s t, i <= j -> clock i = Some s -> clock j = Some t ->
    0 <= tv_sec s <= tv_sec t
}.

(** ** The queue *)

Section pctldb.
Context `{Hp : Heap} `{D : Db} `{C : Clock}.

(** [struct pctldb_st]; [tick] counts the readings of the clock *)
Record pctldb_st := Pctldb {
  dbp : qdb;
  mfdbp : mfdb;
  pce_size : Z;
  pce_data_size : Z;
  db_n : Z;
  nmax : Z;
  mf_total_size : Z;
  last_tsqueue : timespec;
  softlimit : Z;
  hardlimit : Z;
  mf_softlimit_mb : Z;
  mf_hardlimit_mb : Z;
  tick : Z
}.

Definition set_dbp v (d : pctldb_st) := Pctldb v (mfdbp d) (pce_size d)
  (pce_data_size d) (db_n d) (nmax d) (mf_total_size d) (last_tsqueue d)
  (softlimit d) (hardlimit d) (mf_softlimit_mb d) (mf_hardlimit_mb d) (tick
  d).
Definition set_mfdbp v (d : pctldb_st) := Pctldb (dbp d) v (pce_size d)
  (pce_data_size d) (db_n d) (nmax d) (mf_total_size d) (last_tsqueue d)
  (softlimit d) (hardlimit d) (mf_softlimit_mb d) (mf_hardlimit_mb d) (tick
  d).
Definition set_db_n v (d : pctldb_st) := Pctldb (dbp d) (mfdbp d) (pce_size d)
  (pce_data_size d) v (nmax d) (mf_total_size d) (last_tsqueue d) (softlimit
  d) (hardlimit d) (mf_softlimit_mb d) (mf_hardlimit_mb d) (tick d).
Definition set_mf_total_size v (d : pctldb_st) := Pctldb (dbp d) (mfdbp d)
  (pce_size d) (pce_data_size d) (db_n d) (nmax d) v (last_tsqueue d)
  (softlimit d) (hardlimit d) (mf_softlimit_mb d) (mf_hardlimit_mb d) (tick
  d).
Definition set_last_tsqueue v (d : pctldb_st) := Pctldb (dbp d) (mfdbp d)
  (pce_size d) (pce_data_size d) (db_n d) (nmax d) (mf_total_size d) v
  (softlimit d) (hardlimit d) (mf_softlimit_mb d) (mf_hardlimit_mb d) (tick
  d).
Definition set_tick v (d : pctldb_st) := Pctldb (dbp d) (mfdbp d) (pce_size d)
  (pce_data_size d) (db_n d) (nmax d) (mf_total_size d) (last_tsqueue d)
  (softlimit d) (hardlimit d) (mf_softlimit_mb d) (mf_hardlimit_mb d) v.

(** [timespec_cmp], the order of the btree keys *)
Definition timespec_cmp (a b : timespec) : Z :=
  if negb (tv_sec a =? tv_sec b) then (if tv_sec a <? tv_sec b then -1 else 1)
  else if negb (tv_nsec a =? tv_nsec b) then (if tv_nsec a <? tv_nsec b then -1 else 1)
  else 0.

(** [struct pctldb_param_st]; the databases as the library opens them
    ([None]: the open fails) *)
Record pctldb_param_st := PctldbParam {
  param_dbp : option qdb;
  param_mfdbp : option mfdb;
  reclen : Z;
  param_memfile_minsize : Z;
  param_softlimit : Z;
  param_hardlimit : Z;
  param_mf_softlimit_mb : Z;
  param_mf_hardlimit_mb : Z
}.

Definition pctldb_stat (d : pctldb_st) : Z * pctldb_st :=
  let (status, n) := qdb_stat (dbp d) in
  if status =? 0 then (0, set_db_n (u32 n) d) else (status, d).

(** the cursor loop *)
Definition pctlmfdb_stat (d : pctldb_st) : Z * pctldb_st :=
  let (sizes, notfound) := mfdb_walk (mfdbp d) in
  let d := set_mf_total_size (fold_left (fun t s => u64 (t + u32 s)) sizes 0) d in
  (if notfound then 0 else -1, d).

(** [csize]: the value of [const_pce_size()]. [Done None]: the call returns -1.
    When the queue database does not open, or [malloc] fails, the cleanup reads
    [p->mfdbp] through a NULL [p]. *)
Definition pctldb_open (csize : Z) (param : pctldb_param_st) : outcome (option pctldb_st) :=
  match param_dbp param with
  | None => Undef
  | Some q =>
      if negb (malloc_ok 168) then Undef else  (* sizeof(struct pctldb_st) *)
      let open_mf (m : mfdb) :=
        let p := Pctldb q m csize (reclen param) 0 4294967295 0 (Timespec 0 0)
                   (param_softlimit param) (param_hardlimit param)
                   (param_mf_softlimit_mb param) (param_mf_hardlimit_mb param) 0 in
        let (status, p) := pctldb_stat p in
        if status =? 0 then
          let (status, p) := pctlmfdb_stat p in
          if status =? 0 then Some p else None
        else None in
      match param_mfdbp param with
      | None => Done None
      | Some m => Done (open_mf m)
      end
  end.

Definition pctldb_snd (d : pctldb_st) (p : pctl_element_st) : Z * pctldb_st :=
  let (status, q) := qdb_put (dbp d) p in
  let d := set_dbp q d in
  if status =? 0 then (0, set_db_n (u32 (db_n d + 1)) d) else (-1, d).

(** the status and, when it is 0, the element *)
Definition pctldb_rcv (d : pctldb_st) (size : Z)
  : Z * option pctl_element_st * pctldb_st :=
  let (status, reclen) := qdb_re_len (dbp d) in
  if negb (status =? 0) then (-1, None, d)
  else if size <? reclen then (-1, None, d)
  else
    let '(status, r, q) := qdb_consume (dbp d) in
    let d := set_dbp q d in
    if negb (status =? 0) then (-1, None, d)
    else (0, r, set_db_n (u32 (db_n d - 1)) d).

Definition pctlmfdb_snd (d : pctldb_st) (ts : timespec) (mf : memfile) : Z * pctldb_st :=
  let size := u32 (get_memfile_data_size mf) in
  let (status, m) := mfdb_put (mfdbp d) ts (ztake size (mf_p mf)) in
  let d := set_mfdbp m d in
  if negb (status =? 0) then (-1, d)
  else (0, set_mf_total_size (u64 (mf_total_size d + size)) d).

(** the bytes [data] in place of those of the file *)
Definition mf_load (mf : memfile) (size : Z) (data : list Z) : memfile :=
  Memfile (mf_allocsize mf) (mf_maxallocsize mf) size (mf_nread mf) data.

(** the [get] of [pctlmfdb_rcv], done again in a larger file when the first
    one finds it small: status, [*dberror], [data.size], bytes, file *)
Definition mfdb_fetch (d : pctldb_st) (ts : timespec) (mf : memfile)
  : Z * Z * Z * list Z * memfile :=
  let '(dberror, size, data) := mfdb_get (mfdbp d) ts (u32 (get_memfile_allocated_size mf)) in
  if dberror =? DB_BUFFER_SMALL then
    let (status, mf1) := realloc_memfile mf size in
    if status =? 0 then
      let '(dberror1, size1, data1) :=
        mfdb_get (mfdbp d) ts (u32 (get_memfile_allocated_size mf1)) in
      (0, dberror1, size1, data1, mf1)
    else (status, 12, size, data, mf1)        (* errno: ENOMEM *)
  else (0, dberror, size, data, mf).

Definition pctlmfdb_rcv (d : pctldb_st) (ts : timespec) (mf : memfile)
  : Z * memfile * pctldb_st :=
  let '(status, dberror, size, data, mf) := mfdb_fetch d ts mf in
  let '(status, mf) :=
    if dberror =? 0 then (status, mf_load mf size data)
    else (-1, mf_load mf 0 []) in
  let (dberror_del, m) := mfdb_del (mfdbp d) ts in
  let d := set_mfdbp m d in
  if dberror_del =? 0 then
    let total :=
      if mf_size mf <? mf_total_size d then u64 (mf_total_size d - mf_size mf) else 0 in
    (status, mf, set_mf_total_size total d)
  else ((if dberror =? 0 then -1 else status), mf, d).

Definition pctldb_hard_limit (d : pctldb_st) (mf_size : Z) : Z :=
  let mb := 1024 * 1024 in
  let newsize := u64 (mf_total_size d + mf_size) in
  if (0 <? mf_hardlimit_mb d) && (u64 (mf_hardlimit_mb d * mb) <? newsize) then 1
  else if (0 <? hardlimit d) && (db_n d =? hardlimit d) then 1
  else 0.

Definition pctldb_soft_limit (d : pctldb_st) : Z :=
  let mb := 1024 * 1024 in
  let newsize := mf_total_size d in
  if (0 <? mf_softlimit_mb d) && (u64 (mf_softlimit_mb d * mb) <? newsize) then 1
  else if (0 <? softlimit d) && (softlimit d <=? db_n d) then 1
  else 0.

(** the time stamp of an element put after one stamped [last] *)
Definition next_tsqueue (now last : timespec) : timespec :=
  if (tv_sec now =? tv_sec last) && (tv_nsec now <=? tv_nsec last)
  then Timespec (tv_sec now) (tv_nsec last + 1) else now.

(** 0 ok, 1 soft limit, 2 hard limit, -1 error *)
Definition pctldb_send_pce (d : pctldb_st) (pce : pctl_element_st)
  : outcome (Z * pctl_element_st * pctldb_st) :=
  match clock (tick d) with
  | None => Abrt
  | Some now =>
      let d := set_tick (tick d + 1) d in
      let pce := set_tsqueue (next_tsqueue now (last_tsqueue d)) pce in
      let d := set_last_tsqueue (tsqueue pce) d in
      let mf_data_size := u32 (get_memfile_data_size (pce_mf pce)) in
      let status := if negb (pctldb_hard_limit d mf_data_size =? 0) then 2 else 0 in
      let (status, d) := if status =? 0 then pctldb_snd d pce else (status, d) in
      let (status, d) :=
        if status =? 0 then pctlmfdb_snd d (tsqueue pce) (pce_mf pce) else (status, d) in
      let status :=
        if (status =? 0) && negb (pctldb_soft_limit d =? 0) then 1 else status in
      Done (status, pce, d)
  end.

(** [while((pctldb->n == 0) && (status == 0)) status = pthread_cond_...wait()]:
    each wake-up gives the status of the wait and the state found; [None] when
    the thread is still waiting *)
Fixpoint wait_loop (d : pctldb_st) (status : Z) (wakeups : list (Z * pctldb_st))
  : option (Z * pctldb_st) :=
  if (db_n d =? 0) && (status =? 0) then
    match wakeups with
    | [] => None
    | (st, d') :: ws => wait_loop d' st ws
    end
  else Some (status, d).

(** the part of [pctldb_rcv_pce] after the wait; 0 ok, 1 empty, -1 error *)
Definition rcv_after_wait (status : Z) (d : pctldb_st) (pce : pctl_element_st)
  : Z * pctl_element_st * pctldb_st :=
  if db_n d =? 0 then
    ((if status =? ETIMEDOUT then 1 else -1), pce, d)
  else
    let mf := pce_mf pce in
    let '(status, r, d) := pctldb_rcv d (pce_data_size d) in
    match r with
    | Some r =>
        let '(status, mf, d) := pctlmfdb_rcv d (tsqueue r) mf in
        (status, set_pce_mf mf r, d)
    | None => (status, set_pce_mf mf pce, d)
    end.

Definition pctldb_rcv_pce (d : pctldb_st) (pce : pctl_element_st)
    (wakeups : list (Z * pctldb_st)) : option (Z * pctl_element_st * pctldb_st) :=
  match wait_loop d 0 wakeups with
  | None => None
  | Some (status, d) => Some (rcv_after_wait status d pce)
  end.

(** [pctldb_set_timeout]: [sec], [usec] from [gettimeofday] *)
Definition pctldb_set_timeout (timeout_ms sec usec : Z) : timespec :=
  Timespec (sec + timeout_ms / 1000) (usec * 1000 + (timeout_ms mod 1000) * 1000000).

End pctldb.

#[global] Arguments pctldb_st {D}.
#[global] Arguments pctldb_param_st {D}.

(** ** The order of the keys *)

Definition ts_lt (a b : timespec) : Prop := timespec_cmp a b = -1.

Lemma ts_lt_iff a b :
  ts_lt a b <-> tv_sec a < tv_sec b \/ (tv_sec a = tv_sec b /\ tv_nsec a < tv_nsec b).
Proof.
  unfold ts_lt, timespec_cmp.
  destruct (Z.eqb_spec (tv_sec a) (tv_sec b)), (Z.ltb_spec (tv_sec a) (tv_sec b)),
    (Z.eqb_spec (tv_nsec a) (tv_nsec b)), (Z.ltb_spec (tv_nsec a) (tv_nsec b)); simpl; lia.
Qed.

Lemma ts_lt_trans a b c : ts_lt a b -> ts_lt b c -> ts_lt a c.
Proof. rewrite !ts_lt_iff. lia. Qed.
Lemma ts_lt_irrefl a : ~ ts_lt a a.
Proof. rewrite ts_lt_iff. lia. Qed.

(** a stamp given when the clock has not gone back by a second is later than
    the last stamp *)
Lemma next_tsqueue_later now last :
  tv_sec last <= tv_sec now -> ts_lt last (next_tsqueue now last).
Proof.
  intros. rewrite ts_lt_iff. unfold next_tsqueue.
  destruct (Z.eqb_spec (tv_sec now) (tv_sec last)), (Z.leb_spec (tv_nsec now) (tv_nsec last));
    simpl; lia.
Qed.

Lemma next_tsqueue_sec now last : tv_sec (next_tsqueue now last) = tv_sec now.
Proof. unfold next_tsqueue. by destruct (_ && _). Qed.

(** ** Sizes of the stored files *)

Definition msum (m : gmap timespec (list Z)) : Z :=
  map_fold (fun _ v acc => zlen v + acc) 0 m.

Lemma msum_insert m k v : m !! k = None -> msum (<[k:=v]> m) = zlen v + msum m.
Proof.
  intros Hk. unfold msum. rewrite map_fold_insert_L; [done| |done].
  intros. lia.
Qed.
Lemma msum_delete m k v : m !! k = Some v -> msum m = zlen v + msum (delete k m).
Proof.
  intros Hk. unfold msum. rewrite (map_fold_delete_L _ _ k v m); [done| |done].
  intros. lia.
Qed.
Lemma msum_nonneg m : 0 <= msum m.
Proof.
  induction m as [|k v m Hk IH] using map_ind; [done|].
  rewrite msum_insert by done. pose proof (zlen_nonneg v). lia.
Qed.

(** ** Invariant *)

Section spec.
Context `{HS : HeapSpec} `{DS : DbSpec} `{CS : ClockSpec}.
Implicit Types (d : pctldb_st) (p r : pctl_element_st).

Definition in_keys d k : Prop :=
  k ∈ (tsqueue <$> q_content (dbp d)) \/ is_Some (m_content (mfdbp d) !! k).

(** The count is the length of the queue, the stamps of the queued elements
    increase, every stamp still to be given is new, and the bytes accounted
    for are at least those stored. *)
Record pctldb_inv d : Prop := PctldbInv {
  inv_n : db_n d = zlen (q_content (dbp d)) /\ db_n d < 4294967296;
  inv_sorted : StronglySorted ts_lt (tsqueue <$> q_content (dbp d));
  inv_fresh : forall i t k, tick d <= i -> clock i = Some t -> in_keys d k ->
    ts_lt k (next_tsqueue t (last_tsqueue d));
  inv_last : forall i t, tick d <= i -> clock i = Some t ->
    tv_sec (last_tsqueue d) <= tv_sec t;
  inv_total : msum (m_content (mfdbp d)) <= mf_total_size d < 18446744073709551616;
  inv_bytes : forall k v, m_content (mfdbp d) !! k = Some v ->
    bytes v /\ zlen v < 4294967296;
  inv_reclen : q_reclen (dbp d) = pce_data_size d
}.

(** No operation of the databases has failed: each queued element has its
    file, each file its element, and the accounting is exact. *)
Record pctldb_exact d : Prop := PctldbExact {
  ex_file : forall r, r ∈ q_content (dbp d) -> is_Some (m_content (mfdbp d) !! tsqueue r);
  ex_elem : forall k, is_Some (m_content (mfdbp d) !! k) ->
    k ∈ (tsqueue <$> q_content (dbp d));
  ex_total : mf_total_size d = msum (m_content (mfdbp d))
}.

(** The abstract queue: the elements, each with the bytes of its file *)
Definition info p : pctl_element_st := set_pce_mf (Memfile 0 0 0 0 []) p.
Definition absq d : list (pctl_element_st * list Z) :=
  (fun r => (info r, default [] (m_content (mfdbp d) !! tsqueue r))) <$> q_content (dbp d).

(** the limits and counters of the queue leave room for one more element *)
Definition room d (p : pctl_element_st) : Prop :=
  db_n d < 4294967295 /\ 0 <= mf_total_size d /\
  mf_total_size d + mf_size (pce_mf p) < 18446744073709551616.

Lemma sorted_snoc (l : list timespec) k :
  StronglySorted ts_lt l -> (forall x, x ∈ l -> ts_lt x k) -> StronglySorted ts_lt (l ++ [k]).
Proof.
  intros Hs Hk. induction Hs as [|x l Hs IH HF]; simpl; [repeat constructor|].
  constructor.
  - apply IH. intros y Hy. apply Hk. by right.
  - apply Forall_app. split; [done|]. constructor; [|done]. apply Hk. by left.
Qed.

(** *** Sending *)

(** the state after the stamping *)
Definition stamped d now : pctldb_st :=
  set_last_tsqueue (next_tsqueue now (last_tsqueue d)) (set_tick (tick d + 1) d).

Lemma stamped_inv d now : pctldb_inv d -> clock (tick d) = Some now ->
  pctldb_inv (stamped d now) /\
  (forall k, in_keys d k -> ts_lt k (last_tsqueue (stamped d now))).
Proof.
  intros [Hn Hs Hf Hl Ht Hby Hr] Hc.
  assert (forall i t, tick d + 1 <= i -> clock i = Some t ->
            tv_sec (next_tsqueue now (last_tsqueue d)) <= tv_sec t) as Hl'.
  { intros i t Hi Hi'. rewrite next_tsqueue_sec.
    eapply (clock_sec_mono (tick d) i); [lia|done|done]. }
  split; [split; try done|].
  - intros i t k Hi Hi' Hk. cbn [last_tsqueue set_last_tsqueue stamped].
    eapply ts_lt_trans; [by eapply (Hf (tick d))|]. apply next_tsqueue_later. by eapply Hl'.
  - intros k Hk. by eapply (Hf (tick d)).
Qed.

(** adding an element and its file under a key later than all others *)
Lemma pctldb_snd_inv d p st d' :
  pctldb_inv d -> db_n d < 4294967295 -> tsqueue p = last_tsqueue d ->
  (forall k, in_keys d k -> ts_lt k (last_tsqueue d)) ->
  pctldb_snd d p = (st, d') ->
  pctldb_inv d' /\ (st = 0 \/ st = -1 /\ q_content (dbp d') = q_content (dbp d)) /\
  (st = 0 -> q_content (dbp d') = q_content (dbp d) ++ [p] /\ db_n d' = db_n d + 1) /\
  (st <> 0 -> db_n d' = db_n d) /\
  d' = set_db_n (db_n d') (set_dbp (dbp d') d).
Proof.
  intros Hinv Hroom Hts Hk Hsnd. pose proof Hinv as [Hn Hs Hf Hl Ht Hby Hr].
  unfold pctldb_snd in Hsnd. destruct (qdb_put (dbp d) p) as [e q] eqn:Ep.
  apply qdb_put_law in Ep as [Er Eq]. pose proof (zlen_nonneg (q_content (dbp d))).
  destruct (Z.eqb_spec e 0) as [->|He]; simplify_eq/=.
  - rewrite u32_small by lia. split; [|by split_and!; auto]. split; cbn; try done.
    + rewrite Eq, zlen_app. change (zlen [p]) with 1. lia.
    + rewrite Eq, fmap_app. apply sorted_snoc; [done|]. intros x Hx. rewrite Hts.
      apply Hk. by left.
    + intros i t k Hi Hc [Hin|Hin]; [|by eapply Hf; [..|right]].
      cbn in Hin. rewrite Eq, fmap_app in Hin. apply elem_of_app in Hin as [Hin|Hin].
      { eapply Hf; [done..|by left]. }
      apply list_elem_of_singleton in Hin as ->. rewrite Hts.
      apply next_tsqueue_later. by eapply Hl.
    + by rewrite Er.
  - split; [|split_and!; first [done | by auto | by destruct d]].
    split; cbn; rewrite ?Eq, ?Er; try done.
    intros i t k Hi Hc [Hin|Hin]; (eapply Hf; [done..|]); [left|by right].
    cbn in Hin. by rewrite Eq in Hin.
Qed.

Lemma pctlmfdb_snd_inv d k mf st d' :
  pctldb_inv d -> memfile_wf mf -> mf_size mf < 4294967296 ->
  0 <= mf_total_size d -> mf_total_size d + mf_size mf < 18446744073709551616 ->
  last_tsqueue d = k -> m_content (mfdbp d) !! k = None ->
  pctlmfdb_snd d k mf = (st, d') ->
  pctldb_inv d' /\ (st = 0 \/ st = -1 /\ m_content (mfdbp d') = m_content (mfdbp d)) /\
  (st = 0 -> m_content (mfdbp d') = <[k:=mf_p mf]> (m_content (mfdbp d)) /\
     mf_total_size d' = mf_total_size d + mf_size mf) /\
  (st <> 0 -> mf_total_size d' = mf_total_size d) /\
  d' = set_mf_total_size (mf_total_size d') (set_mfdbp (mfdbp d') d).
Proof.
  intros Hinv Hwf Hsz Ht0 Ht1 Hk Hnone Hsnd. pose proof Hinv as [Hn Hs Hf Hl Ht Hby Hr].
  pose proof (wf_size _ Hwf) as [Hm0 _]. pose proof (wf_p _ Hwf) as Hp.
  unfold pctlmfdb_snd, get_memfile_data_size in Hsnd.
  rewrite u32_small, ztake_ge in Hsnd by lia.
  destruct (mfdb_put (mfdbp d) k (mf_p mf)) as [e m] eqn:Ep. apply mfdb_put_law in Ep.
  destruct (Z.eqb_spec e 0) as [->|He]; simplify_eq/=.
  - rewrite u64_small by lia. split; [|by split_and!; auto]. split; cbn; try done.
    + intros i t k' Hi Hc [Hin|Hin]; [by eapply Hf; [..|left]|].
      cbn in Hin. rewrite Ep in Hin. destruct (decide (k' = last_tsqueue d)) as [->|].
      { apply next_tsqueue_later. by eapply Hl. }
      rewrite lookup_insert_ne in Hin by done. eapply Hf; [done..|by right].
    + rewrite Ep, msum_insert by done. lia.
    + intros k v. rewrite Ep, lookup_insert_Some. intros [[_ <-]|[_ ?]]; [|by eapply Hby].
      split; [apply Hwf|lia].
  - split; [|split_and!; first [done | by auto | by destruct d]].
    split; cbn; rewrite ?Ep; try done.
    intros i t k' Hi Hc [Hin|Hin]; (eapply Hf; [done..|]); [by left|right].
    cbn in Hin. by rewrite Ep in Hin.
Qed.

Lemma stamp_not_key d k : (forall x, in_keys d x -> ts_lt x k) ->
  m_content (mfdbp d) !! k = None.
Proof.
  intros Hk. destruct (m_content (mfdbp d) !! k) eqn:E; [|done].
  destruct (ts_lt_irrefl k). apply Hk. right. by eauto.
Qed.

(** what a call of [pctldb_send_pce] does, on every branch *)
Lemma pctldb_send_pce_spec d p :
  pctldb_inv d -> memfile_wf (pce_mf p) -> mf_size (pce_mf p) < 4294967296 -> room d p ->
  exists st k d1, pctldb_send_pce d p = Done (st, set_tsqueue k p, d1) /\
    pctldb_inv d1 /\ hardlimit d1 = hardlimit d /\ mf_hardlimit_mb d1 = mf_hardlimit_mb d /\
    (forall x, in_keys d x -> ts_lt x k) /\
    ((st = 2 /\ pctldb_hard_limit d (mf_size (pce_mf p)) = 1 /\
        d1 = stamped d (default (Timespec 0 0) (clock (tick d)))) \/
     (st = -1 /\ pctldb_hard_limit d (mf_size (pce_mf p)) = 0 /\
        db_n d1 <= db_n d + 1 /\ mf_total_size d1 = mf_total_size d) \/
     ((st = 0 \/ st = 1) /\ pctldb_hard_limit d (mf_size (pce_mf p)) = 0 /\
        q_content (dbp d1) = q_content (dbp d) ++ [set_tsqueue k p] /\
        db_n d1 = db_n d + 1 /\
        m_content (mfdbp d1) = <[k:=mf_p (pce_mf p)]> (m_content (mfdbp d)) /\
        mf_total_size d1 = mf_total_size d + mf_size (pce_mf p))).
Proof.
  intros Hinv Hwf Hsz (Hr1 & Hr2 & Hr3). pose proof (wf_size _ Hwf) as [Hm0 _].
  destruct (clock_works (tick d)) as [now Hc].
  destruct (stamped_inv d now Hinv Hc) as [Hinv1 Hk].
  unfold pctldb_send_pce. rewrite Hc. cbv zeta.
  set (k := next_tsqueue now (last_tsqueue d)) in *. cbn [pce_mf set_tsqueue tsqueue].
  change (set_last_tsqueue (next_tsqueue now (last_tsqueue (set_tick (tick d + 1) d)))
            (set_tick (tick d + 1) d)) with (stamped d now).
  change (next_tsqueue now (last_tsqueue (set_tick (tick d + 1) d))) with k.
  unfold get_memfile_data_size. rewrite u32_small by lia.
  change (pctldb_hard_limit (stamped d now) (mf_size (pce_mf p)))
    with (pctldb_hard_limit d (mf_size (pce_mf p))).
  destruct (Z.eqb_spec (pctldb_hard_limit d (mf_size (pce_mf p))) 0) as [Eh|Eh]; cbn [negb Z.eqb].
  2: { eexists 2, k, _. split; [done|]. split_and!; try done. left. split_and!; try done.
       unfold pctldb_hard_limit in *. by repeat case_match. }
  destruct (pctldb_snd (stamped d now) (set_tsqueue k p)) as [st1 d1] eqn:E1.
  destruct (pctldb_snd_inv _ (set_tsqueue k p) _ _ Hinv1 Hr1 eq_refl Hk E1) as (Hi1 & Hst1 & H0 & Hne & Ed1).
  cbv beta iota. destruct (Z.eqb_spec st1 0) as [->|Hs1].
  2: { cbv beta iota. destruct (Z.eqb_spec st1 0); [done|]. cbn [andb].
       eexists st1, k, d1. split; [done|]. split_and!; try done; [by rewrite Ed1..|].
       right; left. split_and!; [naive_solver|done|rewrite Hne by done; cbn; lia|by rewrite Ed1]. }
  destruct (H0 eq_refl) as [Eq1 En1].
  assert (mfdbp d1 = mfdbp d) as Em1 by by rewrite Ed1.
  destruct (pctlmfdb_snd d1 k (pce_mf p)) as [st2 d2] eqn:E2.
  assert (mf_total_size d1 = mf_total_size d) as Et1 by by rewrite Ed1.
  assert (m_content (mfdbp d1) !! k = None) as Hnone.
  { rewrite Em1. by apply (stamp_not_key d). }
  destruct (pctlmfdb_snd_inv d1 k (pce_mf p) st2 d2 Hi1 Hwf Hsz) as (Hi2 & Hst2 & H02 & Hne2 & Ed2);
    [lia|lia|by rewrite Ed1|done|exact E2|].
  assert (dbp d2 = dbp d1 /\ db_n d2 = db_n d1) as [Eq2 En2] by by rewrite Ed2.
  cbv beta iota. destruct (Z.eqb_spec st2 0) as [->|Hs2]; cbn [andb].
  - destruct (H02 eq_refl) as [Emm Emt].
    eexists _, k, d2. split; [done|]. split_and!; try done; [by rewrite Ed2, Ed1..|].
    right; right. split_and!; [by destruct (negb _); auto|done| | | |].
    + by rewrite Eq2, Eq1.
    + rewrite En2, En1. done.
    + by rewrite Emm, Em1.
    + lia.
  - eexists st2, k, d2. split; [done|]. split_and!; try done; [by rewrite Ed2, Ed1..|].
    right; left. split_and!; [naive_solver|done|rewrite En2, En1; cbn; lia|].
    rewrite Hne2 by done. done.
Qed.


(** *** Receiving *)

Lemma msum_delete_le m k : msum (delete k m) <= msum m.
Proof.
  destruct (m !! k) as [v|] eqn:E.
  - rewrite (msum_delete m k v E). pose proof (zlen_nonneg v). lia.
  - by rewrite delete_id.
Qed.

Lemma mf_load_wf mf v : memfile_wf mf -> mf_nread mf = 0 -> bytes v ->
  zlen v <= mf_allocsize mf -> memfile_wf (mf_load mf (zlen v) v).
Proof.
  intros [] Hn Hb Hl. pose proof (zlen_nonneg v). by split; cbn; try done; lia.
Qed.

Lemma mfdb_fetch_spec d k mf status e n v mf1 :
  pctldb_inv d -> memfile_wf mf -> mf_nread mf = 0 -> mf_allocsize mf < 4294967296 ->
  mfdb_fetch d k mf = (status, e, n, v, mf1) ->
  memfile_wf mf1 /\ mf_nread mf1 = 0 /\ mf_allocsize mf1 < 4294967296 /\
  (e = 0 -> status = 0 /\ m_content (mfdbp d) !! k = Some v /\ n = zlen v /\
     n <= mf_allocsize mf1).
Proof.
  intros Hinv Hwf Hnr Hal Hf. unfold mfdb_fetch, get_memfile_allocated_size in Hf.
  pose proof (wf_alloc _ Hwf). rewrite u32_small in Hf by lia.
  destruct (mfdb_get (mfdbp d) k (mf_allocsize mf)) as [[e1 n1] v1] eqn:E1.
  apply mfdb_get_law in E1 as [G0 Gs].
  destruct (Z.eqb_spec e1 DB_BUFFER_SMALL) as [->|].
  - destruct (Gs eq_refl) as (v2 & Hv2 & -> & Hlt).
    destruct (inv_bytes _ Hinv _ _ Hv2) as [_ Hsm].
    destruct (realloc_memfile mf (zlen v2)) as [st mf2] eqn:Er.
    destruct (realloc_larger _ _ _ _ Hwf Hlt Er) as (Hwf2 & Hsc & [[-> Hal2]|[-> ->]]).
    2: { simplify_eq/=. split_and!; done. }
    cbn [Z.eqb] in Hf. rewrite Hal2, u32_small in Hf by lia.
    destruct (mfdb_get (mfdbp d) k (zlen v2)) as [[e2 n2] v3] eqn:E2.
    apply mfdb_get_law in E2 as [G02 _]. simplify_eq/=.
    split_and!; [done|by destruct Hsc as (_ & _ & ?); congruence|lia|].
    intros ->. destruct (G02 eq_refl) as (? & ? & ?). split_and!; try done. lia.
  - simplify_eq/=. split_and!; [done..|]. intros ->. by destruct (G0 eq_refl) as (? & ? & ?).
Qed.

(** taking a file out of the btree *)
Lemma pctlmfdb_rcv_spec d k mf st mf' d' :
  pctldb_inv d -> memfile_wf mf -> mf_nread mf = 0 -> mf_allocsize mf < 4294967296 ->
  pctlmfdb_rcv d k mf = (st, mf', d') ->
  (memfile_wf mf' /\ mf_nread mf' = 0 /\ mf_allocsize mf' < 4294967296) /\
  msum (m_content (mfdbp d')) <= mf_total_size d' < 18446744073709551616 /\
  (m_content (mfdbp d') = m_content (mfdbp d) \/
   m_content (mfdbp d') = delete k (m_content (mfdbp d))) /\
  d' = set_mf_total_size (mf_total_size d') (set_mfdbp (mfdbp d') d) /\
  (st = 0 -> m_content (mfdbp d) !! k = Some (mf_p mf') /\
     m_content (mfdbp d') = delete k (m_content (mfdbp d)) /\
     (mf_total_size d = msum (m_content (mfdbp d)) ->
      mf_total_size d' = msum (m_content (mfdbp d')))).
Proof.
  intros Hinv Hwf Hnr Hal Hr. pose proof (inv_total _ Hinv) as Ht.
  unfold pctlmfdb_rcv in Hr.
  destruct (mfdb_fetch d k mf) as [[[[status e] n] v] mf1] eqn:Ef.
  destruct (mfdb_fetch_spec _ _ _ _ _ _ _ _ Hinv Hwf Hnr Hal Ef) as (Hwf1 & Hnr1 & Hal1 & H0).
  destruct (mfdb_del (mfdbp d) k) as [e2 m2] eqn:Ed. apply mfdb_del_law in Ed.
  pose proof (msum_nonneg (m_content m2)).
  assert (memfile_wf (mf_load mf1 0 [])) as Hwf0.
  { apply (mf_load_wf mf1 []); [done..|constructor|]. change (zlen (@nil Z)) with 0.
    pose proof (wf_alloc _ Hwf1). lia. }
  pose proof (msum_delete_le (m_content (mfdbp d)) k) as Hdel.
  destruct (Z.eqb_spec e 0) as [->|He]; cbv beta iota in Hr.
  - destruct (H0 eq_refl) as (-> & Hv & -> & Hle). clear H0.
    assert (memfile_wf (mf_load mf1 (zlen v) v)) as Hwfv.
    { apply mf_load_wf; try done. by apply (inv_bytes _ Hinv k). }
    pose proof (msum_delete _ _ _ Hv) as Hms. pose proof (zlen_nonneg v).
    destruct (Z.eqb_spec e2 0) as [->|He2]; simplify_eq/=; cbn in Ed.
    + rewrite Ed in *. split; [done|]. rewrite u64_small by lia.
      destruct (Z.ltb_spec (zlen v) (mf_total_size d)).
      * split_and!; try lia; [by right|by destruct d|]. intros _. split_and!; [done..|lia].
      * split_and!; try lia; [by right|by destruct d|]. intros _. split_and!; [done..|lia].
    + destruct (Z.eqb_spec e2 0); [done|]. rewrite Ed in *. split; [done|].
      split_and!; first [lia | done | by auto | by destruct d].
  - destruct (Z.eqb_spec e2 0) as [->|He2]; simplify_eq/=; cbn in Ed.
    + rewrite Ed in *. split; [done|]. rewrite Z.sub_0_r, u64_small by lia.
      destruct (Z.ltb_spec 0 (mf_total_size d)); (split_and!; first [lia | done | by auto | by destruct d]).
    + destruct (Z.eqb_spec e2 0); [done|]. rewrite Ed in *. split; [done|].
      split_and!; first [lia | done | by auto | by destruct d].
Qed.


(** the working file of the processor: closed, and below 4 GB *)
Definition mf_ready (mf : memfile) : Prop :=
  memfile_wf mf /\ mf_nread mf = 0 /\ mf_allocsize mf < 4294967296.

Lemma pctldb_rcv_spec d size st (r : option pctl_element_st) d1 :
  pctldb_inv d -> pctldb_rcv d size = (st, r, d1) -> db_n d <> 0 ->
  d1 = set_db_n (db_n d1) (set_dbp (dbp d1) d) /\ pctldb_inv d1 /\
  (st = 0 /\ (exists x, r = Some x /\ q_content (dbp d) = x :: q_content (dbp d1)) \/
   st = -1 /\ r = None /\ q_content (dbp d1) = q_content (dbp d)).
Proof.
  intros Hinv Hr Hn0. pose proof Hinv as [Hn Hs Hf Hl Ht Hby Hre]. unfold pctldb_rcv in Hr.
  destruct (qdb_re_len (dbp d)) as [e1 n1]. destruct (Z.eqb_spec e1 0); cbn [negb] in Hr.
  2: { simplify_eq. split; [by destruct d1|]. split; [done|by right]. }
  destruct (size <? n1).
  { simplify_eq. split; [by destruct d1|]. split; [done|by right]. }
  destruct (qdb_consume (dbp d)) as [[e2 x] q2] eqn:Ec.
  apply qdb_consume_law in Ec as (Er & Hne & H0).
  destruct (Z.eqb_spec e2 0) as [->|He]; cbn [negb] in Hr; simplify_eq.
  - destruct (H0 eq_refl) as (x0 & -> & Eq). split; [done|].
    split; [|left; cbn; by eauto]. cbn.
    rewrite Eq, fmap_cons in Hs. rewrite Eq, zlen_cons in Hn.
    pose proof (zlen_nonneg (q_content q2)).
    inversion Hs; subst. split; cbn; try done; [|intros i t k Hi Hc Hk|].
    + rewrite u32_small; lia.
    + eapply Hf; [done..|]. destruct Hk as [Hk|Hk]; [left|by right]. cbn in Hk.
      rewrite Eq, fmap_cons. by right.
    + congruence.
  - split; [by destruct d|].
    split; [|right; cbn; by rewrite Hne]. split; cbn; rewrite ?Hne, ?Er by done; try done.
    intros i t k Hi Hc Hk. eapply Hf; [done..|]. destruct Hk as [Hk|Hk]; [left|by right].
    cbn in Hk. by rewrite Hne in Hk by done.
Qed.


(** the limits are those of [d], and the counters no larger *)
Definition no_growth d d' : Prop :=
  hardlimit d' = hardlimit d /\ mf_hardlimit_mb d' = mf_hardlimit_mb d /\
  db_n d' <= db_n d.

Lemma rcv_after_wait_spec d p st0 st p' d' :
  pctldb_inv d -> mf_ready (pce_mf p) -> rcv_after_wait st0 d p = (st, p', d') ->
  pctldb_inv d' /\ mf_ready (pce_mf p') /\ no_growth d d' /\
  (q_content (dbp d) = [] -> d' = d /\ p' = p /\ st = if st0 =? ETIMEDOUT then 1 else -1) /\
  (st = 0 -> exists r, q_content (dbp d) = r :: q_content (dbp d') /\ info p' = info r /\
     m_content (mfdbp d) !! tsqueue r = Some (mf_p (pce_mf p')) /\
     m_content (mfdbp d') = delete (tsqueue r) (m_content (mfdbp d)) /\
     (mf_total_size d = msum (m_content (mfdbp d)) ->
      mf_total_size d' = msum (m_content (mfdbp d')))).
Proof.
  intros Hinv Hp Hr. unfold rcv_after_wait in Hr.
  destruct (Z.eqb_spec (db_n d) 0) as [Hn0|Hn0].
  { simplify_eq. split_and!; try done.
    destruct (inv_n _ Hinv) as [Hn _]. destruct (st0 =? ETIMEDOUT); done. }
  destruct (pctldb_rcv d (pce_data_size d)) as [[s1 r] d1] eqn:E1.
  destruct (pctldb_rcv_spec _ _ _ _ _ Hinv E1 Hn0) as (Ed1 & Hi1 & Hc).
  assert (q_content (dbp d) = [] -> False) as Hne.
  { intros Hq. destruct (inv_n _ Hinv) as [Hn _]. by rewrite Hq in Hn. }
  assert (no_growth d d1) as Hng.
  { split; [by rewrite Ed1|]. split; [by rewrite Ed1|].
    destruct (inv_n _ Hinv) as [-> _], (inv_n _ Hi1) as [-> _].
    destruct Hc as [(_ & x & _ & ->)|(_ & _ & ->)]; [|done]. rewrite zlen_cons. lia. }
  destruct Hc as [(-> & x & -> & Eq)|(-> & -> & Eq)].
  2: { simplify_eq. split_and!; try done; by intros ?%Hne. }
  destruct (pctlmfdb_rcv d1 (tsqueue x) (pce_mf p)) as [[s2 mf] d2] eqn:E2. simplify_eq.
  destruct Hp as (Hp1 & Hp2 & Hp3).
  destruct (pctlmfdb_rcv_spec _ _ _ _ _ _ Hi1 Hp1 Hp2 Hp3 E2)
    as (Hm & Ht & Hmc & Ed2 & H0).
  assert (m_content (mfdbp d1) = m_content (mfdbp d)) as Em by by rewrite Ed1.
  assert (mf_total_size d1 = mf_total_size d) as Et by by rewrite Ed1.
  rewrite Em, Et in *.
  split; [|split; [done|split; [|split; [by intros ?%Hne|]]]].
  - assert (forall k v, m_content (mfdbp d') !! k = Some v -> m_content (mfdbp d) !! k = Some v)
      as Hsub.
    { intros k v. destruct Hmc as [->| ->]; [done|]. intros [_ ?]%lookup_delete_Some. done. }
    pose proof Hi1 as [Hn Hs Hf Hl _ Hby Hre]. rewrite Ed2.
    split; cbn; try done; [|by rewrite Em in Hby; intros k v ?%Hsub%Hby].
    intros i t k Hi Hcl [Hk|[v Hk]]; [by eapply Hf; [..|left]|].
    eapply Hf; [done..|right]. rewrite Em. cbn in Hk. by eauto.
  - destruct Hng as (?&?&?). rewrite Ed2. done.
  - intros ->. destruct (H0 eq_refl) as (Hv & Hd & Hx). exists x.
    split; [|done]. rewrite Ed2. done.
Qed.

(** *** The abstract queue *)

Lemma absq_ext d d' : dbp d' = dbp d -> m_content (mfdbp d') = m_content (mfdbp d) ->
  absq d' = absq d.
Proof. unfold absq. by intros -> ->. Qed.

Lemma sorted_not_head k (l : list timespec) :
  StronglySorted ts_lt (k :: l) -> k ∉ l.
Proof.
  inversion 1 as [|?? _ HF]; subst. intros Hk. rewrite Forall_forall in HF.
  apply list_elem_of_In in Hk. destruct (ts_lt_irrefl k). by apply HF.
Qed.

Lemma tsq_in r (l : list pctl_element_st) : r ∈ l -> tsqueue r ∈ tsqueue <$> l.
Proof. apply list_elem_of_fmap_2. Qed.

(** the abstract effect of an accepted element *)
Lemma absq_send d d' p k :
  (forall x, in_keys d x -> ts_lt x k) ->
  q_content (dbp d') = q_content (dbp d) ++ [set_tsqueue k p] ->
  m_content (mfdbp d') = <[k:=mf_p (pce_mf p)]> (m_content (mfdbp d)) ->
  absq d' = absq d ++ [(info (set_tsqueue k p), mf_p (pce_mf p))].
Proof.
  intros Hk Hq Hm. unfold absq. rewrite Hq, Hm, fmap_app. f_equal.
  - apply list_fmap_ext. intros i r Hr.
    assert (tsqueue r <> k) as Hne.
    { intros <-. destruct (ts_lt_irrefl (tsqueue r)). apply Hk. left.
      apply tsq_in. by eapply list_elem_of_lookup_2. }
    by rewrite lookup_insert_ne.
  - cbn. by rewrite lookup_insert_eq.
Qed.

(** the abstract effect of a delivery *)
Lemma absq_rcv d d' r v :
  StronglySorted ts_lt (tsqueue <$> q_content (dbp d)) ->
  q_content (dbp d) = r :: q_content (dbp d') ->
  m_content (mfdbp d) !! tsqueue r = Some v ->
  m_content (mfdbp d') = delete (tsqueue r) (m_content (mfdbp d)) ->
  absq d = (info r, v) :: absq d'.
Proof.
  intros Hs Hq Hv Hm. unfold absq. rewrite Hq, Hm, fmap_cons. rewrite Hv. cbn. f_equal.
  apply list_fmap_ext. intros i x Hx.
  rewrite lookup_delete_ne; [done|].
  rewrite Hq, fmap_cons in Hs. apply sorted_not_head in Hs. intros E. apply Hs.
  rewrite E. apply tsq_in. by eapply list_elem_of_lookup_2.
Qed.

Lemma exact_send d d' p k :
  pctldb_exact d -> memfile_wf (pce_mf p) ->
  (forall x, in_keys d x -> ts_lt x k) ->
  q_content (dbp d') = q_content (dbp d) ++ [set_tsqueue k p] ->
  m_content (mfdbp d') = <[k:=mf_p (pce_mf p)]> (m_content (mfdbp d)) ->
  mf_total_size d' = mf_total_size d + mf_size (pce_mf p) ->
  pctldb_exact d'.
Proof.
  intros [Hf He Ht] Hwf Hk Hq Hm Ht'. split.
  - intros r. rewrite Hq, Hm, lookup_insert_is_Some. intros [Hr|Hr]%elem_of_app.
    + right. split; [|by apply Hf]. intros ->. destruct (ts_lt_irrefl (tsqueue r)).
      apply Hk. left. by apply tsq_in.
    + apply list_elem_of_singleton in Hr as ->. by left.
  - intros x. rewrite Hq, Hm, fmap_app, lookup_insert_is_Some. intros [<-|[_ Hx]].
    + apply elem_of_app. right. by apply list_elem_of_singleton.
    + apply elem_of_app. left. by apply He.
  - rewrite Hm, Ht', msum_insert, (wf_p _ Hwf) by by apply (stamp_not_key d). lia.
Qed.

Lemma exact_rcv d d' r :
  pctldb_exact d -> StronglySorted ts_lt (tsqueue <$> q_content (dbp d)) ->
  q_content (dbp d) = r :: q_content (dbp d') ->
  m_content (mfdbp d') = delete (tsqueue r) (m_content (mfdbp d)) ->
  mf_total_size d' = msum (m_content (mfdbp d')) ->
  pctldb_exact d'.
Proof.
  intros [Hf He Ht] Hs Hq Hm Ht'. rewrite Hq, fmap_cons in Hs.
  apply sorted_not_head in Hs. split; [..|done].
  - intros x Hx. rewrite Hm. rewrite lookup_delete_ne.
    + apply Hf. rewrite Hq. by right.
    + intros E. apply Hs. rewrite E. by apply tsq_in.
  - intros k. rewrite Hm, lookup_delete_is_Some. intros [Hne Hk%He].
    rewrite Hq, fmap_cons in Hk. apply elem_of_cons in Hk as [->|]; done.
Qed.


(** *** When the databases do not fail *)

Section reliable.
Context {DR : DbReliable D DS}.
Hypothesis Hmem : forall n, n < 4294967296 -> malloc_ok n = true.

Lemma pctldb_send_reliable d p st p' d' :
  pctldb_inv d -> memfile_wf (pce_mf p) -> mf_size (pce_mf p) < 4294967296 -> room d p ->
  pctldb_send_pce d p = Done (st, p', d') -> st <> -1.
Proof.
  intros Hinv Hwf Hsz Hroom Hs. unfold pctldb_send_pce in Hs.
  destruct (clock (tick d)) as [now|]; [|done]. cbv zeta in Hs.
  destruct (pctldb_hard_limit _ _ =? 0); cbn [negb Z.eqb] in Hs.
  2: { cbv beta iota in Hs. simplify_eq. done. }
  unfold pctldb_snd at 1 in Hs. cbv zeta in Hs.
  match type of Hs with context [qdb_put ?q ?x] =>
    pose proof (qdb_put_succeeds q x); destruct (qdb_put q x) as [e1 q1] end.
  cbn [fst] in *. subst e1. cbn [Z.eqb] in Hs. unfold pctlmfdb_snd in Hs. cbv zeta in Hs.
  match type of Hs with context [mfdb_put ?q ?x ?y] =>
    pose proof (mfdb_put_succeeds q x y); destruct (mfdb_put q x y) as [e2 q2] end.
  cbn [fst] in *. subst e2. cbn [Z.eqb negb] in Hs. cbv beta iota in Hs.
  intros ->. revert Hs. case_match; intros Hs; discriminate Hs.
Qed.

Lemma mfdb_fetch_reliable d k mf v :
  pctldb_inv d -> mf_ready mf -> m_content (mfdbp d) !! k = Some v ->
  exists status n w mf1, mfdb_fetch d k mf = (status, 0, n, w, mf1).
Proof.
  intros Hinv (Hwf & Hnr & Hal) Hv. unfold mfdb_fetch, get_memfile_allocated_size.
  pose proof (wf_alloc _ Hwf). rewrite u32_small by lia.
  destruct (inv_bytes _ Hinv _ _ Hv) as [_ Hlen]. pose proof (zlen_nonneg v).
  pose proof (mfdb_get_succeeds (mfdbp d) k v (mf_allocsize mf) Hv) as Hg.
  destruct (mfdb_get (mfdbp d) k (mf_allocsize mf)) as [[e1 n1] v1] eqn:E1. cbn [fst] in Hg.
  apply mfdb_get_law in E1 as [_ Gs].
  destruct (Z.ltb_spec (mf_allocsize mf) (zlen v)).
  - subst e1. destruct (Gs eq_refl) as (v' & Hv' & -> & _). cbn [Z.eqb DB_BUFFER_SMALL].
    assert (v' = v) as -> by congruence. cbn [Z.eqb Pos.eqb].
    unfold realloc_memfile. rewrite Hmem by done. cbn [Z.eqb mf_allocsize].
    rewrite u32_small by lia.
    pose proof (mfdb_get_succeeds (mfdbp d) k v (zlen v) Hv) as Hg2.
    rewrite Z.ltb_irrefl in Hg2.
    destruct (mfdb_get (mfdbp d) k (zlen v)) as [[e2 n2] v2]. cbn [fst] in Hg2. subst e2.
    by eauto 10.
  - subst e1. cbn [Z.eqb DB_BUFFER_SMALL]. by eauto 10.
Qed.

Lemma rcv_reliable d p st0 :
  pctldb_inv d -> pctldb_exact d -> mf_ready (pce_mf p) -> q_content (dbp d) <> [] ->
  exists p' d', rcv_after_wait st0 d p = (0, p', d').
Proof.
  intros Hinv Hex Hp Hne. unfold rcv_after_wait.
  destruct (Z.eqb_spec (db_n d) 0) as [Hn0|Hn0].
  { destruct (inv_n _ Hinv) as [Hn _]. destruct (q_content (dbp d)); [done|].
    rewrite zlen_cons in Hn. pose proof (zlen_nonneg l). lia. }
  destruct (pctldb_rcv d (pce_data_size d)) as [[s1 r] d1] eqn:E1.
  destruct (pctldb_rcv_spec _ _ _ _ _ Hinv E1 Hn0) as (Ed1 & Hi1 & Hc).
  assert (s1 = 0) as ->.
  { unfold pctldb_rcv in E1. pose proof (qdb_re_len_succeeds (dbp d)) as Hl.
    destruct (qdb_re_len (dbp d)) as [e n] eqn:El. cbn [fst] in Hl. subst e.
    apply qdb_re_len_law in El; [|done]. rewrite (inv_reclen _ Hinv) in El. subst n.
    cbn [Z.eqb negb] in E1. rewrite Z.ltb_irrefl in E1.
    pose proof (qdb_consume_succeeds _ Hne) as Hcs.
    destruct (qdb_consume (dbp d)) as [[e2 x] q2]. cbn [fst] in Hcs. subst e2.
    cbn [Z.eqb negb] in E1. by simplify_eq. }
  destruct Hc as [(_ & x & -> & Eq)|[? _]]; [|done].
  destruct (ex_file _ Hex x) as [v Hv]; [rewrite Eq; by left|].
  assert (mfdbp d1 = mfdbp d) as Em by by rewrite Ed1. rewrite <- Em in Hv.
  unfold pctlmfdb_rcv.
  destruct (mfdb_fetch d1 (tsqueue x) (pce_mf p)) as [[[[status e] n] w] mf1] eqn:Ef.
  destruct Hp as (Hp1 & Hp2 & Hp3).
  destruct (mfdb_fetch_reliable d1 (tsqueue x) (pce_mf p) v Hi1) as (s' & n' & w' & mf' & Ef'); [done..|].
  rewrite Ef in Ef'. injection Ef' as <- -> <- <- <-.
  destruct (mfdb_fetch_spec _ _ _ _ _ _ _ _ Hi1 Hp1 Hp2 Hp3 Ef) as (_ & _ & _ & H0).
  destruct (H0 eq_refl) as (-> & _).
  pose proof (mfdb_del_succeeds (mfdbp d1) (tsqueue x) v Hv) as Hd.
  destruct (mfdb_del (mfdbp d1) (tsqueue x)) as [e2 m2]. cbn [fst] in Hd. subst e2.
  cbn [Z.eqb]. by eauto.
Qed.
End reliable.


(** ** Runs of the queue *)

Inductive qop :=
| QSend (p : pctl_element_st)
| QRcv.

(** Readers send, the processor receives in its working element [w], which it
    closes before each receive; a receive on the empty queue times out. The
    results are what was delivered and what was accepted, in order. *)
Fixpoint queue_run (ops : list qop) d (w : pctl_element_st)
  : outcome (list (pctl_element_st * list Z) * list (pctl_element_st * list Z) * pctldb_st) :=
  match ops with
  | [] => Done ([], [], d)
  | QSend p :: ops =>
      let* (st, p', d1) := pctldb_send_pce d p in
      let* (dl, ac, d2) := queue_run ops d1 w in
      Done (dl, if (st =? 0) || (st =? 1) then (info p', mf_p (pce_mf p)) :: ac else ac, d2)
  | QRcv :: ops =>
      let w := set_pce_mf (close_memfile (pce_mf w)) w in
      match pctldb_rcv_pce d w [(ETIMEDOUT, d)] with
      | None => Undef
      | Some (st, w1, d1) =>
          let* (dl, ac, d2) := queue_run ops d1 w1 in
          Done (if st =? 0 then (info w1, mf_p (pce_mf w1)) :: dl else dl, ac, d2)
      end
  end.

(** the configured limits, and counters within them *)
Record limits_ok d : Prop := LimitsOk {
  lim_n : 0 < hardlimit d < 4294967295;
  lim_mf : 0 < mf_hardlimit_mb d < 8796093022208;     (* 2^43 MB *)
  lim_n_le : db_n d <= hardlimit d;
  lim_mf_le : mf_total_size d <= mf_hardlimit_mb d * 1048576
}.

Lemma hard_limit_0 d n : limits_ok d -> 0 <= mf_total_size d -> 0 <= n < 4294967296 ->
  pctldb_hard_limit d n = 0 ->
  db_n d < hardlimit d /\ mf_total_size d + n <= mf_hardlimit_mb d * 1048576.
Proof.
  intros [] ? ?. unfold pctldb_hard_limit. change (1024 * 1024) with 1048576.
  rewrite (u64_small (_ + n)) by lia.
  rewrite (u64_small (_ * 1048576)) by lia.
  destruct (Z.ltb_spec 0 (mf_hardlimit_mb d)); [|lia].
  destruct (Z.ltb_spec (mf_hardlimit_mb d * 1048576) (mf_total_size d + n)); [done|].
  destruct (Z.ltb_spec 0 (hardlimit d)); [|lia].
  destruct (Z.eqb_spec (db_n d) (hardlimit d)); [done|]. simpl. lia.
Qed.

Lemma hard_limit_iff d n : limits_ok d -> 0 <= mf_total_size d -> 0 <= n < 4294967296 ->
  pctldb_hard_limit d n = 0 <->
  ~ (db_n d = hardlimit d \/ mf_hardlimit_mb d * 1048576 < mf_total_size d + n).
Proof.
  intros Hlim Ht Hn. split.
  - intros Hz. destruct (hard_limit_0 d n Hlim Ht Hn Hz). lia.
  - intros Hno. destruct Hlim. unfold pctldb_hard_limit. change (1024 * 1024) with 1048576.
    rewrite !u64_small by lia. ztest; simpl; lia || done.
Qed.

Lemma limits_room d p : limits_ok d -> pctldb_inv d -> mf_size (pce_mf p) < 4294967296 -> room d p.
Proof.
  intros [] Hinv Hs. pose proof (inv_total _ Hinv). pose proof (msum_nonneg (m_content (mfdbp d))).
  unfold room. lia.
Qed.

(** an element that may be sent *)
Definition sendable p : Prop := memfile_wf (pce_mf p) /\ mf_size (pce_mf p) < 4294967296.

Lemma send_limits d p st p' d' :
  pctldb_inv d -> limits_ok d -> sendable p ->
  pctldb_send_pce d p = Done (st, p', d') -> limits_ok d'.
Proof.
  intros Hinv Hlim [Hwf Hsz] Hs. pose proof (limits_room d p Hlim Hinv Hsz) as Hroom.
  destruct (pctldb_send_pce_spec d p Hinv Hwf Hsz Hroom)
    as (st1 & k & d1 & E & _ & Eh & Em & _ & Hc).
  rewrite E in Hs. injection Hs as <- <- <-.
  pose proof (wf_size _ Hwf) as Hws. destruct Hroom as (_ & Ht0 & _).
  pose proof (hard_limit_0 d (mf_size (pce_mf p)) Hlim Ht0 ltac:(lia)) as Hh. destruct Hlim.
  destruct Hc as [(_ & _ & ->)|[(_ & Hz & Hn & Ht)|(_ & Hz & _ & Hn & _ & Ht)]].
  - by split.
  - specialize (Hh Hz). split; rewrite ?Eh, ?Em, ?Ht; lia.
  - specialize (Hh Hz). split; rewrite ?Eh, ?Em, ?Ht, ?Hn; lia.
Qed.

Lemma rcv_pce_timeout d w :
  exists st0, pctldb_rcv_pce d w [(ETIMEDOUT, d)] = Some (rcv_after_wait st0 d w) /\
    (db_n d = 0 -> st0 = ETIMEDOUT).
Proof.
  unfold pctldb_rcv_pce. cbn [wait_loop]. destruct (Z.eqb_spec (db_n d) 0); cbn [andb].
  - exists ETIMEDOUT. done.
  - exists 0. done.
Qed.

Section runs.
Context {DR : DbReliable D DS}.
Hypothesis Hmem : forall n, n < 4294967296 -> malloc_ok n = true.

(** one step of a run: what it accepts and delivers, and the state left *)
Lemma send_step d p :
  pctldb_inv d -> pctldb_exact d -> limits_ok d -> sendable p ->
  exists st p' d', pctldb_send_pce d p = Done (st, p', d') /\
    pctldb_inv d' /\ pctldb_exact d' /\ limits_ok d' /\
    absq d' = absq d ++ (if (st =? 0) || (st =? 1)
                         then [(info p', mf_p (pce_mf p))] else []).
Proof.
  intros Hinv Hex Hlim Hp. pose proof Hp as [Hwf Hsz].
  pose proof (limits_room d p Hlim Hinv Hsz) as Hroom.
  destruct (pctldb_send_pce_spec d p Hinv Hwf Hsz Hroom)
    as (st & k & d1 & E & Hi1 & _ & _ & Hk & Hc).
  pose proof (pctldb_send_reliable _ _ _ _ _ Hinv Hwf Hsz Hroom E) as Hnf.
  exists st, (set_tsqueue k p), d1. split; [done|]. split; [done|].
  assert (limits_ok d1) as Hl1 by by eapply (send_limits d p).
  destruct Hc as [(-> & _ & ->)|[[? _]|(Hst & _ & Hq & _ & Hm & Ht)]]; [|done|].
  - split; [by destruct Hex|]. split; [done|]. by rewrite app_nil_r.
  - split; [by eapply exact_send|]. split; [done|]. rewrite (absq_send d d1 p k) by done.
    by destruct Hst as [->| ->].
Qed.

Lemma rcv_step d w :
  pctldb_inv d -> pctldb_exact d -> limits_ok d -> mf_ready (pce_mf w) ->
  exists st w' d', pctldb_rcv_pce d w [(ETIMEDOUT, d)] = Some (st, w', d') /\
    pctldb_inv d' /\ pctldb_exact d' /\ limits_ok d' /\ mf_ready (pce_mf w') /\
    absq d = (if st =? 0 then [(info w', mf_p (pce_mf w'))] else []) ++ absq d' /\
    (st = 0 \/ st = 1 /\ absq d = []).
Proof.
  intros Hinv Hex Hlim Hw. destruct (rcv_pce_timeout d w) as (st0 & -> & Hst0).
  destruct (rcv_after_wait st0 d w) as [[st w'] d'] eqn:E.
  destruct (rcv_after_wait_spec _ _ _ _ _ _ Hinv Hw E) as (Hi' & Hw' & Hng & Hempty & H0).
  exists st, w', d'. split; [done|]. split; [done|].
  destruct (decide (q_content (dbp d) = [])) as [Hq|Hq].
  - destruct (Hempty Hq) as (-> & -> & Est).
    rewrite Hst0 in Est by (destruct (inv_n _ Hinv) as [-> _]; by rewrite Hq).
    cbn in Est. subst st. split_and!; try done. right. split; [done|]. unfold absq. by rewrite Hq.
  - destruct (rcv_reliable Hmem d w st0 Hinv Hex Hw Hq) as (w2 & d2 & E2).
    rewrite E in E2. injection E2 as -> <- <-.
    destruct (H0 eq_refl) as (r & Hq' & Hinf & Hv & Hm & Ht).
    specialize (Ht (ex_total _ Hex)).
    assert (pctldb_exact d') as Hex' by (by eapply exact_rcv; [..|done|done]; eauto using inv_sorted).
    split; [done|]. split; [|split; [done|split; [|by left]]].
    + destruct Hng as (E1 & E3 & E4). destruct Hlim. split; rewrite ?E1, ?E3; try done; [lia|].
      pose proof (msum_delete _ _ _ Hv) as Hmd. pose proof (zlen_nonneg (mf_p (pce_mf w'))).
      rewrite Ht, Hm. pose proof (ex_total _ Hex). lia.
    + rewrite (absq_rcv d d' r _ (inv_sorted _ Hinv) Hq' Hv Hm). cbn [Z.eqb app].
      by rewrite Hinf.
Qed.

Lemma close_ready mf : mf_ready mf -> mf_ready (close_memfile mf).
Proof. intros (? & ? & ?). split; [by apply close_wf|]. done. Qed.

Lemma queue_run_fifo ops d w :
  pctldb_inv d -> pctldb_exact d -> limits_ok d -> mf_ready (pce_mf w) ->
  Forall (fun o => match o with QSend p => sendable p | QRcv => True end) ops ->
  exists dl ac d', queue_run ops d w = Done (dl, ac, d') /\
    pctldb_inv d' /\ pctldb_exact d' /\ limits_ok d' /\
    absq d ++ ac = dl ++ absq d'.
Proof.
  revert d w. induction ops as [|o ops IH]; intros d w Hinv Hex Hlim Hw Hops.
  { exists [], [], d. split_and!; try done. by rewrite app_nil_r. }
  inversion Hops as [|?? Ho Hops']; subst. destruct o as [p|]; cbn [queue_run].
  - destruct (send_step d p) as (st & p' & d1 & -> & Hi1 & He1 & Hl1 & Ha); [done..|].
    cbn [obind]. destruct (IH d1 w) as (dl & ac & d2 & -> & Hi2 & He2 & Hl2 & Hf); [done..|].
    cbn [obind]. eexists _, _, _. split; [done|]. split_and!; try done.
    rewrite <- Hf, Ha, <- app_assoc. by destruct (_ || _).
  - destruct (rcv_step d (set_pce_mf (close_memfile (pce_mf w)) w))
      as (st & w1 & d1 & -> & Hi1 & He1 & Hl1 & Hw1 & Ha & _); [done..|by apply close_ready|].
    destruct (IH d1 w1) as (dl & ac & d2 & -> & Hi2 & He2 & Hl2 & Hf); [done..|].
    cbn [obind]. eexists _, _, _. split; [done|]. split_and!; try done.
    rewrite Ha, <- app_assoc, Hf, app_assoc. by destruct (st =? 0).
Qed.
End runs.


(** ** Properties *)


(** C16: Sending and receiving keep the invariant of the queue also when the
    database operations fail: the count is the number of queued elements, the
    time stamps used as keys are strictly increasing along the queue and no
    stamp is ever given twice, and the accounted bytes cover the stored files.
    The clock works and does not go back by a second. *)
Theorem pctldb_ops_invariant (d : pctldb_st) (p : pctl_element_st)
  (Hinv : pctldb_inv d) (Hp : sendable p) (Hroom : room d p) (Hw : mf_ready (pce_mf p)) :
  (exists st p' d', pctldb_send_pce d p = Done (st, p', d') /\ pctldb_inv d' /\
     (st = -1 \/ 0 <= st <= 2)) /\
  (forall st0 st p' d', rcv_after_wait st0 d p = (st, p', d') ->
     pctldb_inv d' /\ mf_ready (pce_mf p') /\ db_n d' <= db_n d).
Proof.
  split.
  - destruct Hp. destruct (pctldb_send_pce_spec d p) as (st & k & d1 & E & Hi & _ & _ & _ & Hc);
      [done..|]. exists st, (set_tsqueue k p), d1. split; [done|]. split; [done|].
    destruct Hc as [[-> _]|[[-> _]|[[->| ->] _]]]; [right|left|right|right]; lia.
  - intros st0 st p' d' E.
    by destruct (rcv_after_wait_spec _ _ _ _ _ _ Hinv Hw E) as (? & ? & (_ & _ & ?) & _).
Qed.

(** C17: With the hard limits configured, no send takes the number of queued
    elements past [hardlimit] nor the accounted bytes past [mf_hardlimit_mb]
    megabytes; an element that would is refused with status 2 and leaves the
    queue as it was. The clock works and does not go back by a second. *)
Theorem pctldb_hard_limits_hold (d : pctldb_st) (p p' : pctl_element_st) (st : Z)
  (d' : pctldb_st) (Hinv : pctldb_inv d) (Hlim : limits_ok d) (Hp : sendable p)
  (Hsend : pctldb_send_pce d p = Done (st, p', d')) :
  limits_ok d' /\
  (st = 2 <-> db_n d = hardlimit d \/
              mf_hardlimit_mb d * 1048576 < mf_total_size d + mf_size (pce_mf p)) /\
  (st = 2 -> dbp d' = dbp d /\ mfdbp d' = mfdbp d /\ db_n d' = db_n d).
Proof.
  split; [by eapply send_limits|]. destruct Hp as [Hwf Hsz].
  pose proof (limits_room d p Hlim Hinv Hsz) as Hroom.
  destruct (pctldb_send_pce_spec d p Hinv Hwf Hsz Hroom)
    as (st1 & k & d1 & E & _ & _ & _ & _ & Hc).
  rewrite E in Hsend. injection Hsend as <- <- <-.
  pose proof (wf_size _ Hwf) as Hws. destruct Hroom as (_ & Ht0 & _).
  pose proof (hard_limit_iff d (mf_size (pce_mf p)) Hlim Ht0 ltac:(lia)) as Hh.
  destruct Hc as [(-> & Hz & ->)|[(-> & Hz & _)|(Hst & Hz & _)]].
  - split; [|done]. split; [intros _|done].
    destruct (decide (db_n d = hardlimit d)); [by left|right].
    destruct (Z.lt_ge_cases (mf_hardlimit_mb d * 1048576)
                (mf_total_size d + mf_size (pce_mf p))); [done|].
    rewrite (proj2 Hh) in Hz by lia. done.
  - apply Hh in Hz. split; [|lia]. lia.
  - apply Hh in Hz. split; [|lia]. lia.
Qed.

End spec.

(** [timespec_cmp] is a total order on the keys of the btree, with which
    two keys compare equal only when they are the same time stamp. *)
Theorem timespec_cmp_order (a b c : timespec) :
  (timespec_cmp a b = 0 <-> a = b) /\
  timespec_cmp a b = - timespec_cmp b a /\
  (timespec_cmp a b < 0 -> timespec_cmp b c < 0 -> timespec_cmp a c < 0).
Proof.
  unfold timespec_cmp. destruct a as [a1 a2], b as [b1 b2], c as [c1 c2]. cbn.
  split_and!.
  - split; [|intros [= -> ->]; by rewrite !Z.eqb_refl].
    ztest; simpl; intros; try lia. by subst.
  - ztest; simpl; lia.
  - ztest; simpl; lia.
Qed.

(** ** A concrete database *)

#[export] Instance list_db : Db := {|
  qdb := list pctl_element_st * Z;
  mfdb := gmap timespec (list Z);
  qdb_put q r := (0, (q.1 ++ [r], q.2));
  qdb_consume q := match q.1 with [] => (-1, None, q) | r :: l => (0, Some r, (l, q.2)) end;
  qdb_re_len q := (0, q.2);
  qdb_stat q := (0, zlen q.1);
  mfdb_put m k v := (0, <[k:=v]> m);
  mfdb_get m k ulen :=
    match m !! k with
    | None => (-30988, 0, [])                       (* DB_NOTFOUND *)
    | Some v => if ulen <? zlen v then (DB_BUFFER_SMALL, zlen v, []) else (0, zlen v, v)
    end;
  mfdb_del m k := match m !! k with None => (-30988, m) | Some _ => (0, delete k m) end;
  mfdb_walk m := ((fun kv => zlen kv.2) <$> map_to_list m, true)
|}.

#[export] Instance list_db_spec : DbSpec list_db.
Proof.
  refine {| q_content := (fst : @qdb list_db -> _); m_content := fun m : @mfdb list_db => m;
            q_reclen := (snd : @qdb list_db -> _) |}.
  - intros [l n] r e q'; cbn; intros ?; by simplify_eq.
  - intros [[|r l] n] e x q'; cbn; intros ?; simplify_eq; (split_and!; [done|done|]);
      [done|by eauto].
  - intros [l n] e m; cbn; intros ?; by simplify_eq.
  - intros [l n] e m; cbn; intros ?; by simplify_eq.
  - intros m k v e m'; cbn; intros ?; by simplify_eq.
  - intros m k ulen e n d; cbn; intros Hg. case_match eqn:E; [case_match eqn:El|]; simplify_eq.
    + split; [done|]. intros _. exists l. apply Z.ltb_lt in El. done.
    + apply Z.ltb_ge in El. split; [done|]. unfold DB_BUFFER_SMALL. lia.
    + split; [done|]. unfold DB_BUFFER_SMALL. lia.
  - intros m k e m'; cbn; intros Hg. case_match eqn:E; by simplify_eq.
  - intros m l; cbn; intros ?; by simplify_eq.
Defined.

Lemma list_db_reliable : DbReliable list_db list_db_spec.
Proof.
  split; cbn; try done.
  - intros [[|] ?]; done.
  - intros m k v ulen ->. by destruct (ulen <? zlen v).
  - intros m k v ->. done.
Qed.

(** a clock that advances by a second every eight readings *)
Definition demo_clock : Clock := {| clock i := Some (Timespec (Z.max 0 i / 8) 5) |}.
Lemma demo_clock_spec : ClockSpec demo_clock.
Proof.
  split; cbn; [by eauto|]. intros i j s t Hij [= <-] [= <-]. cbn.
  split; [apply Z.div_pos; lia|]. apply Z.div_le_mono; lia.
Qed.

Definition demo_pce (seq : Z) (data : list Z) : pctl_element_st :=
  Pce 1 1 1 seq 0 0 0 0 0 0 (Timespec 0 0) (Timespec 0 0) 0 0 0
    (Memfile 8192 8192 (zlen data) 0 data) [] 0 0 (WmoHeader [] [] [] [] []) [] [] 0 [].

Definition demo_db : @pctldb_st list_db :=
  @Pctldb list_db ([], 500) ∅ 500 500 0 4294967295 0 (Timespec 0 0) 0 2 0 1 0.

Lemma demo_db_inv : @pctldb_inv list_db list_db_spec demo_clock demo_db.
Proof.
  split; cbn; try done; try lia.
  - constructor.
  - intros i t k _ _ [Hk|[? Hk]]; [by apply elem_of_nil in Hk|]. cbn in Hk.
    by rewrite lookup_empty in Hk.
  - intros i t _ [= <-]. cbn. apply Z.div_pos; lia.
Qed.

Lemma demo_db_exact : @pctldb_exact list_db list_db_spec demo_db.
Proof.
  split; cbn; try done.
  - intros r Hr. by apply elem_of_nil in Hr.
  - intros k [? Hk]. by rewrite lookup_empty in Hk.
Qed.

Lemma demo_db_limits : @limits_ok list_db demo_db.
Proof. split; cbn; lia. Qed.

Lemma demo_pce_ok seq data : bytes data -> zlen data < 4096 ->
  sendable (demo_pce seq data) /\ mf_ready (pce_mf (demo_pce seq data)).
Proof.
  intros Hb Hl. pose proof (zlen_nonneg data).
  assert (memfile_wf (pce_mf (demo_pce seq data))) by (split; cbn; done || lia).
  split; split; cbn; try done; try lia.
Qed.

(** ** Witnesses *)

(** two sends, a receive, a send that the limit of two allows, two receives *)
Definition demo_ops : list qop :=
  [QSend (demo_pce 7 [65; 66]); QSend (demo_pce 8 [67]); QRcv; QSend (demo_pce 9 []);
   QRcv; QRcv; QRcv].

Lemma demo_ops_ok : Forall (fun o => match o with QSend p => sendable p | QRcv => True end) demo_ops.
Proof.
  assert (forall n l, bool_decide (bytes l /\ zlen l < 4096) = true -> sendable (demo_pce n l))
    as Hs by (intros n l [? ?]%bool_decide_eq_true; by apply demo_pce_ok).
  do 7 (apply Forall_cons; [first [by apply Hs; vm_compute | done]|]). constructor.
Qed.


Lemma pctldb_ops_invariant_witness :
  exists st p' d', @pctldb_send_pce list_db demo_clock demo_db (demo_pce 7 [65; 66]) =
    Done (st, p', d') /\ @pctldb_inv list_db list_db_spec demo_clock d' /\
    (st = -1 \/ 0 <= st <= 2).
Proof.
  apply (@pctldb_ops_invariant demo_heap demo_heap_spec list_db list_db_spec demo_clock
           demo_clock_spec demo_db (demo_pce 7 [65; 66])).
  - apply demo_db_inv.
  - apply demo_pce_ok; [apply (bool_decide_unpack _); by vm_compute|done].
  - split_and!; by vm_compute.
  - apply demo_pce_ok; [apply (bool_decide_unpack _); by vm_compute|done].
Defined.

(** the queue that holds two elements refuses a third one *)
Definition demo_full : @pctldb_st list_db :=
  @Pctldb list_db ([demo_pce 7 []; set_tsqueue (Timespec 0 1) (demo_pce 8 [])], 500) ∅
    500 500 2 4294967295 0 (Timespec 0 1) 0 2 0 1 0.

Lemma pctldb_hard_limits_hold_witness :
  exists p' d', @pctldb_send_pce list_db demo_clock demo_full (demo_pce 9 [65]) = Done (2, p', d') /\
    @limits_ok list_db d' /\ dbp d' = dbp demo_full.
Proof.
  assert (exists p' d', @pctldb_send_pce list_db demo_clock demo_full (demo_pce 9 [65]) =
            Done (2, p', d')) as (p' & d' & E) by (eexists _, _; vm_compute; reflexivity).
  exists p', d'. split; [exact E|].
  destruct (@pctldb_hard_limits_hold list_db list_db_spec demo_clock
              demo_clock_spec demo_full (demo_pce 9 [65]) p' 2 d') as (Hl & _ & H2).
  - split; cbn; try done; try lia.
    + repeat constructor.
    + intros i t k _ [= <-] Hk. cbn.
      assert (k = Timespec 0 0 \/ k = Timespec 0 1) as [-> | ->].
      { destruct Hk as [Hk|[? Hk]]; [|cbn in Hk; by rewrite lookup_empty in Hk].
        cbn in Hk. rewrite !elem_of_cons, elem_of_nil in Hk. naive_solver. }
      * apply ts_lt_iff. unfold next_tsqueue. cbn.
        destruct (Z.eqb_spec (Z.max 0 i / 8) 0) as [->|]; cbn; [lia|].
        pose proof (Z.div_pos (Z.max 0 i) 8). lia.
      * apply next_tsqueue_later. cbn. apply Z.div_pos; lia.
    + intros i t _ [= <-]. cbn. apply Z.div_pos; lia.
  - split; cbn; lia.
  - apply demo_pce_ok; [apply (bool_decide_unpack _); by vm_compute|done].
  - exact E.
  - split; [exact Hl|]. apply H2. done.
Defined.

Lemma timespec_cmp_order_witness :
  timespec_cmp (Timespec 3 9) (Timespec 4 1) = -1 /\
  timespec_cmp (Timespec 3 9) (Timespec 5 0) < 0.
Proof.
  split; [done|]. apply (timespec_cmp_order (Timespec 3 9) (Timespec 4 1) (Timespec 5 0)); done.
Defined.
