(* ===== verification/Pctl.v ===== *)
(** * Pctl: src/src/pctl.c, the product control

    One element ([activepce]) per NOAAPort channel, in which the readers
    assemble the product being received, the queue of the assembled products
    ([Pctldb]), and the working element and file of the processor. An element
    whose [seq_number] is 0 is free. *)

From S2P Require Import Prelude Util CLib Mfile Sbn Pctldb.

Definition FNAME_SIZE : Z := 18.
Definition FBASENAME_SIZE : Z := 36.
(** [sizeof(struct pctl_element_st)] *)
Definition PCE_SIZEOF : Z := 264.

(** in framep.c; [spooldir] without its terminator *)
Definition const_fpath_maxsize (spooldir : list Z) : Z :=
  zlen spooldir + WMO_STATION_SIZE + FBASENAME_SIZE + 2.

Definition const_pce_size (spooldir : list Z) : Z :=
  PCE_SIZEOF + const_fpath_maxsize spooldir + 1.

Definition const_pce_data_size (spooldir : list Z) : Z := const_pce_size spooldir.

Section pctl.
Context `{Hp : Heap} `{D : Db} `{C : Clock}.

Record pctl_st := Pctl {
  pctldb : pctldb_st;
  activepce : list pctl_element_st;
  num_activechannels : Z;
  outputmf : memfile;
  pctl_pce : pctl_element_st;
  status_current : Z;
  status_last : Z
}.

Definition set_pctldb v (c : pctl_st) := Pctl v (activepce c)
  (num_activechannels c) (outputmf c) (pctl_pce c) (status_current c)
  (status_last c).
Definition set_activepce v (c : pctl_st) := Pctl (pctldb c) v
  (num_activechannels c) (outputmf c) (pctl_pce c) (status_current c)
  (status_last c).
Definition set_outputmf v (c : pctl_st) := Pctl (pctldb c) (activepce c)
  (num_activechannels c) v (pctl_pce c) (status_current c) (status_last c).
Definition set_pctl_pce v (c : pctl_st) := Pctl (pctldb c) (activepce c)
  (num_activechannels c) (outputmf c) v (status_current c) (status_last c).
Definition set_status_current v (c : pctl_st) := Pctl (pctldb c) (activepce c)
  (num_activechannels c) (outputmf c) (pctl_pce c) v (status_last c).
Definition set_status_last v (c : pctl_st) := Pctl (pctldb c) (activepce c)
  (num_activechannels c) (outputmf c) (pctl_pce c) (status_current c) v.

(** ** Elements *)

Definition set_fpath_size v (e : pctl_element_st) : pctl_element_st :=
  Pce (f_complete e) (pce_num_fragments e) (recv_fragments e) (seq_number e)
    (pce_orig_seq_number e) (pce_sbn_datstream e) (psh_product_type e)
    (psh_product_category e) (psh_product_code e) (pce_np_channel_index e)
    (pce_ts e) (tsqueue e) (save_format e) (saveunz_flag e) (rtxdb_flag e)
    (pce_mf e) (pce_ctrlhdr e) (pce_ctrlhdr_size e) (f_has_ccb e) (pce_wmo e)
    (fname e) (fbasename e) v (fpath e).

(** [junk]: what the allocated memory held *)
Definition create_pce (spooldir : list Z) (junk : pctl_element_st) (memfile_size : Z)
  : option pctl_element_st :=
  if malloc_ok (const_pce_size spooldir) then
    match create_memfile memfile_size with
    | Some mf =>
        Some (set_fpath_size (const_fpath_maxsize spooldir + 1)
                (set_seq_number 0 (set_pce_mf mf junk)))
    | None => None
    end
  else None.

(** 0: the element was free and is now open *)
Definition open_pce (e : pctl_element_st) : Z :=
  if seq_number e =? 0 then open_memfile (pce_mf e) else 1.

Definition close_pce (e : pctl_element_st) : pctl_element_st :=
  set_seq_number 0 (set_pce_mf (close_memfile (pce_mf e)) e).

(** the second loop of [create_pce_array], for [n] channels *)
Fixpoint create_pce_loop (spooldir : list Z) (junk : pctl_element_st)
    (n : nat) (memfile_size : Z) : option (list pctl_element_st) :=
  match n with
  | O => Some []
  | S n' =>
      match create_pce spooldir junk memfile_size with
      | Some e =>
          match create_pce_loop spooldir junk n' memfile_size with
          | Some l => Some (e :: l)
          | None => None
          end
      | None => None
      end
  end.

Definition create_pce_array (spooldir : list Z) (junk : pctl_element_st)
    (numchannels memfile_size : Z) : option (list pctl_element_st) :=
  if malloc_ok (numchannels * 8)
  then create_pce_loop spooldir junk (Z.to_nat numchannels) memfile_size
  else None.

(** [None]: status -1 *)
Definition pctl_init (spooldir : list Z) (junk : pctl_element_st) (numchannels : Z)
    (param : pctldb_param_st) : outcome (option pctl_st) :=
  let* db := pctldb_open (const_pce_size spooldir) param in
  match db with
  | None => Done None
  | Some db =>
      match create_pce_array spooldir junk numchannels (param_memfile_minsize param) with
      | None => Done None
      | Some a =>
          match create_memfile (param_memfile_minsize param) with
          | None => Done None
          | Some mf =>
              match create_pce spooldir junk (param_memfile_minsize param) with
              | None => Done None
              | Some e => Done (Some (Pctl db a numchannels mf e 0 0))
              end
          end
      end
  end.

Definition epctl_open (spooldir : list Z) (junk : pctl_element_st) (numchannels : Z)
    (param : pctldb_param_st) : outcome (option pctl_st) :=
  if malloc_ok 56 then pctl_init spooldir junk numchannels param
  else Done None.

(** ** Channels *)

(** [assert((i >= 0) && (i < num_activechannels))], then [activepce[i]] *)
Definition with_channel {A} (c : pctl_st) (i : Z)
    (k : pctl_element_st -> outcome A) : outcome A :=
  c_assert ((0 <=? i) && (i <? num_activechannels c))
    (let* e := rd (activepce c) i in k e).

Definition put_channel (c : pctl_st) (i : Z) (e : pctl_element_st) : pctl_st :=
  set_activepce (<[Z.to_nat i:=e]> (activepce c)) c.

Definition epctl_send (c : pctl_st) (channel_index : Z) : outcome (Z * pctl_st) :=
  with_channel c channel_index (fun e =>
    let* (status, e, db) := pctldb_send_pce (pctldb c) e in
    let c := put_channel (set_pctldb db c) channel_index e in
    let c := set_status_current status c in
    Done (if status =? 1 then 0 else status, c)).

Definition esend_pctl_activepce (c : pctl_st) (channel_index : Z) : outcome (Z * pctl_st) :=
  epctl_send c channel_index.

(** [None]: still waiting *)
Definition epctl_rcv (c : pctl_st) (wakeups : list (Z * pctldb_st)) : option (Z * pctl_st) :=
  match pctldb_rcv_pce (pctldb c) (pctl_pce c) wakeups with
  | None => None
  | Some (status, e, db) => Some (status, set_pctl_pce e (set_pctldb db c))
  end.

(** the message logged: 1 soft limit, 2 hard limit, 3 restored, 0 none *)
Definition epctl_report_status (c : pctl_st) : Z * pctl_st :=
  let msg :=
    if status_current c =? 1 then 1
    else if status_current c =? 2 then 2
    else if (status_current c =? 0) && negb (status_current c =? status_last c) then 3
    else 0 in
  (msg, set_status_last (status_current c) c).

Definition get_pctl_outputpce (c : pctl_st) : pctl_element_st := pctl_pce c.

Definition eopen_pctl_outputpce (c : pctl_st) (wakeups : list (Z * pctldb_st))
  : option (Z * option pctl_element_st * pctl_st) :=
  match epctl_rcv c wakeups with
  | None => None
  | Some (status, c) =>
      Some (status, if status =? 0 then Some (get_pctl_outputpce c) else None, c)
  end.

Definition reopen_pctl_outputmf (c : pctl_st) : option memfile * pctl_st :=
  let mf := close_memfile (outputmf c) in
  let c := set_outputmf mf c in
  if negb (open_memfile mf =? 0) then (None, c) else (Some mf, c).

Definition close_pctl_outputpce (c : pctl_st) : pctl_st :=
  set_pctl_pce (close_pce (pctl_pce c)) c.

(** [None]: there is an unfinished product in the channel *)
Definition open_pctl_activepce (c : pctl_st) (channel_index : Z)
  : outcome (option pctl_element_st) :=
  with_channel c channel_index (fun e =>
    if negb (open_pce e =? 0) then Done None else Done (Some e)).

Definition close_pctl_activepce (c : pctl_st) (channel_index : Z) : outcome pctl_st :=
  with_channel c channel_index (fun e => Done (put_channel c channel_index (close_pce e))).

Definition get_pctl_activepce (c : pctl_st) (channel_index seqnumber : Z)
  : outcome (option pctl_element_st) :=
  with_channel c channel_index (fun e =>
    if negb (seq_number e =? seqnumber) then Done None else Done (Some e)).

(** 1: not the active product; 2: a frame has been missed *)
Definition update_activepce_framecounter (c : pctl_st)
    (channel_index seqnumber block_number : Z) : outcome (Z * pctl_st) :=
  with_channel c channel_index (fun e =>
    if negb (seq_number e =? seqnumber) then Done (1, c)
    else if block_number =? recv_fragments e then
      Done (0, put_channel c channel_index (set_recv_fragments (s32 (recv_fragments e + 1)) e))
    else Done (2, c)).

Definition complete_activepce (c : pctl_st) (channel_index seqnumber : Z)
  : outcome (Z * pctl_st) :=
  with_channel c channel_index (fun e =>
    if negb (seq_number e =? seqnumber) then Done (1, c)
    else if recv_fragments e <? pce_num_fragments e then Done (2, c)
    else Done (0, put_channel c channel_index (set_f_complete 1 e))).

End pctl.

#[global] Arguments pctl_st {D}.
