(* ===== verification/Framep.v ===== *)
(** * Framep: src/src/framep.c, the frame processor

    [sbnframeproc] takes each received frame through three stages: START opens
    the element of the channel and names the product, PROGRESS appends the data
    of the frame to the memory file of the element, END sends the element to
    the queue. The state is the product control ([Pctl]), the statistics
    ([Stats]) and the last frame level header of each channel.

    The regular expressions of nbspre.c are a parameter ([Regex]); the log
    messages are left out, except that [log_pce_diag] reads the element. *)

From S2P Require Import Prelude Util CLib Mfile Sbn Stats Pctldb Pctl.

Definition FNAME_WMOID_SEP_CHAR : Z := 95.      (* '_' *)
Definition FNAME_AWIPS_SEP_CHAR : Z := 45.      (* '-' *)
Definition FNAME_NOTAWIPS_SEP_CHAR : Z := 43.   (* '+' *)
Definition FNAME_FSEQKEY_SEPCHAR : Z := 46.     (* '.' *)
Definition FNAME_SEQNUM_SEPCHAR : Z := 95.      (* '_' *)

(** the members of the global [g] that are read *)
Record globals := Globals {
  spooldir : list Z;
  spoolsavefmt : Z;
  memfile_blocksize : Z;
  memfile_minsize : Z;
  f_loadave_max_rtx : Z
}.

(** 1: no match with the accepted names, 0: match, -1: error *)
Class Regex := {
  np_regex_match : list Z -> Z;
  savez_regex_match : list Z -> Z
}.

(** ** Names *)

(** [cvt_to_lc] on a character array *)
Definition cvt_to_lc (a : list Z) : outcome (list Z) :=
  let* s := cstr a in wr a 0 (map tolower s).

(** [fname[n++] = sep; fname[n] = '\0'; strncat(fname, s, size); n += strlen(s)] *)
Definition append_part (fname : list Z) (n sep : Z) (s : list Z) (size : Z)
  : outcome (list Z * Z) :=
  let* a := wr fname n [sep] in
  let* a := wr a (n + 1) [0] in
  let* a := strncat a s size in
  Done (a, n + 1 + zlen s).

Definition make_product_fname (fname : list Z) (w : wmo_header) : outcome (list Z) :=
  let* a := strncpy fname 0 (wmo_station w) WMO_STATION_SIZE in
  let* (a, n) :=
    append_part a (zlen (wmo_station w)) FNAME_WMOID_SEP_CHAR (wmo_id w) WMO_ID_SIZE in
  let* (a, n) :=
    match wmo_awips w, wmo_notawips w with
    | _ :: _, _ => append_part a n FNAME_AWIPS_SEP_CHAR (wmo_awips w) WMO_AWIPS_SIZE
    | [], _ :: _ => append_part a n FNAME_NOTAWIPS_SEP_CHAR (wmo_notawips w) WMO_NOTAWIPS_SIZE
    | [], [] => Done (a, n)
    end in
  c_assert (n <=? FNAME_SIZE) (cvt_to_lc a).

(** 0 ok, 1 too long (after the assertion) *)
Definition make_product_fbasename (e : pctl_element_st) : outcome (Z * pctl_element_st) :=
  let fbasenamesize := FBASENAME_SIZE + 1 in
  let seqnum := Z.land (seq_number e) 4294967295 in
  let* fn := cstr (fname e) in
  let (n, s) :=
    snprintf fbasenamesize (fn ++ [FNAME_FSEQKEY_SEPCHAR] ++ wmo_time (pce_wmo e) ++
                            [FNAME_SEQNUM_SEPCHAR] ++ dec seqnum) in
  c_assert (n <? fbasenamesize)
    (Done (if fbasenamesize <=? n then 1 else 0, set_fbasename s e)).

Definition make_product_fpath (g : globals) (e : pctl_element_st) : Z * pctl_element_st :=
  let station := map tolower (wmo_station (pce_wmo e)) in
  let (n, s) :=
    snprintf (fpath_size e) (spooldir g ++ [47] ++ station ++ [47] ++ fbasename e) in
  (if fpath_size e <=? n then 1 else 0, set_fpath s e).

Section framep.
Context `{Hp : Heap} `{D : Db} `{C : Clock} `{Zl : Zlib} `{Rx : Regex}.

(** ** State *)

Record fstate := Fstate {
  f_pctl : pctl_st;
  f_stats : nbsp_stats_st;
  gframep_fh : list frame_level_header
}.
Definition with_pctl (c : pctl_st) (s : fstate) := Fstate c (f_stats s) (gframep_fh s).
Definition with_stats (u : nbsp_stats_st -> nbsp_stats_st) (s : fstate) :=
  Fstate (f_pctl s) (u (f_stats s)) (gframep_fh s).

(** ** Frames *)

(** a jump is counted when the number is past the next one (the sum is an
    [unsigned int]) *)
Definition update_framep_info (f : sbn_frame) (s : fstate) : outcome fstate :=
  let* lfh := rd (gframep_fh s) (np_channel_index f) in
  let last := sbn_seq_number lfh in
  let current := sbn_seq_number (fh f) in
  let s := if (0 <? last) && (u32 (last + 1) <? current)
           then with_stats update_stats_frames_jumps s else s in
  let* l := wr (gframep_fh s) (np_channel_index f) [fh f] in
  Done (Fstate (f_pctl s) (f_stats s) l).

Definition e_sbn_unpack_frame (f : sbn_frame) (s : fstate)
  : outcome (Z * sbn_frame * fstate) :=
  let s := with_stats (update_stats_frames_received (rawdata_size f)) s in
  let* (status, f) := sbn_unpack_frame f in
  if (status =? 0) || (status =? 3) then
    let s := with_stats (update_stats_frames 0) s in
    let* s := update_framep_info f s in
    Done (status, f, s)
  else Done (status, f, with_stats (update_stats_frames status) s).

Definition e_sbn_command_nondata (f : sbn_frame) : Z := 0.

Definition abort_activepce (f : sbn_frame) (s : fstate) : outcome fstate :=
  let s := with_stats update_stats_products_aborted s in
  let* c := close_pctl_activepce (f_pctl s) (np_channel_index f) in
  Done (with_pctl c s).

(** dereferences the element of the channel, which must be that of the frame *)
Definition log_pce_diag (f : sbn_frame) (s : fstate) : outcome unit :=
  let* e := get_pctl_activepce (f_pctl s) (np_channel_index f)
              (product_seq_number (pdh f)) in
  match e with Some _ => Done tt | None => Undef end.

(** the clock reading of [start_activepce] *)
Definition read_clock (c : pctl_st) : outcome (timespec * pctl_st) :=
  match clock (tick (pctldb c)) with
  | None => Abrt
  | Some t => Done (t, set_pctldb (set_tick (tick (pctldb c) + 1) (pctldb c)) c)
  end.

(** the members filled before the product is named; an unfinished product of
    the channel has been sent already *)
Definition fill_activepce (g : globals) (f : sbn_frame) (ts : timespec)
    (e : pctl_element_st) : outcome pctl_element_st :=
  let nf := if num_fragments (psh f) =? 0 then 1 else num_fragments (psh f) in
  let e := set_pce_num_fragments nf (set_f_complete 0 e) in
  let e := set_seq_number (product_seq_number (pdh f)) (set_recv_fragments 0 e) in
  let e := set_pce_orig_seq_number (orig_seq_number (psh f)) e in
  let e := set_pce_sbn_datstream (sbn_datstream (fh f)) e in
  let e := set_psh_product_type (product_type (psh f)) e in
  let e := set_psh_product_category (product_category (psh f)) e in
  let e := set_psh_product_code (product_code (psh f)) e in
  let e := set_pce_np_channel_index (np_channel_index f) e in
  let e := set_pce_ts ts e in
  let e := set_rtxdb_flag 0 (set_saveunz_flag 0 (set_save_format (spoolsavefmt g) e)) in
  let est := u64 (memfile_blocksize g * nf) in
  let est := if est <? u64 (memfile_minsize g) then u64 (memfile_minsize g) else est in
  let e := set_pce_mf (adjust_memfile_size (pce_mf e) est).2 e in
  let* (st, n, d) := copy_ctrlheader MAX_CTRLHDR_SIZE f in
  let* a := (if st =? 1 then wr (pce_ctrlhdr e) 0 [0] else wr (pce_ctrlhdr e) 0 d) in
  let e := set_pce_ctrlhdr_size (if st =? 1 then 0 else n) (set_pce_ctrlhdr a e) in
  Done (set_f_has_ccb (if bool_decide (is_Some (ccb f)) then 1 else 0) e).

(** the naming and the filters: the status and the element *)
Definition name_activepce (g : globals) (f : sbn_frame) (e : pctl_element_st)
  : outcome (Z * pctl_element_st) :=
  let* w := split_wmo_header f in
  match w with
  | None => Done (1, e)
  | Some w =>
      let e := set_pce_wmo w e in
      let* a := make_product_fname (fname e) w in
      let e := set_fname a e in
      let* (st, e) := make_product_fbasename e in
      if negb (st =? 0) then Done (2, e) else
      let (st, e) := make_product_fpath g e in
      if negb (st =? 0) then Done (3, e) else
      let* name := cstr (fname e) in
      if np_regex_match name =? 1 then Done (4, e) else
      if negb (pce_orig_seq_number e =? 0) && (f_loadave_max_rtx g =? 1)
      then Done (4, e) else
      let e :=
        if negb (f_frdata_compressed f =? 0) && (savez_regex_match name =? 1)
           && negb (pce_ctrlhdr_size e =? 0)
        then set_saveunz_flag 1 e else e in
      Done (0, e)
  end.

(** the element opened for the frame, after sending an unfinished one *)
Definition open_for_start (f : sbn_frame) (s : fstate)
  : outcome (pctl_element_st * fstate) :=
  let i := np_channel_index f in
  let* o := open_pctl_activepce (f_pctl s) i in
  match o with
  | Some e => Done (e, s)
  | None =>
      let s := with_stats update_stats_products_missed s in
      let* (_, c) := esend_pctl_activepce (f_pctl s) i in
      let* c := close_pctl_activepce c i in
      let* o := open_pctl_activepce c i in
      match o with
      | Some e => Done (e, with_pctl c s)
      | None => Abrt
      end
  end.

Definition start_activepce (g : globals) (f : sbn_frame) (s : fstate)
  : outcome (Z * fstate) :=
  let i := np_channel_index f in
  c_assert (block_number (pdh f) =? 0)
    (let* (e, s) := open_for_start f s in
     let* (ts, c) := read_clock (f_pctl s) in
     let s := with_pctl c s in
     let* e := fill_activepce g f ts e in
     let* (status, e) := name_activepce g f e in
     let s := with_pctl (put_channel (f_pctl s) i e) s in
     if negb (status =? 0) then
       let* c := close_pctl_activepce (f_pctl s) i in
       Done (status, with_pctl c s)
     else Done (0, s)).

Definition e_start_activepce (g : globals) (f : sbn_frame) (s : fstate)
  : outcome (Z * fstate) :=
  if negb (block_number (pdh f) =? 0) then Done (1, s) else
  let s := with_stats update_stats_products_transmitted s in
  let* (status, s) := start_activepce g f s in
  if status =? 4 then Done (status, with_stats update_stats_products_rejected s)
  else if negb (status =? 0) then Done (status, with_stats update_stats_products_missed s)
  else
    let* _ := log_pce_diag f s in
    Done (status, s).

(** what [msave_frame] does with the file of the element *)
Definition save_frame (f : sbn_frame) (e : pctl_element_st) : outcome (Z * memfile) :=
  let mf := pce_mf e in
  if saveunz_flag e =? 0 then
    let* (status, mf) :=
      match ctrlhdr f with
      | Some h =>
          if block_number (pdh f) =? 0 then
            let* (n, mf) := write_memfile mf (view f h) (ctrlhdr_size f) in
            Done (if n <? 0 then -1 else 0, mf)
          else Done (0, mf)
      | None => Done (0, mf)
      end in
    if status =? 0 then
      let* (n, mf) := write_memfile mf (oview f (frdata f)) (frdata_size f) in
      Done (if n <? 0 then -1 else 0, mf)
    else Done (status, mf)
  else
    let* (n, mf) :=
      write_memframe mf (oview f (frdata f)) (frdata_size f) (f_frdata_compressed f) in
    Done (if n <? 0 then -1 else 0, mf).

(** the file is written in place: the channel holds the changed file *)
Definition msave_frame (f : sbn_frame) (s : fstate) : outcome (Z * fstate) :=
  let i := np_channel_index f in
  let* o := get_pctl_activepce (f_pctl s) i (product_seq_number (pdh f)) in
  match o with
  | None => Done (1, s)
  | Some e =>
      let* (status, mf) := save_frame f e in
      Done (status, with_pctl (put_channel (f_pctl s) i (set_pce_mf mf e)) s)
  end.

Definition update_activepce (f : sbn_frame) (s : fstate) : outcome (Z * fstate) :=
  let* (status, c) :=
    update_activepce_framecounter (f_pctl s) (np_channel_index f)
      (product_seq_number (pdh f)) (block_number (pdh f)) in
  let s := with_pctl c s in
  if status =? 0 then msave_frame f s else Done (status, s).

Definition e_update_activepce (f : sbn_frame) (s : fstate) : outcome (Z * fstate) :=
  let i := np_channel_index f in
  let* (status, s) := update_activepce f s in
  let* status :=
    if status =? 1 then Done 0
    else if (status =? 2) || (status =? -1) then Done status
    else let* _ := log_pce_diag f s in Done status in
  if negb (status =? 0) then
    let s := with_stats update_stats_products_missed s in
    let* (_, c) := esend_pctl_activepce (f_pctl s) i in
    let* c := close_pctl_activepce c i in
    Done (status, with_pctl c s)
  else Done (status, s).

Definition e_end_activepce (f : sbn_frame) (s : fstate) : outcome (Z * fstate) :=
  let i := np_channel_index f in
  let* (status, c) := complete_activepce (f_pctl s) i (product_seq_number (pdh f)) in
  let s := with_pctl c s in
  c_assert (negb (status =? -1))
    (let* (status, s) :=
       if status =? 1 then Done (status, s)
       else
         let s :=
           if status =? 0 then with_stats update_stats_products_completed s
           else if status =? 2 then with_stats update_stats_products_missed s
           else s in
         let* (status, c) := esend_pctl_activepce (f_pctl s) i in
         Done (status, with_pctl c s) in
     let* c := close_pctl_activepce (f_pctl s) i in
     Done (status, with_pctl c s)).

Definition set_orig_seq_number v (h : product_spec_header) : product_spec_header :=
  ProductSpecHeader (opt_field_number h) (opt_field_type h) (opt_field_length h)
    (psh_version h) (transfer_status_flag h) (awips_data_length h)
    (bytes_per_record h) (product_type h) (product_category h) (product_code h)
    (num_fragments h) (next_header_offset h) (reserved h) (source h) v
    (ncf_recv_time h) (ncf_transmit_time h) (run_id h) (orig_run_id h).

(** bit test of the transfer type and of the status flag *)
Definition has_flag (x flag : Z) : bool := negb (Z.land x flag =? 0).

(** the first stage of [sbnframeproc] *)
Definition start_stage (g : globals) (f : sbn_frame) (s : fstate)
  : outcome (Z * sbn_frame * fstate) :=
  if has_flag (transfer_type (pdh f)) PDH_TRANSFERTYPE_START then
    let '(f, s) :=
      if has_flag (transfer_status_flag (psh f)) PSH_STATUSFLAG_RETRANSMIT
      then (f, with_stats update_stats_products_retransmitted s)
      else (set_psh (set_orig_seq_number 0 (psh f)) f, s) in
    let* (status, s) := e_start_activepce g f s in
    Done (status, f, s)
  else Done (0, f, s).

(** the part of [sbnframeproc] for data frames *)
Definition data_frame (g : globals) (f : sbn_frame) (s : fstate)
  : outcome (Z * sbn_frame * fstate) :=
  let tt := transfer_type (pdh f) in
  if has_flag tt (Z.lor PDH_TRANSFERTYPE_ERROR PDH_TRANSFERTYPE_ABORT) then
    let* s := abort_activepce f s in
    Done (0, f, s)
  else
    let* (status, f, s) := start_stage g f s in
    let* (status, s) :=
      if (status =? 0) && has_flag tt PDH_TRANSFERTYPE_PROGRESS
      then e_update_activepce f s else Done (status, s) in
    let* (status, s) :=
      if (status =? 0) && has_flag tt PDH_TRANSFERTYPE_END
      then e_end_activepce f s else Done (status, s) in
    Done (status, f, s).

(** returns the status, the unpacked frame and the new state *)
Definition sbnframeproc (g : globals) (f : sbn_frame) (s : fstate)
  : outcome (Z * sbn_frame * fstate) :=
  let* (status, f, s) := e_sbn_unpack_frame f s in
  if negb (status =? 0) then Done (status, f, s) else
  if negb (sbn_command (fh f) =? SBN_COMMAND_DATA_TRANSFER)
  then Done (e_sbn_command_nondata f, f, s) else
  data_frame g f s.

End framep.

#[global] Arguments fstate {D}.

(** ** Names *)

Lemma cvt_to_lc_spec s r : nonul s -> cvt_to_lc (s ++ 0 :: r) = Done (map tolower s ++ 0 :: r).
Proof.
  intros Hs. unfold cvt_to_lc. rewrite cstr_app by done. cbn [obind].
  rewrite wr_ok; unfold zlen; rewrite ?length_map; [|lia|rewrite length_app; lia].
  rewrite ztake_0. cbn [app]. rewrite zdrop_app_exact; [done|unfold zlen; lia].
Qed.

Lemma append_part_spec s r sep part size :
  nonul s -> nonul part -> sep <> 0 -> zlen part <= size -> zlen part + 2 <= zlen r ->
  exists r', append_part (s ++ r) (zlen s) sep part size =
    Done ((s ++ sep :: part) ++ 0 :: r', zlen (s ++ sep :: part)) /\
    zlen r = zlen part + 2 + zlen r'.
Proof.
  intros Hs Hp Hsep Hsz Hr. pose proof (zlen_nonneg part). unfold append_part.
  rewrite wr_app by (done || (autorewrite with zlen; lia)). cbn [obind].
  change (zlen [sep]) with 1.
  replace (s ++ [sep] ++ zdrop 1 r) with ((s ++ [sep]) ++ zdrop 1 r) by by rewrite <- app_assoc.
  rewrite wr_app; [|by rewrite zlen_app|rewrite zlen_drop; autorewrite with zlen; lia].
  cbn [obind]. change (zlen [0]) with 1. rewrite zdrop_drop by lia. change (1 + 1) with 2.
  unfold strncat. cbn [app].
  rewrite cstr_app by (apply Forall_app; split; [done|by constructor]). cbn [obind].
  rewrite wr_app; [|done|].
  2: { rewrite ztake_ge by lia. autorewrite with zlen. rewrite zlen_drop; lia. }
  cbn [obind]. rewrite ztake_ge by done.
  exists (zdrop (zlen part) (zdrop 2 r)). split.
  - rewrite <- !app_assoc. cbn [app]. do 2 f_equal.
    + do 4 f_equal. rewrite zlen_app. change (zlen [0]) with 1. unfold zdrop at 1.
      by replace (Z.to_nat (zlen part + 1)) with (S (Z.to_nat (zlen part))) by lia.
    + autorewrite with zlen. lia.
  - rewrite zdrop_drop, zlen_drop by lia. lia.
Qed.

(** the name of a product, as the comment of [make_product_fname] puts it *)
Definition fname_text (w : wmo_header) : list Z :=
  map tolower (wmo_station w ++ 95 :: wmo_id w ++
    match wmo_awips w, wmo_notawips w with
    | _ :: _, _ => 45 :: wmo_awips w
    | [], _ :: _ => 43 :: wmo_notawips w
    | [], [] => []
    end).

Lemma alnum_nonul s : Forall (fun c => isalnum c = true) s -> nonul s.
Proof. apply Forall_impl. intros c ?%alnum_char. naive_solver. Qed.

Lemma wmo_valid_nonul w : wmo_valid w ->
  nonul (wmo_id w) /\ nonul (wmo_station w) /\ nonul (wmo_time w) /\
  nonul (wmo_awips w) /\ nonul (wmo_notawips w).
Proof.
  intros (_ & H1 & _ & H2 & _ & H3 & _ & H4 & _ & H5 & _). split_and!.
  - by apply alnum_nonul.
  - apply alnum_nonul. eapply Forall_impl; [|exact H2]. apply alpha_alnum.
  - apply alnum_nonul. eapply Forall_impl; [|exact H3]. apply digit_alnum.
  - eapply Forall_impl; [|exact H4]. by intros c [? _].
  - by apply alnum_nonul.
Qed.

Lemma make_product_fname_spec a w :
  wmo_valid w -> zlen a = FNAME_SIZE + 1 ->
  exists r, make_product_fname a w = Done (fname_text w ++ 0 :: r) /\
    zlen (fname_text w ++ 0 :: r) = FNAME_SIZE + 1.
Proof.
  intros Hv Ha. destruct (wmo_valid_nonul w Hv) as (Ni & Ns & _ & Na & Nn).
  destruct Hv as (Hi & _ & Hs & _ & _ & _ & Haw & _ & Hna & _ & _).
  unfold FNAME_SIZE in *. unfold make_product_fname, WMO_STATION_SIZE, WMO_ID_SIZE,
    WMO_AWIPS_SIZE, WMO_NOTAWIPS_SIZE, FNAME_SIZE.
  assert (strncpy a 0 (wmo_station w) 4 = Done (wmo_station w ++ zdrop 4 a)) as ->.
  { unfold strncpy, strncpy_bytes. rewrite ztake_ge, Hs by lia. cbn [Z.sub Z.to_nat replicate].
    change (Z.to_nat (4 - 4)) with 0%nat. cbn [replicate]. rewrite app_nil_r.
    rewrite wr_ok by lia. rewrite Hs. done. }
  cbn [obind].
  destruct (append_part_spec (wmo_station w) (zdrop 4 a) FNAME_WMOID_SEP_CHAR (wmo_id w) 6)
    as (r & -> & Hr); [done|done|done|lia|rewrite zlen_drop; lia|].
  rewrite zlen_drop in Hr by lia. cbn [obind].
  set (s := wmo_station w ++ FNAME_WMOID_SEP_CHAR :: wmo_id w).
  assert (nonul s) as Ns' by (apply Forall_app; split; [done|by constructor]).
  assert (zlen s = 11) as Hls by (unfold s; rewrite zlen_app, zlen_cons; lia).
  assert (forall sep part, nonul part -> sep <> 0 -> zlen part <= 6 ->
    exists r', (let* (a, n) := append_part (s ++ 0 :: r) (zlen s) sep part 6 in
             c_assert (n <=? 18) (cvt_to_lc a)) = Done (map tolower (s ++ sep :: part) ++ 0 :: r') /\
      zlen (map tolower (s ++ sep :: part) ++ 0 :: r') = 19) as Hpart.
  { intros sep part Hp Hsep Hl.
    destruct (append_part_spec s (0 :: r) sep part 6) as (r' & -> & Hr'); [done..| |].
    { rewrite zlen_cons. lia. }
    cbn [obind]. rewrite zlen_cons in Hr'. rewrite c_assert_true.
    2: { apply Z.leb_le. rewrite zlen_app, zlen_cons. lia. }
    rewrite cvt_to_lc_spec by (apply Forall_app; split; [done|by constructor]).
    exists r'. split; [done|]. unfold zlen in *. rewrite !length_app, length_map, length_app.
    simpl. lia. }
  assert (fname_text w = map tolower (s ++ match wmo_awips w, wmo_notawips w with
    | _ :: _, _ => 45 :: wmo_awips w | [], _ :: _ => 43 :: wmo_notawips w | [], [] => [] end)) as ->.
  { unfold fname_text, s. f_equal. by rewrite <- app_assoc. }
  destruct (wmo_awips w) as [|c0 l0] eqn:Ea.
  - destruct (wmo_notawips w) as [|c1 l1] eqn:En.
    + cbn [obind]. rewrite c_assert_true by (apply Z.leb_le; lia).
      rewrite cvt_to_lc_spec by done. rewrite app_nil_r. exists r. split; [done|].
      unfold zlen in *. rewrite length_app, length_map. simpl. lia.
    + apply Hpart; [done|done|lia].
  - apply Hpart; [done|done|lia].
Qed.

Definition fbasename_text (fn time : list Z) (seq : Z) : list Z :=
  fn ++ 46 :: time ++ 95 :: dec seq.
Definition fpath_text (dir station base : list Z) : list Z :=
  dir ++ 47 :: map tolower station ++ 47 :: base.

Lemma land_u32 z : 0 <= z < 4294967296 -> Z.land z 4294967295 = z.
Proof.
  intros. change 4294967295 with (Z.ones 32). rewrite Z.land_ones by lia.
  by rewrite Z.mod_small.
Qed.

Lemma make_product_fbasename_spec e fn :
  cstr (fname e) = Done fn -> zlen fn <= FNAME_SIZE -> zlen (wmo_time (pce_wmo e)) = 6 ->
  0 <= seq_number e < 4294967296 ->
  make_product_fbasename e =
    Done (0, set_fbasename (fbasename_text fn (wmo_time (pce_wmo e)) (seq_number e)) e) /\
  zlen (fbasename_text fn (wmo_time (pce_wmo e)) (seq_number e)) <= FBASENAME_SIZE.
Proof.
  intros Hfn Hl Ht Hs. unfold FNAME_SIZE, FBASENAME_SIZE in *.
  pose proof (dec_length_u32 _ Hs) as Hd.
  assert (zlen (fbasename_text fn (wmo_time (pce_wmo e)) (seq_number e)) <= 36) as Hlen.
  { unfold fbasename_text. autorewrite with zlen. lia. }
  split; [|done]. unfold make_product_fbasename, FBASENAME_SIZE. rewrite Hfn, land_u32 by done.
  cbn [obind app]. unfold snprintf.
  change (fn ++ FNAME_FSEQKEY_SEPCHAR :: wmo_time (pce_wmo e) ++ FNAME_SEQNUM_SEPCHAR :: dec (seq_number e))
    with (fbasename_text fn (wmo_time (pce_wmo e)) (seq_number e)).
  rewrite c_assert_true by (apply Z.ltb_lt; lia).
  destruct (Z.leb_spec (36 + 1) (zlen (fbasename_text fn (wmo_time (pce_wmo e)) (seq_number e)))); [lia|].
  by rewrite ztake_ge by lia.
Qed.

Lemma make_product_fpath_spec g e :
  fpath_size e = const_fpath_maxsize (spooldir g) + 1 ->
  zlen (wmo_station (pce_wmo e)) = 4 -> zlen (fbasename e) <= FBASENAME_SIZE ->
  make_product_fpath g e =
    (0, set_fpath (fpath_text (spooldir g) (wmo_station (pce_wmo e)) (fbasename e)) e).
Proof.
  intros Hsz Hst Hb. unfold make_product_fpath, snprintf, const_fpath_maxsize in *.
  set (t := spooldir g ++ _).
  assert (zlen t <= zlen (spooldir g) + 6 + zlen (fbasename e)).
  { subst t. cbn [app]. autorewrite with zlen. unfold zlen in *. rewrite length_map. lia. }
  unfold WMO_STATION_SIZE, FBASENAME_SIZE in *. rewrite Hsz.
  destruct (Z.leb_spec (zlen (spooldir g) + 4 + 36 + 2 + 1) (zlen t)); [lia|].
  by rewrite ztake_ge by lia.
Qed.

(** ** Invariant *)

(** Per frame a file grows by its data, the frame information and the control
    header: less than 6000 bytes. *)
Record pce_ok (g : globals) (e : pctl_element_st) : Prop := PceOk {
  po_mf : memfile_wf (pce_mf e);
  po_nread : mf_nread (pce_mf e) = 0;
  po_recv : 0 <= recv_fragments e <= 65536;
  po_size : mf_size (pce_mf e) <= recv_fragments e * 6000;
  po_fname : zlen (fname e) = FNAME_SIZE + 1;
  po_ctrlhdr : zlen (pce_ctrlhdr e) = MAX_CTRLHDR_SIZE;
  po_fpath : fpath_size e = const_fpath_maxsize (spooldir g) + 1
}.

Record globals_ok (g : globals) : Prop := GlobalsOk {
  go_block : 0 <= memfile_blocksize g < 32768;
  go_min : 0 <= memfile_minsize g < 2147483648
}.

(** an unpacked data frame that is not degenerate: the control header fits the
    data block and the copy kept of it, and behind the text of a first frame
    the buffer has some room *)
Record sane (f : sbn_frame) : Prop := Sane {
  sane_hdr : data_block_offset (pdh f) <= MAX_CTRLHDR_SIZE;
  sane_data : data_block_offset (pdh f) <= data_block_size (pdh f);
  sane_raw : block_number (pdh f) = 0 -> spare (rawdata f) (rawdata_size f);
  sane_blk : block_number (pdh f) = 0 -> f_frdata_compressed f = 1 ->
    spare (blkdata f) (blkdata_size f)
}.

(** what unpacking leaves in a data frame *)
Record unpacked (f : sbn_frame) : Prop := Unpacked {
  up_wf : frame_wf f;
  up_loc : located f;
  up_size : rawdata_size f = data_offset f + data_block_size (pdh f);
  up_dbo : 0 <= data_block_offset (pdh f);
  up_block : 0 <= block_number (pdh f) < 65536;
  up_seq : 0 <= product_seq_number (pdh f) < 4294967296;
  up_nfrag : block_number (pdh f) = 0 -> 0 <= num_fragments (psh f) < 65536
}.

Lemma unpacked_of `{ZlibSpec} f f' :
  frame_wf f -> sbn_unpack_frame f = Done (0, f') ->
  sbn_command (fh f') = SBN_COMMAND_DATA_TRANSFER -> unpacked f'.
Proof.
  intros Hwf E Hc. destruct (sbn_unpack_frame_spec f Hwf) as (st & f1 & E1 & Hwf' & Hraw & _ & Hst).
  rewrite E in E1. injection E1 as <- <-. destruct (Hst eq_refl) as [(_ & _ & Hh) Hl].
  destruct (Hh Hc) as (Epd & Eps & Hsz & _).
  pose proof (pd_header_ranges _ (pdh_bytes _ Hwf)) as (H1 & H2 & H3 & H4 & H5).
  rewrite <- Epd in *. destruct Hraw as (_ & Ers & _).
  split; try done; [by apply Hl|congruence|lia|].
  intros Hb. rewrite Hb in Eps. cbn [Z.eqb] in Eps. rewrite Eps. unfold unpack_ps_header.
  cbn [num_fragments]. apply bt16_range. apply bytes_zsub. apply Hwf.
Qed.

Section safe.
Context `{HS : HeapSpec} `{DS : DbSpec} `{CS : ClockSpec} `{ZS : ZlibSpec} `{Rx : Regex}.
Context (g : globals) (Hg : globals_ok g).
Implicit Types (s : fstate) (f : sbn_frame) (e : pctl_element_st) (c : pctl_st).

Record pctl_wf c : Prop := PctlWf {
  pw_num : num_activechannels c = zlen (activepce c);
  pw_pce : Forall (pce_ok g) (activepce c);
  pw_db : pctldb_inv (pctldb c);
  pw_lim : limits_ok (pctldb c)
}.

Record fstate_wf s : Prop := FstateWf {
  fw_pctl : pctl_wf (f_pctl s);
  fw_fh : zlen (gframep_fh s) = num_activechannels (f_pctl s)
}.

Lemma with_channel_ok {A} c i (k : pctl_element_st -> outcome A) :
  pctl_wf c -> 0 <= i < num_activechannels c ->
  exists e, activepce c !! Z.to_nat i = Some e /\ pce_ok g e /\ with_channel c i k = k e.
Proof.
  intros [Hn Hp _ _] Hi.
  destruct (rd_total (activepce c) i) as [e He]; [lia|].
  exists e. pose proof He as Hz. apply rd_Done in Hz.
  split; [by rewrite <- znth_lookup by lia|].
  split; [by eapply znth_Forall|].
  unfold with_channel. rewrite He. cbn [obind]. apply c_assert_true.
  apply andb_true_iff. split; [apply Z.leb_le|apply Z.ltb_lt]; lia.
Qed.

Lemma put_channel_wf c i e : pctl_wf c -> pce_ok g e -> pctl_wf (put_channel c i e).
Proof.
  intros [Hn Hp Hd Hl] He. split; cbn [put_channel set_activepce activepce num_activechannels pctldb];
    [|by apply Forall_insert|done|done].
  rewrite Hn. unfold zlen. by rewrite length_insert.
Qed.

Lemma pctl_wf_same c c' :
  pctl_wf c -> activepce c' = activepce c -> num_activechannels c' = num_activechannels c ->
  pctldb_inv (pctldb c') -> limits_ok (pctldb c') -> pctl_wf c'.
Proof. intros [] E1 E2 ??. split; rewrite ?E1, ?E2; done. Qed.

Lemma close_pce_ok e : pce_ok g e -> pce_ok g (close_pce e).
Proof.
  intros []. split; cbn; try done; [by apply close_wf|lia].
Qed.

Lemma close_activepce_spec c i :
  pctl_wf c -> 0 <= i < num_activechannels c ->
  exists e, activepce c !! Z.to_nat i = Some e /\ pce_ok g e /\
    close_pctl_activepce c i = Done (put_channel c i (close_pce e)) /\
    pctl_wf (put_channel c i (close_pce e)).
Proof.
  intros Hc Hi. unfold close_pctl_activepce.
  destruct (with_channel_ok c i (fun e => Done (put_channel c i (close_pce e))) Hc Hi)
    as (e & He & Hok & ->).
  exists e. split_and!; try done. by apply put_channel_wf, close_pce_ok.
Qed.

Lemma pce_sendable e : pce_ok g e -> sendable e.
Proof. intros []. split; [done|]. lia. Qed.

Lemma esend_spec c i :
  pctl_wf c -> 0 <= i < num_activechannels c ->
  exists st c' e k, esend_pctl_activepce c i = Done (st, c') /\ pctl_wf c' /\
    activepce c !! Z.to_nat i = Some e /\
    activepce c' = <[Z.to_nat i:=set_tsqueue k e]> (activepce c) /\
    num_activechannels c' = num_activechannels c /\
    (st = -1 \/ st = 0 \/ st = 2).
Proof.
  intros Hc Hi. unfold esend_pctl_activepce, epctl_send.
  match goal with |- context [with_channel c i ?k] =>
    destruct (with_channel_ok c i k Hc Hi) as (e & He & Hok & ->) end.
  destruct (pce_sendable e Hok) as [Hm Hs].
  destruct (pctldb_send_pce_spec (pctldb c) e) as (st & k & d & E & Hi' & _ & _ & _ & Hst);
    [apply Hc|done|done|by apply limits_room; [apply Hc..|]|].
  rewrite E. cbn [obind].
  eexists _, _, e, k. split; [done|].
  assert (limits_ok d) as Hlim by (by eapply (send_limits (pctldb c) e); [apply Hc..|split|]).
  split; [|split_and!; try done].
  - assert (pctl_wf (put_channel c i (set_tsqueue k e))) as Hc'.
    { apply put_channel_wf; [done|]. by destruct Hok. }
    by eapply pctl_wf_same; [exact Hc'|..].
  - destruct Hst as [(-> & _)|[(-> & _)|([->| ->] & _)]]; auto.
Qed.

(** a step of channel [i]: the invariant holds after it, and the elements of
    the other channels are untouched *)
Definition pstep (i : Z) c c' : Prop :=
  pctl_wf c' /\ num_activechannels c' = num_activechannels c /\
  forall j, j <> Z.to_nat i -> activepce c' !! j = activepce c !! j.

Definition fstep (i : Z) s s' : Prop :=
  pstep i (f_pctl s) (f_pctl s') /\ zlen (gframep_fh s') = zlen (gframep_fh s).

Lemma pstep_trans i c1 c2 c3 : pstep i c1 c2 -> pstep i c2 c3 -> pstep i c1 c3.
Proof.
  intros (_ & E1 & H1) (Hw & E2 & H2). split; [done|]. split; [congruence|].
  intros j Hj. by rewrite H2, H1.
Qed.
Lemma fstep_trans i s1 s2 s3 : fstep i s1 s2 -> fstep i s2 s3 -> fstep i s1 s3.
Proof. intros [H1 E1] [H2 E2]. split; [by eapply pstep_trans|congruence]. Qed.
Lemma fstep_refl i s : fstate_wf s -> fstep i s s.
Proof. intros []. done. Qed.
Lemma fstep_wf i s s' : fstate_wf s -> fstep i s s' -> fstate_wf s'.
Proof. intros [_ Hf] [(Hw & Hn & _) He]. split; [done|]. congruence. Qed.
Lemma fstep_pctl i s c' : fstate_wf s -> pstep i (f_pctl s) c' -> fstep i s (with_pctl c' s).
Proof. done. Qed.
Lemma fstep_stats i s s' u : fstep i s s' -> fstep i s (with_stats u s').
Proof. done. Qed.
Lemma fstep_num i s s' : fstep i s s' ->
  num_activechannels (f_pctl s') = num_activechannels (f_pctl s).
Proof. by intros [(_ & ? & _) _]. Qed.

Lemma put_pstep i c e : pctl_wf c -> pce_ok g e -> pstep i c (put_channel c i e).
Proof.
  intros Hc He. split; [by apply put_channel_wf|]. split; [done|]. intros j Hj.
  cbn. by rewrite list_lookup_insert_ne.
Qed.

Lemma put_lookup i c e e0 : activepce c !! Z.to_nat i = Some e0 ->
  activepce (put_channel c i e) !! Z.to_nat i = Some e.
Proof. intros Hl. cbn. apply list_lookup_insert_eq. by eapply lookup_lt_Some. Qed.

Lemma close_pstep i c : pctl_wf c -> 0 <= i < num_activechannels c ->
  exists e c', activepce c !! Z.to_nat i = Some e /\ pce_ok g e /\
    close_pctl_activepce c i = Done c' /\ pstep i c c' /\
    activepce c' !! Z.to_nat i = Some (close_pce e) /\ pctldb c' = pctldb c.
Proof.
  intros Hc Hi. destruct (close_activepce_spec c i Hc Hi) as (e & He & Hok & E & _).
  eexists e, _. split_and!; try done; [|by eapply put_lookup].
  by apply put_pstep, close_pce_ok.
Qed.

Lemma esend_pstep i c : pctl_wf c -> 0 <= i < num_activechannels c ->
  exists st c', esend_pctl_activepce c i = Done (st, c') /\ pstep i c c' /\
    (st = -1 \/ st = 0 \/ st = 2).
Proof.
  intros Hc Hi. destruct (esend_spec c i Hc Hi) as (st & c' & e & k & E & Hw & He & Ea & En & Hst).
  exists st, c'. split; [done|]. split; [|done]. split; [done|]. split; [done|].
  intros j Hj. by rewrite Ea, list_lookup_insert_ne.
Qed.

Lemma open_activepce_spec i c : pctl_wf c -> 0 <= i < num_activechannels c ->
  exists e, activepce c !! Z.to_nat i = Some e /\ pce_ok g e /\
    open_pctl_activepce c i = Done (if open_pce e =? 0 then Some e else None).
Proof.
  intros Hc Hi. unfold open_pctl_activepce.
  match goal with |- context [with_channel c i ?k] =>
    destruct (with_channel_ok c i k Hc Hi) as (e & He & Hok & ->) end.
  exists e. split_and!; try done. by destruct (open_pce e =? 0).
Qed.

Lemma open_pce_0 e : pce_ok g e -> open_pce e = 0 -> mf_size (pce_mf e) = 0.
Proof.
  intros _. unfold open_pce, open_memfile. destruct (seq_number e =? 0); [|done].
  destruct (Z.eqb_spec (mf_size (pce_mf e)) 0); [done|]. done.
Qed.

(** the element opened for a START: the one of the channel, with an empty file *)
Lemma open_for_start_spec f s :
  fstate_wf s -> 0 <= np_channel_index f < num_activechannels (f_pctl s) ->
  exists e s', open_for_start f s = Done (e, s') /\ fstep (np_channel_index f) s s' /\
    activepce (f_pctl s') !! Z.to_nat (np_channel_index f) = Some e /\
    pce_ok g e /\ mf_size (pce_mf e) = 0.
Proof.
  intros Hs Hi. unfold open_for_start. set (i := np_channel_index f) in *. cbv zeta.
  destruct (open_activepce_spec i (f_pctl s)) as (e & He & Hok & ->); [apply Hs|done|].
  cbn [obind]. destruct (Z.eqb_spec (open_pce e) 0) as [Ho|_].
  { exists e, s. split_and!; try done; [by apply fstep_refl|by apply open_pce_0]. }
  cbn [f_pctl with_stats].
  destruct (esend_pstep i (f_pctl s)) as (st & c1 & -> & Hp1 & _); [apply Hs|done|].
  cbn [obind]. pose proof Hp1 as (Hw1 & Hn1 & _).
  destruct (close_pstep i c1) as (e1 & c2 & He1 & Hok1 & -> & Hp2 & He2 & _); [done|lia|].
  cbn [obind]. pose proof Hp2 as (Hw2 & Hn2 & _).
  destruct (open_activepce_spec i c2) as (e2 & He2' & Hok2 & ->); [done|lia|].
  cbn [obind]. assert (e2 = close_pce e1) as -> by congruence. cbn [open_pce close_pce].
  eexists _, _. split; [done|]. split_and!; try done.
  split; [by eapply pstep_trans|done].
Qed.

Lemma fill_activepce_spec f ts e :
  unpacked f -> sane f -> block_number (pdh f) = 0 -> pce_ok g e -> mf_size (pce_mf e) = 0 ->
  exists e', fill_activepce g f ts e = Done e' /\ pce_ok g e' /\
    seq_number e' = product_seq_number (pdh f) /\ mf_p (pce_mf e') = [] /\
    recv_fragments e' = 0 /\ saveunz_flag e' = 0 /\ f_complete e' = 0 /\
    pce_num_fragments e' = (if num_fragments (psh f) =? 0 then 1 else num_fragments (psh f)).
Proof.
  intros [Hwf Hl Hsz Hdbo _ _ Hnf] [Hhdr Hdata _ _] Hb [Pmf Pnr Prc Psz Pfn Pch Pfp] Hm0.
  specialize (Hnf Hb). destruct Hg as [Hg1 Hg2].
  unfold fill_activepce. cbv zeta. set (nf := if num_fragments (psh f) =? 0 then 1 else _).
  assert (1 <= nf < 65536) as Hnf' by (subst nf; destruct (Z.eqb_spec (num_fragments (psh f)) 0); lia).
  set (est := if u64 (memfile_blocksize g * nf) <? u64 (memfile_minsize g) then _ else _).
  assert (0 <= est < 2 ^ 62) as Hest.
  { assert (0 <= memfile_blocksize g * nf < 2147483648) by nia.
    subst est. rewrite !u64_small by lia. destruct (_ <? _); lia. }
  cbn [pce_mf set_f_complete set_pce_num_fragments set_seq_number set_recv_fragments
       set_pce_orig_seq_number set_pce_sbn_datstream set_psh_product_type
       set_psh_product_category set_psh_product_code set_pce_np_channel_index set_pce_ts
       set_rtxdb_flag set_saveunz_flag set_save_format].
  destruct (adjust_memfile_size (pce_mf e) est) as [st mf] eqn:Ea.
  destruct (adjust_wf _ _ _ _ Pmf ltac:(lia) Hest Ea) as (Hmf & (Ep & Es & En) & _). cbn [snd].
  assert (mf_p mf = []) as Hp0.
  { rewrite Ep. pose proof (wf_p _ Pmf). unfold zlen in *. destruct (mf_p (pce_mf e)); [done|].
    simpl in *. lia. }
  assert (exists st n d, copy_ctrlheader MAX_CTRLHDR_SIZE f = Done (st, n, d) /\
            zlen d <= 58 /\ 0 <= zlen d) as (st2 & n & dd & -> & Hdl & _).
  { unfold copy_ctrlheader. rewrite (loc_hdr _ Hl), (loc_hdr_size _ Hl).
    assert (data_offset f = 68) as Ho by (unfold data_offset; by rewrite Hb).
    unfold MAX_CTRLHDR_SIZE in *. destruct (Z.eqb_spec (data_block_offset (pdh f)) 0).
    { eexists _, _, _. split; [done|]. rewrite zlen_nil. lia. }
    destruct (Z.ltb_spec 58 (data_block_offset (pdh f))); [lia|].
    rewrite u64_small by lia. pose proof (fwf_size _ Hwf). unfold SBN_FRAME_SIZE in *.
    rewrite rdn_ok; [|lia|lia|rewrite Ho, zlen_view_raw by (done || lia); lia].
    cbn [obind]. eexists _, _, _. split; [done|].
    rewrite zlen_sub; [lia|lia|lia|rewrite Ho, zlen_view_raw by (done || lia); lia]. }
  cbn [obind]. unfold MAX_CTRLHDR_SIZE in *.
  match goal with |- context [obind (if _ then wr ?a 0 [0] else _) _] =>
    change a with (pce_ctrlhdr e) end.
  assert (exists a, (if st2 =? 1 then wr (pce_ctrlhdr e) 0 [0] else wr (pce_ctrlhdr e) 0 dd) =
            Done a /\ zlen a = 58) as (a & -> & Hal).
  { assert (forall d, zlen d <= 58 -> exists a, wr (pce_ctrlhdr e) 0 d = Done a /\ zlen a = 58) as Hw.
    { intros d Hd. destruct (wr (pce_ctrlhdr e) 0 d) as [a| |] eqn:E;
        [|rewrite wr_ok in E by lia; done..].
      exists a. split; [done|]. by rewrite (wr_length _ _ _ _ E). }
    destruct (st2 =? 1); apply Hw; [by cbn|done]. }
  cbn [obind]. eexists. split; [done|].
  split_and!; try done. split; cbn; try done; lia.
Qed.

(** the members that the assembly of the frames depends on *)
Definition same_core e e' : Prop :=
  pce_mf e' = pce_mf e /\ seq_number e' = seq_number e /\
  recv_fragments e' = recv_fragments e /\ pce_num_fragments e' = pce_num_fragments e /\
  f_complete e' = f_complete e.

(** the names given to a product *)
Definition named (w : wmo_header) e : Prop :=
  cstr (fname e) = Done (fname_text w) /\
  fbasename e = fbasename_text (fname_text w) (wmo_time w) (seq_number e) /\
  fpath e = fpath_text (spooldir g) (wmo_station w) (fbasename e) /\
  zlen (fname_text w) <= FNAME_SIZE /\ zlen (fbasename e) <= FBASENAME_SIZE.

Lemma tolower_nonul l : nonul l -> nonul (map tolower l).
Proof. intros Hl. apply Forall_fmap. eapply Forall_impl; [|exact Hl]. apply tolower_nonzero. Qed.

Lemma fname_text_nonul w : wmo_valid w -> nonul (fname_text w).
Proof.
  intros Hv. destruct (wmo_valid_nonul w Hv) as (Ni & Ns & _ & Na & Nn).
  unfold fname_text. apply tolower_nonul. apply Forall_app. split; [done|]. constructor; [done|].
  apply Forall_app. split; [done|].
  destruct (wmo_awips w); [destruct (wmo_notawips w)|]; [done|by constructor..].
Qed.

Lemma name_activepce_spec f e :
  unpacked f -> sane f -> block_number (pdh f) = 0 -> pce_ok g e ->
  0 <= seq_number e < 4294967296 ->
  exists r st e', split_wmo_header f = Done r /\
    name_activepce g f e = Done (st, e') /\ pce_ok g e' /\ same_core e e' /\
    (r = None /\ st = 1 \/
     exists w, r = Some w /\ named w e' /\ pce_wmo e' = w /\
       st = (if np_regex_match (fname_text w) =? 1 then 4 else
             if negb (pce_orig_seq_number e =? 0) && (f_loadave_max_rtx g =? 1) then 4 else 0)
       /\ (f_frdata_compressed f = 0 -> saveunz_flag e' = saveunz_flag e)).
Proof.
  intros [Hwf Hl Hsz Hdbo _ _ _] [Hhdr Hdata Hsp1 Hsp2] Hb Hok Hseq.
  pose proof (loc_frdata_size _ Hl).
  destruct (wmo_start_total f) as (rs & Ers & Hrs); [done..|lia|done|done|by auto|by auto|].
  destruct (split_wmo_text_total f rs Ers Hrs) as [r Er]. exists r. unfold name_activepce.
  rewrite Er. cbn [obind]. destruct r as [w|].
  2: { exists 1, e. split_and!; try done. by left. }
  pose proof (split_wmo_header_wmo_valid f w Er) as Hv.
  destruct Hok as [Pmf Pnr Prc Psz Pfn Pch Pfp]. cbn [fname set_pce_wmo].
  destruct (make_product_fname_spec (fname e) w Hv Pfn) as (rest & -> & Hlen). cbn [obind].
  set (e1 := set_fname (fname_text w ++ 0 :: rest) (set_pce_wmo w e)).
  assert (cstr (fname e1) = Done (fname_text w)) as Hfn.
  { apply cstr_app. by apply fname_text_nonul. }
  assert (zlen (fname_text w) <= FNAME_SIZE) as Hfl.
  { rewrite zlen_app, zlen_cons in Hlen. pose proof (zlen_nonneg rest). lia. }
  destruct (make_product_fbasename_spec e1 _ Hfn Hfl) as [-> Hbl].
  { apply Hv. } { done. }
  cbn [obind Z.eqb negb]. set (bn := fbasename_text _ _ _) in *.
  rewrite make_product_fpath_spec; [|done|apply Hv|done].
  cbn [negb Z.eqb]. set (e2 := set_fpath _ _).
  change (fname e2) with (fname e1). rewrite Hfn. cbn [obind].
  assert (pce_ok g e2) as Hok2 by by split.
  assert (same_core e e2) as Hsc by done.
  assert (named w e2) as Hnm by by split_and!.
  change (pce_orig_seq_number e2) with (pce_orig_seq_number e).
  destruct (np_regex_match (fname_text w) =? 1) eqn:Enp.
  { exists 4, e2. split_and!; try done. right. exists w. rewrite Enp. by split_and!. }
  destruct (negb (pce_orig_seq_number e =? 0) && (f_loadave_max_rtx g =? 1)) eqn:Elo.
  { exists 4, e2. split_and!; try done. right. exists w. rewrite Enp. by split_and!. }
  eexists 0, _. split; [done|]. split; [done|].
  match goal with |- context [if ?b then set_saveunz_flag 1 e2 else e2] => destruct b eqn:Eb end.
  - split; [by destruct Hok2|]. split; [done|]. right. exists w.
    rewrite Enp.
    split; [done|]. split; [done|]. split; [done|]. split; [done|]. intros Hz.
    by rewrite Hz in Eb.
  - split; [done|]. split; [done|]. right. exists w. rewrite Enp. by split_and!.
Qed.

Lemma read_clock_spec i c : pctl_wf c ->
  exists ts c', read_clock c = Done (ts, c') /\ pstep i c c' /\ activepce c' = activepce c.
Proof.
  intros [Hn Hp [In Is If Il It Ib Ir] []]. unfold read_clock. destruct (clock_works (tick (pctldb c))) as [t ->].
  eexists t, _. split; [done|]. split; [|done]. split; [|done]. split; [done|done| |done].
  split; cbn; try done.
  - intros i' t' k Hi'. apply If. lia.
  - intros i' t' Hi'. apply Il. lia.
Qed.

(** the result of a START *)
Lemma start_activepce_spec f s :
  fstate_wf s -> unpacked f -> sane f -> block_number (pdh f) = 0 ->
  0 <= np_channel_index f < num_activechannels (f_pctl s) ->
  exists st s', start_activepce g f s = Done (st, s') /\ fstep (np_channel_index f) s s' /\
    (st = 0 \/ st = 1 \/ st = 4) /\
    (st = 0 -> exists e, activepce (f_pctl s') !! Z.to_nat (np_channel_index f) = Some e /\
       seq_number e = product_seq_number (pdh f)).
Proof.
  intros Hs Hu Hsane Hb Hi. unfold start_activepce.
  rewrite c_assert_true by by apply Z.eqb_eq.
  destruct (open_for_start_spec f s Hs Hi) as (e & s1 & -> & Hst1 & He & Hok & Hm0).
  set (i := np_channel_index f) in *.
  cbn [obind]. destruct (fstep_wf _ _ _ Hs Hst1) as [Hw1 Hf1].
  destruct (read_clock_spec i (f_pctl s1) Hw1) as (ts & c2 & -> & Hst2 & Ea2). cbn [obind].
  destruct (fill_activepce_spec f ts e) as (e3 & -> & Hok3 & Hseq & _); [done..|]. cbn [obind].
  destruct (name_activepce_spec f e3) as (r & st & e4 & _ & -> & Hok4 & Hsc & Hst);
    [done..|rewrite Hseq; apply Hu|].
  cbn [obind f_pctl with_pctl]. pose proof Hst2 as (Hw2 & Hn2 & _).
  assert (pstep i (f_pctl s1) (put_channel c2 i e4)) as Hst3.
  { eapply pstep_trans; [exact Hst2|]. by apply put_pstep. }
  assert (st = 0 \/ st = 1 \/ st = 4) as Hst'.
  { destruct Hst as [[_ ->]|(w & _ & _ & _ & -> & _)]; [by auto|]. repeat case_match; auto. }
  destruct (Z.eqb_spec st 0) as [->|Hne]; cbn [negb].
  - eexists 0, _. split; [done|]. split.
    { eapply fstep_trans; [exact Hst1|]. by split. }
    split; [by left|]. intros _. exists e4. split.
    + cbn [f_pctl with_pctl]. eapply put_lookup. by rewrite Ea2.
    + destruct Hsc as (_ & -> & _). done.
  - destruct (close_pstep i (put_channel c2 i e4)) as (e5 & c5 & _ & _ & -> & Hst5 & _).
    { apply Hst3. } { cbn. rewrite Hn2, (fstep_num _ _ _ Hst1). done. }
    cbn [obind]. eexists st, _. split; [done|]. split; [|by split].
    eapply fstep_trans; [exact Hst1|]. split; [|done]. by eapply pstep_trans.
Qed.

Lemma e_start_spec f s :
  fstate_wf s -> unpacked f -> sane f ->
  0 <= np_channel_index f < num_activechannels (f_pctl s) ->
  exists st s', e_start_activepce g f s = Done (st, s') /\ fstep (np_channel_index f) s s' /\
    (st = 0 \/ st = 1 \/ st = 4).
Proof.
  intros Hs Hu Hsane Hi. unfold e_start_activepce.
  destruct (Z.eqb_spec (block_number (pdh f)) 0) as [Hb|]; cbn [negb].
  2: { exists 1, s. split_and!; [done|by apply fstep_refl|by auto]. }
  set (s1 := with_stats update_stats_products_transmitted s).
  destruct (start_activepce_spec f s1) as (st & s2 & -> & Hst & Hv & H0); [by destruct Hs|done..|].
  cbn [obind]. destruct (Z.eqb_spec st 4) as [->|].
  { eexists 4, _. split_and!; [done|by apply fstep_stats|by auto]. }
  destruct (Z.eqb_spec st 0) as [->|]; cbn [negb].
  2: { eexists st, _. split_and!; [done|by apply fstep_stats|done]. }
  destruct (H0 eq_refl) as (e & He & Hseq).
  assert (fstate_wf s2) as Hs2 by (eapply (fstep_wf _ s1); [by destruct Hs|done]).
  unfold log_pce_diag, get_pctl_activepce.
  match goal with |- context [with_channel (f_pctl s2) (np_channel_index f) ?k] =>
    destruct (with_channel_ok (f_pctl s2) (np_channel_index f) k) as (e' & He' & _ & ->);
      [apply Hs2|rewrite (fstep_num _ _ _ Hst); done|] end.
  assert (e' = e) as -> by congruence. rewrite Hseq, Z.eqb_refl. cbn [negb obind].
  eexists 0, s2. by split_and!; auto.
Qed.

(** writing a frame with its information block *)
Lemma write_memframe_safe mf data ds z :
  memfile_wf mf -> bytes data -> 0 <= ds < 2 ^ 31 -> ds <= zlen data ->
  exists st mf', write_memframe mf data ds z = Done (st, mf') /\ memfile_wf mf' /\
    mf_nread mf' = mf_nread mf /\ mf_size mf' <= mf_size mf + 16 + ds /\
    (st = 0 \/ st = -1).
Proof.
  intros Hwf Hb Hd Hl. unfold write_memframe, write_memframe_info, write_memframe_data.
  pose proof (memframe_info_length z ds) as Hi.
  destruct (write_memfile_spec mf (memframe_info z ds) MEMFRAME_INFO_SIZE)
    as (st & mf1 & -> & Hwf1 & Hn1 & H1);
    [done|apply memframe_info_bytes|done|rewrite Hi; done|].
  cbn [obind]. pose proof (wf_p _ Hwf). pose proof (wf_p _ Hwf1) as Hp1.
  assert (mf_size mf1 <= mf_size mf + 16).
  { destruct H1 as [[_ E]|[_ E]]; rewrite E in Hp1; rewrite ?zlen_app in Hp1; [|lia].
    rewrite ztake_ge in Hp1 by (rewrite Hi; done). lia. }
  destruct (Z.eqb_spec st (-1)) as [->|]; cbn [negb].
  { exists (-1), mf1. split_and!; try done; [lia|by right]. }
  destruct (write_memfile_spec mf1 data ds) as (st2 & mf2 & -> & Hwf2 & Hn2 & H2'); [done..|].
  exists st2, mf2. pose proof (wf_p _ Hwf2) as Hp2. split_and!; try done; [congruence| |].
  - destruct H2' as [[_ E]|[_ E]]; rewrite E in Hp2; rewrite ?zlen_app in Hp2; [|lia].
    rewrite zlen_take in Hp2 by lia. lia.
  - destruct H2' as [[-> _]|[-> _]]; auto.
Qed.

Lemma view_raw_bytes f o : frame_wf f -> bytes (view f (PRaw o)).
Proof. intros []. by apply bytes_zdrop. Qed.

Lemma data_offset_range f : 32 <= data_offset f <= 68.
Proof. unfold data_offset. destruct (_ =? _); lia. Qed.

(** the ranges of the data of a sane frame *)
Lemma sane_ranges f : unpacked f -> sane f ->
  0 <= frdata_size f <= 5200 /\ frdata_size f <= zlen (oview f (frdata f)) /\
  bytes (oview f (frdata f)) /\
  (forall h, ctrlhdr f = Some h ->
     0 <= ctrlhdr_size f <= 58 /\ ctrlhdr_size f <= zlen (view f h) /\ bytes (view f h)).
Proof.
  intros [Hwf Hl Hsz Hdbo _ _ _] [Hhdr Hdata _ _]. pose proof (fwf_size _ Hwf).
  pose proof (data_offset_range f). unfold SBN_FRAME_SIZE, MAX_CTRLHDR_SIZE in *.
  rewrite (loc_frdata _ Hl), (loc_frdata_size _ Hl), (loc_hdr_size _ Hl), (loc_hdr _ Hl).
  cbn [oview]. rewrite zlen_view_raw by (done || lia).
  split_and!; try lia; [by apply view_raw_bytes|].
  intros h Hh. destruct (Z.eqb_spec (data_block_offset (pdh f)) 0); [done|].
  injection Hh as <-. rewrite zlen_view_raw by (done || lia).
  split_and!; try lia. by apply view_raw_bytes.
Qed.

Lemma write_size mf mf' st data ds :
  memfile_wf mf -> memfile_wf mf' -> 0 <= ds <= zlen data ->
  (st = 0 /\ mf_p mf' = mf_p mf ++ ztake ds data \/ st = -1 /\ mf_p mf' = mf_p mf) ->
  mf_size mf' <= mf_size mf + ds.
Proof.
  intros H1 H2 Hd Hc. pose proof (wf_p _ H1). pose proof (wf_p _ H2) as Hp.
  destruct Hc as [[_ E]|[_ E]]; rewrite E in Hp; rewrite ?zlen_app in Hp; [|lia].
  rewrite zlen_take in Hp by lia. lia.
Qed.

(** the bytes of a frame, as they are kept when products are not uncompressed *)
Definition frame_payload (f : sbn_frame) : list Z :=
  match ctrlhdr f with
  | Some h => if block_number (pdh f) =? 0 then ztake (ctrlhdr_size f) (view f h) else []
  | None => []
  end ++ ztake (frdata_size f) (oview f (frdata f)).

Lemma save_frame_spec f e :
  unpacked f -> sane f -> memfile_wf (pce_mf e) ->
  exists st mf, save_frame f e = Done (st, mf) /\ memfile_wf mf /\
    mf_nread mf = mf_nread (pce_mf e) /\ mf_size mf <= mf_size (pce_mf e) + 6000 /\
    (st = 0 \/ st = -1) /\
    (st = 0 -> saveunz_flag e = 0 -> mf_p mf = mf_p (pce_mf e) ++ frame_payload f).
Proof.
  intros Hu Hsane Hwf. destruct (sane_ranges f Hu Hsane) as (Hf1 & Hf2 & Hf3 & Hh).
  unfold save_frame, frame_payload. destruct (Z.eqb_spec (saveunz_flag e) 0) as [Hz|Hz].
  2: { destruct (write_memframe_safe (pce_mf e) (oview f (frdata f)) (frdata_size f)
         (f_frdata_compressed f)) as (st & mf & -> & Hw & Hn & Hs & Hst); [done|done|lia|done|].
       cbn [obind]. eexists _, mf. split; [done|]. split_and!; try done; [lia|].
       destruct (st <? 0); auto. }
  set (hp := match ctrlhdr f with Some _ => _ | None => [] end).
  match goal with |- context [obind ?m (fun '(status, mf) => _)] =>
    assert (exists st mf, m = Done (st, mf) /\ memfile_wf mf /\
      mf_nread mf = mf_nread (pce_mf e) /\ mf_size mf <= mf_size (pce_mf e) + 58 /\
      (st = 0 /\ mf_p mf = mf_p (pce_mf e) ++ hp \/ st = -1))
      as (st & mf & -> & Hw & Hn & Hs & Hst) end.
  { assert (forall m : list Z, m ++ [] = m) as Hnil by apply app_nil_r. subst hp.
    destruct (ctrlhdr f) as [h|] eqn:Eh; [destruct (block_number (pdh f) =? 0)|].
    2-3: eexists 0, _; rewrite Hnil; split_and!; [done..|lia|by left].
    destruct (Hh h eq_refl) as (Hc1 & Hc2 & Hc3).
    destruct (write_memfile_spec (pce_mf e) (view f h) (ctrlhdr_size f))
      as (st & mf & -> & Hw & Hn & Hst); [done|done|lia|done|].
    cbn [obind]. eexists _, mf. split; [done|].
    pose proof (write_size _ _ st (view f h) (ctrlhdr_size f) Hwf Hw ltac:(lia) Hst).
    split_and!; [done|done|lia|]. destruct Hst as [[-> ->]|[-> _]]; auto. }
  cbn [obind]. destruct Hst as [[-> Hp]| ->]; cbn [Z.eqb].
  2: { exists (-1), mf. split_and!; try done; [lia|by right]. }
  destruct (write_memfile_spec mf (oview f (frdata f)) (frdata_size f))
    as (st & mf2 & -> & Hw2 & Hn2 & Hst); [done|done|lia|done|].
  cbn [obind]. eexists _, mf2. split; [done|].
  pose proof (write_size _ _ st (oview f (frdata f)) (frdata_size f) Hw Hw2 ltac:(lia) Hst).
  split_and!; [done|congruence|lia|by destruct (st <? 0); auto|].
  intros Hst0 _. destruct Hst as [[_ ->]|[-> _]]; [|done]. by rewrite Hp, <- app_assoc.
Qed.

Lemma get_activepce_eq c i e n : pctl_wf c -> 0 <= i < num_activechannels c ->
  activepce c !! Z.to_nat i = Some e ->
  get_pctl_activepce c i n = Done (if seq_number e =? n then Some e else None).
Proof.
  intros Hc Hi He. unfold get_pctl_activepce.
  match goal with |- context [with_channel c i ?k] =>
    destruct (with_channel_ok c i k Hc Hi) as (e' & He' & _ & ->) end.
  assert (e' = e) as -> by congruence. by destruct (seq_number e =? n).
Qed.

Lemma channel_pce c i : pctl_wf c -> 0 <= i < num_activechannels c ->
  exists e, activepce c !! Z.to_nat i = Some e /\ pce_ok g e.
Proof.
  intros Hc Hi. destruct (with_channel_ok c i (@Done _) Hc Hi) as (e & ? & ? & _). by exists e.
Qed.

(** PROGRESS: the frame is not of the active product (1), or out of sequence
    (2), or its data has been appended (0), or could not be (-1) *)
Lemma update_activepce_spec f s e :
  fstate_wf s -> unpacked f -> sane f ->
  0 <= np_channel_index f < num_activechannels (f_pctl s) ->
  activepce (f_pctl s) !! Z.to_nat (np_channel_index f) = Some e ->
  exists st s', update_activepce f s = Done (st, s') /\ fstep (np_channel_index f) s s' /\
    ((st = 1 /\ s' = s /\ seq_number e <> product_seq_number (pdh f)) \/
     (st = 2 /\ s' = s /\ seq_number e = product_seq_number (pdh f) /\
      block_number (pdh f) <> recv_fragments e) \/
     (seq_number e = product_seq_number (pdh f) /\ block_number (pdh f) = recv_fragments e /\
      exists mf, save_frame f e = Done (st, mf) /\ (st = 0 \/ st = -1) /\
        pctldb (f_pctl s') = pctldb (f_pctl s) /\ f_stats s' = f_stats s /\
        activepce (f_pctl s') !! Z.to_nat (np_channel_index f) =
          Some (set_pce_mf mf (set_recv_fragments (recv_fragments e + 1) e)))).
Proof.
  intros Hs Hu Hsane Hi He. pose proof Hs as [Hc Hf].
  unfold update_activepce, update_activepce_framecounter.
  match goal with |- context [with_channel (f_pctl s) (np_channel_index f) ?k] =>
    destruct (with_channel_ok (f_pctl s) (np_channel_index f) k Hc Hi) as (e' & He' & Hok & ->) end.
  assert (e' = e) as -> by congruence. set (i := np_channel_index f) in *.
  destruct (Z.eqb_spec (seq_number e) (product_seq_number (pdh f))) as [Hq|Hq]; cbn [negb obind].
  2: { cbn [Z.eqb]. exists 1, s. split; [by destruct s|]. split; [by apply fstep_refl|]. by left. }
  destruct (Z.eqb_spec (block_number (pdh f)) (recv_fragments e)) as [Hbn|Hbn]; cbn [obind].
  2: { cbn [Z.eqb]. exists 2, s. split; [by destruct s|]. split; [by apply fstep_refl|].
       right; left. done. }
  cbn [Z.eqb]. pose proof (up_block _ Hu) as Hblk.
  rewrite s32_small by lia. set (e1 := set_recv_fragments (recv_fragments e + 1) e).
  assert (pce_ok g e1) as Hok1.
  { destruct Hok as [???????]. split; try done; cbn; lia. }
  assert (pctl_wf (put_channel (f_pctl s) i e1)) as Hc1 by by apply put_channel_wf.
  unfold msave_frame. fold i. cbv zeta. cbn [f_pctl with_pctl].
  erewrite get_activepce_eq; [|done|done|by eapply put_lookup].
  change (seq_number e1) with (seq_number e). rewrite Hq, Z.eqb_refl. cbn [obind].
  change (save_frame f e1) with (save_frame f e).
  destruct (save_frame_spec f e Hu Hsane (po_mf _ _ Hok)) as (st & mf & -> & Hw & Hn & Hsz & Hst & _).
  cbn [obind]. eexists st, _. split; [done|].
  assert (pce_ok g (set_pce_mf mf e1)) as Hok2.
  { destruct Hok as [? Hn0 ? ? ? ? ?]. split; cbn; try done; [congruence|lia|lia]. }
  split.
  { split; [|done]. eapply pstep_trans; [apply (put_pstep i (f_pctl s) e1)|]; [done..|].
    by apply put_pstep. }
  right; right. split; [done|]. split; [done|]. exists mf. split_and!; try done.
  cbn [f_pctl with_pctl]. by eapply put_lookup, put_lookup.
Qed.

Lemma send_and_close i s : fstate_wf s -> 0 <= i < num_activechannels (f_pctl s) ->
  exists st c1 c2, esend_pctl_activepce (f_pctl s) i = Done (st, c1) /\
    close_pctl_activepce c1 i = Done c2 /\ pstep i (f_pctl s) c2 /\ pstep i (f_pctl s) c1 /\
    (st = -1 \/ st = 0 \/ st = 2).
Proof.
  intros [Hc _] Hi. destruct (esend_pstep i (f_pctl s) Hc Hi) as (st & c1 & E1 & Hp1 & Hst).
  pose proof Hp1 as (Hw1 & Hn1 & _).
  destruct (close_pstep i c1) as (e & c2 & _ & _ & E2 & Hp2 & _); [done|lia|].
  exists st, c1, c2. split_and!; try done. by eapply pstep_trans.
Qed.

Lemma e_update_spec f s :
  fstate_wf s -> unpacked f -> sane f ->
  0 <= np_channel_index f < num_activechannels (f_pctl s) ->
  exists st s', e_update_activepce f s = Done (st, s') /\ fstep (np_channel_index f) s s' /\
    (st = 0 \/ st = 2 \/ st = -1).
Proof.
  intros Hs Hu Hsane Hi. unfold e_update_activepce. cbv zeta.
  destruct (channel_pce _ _ (fw_pctl _ Hs) Hi) as (e & He & _).
  destruct (update_activepce_spec f s e Hs Hu Hsane Hi He) as (st & s1 & -> & Hst1 & Hc).
  set (i := np_channel_index f) in *. cbn [obind].
  pose proof (fstep_wf _ _ _ Hs Hst1) as Hs1. pose proof (fstep_num _ _ _ Hst1) as Hn1.
  assert (forall st', st' = 2 \/ st' = -1 -> exists st s',
    (let s2 := with_stats update_stats_products_missed s1 in
     let* (_, c) := esend_pctl_activepce (f_pctl s2) i in
     let* c := close_pctl_activepce c i in
     Done (st', with_pctl c s2)) = Done (st, s') /\ fstep i s s' /\
    (st = 0 \/ st = 2 \/ st = -1)) as Hfail.
  { intros st' Hst'. cbv zeta. cbn [f_pctl with_stats].
    destruct (send_and_close i s1 Hs1) as (st2 & c1 & c2 & -> & E2 & Hp2 & _); [lia|].
    cbn [obind]. rewrite E2. cbn [obind]. eexists st', _. split; [done|]. split.
    - eapply fstep_trans; [exact Hst1|]. done.
    - destruct Hst'; auto. }
  destruct Hc as [(-> & -> & _)|[(-> & -> & _)|(Hq & Hbn & mf & Esv & [-> | ->] & _ & _ & He1)]].
  - cbn [Z.eqb obind negb]. exists 0, s. split_and!; auto.
  - cbn [Z.eqb orb obind negb]. apply Hfail. by auto.
  - cbn [Z.eqb orb]. unfold log_pce_diag. fold i.
    erewrite get_activepce_eq; [|apply Hs1|lia|exact He1].
    change (seq_number (set_pce_mf mf (set_recv_fragments (recv_fragments e + 1) e)))
      with (seq_number e). rewrite Hq, Z.eqb_refl. cbn [obind negb Z.eqb].
    exists 0, s1. split_and!; auto.
  - cbn [Z.eqb orb obind negb]. apply Hfail. by auto.
Qed.

Lemma complete_spec c i n e : pctl_wf c -> 0 <= i < num_activechannels c ->
  activepce c !! Z.to_nat i = Some e ->
  exists st c', complete_activepce c i n = Done (st, c') /\ pstep i c c' /\
    pctldb c' = pctldb c /\
    ((st = 1 /\ c' = c /\ seq_number e <> n) \/
     (st = 2 /\ c' = c /\ seq_number e = n /\ recv_fragments e < pce_num_fragments e) \/
     (st = 0 /\ seq_number e = n /\ pce_num_fragments e <= recv_fragments e /\
      activepce c' !! Z.to_nat i = Some (set_f_complete 1 e))).
Proof.
  intros Hc Hi He. unfold complete_activepce.
  match goal with |- context [with_channel c i ?k] =>
    destruct (with_channel_ok c i k Hc Hi) as (e' & He' & Hok & ->) end.
  assert (e' = e) as -> by congruence.
  destruct (Z.eqb_spec (seq_number e) n); cbn [negb].
  2: { exists 1, c. split_and!; try done. by left. }
  destruct (Z.ltb_spec (recv_fragments e) (pce_num_fragments e)).
  { exists 2, c. split_and!; try done. right; left. done. }
  eexists 0, _. split; [done|]. split.
  { apply put_pstep; [done|]. by destruct Hok. }
  split; [done|]. right; right. split_and!; try done. by eapply put_lookup.
Qed.

Lemma e_end_spec f s :
  fstate_wf s -> 0 <= np_channel_index f < num_activechannels (f_pctl s) ->
  exists st s', e_end_activepce f s = Done (st, s') /\ fstep (np_channel_index f) s s' /\
    (st = -1 \/ 0 <= st <= 2).
Proof.
  intros Hs Hi. unfold e_end_activepce. cbv zeta.
  destruct (channel_pce _ _ (fw_pctl _ Hs) Hi) as (e & He & _).
  destruct (complete_spec _ _ (product_seq_number (pdh f)) e (fw_pctl _ Hs) Hi He)
    as (st & c1 & -> & Hp1 & _ & Hc).
  set (i := np_channel_index f) in *. cbn [obind].
  assert (fstep i s (with_pctl c1 s)) as Hst1 by done.
  pose proof (fstep_wf _ _ _ Hs Hst1) as Hs1. pose proof (fstep_num _ _ _ Hst1) as Hn1.
  cbn [f_pctl with_pctl] in Hn1.
  rewrite c_assert_true.
  2: { apply negb_true_iff, Z.eqb_neq. destruct Hc as [[-> _]|[[-> _]|[-> _]]]; done. }
  destruct (Z.eqb_spec st 1) as [->|Hst].
  { cbn [obind f_pctl with_pctl].
    destruct (close_pstep i c1) as (e2 & c2 & _ & _ & -> & Hp2 & _); [apply Hs1|lia|].
    cbn [obind]. eexists 1, _. split; [done|]. split; [|lia].
    eapply fstep_trans; [exact Hst1|]. done. }
  set (s2 := if st =? 0 then _ else _).
  assert (f_pctl s2 = c1 /\ gframep_fh s2 = gframep_fh s) as [Es2 Eg2].
  { subst s2. by destruct (st =? 0), (st =? 2). }
  destruct (send_and_close i (with_pctl c1 s) Hs1) as (st2 & c3 & c4 & E3 & E4 & Hp4 & _ & Hst2).
  { cbn. lia. }
  cbn [f_pctl with_pctl] in E3, Hp4. rewrite Es2, E3. cbn [obind f_pctl with_pctl].
  rewrite E4. cbn [obind]. eexists st2, _. split; [done|]. split; [|lia].
  split; cbn [f_pctl with_pctl gframep_fh]; [|by rewrite Eg2]. by eapply pstep_trans.
Qed.

Lemma update_framep_info_spec i f s :
  fstate_wf s -> np_channel_index f = i -> 0 <= i < num_activechannels (f_pctl s) ->
  exists s', update_framep_info f s = Done s' /\ fstep i s s' /\ f_pctl s' = f_pctl s.
Proof.
  intros [Hc Hf] <- Hi. unfold update_framep_info.
  destruct (rd_total (gframep_fh s) (np_channel_index f)) as [h ->]; [lia|]. cbn [obind].
  set (s1 := if (0 <? _) && _ then _ else s).
  assert (f_pctl s1 = f_pctl s /\ gframep_fh s1 = gframep_fh s) as [E1 E2].
  { subst s1. by destruct (_ && _). }
  rewrite E1, E2.
  destruct (wr (gframep_fh s) (np_channel_index f) [fh f]) as [l| |] eqn:Ew;
    [|rewrite wr_ok in Ew by (rewrite ?zlen_cons, ?zlen_nil; lia); done..].
  cbn [obind]. eexists. split; [done|]. split; [|done]. split; [done|].
  cbn. by apply wr_length in Ew.
Qed.

Lemma set_psh_ok f h :
  unpacked f -> sane f -> num_fragments h = num_fragments (psh f) ->
  unpacked (set_psh h f) /\ sane (set_psh h f).
Proof.
  intros [[] [] ? ? ? ? Hn] [] E. split; [|by split].
  split; first [done | by split | cbn; by rewrite E].
Qed.

Lemma abort_spec f s :
  fstate_wf s -> 0 <= np_channel_index f < num_activechannels (f_pctl s) ->
  exists s', abort_activepce f s = Done s' /\ fstep (np_channel_index f) s s'.
Proof.
  intros Hs Hi. unfold abort_activepce. cbv zeta. cbn [f_pctl with_stats].
  destruct (close_pstep (np_channel_index f) (f_pctl s)) as (e & c & _ & _ & -> & Hp & _);
    [apply Hs|done|].
  cbn [obind]. eexists. split; [done|]. done.
Qed.

Lemma start_stage_spec f s :
  fstate_wf s -> unpacked f -> sane f ->
  0 <= np_channel_index f < num_activechannels (f_pctl s) ->
  exists st f' s', start_stage g f s = Done (st, f', s') /\ fstep (np_channel_index f) s s' /\
    (unpacked f' /\ sane f' /\ np_channel_index f' = np_channel_index f) /\
    (st = 0 \/ st = 1 \/ st = 4).
Proof.
  intros Hs Hu Hsane Hi. unfold start_stage.
  destruct (has_flag (transfer_type (pdh f)) PDH_TRANSFERTYPE_START).
  2: { exists 0, f, s. split_and!; auto. by apply fstep_refl. }
  destruct (has_flag _ PSH_STATUSFLAG_RETRANSMIT).
  - destruct (e_start_spec f (with_stats update_stats_products_retransmitted s))
      as (st & s' & -> & Hst & Hv); [by destruct Hs|done..|].
    cbn [obind]. exists st, f, s'. by split_and!.
  - set (f1 := set_psh _ f).
    destruct (set_psh_ok f (set_orig_seq_number 0 (psh f)) Hu Hsane eq_refl) as [Hu1 Hs1].
    destruct (e_start_spec f1 s) as (st & s' & -> & Hst & Hv); [done..|].
    cbn [obind]. exists st, f1, s'. by split_and!.
Qed.

Lemma data_frame_spec f s :
  fstate_wf s -> unpacked f -> sane f ->
  0 <= np_channel_index f < num_activechannels (f_pctl s) ->
  exists st f' s', data_frame g f s = Done (st, f', s') /\
    fstep (np_channel_index f) s s' /\ -1 <= st <= 4.
Proof.
  intros Hs Hu Hsn Hi. unfold data_frame. cbv zeta. destruct (has_flag _ (Z.lor _ _)).
  { destruct (abort_spec f s Hs Hi) as (s3 & -> & Hst3). cbn [obind].
    exists 0, f, s3. split_and!; done || lia. }
  destruct (start_stage_spec f s Hs Hu Hsn Hi) as (st3 & f3 & s3 & -> & Hst3 & (Hu3 & Hsn3 & Hch3) & Hv3).
  cbn [obind]. pose proof (fstep_wf _ _ _ Hs Hst3) as Hs3. set (i := np_channel_index f) in *.
  assert (0 <= np_channel_index f3 < num_activechannels (f_pctl s3)) as Hi3.
  { rewrite Hch3, (fstep_num _ _ _ Hst3). done. }
  match goal with |- context [obind (if ?b then e_update_activepce f3 s3 else _) ?k] =>
    assert (exists st4 s4, (if b then e_update_activepce f3 s3 else Done (st3, s3)) = Done (st4, s4) /\
              fstep i s s4 /\ -1 <= st4 <= 4) as (st4 & s4 & -> & Hst4 & Hv4) end.
  { destruct (_ && _); [|exists st3, s3; split_and!; done || lia].
    destruct (e_update_spec f3 s3 Hs3 Hu3 Hsn3 Hi3) as (st4 & s4 & -> & Hst4 & Hv4).
    rewrite Hch3 in Hst4. exists st4, s4. split; [done|]. split; [by eapply fstep_trans|lia]. }
  cbn [obind]. pose proof (fstep_wf _ _ _ Hs Hst4) as Hs4.
  destruct (_ && _); cbn [obind]; [|exists st4, f3, s4; split_and!; done || lia].
  destruct (e_end_spec f3 s4 Hs4) as (st5 & s5 & -> & Hst5 & Hv5).
  { rewrite Hch3, (fstep_num _ _ _ Hst4). done. }
  cbn [obind]. rewrite Hch3 in Hst5.
  exists st5, f3, s5. split; [done|]. split; [by eapply fstep_trans|lia].
Qed.

(** the first part of [sbnframeproc]: the state changes in the counters and
    the last header of the channel *)
Lemma e_sbn_unpack_spec f s st f1 :
  fstate_wf s -> 0 <= np_channel_index f < num_activechannels (f_pctl s) ->
  sbn_unpack_frame f = Done (st, f1) -> np_channel_index f1 = np_channel_index f ->
  exists s', e_sbn_unpack_frame f s = Done (st, f1, s') /\
    fstep (np_channel_index f) s s' /\ f_pctl s' = f_pctl s.
Proof.
  intros Hs Hi E Hch. unfold e_sbn_unpack_frame. rewrite E. cbn [obind].
  destruct ((st =? 0) || (st =? 3)).
  2: { eexists. split; [done|]. split; [|done]. by destruct Hs. }
  match goal with |- context [update_framep_info f1 ?x] => set (s1 := x) end.
  assert (fstate_wf s1) as Hs1 by by destruct Hs.
  destruct (update_framep_info_spec (np_channel_index f) f1 s1 Hs1 Hch Hi) as (s2 & -> & Hst2 & Ep2).
  cbn [obind]. by exists s2.
Qed.


(** ** Assembly of a product *)

Section assembly.
Context {DR : DbReliable D DS}.
(* requests below 1 TB succeed *)
Hypothesis Hmem : forall n, n < 2 ^ 40 -> malloc_ok n = true.

Lemma save_frame_mem f e st mf :
  unpacked f -> sane f -> pce_ok g e -> saveunz_flag e = 0 ->
  save_frame f e = Done (st, mf) -> st = 0.
Proof.
  intros Hu Hsane Hok Hz. destruct (sane_ranges f Hu Hsane) as (Hf1 & Hf2 & Hf3 & Hh).
  destruct Hok as [Hwf _ Hr Hs _ _ _]. unfold save_frame. rewrite Hz. cbn [Z.eqb].
  assert (forall mf1 : memfile, memfile_wf mf1 -> mf_size mf1 < 2 ^ 37 ->
    (let* (n, mf) := write_memfile mf1 (oview f (frdata f)) (frdata_size f) in
     Done (if n <? 0 then -1 else 0, mf)) = Done (st, mf) -> st = 0) as Hfin.
  { intros mf1 Hw1 Hs1. 
    destruct (write_memfile mf1 (oview f (frdata f)) (frdata_size f)) as [[n mf2]| |] eqn:E;
      cbn [obind]; [|done..]. apply (write_memfile_mem Hmem) in E as ->; [|done|lia|lia].
    by intros [= <-]. }
  destruct (ctrlhdr f) as [h|] eqn:Eh; [destruct (block_number (pdh f) =? 0)|]; cbn [obind Z.eqb];
    [|apply Hfin; [done|lia]..].
  destruct (Hh h eq_refl) as (Hc1 & Hc2 & Hc3).
  destruct (write_memfile_spec (pce_mf e) (view f h) (ctrlhdr_size f))
    as (n & mf1 & E & Hw1 & _ & Hst); [done|done|lia|done|].
  pose proof (write_size _ _ n (view f h) (ctrlhdr_size f) Hwf Hw1 ltac:(lia) Hst).
  rewrite E. cbn [obind]. apply (write_memfile_mem Hmem) in E as ->; [|done|lia|lia].
  cbn [Z.ltb Z.compare Z.eqb]. apply Hfin; [done|lia].
Qed.

(** the product [q] named by [w], of [n] frames, [k] of them received with the
    bytes [data], is being assembled on channel [i] *)
Definition assembling (i q n k : Z) (w : wmo_header) (data : list Z) e : Prop :=
  seq_number e = q /\ pce_num_fragments e = n /\ recv_fragments e = k /\
  f_complete e = 0 /\ saveunz_flag e = 0 /\ mf_p (pce_mf e) = data /\ named w e.

(** the queue is that of [d] (the clock may have been read) *)
Definition same_queue (d d' : pctldb_st) : Prop :=
  dbp d' = dbp d /\ mfdbp d' = mfdbp d /\ db_n d' = db_n d /\
  mf_total_size d' = mf_total_size d /\ hardlimit d' = hardlimit d /\
  mf_hardlimit_mb d' = mf_hardlimit_mb d.

Lemma same_queue_refl d : same_queue d d.
Proof. done. Qed.
Lemma same_queue_trans d1 d2 d3 : same_queue d1 d2 -> same_queue d2 d3 -> same_queue d1 d3.
Proof. unfold same_queue. naive_solver congruence. Qed.
Lemma same_queue_absq d d' : same_queue d d' -> absq d' = absq d.
Proof. intros (E1 & E2 & _). apply absq_ext; [done|by rewrite E2]. Qed.
Lemma same_queue_exact d d' : same_queue d d' -> pctldb_exact d -> pctldb_exact d'.
Proof. intros (E1 & E2 & _ & E4 & _) []. split; rewrite ?E1, ?E2, ?E4; done. Qed.

(** START on a free channel, for a product that the filters accept *)
Lemma start_free f s e w :
  fstate_wf s -> unpacked f -> sane f -> block_number (pdh f) = 0 ->
  0 <= np_channel_index f < num_activechannels (f_pctl s) ->
  activepce (f_pctl s) !! Z.to_nat (np_channel_index f) = Some e -> open_pce e = 0 ->
  split_wmo_header f = Done (Some w) -> np_regex_match (fname_text w) <> 1 ->
  orig_seq_number (psh f) = 0 \/ f_loadave_max_rtx g <> 1 -> f_frdata_compressed f = 0 ->
  exists s' e', e_start_activepce g f s = Done (0, s') /\ fstep (np_channel_index f) s s' /\
    same_queue (pctldb (f_pctl s)) (pctldb (f_pctl s')) /\
    activepce (f_pctl s') !! Z.to_nat (np_channel_index f) = Some e' /\
    assembling (np_channel_index f) (product_seq_number (pdh f))
      (if num_fragments (psh f) =? 0 then 1 else num_fragments (psh f)) 0 w [] e'.
Proof.
  intros Hs Hu Hsane Hb Hi He Ho Hw Hnp Hrtx Hz. unfold e_start_activepce.
  rewrite Hb. cbn [Z.eqb negb]. unfold start_activepce. rewrite Hb. cbn [Z.eqb].
  rewrite c_assert_true by done. unfold open_for_start. cbv zeta.
  set (i := np_channel_index f) in *. set (s0 := with_stats update_stats_products_transmitted s).
  assert (fstate_wf s0) as Hs0 by by destruct Hs.
  destruct (open_activepce_spec i (f_pctl s0)) as (e1 & He1 & Hok & ->); [apply Hs0|done|].
  assert (e1 = e) as -> by (change (f_pctl s0) with (f_pctl s) in *; congruence).
  rewrite Ho. cbn [Z.eqb obind].
  destruct (read_clock (f_pctl s0)) as [[ts c2]| |] eqn:Erc;
    [|unfold read_clock in Erc; destruct (clock_works (tick (pctldb (f_pctl s0)))) as [? Hcw];
      by rewrite Hcw in Erc..].
  destruct (read_clock_spec i (f_pctl s0) (fw_pctl _ Hs0)) as (ts' & c2' & Erc' & Hst2 & Ea2).
  rewrite Erc in Erc'. injection Erc' as <- <-.
  assert (same_queue (pctldb (f_pctl s)) (pctldb c2)) as Hsq.
  { unfold read_clock in Erc. destruct (clock (tick (pctldb (f_pctl s0)))); [|done].
    injection Erc as <- <-. done. }
  cbn [obind].
  destruct (fill_activepce g f ts e) as [e3| |] eqn:Ef;
    destruct (fill_activepce_spec f ts e) as (e3' & Ef' & Hok3 & Hseq & Hp0 & Hr0 & Hsv & Hfc & Hnf);
    try done; try (by apply open_pce_0); rewrite Ef in Ef'; [|done..].
  injection Ef' as <-. cbn [obind].
  assert (pce_orig_seq_number e3 = orig_seq_number (psh f)) as Horig.
  { unfold fill_activepce in Ef. cbv zeta in Ef.
    destruct (copy_ctrlheader MAX_CTRLHDR_SIZE f) as [[[? ?] ?]| |]; cbn [obind] in Ef; [|done..].
    match type of Ef with obind ?m _ = _ => destruct m end; cbn [obind] in Ef; [|done..].
    injection Ef as <-. done. }
  destruct (name_activepce_spec f e3) as (r & st & e4 & Er & -> & Hok4 & Hsc & Hst);
    [done..|rewrite Hseq; apply Hu|].
  rewrite Hw in Er. injection Er as <-.
  destruct Hst as [[? _]|(w' & Ew & Hnm & _ & Est & Hsz)]; [done|]. injection Ew as <-.
  assert (st = 0) as ->.
  { rewrite Est. destruct (Z.eqb_spec (np_regex_match (fname_text w)) 1); [done|].
    rewrite Horig. destruct Hrtx as [->|]; [done|].
    destruct (Z.eqb_spec (f_loadave_max_rtx g) 1); [done|]. by rewrite andb_false_r. }
  cbn [obind Z.eqb negb]. destruct Hsc as (Sm & Sq & Sr & Sn & Sf).
  pose proof Hst2 as (Hw2 & Hn2 & _).
  assert (pstep i (f_pctl s) (put_channel c2 i e4)) as Hst3.
  { eapply pstep_trans; [exact Hst2|]. by apply put_pstep. }
  assert (activepce (put_channel c2 i e4) !! Z.to_nat i = Some e4) as He4.
  { eapply put_lookup. rewrite Ea2. exact He. }
  unfold log_pce_diag. cbn [f_pctl with_pctl]. fold i.
  erewrite get_activepce_eq; [|apply Hst3|cbn; rewrite Hn2; done|exact He4].
  rewrite Sq, Hseq, Z.eqb_refl. cbn [obind].
  eexists _, e4. split; [done|]. split; [by split|]. split; [done|]. split; [done|].
  unfold assembling. rewrite Sq, Sn, Sr, Sf, Sm, Hsz by done. by split_and!.
Qed.

(** PROGRESS with the next frame *)
Lemma update_next f s e w q n k data :
  fstate_wf s -> unpacked f -> sane f ->
  0 <= np_channel_index f < num_activechannels (f_pctl s) ->
  activepce (f_pctl s) !! Z.to_nat (np_channel_index f) = Some e ->
  assembling (np_channel_index f) q n k w data e ->
  product_seq_number (pdh f) = q -> block_number (pdh f) = k ->
  exists s' e', e_update_activepce f s = Done (0, s') /\ fstep (np_channel_index f) s s' /\
    pctldb (f_pctl s') = pctldb (f_pctl s) /\
    activepce (f_pctl s') !! Z.to_nat (np_channel_index f) = Some e' /\
    assembling (np_channel_index f) q n (k + 1) w (data ++ frame_payload f) e'.
Proof.
  intros Hs Hu Hsane Hi He (Aq & An & Ak & Ac & Az & Ad & Anm) Hq Hb.
  unfold e_update_activepce. cbv zeta.
  destruct (channel_pce _ _ (fw_pctl _ Hs) Hi) as (e' & He' & Hok).
  assert (e' = e) as -> by congruence. clear He'.
  destruct (update_activepce_spec f s e Hs Hu Hsane Hi He) as (st & s1 & -> & Hst1 & Hc).
  destruct Hc as [(_ & _ & ?)|[(_ & _ & _ & ?)|(_ & _ & mf & Esv & _ & Edb & _ & He1)]];
    [congruence|congruence|].
  assert (st = 0) as -> by (by eapply save_frame_mem).
  destruct (save_frame_spec f e Hu Hsane (po_mf _ _ Hok)) as (st' & mf' & Esv' & _ & _ & _ & _ & Hp).
  rewrite Esv in Esv'. injection Esv' as <- <-.
  cbn [obind Z.eqb orb]. pose proof (fstep_wf _ _ _ Hs Hst1) as Hs1. unfold log_pce_diag.
  erewrite get_activepce_eq; [|apply Hs1|rewrite (fstep_num _ _ _ Hst1); done|exact He1].
  cbn [seq_number set_pce_mf set_recv_fragments]. rewrite Aq, Hq, Z.eqb_refl.
  cbn [obind negb Z.eqb].
  eexists s1, _. split; [done|]. split; [done|]. split; [done|]. split; [exact He1|].
  unfold assembling. cbn [seq_number pce_num_fragments recv_fragments f_complete saveunz_flag
    pce_mf set_pce_mf set_recv_fragments]. rewrite Hp by done. rewrite Ad, Ak.
  split_and!; try done.
Qed.

(** the queue has room for an element with [n] bytes *)
Definition queue_room (d : pctldb_st) (n : Z) : Prop :=
  db_n d < hardlimit d /\ mf_total_size d + n <= mf_hardlimit_mb d * 1048576.

(** sending an element that the queue has room for *)
Lemma esend_room i c e : pctl_wf c -> 0 <= i < num_activechannels c ->
  activepce c !! Z.to_nat i = Some e -> pctldb_exact (pctldb c) ->
  queue_room (pctldb c) (mf_size (pce_mf e)) ->
  exists k c', esend_pctl_activepce c i = Done (0, c') /\ pstep i c c' /\
    absq (pctldb c') = absq (pctldb c) ++ [(info (set_tsqueue k e), mf_p (pce_mf e))] /\
    pctldb_exact (pctldb c').
Proof.
  intros Hc Hi He Hex [Hr1 Hr2].
  destruct (esend_spec c i Hc Hi) as (st0 & c' & e0 & k0 & E & Hw & He0 & Ea & En & _).
  assert (e0 = e) as -> by congruence.
  pose proof E as E'. unfold esend_pctl_activepce, epctl_send in E'.
  match type of E' with context [with_channel c i ?k] =>
    destruct (with_channel_ok c i k Hc Hi) as (e' & He' & Hok & Ew) end.
  assert (e' = e) as -> by congruence. rewrite Ew in E'. clear Ew.
  destruct (pce_sendable e Hok) as [Hm Hsz]. pose proof (wf_size _ Hm) as Hms.
  pose proof (limits_room _ e (pw_lim _ Hc) (pw_db _ Hc) Hsz) as Hroom.
  destruct (pctldb_send_pce_spec (pctldb c) e (pw_db _ Hc) Hm Hsz Hroom)
    as (st & k & d & Es & _ & _ & _ & Hk & Hst).
  destruct Hroom as (_ & Ht0 & _).
  assert (pctldb_hard_limit (pctldb c) (mf_size (pce_mf e)) = 0) as Hh.
  { apply hard_limit_iff; [apply Hc|done|lia|]. lia. }
  pose proof (pctldb_send_reliable _ _ _ _ _ (pw_db _ Hc) Hm Hsz
                (limits_room _ e (pw_lim _ Hc) (pw_db _ Hc) Hsz) Es) as Hnf.
  destruct Hst as [(_ & Hx & _)|[[? _]|(Hst & _ & Hq & _ & Hmm & Ht)]]; [congruence|done|].
  rewrite Es in E'. cbn [obind] in E'.
  assert (st0 = 0) as -> by (destruct Hst as [->| ->]; injection E' as <- _; done).
  exists k, c'. split; [done|]. split; [|injection E' as _ <-; cbn [pctldb set_status_current
    put_channel set_activepce set_pctldb]; split].
  - split; [done|]. split; [done|]. intros j Hj. by rewrite Ea, list_lookup_insert_ne.
  - by apply absq_send.
  - by eapply exact_send.
Qed.

(** END of a product of which all the frames have been received *)
Lemma end_complete f s e w q n k data :
  fstate_wf s -> 0 <= np_channel_index f < num_activechannels (f_pctl s) ->
  activepce (f_pctl s) !! Z.to_nat (np_channel_index f) = Some e ->
  assembling (np_channel_index f) q n k w data e -> n <= k ->
  product_seq_number (pdh f) = q -> pctldb_exact (pctldb (f_pctl s)) ->
  queue_room (pctldb (f_pctl s)) (zlen data) ->
  exists s' e' e2, e_end_activepce f s = Done (0, s') /\ fstep (np_channel_index f) s s' /\
    absq (pctldb (f_pctl s')) = absq (pctldb (f_pctl s)) ++ [(info e', data)] /\
    f_complete e' = 1 /\ seq_number e' = q /\ named w e' /\
    pctldb_exact (pctldb (f_pctl s')) /\
    activepce (f_pctl s') !! Z.to_nat (np_channel_index f) = Some e2 /\ open_pce e2 = 0.
Proof.
  intros Hs Hi He (Aq & An & Ak & Ac & Az & Ad & Anm) Hnk Hq Hex Hroom.
  unfold e_end_activepce. cbv zeta.
  destruct (complete_spec _ _ (product_seq_number (pdh f)) e (fw_pctl _ Hs) Hi He)
    as (st & c1 & -> & Hp1 & Edb & Hc).
  destruct Hc as [(_ & _ & ?)|[(_ & _ & _ & ?)|(-> & _ & _ & He1)]]; [congruence|lia|].
  set (i := np_channel_index f) in *. cbn [obind Z.eqb negb].
  rewrite c_assert_true by done.
  change (f_pctl (with_stats update_stats_products_completed (with_pctl c1 s))) with c1.
  destruct Hp1 as (Hw1 & Hn1 & Ho1).
  assert (mf_size (pce_mf (set_f_complete 1 e)) = zlen data) as Hms.
  { destruct (channel_pce _ _ Hw1 ltac:(rewrite Hn1; done)) as (e' & He' & Hok).
    assert (e' = set_f_complete 1 e) as -> by congruence.
    rewrite <- (wf_p _ (po_mf _ _ Hok)). cbn. by rewrite Ad. }
  destruct (esend_room i c1 (set_f_complete 1 e)) as (kk & c2 & -> & Hp2 & Habs & Hex2);
    [done|lia|done|by rewrite Edb|rewrite Edb, Hms; done|].
  cbn [obind]. pose proof Hp2 as (Hw2 & Hn2 & _).
  change (f_pctl (with_pctl c2 (with_stats update_stats_products_completed (with_pctl c1 s)))) with c2.
  destruct (close_pstep i c2) as (e2 & c3 & _ & Hok2 & -> & Hp3 & He3 & Edb3); [done|lia|].
  cbn [obind]. eexists _, (set_tsqueue kk (set_f_complete 1 e)), (close_pce e2).
  split; [done|]. split.
  { split; [|done]. eapply pstep_trans; [|exact Hp3]. by eapply pstep_trans; [|exact Hp2]. }
  cbn [f_pctl with_pctl]. rewrite Edb3, Habs, Edb. split_and!; try done.
  cbn. by rewrite Ad.
Qed.

(** the frames received one after the other *)
Fixpoint run_frames (fs : list sbn_frame) s : outcome (list Z * fstate) :=
  match fs with
  | [] => Done ([], s)
  | f :: fs =>
      let* (st, _, s) := sbnframeproc g f s in
      let* (l, s) := run_frames fs s in
      Done (st :: l, s)
  end.

(** [f] unpacks to the frame [k] of the product [q] on channel [i]; [first]
    and [last] tell which of the START and END flags it has *)
Record product_frame (i q k : Z) (first last : bool) (f u : sbn_frame) : Prop := ProductFrame {
  pf_wf : frame_wf f;
  pf_unpack : sbn_unpack_frame f = Done (0, u);
  pf_data : sbn_command (fh u) = SBN_COMMAND_DATA_TRANSFER;
  pf_sane : sane u;
  pf_chan : np_channel_index f = i;
  pf_seq : product_seq_number (pdh u) = q;
  pf_block : block_number (pdh u) = k;
  pf_noabort : has_flag (transfer_type (pdh u)) 40 = false;
  pf_start : has_flag (transfer_type (pdh u)) PDH_TRANSFERTYPE_START = first;
  pf_progress : has_flag (transfer_type (pdh u)) PDH_TRANSFERTYPE_PROGRESS = true;
  pf_end : has_flag (transfer_type (pdh u)) PDH_TRANSFERTYPE_END = last
}.

Lemma product_frame_chan i q k a b f u : product_frame i q k a b f u -> np_channel_index u = i.
Proof.
  intros []. destruct (sbn_unpack_frame_spec f) as (st & f1 & E & _ & (_ & _ & Hch) & _); [done|].
  rewrite pf_unpack0 in E. injection E as _ <-. congruence.
Qed.

(** unpacking does not touch the product control *)
Lemma sbnframeproc_data i q k a b f u s :
  fstate_wf s -> product_frame i q k a b f u -> 0 <= i < num_activechannels (f_pctl s) ->
  exists s1, sbnframeproc g f s = data_frame g u s1 /\ fstep i s s1 /\ f_pctl s1 = f_pctl s.
Proof.
  intros Hs Hpf Hi. pose proof (product_frame_chan _ _ _ _ _ _ _ Hpf) as Hch. destruct Hpf.
  unfold sbnframeproc.
  destruct (e_sbn_unpack_spec f s 0 u) as (s2 & -> & Hst2 & Ep); [done|by subst i|done|congruence|].
  cbn [obind Z.eqb negb]. rewrite pf_data0. cbn. exists s2. split_and!; try done. congruence.
Qed.

(** a frame after the first one *)
Lemma next_frame i q n k w data last f u s e :
  fstate_wf s -> product_frame i q k false last f u -> 0 <= i < num_activechannels (f_pctl s) ->
  activepce (f_pctl s) !! Z.to_nat i = Some e -> assembling i q n k w data e ->
  exists s2 e2, fstep i s s2 /\ pctldb (f_pctl s2) = pctldb (f_pctl s) /\
    activepce (f_pctl s2) !! Z.to_nat i = Some e2 /\
    assembling i q n (k + 1) w (data ++ frame_payload u) e2 /\
    sbnframeproc g f s =
      (let* (st, s') := (if last then e_end_activepce u s2 else Done (0, s2)) in
       Done (st, u, s')).
Proof.
  intros Hs Hpf Hi He Ha. pose proof (product_frame_chan _ _ _ _ _ _ _ Hpf) as Hch.
  destruct (sbnframeproc_data _ _ _ _ _ _ _ _ Hs Hpf Hi) as (s1 & -> & Hst1 & Ep1).
  pose proof (fstep_wf _ _ _ Hs Hst1) as Hs1.
  assert (unpacked u) as Hu by (destruct Hpf; by eapply (unpacked_of f)).
  destruct Hpf as [Hf Hup Hd Hsn Hc1 Hsq Hbl Hna Hst Hpr Hen]. rewrite <- Hch in *.
  destruct (update_next u s1 e w q n k data) as (s2 & e2 & E & Hst2 & Edb & He2 & Ha2);
    [done..|by rewrite Ep1|by rewrite Ep1|done|done|done|].
  exists s2, e2. split; [by eapply fstep_trans|]. split; [by rewrite Edb, Ep1|].
  split; [done|]. split; [done|].
  unfold data_frame, start_stage. cbv zeta.
  change (Z.lor PDH_TRANSFERTYPE_ERROR PDH_TRANSFERTYPE_ABORT) with 40.
  rewrite Hna, Hst. cbn [obind Z.eqb andb]. rewrite Hpr, E. cbn [obind Z.eqb andb].
  rewrite Hen. done.
Qed.

(** the product has a good header and passes the filters; its frames are not
    compressed *)
Definition accepted (w : wmo_header) (u : sbn_frame) : Prop :=
  split_wmo_header u = Done (Some w) /\ np_regex_match (fname_text w) <> 1 /\
  (has_flag (transfer_status_flag (psh u)) PSH_STATUSFLAG_RETRANSMIT = false \/
   f_loadave_max_rtx g <> 1) /\
  f_frdata_compressed u = 0.

(** the first frame, on a free channel *)
Lemma first_frame i q w last f u s e :
  fstate_wf s -> product_frame i q 0 true last f u -> 0 <= i < num_activechannels (f_pctl s) ->
  activepce (f_pctl s) !! Z.to_nat i = Some e -> open_pce e = 0 -> accepted w u ->
  exists s2 e2 u2, fstep i s s2 /\ same_queue (pctldb (f_pctl s)) (pctldb (f_pctl s2)) /\
    activepce (f_pctl s2) !! Z.to_nat i = Some e2 /\
    assembling i q (if num_fragments (psh u) =? 0 then 1 else num_fragments (psh u)) 1 w
      (frame_payload u) e2 /\
    (pdh u2 = pdh u /\ np_channel_index u2 = i) /\
    sbnframeproc g f s =
      (let* (st, s') := (if last then e_end_activepce u2 s2 else Done (0, s2)) in
       Done (st, u2, s')).
Proof.
  intros Hs Hpf Hi He Ho (Hw & Hnp & Hrtx & Hz).
  pose proof (product_frame_chan _ _ _ _ _ _ _ Hpf) as Hch.
  destruct (sbnframeproc_data _ _ _ _ _ _ _ _ Hs Hpf Hi) as (s1 & -> & Hst1 & Ep1).
  pose proof (fstep_wf _ _ _ Hs Hst1) as Hs1.
  assert (unpacked u) as Hu by (destruct Hpf; by eapply (unpacked_of f)).
  destruct Hpf as [Hf Hup Hd Hsn Hc1 Hsq Hbl Hna Hst Hpr Hen].
  set (rt := has_flag (transfer_status_flag (psh u)) PSH_STATUSFLAG_RETRANSMIT) in *.
  set (u2 := if rt then u else set_psh (set_orig_seq_number 0 (psh u)) u).
  set (s1' := if rt then with_stats update_stats_products_retransmitted s1 else s1).
  assert (unpacked u2 /\ sane u2) as [Hu2 Hsn2].
  { subst u2. destruct rt; [done|]. by apply set_psh_ok. }
  assert (fstep i s s1' /\ f_pctl s1' = f_pctl s1) as [Hst1' Ep1'].
  { subst s1'. destruct rt; [|done]. split; [by apply fstep_stats|done]. }
  assert (pdh u2 = pdh u /\ np_channel_index u2 = i /\ frame_payload u2 = frame_payload u /\
    split_wmo_header u2 = split_wmo_header u /\ num_fragments (psh u2) = num_fragments (psh u) /\
    f_frdata_compressed u2 = f_frdata_compressed u)
    as (Epd & Ech & Epl & Espl & Enf & Ez) by (subst u2; by destruct rt).
  pose proof (fstep_wf _ _ _ Hs Hst1') as Hs1'.
  destruct (start_free u2 s1' e w) as (s2 & e2 & E2 & Hst2 & Hq2 & He2 & Ha2);
    rewrite ?Epd, ?Ech, ?Espl, ?Ep1', ?Ep1, ?Ez; try done.
  { destruct Hrtx as [Hr|]; [left|by right]. subst u2. by rewrite Hr. }
  rewrite Epd, Ech, Hsq, Enf in *.
  destruct (update_next u2 s2 e2 w q (if num_fragments (psh u) =? 0 then 1 else num_fragments (psh u)) 0 [])
    as (s3 & e3 & E3 & Hst3 & Edb3 & He3 & Ha3); rewrite ?Ech, ?Epd; try done.
  { by eapply fstep_wf. } { rewrite (fstep_num _ _ _ Hst2), Ep1', Ep1. done. }
  rewrite Ech in *. cbn [app] in Ha3. rewrite Epl in Ha3.
  exists s3, e3, u2. split; [eapply fstep_trans; [exact Hst1'|by eapply fstep_trans]|].
  split; [rewrite Edb3; rewrite Ep1', Ep1 in Hq2; done|]. split_and!; try done.
  unfold data_frame, start_stage. cbv zeta.
  change (Z.lor PDH_TRANSFERTYPE_ERROR PDH_TRANSFERTYPE_ABORT) with 40.
  rewrite Hna, Hst. fold rt.
  assert ((let '(f, s) := if rt then (u, with_stats update_stats_products_retransmitted s1)
             else (set_psh (set_orig_seq_number 0 (psh u)) u, s1) in
           let* (status, s) := e_start_activepce g f s in Done (status, f, s)) =
          (let* (status, s) := e_start_activepce g u2 s1' in Done (status, u2, s))) as ->
    by (subst u2 s1'; by destruct rt).
  rewrite E2. cbn [obind Z.eqb andb]. rewrite Hpr, E3. cbn [obind Z.eqb andb]. rewrite Hen. done.
Qed.

(** [fs] are the frames from [k] on of a product, and unpack to [us] *)
Fixpoint product_frames (i q k : Z) (first : bool) (fs us : list sbn_frame) : Prop :=
  match fs, us with
  | [f], [u] => product_frame i q k first true f u
  | f :: fs', u :: us' =>
      product_frame i q k first false f u /\ product_frames i q (k + 1) false fs' us'
  | _, _ => False
  end.

(** what the end of a product leaves: one element more in the queue, complete
    and named, with the bytes [data], and the channel free *)
Definition delivered (i q : Z) (w : wmo_header) (data : list Z) s s' : Prop :=
  exists e' e2, absq (pctldb (f_pctl s')) = absq (pctldb (f_pctl s)) ++ [(info e', data)] /\
    f_complete e' = 1 /\ seq_number e' = q /\ named w e' /\
    pctldb_exact (pctldb (f_pctl s')) /\
    activepce (f_pctl s') !! Z.to_nat i = Some e2 /\ open_pce e2 = 0.

Lemma run_rest i q n w fs us : forall k s e data,
  fstate_wf s -> product_frames i q k false fs us -> 0 <= i < num_activechannels (f_pctl s) ->
  activepce (f_pctl s) !! Z.to_nat i = Some e -> assembling i q n k w data e ->
  n <= k + zlen fs -> pctldb_exact (pctldb (f_pctl s)) ->
  queue_room (pctldb (f_pctl s)) (zlen (data ++ concat (frame_payload <$> us))) ->
  exists s', run_frames fs s = Done (replicate (length fs) 0, s') /\ fstep i s s' /\
    delivered i q w (data ++ concat (frame_payload <$> us)) s s'.
Proof.
  revert us. induction fs as [|f fs IH]; intros us k s e data Hs Hp Hi He Ha Hn Hex Hroom.
  { by destruct us. }
  rewrite zlen_cons in Hn.
  assert (exists u us' last, us = u :: us' /\ product_frame i q k false last f u /\
    (last = true /\ fs = [] /\ us' = [] \/
     last = false /\ fs <> [] /\ product_frames i q (k + 1) false fs us')) as (u & us' & last & -> & Hpf & Hc).
  { destruct fs, us as [|u [|u' us']]; cbn [product_frames] in Hp; try done.
    - exists u, [], true. split_and!; try done. by left.
    - by destruct Hp.
    - destruct Hp as [_ Hp]. by destruct fs.
    - destruct Hp as [Hp1 Hp2]. exists u, (u' :: us'), false. split_and!; try done. right. done. }
  destruct (next_frame i q n k w data last f u s e) as (s2 & e2 & Hst2 & Edb & He2 & Ha2 & E); [done..|].
  pose proof (fstep_wf _ _ _ Hs Hst2) as Hs2. pose proof (fstep_num _ _ _ Hst2) as Hn2.
  pose proof (product_frame_chan _ _ _ _ _ _ _ Hpf) as Hch.
  cbn [fmap list_fmap concat] in *. rewrite app_assoc in Hroom |- *.
  cbn [run_frames length replicate]. rewrite E.
  destruct Hc as [(-> & -> & ->)|(-> & Hne & Hp2)].
  - rewrite zlen_nil in Hn. cbn [fmap list_fmap concat] in *. rewrite app_nil_r in *.
    destruct (end_complete u s2 e2 w q n (k + 1) (data ++ frame_payload u))
      as (s3 & e3 & e4 & E3 & Hst3 & Habs & H1 & H2' & H3 & H4 & H5 & H6);
      rewrite ?Hch, ?Edb; try done; [by rewrite Hn2|by destruct Hpf|].
    rewrite E3. cbn [obind run_frames]. exists s3. split; [done|].
    rewrite Hch in *. split; [by eapply fstep_trans|]. exists e3, e4. rewrite Habs, Edb.
    by split_and!.
  - cbn [obind]. destruct (IH us' (k + 1) s2 e2 (data ++ frame_payload u))
      as (s3 & E3 & Hst3 & Hd); rewrite ?Edb; try done; [by rewrite Hn2|lia|].
    rewrite E3. cbn [obind]. exists s3. split; [done|]. split; [by eapply fstep_trans|].
    unfold delivered in *. by rewrite Edb in Hd.
Qed.

Lemma run_product (i q : Z) (w : wmo_header) (f u : sbn_frame)
  (fs us : list sbn_frame) (s : fstate) (e : pctl_element_st)
  (Hs : fstate_wf s) (Hi : 0 <= i < num_activechannels (f_pctl s))
  (Hfs : product_frames i q 0 true (f :: fs) (u :: us)) (Hacc : accepted w u)
  (Hnum : num_fragments (psh u) = zlen (f :: fs) \/ num_fragments (psh u) = 0)
  (Hfree : activepce (f_pctl s) !! Z.to_nat i = Some e) (Hopen : open_pce e = 0)
  (Hex : pctldb_exact (pctldb (f_pctl s)))
  (Hroom : queue_room (pctldb (f_pctl s)) (zlen (concat (frame_payload <$> (u :: us))))) :
  exists s', run_frames (f :: fs) s = Done (replicate (length (f :: fs)) 0, s') /\
    fstep i s s' /\ delivered i q w (concat (frame_payload <$> (u :: us))) s s'.
Proof.
  assert (exists last, product_frame i q 0 true last f u /\
    (last = true /\ fs = [] /\ us = [] \/
     last = false /\ fs <> [] /\ product_frames i q 1 false fs us)) as (last & Hpf & Hc).
  { destruct fs, us; cbn [product_frames] in Hfs.
    - exists true. split; [done|]. by left.
    - by destruct Hfs.
    - destruct Hfs as [_ Hfs]. by destruct fs.
    - destruct Hfs. exists false. split; [done|]. by right. }
  destruct (first_frame i q w last f u s e Hs Hpf Hi Hfree Hopen Hacc)
    as (s2 & e2 & u2 & Hst2 & Hsq & He2 & Ha2 & [Epd Ech] & E).
  pose proof (fstep_wf _ _ _ Hs Hst2) as Hs2. pose proof (fstep_num _ _ _ Hst2) as Hn2.
  pose proof (same_queue_exact _ _ Hsq Hex) as Hex2. pose proof (same_queue_absq _ _ Hsq) as Habs2.
  assert (forall n, queue_room (pctldb (f_pctl s)) n -> queue_room (pctldb (f_pctl s2)) n) as Hr2.
  { destruct Hsq as (_ & _ & E1 & E2 & E3 & E4). unfold queue_room. by rewrite E1, E2, E3, E4. }
  rewrite zlen_cons in Hnum. pose proof (zlen_nonneg fs).
  cbn [fmap list_fmap concat run_frames length replicate] in *. rewrite E.
  destruct Hc as [(-> & -> & ->)|(-> & Hne & Hp2)].
  - cbn [fmap list_fmap concat] in *. rewrite app_nil_r in *.
    destruct (end_complete u2 s2 e2 w q (if num_fragments (psh u) =? 0 then 1 else num_fragments (psh u))
                1 (frame_payload u))
      as (s3 & e3 & e4 & E3 & Hst3 & Habs & D1 & D2 & D3 & D4 & D5 & D6);
      rewrite ?Ech; try done; [by rewrite Hn2| |rewrite Epd; by destruct Hpf|by apply Hr2|].
    { rewrite zlen_nil in Hnum. destruct (Z.eqb_spec (num_fragments (psh u)) 0); lia. }
    rewrite E3. cbn [obind run_frames]. exists s3. split; [done|].
    rewrite Ech in *. split; [by eapply fstep_trans|]. exists e3, e4. rewrite Habs, Habs2.
    by split_and!.
  - cbn [obind].
    destruct (run_rest i q (if num_fragments (psh u) =? 0 then 1 else num_fragments (psh u)) w fs us
                1 s2 e2 (frame_payload u)) as (s3 & E3 & Hst3 & Hd);
      try done; [by rewrite Hn2| |by apply Hr2|].
    { destruct (Z.eqb_spec (num_fragments (psh u)) 0); lia. }
    rewrite E3. cbn [obind]. exists s3. split; [done|]. split; [by eapply fstep_trans|].
    unfold delivered in *. by rewrite Habs2 in Hd.
Qed.

End assembly.

(** The names of a product. From a valid WMO header, [make_product_fname]
    writes into the nineteen bytes of [fname], whatever they hold, the lower
    case station and id joined by '_' and followed by '-' and the AWIPS id, or
    by '+' and the other identifier of the second line, within the buffer and
    without failing its assertion; then [make_product_fbasename] succeeds with
    at most 36 characters, the last ones being the time and the sequence
    number of the product. *)
Theorem product_names (e : pctl_element_st) (w : wmo_header)
  (Hw : wmo_valid w) (Hfn : zlen (fname e) = FNAME_SIZE + 1)
  (Hseq : 0 <= seq_number e < 4294967296) :
  exists a e', make_product_fname (fname e) w = Done a /\ zlen a = FNAME_SIZE + 1 /\
    cstr a = Done (fname_text w) /\
    make_product_fbasename (set_fname a (set_pce_wmo w e)) = Done (0, e') /\
    fbasename e' = fname_text w ++ 46 :: wmo_time w ++ 95 :: dec (seq_number e) /\
    zlen (fbasename e') <= FBASENAME_SIZE.
Proof.
  destruct (make_product_fname_spec (fname e) w Hw Hfn) as (r & E & Hl).
  assert (cstr (fname_text w ++ 0 :: r) = Done (fname_text w)) as Hc.
  { apply cstr_app. by apply fname_text_nonul. }
  destruct (make_product_fbasename_spec (set_fname (fname_text w ++ 0 :: r) (set_pce_wmo w e))
              (fname_text w)) as [Eb Hb]; [done| |apply Hw|done|].
  { rewrite zlen_app, zlen_cons in Hl. pose proof (zlen_nonneg r). lia. }
  eexists _, _. by split_and!.
Qed.
End safe.

(** ** Witnesses *)

Definition demo_regex : Regex := {| np_regex_match _ := 0; savez_regex_match _ := 0 |}.

#[local] Existing Instances demo_heap demo_heap_spec demo_clock demo_clock_spec
  demo_zlib demo_zlib_spec demo_regex list_db_reliable.

(** the bytes of a frame of a product of [nfrag] fragments *)
Definition demo_raw (block tt seq nfrag : Z) (data : list Z) : list Z :=
  let fl := [255; 0; 65; 0; 3; 5; 0; 0; 0; 0; 0; 7; 0; 1] in
  fl ++ split16 (zsum fl) ++
  [65; tt; 0; 52] ++ split16 block ++ split16 0 ++ split16 (zlen data) ++ [1; 1] ++
  split32 seq ++
  (if block =? 0 then replicate 14 0 ++ split16 nfrag ++ replicate 20 0 else []) ++ data.

Definition demo_f0 : sbn_frame := recv_frame (demo_raw 0 3 9 2 demo_text).
Definition demo_f1 : sbn_frame := recv_frame (demo_raw 1 6 9 2 [84; 87; 79]).
Definition unpack_or_same (f : sbn_frame) : sbn_frame :=
  match sbn_unpack_frame f with Done (_, u) => u | _ => f end.

(** "SDUS53", "KDVN", "211802", "N0RDVN" *)
Definition demo_wmo : wmo_header :=
  WmoHeader [83; 68; 85; 83; 53; 51] [75; 68; 86; 78] [50; 49; 49; 56; 48; 50]
    [78; 48; 82; 68; 86; 78] [].

Definition demo_g : globals := Globals [47; 115] 1 2048 1048576 0.

Definition idle_pce : pctl_element_st :=
  Pce 0 0 0 0 0 0 0 0 0 0 (Timespec 0 0) (Timespec 0 0) 0 0 0 demo_mf
    (replicate 58 0) 0 0 (WmoHeader [] [] [] [] []) (replicate 19 0) []
    (const_fpath_maxsize (spooldir demo_g) + 1) [].

Definition demo_state : @fstate list_db :=
  Fstate (Pctl demo_db [idle_pce; idle_pce] 2 demo_mf idle_pce 0 0)
    (NbspStats 0 0 0 0 0 0 0 0 0 0 0 0 0 0 0 0 0) [zero_fh; zero_fh].

Lemma demo_g_ok : globals_ok demo_g.
Proof. by split. Qed.

Lemma idle_pce_ok : pce_ok demo_g idle_pce.
Proof. split; cbn; try done; try lia. apply demo_mf_wf. Qed.

Lemma demo_state_wf : fstate_wf demo_g demo_state.
Proof.
  split; [|done]. split; [done| |apply demo_db_inv|apply demo_db_limits].
  constructor; [apply idle_pce_ok|]. constructor; [apply idle_pce_ok|constructor].
Qed.

Lemma spare_ok a n : bool_decide (spare a n) = true -> spare a n.
Proof. apply bool_decide_eq_true. Qed.

Lemma demo_frame0 : product_frame 0 9 0 true false demo_f0 (unpack_or_same demo_f0).
Proof.
  split; try by vm_compute.
  - apply recv_frame_wf. apply (bool_decide_unpack _). by vm_compute.
  - split; try by vm_compute. intros _. apply spare_ok. by vm_compute.
Qed.

Lemma demo_frame1 : product_frame 0 9 1 false true demo_f1 (unpack_or_same demo_f1).
Proof.
  split; try by vm_compute.
  - apply recv_frame_wf. apply (bool_decide_unpack _). by vm_compute.
Qed.

Lemma demo_heap_mem n : n < 2 ^ 40 -> malloc_ok (Heap := demo_heap) n = true.
Proof. apply Z.ltb_lt. Qed.



Lemma product_names_witness :
  exists a e', make_product_fname (fname idle_pce) demo_wmo = Done a /\
    make_product_fbasename (set_fname a (set_pce_wmo demo_wmo idle_pce)) = Done (0, e').
Proof.
  destruct (product_names idle_pce demo_wmo) as (a & e' & E1 & _ & _ & E2 & _).
  - unfold wmo_valid. split_and!; cbn; try done; try (by repeat constructor); by right.
  - done.
  - done.
  - exists a, e'. split; [exact E1|exact E2].
Defined.
