(* ===== verification/SbnPack.v ===== *)
(** * SbnPack: src/tools/nbspmcast/sbnpack, the packer of SBN frames

    The sender side of the protocol: a file is split into blocks of 4000
    bytes, each put behind its frame level and product definition headers (and
    a product specific header in the first one), for multicasting. The file is
    prefixed with a CCB. util.c is a copy of src/src/util.c ([Util]).

    The contents of the file are an argument ([None]: [stat] fails); reading a
    regular file returns what [stat] announced. *)

From S2P Require Import Prelude Util CLib Mfile Sbn.

Definition DATA_BLOCK_SIZE : Z := 4000.
Definition HEADER_SIZE : Z := 32.
Definition HEADER_SIZE_0 : Z := 68.
Definition FRAME_SIZE_MAX : Z := 4068.
Definition SBN_VERSION : Z := 20.
Definition PDH_VERSION : Z := 20.
Definition SBN_DATSTREAM_NWSTG : Z := 5.
Definition PSH_TYPE_NWSTG : Z := 4.
Definition PSH_TYPE_NEXRAD : Z := 5.
Definition PSH_STATUSFLAG_START : Z := 1.
Definition PSH_STATUSFLAG_PROGRESS : Z := 2.
Definition PSH_STATUSFLAG_END : Z := 4.
Definition CCB0 : Z := 64.
Definition CCB1 : Z := 12.
Definition INT_MAX : Z := 2147483647.

(** ** State *)

(** the pointers [flh], [pdh], [psh] and [datablock] as offsets in [frame] *)
Record sbnpack_frame_st := SbnpackFrame {
  sp_frame : list Z;
  sp_flh : Z;
  sp_pdh : Z;
  sp_psh : Z;
  sp_datablock : Z;
  sp_datablock_size : Z;
  sp_header_size : Z;
  sp_frame_index : Z;
  sp_frame_nframes : Z
}.

Definition set_frame v (f : sbnpack_frame_st) :=
  SbnpackFrame v (sp_flh f) (sp_pdh f) (sp_psh f) (sp_datablock f)
    (sp_datablock_size f) (sp_header_size f) (sp_frame_index f) (sp_frame_nframes f).

(** [data] is the allocated buffer; [readp] always points to its start *)
Record sbnpack_file_st := SbnpackFile {
  sp_data : list Z;
  sp_allocated_size : Z;
  sp_data_size : Z
}.

Record sbnpack_st := Sbnpack {
  sp_file : sbnpack_file_st;
  sp_frames : list sbnpack_frame_st;
  sp_allocated_frames : Z;
  sp_nframes : Z;
  sp_prod_seq_number : Z;
  sp_sbn_seq_number : Z;
  sp_psh_type_flag : Z
}.

(** ** Headers (sbn.c) *)

Definition fill_flh (f : sbnpack_frame_st) (sbn_seq_number : Z) : outcome sbnpack_frame_st :=
  let p := sp_flh f in
  let* a := wrs (sp_frame f) p
    [(0, [255]); (1, [0]); (2, [SBN_VERSION]); (3, [0]);
     (4, [SBN_COMMAND_DATA_TRANSFER]); (5, [SBN_DATSTREAM_NWSTG]); (6, [1]); (7, [0]);
     (8, split32 (u32 sbn_seq_number)); (12, split16 (u16 1))] in
  let* l := rdn a p (FRAME_LEVEL_HEADER_SIZE - 2) in
  let cksum := fold_left (fun c b => u16 (c + b)) l 0 in
  let* a := wrs a p [(14, split16 (u16 cksum))] in
  Done (set_frame a f).

(** the [+=] of the START, PROGRESS and END flags *)
Definition transfer_flags (frame_index nframes start progress end' : Z) : Z :=
  (if frame_index =? 0 then start else 0) + progress +
  (if frame_index =? nframes - 1 then end' else 0).

Definition fill_pdh (f : sbnpack_frame_st) (prod_seq_number : Z) : outcome sbnpack_frame_st :=
  let frame_index := u16 (sp_frame_index f) in
  let tt := transfer_flags frame_index (sp_frame_nframes f) PDH_TRANSFERTYPE_START
              PDH_TRANSFERTYPE_PROGRESS PDH_TRANSFERTYPE_END in
  let* a := wrs (sp_frame f) (sp_pdh f)
    [(0, [PDH_VERSION]); (1, [u8 tt]); (2, split16 (u16 (sp_header_size f)));
     (4, split16 (u16 frame_index)); (6, split16 (u16 0));
     (8, split16 (u16 (sp_datablock_size f))); (10, [1]); (11, [1]);
     (12, split32 (u32 prod_seq_number))] in
  Done (set_frame a f).

Definition fill_psh (f : sbnpack_frame_st) (psh_type_flag : Z) : outcome sbnpack_frame_st :=
  let frame_index := u16 (sp_frame_index f) in
  c_assert (frame_index =? 0)
    (let flag := transfer_flags frame_index (sp_frame_nframes f) PSH_STATUSFLAG_START
                   PSH_STATUSFLAG_PROGRESS PSH_STATUSFLAG_END in
     let type := if negb (psh_type_flag =? 0) then PSH_TYPE_NEXRAD else PSH_TYPE_NWSTG in
     let* a := wrs (sp_frame f) (sp_psh f)
       [(0, [0]); (1, [0]); (2, split16 (u16 0)); (4, [1]); (5, [u8 flag]);
        (6, split16 (u16 PRODUCT_SPEC_HEADER_SIZE)); (8, split16 (u16 0));
        (10, [type]); (11, [0]); (12, split16 (u16 0));
        (14, split16 (u16 (sp_frame_nframes f))); (16, split16 (u16 0));
        (18, [0]); (19, [0]); (20, split32 (u32 0)); (24, split32 (u32 0));
        (28, split32 (u32 0)); (32, split16 (u16 0)); (34, split16 (u16 0))] in
     Done (set_frame a f)).

(** ** Files (file.c, sbnpack.c) *)

Definition get_file_size (content : option (list Z)) : Z * Z :=
  match content with
  | None => (-1, 0)
  | Some c => if INT_MAX <? zlen c then (1, 0) else (0, s32 (zlen c + CCB_SIZE))
  end.

(** the number of frames, and the size of the last block *)
Definition get_file_frame_params (blocksize fsize : Z) : Z * Z :=
  let nframes := Z.quot fsize blocksize in
  (nframes + 1, fsize - nframes * blocksize).

(** [load_file] into the buffer [datap] *)
Definition load_file (c : list Z) (fsize : Z) (datap : list Z) : outcome (Z * list Z) :=
  let* a := wr datap 0 (replicate (Z.to_nat CCB_SIZE) 0) in
  let* a := wr a 0 [CCB0] in
  let* a := wr a 1 [CCB1] in
  let d := ztake (fsize - CCB_SIZE) c in
  let* a := wr a CCB_SIZE d in
  Done (if zlen d + CCB_SIZE =? fsize then 0 else 1, a).

Section sbnpack.
Context `{Hp : Heap}.

(** [junk]: the contents of fresh memory *)
Definition init_sbnpack_file (junk : list Z) (content : option (list Z)) (f : sbnpack_file_st)
  : outcome (Z * sbnpack_file_st) :=
  let (status, fsize) := get_file_size content in
  match content with
  | None => Done (status, f)
  | Some c =>
      if negb (status =? 0) then Done (status, f) else
      if fsize <=? sp_allocated_size f then
        let* (status, a) := load_file c fsize (sp_data f) in
        Done (status, SbnpackFile a (sp_allocated_size f)
                        (if status =? 0 then fsize else sp_data_size f))
      else if negb (malloc_ok fsize) then Done (-1, f)
      else
        let* (status, a) := load_file c fsize (ztake fsize junk) in
        if negb (status =? 0) then Done (status, f)
        else Done (0, SbnpackFile a fsize fsize)
  end.

(** the members of frame [i] set by [init_sbnpack_frame_array] *)
Definition layout_frame (nframes last_datablock_size i : Z) (f : sbnpack_frame_st)
  : sbnpack_frame_st :=
  let size := if i =? nframes - 1 then last_datablock_size else DATA_BLOCK_SIZE in
  if i =? 0 then
    SbnpackFrame (sp_frame f) 0 FRAME_LEVEL_HEADER_SIZE
      (FRAME_LEVEL_HEADER_SIZE + PRODUCT_DEF_HEADER_SIZE) HEADER_SIZE_0 size
      HEADER_SIZE_0 i nframes
  else
    SbnpackFrame (sp_frame f) 0 FRAME_LEVEL_HEADER_SIZE (sp_psh f) HEADER_SIZE size
      HEADER_SIZE i nframes.

(** the loops over the first [nframes] elements of the array *)
Fixpoint layout_frames (nframes last i : Z) (n : nat) (l : list sbnpack_frame_st)
  : list sbnpack_frame_st :=
  match n, l with
  | S n', f :: l' => layout_frame nframes last i f :: layout_frames nframes last (i + 1) n' l'
  | _, _ => l
  end.

(** [sizeof(struct sbnpack_frame_st)] is 4120 *)
Definition init_sbnpack_frame_array (junk : sbnpack_frame_st) (sp : sbnpack_st)
    (nframes last_datablock_size : Z) : Z * sbnpack_st :=
  let with_frames l alloc :=
    Sbnpack (sp_file sp) (layout_frames nframes last_datablock_size 0 (Z.to_nat nframes) l)
      alloc nframes (sp_prod_seq_number sp) (sp_sbn_seq_number sp) (sp_psh_type_flag sp) in
  if sp_allocated_frames sp <? nframes then
    if malloc_ok (u64 (nframes * 4120))
    then (0, with_frames (replicate (Z.to_nat nframes) junk) nframes)
    else (-1, sp)
  else (0, with_frames (sp_frames sp) (sp_allocated_frames sp)).

(** ** Filling (fill.c) *)

(** the loop of [fill_blockdata]; [readp] is an offset in the file data *)
Fixpoint fill_blockdata_loop (data : list Z) (readp : Z) (n : nat) (l : list sbnpack_frame_st)
  : outcome (list sbnpack_frame_st) :=
  match n, l with
  | O, _ => Done l
  | S n', f :: l' =>
      let* d := rdn data readp (sp_datablock_size f) in
      let* a := wr (sp_frame f) (sp_datablock f) d in
      let* r := fill_blockdata_loop data (readp + sp_datablock_size f) n' l' in
      Done (set_frame a f :: r)
  | S _, [] => Undef
  end.

Definition set_frames v (sp : sbnpack_st) : sbnpack_st :=
  Sbnpack (sp_file sp) v (sp_allocated_frames sp) (sp_nframes sp)
    (sp_prod_seq_number sp) (sp_sbn_seq_number sp) (sp_psh_type_flag sp).

Definition fill_blockdata (sp : sbnpack_st) : outcome sbnpack_st :=
  let* l := fill_blockdata_loop (sp_data (sp_file sp)) 0 (Z.to_nat (sp_nframes sp)) (sp_frames sp) in
  Done (set_frames l sp).

(** the frames after the first one *)
Fixpoint fill_headers_loop (prod_seq sbn_seq : Z) (n : nat) (l : list sbnpack_frame_st)
  : outcome (list sbnpack_frame_st) :=
  match n, l with
  | O, _ => Done l
  | S n', f :: l' =>
      let sbn_seq := u32 (sbn_seq + 1) in
      let* f := fill_flh f sbn_seq in
      let* f := fill_pdh f prod_seq in
      let* r := fill_headers_loop prod_seq sbn_seq n' l' in
      Done (f :: r)
  | S _, [] => Undef
  end.

Definition fill_headers (sp : sbnpack_st) : outcome sbnpack_st :=
  match sp_frames sp with
  | [] => Undef
  | f :: l =>
      let* f := fill_flh f (sp_sbn_seq_number sp) in
      let* f := fill_pdh f (sp_prod_seq_number sp) in
      let* f := fill_psh f (sp_psh_type_flag sp) in
      let* r := fill_headers_loop (sp_prod_seq_number sp) (sp_sbn_seq_number sp)
                  (Z.to_nat (sp_nframes sp - 1)) l in
      Done (set_frames (f :: r) sp)
  end.

Definition create_sbnpack : sbnpack_st := Sbnpack (SbnpackFile [] 0 0) [] 0 0 0 0 0.

Definition free_sbnpack (sp : sbnpack_st) : sbnpack_st :=
  Sbnpack (SbnpackFile [] 0 (sp_data_size (sp_file sp))) [] 0 (sp_nframes sp)
    (sp_prod_seq_number sp) (sp_sbn_seq_number sp) (sp_psh_type_flag sp).

Definition init_sbnpack (junk : list Z) (junkf : sbnpack_frame_st) (sp : sbnpack_st)
    (content : option (list Z)) (prod_seq_number sbn_seq_number psh_type_flag : Z)
  : outcome (Z * sbnpack_st) :=
  let* (status, file) := init_sbnpack_file junk content (sp_file sp) in
  let sp := Sbnpack file (sp_frames sp) (sp_allocated_frames sp) (sp_nframes sp)
              prod_seq_number sbn_seq_number psh_type_flag in
  let (status, sp) :=
    if status =? 0 then
      let (nframes, last) := get_file_frame_params DATA_BLOCK_SIZE (sp_data_size file) in
      init_sbnpack_frame_array junkf sp nframes last
    else (status, sp) in
  if status =? 0 then
    let* sp := fill_blockdata sp in
    let* sp := fill_headers sp in
    Done (0, sp)
  else Done (status, free_sbnpack sp).

(** ** Writing *)

(** the bytes that [write_sbnpack_frame] writes *)
Definition frame_bytes (f : sbnpack_frame_st) : list Z :=
  ztake (sp_datablock_size f + sp_header_size f) (sp_frame f).

(** [sys_write n]: what [write] of [n] bytes returns *)
Definition write_sbnpack_frame (sys_write : Z -> Z) (sp : sbnpack_st) (findex : Z)
  : outcome (Z * list Z) :=
  c_assert (findex <? sp_nframes sp)
    (let* f := rd (sp_frames sp) findex in
     let framesize := sp_datablock_size f + sp_header_size f in
     let n := sys_write framesize in
     Done (if n =? -1 then -1 else if negb (n =? framesize) then 1 else 0,
           ztake n (frame_bytes f))).

(** the frames written, from frame [i] on *)
Fixpoint write_sbnpack_loop (sys_write : Z -> Z) (sp : sbnpack_st) (i : Z) (n : nat)
  : outcome (Z * list (list Z)) :=
  match n with
  | O => Done (0, [])
  | S n' =>
      let* (status, b) := write_sbnpack_frame sys_write sp i in
      if negb (status =? 0) then Done (status, [b])
      else
        let* (status, bs) := write_sbnpack_loop sys_write sp (i + 1) n' in
        Done (status, b :: bs)
  end.

Definition write_sbnpack (sys_write : Z -> Z) (sp : sbnpack_st) : outcome (Z * list (list Z)) :=
  write_sbnpack_loop sys_write sp 0 (Z.to_nat (sp_nframes sp)).

End sbnpack.

(** ** The bytes of the headers *)

Definition flh_fields (seq : Z) : list Z :=
  [255; 0; 20; 0; 3; 5; 1; 0] ++ split32 (u32 seq) ++ split16 1.
Definition flh_bytes (seq : Z) : list Z := flh_fields seq ++ split16 (zsum (flh_fields seq)).

Definition pdh_bytes (header_size k size tt seq : Z) : list Z :=
  [20; tt] ++ split16 header_size ++ split16 k ++ [0; 0] ++ split16 size ++ [1; 1] ++
  split32 (u32 seq).

Definition psh_bytes (flag type n : Z) : list Z :=
  [0; 0; 0; 0; 1; flag; 0; 36; 0; 0; type; 0; 0; 0] ++ split16 n ++ replicate 20 0.

Lemma flh_bytes_length seq : zlen (flh_bytes seq) = 16.
Proof. done. Qed.
Lemma pdh_bytes_length h k s t q : zlen (pdh_bytes h k s t q) = 16.
Proof. done. Qed.
Lemma psh_bytes_length a b n : zlen (psh_bytes a b n) = 36.
Proof. done. Qed.

Lemma fold_u16_sum l c : 0 <= c -> Forall (fun b => 0 <= b) l -> c + zsum l < 65536 ->
  fold_left (fun c b => u16 (c + b)) l c = c + zsum l.
Proof.
  intros Hc Hl. revert c Hc. induction Hl as [|b l Hb Hl IH]; intros c Hc Hs; simpl in *; [lia|].
  assert (0 <= zsum l) by (clear -Hl; induction Hl; simpl; lia).
  rewrite u16_small by lia. rewrite IH; lia.
Qed.

Lemma flh_fields_bytes seq : bytes (flh_fields seq).
Proof.
  apply bytes_app. split; [repeat constructor; unfold is_byte; lia|].
  apply bytes_app. split; [apply split32_bytes|apply split16_bytes].
Qed.

Lemma zsum_bytes l : bytes l -> 0 <= zsum l <= 255 * zlen l.
Proof.
  induction 1 as [|b l Hb _ IH]; [done|]. rewrite zlen_cons. simpl. unfold is_byte in Hb. lia.
Qed.

Lemma fill_flh_spec f seq :
  sp_flh f = 0 -> 16 <= zlen (sp_frame f) ->
  fill_flh f seq = Done (set_frame (flh_bytes seq ++ zdrop 16 (sp_frame f)) f).
Proof.
  intros Hp Hl. unfold fill_flh. rewrite Hp. cbv zeta.
  match goal with |- context [wrs _ 0 ?l] =>
    assert (concat (snd <$> l) = flh_fields seq) as Ew by done end.
  change (sp_frame f) with ([] ++ sp_frame f).
  rewrite (wrs_contig _ [] (sp_frame f) 0 0), Ew;
    [|done|done|rewrite Ew; change (14 <= zlen (sp_frame f)); lia].
  clear Ew. cbn [obind app].
  change (zlen (flh_fields seq)) with 14.
  change (FRAME_LEVEL_HEADER_SIZE - 2) with 14.
  rewrite rdn_ok; [|lia|lia|rewrite zlen_app, zlen_drop by lia; change (zlen (flh_fields seq)) with 14; lia].
  cbn [obind]. unfold zsub. rewrite zdrop_0, ztake_app_exact by done.
  pose proof (zsum_bytes _ (flh_fields_bytes seq)) as Hz. change (zlen (flh_fields seq)) with 14 in Hz.
  rewrite fold_u16_sum;
    [|lia|eapply Forall_impl; [|apply flh_fields_bytes]; unfold is_byte; simpl; lia|lia].
  rewrite u16_small by lia.
  rewrite (wrs_contig _ (flh_fields seq) _ 0 14);
    [|done|done|rewrite zlen_drop by lia; change (2 <= zlen (sp_frame f) - 14); lia].
  cbn [obind fmap list_fmap snd concat]. rewrite app_nil_r.
  change (zlen (split16 (0 + zsum (flh_fields seq)))) with 2.
  rewrite zdrop_drop by lia. unfold flh_bytes. by rewrite <- app_assoc.
Qed.

Lemma fill_pdh_spec f p r seq :
  sp_frame f = p ++ r -> sp_pdh f = zlen p -> 16 <= zlen r ->
  0 <= sp_frame_index f < 65536 -> 0 <= sp_header_size f < 65536 ->
  0 <= sp_datablock_size f < 65536 ->
  fill_pdh f seq = Done (set_frame (p ++ pdh_bytes (sp_header_size f) (sp_frame_index f)
     (sp_datablock_size f) (transfer_flags (sp_frame_index f) (sp_frame_nframes f) 1 2 4) seq ++
     zdrop 16 r) f).
Proof.
  intros Hf Hp Hr Hi Hh Hd. unfold fill_pdh. rewrite Hf, Hp, !(u16_small (sp_frame_index f)) by done.
  rewrite (u16_small (sp_header_size f)), (u16_small (sp_datablock_size f)) by done.
  assert (u8 (transfer_flags (sp_frame_index f) (sp_frame_nframes f) PDH_TRANSFERTYPE_START
            PDH_TRANSFERTYPE_PROGRESS PDH_TRANSFERTYPE_END) =
          transfer_flags (sp_frame_index f) (sp_frame_nframes f) 1 2 4) as ->.
  { apply u8_small. unfold transfer_flags, PDH_TRANSFERTYPE_START, PDH_TRANSFERTYPE_PROGRESS,
      PDH_TRANSFERTYPE_END. destruct (_ =? 0), (_ =? _ - 1); lia. }
  rewrite (wrs_contig _ p r (zlen p) 0); [|done|lia|exact Hr].
  cbn [obind fmap list_fmap snd concat]. unfold pdh_bytes. by rewrite app_nil_r.
Qed.

Lemma fill_psh_spec f p r flag :
  sp_frame f = p ++ r -> sp_psh f = zlen p -> 36 <= zlen r -> sp_frame_index f = 0 ->
  0 <= sp_frame_nframes f < 65536 ->
  fill_psh f flag = Done (set_frame (p ++ psh_bytes (transfer_flags 0 (sp_frame_nframes f) 1 2 4)
     (if negb (flag =? 0) then 5 else 4) (sp_frame_nframes f) ++ zdrop 36 r) f).
Proof.
  intros Hf Hp Hr Hi Hn. unfold fill_psh. rewrite Hf, Hp, Hi. change (u16 0) with 0.
  rewrite c_assert_true by done. rewrite (u16_small (sp_frame_nframes f)) by done.
  assert (u8 (transfer_flags 0 (sp_frame_nframes f) PSH_STATUSFLAG_START
            PSH_STATUSFLAG_PROGRESS PSH_STATUSFLAG_END) =
          transfer_flags 0 (sp_frame_nframes f) 1 2 4) as ->.
  { apply u8_small. unfold transfer_flags, PSH_STATUSFLAG_START, PSH_STATUSFLAG_PROGRESS,
      PSH_STATUSFLAG_END. destruct (_ =? 0), (_ =? _ - 1); lia. }
  rewrite (wrs_contig _ p r (zlen p) 0); [|done|lia|exact Hr].
  cbn [obind fmap list_fmap snd concat]. done.
Qed.

(** ** The frames of a file *)

Definition hdr_size (k : Z) : Z := if k =? 0 then 68 else 32.
(** the size of block [k] of [n] *)
Definition blk_size (n last k : Z) : Z := if k =? n - 1 then last else 4000.

(** [P k f], [P (k + 1) f'], ... for the elements [f], [f'], ... of the list *)
Fixpoint all_from {A} (P : Z -> A -> Prop) (k : Z) (l : list A) : Prop :=
  match l with
  | [] => True
  | f :: l => P k f /\ all_from P (k + 1) l
  end.

Section frames.
Context (data : list Z) (n last prod sbn flag : Z).
Hypothesis Hn : 1 <= n < 65536.
Hypothesis Hlast : 0 <= last < 4000.
Hypothesis Hdata : zlen data = (n - 1) * 4000 + last.

(** the members of frame [k] *)
Record laid (k : Z) (f : sbnpack_frame_st) : Prop := Laid {
  laid_frame : zlen (sp_frame f) = FRAME_SIZE_MAX;
  laid_flh : sp_flh f = 0;
  laid_pdh : sp_pdh f = 16;
  laid_psh : k = 0 -> sp_psh f = 32;
  laid_block : sp_datablock f = hdr_size k;
  laid_header : sp_header_size f = hdr_size k;
  laid_size : sp_datablock_size f = blk_size n last k;
  laid_index : sp_frame_index f = k;
  laid_nframes : sp_frame_nframes f = n
}.

Definition block (k : Z) : list Z := zsub (4000 * k) (blk_size n last k) data.

(** the frame [k] of the product, as it is to be transmitted *)
Definition packet (k : Z) : list Z :=
  flh_bytes (sbn + k) ++
  pdh_bytes (hdr_size k) k (blk_size n last k) (transfer_flags k n 1 2 4) prod ++
  (if k =? 0 then psh_bytes (transfer_flags 0 n 1 2 4) (if negb (flag =? 0) then 5 else 4) n
   else []) ++
  block k.

Lemma hdr_size_range k : hdr_size k = 68 \/ hdr_size k = 32.
Proof. unfold hdr_size. destruct (k =? 0); auto. Qed.
Lemma blk_size_range k : 0 <= blk_size n last k <= 4000.
Proof. unfold blk_size. destruct (k =? n - 1); lia. Qed.

Lemma block_in k : 0 <= k < n -> 4000 * k + blk_size n last k <= zlen data.
Proof. intros. rewrite Hdata. unfold blk_size. destruct (Z.eqb_spec k (n - 1)); lia. Qed.

Lemma block_length k : 0 <= k < n -> zlen (block k) = blk_size n last k.
Proof.
  intros. pose proof (block_in k). pose proof (blk_size_range k).
  unfold block. apply zlen_sub; lia.
Qed.

Lemma layout_frames_spec l1 l2 k :
  0 <= k -> Forall (fun f => zlen (sp_frame f) = FRAME_SIZE_MAX) l1 ->
  exists r1, layout_frames n last k (length l1) (l1 ++ l2) = r1 ++ l2 /\
    length r1 = length l1 /\ all_from laid k r1.
Proof.
  intros Hk Hl. revert k Hk. induction Hl as [|f l1 Hf Hl IH]; intros k Hk.
  { exists []. by destruct l2. }
  destruct (IH (k + 1)) as (r1 & E & Hlen & Ha); [lia|].
  exists (layout_frame n last k f :: r1). cbn [length app layout_frames]. rewrite E.
  split; [done|]. split; [by rewrite Hlen|]. split; [|done].
  unfold layout_frame. fold (blk_size n last k). unfold DATA_BLOCK_SIZE.
  change (if k =? n - 1 then last else 4000) with (blk_size n last k).
  destruct (Z.eqb_spec k 0) as [->|Hk0]; split; try done; unfold hdr_size;
    destruct (Z.eqb_spec k 0); done.
Qed.

(** frame [k] with its block of data *)
Definition blocked (k : Z) (f : sbnpack_frame_st) : Prop :=
  laid k f /\ zsub (hdr_size k) (blk_size n last k) (sp_frame f) = block k.

Lemma fill_blockdata_loop_spec rest l1 l2 k :
  0 <= k -> k + zlen l1 = n -> all_from laid k l1 ->
  exists r1, fill_blockdata_loop (data ++ rest) (4000 * k) (length l1) (l1 ++ l2) = Done (r1 ++ l2) /\
    length r1 = length l1 /\ all_from blocked k r1.
Proof.
  revert k. induction l1 as [|f l1 IH]; intros k Hk Hl Ha.
  { exists []. by destruct l2. }
  destruct Ha as [Hf Ha]. rewrite zlen_cons in Hl. pose proof (zlen_nonneg l1).
  pose proof (block_in k ltac:(lia)) as Hin. pose proof (blk_size_range k).
  pose proof (block_length k ltac:(lia)) as Hbl. pose proof (hdr_size_range k).
  pose proof Hf as [F1 F2 F3 F4 F5 F6 F7 F8 F9]. unfold FRAME_SIZE_MAX in F1.
  pose proof (zlen_nonneg rest).
  cbn [length app fill_blockdata_loop]. rewrite F7, F5, rdn_ok by (rewrite ?zlen_app; lia).
  rewrite zsub_app_l by lia. fold (block k).
  cbn [obind]. rewrite wr_ok by lia. cbn [obind].
  set (a := ztake (hdr_size k) (sp_frame f) ++ block k ++ _).
  assert (zlen a = 4068) as Hal.
  { eapply eq_trans; [|exact F1]. eapply (wr_length _ _ (hdr_size k) (block k)). by rewrite wr_ok by lia. }
  assert (blocked k (set_frame a f)) as Hb.
  { split; [by split|]. cbn [sp_frame set_frame]. subst a.
    apply zsub_app_exact; [rewrite zlen_take; lia|by rewrite Hbl]. }
  destruct l1 as [|f2 l1].
  { exists [set_frame a f]. cbn [length app fill_blockdata_loop obind]. split_and!; [by destruct l2|done|done]. }
  rewrite zlen_cons in Hl. pose proof (zlen_nonneg l1).
  assert (blk_size n last k = 4000) as Hk4.
  { unfold blk_size. destruct (Z.eqb_spec k (n - 1)); [lia|done]. }
  destruct (IH (k + 1)) as (r1 & E & Hlen & Har); [lia|rewrite zlen_cons; lia|done|].
  replace (4000 * k + blk_size n last k) with (4000 * (k + 1)) by lia. rewrite E. cbn [obind].
  exists (set_frame a f :: r1). cbn [length app]. split; [done|]. split; [by rewrite Hlen|]. by split.
Qed.

(** frame [k] is ready *)
Definition packed (k : Z) (f : sbnpack_frame_st) : Prop := frame_bytes f = packet k.

(** [fill_flh] then [fill_pdh] on frame [k] *)
Lemma fill_two f k q :
  0 <= k < n -> laid k f -> u32 q = u32 (sbn + k) ->
  exists f2, (let* f1 := fill_flh f q in fill_pdh f1 prod) = Done f2 /\
    f2 = set_frame (sp_frame f2) f /\
    sp_frame f2 = flh_bytes (sbn + k) ++
      pdh_bytes (hdr_size k) k (blk_size n last k) (transfer_flags k n 1 2 4) prod ++
      zdrop 32 (sp_frame f).
Proof.
  intros Hk [F1 F2 F3 F4 F5 F6 F7 F8 F9] Hq. unfold FRAME_SIZE_MAX in F1.
  pose proof (hdr_size_range k). pose proof (blk_size_range k).
  rewrite fill_flh_spec by (done || lia). cbn [obind].
  assert (flh_bytes q = flh_bytes (sbn + k)) as -> by (unfold flh_bytes, flh_fields; by rewrite Hq).
  erewrite (fill_pdh_spec _ (flh_bytes (sbn + k)) (zdrop 16 (sp_frame f)));
    cbn [sp_frame set_frame sp_pdh sp_frame_index sp_header_size sp_datablock_size sp_frame_nframes];
    [|done|by rewrite F3|rewrite zlen_drop; lia|lia|lia|lia].
  eexists. split; [done|]. split; [done|].
  cbn [sp_frame set_frame]. rewrite F6, F7, F8, F9, zdrop_drop by lia. done.
Qed.

Lemma blocked_take k f : 0 <= k < n -> blocked k f ->
  ztake (blk_size n last k) (zdrop (hdr_size k) (sp_frame f)) = block k.
Proof. by intros _ [_ ?]. Qed.

Lemma fill_next f k q :
  0 < k < n -> blocked k f -> u32 q = u32 (sbn + k) ->
  exists f2, (let* f1 := fill_flh f q in fill_pdh f1 prod) = Done f2 /\ packed k f2.
Proof.
  intros Hk Hb Hq. destruct (fill_two f k q ltac:(lia) (proj1 Hb) Hq) as (f2 & E & E2 & E3).
  exists f2. split; [done|]. unfold packed, frame_bytes, packet. rewrite E3.
  destruct Hb as [[F1 F2 F3 F4 F5 F6 F7 F8 F9] Hb].
  assert (hdr_size k = 32) as Hh by (unfold hdr_size; destruct (Z.eqb_spec k 0); lia).
  rewrite Hh in *. rewrite E2. cbn [sp_datablock_size sp_header_size set_frame]. rewrite F6, F7.
  destruct (Z.eqb_spec k 0); [lia|]. cbn [app].
  set (h := flh_bytes (sbn + k)). set (p := pdh_bytes 32 k _ _ _).
  rewrite !app_assoc.
  assert (zlen (h ++ p) = 32) as Hhp by done. pose proof (blk_size_range k).
  rewrite <- Hb. unfold zsub, ztake. rewrite take_app.
  f_equal; [apply take_ge; unfold zlen in Hhp; lia|].
  f_equal. unfold zlen in Hhp. lia.
Qed.

Lemma fill_first f :
  blocked 0 f ->
  exists f1 f2 f3, fill_flh f sbn = Done f1 /\ fill_pdh f1 prod = Done f2 /\
    fill_psh f2 flag = Done f3 /\ packed 0 f3.
Proof.
  intros Hb. destruct (fill_two f 0 sbn ltac:(lia) (proj1 Hb)) as (f2 & E & E2 & E3);
    [by rewrite Z.add_0_r|].
  destruct (fill_flh f sbn) as [f1| |] eqn:Ef; cbn [obind] in E; [|done..].
  destruct Hb as [[F1 F2 F3 F4 F5 F6 F7 F8 F9] Hb]. unfold FRAME_SIZE_MAX in F1.
  change (hdr_size 0) with 68 in *. rewrite app_assoc in E3.
  set (hp := flh_bytes (sbn + 0) ++ pdh_bytes 68 0 _ _ _) in E3.
  assert (zlen hp = 32) as Hhp by done.
  exists f1, f2. eexists. split; [done|]. split; [done|].
  rewrite (fill_psh_spec f2 hp (zdrop 32 (sp_frame f)));
    [|done|by rewrite E2; cbn; rewrite F4|rewrite zlen_drop; lia|by rewrite E2|rewrite E2; cbn; lia].
  split; [done|]. unfold packed, frame_bytes, packet. cbn [sp_frame set_frame sp_datablock_size sp_header_size].
  rewrite E2. cbn [sp_datablock_size sp_header_size set_frame sp_frame_nframes].
  rewrite F6, F7, F9, zdrop_drop by lia. cbn [Z.eqb].
  rewrite !app_assoc. change ((flh_bytes (sbn + 0) ++ pdh_bytes (hdr_size 0) 0 (blk_size n last 0)
    (transfer_flags 0 n 1 2 4) prod)) with hp.
  set (h := hp ++ psh_bytes _ _ _). assert (zlen h = 68) as Hh by done.
  pose proof (blk_size_range 0). rewrite <- Hb. unfold zsub, ztake. rewrite take_app.
  f_equal; [apply take_ge; unfold zlen in Hh; lia|].
  f_equal. unfold zlen in Hh. lia.
Qed.

Lemma fill_headers_loop_spec l1 l2 k q :
  0 < k -> k + zlen l1 = n -> all_from blocked k l1 -> u32 (q + 1) = u32 (sbn + k) ->
  exists r1, fill_headers_loop prod q (length l1) (l1 ++ l2) = Done (r1 ++ l2) /\
    length r1 = length l1 /\ all_from packed k r1.
Proof.
  revert k q. induction l1 as [|f l1 IH]; intros k q Hk Hl Ha Hq.
  { exists []. by destruct l2. }
  destruct Ha as [Hf Ha]. rewrite zlen_cons in Hl. pose proof (zlen_nonneg l1).
  cbn [length app fill_headers_loop].
  destruct (fill_next f k (u32 (q + 1)) ltac:(lia) Hf) as (f2 & E & Hp).
  { rewrite Hq. unfold u32. by rewrite Z.mod_mod. }
  destruct (fill_flh f (u32 (q + 1))) as [f1| |]; cbn [obind] in E |- *; [|done..].
  rewrite E. cbn [obind].
  destruct (IH (k + 1) (u32 (q + 1))) as (r1 & -> & Hlen & Har); [lia|lia|done| |].
  { rewrite Hq. unfold u32. rewrite Z.add_mod_idemp_l by lia. f_equal. lia. }
  cbn [obind]. exists (f2 :: r1). cbn [length app]. split; [done|]. split; [by rewrite Hlen|]. by split.
Qed.
End frames.

(** ** Packing a file *)

Definition ccb_bytes : list Z := [CCB0; CCB1] ++ replicate 22 0.

(** a structure that may have been used for other files *)
Record sbnpack_wf (sp : sbnpack_st) : Prop := SbnpackWf {
  spw_data : zlen (sp_data (sp_file sp)) = sp_allocated_size (sp_file sp);
  spw_frames : zlen (sp_frames sp) = sp_allocated_frames sp;
  spw_frame : Forall (fun f => zlen (sp_frame f) = FRAME_SIZE_MAX) (sp_frames sp)
}.

Lemma load_file_spec c fsize a :
  fsize = zlen c + 24 -> fsize <= zlen a ->
  load_file c fsize a = Done (0, (ccb_bytes ++ c) ++ zdrop fsize a).
Proof.
  intros -> Ha. pose proof (zlen_nonneg c). unfold load_file, CCB_SIZE.
  change a with ([] ++ a) at 1.
  rewrite (wr_app [] a); [|done|change (24 <= zlen a); lia]. cbn [obind app].
  change (zlen (replicate (Z.to_nat 24) 0)) with 24.
  change (replicate (Z.to_nat 24) 0) with ([] ++ replicate 24 0). cbn [app].
  change (replicate 24 0 ++ zdrop 24 a) with ([] ++ 0 :: replicate 23 0 ++ zdrop 24 a).
  pose proof (zlen_nonneg (zdrop 24 a)) as Hz.
  rewrite (wr_app []); [|done|autorewrite with zlen; lia].
  cbn [obind app]. change (zdrop (zlen [CCB0]) (0 :: replicate 23 0 ++ zdrop 24 a))
    with (0 :: replicate 22 0 ++ zdrop 24 a).
  change (CCB0 :: 0 :: replicate 22 0 ++ zdrop 24 a) with ([CCB0] ++ 0 :: replicate 22 0 ++ zdrop 24 a).
  rewrite (wr_app [CCB0]); [|done|autorewrite with zlen; lia].
  cbn [obind app]. change (zdrop (zlen [CCB1]) (0 :: replicate 22 0 ++ zdrop 24 a))
    with (replicate 22 0 ++ zdrop 24 a).
  replace (zlen c + 24 - 24) with (zlen c) by lia. rewrite ztake_ge by lia.
  change (CCB0 :: CCB1 :: replicate 22 0 ++ zdrop 24 a) with (ccb_bytes ++ zdrop 24 a).
  rewrite (wr_app ccb_bytes); [|done|rewrite zlen_drop; lia]. cbn [obind].
  rewrite Z.eqb_refl, zdrop_drop by lia. rewrite <- app_assoc. do 4 f_equal. f_equal. lia.
Qed.

Section pack.
Context `{HS : HeapSpec}.
Context (junk : list Z) (junkf : sbnpack_frame_st).
Hypothesis Hjunkf : zlen (sp_frame junkf) = FRAME_SIZE_MAX.
Hypothesis Hmem : forall n, n < 2 ^ 32 -> malloc_ok n = true.

Lemma init_sbnpack_file_spec c f :
  zlen (sp_data f) = sp_allocated_size f -> zlen c + 24 <= INT_MAX -> zlen c + 24 <= zlen junk ->
  exists rest, init_sbnpack_file junk (Some c) f =
    Done (0, SbnpackFile ((ccb_bytes ++ c) ++ rest) (zlen ((ccb_bytes ++ c) ++ rest)) (zlen c + 24)).
Proof.
  intros Hf Hc Hj. pose proof (zlen_nonneg c). unfold init_sbnpack_file, get_file_size, INT_MAX, CCB_SIZE in *.
  destruct (Z.ltb_spec 2147483647 (zlen c)); [lia|]. rewrite s32_small by lia. cbn [Z.eqb negb].
  assert (zlen ccb_bytes = 24) as Hcc by done.
  destruct (Z.leb_spec (zlen c + 24) (sp_allocated_size f)) as [Hle|Hgt].
  - rewrite load_file_spec by (done || lia). cbn [obind Z.eqb].
    exists (zdrop (zlen c + 24) (sp_data f)). do 3 f_equal.
    rewrite !zlen_app, zlen_drop by lia. lia.
  - rewrite Hmem by lia. cbn [negb].
    rewrite load_file_spec by (rewrite ?zlen_take; lia). cbn [obind Z.eqb negb].
    exists []. rewrite zdrop_ge by (rewrite zlen_take; lia). do 3 f_equal.
    rewrite !zlen_app, zlen_nil. lia.
Qed.

Lemma init_sbnpack_spec (sp : sbnpack_st) (c : list Z) (prod sbn flag : Z)
  (Hsp : sbnpack_wf sp) (Hc : zlen c + 24 < 65535 * 4000) (Hj : zlen c + 24 <= zlen junk) :
  let data := ccb_bytes ++ c in
  let n := zlen data / 4000 + 1 in
  exists sp' r1 l2,
    init_sbnpack junk junkf sp (Some c) prod sbn flag = Done (0, sp') /\
    sp_nframes sp' = n /\ sp_frames sp' = r1 ++ l2 /\ zlen r1 = n /\
    all_from (packed data n (zlen data mod 4000) prod sbn flag) 0 r1.
Proof.
  intros data n. pose proof (zlen_nonneg c).
  assert (zlen data = zlen c + 24) as Hd by (subst data; rewrite zlen_app; change (zlen ccb_bytes) with 24; lia).
  set (last := zlen data mod 4000).
  assert (0 <= last < 4000) as Hlast by (apply Z.mod_pos_bound; lia).
  assert (zlen data = (n - 1) * 4000 + last) as Hdn.
  { subst n last. rewrite (Z.div_mod (zlen data) 4000) at 1 by lia. lia. }
  assert (1 <= n < 65536) as Hn.
  { subst n. split; [pose proof (Z.div_pos (zlen data) 4000); lia|].
    assert (zlen data / 4000 < 65535); [|lia]. apply Z.div_lt_upper_bound; lia. }
  clearbody last. destruct Hsp as [Sd Sf Sfr].
  destruct (init_sbnpack_file_spec c (sp_file sp) Sd) as (rest & E); [unfold INT_MAX; lia|done|].
  fold data in E. unfold init_sbnpack. rewrite E. cbn [obind Z.eqb sp_data_size].
  assert (get_file_frame_params DATA_BLOCK_SIZE (zlen c + 24) = (n, last)) as ->.
  { unfold get_file_frame_params, DATA_BLOCK_SIZE. rewrite <- Hd, Z.quot_div_nonneg by lia.
    fold n. f_equal. subst n. lia. }
  assert (exists l1 l2 al, init_sbnpack_frame_array junkf
      (Sbnpack (SbnpackFile (data ++ rest) (zlen (data ++ rest)) (zlen c + 24)) (sp_frames sp)
         (sp_allocated_frames sp) (sp_nframes sp) prod sbn flag) n last =
    (0, Sbnpack (SbnpackFile (data ++ rest) (zlen (data ++ rest)) (zlen c + 24))
          (layout_frames n last 0 (Z.to_nat n) (l1 ++ l2)) al n prod sbn flag) /\
    zlen l1 = n /\ Forall (fun f => zlen (sp_frame f) = FRAME_SIZE_MAX) l1)
    as (l1 & l2 & al & -> & Hl1 & Hfr1).
  { unfold init_sbnpack_frame_array. cbn [sp_allocated_frames sp_frames].
    destruct (Z.ltb_spec (sp_allocated_frames sp) n).
    - rewrite u64_small, Hmem by lia. exists (replicate (Z.to_nat n) junkf), [], n.
      rewrite app_nil_r. split; [done|]. split; [rewrite zlen_replicate; lia|].
      by apply Forall_replicate.
    - exists (ztake n (sp_frames sp)), (zdrop n (sp_frames sp)), (sp_allocated_frames sp).
      rewrite ztake_zdrop. split; [done|]. split; [apply zlen_take; lia|]. by apply Forall_take. }
  cbn [Z.eqb]. assert (Z.to_nat n = length l1) as Hnl by (unfold zlen in Hl1; lia).
  rewrite Hnl.
  destruct (layout_frames_spec n last l1 l2 0 ltac:(lia) Hfr1) as (r1 & -> & Hr1 & Ha1).
  unfold fill_blockdata. cbn [sp_file sp_data sp_nframes sp_frames]. rewrite Hnl, <- Hr1.
  destruct (fill_blockdata_loop_spec data n last Hlast Hdn rest r1 l2 0) as (r2 & E2 & Hr2 & Ha2);
    [lia|unfold zlen in *; lia|done|].
  change (4000 * 0) with 0 in E2. rewrite E2. cbn [obind].
  destruct r2 as [|f r2]; [cbn in Hr2; lia|]. destruct Ha2 as [Hf Ha2].
  unfold fill_headers, set_frames. cbn [sp_frames app sp_sbn_seq_number sp_prod_seq_number sp_psh_type_flag sp_nframes].
  destruct (fill_first data n last prod sbn flag Hn Hlast f Hf) as (f1 & f2 & f3 & -> & Ef2 & Ef3 & Hp).
  cbn [obind]. rewrite Ef2. cbn [obind]. rewrite Ef3. cbn [obind].
  assert (Z.to_nat (n - 1) = length r2) as Hn1 by (cbn in Hr2; lia). rewrite Hn1.
  destruct (fill_headers_loop_spec data n last prod sbn flag Hn Hlast r2 l2 1 sbn) as (r3 & -> & Hr3 & Ha3);
    [lia|unfold zlen; lia|done|done|].
  cbn [obind]. eexists _, (f3 :: r3), l2. split; [done|]. split; [done|]. split; [done|].
  split; [rewrite zlen_cons; unfold zlen; lia|]. by split.
Qed.

Lemma packet_nonempty data n last prod sbn flag k : packet data n last prod sbn flag k <> [].
Proof. done. Qed.

Lemma write_loop_packets (P : Z -> list Z) sp l2 l1 : forall l0,
  (forall k, P k <> []) -> sp_frames sp = l0 ++ l1 ++ l2 ->
  zlen l0 + zlen l1 <= sp_nframes sp ->
  all_from (fun k f => frame_bytes f = P k) (zlen l0) l1 ->
  write_sbnpack_loop (fun n => n) sp (zlen l0) (length l1) =
    Done (0, map P (seqZ (zlen l0) (zlen l1))).
Proof.
  induction l1 as [|f l1 IH]; intros l0 HP Hf Hn Ha; [done|].
  pose proof (zlen_nonneg l0). pose proof (zlen_nonneg l1). rewrite zlen_cons in *.
  destruct Ha as [Ef Ha]. cbn [length write_sbnpack_loop].
  unfold write_sbnpack_frame, c_assert.
  destruct (Z.ltb_spec (zlen l0) (sp_nframes sp)); [|lia].
  assert (rd (sp_frames sp) (zlen l0) = Done f) as ->.
  { apply rd_Done. rewrite Hf. unfold znth. destruct (Z.ltb_spec (zlen l0) 0); [lia|].
    unfold zlen. rewrite Nat2Z.id, lookup_app_r, Nat.sub_diag by lia. done. }
  cbn [obind]. specialize (HP (zlen l0)) as HPn. rewrite <- Ef in HPn.
  assert (0 < sp_datablock_size f + sp_header_size f) as Hpos.
  { destruct (Z.ltb_spec 0 (sp_datablock_size f + sp_header_size f)); [done|].
    destruct HPn. unfold frame_bytes, ztake.
    by replace (Z.to_nat (sp_datablock_size f + sp_header_size f)) with 0%nat by lia. }
  destruct (Z.eqb_spec (sp_datablock_size f + sp_header_size f) (-1)); [lia|].
  rewrite Z.eqb_refl. cbn [negb Z.eqb].
  specialize (IH (l0 ++ [f])). rewrite zlen_app, zlen_cons, zlen_nil in IH.
  replace (zlen l0 + (1 + 0)) with (zlen l0 + 1) in IH by lia.
  rewrite IH; [|done|by rewrite Hf, <- app_assoc|lia|done]. cbn [obind].
  rewrite (seqZ_cons (zlen l0)) by lia. cbn [map].
  replace (Z.pred (1 + zlen l1)) with (zlen l1) by lia. rewrite <- Ef.
  do 3 f_equal. unfold frame_bytes, ztake. rewrite take_take. f_equal. lia.
Qed.

Lemma concat_blocks data n last : 0 <= last < 4000 -> zlen data = (n - 1) * 4000 + last ->
  forall m k, 0 <= k -> k + Z.of_nat m = n -> (0 < m)%nat ->
  concat (map (block data n last) (seqZ k (Z.of_nat m))) = zdrop (4000 * k) data.
Proof.
  intros Hl Hd m. induction m as [|m IH]; intros k Hk Hm Hm0; [lia|].
  rewrite seqZ_cons by lia. replace (Z.pred (Z.of_nat (S m))) with (Z.of_nat m) by lia.
  cbn [map concat]. unfold block at 1, blk_size. destruct (Z.eqb_spec k (n - 1)) as [->|Hne].
  - assert (m = 0%nat) as -> by lia. cbn. rewrite app_nil_r. unfold zsub.
    apply ztake_ge. rewrite zlen_drop; lia.
  - replace (Z.succ k) with (k + 1) by lia. rewrite IH by lia. unfold zsub.
    replace (4000 * (k + 1)) with (4000 + 4000 * k) by lia.
    rewrite <- (ztake_zdrop 4000 (zdrop (4000 * k) data)) at 2. f_equal.
    rewrite zdrop_drop by lia. f_equal. lia.
Qed.

Lemma sbnpack_writes (sp : sbnpack_st) (c : list Z) (prod sbn flag : Z)
  (Hsp : sbnpack_wf sp) (Hc : zlen c + 24 < 65535 * 4000) (Hj : zlen c + 24 <= zlen junk) :
  let data := ccb_bytes ++ c in
  let n := zlen data / 4000 + 1 in
  let last := zlen data mod 4000 in
  exists sp',
    init_sbnpack junk junkf sp (Some c) prod sbn flag = Done (0, sp') /\
    write_sbnpack (fun n => n) sp' =
      Done (0, map (packet data n last prod sbn flag) (seqZ 0 n)) /\
    concat (map (block data n last) (seqZ 0 n)) = data.
Proof.
  intros data n last. pose proof (zlen_nonneg data).
  destruct (init_sbnpack_spec sp c prod sbn flag Hsp Hc Hj) as (sp' & r1 & l2 & E & En & Ef & Hr & Ha).
  fold data n last in E, En, Hr, Ha. exists sp'. split; [done|].
  assert (0 < n) by (pose proof (Z.div_pos (zlen data) 4000); lia). split.
  - unfold write_sbnpack. replace (Z.to_nat (sp_nframes sp')) with (length r1) by (unfold zlen in Hr; lia).
    pose proof (write_loop_packets (packet data n last prod sbn flag) sp' l2 r1 []) as Hw.
    rewrite zlen_nil, Hr in Hw. apply Hw; [apply packet_nonempty|done|lia|done].
  - rewrite <- (Z2Nat.id n) at 2 by lia. rewrite concat_blocks; try lia; [done|..].
    + apply Z.mod_pos_bound. lia.
    + subst n last. rewrite (Z.div_mod (zlen data) 4000) at 1 by lia. lia.
Qed.

(** C13: Packing and sending a file. Whatever the packer was used for before,
    the writes it makes for a file are the packets of the product, in order:
    each has a frame level header with a correct checksum and the next frame
    number, a definition header with its block number, its size and its START,
    PROGRESS and END flags, the first one a product header with the number of
    frames; and the blocks, put together, are the CCB and the file. *)
Theorem sbnpack_sends_packets (sp : sbnpack_st) (c : list Z) (prod sbn flag : Z)
  (Hsp : sbnpack_wf sp) (Hc : zlen c + 24 < 65535 * 4000) (Hj : zlen c + 24 <= zlen junk) :
  let data := ccb_bytes ++ c in
  let n := zlen data / 4000 + 1 in
  let last := zlen data mod 4000 in
  exists sp',
    init_sbnpack junk junkf sp (Some c) prod sbn flag = Done (0, sp') /\
    write_sbnpack (fun n => n) sp' =
      Done (0, map (packet data n last prod sbn flag) (seqZ 0 n)) /\
    concat (map (block data n last) (seqZ 0 n)) = data.
Proof. by apply sbnpack_writes. Qed.
End pack.

(** ** Witness *)

(** a file of 5000 bytes, packed into two frames *)
Definition demo_junk_frame : sbnpack_frame_st :=
  SbnpackFrame (replicate (Z.to_nat 4068) 7) 0 0 0 0 0 0 0 0.

Lemma sbnpack_sends_packets_witness :
  exists sp' p0 p1,
    init_sbnpack (Hp := demo_heap) (replicate (Z.to_nat 5024) 9) demo_junk_frame create_sbnpack
      (Some (replicate (Z.to_nat 5000) 65)) 11 22 0 = Done (0, sp') /\
    write_sbnpack (fun n => n) sp' = Done (0, [p0; p1]) /\ zlen p0 = 4068 /\ zlen p1 = 1056.
Proof.
  destruct (sbnpack_sends_packets (H := demo_heap) (replicate (Z.to_nat 5024) 9) demo_junk_frame
              eq_refl (fun n Hn => proj2 (Z.ltb_lt n (2 ^ 40)) ltac:(lia))
              create_sbnpack (replicate (Z.to_nat 5000) 65) 11 22 0) as (sp' & E & Ew & _).
  - by split.
  - by vm_compute.
  - by vm_compute.
  - eexists sp', _, _. split; [exact E|]. split; [exact Ew|]. by split; vm_compute.
Defined.
