(* ===== verification/EndToEnd.v ===== *)
(** * EndToEnd: the packer against the receiver

    [SbnPack] models the transmitting side (tools/nbspmcast/sbnpack), [Sbn],
    [Pctldb], [Pctl] and [Framep] the receiving one. The packets that the packer
    writes for a file are frames that the receiver accepts, and what reaches
    the processing queue is the file. *)

From S2P Require Import Prelude Util CLib Mfile Sbn Stats Pctldb Pctl Framep SbnPack.

(** [f] is a frame buffer in which [raw] has been received; what earlier frames
    left behind it contains a NUL *)
Definition holds (raw : list Z) (f : sbn_frame) : Prop :=
  frame_wf f /\ rawdata_size f = zlen raw /\
  exists rest, rawdata f = raw ++ rest /\ 0 ∈ rest /\ 9 <= zlen rest.

(** ** The headers of a packet *)

Lemma shiftl8_split u : 0 <= u < 65536 ->
  Z.shiftl (Z.land (Z.shiftr u 8) 255) 8 + Z.land u 255 = u.
Proof.
  intros. pose proof (be16_split u). unfold be16 in *. rewrite !land_255 in *.
  rewrite u16_small in H0; [auto|].
  pose proof (Z.mod_pos_bound (Z.shiftr u 8) 256). pose proof (Z.mod_pos_bound u 256).
  rewrite Z.shiftl_mul_pow2 by lia. change (2 ^ 8) with 256. lia.
Qed.

Lemma flh_unpacks q : (unpack_fl_header (flh_bytes q)).1 = 0 /\
  sbn_command (unpack_fl_header (flh_bytes q)).2 = 3.
Proof.
  split; [|done]. unfold unpack_fl_header. cbn [fst].
  assert (zlen (flh_fields q) = 14) as Hl by done.
  assert (ztake (FRAME_LEVEL_HEADER_SIZE - 2) (flh_bytes q) = flh_fields q) as -> by done.
  change (bt (flh_bytes q) 14) with (Z.land (Z.shiftr (zsum (flh_fields q)) 8) 255).
  change (bt (flh_bytes q) 15) with (Z.land (zsum (flh_fields q)) 255).
  pose proof (zsum_bytes _ (flh_fields_bytes q)).
  rewrite shiftl8_split by lia. by rewrite Z.eqb_refl.
Qed.

Lemma pdh_unpacks h k s t q : 0 <= k < 65536 -> 0 <= s < 65536 ->
  let p := unpack_pd_header (pdh_bytes h k s t q) in
  transfer_type p = t /\ block_number p = k /\ data_block_offset p = 0 /\
  data_block_size p = s /\ product_seq_number p = u32 q.
Proof.
  intros Hk Hs p. unfold p, unpack_pd_header.
  cbn [transfer_type block_number data_block_offset data_block_size product_seq_number].
  split; [done|]. split; [by apply shiftl8_split|]. split; [done|].
  split; [by apply shiftl8_split|]. apply be32_split. apply u32_range.
Qed.

Lemma psh_unpacks flag type n : 0 <= n < 65536 ->
  let p := unpack_ps_header (psh_bytes flag type n) in
  transfer_status_flag p = flag /\ num_fragments p = n.
Proof. intros. split; [done|]. by apply shiftl8_split. Qed.

Lemma transfer_flags_cases k n :
  let t := transfer_flags k n 1 2 4 in
  Z.testbit t 4 = false /\ has_flag t 40 = false /\ has_flag t PDH_TRANSFERTYPE_PROGRESS = true /\
  has_flag t PDH_TRANSFERTYPE_START = (k =? 0) /\ has_flag t PDH_TRANSFERTYPE_END = (k =? n - 1) /\
  has_flag t PSH_STATUSFLAG_RETRANSMIT = false.
Proof. unfold transfer_flags. destruct (k =? 0), (k =? n - 1); done. Qed.

(** ** Unpacking a packet *)

(** the members of a split frame *)
Ltac split_frame_simpl :=
  lazy delta [split_of] zeta beta; cbn [f_frdata_compressed set_f_frdata_compressed set_frdata
    set_frdata_size set_ctrlhdr_size set_ctrlhdr ctrlhdr frdata frdata_size].

(** a data frame with no control header and not compressed *)
Lemma unpack_plain `{Zlib} f f1 :
  unpack_sbn_headers f = Done (0, f1) -> sbn_command (fh f1) = SBN_COMMAND_DATA_TRANSFER ->
  data_block_offset (pdh f1) = 0 -> Z.testbit (transfer_type (pdh f1)) 4 = false ->
  sbn_unpack_frame f =
    if block_number (pdh f1) =? 0 then locate_ccb (split_of f1)
    else Done (0, set_ccb_size 0 (set_ccb None (split_of f1))).
Proof.
  intros E Hc Ho Hz. unfold sbn_unpack_frame. rewrite E. cbn [obind]. clear E.
  rewrite Hc, Z.eqb_refl. cbn [Z.eqb negb orb]. rewrite Ho. cbn [Z.eqb].
  set (f2 := set_ctrlhdr_size 0 _). change (pdh f2) with (pdh f1). rewrite Ho.
  change (ctrlhdr_size f2) with 0. cbn [Z.eqb negb andb].
  change (if block_number (pdh f1) =? 0 then
            FRAME_LEVEL_HEADER_SIZE + PRODUCT_DEF_HEADER_SIZE + PRODUCT_SPEC_HEADER_SIZE
          else FRAME_LEVEL_HEADER_SIZE + PRODUCT_DEF_HEADER_SIZE) with (data_offset f1).
  set (f3 := set_f_frdata_compressed _ _).
  assert (f3 = split_of f1) as ->.
  { subst f3 f2. unfold split_of. cbn [pdh set_frdata set_frdata_size set_ctrlhdr_size set_ctrlhdr].
    unfold PDH_TRANSFERTYPE_COMPRESSED. by rewrite land_bit4, Ho. }
  assert (f_frdata_compressed (split_of f1) = 0) as ->
    by (unfold split_of; cbn [f_frdata_compressed set_f_frdata_compressed]; by rewrite Hz).
  rewrite andb_false_r. cbn [obind]. cbn [Z.eqb negb].
  change (pdh (split_of f1)) with (pdh f1). by destruct (block_number (pdh f1) =? 0).
Qed.

(** the product data of a first frame that starts with a CCB *)
Lemma locate_ccb_plain f o c :
  ctrlhdr f = None -> f_frdata_compressed f = 0 -> frdata f = Some (PRaw o) ->
  rd (zdrop o (rawdata f)) 0 = Done c -> isalpha c = false -> CCB_SIZE <= frdata_size f ->
  locate_ccb f = Done (0, set_pdata_size (frdata_size f - CCB_SIZE)
    (set_pdata (Some (PRaw (o + CCB_SIZE))) (set_ccb_size CCB_SIZE (set_ccb (Some (PRaw o)) f)))).
Proof.
  intros Hh Hz Hf Hr Ha Hs. unfold locate_ccb. rewrite Hh, Hz, Hf. cbn [Z.eqb oview view].
  rewrite Hr. cbn [obind]. rewrite Ha. destruct (Z.ltb_spec (frdata_size f) CCB_SIZE); [lia|]. done.
Qed.

Section packets.
Context `{ZlibSpec}.
Context (data : list Z) (n last prod sbn flag : Z).
Hypothesis Hn : 1 <= n < 65536.
Hypothesis Hlast : 0 <= last < 4000.
Hypothesis Hdata : zlen data = (n - 1) * 4000 + last.

Lemma packet_length k : 0 <= k < n ->
  zlen (packet data n last prod sbn flag k) = hdr_size k + blk_size n last k.
Proof.
  intros. unfold packet, hdr_size. rewrite !zlen_app, (block_length data n last) by done.
  rewrite flh_bytes_length, pdh_bytes_length. destruct (k =? 0); rewrite ?psh_bytes_length, ?zlen_nil; lia.
Qed.

(** what unpacking leaves in a frame that holds packet [k] *)
Record packet_view (k : Z) (f u : sbn_frame) : Prop := PacketView {
  pv_raw : rawdata u = rawdata f /\ rawdata_size u = rawdata_size f;
  pv_cmd : sbn_command (fh u) = 3;
  pv_type : transfer_type (pdh u) = transfer_flags k n 1 2 4;
  pv_block : block_number (pdh u) = k;
  pv_off : data_block_offset (pdh u) = 0;
  pv_size : data_block_size (pdh u) = blk_size n last k;
  pv_seq : product_seq_number (pdh u) = u32 prod;
  pv_hdr : ctrlhdr u = None;
  pv_frdata : frdata u = Some (PRaw (hdr_size k)) /\ frdata_size u = blk_size n last k;
  pv_z : f_frdata_compressed u = 0;
  pv_first : k = 0 -> transfer_status_flag (psh u) = transfer_flags 0 n 1 2 4 /\
    num_fragments (psh u) = n /\ pdata u = Some (PRaw 92) /\ pdata_size u = blk_size n last 0 - 24
}.

Lemma packet_headers k f : 0 <= k < n -> holds (packet data n last prod sbn flag k) f ->
  exists fl, sbn_command fl = 3 /\
    unpack_sbn_headers f = Done (0,
      let f' := set_pdh (unpack_pd_header (pdh_bytes (hdr_size k) k (blk_size n last k)
                  (transfer_flags k n 1 2 4) prod)) (set_fh fl f) in
      if k =? 0 then
        set_psh (unpack_ps_header (psh_bytes (transfer_flags 0 n 1 2 4)
                   (if negb (flag =? 0) then 5 else 4) n)) f'
      else f').
Proof.
  intros Hk (Hwf & Hsz & rest & Hraw & _ & Hr9). pose proof (packet_length k Hk) as Hl.
  pose proof (blk_size_range n last Hlast k) as Hb. rewrite Hl in Hsz.
  destruct (flh_unpacks (sbn + k)) as [Hc Hcmd].
  destruct (pdh_unpacks (hdr_size k) k (blk_size n last k) (transfer_flags k n 1 2 4) prod)
    as (_ & Pb & _ & Ps & _); [lia..|].
  exists (unpack_fl_header (flh_bytes (sbn + k))).2. split; [done|].
  assert (zlen (rawdata f) = hdr_size k + blk_size n last k + zlen rest) as Hzl
    by (rewrite Hraw, zlen_app; lia).
  assert (32 <= hdr_size k) by (destruct (hdr_size_range k); lia).
  pose proof (zlen_nonneg rest).
  unfold packet in Hraw. rewrite <- !app_assoc in Hraw.
  set (pd := pdh_bytes _ _ _ _ _) in *. set (fl := flh_bytes _) in *.
  assert (zlen fl = 16) as Hfl by done. assert (zlen pd = 16) as Hpd by done.
  clearbody fl pd.
  unfold unpack_sbn_headers, FRAME_LEVEL_HEADER_SIZE, PRODUCT_DEF_HEADER_SIZE,
    PRODUCT_SPEC_HEADER_SIZE, SBN_COMMAND_DATA_TRANSFER.
  destruct (Z.ltb_spec (rawdata_size f) 16); [lia|].
  rewrite rdn_ok by lia. cbn [obind].
  assert (zsub 0 16 (rawdata f) = fl) as ->.
  { rewrite Hraw. by apply (zsub_app_exact []). }
  destruct (unpack_fl_header fl) as [c hd]. cbn [fst snd] in *. subst c. cbn [Z.eqb negb].
  cbn [fh set_fh rawdata_size rawdata]. rewrite Hcmd, Z.eqb_refl. cbn [negb].
  destruct (Z.ltb_spec (rawdata_size f) (16 + 16)); [lia|].
  rewrite rdn_ok by lia. cbn [obind].
  assert (zsub 16 16 (rawdata f) = pd) as ->.
  { rewrite Hraw. by apply zsub_app_exact. }
  cbn [pdh set_pdh set_fh rawdata_size rawdata]. rewrite Pb.
  unfold hdr_size in *. destruct (Z.eqb_spec k 0) as [->|Hk0].
  - destruct (Z.ltb_spec (rawdata_size f) (16 + 16 + 36)); [lia|].
    rewrite rdn_ok by lia. cbn [obind set_psh set_pdh set_fh pdh rawdata_size].
    rewrite Ps, Hsz. change (16 + 16 + 36) with 68. rewrite Z.eqb_refl. cbn [negb].
    do 3 f_equal. f_equal. rewrite Hraw, app_assoc. apply zsub_app_exact; [|done].
    rewrite zlen_app. lia.
  - rewrite Ps, Hsz. change (16 + 16) with 32. by rewrite Z.eqb_refl.
Qed.

Lemma packet_block k f rest : 0 <= k < n ->
  rawdata f = packet data n last prod sbn flag k ++ rest ->
  zdrop (hdr_size k) (rawdata f) = block data n last k ++ rest.
Proof.
  intros Hk ->. unfold packet, hdr_size. rewrite <- !app_assoc.
  rewrite (app_assoc (flh_bytes _)), (app_assoc (flh_bytes _ ++ _)).
  apply zdrop_app_exact. destruct (k =? 0); done.
Qed.

Hypothesis Hccb : exists c, data = ccb_bytes ++ c.

Lemma first_block : exists c0, block data n last 0 = ccb_bytes ++ c0 /\
  zlen (ccb_bytes ++ c0) = blk_size n last 0.
Proof.
  destruct Hccb as [c E]. assert (zlen ccb_bytes = 24) as Hcl by done.
  assert (24 <= blk_size n last 0) as Hb.
  { unfold blk_size. rewrite E, zlen_app in Hdata. pose proof (zlen_nonneg c).
    destruct (Z.eqb_spec 0 (n - 1)); lia. }
  exists (ztake (blk_size n last 0 - 24) c).
  assert (block data n last 0 = ccb_bytes ++ ztake (blk_size n last 0 - 24) c) as Eb.
  { unfold block, zsub. rewrite E. change (zdrop (4000 * 0) (ccb_bytes ++ c)) with (ccb_bytes ++ c).
    unfold ztake. rewrite take_app. f_equal.
    - apply take_ge. unfold zlen in Hcl. lia.
    - f_equal. unfold zlen in Hcl. lia. }
  split; [done|]. rewrite <- Eb. apply (block_length data n last); lia.
Qed.

Lemma packet_unpacks k f : 0 <= k < n -> holds (packet data n last prod sbn flag k) f ->
  exists u, sbn_unpack_frame f = Done (0, u) /\ packet_view k f u.
Proof.
  intros Hk Hh. destruct (packet_headers k f Hk Hh) as (fl & Hcmd & E).
  destruct Hh as (_ & _ & rest & Hraw & _ & _).
  pose proof (packet_block k f rest Hk Hraw) as Hblk.
  pose proof (blk_size_range n last Hlast k) as Hb.
  destruct (pdh_unpacks (hdr_size k) k (blk_size n last k) (transfer_flags k n 1 2 4) prod)
    as (Pt & Pb & Po & Ps & Pq); [lia..|].
  destruct (psh_unpacks (transfer_flags 0 n 1 2 4) (if negb (flag =? 0) then 5 else 4) n)
    as [Sf Sn]; [lia|].
  set (pd := unpack_pd_header _) in *. set (ps := unpack_ps_header _) in *. clearbody pd ps.
  set (f1 := if k =? 0 then _ else _) in E.
  assert (fh f1 = fl /\ pdh f1 = pd /\ rawdata f1 = rawdata f /\ rawdata_size f1 = rawdata_size f)
    as (E1 & E2 & E3 & E4) by (subst f1; by destruct (k =? 0)).
  assert (k = 0 -> psh f1 = ps) as E5 by (intros ->; done). clearbody f1.
  rewrite (unpack_plain f f1 E) by (rewrite ?E1, ?E2, ?Pt, ?Po; done || apply transfer_flags_cases).
  assert (data_offset f1 = hdr_size k) as Ed by (unfold data_offset; by rewrite E2, Pb).
  set (f2 := split_of f1).
  assert (fh f2 = fl /\ pdh f2 = pd /\ psh f2 = psh f1 /\
    rawdata f2 = rawdata f /\ rawdata_size f2 = rawdata_size f) as (G1 & G2 & G3 & G4 & G5) by done.
  assert (ctrlhdr f2 = None) as G6 by (subst f2; split_frame_simpl; by rewrite E2, Po).
  assert (f_frdata_compressed f2 = 0) as G7
    by (subst f2; split_frame_simpl; rewrite E2, Pt; by rewrite (proj1 (transfer_flags_cases k n))).
  assert (frdata f2 = Some (PRaw (hdr_size k))) as G8 by (subst f2; split_frame_simpl; by rewrite Ed, E2, Po, Z.add_0_r).
  assert (frdata_size f2 = blk_size n last k) as G9 by (subst f2; split_frame_simpl; rewrite E2, Ps, Po; lia).
  clearbody f2. rewrite E2, Pb. destruct (Z.eqb_spec k 0) as [->|Hk0].
  - destruct first_block as (c0 & Eb & Hl). rewrite zlen_app in Hl.
    change (zlen ccb_bytes) with 24 in Hl. pose proof (zlen_nonneg c0).
    rewrite (locate_ccb_plain f2 (hdr_size 0) 64); try done;
      [|by rewrite G4, Hblk, Eb|unfold CCB_SIZE; lia].
    eexists. split; [done|]. split; cbn [set_pdata_size set_pdata set_ccb set_ccb_size rawdata
      rawdata_size fh pdh psh ctrlhdr frdata frdata_size f_frdata_compressed pdata pdata_size];
      rewrite ?G1, ?G2, ?G3; try done.
    intros _. rewrite E5, G9 by done. by split_and!.
  - eexists. split; [done|]. split; cbn [set_ccb set_ccb_size rawdata
      rawdata_size fh pdh psh ctrlhdr frdata frdata_size f_frdata_compressed pdata pdata_size];
      rewrite ?G1, ?G2, ?G3; done.
Qed.

(** a received packet is a frame of the product *)
Lemma packet_product_frame i k f : 0 <= k < n -> holds (packet data n last prod sbn flag k) f ->
  np_channel_index f = i ->
  exists u, product_frame i (u32 prod) k (k =? 0) (k =? n - 1) f u /\ packet_view k f u /\
    frame_payload u = block data n last k.
Proof.
  intros Hk Hh Hi. destruct (packet_unpacks k f Hk Hh) as (u & E & V).
  exists u. destruct (transfer_flags_cases k n) as (_ & F1 & F2 & F3 & F4 & _).
  pose proof (blk_size_range n last Hlast k) as Hb.
  destruct Hh as (Hwf & Hsz & rest & Hraw & H0 & H9). split_and!; [|done|].
  - destruct V. split; try done; rewrite ?pv_type0; try done.
    destruct pv_raw0 as [R1 R2].
    split; rewrite ?pv_off0, ?pv_size0, ?R1, ?R2, ?Hsz, ?Hraw, ?pv_z0;
      unfold MAX_CTRLHDR_SIZE; try lia.
    intros _. split; [rewrite zlen_app; lia|]. by rewrite zdrop_app_exact.
  - destruct V. destruct pv_raw0 as [R1 R2], pv_frdata0 as [Ef Es].
    unfold frame_payload. rewrite pv_hdr0, Ef, Es. cbn [app oview view].
    rewrite R1, (packet_block k f rest Hk Hraw). apply ztake_app_exact.
    symmetry. by apply (block_length data n last).
Qed.
End packets.

(** ** A whole product *)

Section product.
Context `{ZlibSpec}.
Context (data : list Z) (n last prod sbn flag : Z).
Hypothesis Hn : 1 <= n < 65536.
Hypothesis Hlast : 0 <= last < 4000.
Hypothesis Hdata : zlen data = (n - 1) * 4000 + last.
Hypothesis Hccb : exists c, data = ccb_bytes ++ c.

Lemma packets_product_frames i m : forall k fs, 0 <= k -> k + Z.of_nat m = n -> (0 < m)%nat ->
  Forall2 holds (map (packet data n last prod sbn flag) (seqZ k (Z.of_nat m))) fs ->
  Forall (fun f => np_channel_index f = i) fs ->
  exists f fs' u us, fs = f :: fs' /\ holds (packet data n last prod sbn flag k) f /\
    packet_view n last prod k f u /\
    product_frames i (u32 prod) k (k =? 0) fs (u :: us) /\
    map frame_payload (u :: us) = map (block data n last) (seqZ k (Z.of_nat m)) /\
    zlen fs = Z.of_nat m.
Proof.
  induction m as [|m IH]; intros k fs Hk Hm Hm0 Hfs Hch; [lia|].
  rewrite seqZ_cons in Hfs by lia. rewrite seqZ_cons by lia.
  replace (Z.pred (Z.of_nat (S m))) with (Z.of_nat m) in * by lia.
  replace (Z.succ k) with (k + 1) in * by lia. cbn [map] in Hfs |- *.
  apply Forall2_cons_inv_l in Hfs as (f & fs' & Hf & Hfs & ->).
  apply Forall_cons_iff in Hch as [Hc Hch].
  destruct (packet_product_frame data n last prod sbn flag Hn Hlast Hdata Hccb i k f)
    as (u & Hpf & V & Hpl); [lia|done|done|].
  destruct m as [|m].
  - apply Forall2_nil_inv_l in Hfs as ->. exists f, [], u, [].
    split_and!; try done; [|cbn; by rewrite Hpl].
    cbn [product_frames]. by replace (k =? n - 1) with true in Hpf by (symmetry; apply Z.eqb_eq; lia).
  - destruct (IH (k + 1) fs') as (f1 & fs1 & u1 & us1 & -> & _ & _ & Hp & Hpay & Hl);
      [lia|lia|lia|done|done|].
    exists f, (f1 :: fs1), u, (u1 :: us1). split_and!; try done.
    + cbn [product_frames].
      replace (k =? n - 1) with false in Hpf by (symmetry; apply Z.eqb_neq; lia).
      replace (k + 1 =? 0) with false in Hp by (symmetry; apply Z.eqb_neq; lia). done.
    + cbn [map] in Hpay |- *. by rewrite Hpl, Hpay.
    + rewrite zlen_cons, Hl. lia.
Qed.

Lemma first_packet_text f u c : data = ccb_bytes ++ c ->
  holds (packet data n last prod sbn flag 0) f -> packet_view n last prod 0 f u ->
  exists rest, oview u (pdata u) = ztake (pdata_size u) c ++ rest.
Proof.
  intros Hc (_ & _ & rest & Hraw & _) V. exists rest.
  destruct (pv_first _ _ _ _ _ _ V eq_refl) as (_ & _ & -> & ->). cbn [oview view].
  rewrite (proj1 (pv_raw _ _ _ _ _ _ V)).
  pose proof (packet_block data n last prod sbn flag 0 f rest ltac:(lia) Hraw) as Hb.
  change (hdr_size 0) with 68 in Hb.
  assert (zdrop 92 (rawdata f) = zdrop 24 (zdrop 68 (rawdata f))) as -> by by rewrite zdrop_drop.
  rewrite Hb. pose proof (blk_size_range n last Hlast 0).
  assert (24 <= blk_size n last 0) as Hb0.
  { pose proof (zlen_nonneg c). rewrite Hc, zlen_app in Hdata. change (zlen ccb_bytes) with 24 in Hdata.
    unfold blk_size. destruct (Z.eqb_spec 0 (n - 1)); lia. }
  rewrite zdrop_app_le by (rewrite (block_length data n last) by lia; lia). f_equal.
  unfold block, zsub. rewrite Hc. change (zdrop (4000 * 0) (ccb_bytes ++ c)) with (ccb_bytes ++ c).
  assert (length ccb_bytes = 24%nat) as Hl by done.
  unfold ztake, zdrop. rewrite take_app, take_ge by lia. rewrite drop_app_ge by lia.
  rewrite Hl. cbn [drop Nat.sub]. change (Z.to_nat 24 - 24)%nat with 0%nat. cbn [drop].
  by replace (Z.to_nat (blk_size n last 0) - 24)%nat with (Z.to_nat (blk_size n last 0 - 24)) by lia.
Qed.
End product.

(** ** From a file to the processing queue *)

Lemma frame_params_range (data : list Z) n last :
  24 <= zlen data < 65535 * 4000 -> n = zlen data / 4000 + 1 -> last = zlen data mod 4000 ->
  1 <= n < 65536 /\ 0 <= last < 4000 /\ zlen data = (n - 1) * 4000 + last.
Proof.
  intros Hd -> ->. pose proof (Z.div_pos (zlen data) 4000).
  assert (zlen data / 4000 < 65535) by (apply Z.div_lt_upper_bound; lia).
  split; [lia|]. split; [apply Z.mod_pos_bound; lia|].
  rewrite (Z.div_mod (zlen data) 4000) at 1 by lia. lia.
Qed.

Section delivery.
Context `{HS : HeapSpec} `{DS : DbSpec} `{CS : ClockSpec} `{ZS : ZlibSpec} `{Rx : Regex}.
Context {DR : DbReliable D DS}.
Context (g : globals) (Hg : globals_ok g).
Hypothesis Hmem : forall n, n < 2 ^ 40 -> malloc_ok n = true.

(** The frames of a file. The packets that the packer writes
    for a file that starts with a standard WMO heading, when they are received
    in order on a free channel, in frame buffers with whatever contents, are
    all accepted with status 0, and leave exactly one more element at the end
    of the processing queue: complete, with the product sequence number given
    to the packer and the names made from the heading, and with the CCB
    followed by the bytes of the file. *)
Lemma packed_file_frames (junk : list Z) (junkf : sbnpack_frame_st) (sp : sbnpack_st)
  (id station time awips body : list Z) (prod sbn flag i : Z)
  (s : fstate) (e : pctl_element_st)
  (Hjunkf : zlen (sp_frame junkf) = FRAME_SIZE_MAX) (Hsp : sbnpack_wf sp)
  (Hid : zlen id = 6 /\ Forall (fun c => isalnum c = true) id)
  (Hstation : zlen station = 4 /\ Forall (fun c => isalpha c = true) station)
  (Htime : zlen time = 6 /\ Forall (fun c => isdigit c = true) time)
  (Hawips : zlen awips = 6 /\ word awips)
  (Hawips0 : exists c s, awips = c :: s /\ isalpha c = true)
  (Hs : fstate_wf g s) (Hi : 0 <= i < num_activechannels (f_pctl s))
  (Hfree : activepce (f_pctl s) !! Z.to_nat i = Some e) (Hopen : open_pce e = 0)
  (Hex : pctldb_exact (pctldb (f_pctl s))) :
  let w := WmoHeader id station time awips [] in
  let c := wmo_heading id station time awips ++ body in
  np_regex_match (fname_text w) <> 1 ->
  zlen c + 24 < 65535 * 4000 -> zlen c + 24 <= zlen junk ->
  queue_room (pctldb (f_pctl s)) (zlen c + 24) ->
  exists sp' packets,
    init_sbnpack junk junkf sp (Some c) prod sbn flag = Done (0, sp') /\
    write_sbnpack (fun n => n) sp' = Done (0, packets) /\
    Forall (fun d => 0 < zlen d <= 4068) packets /\
    forall fs, Forall2 holds packets fs -> Forall (fun f => np_channel_index f = i) fs ->
    exists s', run_frames g fs s = Done (replicate (length fs) 0, s') /\
      delivered g i (u32 prod) w (ccb_bytes ++ c) s s'.
Proof.
  intros w c Hre Hc Hj Hroom. pose proof (zlen_nonneg body).
  assert (zlen (wmo_heading id station time awips) = 30) as Hwl.
  { unfold wmo_heading. rewrite zlen_app, zlen_cons, zlen_app, zlen_wmo_line, (proj1 Hawips) by done. done. }
  assert (30 <= zlen c) as Hc30 by (subst c; rewrite zlen_app; lia).
  assert (zlen (ccb_bytes ++ c) = 24 + zlen c) as Hdl by (rewrite zlen_app; done).
  destruct (sbnpack_writes junk junkf Hjunkf ltac:(intros; apply Hmem; lia) sp c prod sbn flag Hsp Hc Hj)
    as (sp' & E & Ew & Ecat).
  exists sp'. eexists. split; [exact E|]. split; [exact Ew|]. clear E Ew.
  set (data := ccb_bytes ++ c) in *. set (n := zlen data / 4000 + 1) in *.
  set (last := zlen data mod 4000) in *.
  destruct (frame_params_range data n last) as (Hn & Hlast & Hdn); [subst data; lia|done|done|].
  split.
  { apply list.Forall_forall. intros d Hd. apply list_elem_of_fmap in Hd as (k & -> & Hk%elem_of_seqZ).
    rewrite (packet_length data n last prod sbn flag Hlast Hdn) by lia. pose proof (blk_size_range n last Hlast k).
    pose proof (hdr_size_range k). lia. }
  intros fs Hfs Hch. assert (Z.of_nat (Z.to_nat n) = n) as Hnn by lia. rewrite <- Hnn in Hfs at 2.
  destruct (packets_product_frames data n last prod sbn flag Hn Hlast Hdn (ex_intro _ c eq_refl) i
    (Z.to_nat n) 0 fs) as (f & fs' & u & us & -> & Hf & V & Hp & Hpay & Hl);
    [lia|lia|lia|done|done|].
  rewrite Hnn in Hpay, Hl.
  assert (concat (frame_payload <$> (u :: us)) = data) as Epay.
  { rewrite <- Ecat, <- Hpay. done. }
  destruct (pv_first _ _ _ _ _ _ V eq_refl) as (Vf & Vn & _ & Vs).
  assert (30 <= pdata_size u) as H30.
  { rewrite Vs. unfold blk_size. subst data. destruct (Z.eqb_spec 0 (n - 1)); lia. }
  destruct (first_packet_text data n last prod sbn flag Hn Hlast Hdn f u c eq_refl Hf V) as (rest & Et).
  destruct (run_product g Hg Hmem i (u32 prod) w f u fs' us s e) as (s' & Er & _ & Hd); try done.
  - split; [|split; [done|split; [left|by destruct V]]].
    + eapply split_heading; try done; [by destruct V|].
      rewrite Et. subst c. unfold ztake. rewrite take_app, <- app_assoc, take_ge; [done|].
      unfold zlen in Hwl. lia.
    + rewrite Vf. apply transfer_flags_cases.
  - left. by rewrite Vn, Hl.
  - rewrite Epay. subst data. by rewrite Hdl, Z.add_comm.
  - exists s'. split; [done|]. by rewrite Epay in Hd.
Qed.
End delivery.

(** ** Witness *)

#[local] Existing Instances demo_heap demo_heap_spec demo_clock demo_clock_spec
  demo_zlib demo_zlib_spec demo_regex list_db_reliable.

(** a file that fills two packets *)
Definition demo_heading : list Z :=
  wmo_heading (wmo_id demo_wmo) (wmo_station demo_wmo) (wmo_time demo_wmo) (wmo_awips demo_wmo).
Definition demo_body : list Z := replicate (Z.to_nat 5000) 66.

Lemma recv_holds raw :
  forallb (fun b => (0 <=? b) && (b <? 256)) raw && (zlen raw + 9 <=? 5200) = true ->
  holds raw (recv_frame raw).
Proof.
  intros [Hb Hl%Z.leb_le]%andb_true_iff. pose proof (zlen_nonneg raw).
  split; [apply recv_frame_wf|split].
  - rewrite forallb_forall in Hb. apply Forall_forall. intros b Hin.
    specialize (Hb b Hin).
    apply andb_true_iff in Hb as [?%Z.leb_le ?%Z.ltb_lt]. done.
  - cbn [recv_frame rawdata_size]. lia.
  - exists (replicate (Z.to_nat (5200 - zlen raw)) 0). split_and!.
    + cbn [recv_frame rawdata]. unfold ztake. rewrite take_app. unfold zlen in *. f_equal.
      * apply take_ge. lia.
      * rewrite take_replicate. f_equal. lia.
    + destruct (Z.to_nat (5200 - zlen raw)) eqn:E; [lia|]. left.
    + rewrite zlen_replicate. lia.
Qed.

(** packets received one after the other *)
Definition demo_packets : list (list Z) :=
  let data := ccb_bytes ++ demo_heading ++ demo_body in
  map (packet data 2 1054 11 22 0) [0; 1].
