(* ===== verification/Nreadn.v ===== *)
(** * Nreadn: src/src/nreadn.c, reads and writes with a timeout

    The functions that read from and write to sockets and fifos: [read1] and
    [write1] wait in [poll] a number of times and transfer once; [sreadm] and
    [writem] repeat them until everything has been transferred.

    A descriptor is the list of what happens on it ([event]), and the answers
    of the function that interrupts the retries. The list is the input of the
    model: nothing is assumed of it. The descriptors are non-blocking, and the
    duration of the waits is left out. *)

From S2P Require Import Prelude.

(** ** Descriptors *)

Inductive event :=
| EvTimeout                (* poll times out *)
| EvPollErr                (* poll fails *)
| EvOther                  (* poll returns without POLLIN or POLLOUT *)
| EvData (d : list Z)      (* POLLIN, [d] can be read *)
| EvEof                    (* POLLIN, read returns 0 *)
| EvReadErr                (* POLLIN, read fails *)
| EvRoom (n : Z)           (* POLLOUT, [n] bytes can be written *)
| EvWriteErr.              (* POLLOUT, write fails *)

(** [intr]: the next values of [retry_interrupt()], then always 0; [sent] is
    what has been written *)
Record fd_st := Fd {
  events : list event;
  intr : list Z;
  sent : list Z
}.

Definition set_events v (f : fd_st) := Fd v (intr f) (sent f).

(** [poll]: its value. An event that can be read or written stays *)
Definition sys_poll (f : fd_st) : Z * fd_st :=
  match events f with
  | [] => (0, f)
  | EvTimeout :: r => (0, set_events r f)
  | EvPollErr :: r => (-1, set_events r f)
  | _ => (1, f)
  end.

(** [read]: its value and the bytes; -1 when there is nothing to read *)
Definition sys_read (f : fd_st) (size : Z) : Z * list Z * fd_st :=
  match events f with
  | EvData d :: r =>
      (Z.min size (zlen d), ztake size d,
       set_events (if zlen d <=? size then r else EvData (zdrop size d) :: r) f)
  | EvEof :: _ => (0, [], f)
  | EvReadErr :: r => (-1, [], set_events r f)
  | _ => (-1, [], f)
  end.

(** [write] of the bytes [d] *)
Definition sys_write (f : fd_st) (d : list Z) : Z * fd_st :=
  match events f with
  | EvRoom n :: r =>
      (Z.min n (zlen d),
       Fd (if n <=? zlen d then r else EvRoom (n - zlen d) :: r) (intr f)
         (sent f ++ ztake n d))
  | EvWriteErr :: r => (-1, set_events r f)
  | _ => (-1, f)
  end.

(** ** The functions *)

Definition get_retry_interrupt (f : fd_st) : Z * fd_st :=
  match intr f with
  | [] => (0, f)
  | r :: l => (r, Fd (events f) l (sent f))
  end.

(** the [for] loop around [poll], with [n] iterations left *)
Fixpoint poll_loop (n : nat) (f : fd_st) : Z * fd_st :=
  match n with
  | O => (0, f)
  | S n' =>
      let (r, f) := get_retry_interrupt f in
      if negb (r =? 0) then (0, f)
      else
        let (status, f) := sys_poll f in
        if status =? 0 then poll_loop n' f else (status, f)
  end.

(** [retry] and one iterations, at least one *)
Definition tries (retry : Z) : nat := S (Z.to_nat (if retry <? 0 then 0 else retry)).

(** what [read1] returns, and the bytes read *)
Definition read1 (f : fd_st) (size retry : Z) : Z * list Z * fd_st :=
  let (status, f) := poll_loop (tries retry) f in
  if status =? 0 then (-2, [], f)
  else if status =? -1 then (-1, [], f)
  else
    match events f with
    | EvData _ :: _ | EvEof :: _ | EvReadErr :: _ => sys_read f size
    | _ :: r => (0, [], set_events r f)
    | [] => (0, [], f)
    end.

Definition write1 (f : fd_st) (d : list Z) (retry : Z) : Z * fd_st :=
  let (status, f) := poll_loop (tries retry) f in
  if status =? -1 then (-1, f)
  else if 0 <? status then
    match events f with
    | EvRoom _ :: _ | EvWriteErr :: _ => sys_write f d
    | _ :: r => (0, set_events r f)
    | [] => (0, f)
    end
  else (0, f).

(** the loop of [sreadm] into [&a[off]], with [i] bytes read so far; each
    iteration that goes on reads at least one byte, so [fuel] is [size] *)
Fixpoint sreadm_loop (fuel : nat) (f : fd_st) (a : list Z) (off i size retry : Z)
    (eof : option Z) : outcome (Z * list Z * option Z * fd_st) :=
  if size <=? i then Done (i, a, eof, f) else
  match fuel with
  | O => Undef
  | S fuel' =>
      let '(n, d, f) := read1 f (size - i) retry in
      let* a := wr a (off + i) d in
      if n <? 0 then
        if (n =? -2) && (0 <? i) then Done (i, a, option_map (fun _ => 0) eof, f)
        else Done (n, a, eof, f)
      else if n =? 0 then Done (i, a, option_map (fun _ => 1) eof, f)
      else sreadm_loop fuel' f a off (i + n) size retry eof
  end.

(** the value, the buffer, [*eof] (unless it is NULL) and the descriptor *)
Definition sreadm (f : fd_st) (a : list Z) (off size retry : Z) (eof : option Z)
  : outcome (Z * list Z * option Z * fd_st) :=
  sreadm_loop (Z.to_nat size) f a off 0 size retry eof.

Definition readm (f : fd_st) (a : list Z) (off size retry : Z)
  : outcome (Z * list Z * fd_st) :=
  let* (n, a, _, f) := sreadm f a off size retry None in Done (n, a, f).

Definition sreadn := sreadm.
Definition readn := readm.

Fixpoint writem_loop (fuel : nat) (f : fd_st) (d : list Z) (i size retry : Z) : Z * fd_st :=
  if size <=? i then (i, f) else
  match fuel with
  | O => (i, f)
  | S fuel' =>
      let (n, f) := write1 f (zsub i (size - i) d) retry in
      if n =? -1 then (-1, f)
      else if n =? 0 then (i, f)
      else writem_loop fuel' f d (i + n) size retry
  end.
Definition writem (f : fd_st) (d : list Z) (size retry : Z) : Z * fd_st :=
  writem_loop (Z.to_nat size) f d 0 size retry.
Definition writen := writem.

(** after a timeout, one more [read] tells if the fifo has been closed *)
Definition readm_fifo (f : fd_st) (a : list Z) (off size : Z) : outcome (Z * list Z * fd_st) :=
  let* (n, a, f) := readm f a off size 0 in
  if n =? -2 then
    let '(m, d, f) := sys_read f size in
    let* a := wr a off d in
    Done (if m =? 0 then 0 else n, a, f)
  else Done (n, a, f).
Definition readn_fifo := readm_fifo.

(** the loop of [dpgets], with [b] bytes in [buf] *)
Fixpoint dpgets_loop (fuel : nat) (f : fd_st) (buf : list Z) (b size : Z)
  : outcome (option Z * list Z * fd_st) :=
  if b + 1 <? size then
    match fuel with
    | O => Undef
    | S fuel' =>
        let '(n, d, f) := sys_read f 1 in
        if n <? 0 then Done (None, buf, f)
        else if n =? 0 then Done (Some b, buf, f)
        else
          let* c := rd d 0 in
          let* buf := wr buf b [c] in
          if c =? 10 then Done (Some (b + 1), buf, f)
          else dpgets_loop fuel' f buf (b + 1) size
    end
  else Done (Some b, buf, f).
Definition dpgets (f : fd_st) (buf : list Z) (size : Z) : outcome (Z * list Z * fd_st) :=
  let* (r, buf, f) := dpgets_loop (Z.to_nat size) f buf 0 size in
  match r with
  | None => Done (-1, buf, f)
  | Some b => let* buf := wr buf b [0] in Done (b, buf, f)
  end.

(** ** Lemmas *)

Definition ev_data (e : event) : list Z := match e with EvData d => d | _ => [] end.
(** the bytes that are still to be read *)
Definition stream (f : fd_st) : list Z := concat (map ev_data (events f)).

(** the data arrives with no pause and no error *)
Definition data_only (f : fd_st) : Prop :=
  intr f = [] /\ Forall (fun e => exists d, e = EvData d /\ d <> []) (events f).

Lemma sys_poll_spec f st f' : sys_poll f = (st, f') ->
  stream f' = stream f /\ (st = 0 \/ st = -1 \/ st = 1) /\
  (data_only f -> stream f <> [] -> st = 1) /\ (data_only f -> data_only f') /\ sent f' = sent f.
Proof.
  unfold sys_poll, stream, data_only. destruct f as [ev it sn]. cbn [events intr sent].
  destruct ev as [|[] ev]; intros [= <- <-]; cbn; split_and!; auto; try done;
    intros [_ [(? & ? & ?) ?]%Forall_cons_iff]; naive_solver.
Qed.

Lemma intr_spec f r f' : get_retry_interrupt f = (r, f') ->
  stream f' = stream f /\ (data_only f -> r = 0 /\ data_only f') /\ sent f' = sent f.
Proof.
  unfold get_retry_interrupt, stream, data_only. destruct (intr f) eqn:E; intros [= <- <-]; [by rewrite E|].
  split_and!; try done. by intros [].
Qed.

Lemma poll_loop_spec n f st f' : poll_loop n f = (st, f') ->
  stream f' = stream f /\ (st = 0 \/ st = -1 \/ st = 1) /\
  ((0 < n)%nat -> data_only f -> stream f <> [] -> st = 1) /\ (data_only f -> data_only f') /\
  sent f' = sent f.
Proof.
  revert f. induction n as [|n IH]; intros f; cbn [poll_loop].
  { intros [= <- <-]. split_and!; auto. lia. }
  destruct (get_retry_interrupt f) as [r f1] eqn:E1. apply intr_spec in E1 as (E1 & D1 & S1).
  destruct (Z.eqb_spec r 0) as [->|Hr]; cbn [negb].
  2: { intros [= <- <-]. split_and!; auto; naive_solver. }
  destruct (sys_poll f1) as [st1 f2] eqn:E2. apply sys_poll_spec in E2 as (E2 & H2 & N2 & D2 & S2).
  destruct (Z.eqb_spec st1 0) as [->|Hs].
  - intros (E3 & H3 & N3 & D3 & S3)%IH. rewrite E3, E2, E1, S3, S2, S1. split_and!; auto; [|tauto].
    intros _ Hd Hne. rewrite E1 in N2. destruct (D1 Hd) as [_ Hd1]. specialize (N2 Hd1 Hne). lia.
  - intros [= <- <-]. rewrite E2, E1, S2, S1. rewrite E1 in N2. split_and!; auto; [|tauto].
    intros _ Hd Hne. apply N2; tauto.
Qed.

Lemma stream_data ev d : concat (map ev_data (EvData d :: ev)) = d ++ concat (map ev_data ev).
Proof. done. Qed.

Lemma read1_spec f size retry n d f' : 0 < size -> read1 f size retry = (n, d, f') ->
  stream f = d ++ stream f' /\ zlen d <= size /\ (n < 0 -> (n = -1 \/ n = -2) /\ d = []) /\
  (0 <= n -> n = zlen d) /\
  (data_only f -> data_only f') /\ (data_only f -> stream f <> [] -> 0 < n).
Proof.
  intros Hsz. unfold read1. destruct (poll_loop (tries retry) f) as [st f1] eqn:E.
  apply poll_loop_spec in E as (E & Hst & Hn & Hd & _).
  specialize (Hn ltac:(unfold tries; lia)).
  assert (forall m, stream f1 = stream f -> m = -1 \/ m = -2 ->
    (m, [], f1) = (n, d, f') -> st <> 1 ->
    stream f = d ++ stream f' /\ zlen d <= size /\ (n < 0 -> (n = -1 \/ n = -2) /\ d = []) /\
    (0 <= n -> n = zlen d) /\
    (data_only f -> data_only f') /\ (data_only f -> stream f <> [] -> 0 < n)) as Hnone.
  { intros m Es Hm [= <- <- <-] Hst1. rewrite Es, zlen_nil. split_and!; auto; try lia.
    intros. exfalso. auto. }
  destruct (Z.eqb_spec st 0) as [->|]; [intros; apply (Hnone (-2)); auto; lia|].
  destruct (Z.eqb_spec st (-1)) as [->|]; [intros; apply (Hnone (-1)); auto; lia|].
  clear Hnone. rewrite <- E. unfold stream, sys_read.
  destruct (events f1) as [|[] ev] eqn:Ev; intros [= <- <- <-]; cbn [set_events events];
    rewrite ?Ev, ?zlen_nil; split_and!; auto; try lia; try done;
    try (intros Hdo; specialize (Hd Hdo) as [Hi Hf]; rewrite Ev in Hf;
         apply Forall_cons_iff in Hf as [(d' & Hd' & Hne) Hf]; try done).
  - rewrite stream_data. destruct (Z.leb_spec (zlen d0) size).
    + by rewrite ztake_ge.
    + rewrite stream_data, app_assoc, ztake_zdrop. done.
  - unfold ztake, zlen. rewrite length_take. lia.
  - pose proof (zlen_nonneg d0). lia.
  - intros. unfold ztake, zlen. rewrite length_take. lia.
  - split; [done|]. cbn [events set_events]. destruct (Z.leb_spec (zlen d0) size); [done|].
    constructor; [|done]. eexists. split; [done|]. intros En. apply (f_equal zlen) in En.
    rewrite zlen_drop, zlen_nil in En; lia.
  - injection Hd' as ->. intros _. destruct d'; [done|]. rewrite zlen_cons.
    pose proof (zlen_nonneg d'). lia.
Qed.

(** what [sreadm] leaves: [d] is read from the descriptor and put in the buffer *)
Definition read_into (f f' : fd_st) (a a' : list Z) (off : Z) (d : list Z) : Prop :=
  stream f = d ++ stream f' /\ wr a off d = Done a'.

Lemma wr_wr {A} (a a1 : list A) off d d' : wr a off d = Done a1 ->
  0 <= off -> off + zlen d + zlen d' <= zlen a ->
  wr a1 (off + zlen d) d' = wr a off (d ++ d').
Proof.
  intros E Ho Hl. pose proof (zlen_nonneg d). pose proof (zlen_nonneg d').
  rewrite wr_ok in E by lia. injection E as <-.
  rewrite (wr_ok a off) by (rewrite ?zlen_app; lia). rewrite zlen_app, app_assoc.
  rewrite wr_app; [|rewrite zlen_app, zlen_take; lia|rewrite zlen_drop; lia].
  rewrite <- !app_assoc, zdrop_drop by lia. do 5 f_equal. lia.
Qed.

Lemma sreadm_loop_spec fuel : forall f a off i size retry eof,
  0 <= off -> 0 <= i <= size -> off + size <= zlen a -> size - i <= Z.of_nat fuel ->
  exists n a' eof' f' d,
    sreadm_loop fuel f a off i size retry eof = Done (n, a', eof', f') /\
    read_into f f' a a' (off + i) d /\ i + zlen d <= size /\
    (0 <= n -> n = i + zlen d) /\ (n < 0 -> n = -1 \/ n = -2 /\ d = [] /\ i = 0) /\
    (data_only f -> data_only f' /\ (size - i <= zlen (stream f) -> n = size)).
Proof.
  induction fuel as [|fuel IH]; intros f a off i size retry eof Ho Hi Ha Hf; cbn [sreadm_loop];
    pose proof (zlen_nonneg a).
  { destruct (Z.leb_spec size i); [|lia]. exists i, a, eof, f, []. unfold read_into.
    rewrite wr_ok by (rewrite ?zlen_nil; lia). cbn [app]. rewrite zlen_nil, Z.add_0_r, ztake_zdrop.
    split_and!; try done; try lia. intros. split; [done|lia]. }
  destruct (Z.leb_spec size i).
  { exists i, a, eof, f, []. unfold read_into.
    rewrite wr_ok by (rewrite ?zlen_nil; lia). cbn [app]. rewrite zlen_nil, Z.add_0_r, ztake_zdrop.
    split_and!; try done; try lia. intros. split; [done|lia]. }
  destruct (read1 f (size - i) retry) as [[n d] f1] eqn:E.
  apply read1_spec in E as (Es & Hd & Hneg & Hpos & Hdo & Hprog); [|lia].
  pose proof (zlen_nonneg d).
  destruct (wr a (off + i) d) as [a1| |] eqn:Ew; [|rewrite wr_ok in Ew by lia; done..]. cbn [obind].
  assert (data_only f -> size - i <= zlen (stream f) -> 0 < n) as Hprog'.
  { intros Hf1 Hl. apply Hprog; [done|]. intros En. rewrite En, zlen_nil in Hl. lia. }
  destruct (Z.ltb_spec n 0) as [Hn|Hn].
  { destruct (Hneg Hn) as [Hn' ->]. rewrite zlen_nil in *.
    destruct (Z.eqb_spec n (-2)); cbn [andb]; [destruct (Z.ltb_spec 0 i)|].
    all: eexists _, _, _, _, []; split_and!; [reflexivity|split; [exact Es|exact Ew]|..].
    all: pose proof (@zlen_nil Z); try lia.
    all: first [intros _; right; split_and!; done || lia | intros _; left; lia
               |intros ?; split; [by apply Hdo|]; intros Hl;
                specialize (Hprog' ltac:(done) Hl); lia]. }
  specialize (Hpos Hn). destruct (Z.eqb_spec n 0) as [->|Hn0].
  { eexists _, _, _, _, d. split_and!; [reflexivity|split; [exact Es|exact Ew]|lia..|].
    intros ?. split; [by apply Hdo|]. intros Hl. specialize (Hprog' ltac:(done) Hl). lia. }
  pose proof (wr_length _ _ _ _ Ew) as Hl1.
  destruct (IH f1 a1 off (i + n) size retry eof) as (m & a2 & eof' & f2 & d2 & -> & [Es2 Ew2] & Hb & Hp & Hm & Hc);
    [lia..|]. pose proof (zlen_nonneg d2).
  exists m, a2, eof', f2, (d ++ d2). rewrite zlen_app. split_and!; [done| |lia|lia| |].
  - split; [by rewrite Es, Es2, app_assoc|].
    rewrite <- (wr_wr a a1) by (done || lia). by rewrite <- Hpos, <- Z.add_assoc.
  - intros Hm0. destruct (Hm Hm0) as [|(? & ? & ?)]; [by left|]. lia.
  - intros Hf1. destruct (Hc (Hdo Hf1)) as [Hd2 Hc2]. split; [done|]. intros Hl.
    apply Hc2. rewrite Es, zlen_app in Hl. lia.
Qed.

Lemma sreadm_spec f a off size retry eof :
  0 <= off -> 0 <= size -> off + size <= zlen a ->
  exists n a' eof' f' d,
    sreadm f a off size retry eof = Done (n, a', eof', f') /\
    read_into f f' a a' off d /\ zlen d <= size /\
    (0 <= n -> n = zlen d) /\ (n < 0 -> n = -1 \/ n = -2 /\ d = []) /\
    (data_only f -> data_only f' /\ (size <= zlen (stream f) -> n = size)).
Proof.
  intros. destruct (sreadm_loop_spec (Z.to_nat size) f a off 0 size retry eof)
    as (n & a' & eof' & f' & d & E & Hr & Hl & Hp & Hn & Hc); [lia..|].
  rewrite Z.add_0_r in Hr. exists n, a', eof', f', d. split_and!; try done.
  - intros Hneg. destruct (Hn Hneg) as [|(? & ? & _)]; auto.
  - intros Hd. destruct (Hc Hd) as [? Hc2]. split; [done|]. intros. apply Hc2. lia.
Qed.

(** a read that the incoming data fills *)
Lemma readn_data f a off size retry :
  data_only f -> 0 <= off -> 0 <= size -> off + size <= zlen a -> size <= zlen (stream f) ->
  exists a' f', readn f a off size retry = Done (size, a', f') /\
    wr a off (ztake size (stream f)) = Done a' /\ stream f' = zdrop size (stream f) /\ data_only f'.
Proof.
  intros Hd ? ? ? Hl. destruct (sreadm_spec f a off size retry None)
    as (n & a' & eof' & f' & d & E & [Es Ew] & _ & Hp & _ & Hc); [done..|].
  destruct (Hc Hd) as [Hd' Hn]. specialize (Hn Hl). subst n. specialize (Hp ltac:(lia)).
  exists a', f'. unfold readn, readm. rewrite E. cbn [obind]. split; [done|].
  rewrite Es, ztake_app_exact, zdrop_app_exact by done. done.
Qed.

(** ** Writing *)

Definition room_ok (e : event) : Prop := match e with EvRoom n => 0 < n | _ => True end.

Lemma poll_loop_room n f st f' : poll_loop n f = (st, f') ->
  Forall room_ok (events f) -> Forall room_ok (events f').
Proof.
  revert f. induction n as [|n IH]; intros f; cbn [poll_loop]; [by intros [= _ <-]|].
  unfold get_retry_interrupt, sys_poll.
  destruct f as [ev [|r it] sn]; cbn [intr events sent];
    [|destruct (r =? 0); cbn [negb]; [|by intros [= _ <-]]].
  all: destruct ev as [|[] ev]; cbn [Z.eqb events]; intros E HF;
    (by injection E as _ <-) || (by eapply IH; [exact E|]; by inversion HF)
    || (injection E as _ <-; by inversion HF).
Qed.

Lemma write1_spec f d retry n f' : write1 f d retry = (n, f') -> Forall room_ok (events f) ->
  Forall room_ok (events f') /\ -1 <= n <= zlen d /\ sent f' = sent f ++ ztake n d.
Proof.
  unfold write1. destruct (poll_loop (tries retry) f) as [st f1] eqn:E. intros E1 HF.
  pose proof (poll_loop_room _ _ _ _ E HF) as HF1.
  apply poll_loop_spec in E as (_ & _ & _ & _ & <-). pose proof (zlen_nonneg d).
  assert (forall m f2, (m, f2) = (n, f') -> -1 <= m <= 0 -> events f2 = events f1 \/
    (exists e, events f1 = e :: events f2) -> sent f2 = sent f1 ->
    Forall room_ok (events f') /\ -1 <= n <= zlen d /\ sent f' = sent f1 ++ ztake n d) as Hnone.
  { intros m f2 [= <- <-] Hm He ->. split; [|split; [lia|]].
    - destruct He as [->|[e He]]; [done|]. rewrite He in HF1. by inversion HF1.
    - unfold ztake. replace (Z.to_nat m) with 0%nat by lia. by rewrite app_nil_r. }
  destruct (Z.eqb_spec st (-1)); [eapply Hnone; eauto; lia|].
  destruct (Z.ltb_spec 0 st); [|eapply Hnone; eauto; lia].
  unfold sys_write in E1. destruct (events f1) as [|[] ev] eqn:Ev;
    try (eapply Hnone; [exact E1|lia| |done]; cbn; eauto; done).
  injection E1 as <- <-. cbn [events sent]. inversion HF1 as [|? ? Hr HF2]; subst. cbn in Hr.
  split_and!; [|lia|lia|].
  - destruct (Z.leb_spec n1 (zlen d)); [done|]. constructor; [cbn; lia|done].
  - f_equal. unfold ztake, zlen in *. destruct (Z.min_spec n1 (Z.of_nat (length d))) as [[? ->]|[? ->]]; [done|].
    rewrite Nat2Z.id, !take_ge by lia. done.
Qed.

Lemma writem_loop_spec fuel : forall f d i size retry,
  Forall room_ok (events f) -> 0 <= i <= size -> size <= zlen d -> size - i <= Z.of_nat fuel ->
  exists n f', writem_loop fuel f d i size retry = (n, f') /\ -1 <= n <= size /\
    exists k, i <= k <= size /\ sent f' = sent f ++ zsub i (k - i) d /\ (0 <= n -> n = k).
Proof.
  induction fuel as [|fuel IH]; intros f d i size retry HF Hi Hd Hf; cbn [writem_loop];
    (destruct (Z.leb_spec size i);
     [exists i, f; split_and!; [done|lia|lia|]; exists i; split_and!; [lia|lia| |done];
      rewrite Z.sub_diag; unfold zsub; by rewrite ztake_0, app_nil_r|]); [lia|].
  destruct (write1 f (zsub i (size - i) d) retry) as [n f1] eqn:E.
  apply write1_spec in E as (HF1 & Hn & Es); [|done]. rewrite zlen_sub in Hn by lia.
  assert (forall m, 0 <= m <= size - i -> ztake m (zsub i (size - i) d) = zsub i m d) as Ht.
  { intros m Hm. unfold zsub, ztake. rewrite take_take. f_equal. lia. }
  destruct (Z.eqb_spec n (-1)) as [->|].
  { exists (-1), f1. split_and!; [done|lia|lia|]. exists i. split_and!; [lia|lia| |lia].
    rewrite Es, Z.sub_diag. done. }
  rewrite Ht in Es by lia. destruct (Z.eqb_spec n 0) as [->|].
  { exists i, f1. split_and!; [done|lia|lia|]. exists i. split_and!; [lia|lia| |done].
    by rewrite Es, Z.sub_diag. }
  destruct (IH f1 d (i + n) size retry) as (m & f2 & -> & Hm & k & Hk & Es2 & Hmk); [done|lia..|].
  exists m, f2. split_and!; [done|lia|lia|]. exists k. split_and!; [lia|lia| |done].
  rewrite Es2, Es, <- app_assoc. f_equal. unfold zsub, ztake, zdrop.
  replace (Z.to_nat (k - i)) with (Z.to_nat n + Z.to_nat (k - (i + n)))%nat by lia.
  rewrite <- take_take_drop. f_equal. rewrite drop_drop. do 2 f_equal. lia.
Qed.

(** a write that says that everything was written *)
Lemma writem_loop_room fuel : forall f d i size retry n f',
  writem_loop fuel f d i size retry = (n, f') -> Forall room_ok (events f) -> Forall room_ok (events f').
Proof.
  induction fuel as [|fuel IH]; intros f d i size retry n f'; cbn [writem_loop];
    (destruct (size <=? i); [by intros [= _ <-]|]); [by intros [= _ <-]|].
  destruct (write1 f (zsub i (size - i) d) retry) as [m f1] eqn:E. intros E2 HF.
  apply write1_spec in E as (HF1 & _); [|done].
  destruct (m =? -1); [by injection E2 as _ <-|]. destruct (m =? 0); [by injection E2 as _ <-|]. by eapply IH.
Qed.

Lemma writem_full f d size retry f' : writem f d size retry = (size, f') -> Forall room_ok (events f) ->
  0 <= size <= zlen d -> sent f' = sent f ++ ztake size d /\ Forall room_ok (events f').
Proof.
  intros E HF Hs. unfold writem in E. split; [|by eapply writem_loop_room].
  destruct (writem_loop_spec (Z.to_nat size) f d 0 size retry HF) as (n & f1 & E1 & Hn & k & Hk & Es & Hnk);
    [lia|lia|lia|]. rewrite E in E1. injection E1 as <- <-. rewrite Es, Hnk, Z.sub_0_r by lia.
  unfold zsub. by rewrite zdrop_0.
Qed.

(** C24: Reading with a timeout. Whatever happens on the descriptor, reading
    [size] bytes ends, without writing outside the buffer; the bytes put in
    the buffer are the ones that were taken from the descriptor, in order, and
    no byte is lost: a value that is not negative is their number, -2 means
    that nothing was read, and when the data keeps coming the value is
    [size]. *)
Theorem sreadm_correct (f : fd_st) (a : list Z) (off size retry : Z) (eof : option Z)
  (Ho : 0 <= off) (Hs : 0 <= size) (Ha : off + size <= zlen a) :
  exists n a' eof' f' d,
    sreadm f a off size retry eof = Done (n, a', eof', f') /\
    stream f = d ++ stream f' /\ wr a off d = Done a' /\ zlen d <= size /\
    (0 <= n -> n = zlen d) /\ (n < 0 -> n = -1 \/ n = -2 /\ d = []) /\
    (data_only f -> size <= zlen (stream f) -> n = size).
Proof.
  destruct (sreadm_spec f a off size retry eof) as (n & a' & eof' & f' & d & E & [] & H); [done..|].
  destruct H as (? & ? & ? & Hc). exists n, a', eof', f', d. split_and!; try done.
  intros Hd. by apply Hc.
Qed.

(** Writing with a timeout. Whatever happens on the descriptor, what is
    sent is a prefix of the data, and a value that is not negative is its
    length. *)
Theorem writem_correct (f : fd_st) (d : list Z) (size retry : Z)
  (HF : Forall room_ok (events f)) (Hs : 0 <= size <= zlen d) :
  exists n f' k, writem f d size retry = (n, f') /\ -1 <= n <= size /\ 0 <= k <= size /\
    sent f' = sent f ++ ztake k d /\ (0 <= n -> n = k).
Proof.
  destruct (writem_loop_spec (Z.to_nat size) f d 0 size retry) as (n & f' & E & Hn & k & Hk & Es & Hnk);
    [done|lia..|].
  exists n, f', k. rewrite Z.sub_0_r in Es. by split_and!; try lia.
Qed.

(** ** Witnesses *)

(** two chunks with a timeout between them *)
Definition demo_fd : fd_st := Fd [EvData [1; 2]; EvTimeout; EvData [3; 4; 5]] [] [].

Lemma sreadm_correct_witness :
  exists n a' eof' f', sreadm demo_fd (replicate 6 0) 1 4 3 (Some 0) = Done (n, a', eof', f') /\
    n = 4 /\ a' = [0; 1; 2; 3; 4; 0] /\ stream f' = [5].
Proof.
  destruct (sreadm_correct demo_fd (replicate 6 0) 1 4 3 (Some 0))
    as (n & a' & eof' & f' & d & E & Es & Ew & _ & Hn & _).
  - lia.
  - lia.
  - vm_compute. congruence.
  - exists n, a', eof', f'. split; [exact E|]. vm_compute in E. injection E as <- <- <- <-. done.
Defined.

Lemma writem_correct_witness :
  exists n f' k, writem (Fd [EvTimeout; EvRoom 2; EvRoom 5] [] []) [7; 8; 9] 3 1 = (n, f') /\
    n = 3 /\ sent f' = ztake k [7; 8; 9] /\ k = 3.
Proof.
  destruct (writem_correct (Fd [EvTimeout; EvRoom 2; EvRoom 5] [] []) [7; 8; 9] 3 1)
    as (n & f' & k & E & _ & _ & Es & Hk).
  - repeat constructor.
  - by vm_compute.
  - exists n, f', k. split; [exact E|]. vm_compute in E. injection E as <- <-.
    split; [done|]. split; [exact Es|]. symmetry. by apply Hk.
Defined.
