(* ===== verification/Packfp.v ===== *)
(** * Packfp: src/src/packfp.c, src/src/packfpu.c and src/src/pack.c

    The packets that tell the filters, the servers and the NBS2 clients that a
    product has been saved: an envelope with the type, the size and a checksum
    of the data, then the identification of the product, its name and the path
    of its file. *)

From S2P Require Import Prelude Util CLib Mfile Sbn Pctldb Pctl Nreadn.

Definition NBS_ENVELOPE_SIZE : Z := 12.
Definition PACKID_FDATA : Z := 1.
Definition PACKID_FPATH : Z := 2.
Definition NBSFP_PINFO_SIZE : Z := 8 + FNAME_SIZE + 1.

(** [pi_fname] and [pi_fpath] are offsets inside the packet *)
Record packet_info_st := PacketInfo {
  pi_seq_number : Z;
  pi_product_type : Z;
  pi_product_category : Z;
  pi_product_code : Z;
  pi_np_channel_index : Z;
  pi_fname : option Z;
  pi_fpath : option Z;
  pi_packet : option (list Z);
  pi_packet_size : Z
}.

(** the text in an array, which may fill it *)
Fixpoint text_of (a : list Z) : list Z :=
  match a with
  | [] => []
  | c :: a => if c =? 0 then [] else c :: text_of a
  end.

(** ** Packing *)

Definition nbs_pack_envelope (packet : list Z) (dataid data_size : Z)
  : outcome (Z * list Z) :=
  let* p := pack_uint32 packet dataid 0 in
  let* p := pack_uint32 p data_size 4 in
  let* checksum := calc_checksum (zdrop NBS_ENVELOPE_SIZE p) data_size in
  let* p := pack_uint32 p checksum 8 in
  Done (0, p).

Definition nbsfp_pack_fpath (pi : packet_info_st) (pce : pctl_element_st)
  : outcome (Z * packet_info_st) :=
  let fsize := u64 (fpath_size pce) in
  let data_size := u64 (NBSFP_PINFO_SIZE + fsize) in
  let packet_size := u64 (data_size + NBS_ENVELOPE_SIZE) in
  match pi_packet pi with
  | None => Abrt
  | Some p =>
      c_assert (pi_packet_size pi =? packet_size)
        (let data := NBS_ENVELOPE_SIZE in
         let* p := wrs p data
           [(0, split32 (u32 (seq_number pce)));
            (4, [u8 (psh_product_type pce)]);
            (5, [u8 (psh_product_category pce)]);
            (6, [u8 (psh_product_code pce)]);
            (7, [u8 (pce_np_channel_index pce)]);
            (8, strncpy_bytes (text_of (fname pce)) (FNAME_SIZE + 1));
            (NBSFP_PINFO_SIZE, strncpy_bytes (fpath pce) fsize)] in
         let* (status, p) := nbs_pack_envelope p PACKID_FPATH data_size in
         Done (status,
           PacketInfo (seq_number pce) (psh_product_type pce) (psh_product_category pce)
             (psh_product_code pce) (pce_np_channel_index pce) (pi_fname pi)
             (Some (data + NBSFP_PINFO_SIZE)) (Some p) (pi_packet_size pi)))
  end.

Definition const_fpath_packet_maxsize (spooldir : list Z) : Z :=
  const_fpath_maxsize spooldir + 1 + NBSFP_PINFO_SIZE + NBS_ENVELOPE_SIZE.

Section packetinfo.
Context `{Hp : Heap}.

(** [junk] is what the allocated memory holds *)
Definition nbsfp_packetinfo_init (spooldir junk : list Z) (pi : packet_info_st)
  : Z * packet_info_st :=
  let size := const_fpath_packet_maxsize spooldir in
  if malloc_ok size then
    (0, PacketInfo (pi_seq_number pi) (pi_product_type pi) (pi_product_category pi)
          (pi_product_code pi) (pi_np_channel_index pi) (pi_fname pi) (pi_fpath pi)
          (Some (ztake size junk)) size)
  else
    (-1, PacketInfo (pi_seq_number pi) (pi_product_type pi) (pi_product_category pi)
           (pi_product_code pi) (pi_np_channel_index pi) (pi_fname pi) (pi_fpath pi)
           None (pi_packet_size pi)).

Definition nbsfp_packetinfo_cleanup (pi : packet_info_st) : packet_info_st :=
  PacketInfo (pi_seq_number pi) (pi_product_type pi) (pi_product_category pi)
    (pi_product_code pi) (pi_np_channel_index pi) (pi_fname pi) (pi_fpath pi) None 0.

(** [pi0]: the memory of the structure; its size is 64 bytes *)
Definition nbsfp_packetinfo_create (spooldir junk : list Z) (pi0 : packet_info_st)
  : option packet_info_st :=
  if malloc_ok 64 then
    let (status, pi) := nbsfp_packetinfo_init spooldir junk pi0 in
    if status =? 0 then Some pi else None
  else None.
End packetinfo.

(** ** Unpacking *)

(** the members are set only when the packet is good *)
Definition nbsfp_unpack_fpath (pi : packet_info_st) : outcome (Z * packet_info_st) :=
  match pi_packet pi with
  | None => Undef
  | Some p =>
      let* dataid := unpack_uint32 p 0 in
      if negb (dataid =? PACKID_FPATH) then Done (1, pi) else
      let* data_size := unpack_uint32 p 4 in
      let* transmitted_checksum := unpack_uint32 p 8 in
      let d := NBS_ENVELOPE_SIZE in
      let* calculated_checksum := calc_checksum (zdrop d p) (u64 (s32 data_size)) in
      if negb (calculated_checksum =? transmitted_checksum) then Done (1, pi) else
      let* seq := unpack_uint32 p d in
      let* type := rd p (d + 4) in
      let* category := rd p (d + 5) in
      let* code := rd p (d + 6) in
      let* channel := rd p (d + 7) in
      Done (0, PacketInfo seq (schar type) (schar category) (schar code) (schar channel)
                 (Some (d + 8)) (Some (d + 8 + FNAME_SIZE + 1)) (Some p) (pi_packet_size pi))
  end.

(** -1 read error, 0 ok, 1 not all could be read or bad type or size, 2 bad
    checksum *)
Definition recv_fp_packet (f : fd_st) (pi : packet_info_st) (retry : Z)
  : outcome (Z * packet_info_st * fd_st) :=
  match pi_packet pi with
  | None => Undef
  | Some p =>
      let with_packet p :=
        PacketInfo (pi_seq_number pi) (pi_product_type pi) (pi_product_category pi)
          (pi_product_code pi) (pi_np_channel_index pi) (pi_fname pi) (pi_fpath pi)
          (Some p) (pi_packet_size pi) in
      let* (n, p, f) := readn f p 0 NBS_ENVELOPE_SIZE retry in
      if n =? -1 then Done (-1, with_packet p, f) else
      if negb (n =? NBS_ENVELOPE_SIZE) then Done (1, with_packet p, f) else
      let* dataid := unpack_uint32 p 0 in
      if negb (dataid =? PACKID_FPATH) then Done (1, with_packet p, f) else
      let* data_size := unpack_uint32 p 4 in
      if pi_packet_size pi <? u32 (data_size + NBS_ENVELOPE_SIZE)
      then Done (1, with_packet p, f) else
      let* (n, p, f) := readn f p NBS_ENVELOPE_SIZE data_size retry in
      if n =? -1 then Done (-1, with_packet p, f) else
      if (n <? 0) || negb (n =? data_size) then Done (1, with_packet p, f) else
      let* (status, pi) := nbsfp_unpack_fpath (with_packet p) in
      Done ((if negb (status =? 0) then 2 else status), pi, f)
  end.

(** ** The bytes of a packet *)

Definition fp_data (pce : pctl_element_st) : list Z :=
  split32 (u32 (seq_number pce)) ++
  [u8 (psh_product_type pce); u8 (psh_product_category pce); u8 (psh_product_code pce);
   u8 (pce_np_channel_index pce)] ++
  strncpy_bytes (text_of (fname pce)) (FNAME_SIZE + 1) ++
  strncpy_bytes (fpath pce) (fpath_size pce).

Definition envelope (dataid : Z) (data : list Z) : list Z :=
  split32 (u32 dataid) ++ split32 (u32 (zlen data)) ++ split32 (u32 (zsum data)).

Definition fp_packet (pce : pctl_element_st) : list Z :=
  envelope PACKID_FPATH (fp_data pce) ++ fp_data pce.

(** an element whose names fit their arrays, with their terminators *)
Record pce_named (pce : pctl_element_st) : Prop := PceNamed {
  pn_fname : zlen (text_of (fname pce)) <= FNAME_SIZE;
  pn_fpath : zlen (fpath pce) < fpath_size pce < 2 ^ 31 - 100;
  pn_nonul : nonul (fpath pce);
  pn_seq : 0 <= seq_number pce < 2 ^ 32
}.

(** a packet buffer of [n] bytes *)
Definition packet_buf (pi : packet_info_st) (n : Z) : Prop :=
  pi_packet_size pi = n /\ exists p, pi_packet pi = Some p /\ zlen p = n.

Lemma strncpy_bytes_length s n : 0 <= n -> zlen (strncpy_bytes s n) = n.
Proof.
  intros. unfold strncpy_bytes, zlen, ztake. rewrite length_app, length_take, length_replicate. lia.
Qed.

Lemma strncpy_bytes_cstr s n r : nonul s -> zlen s < n -> cstr (strncpy_bytes s n ++ r) = Done s.
Proof.
  intros Hs Hn. unfold strncpy_bytes. rewrite ztake_ge by lia.
  destruct (Z.to_nat (n - zlen s)) eqn:E; [lia|]. cbn [replicate].
  rewrite <- app_assoc. by apply cstr_app.
Qed.

Lemma text_of_nonul a : nonul (text_of a).
Proof.
  induction a as [|c a IH]; cbn [text_of]; [constructor|].
  destruct (Z.eqb_spec c 0); [constructor|]. by constructor.
Qed.

Lemma fp_data_length pce : pce_named pce -> zlen (fp_data pce) = NBSFP_PINFO_SIZE + fpath_size pce.
Proof.
  intros []. pose proof (zlen_nonneg (fpath pce)). unfold fp_data.
  rewrite !zlen_app, !strncpy_bytes_length by (unfold FNAME_SIZE; lia).
  unfold NBSFP_PINFO_SIZE. change (zlen (split32 _)) with 4. change (zlen [_; _; _; _]) with 4. lia.
Qed.

Lemma calc_checksum_prefix l r n : n = zlen l -> calc_checksum (l ++ r) n = Done (u32 (zsum l)).
Proof.
  intros ->. pose proof (zlen_nonneg l). pose proof (zlen_nonneg r).
  rewrite <- calc_checksum_sum. unfold calc_checksum.
  rewrite !rdn_ok by (rewrite ?zlen_app; lia).
  unfold zsub. by rewrite !zdrop_0, ztake_app_exact, ztake_ge by lia.
Qed.

Lemma pack_envelope_prefix (h data r : list Z) dataid : zlen h = NBS_ENVELOPE_SIZE ->
  nbs_pack_envelope (h ++ data ++ r) dataid (zlen data) = Done (0, envelope dataid data ++ data ++ r).
Proof.
  intros Hh. unfold NBS_ENVELOPE_SIZE in Hh. unfold zlen in Hh.
  do 12 (destruct h as [|? h]; [cbn in Hh; lia|]). destruct h; [|cbn in Hh; lia]. clear Hh.
  pose proof (zlen_nonneg data). pose proof (zlen_nonneg r). unfold nbs_pack_envelope, pack_uint32, envelope.
  set (e1 := split32 (u32 dataid)). set (e2 := split32 (u32 (zlen data))).
  assert (zlen e1 = 4 /\ zlen e2 = 4) as [L1 L2] by done.
  rewrite wr_0 by (rewrite L1; autorewrite with zlen; lia).
  cbn [obind]. rewrite L1.
  change (zdrop 4 ([z; z0; z1; z2; z3; z4; z5; z6; z7; z8; z9; z10] ++ data ++ r))
    with ([z3; z4; z5; z6; z7; z8; z9; z10] ++ data ++ r). cbn [app].
  rewrite (wr_app e1) by (done || (rewrite L2; autorewrite with zlen; lia)).
  cbn [obind]. rewrite L2.
  change (zdrop 4 (z3 :: z4 :: z5 :: z6 :: z7 :: z8 :: z9 :: z10 :: data ++ r))
    with ([z7; z8; z9; z10] ++ data ++ r).
  assert (zdrop NBS_ENVELOPE_SIZE (e1 ++ e2 ++ [z7; z8; z9; z10] ++ data ++ r) = data ++ r) as ->.
  { rewrite (app_assoc e1), (app_assoc (e1 ++ e2)). apply zdrop_app_exact. rewrite !zlen_app, L1, L2. done. }
  rewrite calc_checksum_prefix by done. cbn [obind]. set (e3 := split32 (u32 (u32 (zsum data)))).
  assert (zlen e3 = 4) as L3 by done. rewrite (app_assoc e1 e2).
  rewrite (wr_app (e1 ++ e2)); [|rewrite zlen_app, L1, L2; done|rewrite L3; autorewrite with zlen; lia].
  cbn [obind]. rewrite L3. change (zdrop 4 ([z7; z8; z9; z10] ++ data ++ r)) with (data ++ r).
  subst e3. rewrite (u32_small (u32 _)) by apply u32_range. by rewrite <- !app_assoc.
Qed.

Lemma pack_envelope_spec (h data : list Z) dataid : zlen h = NBS_ENVELOPE_SIZE ->
  nbs_pack_envelope (h ++ data) dataid (zlen data) = Done (0, envelope dataid data ++ data).
Proof. intros Hh. pose proof (pack_envelope_prefix h data [] dataid Hh) as E. by rewrite !app_nil_r in E. Qed.

Lemma nbsfp_pack_fpath_spec pi pce :
  pce_named pce -> packet_buf pi (NBS_ENVELOPE_SIZE + NBSFP_PINFO_SIZE + fpath_size pce) ->
  nbsfp_pack_fpath pi pce = Done (0,
    PacketInfo (seq_number pce) (psh_product_type pce) (psh_product_category pce)
      (psh_product_code pce) (pce_np_channel_index pce) (pi_fname pi)
      (Some (NBS_ENVELOPE_SIZE + NBSFP_PINFO_SIZE)) (Some (fp_packet pce)) (pi_packet_size pi)).
Proof.
  intros Hn (Hsz & p & Hp & Hl). pose proof (fp_data_length pce Hn) as Hd. destruct Hn as [Hf1 Hf2 _ Hs].
  pose proof (zlen_nonneg (fpath pce)). unfold nbsfp_pack_fpath. rewrite Hp, Hsz.
  unfold NBSFP_PINFO_SIZE, NBS_ENVELOPE_SIZE, FNAME_SIZE in *.
  rewrite (u64_small (fpath_size pce)), (u64_small (8 + 18 + 1 + _)), u64_small by lia.
  unfold c_assert. destruct (Z.eqb_spec (12 + (8 + 18 + 1) + fpath_size pce)
    (8 + 18 + 1 + fpath_size pce + 12)); [|lia].
  rewrite <- (ztake_zdrop 12 p). set (h := ztake 12 p). set (r := zdrop 12 p).
  assert (zlen h = 12) as Hh by (apply zlen_take; lia).
  assert (zlen r = 27 + fpath_size pce) as Hr by (subst r; rewrite zlen_drop; lia).
  clearbody h r. fold (fp_data pce) in Hd.
  rewrite (wrs_contig _ h r 12 0).
  - cbn [fmap list_fmap concat snd obind]. rewrite app_nil_r.
    match goal with |- context [h ++ ?d ++ zdrop _ r] => change d with (fp_data pce) end.
    rewrite zdrop_ge, app_nil_r by lia. rewrite <- Hd.
    rewrite pack_envelope_spec by done. done.
  - cbn [contig]. unfold zlen at 1 2 3 4 5. cbn [length split32].
    rewrite strncpy_bytes_length by lia. done.
  - lia.
  - cbn [fmap list_fmap concat snd]. rewrite app_nil_r.
    match goal with |- zlen ?d <= _ => change d with (fp_data pce) end. lia.
Qed.

(** ** Unpacking a packet *)

Lemma unpack_split32 (s r : list Z) u i : i = zlen s -> 0 <= u < 2 ^ 32 ->
  unpack_uint32 (s ++ split32 u ++ r) i = Done u.
Proof.
  intros -> Hu. pose proof (zlen_nonneg s). unfold unpack_uint32.
  assert (forall k x, znth (split32 u) k = Some x -> 0 <= k < 4 ->
    rd (s ++ split32 u ++ r) (zlen s + k) = Done x) as Hrd.
  { intros k x Hx Hk. apply rd_Done. rewrite znth_app_r by lia.
    replace (zlen s + k - zlen s) with k by lia. rewrite znth_app_l; [done|]. exact Hk. }
  rewrite <- (Z.add_0_r (zlen s)) at 1.
  do 4 (erewrite Hrd; [|reflexivity|lia]; cbn [obind]). by rewrite be32_split.
Qed.

Lemma unpack_split32_0 (r : list Z) u : 0 <= u < 2 ^ 32 -> unpack_uint32 (split32 u ++ r) 0 = Done u.
Proof. by apply (unpack_split32 []). Qed.

Lemma rd_app_r {A} (s l : list A) i : zlen s <= i -> rd (s ++ l) i = rd l (i - zlen s).
Proof. intros. unfold rd. by rewrite znth_app_r. Qed.

(** what [nbsfp_unpack_fpath] reads from the packet of an element *)
Definition unpacked_fp (pce : pctl_element_st) (p : list Z) (n : Z) : packet_info_st :=
  PacketInfo (seq_number pce) (schar (u8 (psh_product_type pce)))
    (schar (u8 (psh_product_category pce))) (schar (u8 (psh_product_code pce)))
    (schar (u8 (pce_np_channel_index pce))) (Some 20) (Some 39) (Some p) n.

Lemma nbsfp_unpack_spec pi pce rest : pce_named pce ->
  pi_packet pi = Some (fp_packet pce ++ rest) ->
  nbsfp_unpack_fpath pi = Done (0, unpacked_fp pce (fp_packet pce ++ rest) (pi_packet_size pi)).
Proof.
  intros Hn Hp. pose proof (fp_data_length pce Hn) as Hd. destruct Hn as [Hf1 Hf2 _ Hs].
  pose proof (zlen_nonneg (fpath pce)). unfold NBSFP_PINFO_SIZE, FNAME_SIZE in *.
  unfold nbsfp_unpack_fpath. rewrite Hp. unfold fp_packet, envelope. rewrite <- !app_assoc.
  rewrite unpack_split32_0 by done. cbn [obind].
  change (u32 PACKID_FPATH =? PACKID_FPATH) with true. cbn [negb].
  rewrite (unpack_split32 (split32 _)); [|done|apply u32_range]. cbn [obind].
  rewrite (app_assoc (split32 (u32 PACKID_FPATH))).
  rewrite (unpack_split32 (split32 _ ++ split32 _)); [|done|apply u32_range]. cbn [obind].
  rewrite (u32_small (zlen _)), s32_small, u64_small by lia.
  rewrite (app_assoc (split32 (u32 PACKID_FPATH) ++ _)).
  set (e := (split32 (u32 PACKID_FPATH) ++ _) ++ _). assert (zlen e = 12) as He by done.
  clearbody e. unfold NBS_ENVELOPE_SIZE. rewrite zdrop_app_exact by done.
  rewrite calc_checksum_prefix by done.
  cbn [obind]. rewrite Z.eqb_refl. cbn [negb].
  unfold fp_data. rewrite <- !app_assoc.
  rewrite (unpack_split32 e) by (done || apply u32_range). cbn [obind].
  set (l := split32 _ ++ _).
  assert (forall k, 0 <= k -> rd (e ++ l) (12 + k) = rd l k) as Hr.
  { intros k Hk. rewrite rd_app_r by lia. f_equal. lia. }
  rewrite !Hr by lia. subst l. rewrite (u32_small (seq_number pce)) by done. reflexivity.
Qed.

Lemma fp_packet_length pce : pce_named pce ->
  zlen (fp_packet pce) = NBS_ENVELOPE_SIZE + NBSFP_PINFO_SIZE + fpath_size pce.
Proof.
  intros Hn. unfold fp_packet. rewrite zlen_app, (fp_data_length _ Hn).
  change (zlen (envelope _ _)) with 12. unfold NBS_ENVELOPE_SIZE. lia.
Qed.

Lemma recv_fp_packet_spec f pi pce more p retry :
  pce_named pce -> data_only f -> stream f = fp_packet pce ++ more ->
  pi_packet pi = Some p -> zlen p = pi_packet_size pi ->
  zlen (fp_packet pce) <= zlen p < 2 ^ 32 ->
  exists f', recv_fp_packet f pi retry =
    Done (0, unpacked_fp pce (fp_packet pce ++ zdrop (zlen (fp_packet pce)) p) (zlen p), f') /\
    stream f' = more.
Proof.
  intros Hn Hf Es Hp Hsz Hl. pose proof (fp_packet_length pce Hn) as Hpl.
  pose proof (fp_data_length pce Hn) as Hdl. pose proof (zlen_nonneg more).
  assert (0 <= fpath_size pce < 2 ^ 31 - 100).
  { destruct Hn. pose proof (zlen_nonneg (fpath pce)). lia. }
  unfold NBS_ENVELOPE_SIZE, NBSFP_PINFO_SIZE, FNAME_SIZE in *.
  unfold recv_fp_packet. rewrite Hp, <- Hsz. unfold NBS_ENVELOPE_SIZE.
  destruct (readn_data f p 0 12 retry) as (p1 & f1 & -> & Ew1 & Es1 & Hf1);
    [done|lia|lia|lia|rewrite Es, zlen_app; lia|].
  cbn [obind Z.eqb negb Pos.eqb]. unfold fp_packet in Es at 1. rewrite <- app_assoc in Es.
  rewrite Es in Ew1, Es1. set (e := envelope PACKID_FPATH (fp_data pce)) in *.
  assert (zlen e = 12) as He by done. rewrite ztake_app_exact in Ew1 by done.
  rewrite zdrop_app_exact in Es1 by done. rewrite wr_0 in Ew1 by lia. rewrite He in Ew1.
  assert (p1 = e ++ zdrop 12 p) as -> by congruence. clear Ew1.
  assert (unpack_uint32 (e ++ zdrop 12 p) 0 = Done 2) as ->.
  { unfold e, envelope. rewrite <- !app_assoc. by rewrite unpack_split32_0. }
  assert (unpack_uint32 (e ++ zdrop 12 p) 4 = Done (zlen (fp_data pce))) as ->.
  { unfold e, envelope. rewrite <- !app_assoc.
    rewrite (unpack_split32 (split32 _)) by (done || apply u32_range). rewrite u32_small by lia. done. }
  cbn [obind Z.eqb negb Pos.eqb]. rewrite u32_small by lia.
  destruct (Z.ltb_spec (zlen p) (zlen (fp_data pce) + 12)); [lia|].
  assert (zlen (e ++ zdrop 12 p) = zlen p) as Hlp by (rewrite zlen_app, zlen_drop; lia).
  destruct (readn_data f1 (e ++ zdrop 12 p) 12 (zlen (fp_data pce)) retry) as (p2 & f2 & -> & Ew2 & Es2 & Hf2);
    [done|lia|lia|lia|rewrite Es1, zlen_app; lia|].
  rewrite Es1 in Ew2, Es2. rewrite ztake_app_exact in Ew2 by done. rewrite zdrop_app_exact in Es2 by done.
  rewrite wr_app in Ew2 by (done || (rewrite zlen_drop; lia)).
  assert (p2 = e ++ fp_data pce ++ zdrop (12 + zlen (fp_data pce)) p) as ->.
  { rewrite zdrop_drop in Ew2 by lia. congruence. }
  cbn [obind].
  destruct (Z.eqb_spec (zlen (fp_data pce)) (-1)); [lia|].
  destruct (Z.ltb_spec (zlen (fp_data pce)) 0); [lia|]. rewrite Z.eqb_refl. cbn [orb negb].
  assert (e ++ fp_data pce ++ zdrop (12 + zlen (fp_data pce)) p =
          fp_packet pce ++ zdrop (zlen (fp_packet pce)) p) as ->.
  { unfold fp_packet at 1. rewrite <- app_assoc. do 3 f_equal. lia. }
  rewrite (nbsfp_unpack_spec _ pce (zdrop (zlen (fp_packet pce)) p)) by done.
  cbn [obind Z.eqb negb pi_packet_size]. exists f2. done.
Qed.

(** the names inside the packet *)
Lemma fp_packet_names pce r : pce_named pce ->
  cstr (zdrop 20 (fp_packet pce ++ r)) = Done (text_of (fname pce)) /\
  cstr (zdrop 39 (fp_packet pce ++ r)) = Done (fpath pce).
Proof.
  intros [Hf1 Hf2 Hn _]. unfold FNAME_SIZE in *.
  set (nm := strncpy_bytes (text_of (fname pce)) (18 + 1)).
  set (pt := strncpy_bytes (fpath pce) (fpath_size pce)).
  assert (zdrop 20 (fp_packet pce ++ r) = nm ++ pt ++ r) as E.
  { unfold fp_packet, fp_data. rewrite <- !app_assoc. do 2 rewrite app_assoc.
    by apply zdrop_app_exact. }
  split.
  - rewrite E. apply strncpy_bytes_cstr; [apply text_of_nonul|lia].
  - change 39 with (20 + 19). rewrite <- zdrop_drop, E by lia.
    rewrite zdrop_app_exact by (symmetry; apply strncpy_bytes_length; lia).
    apply strncpy_bytes_cstr; [done|lia].
Qed.

(** C22: The packet of a product. The packet made from an element, sent on a
    connection and received in any buffer that is large enough, gives the
    client the sequence number, the name and the path of the product, and the
    four codes, each as the signed character of its byte, so that one of 128 or
    more comes back negative; what follows it on the connection is
    left there. *)
Theorem fp_packet_received (pi pi2 : packet_info_st) (pce : pctl_element_st) (f : fd_st)
    (more : list Z) (n retry : Z)
  (Hn : pce_named pce)
  (Hbuf : packet_buf pi (NBS_ENVELOPE_SIZE + NBSFP_PINFO_SIZE + fpath_size pce)) :
  exists pi1 packet, nbsfp_pack_fpath pi pce = Done (0, pi1) /\ pi_packet pi1 = Some packet /\
    (data_only f -> stream f = packet ++ more -> packet_buf pi2 n -> zlen packet <= n < 2 ^ 32 ->
     exists pi3 p f', recv_fp_packet f pi2 retry = Done (0, pi3, f') /\ stream f' = more /\
       pi_seq_number pi3 = seq_number pce /\
       pi_product_type pi3 = schar (u8 (psh_product_type pce)) /\
       pi_product_category pi3 = schar (u8 (psh_product_category pce)) /\
       pi_product_code pi3 = schar (u8 (psh_product_code pce)) /\
       pi_np_channel_index pi3 = schar (u8 (pce_np_channel_index pce)) /\
       pi_packet pi3 = Some p /\
       (exists i, pi_fname pi3 = Some i /\ cstr (zdrop i p) = Done (text_of (fname pce))) /\
       (exists i, pi_fpath pi3 = Some i /\ cstr (zdrop i p) = Done (fpath pce))).
Proof.
  rewrite (nbsfp_pack_fpath_spec pi pce Hn Hbuf). eexists _, _. split; [done|]. split; [done|].
  intros Hf Es (Hsz & p & Hp & Hl) Hln.
  destruct (recv_fp_packet_spec f pi2 pce more p retry) as (f' & -> & Es'); try done; try lia.
  destruct (fp_packet_names pce (zdrop (zlen (fp_packet pce)) p) Hn) as [E1 E2].
  eexists _, _, f'. by split_and!; try eexists.
Qed.

(** A corrupted packet. When one byte of the data of a packet has been
    changed, unpacking it reports an error. *)
Theorem fp_corruption_detected (pi : packet_info_st) (pce : pctl_element_st) (l k rest : list Z)
  (b c : Z) (Hn : pce_named pce) (Hdata : fp_data pce = l ++ [b] ++ k)
  (Hb : is_byte b) (Hc : is_byte c) (Hne : b <> c)
  (Hp : pi_packet pi = Some (envelope PACKID_FPATH (fp_data pce) ++ (l ++ [c] ++ k) ++ rest)) :
  nbsfp_unpack_fpath pi = Done (1, pi).
Proof.
  pose proof (fp_data_length pce Hn) as Hd. destruct Hn as [_ Hf2 _ _].
  pose proof (zlen_nonneg (fpath pce)). unfold NBSFP_PINFO_SIZE, FNAME_SIZE in *.
  unfold nbsfp_unpack_fpath. rewrite Hp. unfold envelope. rewrite <- !app_assoc.
  rewrite unpack_split32_0 by done. cbn [obind].
  change (u32 PACKID_FPATH =? PACKID_FPATH) with true. cbn [negb].
  rewrite (unpack_split32 (split32 _)); [|done|apply u32_range]. cbn [obind].
  rewrite (app_assoc (split32 (u32 PACKID_FPATH))).
  rewrite (unpack_split32 (split32 _ ++ split32 _)); [|done|apply u32_range]. cbn [obind].
  rewrite (u32_small (zlen _)), s32_small, u64_small by lia.
  rewrite (app_assoc (split32 (u32 PACKID_FPATH) ++ _)).
  unfold NBS_ENVELOPE_SIZE. rewrite zdrop_app_exact by done.
  assert (zlen (fp_data pce) = zlen (l ++ [c] ++ k)) as Hl by (rewrite Hdata; by autorewrite with zlen).
  replace (l ++ [c] ++ k ++ rest) with ((l ++ [c] ++ k) ++ rest) by (by rewrite <- !app_assoc).
  rewrite calc_checksum_prefix by done. cbn [obind]. rewrite Hdata.
  destruct (Z.eqb_spec (u32 (zsum (l ++ [c] ++ k))) (u32 (zsum (l ++ [b] ++ k)))) as [E|]; [|done].
  symmetry in E. by apply checksum_byte_change in E.
Qed.

(** an envelope that announces [2 ^ 32 - 8] bytes, and [n] bytes after it *)
Definition bad_envelope (id : Z) : list Z := split32 id ++ split32 4294967288 ++ split32 0.
Definition flood (e : list Z) (n : Z) : fd_st := Fd [EvData e; EvData (replicate (Z.to_nat n) 0)] [] [].

Lemma bad_envelope_fields id r : 0 <= id < 2 ^ 32 ->
  unpack_uint32 (bad_envelope id ++ r) 0 = Done id /\
  unpack_uint32 (bad_envelope id ++ r) 4 = Done 4294967288.
Proof.
  intros Hid. unfold bad_envelope. rewrite <- !app_assoc. split.
  - by rewrite unpack_split32_0.
  - by rewrite (unpack_split32 (split32 _)).
Qed.

(** the envelope is read *)
Lemma flood_first e n (p : list Z) : zlen e = 12 -> 12 <= zlen p ->
  readn (flood e n) p 0 12 0 = Done (12, e ++ zdrop 12 p, Fd [EvData (replicate (Z.to_nat n) 0)] [] []).
Proof.
  intros He Hl. set (f' := Fd _ _ _).
  assert (read1 (flood e n) (12 - 0) 0 = (12, e, f')) as E.
  { unfold read1. change (poll_loop (tries 0) (flood e n)) with (1, flood e n).
    cbn [Z.eqb events flood]. unfold sys_read. cbn [events flood].
    change (12 - 0) with 12. rewrite He, ztake_ge by lia. reflexivity. }
  unfold readn, readm, sreadm. change (Z.to_nat 12) with 12%nat. cbn [sreadm_loop].
  change (12 <=? 0) with false. rewrite E. cbv beta iota zeta.
  rewrite wr_0 by lia. rewrite He. reflexivity.
Qed.

(** and then the buffer of [n] bytes is too small *)
Lemma flood_past e n (p : list Z) : zlen e = 12 -> zlen p = n -> 12 <= n < 2 ^ 31 ->
  readn (Fd [EvData (replicate (Z.to_nat n) 0)] [] []) (e ++ zdrop 12 p) 12 4294967288 0 = Undef.
Proof.
  intros He Hl Hn. unfold readn, readm, sreadm. destruct (Z.to_nat 4294967288) as [|fuel] eqn:Ef; [lia|].
  cbn [sreadm_loop]. change (4294967288 <=? 0) with false. cbv iota.
  unfold read1. change (poll_loop (tries 0) ?x) with (1, x).
  cbn [Z.eqb events]. unfold sys_read. cbn [events].
  rewrite ztake_ge by (rewrite zlen_replicate; lia).
  assert (wr (e ++ zdrop 12 p) (12 + 0) (replicate (Z.to_nat n) 0) = Undef) as ->; [|done].
  unfold wr. rewrite zlen_app, zlen_drop, zlen_replicate, He by lia.
  destruct (Z.leb_spec (12 + 0 + Z.of_nat (Z.to_nat n)) (12 + (zlen p - 12))); [lia|]. done.
Qed.

(** The size of a received packet. The test of the announced size against
    the buffer is made on 32 bits and wraps around: for every packet buffer
    there is an input from the network that makes [recv_fp_packet] write past
    its end. *)
Theorem recv_fp_packet_overflow (pi : packet_info_st) (n : Z)
  (Hbuf : packet_buf pi n) (Hn : NBS_ENVELOPE_SIZE <= n < 2 ^ 31) :
  exists f, recv_fp_packet f pi 0 = Undef.
Proof.
  destruct Hbuf as (Hsz & p & Hp & Hl). unfold NBS_ENVELOPE_SIZE in *.
  set (e := bad_envelope PACKID_FPATH). exists (flood e n). unfold recv_fp_packet. rewrite Hp.
  unfold NBS_ENVELOPE_SIZE. rewrite (flood_first e n p) by (done || lia). cbn [obind].
  destruct (bad_envelope_fields PACKID_FPATH (zdrop 12 p)) as [E1 E2]; [done|]. fold e in E1, E2.
  rewrite E1, E2. cbn [obind Z.eqb Pos.eqb negb]. change (u32 (4294967288 + 12)) with 4.
  destruct (Z.ltb_spec (pi_packet_size pi) 4); [lia|].
  rewrite (flood_past e n p) by (done || lia). done.
Qed.

(** ** Witnesses *)

Definition demo_named : pctl_element_st :=
  set_fpath [47; 97] (set_fname ([107; 98] ++ replicate 17 0)
    (Pce 1 1 1 300 0 5 4 0 200 1 (Timespec 0 0) (Timespec 0 0) 0 0 0
       (Memfile 0 0 0 0 []) [] 0 0 (WmoHeader [] [] [] [] []) [] [] 5 [])).

Definition demo_pinfo (n : Z) : packet_info_st :=
  PacketInfo 0 0 0 0 0 None None (Some (replicate (Z.to_nat n) 9)) n.

Lemma demo_named_ok : pce_named demo_named.
Proof. split; try by vm_compute. by repeat constructor. Qed.

Lemma demo_pinfo_ok n : 0 <= n -> packet_buf (demo_pinfo n) n.
Proof. intros. split; [done|]. eexists. split; [done|]. rewrite zlen_replicate. lia. Qed.

Lemma fp_packet_received_witness :
  exists pi1 packet pi3 p f', nbsfp_pack_fpath (demo_pinfo 44) demo_named = Done (0, pi1) /\
    pi_packet pi1 = Some packet /\
    recv_fp_packet (Fd [EvData (packet ++ [1])] [] []) (demo_pinfo 60) 0 = Done (0, pi3, f') /\
    stream f' = [1] /\ pi_seq_number pi3 = 300 /\ pi_product_code pi3 = -56 /\
    pi_packet pi3 = Some p /\ exists i, pi_fpath pi3 = Some i /\ cstr (zdrop i p) = Done [47; 97].
Proof.
  destruct (fp_packet_received (demo_pinfo 44) (demo_pinfo 60) demo_named
    (Fd [EvData (fp_packet demo_named ++ [1])] [] []) [1] 60 0)
    as (pi1 & packet & E & Ep & Hr).
  - apply demo_named_ok.
  - by apply demo_pinfo_ok.
  - assert (packet = fp_packet demo_named) as ->.
    { vm_compute in E. injection E as <-. injection Ep as <-. by vm_compute. }
    destruct Hr as (pi3 & p & f' & E3 & Es & Hq & _ & _ & Hc & _ & Hp & _ & Hfp).
    + split; [done|]. repeat constructor. eexists. split; [reflexivity|]. by vm_compute.
    + reflexivity.
    + by apply demo_pinfo_ok.
    + by vm_compute.
    + exists pi1, (fp_packet demo_named), pi3, p, f'. split_and!; try done.
Defined.

Lemma fp_corruption_detected_witness :
  nbsfp_unpack_fpath (PacketInfo 0 0 0 0 0 None None
    (Some (envelope PACKID_FPATH (fp_data demo_named) ++
           (([0; 0; 1] ++ [45] ++ zdrop 4 (fp_data demo_named)) ++ []))) 44) =
  Done (1, PacketInfo 0 0 0 0 0 None None
    (Some (envelope PACKID_FPATH (fp_data demo_named) ++
           (([0; 0; 1] ++ [45] ++ zdrop 4 (fp_data demo_named)) ++ []))) 44).
Proof.
  apply (fp_corruption_detected _ demo_named [0; 0; 1] (zdrop 4 (fp_data demo_named)) [] 44 45).
  - apply demo_named_ok.
  - by vm_compute.
  - by vm_compute.
  - by vm_compute.
  - lia.
  - reflexivity.
Defined.

Lemma recv_fp_packet_overflow_witness : exists f, recv_fp_packet f (demo_pinfo 300) 0 = Undef.
Proof.
  apply (recv_fp_packet_overflow (demo_pinfo 300) 300).
  - by apply demo_pinfo_ok.
  - by vm_compute.
Defined.
