(* ===== verification/Rtxdb.v ===== *)
(** * Rtxdb: src/src/rtxdb.c and src/src/ertxdb.c, the retransmissions database

    The processor records in it the sequence number of every product and
    whether it arrived complete, to tell if a retransmission has to be
    processed. To bound its size there are two databases: the current one,
    which receives the records, and the old one; [nbsp_rtxdb_truncate] empties
    the old one and exchanges them. Both are searched.

    A Berkeley DB btree is a parameter ([Btree]) with its documented behaviour
    ([BtreeSpec]); the keys and the data of the records are integers. *)

From stdpp Require Import gmap.
From S2P Require Import Prelude Util CLib Mfile.

Class Btree := {
  btree : Type;
  (* db_create, set_bt_compare and open of a named or an in-memory database *)
  bt_open : option (list Z) -> Z * option btree;
  bt_put : btree -> Z -> Z -> Z * btree;
  bt_get : btree -> Z -> Z * Z;
  bt_truncate : btree -> Z * btree
}.

Class BtreeSpec (B : Btree) := {
  bt_content : btree -> gmap Z Z;
  bt_put_law : forall b k v e b', bt_put b k v = (e, b') ->
    bt_content b' = if e =? 0 then <[k:=v]> (bt_content b) else bt_content b;
  bt_get_law : forall b k e v, bt_get b k = (e, v) -> e = 0 -> bt_content b !! k = Some v;
  bt_truncate_law : forall b e b', bt_truncate b = (e, b') ->
    bt_content b' = if e =? 0 then ∅ else bt_content b;
  bt_open_law : forall name e o, bt_open name = (e, o) -> (e = 0 <-> is_Some o)
}.

(** no operation fails, and a record that is there is found *)
Class BtreeReliable (B : Btree) (BS : BtreeSpec B) : Prop := {
  bt_put_ok : forall b k v, (bt_put b k v).1 = 0;
  bt_get_ok : forall b k v, bt_content b !! k = Some v -> (bt_get b k).1 = 0;
  bt_truncate_ok : forall b, (bt_truncate b).1 = 0
}.

Section rtxdb.
Context `{Hp : Heap} `{B : Btree}.

(** [dbp1] and [dbp2] are the databases; [dbp_c] and [dbp_o] point to them *)
Inductive which := Dbp1 | Dbp2.

Record nbsp_rtxdb_st := Rtxdb {
  dbp1 : btree;
  dbp2 : btree;
  dbp_c : which;
  dbp_o : which
}.

Definition deref (r : nbsp_rtxdb_st) (w : which) : btree :=
  match w with Dbp1 => dbp1 r | Dbp2 => dbp2 r end.
Definition set_deref (r : nbsp_rtxdb_st) (w : which) (b : btree) : nbsp_rtxdb_st :=
  match w with
  | Dbp1 => Rtxdb b (dbp2 r) (dbp_c r) (dbp_o r)
  | Dbp2 => Rtxdb (dbp1 r) b (dbp_c r) (dbp_o r)
  end.

(** the order of the keys *)
Definition rtxdb_compare (a b : Z) : Z :=
  if a <? b then -1 else if b <? a then 1 else 0.

(** 12 is ENOMEM; the structure has four pointers *)
Definition nbsp_rtxdb_open (dbfname : option (list Z)) : Z * option nbsp_rtxdb_st :=
  let named := valid_str dbfname =? 1 in
  let fullname c := if named then option_map (fun s => s ++ [c]) dbfname else None in
  if named && negb (malloc_ok (zlen (default [] dbfname) + 2)) then (12, None) else
  let (status, b1) := bt_open (fullname 49) in
  if negb (status =? 0) then (status, None) else
  let (status, b2) := bt_open (fullname 50) in
  if negb (status =? 0) then (status, None) else
  match b1, b2 with
  | Some b1, Some b2 =>
      if malloc_ok 32 then (0, Some (Rtxdb b1 b2 Dbp1 Dbp2)) else (12, None)
  | _, _ => (status, None)
  end.

Definition rtxdb_write_record2 (b : btree) (seqnum rtxdata : Z) : Z * btree := bt_put b seqnum rtxdata.
Definition rtxdb_write_record := rtxdb_write_record2.
Definition rtxdb_read_record2 (b : btree) (seqnum : Z) : Z * Z := bt_get b seqnum.
Definition rtxdb_read_record := rtxdb_read_record2.

Definition nbsp_rtxdb_put (r : nbsp_rtxdb_st) (seqnum fstatus : Z) : Z * nbsp_rtxdb_st :=
  let (status, b) := rtxdb_write_record (deref r (dbp_c r)) seqnum fstatus in
  (status, set_deref r (dbp_c r) b).

(** [*fstatus] is set only when the status is 0 *)
Definition nbsp_rtxdb_get (r : nbsp_rtxdb_st) (seqnum : Z) : Z * option Z :=
  let (status, v) := rtxdb_read_record (deref r (dbp_c r)) seqnum in
  let (status, v) :=
    if negb (status =? 0) then rtxdb_read_record (deref r (dbp_o r)) seqnum else (status, v) in
  (status, if status =? 0 then Some v else None).

Definition nbsp_rtxdb_truncate (r : nbsp_rtxdb_st) : Z * nbsp_rtxdb_st :=
  let r := Rtxdb (dbp1 r) (dbp2 r) (dbp_o r) (dbp_c r) in
  let (status, b) := bt_truncate (deref r (dbp_c r)) in
  (status, set_deref r (dbp_c r) b).

(** ** The functions that the processor calls (ertxdb.c)

    [option nbsp_rtxdb_st] is [g.rtxdb]. *)

Definition nbsp_rtxdb_log_err (status : Z) : outcome Z :=
  c_assert (negb (status =? 0))
    (Done (if 0 <? status then -1 else if status <? 0 then 1 else status)).

Definition e_nbsp_rtxdb_open (rtxdb_slots : Z) (dbfname : option (list Z))
    (rtxdb : option nbsp_rtxdb_st) : outcome (Z * option nbsp_rtxdb_st) :=
  if rtxdb_slots =? 0 then Done (0, rtxdb) else
  let (status, r) := nbsp_rtxdb_open dbfname in
  let* status := if negb (status =? 0) then nbsp_rtxdb_log_err status else Done status in
  Done (status, match r with Some r => Some r | None => rtxdb end).

Definition e_nbsp_rtxdb_truncate (rtxdb : option nbsp_rtxdb_st)
  : outcome (Z * option nbsp_rtxdb_st) :=
  match rtxdb with
  | None => Done (0, None)
  | Some r =>
      let (status, r) := nbsp_rtxdb_truncate r in
      let* status := if negb (status =? 0) then nbsp_rtxdb_log_err status else Done status in
      Done (status, Some r)
  end.

Definition e_rtxdb_put (fstatus : Z) (rtxdb : option nbsp_rtxdb_st) (seqnum : Z)
  : outcome (Z * option nbsp_rtxdb_st) :=
  match rtxdb with
  | None => Done (0, None)
  | Some r =>
      let (status, r) := nbsp_rtxdb_put r seqnum fstatus in
      let* status := if negb (status =? 0) then nbsp_rtxdb_log_err status else Done status in
      Done (status, Some r)
  end.
Definition e_nbsp_rtxdb_put_ok := e_rtxdb_put 0.
Definition e_nbsp_rtxdb_put_fail := e_rtxdb_put 1.

(** 0 or 1: the status of the product; -1 not found or error; -2 not enabled *)
Definition e_nbsp_rtxdb_get_fstatus (rtxdb : option nbsp_rtxdb_st) (seqnum : Z) : Z :=
  match rtxdb with
  | None => -2
  | Some r =>
      match nbsp_rtxdb_get r seqnum with
      | (_, Some fstatus) => fstatus
      | (_, None) => -1
      end
  end.

End rtxdb.

(** ** Properties *)

(** the order of the keys is the order of the integers *)
Lemma rtxdb_compare_spec a b :
  (rtxdb_compare a b = -1 <-> a < b) /\ (rtxdb_compare a b = 0 <-> a = b) /\
  (rtxdb_compare a b = 1 <-> b < a).
Proof. unfold rtxdb_compare. ztest; lia. Qed.

Section spec.
Context `{B : Btree} {BS : BtreeSpec B}.

(** the pointers are to the two databases *)
Definition rtx_wf (r : nbsp_rtxdb_st) : Prop := dbp_c r <> dbp_o r.

(** the records that can be found *)
Definition rtx_view (r : nbsp_rtxdb_st) : gmap Z Z :=
  bt_content (deref r (dbp_c r)) ∪ bt_content (deref r (dbp_o r)).

Lemma deref_set r w b : deref (set_deref r w b) w = b.
Proof. by destruct w. Qed.
Lemma deref_set_ne r w w' b : w <> w' -> deref (set_deref r w b) w' = deref r w'.
Proof. by destruct w, w'. Qed.
Lemma set_deref_ptrs r w b : dbp_c (set_deref r w b) = dbp_c r /\ dbp_o (set_deref r w b) = dbp_o r.
Proof. by destruct w. Qed.

(** the current and the old records *)
Definition cur (r : nbsp_rtxdb_st) : gmap Z Z := bt_content (deref r (dbp_c r)).
Definition old (r : nbsp_rtxdb_st) : gmap Z Z := bt_content (deref r (dbp_o r)).

Lemma put_spec r k v st r' : nbsp_rtxdb_put r k v = (st, r') -> rtx_wf r ->
  rtx_wf r' /\ old r' = old r /\ cur r' = if st =? 0 then <[k:=v]> (cur r) else cur r.
Proof.
  unfold nbsp_rtxdb_put, rtxdb_write_record, rtxdb_write_record2, rtx_wf, old, cur.
  destruct (bt_put _ k v) as [e b] eqn:E. intros [= <- <-] Hw.
  destruct (set_deref_ptrs r (dbp_c r) b) as [-> ->].
  split; [done|]. rewrite deref_set_ne, deref_set by done. split; [done|]. by eapply bt_put_law.
Qed.

Lemma truncate_spec r st r' : nbsp_rtxdb_truncate r = (st, r') -> rtx_wf r ->
  rtx_wf r' /\ old r' = cur r /\ cur r' = if st =? 0 then ∅ else old r.
Proof.
  unfold nbsp_rtxdb_truncate, rtx_wf, old, cur. destruct r as [b1 b2 [] []]; cbn; intros E Hw; try done.
  all: destruct (bt_truncate _) as [e b] eqn:Eb; injection E as <- <-; cbn.
  all: split; [done|]; split; [done|]; by eapply bt_truncate_law.
Qed.

Lemma get_spec r k st o : nbsp_rtxdb_get r k = (st, o) ->
  forall v, o = Some v -> rtx_view r !! k = Some v \/ old r !! k = Some v.
Proof.
  unfold nbsp_rtxdb_get, rtxdb_read_record, rtxdb_read_record2, rtx_view, old.
  destruct (bt_get (deref r (dbp_c r)) k) as [e x] eqn:E1.
  destruct (Z.eqb_spec e 0) as [->|]; cbn [negb].
  - intros [= <- <-] v [= <-]. left. apply lookup_union_Some_l. by eapply bt_get_law.
  - destruct (bt_get (deref r (dbp_o r)) k) as [e2 x2] eqn:E2. intros [= <- <-] v.
    destruct (Z.eqb_spec e2 0) as [->|]; [|done]. intros [= <-]. right. by eapply bt_get_law.
Qed.

Context {BR : BtreeReliable B BS}.

Lemma get_reliable r k : (nbsp_rtxdb_get r k).2 = rtx_view r !! k.
Proof.
  unfold nbsp_rtxdb_get, rtxdb_read_record, rtxdb_read_record2, rtx_view.
  destruct (bt_get (deref r (dbp_c r)) k) as [e x] eqn:E1.
  destruct (Z.eqb_spec e 0) as [->|He]; cbn [negb].
  { cbn. symmetry. apply lookup_union_Some_l. by eapply bt_get_law. }
  assert (bt_content (deref r (dbp_c r)) !! k = None) as Hn.
  { destruct (bt_content (deref r (dbp_c r)) !! k) as [v|] eqn:Ev; [|done].
    apply bt_get_ok in Ev. by rewrite E1 in Ev. }
  rewrite lookup_union_r by done.
  destruct (bt_get (deref r (dbp_o r)) k) as [e2 x2] eqn:E2. cbn.
  destruct (Z.eqb_spec e2 0) as [->|He2]; [symmetry; by eapply bt_get_law|].
  destruct (bt_content (deref r (dbp_o r)) !! k) as [v|] eqn:Ev; [|done].
  apply bt_get_ok in Ev. by rewrite E2 in Ev.
Qed.

(** ** Histories *)

Inductive rtx_op := RtxPut (k v : Z) | RtxTruncate.

Fixpoint rtx_run (ops : list rtx_op) (r : nbsp_rtxdb_st) : nbsp_rtxdb_st :=
  match ops with
  | [] => r
  | RtxPut k v :: ops => rtx_run ops (nbsp_rtxdb_put r k v).2
  | RtxTruncate :: ops => rtx_run ops (nbsp_rtxdb_truncate r).2
  end.

(** the last record of [k], looking back from the end of the history and past
    at most [n] truncations *)
Fixpoint recall (n : nat) (back : list rtx_op) (k : Z) : option Z :=
  match back with
  | [] => None
  | RtxPut k' v :: back => if k' =? k then Some v else recall n back k
  | RtxTruncate :: back => match n with O => None | S n' => recall n' back k end
  end.

Lemma rtx_run_app ops1 ops2 r : rtx_run (ops1 ++ ops2) r = rtx_run ops2 (rtx_run ops1 r).
Proof. revert r. induction ops1 as [|[] ops1 IH]; intros r; cbn; auto. Qed.

Lemma rtx_run_spec r ops : rtx_wf r -> cur r = ∅ -> old r = ∅ ->
  let r' := rtx_run ops r in
  rtx_wf r' /\ (forall k, cur r' !! k = recall 0 (rev ops) k) /\
  (forall k, rtx_view r' !! k = recall 1 (rev ops) k).
Proof.
  intros Hw Hc Ho. induction ops as [|op ops IH] using rev_ind; cbv zeta in *.
  { cbn. unfold rtx_view. rewrite (Hc : bt_content _ = ∅), (Ho : bt_content _ = ∅).
    rewrite Hc. split; [done|]. split; [done|]. intros k. by rewrite map_union_empty. }
  rewrite rtx_run_app, rev_app_distr. destruct IH as (Hw1 & Hc1 & Hv1).
  set (r1 := rtx_run ops r) in *. clearbody r1. destruct op as [k0 v0|]; cbn [rtx_run rev app recall].
  - destruct (nbsp_rtxdb_put r1 k0 v0) as [st r2] eqn:E. cbn [snd].
    assert (st = 0) as ->.
    { pose proof (bt_put_ok (deref r1 (dbp_c r1)) k0 v0) as Hp. unfold nbsp_rtxdb_put in E.
      unfold rtxdb_write_record, rtxdb_write_record2 in E. destruct (bt_put _ _ _).
      by injection E as <- _. }
    apply put_spec in E as (Hw2 & Ho2 & Hc2); [|done]. cbn [Z.eqb] in Hc2. split; [done|].
    assert (forall k, rtx_view r2 !! k = (<[k0:=v0]> (rtx_view r1)) !! k) as Hv2.
    { intros k. unfold rtx_view. fold (cur r2) (old r2) (cur r1) (old r1).
      by rewrite Hc2, Ho2, insert_union_l. }
    split; intros k; rewrite ?Hv2, ?Hc2; (destruct (Z.eqb_spec k0 k) as [->|];
      [by rewrite lookup_insert_eq|by rewrite lookup_insert_ne]).
  - destruct (nbsp_rtxdb_truncate r1) as [st r2] eqn:E. cbn [snd].
    assert (st = 0) as ->.
    { unfold nbsp_rtxdb_truncate in E. set (x := deref _ _) in E.
      pose proof (bt_truncate_ok x) as Hp. destruct (bt_truncate x). by injection E as <- _. }
    apply truncate_spec in E as (Hw2 & Ho2 & Hc2); [|done]. cbn [Z.eqb] in Hc2. split; [done|].
    split; intros k; [by rewrite Hc2|]. unfold rtx_view. fold (cur r2) (old r2).
    rewrite Hc2, Ho2, map_empty_union. done.
Qed.

(** C23: The memory of the retransmissions database. When the databases do not
    fail, looking a product up gives what was last recorded of it since the
    truncation before the last one, and finds nothing when there is no such
    record: a record survives one truncation and not two. *)
Theorem rtxdb_recalls (r : nbsp_rtxdb_st) (ops : list rtx_op) (k : Z)
  (Hw : rtx_wf r) (Hc : cur r = ∅) (Ho : old r = ∅) :
  e_nbsp_rtxdb_get_fstatus (Some (rtx_run ops r)) k =
    match recall 1 (rev ops) k with Some v => v | None => -1 end.
Proof.
  destruct (rtx_run_spec r ops Hw Hc Ho) as (_ & _ & Hv). rewrite <- Hv, <- get_reliable.
  unfold e_nbsp_rtxdb_get_fstatus. by destruct (nbsp_rtxdb_get _ k) as [st [v|]].
Qed.
End spec.

(** ** Witness *)

(** a btree as a map; -30988 is DB_NOTFOUND *)
Definition map_btree : Btree := {|
  btree := gmap Z Z;
  bt_open _ := (0, Some ∅);
  bt_put m k v := (0, <[k:=v]> m);
  bt_get m k := match m !! k with Some v => (0, v) | None => (-30988, 0) end;
  bt_truncate m := (0, ∅)
|}.

Definition map_btree_spec : BtreeSpec map_btree.
Proof.
  refine {| bt_content := (fun m => m) : @btree map_btree -> gmap Z Z |}.
  - by intros b k v e b' [= <- <-].
  - cbn. intros b k e v. destruct (b !! k) eqn:E; intros [= <- <-]; done.
  - by intros b e b' [= <- <-].
  - intros name e o [= <- <-]. split; [intros _; by eexists|done].
Defined.

Lemma map_btree_reliable : BtreeReliable map_btree map_btree_spec.
Proof. split; [done| |done]. cbn. by intros b k v ->. Qed.

Lemma rtxdb_recalls_witness :
  let r := rtx_run [RtxPut 7 1; RtxPut 9 0; RtxTruncate; RtxPut 9 1] (@Rtxdb map_btree ∅ ∅ Dbp1 Dbp2) in
  e_nbsp_rtxdb_get_fstatus (Some r) 7 = 1 /\
  e_nbsp_rtxdb_get_fstatus (Some (rtx_run [RtxTruncate] r)) 7 = -1.
Proof.
  cbv zeta. rewrite <- rtx_run_app. split.
  - apply (rtxdb_recalls (BR := map_btree_reliable)); done.
  - apply (rtxdb_recalls (BR := map_btree_reliable) (@Rtxdb map_btree ∅ ∅ Dbp1 Dbp2)
      ([RtxPut 7 1; RtxPut 9 0; RtxTruncate; RtxPut 9 1] ++ [RtxTruncate]) 7); done.
Defined.
