(* ===== verification/Spooldb.v ===== *)
(** * Spooldb: src/src/spooldb.c, the book of the spool directory

    A circular array with the paths of the files in the spool. A new path takes
    the place of the oldest one, whose file is deleted with the [destroy_key]
    function of the program, so that the number of files stays bounded. The
    array is saved to a file when the program ends and read back when it
    starts. *)

From S2P Require Import Prelude Util CLib Mfile.

(** [sd_slotptr] is the offset of [slotptr] in [keys] *)
Record spooldb_st := Spooldb {
  sd_numslots : Z;
  sd_keysize : Z;
  sd_slot : Z;
  sd_index : Z;
  sd_slotptr : Z;
  sd_keys : list Z
}.

Section spooldb.
Context `{Hp : Heap}.
(** the state that [destroy_key] changes (the file system), and the function *)
Context {F : Type} (destroy_key : list Z -> F -> Z * F).

Definition spooldb_init (numslots keysize : Z) : outcome (option spooldb_st) :=
  c_assert (0 <? numslots) (c_assert (0 <? keysize)
    (Done (if malloc_ok 40 && malloc_ok (numslots * keysize) then
             Some (Spooldb numslots keysize 0 0 0 (replicate (Z.to_nat (numslots * keysize)) 0))
           else None))).

Definition spooldb_insert (s : spooldb_st) (key : list Z) (fs : F)
  : outcome (Z * spooldb_st * F) :=
  let keysize := s32 (zlen key + 1) in
  c_assert (keysize <=? sd_keysize s)
    (let* oldkey := cstr (zdrop (sd_slotptr s) (sd_keys s)) in
     let (status, fs) := destroy_key oldkey fs in
     let* keys := strncpy (sd_keys s) (sd_slotptr s) key (u64 keysize) in
     let slot := u32 (sd_slot s + 1) in
     let index := u32 (sd_index s + sd_keysize s) in
     let slotptr := sd_slotptr s + sd_keysize s in
     Done (status,
           if slot =? sd_numslots s
           then Spooldb (sd_numslots s) (sd_keysize s) 0 0 0 keys
           else Spooldb (sd_numslots s) (sd_keysize s) slot index slotptr keys,
           fs)).

(** the bytes of the structure; [ptrs] are those of its three pointers *)
Definition spooldb_struct (s : spooldb_st) (ptrs : list Z) : list Z :=
  le_split 4 (sd_numslots s) ++ le_split 4 (u32 (sd_keysize s)) ++ le_split 4 (sd_slot s) ++
  le_split 4 (sd_index s) ++ ptrs.
Definition SIZEOF_SPOOLDB : Z := 40.

(** [sys_write n] is what a [write] of [n] bytes returns; the status and the
    contents of the file ([None] when it could not be opened) *)
Definition spooldb_write (open_ok : bool) (sys_write : Z -> Z) (ptrs : list Z) (s : spooldb_st)
  : outcome (Z * option (list Z)) :=
  if negb open_ok then Done (-1, None) else
  let h := spooldb_struct s ptrs in
  let n := sys_write SIZEOF_SPOOLDB in
  if negb (n =? SIZEOF_SPOOLDB) then Done (-1, Some (ztake n h)) else
  let size := u32 (sd_numslots s * sd_keysize s) in
  let* d := rdn (sd_keys s) 0 size in
  let n := sys_write size in
  Done (if negb (n =? size) then -1 else 0, Some (h ++ ztake n d)).

(** [content]: the file, if it can be opened; [read_ok1], [read_ok2]: the reads
    do not fail *)
Definition spooldb_read (content : option (list Z)) (read_ok1 read_ok2 : bool) (s : spooldb_st)
  : outcome (Z * spooldb_st) :=
  match content with
  | None => Done (-1, s)
  | Some c =>
      if negb read_ok1 then Done (-1, s) else
      let h := ztake SIZEOF_SPOOLDB c in
      if negb (zlen h =? SIZEOF_SPOOLDB) then Done (1, s) else
      let saved_numslots := le_join (zsub 0 4 h) in
      let saved_keysize := s32 (le_join (zsub 4 4 h)) in
      let saved_slot := le_join (zsub 8 4 h) in
      let saved_index := le_join (zsub 12 4 h) in
      if negb (saved_keysize =? sd_keysize s) || (sd_numslots s <? saved_numslots)
      then Done (1, s) else
      let s := Spooldb (sd_numslots s) (sd_keysize s) saved_slot saved_index saved_index
                 (sd_keys s) in
      let size := u32 (saved_numslots * saved_keysize) in
      if negb read_ok2 then Done (-1, s) else
      let d := zsub SIZEOF_SPOOLDB size c in
      let* keys := wr (sd_keys s) 0 d in
      let s := Spooldb (sd_numslots s) (sd_keysize s) (sd_slot s) (sd_index s) (sd_slotptr s) keys in
      Done (if negb (zlen d =? size) then 1 else 0, s)
  end.

Definition spooldb_get_slot (s : spooldb_st) : Z := sd_slot s.

End spooldb.

(** ** The ring of paths *)

(** a slot of [n] bytes with the text [t] *)
Definition chunk (n : Z) (t b : list Z) : Prop :=
  zlen b = n /\ nonul t /\ exists r, b = t ++ 0 :: r.

(** the array holds the texts [ts], slot by slot *)
Record slots (s : spooldb_st) (ts : list (list Z)) : Prop := Slots {
  sl_keysize : 0 < sd_keysize s;
  sl_small : sd_numslots s * sd_keysize s < 2 ^ 31;
  sl_num : sd_numslots s = zlen ts;
  sl_slot : 0 <= sd_slot s < sd_numslots s;
  sl_index : sd_index s = sd_slot s * sd_keysize s;
  sl_slotptr : sd_slotptr s = sd_slot s * sd_keysize s;
  sl_keys : exists bs, Forall2 (chunk (sd_keysize s)) ts bs /\ sd_keys s = concat bs
}.

(** the paths, the oldest one first *)
Definition ring (s : spooldb_st) (q : list (list Z)) : Prop :=
  exists ts, slots s ts /\ q = zdrop (sd_slot s) ts ++ ztake (sd_slot s) ts.

Lemma concat_chunks_length n ts bs : Forall2 (chunk n) ts bs -> zlen (concat bs) = zlen ts * n.
Proof.
  induction 1 as [|t b ts bs [Hb _] _ IH]; cbn [concat]; [done|].
  rewrite zlen_app, zlen_cons, IH, Hb. lia.
Qed.

(** overwriting the text of one slot *)
Lemma chunk_strncpy n t b key : chunk n t b -> nonul key -> zlen key + 1 <= n ->
  exists b', wr b 0 (strncpy_bytes key (zlen key + 1)) = Done b' /\ chunk n key b'.
Proof.
  intros (Hb & _ & _) Hk Hl. pose proof (zlen_nonneg key).
  assert (strncpy_bytes key (zlen key + 1) = key ++ [0]) as ->.
  { unfold strncpy_bytes. rewrite ztake_ge by lia. by replace (zlen key + 1 - zlen key) with 1 by lia. }
  rewrite wr_0 by (autorewrite with zlen; lia). eexists. split; [done|].
  rewrite <- app_assoc. split; [|split; [done|by eexists]].
  rewrite !zlen_app, zlen_drop; autorewrite with zlen; lia.
Qed.

Lemma wr_inner {A} (s b r d b' : list A) i : wr b 0 d = Done b' -> i = zlen s ->
  wr (s ++ b ++ r) i d = Done (s ++ b' ++ r).
Proof.
  intros E ->. unfold wr in E. destruct ((0 <=? 0) && _) eqn:T; [|done]. zbool.
  assert (b' = d ++ zdrop (zlen d) b) as -> by (injection E as <-; done).
  pose proof (zlen_nonneg r).
  rewrite wr_app by (rewrite ?zlen_app; lia || done).
  rewrite zdrop_app_le by lia. by rewrite <- !app_assoc.
Qed.

Section theory.
Context {F : Type} (destroy_key : list Z -> F -> Z * F).

Lemma spooldb_insert_ring s q k0 key fs :
  ring s (k0 :: q) -> nonul key -> zlen key + 1 <= sd_keysize s ->
  exists s', spooldb_insert destroy_key s key fs =
      Done ((destroy_key k0 fs).1, s', (destroy_key k0 fs).2) /\
    ring s' (q ++ [key]) /\ sd_keysize s' = sd_keysize s.
Proof.
  intros (ts & [Kp Ks Kn Sl Ix Sp (bs & Hbs & Ek)] & Eq) Hk Hl.
  pose proof (zlen_nonneg key). pose proof (zlen_nonneg ts).
  set (i := Z.to_nat (sd_slot s)).
  assert (sd_keysize s < 2 ^ 31) by nia.
  destruct (lookup_lt_is_Some_2 ts i) as [t Ht]; [unfold zlen in *; lia|].
  destruct (Forall2_lookup_l _ _ _ _ _ Hbs Ht) as (b & Hb & Hc).
  pose proof (take_drop_middle _ _ _ Ht) as Ets. pose proof (take_drop_middle _ _ _ Hb) as Ebs.
  assert (zlen (concat (take i bs)) = sd_slot s * sd_keysize s) as Hlen.
  { rewrite (concat_chunks_length (sd_keysize s) (take i ts)) by (by apply Forall2_take).
    unfold zlen. rewrite length_take. unfold zlen in *. f_equal. lia. }
  assert (sd_keys s = concat (take i bs) ++ b ++ concat (drop (S i) bs)) as Ek2.
  { rewrite Ek, <- Ebs at 1. by rewrite concat_app. }
  assert (k0 = t /\ q = drop (S i) ts ++ take i ts) as [-> ->].
  { unfold zdrop, ztake in Eq. fold i in Eq. rewrite (drop_S _ _ _ Ht) in Eq. by injection Eq. }
  unfold spooldb_insert, c_assert. rewrite s32_small by lia.
  destruct (Z.leb_spec (zlen key + 1) (sd_keysize s)); [|lia].
  rewrite Sp, Ek2, zdrop_app_exact by done.
  destruct Hc as (Hcl & Hct & r & ->). rewrite <- app_assoc. cbn [app]. rewrite cstr_app by done.
  cbn [obind]. destruct (destroy_key t fs) as [st fs']. cbn [fst snd].
  destruct (chunk_strncpy (sd_keysize s) t (t ++ 0 :: r) key) as (b' & Ew & Hc');
    [by split_and!; [..|eexists]|done|done|].
  unfold strncpy. rewrite u64_small by lia.
  replace (concat (take i bs) ++ t ++ 0 :: r ++ concat (drop (S i) bs))
    with (concat (take i bs) ++ (t ++ 0 :: r) ++ concat (drop (S i) bs)) by (by rewrite <- app_assoc).
  rewrite (wr_inner _ _ _ _ _ _ Ew) by done. cbn [obind].
  assert (Forall2 (chunk (sd_keysize s)) (<[i:=key]> ts) (<[i:=b']> bs)) as Hbs'.
  { by apply Forall2_insert. }
  assert (concat (take i bs) ++ b' ++ concat (drop (S i) bs) = concat (<[i:=b']> bs)) as Ek'.
  { rewrite insert_take_drop by (by eapply lookup_lt_Some). by rewrite concat_app. }
  assert (zlen (<[i:=key]> ts) = zlen ts) as Hli by (unfold zlen; by rewrite length_insert).
  rewrite (u32_small (sd_slot s + 1)) by nia. rewrite Ek'.
  eexists. split; [reflexivity|]. destruct (Z.eqb_spec (sd_slot s + 1) (sd_numslots s)) as [El|Nl].
  - split; [|done]. exists (<[i:=key]> ts). split.
    + split; cbn; try done; try lia. by exists (<[i:=b']> bs).
    + cbn. rewrite insert_take_drop by (by eapply lookup_lt_Some). unfold zdrop, ztake. cbn.
      assert (drop (S i) ts = []) as -> by (apply drop_ge; unfold zlen in *; lia). by rewrite app_nil_r.
  - split; [|done]. exists (<[i:=key]> ts). split.
    + split; cbn; try done; try lia; try nia; [rewrite u32_small; nia|]. by exists (<[i:=b']> bs).
    + cbn. unfold zdrop, ztake. replace (Z.to_nat (sd_slot s + 1)) with (S i) by lia.
      rewrite drop_insert_lt by lia. rewrite (take_S_r _ _ key) by
        (apply list_lookup_insert_eq; by eapply lookup_lt_Some).
      rewrite take_insert_ge by lia. by rewrite app_assoc.
Qed.

(** ** Histories *)

(** the paths inserted one after the other; the statuses of the deletions *)
Fixpoint insert_all (s : spooldb_st) (keys : list (list Z)) (fs : F)
  : outcome (list Z * spooldb_st * F) :=
  match keys with
  | [] => Done ([], s, fs)
  | k :: keys =>
      let* (st, s, fs) := spooldb_insert destroy_key s k fs in
      let* (sts, s, fs) := insert_all s keys fs in
      Done (st :: sts, s, fs)
  end.

(** the paths deleted one after the other *)
Fixpoint destroy_all (ks : list (list Z)) (fs : F) : list Z * F :=
  match ks with
  | [] => ([], fs)
  | k :: ks =>
      let (st, fs) := destroy_key k fs in
      let (sts, fs) := destroy_all ks fs in
      (st :: sts, fs)
  end.

Definition key_ok (s : spooldb_st) (k : list Z) : Prop := nonul k /\ zlen k + 1 <= sd_keysize s.

Lemma ring_nonempty s q : ring s q -> q <> [].
Proof.
  intros (ts & [_ _ Kn Sl _ _ _] & ->) E. apply app_nil in E as [E1 E2].
  apply (f_equal length) in E1. unfold zdrop in E1. rewrite length_drop in E1. cbn in E1.
  unfold zlen in *. lia.
Qed.

Lemma insert_all_spec keys : forall s q fs, ring s q -> Forall (key_ok s) keys ->
  exists s', insert_all s keys fs =
    Done ((destroy_all (take (length keys) (q ++ keys)) fs).1, s',
          (destroy_all (take (length keys) (q ++ keys)) fs).2) /\
    ring s' (drop (length keys) (q ++ keys)).
Proof.
  induction keys as [|k keys IH]; intros s q fs Hr Hk.
  { exists s. cbn. by rewrite app_nil_r. }
  apply Forall_cons_iff in Hk as [[Hk1 Hk2] Hk].
  destruct q as [|k0 q]; [by apply ring_nonempty in Hr|].
  destruct (spooldb_insert_ring s q k0 k fs) as (s1 & E & Hr1 & Eks); [done..|].
  cbn [insert_all length take drop app]. rewrite E. cbn [obind].
  destruct (destroy_key k0 fs) as [st fs1] eqn:Ed. cbn [fst snd].
  destruct (IH s1 (q ++ [k]) fs1) as (s2 & E2 & Hr2); [done| |].
  { eapply Forall_impl; [|exact Hk]. unfold key_ok. by rewrite Eks. }
  rewrite <- app_assoc in E2, Hr2. cbn [app] in E2, Hr2. rewrite E2. cbn [obind].
  exists s2. split; [|done]. cbn [destroy_all]. rewrite Ed.
  by destruct (destroy_all (take (length keys) (q ++ k :: keys)) fs1).
Qed.

(** The spool is bounded. After any sequence of insertions in a book with
    a ring of paths, the files that have been deleted are the oldest ones, in
    the order in which they were inserted, one for each insertion, and the
    book holds the last ones: as many as it has slots. *)
Theorem spooldb_keeps_last (s : spooldb_st) (q keys : list (list Z)) (fs : F)
  (Hr : ring s q) (Hk : Forall (key_ok s) keys) :
  exists s', insert_all s keys fs =
    Done ((destroy_all (take (length keys) (q ++ keys)) fs).1, s',
          (destroy_all (take (length keys) (q ++ keys)) fs).2) /\
    ring s' (drop (length keys) (q ++ keys)) /\
    length (drop (length keys) (q ++ keys)) = length q.
Proof.
  destruct (insert_all_spec keys s q fs Hr Hk) as (s' & E & Hr').
  exists s'. split_and!; try done. rewrite length_drop, length_app. lia.
Qed.
End theory.

(** ** Saving and restoring *)

Lemma concat_zeros n m : 0 < n -> concat (replicate m (replicate (Z.to_nat n) 0)) =
  replicate (m * Z.to_nat n) 0.
Proof.
  intros. induction m as [|m IH]; [done|]. cbn [replicate concat]. rewrite IH.
  rewrite <- replicate_add. done.
Qed.

Lemma init_ring `{Heap} n k s : 0 < n -> 0 < k -> n * k < 2 ^ 31 -> n < 2 ^ 31 ->
  spooldb_init n k = Done (Some s) -> ring s (replicate (Z.to_nat n) []) /\
  sd_numslots s = n /\ sd_keysize s = k.
Proof.
  intros Hn Hk Hs Hn2. unfold spooldb_init, c_assert.
  destruct (Z.ltb_spec 0 n), (Z.ltb_spec 0 k); try lia.
  destruct (malloc_ok 40 && malloc_ok (n * k)); [|done]. intros E.
  assert (s = Spooldb n k 0 0 0 (replicate (Z.to_nat (n * k)) 0)) as -> by congruence.
  split; [|done]. exists (replicate (Z.to_nat n) []). cbn [sd_slot]. unfold zdrop, ztake. cbn.
  rewrite app_nil_r. split; [|done]. split; cbn; try lia; [rewrite zlen_replicate; lia|].
  exists (replicate (Z.to_nat n) (replicate (Z.to_nat k) 0)). split.
  - assert (chunk k [] (replicate (Z.to_nat k) 0)) as Hc.
    { split; [rewrite zlen_replicate; lia|]. split; [constructor|].
      destruct (Z.to_nat k) as [|m] eqn:E1; [lia|]. by exists (replicate m 0). }
    induction (Z.to_nat n); cbn; by constructor.
  - rewrite concat_zeros by done. f_equal. nia.
Qed.

Lemma spooldb_write_spec s ts ptrs : slots s ts -> zlen ptrs = 24 ->
  spooldb_write true (fun n => n) ptrs s = Done (0, Some (spooldb_struct s ptrs ++ sd_keys s)).
Proof.
  intros [Kp Ks Kn Sl Ix Sp (bs & Hbs & Ek)] Hp. unfold spooldb_write. cbn [negb].
  rewrite Z.eqb_refl. cbn [negb]. pose proof (concat_chunks_length _ _ _ Hbs) as Hl. rewrite <- Ek in Hl.
  rewrite u32_small by nia. rewrite rdn_ok by nia. cbn [obind]. rewrite Z.eqb_refl. cbn [negb].
  unfold zsub. rewrite zdrop_0, (ztake_ge _ (sd_keys s)), ztake_ge by nia. done.
Qed.

Lemma spooldb_struct_length s ptrs : zlen ptrs = 24 -> zlen (spooldb_struct s ptrs) = 40.
Proof.
  intros. unfold spooldb_struct. rewrite !zlen_app. unfold zlen at 1 2 3 4.
  rewrite !le_split_length. lia.
Qed.

Lemma le_join4 z : 0 <= z < 2 ^ 32 -> le_join (le_split 4 z) = z.
Proof. intros. apply le_join_split. change (256 ^ Z.of_nat 4) with (2 ^ 32). done. Qed.

Lemma spooldb_read_spec s ts s0 ptrs : slots s ts -> zlen ptrs = 24 ->
  sd_numslots s0 = sd_numslots s -> sd_keysize s0 = sd_keysize s ->
  zlen (sd_keys s0) = zlen (sd_keys s) ->
  spooldb_read (Some (spooldb_struct s ptrs ++ sd_keys s)) true true s0 = Done (0, s).
Proof.
  intros [Kp Ks Kn Sl Ix Sp (bs & Hbs & Ek)] Hp En Eks Hk0.
  pose proof (concat_chunks_length _ _ _ Hbs) as Hl. rewrite <- Ek in Hl. pose proof (zlen_nonneg ts).
  pose proof (spooldb_struct_length s ptrs Hp) as Hsl. unfold spooldb_read, SIZEOF_SPOOLDB. cbn [negb].
  rewrite (ztake_app_exact 40) by done. rewrite Hsl, Z.eqb_refl. cbn [negb].
  assert (forall a b c d r : list Z, length a = 4%nat -> length b = 4%nat -> length c = 4%nat ->
    length d = 4%nat -> let h := a ++ b ++ c ++ d ++ r in
    zsub 0 4 h = a /\ zsub 4 4 h = b /\ zsub 8 4 h = c /\ zsub 12 4 h = d) as Hfields.
  { clear. intros a b c d r Ha Hb Hc Hd h. subst h. split_and!.
    - by apply (zsub_app_exact []); [|unfold zlen; rewrite Ha].
    - apply zsub_app_exact; unfold zlen; by rewrite ?Ha, ?Hb.
    - rewrite app_assoc. apply zsub_app_exact; unfold zlen; rewrite ?length_app, ?Ha, ?Hb, ?Hc; done.
    - rewrite (app_assoc b), app_assoc. apply zsub_app_exact; unfold zlen;
        rewrite ?length_app, ?Ha, ?Hb, ?Hc, ?Hd; done. }
  destruct (Hfields (le_split 4 (sd_numslots s)) (le_split 4 (u32 (sd_keysize s)))
    (le_split 4 (sd_slot s)) (le_split 4 (sd_index s)) ptrs) as (F1 & F2 & F3 & F4);
    [apply le_split_length..|]. fold (spooldb_struct s ptrs) in F1, F2, F3, F4.
  rewrite F1, F2, F3, F4. assert (sd_keysize s < 2 ^ 31 /\ sd_numslots s < 2 ^ 31) as [] by nia.
  rewrite (u32_small (sd_keysize s)), !le_join4 by nia. rewrite s32_small by lia.
  rewrite Eks, En, Z.eqb_refl. cbn [negb orb]. destruct (Z.ltb_spec (sd_numslots s) (sd_numslots s)); [lia|].
  rewrite u32_small by nia. cbn [sd_keys].
  assert (zsub 40 (sd_numslots s * sd_keysize s) (spooldb_struct s ptrs ++ sd_keys s) = sd_keys s) as ->.
  { unfold zsub. rewrite zdrop_app_exact by done. apply ztake_ge. nia. }
  rewrite wr_0 by lia. rewrite <- Hk0 at 1. rewrite zdrop_ge, app_nil_r by lia. cbn [obind].
  rewrite Hl, <- Kn, Z.eqb_refl. cbn [negb sd_numslots sd_keysize sd_slot sd_index sd_slotptr].
  destruct s; cbn in *. subst. done.
Qed.

(** Saving the book. What is written when the program ends is read back
    when it starts with the same configuration: the same ring of paths, with
    the same next slot. *)
Theorem spooldb_saved (s s0 : spooldb_st) (q : list (list Z)) (ptrs : list Z)
  (Hr : ring s q) (Hp : zlen ptrs = 24)
  (Hn : sd_numslots s0 = sd_numslots s) (Hk : sd_keysize s0 = sd_keysize s)
  (Hl : zlen (sd_keys s0) = sd_numslots s0 * sd_keysize s0) :
  exists c, spooldb_write true (fun n => n) ptrs s = Done (0, Some c) /\
    spooldb_read (Some c) true true s0 = Done (0, s).
Proof.
  destruct Hr as (ts & Hs & _). rewrite (spooldb_write_spec s ts ptrs Hs Hp).
  eexists. split; [done|]. eapply spooldb_read_spec; try done.
  rewrite Hl, Hn, Hk. destruct Hs as [_ _ Kn _ _ _ (bs & Hbs & ->)].
  by rewrite (concat_chunks_length _ _ _ Hbs), Kn.
Qed.

(** ** Witnesses *)

#[local] Existing Instance demo_heap.

(** three slots of four bytes; the deleted paths are logged *)
Definition demo_destroy (k : list Z) (log : list (list Z)) : Z * list (list Z) := (0, log ++ [k]).
Definition demo_spool : spooldb_st := Spooldb 3 4 0 0 0 (replicate 12 0).

Lemma demo_spool_ring : ring demo_spool [[]; []; []].
Proof. by apply (init_ring 3 4). Qed.

Lemma spooldb_keeps_last_witness :
  exists s', insert_all demo_destroy demo_spool [[65]; [66]; [67; 68]; [69]] [] =
    Done ([0; 0; 0; 0], s', [[]; []; []; [65]]) /\ ring s' [[66]; [67; 68]; [69]].
Proof.
  destruct (spooldb_keeps_last demo_destroy demo_spool [[]; []; []] [[65]; [66]; [67; 68]; [69]] [])
    as (s' & E & Hr & _).
  - apply demo_spool_ring.
  - repeat constructor; done.
  - exists s'. split; [exact E|exact Hr].
Defined.

Lemma spooldb_saved_witness :
  exists c, spooldb_write true (fun n => n) (replicate 24 7) demo_spool = Done (0, Some c) /\
    spooldb_read (Some c) true true demo_spool = Done (0, demo_spool).
Proof.
  apply (spooldb_saved demo_spool demo_spool [[]; []; []]).
  - apply demo_spool_ring.
  - done.
  - done.
  - done.
  - done.
Defined.
