(* ===== verification/Qdb.v ===== *)
(** * Qdb: src/src/libqdb/qdb.c and src/src/nbspq.c, the distribution queues

    A table of queues, one for the filters and one for the servers, into which
    the processor puts a packet for each product. Each queue is a Berkeley DB
    queue of fixed length records with a counter and limits; it is protected by
    a mutex, which makes each operation one step.

    The database is a parameter ([QueueDb]) with its documented behaviour
    ([QueueDbSpec]). The [*dberror] codes, which are only logged, are left
    out. *)

From S2P Require Import Prelude Util CLib Mfile.

Class QueueDb := {
  qd : Type;
  (* put with DB_APPEND, get with DB_CONSUME into [ulen] bytes *)
  qd_put : qd -> list Z -> Z * qd;
  qd_consume : qd -> Z -> Z * list Z * qd;
  qd_re_len : qd -> Z * Z;
  qd_stat : qd -> Z * Z;
  qd_truncate : qd -> Z * qd;
  (* db_create, set_re_len, ... and open: name, record length, memory based *)
  qd_open : option (list Z) -> Z -> bool -> Z * option qd
}.

(** A record shorter than the record length is padded with blanks; an operation
    that fails changes nothing. *)
Class QueueDbSpec (Q : QueueDb) := {
  qd_content : qd -> list (list Z);
  qd_reclen : qd -> Z;
  qd_put_law : forall q d e q', qd_put q d = (e, q') ->
    qd_reclen q' = qd_reclen q /\
    (e <> 0 -> qd_content q' = qd_content q) /\
    (e = 0 -> zlen d <= qd_reclen q /\
       qd_content q' = qd_content q ++ [d ++ replicate (Z.to_nat (qd_reclen q - zlen d)) 32]);
  qd_consume_law : forall q n e d q', qd_consume q n = (e, d, q') ->
    qd_reclen q' = qd_reclen q /\
    (e <> 0 -> qd_content q' = qd_content q) /\
    (e = 0 -> qd_content q = d :: qd_content q' /\ zlen d = qd_reclen q);
  qd_re_len_law : forall q e n, qd_re_len q = (e, n) -> e = 0 -> n = qd_reclen q;
  qd_stat_law : forall q e n, qd_stat q = (e, n) -> e = 0 -> n = zlen (qd_content q);
  qd_truncate_law : forall q e q', qd_truncate q = (e, q') ->
    qd_reclen q' = qd_reclen q /\ qd_content q' = if e =? 0 then [] else qd_content q
}.

(** no operation fails without a reason *)
Class QueueDbReliable (Q : QueueDb) (QS : QueueDbSpec Q) : Prop := {
  qd_put_ok : forall q d, zlen d <= qd_reclen q -> (qd_put q d).1 = 0;
  qd_consume_ok : forall q n, qd_content q <> [] -> qd_reclen q <= n -> (qd_consume q n).1.1 = 0;
  qd_re_len_ok : forall q, (qd_re_len q).1 = 0;
  qd_truncate_ok : forall q, (qd_truncate q).1 = 0
}.

Definition QDB_FSTATUS_OK : Z := 0.
Definition QDB_FSTATUS_MAX_SOFT : Z := 1.
Definition QDB_FSTATUS_MAX_HARD : Z := 2.
Definition QDB_FSTATUS_DBERROR : Z := 4.

Section qdb.
Context `{Hp : Heap} `{Q : QueueDb}.

Record nbspq_st := Nbspq {
  nq_dbp : qd;
  nq_n : Z;
  nq_f_memory_based : Z;
  nq_f_qdb_status : Z
}.

(** limits and status are in [queue_state_st] of nbspq.c: [current], [last] *)
Record nbsp_qtable_st := Qtable {
  qt_n : Z;
  qt_softlimit : Z;
  qt_hardlimit : Z;
  qt_reclen : Z;
  qt_appdata : list (Z * Z);
  qt_nbspq : list nbspq_st
}.

Definition put_queue (qt : nbsp_qtable_st) (type : Z) (q : nbspq_st) : nbsp_qtable_st :=
  Qtable (qt_n qt) (qt_softlimit qt) (qt_hardlimit qt) (qt_reclen qt) (qt_appdata qt)
    (<[Z.to_nat type := q]> (qt_nbspq qt)).

(** ** One channel *)

(** [flag] has one bit *)
Definition set_qdb_status_flag (q : nbspq_st) (flag onoff : Z) : nbspq_st :=
  Nbspq (nq_dbp q) (nq_n q) (nq_f_memory_based q)
    (if negb (onoff =? 0) then Z.lor (nq_f_qdb_status q) flag
     else Z.land (nq_f_qdb_status q) (Z.lnot flag)).
Definition clear_qdb_status_flag (q : nbspq_st) : nbspq_st :=
  Nbspq (nq_dbp q) (nq_n q) (nq_f_memory_based q) QDB_FSTATUS_OK.
Definition test_qdb_status_flag (q : nbspq_st) (flag : Z) : Z :=
  if negb (Z.land (nq_f_qdb_status q) flag =? 0) then 1 else 0.
Definition qdb_n (q : nbspq_st) : Z := nq_n q.

Definition queue_soft_limit (n softlimit : Z) : Z :=
  if (0 <? softlimit) && (softlimit <=? n) then 1 else 0.
Definition queue_hard_limit (n hardlimit : Z) : Z :=
  if (0 <? hardlimit) && (hardlimit <=? n) then 1 else 0.

(** the structure has 120 bytes; the initializations of the mutex and the
    condition do not fail *)
Definition qdb_stat (q : nbspq_st) : Z * nbspq_st :=
  let (status, n) := qd_stat (nq_dbp q) in
  (status, if status =? 0 then Nbspq (nq_dbp q) n (nq_f_memory_based q) (nq_f_qdb_status q) else q).

Definition qdb_open (dbname : option (list Z)) (reclen : Z) : Z * option nbspq_st :=
  let mem := negb (valid_str dbname =? 1) in
  let (status, d) := qd_open dbname reclen mem in
  match d with
  | Some d =>
      if status =? 0 then
        if malloc_ok 120 then
          let (status, q) := qdb_stat (Nbspq d 0 (if mem then 1 else 0) QDB_FSTATUS_OK) in
          if status =? 0 then (0, Some q) else (-1, None)
        else (-1, None)
      else (-1, None)
  | None => (-1, None)
  end.

Definition qdb_snd (q : nbspq_st) (p : list Z) : Z * nbspq_st :=
  let (status, d) := qd_put (nq_dbp q) p in
  if status =? 0 then (0, Nbspq d (u32 (nq_n q + 1)) (nq_f_memory_based q) (nq_f_qdb_status q))
  else (-1, Nbspq d (nq_n q) (nq_f_memory_based q) (nq_f_qdb_status q)).

(** [p]: the buffer, of [size] bytes, or NULL. Returns the status, the buffer,
    the size *)
Definition qdb_rcv (q : nbspq_st) (p : option (list Z)) (size : Z)
  : outcome (Z * option (list Z) * Z * nbspq_st) :=
  let (status, reclen) := qd_re_len (nq_dbp q) in
  if negb (status =? 0) then Done (-1, p, size, q) else
  let ok := match p with None => malloc_ok reclen | Some _ => negb (size <? reclen) end in
  if negb ok then Done (-1, p, size, q) else
  let '(status, rec, d) := qd_consume (nq_dbp q) reclen in
  if negb (status =? 0)
  then Done (-1, p, size, Nbspq d (nq_n q) (nq_f_memory_based q) (nq_f_qdb_status q)) else
  let* b := match p with None => Done rec | Some b => wr b 0 rec end in
  let q := Nbspq d (u32 (nq_n q - 1)) (nq_f_memory_based q) (nq_f_qdb_status q) in
  if negb (nq_f_memory_based q =? 0) && (nq_n q =? 0) then
    let (status, d) := qd_truncate (nq_dbp q) in
    Done (status, Some b, reclen, Nbspq d (nq_n q) (nq_f_memory_based q) (nq_f_qdb_status q))
  else Done (0, Some b, reclen, q).

(** ** The table of channels *)

(** the name of queue [i] has its number in hexadecimal and ".db" *)
Definition hex_digit (d : Z) : Z := if d <? 10 then 48 + d else 87 + d.
Definition hex (i : Z) : list Z :=
  if i <? 16 then [hex_digit i] else [hex_digit (i / 16); hex_digit (i mod 16)].
Definition queue_name (dbname : option (list Z)) (i : Z) : option (list Z) :=
  if valid_str dbname =? 1 then option_map (fun s => s ++ hex i ++ [46; 100; 98]) dbname else None.

Fixpoint qdb_open_loop (dbname : option (list Z)) (reclen i : Z) (m : nat)
  : option (list nbspq_st) :=
  match m with
  | O => Some []
  | S m' =>
      match qdb_open (queue_name dbname i) reclen with
      | (_, Some q) =>
          match qdb_open_loop dbname reclen (i + 1) m' with
          | Some l => Some (q :: l)
          | None => None
          end
      | (_, None) => None
      end
  end.

(** sizes: the table has 40 bytes, a name six more than the given one *)
Definition nbspqt_open (num_queues softlimit hardlimit : Z) (dbname : option (list Z)) (reclen : Z)
  : option nbsp_qtable_st :=
  if negb (malloc_ok 40) || negb (malloc_ok (num_queues * 8)) then None else
  if (valid_str dbname =? 1) && negb (malloc_ok (zlen (default [] dbname) + 6)) then None else
  match qdb_open_loop dbname reclen 0 (Z.to_nat num_queues) with
  | Some l => Some (Qtable num_queues softlimit hardlimit reclen [] l)
  | None => None
  end.

(** -1 error, 0 ok, 1 soft limit reached, 2 hard limit reached *)
Definition nbspqt_snd (qt : nbsp_qtable_st) (type : Z) (data : list Z)
  : outcome (Z * nbsp_qtable_st) :=
  c_assert ((0 <=? type) && (type <=? qt_n qt - 1))
    (let* q := rd (qt_nbspq qt) type in
     let n := s32 (nq_n q) in
     let status := if negb (queue_hard_limit n (qt_hardlimit qt) =? 0) then 2 else 0 in
     let (status, q) :=
       if status =? 0
       then qdb_snd (set_qdb_status_flag q QDB_FSTATUS_MAX_HARD 0) data else (status, q) in
     let (status, q) :=
       if status =? 0 then
         (if negb (queue_soft_limit (n + 1) (qt_softlimit qt) =? 0) then 1 else 0,
          set_qdb_status_flag q QDB_FSTATUS_DBERROR 0)
       else (status, q) in
     let q :=
       if status =? 0 then set_qdb_status_flag q QDB_FSTATUS_MAX_SOFT 0
       else if status =? -1 then set_qdb_status_flag q QDB_FSTATUS_DBERROR 1
       else if status =? 1 then set_qdb_status_flag q QDB_FSTATUS_MAX_SOFT 1
       else if status =? 2 then set_qdb_status_flag q QDB_FSTATUS_MAX_HARD 1
       else q in
     Done (status, put_queue qt type q)).

(** the wait for an element: each wake-up gives the status of the wait and the
    queue found then; [None] when the thread is still waiting *)
Fixpoint rcv_wait (q : nbspq_st) (status : Z) (wakeups : list (Z * nbspq_st))
  : option (Z * nbspq_st) :=
  if (nq_n q =? 0) && (status =? 0) then
    match wakeups with
    | [] => None
    | (st, q') :: ws => rcv_wait q' st ws
    end
  else Some (status, q).

(** 0 ok, 1 empty after the timeout, or an error; [None]: still waiting *)
Definition nbspqt_rcv (qt : nbsp_qtable_st) (type : Z) (p : option (list Z)) (size : Z)
    (wakeups : list (Z * nbspq_st)) : outcome (option (Z * option (list Z) * Z * nbsp_qtable_st)) :=
  c_assert ((0 <=? type) && (type <=? qt_n qt - 1))
    (let* q := rd (qt_nbspq qt) type in
     match rcv_wait q 0 wakeups with
     | None => Done None
     | Some (status, q) =>
         if nq_n q =? 0 then
           Done (Some (if status =? ETIMEDOUT then 1 else -1, p, size, put_queue qt type q))
         else
           let* (status, p, size, q) := qdb_rcv q p size in
           Done (Some (status, p, size, put_queue qt type q))
     end).

Definition nbspqt_n (qt : nbsp_qtable_st) (type : Z) : outcome Z :=
  let* q := rd (qt_nbspq qt) type in Done (nq_n q).

(** ** nbspq.c *)

Definition FILTER_Q_INDEX : Z := 0.
Definition SERVER_Q_INDEX : Z := 1.

Definition set_appdata v (qt : nbsp_qtable_st) : nbsp_qtable_st :=
  Qtable (qt_n qt) (qt_softlimit qt) (qt_hardlimit qt) (qt_reclen qt) v (qt_nbspq qt).

(** [maxsize]: [const_fpath_packet_maxsize()]. Without memory for the states the
    loop that clears them follows a null pointer *)
Definition init_nbspq (numchannels soft hard maxsize : Z) (dbfname : option (list Z))
  : outcome (option nbsp_qtable_st) :=
  if malloc_ok (numchannels * 8) then
    Done (match nbspqt_open numchannels soft hard
            (if valid_str dbfname =? 1 then dbfname else None) maxsize with
    | Some qt => Some (set_appdata (replicate (Z.to_nat numchannels) (0, 0)) qt)
    | None => None
    end)
  else if 0 <? numchannels then Undef else Done None.

Definition nbspq_set_quota_status1 (qt : nbsp_qtable_st) (type status : Z)
  : outcome nbsp_qtable_st :=
  let* (_, last) := rd (qt_appdata qt) type in
  Done (set_appdata (<[Z.to_nat type := (status, last)]> (qt_appdata qt)) qt).

(** the message of the report: 0 none, 1 soft limit, 2 hard limit, 3 restored *)
Definition e_nbspq_quota1 (qt : nbsp_qtable_st) (type : Z) : outcome (Z * nbsp_qtable_st) :=
  let* (current, last) := rd (qt_appdata qt) type in
  Done (if current =? 1 then 1 else if current =? 2 then 2
        else if negb (current =? last) then 3 else 0,
        set_appdata (<[Z.to_nat type := (current, current)]> (qt_appdata qt)) qt).

(** the reports of the [m] queues from [i] on *)
Fixpoint e_nbspq_report_quota (qt : nbsp_qtable_st) (i : Z) (m : nat)
  : outcome (list Z * nbsp_qtable_st) :=
  match m with
  | O => Done ([], qt)
  | S m' =>
      let* (r, qt) := e_nbspq_quota1 qt i in
      let* (l, qt) := e_nbspq_report_quota qt (i + 1) m' in
      Done (r :: l, qt)
  end.

Definition e_nbspq_snd1 (qt : nbsp_qtable_st) (type : Z) (packet : list Z)
  : outcome (Z * nbsp_qtable_st) :=
  let* (status, qt) := nbspqt_snd qt type packet in
  if status =? -1 then Done (-1, qt) else
  let* qt := nbspq_set_quota_status1 qt type status in
  Done (if status =? 1 then 0 else if status =? 2 then -1 else status, qt).

(** [created]: the thread that reads the queue has been created *)
Definition e_nbspq_snd_filter (created : Z) (qt : nbsp_qtable_st) (packet : list Z)
  : outcome (Z * nbsp_qtable_st) :=
  if negb (created =? 0) then e_nbspq_snd1 qt FILTER_Q_INDEX packet else Done (0, qt).
Definition e_nbspq_snd_server (created : Z) (qt : nbsp_qtable_st) (packet : list Z)
  : outcome (Z * nbsp_qtable_st) :=
  if negb (created =? 0) then e_nbspq_snd1 qt SERVER_Q_INDEX packet else Done (0, qt).

Definition e_nbspq_rcv1 (qt : nbsp_qtable_st) (type : Z) (packet : option (list Z))
    (packet_size : Z) (wakeups : list (Z * nbspq_st))
  : outcome (option (Z * option (list Z) * Z * nbsp_qtable_st)) :=
  let* r := nbspqt_rcv qt type packet (u32 packet_size) wakeups in
  Done (match r with
        | Some (status, packet, size, qt) =>
            Some (status, packet, if status =? 0 then size else packet_size, qt)
        | None => None
        end).
Definition e_nbspq_rcv_filter qt := e_nbspq_rcv1 qt FILTER_Q_INDEX.
Definition e_nbspq_rcv_server qt := e_nbspq_rcv1 qt SERVER_Q_INDEX.

End qdb.

(** ** The queues as lists *)

(** the queue [q] holds the records [c] *)
Record queue_rep `{QueueDbSpec} (reclen : Z) (q : nbspq_st) (c : list (list Z)) : Prop := QueueRep {
  qr_content : qd_content (nq_dbp q) = c;
  qr_n : nq_n q = zlen c;
  qr_reclen : qd_reclen (nq_dbp q) = reclen
}.

Record table_rep `{QueueDbSpec} (qt : nbsp_qtable_st) (qs : list (list (list Z))) : Prop := TableRep {
  tr_n : qt_n qt = zlen (qt_nbspq qt);
  tr_appdata : zlen (qt_appdata qt) = qt_n qt;
  tr_queues : Forall2 (queue_rep (qt_reclen qt)) (qt_nbspq qt) qs
}.

(** what sending and receiving mean on the lists *)
Inductive q_op := QSnd (type : Z) (d : list Z) | QRcv (type : Z).

Definition q_spec (hard : Z) (op : q_op) (qs : list (list (list Z)))
  : (Z * list Z) * list (list (list Z)) :=
  match op with
  | QSnd t d =>
      let c := qs !!! Z.to_nat t in
      if (0 <? hard) && (hard <=? zlen c) then ((-1, []), qs)
      else ((0, []), <[Z.to_nat t := c ++ [d]]> qs)
  | QRcv t =>
      match qs !!! Z.to_nat t with
      | [] => ((1, []), qs)
      | x :: c => ((0, x), <[Z.to_nat t := c]> qs)
      end
  end.

Definition op_ok (n reclen : Z) (op : q_op) : Prop :=
  match op with
  | QSnd t d => 0 <= t < n /\ zlen d = reclen
  | QRcv t => 0 <= t < n
  end.

Section theory.
Context `{Hp : Heap} `{QR : QueueDbReliable}.

Lemma set_flag_rep r q c flag b : queue_rep r q c -> queue_rep r (set_qdb_status_flag q flag b) c.
Proof. by intros []. Qed.

Lemma qdb_snd_rep r q c d : queue_rep r q c -> zlen d = r -> zlen c + 1 < 2 ^ 32 ->
  exists q', qdb_snd q d = (0, q') /\ queue_rep r q' (c ++ [d]) /\
    nq_f_memory_based q' = nq_f_memory_based q.
Proof.
  intros [Hc Hn Hr] Hd Hl. pose proof (zlen_nonneg c). unfold qdb_snd.
  assert ((qd_put (nq_dbp q) d).1 = 0) as Hok by (apply qd_put_ok; lia).
  destruct (qd_put (nq_dbp q) d) as [e b] eqn:E. cbn in Hok. subst e. cbn [Z.eqb].
  apply qd_put_law in E as (Hr' & _ & Hc'). destruct (Hc' eq_refl) as [_ Hc2].
  eexists. split; [done|]. split; [|done]. split; cbn.
  - rewrite Hc2, Hc, Hr, Hd, Z.sub_diag. cbn. by rewrite app_nil_r.
  - rewrite Hn, zlen_app, zlen_cons, zlen_nil. rewrite u32_small; lia.
  - by rewrite Hr'.
Qed.

Lemma table_queue qt qs t : table_rep qt qs -> 0 <= t < qt_n qt ->
  exists q, rd (qt_nbspq qt) t = Done q /\ qt_nbspq qt !! Z.to_nat t = Some q /\
    queue_rep (qt_reclen qt) q (qs !!! Z.to_nat t).
Proof.
  intros [Hn _ HF] Ht. destruct (rd_total (qt_nbspq qt) t) as [q E]; [lia|].
  exists q. split; [done|]. apply rd_Done in E. rewrite znth_lookup in E by lia. split; [done|].
  destruct (Forall2_lookup_l _ _ _ _ _ HF E) as (c & Hc & Hq).
  by rewrite (list_lookup_total_correct _ _ _ Hc).
Qed.

Lemma put_queue_rep qt qs t q c : table_rep qt qs -> queue_rep (qt_reclen qt) q c ->
  table_rep (put_queue qt t q) (<[Z.to_nat t := c]> qs).
Proof.
  intros [Hn Ha HF] Hq. split; cbn; [unfold zlen in *; by rewrite length_insert|done|].
  by apply Forall2_insert.
Qed.

Lemma set_quota_rep qt qs t st : table_rep qt qs -> 0 <= t < qt_n qt ->
  exists qt', nbspq_set_quota_status1 qt t st = Done qt' /\ table_rep qt' qs /\
    qt_n qt' = qt_n qt /\ qt_reclen qt' = qt_reclen qt /\ qt_hardlimit qt' = qt_hardlimit qt.
Proof.
  intros [Hn Ha HF] Ht. unfold nbspq_set_quota_status1.
  destruct (rd_total (qt_appdata qt) t) as [[cu la] ->]; [lia|]. cbn [obind].
  eexists. split; [done|]. split; [|done]. split; cbn; try done.
  unfold zlen in *. by rewrite length_insert.
Qed.

Lemma snd1_spec qt qs t d : table_rep qt qs -> op_ok (qt_n qt) (qt_reclen qt) (QSnd t d) ->
  zlen (qs !!! Z.to_nat t) + 1 < 2 ^ 31 ->
  exists qt', e_nbspq_snd1 qt t d = Done ((q_spec (qt_hardlimit qt) (QSnd t d) qs).1.1, qt') /\
    table_rep qt' (q_spec (qt_hardlimit qt) (QSnd t d) qs).2 /\
    qt_n qt' = qt_n qt /\ qt_reclen qt' = qt_reclen qt /\ qt_hardlimit qt' = qt_hardlimit qt.
Proof.
  intros Hw [Ht Hd] Hl. destruct (table_queue qt qs t Hw Ht) as (q & Erd & Hlk & Hq).
  pose proof (zlen_nonneg (qs !!! Z.to_nat t)).
  unfold e_nbspq_snd1, nbspqt_snd, c_assert.
  destruct (Z.leb_spec 0 t), (Z.leb_spec t (qt_n qt - 1)); try lia. cbn [andb]. rewrite Erd. cbn [obind].
  rewrite (qr_n _ _ _ Hq), s32_small by lia. cbn [q_spec]. unfold queue_hard_limit.
  set (c := qs !!! Z.to_nat t) in *.
  destruct ((0 <? qt_hardlimit qt) && (qt_hardlimit qt <=? zlen c)) eqn:Eh; cbn [Z.eqb negb].
  - cbn [obind Z.eqb Pos.eqb].
    destruct (set_quota_rep (put_queue qt t (set_qdb_status_flag q QDB_FSTATUS_MAX_HARD 1)) qs t 2)
      as (qt' & -> & Hw' & E); [|done|].
    { rewrite <- (list_insert_id qs (Z.to_nat t) c).
      - apply put_queue_rep; [done|]. by apply set_flag_rep.
      - apply list_lookup_lookup_total_lt. destruct Hw as [_ _ HF].
        apply Forall2_length in HF. rewrite <- HF. by eapply lookup_lt_Some. }
    cbn [obind Z.eqb Pos.eqb fst]. exists qt'. by split.
  - destruct (qdb_snd_rep (qt_reclen qt) (set_qdb_status_flag q QDB_FSTATUS_MAX_HARD 0) c d)
      as (q1 & -> & Hq1 & _); [by apply set_flag_rep|done|lia|].
    cbn [Z.eqb]. set (st := if negb (queue_soft_limit (zlen c + 1) (qt_softlimit qt) =? 0) then 1 else 0).
    set (q2 := if st =? 0 then _ else _).
    assert (queue_rep (qt_reclen qt) q2 (c ++ [d])) as Hq2.
    { subst q2 st. destruct (negb _); cbn [Z.eqb Pos.eqb]; by repeat apply set_flag_rep. }
    cbn [obind]. assert ((st =? -1) = false) as -> by (subst st; by destruct (negb _)).
    destruct (set_quota_rep (put_queue qt t q2) (<[Z.to_nat t:=c ++ [d]]> qs) t st) as (qt' & -> & Hw' & E);
      [by apply put_queue_rep|done|].
    cbn [obind fst snd]. exists qt'. split; [|by split].
    subst st. by destruct (negb _).
Qed.

(** a receive into a buffer of the length of the records *)
Lemma qdb_rcv_rep r q x c b : queue_rep r q (x :: c) -> zlen b = r -> r < 2 ^ 32 -> zlen c + 1 < 2 ^ 32 ->
  exists q', qdb_rcv q (Some b) r = Done (0, Some x, r, q') /\ queue_rep r q' c.
Proof.
  intros [Hc Hn Hr] Hb Hr32 Hl. pose proof (zlen_nonneg c). rewrite zlen_cons in Hn. unfold qdb_rcv.
  pose proof (qd_re_len_ok (nq_dbp q)) as Hok.
  destruct (qd_re_len (nq_dbp q)) as [e n] eqn:E. cbn in Hok. subst e. cbn [Z.eqb negb].
  assert (n = r) as -> by (rewrite <- Hr; by eapply qd_re_len_law).
  destruct (Z.ltb_spec r r); [lia|]. cbn [negb].
  assert ((qd_consume (nq_dbp q) r).1.1 = 0) as Hok2 by (apply qd_consume_ok; [by rewrite Hc|lia]).
  destruct (qd_consume (nq_dbp q) r) as [[e rec] d] eqn:E2. cbn in Hok2. subst e. cbn [Z.eqb negb].
  apply qd_consume_law in E2 as (Hr2 & _ & Hc2). destruct (Hc2 eq_refl) as [Hc3 Hrl].
  rewrite Hc in Hc3. injection Hc3 as <- Hc3. rewrite Hr in Hrl.
  rewrite wr_0 by lia. rewrite zdrop_ge, app_nil_r by lia. cbn [obind nq_n nq_f_memory_based nq_dbp nq_f_qdb_status].
  replace (nq_n q - 1) with (zlen c) by lia. rewrite u32_small by lia.
  destruct (negb (nq_f_memory_based q =? 0) && (zlen c =? 0)) eqn:Em.
  - apply andb_true_iff in Em as [_ Em%Z.eqb_eq]. pose proof (qd_truncate_ok d) as Hok3.
    destruct (qd_truncate d) as [e d'] eqn:E3. cbn in Hok3. subst e.
    apply qd_truncate_law in E3 as [Hr3 Hc4]. cbn [Z.eqb] in Hc4.
    eexists. split; [done|]. destruct c; [|rewrite zlen_cons in Em; pose proof (zlen_nonneg c); lia].
    split; cbn; [done|done|congruence].
  - eexists. split; [done|]. split; cbn; [done|done|congruence].
Qed.

(** the wait of a receive that nobody disturbs: it times out *)
Definition alone (qt : nbsp_qtable_st) (t : Z) : list (Z * nbspq_st) :=
  match rd (qt_nbspq qt) t with Done q => [(ETIMEDOUT, q)] | _ => [] end.

Lemma rcv1_spec qt qs t b : table_rep qt qs -> op_ok (qt_n qt) (qt_reclen qt) (QRcv t) ->
  zlen b = qt_reclen qt -> qt_reclen qt < 2 ^ 32 -> zlen (qs !!! Z.to_nat t) < 2 ^ 31 ->
  let '((st, x), qs') := q_spec (qt_hardlimit qt) (QRcv t) qs in
  exists p qt', e_nbspq_rcv1 qt t (Some b) (qt_reclen qt) (alone qt t) = Done (Some (st, p, qt_reclen qt, qt')) /\
    p = Some (if st =? 0 then x else b) /\ table_rep qt' qs' /\
    qt_n qt' = qt_n qt /\ qt_reclen qt' = qt_reclen qt /\ qt_hardlimit qt' = qt_hardlimit qt.
Proof.
  intros Hw Ht Hb Hr Hl. cbn in Ht. destruct (table_queue qt qs t Hw Ht) as (q & Erd & Hlk & Hq).
  assert (Z.to_nat t < length qs)%nat as Hlt.
  { destruct Hw as [_ _ HF]. apply Forall2_length in HF. rewrite <- HF. by eapply lookup_lt_Some. }
  unfold e_nbspq_rcv1, nbspqt_rcv, c_assert, alone. rewrite Erd. pose proof (zlen_nonneg b).
  destruct (Z.leb_spec 0 t), (Z.leb_spec t (qt_n qt - 1)); try lia. cbn [andb obind].
  rewrite u32_small by lia. cbn [q_spec]. pose proof (qr_n _ _ _ Hq) as Hn.
  destruct (qs !!! Z.to_nat t) as [|x c] eqn:Ec.
  - rewrite zlen_nil in Hn. cbn [rcv_wait]. rewrite Hn. cbn [Z.eqb andb].
    change (ETIMEDOUT =? 0) with false. cbn [andb]. rewrite ?Hn. cbn [Z.eqb obind].
    change (ETIMEDOUT =? ETIMEDOUT) with true. cbn [Z.eqb Pos.eqb].
    eexists _, _. split; [done|]. split; [done|]. split; [|done].
    rewrite <- (list_insert_id qs (Z.to_nat t) []);
      [|rewrite <- Ec; by apply list_lookup_lookup_total_lt].
    by apply put_queue_rep.
  - rewrite zlen_cons in Hn, Hl. pose proof (zlen_nonneg c). cbn [rcv_wait].
    destruct (Z.eqb_spec (nq_n q) 0); [lia|]. cbn [andb].
    destruct (Z.eqb_spec (nq_n q) 0); [lia|].
    destruct (qdb_rcv_rep (qt_reclen qt) q x c b) as (q' & -> & Hq'); [done|done|lia|lia|].
    cbn [obind Z.eqb]. eexists _, _. split; [done|]. split; [done|]. split; [|done].
    by apply put_queue_rep.
Qed.

(** ** Sequences of operations *)

(** the program runs the operations with a packet buffer [b]; the results are
    the statuses and the packets received *)
Fixpoint q_run (ops : list q_op) (b : list Z) (qt : nbsp_qtable_st)
  : outcome (list (Z * list Z) * nbsp_qtable_st) :=
  match ops with
  | [] => Done ([], qt)
  | QSnd t d :: ops =>
      let* (st, qt) := e_nbspq_snd1 qt t d in
      let* (l, qt) := q_run ops b qt in
      Done ((st, []) :: l, qt)
  | QRcv t :: ops =>
      let* r := e_nbspq_rcv1 qt t (Some b) (qt_reclen qt) (alone qt t) in
      match r with
      | Some (st, Some p, _, qt) =>
          let* (l, qt) := q_run ops b qt in
          Done ((st, if st =? 0 then p else []) :: l, qt)
      | _ => Undef
      end
  end.

Fixpoint q_spec_run (hard : Z) (ops : list q_op) (qs : list (list (list Z)))
  : list (Z * list Z) * list (list (list Z)) :=
  match ops with
  | [] => ([], qs)
  | op :: ops =>
      let (r, qs) := q_spec hard op qs in
      let (l, qs) := q_spec_run hard ops qs in
      (r :: l, qs)
  end.

Lemma q_spec_short hard op qs m : 0 < m -> Forall (fun c => zlen c < m) qs ->
  Forall (fun c => zlen c < m + 1) (q_spec hard op qs).2.
Proof.
  intros Hm HF. assert (forall c : list (list Z), c ∈ qs -> zlen c < m) as Hin.
  { intros c [i Hi]%list_elem_of_lookup_1. by apply (Forall_lookup_1 _ _ _ _ HF Hi). }
  assert (forall i, zlen (qs !!! i) < m \/ qs !!! i = []) as Hl.
  { intros i. destruct (qs !! i) as [c|] eqn:E.
    - left. rewrite (list_lookup_total_correct _ _ _ E). apply Hin. by eapply list_elem_of_lookup_2.
    - right. by rewrite list_lookup_total_alt, E. }
  assert (Forall (fun c => zlen c < m + 1) qs) as HF1 by (eapply Forall_impl; [|exact HF]; cbn; intros; lia).
  destruct op as [t d|t]; cbn.
  - destruct ((0 <? hard) && _); [done|]. apply Forall_insert; [done|]. rewrite zlen_app, zlen_cons, zlen_nil.
    destruct (qs !! Z.to_nat t) as [c|] eqn:E.
    + destruct (Hl (Z.to_nat t)) as [| ->]; [lia|]. rewrite zlen_nil.
      pose proof (Hin _ (list_elem_of_lookup_2 _ _ _ E)). pose proof (zlen_nonneg c). lia.
    + rewrite list_lookup_total_alt, E. change (zlen (default inhabitant None)) with 0. lia.
  - destruct (qs !!! Z.to_nat t) as [|x c] eqn:E; [done|]. apply Forall_insert; [done|].
    destruct (Hl (Z.to_nat t)) as [Hlt|Hn]; [rewrite E, zlen_cons in Hlt; lia|by rewrite E in Hn].
Qed.

Lemma q_run_spec ops b : forall qt qs m,
  table_rep qt qs -> Forall (op_ok (qt_n qt) (qt_reclen qt)) ops ->
  zlen b = qt_reclen qt -> qt_reclen qt < 2 ^ 32 ->
  0 < m -> Forall (fun c => zlen c < m) qs -> m + zlen ops < 2 ^ 31 ->
  exists qt', q_run ops b qt = Done ((q_spec_run (qt_hardlimit qt) ops qs).1, qt') /\
    table_rep qt' (q_spec_run (qt_hardlimit qt) ops qs).2.
Proof.
  induction ops as [|op ops IH]; intros qt qs m Hw Hok Hb Hr Hm HF Hl; [by exists qt|].
  apply Forall_cons_iff in Hok as [Ho Hok]. rewrite zlen_cons in Hl. pose proof (zlen_nonneg ops).
  pose proof (q_spec_short (qt_hardlimit qt) op qs m Hm HF) as HF'.
  assert (forall t, zlen (qs !!! Z.to_nat t) < m) as Hlen.
  { intros t. destruct (qs !! Z.to_nat t) as [c|] eqn:E.
    - rewrite (list_lookup_total_correct _ _ _ E). by apply (Forall_lookup_1 _ _ _ _ HF E).
    - rewrite list_lookup_total_alt, E. done. }
  destruct op as [t d|t]; cbn [q_run q_spec_run].
  - destruct (snd1_spec qt qs t d Hw Ho) as (qt1 & -> & Hw1 & En & Er & Eh);
      [specialize (Hlen t); lia|].
    assert ((q_spec (qt_hardlimit qt) (QSnd t d) qs).1.2 = []) as E2.
    { cbn. by destruct ((0 <? _) && _). }
    destruct (q_spec (qt_hardlimit qt) (QSnd t d) qs) as [[st x] qs1]. cbn [fst snd] in *. subst x.
    cbn [obind]. destruct (IH qt1 qs1 (m + 1)) as (qt2 & -> & Hw2); try done; rewrite ?En, ?Er; try done; try lia.
    rewrite Eh in *. cbn [obind]. destruct (q_spec_run (qt_hardlimit qt) ops qs1). by exists qt2.
  - pose proof (rcv1_spec qt qs t b Hw Ho Hb Hr) as Hs.
    destruct (q_spec (qt_hardlimit qt) (QRcv t) qs) as [[st x] qs1] eqn:Eq. cbn [fst snd] in *.
    destruct Hs as (p & qt1 & -> & Hx & Hw1 & En & Er & Eh); [specialize (Hlen t); lia|].
    cbn [obind]. subst p.
    assert (st = 1 /\ x = [] \/ st = 0) as Hst.
    { clear -Eq. cbn in Eq. destruct (qs !!! Z.to_nat t); injection Eq as <- <- _; auto. }
    destruct (IH qt1 qs1 (m + 1)) as (qt2 & E & Hw2); try done; rewrite ?En, ?Er; try done; try lia.
    rewrite E, Eh in *. cbn [obind]. destruct (q_spec_run (qt_hardlimit qt) ops qs1). exists qt2.
    split; [|done]. by destruct Hst as [[-> ->]| ->].
Qed.

(** C21: The distribution queues are FIFO queues. Any sequence of operations on
    the table of queues gives the same statuses and the same packets as the
    lists that they stand for: a packet is received from the queue it was sent
    to, in order and unchanged, and a queue that has reached its hard limit
    refuses the next packet. *)
Theorem qtable_fifo (ops : list q_op) (b : list Z) (qt : nbsp_qtable_st)
    (qs : list (list (list Z))) (m : Z)
  (Hw : table_rep qt qs) (Hok : Forall (op_ok (qt_n qt) (qt_reclen qt)) ops)
  (Hb : zlen b = qt_reclen qt) (Hr : qt_reclen qt < 2 ^ 32)
  (Hm : 0 < m) (HF : Forall (fun c => zlen c < m) qs) (Hl : m + zlen ops < 2 ^ 31) :
  exists qt', q_run ops b qt = Done ((q_spec_run (qt_hardlimit qt) ops qs).1, qt') /\
    table_rep qt' (q_spec_run (qt_hardlimit qt) ops qs).2.
Proof. by eapply q_run_spec. Qed.
End theory.

(** ** Witness *)

(** a queue of records of [n] bytes *)
Definition fixed_rec (n : Z) : Type := { l : list Z | zlen l = n }.

Definition fixed_qd (n : Z) : QueueDb := {|
  qd := list (fixed_rec n);
  qd_put q d :=
    match decide (zlen (d ++ replicate (Z.to_nat (n - zlen d)) 32) = n) with
    | left H => (0, q ++ [exist _ _ H])
    | right _ => (EINVAL, q)
    end;
  qd_consume q ulen :=
    match q with
    | [] => (-30988, [], q)
    | x :: q' => if n <=? ulen then (0, proj1_sig x, q') else (EINVAL, [], q)
    end;
  qd_re_len q := (0, n);
  qd_stat q := (0, zlen q);
  qd_truncate q := (0, []);
  qd_open _ _ _ := (0, Some [])
|}.

Definition fixed_qd_spec (n : Z) : QueueDbSpec (fixed_qd n).
Proof.
  refine {| qd_content := (fun q => map (@proj1_sig _ _) q) : @qd (fixed_qd n) -> list (list Z);
            qd_reclen _ := n |}.
  - cbn. intros q d e q'. case_decide as Hd; intros [= <- <-]; split_and!; try done.
    intros _. rewrite map_app. split; [|done]. rewrite zlen_app in Hd.
    pose proof (zlen_nonneg (replicate (Z.to_nat (n - zlen d)) 32)). lia.
  - cbn. intros q m e d q'. destruct q as [|[x Hx] q]; [by intros [= <- <- <-]|].
    destruct (Z.leb_spec n m); intros [= <- <- <-]; by split_and!.
  - by intros q e m [= <- <-].
  - cbn. intros q e m [= <- <-]. unfold zlen. by rewrite length_map.
  - by intros q e q' [= <- <-].
Defined.

Lemma fixed_qd_reliable (n : Z) : QueueDbReliable (fixed_qd n) (fixed_qd_spec n).
Proof.
  split; cbn; try done.
  - intros q d Hd. case_decide as Hn; [done|]. destruct Hn. unfold zlen in *.
    rewrite length_app, length_replicate. lia.
  - intros q m Hq Hm. destruct q; [done|]. by rewrite (proj2 (Z.leb_le _ _) Hm).
Qed.

Definition demo_qtable : @nbsp_qtable_st (fixed_qd 4) :=
  let q := @Nbspq (fixed_qd 4) [] 0 1 0 in
  @Qtable (fixed_qd 4) 2 0 2 4 [(0, 0); (0, 0)] [q; q].
Definition demo_qops : list q_op :=
  [QSnd 0 [1; 2; 3; 4]; QSnd 1 [9; 9; 9; 9]; QSnd 0 [5; 6; 7; 8]; QSnd 0 [0; 0; 0; 0];
   QRcv 0; QRcv 1; QRcv 0; QRcv 0].

Lemma qtable_fifo_witness :
  exists qt', q_run (Hp := demo_heap) demo_qops [0; 0; 0; 0] demo_qtable =
    Done ([(0, []); (0, []); (0, []); (-1, []); (0, [1; 2; 3; 4]); (0, [9; 9; 9; 9]);
           (0, [5; 6; 7; 8]); (1, [])], qt').
Proof.
  destruct (qtable_fifo (Hp := demo_heap) (QR := fixed_qd_reliable 4) demo_qops [0; 0; 0; 0] demo_qtable
              [[]; []] 1) as (qt' & E & _).
  - split; [done|done|]. repeat constructor.
  - repeat constructor; done.
  - done.
  - done.
  - done.
  - repeat constructor; done.
  - done.
  - exists qt'. exact E.
Defined.
