(* ===== verification/File.v ===== *)
(** * File: src/src/file.c, files and directories

    The file system is a parameter: what its calls return ([FileSys]) and,
    where a theorem needs it, their documented effect ([FileSysSpec]). Paths
    are strings. *)

From stdpp Require Import gmap.
From S2P Require Import Prelude Util CLib Mfile.

(** the kinds of file that [stat] tells apart *)
Inductive stat_result := StFile (size : Z) | StDir | StNoent | StError.

Class FileSys := {
  fsys : Type;
  sys_stat : fsys -> list Z -> stat_result;
  sys_unlink : fsys -> list Z -> Z * fsys;
  sys_mkdir : fsys -> list Z -> Z * fsys;
  (* open with O_CREAT, O_WRONLY and O_TRUNC *)
  sys_creat : fsys -> list Z -> bool * fsys;
  (* the value of a write of [n] bytes to the open file, and the file system
     when the bytes have been written to it *)
  sys_write_ret : fsys -> list Z -> Z -> Z;
  sys_put : fsys -> list Z -> list Z -> fsys
}.

(** A file or a directory is known by the text of its path: two texts name two
    of them, so there are no links, and no aliases such as [//] or [.]. *)
Class FileSysSpec (FS : FileSys) := {
  fs_files : fsys -> gmap (list Z) (list Z);
  fs_dirs : fsys -> gset (list Z);
  stat_file_law : forall f p n, sys_stat f p = StFile n ->
    exists c, fs_files f !! p = Some c /\ n = zlen c;
  stat_dir_law : forall f p, sys_stat f p = StDir -> p ∈ fs_dirs f;
  stat_noent_law : forall f p, sys_stat f p = StNoent -> fs_files f !! p = None;
  unlink_law : forall f p e f', sys_unlink f p = (e, f') ->
    fs_files f' = (if e =? 0 then delete p (fs_files f) else fs_files f) /\ fs_dirs f' = fs_dirs f;
  mkdir_law : forall f p e f', sys_mkdir f p = (e, f') ->
    fs_files f' = fs_files f /\ fs_dirs f' = if e =? 0 then fs_dirs f ∪ {[p]} else fs_dirs f;
  creat_law : forall f p b f', sys_creat f p = (b, f') ->
    fs_files f' = (if b then <[p := []]> (fs_files f) else fs_files f) /\ fs_dirs f' = fs_dirs f;
  put_law : forall f p c,
    fs_files (sys_put f p c) = <[p := c]> (fs_files f) /\ fs_dirs (sys_put f p c) = fs_dirs f
}.

Section file.
Context `{Hp : Heap} `{FS : FileSys}.

(** 0 it exists, 1 it does not, -1 error *)
Definition file_exists (f : fsys) (fname : list Z) : Z :=
  match sys_stat f fname with
  | StFile _ | StDir => 0
  | StNoent => 1
  | StError => -1
  end.

(** 0 deleted or did not exist, -1 error *)
Definition file_delete (f : fsys) (fname : list Z) : Z * fsys :=
  let status := file_exists f fname in
  if status =? 0 then sys_unlink f fname
  else if status =? 1 then (0, f)
  else (status, f).

(** 0 a directory, 1 does not exist, 2 not a directory, -1 error *)
Definition dir_exists (f : fsys) (dirname : list Z) : Z :=
  match sys_stat f dirname with
  | StDir => 0
  | StFile _ => 2
  | StNoent => 1
  | StError => -1
  end.

(** status and [*fsize]; a directory has some size [dsize] *)
Definition get_file_size (dsize : Z) (f : fsys) (fname : list Z) : Z * option Z :=
  match sys_stat f fname with
  | StFile n => (0, Some n)
  | StDir => (0, Some dsize)
  | _ => (-1, None)
  end.

(** [if(p[0] == '/') ++p], with the path up to [p] and from [p] on *)
Definition skip_slash (before rest : list Z) : list Z * list Z :=
  match rest with
  | c :: r => if c =? 47 then (before ++ [c], r) else (before, rest)
  | [] => (before, rest)
  end.

(** the loop of [make_dir_tree]: [before] is the path up to [p], [rest] the path
    from [p] on. Each turn leaves a shorter [rest]; running out of turns is the
    value 2, which no turn gives ([mkdir_loop_enough]) *)
Fixpoint mkdir_loop (fuel : nat) (f : fsys) (before rest : list Z) : Z * fsys :=
  match fuel with
  | O => (2, f)
  | S fuel' =>
      let '(before, rest) := skip_slash before rest in
      let path := match strchr_split 47 rest with
                  | Some (l, _) => before ++ l
                  | None => before ++ rest
                  end in
      let (status, f) := sys_mkdir f path in
      let status := if negb (status =? 0) && (dir_exists f path =? 0) then 0 else status in
      match strchr_split 47 rest with
      | Some (_, r) => if status =? 0 then mkdir_loop fuel' f path (47 :: r) else (status, f)
      | None => (status, f)
      end
  end.

Definition make_dir_tree2 (f : fsys) (path : list Z) : Z * fsys :=
  if zlen path =? 0 then (1, f) else mkdir_loop (S (length path)) f [] path.

Definition make_dir_tree (f : fsys) (path : option (list Z)) : Z * fsys :=
  match path with
  | None => (1, f)
  | Some path =>
      if zlen path =? 0 then (1, f)
      else if negb (malloc_ok (zlen path + 1)) then (-1, f)
      else mkdir_loop (S (length path)) f [] path
  end.

(** the library function [dirname] *)
Fixpoint strip_slashes (rev_path : list Z) : list Z :=
  match rev_path with
  | c :: r => if c =? 47 then strip_slashes r else rev_path
  | [] => []
  end.
Fixpoint strip_base (rev_path : list Z) : list Z :=
  match rev_path with
  | c :: r => if c =? 47 then rev_path else strip_base r
  | [] => []
  end.
Definition dirname (path : list Z) : list Z :=
  match strip_slashes (rev path) with
  | [] => if zlen path =? 0 then [46] else [47]
  | base =>
      match strip_base base with
      | [] => [46]
      | dir => match strip_slashes dir with [] => [47] | dir => rev dir end
      end
  end.

Definition has_slash (s : list Z) : bool := bool_decide (47 ∈ s).

Definition create_path_dirs (f : fsys) (fname : list Z) : Z * fsys :=
  if negb (has_slash fname) then (0, f)
  else if negb (malloc_ok (zlen fname + 1)) then (-1, f)
  else make_dir_tree2 f (dirname fname).

(** the part of the path after its last '/'; [None] for NULL *)
Definition findbasename (path : option (list Z)) : option (list Z) :=
  match path with
  | None => None
  | Some path =>
      if valid_str (Some path) =? 0 then None
      else match strrchr_after 47 path with
           | None => Some path
           | Some b => if valid_str (Some b) =? 0 then None else Some b
           end
  end.

Definition make_temp_logfile (logfile ext : list Z) : option (list Z) :=
  if malloc_ok (zlen logfile + zlen ext + 1) then Some (logfile ++ ext) else None.

(** the blocks of 1024 bytes that [read] returns ([None]: an error), and whether
    each [write] succeeds; 0, -1 read error, -2 write error *)
Fixpoint append_file (reads : list (option (list Z))) (writes : list bool) (out : list Z)
  : Z * list Z :=
  match reads with
  | [] => (0, out)
  | None :: _ => (-1, out)
  | Some [] :: _ => (0, out)
  | Some b :: reads =>
      match writes with
      | false :: _ => (-2, out)
      | true :: writes => append_file reads writes (out ++ b)
      | [] => append_file reads [] (out ++ b)
      end
  end.

End file.

(** ** Directory trees *)

(** the directories that the path names: its prefixes that end before a '/'
    that is not the first character, and itself *)
Fixpoint dir_prefixes (done rest : list Z) : list (list Z) :=
  match rest with
  | [] => [done]
  | c :: r => (if (c =? 47) && negb (zlen done =? 0) then [done] else []) ++ dir_prefixes (done ++ [c]) r
  end.

Section theory.
Context `{Hp : Heap} `{FSS : FileSysSpec}.

Lemma mkdir_step f p st f' : sys_mkdir f p = (st, f') ->
  (if negb (st =? 0) && (dir_exists f' p =? 0) then 0 else st) = 0 ->
  p ∈ fs_dirs f' /\ fs_dirs f ⊆ fs_dirs f' /\ fs_files f' = fs_files f.
Proof.
  intros E Hst. apply mkdir_law in E as [Ef Ed]. unfold dir_exists in Hst.
  destruct (Z.eqb_spec st 0) as [->|Hn]; cbn [negb andb] in *.
  - rewrite Ed. split; [set_solver|]. split; [set_solver|done].
  - destruct (sys_stat f' p) eqn:E; cbn in Hst; try done. apply stat_dir_law in E.
    rewrite Ed in *. split; [set_solver|]. split; [set_solver|done].
Qed.

Lemma strchr_split_Some c s l r : strchr_split c s = Some (l, r) ->
  s = l ++ c :: r /\ Forall (fun x => x <> c) l.
Proof.
  revert l r. induction s as [|x s IH]; intros l r; cbn; [done|].
  destruct (Z.eqb_spec x c) as [->|]; [by intros [= <- <-]|].
  destruct (strchr_split c s) as [[l' r']|] eqn:E; [|done]. intros [= <- <-].
  destruct (IH _ _ eq_refl) as [-> ?]. split; [done|]. by constructor.
Qed.

Lemma strchr_split_none c s : strchr_split c s = None -> Forall (fun x => x <> c) s.
Proof.
  induction s as [|x s IH]; cbn; [constructor|]. destruct (Z.eqb_spec x c); [done|].
  destruct (strchr_split c s) as [[]|]; [done|]. intros _. constructor; auto.
Qed.

(** prefixes of a path whose beginning has no '/' *)
Lemma dir_prefixes_app b l r : Forall (fun x => x <> 47) l ->
  dir_prefixes b (l ++ r) = dir_prefixes (b ++ l) r.
Proof.
  revert b. induction l as [|x l IH]; intros b Hl; [by rewrite app_nil_r|].
  apply Forall_cons_iff in Hl as [Hx Hl]. cbn [app dir_prefixes].
  destruct (Z.eqb_spec x 47); [done|]. cbn [andb app]. rewrite IH by done. by rewrite <- app_assoc.
Qed.

Lemma skip_slash_prefixes (P : list Z -> Prop) b rest b1 r1 : skip_slash b rest = (b1, r1) ->
  (b <> [] -> P b) -> Forall P (dir_prefixes b1 r1) -> Forall P (dir_prefixes b rest).
Proof.
  unfold skip_slash. intros E Hb HP. destruct rest as [|c r]; [by injection E as <- <-|].
  destruct (Z.eqb_spec c 47) as [->|]; injection E as <- <-; [|done].
  cbn [dir_prefixes]. apply Forall_app. split; [|done].
  destruct b as [|x b]; [constructor|]. rewrite zlen_cons. pose proof (zlen_nonneg b).
  destruct (Z.eqb_spec (1 + zlen b) 0); [lia|]. cbn. constructor; [by apply Hb|constructor].
Qed.

(** each turn consumes some of the path *)
Lemma skip_slash_shorter b rest b1 r1 l r : skip_slash b rest = (b1, r1) ->
  strchr_split 47 r1 = Some (l, r) -> (S (length r) < length rest)%nat.
Proof.
  unfold skip_slash. intros E Es. apply strchr_split_Some in Es as [Er _].
  subst r1. destruct rest as [|c q]; [injection E as _ E; by destruct l|].
  destruct (Z.eqb_spec c 47) as [->|Hc]; injection E as _ E; [subst q|].
  - rewrite length_cons, length_app. cbn. lia.
  - destruct l as [|x l]; cbn in E; injection E as -> ->; [done|].
    rewrite length_cons, length_app. cbn. lia.
Qed.

Lemma mkdir_loop_spec fuel : forall f b rest f',
  (length rest < fuel)%nat -> (b <> [] -> b ∈ fs_dirs f) ->
  mkdir_loop fuel f b rest = (0, f') ->
  fs_dirs f ⊆ fs_dirs f' /\ fs_files f' = fs_files f /\
  Forall (fun p => p ∈ fs_dirs f') (dir_prefixes b rest).
Proof.
  induction fuel as [|fuel IH]; intros f b rest f' Hl Hb; [lia|]. cbn [mkdir_loop].
  destruct (skip_slash b rest) as [b1 r1] eqn:Esk.
  destruct (strchr_split 47 r1) as [[l r]|] eqn:Es.
  - destruct (sys_mkdir f (b1 ++ l)) as [st1 f1] eqn:Em.
    destruct (Z.eqb_spec (if negb (st1 =? 0) && (dir_exists f1 (b1 ++ l) =? 0) then 0 else st1) 0)
      as [Est|Est]; [|intros [= ? ?]; congruence]. intros E.
    destruct (mkdir_step _ _ _ _ Em Est) as (Hin & Hsub & Ef).
    pose proof (skip_slash_shorter _ _ _ _ _ _ Esk Es).
    destruct (IH f1 (b1 ++ l) (47 :: r) f') as (Hsub2 & Ef2 & HF); [cbn in *; lia|done|done|].
    split; [set_solver|]. split; [congruence|].
    apply (skip_slash_prefixes _ _ _ _ _ Esk); [set_solver|].
    apply strchr_split_Some in Es as [-> Hl1]. by rewrite dir_prefixes_app.
  - destruct (sys_mkdir f (b1 ++ r1)) as [st1 f1] eqn:Em. intros [= Est <-].
    destruct (mkdir_step _ _ _ _ Em Est) as (Hin & Hsub & Ef).
    split; [done|]. split; [done|]. apply (skip_slash_prefixes _ _ _ _ _ Esk); [set_solver|].
    apply strchr_split_none in Es. rewrite <- (app_nil_r r1), dir_prefixes_app by done.
    cbn [dir_prefixes]. by repeat constructor.
Qed.

(** when [mkdir] gives only 0 or -1, the loop ends before its fuel does *)
Lemma mkdir_loop_enough fuel : (forall f p, (sys_mkdir f p).1 = 0 \/ (sys_mkdir f p).1 = -1) ->
  forall f b rest, (length rest < fuel)%nat ->
  (mkdir_loop fuel f b rest).1 = 0 \/ (mkdir_loop fuel f b rest).1 = -1.
Proof.
  intros Hmk. induction fuel as [|fuel IH]; intros f b rest Hl; [lia|]. cbn [mkdir_loop].
  destruct (skip_slash b rest) as [b1 r1] eqn:Esk.
  set (path := match strchr_split 47 r1 with Some (l, _) => b1 ++ l | None => b1 ++ r1 end).
  specialize (Hmk f path). destruct (sys_mkdir f path) as [st1 f1]. cbn [fst] in Hmk.
  set (st := if negb (st1 =? 0) && (dir_exists f1 path =? 0) then 0 else st1).
  assert (st = 0 \/ st = -1) as Hst by (subst st; destruct (_ && _); auto).
  destruct (strchr_split 47 r1) as [[l r]|] eqn:Es; [|done].
  destruct (st =? 0); [|done].
  pose proof (skip_slash_shorter _ _ _ _ _ _ Esk Es). apply IH. cbn. lia.
Qed.

(** C29: if [make_dir_tree] returns 0 every directory that the path goes
    through, and the path itself, is a directory afterwards; nothing that was
    there before has been lost. When [mkdir] returns 0 or -1 the function
    always ends, with 0, 1 (only for the empty path) or -1. *)
Theorem make_dir_tree_creates f path :
  (forall f p, (sys_mkdir f p).1 = 0 \/ (sys_mkdir f p).1 = -1) ->
  let '(st, f') := make_dir_tree f (Some path) in
  (st = 0 \/ st = -1 \/ st = 1 /\ path = []) /\
  (st = 0 -> fs_dirs f ⊆ fs_dirs f' /\ fs_files f' = fs_files f /\
     Forall (fun p => p ∈ fs_dirs f') (dir_prefixes [] path)).
Proof.
  intros Hmk. unfold make_dir_tree. destruct (Z.eqb_spec (zlen path) 0) as [E|E].
  { destruct path as [|c path]; [split; [auto|done]|].
    rewrite zlen_cons in E. pose proof (zlen_nonneg path). lia. }
  destruct (malloc_ok _); cbn [negb]; [|split; [auto|done]].
  destruct (mkdir_loop_enough (S (length path)) Hmk f [] path) as [E1|E1]; [lia| |];
    destruct (mkdir_loop _ _ _ _) as [st f'] eqn:El; cbn [fst] in E1; subst st;
    (split; [auto|]); [|done]. intros _.
  eapply mkdir_loop_spec; [|done|exact El]. lia.
Qed.
End theory.

(** No file operation fails without a reason: a file is in the way of a
    directory, a directory in the way of a file, or a file's directory does not
    exist. *)
Class FileSysReliable (FS : FileSys) (FSS : FileSysSpec FS) : Prop := {
  fsr_stat : forall f p, sys_stat f p =
    match fs_files f !! p with
    | Some c => StFile (zlen c)
    | None => if bool_decide (p ∈ fs_dirs f) then StDir else StNoent
    end;
  fsr_mkdir : forall f p, fs_files f !! p = None ->
    (sys_mkdir f p).1 = 0 \/ dir_exists (sys_mkdir f p).2 p = 0;
  fsr_unlink : forall f p c, fs_files f !! p = Some c -> (sys_unlink f p).1 = 0;
  fsr_creat : forall f p, p ∉ fs_dirs f -> (has_slash p = true -> dirname p ∈ fs_dirs f) ->
    (sys_creat f p).1 = true;
  fsr_write : forall f p n, sys_write_ret f p n = n
}.

(** a file system that keeps its files and directories in maps *)
Record map_fs := { mfs_files : gmap (list Z) (list Z); mfs_dirs : gset (list Z) }.

#[global] Instance map_filesys : FileSys := {
  fsys := map_fs;
  sys_stat f p :=
    match mfs_files f !! p with
    | Some c => StFile (zlen c)
    | None => if bool_decide (p ∈ mfs_dirs f) then StDir else StNoent
    end;
  sys_unlink f p :=
    match mfs_files f !! p with
    | Some _ => (0, {| mfs_files := delete p (mfs_files f); mfs_dirs := mfs_dirs f |})
    | None => (-1, f)
    end;
  sys_mkdir f p :=
    if bool_decide (p ∈ mfs_dirs f) then (-1, f)
    else (0, {| mfs_files := mfs_files f; mfs_dirs := mfs_dirs f ∪ {[p]} |});
  sys_creat f p := (true, {| mfs_files := <[p := []]> (mfs_files f); mfs_dirs := mfs_dirs f |});
  sys_write_ret _ _ n := n;
  sys_put f p c := {| mfs_files := <[p := c]> (mfs_files f); mfs_dirs := mfs_dirs f |}
}.

#[global] Instance map_filesys_spec : FileSysSpec map_filesys.
Proof.
  refine {| fs_files := (fun f : @fsys map_filesys => mfs_files f) : @fsys map_filesys -> _;
            fs_dirs := (fun f : @fsys map_filesys => mfs_dirs f) : @fsys map_filesys -> _ |}; cbn.
  - intros f p n. destruct (mfs_files f !! p); [intros [= <-]; eauto|by case_bool_decide].
  - intros f p. destruct (mfs_files f !! p); [done|by case_bool_decide].
  - intros f p. by destruct (mfs_files f !! p).
  - intros f p e f'. destruct (mfs_files f !! p); by intros [= <- <-].
  - intros f p e f'. case_bool_decide; by intros [= <- <-].
  - intros f p b f'. by intros [= <- <-].
  - done.
Defined.

#[global] Instance map_filesys_reliable : FileSysReliable map_filesys map_filesys_spec.
Proof.
  split; cbn; try done.
  - intros f p Hf. case_bool_decide as Hd; [|by left]. right. unfold dir_exists. cbn.
    by rewrite Hf, (bool_decide_eq_true_2 _ Hd).
  - by intros f p c ->.
Qed.

Lemma make_dir_tree_creates_witness :
  exists f', make_dir_tree (Hp := demo_heap) {| mfs_files := ∅; mfs_dirs := ∅ |} (Some [97; 47; 98])
      = (0, f') /\ [97] ∈ mfs_dirs f' /\ [97; 47; 98] ∈ mfs_dirs f'.
Proof.
  assert (forall f p, (sys_mkdir (FileSys := map_filesys) f p).1 = 0 \/
            (sys_mkdir (FileSys := map_filesys) f p).1 = -1) as Hmk.
  { intros f p. cbn. case_bool_decide; auto. }
  pose proof (make_dir_tree_creates (Hp := demo_heap) (FSS := map_filesys_spec)
    {| mfs_files := ∅; mfs_dirs := ∅ |} [97; 47; 98] Hmk) as H.
  destruct (make_dir_tree _ _) as [st f'] eqn:E. assert (st = 0) as ->.
  { vm_compute in E. by injection E as <- _. }
  exists f'. split; [done|]. destruct H as [_ H]. destruct (H eq_refl) as (_ & _ & HF).
  apply Forall_cons_iff in HF as [H1 HF]. by apply Forall_cons_iff in HF as [H2 _].
Defined.
