(* ===== verification/Mspool.v ===== *)
(** * Mspool: src/src/libspoolbdb and src/src/nbspmspoolbdb.c, the memory spool

    A product can be kept in a Berkeley DB cache instead of a file. The spool is
    a ring of databases ([spoolbdbv_st]): records go to the current one until it
    reaches its budget of bytes, then the oldest one is emptied and becomes the
    current one. A reader copies a record to a free slot
    ([spoolbuf_slots_st]) and reads it from there. Both objects are protected
    by a mutex, which makes each operation one step.

    Berkeley DB is a parameter ([SpoolBdb]) with its documented behaviour
    ([SpoolBdbSpec]). The initialization and the locking of the mutexes do not
    fail. *)

From stdpp Require Import gmap.
From S2P Require Import Prelude Util CLib Mfile.

Definition DB_NOTFOUND : Z := -30988.
Definition BUFFER_SMALL : Z := -30999.
Definition UINT32_MAX : Z := 4294967295.
Definition FKEY_SPOOLBDB_SIZE : Z := 10.
Definition FNAME_SEQNUM_SEP : Z := 95.   (* '_' *)

Class SpoolBdb := {
  sdb : Type;
  (* put and get of a record; get into [ulen] bytes gives the status, the size
     of the record and its bytes *)
  sdb_put : sdb -> list Z -> list Z -> Z * sdb;
  sdb_get : sdb -> list Z -> Z -> Z * Z * list Z;
  sdb_truncate : sdb -> Z * sdb;
  (* db_create, set_flags and open: the name, memory based, read only *)
  sdb_open : option (list Z) -> bool -> bool -> Z * option sdb;
  (* db_env_create, set_cachesize and open: home, cache size, mode, read only *)
  sdb_env_open : option (list Z) -> Z -> Z -> bool -> Z;
  sdb_close : sdb -> Z;
  sdb_env_close : Z
}.

Class SpoolBdbSpec (Sb : SpoolBdb) := {
  sdb_content : sdb -> gmap (list Z) (list Z);
  sdb_put_law : forall b k v e b', sdb_put b k v = (e, b') ->
    sdb_content b' = if e =? 0 then <[k:=v]> (sdb_content b) else sdb_content b;
  sdb_get_law : forall b k ulen e n d, sdb_get b k ulen = (e, n, d) ->
    (e = 0 -> sdb_content b !! k = Some d /\ n = zlen d /\ n <= ulen) /\
    (e = BUFFER_SMALL -> exists v, sdb_content b !! k = Some v /\ n = zlen v /\ ulen < n) /\
    (e = DB_NOTFOUND -> sdb_content b !! k = None);
  sdb_truncate_law : forall b e b', sdb_truncate b = (e, b') ->
    sdb_content b' = if e =? 0 then ∅ else sdb_content b
}.

(** no operation fails without a reason *)
Class SpoolBdbReliable (Sb : SpoolBdb) (SS : SpoolBdbSpec Sb) : Prop := {
  sdb_put_ok : forall b k v, (sdb_put b k v).1 = 0;
  sdb_get_ok : forall b k ulen, (sdb_get b k ulen).1.1 =
    match sdb_content b !! k with
    | None => DB_NOTFOUND
    | Some v => if ulen <? zlen v then BUFFER_SMALL else 0
    end;
  sdb_truncate_ok : forall b, (sdb_truncate b).1 = 0
}.

(** ** Spool types (spooltype.c) *)

Definition SPOOLTYPE_FS : Z := 1.
Definition SPOOLTYPE_MBDB : Z := 2.
Definition SPOOLTYPE_FMBDB : Z := 3.
Definition SPOOLTYPE_CBDB : Z := 4.
Definition SPOOLTYPE_MCBDB : Z := 5.

Definition spooltype_fsspool (t : Z) : Z := if t =? SPOOLTYPE_FS then 1 else 0.
Definition spooltype_mspool (t : Z) : Z :=
  if (t =? SPOOLTYPE_MBDB) || (t =? SPOOLTYPE_FMBDB) then 1 else 0.
Definition spooltype_mspool_nodbhome (t : Z) : Z := if t =? SPOOLTYPE_MBDB then 1 else 0.
Definition spooltype_cspool (t : Z) : Z :=
  if (t =? SPOOLTYPE_CBDB) || (t =? SPOOLTYPE_MCBDB) then 1 else 0.
Definition spooltype_cspool_nofile (t : Z) : Z := if t =? SPOOLTYPE_MCBDB then 1 else 0.

Section mspool.
Context `{Hp : Heap} `{Sb : SpoolBdb}.
(** the bytes that an allocated block holds *)
Context (junk : Z -> list Z).

(** ** State *)

(** [sb_buffer] has [sb_max] bytes ([[]] for NULL); [readp] is [buffer + nread] *)
Record spoolbuf_st := Spoolbuf {
  sb_buffer : list Z;
  sb_size : Z;
  sb_max : Z;
  sb_nread : Z
}.

(** [wrdb] is the index in [dbv] of the current database *)
Record spoolbdbv_st := Spoolbdbv {
  sv_dbv : list (option sdb);
  sv_wrdb : Z;
  sv_Ndb : Z;
  sv_n : Z;
  sv_maxsize : Z;
  sv_size : Z
}.

Record spoolbuf_slots_st := Spoolslots {
  ss_numslots : Z;
  ss_maxslots : Z;
  ss_spoolb : list spoolbuf_st;
  ss_status : list Z
}.

Record mspoolbdb_st := Mspoolbdb {
  ms_spoolbdbv : spoolbdbv_st;
  ms_spoolslots : spoolbuf_slots_st
}.

(** ** One database (spoolbdb.c) *)

(** [dbenv] is never NULL here *)
Definition spoolbdb_open_create (dbfname : option (list Z)) (f_mpool_nofile : Z)
  : Z * option sdb :=
  match dbfname with
  | None => if f_mpool_nofile =? 0 then (EINVAL, None) else sdb_open None true false
  | Some _ => sdb_open dbfname (f_mpool_nofile =? 1) false
  end.

Definition spoolbdb_open_rdonly (dbfname : option (list Z)) (f_mpool_nofile : Z)
  : Z * option sdb :=
  match dbfname with
  | None => (EINVAL, None)
  | Some _ => sdb_open dbfname (negb (f_mpool_nofile =? 0)) true
  end.

Definition spoolbdb_open (dbfname : option (list Z)) (f_mpool_nofile f_rdonly : Z)
  : Z * option sdb :=
  if f_rdonly =? 1 then spoolbdb_open_rdonly dbfname f_mpool_nofile
  else spoolbdb_open_create dbfname f_mpool_nofile.

Definition spoolbdb_close (b : option sdb) : Z :=
  match b with Some b => sdb_close b | None => 0 end.

Definition spoolbdb_write2 (b : sdb) (fkey : list Z) (buffer : list Z) (buffersize : Z)
  : outcome (Z * sdb) :=
  let* d := rdn buffer 0 buffersize in
  Done (sdb_put b fkey d).

Definition spoolbdb_write (b : sdb) (fkey : list Z) (sb : spoolbuf_st) : outcome (Z * sdb) :=
  spoolbdb_write2 b fkey (sb_buffer sb) (sb_size sb).

(** a record that does not fit is read again into a new block of its size *)
Definition spoolbdb_read (b : sdb) (fkey : list Z) (sb : spoolbuf_st)
  : outcome (Z * spoolbuf_st) :=
  let '(status, size, d) := sdb_get b fkey (sb_max sb) in
  let '(status, size, d, sb) :=
    if status =? BUFFER_SMALL then
      if malloc_ok size then
        let sb := Spoolbuf (ztake size (junk size)) (sb_size sb) size (sb_nread sb) in
        let '(status, size, d) := sdb_get b fkey (sb_max sb) in (status, size, d, sb)
      else (ENOMEM, size, d, sb)
    else (status, size, d, sb) in
  if status =? 0 then
    let* buf := wr (sb_buffer sb) 0 d in
    Done (status, Spoolbuf buf size (sb_max sb) 0)
  else Done (status, sb).

(** the structure has 32 bytes *)
Definition spoolbuf_create : option spoolbuf_st :=
  if malloc_ok 32 then Some (Spoolbuf [] 0 0 0) else None.

Definition spoolbuf_data (sb : spoolbuf_st) : list Z := sb_buffer sb.
Definition spoolbuf_datasize (sb : spoolbuf_st) : Z := sb_size sb.
Definition spoolbuf_maxsize (sb : spoolbuf_st) : Z := sb_max sb.

(** the number of bytes copied, the bytes *)
Definition spoolbuf_read (sb : spoolbuf_st) (size : Z) : outcome (Z * list Z * spoolbuf_st) :=
  if sb_nread sb =? sb_size sb then Done (0, [], sb) else
  let n := if sb_size sb <? u64 (sb_nread sb + size) then u32 (sb_size sb - sb_nread sb) else size in
  let* d := rdn (sb_buffer sb) (sb_nread sb) n in
  Done (n, d, Spoolbuf (sb_buffer sb) (sb_size sb) (sb_max sb) (u32 (sb_nread sb + n))).

Definition spoolbuf_read_init (sb : spoolbuf_st) : spoolbuf_st :=
  Spoolbuf (sb_buffer sb) (sb_size sb) (sb_max sb) 0.

(** ** The ring of databases (spoolbdbv.c) *)

Definition spoolbdbv_env_open (dbhome : option (list Z)) (dbenv_mode dbcache_mb f_rdonly : Z) : Z :=
  match dbhome with
  | None =>
      if negb (dbenv_mode =? 0) then EINVAL
      else sdb_env_open None (u32 (dbcache_mb * 1024 * 1024)) dbenv_mode (f_rdonly =? 1)
  | Some _ => sdb_env_open dbhome (u32 (dbcache_mb * 1024 * 1024)) dbenv_mode (f_rdonly =? 1)
  end.

Definition set_dbv v (s : spoolbdbv_st) : spoolbdbv_st :=
  Spoolbdbv v (sv_wrdb s) (sv_Ndb s) (sv_n s) (sv_maxsize s) (sv_size s).

(** the databases [i], ..., [i + m - 1] *)
Fixpoint spoolbdbv_open_loop (dbfname : option (list Z)) (f_mpool_nofile f_rdonly i : Z) (m : nat)
  : Z * list (option sdb) :=
  match m with
  | O => (0, [])
  | S m' =>
      let name := option_map (fun s => s ++ [46] ++ dec i) dbfname in
      let (status, b) := spoolbdb_open name f_mpool_nofile f_rdonly in
      if status =? 0 then
        let (status, l) := spoolbdbv_open_loop dbfname f_mpool_nofile f_rdonly (i + 1) m' in
        (status, b :: l)
      else (status, replicate m None)
  end.

(** When the name cannot be allocated, the handles are closed up to an [Ndb]
    that has not been set. *)
Definition spoolbdbv_db_open (Ndb maxsize : Z) (dbfname : option (list Z))
    (f_mpool_nofile f_rdonly : Z) : outcome (Z * option spoolbdbv_st) :=
  if negb (malloc_ok (u32 (Ndb + 2) * 8)) then Done (ENOMEM, None) else
  match dbfname with
  | Some s =>
      if negb (malloc_ok (zlen s + 12)) then Undef
      else let (status, l) := spoolbdbv_open_loop dbfname f_mpool_nofile f_rdonly 1 (Z.to_nat Ndb) in
           Done (status, if status =? 0
                         then Some (Spoolbdbv ([None] ++ l ++ [None]) 1 Ndb 0 maxsize 0) else None)
  | None =>
      let (status, l) := spoolbdbv_open_loop None f_mpool_nofile f_rdonly 1 (Z.to_nat Ndb) in
      Done (status, if status =? 0
                    then Some (Spoolbdbv ([None] ++ l ++ [None]) 1 Ndb 0 maxsize 0) else None)
  end.

(** the structure has 80 bytes *)
Definition spoolbdbv_open (dbhome : option (list Z)) (dbenv_mode dbcache_mb maxsize_per128 Ndb : Z)
    (dbfname : option (list Z)) (f_mpool_nofile f_rdonly : Z)
  : outcome (Z * option spoolbdbv_st) :=
  let cache_size := u32 (dbcache_mb * 1024 * 1024) in
  c_assert (1 <=? dbcache_mb) (c_assert (1 <=? Ndb) (c_assert (maxsize_per128 <=? 128)
    (let maxsize := u32 (cache_size / 128 * maxsize_per128) in
     match dbhome with
     | None =>
         if bool_decide (is_Some dbfname) || (f_mpool_nofile =? 0) then Done (EINVAL, None) else
         if negb (malloc_ok 80) then Done (ENOMEM, None) else
         let status := spoolbdbv_env_open dbhome dbenv_mode (u32 (dbcache_mb * Ndb)) f_rdonly in
         if negb (status =? 0) then Done (status, None)
         else spoolbdbv_db_open Ndb maxsize dbfname f_mpool_nofile f_rdonly
     | Some _ =>
         if negb (malloc_ok 80) then Done (ENOMEM, None) else
         let status := spoolbdbv_env_open dbhome dbenv_mode (u32 (dbcache_mb * Ndb)) f_rdonly in
         if negb (status =? 0) then Done (status, None)
         else spoolbdbv_db_open Ndb maxsize dbfname f_mpool_nofile f_rdonly
     end))).

(** the first error *)
Fixpoint spoolbdbv_db_close_loop (l : list (option sdb)) (status : Z) : Z :=
  match l with
  | [] => status
  | b :: l => spoolbdbv_db_close_loop l
                (match b with
                 | Some _ => if status =? 0 then spoolbdb_close b else status
                 | None => status
                 end)
  end.
Definition spoolbdbv_db_close (s : spoolbdbv_st) : Z :=
  spoolbdbv_db_close_loop (zsub 1 (sv_Ndb s) (sv_dbv s)) 0.
Definition spoolbdbv_close (s : spoolbdbv_st) : Z :=
  let status := spoolbdbv_db_close s in
  if status =? 0 then sdb_env_close else status.

(** [*dbpv], and the database there; NULL is not dereferenced *)
Definition get_db (s : spoolbdbv_st) (i : Z) : outcome sdb :=
  let* b := rd (sv_dbv s) i in
  match b with Some b => Done b | None => Undef end.
Definition put_db (s : spoolbdbv_st) (i : Z) (b : sdb) : spoolbdbv_st :=
  set_dbv (<[Z.to_nat i := Some b]> (sv_dbv s)) s.

(** [truncate] of database [i]; when it succeeds it becomes the current one *)
Definition truncate_db (s : spoolbdbv_st) (i : Z) : outcome (Z * spoolbdbv_st) :=
  let* b := get_db s i in
  let (status, b) := sdb_truncate b in
  let s := put_db s i b in
  Done (status, if status =? 0
                then Spoolbdbv (sv_dbv s) i (sv_Ndb s) 0 (sv_maxsize s) 0 else s).

(** the databases [i], ..., 1 *)
Fixpoint truncate_loop (s : spoolbdbv_st) (i : nat) : outcome (Z * spoolbdbv_st) :=
  match i with
  | O => Done (0, s)
  | S i' =>
      let* (status, s) := truncate_db s (Z.of_nat i) in
      if status =? 0 then truncate_loop s i' else Done (status, s)
  end.
Definition spoolbdbv_truncate (s : spoolbdbv_st) : outcome (Z * spoolbdbv_st) :=
  truncate_loop s (Z.to_nat (sv_Ndb s)).

(** the next database, after the last one the first *)
Definition next_db (s : spoolbdbv_st) (i : Z) : outcome Z :=
  let* b := rd (sv_dbv s) (i + 1) in
  Done (match b with Some _ => i + 1 | None => 1 end).
(** the previous database, before the first one the last *)
Definition prev_db (s : spoolbdbv_st) (i : Z) : outcome Z :=
  let* b := rd (sv_dbv s) (i - 1) in
  Done (match b with Some _ => i - 1 | None => sv_Ndb s end).

Definition spoolbdbv_truncate_oldest (s : spoolbdbv_st) : outcome (Z * spoolbdbv_st) :=
  let* i := next_db s (sv_wrdb s) in truncate_db s i.

(** each turn goes to the previous database: [Ndb] turns are enough
    ([read_loop_spec]) *)
Fixpoint read_loop (fuel : nat) (s : spoolbdbv_st) (i : Z) (fkey : list Z)
    (status : Z) (sb : spoolbuf_st) : outcome (Z * spoolbuf_st) :=
  if status =? DB_NOTFOUND then
    match fuel with
    | O => Undef
    | S fuel' =>
        let* i := prev_db s i in
        if i =? sv_wrdb s then Done (status, sb) else
        let* b := get_db s i in
        let* (status, sb) := spoolbdb_read b fkey sb in
        read_loop fuel' s i fkey status sb
    end
  else Done (status, sb).

Definition spoolbdbv_read_unlocked (s : spoolbdbv_st) (fkey : list Z) (sb : spoolbuf_st)
  : outcome (Z * spoolbuf_st) :=
  let* b := get_db s (sv_wrdb s) in
  let* (status, sb) := spoolbdb_read b fkey sb in
  read_loop (Z.to_nat (sv_Ndb s)) s (sv_wrdb s) fkey status sb.
Definition spoolbdbv_read := spoolbdbv_read_unlocked.

Definition spoolbdbv_write2_unlocked (s : spoolbdbv_st) (fkey data : list Z) (datasize : Z)
  : outcome (Z * spoolbdbv_st) :=
  if sv_maxsize s <? datasize then Done (ENOMEM, s) else
  let* (status, s) :=
    if sv_maxsize s <? u32 (sv_size s + datasize) then
      let* i := next_db s (sv_wrdb s) in
      let* b := get_db s i in
      let (status, b) := sdb_truncate b in
      let s := put_db s i b in
      Done (status,
        if status =? 0 then Spoolbdbv (sv_dbv s) i (sv_Ndb s) 0 (sv_maxsize s) 0
        else Spoolbdbv (sv_dbv s) i (sv_Ndb s) (sv_n s) (sv_maxsize s) (sv_size s))
    else Done (0, s) in
  if negb (status =? 0) then Done (status, s) else
  let* b := get_db s (sv_wrdb s) in
  let* (status, b) := spoolbdb_write2 b fkey data datasize in
  let s := put_db s (sv_wrdb s) b in
  Done (status,
    if status =? 0
    then Spoolbdbv (sv_dbv s) (sv_wrdb s) (sv_Ndb s) (u32 (sv_n s + 1)) (sv_maxsize s)
           (u32 (sv_size s + datasize))
    else s).
Definition spoolbdbv_write2 := spoolbdbv_write2_unlocked.
Definition spoolbdbv_write_unlocked (s : spoolbdbv_st) (fkey : list Z) (sb : spoolbuf_st) :=
  spoolbdbv_write2_unlocked s fkey (sb_buffer sb) (sb_size sb).
Definition spoolbdbv_write := spoolbdbv_write_unlocked.

(** ** The slots of the readers (spoolslots.c) *)

Fixpoint spoolbuf_create_loop (m : nat) : option (list spoolbuf_st) :=
  match m with
  | O => Some []
  | S m' =>
      match spoolbuf_create, spoolbuf_create_loop m' with
      | Some b, Some l => Some (b :: l)
      | _, _ => None
      end
  end.

(** the structure has 112 bytes *)
Definition spoolbuf_slots_create (N : Z) : outcome (option spoolbuf_slots_st) :=
  c_assert (0 <? N)
    (Done (if malloc_ok 112 && malloc_ok (N * 4) && malloc_ok (N * 8) then
             option_map (fun l => Spoolslots 0 N l (replicate (Z.to_nat N) 0))
               (spoolbuf_create_loop (Z.to_nat N))
           else None)).

(** the first slot that is closed *)
Fixpoint first_slot (status : list Z) (i : Z) : Z :=
  match status with
  | [] => i
  | st :: status => if st =? 0 then i else first_slot status (i + 1)
  end.

(** the status, [*sd] when it is set, the slots *)
Definition spoolbuf_slots_open_unlocked (ss : spoolbuf_slots_st) (s : spoolbdbv_st) (fkey : list Z)
  : outcome (Z * option Z * spoolbuf_slots_st) :=
  let i := first_slot (ss_status ss) 0 in
  c_assert (i <? ss_maxslots ss)
    (let* sb := rd (ss_spoolb ss) i in
     let* (status, sb) := spoolbdbv_read s fkey sb in
     let l := <[Z.to_nat i := sb]> (ss_spoolb ss) in
     Done (if status =? 0
           then (status, Some i, Spoolslots (s32 (ss_numslots ss + 1)) (ss_maxslots ss) l
                                   (<[Z.to_nat i := 1]> (ss_status ss)))
           else (status, None, Spoolslots (ss_numslots ss) (ss_maxslots ss) l (ss_status ss)))).

(** the wait for a free slot: each wake-up gives the status of the wait and the
    slots found then; [None] when the thread is still waiting *)
Fixpoint slots_wait (ss : spoolbuf_slots_st) (status : Z) (wakeups : list (Z * spoolbuf_slots_st))
  : option (Z * spoolbuf_slots_st) :=
  if (ss_numslots ss =? ss_maxslots ss) && (status =? 0) then
    match wakeups with
    | [] => None
    | (st, ss') :: ws => slots_wait ss' st ws
    end
  else Some (status, ss).

Definition spoolbuf_slots_open (ss : spoolbuf_slots_st) (s : spoolbdbv_st) (fkey : list Z)
    (wakeups : list (Z * spoolbuf_slots_st)) : outcome (option (Z * option Z * spoolbuf_slots_st)) :=
  match slots_wait ss 0 wakeups with
  | None => Done None
  | Some (status, ss) =>
      if negb (status =? 0) then Done (Some (status, None, ss))
      else let* r := spoolbuf_slots_open_unlocked ss s fkey in Done (Some r)
  end.

Definition spoolbuf_slots_close_unlocked (ss : spoolbuf_slots_st) (sd : Z)
  : outcome (Z * spoolbuf_slots_st) :=
  let* st := wr (ss_status ss) sd [0] in
  Done (0, Spoolslots (s32 (ss_numslots ss - 1)) (ss_maxslots ss) (ss_spoolb ss) st).
Definition spoolbuf_slots_close := spoolbuf_slots_close_unlocked.

Definition spoolbuf_slots_read (ss : spoolbuf_slots_st) (sd size : Z)
  : outcome (Z * list Z * spoolbuf_slots_st) :=
  let* sb := rd (ss_spoolb ss) sd in
  let* (n, d, sb) := spoolbuf_read sb size in
  Done (n, d, Spoolslots (ss_numslots ss) (ss_maxslots ss) (<[Z.to_nat sd := sb]> (ss_spoolb ss))
                (ss_status ss)).

Definition spoolbuf_slots_datasize (ss : spoolbuf_slots_st) (sd : Z) : outcome Z :=
  let* sb := rd (ss_spoolb ss) sd in Done (spoolbuf_datasize sb).

(** ** The spool (mspoolbdb.c) *)

(** the structure has 16 bytes *)
Definition cspoolbdb_create (dbhome : option (list Z)) (dbenv_mode dbcache_mb maxsize_per128 : Z)
    (dbfname : option (list Z)) (Ndb Nslots f_mpool_nofile f_rdonly : Z)
  : outcome (Z * option mspoolbdb_st) :=
  if Nslots <? 1 then Done (EINVAL, None) else
  if negb (malloc_ok 16) then Done (ENOMEM, None) else
  let* (status, v) := spoolbdbv_open dbhome dbenv_mode dbcache_mb maxsize_per128 Ndb dbfname
                        f_mpool_nofile f_rdonly in
  if negb (status =? 0) then Done (status, None) else
  let* ss := spoolbuf_slots_create Nslots in
  match v, ss with
  | Some v, Some ss => Done (0, Some (Mspoolbdb v ss))
  | _, _ => Done (ENOMEM, None)
  end.

Definition mspoolbdb_create (dbhome : option (list Z)) (dbenv_mode dbcache_mb maxsize_per128 Ndb
    Nslots : Z) : outcome (Z * option mspoolbdb_st) :=
  cspoolbdb_create dbhome dbenv_mode dbcache_mb maxsize_per128 None Ndb Nslots 1 0.

Definition mspoolbdb_destroy (ms : mspoolbdb_st) : Z := spoolbdbv_close (ms_spoolbdbv ms).

Definition with_v (ms : mspoolbdb_st) (r : Z * spoolbdbv_st) : Z * mspoolbdb_st :=
  (r.1, Mspoolbdb r.2 (ms_spoolslots ms)).

Definition mspoolbdb_insert (ms : mspoolbdb_st) (fkey fdata : list Z) (fdata_size : Z)
  : outcome (Z * mspoolbdb_st) :=
  let* r := spoolbdbv_write2 (ms_spoolbdbv ms) fkey fdata fdata_size in Done (with_v ms r).
Definition mspoolbdb_truncate (ms : mspoolbdb_st) : outcome (Z * mspoolbdb_st) :=
  let* r := spoolbdbv_truncate (ms_spoolbdbv ms) in Done (with_v ms r).
Definition mspoolbdb_truncate_oldest (ms : mspoolbdb_st) : outcome (Z * mspoolbdb_st) :=
  let* r := spoolbdbv_truncate_oldest (ms_spoolbdbv ms) in Done (with_v ms r).

Definition mspoolbdb_slots_open (ms : mspoolbdb_st) (fkey : list Z)
    (wakeups : list (Z * spoolbuf_slots_st)) : outcome (option (Z * option Z * mspoolbdb_st)) :=
  let* r := spoolbuf_slots_open (ms_spoolslots ms) (ms_spoolbdbv ms) fkey wakeups in
  Done (match r with
        | Some (status, sd, ss) => Some (status, sd, Mspoolbdb (ms_spoolbdbv ms) ss)
        | None => None
        end).
Definition mspoolbdb_slots_close (ms : mspoolbdb_st) (sd : Z) : outcome (Z * mspoolbdb_st) :=
  let* (status, ss) := spoolbuf_slots_close (ms_spoolslots ms) sd in
  Done (status, Mspoolbdb (ms_spoolbdbv ms) ss).
Definition mspoolbdb_slots_read (ms : mspoolbdb_st) (sd data_size : Z)
  : outcome (Z * list Z * mspoolbdb_st) :=
  let* (n, d, ss) := spoolbuf_slots_read (ms_spoolslots ms) sd data_size in
  Done (n, d, Mspoolbdb (ms_spoolbdbv ms) ss).
Definition mspoolbdb_slots_datasize (ms : mspoolbdb_st) (sd : Z) : outcome Z :=
  spoolbuf_slots_datasize (ms_spoolslots ms) sd.

(** ** The functions of the program (nbspmspoolbdb.c) *)

(** the key of a product is the sequence number in its path; [None]: error *)
Definition get_fpath_key (fpath : list Z) : option (list Z) :=
  match strrchr_after FNAME_SEQNUM_SEP fpath with
  | None => None
  | Some p => if FKEY_SPOOLBDB_SIZE <? zlen p then None else Some p
  end.

Definition retry_after (r : outcome (Z * mspoolbdb_st))
    (again : mspoolbdb_st -> outcome (Z * mspoolbdb_st)) : outcome (Z * mspoolbdb_st) :=
  let* (status, ms) := r in
  if status =? 0 then again ms else Done (status, ms).

Definition nbsp_mspoolbdb_insert (ms : mspoolbdb_st) (fpath fdata : list Z) (fdata_size : Z)
  : outcome (Z * mspoolbdb_st) :=
  match get_fpath_key fpath with
  | None => Abrt
  | Some fkey =>
      if UINT32_MAX <? fdata_size then Done (-1, ms) else
      let insert ms := mspoolbdb_insert ms fkey fdata (u32 fdata_size) in
      let* (status, ms) := insert ms in
      let* (status, ms) :=
        if status =? ENOMEM then retry_after (mspoolbdb_truncate_oldest ms) insert
        else Done (status, ms) in
      let* (status, ms) :=
        if status =? ENOMEM then retry_after (mspoolbdb_truncate ms) insert
        else Done (status, ms) in
      Done (if negb (status =? 0) then -1 else 0, ms)
  end.

(** the slot, -1 error, -2 not found; [None]: waiting for a slot *)
Definition nbsp_mspoolbdb_open (ms : mspoolbdb_st) (fpath : list Z)
    (wakeups : list (Z * spoolbuf_slots_st)) : outcome (option (Z * mspoolbdb_st)) :=
  match get_fpath_key fpath with
  | None => Abrt
  | Some fkey =>
      let* r := mspoolbdb_slots_open ms fkey wakeups in
      Done (match r with
            | None => None
            | Some (status, sd, ms) =>
                Some (if negb (status =? 0) then if status =? DB_NOTFOUND then -2 else -1
                      else default (-1) sd, ms)
            end)
  end.

Definition nbsp_mspoolbdb_close (ms : mspoolbdb_st) (sd : Z) : outcome (Z * mspoolbdb_st) :=
  let* (status, ms) := mspoolbdb_slots_close ms sd in
  Done (if negb (status =? 0) then -1 else 0, ms).
Definition nbsp_mspoolbdb_read := mspoolbdb_slots_read.
Definition nbsp_mspoolbdb_datasize := mspoolbdb_slots_datasize.

(** the status and [*size] *)
Definition nbsp_mspoolbdb_fpathsize (ms : mspoolbdb_st) (fpath : list Z)
    (wakeups : list (Z * spoolbuf_slots_st)) : outcome (option (Z * option Z * mspoolbdb_st)) :=
  let* r := nbsp_mspoolbdb_open ms fpath wakeups in
  match r with
  | None => Done None
  | Some (sd, ms) =>
      if sd <? 0 then Done (Some (-1, None, ms)) else
      let* size := nbsp_mspoolbdb_datasize ms sd in
      let* (_, ms) := nbsp_mspoolbdb_close ms sd in
      Done (Some (0, Some size, ms))
  end.

(** [ms]: [g.mspoolbdb] before the call *)
Definition nbsp_mspoolbdb_create (spooltype : Z) (dbhome : list Z)
    (dbenv_mode dbcache_mb maxsize_per128 ndb nslots : Z) (set_event_notify : Z)
  : outcome (Z * option mspoolbdb_st) :=
  if spooltype_mspool spooltype =? 0 then Done (-1, None) else
  let '(home, mode) := if spooltype_mspool_nodbhome spooltype =? 0
                       then (Some dbhome, dbenv_mode) else (None, 0) in
  let* (status, ms) := mspoolbdb_create home mode dbcache_mb maxsize_per128 ndb nslots in
  let status := if status =? 0 then set_event_notify else status in
  Done (if negb (status =? 0) then -1 else 0, ms).

Definition nbsp_cspoolbdb_create (spooltype : Z) (dbhome : list Z)
    (dbenv_mode dbcache_mb maxsize_per128 : Z) (name : list Z) (ndb nslots : Z)
  : outcome (Z * option mspoolbdb_st) :=
  if spooltype_cspool spooltype =? 0 then Done (-1, None) else
  let f_mpool_nofile := if negb (spooltype_cspool_nofile spooltype =? 0) then 1 else 0 in
  let* (status, ms) := cspoolbdb_create (Some dbhome) dbenv_mode dbcache_mb maxsize_per128
                         (Some name) ndb nslots f_mpool_nofile 0 in
  Done (if negb (status =? 0) then -1 else 0, ms).

Definition nbsp_mspoolbdb_destroy (ms : option mspoolbdb_st) : Z :=
  match ms with
  | None => 0
  | Some ms => if negb (mspoolbdb_destroy ms =? 0) then -1 else 0
  end.
End mspool.

#[global] Arguments spoolbdbv_st {Sb}.
#[global] Arguments mspoolbdb_st {Sb}.

(** ** What the spool holds: generations of records *)

Local Abbreviation rec_t := (list Z * list Z)%type.
Definition gsize (g : list rec_t) : Z := foldr (fun r acc => zlen r.2 + acc) 0 g.

(** the generations, the newest first, each with its last record first *)
Definition gens_write (maxsize : Z) (r : rec_t) (gens : list (list rec_t)) : list (list rec_t) :=
  match gens with
  | [] => []
  | g :: rest =>
      if maxsize <? gsize g + zlen r.2 then [r] :: removelast gens
      else (r :: g) :: rest
  end.

(** the newest record with a key *)
Definition gens_find (k : list Z) (gens : list (list rec_t)) : option (list Z) :=
  (list_to_map (concat gens) : gmap (list Z) (list Z)) !! k.

Lemma gsize_nonneg g : 0 <= gsize g.
Proof. induction g as [|r g IH]; cbn; [lia|]. pose proof (zlen_nonneg r.2). fold (gsize g). lia. Qed.

Lemma gens_write_length m r gens : length (gens_write m r gens) = length gens.
Proof.
  destruct gens as [|g rest]; [done|]. cbn [gens_write].
  destruct (_ <? _); cbn [length]; [|done].
  rewrite removelast_firstn_len. rewrite length_take. cbn. lia.
Qed.

Lemma gens_find_spec k g rest : gens_find k (g :: rest) =
  match (list_to_map g : gmap (list Z) (list Z)) !! k with
  | Some d => Some d
  | None => gens_find k rest
  end.
Proof.
  unfold gens_find. cbn [concat]. rewrite list_to_map_app.
  destruct (list_to_map g !! k) as [d|] eqn:E.
  - by apply lookup_union_Some_l.
  - by apply lookup_union_r.
Qed.

(** the record is in generation [j], with no record of its key in a newer one *)
Definition held (k d : list Z) (j : nat) (gens : list (list rec_t)) : Prop :=
  exists g, gens !! j = Some g /\ (list_to_map g : gmap (list Z) (list Z)) !! k = Some d /\
  forall i g', (i < j)%nat -> gens !! i = Some g' -> (list_to_map g' : gmap (list Z) (list Z)) !! k = None.

Lemma held_find k d j gens : held k d j gens -> gens_find k gens = Some d.
Proof.
  revert j. induction gens as [|g rest IH]; intros j (g0 & Hg & Hk & Hn); [done|].
  rewrite gens_find_spec. destruct j as [|j].
  - cbn in Hg. injection Hg as ->. by rewrite Hk.
  - rewrite (Hn 0%nat g) by (done || lia). apply (IH j). exists g0.
    split; [done|]. split; [done|]. intros i g' Hi Hg'. apply (Hn (S i)); [lia|done].
Qed.

Lemma held_write k d j gens m r : held k d j gens -> r.1 <> k ->
  (m < gsize (hd [] gens) + zlen r.2 -> (S j < length gens)%nat) ->
  held k d (if m <? gsize (hd [] gens) + zlen r.2 then S j else j) (gens_write m r gens).
Proof.
  intros (g0 & Hg & Hk & Hn) Hr Hl. destruct gens as [|g rest]; [done|]. cbn [gens_write hd].
  destruct (Z.ltb_spec m (gsize g + zlen r.2)) as [Hrot|_]; [specialize (Hl Hrot)|].
  - exists g0. cbn [lookup list_lookup].
    assert (forall i, (S i < length (g :: rest))%nat -> removelast (g :: rest) !! i = (g :: rest) !! i) as Hrl.
    { intros i Hi. rewrite removelast_firstn_len. apply lookup_take_lt. lia. }
    split; [by rewrite Hrl|]. split; [done|]. intros [|i] g' Hi Hg'.
    { cbn in Hg'. injection Hg' as <-. destruct r as [k' d']. cbn in *.
      rewrite lookup_insert_ne by done. apply lookup_empty. }
    cbn in Hg'. rewrite Hrl in Hg' by lia. apply (Hn i); [lia|done].
  - destruct r as [k' d']. cbn in Hr. destruct j as [|j].
    + cbn in Hg. injection Hg as ->. exists ((k', d') :: g0). split; [done|]. split.
      * cbn. by rewrite lookup_insert_ne.
      * intros i ? ?; lia.
    + exists g0. split; [done|]. split; [done|]. intros [|i] g' Hi Hg'.
      * cbn in Hg'. injection Hg' as <-. cbn. rewrite lookup_insert_ne by done.
        apply (Hn 0%nat); [lia|done].
      * apply (Hn (S i)); [lia|done].
Qed.

Fixpoint gens_writes (m : Z) (rs : list rec_t) (gens : list (list rec_t)) : list (list rec_t) :=
  match rs with
  | [] => gens
  | r :: rs => gens_writes m rs (gens_write m r gens)
  end.

Lemma gens_write_head m r g rest : gsize (hd [] (gens_write m r (g :: rest))) =
  if m <? gsize g + zlen r.2 then zlen r.2 else zlen r.2 + gsize g.
Proof. cbn [gens_write]. destruct (m <? _); cbn; unfold gsize; lia. Qed.

(** A record can be lost only when as many generations have been started after
    it as there are databases. A generation ends when the next record does not
    fit: two consecutive ones have received more than [m] bytes. *)
Lemma held_writes k d m rs : 0 <= m -> forall j gens,
  held k d j gens -> Forall (fun r => r.1 <> k) rs ->
  (if (j =? 0)%nat then 2 * gsize rs < (zlen gens - 1) * m
   else 2 * gsize rs + gsize (hd [] gens) < (zlen gens - Z.of_nat j) * m) ->
  exists j', held k d j' (gens_writes m rs gens).
Proof.
  intros Hm. induction rs as [|r rs IH]; intros j gens Hh Hk Hb; [by exists j|].
  apply Forall_cons_iff in Hk as [Hr Hk]. cbn [gens_writes]. cbn [gsize foldr] in Hb.
  fold (gsize rs) in Hb. pose proof (gsize_nonneg rs). pose proof (zlen_nonneg r.2).
  destruct gens as [|g rest]; [by destruct Hh as (? & ? & _)|].
  pose proof (gsize_nonneg g). cbn [hd] in Hb.
  assert (zlen (gens_write m r (g :: rest)) = zlen (g :: rest)) as El
    by (unfold zlen; by rewrite gens_write_length).
  assert (Hw := held_write k d j (g :: rest) m r Hh Hr). cbn [hd] in Hw.
  pose proof (gens_write_head m r g rest) as Eh.
  destruct (Z.ltb_spec m (gsize g + zlen r.2)) as [Hrot|Hno].
  - assert (S j < length (g :: rest))%nat as Hj.
    { apply Nat2Z.inj_lt. fold (zlen (g :: rest)). set (N := zlen (g :: rest)) in *. clearbody N.
      apply Z.nle_gt. intros HN. destruct (Nat.eqb_spec j 0) as [->|]; nia. }
    apply (IH (S j)); [by apply Hw|done|]. cbn [Nat.eqb]. rewrite El, Eh.
    destruct (Nat.eqb_spec j 0) as [->|]; nia.
  - apply (IH j); [apply Hw; lia|done|]. rewrite El, Eh.
    destruct (Nat.eqb_spec j 0) as [->|]; nia.
Qed.

(** ** The ring implements the generations *)

(** the index of generation [j] when the current one is at [w] *)
Definition ring_index (N w j : Z) : Z := if 1 <=? w - j then w - j else w - j + N.

Lemma znth_insert {A} (l : list A) i j x : 0 <= i < zlen l -> 0 <= j ->
  znth (<[Z.to_nat i := x]> l) j = if j =? i then Some x else znth l j.
Proof.
  intros Hi Hj. rewrite !znth_lookup by lia. unfold zlen in Hi. destruct (Z.eqb_spec j i) as [->|].
  - apply list_lookup_insert_eq. lia.
  - apply list_lookup_insert_ne. lia.
Qed.

Section theory.
Context `{Hp : Heap} `{SR : SpoolBdbReliable}.

Record spool_rep (s : spoolbdbv_st) (gens : list (list rec_t)) : Prop := SpoolRep {
  sr_N : sv_Ndb s = zlen gens;
  sr_w : 1 <= sv_wrdb s <= sv_Ndb s;
  sr_len : zlen (sv_dbv s) = sv_Ndb s + 2;
  sr_first : znth (sv_dbv s) 0 = Some None;
  sr_last : znth (sv_dbv s) (sv_Ndb s + 1) = Some None;
  sr_dbs : forall j g, gens !! j = Some g -> exists b,
    znth (sv_dbv s) (ring_index (sv_Ndb s) (sv_wrdb s) (Z.of_nat j)) = Some (Some b) /\
    sdb_content b = list_to_map g;
  sr_size : sv_size s = gsize (hd [] gens);
  sr_max : Forall (fun g => gsize g <= sv_maxsize s) gens;
  sr_small : 0 <= sv_maxsize s < 2 ^ 31
}.

Lemma rep_db s gens i : spool_rep s gens -> 1 <= i <= sv_Ndb s ->
  exists b, znth (sv_dbv s) i = Some (Some b).
Proof.
  intros [] Hi. set (j := Z.to_nat (if i <=? sv_wrdb s then sv_wrdb s - i else sv_wrdb s - i + sv_Ndb s)).
  assert (j < length gens)%nat as Hj by (unfold zlen in *; subst j; ztest; lia).
  apply lookup_lt_is_Some in Hj as [g Hg]. destruct (sr_dbs0 _ _ Hg) as (b & Hb & _).
  exists b. rewrite <- Hb. f_equal. unfold ring_index. subst j. ztest; lia.
Qed.

Lemma next_db_spec s gens : spool_rep s gens ->
  next_db s (sv_wrdb s) = Done (if sv_wrdb s =? sv_Ndb s then 1 else sv_wrdb s + 1).
Proof.
  intros Hr. unfold next_db, rd. destruct (Z.eqb_spec (sv_wrdb s) (sv_Ndb s)) as [->|].
  - by rewrite (sr_last _ _ Hr).
  - destruct (rep_db s gens (sv_wrdb s + 1) Hr) as [b ->]; [destruct Hr; lia|done].
Qed.

Lemma get_db_spec s i b : znth (sv_dbv s) i = Some (Some b) -> get_db s i = Done b.
Proof. intros E. unfold get_db, rd. by rewrite E. Qed.

(** a database that has been changed *)
Lemma rep_put s gens i b b' : spool_rep s gens -> znth (sv_dbv s) i = Some (Some b) ->
  zlen (sv_dbv (put_db s i b')) = sv_Ndb s + 2 /\
  forall k, 0 <= k -> znth (sv_dbv (put_db s i b')) k =
    if k =? i then Some (Some b') else znth (sv_dbv s) k.
Proof.
  intros Hr Hb. pose proof (znth_Some_lt _ _ _ Hb). cbn. split.
  - unfold zlen. rewrite length_insert. apply (sr_len _ _ Hr).
  - intros. by apply znth_insert.
Qed.

(** the step of the current database to the oldest one, which is emptied *)
Lemma rotate_spec s gens i b b' n :
  spool_rep s gens -> i = (if sv_wrdb s =? sv_Ndb s then 1 else sv_wrdb s + 1) ->
  znth (sv_dbv s) i = Some (Some b) -> sdb_content b' = ∅ ->
  spool_rep (Spoolbdbv (sv_dbv (put_db s i b')) i (sv_Ndb s) n (sv_maxsize s) 0)
    ([] :: removelast gens).
Proof.
  intros Hr Ei Hb Hb'. destruct (rep_put _ _ _ _ b' Hr Hb) as [El Hn].
  destruct Hr as [HN Hw Hl Hf Hla Hd Hs Hm Hsm].
  assert (1 <= i <= sv_Ndb s) as Hi by (subst i; ztest; lia).
  assert (gens <> []) as Hne by (intros ->; change (zlen []) with 0 in HN; lia).
  assert (length (removelast gens) = pred (length gens)) as Hrl
    by (rewrite removelast_firstn_len, length_take; lia).
  split; cbn [sv_dbv sv_wrdb sv_Ndb sv_n sv_maxsize sv_size]; try done.
  - unfold zlen. cbn [length]. rewrite Hrl. unfold zlen in HN. lia.
  - rewrite Hn by lia. destruct (Z.eqb_spec 0 i); [lia|done].
  - rewrite Hn by lia. destruct (Z.eqb_spec (sv_Ndb s + 1) i); [lia|done].
  - intros [|j] g Hg.
    { injection Hg as <-. exists b'. split; [|done]. unfold ring_index.
      rewrite Hn by (ztest; lia). ztest; try lia; done. }
    change (removelast gens !! j = Some g) in Hg.
    pose proof (lookup_lt_Some _ _ _ Hg) as Hj. rewrite Hrl in Hj.
    rewrite removelast_firstn_len, lookup_take_lt in Hg by done.
    destruct (Hd _ _ Hg) as (b0 & Hb0 & Hc). exists b0. split; [|done].
    unfold zlen in HN. rewrite Hn by (unfold ring_index; ztest; lia).
    unfold ring_index in *. rewrite <- Hb0.
    replace (if 1 <=? i - Z.of_nat (S j) then i - Z.of_nat (S j) else i - Z.of_nat (S j) + sv_Ndb s)
      with (if 1 <=? sv_wrdb s - Z.of_nat j then sv_wrdb s - Z.of_nat j
            else sv_wrdb s - Z.of_nat j + sv_Ndb s)
      by (subst i; clear Hb0; ztest; lia).
    destruct (Z.eqb_spec (if 1 <=? sv_wrdb s - Z.of_nat j then sv_wrdb s - Z.of_nat j
            else sv_wrdb s - Z.of_nat j + sv_Ndb s) i) as [E|]; [|done].
    exfalso. clear Hb0. subst i. revert E. ztest; lia.
  - constructor; [cbn; lia|]. rewrite removelast_firstn_len. by apply Forall_take.
Qed.

(** a record that fits in the current database *)
Lemma append_spec s g rest b b' k d n :
  spool_rep s (g :: rest) -> znth (sv_dbv s) (sv_wrdb s) = Some (Some b) ->
  sdb_content b' = <[k := d]> (sdb_content b) -> gsize g + zlen d <= sv_maxsize s ->
  spool_rep (Spoolbdbv (sv_dbv (put_db s (sv_wrdb s) b')) (sv_wrdb s) (sv_Ndb s) n (sv_maxsize s)
               (sv_size s + zlen d)) (((k, d) :: g) :: rest).
Proof.
  intros Hr Hb Hc Hsz. destruct (rep_put _ _ _ _ b' Hr Hb) as [El Hn].
  destruct Hr as [HN Hw Hl Hf Hla Hd Hs Hm Hsm]. apply Forall_cons_iff in Hm as [_ Hm].
  assert (gsize ((k, d) :: g) = zlen d + gsize g) as Eg by done.
  split; cbn [sv_dbv sv_wrdb sv_Ndb sv_n sv_maxsize sv_size]; try done.
  - rewrite Hn by lia. destruct (Z.eqb_spec 0 (sv_wrdb s)); [lia|done].
  - rewrite Hn by lia. destruct (Z.eqb_spec (sv_Ndb s + 1) (sv_wrdb s)); [lia|done].
  - intros [|j] g' Hg.
    { injection Hg as <-. exists b'. unfold ring_index. rewrite Z.sub_0_r.
      destruct (Z.leb_spec 1 (sv_wrdb s)); [|lia]. rewrite Hn, Z.eqb_refl by lia.
      split; [done|]. destruct (Hd 0%nat g eq_refl) as (b0 & Hb0 & Hc0).
      unfold ring_index in Hb0. rewrite Z.sub_0_r in Hb0. destruct (Z.leb_spec 1 (sv_wrdb s)); [|lia].
      rewrite Hb in Hb0. injection Hb0 as <-. by rewrite Hc, Hc0. }
    destruct (Hd (S j) g' Hg) as (b0 & Hb0 & Hc0). exists b0. split; [|done].
    pose proof (lookup_lt_Some _ _ _ Hg) as Hj. rewrite <- Hb0. unfold zlen in HN.
    cbn [length] in HN, Hj.
    rewrite Hn by (unfold ring_index; ztest; lia).
    destruct (Z.eqb_spec (ring_index (sv_Ndb s) (sv_wrdb s) (Z.of_nat (S j))) (sv_wrdb s)) as [E|]; [|done].
    exfalso. revert E. unfold ring_index. ztest; lia.
  - cbn [hd] in *. rewrite Eg, Hs. lia.
  - constructor; [rewrite Eg; lia|done].
Qed.

Lemma write2_spec s gens k data : spool_rep s gens -> zlen data <= sv_maxsize s ->
  exists s', spoolbdbv_write2_unlocked s k data (zlen data) = Done (0, s') /\
    spool_rep s' (gens_write (sv_maxsize s) (k, data) gens) /\ sv_maxsize s' = sv_maxsize s.
Proof.
  intros Hr Hd. pose proof (zlen_nonneg data). destruct gens as [|g rest].
  { destruct Hr as [HN Hw _ _ _ _ _ _ _]. change (zlen []) with 0 in HN. lia. }
  pose proof (sr_small _ _ Hr). pose proof (gsize_nonneg g). pose proof (sr_size _ _ Hr) as Es.
  cbn [hd] in Es. pose proof (sr_max _ _ Hr) as Hmax. apply Forall_cons_iff in Hmax as [Hg _].
  unfold spoolbdbv_write2_unlocked. destruct (Z.ltb_spec (sv_maxsize s) (zlen data)); [lia|].
  rewrite u32_small, Es by lia. cbn [gens_write snd].
  assert (forall s1 g1 rest1, spool_rep s1 (g1 :: rest1) -> sv_maxsize s1 = sv_maxsize s ->
    gsize g1 + zlen data <= sv_maxsize s ->
    exists s', (let* b := get_db s1 (sv_wrdb s1) in
      let* (status, b0) := spoolbdb_write2 b k data (zlen data) in
      Done (status, if status =? 0
        then Spoolbdbv (sv_dbv (put_db s1 (sv_wrdb s1) b0)) (sv_wrdb (put_db s1 (sv_wrdb s1) b0))
               (sv_Ndb (put_db s1 (sv_wrdb s1) b0)) (u32 (sv_n (put_db s1 (sv_wrdb s1) b0) + 1))
               (sv_maxsize (put_db s1 (sv_wrdb s1) b0))
               (u32 (sv_size (put_db s1 (sv_wrdb s1) b0) + zlen data))
        else put_db s1 (sv_wrdb s1) b0)) = Done (0, s') /\
    spool_rep s' (((k, data) :: g1) :: rest1) /\ sv_maxsize s' = sv_maxsize s) as Happ.
  { intros s1 g1 rest1 Hr1 Em Hsz. pose proof (gsize_nonneg g1).
    destruct (rep_db s1 _ (sv_wrdb s1) Hr1 (sr_w _ _ Hr1)) as [b Hb].
    rewrite (get_db_spec _ _ _ Hb). cbn [obind]. unfold spoolbdb_write2. rewrite rdn_ok by lia.
    cbn [obind]. unfold zsub. rewrite zdrop_0, ztake_ge by lia.
    pose proof (sdb_put_ok b k data) as Hok. destruct (sdb_put b k data) as [e b'] eqn:Ep.
    cbn [fst] in Hok. subst e. pose proof (sdb_put_law _ _ _ _ _ Ep) as Hc. cbn [Z.eqb] in *.
    eexists. split; [reflexivity|]. cbn [put_db set_dbv sv_wrdb sv_Ndb sv_maxsize sv_size sv_n].
    pose proof (sr_size _ _ Hr1) as Es1. cbn [hd] in Es1. rewrite (u32_small (sv_size s1 + _)) by lia.
    split; [|done]. apply (append_spec s1 g1 rest1 b b'); try done. lia. }
  destruct (Z.ltb_spec (sv_maxsize s) (gsize g + zlen data)) as [Hrot|Hno].
  - rewrite (next_db_spec _ _ Hr). cbn [obind].
    set (i := if sv_wrdb s =? sv_Ndb s then 1 else sv_wrdb s + 1).
    assert (1 <= i <= sv_Ndb s) as Hi by (pose proof (sr_w _ _ Hr); subst i; ztest; lia).
    destruct (rep_db _ _ i Hr Hi) as [b Hb]. rewrite (get_db_spec _ _ _ Hb). cbn [obind].
    pose proof (sdb_truncate_ok b) as Hok. destruct (sdb_truncate b) as [e b'] eqn:Et.
    cbn [fst] in Hok. subst e. pose proof (sdb_truncate_law _ _ _ Et) as Hc. cbn [Z.eqb negb] in *.
    pose proof (rotate_spec s _ i b b' 0 Hr eq_refl Hb Hc) as Hr1.
    destruct (Happ _ _ _ Hr1) as (s' & E & Hr' & Em); [done|cbn; lia|].
    exists s'. split; [exact E|]. done.
  - cbn [obind negb Z.eqb]. destruct (Happ s g rest Hr) as (s' & E & Hr' & Em); [done|lia|].
    exists s'. split; [exact E|]. done.
Qed.

(** ** Reading *)

Context (junk : Z -> list Z) (Hjunk : forall n, 0 <= n -> zlen (junk n) = n).

Definition buf_wf (sb : spoolbuf_st) : Prop := zlen (sb_buffer sb) = sb_max sb.
(** the buffer holds the record [d], of which nothing has been read *)
Definition loaded (d : list Z) (sb : spoolbuf_st) : Prop :=
  sb_size sb = zlen d /\ sb_nread sb = 0 /\ exists r, sb_buffer sb = d ++ r.

Lemma spoolbdb_read_spec b k sb : buf_wf sb ->
  (forall d, sdb_content b !! k = Some d -> malloc_ok (zlen d) = true) ->
  exists sb', spoolbdb_read junk b k sb =
    Done (match sdb_content b !! k with Some _ => 0 | None => DB_NOTFOUND end, sb') /\ buf_wf sb' /\
    (forall d, sdb_content b !! k = Some d -> loaded d sb').
Proof.
  intros Hw Hm. pose proof (zlen_nonneg (sb_buffer sb)). unfold spoolbdb_read, buf_wf in *.
  pose proof (sdb_get_ok b k (sb_max sb)) as Hok.
  destruct (sdb_get b k (sb_max sb)) as [[e n] d] eqn:Eg. cbn [fst] in Hok.
  pose proof (sdb_get_law _ _ _ _ _ _ Eg) as (L0 & L1 & L2).
  destruct (sdb_content b !! k) as [v|] eqn:Ev.
  2: { subst e. cbn. exists sb. split_and!; done. }
  assert (forall sb1 v1, zlen (sb_buffer sb1) = sb_max sb1 -> zlen v1 <= sb_max sb1 ->
    exists sb', (let* buf := wr (sb_buffer sb1) 0 v1 in
      Done (0, Spoolbuf buf (zlen v1) (sb_max sb1) 0)) = Done (0, sb') /\
      zlen (sb_buffer sb') = sb_max sb' /\ loaded v1 sb') as Hload.
  { intros sb1 v1 E1 E2. rewrite wr_0 by lia. cbn [obind]. eexists. split; [done|].
    pose proof (zlen_nonneg v1). cbn. split; [rewrite zlen_app, zlen_drop; lia|].
    split_and!; try done. by eexists. }
  destruct (Z.ltb_spec (sb_max sb) (zlen v)) as [Hlt|Hge]; subst e.
  - destruct (L1 eq_refl) as (v' & [= <-] & -> & _). cbn [Z.eqb]. rewrite Z.eqb_refl.
    rewrite (Hm v eq_refl). cbn [sb_max]. pose proof (zlen_nonneg v).
    pose proof (sdb_get_ok b k (zlen v)) as Hok2. rewrite Ev in Hok2.
    destruct (sdb_get b k (zlen v)) as [[e2 n2] d2] eqn:Eg2. cbn [fst] in Hok2.
    destruct (Z.ltb_spec (zlen v) (zlen v)); [lia|]. subst e2.
    pose proof (sdb_get_law _ _ _ _ _ _ Eg2) as (M0 & _).
    destruct (M0 eq_refl) as (Ed & -> & _). rewrite Ev in Ed. injection Ed as <-. cbn [Z.eqb].
    destruct (Hload (Spoolbuf (ztake (zlen v) (junk (zlen v))) (sb_size sb) (zlen v) (sb_nread sb)) v)
      as (sb' & E & ? & ?); [cbn; rewrite zlen_take; [done|rewrite Hjunk; lia]|cbn; lia|].
    exists sb'. split_and!; [exact E|done|]. by intros ? [= <-].
  - destruct (L0 eq_refl) as ([= <-] & -> & _). cbn [Z.eqb]. change (0 =? BUFFER_SMALL) with false.
    destruct (Hload sb v) as (sb' & E & ? & ?); [done|lia|].
    exists sb'. split_and!; [exact E|done|]. by intros ? [= <-].
Qed.

Lemma prev_db_spec s gens j : spool_rep s gens -> 0 <= j < sv_Ndb s ->
  prev_db s (ring_index (sv_Ndb s) (sv_wrdb s) j) =
  Done (ring_index (sv_Ndb s) (sv_wrdb s) (j + 1)).
Proof.
  intros Hr Hj. pose proof (sr_w _ _ Hr) as Hw. unfold prev_db, rd.
  set (i := ring_index (sv_Ndb s) (sv_wrdb s) j).
  assert (1 <= i <= sv_Ndb s) as Hi by (subst i; unfold ring_index; ztest; lia).
  destruct (Z.eq_dec i 1) as [E|N].
  - rewrite E. change (1 - 1) with 0. rewrite (sr_first _ _ Hr). cbn [obind]. f_equal.
    subst i. unfold ring_index in *. revert E. ztest; lia.
  - destruct (rep_db _ _ (i - 1) Hr) as [b ->]; [lia|]. cbn [obind]. f_equal.
    subst i. unfold ring_index in *. revert N. ztest; lia.
Qed.

Lemma ring_index_home s gens j : spool_rep s gens -> 0 <= j <= sv_Ndb s ->
  (ring_index (sv_Ndb s) (sv_wrdb s) j =? sv_wrdb s) = (j =? 0) || (j =? sv_Ndb s).
Proof.
  intros [_ Hw _ _ _ _ _ _ _] Hj. unfold ring_index.
  destruct (Z.leb_spec 1 (sv_wrdb s - j)), (Z.eqb_spec j 0), (Z.eqb_spec j (sv_Ndb s)); cbn [orb];
    (apply Z.eqb_eq || apply Z.eqb_neq); lia.
Qed.

(** blocks for the records can be allocated *)
Definition can_load (gens : list (list rec_t)) : Prop :=
  Forall (Forall (fun r => malloc_ok (zlen r.2) = true)) gens.

Lemma can_load_lookup gens j g k d : can_load gens -> gens !! j = Some g ->
  (list_to_map g : gmap (list Z) (list Z)) !! k = Some d -> malloc_ok (zlen d) = true.
Proof.
  intros Hc Hg Hk. eapply Forall_lookup_1 in Hg; [|exact Hc].
  apply elem_of_list_to_map_2 in Hk. rewrite Forall_forall in Hg.
  apply list_elem_of_In in Hk. exact (Hg _ Hk).
Qed.

Lemma read_gen_spec s gens j g k sb : spool_rep s gens -> can_load gens -> buf_wf sb ->
  gens !! j = Some g ->
  exists b sb', get_db s (ring_index (sv_Ndb s) (sv_wrdb s) (Z.of_nat j)) = Done b /\
    spoolbdb_read junk b k sb =
      Done (match (list_to_map g : gmap (list Z) (list Z)) !! k with
            | Some _ => 0 | None => DB_NOTFOUND end, sb') /\ buf_wf sb' /\
    (forall d, (list_to_map g : gmap (list Z) (list Z)) !! k = Some d -> loaded d sb').
Proof.
  intros Hr Hc Hw Hg. destruct (sr_dbs _ _ Hr _ _ Hg) as (b & Hb & Eb).
  destruct (spoolbdb_read_spec b k sb Hw) as (sb' & E & Hw' & Hl).
  { intros d. rewrite Eb. by apply (can_load_lookup gens j). }
  rewrite Eb in E, Hl. exists b, sb'. split; [by apply get_db_spec|]. done.
Qed.

(** from generation [j] on, where the key has not been found *)
Lemma read_loop_spec s gens k : spool_rep s gens -> can_load gens ->
  forall fuel j sb, (j < length gens)%nat -> (length gens - j <= fuel)%nat -> buf_wf sb ->
  exists sb', read_loop junk fuel s (ring_index (sv_Ndb s) (sv_wrdb s) (Z.of_nat j)) k DB_NOTFOUND sb =
    Done (match gens_find k (drop (S j) gens) with Some _ => 0 | None => DB_NOTFOUND end, sb') /\
    buf_wf sb' /\ (forall d, gens_find k (drop (S j) gens) = Some d -> loaded d sb').
Proof.
  intros Hr Hc. pose proof (sr_N _ _ Hr) as HN. unfold zlen in HN.
  induction fuel as [|fuel IH]; intros j sb Hj Hf Hw; [lia|].
  cbn [read_loop]. rewrite Z.eqb_refl. rewrite (prev_db_spec s gens) by (done || lia). cbn [obind].
  rewrite (ring_index_home s gens) by (done || lia).
  destruct (Z.eqb_spec (Z.of_nat j + 1) 0); [lia|]. cbn [orb].
  destruct (Z.eqb_spec (Z.of_nat j + 1) (sv_Ndb s)) as [El|Nl].
  { exists sb. rewrite drop_ge by lia. by split_and!. }
  replace (Z.of_nat j + 1) with (Z.of_nat (S j)) by lia.
  destruct (lookup_lt_is_Some_2 gens (S j)) as [g Hg]; [lia|].
  destruct (read_gen_spec s gens (S j) g k sb) as (b & sb' & Eb & Er & Hw' & Hl); try done.
  rewrite Eb. cbn [obind]. rewrite Er. cbn [obind].
  rewrite (drop_S _ _ _ Hg), gens_find_spec.
  destruct ((list_to_map g : gmap (list Z) (list Z)) !! k) as [d|].
  - exists sb'. split; [by destruct fuel|]. split; [done|]. intros ? [= <-]. by apply Hl.
  - apply IH; [lia|lia|done].
Qed.

Lemma spoolbdbv_read_spec s gens k sb : spool_rep s gens -> can_load gens -> buf_wf sb ->
  exists sb', spoolbdbv_read junk s k sb =
    Done (match gens_find k gens with Some _ => 0 | None => DB_NOTFOUND end, sb') /\ buf_wf sb' /\
    (forall d, gens_find k gens = Some d -> loaded d sb').
Proof.
  intros Hr Hc Hw. pose proof (sr_N _ _ Hr) as HN. pose proof (sr_w _ _ Hr).
  destruct gens as [|g rest]; [change (zlen []) with 0 in HN; lia|].
  unfold spoolbdbv_read, spoolbdbv_read_unlocked.
  assert (ring_index (sv_Ndb s) (sv_wrdb s) (Z.of_nat 0) = sv_wrdb s) as E0
    by (unfold ring_index; ztest; lia).
  destruct (read_gen_spec s (g :: rest) 0 g k sb) as (b & sb' & Eb & Er & Hw' & Hl); try done.
  rewrite E0 in Eb. rewrite Eb. cbn [obind]. rewrite Er. cbn [obind]. rewrite gens_find_spec.
  destruct ((list_to_map g : gmap (list Z) (list Z)) !! k) as [d|].
  - exists sb'. split; [by destruct (Z.to_nat (sv_Ndb s))|]. split; [done|].
    intros ? [= <-]. by apply Hl.
  - pose proof (read_loop_spec s (g :: rest) k Hr Hc (Z.to_nat (sv_Ndb s)) 0 sb') as IH.
    rewrite E0 in IH. apply IH; [cbn; lia|unfold zlen in HN; lia|done].
Qed.

(** ** Slots *)

Definition count_open (l : list Z) : Z := foldr (fun st acc => (if st =? 0 then 0 else 1) + acc) 0 l.

Record slots_wf (ss : spoolbuf_slots_st) : Prop := SlotsWf {
  sw_status : zlen (ss_status ss) = ss_maxslots ss;
  sw_spoolb : zlen (ss_spoolb ss) = ss_maxslots ss;
  sw_count : ss_numslots ss = count_open (ss_status ss);
  sw_max : ss_maxslots ss < 2 ^ 31;
  sw_bufs : Forall buf_wf (ss_spoolb ss)
}.

Lemma count_open_bounds l : 0 <= count_open l <= zlen l.
Proof.
  induction l as [|x l IH]; [done|]. rewrite zlen_cons. cbn [count_open foldr]. fold (count_open l).
  ztest; lia.
Qed.

Lemma first_slot_spec l a : count_open l < zlen l ->
  exists i, first_slot l a = a + Z.of_nat i /\ l !! i = Some 0.
Proof.
  revert a. induction l as [|x l IH]; intros a; [done|]. rewrite zlen_cons.
  cbn [count_open foldr first_slot]. fold (count_open l). destruct (Z.eqb_spec x 0) as [->|]; intros Hc.
  - exists 0%nat. split; [lia|done].
  - destruct (IH (a + 1)) as (i & E & Hi); [lia|]. exists (S i). split; [lia|done].
Qed.

Lemma count_open_insert l i x y : l !! i = Some x ->
  count_open (<[i := y]> l) = count_open l - (if x =? 0 then 0 else 1) + (if y =? 0 then 0 else 1).
Proof.
  revert i. induction l as [|z l IH]; intros i Hi; [done|].
  assert (forall u w, count_open (u :: w) = (if u =? 0 then 0 else 1) + count_open w) as Ec by done.
  destruct i as [|i].
  - cbn in Hi. injection Hi as ->. change (<[0%nat := y]> (x :: l)) with (y :: l). rewrite !Ec. lia.
  - change (<[S i := y]> (z :: l)) with (z :: <[i := y]> l). rewrite !Ec, (IH i Hi). lia.
Qed.

Lemma slots_open_spec ss s gens k d : slots_wf ss -> ss_numslots ss < ss_maxslots ss ->
  spool_rep s gens -> can_load gens -> gens_find k gens = Some d ->
  exists sd ss' sb, spoolbuf_slots_open junk ss s k [] = Done (Some (0, Some sd, ss')) /\ 0 <= sd /\
    slots_wf ss' /\ ss_numslots ss' = ss_numslots ss + 1 /\ ss_maxslots ss' = ss_maxslots ss /\
    znth (ss_spoolb ss') sd = Some sb /\ loaded d sb /\ znth (ss_status ss') sd = Some 1.
Proof.
  intros [W1 W2 W3 W4 W5] Hfree Hr Hc Hf. pose proof (count_open_bounds (ss_status ss)).
  unfold spoolbuf_slots_open, slots_wait. destruct (Z.eqb_spec (ss_numslots ss) (ss_maxslots ss)); [lia|].
  cbn [andb negb Z.eqb]. unfold spoolbuf_slots_open_unlocked, c_assert.
  destruct (first_slot_spec (ss_status ss) 0) as (i & Ei & Hi); [lia|]. rewrite Ei, Z.add_0_l.
  pose proof (lookup_lt_Some _ _ _ Hi) as Hil. unfold zlen in W1, W2.
  destruct (Z.ltb_spec (Z.of_nat i) (ss_maxslots ss)); [|lia].
  destruct (lookup_lt_is_Some_2 (ss_spoolb ss) i) as [sb Hsb]; [lia|].
  assert (rd (ss_spoolb ss) (Z.of_nat i) = Done sb) as ->.
  { apply rd_Done. rewrite znth_lookup by lia. by rewrite Nat2Z.id. }
  cbn [obind]. destruct (spoolbdbv_read_spec s gens k sb Hr Hc) as (sb' & E & Hw & Hl).
  { by eapply Forall_lookup_1. }
  rewrite E, Hf. cbn [obind Z.eqb]. rewrite Nat2Z.id.
  exists (Z.of_nat i). eexists. exists sb'. split; [reflexivity|]. cbn. split; [lia|].
  rewrite s32_small by lia. split.
  { split; cbn; unfold zlen; rewrite ?length_insert; try done.
    - rewrite (count_open_insert _ _ 0) by done. cbn. lia.
    - by apply Forall_insert. }
  split; [done|]. split; [done|]. rewrite !znth_lookup by lia. rewrite Nat2Z.id.
  rewrite !list_lookup_insert_eq by lia. split_and!; try done. by apply Hl.
Qed.

(** reading the pieces of a record one after the other *)
Fixpoint read_pieces (ms : mspoolbdb_st) (sd : Z) (sizes : list Z)
  : outcome (list (list Z) * mspoolbdb_st) :=
  match sizes with
  | [] => Done ([], ms)
  | n :: sizes =>
      let* (_, d, ms) := nbsp_mspoolbdb_read ms sd n in
      let* (ds, ms) := read_pieces ms sd sizes in
      Done (d :: ds, ms)
  end.

Lemma spoolbuf_read_spec d r i max n : 0 <= i <= zlen d -> 0 <= n < 2 ^ 32 -> zlen d < 2 ^ 32 ->
  spoolbuf_read (Spoolbuf (d ++ r) (zlen d) max i) n =
    Done (zlen (zsub i n d), zsub i n d, Spoolbuf (d ++ r) (zlen d) max (i + zlen (zsub i n d))).
Proof.
  intros Hi Hn Hd. pose proof (zlen_nonneg r). unfold spoolbuf_read. cbn [sb_nread sb_size sb_buffer sb_max].
  destruct (Z.eqb_spec i (zlen d)) as [->|N].
  { unfold zsub. rewrite zdrop_ge by lia. unfold ztake. rewrite take_nil. cbn. by rewrite Z.add_0_r. }
  rewrite u64_small by lia. destruct (Z.ltb_spec (zlen d) (i + n)).
  - rewrite (u32_small (zlen d - i)) by lia. rewrite rdn_ok by (rewrite ?zlen_app; lia). cbn [obind].
    rewrite zsub_app_l by lia.
    assert (zsub i n d = zsub i (zlen d - i) d) as ->.
    { unfold zsub. rewrite !ztake_ge by (rewrite zlen_drop; lia). done. }
    rewrite zlen_sub by lia. rewrite u32_small by lia. done.
  - rewrite rdn_ok by (rewrite ?zlen_app; lia). cbn [obind]. rewrite zsub_app_l by lia.
    rewrite zlen_sub by lia. rewrite u32_small by lia. done.
Qed.

Lemma read_pieces_spec sizes : forall ms sd sb d i r max,
  znth (ss_spoolb (ms_spoolslots ms)) sd = Some sb -> sb = Spoolbuf (d ++ r) (zlen d) max i ->
  0 <= i <= zlen d -> zlen d < 2 ^ 32 -> Forall (fun n => 0 <= n < 2 ^ 32) sizes ->
  exists ds ms', read_pieces ms sd sizes = Done (ds, ms') /\ concat ds = zsub i (foldr Z.add 0 sizes) d.
Proof.
  induction sizes as [|n sizes IH]; intros ms sd sb d i r max Hsb -> Hi Hd Hs.
  { exists [], ms. split; [done|]. unfold zsub. by rewrite ztake_0. }
  apply Forall_cons_iff in Hs as [Hn Hs]. cbn [read_pieces foldr].
  unfold nbsp_mspoolbdb_read, mspoolbdb_slots_read, spoolbuf_slots_read.
  rewrite (proj2 (rd_Done _ _ _) Hsb). cbn [obind]. rewrite spoolbuf_read_spec by done. cbn [obind].
  pose proof (znth_Some_lt _ _ _ Hsb) as Hsd.
  pose proof (zlen_nonneg (zsub i n d)).
  assert (zlen (zsub i n d) <= zlen d - i /\ (zlen (zsub i n d) < n -> zlen (zsub i n d) = zlen d - i)) as [Hl1 Hl2].
  { unfold zsub, zlen, ztake, zdrop in *. rewrite length_take, length_drop. lia. }
  set (d1 := zsub i n d) in *.
  edestruct (IH (Mspoolbdb (ms_spoolbdbv ms)
      (Spoolslots (ss_numslots (ms_spoolslots ms)) (ss_maxslots (ms_spoolslots ms))
        (<[Z.to_nat sd := Spoolbuf (d ++ r) (zlen d) max (i + zlen d1)]> (ss_spoolb (ms_spoolslots ms)))
        (ss_status (ms_spoolslots ms)))) sd (Spoolbuf (d ++ r) (zlen d) max (i + zlen d1)) d (i + zlen d1) r max) as (ds & ms' & E & Ec); [| |lia|done|done|].
  { cbn. rewrite znth_insert, Z.eqb_refl by lia. reflexivity. }
  { reflexivity. }
  rewrite E. cbn [obind]. exists (d1 :: ds), ms'. split; [done|]. cbn [concat]. rewrite Ec.
  assert (0 <= foldr Z.add 0 sizes) as Hsum.
  { clear -Hs. induction Hs; cbn; lia. }
  unfold d1, zsub, zlen, ztake, zdrop in *. rewrite length_take, length_drop in *.
  rewrite <- (take_drop (Z.to_nat n) (drop (Z.to_nat i) d)) at 2.
  rewrite drop_drop. rewrite take_app.
  rewrite take_take, length_take, length_drop.
  destruct (decide (Z.to_nat n <= length d - Z.to_nat i)%nat).
  - f_equal; [f_equal; lia|]. do 2 f_equal; lia.
  - f_equal; [f_equal; lia|]. rewrite !drop_ge by lia. by rewrite !take_nil.
Qed.

(** ** Histories *)

(** products inserted one after the other: paths and contents *)
Fixpoint insert_run (ms : mspoolbdb_st) (ps : list (list Z * list Z)) : outcome (list Z * mspoolbdb_st) :=
  match ps with
  | [] => Done ([], ms)
  | (fpath, data) :: ps =>
      let* (st, ms) := nbsp_mspoolbdb_insert ms fpath data (zlen data) in
      let* (sts, ms) := insert_run ms ps in
      Done (st :: sts, ms)
  end.

Lemma insert_spec ms gens fpath k data : spool_rep (ms_spoolbdbv ms) gens ->
  get_fpath_key fpath = Some k -> zlen data <= sv_maxsize (ms_spoolbdbv ms) ->
  exists v', nbsp_mspoolbdb_insert ms fpath data (zlen data) =
      Done (0, Mspoolbdb v' (ms_spoolslots ms)) /\
    spool_rep v' (gens_write (sv_maxsize (ms_spoolbdbv ms)) (k, data) gens) /\
    sv_maxsize v' = sv_maxsize (ms_spoolbdbv ms).
Proof.
  intros Hr Hk Hd. pose proof (sr_small _ _ Hr). pose proof (zlen_nonneg data).
  unfold nbsp_mspoolbdb_insert, UINT32_MAX. rewrite Hk.
  destruct (Z.ltb_spec 4294967295 (zlen data)); [lia|]. rewrite u32_small by lia.
  destruct (write2_spec _ _ k data Hr Hd) as (v' & E & Hr' & Em). exists v'.
  unfold mspoolbdb_insert, spoolbdbv_write2. rewrite E. by cbn.
Qed.

(** the path names a product with another key, which fits in a database *)
Definition other_product (k : list Z) (maxsize : Z) (p : list Z * list Z) : Prop :=
  exists k', get_fpath_key p.1 = Some k' /\ k' <> k /\ zlen p.2 <= maxsize.

Lemma insert_run_spec m k ps : forall ms gens, spool_rep (ms_spoolbdbv ms) gens ->
  sv_maxsize (ms_spoolbdbv ms) = m -> Forall (other_product k m) ps ->
  exists v' rs, insert_run ms ps = Done (replicate (length ps) 0, Mspoolbdb v' (ms_spoolslots ms)) /\
    spool_rep v' (gens_writes m rs gens) /\ sv_maxsize v' = m /\
    Forall (fun r => r.1 <> k) rs /\ gsize rs = gsize ps.
Proof.
  induction ps as [|[fpath data] ps IH]; intros ms gens Hr Hm Hps.
  { exists (ms_spoolbdbv ms), []. destruct ms. by split_and!. }
  apply Forall_cons_iff in Hps as [(k' & Hk & Hne & Hd) Hps]. cbn in Hk, Hd.
  destruct (insert_spec ms gens fpath k' data Hr Hk) as (v1 & E1 & Hr1 & Em1); [by rewrite Hm|].
  rewrite Hm in Hr1, Em1.
  destruct (IH (Mspoolbdb v1 (ms_spoolslots ms)) _ Hr1 Em1 Hps) as (v' & rs & E & Hr' & Em' & Hks & Hg).
  exists v', ((k', data) :: rs). cbn [insert_run]. rewrite E1. cbn [obind]. rewrite E. cbn [obind].
  split; [done|]. split; [done|]. split; [done|]. split; [by constructor|].
  cbn [gsize foldr snd]. fold (gsize rs) (gsize ps). by rewrite Hg.
Qed.

Lemma sizes_load m gens : (forall n, 0 <= n <= m -> malloc_ok n = true) ->
  Forall (fun g => gsize g <= m) gens -> can_load gens.
Proof.
  intros Hm Hg. eapply Forall_impl; [|exact Hg]. cbn. intros g. induction g as [|r g IH]; [constructor|].
  cbn [gsize foldr]. fold (gsize g). intros Hs. pose proof (zlen_nonneg r.2). pose proof (gsize_nonneg g).
  constructor; [apply Hm; lia|apply IH; lia].
Qed.

Lemma held_new m k d gens : gens <> [] -> held k d 0 (gens_write m (k, d) gens).
Proof.
  intros Hg. destruct gens as [|g rest]; [done|]. cbn [gens_write snd].
  destruct (m <? gsize g + zlen d); eexists; (split; [done|]); (split; [cbn; apply lookup_insert_eq|]);
    intros; lia.
Qed.

(** C20: A product put in the memory spool can be read back. With N databases
    of [maxsize] bytes, every insertion of products that fit in one database
    succeeds, and after a product has been inserted it is found, whole and
    unchanged, as long as what has been inserted after it takes less than half
    of (N - 1) * maxsize bytes: opening it gives a slot whose size is the size
    of the product, and reads of any sizes give its consecutive pieces. *)
Theorem mspool_recalls ms gens fpath k data ps sizes
  (Hr : spool_rep (ms_spoolbdbv ms) gens) (Hs : slots_wf (ms_spoolslots ms))
  (Hfree : ss_numslots (ms_spoolslots ms) < ss_maxslots (ms_spoolslots ms))
  (Hmem : forall n, 0 <= n <= sv_maxsize (ms_spoolbdbv ms) -> malloc_ok n = true)
  (Hk : get_fpath_key fpath = Some k) (Hd : zlen data <= sv_maxsize (ms_spoolbdbv ms))
  (Hps : Forall (other_product k (sv_maxsize (ms_spoolbdbv ms))) ps)
  (Hroom : 2 * gsize ps < (sv_Ndb (ms_spoolbdbv ms) - 1) * sv_maxsize (ms_spoolbdbv ms))
  (Hsizes : Forall (fun n => 0 <= n < 2 ^ 32) sizes) :
  exists ms1 ms2 sd ms3 ds ms4,
    nbsp_mspoolbdb_insert ms fpath data (zlen data) = Done (0, ms1) /\
    insert_run ms1 ps = Done (replicate (length ps) 0, ms2) /\
    nbsp_mspoolbdb_open junk ms2 fpath [] = Done (Some (sd, ms3)) /\ 0 <= sd /\
    nbsp_mspoolbdb_datasize ms3 sd = Done (zlen data) /\
    read_pieces ms3 sd sizes = Done (ds, ms4) /\ concat ds = ztake (foldr Z.add 0 sizes) data.
Proof.
  destruct (insert_spec ms gens fpath k data Hr Hk Hd) as (v1 & E1 & Hr1 & Em1).
  set (m := sv_maxsize (ms_spoolbdbv ms)) in *. pose proof (sr_small _ _ Hr) as Hm. fold m in Hm.
  destruct (insert_run_spec m k ps (Mspoolbdb v1 (ms_spoolslots ms)) _ Hr1 Em1 Hps)
    as (v2 & rs & E2 & Hr2 & Em2 & Hks & Hg).
  assert (gens <> []) as Hne.
  { intros ->. destruct Hr as [HN Hw _ _ _ _ _ _ _]. change (zlen []) with 0 in HN. lia. }
  destruct (held_writes k data m rs (proj1 Hm) 0 _ (held_new m k data gens Hne) Hks) as (j' & Hh).
  { cbn [Nat.eqb]. unfold zlen at 1. rewrite gens_write_length. fold (zlen gens).
    rewrite Hg, <- (sr_N _ _ Hr). done. }
  apply held_find in Hh.
  assert (can_load (gens_writes m rs (gens_write m (k, data) gens))) as Hc.
  { apply (sizes_load m); [done|]. pose proof (sr_max _ _ Hr2) as Hx. by rewrite Em2 in Hx. }
  destruct (slots_open_spec (ms_spoolslots ms) v2 _ k data Hs Hfree Hr2 Hc Hh)
    as (sd & ss' & sb & E3 & Hsd & _ & _ & _ & Hsb & Hl & _).
  destruct Hl as (L1 & L2 & r & L3).
  destruct (read_pieces_spec sizes (Mspoolbdb v2 ss') sd sb data 0 r (sb_max sb)) as (ds & ms4 & E4 & Ec).
  - done.
  - destruct sb. cbn in *. by subst.
  - pose proof (zlen_nonneg data). lia.
  - lia.
  - done.
  - exists (Mspoolbdb v1 (ms_spoolslots ms)), (Mspoolbdb v2 (ms_spoolslots ms)), sd, (Mspoolbdb v2 ss'), ds, ms4.
    split; [exact E1|]. split; [exact E2|]. split.
    { unfold nbsp_mspoolbdb_open, mspoolbdb_slots_open. rewrite Hk. cbn [ms_spoolslots ms_spoolbdbv].
      rewrite E3. by cbn. }
    split; [done|]. split.
    { unfold nbsp_mspoolbdb_datasize, mspoolbdb_slots_datasize, spoolbuf_slots_datasize. cbn [ms_spoolslots].
      rewrite (proj2 (rd_Done _ _ _) Hsb). cbn [obind]. unfold spoolbuf_datasize. by rewrite L1. }
    split; [exact E4|]. by rewrite Ec.
Qed.
End theory.

(** a database kept in a map, and a spool of three of them *)
#[local] Instance map_sdb : SpoolBdb := {
  sdb := gmap (list Z) (list Z);
  sdb_put b k v := (0, <[k := v]> b);
  sdb_get b k ulen :=
    match b !! k with
    | None => (DB_NOTFOUND, 0, [])
    | Some v => if ulen <? zlen v then (BUFFER_SMALL, zlen v, []) else (0, zlen v, v)
    end;
  sdb_truncate b := (0, ∅);
  sdb_open _ _ _ := (0, Some ∅);
  sdb_env_open _ _ _ _ := 0;
  sdb_close _ := 0;
  sdb_env_close := 0
}.

#[local] Instance map_sdb_spec : SpoolBdbSpec map_sdb.
Proof.
  refine {| sdb_content := (fun b => b) : @sdb map_sdb -> gmap (list Z) (list Z) |}; cbn.
  - by intros b k v e b' [= <- <-].
  - intros b k ulen e n d. destruct (b !! k) as [v|]; [|by intros [= <- <- <-]].
    destruct (Z.ltb_spec ulen (zlen v)); intros [= <- <- <-]; split_and!; try done; eauto.
  - by intros b e b' [= <- <-].
Defined.

#[local] Instance map_sdb_reliable : SpoolBdbReliable map_sdb map_sdb_spec.
Proof.
  split; cbn; try done. intros b k ulen. destruct (b !! k); [|done]. by destruct (_ <? _).
Qed.

(** as [mspoolbdb_create] leaves it, with databases of 100 bytes and two slots *)
Definition demo_mspool : @mspoolbdb_st map_sdb :=
  Mspoolbdb (Spoolbdbv [None; Some ∅; Some ∅; Some ∅; None] 1 3 0 100 0)
    (Spoolslots 0 2 [Spoolbuf [] 0 0 0; Spoolbuf [] 0 0 0] [0; 0]).

(** the path "/s/tjsj/a_7", the sequence number 7 *)
Definition demo_fpath (c : Z) : list Z := [47; 115; 47; 116; 47; 97; 95; c].

Lemma mspool_recalls_witness :
  exists ms1 ms2 sd ms3 ds ms4,
    nbsp_mspoolbdb_insert demo_mspool (demo_fpath 55) [1; 2; 3; 4; 5] 5 = Done (0, ms1) /\
    insert_run ms1 [(demo_fpath 56, [9; 9])] = Done ([0], ms2) /\
    nbsp_mspoolbdb_open (Hp := demo_heap) (fun n => replicate (Z.to_nat n) 0) ms2 (demo_fpath 55) [] =
      Done (Some (sd, ms3)) /\ 0 <= sd /\
    nbsp_mspoolbdb_datasize ms3 sd = Done 5 /\
    read_pieces ms3 sd [2; 4096] = Done (ds, ms4) /\ concat ds = [1; 2; 3; 4; 5].
Proof.
  apply (mspool_recalls (Hp := demo_heap) (SS := map_sdb_spec) (fun n => replicate (Z.to_nat n) 0)
    ltac:(intros n Hn; cbv beta; rewrite zlen_replicate; lia)
    demo_mspool [[]; []; []] (demo_fpath 55) [55] [1; 2; 3; 4; 5] [(demo_fpath 56, [9; 9])] [2; 4096]).
  - split; cbn; try done; try lia.
    + intros [|[|[|j]]] g Hg; cbn in Hg; try done; injection Hg as <-; eexists; done.
    + repeat constructor; cbn; lia.
  - split; cbn; try done. repeat constructor.
  - done.
  - intros n [_ Hn]. cbn in *. apply Z.ltb_lt. lia.
  - reflexivity.
  - cbn. done.
  - constructor; [|constructor]. exists [56]. split_and!; [reflexivity|done|done].
  - reflexivity.
  - repeat constructor; lia.
Defined.
