(* ===== verification/Nbsp.v ===== *)
(** * Nbsp: src/src/nbsp.c and src/src/efile.c, the processor

    The thread that takes the products from the processing queue ([Pctl]),
    decides what to do with the retransmitted and the incomplete ones
    ([Rtxdb]), writes the others to the spool (files of [File], kept in order
    by [Spooldb], or the databases of [Mspool]) and tells the filters and the
    servers about them ([Packfp], [Qdb]).

    The state has the globals that the thread changes, and the two log files of
    products; the regular expressions are a parameter. *)

From stdpp Require Import gmap.
From S2P Require Import Prelude Util CLib Mfile Sbn Stats Pctldb Pctl Nreadn Packfp.
From S2P Require Import Rtxdb Spooldb Qdb File Mspool.

(** 0: the name is accepted *)
Class QueueRegex := {
  filterq_regex_match : list Z -> Z;
  serverq_regex_match : list Z -> Z;
  rtxdb_regex_match : list Z -> Z
}.

(** the members of [g] that are only read; the last two tell if the log files
    can be opened *)
Record conf_st := Conf {
  spooltype : Z;
  rtxdb_default_process : Z;
  f_filter_thread_created : Z;
  f_server_thread_created : Z;
  missinglog_ok : bool;
  rtxlog_ok : bool
}.

Definition SAVEFORMAT_NO_CCB : Z := 1.
Definition SPOOLDB_SLOTS_MIN : Z := 1024.

Section nbsp.
Context `{Hp : Heap} `{D : Db} `{Zl : Zlib} `{B : Btree} `{Q : QueueDb} `{FS : FileSys} `{Sb : SpoolBdb}
  `{Rx : QueueRegex}.

Record proc_st := Proc {
  pr_pctl : pctl_st;
  pr_stats : nbsp_stats_st;
  pr_rtxdb : option nbsp_rtxdb_st;
  pr_spooldb : option spooldb_st;
  pr_fs : fsys;
  pr_mspool : option mspoolbdb_st;
  pr_cspool : option mspoolbdb_st;
  pr_qt : nbsp_qtable_st;
  gpacketinfo : packet_info_st;
  grtxdb_truncate_flag : Z;
  missinglog : list Z;
  rtxlog : list Z
}.

Definition set_pr_pctl v (s : proc_st) := Proc v (pr_stats s) (pr_rtxdb s) (pr_spooldb s) (pr_fs s)
  (pr_mspool s) (pr_cspool s) (pr_qt s) (gpacketinfo s) (grtxdb_truncate_flag s) (missinglog s) (rtxlog s).
Definition set_pr_stats v (s : proc_st) := Proc (pr_pctl s) v (pr_rtxdb s) (pr_spooldb s) (pr_fs s)
  (pr_mspool s) (pr_cspool s) (pr_qt s) (gpacketinfo s) (grtxdb_truncate_flag s) (missinglog s) (rtxlog s).
Definition set_pr_rtxdb v (s : proc_st) := Proc (pr_pctl s) (pr_stats s) v (pr_spooldb s) (pr_fs s)
  (pr_mspool s) (pr_cspool s) (pr_qt s) (gpacketinfo s) (grtxdb_truncate_flag s) (missinglog s) (rtxlog s).
Definition set_pr_spooldb v w (s : proc_st) := Proc (pr_pctl s) (pr_stats s) (pr_rtxdb s) v w
  (pr_mspool s) (pr_cspool s) (pr_qt s) (gpacketinfo s) (grtxdb_truncate_flag s) (missinglog s) (rtxlog s).
Definition set_pr_fs v (s : proc_st) := Proc (pr_pctl s) (pr_stats s) (pr_rtxdb s) (pr_spooldb s) v
  (pr_mspool s) (pr_cspool s) (pr_qt s) (gpacketinfo s) (grtxdb_truncate_flag s) (missinglog s) (rtxlog s).
Definition set_pr_mspool v (s : proc_st) := Proc (pr_pctl s) (pr_stats s) (pr_rtxdb s) (pr_spooldb s)
  (pr_fs s) v (pr_cspool s) (pr_qt s) (gpacketinfo s) (grtxdb_truncate_flag s) (missinglog s) (rtxlog s).
Definition set_pr_cspool v (s : proc_st) := Proc (pr_pctl s) (pr_stats s) (pr_rtxdb s) (pr_spooldb s)
  (pr_fs s) (pr_mspool s) v (pr_qt s) (gpacketinfo s) (grtxdb_truncate_flag s) (missinglog s) (rtxlog s).
Definition set_pr_queues v w (s : proc_st) := Proc (pr_pctl s) (pr_stats s) (pr_rtxdb s) (pr_spooldb s)
  (pr_fs s) (pr_mspool s) (pr_cspool s) v w (grtxdb_truncate_flag s) (missinglog s) (rtxlog s).
Definition set_truncate_flag v (s : proc_st) := Proc (pr_pctl s) (pr_stats s) (pr_rtxdb s)
  (pr_spooldb s) (pr_fs s) (pr_mspool s) (pr_cspool s) (pr_qt s) (gpacketinfo s) v (missinglog s) (rtxlog s).
Definition set_logs v w (s : proc_st) := Proc (pr_pctl s) (pr_stats s) (pr_rtxdb s) (pr_spooldb s)
  (pr_fs s) (pr_mspool s) (pr_cspool s) (pr_qt s) (gpacketinfo s) (grtxdb_truncate_flag s) v w.

Definition with_stats (u : nbsp_stats_st -> nbsp_stats_st) (s : proc_st) := set_pr_stats (u (pr_stats s)) s.

(** [pce]: the output element of the product control *)
Definition pce_of (s : proc_st) : pctl_element_st := pctl_pce (pr_pctl s).
Definition set_pce (e : pctl_element_st) (s : proc_st) : proc_st :=
  set_pr_pctl (set_pctl_pce e (pr_pctl s)) s.

(** ** Logs of products *)

Definition write_log_pce (e : pctl_element_st) : list Z :=
  dec (u64 (tv_sec (pce_ts e))) ++ [32] ++ dec (seq_number e) ++ [32] ++
  sdec (psh_product_type e) ++ [32] ++ sdec (psh_product_category e) ++ [32] ++
  sdec (psh_product_code e) ++ [32] ++ sdec (pce_np_channel_index e) ++ [32] ++ fbasename e ++ [10].
Definition write_log_pce_rtx (e : pctl_element_st) : list Z :=
  dec (u64 (tv_sec (pce_ts e))) ++ [32] ++ dec (seq_number e) ++ [32] ++
  sdec (psh_product_type e) ++ [32] ++ sdec (psh_product_category e) ++ [32] ++
  sdec (psh_product_code e) ++ [32] ++ sdec (pce_np_channel_index e) ++ [32] ++ fbasename e ++ [32] ++
  dec (pce_orig_seq_number e) ++ [10].

Definition log_missing (g : conf_st) (s : proc_st) : proc_st :=
  if missinglog_ok g then set_logs (missinglog s ++ write_log_pce (pce_of s)) (rtxlog s) s else s.
Definition log_rtx (g : conf_st) (s : proc_st) : proc_st :=
  if rtxlog_ok g then set_logs (missinglog s) (rtxlog s ++ write_log_pce_rtx (pce_of s)) s else s.

(** ** The book of the spool directory *)

Definition nbsp_spooldb_delete_fpath (fpath : list Z) (f : fsys) : Z * fsys :=
  match fpath with
  | [] => (0, f)
  | _ => file_delete f fpath
  end.

(** the status, [g.spooldb], [g.spooldb_slots]; [content]: the saved file *)
Definition nbsp_spooldb_open (slots : Z) (spooldir spooldb_fname : list Z) (f : fsys)
    (content : option (list Z)) (read_ok1 read_ok2 : bool)
  : outcome (Z * option spooldb_st * Z) :=
  if slots =? 0 then Done (0, None, slots) else
  let slots := if slots <? SPOOLDB_SLOTS_MIN then SPOOLDB_SLOTS_MIN else slots in
  let* sd := spooldb_init slots (const_fpath_maxsize spooldir + 1) in
  match sd with
  | None => Done (-1, None, slots)
  | Some sd =>
      let status := file_exists f spooldb_fname in
      if status =? 1 then Done (0, Some sd, slots) else
      let* (status, sd) := if status =? 0 then spooldb_read content read_ok1 read_ok2 sd
                           else Done (status, sd) in
      Done (status, if negb (status =? 0) then None else Some sd, slots)
  end.

(** the contents of the saved file, if it is written, and [g.spooldb] *)
Definition nbsp_spooldb_close (open_ok : bool) (sys_write : Z -> Z) (ptrs : list Z)
    (sd : option spooldb_st) : outcome (option (list Z) * option spooldb_st) :=
  match sd with
  | None => Done (None, None)
  | Some sd => let* (_, c) := spooldb_write open_ok sys_write ptrs sd in Done (c, None)
  end.

Definition nbsp_spooldb_insert (fpath : list Z) (s : proc_st) : outcome (Z * proc_st) :=
  match pr_spooldb s with
  | None => Done (0, s)
  | Some sd =>
      let* (status, sd, f) := spooldb_insert nbsp_spooldb_delete_fpath sd fpath (pr_fs s) in
      Done (status, set_pr_spooldb (Some sd) f s)
  end.

(** ** Saving a product *)

(** the loop of [pce_mcat_frames], with [n] frames left: the status, the file
    that is read, the file that is written *)
Fixpoint mcat_loop (n : nat) (src mf : memfile) : outcome (Z * memfile * memfile) :=
  match n with
  | O => Done (0, src, mf)
  | S n' =>
      let* (pdata_size, fr, src) := get_memframe src in
      if pdata_size <=? 0 then Done (2, src, mf) else
      match fr with
      | None => Done (2, src, mf)
      | Some fr =>
          let* (status, pdata, pdata_size) :=
            if fr_compressed fr =? 1 then
              let* (unz_status, outlen, out) := unz MAX_FRDATA_SIZE (fr_data fr) pdata_size in
              if negb (unz_status =? 0) then Done (1, fr_data fr, outlen) else Done (0, out, outlen)
            else Done (0, fr_data fr, pdata_size) in
          if negb (status =? 0) then Done (status, src, mf) else
          let* (st, mf) := write_memfile mf pdata pdata_size in
          if st =? -1 then Done (-1, src, mf) else mcat_loop n' src mf
      end
  end.

(** [mf] is the output file of the product control *)
Definition pce_mcat_frames (s : proc_st) : outcome (Z * proc_st) :=
  let e := pce_of s in
  let* (status, src, mf) :=
    mcat_loop (Z.to_nat (pce_num_fragments e)) (pce_mf e) (outputmf (pr_pctl s)) in
  Done (status, set_pr_pctl (set_outputmf mf (set_pctl_pce (set_pce_mf src e) (pr_pctl s))) s).

(** -1, or the file is open and empty *)
Definition e_open_product_file (f : fsys) (fpath : list Z) : Z * fsys :=
  let (status, f) := create_path_dirs f fpath in
  if status =? 0 then
    let (ok, f) := sys_creat f fpath in (if ok then 0 else -1, f)
  else (-1, f).

Definition pce_savefs_memfile (mf : memfile) (s : proc_st) : Z * proc_st :=
  let e := pce_of s in
  let (fd, f) := e_open_product_file (pr_fs s) (fpath e) in
  if fd =? -1 then (-1, set_pr_fs f s) else
  let sys_write := sys_write_ret f (fpath e) in
  let (status, written) :=
    if (save_format e =? SAVEFORMAT_NO_CCB) && (f_has_ccb e =? 1)
    then save_memfile_skip sys_write mf CCB_SIZE else save_memfile sys_write mf in
  (status, set_pr_fs (sys_put f (fpath e) written) s).

(** the size without the CCB is only tested *)
Definition too_small (e : pctl_element_st) (mf : memfile) : bool :=
  (save_format e =? SAVEFORMAT_NO_CCB) && (f_has_ccb e =? 1) && (mf_size mf <=? CCB_SIZE).

Definition pce_savembdb_memfile (mf : memfile) (s : proc_st) : outcome (Z * proc_st) :=
  if too_small (pce_of s) mf then Done (1, s) else
  match pr_mspool s with
  | None => Undef
  | Some ms =>
      let* (status, ms) := nbsp_mspoolbdb_insert ms (fpath (pce_of s)) (mf_p mf) (mf_size mf) in
      Done (status, set_pr_mspool (Some ms) s)
  end.

Definition pce_savecbdb_memfile (mf : memfile) (s : proc_st) : outcome (Z * proc_st) :=
  if too_small (pce_of s) mf then Done (1, s) else
  match pr_cspool s with
  | None => Undef
  | Some ms =>
      let* (status, ms) := nbsp_mspoolbdb_insert ms (fpath (pce_of s)) (mf_p mf) (mf_size mf) in
      Done (status, set_pr_cspool (Some ms) s)
  end.

(** writes the file [mf] where the spool type says *)
Definition save_product (g : conf_st) (mf : memfile) (s : proc_st) : outcome (Z * proc_st) :=
  if negb (spooltype_fsspool (spooltype g) =? 0) then Done (pce_savefs_memfile mf s)
  else if negb (spooltype_mspool (spooltype g) =? 0) then pce_savembdb_memfile mf s
  else if negb (spooltype_cspool (spooltype g) =? 0) then
    let* (status, s) := pce_savecbdb_memfile mf s in
    if status =? 0 then Done (pce_savefs_memfile mf s) else Done (status, s)
  else Done (0, s).

Definition pce_spool_product (g : conf_st) (s : proc_st) : outcome (Z * proc_st) :=
  if saveunz_flag (pce_of s) =? 0 then save_product g (pce_mf (pce_of s)) s
  else
    let (mf, c) := reopen_pctl_outputmf (pr_pctl s) in
    let s := set_pr_pctl c s in
    match mf with
    | None => Done (-1, s)
    | Some _ =>
        let* (status, s) := pce_mcat_frames s in
        if status =? 0 then save_product g (outputmf (pr_pctl s)) s else Done (status, s)
    end.

(** ** Announcing a product *)

Definition e_export_product (g : conf_st) (s : proc_st) : outcome (Z * proc_st) :=
  let e := pce_of s in
  let* (status1, pi) := nbsfp_pack_fpath (gpacketinfo s) e in
  let s := set_pr_queues (pr_qt s) pi s in
  if negb (status1 =? 0) then Done (status1, s) else
  let* nm := cstr (fname e) in
  let packet := ztake (pi_packet_size pi) (default [] (pi_packet pi)) in
  let* (status1, qt) :=
    if filterq_regex_match nm =? 0
    then e_nbspq_snd_filter (f_filter_thread_created g) (pr_qt s) packet
    else Done (status1, pr_qt s) in
  let* (status2, qt) :=
    if serverq_regex_match nm =? 0
    then e_nbspq_snd_server (f_server_thread_created g) qt packet else Done (0, qt) in
  Done (if status1 =? 0 then status2 else status1, set_pr_queues qt pi s).

(** ** One product *)

Definition rtxdb_flag_filter (s : proc_st) : outcome proc_st :=
  let e := pce_of s in
  let* nm := cstr (fname e) in
  Done (set_pce (set_rtxdb_flag (if rtxdb_regex_match nm =? 0 then 1 else 0) e) s).

(** [e_nbsp_rtxdb_put_ok] or [_fail], if the product is to be recorded *)
Definition record_product (put : option nbsp_rtxdb_st -> Z -> outcome (Z * option nbsp_rtxdb_st))
    (s : proc_st) : outcome proc_st :=
  let e := pce_of s in
  if rtxdb_flag e =? 1 then
    let* (_, r) := put (pr_rtxdb s) (seq_number e) in Done (set_pr_rtxdb r s)
  else Done s.

(** the part that deals with a retransmission: whether the product is still to
    be processed *)
Definition check_retransmission (g : conf_st) (s : proc_st) : outcome (bool * proc_st) :=
  let e := pce_of s in
  if pce_orig_seq_number e =? 0 then Done (true, s) else
  let orig_prod_status :=
    if rtxdb_flag e =? 1 then e_nbsp_rtxdb_get_fstatus (pr_rtxdb s) (pce_orig_seq_number e) else -1 in
  let s := with_stats update_stats_products_retransmitted_c s in
  let s := with_stats (update_stats_products_retransmitted_pi orig_prod_status) s in
  let s := log_rtx g s in
  if orig_prod_status =? 0 then
    let* s := record_product e_nbsp_rtxdb_put_ok s in Done (false, s)
  else if orig_prod_status =? 1 then Done (true, with_stats update_stats_products_recovered s)
  else if orig_prod_status =? -1 then Done (true, s)
  else if rtxdb_default_process g =? 0 then Done (false, s) else Done (true, s).

(** 0, or 1 when the product could not be saved *)
Definition process_pctl_element (g : conf_st) (s : proc_st) : outcome (Z * proc_st) :=
  let* s := rtxdb_flag_filter s in
  if f_complete (pce_of s) =? 0 then
    let s := log_missing g s in
    let* s := record_product e_nbsp_rtxdb_put_fail s in
    Done (0, s)
  else
    let* (go, s) := check_retransmission g s in
    if negb go then Done (0, s) else
    let* (st, s) := pce_spool_product g s in
    if negb (st =? 0) then Done (1, s) else
    let* (_, s) := nbsp_spooldb_insert (fpath (pce_of s)) s in
    let* s := record_product e_nbsp_rtxdb_put_ok s in
    let* (_, s) := e_export_product g s in
    Done (0, s).

(** 0 a product was processed, 1 none to process, or an error; [None]: still
    waiting for a product *)
Definition process_pctl (g : conf_st) (wakeups : list (Z * pctldb_st)) (s : proc_st)
  : outcome (option (Z * proc_st)) :=
  match eopen_pctl_outputpce (pr_pctl s) wakeups with
  | None => Done None
  | Some (status, _, c) =>
      let s := set_pr_pctl c s in
      if status =? 1 then Done (Some (1, s)) else
      let* (status, s) := if status =? 0 then process_pctl_element g s else Done (status, s) in
      let s := set_pr_pctl (close_pctl_outputpce (pr_pctl s)) s in
      Done (Some (status, with_stats (update_stats_products status) s))
  end.

(** ** The thread *)

(** [trylock]: the mutex could be locked *)
Definition get_rtxdb_truncate_flag (trylock : bool) (s : proc_st) : Z * proc_st :=
  if grtxdb_truncate_flag s =? 0 then (0, s)
  else if trylock then (grtxdb_truncate_flag s, set_truncate_flag 0 s)
  else (0, s).
Definition set_rtxdb_truncate_flag (lock : bool) (s : proc_st) : proc_st :=
  if lock then set_truncate_flag 1 s else s.

(** the report of the state of the queues changes nothing here *)
Definition nbsp_periodic (trylock : bool) (s : proc_st) : outcome proc_st :=
  let (flag, s) := get_rtxdb_truncate_flag trylock s in
  if negb (flag =? 0) then
    let* (_, r) := e_nbsp_rtxdb_truncate (pr_rtxdb s) in Done (set_pr_rtxdb r s)
  else Done s.

Definition nbsproc_loop (g : conf_st) (trylock : bool) (wakeups : list (Z * pctldb_st)) (s : proc_st)
  : outcome (option (Z * proc_st)) :=
  let* s := nbsp_periodic trylock s in process_pctl g wakeups s.

Definition init_packetinfo_packet_pool (spooldir junk : list Z) (pi : packet_info_st)
  : Z * packet_info_st :=
  let (status, pi) := nbsfp_packetinfo_init spooldir junk pi in
  (if negb (status =? 0) then -1 else 0, pi).

Definition init_pctl (spooldir : list Z) (junk : pctl_element_st) (noaaport masterservers : bool)
    (npcast_channels num_slavenbs_readers : Z) (param : pctldb_param_st)
  : outcome (Z * option pctl_st) :=
  let n := if noaaport then npcast_channels else 0 in
  let n := if masterservers
           then n + (if negb (num_slavenbs_readers =? 0) then num_slavenbs_readers else 1) else n in
  let* c := epctl_open spooldir junk n param in
  Done (match c with None => (-1, None) | Some c => (0, Some c) end).

End nbsp.

#[global] Arguments proc_st {D B Q FS Sb}.

(** ** Frames of a compressed product *)

(** the bytes of a frame; [None]: they cannot be decompressed *)
Definition frame_text `{Zlib} (fr : list Z * Z) : option (list Z) :=
  if fr.2 =? 1 then
    let (e, o) := uncompress fr.1 MAX_FRDATA_SIZE in if e =? 0 then Some o else None
  else Some fr.1.

Section pieces.
Context `{HS : HeapSpec} `{ZS : ZlibSpec}.
Hypothesis Hmem : forall n, n < 2 ^ 40 -> malloc_ok n = true.

Lemma frame_text_spec fr t : frame_ok fr -> frame_text fr = Some t ->
  bytes t /\ zlen t <= Z.max MAX_FRDATA_SIZE (zlen fr.1).
Proof.
  intros (Hb & Hl & _). unfold frame_text. destruct (fr.2 =? 1); [|intros [= <-]; split; [done|lia]].
  destruct (uncompress fr.1 MAX_FRDATA_SIZE) as [e o] eqn:E. destruct (e =? 0); [|done].
  intros [= <-]. split; [by eapply uncompress_bytes|].
  pose proof (uncompress_fits _ _ _ _ E). unfold MAX_FRDATA_SIZE in *. lia.
Qed.

(** the text of one frame as the loop gets it *)
Lemma frame_step fr post t : frame_ok fr -> frame_text fr = Some t ->
  exists st pd n, (if fr.2 =? 1 then
      let* (unz_status, outlen, out) := unz MAX_FRDATA_SIZE (fr.1 ++ post) (zlen fr.1) in
      if negb (unz_status =? 0) then Done (1, fr.1 ++ post, outlen) else Done (0, out, outlen)
    else Done (0, fr.1 ++ post, zlen fr.1)) = Done (st, pd, n) /\ st = 0 /\ n = zlen t /\
    ztake n pd = t /\ n <= zlen pd.
Proof.
  intros (Hb & Hl & _). unfold frame_text. pose proof (zlen_nonneg post).
  destruct (fr.2 =? 1).
  - destruct (uncompress fr.1 MAX_FRDATA_SIZE) as [e o] eqn:E.
    pose proof (uncompress_fits _ _ _ _ E). pose proof (zlen_nonneg o). unfold MAX_FRDATA_SIZE in *.
    destruct (Z.eqb_spec e 0) as [->|]; [|done]. intros [= <-].
    unfold unz. rewrite (u64_small (zlen _)), u64_small by lia.
    rewrite rdn_ok by (rewrite ?zlen_app; lia). unfold zsub. rewrite zdrop_0, ztake_app_exact by done.
    cbn [obind]. rewrite E. cbn [obind Z.eqb negb]. rewrite s32_small by lia.
    eexists _, _, _. split; [done|]. split_and!; [done|done|by rewrite ztake_ge|lia].
  - intros [= <-]. eexists _, _, _. split; [done|]. split_and!; [done|done|by apply ztake_app_exact|].
    rewrite zlen_app. lia.
Qed.

Lemma mcat_loop_spec frs : forall src mf pre ts,
  memfile_wf src -> memfile_wf mf -> Forall frame_ok frs ->
  mf_p src = pre ++ concat (encode_frame <$> frs) -> mf_nread src = zlen pre ->
  mapM frame_text frs = Some ts -> mf_size mf + zlen (concat ts) < 2 ^ 38 ->
  exists src' mf', mcat_loop (length frs) src mf = Done (0, src', mf') /\
    memfile_wf src' /\ memfile_wf mf' /\ mf_p src' = mf_p src /\
    mf_nread mf' = mf_nread mf /\ mf_p mf' = mf_p mf ++ concat ts.
Proof.
  induction frs as [|fr frs IH]; intros src mf pre ts Hs Hm Hok Hp Hn Ht Hsz.
  { cbn in Ht. injection Ht as <-. exists src, mf. cbn. rewrite app_nil_r. by split_and!. }
  apply Forall_cons_iff in Hok as [Hf Hok]. cbn in Ht.
  destruct (frame_text fr) as [t|] eqn:Et; [|done]. cbn in Ht.
  destruct (mapM frame_text frs) as [ts'|] eqn:Ets; [|done]. cbn in Ht. injection Ht as <-.
  cbn [concat fmap list_fmap] in Hp, Hsz. rewrite zlen_app in Hsz. cbn [length mcat_loop].
  destruct (get_memframe_spec src pre fr _ Hs Hf Hp Hn) as (src1 & -> & Hs1 & Hp1 & Hn1).
  cbn [obind fr_compressed fr_data].
  destruct Hf as (Hb & Hl & Hc). destruct (Z.leb_spec (zlen fr.1) 0); [lia|].
  destruct (frame_step fr (concat (encode_frame <$> frs)) t) as (st & pd & n & -> & -> & -> & Et' & Hnl);
    [done|done|].
  cbn [obind Z.eqb negb]. pose proof (zlen_nonneg t). pose proof (zlen_nonneg (concat ts')).
  destruct (frame_text_spec fr t) as [Hbt Hlt]; [done|done|]. unfold MAX_FRDATA_SIZE in Hlt.
  assert (write_memfile mf pd (zlen t) = write_memfile mf t (zlen t)) as ->.
  { rewrite (write_memfile_prefix _ pd), Et' by lia. done. }
  pose proof (wf_size _ Hm).
  destruct (write_memfile_ok Hmem mf t (zlen t)) as (mf1 & -> & Hm1 & Hnm1 & Hpm1); [done..|lia|lia|lia|].
  rewrite (ztake_ge _ t) in Hpm1 by lia.
  cbn [obind]. change (0 =? -1) with false.
  assert (mf_size mf1 = mf_size mf + zlen t) as Hsz1.
  { rewrite <- (wf_p _ Hm1), <- (wf_p _ Hm), Hpm1. apply zlen_app. }
  destruct (IH src1 mf1 (pre ++ encode_frame fr) ts') as (src2 & mf2 & -> & ? & ? & ? & ? & Ep);
    [done..| |done|done|lia|].
  { rewrite Hp1, Hp. by rewrite app_assoc. }
  exists src2, mf2. split_and!; try done; [congruence|congruence|].
  rewrite Ep, Hpm1. cbn [concat]. by rewrite app_assoc.
Qed.
End pieces.

(** ** Files *)

Section files.
Context `{Hp : Heap} `{FSR : FileSysReliable}.
Hypothesis Hmem : forall n, n < 2 ^ 40 -> malloc_ok n = true.

(** the files and the directories have different names, those of the
    directories in [isdir] *)
Definition layout (isdir : list Z -> Prop) (files : gmap (list Z) (list Z)) (dirs : gset (list Z)) : Prop :=
  (forall p, p ∈ dirs -> isdir p) /\ (forall p, isdir p -> files !! p = None).

Lemma dir_prefixes_self b rest : b ++ rest ∈ dir_prefixes b rest.
Proof.
  revert b. induction rest as [|c r IH]; intros b; cbn [dir_prefixes]; [rewrite app_nil_r; by left|].
  apply elem_of_app. right. specialize (IH (b ++ [c])). by rewrite <- app_assoc in IH.
Qed.

(** the directory made in a turn is one of those of the path, and so are the
    ones of the rest *)
Lemma mkdir_turn (P : list Z -> Prop) b rest b1 r1 l r : skip_slash b rest = (b1, r1) ->
  strchr_split 47 r1 = Some (l, r) -> Forall P (dir_prefixes b rest) ->
  P (b1 ++ l) /\ Forall P (dir_prefixes (b1 ++ l) (47 :: r)).
Proof.
  unfold skip_slash. intros Esk Es HP.
  assert (Forall P (dir_prefixes b1 r1) /\ b1 ++ l <> []) as [HP1 Hne].
  { destruct rest as [|c q]; [by injection Esk as <- <-|].
    destruct (Z.eqb_spec c 47) as [->|Hc]; injection Esk as <- <-.
    - cbn [dir_prefixes] in HP. apply Forall_app in HP as [_ HP]. split; [done|]. by destruct b.
    - split; [done|]. apply strchr_split_Some in Es as [Er _]. destruct l; [|by destruct b].
      cbn in Er. congruence. }
  apply strchr_split_Some in Es as [-> Hl]. rewrite dir_prefixes_app in HP1 by done. split; [|done].
  cbn [dir_prefixes] in HP1. apply Forall_app in HP1 as [HP1 _].
  destruct (b1 ++ l) as [|x y]; [done|]. rewrite zlen_cons in HP1. pose proof (zlen_nonneg y).
  destruct (Z.eqb_spec (1 + zlen y) 0); [lia|]. by apply Forall_cons_iff in HP1 as [? _].
Qed.

Lemma mkdir_last (P : list Z -> Prop) b rest b1 r1 : skip_slash b rest = (b1, r1) ->
  Forall P (dir_prefixes b rest) -> P (b1 ++ r1).
Proof.
  unfold skip_slash. intros Esk HP.
  assert (b1 ++ r1 = b ++ rest) as ->.
  { destruct rest as [|c q]; [by injection Esk as <- <-|].
    destruct (Z.eqb_spec c 47) as [->|Hc]; injection Esk as <- <-; [|done]. by rewrite <- app_assoc. }
  rewrite Forall_forall in HP. apply HP. apply list_elem_of_In, dir_prefixes_self.
Qed.

Lemma mkdir_layout isdir f p : layout isdir (fs_files f) (fs_dirs f) -> isdir p ->
  layout isdir (fs_files (sys_mkdir f p).2) (fs_dirs (sys_mkdir f p).2).
Proof.
  intros [Hd Hf] Hp1. destruct (sys_mkdir f p) as [e f'] eqn:E. apply mkdir_law in E as [E1 E2].
  cbn. split; [|by rewrite E1]. rewrite E2. destruct (e =? 0); set_solver.
Qed.

Lemma put_layout isdir f p c : layout isdir (fs_files f) (fs_dirs f) -> ~ isdir p ->
  layout isdir (fs_files (sys_put f p c)) (fs_dirs (sys_put f p c)).
Proof.
  intros [Hd Hf] Hp1. destruct (put_law f p c) as [-> ->]. split; [done|].
  intros q Hq. rewrite lookup_insert_ne by congruence. by apply Hf.
Qed.

Lemma delete_layout isdir p files dirs : layout isdir files dirs -> layout isdir (delete p files) dirs.
Proof. intros [Hd Hf]. split; [done|]. intros q Hq. rewrite lookup_delete_None. auto. Qed.

Lemma mkdir_loop_works isdir fuel : forall f b rest, (length rest < fuel)%nat ->
  layout isdir (fs_files f) (fs_dirs f) -> Forall isdir (dir_prefixes b rest) ->
  (mkdir_loop fuel f b rest).1 = 0 /\
  layout isdir (fs_files (mkdir_loop fuel f b rest).2) (fs_dirs (mkdir_loop fuel f b rest).2).
Proof.
  induction fuel as [|fuel IH]; intros f b rest Hl Hlay Hall; [lia|]. cbn [mkdir_loop].
  destruct (skip_slash b rest) as [b1 r1] eqn:Esk.
  set (path := match strchr_split 47 r1 with Some (l, _) => b1 ++ l | None => b1 ++ r1 end).
  assert (isdir path) as Hpath.
  { subst path. destruct (strchr_split 47 r1) as [[l r]|] eqn:Es;
      [by eapply mkdir_turn|by eapply mkdir_last]. }
  pose proof (mkdir_layout _ f path Hlay Hpath) as Hlay1.
  pose proof (fsr_mkdir f path (proj2 Hlay _ Hpath)) as Hmk.
  destruct (sys_mkdir f path) as [st1 f1]. cbn [fst snd] in Hmk, Hlay1.
  assert ((if negb (st1 =? 0) && (dir_exists f1 path =? 0) then 0 else st1) = 0) as ->.
  { destruct (Z.eqb_spec st1 0) as [->|]; [done|]. destruct Hmk as [?| ->]; done. }
  destruct (strchr_split 47 r1) as [[l r]|] eqn:Es; [|done]. cbn [Z.eqb].
  pose proof (skip_slash_shorter _ _ _ _ _ _ Esk Es). apply IH; [cbn; lia|done|].
  by eapply mkdir_turn.
Qed.

Lemma dirname_nonempty p : dirname p <> [].
Proof.
  unfold dirname. destruct (strip_slashes (rev p)) as [|c l]; [by destruct (zlen p =? 0)|].
  destruct (strip_base (c :: l)); [done|].
  match goal with |- context [strip_slashes ?x] => destruct (strip_slashes x) as [|d m] end; [done|].
  cbn [rev]. intros E. by apply app_eq_nil in E as [_ ?].
Qed.

Lemma create_path_dirs_works isdir f p : zlen p < 2 ^ 31 ->
  layout isdir (fs_files f) (fs_dirs f) -> Forall isdir (dir_prefixes [] (dirname p)) ->
  exists f', create_path_dirs f p = (0, f') /\ fs_files f' = fs_files f /\
    layout isdir (fs_files f') (fs_dirs f') /\ (has_slash p = true -> dirname p ∈ fs_dirs f').
Proof.
  intros Hl Hlay Hall. unfold create_path_dirs. destruct (has_slash p); cbn [negb]; [|by exists f].
  rewrite Hmem by lia. cbn [negb]. unfold make_dir_tree2.
  pose proof (dirname_nonempty p) as Hne.
  destruct (Z.eqb_spec (zlen (dirname p)) 0) as [E|_].
  { destruct (dirname p) as [|c r]; [done|]. rewrite zlen_cons in E. pose proof (zlen_nonneg r). lia. }
  pose proof (mkdir_loop_works isdir (S (length (dirname p))) f [] (dirname p) ltac:(lia) Hlay Hall)
    as [H0 Hlay'].
  destruct (mkdir_loop _ f [] (dirname p)) as [st f'] eqn:El. cbn [fst snd] in H0, Hlay'. subst st.
  exists f'. split; [done|]. eapply mkdir_loop_spec in El as (_ & E & HF); [|lia|done].
  split; [done|]. split; [done|]. intros _. rewrite Forall_forall in HF.
  apply (HF (dirname p)). apply list_elem_of_In, (dir_prefixes_self [] (dirname p)).
Qed.

Lemma e_open_product_file_works isdir f p : zlen p < 2 ^ 31 ->
  layout isdir (fs_files f) (fs_dirs f) -> Forall isdir (dir_prefixes [] (dirname p)) -> ~ isdir p ->
  exists f', e_open_product_file f p = (0, f') /\ fs_files f' = <[p := []]> (fs_files f) /\
    layout isdir (fs_files f') (fs_dirs f').
Proof.
  intros Hl Hlay Hall Hnd. unfold e_open_product_file.
  destruct (create_path_dirs_works isdir f p Hl Hlay Hall) as (f1 & -> & E1 & [Hd Hf] & Hdir).
  cbn [Z.eqb].
  pose proof (fsr_creat f1 p ltac:(set_solver) Hdir) as Hc.
  destruct (sys_creat f1 p) as [b f2] eqn:E2. cbn [fst] in Hc. subst b.
  apply creat_law in E2 as [E2 E3]. exists f2. split; [done|]. rewrite E2, E3, E1. split; [done|].
  split; [done|]. intros q Hq. rewrite lookup_insert_ne by congruence. rewrite <- E1. by apply Hf.
Qed.

(** deleting a path of the book; the empty one is that of a free slot *)
Lemma delete_fpath_works f p : fs_files f !! [] = None ->
  fs_files (nbsp_spooldb_delete_fpath p f).2 = delete p (fs_files f) /\
  fs_dirs (nbsp_spooldb_delete_fpath p f).2 = fs_dirs f.
Proof.
  intros Hd. unfold nbsp_spooldb_delete_fpath. destruct p as [|c p].
  { cbn. by rewrite delete_id. }
  unfold file_delete, file_exists. rewrite fsr_stat.
  destruct (sys_unlink f (c :: p)) as [e f'] eqn:Eu. destruct (unlink_law _ _ _ _ Eu) as [E E'].
  destruct (fs_files f !! (c :: p)) as [x|] eqn:Ex; cbn [Z.eqb].
  - apply fsr_unlink in Ex. rewrite Eu in Ex. cbn in Ex. subst e. by split.
  - destruct (bool_decide _); cbn [Z.eqb]; [|by rewrite delete_id].
    cbn. rewrite E, delete_id by done. by destruct (e =? 0).
Qed.
End files.

(** ** What the processor promises

    The abstract state: the products waiting, the files of the spool, the paths
    in its book (the oldest first), the retransmissions database, the packets
    in the distribution queues. *)

Record aproc := Aproc {
  a_queue : list (pctl_element_st * list Z);
  a_files : gmap (list Z) (list Z);
  a_ring : option (list (list Z));
  a_rtx : option (gmap Z Z);
  a_out : list (list (list Z))
}.

Definition strips (e : pctl_element_st) : bool :=
  (save_format e =? SAVEFORMAT_NO_CCB) && (f_has_ccb e =? 1).

(** [t] is what is to be saved of the product [e] received with the bytes
    [data] *)
Definition product_text `{Heap} `{Zlib} (e : pctl_element_st) (data t : list Z) : Prop :=
  exists body,
    (saveunz_flag e = 0 /\ body = data \/
     saveunz_flag e <> 0 /\ exists frs ts, Forall frame_ok frs /\ pce_num_fragments e = zlen frs /\
       data = concat (encode_frame <$> frs) /\ mapM frame_text frs = Some ts /\ body = concat ts) /\
    zlen body < 2 ^ 37 /\ (strips e = true -> CCB_SIZE < zlen body) /\
    t = if strips e then zdrop CCB_SIZE body else body.

Section aprocess.
Context `{Rx : QueueRegex} (g : conf_st) (hard : Z).

Definition recorded (e : pctl_element_st) : bool := rtxdb_regex_match (text_of (fname e)) =? 0.

Definition a_put (v : Z) (e : pctl_element_st) (a : aproc) : aproc :=
  Aproc (a_queue a) (a_files a) (a_ring a)
    (if recorded e then <[seq_number e := v]> <$> a_rtx a else a_rtx a) (a_out a).

(** what is known of the original of a retransmission *)
Definition orig_status (e : pctl_element_st) (a : aproc) : Z :=
  if recorded e then
    match a_rtx a with None => -2 | Some m => default (-1) (m !! pce_orig_seq_number e) end
  else -1.

(** the file is written, then the oldest one of the book is deleted *)
Definition a_save (p t : list Z) (a : aproc) : aproc :=
  Aproc (a_queue a)
    (match a_ring a with
     | None => <[p := t]> (a_files a)
     | Some q => delete (hd [] q) (<[p := t]> (a_files a))
     end)
    ((fun q => tail q ++ [p]) <$> a_ring a) (a_rtx a) (a_out a).

Definition a_export (e : pctl_element_st) (a : aproc) : aproc :=
  let qs := a_out a in
  let qs := if (filterq_regex_match (text_of (fname e)) =? 0) && negb (f_filter_thread_created g =? 0)
            then (q_spec hard (QSnd FILTER_Q_INDEX (fp_packet e)) qs).2 else qs in
  let qs := if (serverq_regex_match (text_of (fname e)) =? 0) && negb (f_server_thread_created g =? 0)
            then (q_spec hard (QSnd SERVER_Q_INDEX (fp_packet e)) qs).2 else qs in
  Aproc (a_queue a) (a_files a) (a_ring a) (a_rtx a) qs.

(** what becomes of the product [e] whose text is [t] *)
Definition a_process (e : pctl_element_st) (t : list Z) (a : aproc) : aproc :=
  let st := orig_status e a in
  if f_complete e =? 0 then a_put 1 e a
  else if negb (pce_orig_seq_number e =? 0) && (st =? 0) then a_put 0 e a
  else if negb (pce_orig_seq_number e =? 0) && negb (st =? 1) && negb (st =? -1) &&
          (rtxdb_default_process g =? 0) then a
  else a_export e (a_put 0 e (a_save (fpath e) t a)).
End aprocess.

Definition set_a_queue v (a : aproc) : aproc := Aproc v (a_files a) (a_ring a) (a_rtx a) (a_out a).

Section processor.
Context `{HS : HeapSpec} `{DR : DbReliable} `{CS : ClockSpec} `{ZS : ZlibSpec} `{BR : BtreeReliable}
  `{QR : QueueDbReliable} `{FSR : FileSysReliable} `{Sb : SpoolBdb} `{Rx : QueueRegex}.
Hypothesis Hmem : forall n, n < 2 ^ 40 -> malloc_ok n = true.
Context (g : conf_st) (Hfs : spooltype g = SPOOLTYPE_FS).
Context (spooldir : list Z) (hard : Z) (Hhard : 0 < hard < 2 ^ 31 - 1).
(** the names of the directories *)
Context (isdir : list Z -> Prop).

Abbreviation keysize := (const_fpath_maxsize spooldir + 1).

(** the stores of the state [s] hold what [a] says *)
Record store_rep (s : proc_st) (a : aproc) : Prop := StoreRep {
  st_files : fs_files (pr_fs s) = a_files a;
  st_nofile : a_files a !! [] = None;
  st_layout : layout isdir (a_files a) (fs_dirs (pr_fs s));
  st_ring : match pr_spooldb s, a_ring a with
            | None, None => True
            | Some sd, Some q => ring sd q /\ sd_keysize sd = keysize
            | _, _ => False
            end;
  st_rtx : match pr_rtxdb s, a_rtx a with
           | None, None => True
           | Some r, Some m => rtx_wf r /\ rtx_view r = m
           | _, _ => False
           end;
  st_qt : table_rep (pr_qt s) (a_out a);
  st_qn : qt_n (pr_qt s) = 2;
  st_qlen : qt_reclen (pr_qt s) = NBS_ENVELOPE_SIZE + NBSFP_PINFO_SIZE + keysize;
  st_qhard : qt_hardlimit (pr_qt s) = hard;
  st_short : Forall (fun c => zlen c <= hard) (a_out a);
  st_info : packet_buf (gpacketinfo s) (NBS_ENVELOPE_SIZE + NBSFP_PINFO_SIZE + keysize)
}.

(** an element whose names are in order *)
Record item_ok (e : pctl_element_st) : Prop := ItemOk {
  it_named : pce_named e;
  it_size : fpath_size e = keysize;
  it_fname : cstr (fname e) = Done (text_of (fname e));
  it_fpath : fpath e <> [];
  it_dirs : Forall isdir (dir_prefixes [] (dirname (fpath e)));
  it_file : ~ isdir (fpath e)
}.

Lemma rtxdb_flag_filter_spec s : item_ok (pce_of s) ->
  rtxdb_flag_filter s =
    Done (set_pce (set_rtxdb_flag (if recorded (pce_of s) then 1 else 0) (pce_of s)) s).
Proof. intros Hi. unfold rtxdb_flag_filter. by rewrite (it_fname _ Hi). Qed.

Lemma record_spec v s a : store_rep s a ->
  rtxdb_flag (pce_of s) = (if recorded (pce_of s) then 1 else 0) ->
  exists r, record_product (e_rtxdb_put v) s = Done (set_pr_rtxdb r s) /\
    store_rep (set_pr_rtxdb r s) (a_put v (pce_of s) a).
Proof.
  intros Hr Hf. unfold record_product, a_put. rewrite Hf.
  destruct (recorded (pce_of s)); cbn [Z.eqb].
  2: { exists (pr_rtxdb s). destruct s, a. split; [done|]. by destruct Hr. }
  pose proof (st_rtx _ _ Hr) as Hx. unfold e_rtxdb_put.
  destruct (pr_rtxdb s) as [r|] eqn:Er, (a_rtx a) as [m|] eqn:Ea; try done.
  2: { exists None. split; [done|]. destruct Hr as []. split; cbn; try done. }
  destruct Hx as [Hwf Hv]. destruct (nbsp_rtxdb_put r (seq_number (pce_of s)) v) as [st r'] eqn:Ep.
  assert (st = 0) as ->.
  { unfold nbsp_rtxdb_put, rtxdb_write_record, rtxdb_write_record2 in Ep.
    pose proof (bt_put_ok (deref r (dbp_c r)) (seq_number (pce_of s)) v) as Hok.
    destruct (bt_put _ _ _). cbn in Hok. injection Ep as <- _. done. }
  cbn [obind Z.eqb negb]. exists (Some r'). split; [done|].
  destruct (Rtxdb.put_spec _ _ _ _ _ Ep Hwf) as (Hwf' & Eo & Ec). cbn [Z.eqb] in Ec.
  destruct Hr as []. split; cbn; try done. split; [done|].
  unfold rtx_view. fold (cur r') (old r'). rewrite Ec, Eo, <- Hv. unfold rtx_view.
  fold (cur r) (old r). by rewrite insert_union_l.
Qed.

Lemma get_fstatus_spec s a k : store_rep s a ->
  e_nbsp_rtxdb_get_fstatus (pr_rtxdb s) k =
    match a_rtx a with None => -2 | Some m => default (-1) (m !! k) end.
Proof.
  intros Hr. pose proof (st_rtx _ _ Hr) as Hx. unfold e_nbsp_rtxdb_get_fstatus.
  destruct (pr_rtxdb s) as [r|], (a_rtx a) as [m|]; try done. destruct Hx as [_ <-].
  rewrite <- get_reliable. by destruct (nbsp_rtxdb_get r k) as [st [v|]].
Qed.

Lemma store_rep_frame s s' a : pr_fs s' = pr_fs s -> pr_spooldb s' = pr_spooldb s ->
  pr_rtxdb s' = pr_rtxdb s -> pr_qt s' = pr_qt s -> gpacketinfo s' = gpacketinfo s ->
  store_rep s a -> store_rep s' a.
Proof. intros E1 E2 E3 E4 E5 []. split; by rewrite ?E1, ?E2, ?E3, ?E4, ?E5. Qed.

(** whether a product is processed, from the status of its original *)
Definition ignored (e : pctl_element_st) (st : Z) : bool :=
  negb (pce_orig_seq_number e =? 0) &&
  ((st =? 0) || negb (st =? 1) && negb (st =? -1) && (rtxdb_default_process g =? 0)).

Lemma check_retransmission_spec s a : store_rep s a ->
  rtxdb_flag (pce_of s) = (if recorded (pce_of s) then 1 else 0) ->
  exists s', check_retransmission g s = Done (negb (ignored (pce_of s) (orig_status (pce_of s) a)), s') /\
    pr_pctl s' = pr_pctl s /\
    store_rep s' (if negb (pce_orig_seq_number (pce_of s) =? 0) && (orig_status (pce_of s) a =? 0)
                  then a_put 0 (pce_of s) a else a).
Proof.
  intros Hr Hf. unfold check_retransmission, ignored.
  destruct (pce_orig_seq_number (pce_of s) =? 0); cbn [negb andb]; [by exists s|].
  assert ((if rtxdb_flag (pce_of s) =? 1
           then e_nbsp_rtxdb_get_fstatus (pr_rtxdb s) (pce_orig_seq_number (pce_of s)) else -1) =
          orig_status (pce_of s) a) as ->.
  { unfold orig_status. rewrite Hf, (get_fstatus_spec s a) by done. by destruct (recorded (pce_of s)). }
  set (st := orig_status (pce_of s) a).
  set (s1 := log_rtx g _).
  assert (pr_pctl s1 = pr_pctl s /\ store_rep s1 a) as [Ep Hr1].
  { subst s1. unfold log_rtx. destruct (rtxlog_ok g); (split; [done|]); by apply (store_rep_frame s). }
  assert (pce_of s1 = pce_of s) as Epce by (unfold pce_of; by rewrite Ep).
  clearbody s1 st. destruct (Z.eqb_spec st 0) as [->|N0]; cbn [orb].
  - destruct (record_spec 0 s1 a Hr1) as (r & E & Hr2); [by rewrite Epce|].
    unfold e_nbsp_rtxdb_put_ok. rewrite E. cbn [obind negb]. rewrite Epce in Hr2.
    exists (set_pr_rtxdb r s1). by split_and!.
  - destruct (Z.eqb_spec st 1) as [->|N1].
    { cbn [negb andb]. eexists. split; [done|]. split; [done|]. by apply (store_rep_frame s1). }
    destruct (Z.eqb_spec st (-1)) as [->|N2]; cbn [negb andb]; [by exists s1|].
    destruct (rtxdb_default_process g =? 0); by exists s1.
Qed.

(** ** Saving *)

Lemma savefs_spec mf body s a : store_rep s a -> item_ok (pce_of s) ->
  mf_p mf = body -> mf_size mf = zlen body -> zlen body < 2 ^ 37 ->
  (strips (pce_of s) = true -> CCB_SIZE < zlen body) ->
  exists f, save_product g mf s = Done (0, set_pr_fs f s) /\
    fs_files f = <[fpath (pce_of s) := if strips (pce_of s) then zdrop CCB_SIZE body else body]> (a_files a) /\
    layout isdir (fs_files f) (fs_dirs f).
Proof.
  intros Hr Hi Hp Hs Hl Hst. unfold save_product. rewrite Hfs. cbn [spooltype_fsspool negb].
  change (spooltype_fsspool SPOOLTYPE_FS) with 1. cbn [Z.eqb negb]. unfold pce_savefs_memfile.
  destruct (it_named _ Hi) as [_ [Hpl1 Hpl2] _ _]. pose proof (zlen_nonneg body).
  destruct (e_open_product_file_works Hmem isdir (pr_fs s) (fpath (pce_of s))) as (f1 & -> & E1 & Hlay);
    [lia|rewrite (st_files _ _ Hr); by apply Hr|by apply Hi|by apply Hi|].
  assert (forall c, fs_files (sys_put f1 (fpath (pce_of s)) c) = <[fpath (pce_of s) := c]> (a_files a) /\
            layout isdir (fs_files (sys_put f1 (fpath (pce_of s)) c))
              (fs_dirs (sys_put f1 (fpath (pce_of s)) c))) as Hput.
  { intros c. split; [|apply put_layout; [done|by apply Hi]].
    rewrite (proj1 (put_law _ _ _)), E1, (st_files _ _ Hr). by rewrite insert_insert_eq. }
  change (0 =? -1) with false. cbv beta iota zeta.
  unfold save_memfile_skip, save_memfile. cbv zeta. rewrite !fsr_write, Hs, Hp.
  destruct (Z.ltb_spec (zlen body) 0); [lia|]. rewrite !Z.eqb_refl. cbn [negb orb].
  unfold strips in *. destruct (_ && _).
  - specialize (Hst eq_refl). unfold CCB_SIZE in *. destruct (Z.leb_spec (zlen body) 24); [lia|].
    destruct (Z.ltb_spec (zlen body - 24) 0); [lia|]. cbn [orb].
    rewrite ztake_ge by (rewrite zlen_drop; lia). eexists. by split.
  - rewrite ztake_ge by lia. eexists. by split.
Qed.

(** the part of the product control that the processor may change *)
Definition same_but_files (c c' : pctl_st) : Prop :=
  pctldb c' = pctldb c /\ info (pctl_pce c') = info (pctl_pce c) /\
  memfile_wf (pce_mf (pctl_pce c')) /\
  mf_allocsize (pce_mf (pctl_pce c')) = mf_allocsize (pce_mf (pctl_pce c)) /\
  memfile_wf (outputmf c').

Lemma get_memframe_alloc mf n fr mf' : get_memframe mf = Done (n, fr, mf') ->
  mf_allocsize mf' = mf_allocsize mf.
Proof.
  unfold get_memframe, read_memfile. cbv zeta.
  match goal with |- context [if ?b then Done (0, None, _) else _] => destruct b end; [by intros [= _ _ <-]|].
  match goal with |- context [if ?b then Some (zdrop _ _) else None] => destruct b end; [|done].
  cbn [mf_allocsize mf_size mf_nread mf_p].
  intros E. ostep. cbv beta zeta in E.
  match type of E with context [if ?b then Done (?x, _, _) else Done _] => destruct b end;
    by injection E as _ _ <-.
Qed.

Lemma mcat_loop_alloc n : forall src mf st src' mf', mcat_loop n src mf = Done (st, src', mf') ->
  mf_allocsize src' = mf_allocsize src.
Proof.
  induction n as [|n IH]; intros src mf st src' mf' E; cbn [mcat_loop] in E; [by injection E as _ <- _|].
  apply obind_Done in E as ([[n1 fr] src1] & Eg & E). apply get_memframe_alloc in Eg.
  destruct (n1 <=? 0); [by injection E as _ <- _|]. destruct fr as [fr|]; [|by injection E as _ <- _].
  apply obind_Done in E as ([[s1 pd] n2] & _ & E). destruct (negb (s1 =? 0)); [by injection E as _ <- _|].
  apply obind_Done in E as ([st1 mf1] & _ & E). destruct (st1 =? -1); [by injection E as _ <- _|].
  apply IH in E. congruence.
Qed.

Lemma item_ok_info e : item_ok e <-> item_ok (info e).
Proof. split; intros [[] ? ? ?]; (split; [split|..]); done. Qed.

Lemma info_fields e e' : info e' = info e ->
  strips e' = strips e /\ fpath e' = fpath e /\ recorded e' = recorded e /\ fp_packet e' = fp_packet e /\
  rtxdb_flag e' = rtxdb_flag e /\ fname e' = fname e /\ seq_number e' = seq_number e /\ (item_ok e -> item_ok e').
Proof.
  intros E. assert (forall A (f : pctl_element_st -> A), (forall x, f x = f (info x)) -> f e' = f e) as Hf.
  { intros A f Hf. by rewrite Hf, E, <- Hf. }
  split; [exact (Hf _ strips (fun x => eq_refl))|]. split; [exact (Hf _ fpath (fun x => eq_refl))|].
  split; [exact (Hf _ recorded (fun x => eq_refl))|]. split; [exact (Hf _ fp_packet (fun x => eq_refl))|].
  split; [exact (Hf _ rtxdb_flag (fun x => eq_refl))|]. split; [exact (Hf _ fname (fun x => eq_refl))|].
  split; [exact (Hf _ seq_number (fun x => eq_refl))|]. intros Hi%item_ok_info. apply item_ok_info. by rewrite E.
Qed.

Lemma spool_spec s a data t : store_rep s a -> item_ok (pce_of s) ->
  mf_ready (pce_mf (pce_of s)) -> memfile_wf (outputmf (pr_pctl s)) ->
  mf_p (pce_mf (pce_of s)) = data -> product_text (pce_of s) data t ->
  exists c f, pce_spool_product g s = Done (0, set_pr_fs f (set_pr_pctl c s)) /\
    same_but_files (pr_pctl s) c /\ fs_files f = <[fpath (pce_of s) := t]> (a_files a) /\
    layout isdir (fs_files f) (fs_dirs f).
Proof.
  intros Hr Hi (Hwf & Hnr & Hal) Hout Hdata (body & Hbody & Hlen & Hst & ->).
  unfold pce_spool_product. destruct Hbody as [[Hz ->]|(Hz & frs & ts & Hok & Hnf & Ed & Ets & ->)].
  - rewrite Hz. cbn [Z.eqb]. pose proof (wf_p _ Hwf) as Hp. rewrite Hdata in Hp.
    destruct (savefs_spec (pce_mf (pce_of s)) data s a Hr Hi) as (f & E & Ef & Hlay); [done..|].
    exists (pr_pctl s), f. split; [|done]. rewrite E. by destruct s.
  - destruct (Z.eqb_spec (saveunz_flag (pce_of s)) 0); [done|]. unfold reopen_pctl_outputmf.
    change (negb (open_memfile (close_memfile (outputmf (pr_pctl s))) =? 0)) with false. cbv iota beta zeta.
    unfold pce_mcat_frames.
    destruct (mcat_loop_spec Hmem frs (pce_mf (pce_of s)) (close_memfile (outputmf (pr_pctl s))) [] ts)
      as (src' & mf' & E & Hs' & Hm' & Hp' & Hn' & Hpm'); try done.
    { by apply close_wf. }
    { by rewrite Hdata. }
    { cbn [close_memfile mf_size]. lia. }
    pose proof (mcat_loop_alloc _ _ _ _ _ _ E) as Hal'.
    set (s1 := set_pr_pctl (set_outputmf (close_memfile (outputmf (pr_pctl s))) (pr_pctl s)) s).
    assert (pce_of s1 = pce_of s) as Ep1 by done. rewrite Ep1, Hnf.
    assert (Z.to_nat (zlen frs) = length frs) as -> by (unfold zlen; lia).
    change (outputmf (pr_pctl s1)) with (close_memfile (outputmf (pr_pctl s))).
    rewrite E. cbn [obind Z.eqb].
    set (s2 := set_pr_pctl _ s1).
    assert (info (pce_of s2) = info (pce_of s)) as Ei by done.
    destruct (info_fields _ _ Ei) as (Est & Efp & _ & _ & _ & _ & _ & Hio).
    cbn [close_memfile mf_p app] in Hpm'.
    destruct (savefs_spec mf' (concat ts) s2 a) as (f & E2 & Ef & Hlay).
    { by apply (store_rep_frame s). }
    { by apply Hio. }
    { done. }
    { rewrite <- (wf_p _ Hm'). by rewrite Hpm'. }
    { done. }
    { by rewrite Est. }
    exists (pr_pctl s2), f. split.
    { change (outputmf (pr_pctl s2)) with mf'. rewrite E2. by destruct s. }
    split; [by split_and!|]. split; [|done]. by rewrite Ef, Est, Efp.
Qed.

(** ** The book and the queues *)

Lemma spooldb_insert_step s a f p t : store_rep s a -> fs_files f = <[p := t]> (a_files a) ->
  layout isdir (fs_files f) (fs_dirs f) -> nonul p -> p <> [] -> zlen p < keysize ->
  exists st sd f', nbsp_spooldb_insert p (set_pr_fs f s) = Done (st, set_pr_spooldb sd f' s) /\
    store_rep (set_pr_spooldb sd f' s) (a_save p t a).
Proof.
  intros Hr Ef Hlay Hp Hne Hl. pose proof (st_ring _ _ Hr) as Hring. pose proof (st_nofile _ _ Hr) as Hno.
  assert (fs_files f !! [] = None) as Hno' by (rewrite Ef; by rewrite lookup_insert_ne).
  unfold nbsp_spooldb_insert. cbn [pr_spooldb set_pr_fs pr_fs].
  destruct (pr_spooldb s) as [sd|] eqn:Es, (a_ring a) as [q|] eqn:Ea; try done.
  - destruct Hring as [Hq Hks]. destruct q as [|k0 q]; [by apply ring_nonempty in Hq|].
    destruct (spooldb_insert_ring nbsp_spooldb_delete_fpath sd q k0 p f) as (sd' & E & Hq' & Hks');
      [done|done|lia|].
    rewrite E. cbn [obind]. eexists _, _, _. split; [reflexivity|].
    destruct (delete_fpath_works f k0 Hno') as [Hdel Hdir].
    destruct Hr as []. split; cbn [a_save a_files a_ring a_rtx a_out pr_fs pr_spooldb set_pr_spooldb]; try done.
    + by rewrite Hdel, Ef, Ea.
    + rewrite Ea. cbn [hd]. rewrite lookup_delete_None. right. by rewrite <- Ef.
    + rewrite Ea, Hdir, <- Ef. by apply delete_layout.
    + rewrite Ea. cbn. by rewrite Hks'.
  - eexists _, None, f. split; [by destruct s; cbn in *; subst|].
    destruct Hr as []. split; cbn [a_save a_files a_ring a_rtx a_out pr_fs pr_spooldb set_pr_spooldb]; try done.
    + by rewrite Ef, Ea.
    + rewrite Ea. by rewrite <- Ef.
    + rewrite Ea. by rewrite <- Ef.
    + by rewrite Ea.
Qed.

Lemma snd_step qt qs t d : 0 <= t < 2 -> table_rep qt qs -> qt_n qt = 2 -> qt_hardlimit qt = hard ->
  zlen d = qt_reclen qt -> Forall (fun c => zlen c <= hard) qs ->
  exists st qt', e_nbspq_snd1 qt t d = Done (st, qt') /\ table_rep qt' (q_spec hard (QSnd t d) qs).2 /\
    qt_n qt' = 2 /\ qt_reclen qt' = qt_reclen qt /\ qt_hardlimit qt' = hard /\
    Forall (fun c => zlen c <= hard) (q_spec hard (QSnd t d) qs).2.
Proof.
  intros Ht Hq Hn Hh Hd Hs. pose proof (tr_n _ _ Hq) as Hlen. pose proof (tr_queues _ _ Hq) as HF.
  apply Forall2_length in HF. unfold zlen in Hlen.
  destruct (lookup_lt_is_Some_2 qs (Z.to_nat t)) as [c Hc]; [lia|].
  pose proof (Forall_lookup_1 _ _ _ _ Hs Hc) as Hcl. cbn in Hcl.
  destruct (snd1_spec qt qs t d Hq) as (qt' & E & Hq' & E1 & E2 & E3).
  { split; [by rewrite Hn|done]. }
  { rewrite (list_lookup_total_correct _ _ _ Hc). lia. }
  rewrite Hh in *. eexists _, qt'. split; [exact E|]. split_and!; try done; [congruence|].
  cbn [q_spec]. rewrite (list_lookup_total_correct _ _ _ Hc).
  destruct (Z.ltb_spec 0 hard), (Z.leb_spec hard (zlen c)); cbn [andb snd]; try done; try lia.
  apply Forall_insert; [done|]. rewrite zlen_app. change (zlen [d]) with 1. lia.
Qed.

Lemma fp_packet_size e : item_ok e -> zlen (fp_packet e) = NBS_ENVELOPE_SIZE + NBSFP_PINFO_SIZE + keysize.
Proof.
  intros [Hn Hs _ _]. rewrite (fp_packet_length e Hn). rewrite Hs. lia.
Qed.

Lemma export_spec s a : store_rep s a -> item_ok (pce_of s) ->
  exists st qt pi, e_export_product g s = Done (st, set_pr_queues qt pi s) /\
    store_rep (set_pr_queues qt pi s) (a_export g hard (pce_of s) a).
Proof.
  intros Hr Hi. pose proof Hr as [H1 H2 Hlay H3 H4 Hqt Hqn Hql Hqh Hsh Hinfo].
  pose proof (fp_packet_size _ Hi) as Hfp. destruct Hi as [Hnm Hsz Hfn _ _ _].
  unfold e_export_product.
  rewrite (nbsfp_pack_fpath_spec (gpacketinfo s) (pce_of s) Hnm); [|by rewrite Hsz].
  cbn [obind Z.eqb negb]. rewrite Hfn. cbn [obind pi_packet default pi_packet_size].
  destruct Hinfo as (Hps & _).
  change (id (fp_packet (pce_of s))) with (fp_packet (pce_of s)).
  rewrite Hps, ztake_ge by lia. cbn [pr_qt set_pr_queues].
  set (pi := PacketInfo _ _ _ _ _ _ _ _ _).
  set (name := text_of (fname (pce_of s))). set (d := fp_packet (pce_of s)) in *.
  assert (packet_buf pi (NBS_ENVELOPE_SIZE + NBSFP_PINFO_SIZE + keysize)) as Hpi.
  { split; [done|]. by exists d. }
  assert (forall (m : Z) (cr idx st0 : Z) qt qs, 0 <= idx < 2 ->
    table_rep qt qs -> qt_n qt = 2 -> qt_reclen qt = qt_reclen (pr_qt s) -> qt_hardlimit qt = hard ->
    Forall (fun c => zlen c <= hard) qs ->
    exists st qt', (if m =? 0 then if negb (cr =? 0) then e_nbspq_snd1 qt idx d else Done (0, qt)
                    else Done (st0, qt)) = Done (st, qt') /\
      let qs' := if (m =? 0) && negb (cr =? 0) then (q_spec hard (QSnd idx d) qs).2 else qs in
      table_rep qt' qs' /\ qt_n qt' = 2 /\ qt_reclen qt' = qt_reclen (pr_qt s) /\ qt_hardlimit qt' = hard /\
      Forall (fun c => zlen c <= hard) qs') as Hsend.
  { intros m cr idx st0 qt qs Hx R1 R2 R3 R4 R5. destruct (m =? 0); cbn [andb].
    2: { eexists _, qt. by split_and!. }
    destruct (negb (cr =? 0)); [|eexists _, qt; by split_and!].
    destruct (snd_step qt qs idx d) as (st & qt' & E & ? & ? & ? & ? & ?); [done..|congruence|done|].
    exists st, qt'. split_and!; try done. congruence. }
  unfold e_nbspq_snd_filter, e_nbspq_snd_server.
  destruct (Hsend (filterq_regex_match name) (f_filter_thread_created g) FILTER_Q_INDEX 0 (pr_qt s) (a_out a))
    as (st1 & qt1 & -> & R1 & R2 & R3 & R4 & R5); [done..|]. cbn [obind].
  destruct (Hsend (serverq_regex_match name) (f_server_thread_created g) SERVER_Q_INDEX 0 qt1 _ ltac:(done)
    R1 R2 R3 R4 R5) as (st2 & qt2 & -> & T1 & T2 & T3 & T4 & T5). cbn [obind].
  eexists _, qt2, pi. split; [reflexivity|].
  split; cbn [a_export a_files a_ring a_rtx a_out pr_fs pr_spooldb pr_rtxdb pr_qt gpacketinfo set_pr_queues];
    try done. by rewrite T3.
Qed.

(** what the processing of an element leaves of the product control *)
Definition pctl_kept (c c' : pctl_st) : Prop :=
  pctldb c' = pctldb c /\ memfile_wf (pce_mf (pctl_pce c')) /\
  mf_allocsize (pce_mf (pctl_pce c')) = mf_allocsize (pce_mf (pctl_pce c)) /\ memfile_wf (outputmf c').

Lemma process_element_spec s a data t : store_rep s a -> item_ok (pce_of s) ->
  mf_ready (pce_mf (pce_of s)) -> memfile_wf (outputmf (pr_pctl s)) ->
  mf_p (pce_mf (pce_of s)) = data -> (f_complete (pce_of s) <> 0 -> product_text (pce_of s) data t) ->
  exists s', process_pctl_element g s = Done (0, s') /\ pctl_kept (pr_pctl s) (pr_pctl s') /\
    store_rep s' (a_process g hard (pce_of s) t a).
Proof.
  intros Hr Hi Hmf Hout Hd Ht. unfold process_pctl_element. rewrite rtxdb_flag_filter_spec by done.
  cbn [obind]. set (e := pce_of s) in *. set (e1 := set_rtxdb_flag _ e). set (s1 := set_pce e1 s).
  assert (store_rep s1 a) as Hr1 by (by apply (store_rep_frame s)).
  assert (rtxdb_flag (pce_of s1) = if recorded (pce_of s1) then 1 else 0) as Hf1 by done.
  assert (item_ok (pce_of s1)) as Hi1 by (destruct Hi as [[] ? ? ? ? ?]; by split; [split|..]).
  assert (pctl_kept (pr_pctl s) (pr_pctl s1)) as Hk1 by (split_and!; [done|apply Hmf|done|done]).
  assert (forall x a', a_put x (pce_of s1) a' = a_put x e a') as Eput by done.
  unfold a_process. change (f_complete (pce_of s1)) with (f_complete e).
  destruct (Z.eqb_spec (f_complete e) 0) as [E0|N0].
  { destruct (record_spec 1 (log_missing g s1) a) as (r & E & Hr2).
    - unfold log_missing. destruct (missinglog_ok g); by apply (store_rep_frame s1).
    - unfold log_missing. by destruct (missinglog_ok g).
    - unfold e_nbsp_rtxdb_put_fail. rewrite E. cbn [obind]. eexists. split; [reflexivity|].
      unfold log_missing in *. by destruct (missinglog_ok g). }
  destruct (check_retransmission_spec s1 a Hr1 Hf1) as (s2 & E2 & Ep2 & Hr2).
  change (pce_orig_seq_number (pce_of s1)) with (pce_orig_seq_number e) in Hr2.
  change (orig_status (pce_of s1) a) with (orig_status e a) in E2, Hr2. rewrite E2. cbn [obind].
  rewrite negb_involutive. unfold ignored. change (pce_orig_seq_number (pce_of s1)) with (pce_orig_seq_number e).
  set (rt := negb (pce_orig_seq_number e =? 0)) in *. set (st := orig_status e a) in *.
  rewrite Eput in Hr2. destruct (rt && (st =? 0)) eqn:Eig.
  { apply andb_true_iff in Eig as [-> ->]. cbn [andb orb]. exists s2. split; [done|].
    rewrite Ep2. done. }
  destruct (rt && negb (st =? 1) && negb (st =? -1) && (rtxdb_default_process g =? 0)) eqn:Eig2.
  { assert (rt && ((st =? 0) || negb (st =? 1) && negb (st =? -1) && (rtxdb_default_process g =? 0)) = true) as ->.
    { destruct rt; [|done]. cbn [andb] in *. rewrite Eig2. apply orb_true_r. }
    exists s2. split; [done|]. by rewrite Ep2. }
  assert (rt && ((st =? 0) || negb (st =? 1) && negb (st =? -1) && (rtxdb_default_process g =? 0)) = false) as ->.
  { destruct rt; [|done]. cbn [andb] in *. by rewrite Eig, Eig2. }
  cbn [negb].
  assert (pce_of s2 = e1) as Epce2 by (unfold pce_of; by rewrite Ep2).
  destruct (spool_spec s2 a data t) as (c & f & -> & Hsame & Ef & Hlay); rewrite ?Epce2, ?Ep2; try done.
  { destruct (Ht N0) as (body & Hb). by exists body. }
  rewrite Ep2 in Hsame. destruct Hsame as (Eq & Einfo & Hwf & Hal & Ho). cbn [obind Z.eqb negb].
  change (pctl_pce (pr_pctl s1)) with e1 in Einfo, Hal.
  destruct (info_fields _ _ Einfo) as (_ & Efp & Erec & Epk & Efl & Efn & Esq & Hio).
  set (s3 := set_pr_fs f (set_pr_pctl c s2)).
  assert (pce_of s3 = pctl_pce c) as Ep3 by done. rewrite Ep3, Efp. rewrite Epce2 in Ef.
  change (fpath e1) with (fpath e) in Ef |- *. pose proof (it_named _ Hi) as [_ Hpl Hnn _].
  destruct (spooldb_insert_step (set_pr_pctl c s2) a f (fpath e) t) as (st' & sd & f' & E4 & Hr4).
  { by apply (store_rep_frame s2). }
  { done. }
  { done. }
  { done. }
  { apply Hi. }
  { rewrite (it_size _ Hi) in Hpl. lia. }
  unfold s3. rewrite E4. cbn [obind]. set (s4 := set_pr_spooldb sd f' (set_pr_pctl c s2)) in *.
  assert (pce_of s4 = pctl_pce c) as Ep4 by done.
  destruct (record_spec 0 s4 _ Hr4) as (r & E5 & Hr5); [by rewrite Ep4, Efl, Erec|].
  unfold e_nbsp_rtxdb_put_ok. rewrite E5. cbn [obind]. set (s5 := set_pr_rtxdb r s4) in *.
  destruct (export_spec s5 _ Hr5) as (st6 & qt & pi & E6 & Hr6); [by apply Hio|].
  rewrite E6. cbn [obind]. eexists. split; [reflexivity|]. split; [by split_and!|].
  assert (forall a', a_put 0 (pce_of s4) a' = a_put 0 e a') as Eput4.
  { intros a'. unfold a_put. by rewrite Ep4, Erec, Esq. }
  assert (forall a', a_export g hard (pce_of s5) a' = a_export g hard e a') as Eexp.
  { intros a'. unfold a_export. change (pce_of s5) with (pctl_pce c). by rewrite Efn, Epk. }
  by rewrite Eput4, Eexp in Hr6.
Qed.

(** ** The processor *)

Record proc_rep (s : proc_st) (a : aproc) : Prop := ProcRep {
  pp_store : store_rep s a;
  pp_inv : pctldb_inv (pctldb (pr_pctl s));
  pp_exact : pctldb_exact (pctldb (pr_pctl s));
  pp_pce : mf_ready (pce_mf (pctl_pce (pr_pctl s)));
  pp_out : memfile_wf (outputmf (pr_pctl s));
  pp_queue : absq (pctldb (pr_pctl s)) = a_queue a
}.

(** the product [it] of the queue, whose text is [t] *)
Definition product_ok (it : pctl_element_st * list Z) (t : list Z) : Prop :=
  item_ok it.1 /\ (f_complete it.1 <> 0 -> product_text it.1 it.2 t).

Lemma store_rep_queue s a q : store_rep s a -> store_rep s (set_a_queue q a).
Proof. intros []. by split. Qed.

Lemma a_process_queue e t a q :
  a_process g hard e t (set_a_queue q a) = set_a_queue q (a_process g hard e t a).
Proof. unfold a_process. change (orig_status e (set_a_queue q a)) with (orig_status e a). by repeat case_match. Qed.

Lemma product_text_info e data t : product_text (info e) data t <-> product_text e data t.
Proof. done. Qed.

Lemma process_step s a it rest t : proc_rep s a -> a_queue a = it :: rest -> product_ok it t ->
  exists s', process_pctl g [] s = Done (Some (0, s')) /\
    proc_rep s' (set_a_queue rest (a_process g hard it.1 t a)).
Proof.
  intros [Hst Hinv Hex Hpce Hout Hq] Ea [Hi Ht]. rewrite Ea in Hq.
  assert (q_content (dbp (pctldb (pr_pctl s))) <> []) as Hne.
  { intros E. unfold absq in Hq. by rewrite E in Hq. }
  destruct (rcv_reliable ltac:(intros; apply Hmem; lia) _ (pctl_pce (pr_pctl s)) 0 Hinv Hex Hpce Hne) as (w & d' & E).
  destruct (rcv_after_wait_spec _ _ _ _ _ _ Hinv Hpce E) as (Hinv' & Hw & _ & _ & H0).
  destruct (H0 eq_refl) as (r & Hqc & Hi' & Hm & Hm' & Htot).
  pose proof (absq_rcv _ _ _ _ (inv_sorted _ Hinv) Hqc Hm Hm') as Habs. rewrite Hq in Habs.
  injection Habs as -> Hrest. rewrite <- Hi' in Hi, Ht. cbn [fst snd] in *.
  unfold process_pctl, eopen_pctl_outputpce, epctl_rcv, pctldb_rcv_pce.
  assert (wait_loop (pctldb (pr_pctl s)) 0 [] = Some (0, pctldb (pr_pctl s))) as ->.
  { cbn [wait_loop]. destruct (Z.eqb_spec (db_n (pctldb (pr_pctl s))) 0) as [En|]; [|done].
    destruct (inv_n _ Hinv) as [En2 _]. rewrite En, Hqc, zlen_cons in En2.
    pose proof (zlen_nonneg (q_content (dbp d'))). lia. }
  rewrite E. cbn [Z.eqb]. set (c := set_pctl_pce w (set_pctldb d' (pr_pctl s))).
  destruct (process_element_spec (set_pr_pctl c s) (set_a_queue rest a) (mf_p (pce_mf w)) t)
    as (s' & -> & (K1 & K2 & K3 & K4) & Hr').
  { apply store_rep_queue. by apply (store_rep_frame s). }
  { by apply item_ok_info. }
  { done. }
  { done. }
  { done. }
  { exact Ht. }
  cbn [obind]. eexists. split; [reflexivity|]. rewrite a_process_queue in Hr'.
  assert (a_process g hard (pce_of (set_pr_pctl c s)) t a = a_process g hard (info r) t a) as Ew
    by (rewrite <- Hi'; done).
  rewrite Ew in Hr'. destruct Hw as (_ & _ & Hal). split.
  - by apply (store_rep_frame s').
  - cbn. by rewrite K1.
  - cbn. rewrite K1. eapply exact_rcv; try done; [by apply Hinv|]. apply Htot. apply Hex.
  - cbn. split; [by apply close_wf|]. split; [done|]. cbn. by rewrite K3.
  - done.
  - cbn. by rewrite K1.
Qed.


(** [n] turns of the thread *)
Fixpoint proc_run (n : nat) (s : proc_st) : outcome (list Z * option proc_st) :=
  match n with
  | O => Done ([], Some s)
  | S n' =>
      let* r := process_pctl g [] s in
      match r with
      | None => Done ([], None)
      | Some (st, s) => let* (sts, s) := proc_run n' s in Done (st :: sts, s)
      end
  end.

Fixpoint a_run (its : list (pctl_element_st * list Z)) (ts : list (list Z)) (a : aproc) : aproc :=
  match its, ts with
  | it :: its, t :: ts => a_run its ts (set_a_queue its (a_process g hard it.1 t a))
  | _, _ => a
  end.

End processor.

(** ** Witnesses *)

(** the name and the path [/s/t/ac] of a product *)
Definition demo_name (c : Z) : list Z := [97; c] ++ replicate 16 0.
Definition demo_path (c : Z) : list Z := [47; 115; 47; 116; 47; 97; c].
Definition demo_item (complete seq k c : Z) : pctl_element_st :=
  Pce complete 1 1 seq 0 0 0 0 0 0 (Timespec 0 0) (Timespec 0 k) 0 0 0
    (Memfile 8192 8192 0 0 []) [] 0 0 (WmoHeader [] [] [] [] []) (demo_name c) [97; c] 45 (demo_path c).

(** a complete product and one that is not *)
Definition demo_pdb : @pctldb_st list_db :=
  @Pctldb list_db ([demo_item 1 7 0 98; demo_item 0 8 1 99], 500)
    (<[Timespec 0 0 := [72; 73]]> (<[Timespec 0 1 := [74]]> ∅))
    500 500 2 4294967295 3 (Timespec 0 1) 0 2 0 1 0.

Lemma demo_pdb_inv : @pctldb_inv list_db list_db_spec demo_clock demo_pdb.
Proof.
  split; cbn; try done; try lia.
  - repeat constructor.
  - intros i t k _ [= <-] Hk. cbn.
    assert (k = Timespec 0 0 \/ k = Timespec 0 1) as [-> | ->].
    { destruct Hk as [Hk|[? Hk]]; cbn in Hk.
      - rewrite !elem_of_cons, elem_of_nil in Hk. naive_solver.
      - rewrite !lookup_insert_Some, lookup_empty in Hk. naive_solver. }
    + apply ts_lt_iff. unfold next_tsqueue. cbn.
      destruct (Z.eqb_spec (Z.max 0 i / 8) 0) as [->|]; cbn; [lia|].
      pose proof (Z.div_pos (Z.max 0 i) 8). lia.
    + apply next_tsqueue_later. cbn. apply Z.div_pos; lia.
  - intros i t _ [= <-]. cbn. apply Z.div_pos; lia.
  - intros k v. rewrite !lookup_insert_Some, lookup_empty.
    intros [[_ <-]|[_ [[_ <-]|[_ ?]]]]; [..|done]; (split; [apply (bool_decide_unpack _); by vm_compute|done]).
Qed.

Lemma demo_pdb_exact : @pctldb_exact list_db list_db_spec demo_pdb.
Proof.
  split; cbn; try done.
  - intros r Hr. rewrite !elem_of_cons, elem_of_nil in Hr. destruct Hr as [-> |[-> |[]]]; by eexists.
  - intros k [? Hk]. rewrite !lookup_insert_Some, lookup_empty in Hk.
    rewrite !elem_of_cons. naive_solver.
Qed.

#[local] Instance demo_qregex : QueueRegex :=
  {| filterq_regex_match _ := 0; serverq_regex_match _ := 0; rtxdb_regex_match _ := 0 |}.
Definition demo_conf : conf_st := Conf SPOOLTYPE_FS 1 1 1 true true.

(** [/s] and the directory of the station *)
Definition demo_isdir (p : list Z) : Prop :=
  p ∈ [[47]; [47; 115]; [47; 115; 47; 116]; [46]].

Definition demo_reclen : Z := NBS_ENVELOPE_SIZE + NBSFP_PINFO_SIZE + 45.
Definition demo_qt : @nbsp_qtable_st (fixed_qd demo_reclen) :=
  let q := @Nbspq (fixed_qd demo_reclen) [] 0 1 0 in
  @Qtable (fixed_qd demo_reclen) 2 0 2 demo_reclen [(0, 0); (0, 0)] [q; q].

Definition demo_proc : @proc_st list_db map_btree (fixed_qd demo_reclen) map_filesys map_sdb :=
  @Proc list_db map_btree (fixed_qd demo_reclen) map_filesys map_sdb
    (@Pctl list_db demo_pdb [] 0 demo_mf (demo_pce 0 []) 0 0)
    (NbspStats 0 0 0 0 0 0 0 0 0 0 0 0 0 0 0 0 0)
    (Some (@Rtxdb map_btree ∅ ∅ Dbp1 Dbp2))
    (Some (Spooldb 3 45 0 0 0 (replicate 135 0)))
    {| mfs_files := ∅; mfs_dirs := {[ [47] ]} |} None None demo_qt
    (PacketInfo 0 0 0 0 0 None None (Some (replicate (Z.to_nat demo_reclen) 0)) demo_reclen) 0 [] [].

Definition demo_aproc : aproc :=
  Aproc [(info (demo_item 1 7 0 98), [72; 73]); (info (demo_item 0 8 1 99), [74])] ∅
    (Some [[]; []; []]) (Some ∅) [[]; []].

Lemma demo_proc_rep :
  proc_rep (S0 := list_db_spec) (C := demo_clock) (BS := map_btree_spec) (QS := fixed_qd_spec demo_reclen)
    (FSS := map_filesys_spec) [47; 115] 2 demo_isdir demo_proc demo_aproc.
Proof.
  split; [|apply demo_pdb_inv|apply demo_pdb_exact|..];
    [|apply demo_pce_ok; [constructor|done]|apply demo_mf_wf|].
  - split; cbn; try done.
    + split; [|done]. intros p ->%elem_of_singleton. by left.
    + split; [|done]. by apply (init_ring (H := demo_heap) 3 45).
    + split; [done|done|]. repeat constructor.
    + by repeat constructor.
    + split; [done|]. by eexists.
  - reflexivity.
Qed.

Lemma demo_items_ok : Forall2 (product_ok (H := demo_heap) (Zl := demo_zlib) [47; 115] demo_isdir)
  (a_queue demo_aproc) [[72; 73]; []].
Proof.
  assert (forall f seq k c, 0 <= seq < 2 ^ 32 -> c = 98 \/ c = 99 ->
    item_ok [47; 115] demo_isdir (info (demo_item f seq k c))) as Hit.
  { intros f seq k c Hs [-> | ->]; (split; [split; cbn; try done; by repeat constructor|done|done|done|..];
      [vm_compute; repeat constructor|apply (bool_decide_unpack _); by vm_compute]). }
  constructor; [split|constructor; [split|constructor]]; try (apply Hit; lia).
  - intros _. exists [72; 73]. split; [by left|done].
  - done.
Qed.

(** the files and the packets of a state that represents [a] *)
Lemma demo_view s a :
  proc_rep (S0 := list_db_spec) (C := demo_clock) (BS := map_btree_spec) (QS := fixed_qd_spec demo_reclen)
    (FSS := map_filesys_spec) (Sb := map_sdb) [47; 115] 2 demo_isdir s a ->
  mfs_files (pr_fs s) = a_files a /\
  map (fun q => qd_content (QueueDbSpec := fixed_qd_spec demo_reclen) (nq_dbp q)) (qt_nbspq (pr_qt s)) = a_out a.
Proof.
  intros [[Hf _ _ _ _ [_ _ HF] _ _ _ _ _] _ _ _ _ _]. split; [exact Hf|].
  induction HF as [|q c qs cs [Hc _ _] _ IH]; [done|]. cbn [map]. rewrite IH. f_equal. exact Hc.
Qed.


