(* ===== verification/Nbs1.v ===== *)
(** * Nbs1: src/src/nbs1s.c and src/src/nbs1r.c, whole products as packets

    A server sends a product to a client that runs this program as packets: an
    envelope, a header, and a block of at most 64 kilobytes of the file. The
    sender reads the file, or the product in the memory spool ([Mspool]), and
    makes the packets one by one; the receiver reads each of them from the
    connection ([Nreadn]).

    The file that is open for reading is what is left to read of it. *)

From stdpp Require Import gmap.
From S2P Require Import Prelude Util CLib Mfile Pctldb Pctl Nreadn Packfp File Mspool.

(** Opening and reading files; the count that [read] returns, -1 for an error. *)
Class FileRead (FS : FileSys) := {
  sys_open_rd : fsys -> list Z -> option (list Z);
  sys_read_ret : list Z -> Z -> Z
}.

(** A file that can be opened has its contents. *)
Class FileReadSpec (FS : FileSys) (FSS : FileSysSpec FS) (FR : FileRead FS) : Prop := {
  open_rd_law : forall f p c, sys_open_rd f p = Some c -> fs_files f !! p = Some c;
  read_ret_law : forall c n, 0 <= n -> -1 <= sys_read_ret c n <= Z.min n (zlen c)
}.

(** the files can be opened and read *)
Class FileReadReliable (FS : FileSys) (FSS : FileSysSpec FS) (FR : FileRead FS) : Prop := {
  open_rd_ok : forall f p c, fs_files f !! p = Some c -> sys_open_rd f p = Some c;
  read_ret_ok : forall c n, 0 <= n -> sys_read_ret c n = Z.min n (zlen c)
}.

Definition NBS1_HEADER_SIZE : Z := 17 + FBASENAME_SIZE + 1.
Definition NBS1_BLOCK_SIZE : Z := 65536.
Definition NBS1_PACKET_MAXSIZE : Z := NBS1_BLOCK_SIZE + NBS1_HEADER_SIZE + NBS_ENVELOPE_SIZE.

(** [nb_fsfd]: what is left of the file, [None] for -1; [nb_block] is an index
    in the packet *)
Record nbs1_packet_st := Nbs1 {
  nb_packet : list Z;
  nb_packet_size : Z;
  nb_block_size : Z;
  nb_num_blocks : Z;
  nb_block_number : Z;
  nb_last_block_size : Z;
  nb_f_zip : Z;
  nb_fsfd : option (list Z);
  nb_cfd : Z;
  nb_mfd : Z;
  nb_seq_number : Z;
  nb_product_type : Z;
  nb_product_category : Z;
  nb_product_code : Z;
  nb_np_channel_index : Z;
  nb_fbasename : list Z;
  nb_block : Z;
  nb_reader_index : Z
}.

Definition set_nb_fds v c m (n : nbs1_packet_st) := Nbs1 (nb_packet n) (nb_packet_size n)
  (nb_block_size n) (nb_num_blocks n) (nb_block_number n) (nb_last_block_size n) (nb_f_zip n) v c m
  (nb_seq_number n) (nb_product_type n) (nb_product_category n) (nb_product_code n)
  (nb_np_channel_index n) (nb_fbasename n) (nb_block n) (nb_reader_index n).
Definition set_nb_packet v (n : nbs1_packet_st) := Nbs1 v (nb_packet_size n)
  (nb_block_size n) (nb_num_blocks n) (nb_block_number n) (nb_last_block_size n) (nb_f_zip n)
  (nb_fsfd n) (nb_cfd n) (nb_mfd n) (nb_seq_number n) (nb_product_type n) (nb_product_category n)
  (nb_product_code n) (nb_np_channel_index n) (nb_fbasename n) (nb_block n) (nb_reader_index n).
Definition set_nb_next size number (n : nbs1_packet_st) := Nbs1 (nb_packet n) (nb_packet_size n)
  size (nb_num_blocks n) number (nb_last_block_size n) (nb_f_zip n)
  (nb_fsfd n) (nb_cfd n) (nb_mfd n) (nb_seq_number n) (nb_product_type n) (nb_product_category n)
  (nb_product_code n) (nb_np_channel_index n) (nb_fbasename n) (nb_block n) (nb_reader_index n).
Definition set_nb_packet_size v (n : nbs1_packet_st) := Nbs1 (nb_packet n) v
  (nb_block_size n) (nb_num_blocks n) (nb_block_number n) (nb_last_block_size n) (nb_f_zip n)
  (nb_fsfd n) (nb_cfd n) (nb_mfd n) (nb_seq_number n) (nb_product_type n) (nb_product_category n)
  (nb_product_code n) (nb_np_channel_index n) (nb_fbasename n) (nb_block n) (nb_reader_index n).
Definition set_nb_block v (n : nbs1_packet_st) := Nbs1 (nb_packet n) (nb_packet_size n)
  (nb_block_size n) (nb_num_blocks n) (nb_block_number n) (nb_last_block_size n) (nb_f_zip n)
  (nb_fsfd n) (nb_cfd n) (nb_mfd n) (nb_seq_number n) (nb_product_type n) (nb_product_category n)
  (nb_product_code n) (nb_np_channel_index n) (nb_fbasename n) v (nb_reader_index n).
Definition set_nb_reader_index v (n : nbs1_packet_st) := Nbs1 (nb_packet n) (nb_packet_size n)
  (nb_block_size n) (nb_num_blocks n) (nb_block_number n) (nb_last_block_size n) (nb_f_zip n)
  (nb_fsfd n) (nb_cfd n) (nb_mfd n) (nb_seq_number n) (nb_product_type n) (nb_product_category n)
  (nb_product_code n) (nb_np_channel_index n) (nb_fbasename n) (nb_block n) v.

(** ** The sender *)

Definition get_num_blocks (fsize : Z) : Z :=
  let pt := Z.quot fsize NBS1_BLOCK_SIZE in
  if negb (Z.rem fsize NBS1_BLOCK_SIZE =? 0) then pt + 1 else pt.

Definition get_last_block_size (fsize : Z) : Z :=
  let size := s32 (Z.rem fsize NBS1_BLOCK_SIZE) in
  if size =? 0 then NBS1_BLOCK_SIZE else size.

Definition build_nbs1_header (n : nbs1_packet_st) : outcome (Z * nbs1_packet_st) :=
  let p := NBS_ENVELOPE_SIZE in
  let q := 8 + FBASENAME_SIZE + 1 in
  let* a := wrs (nb_packet n) p
    [(0, split32 (u32 (nb_seq_number n)));
     (4, [u8 (nb_product_type n)]);
     (5, [u8 (nb_product_category n)]);
     (6, [u8 (nb_product_code n)]);
     (7, [u8 (nb_np_channel_index n)]);
     (8, strncpy_bytes (text_of (nb_fbasename n)) (FBASENAME_SIZE + 1));
     (q, [u8 (nb_f_zip n)]);
     (q + 1, split16 (u16 (nb_num_blocks n)));
     (q + 3, split16 (u16 (nb_block_number n)));
     (q + 5, split32 (u32 (nb_block_size n)))] in
  Done (0, set_nb_packet a n).

Section sender.
Context `{Hp : Heap} `{FS : FileSys} {FR : FileRead FS} `{Sb : SpoolBdb}.

(** the spools that are used for the products; the file system is only read *)
Record spools := Spools {
  sp_type : Z;
  sp_fs : fsys;
  sp_mspool : option mspoolbdb_st;
  sp_cspool : option mspoolbdb_st
}.
Definition set_sp_mspool v (s : spools) := Spools (sp_type s) (sp_fs s) v (sp_cspool s).
Definition set_sp_cspool v (s : spools) := Spools (sp_type s) (sp_fs s) (sp_mspool s) v.

(** opens [fpath] in a memory spool: the status, the slot, [fsize]; [None]:
    still waiting for a slot *)
Definition open_spooled (junk : Z -> list Z) (ms : option mspoolbdb_st) (fpath : list Z)
    (wakeups : list (Z * spoolbuf_slots_st)) : outcome (option (Z * Z * Z * mspoolbdb_st)) :=
  match ms with
  | None => Undef
  | Some ms =>
      let* r := nbsp_mspoolbdb_open junk ms fpath wakeups in
      match r with
      | None => Done None
      | Some (sd, ms) =>
          if sd <? 0 then Done (Some (sd, sd, 0, ms))
          else let* n := nbsp_mspoolbdb_datasize ms sd in Done (Some (0, sd, n, ms))
      end
  end.

(** the first part of [init_nbs_packet_st]: the status, the file or the slot,
    the size *)
Definition open_product (junk : Z -> list Z) (wakeups : list (Z * spoolbuf_slots_st))
    (s : spools) (fpath : list Z)
  : outcome (option (Z * option (list Z) * Z * Z * Z * spools)) :=
  if negb (spooltype_fsspool (sp_type s) =? 0) then
    let (status, fsize) := get_file_size 0 (sp_fs s) fpath in
    if status =? 0 then
      match sys_open_rd (sp_fs s) fpath with
      | None => Done (Some (-1, None, -1, -1, default 0 fsize, s))
      | Some c => Done (Some (0, Some c, -1, -1, default 0 fsize, s))
      end
    else Done (Some (status, None, -1, -1, 0, s))
  else if negb (spooltype_mspool (sp_type s) =? 0) then
    let* r := open_spooled junk (sp_mspool s) fpath wakeups in
    Done (match r with
          | None => None
          | Some (st, mfd, n, ms) => Some (st, None, -1, mfd, n, set_sp_mspool (Some ms) s)
          end)
  else if negb (spooltype_cspool (sp_type s) =? 0) then
    let* r := open_spooled junk (sp_cspool s) fpath wakeups in
    Done (match r with
          | None => None
          | Some (st, cfd, n, ms) => Some (st, None, cfd, -1, n, set_sp_cspool (Some ms) s)
          end)
  else Done (Some (1, None, -1, -1, 0, s)).

(** -1 error, -2 not found in the spool; [None]: still waiting *)
Definition init_nbs_packet_st (junk : Z -> list Z) (wakeups : list (Z * spoolbuf_slots_st))
    (s : spools) (fpath : list Z) (seqnumber type category code channel : Z) (n : nbs1_packet_st)
  : outcome (option (Z * nbs1_packet_st * spools)) :=
  let* r := open_product junk wakeups s fpath in
  match r with
  | None => Done None
  | Some (status, fsfd, cfd, mfd, fsize, s) =>
      let n := set_nb_fds fsfd cfd mfd n in
      if negb (status =? 0) then Done (Some (status, n, s)) else
      match findbasename (Some fpath) with
      | None => Undef
      | Some fbasename =>
          c_assert (zlen fbasename <=? FBASENAME_SIZE)
            (Done (Some (0,
               Nbs1 (nb_packet n) (nb_packet_size n) (nb_block_size n)
                 (s32 (get_num_blocks fsize)) 0 (get_last_block_size fsize) 0
                 fsfd cfd mfd seqnumber type category code channel
                 (strncpy_bytes fbasename (FBASENAME_SIZE + 1)) (nb_block n) (nb_reader_index n), s)))
      end
  end.

(** the status of closing is not used *)
Definition free_nbs_packet_st (s : spools) (n : nbs1_packet_st) : outcome (nbs1_packet_st * spools) :=
  match nb_fsfd n with
  | Some _ => Done (set_nb_fds None (nb_cfd n) (nb_mfd n) n, s)
  | None =>
      if negb (nb_cfd n =? -1) then
        match sp_cspool s with
        | None => Undef
        | Some ms =>
            let* (_, ms) := nbsp_mspoolbdb_close ms (nb_cfd n) in
            Done (set_nb_fds None (-1) (nb_mfd n) n, set_sp_cspool (Some ms) s)
        end
      else if negb (nb_mfd n =? -1) then
        match sp_mspool s with
        | None => Undef
        | Some ms =>
            let* (_, ms) := nbsp_mspoolbdb_close ms (nb_mfd n) in
            Done (set_nb_fds None (nb_cfd n) (-1) n, set_sp_mspool (Some ms) s)
        end
      else Done (n, s)
  end.

(** the reading of a block of [size] bytes: the count, the bytes *)
Definition read_block (s : spools) (n : nbs1_packet_st) (size : Z)
  : outcome (Z * list Z * nbs1_packet_st * spools) :=
  match nb_fsfd n with
  | Some rest =>
      let k := sys_read_ret rest size in
      Done (k, ztake k rest, set_nb_fds (Some (zdrop k rest)) (nb_cfd n) (nb_mfd n) n, s)
  | None =>
      if negb (nb_cfd n =? -1) then
        match sp_cspool s with
        | None => Undef
        | Some ms =>
            let* (k, d, ms) := nbsp_mspoolbdb_read ms (nb_cfd n) size in
            Done (k, d, n, set_sp_cspool (Some ms) s)
        end
      else
        match sp_mspool s with
        | None => Undef
        | Some ms =>
            let* (k, d, ms) := nbsp_mspoolbdb_read ms (nb_mfd n) size in
            Done (k, d, n, set_sp_mspool (Some ms) s)
        end
  end.

Definition build_nbs_packet (s : spools) (n : nbs1_packet_st) : outcome (Z * nbs1_packet_st * spools) :=
  let number := s32 (nb_block_number n + 1) in
  let size := if number =? nb_num_blocks n then u64 (nb_last_block_size n) else NBS1_BLOCK_SIZE in
  let n := set_nb_next size number n in
  c_assert (bool_decide (is_Some (nb_fsfd n)) || negb (nb_cfd n =? -1) || negb (nb_mfd n =? -1))
    (let* (k, d, n, s) := read_block s n size in
     let* p := wr (nb_packet n) (NBS_ENVELOPE_SIZE + NBS1_HEADER_SIZE) d in
     let n := set_nb_packet p n in
     if (k =? -1) || negb (u64 k =? size) then Done (-1, n, s) else
     let data_size := u64 (NBS1_HEADER_SIZE + size) in
     let n := set_nb_packet_size (u64 (NBS_ENVELOPE_SIZE + data_size)) n in
     let* (_, n) := build_nbs1_header n in
     let* (status, p) := nbs_pack_envelope (nb_packet n) PACKID_FDATA data_size in
     Done (status, set_nb_packet p n, s)).
End sender.

(** 0, -1 write error, 1 not all could be written *)
Definition send_nbs_packet (f : fd_st) (n : nbs1_packet_st) (retry : Z) : Z * fd_st :=
  let (k, f) := writem f (nb_packet n) (nb_packet_size n) retry in
  (if k =? -1 then -1 else if negb (u64 k =? nb_packet_size n) then 1 else 0, f).

Definition nbs_file_filter (fname : list Z) : Z := 0.

(** ** The receiver *)

(** the members are set only when the packet is one of data *)
Definition unpack_nbs1_header (n : nbs1_packet_st) : outcome (Z * nbs1_packet_st) :=
  let p := nb_packet n in
  let* dataid := unpack_uint32 p 0 in
  if negb (dataid =? PACKID_FDATA) then Done (1, n) else
  let d := NBS_ENVELOPE_SIZE in
  let* seq := unpack_uint32 p d in
  let* type := rd p (d + 4) in
  let* category := rd p (d + 5) in
  let* code := rd p (d + 6) in
  let* channel := rd p (d + 7) in
  let* name := rdn p (d + 8) (FBASENAME_SIZE + 1) in
  let q := d + 8 + FBASENAME_SIZE + 1 in
  let* zip := rd p q in
  let* num_blocks := unpack_uint16 p (q + 1) in
  let* block_number := unpack_uint16 p (q + 3) in
  let* block_size := unpack_uint32 p (q + 5) in
  Done (0, Nbs1 p (NBS_ENVELOPE_SIZE + NBS1_HEADER_SIZE + block_size) block_size num_blocks block_number
             (nb_last_block_size n) zip (nb_fsfd n) (nb_cfd n) (nb_mfd n) seq type category code channel
             (strncpy_bytes (text_of name) (FBASENAME_SIZE + 1)) (nb_block n) (nb_reader_index n)).

(** the status from what [readn] returns when [size] bytes were asked for *)
Definition read_status (n size : Z) : Z :=
  if n =? -1 then -1 else if n =? -2 then -2 else if n =? 0 then -3
  else if negb (u64 n =? size) then 1 else 0.

(** 0 ok, -1 read error, -2 timed out, -3 disconnected, 1 short read or a bad
    type or size, 2 a bad header *)
Definition recv_nbs_packet (f : fd_st) (n : nbs1_packet_st) (retry : Z)
  : outcome (Z * nbs1_packet_st * fd_st) :=
  let* (k, p, f) := readn f (nb_packet n) 0 NBS_ENVELOPE_SIZE retry in
  let n := set_nb_packet p n in
  let status := read_status k NBS_ENVELOPE_SIZE in
  if negb (status =? 0) then Done (status, n, f) else
  let* dataid := unpack_uint32 p 0 in
  if negb (dataid =? PACKID_FDATA) then Done (1, n, f) else
  let* data_size := unpack_uint32 p 4 in
  if NBS1_PACKET_MAXSIZE <? u32 (data_size + NBS_ENVELOPE_SIZE) then Done (1, n, f) else
  let* (k, p, f) := readn f p NBS_ENVELOPE_SIZE data_size retry in
  let n := set_nb_packet p n in
  let status := read_status k data_size in
  if negb (status =? 0) then Done (status, n, f) else
  let* (status, n) := unpack_nbs1_header n in
  if negb (status =? 0) then Done (2, n, f) else
  let n := set_nb_block (NBS_ENVELOPE_SIZE + NBS1_HEADER_SIZE) n in
  if negb (data_size =? u64 (NBS1_HEADER_SIZE + nb_block_size n)) then Done (2, n, f) else
  Done (0, n, f).

(** ** The bytes of a packet *)

Definition nbs_header (n : nbs1_packet_st) : list Z :=
  split32 (u32 (nb_seq_number n)) ++
  [u8 (nb_product_type n); u8 (nb_product_category n); u8 (nb_product_code n); u8 (nb_np_channel_index n)] ++
  strncpy_bytes (text_of (nb_fbasename n)) (FBASENAME_SIZE + 1) ++ [u8 (nb_f_zip n)] ++
  split16 (u16 (nb_num_blocks n)) ++ split16 (u16 (nb_block_number n)) ++ split32 (u32 (nb_block_size n)).

Definition nbs_packet (n : nbs1_packet_st) (block : list Z) : list Z :=
  envelope PACKID_FDATA (nbs_header n ++ block) ++ nbs_header n ++ block.

Lemma nbs_header_length n : zlen (nbs_header n) = NBS1_HEADER_SIZE.
Proof.
  unfold nbs_header. rewrite !zlen_app, strncpy_bytes_length by (unfold FBASENAME_SIZE; lia). done.
Qed.

Lemma nbs_packet_length n block :
  zlen (nbs_packet n block) = NBS_ENVELOPE_SIZE + NBS1_HEADER_SIZE + zlen block.
Proof.
  unfold nbs_packet. rewrite !zlen_app, nbs_header_length.
  change (zlen (envelope _ _)) with NBS_ENVELOPE_SIZE. lia.
Qed.

Lemma build_header_spec n h o r : nb_packet n = h ++ o ++ r -> zlen h = NBS_ENVELOPE_SIZE ->
  zlen o = NBS1_HEADER_SIZE ->
  build_nbs1_header n = Done (0, set_nb_packet (h ++ nbs_header n ++ r) n).
Proof.
  intros Hp Hh Ho. unfold build_nbs1_header. rewrite Hp.
  pose proof (nbs_header_length n) as Hl. pose proof (zlen_nonneg r).
  rewrite (wrs_contig _ h (o ++ r) NBS_ENVELOPE_SIZE 0).
  - cbn [fmap list_fmap concat snd obind]. rewrite app_nil_r.
    match goal with |- context [h ++ ?d ++ zdrop _ (o ++ r)] => change d with (nbs_header n) end.
    rewrite zdrop_app_exact by lia. done.
  - cbn [contig]. change (zlen (split32 _)) with 4. change (zlen (split16 _)) with 2. change (zlen [_]) with 1.
    rewrite strncpy_bytes_length by (unfold FBASENAME_SIZE; lia). unfold FBASENAME_SIZE. lia.
  - lia.
  - cbn [fmap list_fmap concat snd]. rewrite app_nil_r.
    match goal with |- zlen ?d <= _ => change d with (nbs_header n) end. rewrite zlen_app. lia.
Qed.

(** ** The sender *)

Section sending.
Context `{Hp : Heap} `{FS : FileSys} {FSS : FileSysSpec FS} {FR : FileRead FS}
  {FRR : FileReadReliable FS FSS FR} `{Sb : SpoolBdb}.

(** what is left to read of the product in a slot *)
Definition slot_left (ms : option mspoolbdb_st) (sd : Z) (rest : list Z) : Prop :=
  exists m d r mx i, ms = Some m /\
    znth (ss_spoolb (ms_spoolslots m)) sd = Some (Spoolbuf (d ++ r) (zlen d) mx i) /\
    0 <= i <= zlen d /\ zlen d < 2 ^ 32 /\ rest = zdrop i d /\
    0 <= sd < zlen (ss_status (ms_spoolslots m)).

Lemma slot_read_spec m sd rest size : slot_left (Some m) sd rest -> 0 <= size < 2 ^ 32 ->
  exists m', nbsp_mspoolbdb_read m sd size = Done (zlen (ztake size rest), ztake size rest, m') /\
    slot_left (Some m') sd (zdrop size rest).
Proof.
  intros (m0 & d & r & mx & i & [= <-] & Hsb & Hi & Hd & -> & Hst) Hs.
  unfold nbsp_mspoolbdb_read, mspoolbdb_slots_read, spoolbuf_slots_read.
  rewrite (proj2 (rd_Done _ _ _) Hsb). cbn [obind]. rewrite spoolbuf_read_spec by done. cbn [obind].
  pose proof (znth_Some_lt _ _ _ Hsb) as Hsd. change (ztake size (zdrop i d)) with (zsub i size d).
  eexists. split; [reflexivity|].
  assert (zlen (zsub i size d) = Z.min size (zlen d - i)) as Hl.
  { unfold zsub, zlen, ztake, zdrop in *. rewrite length_take, length_drop. lia. }
  eexists _, d, r, mx, _. split; [reflexivity|]. split.
  { cbn. rewrite znth_insert, Z.eqb_refl by lia. reflexivity. }
  split; [lia|]. split; [done|]. split; [|done]. rewrite zdrop_drop by lia. rewrite Hl.
  destruct (Z.min_spec size (zlen d - i)) as [[? ->]|[? ->]]; [done|].
  rewrite !zdrop_ge by lia. done.
Qed.

(** what is left to read of the product being sent *)
Definition left_to_read (s : spools) (n : nbs1_packet_st) (rest : list Z) : Prop :=
  match nb_fsfd n with
  | Some c => c = rest
  | None => if negb (nb_cfd n =? -1) then slot_left (sp_cspool s) (nb_cfd n) rest
            else nb_mfd n <> -1 /\ slot_left (sp_mspool s) (nb_mfd n) rest
  end.

Lemma read_block_spec s n rest size : left_to_read s n rest -> 0 <= size < 2 ^ 32 ->
  exists fd s', read_block s n size = Done (zlen (ztake size rest), ztake size rest,
      set_nb_fds fd (nb_cfd n) (nb_mfd n) n, s') /\
    left_to_read s' (set_nb_fds fd (nb_cfd n) (nb_mfd n) n) (zdrop size rest).
Proof.
  intros Hl Hs. unfold read_block, left_to_read in *.
  destruct (nb_fsfd n) as [c|] eqn:Ef.
  - subst c. rewrite read_ret_ok by lia.
    exists (Some (zdrop size rest)), s. split; [|done]. pose proof (zlen_nonneg rest).
    destruct (Z.min_spec size (zlen rest)) as [[? ->]|[? ->]].
    + by rewrite zlen_take by lia.
    + rewrite (ztake_ge size), !(zdrop_ge _ rest), (ztake_ge (zlen rest)) by lia. done.
  - destruct (negb (nb_cfd n =? -1)) eqn:Ec.
    + destruct (sp_cspool s) as [m|]; [|by destruct Hl as (? & ? & ? & ? & ? & ? & _)].
      destruct (slot_read_spec _ _ _ size Hl Hs) as (m' & -> & Hl'). cbn [obind].
      exists None, (set_sp_cspool (Some m') s). split; [by destruct n; cbn in *; subst|].
      cbn. by rewrite Ec.
    + destruct Hl as [Hm Hl]. destruct (sp_mspool s) as [m|]; [|by destruct Hl as (? & ? & ? & ? & ? & ? & _)].
      destruct (slot_read_spec _ _ _ size Hl Hs) as (m' & -> & Hl'). cbn [obind].
      exists None, (set_sp_mspool (Some m') s). split; [by destruct n; cbn in *; subst|].
      cbn. by rewrite Ec.
Qed.

Lemma free_spec s n rest : left_to_read s n rest ->
  exists n' s', free_nbs_packet_st s n = Done (n', s') /\ sp_fs s' = sp_fs s.
Proof.
  unfold left_to_read, free_nbs_packet_st. destruct (nb_fsfd n) as [c|]; [by eauto|].
  assert (forall ms sd, slot_left ms sd rest -> exists m m', ms = Some m /\ nbsp_mspoolbdb_close m sd = Done (0, m')) as Hc.
  { intros ms sd (m & d & r & mx & i & -> & _ & _ & _ & _ & Hsd). exists m.
    unfold nbsp_mspoolbdb_close, mspoolbdb_slots_close, spoolbuf_slots_close, spoolbuf_slots_close_unlocked.
    rewrite wr_ok by (change (zlen [0]) with 1; lia). by eexists. }
  destruct (negb (nb_cfd n =? -1)).
  - intros (m & m' & -> & E)%Hc. rewrite E. cbn [obind]. by eauto.
  - intros [Hm (m & m' & -> & E)%Hc]. destruct (Z.eqb_spec (nb_mfd n) (-1)); [done|]. cbn [negb].
    rewrite E. cbn [obind]. by eauto.
Qed.

(** the size of the next block *)
Definition next_size (n : nbs1_packet_st) : Z :=
  if nb_block_number n + 1 =? nb_num_blocks n then nb_last_block_size n else NBS1_BLOCK_SIZE.

Lemma build_spec s n rest : zlen (nb_packet n) = NBS1_PACKET_MAXSIZE -> left_to_read s n rest ->
  0 <= nb_block_number n < 2 ^ 31 - 1 -> 0 < next_size n <= NBS1_BLOCK_SIZE -> next_size n <= zlen rest ->
  let m := set_nb_next (next_size n) (nb_block_number n + 1) n in
  let block := ztake (next_size n) rest in
  exists p fd s', build_nbs_packet s n =
      Done (0, set_nb_packet p (set_nb_packet_size (zlen (nbs_packet m block))
                 (set_nb_fds fd (nb_cfd n) (nb_mfd n) m)), s') /\
    left_to_read s' (set_nb_fds fd (nb_cfd n) (nb_mfd n) m) (zdrop (next_size n) rest) /\
    zlen p = NBS1_PACKET_MAXSIZE /\ ztake (zlen (nbs_packet m block)) p = nbs_packet m block.
Proof.
  intros Hpl Hleft Hnum Hsz Hrest m block. unfold NBS1_BLOCK_SIZE in Hsz.
  unfold build_nbs_packet. rewrite s32_small by lia.
  assert ((if nb_block_number n + 1 =? nb_num_blocks n then u64 (nb_last_block_size n) else NBS1_BLOCK_SIZE)
          = next_size n) as ->.
  { unfold next_size in *. destruct (_ =? _); [apply u64_small; lia|done]. }
  fold m. assert (left_to_read s m rest) as Hlm by exact Hleft.
  assert (bool_decide (is_Some (nb_fsfd m)) || negb (nb_cfd m =? -1) || negb (nb_mfd m =? -1) = true) as ->.
  { unfold left_to_read in Hlm. destruct (nb_fsfd m); [done|]. destruct (negb (nb_cfd m =? -1)); [done|].
    destruct Hlm as [Hm _]. by destruct (Z.eqb_spec (nb_mfd m) (-1)). }
  cbn [c_assert]. destruct (read_block_spec s m rest (next_size n) Hlm) as (fd & s' & -> & Hl'); [lia|].
  change (nb_cfd m) with (nb_cfd n) in *. change (nb_mfd m) with (nb_mfd n) in *.
  cbn [obind set_nb_fds nb_packet]. fold block.
  assert (zlen block = next_size n) as Hb by (apply zlen_take; lia). rewrite Hb.
  change (nb_packet m) with (nb_packet n). unfold NBS1_PACKET_MAXSIZE, NBS1_BLOCK_SIZE in *.
  set (h := ztake NBS_ENVELOPE_SIZE (nb_packet n)).
  set (o := zsub NBS_ENVELOPE_SIZE NBS1_HEADER_SIZE (nb_packet n)).
  assert (zlen h = NBS_ENVELOPE_SIZE /\ zlen o = NBS1_HEADER_SIZE) as [Hh Ho].
  { split; [apply zlen_take|apply zlen_sub]; unfold NBS_ENVELOPE_SIZE, NBS1_HEADER_SIZE, FBASENAME_SIZE in *; lia. }
  set (r := zdrop (NBS_ENVELOPE_SIZE + NBS1_HEADER_SIZE + next_size n) (nb_packet n)).
  assert (zlen r = 65536 - next_size n) as Hr.
  { subst r. rewrite zlen_drop; unfold NBS_ENVELOPE_SIZE, NBS1_HEADER_SIZE, FBASENAME_SIZE in *; lia. }
  assert (wr (nb_packet n) (NBS_ENVELOPE_SIZE + NBS1_HEADER_SIZE) block = Done (h ++ o ++ block ++ r)) as ->.
  { rewrite wr_ok by (rewrite ?Hb; unfold NBS_ENVELOPE_SIZE, NBS1_HEADER_SIZE, FBASENAME_SIZE in *; lia).
    rewrite Hb. fold r. rewrite (app_assoc h o). do 2 f_equal. subst h o. unfold zsub.
    apply ztake_add; unfold NBS_ENVELOPE_SIZE, NBS1_HEADER_SIZE, FBASENAME_SIZE; lia. }
  cbn [obind]. destruct (Z.eqb_spec (next_size n) (-1)); [lia|].
  rewrite (u64_small (next_size n)), Z.eqb_refl by lia. cbn [orb negb].
  rewrite (u64_small (NBS1_HEADER_SIZE + next_size n)), u64_small
    by (unfold NBS_ENVELOPE_SIZE, NBS1_HEADER_SIZE, FBASENAME_SIZE; lia).
  erewrite (build_header_spec _ h o (block ++ r)) by done. cbn [obind nb_packet set_nb_packet].
  match goal with |- context [nbs_header ?x] => change (nbs_header x) with (nbs_header m) end.
  replace (NBS_ENVELOPE_SIZE + (NBS1_HEADER_SIZE + next_size n)) with (zlen (nbs_packet m block))
    by (rewrite nbs_packet_length, Hb; lia).
  replace (NBS1_HEADER_SIZE + next_size n) with (zlen (nbs_header m ++ block))
    by (rewrite zlen_app, nbs_header_length, Hb; lia).
  rewrite (app_assoc (nbs_header m)), pack_envelope_prefix by done. cbn [obind].
  eexists _, fd, s'. split; [reflexivity|]. split; [done|].
  rewrite (app_assoc (envelope _ _)). fold (nbs_packet m block). split; [|by apply ztake_app_exact].
  rewrite zlen_app, nbs_packet_length, Hb, Hr. lia.
Qed.
End sending.

(** ** The receiver *)

(** a packet structure whose numbers fit the header *)
Record nbs_ok (n : nbs1_packet_st) : Prop := NbsOk {
  no_seq : 0 <= nb_seq_number n < 2 ^ 32;
  no_name : zlen (text_of (nb_fbasename n)) <= FBASENAME_SIZE;
  no_num : 0 <= nb_num_blocks n < 2 ^ 16;
  no_number : 0 <= nb_block_number n < 2 ^ 16
}.

(** what the receiver has of the packet [n] with the block [block]; the codes
    are reduced to a byte *)
Definition received (n r : nbs1_packet_st) (block : list Z) : Prop :=
  nb_seq_number r = nb_seq_number n /\ nb_product_type r = u8 (nb_product_type n) /\
  nb_product_category r = u8 (nb_product_category n) /\ nb_product_code r = u8 (nb_product_code n) /\
  nb_np_channel_index r = u8 (nb_np_channel_index n) /\
  nb_fbasename r = strncpy_bytes (text_of (nb_fbasename n)) (FBASENAME_SIZE + 1) /\
  nb_f_zip r = u8 (nb_f_zip n) /\ nb_num_blocks r = nb_num_blocks n /\
  nb_block_number r = nb_block_number n /\ nb_block_size r = zlen block /\
  nb_packet_size r = zlen (nbs_packet n block) /\
  zlen (nb_packet r) = NBS1_PACKET_MAXSIZE /\ nb_block r = NBS_ENVELOPE_SIZE + NBS1_HEADER_SIZE /\
  zsub (nb_block r) (zlen block) (nb_packet r) = block.

Lemma unpack_split16 (s r : list Z) u i : i = zlen s -> 0 <= u < 2 ^ 16 ->
  unpack_uint16 (s ++ split16 u ++ r) i = Done u.
Proof.
  intros -> Hu. pose proof (zlen_nonneg s). unfold unpack_uint16.
  rewrite (rd_app_r s _ (zlen s)), (rd_app_r s _ (zlen s + 1)) by lia.
  replace (zlen s - zlen s) with 0 by lia. replace (zlen s + 1 - zlen s) with 1 by lia.
  change (Done (be16 (Z.land (Z.shiftr u 8) 255) (Z.land u 255)) = Done u). by rewrite be16_split.
Qed.

Lemma text_strncpy s n : nonul s -> zlen s < n -> text_of (strncpy_bytes s n) = s.
Proof.
  intros Hs Hl. unfold strncpy_bytes. rewrite ztake_ge by lia.
  assert (0 < Z.to_nat (n - zlen s))%nat as Hk by lia.
  destruct (Z.to_nat (n - zlen s)) as [|k]; [lia|]. clear Hk Hl. cbn [replicate].
  induction s as [|c s IH]; [done|]. apply Forall_cons_iff in Hs as [Hc Hs]. cbn [app text_of].
  destruct (Z.eqb_spec c 0); [done|]. by rewrite IH.
Qed.

Lemma unpack_header_spec r n block rest : nb_packet r = nbs_packet n block ++ rest -> nbs_ok n ->
  nb_block_size n = zlen block -> zlen block <= NBS1_BLOCK_SIZE ->
  unpack_nbs1_header r = Done (0, Nbs1 (nb_packet r) (zlen (nbs_packet n block)) (zlen block)
    (nb_num_blocks n) (nb_block_number n) (nb_last_block_size r) (u8 (nb_f_zip n)) (nb_fsfd r) (nb_cfd r)
    (nb_mfd r) (nb_seq_number n) (u8 (nb_product_type n)) (u8 (nb_product_category n)) (u8 (nb_product_code n))
    (u8 (nb_np_channel_index n)) (strncpy_bytes (text_of (nb_fbasename n)) (FBASENAME_SIZE + 1))
    (nb_block r) (nb_reader_index r)).
Proof.
  intros Hp [Hseq Hname Hnum Hnumber] Hbs Hbl.
  rewrite nbs_packet_length. unfold NBS1_BLOCK_SIZE, FBASENAME_SIZE in *. pose proof (zlen_nonneg block).
  unfold unpack_nbs1_header. rewrite Hp. unfold nbs_packet.
  set (nm := strncpy_bytes (text_of (nb_fbasename n)) (36 + 1)).
  assert (zlen nm = 37) as Hnm by (apply strncpy_bytes_length; lia).
  assert (text_of nm = text_of (nb_fbasename n)) as Htx by (apply text_strncpy; [apply text_of_nonul|lia]).
  set (env := envelope _ _). assert (zlen env = 12) as He by done.
  assert (unpack_uint32 ((env ++ nbs_header n ++ block) ++ rest) 0 = Done 1) as ->.
  { unfold env, envelope. rewrite <- !app_assoc. by rewrite unpack_split32_0. }
  cbn [obind Z.eqb negb]. change (1 =? PACKID_FDATA) with true. cbn [negb]. clearbody env.
  unfold nbs_header, FBASENAME_SIZE. fold nm. rewrite <- !app_assoc.
  rewrite Hbs, (u32_small (nb_seq_number n)), (u32_small (zlen block)),
    (u16_small (nb_num_blocks n)), (u16_small (nb_block_number n)) by (done || lia).
  set (cs := [u8 (nb_product_type n); _; _; _]). assert (zlen cs = 4) as Hcs by done.
  unfold NBS_ENVELOPE_SIZE.
  rewrite (unpack_split32 env) by (done || lia). cbn [obind].
  set (tl := nm ++ _). set (s4 := split32 (nb_seq_number n)). assert (zlen s4 = 4) as Hs4 by done.
  assert (forall i, 16 <= i < 20 -> rd (env ++ s4 ++ cs ++ tl) i = rd cs (i - 16)) as Hrd.
  { intros i Hi1. rewrite (rd_app_r env), (rd_app_r s4) by lia. rewrite He, Hs4. unfold rd.
    rewrite znth_app_l by lia. by replace (i - 12 - 4) with (i - 16) by lia. }
  rewrite !Hrd by lia. clear Hrd.
  change (rd cs (12 + 4 - 16)) with (Done (u8 (nb_product_type n))).
  change (rd cs (12 + 5 - 16)) with (Done (u8 (nb_product_category n))).
  change (rd cs (12 + 6 - 16)) with (Done (u8 (nb_product_code n))).
  change (rd cs (12 + 7 - 16)) with (Done (u8 (nb_np_channel_index n))).
  cbn [obind]. clearbody cs s4. subst tl.
  set (tl := [u8 (nb_f_zip n)] ++ _). pose proof (zlen_nonneg tl).
  rewrite rdn_ok by (rewrite ?zlen_app; lia).
  assert (zsub (12 + 8) (36 + 1) (env ++ s4 ++ cs ++ nm ++ tl) = nm) as ->.
  { unfold zsub. rewrite !app_assoc. rewrite <- app_assoc. rewrite zdrop_app_exact by (rewrite !zlen_app; lia).
    by apply ztake_app_exact. }
  cbn [obind]. rewrite Htx. fold nm.
  assert (forall k, 0 <= k -> rd (env ++ s4 ++ cs ++ nm ++ tl) (12 + 8 + 36 + 1 + k) = rd tl k) as Hrd.
  { intros k Hk1. rewrite (rd_app_r env), (rd_app_r s4), (rd_app_r cs), (rd_app_r nm) by lia. f_equal. lia. }
  pose proof (Hrd 0 ltac:(lia)) as Hr0. rewrite Z.add_0_r in Hr0. rewrite Hr0.
  change (rd tl 0) with (Done (u8 (nb_f_zip n))). cbn [obind].
  subst tl. rewrite !app_assoc. set (pre := (((env ++ s4) ++ cs) ++ nm) ++ [u8 (nb_f_zip n)]).
  assert (zlen pre = 58) as Hpre by (unfold pre; rewrite !zlen_app; change (zlen [_]) with 1; lia).
  rewrite <- !app_assoc. cbn [app]. rewrite (unpack_split16 pre) by lia. cbn [obind].
  rewrite (app_assoc pre). rewrite (unpack_split16 (pre ++ _)) by (rewrite ?zlen_app, ?Hpre; done || lia).
  cbn [obind]. rewrite (app_assoc (pre ++ _)).
  rewrite (unpack_split32 ((pre ++ _) ++ _)) by (rewrite ?zlen_app, ?Hpre; done || lia).
  done.
Qed.

Lemma recv_spec f r n block more retry : data_only f -> stream f = nbs_packet n block ++ more ->
  zlen (nb_packet r) = NBS1_PACKET_MAXSIZE -> nbs_ok n -> nb_block_size n = zlen block ->
  zlen block <= NBS1_BLOCK_SIZE ->
  exists r' f', recv_nbs_packet f r retry = Done (0, r', f') /\ stream f' = more /\ data_only f' /\
    received n r' block /\ nb_reader_index r' = nb_reader_index r.
Proof.
  intros Hf Es Hl Hok Hbs Hbl. pose proof (nbs_packet_length n block) as Hpl.
  pose proof (zlen_nonneg more). pose proof (zlen_nonneg block).
  assert (NBS_ENVELOPE_SIZE = 12 /\ NBS1_HEADER_SIZE = 54 /\ NBS1_PACKET_MAXSIZE = 65602) as (E1 & E2 & E3) by done.
  unfold recv_nbs_packet. rewrite E1. unfold NBS1_BLOCK_SIZE in *. set (p := nb_packet r) in *.
  destruct (readn_data f p 0 12 retry) as (p1 & f1 & -> & Ew1 & Es1 & Hf1);
    [done|lia|lia|lia|rewrite Es, zlen_app; lia|].
  cbn [obind]. change (read_status 12 12) with 0. cbn [Z.eqb negb].
  set (data := nbs_header n ++ block).
  assert (zlen data = 54 + zlen block) as Hd by (subst data; rewrite zlen_app, nbs_header_length; lia).
  unfold nbs_packet in Es. fold data in Es. rewrite <- app_assoc in Es.
  rewrite Es in Ew1, Es1. set (e := envelope PACKID_FDATA data) in *.
  assert (zlen e = 12) as He by done. rewrite ztake_app_exact in Ew1 by done.
  rewrite zdrop_app_exact in Es1 by done. rewrite wr_0 in Ew1 by lia. rewrite He in Ew1.
  assert (p1 = e ++ zdrop 12 p) as -> by congruence. clear Ew1.
  assert (unpack_uint32 (e ++ zdrop 12 p) 0 = Done 1) as ->.
  { unfold e, envelope. rewrite <- !app_assoc. by rewrite unpack_split32_0. }
  assert (unpack_uint32 (e ++ zdrop 12 p) 4 = Done (zlen data)) as ->.
  { unfold e, envelope. rewrite <- !app_assoc.
    rewrite (unpack_split32 (split32 _)) by (done || apply u32_range). rewrite u32_small by lia. done. }
  cbn [obind]. change (1 =? PACKID_FDATA) with true. cbn [negb]. rewrite u32_small by lia.
  rewrite E3. destruct (Z.ltb_spec 65602 (zlen data + 12)); [lia|].
  assert (zlen (e ++ zdrop 12 p) = zlen p) as Hlp by (rewrite zlen_app, zlen_drop; lia).
  destruct (readn_data f1 (e ++ zdrop 12 p) 12 (zlen data) retry) as (p2 & f2 & -> & Ew2 & Es2 & Hf2);
    [done|lia|lia|lia|rewrite Es1, zlen_app; lia|].
  rewrite Es1 in Ew2, Es2. rewrite ztake_app_exact in Ew2 by done. rewrite zdrop_app_exact in Es2 by done.
  rewrite wr_app in Ew2 by (done || (rewrite zlen_drop; lia)).
  set (rest := zdrop (12 + zlen data) p).
  assert (p2 = nbs_packet n block ++ rest) as ->.
  { rewrite zdrop_drop in Ew2 by lia. injection Ew2 as <-. exact (app_assoc e data rest). }
  cbn [obind]. assert (read_status (zlen data) (zlen data) = 0) as ->.
  { unfold read_status. destruct (Z.eqb_spec (zlen data) (-1)); [lia|]. destruct (Z.eqb_spec (zlen data) (-2)); [lia|].
    destruct (Z.eqb_spec (zlen data) 0); [lia|]. rewrite u64_small, Z.eqb_refl by lia. done. }
  cbn [Z.eqb negb].
  rewrite (unpack_header_spec (set_nb_packet (nbs_packet n block ++ rest) (set_nb_packet (e ++ zdrop 12 p) r)) n block rest)
    by done.
  cbn [obind Z.eqb negb nb_block_size set_nb_block]. rewrite E2, u64_small by lia.
  rewrite <- Hd, Z.eqb_refl. cbn [negb]. eexists _, f2. split; [reflexivity|]. split; [done|]. split; [done|].
  split; [|done]. unfold received.
  cbn [nb_seq_number nb_product_type nb_product_category nb_product_code nb_np_channel_index nb_fbasename
    nb_f_zip nb_num_blocks nb_block_number nb_packet_size nb_packet nb_block set_nb_packet set_nb_block].
  split_and!; try done.
  - subst rest. rewrite zlen_app, zlen_drop by lia. rewrite Hpl. lia.
  - unfold zsub, nbs_packet. rewrite app_assoc, <- app_assoc.
    rewrite zdrop_app_exact by (rewrite zlen_app, nbs_header_length; done). by apply ztake_app_exact.
Qed.

(** the files of [File.map_filesys], that can be read at once *)
Definition map_fileread : FileRead map_filesys :=
  {| sys_open_rd := (fun f p => mfs_files f !! p) : @fsys map_filesys -> _;
     sys_read_ret c n := Z.min n (zlen c) |}.
Lemma map_fileread_reliable : FileReadReliable map_filesys map_filesys_spec map_fileread.
Proof. by split. Qed.

(** The size of a received packet. The test of the announced size is
    made on 32 bits and wraps around: there is an input from the network that
    makes [recv_nbs_packet] write past the end of the packet. *)
Theorem recv_nbs_packet_overflow (n : nbs1_packet_st) (Hn : zlen (nb_packet n) = NBS1_PACKET_MAXSIZE) :
  exists f, recv_nbs_packet f n 0 = Undef.
Proof.
  set (e := bad_envelope PACKID_FDATA). exists (flood e NBS1_PACKET_MAXSIZE). unfold recv_nbs_packet.
  change NBS_ENVELOPE_SIZE with 12. assert (NBS1_PACKET_MAXSIZE = 65602) as Hm by done.
  rewrite (flood_first e _ (nb_packet n)) by (done || lia). cbn [obind].
  change (negb (read_status 12 12 =? 0)) with false. cbv iota.
  destruct (bad_envelope_fields PACKID_FDATA (zdrop 12 (nb_packet n))) as [E1 E2]; [done|]. fold e in E1, E2.
  rewrite E1, E2. cbn [obind]. change (negb (PACKID_FDATA =? PACKID_FDATA)) with false. cbv iota.
  change (NBS1_PACKET_MAXSIZE <? u32 (4294967288 + 12)) with false. cbv iota.
  rewrite (flood_past e _ (nb_packet n)) by (done || lia). done.
Qed.

Lemma recv_nbs_packet_overflow_witness : exists f,
  recv_nbs_packet f (Nbs1 (replicate (Z.to_nat NBS1_PACKET_MAXSIZE) 0) 0 0 0 0 0 0 None (-1) (-1) 0 0 0 0 0 [] 0 0) 0
  = Undef.
Proof. apply (recv_nbs_packet_overflow (Nbs1 _ 0 0 0 0 0 0 None (-1) (-1) 0 0 0 0 0 [] 0 0)). by vm_compute. Defined.
