(* ===== verification/Emwin.v ===== *)
(** * Emwin: src/src/emwin.c, products as EMWIN packets

    A product is sent to the clients of the EMWIN protocol as packets of 1116
    bytes: six zeros, a header of 80 characters, 1024 bytes of the file, six
    zeros, with all the bits inverted.

    [header_date] is the text that [strftime] makes of the time. *)

From stdpp Require Import gmap.
From S2P Require Import Prelude Util CLib Mfile Pctldb Pctl Nreadn Packfp File Mspool Nbs1.

Definition EMWIN_HEADER_DATESIZE : Z := 22.
Definition EMWIN_HEADER_FNAMESIZE : Z := 12.
Definition EMWIN_HEADER_SIZE : Z := 80.
Definition EMWIN_DATA_SIZE : Z := 1024.
Definition EMWIN_PACKET_SIZE : Z := 1116.

(** [ep_fd]: what is left of the file, [None] for -1; the name is an array of
    13 bytes *)
Record emwin_packet_st := Emwin {
  ep_fname : list Z;
  ep_header_date : list Z;
  ep_packet : list Z;
  ep_packet_size : Z;
  ep_fd : option (list Z);
  ep_parts_total : Z;
  ep_last_part_size : Z;
  ep_part_number : Z;
  ep_checksum : Z
}.

Definition get_parts_total (fsize : Z) : Z :=
  let pt := Z.quot fsize EMWIN_DATA_SIZE in
  if negb (Z.rem fsize EMWIN_DATA_SIZE =? 0) then pt + 1 else pt.

Definition get_last_part_size (fsize : Z) : Z :=
  let size := s32 (Z.rem fsize EMWIN_DATA_SIZE) in
  if size =? 0 then EMWIN_DATA_SIZE else size.

(** [date]: what [strftime] wrote *)
Definition build_header_date (date : list Z) (ep : emwin_packet_st) : outcome (Z * emwin_packet_st) :=
  c_assert (zlen date =? EMWIN_HEADER_DATESIZE)
    (Done (0, Emwin (ep_fname ep) date (ep_packet ep) (ep_packet_size ep) (ep_fd ep) (ep_parts_total ep)
                (ep_last_part_size ep) (ep_part_number ep) (ep_checksum ep))).

Section init.
Context `{FS : FileSys} {FR : FileRead FS}.

Definition init_emwin_packet_st (f : fsys) (fpath emwinfname date : list Z) (ep : emwin_packet_st)
  : outcome (Z * emwin_packet_st) :=
  let name := strncpy_bytes emwinfname EMWIN_HEADER_FNAMESIZE ++ [0] in
  let ep := Emwin name (ep_header_date ep) (ep_packet ep) EMWIN_PACKET_SIZE None (ep_parts_total ep)
              (ep_last_part_size ep) (ep_part_number ep) (ep_checksum ep) in
  let (status, fsize) := get_file_size 0 f fpath in
  if negb (status =? 0) then Done (status, ep) else
  let fsize := default 0 fsize in
  let ep := Emwin name (ep_header_date ep) (ep_packet ep) EMWIN_PACKET_SIZE None
              (s32 (get_parts_total fsize)) (get_last_part_size fsize) 0 (ep_checksum ep) in
  let* (status, ep) := build_header_date date ep in
  if negb (status =? 0) then Done (status, ep) else
  let fd := sys_open_rd f fpath in
  Done (if bool_decide (is_Some fd) then 0 else -1,
    Emwin (ep_fname ep) (ep_header_date ep) (ep_packet ep) (ep_packet_size ep) fd (ep_parts_total ep)
      (ep_last_part_size ep) (ep_part_number ep) (ep_checksum ep)).
End init.

(** ["%-ws"] *)
Definition pad_right (w : Z) (s : list Z) : list Z := s ++ replicate (Z.to_nat (w - zlen s)) 32.

(** ["/PF%-12s/PN %-5d/PT %-5d/CS %-6d/FD%s%s"] *)
Definition emwin_header_text (name : list Z) (part total checksum : Z) (date : list Z) : list Z :=
  [47; 80; 70] ++ pad_right 12 name ++ [47; 80; 78; 32] ++ pad_right 5 (sdec part) ++
  [47; 80; 84; 32] ++ pad_right 5 (sdec total) ++ [47; 67; 83; 32] ++ pad_right 6 (sdec checksum) ++
  [47; 70; 68] ++ date ++ replicate 10 32 ++ [13; 10].

Definition build_emwin_header (ep : emwin_packet_st) : outcome (Z * emwin_packet_st) :=
  let fname_caps := map toupper (ztake EMWIN_HEADER_FNAMESIZE (ep_fname ep)) in
  let header := emwin_header_text (text_of fname_caps) (ep_part_number ep) (ep_parts_total ep)
                  (ep_checksum ep) (ep_header_date ep) in
  c_assert (zlen header =? EMWIN_HEADER_SIZE)
    (let* p := wr (ep_packet ep) 6 (ztake EMWIN_HEADER_SIZE header) in
     Done (0, Emwin (ep_fname ep) (ep_header_date ep) p (ep_packet_size ep) (ep_fd ep)
                (ep_parts_total ep) (ep_last_part_size ep) (ep_part_number ep) (ep_checksum ep))).

Section build.
Context `{FS : FileSys} {FR : FileRead FS}.

(** -1 when the file cannot be read *)
Definition build_emwin_packet (ep : emwin_packet_st) : outcome (Z * emwin_packet_st) :=
  let part := s32 (ep_part_number ep + 1) in
  let data_size := if part =? ep_parts_total ep then ep_last_part_size ep else EMWIN_DATA_SIZE in
  let packet := replicate (Z.to_nat (ep_packet_size ep)) 0 in
  match ep_fd ep with
  | None =>                                     (* read from -1 fails *)
      Done (-1, Emwin (ep_fname ep) (ep_header_date ep) packet (ep_packet_size ep) None
                  (ep_parts_total ep) (ep_last_part_size ep) part (ep_checksum ep))
  | Some rest =>
      let n := sys_read_ret rest data_size in
      let p := 6 + EMWIN_HEADER_SIZE in
      let* packet := wr packet p (ztake n rest) in
      let ep := Emwin (ep_fname ep) (ep_header_date ep) packet (ep_packet_size ep) (Some (zdrop n rest))
                  (ep_parts_total ep) (ep_last_part_size ep) part (ep_checksum ep) in
      if negb (n =? data_size) then Done (-1, ep) else
      let* cs := calc_checksum (zdrop p packet) data_size in
      let ep := Emwin (ep_fname ep) (ep_header_date ep) packet (ep_packet_size ep) (ep_fd ep)
                  (ep_parts_total ep) (ep_last_part_size ep) part (s32 cs) in
      let* (status, ep) := build_emwin_header ep in
      if negb (status =? 0) then Done (status, ep) else
      Done (0, Emwin (ep_fname ep) (ep_header_date ep) (map (fun b => Z.lxor b 255) (ep_packet ep))
                 (ep_packet_size ep) (ep_fd ep) (ep_parts_total ep) (ep_last_part_size ep)
                 (ep_part_number ep) (ep_checksum ep))
  end.
End build.

Definition free_emwin_packet_st (ep : emwin_packet_st) : emwin_packet_st :=
  Emwin (ep_fname ep) (ep_header_date ep) (ep_packet ep) (ep_packet_size ep) None
    (ep_parts_total ep) (ep_last_part_size ep) (ep_part_number ep) (ep_checksum ep).

Definition send_emwin_packet (f : fd_st) (ep : emwin_packet_st) (retry : Z) : Z * fd_st :=
  let (n, f) := writem f (ep_packet ep) (ep_packet_size ep) retry in
  (if n =? -1 then -1 else if negb (n =? ep_packet_size ep) then 1 else 0, f).

(** ** The packets of a file *)

(** the packet before its bits are inverted *)
Definition emwin_plain (name date : list Z) (part total : Z) (data : list Z) : list Z :=
  replicate 6 0 ++
  emwin_header_text (text_of (map toupper (ztake EMWIN_HEADER_FNAMESIZE name))) part total
    (u32 (zsum data)) date ++
  data ++ replicate (Z.to_nat (EMWIN_DATA_SIZE - zlen data)) 0 ++ replicate 6 0.

(** the [k] parts of [data] from the part number [part] on *)
Fixpoint emwin_parts (k : nat) (part : Z) (data : list Z) : list (Z * list Z) :=
  match k with
  | O => []
  | S k => (part, ztake EMWIN_DATA_SIZE data) :: emwin_parts k (part + 1) (zdrop EMWIN_DATA_SIZE data)
  end.

Definition invert (p : list Z) : list Z := map (fun b => Z.lxor b 255) p.

(** the packets of [data] *)
Definition emwin_packets (name date : list Z) (k : nat) (part total : Z) (data : list Z) : list (list Z) :=
  map (fun '(part, d) => invert (emwin_plain name date part total d)) (emwin_parts k part data).

(** the 1024 bytes of data that a client finds in a packet *)
Definition emwin_data (p : list Z) : list Z := zsub (6 + EMWIN_HEADER_SIZE) EMWIN_DATA_SIZE (invert p).

Lemma pad_right_length w s : zlen s <= w -> zlen (pad_right w s) = w.
Proof. intros. unfold pad_right. rewrite zlen_app. unfold zlen at 2. rewrite length_replicate. lia. Qed.

Lemma sdec_length n k : 0 <= n < 10 ^ Z.of_nat (S k) -> (k <= 20)%nat -> zlen (sdec n) <= Z.of_nat (S k).
Proof.
  intros Hn Hk. unfold sdec. destruct (Z.ltb_spec n 0); [lia|]. unfold zlen. apply inj_le.
  by apply dec_loop_length.
Qed.

Lemma text_of_length a : zlen (text_of a) <= zlen a.
Proof.
  induction a as [|c a IH]; cbn [text_of]; [done|]. rewrite zlen_cons. pose proof (zlen_nonneg a).
  destruct (c =? 0); [change (zlen []) with 0; lia|]. rewrite zlen_cons. lia.
Qed.

Lemma emwin_header_length name part total cs date :
  zlen name <= 12 -> zlen date = EMWIN_HEADER_DATESIZE -> 0 <= part < 10 ^ 5 -> 0 <= total < 10 ^ 5 ->
  0 <= cs < 10 ^ 6 -> zlen (emwin_header_text name part total cs date) = EMWIN_HEADER_SIZE.
Proof.
  intros Hn Hd Hp Ht Hc. unfold emwin_header_text. rewrite !zlen_app, Hd.
  rewrite !pad_right_length.
  - done.
  - by apply (sdec_length cs 5); [|lia].
  - by apply (sdec_length total 4); [|lia].
  - by apply (sdec_length part 4); [|lia].
  - done.
Qed.

Lemma zsum_bound l : bytes l -> 0 <= zsum l <= 255 * zlen l.
Proof.
  induction 1 as [|b l Hb _ IH]; [done|]. rewrite zlen_cons. unfold zsum, is_byte in *. cbn. lia.
Qed.

Lemma invert_invert p : invert (invert p) = p.
Proof.
  unfold invert. rewrite map_map. rewrite <- (map_id p) at 2. apply map_ext. intros b.
  by rewrite Z.lxor_assoc, Z.lxor_nilpotent, Z.lxor_0_r.
Qed.

Lemma emwin_name_length name : zlen (text_of (map toupper (ztake EMWIN_HEADER_FNAMESIZE name))) <= 12.
Proof.
  etrans; [apply text_of_length|].
  unfold zlen, ztake. rewrite length_map, length_take. unfold EMWIN_HEADER_FNAMESIZE. lia.
Qed.

(** the packet that is sent has 1116 bytes, and the data at its place *)
Lemma emwin_packet_data name date part total data : zlen date = EMWIN_HEADER_DATESIZE ->
  0 <= part < 10 ^ 5 -> 0 <= total < 10 ^ 5 -> bytes data -> zlen data <= EMWIN_DATA_SIZE ->
  zlen (invert (emwin_plain name date part total data)) = EMWIN_PACKET_SIZE /\
  emwin_data (invert (emwin_plain name date part total data)) =
    data ++ replicate (Z.to_nat (EMWIN_DATA_SIZE - zlen data)) 0.
Proof.
  intros Hd Hp Ht Hb Hl. pose proof (zsum_bound data Hb) as Hs. unfold EMWIN_DATA_SIZE in *.
  unfold emwin_data. rewrite invert_invert. unfold emwin_plain.
  set (h := emwin_header_text _ _ _ _ _).
  assert (zlen h = EMWIN_HEADER_SIZE) as Hh.
  { apply emwin_header_length; try done; [apply emwin_name_length|]. rewrite u32_small by lia. lia. }
  unfold EMWIN_DATA_SIZE. set (pad := replicate (Z.to_nat _) 0).
  assert (zlen pad = 1024 - zlen data) as Hpad by (subst pad; rewrite zlen_replicate; lia).
  split.
  - unfold invert. unfold zlen at 1. rewrite length_map. change (Z.of_nat (length ?l)) with (zlen l).
    rewrite !zlen_app, Hh, Hpad. change (zlen (replicate 6 0)) with 6.
    unfold EMWIN_HEADER_SIZE, EMWIN_PACKET_SIZE. lia.
  - rewrite (app_assoc (replicate 6 0)), (app_assoc data). unfold zsub.
    rewrite zdrop_app_exact by (rewrite zlen_app, Hh; done).
    apply ztake_app_exact. rewrite zlen_app. lia.
Qed.

(** the packets of a file, and what a client has of them *)
Lemma emwin_packets_data name date total k : forall part data, zlen date = EMWIN_HEADER_DATESIZE ->
  0 <= part -> part + Z.of_nat k <= 10 ^ 5 -> 0 <= total < 10 ^ 5 -> bytes data ->
  (Z.of_nat k - 1) * EMWIN_DATA_SIZE < zlen data <= Z.of_nat k * EMWIN_DATA_SIZE ->
  Forall (fun p => zlen p = EMWIN_PACKET_SIZE) (emwin_packets name date k part total data) /\
  concat (map emwin_data (emwin_packets name date k part total data)) =
    data ++ replicate (Z.to_nat (Z.of_nat k * EMWIN_DATA_SIZE - zlen data)) 0.
Proof.
  unfold emwin_packets. induction k as [|k IH]; intros part data Hd Hp Hpk Ht Hb Hl.
  { assert (data = []) as ->; [|by split]. destruct data; [done|]. rewrite zlen_cons in Hl.
    pose proof (zlen_nonneg data). lia. }
  cbn [emwin_parts map concat]. pose proof (ztake_zdrop EMWIN_DATA_SIZE data) as Ed.
  set (b := ztake EMWIN_DATA_SIZE data) in *. set (r := zdrop EMWIN_DATA_SIZE data) in *.
  assert (zlen b <= EMWIN_DATA_SIZE /\ (k <> 0%nat -> zlen b = EMWIN_DATA_SIZE) /\ (k = 0%nat -> r = [])) as (Hb1 & Hb2 & Hr0).
  { unfold EMWIN_DATA_SIZE in *. destruct k as [|k].
    - subst b r. rewrite ztake_ge, zdrop_ge by lia. split_and!; [lia|lia|done].
    - subst b. rewrite zlen_take by lia. split_and!; [lia|lia|done]. }
  rewrite <- Ed in Hb, Hl |- *. apply bytes_app in Hb as [Hbb Hbr]. rewrite zlen_app in *.
  destruct (emwin_packet_data name date part total b) as [Hlen Hdat]; try done; [lia|].
  rewrite Hdat. destruct k as [|k].
  - rewrite Hr0 by done. cbn [emwin_parts map concat]. rewrite !app_nil_r. change (zlen []) with 0.
    split; [by repeat constructor|]. do 3 f_equal. unfold EMWIN_DATA_SIZE. lia.
  - specialize (Hb2 ltac:(done)). unfold EMWIN_DATA_SIZE in *.
    destruct (IH (part + 1) r) as [HF Hc]; try done; try lia. unfold EMWIN_DATA_SIZE in *.
    split; [by constructor|]. rewrite Hc, Hb2. cbn [replicate Z.to_nat Z.sub].
    change (replicate (Z.to_nat (1024 - 1024)) 0) with (@nil Z). rewrite app_nil_r, <- app_assoc. do 4 f_equal. lia.
Qed.

Section parts.
Context `{FS : FileSys} {FSS : FileSysSpec FS} {FR : FileRead FS} {FRR : FileReadReliable FS FSS FR}.

(** a packet structure that is sending [rest] *)
Record sending_parts (ep : emwin_packet_st) (rest : list Z) : Prop := SendingParts {
  sp_fd : ep_fd ep = Some rest;
  sp_size : ep_packet_size ep = EMWIN_PACKET_SIZE;
  sp_date : zlen (ep_header_date ep) = EMWIN_HEADER_DATESIZE;
  sp_part : 0 <= ep_part_number ep < ep_parts_total ep;
  sp_total : ep_parts_total ep < 10 ^ 5;
  sp_last : 0 < ep_last_part_size ep <= EMWIN_DATA_SIZE;
  sp_rest : zlen rest = (ep_parts_total ep - ep_part_number ep - 1) * EMWIN_DATA_SIZE + ep_last_part_size ep
}.

Lemma build_emwin_spec ep rest : sending_parts ep rest -> bytes rest ->
  let part := ep_part_number ep + 1 in
  let data := ztake EMWIN_DATA_SIZE rest in
  exists ep', build_emwin_packet ep = Done (0, ep') /\
    ep_packet ep' = invert
      (emwin_plain (ep_fname ep) (ep_header_date ep) part (ep_parts_total ep) data) /\
    ep_packet_size ep' = EMWIN_PACKET_SIZE /\ ep_fname ep' = ep_fname ep /\
    ep_header_date ep' = ep_header_date ep /\ ep_parts_total ep' = ep_parts_total ep /\
    ep_part_number ep' = part /\
    (part < ep_parts_total ep -> sending_parts ep' (zdrop EMWIN_DATA_SIZE rest)).
Proof.
  intros [Hfd Hsz Hdt Hp Ht Hl Hr] Hb part data. unfold build_emwin_packet.
  rewrite s32_small by lia. fold part. unfold EMWIN_DATA_SIZE in *.
  set (size := if part =? ep_parts_total ep then ep_last_part_size ep else 1024).
  assert (0 < size <= 1024 /\ size <= zlen rest /\ ztake size rest = data /\ zdrop size rest = zdrop 1024 rest)
    as (Hs1 & Hs2 & Ed & Edr).
  { subst size. destruct (Z.eqb_spec part (ep_parts_total ep)) as [E|E].
    - assert (zlen rest = ep_last_part_size ep) as E2 by lia.
      split_and!; [lia|lia|lia| |]; [subst data; by rewrite !ztake_ge by lia|by rewrite !zdrop_ge by lia].
    - split_and!; try done; lia. }
  assert (zlen data = size) as Hd by (rewrite <- Ed; apply zlen_take; lia).
  rewrite Hfd, Hsz, read_ret_ok by lia. rewrite Z.min_l by lia. rewrite Ed, Edr.
  change (replicate (Z.to_nat EMWIN_PACKET_SIZE) 0)
    with (replicate 6 0 ++ replicate 80 0 ++ replicate 1024 0 ++ replicate 6 0 : list Z).
  set (z6 := replicate 6 0). set (z80 := replicate 80 0).
  assert (zlen (replicate 1024 0 : list Z) = 1024) as H1024 by done.
  rewrite (app_assoc z6 z80).
  rewrite (wr_app (z6 ++ z80)) by (done || (rewrite zlen_app, H1024, Hd; pose proof (zlen_nonneg z6); lia)).
  cbn [obind]. rewrite Z.eqb_refl. cbn [negb]. rewrite zdrop_app_exact by done.
  rewrite zdrop_app_le by lia.
  assert (zdrop (zlen data) (replicate 1024 0) = replicate (Z.to_nat (1024 - zlen data)) 0) as ->.
  { unfold zdrop. rewrite drop_replicate. f_equal. lia. }
  rewrite calc_checksum_prefix by done. cbn [obind ep_fname ep_header_date ep_packet ep_packet_size ep_fd
    ep_parts_total ep_last_part_size].
  pose proof (zsum_bound data ltac:(subst data; by apply bytes_ztake)) as Hsum.
  rewrite (u32_small (zsum data)), s32_small by lia.
  unfold build_emwin_header. cbn [obind ep_fname ep_header_date ep_packet ep_packet_size ep_fd
    ep_parts_total ep_last_part_size ep_part_number ep_checksum].
  set (h := emwin_header_text _ _ _ _ _).
  assert (zlen h = EMWIN_HEADER_SIZE) as Hh.
  { apply emwin_header_length; try done; try lia. apply emwin_name_length. }
  rewrite Hh. cbn [c_assert]. change (EMWIN_HEADER_SIZE =? EMWIN_HEADER_SIZE) with true. cbn [c_assert].
  rewrite (ztake_ge _ h) by lia. rewrite <- (app_assoc z6).
  set (tl := data ++ _). pose proof (zlen_nonneg tl).
  rewrite (wr_app z6) by (done || (rewrite Hh, zlen_app; change (zlen z80) with 80; unfold EMWIN_HEADER_SIZE; lia)).
  cbn [obind Z.eqb negb]. rewrite Hh, zdrop_app_exact by done.
  eexists. split; [reflexivity|]. cbn [obind ep_fname ep_header_date ep_packet ep_packet_size ep_fd
    ep_parts_total ep_last_part_size ep_part_number ep_checksum].
  split; [|split_and!; try done].
  - unfold emwin_plain, EMWIN_DATA_SIZE. rewrite (u32_small (zsum data)) by lia. done.
  - intros Hlt. split; cbn; try done; try lia. unfold EMWIN_DATA_SIZE in *. rewrite zlen_drop; nia.
Qed.

End parts.
