(* ===== verification/Serverc.v ===== *)
(** * Serverc: src/src/serverc.c, sending to a client

    The thread of a client takes the packets of [Packfp] (or, for EMWIN, a
    path) from the queue of the client and sends the products: whole ([Nbs1]),
    as the packet itself, or as EMWIN packets ([Emwin]). When the client cannot
    be written to, its connection is marked closed and the thread waits for
    another one, on which the product is sent again from the start.

    [None] for a descriptor is -1. The connections that the main thread makes
    meanwhile, and the quit flag, are an input. The numbers of bytes, kept in a
    [double], are integers here. *)

From stdpp Require Import gmap.
From S2P Require Import Prelude Util CLib Mfile Pctldb Pctl Nreadn Packfp File Mspool Nbs1 Emwin.

Definition PROTOCOL_NBS1 : Z := 1.
Definition PROTOCOL_NBS2 : Z := 2.
Definition PROTOCOL_EMWIN : Z := 4.

Record conn_stats_st := ConnStats {
  errors_ctime : Z;
  packets_ctime : Z;
  bytes_ctime : Z;
  errors_rtime : Z;
  packets_rtime : Z;
  bytes_rtime : Z
}.

Definition conn_stats_update_packets (packet_size : Z) (cs : conn_stats_st) : conn_stats_st :=
  ConnStats (errors_ctime cs) (u32 (packets_ctime cs + 1)) (bytes_ctime cs + packet_size)
    (errors_rtime cs) (u32 (packets_rtime cs + 1)) (bytes_rtime cs + packet_size).
Definition conn_stats_update_errors (cs : conn_stats_st) : conn_stats_st :=
  ConnStats (u32 (errors_ctime cs + 1)) (packets_ctime cs) (bytes_ctime cs)
    (u32 (errors_rtime cs + 1)) (packets_rtime cs) (bytes_rtime cs).

(** [ce_mutex_ok]: the mutex of the thread information can be locked *)
Record conn_element_st := ConnElement {
  ce_fd : option fd_st;
  ce_connection_status : Z;
  ce_exit : Z;
  ce_stats : conn_stats_st;
  ce_protocol : Z;
  ce_write_retry : Z;
  ce_reconnect_wait_sleep_retry : Z;
  ce_mutex_ok : bool
}.

Definition conn_element_set_fd (fd : option fd_st) (ce : conn_element_st) : conn_element_st :=
  ConnElement fd (ce_connection_status ce) (ce_exit ce) (ce_stats ce) (ce_protocol ce)
    (ce_write_retry ce) (ce_reconnect_wait_sleep_retry ce) (ce_mutex_ok ce).
Definition conn_element_set_exit_flag (ce : conn_element_st) : conn_element_st :=
  ConnElement (ce_fd ce) (ce_connection_status ce) 1 (ce_stats ce) (ce_protocol ce)
    (ce_write_retry ce) (ce_reconnect_wait_sleep_retry ce) (ce_mutex_ok ce).
Definition set_ce_stats v (ce : conn_element_st) : conn_element_st :=
  ConnElement (ce_fd ce) (ce_connection_status ce) (ce_exit ce) v (ce_protocol ce)
    (ce_write_retry ce) (ce_reconnect_wait_sleep_retry ce) (ce_mutex_ok ce).

(** [fd_open]: the descriptor is not -1 *)
Definition conn_element_set_connection_status (fd_open : bool) (ce : conn_element_st)
  : Z * conn_element_st :=
  if negb (ce_mutex_ok ce) then (-1, ce)
  else (0, ConnElement (ce_fd ce) (if fd_open then 0 else 1) (ce_exit ce) (ce_stats ce) (ce_protocol ce)
             (ce_write_retry ce) (ce_reconnect_wait_sleep_retry ce) (ce_mutex_ok ce)).

(** ** Transmitting *)

(** the common end of the functions that write to the client *)
Definition transmitted (status packet_size : Z) (f : fd_st) (ce : conn_element_st) : conn_element_st :=
  if negb (status =? 0) then
    let ce := conn_element_set_fd None ce in
    let (st, ce) := conn_element_set_connection_status false ce in
    if negb (st =? 0) then conn_element_set_exit_flag ce else ce
  else
    let ce := conn_element_set_fd (Some f) ce in
    set_ce_stats (conn_stats_update_packets packet_size (ce_stats ce)) ce.

(** a write on -1 fails *)
Definition emwin_retransmit_packet (ce : conn_element_st) (ep : emwin_packet_st) : Z * conn_element_st :=
  match ce_fd ce with
  | None => (-1, transmitted (-1) 0 (Fd [] [] []) ce)
  | Some f =>
      let (status, f) := send_emwin_packet f ep (ce_write_retry ce) in
      (status, transmitted status (ep_packet_size ep) f ce)
  end.

Definition nbs_retransmit_packet (ce : conn_element_st) (n : nbs1_packet_st) : Z * conn_element_st :=
  match ce_fd ce with
  | None => (-1, transmitted (-1) 0 (Fd [] [] []) ce)
  | Some f =>
      let (status, f) := send_nbs_packet f n (ce_write_retry ce) in
      (status, transmitted status (nb_packet_size n) f ce)
  end.

Definition send_nbs2_client (ce : conn_element_st) (packet : list Z) : Z * conn_element_st :=
  match ce_fd ce with
  | None => (-1, transmitted (-1) 0 (Fd [] [] []) ce)
  | Some f =>
      let (n, f) := writem f packet (zlen packet) (ce_write_retry ce) in
      let status := if n =? -1 then -1 else if negb (u64 n =? zlen packet) then 1 else 0 in
      (status, transmitted status (zlen packet) f ce)
  end.

Section serverc.
Context `{Hp : Heap} `{FS : FileSys} {FR : FileRead FS} `{Sb : SpoolBdb}.

(** [k] turns of the loop of [send_emwin_client] *)
Fixpoint emwin_loop (k : nat) (ce : conn_element_st) (ep : emwin_packet_st)
  : outcome (Z * conn_element_st * emwin_packet_st) :=
  match k with
  | O => Done (0, ce, ep)
  | S k =>
      let* (status, ep) := build_emwin_packet ep in
      let (status, ce) := if status =? 0 then emwin_retransmit_packet ce ep else (status, ce) in
      if negb (status =? 0) then Done (status, ce, ep) else emwin_loop k ce ep
  end.

(** [date]: the time; [ep0]: what the structure held *)
Definition send_emwin_client (s : spools) (date : list Z) (ep0 : emwin_packet_st) (ce : conn_element_st)
    (fpathout emwinfname : list Z) : outcome (Z * conn_element_st) :=
  let* (status, ep) := init_emwin_packet_st (sp_fs s) fpathout emwinfname date ep0 in
  if negb (status =? 0) then Done (status, ce) else
  let* (status, ce, _) := emwin_loop (Z.to_nat (ep_parts_total ep)) ce ep in
  Done (status, ce).

Fixpoint nbs_loop (k : nat) (s : spools) (ce : conn_element_st) (n : nbs1_packet_st)
  : outcome (Z * conn_element_st * nbs1_packet_st * spools) :=
  match k with
  | O => Done (0, ce, n, s)
  | S k =>
      let* (status, n, s) := build_nbs_packet s n in
      let (status, ce) := if status =? 0 then nbs_retransmit_packet ce n else (status, ce) in
      if negb (status =? 0) then Done (status, ce, n, s) else nbs_loop k s ce n
  end.

(** [None]: waiting for a slot of the spool; [n0]: what the structure held *)
Definition send_nbs1_client (junk : Z -> list Z) (wakeups : list (Z * spoolbuf_slots_st))
    (n0 : nbs1_packet_st) (s : spools) (ce : conn_element_st) (packet : list Z)
  : outcome (option (Z * conn_element_st * spools)) :=
  let* (status, pi) := nbsfp_unpack_fpath
    (PacketInfo 0 0 0 0 0 None None (Some packet) (zlen packet)) in
  if negb (status =? 0) then Done (Some (status, ce, s)) else
  match pi_fpath pi with
  | None => Undef
  | Some i =>
      let* fpath := cstr (zdrop i packet) in
      let* r := init_nbs_packet_st junk wakeups s fpath (pi_seq_number pi) (pi_product_type pi)
                  (pi_product_category pi) (pi_product_code pi) (pi_np_channel_index pi) n0 in
      match r with
      | None => Done None
      | Some (status, n, s) =>
          if negb (status =? 0) then Done (Some (status, ce, s)) else
          let* (status, ce, n, s) := nbs_loop (Z.to_nat (nb_num_blocks n)) s ce n in
          let* (_, s) := free_nbs_packet_st s n in
          Done (Some (status, ce, s))
      end
  end.

(** ** A client *)

(** what is in the queue of the client *)
Inductive client_data :=
| PacketData (packet : list Z)
| EmwinData (fpathout emwinfname : list Z).

(** the memory of the functions, and the time *)
Record scratch := Scratch {
  sc_junk : Z -> list Z;
  sc_wakeups : list (Z * spoolbuf_slots_st);
  sc_nbs : nbs1_packet_st;
  sc_ep : emwin_packet_st;
  sc_date : list Z
}.

Definition send_client1 (x : scratch) (s : spools) (ce : conn_element_st) (data : client_data)
  : outcome (option (Z * conn_element_st * spools)) :=
  let count status (ce : conn_element_st) :=
    if negb (status =? 0) then set_ce_stats (conn_stats_update_errors (ce_stats ce)) ce else ce in
  if ce_protocol ce =? PROTOCOL_NBS1 then
    match data with
    | PacketData p =>
        let* r := send_nbs1_client (sc_junk x) (sc_wakeups x) (sc_nbs x) s ce p in
        Done (match r with
              | None => None
              | Some (status, ce, s) => Some (status, count status ce, s)
              end)
    | EmwinData _ _ => Undef
    end
  else if ce_protocol ce =? PROTOCOL_NBS2 then
    match data with
    | PacketData p => let (status, ce) := send_nbs2_client ce p in Done (Some (status, count status ce, s))
    | EmwinData _ _ => Undef
    end
  else if ce_protocol ce =? PROTOCOL_EMWIN then
    match data with
    | PacketData _ => Undef
    | EmwinData fpathout emwinfname =>
        let* (status, ce) := send_emwin_client s (sc_date x) (sc_ep x) ce fpathout emwinfname in
        Done (Some (status, count status ce, s))
    end
  else Done (Some (1, ce, s)).

(** [w]: the connection that the main thread has made during the wait *)
Definition wait_client_reconnection (w : option fd_st) (ce : conn_element_st) : Z * conn_element_st :=
  if negb (ce_mutex_ok ce) then (-1, ce) else
  match w with
  | Some f => (0, conn_element_set_fd (Some f) (conn_element_set_connection_status true ce).2)
  | None =>
      (* the status is 0 only when there is a connection *)
      (ce_connection_status ce, ce)
  end.

(** the loop of [send_client]; one element of [waits] for each turn: the
    connection made during the wait, and the quit flag. [None]: still there *)
Fixpoint send_client_loop (waits : list (option fd_st * Z)) (status count : Z) (x : scratch) (s : spools)
    (ce : conn_element_st) (data : client_data) : outcome (option (Z * conn_element_st * spools)) :=
  let* r := match ce_fd ce with
            | Some _ => send_client1 x s ce data
            | None => Done (Some (status, ce, s))
            end in
  match r with
  | None => Done None
  | Some (status, ce, s) =>
      match ce_fd ce with
      | Some _ => Done (Some (status, ce, s))
      | None =>
          if count =? ce_reconnect_wait_sleep_retry ce then Done (Some (status, ce, s)) else
          match waits with
          | [] => Done None
          | (w, quit) :: waits =>
              let (status, ce) := wait_client_reconnection w ce in
              let count := if negb (status =? 0) then s32 (count + 1) else count in
              if (quit =? 0) && (ce_exit ce =? 0) then send_client_loop waits status count x s ce data
              else Done (Some (status, ce, s))
          end
      end
  end.
Definition send_client (waits : list (option fd_st * Z)) := send_client_loop waits 0 0.

(** what [loop] does with the data from the queue of the client *)
Definition serve (waits : list (option fd_st * Z)) (x : scratch) (s : spools) (ce : conn_element_st)
    (data : client_data) : outcome (option (conn_element_st * spools)) :=
  let* r := send_client waits x s ce data in
  Done (match r with
        | None => None
        | Some (status, ce, s) =>
            Some (if negb (status =? 0)
                  then conn_element_set_exit_flag
                         (set_ce_stats (conn_stats_update_errors (ce_stats ce)) ce)
                  else ce, s)
        end).
End serverc.

(** ** What the client receives *)

(** the [k] packets with the blocks of [data], after the block [number] *)
Fixpoint nbs_packets (k : nat) (n : nbs1_packet_st) (number : Z) (data : list Z) : list (list Z) :=
  match k with
  | O => []
  | S k =>
      let b := ztake NBS1_BLOCK_SIZE data in
      nbs_packet (set_nb_next (zlen b) (number + 1) n) b ::
      nbs_packets k n (number + 1) (zdrop NBS1_BLOCK_SIZE data)
  end.

(** the members that are in the header *)
Definition same_product (n n' : nbs1_packet_st) : Prop :=
  nb_seq_number n' = nb_seq_number n /\ nb_product_type n' = nb_product_type n /\
  nb_product_category n' = nb_product_category n /\ nb_product_code n' = nb_product_code n /\
  nb_np_channel_index n' = nb_np_channel_index n /\ nb_fbasename n' = nb_fbasename n /\
  nb_f_zip n' = nb_f_zip n /\ nb_num_blocks n' = nb_num_blocks n.

Lemma nbs_packet_same n n' size number b : same_product n n' ->
  nbs_packet (set_nb_next size number n') b = nbs_packet (set_nb_next size number n) b.
Proof.
  intros (E1 & E2 & E3 & E4 & E5 & E6 & E7 & E8). unfold nbs_packet, nbs_header.
  cbn [set_nb_next nb_seq_number nb_product_type nb_product_category nb_product_code nb_np_channel_index
    nb_fbasename nb_f_zip nb_num_blocks nb_block_number nb_block_size].
  by rewrite E1, E2, E3, E4, E5, E6, E7, E8.
Qed.

Lemma nbs_packets_same k n n' : same_product n n' -> forall number data,
  nbs_packets k n' number data = nbs_packets k n number data.
Proof.
  intros Hs. induction k as [|k IH]; intros number data; [done|]. cbn [nbs_packets].
  by rewrite IH, (nbs_packet_same n n') by done.
Qed.

Section theory.
Context `{Hp : Heap} {FS : FileSys} {FSS : FileSysSpec FS} {FSR : FileSysReliable FS FSS} {FR : FileRead FS} {FRR : FileReadReliable FS FSS FR}
  `{SR : SpoolBdbReliable}.

(** a packet structure that is sending [rest] *)
Record nbs_sending (s : spools) (n : nbs1_packet_st) (rest : list Z) : Prop := NbsSending {
  ns_packet : zlen (nb_packet n) = NBS1_PACKET_MAXSIZE;
  ns_left : left_to_read s n rest;
  ns_number : 0 <= nb_block_number n <= nb_num_blocks n;
  ns_num : nb_num_blocks n < 2 ^ 31;
  ns_last : 0 < nb_last_block_size n <= NBS1_BLOCK_SIZE;
  ns_rest : zlen rest = Z.max 0 ((nb_num_blocks n - nb_block_number n - 1) * NBS1_BLOCK_SIZE +
              nb_last_block_size n) \/ nb_block_number n = nb_num_blocks n
}.

(** a client that is connected *)
Definition connected (ce : conn_element_st) (f : fd_st) : Prop :=
  ce_fd ce = Some f /\ Forall room_ok (events f).

Lemma transmitted_ok ce f f' status size : connected ce f -> Forall room_ok (events f') ->
  (status = 0 -> connected (transmitted status size f' ce) f') /\
  (status <> 0 -> ce_fd (transmitted status size f' ce) = None).
Proof.
  intros _ HF. unfold transmitted. split.
  - intros ->. by split.
  - destruct (Z.eqb_spec status 0); [done|]. intros _. cbn [negb].
    unfold conn_element_set_connection_status. cbn. by destruct (ce_mutex_ok ce).
Qed.

(** bytes are sent whole, or the connection is closed *)
Lemma write_or_close ce f d size status k f' : connected ce f -> 0 <= size <= zlen d ->
  writem f d size (ce_write_retry ce) = (k, f') -> (-1 <= k <= size -> status = 0 -> k = size) ->
  (status = 0 -> exists f1, connected (transmitted status size f' ce) f1 /\ sent f1 = sent f ++ ztake size d) /\
  (status <> 0 -> ce_fd (transmitted status size f' ce) = None).
Proof.
  intros [Hf HF] Hs E Hst. pose proof (writem_loop_room _ _ _ _ _ _ _ _ E HF) as HF'.
  destruct (transmitted_ok ce f f' status size) as [H0 H1]; [by split|done|].
  split; [|done]. intros E0. exists f'. split; [by apply H0|].
  destruct (writem_loop_spec (Z.to_nat size) f d 0 size (ce_write_retry ce) HF)
    as (k' & f1 & E1 & Hk & _); [lia|lia|lia|].
  pose proof E as E2. unfold writem in E2. rewrite E2 in E1. injection E1 as <- <-.
  rewrite (Hst ltac:(lia) E0) in E. by eapply writem_full.
Qed.

Lemma nbs_retransmit_spec ce f n : connected ce f ->
  0 <= nb_packet_size n <= zlen (nb_packet n) -> zlen (nb_packet n) < 2 ^ 31 ->
  let '(st, ce') := nbs_retransmit_packet ce n in
  (st = 0 -> exists f', connected ce' f' /\ sent f' = sent f ++ ztake (nb_packet_size n) (nb_packet n)) /\
  (st <> 0 -> ce_fd ce' = None).
Proof.
  intros Hc Hs Hl. pose proof Hc as [Hf _]. unfold nbs_retransmit_packet. rewrite Hf. unfold send_nbs_packet.
  destruct (writem f (nb_packet n) (nb_packet_size n) (ce_write_retry ce)) as [k f'] eqn:E.
  apply (write_or_close ce f _ _ _ k f' Hc Hs E). intros Hk.
  destruct (Z.eqb_spec k (-1)); [done|]. rewrite u64_small by lia.
  by destruct (Z.eqb_spec k (nb_packet_size n)).
Qed.

Lemma emwin_retransmit_spec ce f ep : connected ce f -> 0 <= ep_packet_size ep <= zlen (ep_packet ep) ->
  let '(st, ce') := emwin_retransmit_packet ce ep in
  (st = 0 -> exists f', connected ce' f' /\ sent f' = sent f ++ ztake (ep_packet_size ep) (ep_packet ep)) /\
  (st <> 0 -> ce_fd ce' = None).
Proof.
  intros Hc Hs. pose proof Hc as [Hf _]. unfold emwin_retransmit_packet. rewrite Hf. unfold send_emwin_packet.
  destruct (writem f (ep_packet ep) (ep_packet_size ep) (ce_write_retry ce)) as [k f'] eqn:E.
  apply (write_or_close ce f _ _ _ k f' Hc Hs E). intros Hk.
  destruct (Z.eqb_spec k (-1)); [done|]. by destruct (Z.eqb_spec k (ep_packet_size ep)).
Qed.

Lemma emwin_loop_spec k : forall ce f ep rest, connected ce f -> bytes rest ->
  (k = 0%nat \/ sending_parts ep rest) -> Z.of_nat k = ep_parts_total ep - ep_part_number ep ->
  exists st ce' ep', emwin_loop k ce ep = Done (st, ce', ep') /\
    (st = 0 -> exists f', connected ce' f' /\ sent f' = sent f ++
       concat (emwin_packets (ep_fname ep) (ep_header_date ep) k (ep_part_number ep + 1) (ep_parts_total ep) rest)) /\
    (st <> 0 -> ce_fd ce' = None).
Proof.
  induction k as [|k IH]; intros ce f ep rest Hc Hb Hs Hk.
  { eexists _, _, _. split; [done|]. split; [|done]. intros _. exists f. split; [done|]. cbn. by rewrite app_nil_r. }
  destruct Hs as [|Hs]; [done|]. pose proof Hs as [_ _ Hdt Hpn Htt _ _].
  cbn [emwin_loop]. destruct (build_emwin_spec ep rest Hs Hb) as (ep' & -> & Epk & Esz & En & Ed & Et & Epn & Hnext).
  cbn [obind Z.eqb]. unfold emwin_packets. cbn [emwin_parts map concat].
  set (b := ztake EMWIN_DATA_SIZE rest) in *.
  destruct (emwin_packet_data (ep_fname ep) (ep_header_date ep) (ep_part_number ep + 1) (ep_parts_total ep) b)
    as [Hlen _]; [done|lia|lia|by apply bytes_ztake| |].
  { subst b. unfold EMWIN_DATA_SIZE, zlen, ztake. rewrite length_take. lia. }
  rewrite <- Epk in Hlen |- *.
  pose proof (emwin_retransmit_spec ce f ep' Hc) as Hr. rewrite Esz in Hr.
  specialize (Hr ltac:(rewrite Hlen; done)). rewrite ztake_ge in Hr by lia.
  destruct (emwin_retransmit_packet ce ep') as [st ce1]. destruct Hr as [Hr0 Hr1].
  destruct (Z.eqb_spec st 0) as [->|Hst]; cbn [negb]; [|by eexists _, _, _].
  destruct (Hr0 eq_refl) as (f1 & Hc1 & Es1).
  destruct (IH ce1 f1 ep' (zdrop EMWIN_DATA_SIZE rest) Hc1) as (st2 & ce2 & ep2 & -> & H0 & H1).
  - by apply bytes_zdrop.
  - destruct k; [by left|right]. apply Hnext. lia.
  - rewrite Et, Epn. lia.
  - eexists _, _, _. split; [done|]. split; [|done]. intros E0. destruct (H0 E0) as (f2 & Hc2 & Es2).
    exists f2. split; [done|]. rewrite Es2, Es1, En, Ed, Et, Epn, <- app_assoc. done.
Qed.

Lemma nbs_loop_spec k : forall s ce f n rest, connected ce f -> nbs_sending s n rest ->
  Z.of_nat k = nb_num_blocks n - nb_block_number n ->
  exists st ce' n' s', nbs_loop k s ce n = Done (st, ce', n', s') /\
    (st = 0 -> exists f', connected ce' f' /\ sent f' = sent f ++ concat (nbs_packets k n (nb_block_number n) rest)) /\
    (st <> 0 -> ce_fd ce' = None) /\ exists rest', left_to_read s' n' rest'.
Proof.
  induction k as [|k IH]; intros s ce f n rest Hc Hn Hk.
  { eexists _, _, _, _. split; [done|]. split; [|split; [done|exists rest; by apply Hn]]. intros _. exists f. split; [done|]. cbn. by rewrite app_nil_r. }
  pose proof Hn as [Hpk Hleft Hnum Hnb Hlast Hrest]. cbn [nbs_loop nbs_packets].
  destruct Hrest as [Hrest|]; [|lia].
  assert (0 < next_size n <= NBS1_BLOCK_SIZE /\ next_size n <= zlen rest /\
    ztake (next_size n) rest = ztake NBS1_BLOCK_SIZE rest /\ zdrop (next_size n) rest = zdrop NBS1_BLOCK_SIZE rest)
    as (Hs1 & Hs2 & Et & Ed).
  { unfold next_size, NBS1_BLOCK_SIZE in *.
    destruct (Z.eqb_spec (nb_block_number n + 1) (nb_num_blocks n)) as [E|E].
    - assert (zlen rest = nb_last_block_size n) as E2 by lia.
      split_and!; [lia|lia|lia| |]; [by rewrite !ztake_ge by lia|by rewrite !zdrop_ge by lia].
    - split_and!; try done; lia. }
  destruct (build_spec s n rest Hpk Hleft) as (p & fd & s' & -> & Hleft' & Hp' & Etk); [lia|done|done|].
  cbn [obind Z.eqb]. rewrite Et, Ed in *.
  assert (zlen (ztake NBS1_BLOCK_SIZE rest) = next_size n) as Hb by (rewrite <- Et; apply zlen_take; lia).
  rewrite Hb. set (m := set_nb_next (next_size n) (nb_block_number n + 1) n) in *.
  set (pk := nbs_packet m (ztake NBS1_BLOCK_SIZE rest)) in *.
  assert (zlen pk = NBS_ENVELOPE_SIZE + NBS1_HEADER_SIZE + next_size n) as Hpl.
  { unfold pk. rewrite nbs_packet_length. lia. }
  set (n1 := set_nb_packet p _).
  assert (zlen pk <= NBS1_PACKET_MAXSIZE < 2 ^ 31) as Hpm.
  { rewrite Hpl. unfold NBS1_PACKET_MAXSIZE. split; [lia|done]. }
  pose proof (zlen_nonneg pk).
  pose proof (nbs_retransmit_spec ce f n1 Hc) as Hr. cbn [n1 nb_packet_size nb_packet set_nb_packet set_nb_packet_size] in Hr.
  specialize (Hr ltac:(lia) ltac:(lia)). fold n1 in Hr.
  destruct (nbs_retransmit_packet ce n1) as [st ce1]. destruct Hr as [Hr0 Hr1].
  destruct (Z.eqb_spec st 0) as [->|Hst]; cbn [negb].
  2: { eexists _, _, _, _. split; [done|]. split; [done|].
       split; [by intros _; apply Hr1|]. by eexists. }
  destruct (Hr0 eq_refl) as (f1 & Hc1 & Es1). rewrite Etk in Es1.
  destruct (IH s' ce1 f1 n1 (zdrop NBS1_BLOCK_SIZE rest) Hc1) as (st2 & ce2 & n2 & s2 & -> & H0 & H1).
  - split; cbn; try done; try lia.
    destruct (Z.eqb_spec (nb_block_number n + 1) (nb_num_blocks n)) as [E|E]; [by right|left].
    unfold NBS1_BLOCK_SIZE in *. rewrite zlen_drop; lia.
  - cbn. lia.
  - eexists _, _, _, _. split; [done|]. split; [|done]. intros E0. destruct (H0 E0) as (f2 & Hc2 & Es2).
    exists f2. split; [done|]. rewrite Es2, Es1. cbn [concat]. rewrite <- app_assoc. do 2 f_equal.
    by rewrite (nbs_packets_same k n n1).
Qed.

(** ** Products in the spool *)

(** the memory spool has the product, and a free slot *)
Definition spool_holds (ms : option mspoolbdb_st) (fpath data : list Z) : Prop :=
  exists m k gens, ms = Some m /\ get_fpath_key fpath = Some k /\
    spool_rep (ms_spoolbdbv m) gens /\ gens_find k gens = Some data /\ can_load gens /\
    slots_wf (ms_spoolslots m) /\ ss_numslots (ms_spoolslots m) < ss_maxslots (ms_spoolslots m).

(** the spool, whatever its type, has the product *)
Definition product_stored (s : spools) (fpath data : list Z) : Prop :=
  sp_type s = SPOOLTYPE_FS /\ fs_files (sp_fs s) !! fpath = Some data \/
  (sp_type s = SPOOLTYPE_MBDB \/ sp_type s = SPOOLTYPE_FMBDB) /\ spool_holds (sp_mspool s) fpath data \/
  (sp_type s = SPOOLTYPE_CBDB \/ sp_type s = SPOOLTYPE_MCBDB) /\ spool_holds (sp_cspool s) fpath data.

Context (junk : Z -> list Z) (Hjunk : forall n, 0 <= n -> zlen (junk n) = n).

Lemma open_spooled_spec ms fpath data : spool_holds ms fpath data -> zlen data < 2 ^ 32 ->
  exists sd m', open_spooled junk ms fpath [] = Done (Some (0, sd, zlen data, m')) /\ 0 <= sd /\
    slot_left (Some m') sd data.
Proof.
  intros (m & k & gens & -> & Hk & Hr & Hf & Hc & Hw & Hfree) Hl. unfold open_spooled, nbsp_mspoolbdb_open.
  rewrite Hk. unfold mspoolbdb_slots_open.
  destruct (slots_open_spec junk Hjunk (ms_spoolslots m) (ms_spoolbdbv m) gens k data Hw Hfree Hr Hc Hf)
    as (sd & ss' & sb & -> & Hsd & _ & _ & _ & Hsb & (L1 & L2 & r & L3) & Hstat).
  cbn [obind Z.eqb negb default]. change (id sd) with sd. destruct (Z.ltb_spec sd 0); [lia|].
  unfold nbsp_mspoolbdb_datasize, mspoolbdb_slots_datasize, spoolbuf_slots_datasize. cbn [ms_spoolslots].
  rewrite (proj2 (rd_Done _ _ _) Hsb). cbn [obind]. unfold spoolbuf_datasize. rewrite L1.
  eexists sd, _. split; [reflexivity|]. split; [done|].
  exists (Mspoolbdb (ms_spoolbdbv m) ss'), data, r, (sb_max sb), 0. pose proof (zlen_nonneg data).
  pose proof (znth_Some_lt _ _ _ Hstat).
  split_and!; try done; try (cbn; lia). cbn. rewrite Hsb. f_equal. destruct sb. cbn in *. by subst.
Qed.

(** the number of blocks and the size of the last one *)
Lemma block_counts size : 0 < size ->
  0 < get_last_block_size size <= NBS1_BLOCK_SIZE /\ 0 < get_num_blocks size /\
  size = (get_num_blocks size - 1) * NBS1_BLOCK_SIZE + get_last_block_size size.
Proof.
  intros Hs. unfold get_num_blocks, get_last_block_size, NBS1_BLOCK_SIZE.
  pose proof (Z.quot_rem' size 65536) as Hqr. pose proof (Z.rem_bound_pos size 65536 ltac:(lia) ltac:(lia)).
  rewrite s32_small by lia. pose proof (Z.quot_pos size 65536 ltac:(lia) ltac:(lia)).
  destruct (Z.eqb_spec (Z.rem size 65536) 0) as [E|E]; cbn [negb]; lia.
Qed.

(** what the header of the packets of the product [e] has *)
Definition nbs_of (e : pctl_element_st) (base : list Z) (size : Z) : nbs1_packet_st :=
  Nbs1 [] 0 0 (get_num_blocks size) 0 0 0 None (-1) (-1) (seq_number e)
    (schar (u8 (psh_product_type e))) (schar (u8 (psh_product_category e)))
    (schar (u8 (psh_product_code e))) (schar (u8 (pce_np_channel_index e)))
    (strncpy_bytes base (FBASENAME_SIZE + 1)) 0 0.

(** the bytes sent for the product [e] with the contents [data] *)
Definition nbs_stream (e : pctl_element_st) (base data : list Z) : list Z :=
  concat (nbs_packets (Z.to_nat (get_num_blocks (zlen data))) (nbs_of e base (zlen data)) 0 data).

Lemma init_spec s fpath data base seq ty ca co ch n0 : product_stored s fpath data ->
  0 < zlen data < 2 ^ 32 -> findbasename (Some fpath) = Some base -> zlen base <= FBASENAME_SIZE ->
  zlen (nb_packet n0) = NBS1_PACKET_MAXSIZE ->
  exists n s', init_nbs_packet_st junk [] s fpath seq ty ca co ch n0 = Done (Some (0, n, s')) /\
    nbs_sending s' n data /\ nb_block_number n = 0 /\
    same_product (Nbs1 [] 0 0 (get_num_blocks (zlen data)) 0 0 0 None (-1) (-1) seq ty ca co ch
                    (strncpy_bytes base (FBASENAME_SIZE + 1)) 0 0) n.
Proof.
  intros Hst Hd Hb Hbl Hpk. destruct (block_counts (zlen data)) as (Hl & Hn & Hsz); [lia|].
  assert (get_num_blocks (zlen data) < 2 ^ 31) by (unfold NBS1_BLOCK_SIZE in Hsz; nia).
  assert (exists fd cfd mfd s', open_product junk [] s fpath = Done (Some (0, fd, cfd, mfd, zlen data, s')) /\
    forall n, nb_fsfd n = fd -> nb_cfd n = cfd -> nb_mfd n = mfd -> left_to_read s' n data)
    as (fd & cfd & mfd & s' & E & Hleft).
  { unfold open_product, left_to_read. destruct Hst as [[Ht Hf]|[[Ht Hsp]|[Ht Hsp]]].
    - rewrite Ht. change (spooltype_fsspool SPOOLTYPE_FS) with 1. cbn [Z.eqb negb].
      unfold get_file_size. rewrite fsr_stat, Hf. cbn [Z.eqb]. rewrite (open_rd_ok _ _ _ Hf).
      eexists _, _, _, _. split; [reflexivity|]. by intros n -> _ _.
    - destruct (open_spooled_spec _ _ _ Hsp) as (sd & m' & E & Hsd & Hl1); [lia|].
      assert (spooltype_fsspool (sp_type s) = 0 /\ spooltype_mspool (sp_type s) = 1) as [-> ->]
        by (destruct Ht as [-> | ->]; done).
      cbn [Z.eqb negb]. rewrite E. cbn [obind]. eexists _, _, _, _. split; [reflexivity|].
      intros n -> -> ->. change (-1 =? -1) with true. cbn [negb]. split; [lia|done].
    - destruct (open_spooled_spec _ _ _ Hsp) as (sd & m' & E & Hsd & Hl1); [lia|].
      assert (spooltype_fsspool (sp_type s) = 0 /\ spooltype_mspool (sp_type s) = 0 /\
        spooltype_cspool (sp_type s) = 1) as (-> & -> & ->) by (destruct Ht as [-> | ->]; done).
      cbn [Z.eqb negb]. rewrite E. cbn [obind]. eexists _, _, _, _. split; [reflexivity|].
      intros n -> -> ->. destruct (Z.eqb_spec sd (-1)); [lia|]. cbn [negb]. done. }
  unfold init_nbs_packet_st. rewrite E. cbn [obind Z.eqb negb]. rewrite Hb.
  destruct (Z.leb_spec (zlen base) FBASENAME_SIZE); [|lia]. cbn [c_assert].
  eexists _, s'. split; [reflexivity|]. rewrite s32_small by lia.
  split; [|split; [done|by split_and!]].
  split; cbn [nb_packet nb_block_number nb_num_blocks nb_last_block_size set_nb_fds]; try done; try lia.
  by apply Hleft.
Qed.

Lemma findbasename_app d b : Forall (fun c => c <> 47) b -> nonul b -> b <> [] ->
  nonul d -> findbasename (Some (d ++ 47 :: b)) = Some b.
Proof.
  intros Hb Hn Hne Hd. unfold findbasename.
  assert (valid_str (Some (d ++ 47 :: b)) = 1) as ->.
  { destruct d as [|c d]; [done|]. apply Forall_cons_iff in Hd as [Hc _]. cbn. by destruct (Z.eqb_spec c 0). }
  cbn [Z.eqb].
  assert (strrchr_after 47 b = None) as Hno.
  { clear -Hb. induction b as [|c b IH]; [done|]. apply Forall_cons_iff in Hb as [Hc Hb]. cbn. rewrite IH by done.
    by destruct (Z.eqb_spec c 47). }
  assert (strrchr_after 47 (d ++ 47 :: b) = Some b) as ->.
  { clear Hd. induction d as [|c d IH]; cbn [app strrchr_after]; [by rewrite Hno|]. by rewrite IH. }
  destruct b as [|c b]; [done|]. apply Forall_cons_iff in Hn as [Hc _]. cbn. by destruct (Z.eqb_spec c 0).
Qed.

(** the codes in the packets are those of the product, reduced to a byte *)
Lemma send_nbs1_spec s ce f e base data n0 : product_stored s (fpath e) data -> 0 < zlen data < 2 ^ 32 ->
  pce_named e -> findbasename (Some (fpath e)) = Some base -> zlen base <= FBASENAME_SIZE ->
  connected ce f -> zlen (nb_packet n0) = NBS1_PACKET_MAXSIZE ->
  exists st ce' s', send_nbs1_client junk [] n0 s ce (fp_packet e) = Done (Some (st, ce', s')) /\
    (st = 0 -> exists f', connected ce' f' /\ sent f' = sent f ++ nbs_stream e base data) /\
    (st <> 0 -> ce_fd ce' = None).
Proof.
  intros Hst Hd He Hb Hbl Hc Hn0. unfold send_nbs1_client.
  rewrite (nbsfp_unpack_spec _ e []) by (done || by rewrite app_nil_r).
  cbn [obind Z.eqb negb unpacked_fp pi_fpath].
  destruct (fp_packet_names e [] He) as [_ Hp1]. rewrite app_nil_r in Hp1. rewrite Hp1. cbn [obind].
  cbn [unpacked_fp pi_seq_number pi_product_type pi_product_category pi_product_code pi_np_channel_index].
  destruct (init_spec s (fpath e) data base (seq_number e) (schar (u8 (psh_product_type e)))
    (schar (u8 (psh_product_category e))) (schar (u8 (psh_product_code e)))
    (schar (u8 (pce_np_channel_index e))) n0) as (n & s1 & -> & Hs & Hn & Hsame); try done.
  cbn [obind Z.eqb negb].
  assert (nb_num_blocks n = get_num_blocks (zlen data)) as Enum by apply Hsame.
  destruct (block_counts (zlen data)) as (_ & Hnb & _); [lia|].
  destruct (nbs_loop_spec (Z.to_nat (nb_num_blocks n)) s1 ce f n data Hc Hs) as
    (st & ce' & n' & s2 & -> & H0 & H1 & rest & Hl); [lia|].
  cbn [obind]. destruct (free_spec s2 n' rest Hl) as (n2 & s3 & -> & _). cbn [obind].
  eexists _, _, _. split; [done|]. split; [|done]. intros E0. destruct (H0 E0) as (f' & Hc' & Es).
  exists f'. split; [done|]. rewrite Es, Hn, Enum. unfold nbs_stream.
  by rewrite (nbs_packets_same _ _ _ Hsame).
Qed.

Lemma part_counts size : 0 < size ->
  0 < get_last_part_size size <= EMWIN_DATA_SIZE /\ 0 < get_parts_total size /\
  size = (get_parts_total size - 1) * EMWIN_DATA_SIZE + get_last_part_size size.
Proof.
  intros Hs. unfold get_parts_total, get_last_part_size, EMWIN_DATA_SIZE.
  pose proof (Z.quot_rem' size 1024) as Hqr. pose proof (Z.rem_bound_pos size 1024 ltac:(lia) ltac:(lia)).
  rewrite s32_small by lia. pose proof (Z.quot_pos size 1024 ltac:(lia) ltac:(lia)).
  destruct (Z.eqb_spec (Z.rem size 1024) 0) as [E|E]; cbn [negb]; lia.
Qed.

(** C30: EMWIN. The client thread either closes the connection or sends the
    file as packets of 1116 bytes, numbered from 1, with the checksum of their
    data and the date in the header; the data bytes of the packets are the file
    and zeros after it. *)
Theorem emwin_file_sent s date ep0 ce f fpathout emwinfname (data : list Z)
  (Hfile : fs_files (sp_fs s) !! fpathout = Some data) (Hb : bytes data)
  (Hl : 0 < zlen data <= 99999 * EMWIN_DATA_SIZE) (Hd : zlen date = EMWIN_HEADER_DATESIZE)
  (Hc : connected ce f) :
  exists st ce', send_emwin_client s date ep0 ce fpathout emwinfname = Done (st, ce') /\
    (st <> 0 -> ce_fd ce' = None) /\
    (st = 0 -> exists f' k packets, connected ce' f' /\ sent f' = sent f ++ concat packets /\
       Z.of_nat k = get_parts_total (zlen data) /\
       packets = emwin_packets (strncpy_bytes emwinfname EMWIN_HEADER_FNAMESIZE ++ [0]) date k 1 (Z.of_nat k) data /\
       Forall (fun p => zlen p = EMWIN_PACKET_SIZE) packets /\
       concat (map emwin_data packets) =
         data ++ replicate (Z.to_nat (Z.of_nat k * EMWIN_DATA_SIZE - zlen data)) 0).
Proof.
  destruct (part_counts (zlen data)) as (Hlast & Hnum & Hsz); [lia|].
  assert (get_parts_total (zlen data) < 10 ^ 5) as Hmax by (unfold EMWIN_DATA_SIZE in *; lia).
  unfold send_emwin_client, init_emwin_packet_st, get_file_size.
  rewrite fsr_stat, Hfile. cbn [Z.eqb negb default]. change (id ?x) with x.
  unfold build_header_date. rewrite Hd. change (EMWIN_HEADER_DATESIZE =? EMWIN_HEADER_DATESIZE) with true.
  cbn [c_assert obind Z.eqb negb ep_fname ep_header_date ep_packet ep_packet_size ep_fd ep_parts_total
    ep_last_part_size ep_part_number ep_checksum].
  rewrite (open_rd_ok _ _ _ Hfile), s32_small by lia. rewrite bool_decide_eq_true_2 by done.
  cbn [Z.eqb negb ep_parts_total]. set (ep := Emwin _ _ _ _ _ _ _ _ _).
  destruct (emwin_loop_spec (Z.to_nat (get_parts_total (zlen data))) ce f ep data Hc Hb) as (st & ce' & ep' & -> & H0 & H1).
  - right. split; cbn [ep ep_fname ep_header_date ep_packet ep_packet_size ep_fd ep_parts_total
      ep_last_part_size ep_part_number]; try done; lia.
  - cbn [ep ep_parts_total ep_part_number]. lia.
  - exists st, ce'. split; [done|]. split; [done|]. intros E0. destruct (H0 E0) as (f' & Hc' & Es).
    cbn [ep ep_fname ep_header_date ep_part_number ep_parts_total] in Es. change (0 + 1) with 1 in Es.
    exists f', (Z.to_nat (get_parts_total (zlen data))). eexists. split; [done|]. rewrite Z2Nat.id by lia.
    split; [exact Es|]. split; [done|]. split; [done|].
    pose proof (emwin_packets_data (strncpy_bytes emwinfname EMWIN_HEADER_FNAMESIZE ++ [0]) date
      (get_parts_total (zlen data)) (Z.to_nat (get_parts_total (zlen data))) 1 data) as Hpk.
    rewrite Z2Nat.id in Hpk by lia. apply Hpk; try done; unfold EMWIN_DATA_SIZE in *; lia.
Qed.
End theory.

(** ** Witness *)

Definition emwin_date : list Z := replicate 22 48.
Definition emwin_spools : @spools map_filesys map_sdb :=
  @Spools map_filesys map_sdb SPOOLTYPE_FS {| mfs_files := {[ [47; 97] := [72; 73] ]}; mfs_dirs := ∅ |} None None.
Definition emwin_fd : fd_st := Fd [EvRoom 40; EvTimeout; EvRoom 2000] [] [].
Definition emwin_client : conn_element_st :=
  ConnElement (Some emwin_fd) 0 0 (ConnStats 0 0 0 0 0 0) 0 3 1 true.

#[local] Existing Instances demo_heap map_sdb map_sdb_spec map_sdb_reliable map_fileread map_fileread_reliable.

(** the packet is sent whole *)
Lemma emwin_sent :
  match send_emwin_client emwin_spools emwin_date (Emwin [] [] [] 0 None 0 0 0 0) emwin_client [47; 97] [98] with
  | Done (st, _) => st
  | _ => 1
  end = 0.
Proof. by vm_compute. Qed.

Lemma emwin_file_sent_witness :
  exists ce' f', send_emwin_client emwin_spools emwin_date (Emwin [] [] [] 0 None 0 0 0 0) emwin_client
      [47; 97] [98] = Done (0, ce') /\ ce_fd ce' = Some f' /\
    ztake 2 (emwin_data (sent f')) = [72; 73].
Proof.
  destruct (emwin_file_sent emwin_spools emwin_date (Emwin [] [] [] 0 None 0 0 0 0) emwin_client emwin_fd
    [47; 97] [98] [72; 73]) as (st & ce' & E & _ & Hs).
  - by vm_compute.
  - by repeat constructor.
  - by vm_compute.
  - by vm_compute.
  - split; [done|]. by repeat constructor.
  - pose proof emwin_sent as E0. rewrite E in E0. subst st.
    destruct (Hs eq_refl) as (f' & k & packets & [Hf _] & Es & Hk & Ep & _ & Ed).
    exists ce', f'. split; [exact E|]. split; [exact Hf|]. assert (k = 1%nat) as -> by (change (get_parts_total (zlen [72; 73])) with 1 in Hk; lia).
    rewrite Ep in Es, Ed. cbn [emwin_packets emwin_parts map concat] in Es, Ed.
    rewrite app_nil_r in Es, Ed. rewrite Es. unfold emwin_fd at 1. cbn [sent app]. rewrite Ed. by vm_compute.
Defined.
