(* ===== verification/Strsplit.v ===== *)
(** * Strsplit: src/src/strsplit.c, splitting a string in fields

    The function counts the fields in a first pass, copies the string to an
    object with an array of that many pointers, and fills the array in a second
    pass that cuts the copy with [strsep]. The pointers are indexes in the copy;
    a null string is [None]. *)

From S2P Require Import Prelude Util CLib Mfile.

Definition STRSPLIT_FLAG_INCEMPTY : Z := 0.
Definition STRSPLIT_FLAG_IGNEMPTY : Z := 1.

(** [ss_sp]: the copy, with its terminator *)
Record strsplit_st := Strsplit {
  ss_sp : list Z;
  ss_argc : Z;
  ss_argv : list Z
}.

(** [strchr(delim, c) != NULL], for a character that is not the terminator *)
Definition is_delim (delim : list Z) (c : Z) : bool := existsb (Z.eqb c) delim.

(** the first pass: [b] characters of the field so far, [n] fields *)
Fixpoint count_loop (delim : list Z) (flags : Z) (p : list Z) (b n : Z) : Z :=
  match p with
  | [] => if negb (b =? 0) || (flags =? STRSPLIT_FLAG_INCEMPTY) then s32 (n + 1) else n
  | c :: p =>
      if is_delim delim c then
        count_loop delim flags p 0
          (if negb (b =? 0) || (flags =? STRSPLIT_FLAG_INCEMPTY) then s32 (n + 1) else n)
      else count_loop delim flags p (s32 (b + 1)) n
  end.

(** the characters before the first separator or the terminator *)
Fixpoint strcspn (delim a : list Z) : outcome Z :=
  match a with
  | [] => Undef
  | c :: a => if (c =? 0) || is_delim delim c then Done 0 else let* k := strcspn delim a in Done (k + 1)
  end.

(** [strsep], on the pointer [i] in [sp]: the string, the next pointer *)
Definition strsep (delim sp : list Z) (i : Z) : outcome (list Z * option Z) :=
  let* k := strcspn delim (zdrop i sp) in
  let* c := rd sp (i + k) in
  if c =? 0 then Done (sp, None)
  else let* sp := wr sp (i + k) [0] in Done (sp, Some (i + k + 1)).

(** the second pass: [i] the next pointer, [n] the fields found *)
Fixpoint strsplit_loop (fuel : nat) (delim : list Z) (flags : Z) (sp : list Z) (i : Z) (argv : list Z) (n : Z)
  : outcome (list Z * list Z * Z) :=
  match fuel with
  | O => Undef
  | S fuel =>
      let* (sp, nextp) := strsep delim sp i in
      let* c := rd sp i in
      let* (argv, n) :=
        if negb (c =? 0) || (flags =? STRSPLIT_FLAG_INCEMPTY)
        then let* argv := wr argv n [i] in Done (argv, s32 (n + 1)) else Done (argv, n) in
      match nextp with
      | None => Done (sp, argv, n)
      | Some i => strsplit_loop fuel delim flags sp i argv n
      end
  end.

(** each turn goes past a character, so there are no more than in the string *)
Definition strsplit (st : strsplit_st) (delim : list Z) (flags : Z) : outcome strsplit_st :=
  let* (sp, argv, n) := strsplit_loop (length (ss_sp st)) delim flags (ss_sp st) 0 (ss_argv st) 0 in
  c_assert (ss_argc st =? n) (Done (Strsplit sp (ss_argc st) argv)).

Section create.
Context {Hp : Heap}.

(** [None]: there is no memory *)
Definition strsplit_init (n : Z) (s : list Z) : option strsplit_st :=
  if negb (malloc_ok (zlen s + 1)) then None
  else if negb (malloc_ok (n * 8)) then None
  else if negb (malloc_ok 24) then None
  else Some (Strsplit (strncpy_bytes s (zlen s + 1)) n (replicate (Z.to_nat n) 0)).

(** without memory, [strsplit] is called on a null pointer *)
Definition strsplit_recreate (s : option (list Z)) (delim : list Z) (flags : Z) (strp : option strsplit_st)
  : outcome (option strsplit_st) :=
  if negb (valid_str s =? 1) then Done None else
  let s := default [] s in
  let n := count_loop delim flags s 0 0 in
  let* new_strp :=
    match strp with
    | Some st =>
        if n <=? ss_argc st then
          let* t := cstr (ss_sp st) in
          Done (if zlen s <=? zlen t then Some st else strsplit_init n s)
        else Done (strsplit_init n s)
    | None => Done (strsplit_init n s)
    end in
  match new_strp with
  | None => Undef
  | Some st => let* st := strsplit st delim flags in Done (Some st)
  end.

Definition strsplit_create (s : option (list Z)) (delim : list Z) (flags : Z) : outcome (option strsplit_st) :=
  strsplit_recreate s delim flags None.
End create.

(** ** The fields of a string *)

Fixpoint split_on (delim s : list Z) : list (list Z) :=
  match s with
  | [] => [[]]
  | c :: r =>
      if is_delim delim c then [] :: split_on delim r
      else match split_on delim r with
           | [] => [[c]]
           | f :: fs => (c :: f) :: fs
           end
  end.

(** the empty ones are left out with the flag *)
Definition kept (flags : Z) (f : list Z) : bool :=
  match f with [] => flags =? STRSPLIT_FLAG_INCEMPTY | _ => true end.
Definition split_fields (delim : list Z) (flags : Z) (s : list Z) : list (list Z) :=
  List.filter (kept flags) (split_on delim s).

(** what the program finds in the object *)
Definition field (st : strsplit_st) (i : Z) : outcome (list Z) := cstr (zdrop i (ss_sp st)).

Definition no_delim (delim f : list Z) : Prop := Forall (fun c => is_delim delim c = false) f.

Lemma split_on_cases delim s :
  split_on delim s = [s] /\ no_delim delim s \/
  exists f c r, s = f ++ c :: r /\ no_delim delim f /\ is_delim delim c = true /\
    split_on delim s = f :: split_on delim r.
Proof.
  induction s as [|c s IH]; [left; by split; [|constructor]|]. cbn [split_on].
  destruct (is_delim delim c) eqn:Ec.
  - right. exists [], c, s. split_and!; done || constructor.
  - destruct IH as [[-> Hn]|(f & d & r & -> & Hn & Hd & ->)].
    + left. split; [done|]. by constructor.
    + right. exists (c :: f), d, r. split_and!; try done. by constructor.
Qed.

Lemma count_loop_no_delim delim flags f r : no_delim delim f -> forall b n,
  0 <= b -> b + zlen f + zlen r < 2 ^ 31 ->
  count_loop delim flags (f ++ r) b n = count_loop delim flags r (b + zlen f) n.
Proof.
  induction 1 as [|c f Hc _ IH]; intros b n Hb Hl; cbn [app count_loop].
  - by rewrite Z.add_0_r.
  - rewrite Hc. pose proof (zlen_nonneg f). pose proof (zlen_nonneg r). rewrite zlen_cons in *.
    rewrite s32_small by lia. rewrite IH by lia. f_equal. lia.
Qed.

Lemma kept_iff flags f : negb (zlen f =? 0) || (flags =? STRSPLIT_FLAG_INCEMPTY) = kept flags f.
Proof.
  destruct f as [|c f]; [done|]. rewrite zlen_cons. pose proof (zlen_nonneg f). cbn [kept].
  by destruct (Z.eqb_spec (1 + zlen f) 0); [lia|].
Qed.

(** the first pass counts the fields *)
Lemma count_loop_spec delim flags k : forall s n, (length s < k)%nat -> 0 <= n -> n + zlen s + 1 < 2 ^ 31 ->
  count_loop delim flags s 0 n = n + Z.of_nat (length (split_fields delim flags s)).
Proof.
  induction k as [|k IH]; intros s n Hk Hn Hl; [lia|]. unfold split_fields.
  destruct (split_on_cases delim s) as [[-> Hs]|(f & c & r & -> & Hf & Hc & ->)].
  - pose proof (zlen_nonneg s).
    rewrite <- (app_nil_r s) at 1. rewrite count_loop_no_delim by (done || (change (zlen []) with 0; lia)).
    cbn [count_loop List.filter]. rewrite Z.add_0_l, kept_iff.
    destruct (kept flags s); cbn [length]; [rewrite s32_small by lia|]; lia.
  - rewrite zlen_app, zlen_cons in Hl. rewrite length_app in Hk. cbn [length] in Hk.
    pose proof (zlen_nonneg f). pose proof (zlen_nonneg r).
    rewrite count_loop_no_delim by (done || (rewrite zlen_cons; lia)).
    cbn [count_loop List.filter]. rewrite Hc, Z.add_0_l, kept_iff. fold (split_fields delim flags r).
    destruct (kept flags f); cbn [length]; rewrite ?s32_small by lia; rewrite IH by lia;
      unfold split_fields; lia.
Qed.

Lemma strcspn_spec delim f c a : no_delim delim f -> nonul f -> c = 0 \/ is_delim delim c = true ->
  strcspn delim (f ++ c :: a) = Done (zlen f).
Proof.
  intros Hf Hn Hc. induction f as [|d f IH]; cbn [app strcspn].
  - destruct Hc as [-> | ->]; [done|]. by rewrite orb_true_r.
  - apply Forall_cons_iff in Hf as [Hd Hf], Hn as [Hd0 Hn]. rewrite Hd.
    destruct (Z.eqb_spec d 0); [done|]. cbn [orb]. rewrite IH by done. cbn [obind]. by rewrite zlen_cons, Z.add_comm.
Qed.

(** [strsep] at a field [f]: the last one, or one before a separator *)
Lemma strsep_last delim pre f : no_delim delim f -> nonul f ->
  strsep delim (pre ++ f ++ [0]) (zlen pre) = Done (pre ++ f ++ [0], None).
Proof.
  intros Hf Hn. unfold strsep. rewrite zdrop_app_exact, strcspn_spec by (done || by left). cbn [obind].
  rewrite (proj2 (rd_Done _ _ 0)); [done|]. pose proof (zlen_nonneg pre). pose proof (zlen_nonneg f).
  rewrite znth_app_r, znth_app_r by lia. by replace (zlen pre + zlen f - zlen pre - zlen f) with 0 by lia.
Qed.

Lemma strsep_next delim pre f c r : no_delim delim f -> nonul f -> is_delim delim c = true -> c <> 0 ->
  strsep delim (pre ++ (f ++ c :: r) ++ [0]) (zlen pre) =
    Done ((pre ++ f ++ [0]) ++ r ++ [0], Some (zlen (pre ++ f ++ [0]))).
Proof.
  intros Hf Hn Hc Hc0. unfold strsep. pose proof (zlen_nonneg pre). pose proof (zlen_nonneg f).
  rewrite zdrop_app_exact by done. rewrite <- (app_assoc f). cbn [app].
  rewrite strcspn_spec by (done || by right). cbn [obind].
  rewrite (proj2 (rd_Done _ _ c)).
  2: { rewrite znth_app_r, znth_app_r by lia. by replace (zlen pre + zlen f - zlen pre - zlen f) with 0 by lia. }
  cbn [obind]. destruct (Z.eqb_spec c 0); [done|].
  pose proof (zlen_nonneg r).
  rewrite app_assoc, wr_app by (autorewrite with zlen; rewrite ?zlen_cons, ?zlen_app; change (@zlen Z [0]) with 1; lia).
  cbn [obind]. rewrite !zlen_app. change (zlen [0]) with 1. change (zdrop 1 (c :: r ++ [0])) with (r ++ [0]).
  rewrite <- !app_assoc. do 3 f_equal. lia.
Qed.

(** the field is kept if its first character, or the flag, says so *)
Lemma field_char flags pre f a : nonul f -> exists c, rd (pre ++ f ++ 0 :: a) (zlen pre) = Done c /\
  negb (c =? 0) || (flags =? STRSPLIT_FLAG_INCEMPTY) = kept flags f.
Proof.
  intros Hn. pose proof (zlen_nonneg pre). destruct f as [|c f].
  - exists 0. split; [|done]. apply rd_Done. rewrite znth_app_r by lia. by rewrite Z.sub_diag.
  - apply Forall_cons_iff in Hn as [Hc _]. exists c. split; [|by destruct (Z.eqb_spec c 0)].
    apply rd_Done. rewrite znth_app_r by lia. by rewrite Z.sub_diag.
Qed.

(** the second pass finds the fields *)
Lemma strsplit_loop_spec delim flags k : forall s pre w, (length s < k)%nat -> nonul s ->
  zlen w + Z.of_nat (length (split_fields delim flags s)) < 2 ^ 31 ->
  exists s' idx, strsplit_loop k delim flags (pre ++ s ++ [0]) (zlen pre)
      (w ++ replicate (length (split_fields delim flags s)) 0) (zlen w) =
    Done (pre ++ s' ++ [0], w ++ idx, zlen w + zlen idx) /\
    Forall2 (fun i f => cstr (zdrop i (pre ++ s' ++ [0])) = Done f) idx (split_fields delim flags s).
Proof.
  induction k as [|k IH]; intros s pre w Hk Hn Hl; [lia|]. pose proof (zlen_nonneg w). unfold split_fields in *.
  cbn [strsplit_loop]. destruct (split_on_cases delim s) as [[E Hs]|(f & c & r & -> & Hf & Hc & E)]; rewrite E in *.
  - rewrite strsep_last by done. cbn [obind]. destruct (field_char flags pre s []) as (c & -> & Ek); [done|].
    cbn [obind List.filter] in *. rewrite Ek. destruct (kept flags s); cbn [length replicate] in *.
    + rewrite wr_app by done. cbn [obind]. rewrite s32_small by lia.
      exists s, [zlen pre]. split; [done|]. constructor; [|constructor]. rewrite zdrop_app_exact by done. by apply cstr_app.
    + exists s, []. rewrite Z.add_0_r. by split.
  - apply Forall_app in Hn as [Hnf [Hc0 Hnr]%Forall_cons_iff]. rewrite length_app in Hk. cbn [length] in Hk.
    rewrite strsep_next by done. cbn [obind]. rewrite <- (app_assoc pre), <- (app_assoc f). cbn [app].
    destruct (field_char flags pre f (r ++ [0])) as (d & -> & Ek); [done|]. cbn [obind List.filter] in *. rewrite Ek.
    replace (pre ++ f ++ 0 :: r ++ [0]) with ((pre ++ f ++ [0]) ++ r ++ [0]) by (by rewrite <- !app_assoc).
    set (q := pre ++ f ++ [0]). destruct (kept flags f); cbn [length replicate] in *.
    + rewrite wr_app by (done || (change (zlen [zlen pre]) with 1; rewrite zlen_cons;
        pose proof (zlen_nonneg (replicate (length (List.filter (kept flags) (split_on delim r))) 0)); lia)).
      cbn [obind]. rewrite s32_small by lia. change (zdrop (zlen [zlen pre]) (0 :: ?l)) with l.
      rewrite (app_assoc w). replace (zlen w + 1) with (zlen (w ++ [zlen pre])) by (by rewrite zlen_app).
      destruct (IH r q (w ++ [zlen pre])) as (s' & idx & -> & HF); [lia|done| |].
      { rewrite zlen_app. change (zlen [zlen pre]) with 1. lia. }
      exists (f ++ 0 :: s'), (zlen pre :: idx). subst q. split.
      * rewrite zlen_app, zlen_cons, <- !app_assoc. cbn [app]. do 2 f_equal. rewrite zlen_cons. change (@zlen Z []) with 0. lia.
      * constructor.
        -- rewrite zdrop_app_exact, <- app_assoc by done. by apply cstr_app.
        -- eapply List.Forall2_impl; [|exact HF]. intros i g. by rewrite <- !app_assoc.
    + cbn [obind]. destruct (IH r q w) as (s' & idx & -> & HF); [lia|done|lia|].
      exists (f ++ 0 :: s'), idx. subst q. rewrite <- !app_assoc in *. cbn [app] in *. by split.
Qed.

(** there is a field more than separators, at most *)
Lemma strsplit_fields_length delim flags s : Z.of_nat (length (split_fields delim flags s)) <= zlen s + 1.
Proof.
  assert (length (split_on delim s) <= length s + 1)%nat as Hs.
  { induction s as [|c s IH]; [done|]. cbn [split_on length]. destruct (is_delim delim c); [cbn [length]; lia|].
    destruct (split_on delim s); cbn [length] in *; lia. }
  pose proof (List.filter_length_le (kept flags) (split_on delim s)). unfold split_fields, zlen. lia.
Qed.

Section theory.
Context {Hp : Heap}.

Lemma strsplit_create_ok (s delim : list Z) (flags : Z) (Hs : s <> []) (Hn : nonul s)
  (Hl : zlen s + 1 < 2 ^ 31) (Hmem : forall n, n < 2 ^ 40 -> malloc_ok n = true) :
  exists st, strsplit_create (Some s) delim flags = Done (Some st) /\
    ss_argc st = Z.of_nat (length (ss_argv st)) /\
    Forall2 (fun i f => field st i = Done f) (ss_argv st) (split_fields delim flags s).
Proof.
  unfold strsplit_create, strsplit_recreate.
  assert (valid_str (Some s) = 1) as ->.
  { destruct s as [|c s]; [done|]. apply Forall_cons_iff in Hn as [Hc _]. cbn. by destruct (Z.eqb_spec c 0). }
  change (default [] (Some s)) with s. cbn [Z.eqb negb Pos.eqb obind].
  pose proof (zlen_nonneg s).
  rewrite (count_loop_spec delim flags (S (length s))) by lia. rewrite Z.add_0_l.
  pose proof (strsplit_fields_length delim flags s) as Hf.
  unfold strsplit_init. rewrite !Hmem by lia. cbn [negb]. rewrite Nat2Z.id.
  unfold strsplit. cbn [ss_sp ss_argc ss_argv].
  assert (strncpy_bytes s (zlen s + 1) = s ++ [0]) as ->.
  { unfold strncpy_bytes. rewrite ztake_ge by lia. by replace (zlen s + 1 - zlen s) with 1 by lia. }
  destruct (strsplit_loop_spec delim flags (length (s ++ [0])) s [] []) as (s' & idx & E & HF);
    [rewrite length_app; cbn; lia|done|change (@zlen Z []) with 0; lia|].
  cbn [app] in E. change (@zlen Z []) with 0 in E. rewrite E. cbn [obind].
  pose proof (List.Forall2_length HF) as Hlen. unfold zlen. rewrite Hlen, Z.add_0_l, Z.eqb_refl. cbn [c_assert obind].
  eexists. split; [reflexivity|]. cbn [ss_argc ss_argv]. by rewrite Hlen.
Qed.

(** C32: Splitting a string. The two passes of [strsplit_create] agree on the
    number of fields, stay inside the string, and give the fields of
    [split_fields]. *)
Theorem strsplit_create_splits (s delim : list Z) (flags : Z) (Hs : s <> []) (Hn : nonul s)
  (Hl : zlen s + 1 < 2 ^ 31) (Hmem : forall n, n < 2 ^ 40 -> malloc_ok n = true) :
  exists st, strsplit_create (Some s) delim flags = Done (Some st) /\
    ss_argc st = Z.of_nat (length (ss_argv st)) /\
    Forall2 (fun i f => field st i = Done f) (ss_argv st) (split_fields delim flags s).
Proof. by apply strsplit_create_ok. Qed.
End theory.

Lemma strsplit_create_splits_witness : exists st,
  strsplit_create (Hp := demo_heap) (Some [97; 98; 44; 44; 99]) [44; 58] STRSPLIT_FLAG_IGNEMPTY = Done (Some st) /\
  Forall2 (fun i f => field st i = Done f) (ss_argv st) [[97; 98]; [99]].
Proof.
  destruct (strsplit_create_splits (Hp := demo_heap) [97; 98; 44; 44; 99] [44; 58] STRSPLIT_FLAG_IGNEMPTY)
    as (st & E & _ & HF); [done|by repeat constructor|by vm_compute| |by exists st].
  intros n Hn. by apply Z.ltb_lt.
Defined.
