(* ===== verification/Stoi.v ===== *)
(** * Stoi: src/src/stoi.c, integers from strings

    The functions call [strtol] and [strtoul], which skip white space, take a
    sign and digits, and saturate at the limits of a 64-bit [long] with [errno]
    set. [strto_double] is not modelled. A string is its text, without the
    terminator; a value that is not written is [None]. *)

From S2P Require Import Prelude Util CLib.

(** the characters at the start of [s] that satisfy [f], and the rest *)
Fixpoint span (f : Z -> bool) (s : list Z) : list Z * list Z :=
  match s with
  | [] => ([], [])
  | c :: s' => if f c then let (l, r) := span f s' in (c :: l, r) else ([], s)
  end.

(** the value of a string of digits *)
Definition num_of (l : list Z) : Z := fold_left (fun v c => 10 * v + (c - 48)) l 0.

(** the sign, the digits and what follows them; [None]: there is no number *)
Definition scan_number (s : list Z) : option (bool * Z * list Z) :=
  let t := snd (span isspace s) in
  let (neg, t) :=
    match t with
    | c :: r => if c =? 45 then (true, r) else if c =? 43 then (false, r) else (false, t)
    | [] => (false, t)
    end in
  match span isdigit t with
  | ([], _) => None
  | (ds, r) => Some (neg, num_of ds, r)
  end.

(** [strtol(s, &end, 10)]: the value, [end == s], the text at [end], [errno != 0] *)
Definition strtol (s : list Z) : Z * bool * list Z * bool :=
  match scan_number s with
  | None => (0, true, s, false)
  | Some (neg, m, r) =>
      let v := if neg then - m else m in
      if v <? - 2 ^ 63 then (- 2 ^ 63, false, r, true)
      else if 2 ^ 63 <=? v then (2 ^ 63 - 1, false, r, true)
      else (v, false, r, false)
  end.

Definition strtoul (s : list Z) : Z * bool * list Z * bool :=
  match scan_number s with
  | None => (0, true, s, false)
  | Some (neg, m, r) =>
      if 2 ^ 64 <=? m then (2 ^ 64 - 1, false, r, true)
      else (if neg then u64 (- m) else m, false, r, false)
  end.

(** the status and [*val] *)
Definition strto_int (s : list Z) : Z * option Z :=
  let '(v, none, rest, err) := strtol s in
  if none || negb (bool_decide (rest = [])) || err then (1, None) else (0, Some (s32 v)).

Definition strto_uint (s : list Z) : Z * option Z :=
  let '(v, none, rest, err) := strtoul s in
  if none || negb (bool_decide (rest = [])) || err then (1, None) else (0, Some (u32 v)).

Definition strto_u16 (s : list Z) : Z * option Z :=
  match strto_uint s with
  | (0, Some u) => if u <=? 65535 then (0, Some (u16 u)) else (1, None)
  | _ => (1, None)
  end.

Definition strto_u32 (s : list Z) : Z * option Z :=
  match strto_uint s with
  | (0, Some u) => if u <=? 4294967295 then (0, Some (u32 u)) else (1, None)
  | _ => (1, None)
  end.

(** ** Decimal texts *)

Lemma num_of_app l c : num_of (l ++ [c]) = 10 * num_of l + (c - 48).
Proof. unfold num_of. by rewrite fold_left_app. Qed.

Lemma num_of_dec f : forall n, 0 <= n < 10 ^ Z.of_nat (S f) -> num_of (dec_loop f n) = n.
Proof.
  induction f as [|f IH]; intros n Hn; cbn [dec_loop].
  { change (Z.of_nat 1) with 1 in Hn. unfold num_of. cbn. rewrite Z.mod_small; lia. }
  destruct (Z.ltb_spec n 10); [unfold num_of; cbn; lia|].
  rewrite num_of_app, IH.
  - pose proof (Z.div_mod n 10). lia.
  - rewrite Nat2Z.inj_succ, Z.pow_succ_r in Hn by lia. split; [apply Z.div_pos; lia|].
    apply Z.div_lt_upper_bound; lia.
Qed.

(** what follows a number does not start with a digit *)
Definition no_digit (r : list Z) : Prop := match r with [] => True | c :: _ => isdigit c = false end.

Lemma span_app f s r : Forall (fun c => f c = true) s -> match r with [] => True | c :: _ => f c = false end ->
  span f (s ++ r) = (s, r).
Proof.
  intros Hs Hr. induction Hs as [|c s Hc _ IH]; cbn; [|by rewrite Hc, IH]. destruct r; [done|]. cbn. by rewrite Hr.
Qed.

Lemma digit_facts c : isdigit c = true -> isspace c = false /\ (c =? 45) = false /\ (c =? 43) = false.
Proof. unfold isdigit, isspace. ztest; cbn; try done; lia. Qed.

Lemma dec_loop_nonempty f n : exists c r, dec_loop f n = c :: r.
Proof.
  destruct f as [|f]; cbn; [eauto|]. destruct (_ <? _); [eauto|]. destruct (dec_loop f (n / 10)); cbn; eauto.
Qed.

Lemma scan_dec n r : 0 <= n < 2 ^ 64 -> no_digit r -> scan_number (dec n ++ r) = Some (false, n, r).
Proof.
  intros Hn Hr. pose proof (dec_digits n ltac:(lia)) as Hd. pose proof (num_of_dec 20 n ltac:(lia)) as Hv. fold (dec n) in Hv.
  destruct (dec_loop_nonempty 20 n) as (c & q & E). fold (dec n) in E. unfold scan_number.
  pose proof Hd as Hd'. rewrite E in Hd'. apply Forall_cons_iff in Hd' as [Hc _].
  destruct (digit_facts c Hc) as (H1 & H2 & H3).
  assert (span isspace (dec n ++ r) = ([], dec n ++ r)) as -> by (rewrite E; cbn; by rewrite H1).
  cbn [snd]. rewrite E at 1. cbn [app]. rewrite H2, H3, span_app by done. rewrite E at 1. by rewrite Hv.
Qed.

Lemma scan_sdec n r : - 2 ^ 63 <= n < 2 ^ 63 -> no_digit r -> scan_number (sdec n ++ r) = Some (n <? 0, Z.abs n, r).
Proof.
  intros Hn Hr. unfold sdec. destruct (Z.ltb_spec n 0).
  - pose proof (dec_digits (- n) ltac:(lia)) as Hd. pose proof (num_of_dec 20 (- n) ltac:(lia)) as Hv. fold (dec (- n)) in Hv.
    unfold scan_number. change (span isspace ((45 :: dec (- n)) ++ r)) with (@nil Z, 45 :: dec (- n) ++ r). cbn [snd].
    change (45 =? 45) with true. cbv iota. rewrite span_app by done.
    destruct (dec_loop_nonempty 20 (- n)) as (c & q & E). fold (dec (- n)) in E. rewrite E at 1.
    rewrite Hv. do 3 f_equal. lia.
  - rewrite scan_dec by (done || lia). do 3 f_equal. lia.
Qed.

(** blanks before a number are skipped *)
Lemma scan_blank s : scan_number (32 :: s) = scan_number s.
Proof. unfold scan_number. cbn. by destruct (span isspace s). Qed.

(** Integers from decimal texts. What ["%d"] prints for a [long] is read by
    [strto_int], as that number reduced to 32 bits: an [int] is read back as it
    is, and a number out of its range is accepted as another one; what is
    printed for an unsigned number of 16 or 32 bits is read back by [strto_u16]
    and [strto_u32], and [strto_u16] refuses the ones from [2 ^ 16] on. *)
Theorem stoi_decimal (n : Z) :
  (- 2 ^ 63 <= n < 2 ^ 63 -> strto_int (sdec n) = (0, Some (s32 n))) /\
  (- 2 ^ 31 <= n < 2 ^ 31 -> strto_int (sdec n) = (0, Some n)) /\
  (0 <= n < 2 ^ 32 -> strto_u32 (dec n) = (0, Some n) /\
     strto_u16 (dec n) = if n <? 2 ^ 16 then (0, Some n) else (1, None)).
Proof.
  assert (- 2 ^ 63 <= n < 2 ^ 63 -> strto_int (sdec n) = (0, Some (s32 n))) as Hi.
  { intros Hn. unfold strto_int, strtol. rewrite <- (app_nil_r (sdec n)), scan_sdec by done.
    assert ((if n <? 0 then - Z.abs n else Z.abs n) = n) as -> by (destruct (Z.ltb_spec n 0); lia).
    destruct (Z.ltb_spec n (- 2 ^ 63)), (Z.leb_spec (2 ^ 63) n); try lia. done. }
  split; [done|]. split; [intros Hn; rewrite Hi, s32_small by lia; done|]. intros Hn.
  assert (strto_uint (dec n) = (0, Some n)) as E.
  { unfold strto_uint, strtoul. rewrite <- (app_nil_r (dec n)), scan_dec by (done || lia). destruct (Z.leb_spec (2 ^ 64) n); [lia|].
    cbn [orb negb]. rewrite bool_decide_eq_true_2 by done. cbn. by rewrite u32_small. }
  unfold strto_u32, strto_u16. rewrite E. split.
  - destruct (Z.leb_spec n 4294967295); [|lia]. by rewrite u32_small.
  - destruct (Z.leb_spec n 65535), (Z.ltb_spec n (2 ^ 16)); try lia; [|done]. by rewrite u16_small by lia.
Qed.

(** [4294967303] is read as [7], and [-5] as it is *)
Lemma stoi_decimal_witness :
  strto_int (sdec 4294967303) = (0, Some 7) /\ strto_int (sdec (-5)) = (0, Some (-5)) /\
  strto_u16 (dec 65536) = (1, None).
Proof.
  split_and!.
  - by apply (stoi_decimal 4294967303).
  - by apply (stoi_decimal (-5)).
  - by apply (stoi_decimal 65536).
Defined.
