(* ===== verification/Slavet.v ===== *)
(** * Slavet: src/src/slavet.c, the table of the slaves

    The configuration of the slaves is a string, with an entry for each one:
    its type, the name of the server and the port, or the fifo, and up to five
    numbers. The table has an element for each slave, with its options and its
    counters; the slaves that receive whole products ([Slavenbs]) have a channel
    of the product control each.

    The members that the program frees are pointers that remember it
    ([cptr]): to free one twice is [Undef]. *)

From S2P Require Import Prelude Util CLib Mfile Nreadn Strsplit Stoi.

Definition SLAVETYPE_NBS1 : Z := 1.
Definition SLAVETYPE_NBS2 : Z := 2.
Definition SLAVETYPE_INFIFO : Z := 3.
Definition SLAVE_STRING_SEP1 : list Z := [124; 32; 9; 10].      (* "| \t\n" *)
Definition SLAVE_STRING_SEP2 : list Z := [44; 58].              (* ",:" *)
Definition SLAVE_NUM_OPTIONS : Z := 5.
Definition SLAVE_NET_STRING_FIELDS : Z := 8.
Definition SLAVE_IN_STRING_FIELDS : Z := 7.
Definition NPCAST_NUM_CHANNELS : Z := 9.
Definition SIZEOF_SLAVE_ELEMENT : Z := 176.
Definition SIZEOF_SLAVE_TABLE : Z := 16.

(** a pointer to a string of its own *)
Inductive cptr := PNull | PStr (s : list Z) | PFreed.

Definition cfree (p : cptr) : outcome cptr :=
  match p with PNull => Done PNull | PStr _ => Done PFreed | PFreed => Undef end.
Definition cstrlen (p : cptr) : outcome Z :=
  match p with PStr s => Done (zlen s) | _ => Undef end.
Definition ctext (p : cptr) : outcome (list Z) :=
  match p with PStr s => Done s | _ => Undef end.

(** the value of the pointer *)
Definition cvalue (p : cptr) : outcome (option (list Z)) :=
  match p with PNull => Done None | PStr s => Done (Some s) | PFreed => Undef end.

Record slave_options_st := SlaveOptions {
  infifo_mode : Z;
  infifo_grp : cptr;
  slavestatsfile : cptr;
  slave_masterport : cptr;
  slave_read_timeout_secs : Z;
  slave_read_timeout_retry : Z;
  slave_reopen_timeout_secs : Z;
  slave_so_rcvbuf : Z;
  slave_stats_logperiod_secs : Z
}.

(** the numbers of bytes, kept in a [double], are integers here *)
Record slave_stats_st := SlaveStats {
  connect_errors : Z;
  st_ctime : Z;
  errors_ctime : Z;
  packets_ctime : Z;
  bytes_ctime : Z;
  st_rtime : Z;
  errors_rtime : Z;
  packets_rtime : Z;
  bytes_rtime : Z
}.

(** [info] is the state of the reader of each type; [None] for a descriptor is
    -1 *)
Record slave_element_st := Slave {
  slavetype : Z;
  mastername : cptr;
  masterport : cptr;
  infifo : cptr;
  options : slave_options_st;
  f_slave_thread_created : Z;
  slave_fd : option fd_st;
  slavenbs_reader_index : Z;
  stats : slave_stats_st
}.

Record slave_table_st := SlaveTable {
  slave : list slave_element_st;
  numslaves : Z;
  num_slavenbs_readers : Z
}.

Definition zero_options : slave_options_st := SlaveOptions 0 PNull PNull PNull 0 0 0 0 0.
Definition zero_stats : slave_stats_st := SlaveStats 0 0 0 0 0 0 0 0 0.
(** what [calloc] leaves *)
Definition zero_slave : slave_element_st :=
  Slave 0 PNull PNull PNull zero_options 0 (Some (Fd [] [] [])) 0 zero_stats.

Definition set_sl_names ty name port fifo (sl : slave_element_st) :=
  Slave ty name port fifo (options sl) (f_slave_thread_created sl) (slave_fd sl)
    (slavenbs_reader_index sl) (stats sl).
Definition set_sl_options v (sl : slave_element_st) :=
  Slave (slavetype sl) (mastername sl) (masterport sl) (infifo sl) v (f_slave_thread_created sl)
    (slave_fd sl) (slavenbs_reader_index sl) (stats sl).
Definition set_sl_fd v (sl : slave_element_st) :=
  Slave (slavetype sl) (mastername sl) (masterport sl) (infifo sl) (options sl)
    (f_slave_thread_created sl) v (slavenbs_reader_index sl) (stats sl).
Definition set_sl_reader_index v (sl : slave_element_st) :=
  Slave (slavetype sl) (mastername sl) (masterport sl) (infifo sl) (options sl)
    (f_slave_thread_created sl) (slave_fd sl) v (stats sl).
Definition set_sl_stats v (sl : slave_element_st) :=
  Slave (slavetype sl) (mastername sl) (masterport sl) (infifo sl) (options sl)
    (f_slave_thread_created sl) (slave_fd sl) (slavenbs_reader_index sl) v.

(** ** Counters *)

Definition slave_stats_init (sl : slave_element_st) : slave_element_st := set_sl_stats zero_stats sl.

Definition slave_stats_connect (now : Z) (sl : slave_element_st) : slave_element_st :=
  let s := stats sl in
  set_sl_stats (SlaveStats (connect_errors s) now 0 0 0 (st_rtime s) (errors_rtime s) (packets_rtime s)
                  (bytes_rtime s)) sl.
Definition slave_stats_reset (now : Z) (sl : slave_element_st) : slave_element_st :=
  let s := stats sl in
  set_sl_stats (SlaveStats (connect_errors s) (st_ctime s) (errors_ctime s) (packets_ctime s)
                  (bytes_ctime s) now 0 0 0) sl.
Definition slave_stats_update_packets (packet_size : Z) (sl : slave_element_st) : slave_element_st :=
  let s := stats sl in
  set_sl_stats (SlaveStats (connect_errors s) (st_ctime s) (errors_ctime s) (u32 (packets_ctime s + 1))
                  (bytes_ctime s + packet_size) (st_rtime s) (errors_rtime s) (u32 (packets_rtime s + 1))
                  (bytes_rtime s + packet_size)) sl.
Definition slave_stats_update_errors (sl : slave_element_st) : slave_element_st :=
  let s := stats sl in
  set_sl_stats (SlaveStats (connect_errors s) (st_ctime s) (u32 (errors_ctime s + 1)) (packets_ctime s)
                  (bytes_ctime s) (st_rtime s) (u32 (errors_rtime s + 1)) (packets_rtime s)
                  (bytes_rtime s)) sl.
Definition slave_stats_update_connect_errors (sl : slave_element_st) : slave_element_st :=
  let s := stats sl in
  set_sl_stats (SlaveStats (u32 (connect_errors s + 1)) (st_ctime s) (errors_ctime s) (packets_ctime s)
                  (bytes_ctime s) (st_rtime s) (errors_rtime s) (packets_rtime s) (bytes_rtime s)) sl.

(** [opened]: the file could be opened; what is written to it is left out *)
Definition slave_stats_report (now : Z) (opened : bool) (sl : slave_element_st) : slave_element_st :=
  if now <? st_rtime (stats sl) + slave_stats_logperiod_secs (options sl) then sl
  else match slavestatsfile (options sl) with
       | PNull => sl
       | _ => if opened then slave_stats_reset now sl else sl
       end.

(** ** Elements *)

Definition slave_element_init (sl : slave_element_st) : slave_element_st :=
  slave_stats_init (Slave (slavetype sl) (mastername sl) (masterport sl) (infifo sl) (options sl) 0 None (-1)
                      (stats sl)).

Definition slave_element_release_options (o : slave_options_st) : outcome slave_options_st :=
  let* _ := cfree (infifo_grp o) in
  let* _ := cfree (slavestatsfile o) in
  Done (SlaveOptions (infifo_mode o) PNull PNull (slave_masterport o) (slave_read_timeout_secs o)
          (slave_read_timeout_retry o) (slave_reopen_timeout_secs o) (slave_so_rcvbuf o)
          (slave_stats_logperiod_secs o)).

(** the pointers are not set to null *)
Definition slave_element_release (sl : slave_element_st) : outcome slave_element_st :=
  let* n := cfree (mastername sl) in
  let* p := cfree (masterport sl) in
  let* f := cfree (infifo sl) in
  let* o := slave_element_release_options (options sl) in
  Done (set_sl_options o (set_sl_names (slavetype sl) n p f sl)).

Section slavet.
Context {Hp : Heap}.

Definition slave_element_configure_options (d : slave_options_st) (o : slave_options_st)
  : outcome (Z * slave_options_st) :=
  let set_strings g f o :=
    SlaveOptions (infifo_mode o) g f (slave_masterport o) (slave_read_timeout_secs o)
      (slave_read_timeout_retry o) (slave_reopen_timeout_secs o) (slave_so_rcvbuf o)
      (slave_stats_logperiod_secs o) in
  let* n := cstrlen (infifo_grp d) in
  if negb (malloc_ok (n + 1)) then Done (-1, set_strings PNull (slavestatsfile o) o) else
  let* g := ctext (infifo_grp d) in
  let* n := cstrlen (slavestatsfile d) in
  if negb (malloc_ok (n + 1)) then Done (-1, set_strings PFreed PNull o) else
  let* f := ctext (slavestatsfile d) in
  Done (0, SlaveOptions (infifo_mode d) (PStr g) (PStr f) (slave_masterport o) (slave_read_timeout_secs d)
             (slave_read_timeout_retry d) (slave_reopen_timeout_secs d) (slave_so_rcvbuf d)
             (slave_stats_logperiod_secs d)).

(** the loop over the options: those that are not numbers are left out *)
Fixpoint override_loop (args : list (list Z)) (i : Z) (a : list Z) : outcome (list Z) :=
  match args with
  | [] => Done a
  | s :: args =>
      let* a := match strto_int s with (0, Some v) => wr a i [v] | _ => Done a end in
      override_loop args (i + 1) a
  end.

Definition slave_element_override_options (o : slave_options_st) (args : list (list Z))
  : outcome (Z * slave_options_st) :=
  let* a := override_loop args 0
    [slave_read_timeout_secs o; slave_read_timeout_retry o; slave_reopen_timeout_secs o;
     slave_so_rcvbuf o; slave_stats_logperiod_secs o] in
  let* a0 := rd a 0 in
  let* a1 := rd a 1 in
  let* a2 := rd a 2 in
  let* a3 := rd a 3 in
  let* a4 := rd a 4 in
  Done (0, SlaveOptions (infifo_mode o) (infifo_grp o) (slavestatsfile o) (slave_masterport o) a0 a1 a2 a3 a4).

(** the options, after the names have been copied; [args]: [options_argv] *)
Definition configure_both (d : slave_options_st) (args : option (list (list Z))) (sl : slave_element_st)
  : outcome (Z * slave_element_st) :=
  let* (st, o) := slave_element_configure_options d (options sl) in
  let sl := set_sl_options o sl in
  if negb (st =? 0) then let* sl := slave_element_release sl in Done (-1, sl) else
  match args with
  | None => Done (0, sl)
  | Some args =>
      let* (st, o) := slave_element_override_options (options sl) args in
      let sl := set_sl_options o sl in
      if negb (st =? 0) then let* sl := slave_element_release sl in Done (-1, sl) else Done (0, sl)
  end.

Definition slave_element_configure2 (sl : slave_element_st) (ty : Z) (name port fifo : option (list Z))
    (args : option (list (list Z))) (d : slave_options_st) : outcome (Z * slave_element_st) :=
  if ty =? SLAVETYPE_INFIFO then
    match fifo with
    | None => Abrt
    | Some f =>
        if negb (malloc_ok (zlen f + 1))
        then Done (-1, set_sl_names (slavetype sl) (mastername sl) (masterport sl) PNull sl)
        else configure_both d args (set_sl_names ty PNull PNull (PStr f) sl)
    end
  else if (ty =? SLAVETYPE_NBS1) || (ty =? SLAVETYPE_NBS2) then
    match name, port with
    | Some n, Some p =>
        if negb (malloc_ok (zlen n + 1))
        then Done (-1, set_sl_names (slavetype sl) PNull (masterport sl) (infifo sl) sl)
        else if negb (malloc_ok (zlen p + 1))
        then Done (-1, set_sl_names (slavetype sl) PFreed PNull (infifo sl) sl)
        else configure_both d args (set_sl_names ty (PStr n) (PStr p) PNull sl)
    | _, _ => Abrt
    end
  else Done (1, sl).

(** the strings of [argv] from the index [i] on *)
Definition arg_text (ss : strsplit_st) (i : Z) : outcome (list Z) :=
  let* p := rd (ss_argv ss) i in field ss p.
Fixpoint arg_texts (k : nat) (ss : strsplit_st) (i : Z) : outcome (list (list Z)) :=
  match k with
  | O => Done []
  | S k => let* s := arg_text ss i in let* l := arg_texts k ss (i + 1) in Done (s :: l)
  end.

(** the part of [slave_element_configure] for the slaves that read a fifo. The
    message for an invalid entry has its arguments in the wrong order: a number
    is printed as a string *)
Definition configure_infifo (sl : slave_element_st) (ss : strsplit_st) (ty : Z) (d : slave_options_st)
  : outcome (Z * slave_element_st) :=
  if (2 <=? ss_argc ss) && (ss_argc ss <=? SLAVE_IN_STRING_FIELDS) then
    let* f := arg_text ss 1 in
    if valid_str (Some f) =? 0 then Undef else
    let* args := if 2 <? ss_argc ss
                 then let* l := arg_texts (Z.to_nat (ss_argc ss - 2)) ss 2 in Done (Some l) else Done None in
    slave_element_configure2 sl ty None None (Some f) args d
  else Undef.

Definition configure_net (sl : slave_element_st) (ss : strsplit_st) (ty : Z) (d : slave_options_st)
  : outcome (Z * slave_element_st) :=
  let run n p args :=
    if (valid_str (Some n) =? 0) || (valid_str p =? 0) then Done (1, sl)
    else slave_element_configure2 sl ty (Some n) p None args d in
  if ss_argc ss =? 2 then
    let* p := cvalue (slave_masterport d) in
    let* n := arg_text ss 1 in run n p None
  else if ss_argc ss =? 3 then
    let* n := arg_text ss 1 in let* p := arg_text ss 2 in run n (Some p) None
  else if (3 <? ss_argc ss) && (ss_argc ss <=? SLAVE_NET_STRING_FIELDS) then
    let* n := arg_text ss 1 in
    let* p := arg_text ss 2 in
    let* p := if negb (valid_str (Some p) =? 0) then Done (Some p) else cvalue (slave_masterport d) in
    let* args := arg_texts (Z.to_nat (ss_argc ss - 3)) ss 3 in
    run n p (Some args)
  else Done (1, sl).

Definition slave_element_configure (sl : slave_element_st) (s : list Z) (d : slave_options_st)
  : outcome (Z * slave_element_st) :=
  let* r := strsplit_create (Some s) SLAVE_STRING_SEP2 STRSPLIT_FLAG_INCEMPTY in
  match r with
  | None => Done (-1, sl)
  | Some ss =>
      let* a0 := arg_text ss 0 in
      match strto_int a0 with
      | (0, Some ty) => if ty =? SLAVETYPE_INFIFO then configure_infifo sl ss ty d else configure_net sl ss ty d
      | _ => Done (1, sl)
      end
  end.

(** ** The table *)

Definition slave_table_alloc (n : Z) : outcome (Z * option slave_table_st) :=
  c_assert (0 <? n)
    (Done (if negb (malloc_ok SIZEOF_SLAVE_TABLE) then (-1, None)
           else if negb (malloc_ok (n * SIZEOF_SLAVE_ELEMENT)) then (-1, None)
           else (0, Some (SlaveTable (replicate (Z.to_nat n) zero_slave) n 0)))).

Fixpoint release_all (l : list slave_element_st) : outcome unit :=
  match l with
  | [] => Done tt
  | sl :: l => let* _ := slave_element_release sl in release_all l
  end.
Definition slave_table_destroy (t : slave_table_st) : outcome unit :=
  release_all (ztake (numslaves t) (slave t)).

(** the count of the entries, in the copy [sp] from [q] on *)
Fixpoint count_slaves (fuel : nat) (sp : list Z) (q n : Z) : outcome Z :=
  match fuel with
  | O => Undef
  | S fuel =>
      let* (sp, next) := strsep SLAVE_STRING_SEP1 sp q in
      let* c := rd sp q in
      let n := if negb (c =? 0) then s32 (n + 1) else n in
      match next with None => Done n | Some q => count_slaves fuel sp q n end
  end.

(** the configuration of the entries: the status, the elements *)
Fixpoint configure_slaves (fuel : nat) (d : slave_options_st) (sp : list Z) (q i : Z) (l : list slave_element_st)
  : outcome (Z * list slave_element_st) :=
  match fuel with
  | O => Undef
  | S fuel =>
      let* (sp, next) := strsep SLAVE_STRING_SEP1 sp q in
      let* c := rd sp q in
      let* (st, i, l) :=
        if negb (c =? 0) then
          if i =? zlen l then Done (1, i, l)
          else
            let* sl := rd l i in
            let* s := cstr (zdrop q sp) in
            let* (st, sl) := slave_element_configure (slave_element_init sl) s d in
            let* l := wr l i [sl] in
            Done (st, if st =? 0 then s32 (i + 1) else i, l)
        else Done (0, i, l) in
      if negb (st =? 0) then Done (st, l)
      else match next with None => Done (0, l) | Some q => configure_slaves fuel d sp q i l end
  end.

(** the channels of the slaves of the first type, from [k] on *)
Fixpoint number_readers (noaaport : bool) (k : Z) (l : list slave_element_st) : list slave_element_st * Z :=
  match l with
  | [] => ([], k)
  | sl :: l =>
      if slavetype sl =? SLAVETYPE_NBS1 then
        let sl := set_sl_reader_index (if noaaport then k + NPCAST_NUM_CHANNELS else k) sl in
        let (l, k) := number_readers noaaport (k + 1) l in (sl :: l, k)
      else let (l, k) := number_readers noaaport k l in (sl :: l, k)
  end.

(** [noaaport]: [feedmode_noaaport_enabled()] *)
Definition slave_table_create (noaaport : bool) (masterservers : option (list Z)) (d : slave_options_st)
  : outcome (Z * option slave_table_st) :=
  if valid_str masterservers =? 0 then Done (-1, None) else
  let s := default [] masterservers in
  if negb (malloc_ok (zlen s + 1)) then Done (-1, None) else
  let sp := strncpy_bytes s (zlen s + 1) in
  let* n := count_slaves (length sp) sp 0 0 in
  if n =? 0 then Done (1, None) else
  let* (st, t) := slave_table_alloc n in
  match t with
  | None => Done (st, None)
  | Some t =>
      let* (st, l) := configure_slaves (length sp) d sp 0 0 (slave t) in
      if negb (st =? 0) then
        let* _ := slave_table_destroy (SlaveTable l (numslaves t) (num_slavenbs_readers t)) in Done (st, None)
      else
        let (l, k) := number_readers noaaport 0 l in
        Done (0, Some (SlaveTable l (numslaves t) k))
  end.
End slavet.

(** ** What a configuration says *)

Record slave_conf := SlaveConf {
  cf_type : Z;
  cf_name : option (list Z);
  cf_port : option (list Z);
  cf_fifo : option (list Z);
  cf_opts : list Z
}.

(** an entry is invalid, or invalid for a fifo, or good *)
Inductive entry_result := BadEntry | BadFifo | Entry (c : slave_conf).

Fixpoint override_spec (a : list Z) (args : list (list Z)) : list Z :=
  match a, args with
  | v :: a, s :: args => match strto_int s with (0, Some w) => w | _ => v end :: override_spec a args
  | _, _ => a
  end.

Definition is_nil (s : list Z) : bool := match s with [] => true | _ => false end.

(** [port], [opts]: the default values *)
Definition entry_of (port opts : list Z) (fields : list (list Z)) : entry_result :=
  match fields with
  | [] => BadEntry
  | a0 :: args =>
      match strto_int a0 with
      | (0, Some ty) =>
          if ty =? SLAVETYPE_INFIFO then
            match args with
            | [] => BadFifo
            | f :: l =>
                if is_nil f || (5 <? zlen l) then BadFifo
                else Entry (SlaveConf ty None None (Some f) (override_spec opts l))
            end
          else
            match args with
            | [] => BadEntry
            | n :: rest =>
                let (p, l) :=
                  match rest with
                  | [] => (port, [])
                  | [p] => (p, [])
                  | p :: l => (if is_nil p then port else p, l)
                  end in
                if is_nil n || is_nil p || (5 <? zlen l) then BadEntry
                else if (ty =? SLAVETYPE_NBS1) || (ty =? SLAVETYPE_NBS2)
                then Entry (SlaveConf ty (Some n) (Some p) None (override_spec opts l))
                else BadEntry
            end
      | _ => BadEntry
      end
  end.

(** the entries in order, up to the first that is not good *)
Inductive entries_result := AllGood (cs : list slave_conf) | SomeBad | SomeBadFifo.

Fixpoint entries_of (port opts : list Z) (es : list (list Z)) : entries_result :=
  match es with
  | [] => AllGood []
  | e :: es =>
      match entry_of port opts (split_on SLAVE_STRING_SEP2 e) with
      | BadEntry => SomeBad
      | BadFifo => SomeBadFifo
      | Entry c => match entries_of port opts es with AllGood cs => AllGood (c :: cs) | r => r end
      end
  end.

Definition optr (s : option (list Z)) : cptr := match s with Some s => PStr s | None => PNull end.

(** the element has what the entry says *)
Record configured (c : slave_conf) (sl : slave_element_st) : Prop := Configured {
  cd_type : slavetype sl = cf_type c;
  cd_name : mastername sl = optr (cf_name c);
  cd_port : masterport sl = optr (cf_port c);
  cd_fifo : infifo sl = optr (cf_fifo c);
  cd_opts : [slave_read_timeout_secs (options sl); slave_read_timeout_retry (options sl);
             slave_reopen_timeout_secs (options sl); slave_so_rcvbuf (options sl);
             slave_stats_logperiod_secs (options sl)] = cf_opts c
}.

(** the channel of a slave: the noaaport channels come first, and then one for
    each slave of the first type *)
Definition first_channel (noaaport : bool) : Z := if noaaport then NPCAST_NUM_CHANNELS else 0.
Definition nbs1_before (l : list slave_element_st) : Z :=
  zlen (List.filter (fun sl => slavetype sl =? SLAVETYPE_NBS1) l).

Section theory.
Context {Hp : Heap} (Hmem : forall n, n < 2 ^ 40 -> malloc_ok n = true).
Context (d : slave_options_st) (port grp file : list Z).
Hypothesis Hport : slave_masterport d = PStr port.
Hypothesis Hgrp : infifo_grp d = PStr grp.
Hypothesis Hfile : slavestatsfile d = PStr file.
Hypothesis Hsizes : nonul port /\ zlen port < 2 ^ 31 /\ zlen grp < 2 ^ 31 /\ zlen file < 2 ^ 31.

(** the default numbers *)
Definition default_opts : list Z :=
  [slave_read_timeout_secs d; slave_read_timeout_retry d; slave_reopen_timeout_secs d;
   slave_so_rcvbuf d; slave_stats_logperiod_secs d].

Lemma override_loop_spec args : forall pre a, (length args <= length a)%nat ->
  override_loop args (zlen pre) (pre ++ a) = Done (pre ++ override_spec a args).
Proof.
  induction args as [|s args IH]; intros pre a Hl; cbn [override_loop]; [by destruct a|].
  destruct a as [|v a]; [cbn in Hl; lia|]. cbn [override_spec length] in *.
  set (w := match strto_int s with (0, Some w) => w | _ => v end).
  assert ((match strto_int s with (0, Some v0) => wr (pre ++ v :: a) (zlen pre) [v0] | _ => Done (pre ++ v :: a) end)
    = Done ((pre ++ [w]) ++ a)) as ->.
  { subst w. rewrite <- app_assoc. destruct (strto_int s) as [[|?|?] [w|]]; try done.
    rewrite wr_app by (done || (rewrite !zlen_cons; change (@zlen Z []) with 0; pose proof (zlen_nonneg a); lia)).
    done. }
  cbn [obind]. replace (zlen pre + 1) with (zlen (pre ++ [w])) by (by rewrite zlen_app).
  rewrite IH by lia. by rewrite <- app_assoc.
Qed.

Lemma override_spec_length args : forall a, length (override_spec a args) = length a.
Proof. induction args as [|s args IH]; intros [|v a]; cbn; try done. by rewrite IH. Qed.

(** what the configuration of an element leaves in it *)
Definition element_of (sl : slave_element_st) (c : slave_conf) : slave_element_st :=
  set_sl_options
    (SlaveOptions (infifo_mode d) (PStr grp) (PStr file) (slave_masterport (options sl))
       (nth 0 (cf_opts c) 0) (nth 1 (cf_opts c) 0) (nth 2 (cf_opts c) 0) (nth 3 (cf_opts c) 0) (nth 4 (cf_opts c) 0))
    (set_sl_names (cf_type c) (optr (cf_name c)) (optr (cf_port c)) (optr (cf_fifo c)) sl).

Lemma configure_both_spec args ty name prt fifo sl : (length (default [] args) <= 5)%nat ->
  configure_both d args (set_sl_names ty (optr name) (optr prt) (optr fifo) sl) =
    Done (0, element_of sl (SlaveConf ty name prt fifo (override_spec default_opts (default [] args)))).
Proof.
  intros Hl. unfold configure_both, slave_element_configure_options. rewrite Hgrp, Hfile. cbn [cstrlen ctext obind].
  rewrite !Hmem by lia. cbn [negb Z.eqb obind]. destruct args as [args|]; [|done].
  cbn [default] in Hl |- *. change (id args) with args in *.
  unfold slave_element_override_options.
  cbn [options set_sl_options slave_read_timeout_secs slave_read_timeout_retry slave_reopen_timeout_secs
    slave_so_rcvbuf slave_stats_logperiod_secs]. fold default_opts.
  pose proof (override_loop_spec args [] default_opts Hl) as E. cbn [app] in E. change (@zlen Z []) with 0 in E.
  rewrite E. cbn [obind]. pose proof (override_spec_length args default_opts) as Hlen.
  destruct (override_spec default_opts args) as [|a0 [|a1 [|a2 [|a3 [|a4 [|? ?]]]]]]; try done.
Qed.

(** ** The fields of an entry *)

Lemma arg_text_spec ss fields z f :
  Forall2 (fun i f => field ss i = Done f) (ss_argv ss) fields -> 0 <= z -> fields !! Z.to_nat z = Some f ->
  arg_text ss z = Done f.
Proof.
  intros HF Hz Hk. destruct (Forall2_lookup_r _ _ _ _ _ HF Hk) as (i & Hi & E). unfold arg_text.
  rewrite (proj2 (rd_Done _ _ i)); [done|]. by rewrite znth_lookup by lia.
Qed.

Lemma arg_texts_spec ss fields : Forall2 (fun i f => field ss i = Done f) (ss_argv ss) fields ->
  forall m k, length (drop k fields) = m -> arg_texts m ss (Z.of_nat k) = Done (drop k fields).
Proof.
  intros HF. induction m as [|m IH]; intros k Hm; cbn [arg_texts].
  { by destruct (drop k fields). }
  destruct (drop k fields) as [|f l] eqn:E; [done|]. injection Hm as Hm.
  assert (fields !! k = Some f) as Hk by (rewrite <- (Nat.add_0_r k), <- lookup_drop, E; done).
  assert (drop (S k) fields = l) as El.
  { replace (S k) with (k + 1)%nat by lia. rewrite <- drop_drop, E. done. }
  rewrite (arg_text_spec ss fields (Z.of_nat k) f HF) by (done || lia || by rewrite Nat2Z.id). cbn [obind].
  replace (Z.of_nat k + 1) with (Z.of_nat (S k)) by lia. rewrite IH by (by rewrite El). by rewrite El.
Qed.

Lemma valid_nil s : nonul s -> (valid_str (Some s) =? 0) = is_nil s.
Proof. destruct s as [|c s]; [done|]. intros [Hc _]%Forall_cons_iff. cbn. by destruct (Z.eqb_spec c 0). Qed.

(** the fields have no terminators in them *)
Lemma split_on_nonul delim s : nonul s -> Forall nonul (split_on delim s).
Proof.
  induction 1 as [|c s Hc Hs IH]; [by repeat constructor|]. cbn [split_on].
  destruct (is_delim delim c); [constructor; [constructor|done]|]. destruct (split_on delim s) as [|f fs]; [by repeat constructor|].
  apply Forall_cons_iff in IH as [? ?]. by constructor; [constructor|].
Qed.

Lemma split_on_lengths delim s : Forall (fun f => zlen f <= zlen s) (split_on delim s).
Proof.
  induction s as [|c s IH]; [by repeat constructor|]. cbn [split_on]. pose proof (zlen_nonneg s).
  assert (forall fs : list (list Z), Forall (fun f => zlen f <= zlen s) fs ->
    Forall (fun f => zlen f <= zlen (c :: s)) fs) as Hw.
  { intros fs. apply List.Forall_impl. intros f. rewrite zlen_cons. lia. }
  destruct (is_delim delim c); [constructor; [rewrite zlen_cons; change (@zlen Z []) with 0; lia|by apply Hw]|].
  destruct (split_on delim s) as [|f fs].
  - constructor; [|constructor]. rewrite !zlen_cons. change (@zlen Z []) with 0. lia.
  - apply Forall_cons_iff in IH as [? ?]. constructor; [rewrite !zlen_cons; lia|by apply Hw].
Qed.

Lemma split_on_nonempty delim s : split_on delim s <> [].
Proof. destruct (split_on_cases delim s) as [[-> _]|(? & ? & ? & _ & _ & _ & ->)]; done. Qed.

(** the entry of a fifo *)
Lemma configure_infifo_spec sl ss ty a0 args : ss_argc ss = zlen (a0 :: args) ->
  Forall2 (fun i f => field ss i = Done f) (ss_argv ss) (a0 :: args) ->
  Forall nonul args -> Forall (fun f => zlen f < 2 ^ 31) args -> ty = SLAVETYPE_INFIFO ->
  configure_infifo sl ss ty d =
    match args with
    | [] => Undef
    | f :: l => if is_nil f || (5 <? zlen l) then Undef
                else Done (0, element_of sl (SlaveConf ty None None (Some f) (override_spec default_opts l)))
    end.
Proof.
  intros Hc HF Hn Hs ->. unfold configure_infifo. rewrite Hc, zlen_cons. unfold SLAVE_IN_STRING_FIELDS.
  destruct args as [|f l]; [done|]. rewrite zlen_cons. pose proof (zlen_nonneg l).
  apply Forall_cons_iff in Hn as [Hnf Hn], Hs as [Hsf Hs].
  destruct (Z.leb_spec 2 (1 + (1 + zlen l))); [|lia]. cbn [andb].
  destruct (Z.leb_spec (1 + (1 + zlen l)) 7), (Z.ltb_spec 5 (zlen l)); try lia; [|by rewrite orb_true_r].
  rewrite orb_false_r. rewrite (arg_text_spec ss _ 1 f HF) by done. cbn [obind]. rewrite valid_nil by done.
  destruct (is_nil f); [done|].
  assert (slave_element_configure2 sl SLAVETYPE_INFIFO None None (Some f)
    (if 2 <? 1 + (1 + zlen l) then Some l else None) d =
    Done (0, element_of sl (SlaveConf SLAVETYPE_INFIFO None None (Some f) (override_spec default_opts l)))) as <-.
  { unfold slave_element_configure2. rewrite Z.eqb_refl, Hmem by lia. cbn [negb].
    rewrite (configure_both_spec _ SLAVETYPE_INFIFO None None (Some f)).
    - destruct (Z.ltb_spec 2 (1 + (1 + zlen l))); [done|]. destruct l; [done|]. rewrite zlen_cons in *.
      pose proof (zlen_nonneg l0). lia.
    - unfold zlen in *. destruct (_ <? _); cbn; lia. }
  destruct (Z.ltb_spec 2 (1 + (1 + zlen l))); cbn [obind]; [|done].
  pose proof (arg_texts_spec ss _ HF (length l) 2 eq_refl) as E. cbn [drop] in E. change (Z.of_nat 2) with 2 in E.
  replace (Z.to_nat (1 + (1 + zlen l) - 2)) with (length l) by (unfold zlen; lia). by rewrite E.
Qed.

Lemma configure2_net sl ty n p args : zlen n < 2 ^ 31 -> zlen p < 2 ^ 31 -> (length (default [] args) <= 5)%nat ->
  ty <> SLAVETYPE_INFIFO ->
  slave_element_configure2 sl ty (Some n) (Some p) None args d =
    if (ty =? SLAVETYPE_NBS1) || (ty =? SLAVETYPE_NBS2)
    then Done (0, element_of sl (SlaveConf ty (Some n) (Some p) None (override_spec default_opts (default [] args))))
    else Done (1, sl).
Proof.
  intros Hn Hpp Hl Hty. unfold slave_element_configure2. destruct (Z.eqb_spec ty SLAVETYPE_INFIFO); [done|].
  destruct (_ || _); [|done]. rewrite !Hmem by lia. cbn [negb].
  by rewrite (configure_both_spec args ty (Some n) (Some p) None).
Qed.

(** the entry of a server *)
Lemma configure_net_spec sl ss ty a0 args : ss_argc ss = zlen (a0 :: args) ->
  Forall2 (fun i f => field ss i = Done f) (ss_argv ss) (a0 :: args) ->
  Forall nonul args -> Forall (fun f => zlen f < 2 ^ 31) args -> ty <> SLAVETYPE_INFIFO ->
  configure_net sl ss ty d =
    match args with
    | [] => Done (1, sl)
    | n :: rest =>
        let (p, l) :=
          match rest with
          | [] => (port, [])
          | [p] => (p, [])
          | p :: l => (if is_nil p then port else p, l)
          end in
        if is_nil n || is_nil p || (5 <? zlen l) then Done (1, sl)
        else if (ty =? SLAVETYPE_NBS1) || (ty =? SLAVETYPE_NBS2)
        then Done (0, element_of sl (SlaveConf ty (Some n) (Some p) None (override_spec default_opts l)))
        else Done (1, sl)
    end.
Proof.
  intros Hc HF Hn Hs Hty. destruct Hsizes as (Hpn & Hps & _). unfold configure_net.
  rewrite Hc, zlen_cons, Hport. cbn [cvalue]. unfold SLAVE_NET_STRING_FIELDS.
  destruct args as [|n rest]; [done|]. rewrite zlen_cons. pose proof (zlen_nonneg rest).
  apply Forall_cons_iff in Hn as [Hnn Hn], Hs as [Hsn Hs].
  destruct rest as [|p rest].
  { change (1 + (1 + zlen []) =? 2) with true. cbn [obind]. rewrite (arg_text_spec ss _ 1 n HF) by done.
    cbn [obind]. rewrite !valid_nil by done. cbn [zlen length]. rewrite orb_false_r.
    destruct (is_nil n || is_nil port); [done|]. rewrite configure2_net by (done || cbn; lia). done. }
  rewrite zlen_cons. pose proof (zlen_nonneg rest). apply Forall_cons_iff in Hn as [Hnp Hn], Hs as [Hsp Hs].
  destruct (Z.eqb_spec (1 + (1 + (1 + zlen rest))) 2); [lia|].
  rewrite (arg_text_spec ss _ 1 n HF), (arg_text_spec ss _ 2 p HF) by done. cbn [obind].
  destruct rest as [|o rest].
  { change (1 + (1 + (1 + zlen [])) =? 3) with true. cbv iota. rewrite !valid_nil by done. cbn [zlen length].
    rewrite orb_false_r. destruct (is_nil n || is_nil p); [done|]. rewrite configure2_net by (done || cbn; lia). done. }
  pose proof (zlen_nonneg rest).
  destruct (Z.eqb_spec (1 + (1 + (1 + zlen (o :: rest)))) 3); [rewrite zlen_cons in *; lia|].
  destruct (Z.ltb_spec 3 (1 + (1 + (1 + zlen (o :: rest))))); [|rewrite zlen_cons in *; lia]. cbn [andb].
  set (l := o :: rest) in *. set (q := if is_nil p then port else p).
  destruct (Z.leb_spec (1 + (1 + (1 + zlen l))) 8), (Z.ltb_spec 5 (zlen l)); try lia; [|by rewrite orb_true_r].
  rewrite orb_false_r, valid_nil by done.
  assert ((if negb (is_nil p) then Done (Some p) else Done (Some port)) = Done (Some q)) as -> by (subst q; by destruct (is_nil p)).
  cbn [obind]. pose proof (arg_texts_spec ss _ HF (length l) 3 eq_refl) as E. cbn [drop] in E. change (Z.of_nat 3) with 3 in E.
  replace (Z.to_nat (1 + (1 + (1 + zlen l)) - 3)) with (length l) by (unfold zlen; lia). rewrite E. cbn [obind].
  rewrite !valid_nil by (subst q; by destruct (is_nil p)). destruct (is_nil n || is_nil q); [done|].
  rewrite configure2_net; [done|done|subst q; by destruct (is_nil p)|change (length l <= 5)%nat; unfold zlen in *; lia|done].
Qed.

Lemma configure_spec sl s : s <> [] -> nonul s -> zlen s + 1 < 2 ^ 31 ->
  slave_element_configure sl s d =
    match entry_of port default_opts (split_on SLAVE_STRING_SEP2 s) with
    | BadEntry => Done (1, sl)
    | BadFifo => Undef
    | Entry c => Done (0, element_of sl c)
    end.
Proof.
  intros Hs Hn Hl. unfold slave_element_configure.
  destruct (strsplit_create_ok s SLAVE_STRING_SEP2 STRSPLIT_FLAG_INCEMPTY Hs Hn Hl Hmem) as (ss & -> & Hc & HF).
  cbn [obind].
  assert (split_fields SLAVE_STRING_SEP2 STRSPLIT_FLAG_INCEMPTY s = split_on SLAVE_STRING_SEP2 s) as E.
  { unfold split_fields. apply List.forallb_filter_id. apply forallb_forall. by intros [|] _. }
  rewrite E in HF. rewrite (List.Forall2_length HF) in Hc.
  pose proof (split_on_nonul SLAVE_STRING_SEP2 s Hn) as Hnn.
  pose proof (split_on_lengths SLAVE_STRING_SEP2 s) as Hll. pose proof (split_on_nonempty SLAVE_STRING_SEP2 s) as Hne.
  destruct (split_on SLAVE_STRING_SEP2 s) as [|a0 args]; [done|].
  apply Forall_cons_iff in Hnn as [_ Hnn], Hll as [_ Hll].
  assert (Forall (fun f => zlen f < 2 ^ 31) args) as Hll'.
  { eapply List.Forall_impl; [|exact Hll]. intros f. cbn. lia. }
  rewrite (arg_text_spec ss _ 0 a0 HF) by done. cbn [obind entry_of].
  destruct (strto_int a0) as [[|?|?] [ty|]]; try done.
  destruct (Z.eqb_spec ty SLAVETYPE_INFIFO) as [Ht|Ht].
  - rewrite (configure_infifo_spec sl ss ty a0 args) by done. destruct args as [|f l]; [done|]. by destruct (_ || _).
  - rewrite (configure_net_spec sl ss ty a0 args) by done. destruct args as [|n rest]; [done|].
    destruct (match rest with [] => _ | _ => _ end) as [p l]. destruct (_ || _ || _); [done|]. by destruct (_ || _).
Qed.

(** ** The entries of the table *)

Definition entries (s : list Z) : list (list Z) := split_fields SLAVE_STRING_SEP1 STRSPLIT_FLAG_IGNEMPTY s.

(** the first entry of what is left, and the rest of the entries *)
Lemma entries_cases s : nonul s ->
  (no_delim SLAVE_STRING_SEP1 s /\ entries s = if is_nil s then [] else [s]) \/
  exists f c r, s = f ++ c :: r /\ no_delim SLAVE_STRING_SEP1 f /\ is_delim SLAVE_STRING_SEP1 c = true /\ c <> 0 /\
    nonul f /\ nonul r /\ entries s = (if is_nil f then [] else [f]) ++ entries r.
Proof.
  intros Hn. unfold entries, split_fields. destruct (split_on_cases SLAVE_STRING_SEP1 s) as [[-> Hs]|(f & c & r & E & Hf & Hc & ->)].
  - left. split; [done|]. by destruct s.
  - right. exists f, c, r. rewrite E in Hn. apply Forall_app in Hn as [Hnf [Hc0 Hnr]%Forall_cons_iff].
    split_and!; try done. by destruct f.
Qed.

(** the first character says if there is an entry *)
Lemma entry_char pre f a : nonul f -> exists c, rd (pre ++ f ++ 0 :: a) (zlen pre) = Done c /\ negb (c =? 0) = negb (is_nil f).
Proof.
  intros Hn. destruct (field_char STRSPLIT_FLAG_IGNEMPTY pre f a Hn) as (c & E & Hk). exists c. split; [done|].
  rewrite orb_false_r in Hk. rewrite Hk. by destruct f.
Qed.

Lemma next_string pre f (r : list Z) : (pre ++ f ++ [0]) ++ r ++ [0] = pre ++ f ++ 0 :: (r ++ [0]).
Proof. by rewrite <- !app_assoc. Qed.

Lemma entries_bound s : Z.of_nat (length (entries s)) <= zlen s + 1.
Proof. apply strsplit_fields_length. Qed.

Lemma count_slaves_spec k : forall s pre n, (length s < k)%nat -> nonul s -> 0 <= n -> n + zlen s + 1 < 2 ^ 31 ->
  count_slaves k (pre ++ s ++ [0]) (zlen pre) n = Done (n + Z.of_nat (length (entries s))).
Proof.
  induction k as [|k IH]; intros s pre n Hk Hn H0 Hl; [lia|]. cbn [count_slaves]. pose proof (zlen_nonneg s).
  destruct (entries_cases s Hn) as [[Hs ->]|(f & c & r & -> & Hf & Hc & Hc0 & Hnf & Hnr & ->)].
  - rewrite strsep_last by done. cbn [obind]. destruct (entry_char pre s [] Hn) as (c & -> & Ec). cbn [obind].
    rewrite Ec. destruct (is_nil s); cbn [negb length]; [|rewrite s32_small by lia]; f_equal; lia.
  - rewrite strsep_next by done. cbn [obind]. rewrite next_string.
    destruct (entry_char pre f (r ++ [0]) Hnf) as (e & -> & Ec). cbn [obind]. rewrite Ec, <- next_string.
    rewrite length_app in Hk |- *. cbn [length] in Hk. rewrite zlen_app, zlen_cons in Hl. pose proof (zlen_nonneg f).
    pose proof (zlen_nonneg r).
    destruct (is_nil f); cbn [negb length]; [|rewrite s32_small by lia]; rewrite IH by (done || lia); f_equal; lia.
Qed.

Definition releasable (sl : slave_element_st) : Prop := exists sl', slave_element_release sl = Done sl'.

Lemma release_all_ok l : Forall releasable l -> release_all l = Done tt.
Proof. induction 1 as [|sl l [sl' E] _ IH]; [done|]. cbn. by rewrite E. Qed.

Definition new_slave : slave_element_st := slave_element_init zero_slave.

Lemma element_releasable c : releasable (element_of new_slave c).
Proof. unfold releasable, slave_element_release. cbn. destruct (cf_name c), (cf_port c), (cf_fifo c); cbn; eauto. Qed.

(** one entry: what the status and the elements are after it *)
Lemma configure_entry f done m pre a : nonul f -> f <> [] -> zlen f + 1 < 2 ^ 31 -> zlen done < 2 ^ 31 - 1 ->
  (let* sl := rd (done ++ zero_slave :: m) (zlen done) in
   let* s := cstr (zdrop (zlen pre) (pre ++ f ++ 0 :: a)) in
   let* (st, sl) := slave_element_configure (slave_element_init sl) s d in
   let* l := wr (done ++ zero_slave :: m) (zlen done) [sl] in
   Done (st, if st =? 0 then s32 (zlen done + 1) else zlen done, l)) =
  match entry_of port default_opts (split_on SLAVE_STRING_SEP2 f) with
  | BadEntry => Done (1, zlen done, done ++ new_slave :: m)
  | BadFifo => Undef
  | Entry c => Done (0, zlen (done ++ [element_of new_slave c]), (done ++ [element_of new_slave c]) ++ m)
  end.
Proof.
  intros Hn Hf Hl Hd. pose proof (zlen_nonneg done).
  rewrite (proj2 (rd_Done _ _ zero_slave)) by (rewrite znth_app_r, Z.sub_diag by lia; done). cbn [obind].
  rewrite zdrop_app_exact, cstr_app by done. cbn [obind]. rewrite configure_spec by done.
  fold new_slave.
  assert (forall x, wr (done ++ zero_slave :: m) (zlen done) [x] = Done (done ++ x :: m)) as Hw.
  { intros x. rewrite wr_app; [done|done|]. rewrite !zlen_cons. change (@zlen slave_element_st []) with 0.
    pose proof (zlen_nonneg m). lia. }
  destruct (entry_of _ _ _) as [| |c]; cbn [obind]; [by rewrite Hw|done|].
  rewrite Hw. cbn [obind]. change (0 =? 0) with true. cbv iota. rewrite s32_small by lia.
  by rewrite zlen_app, <- app_assoc.
Qed.

Lemma configure_slaves_spec k : forall s pre done, (length s < k)%nat -> nonul s -> zlen s + 1 < 2 ^ 31 ->
  zlen done + zlen s < 2 ^ 31 - 1 -> Forall releasable done ->
  let r := configure_slaves k d (pre ++ s ++ [0]) (zlen pre) (zlen done)
             (done ++ replicate (length (entries s)) zero_slave) in
  match entries_of port default_opts (entries s) with
  | AllGood cs => r = Done (0, done ++ map (element_of new_slave) cs)
  | SomeBad => exists l, r = Done (1, l) /\ Forall releasable l /\ length l = (length done + length (entries s))%nat
  | SomeBadFifo => r = Undef
  end.
Proof.
  assert (releasable zero_slave) as Hz by (by eexists). assert (releasable new_slave) as Hnew by (by eexists).
  induction k as [|k IH]; intros s pre done Hk Hn Hl Hd Hrel; [lia|]. cbn [configure_slaves].
  pose proof (zlen_nonneg done). pose proof (zlen_nonneg s).
  assert (forall n, Forall releasable (replicate n zero_slave)) as Hrep by (intros n; by induction n; constructor).
  assert (forall n, (zlen done =? zlen (done ++ replicate (S n) zero_slave)) = false) as Hi.
  { intros n. rewrite zlen_app, zlen_replicate. apply Z.eqb_neq. lia. }
  destruct (entries_cases s Hn) as [[Hs ->]|(f & c & r & -> & Hf & Hc & Hc0 & Hnf & Hnr & ->)].
  - rewrite strsep_last by done. cbn [obind]. destruct (entry_char pre s [] Hn) as (c & -> & Ec). cbn [obind]. rewrite Ec.
    destruct s as [|x s]; cbn [is_nil negb obind entries_of length]; [done|].
    rewrite (Hi 0%nat). cbn [replicate]. rewrite configure_entry by (done || lia).
    destruct (entry_of _ _ _) as [| |c']; cbn [obind]; [|done|].
    + eexists. split; [done|]. split; [|by rewrite length_app]. apply Forall_app. split; [done|]. by constructor.
    + by rewrite app_nil_r.
  - rewrite strsep_next by done. cbn [obind]. rewrite next_string.
    destruct (entry_char pre f (r ++ [0]) Hnf) as (e & -> & Ec). cbn [obind]. rewrite Ec.
    rewrite length_app in Hk. cbn [length] in Hk. rewrite zlen_app, zlen_cons in Hd, Hl. pose proof (zlen_nonneg f).
    pose proof (zlen_nonneg r). rewrite <- (next_string pre f r).
    assert (f = [] \/ f <> []) as [-> | Hfn] by (destruct f; [by left|by right]).
    { cbn [is_nil negb obind app]. apply IH; done || lia. }
    replace (is_nil f) with false by (by destruct f). cbn [negb obind app length replicate entries_of]. change (zero_slave :: replicate (length (entries r)) zero_slave) with
      (replicate (S (length (entries r))) zero_slave). rewrite Hi. cbn [replicate].
    rewrite next_string, configure_entry by (done || lia).
    destruct (entry_of _ _ _) as [| |c']; cbn [obind]; [|done|].
    + eexists. split; [done|]. split.
      * apply Forall_app. split; [done|]. by constructor.
      * rewrite length_app. cbn [length]. rewrite length_replicate. lia.
    + change (negb (0 =? 0)) with false. cbv iota. rewrite <- next_string.
      specialize (IH r (pre ++ f ++ [0]) (done ++ [element_of new_slave c'])).
      assert (zlen (done ++ [element_of new_slave c']) = zlen done + 1) as Hz1 by (by rewrite zlen_app).
      specialize (IH ltac:(lia) Hnr ltac:(lia) ltac:(lia)).
      specialize (IH ltac:(apply Forall_app; split; [done|]; constructor; [apply element_releasable|constructor])).
      cbv zeta in IH. destruct (entries_of port default_opts (entries r)) as [cs| |].
      * rewrite IH, <- app_assoc. done.
      * destruct IH as (l & -> & Hrl & Hll). exists l. split; [done|]. split; [done|].
        rewrite Hll, length_app. cbn [length]. lia.
      * done.
Qed.

Lemma override_opts_list l : exists a b c e f, override_spec default_opts l = [a; b; c; e; f].
Proof.
  pose proof (override_spec_length l default_opts) as Hl.
  destruct (override_spec default_opts l) as [|a [|b [|c [|e [|f [|? ?]]]]]]; try done. eauto 10.
Qed.

(** the options of a good entry are five numbers *)
Lemma entry_opts fields c : entry_of port default_opts fields = Entry c ->
  exists l, cf_opts c = override_spec default_opts l.
Proof.
  unfold entry_of. destruct fields as [|a0 args]; [done|]. destruct (strto_int a0) as [[|?|?] [ty|]]; try done.
  destruct (ty =? _).
  - destruct args as [|f l]; [done|]. destruct (_ || _); [done|]. intros [= <-]. eauto.
  - destruct args as [|n rest]; [done|]. destruct (match rest with [] => _ | _ => _ end) as [p l].
    destruct (_ || _); [done|]. destruct (_ || _); [|done]. intros [= <-]. eauto.
Qed.

Lemma entries_configured es : forall cs, entries_of port default_opts es = AllGood cs ->
  Forall2 configured cs (map (element_of new_slave) cs) /\ length cs = length es.
Proof.
  induction es as [|e es IH]; intros cs; cbn [entries_of]; [by intros [= <-]|].
  destruct (entry_of _ _ _) as [| |c] eqn:Ee; try done.
  destruct (entries_of port default_opts es) as [l| |]; try done. intros [= <-].
  destruct (IH l eq_refl) as [HF Hl]. split; [|cbn; lia]. constructor; [|done].
  destruct (entry_opts _ _ Ee) as (l' & El). destruct (override_opts_list l') as (? & ? & ? & ? & ? & E).
  split; cbn; try done. by rewrite El, E.
Qed.

Lemma number_readers_spec noaaport l : forall k,
  let r := number_readers noaaport k l in
  r.2 = k + nbs1_before r.1 /\ length r.1 = length l /\
  (forall cs, Forall2 configured cs l -> Forall2 configured cs r.1) /\
  forall i sl, r.1 !! i = Some sl -> slavetype sl = SLAVETYPE_NBS1 ->
    slavenbs_reader_index sl = first_channel noaaport + k + nbs1_before (take i r.1).
Proof.
  induction l as [|sl l IH]; intros k; cbn [number_readers].
  { unfold nbs1_before. cbn [fst snd List.filter]. change (@zlen slave_element_st []) with 0. split_and!; try done; lia. }
  unfold nbs1_before in *. destruct (Z.eqb_spec (slavetype sl) SLAVETYPE_NBS1) as [E|E].
  - specialize (IH (k + 1)). destruct (number_readers noaaport (k + 1) l) as [l' k']. cbn [fst snd] in *.
    destruct IH as (-> & Hl & HF & Hi). set (sl1 := set_sl_reader_index _ sl).
    assert ((slavetype sl1 =? SLAVETYPE_NBS1) = true) as Et by (by apply Z.eqb_eq).
    cbn [List.filter take]. rewrite Et, zlen_cons. split_and!; [lia|cbn [length]; lia| |].
    + intros cs H2. inversion H2 as [|c ? cs' ? Hc Hcs]; subst. constructor; [|by apply HF]. by destruct Hc.
    + intros [|i] sl' Hs Ht; cbn in Hs.
      * injection Hs as <-. unfold first_channel. cbn [take List.filter sl1 slavenbs_reader_index set_sl_reader_index].
        change (@zlen slave_element_st []) with 0. destruct noaaport; lia.
      * cbn [take List.filter]. rewrite Et, zlen_cons, (Hi i sl' Hs Ht). lia.
  - specialize (IH k). destruct (number_readers noaaport k l) as [l' k']. cbn [fst snd] in *.
    destruct IH as (-> & Hl & HF & Hi). cbn [List.filter].
    destruct (Z.eqb_spec (slavetype sl) SLAVETYPE_NBS1); [done|]. split_and!; [done|cbn [length]; lia| |].
    + intros cs H2. inversion H2; subst. constructor; [done|by apply HF].
    + intros [|i] sl' Hs Ht; cbn in Hs; [by injection Hs as <-|]. cbn [take List.filter].
      destruct (Z.eqb_spec (slavetype sl) SLAVETYPE_NBS1); [done|]. by apply Hi.
Qed.

(** For any configuration, the table is made
    exactly when there are entries and they are all valid; it has an element for
    each one, with the names and the numbers of the entry or the defaults, and
    the slaves that receive whole products have each a channel of their own,
    after those of the noaaport readers. With an invalid entry the status is 1;
    but if it is one for a fifo, the program prints a number as a string. *)
Lemma slave_table_create_spec (noaaport : bool) (s : list Z) (Hn : nonul s) (Hl : zlen s < 2 ^ 31 - 2) :
  let r := slave_table_create noaaport (Some s) d in
  match entries_of port default_opts (entries s) with
  | AllGood [] => exists st, st <> 0 /\ r = Done (st, None)
  | AllGood cs => exists t, r = Done (0, Some t) /\ numslaves t = zlen (slave t) /\
      Forall2 configured cs (slave t) /\ num_slavenbs_readers t = nbs1_before (slave t) /\
      forall i sl, slave t !! i = Some sl -> slavetype sl = SLAVETYPE_NBS1 ->
        slavenbs_reader_index sl = first_channel noaaport + nbs1_before (take i (slave t))
  | SomeBad => r = Done (1, None)
  | SomeBadFifo => r = Undef
  end.
Proof.
  intros r. subst r. unfold slave_table_create. rewrite valid_nil by done.
  destruct (is_nil s) eqn:Es; [destruct s; [by exists (-1)|done]|].
  change (default [] (Some s)) with s. rewrite Hmem by lia. cbn [negb].
  assert (strncpy_bytes s (zlen s + 1) = [] ++ s ++ [0]) as ->.
  { unfold strncpy_bytes. rewrite ztake_ge by lia. by replace (zlen s + 1 - zlen s) with 1 by lia. }
  pose proof (zlen_nonneg s). cbn [app].
  assert (length s < length (s ++ [0%Z]))%nat as Hlt by (rewrite length_app; cbn; lia).
  pose proof (count_slaves_spec (length (s ++ [0])) s [] 0 Hlt Hn ltac:(lia) ltac:(lia)) as Ecs.
  cbn [app] in Ecs. change (@zlen Z []) with 0 in Ecs. rewrite Ecs.
  cbn [obind]. rewrite Z.add_0_l. pose proof (entries_bound s) as Hb.
  pose proof (configure_slaves_spec (length (s ++ [0])) s [] [] Hlt Hn ltac:(lia)
    ltac:(change (@zlen slave_element_st []) with 0; lia) ltac:(constructor)) as Hcf. cbv zeta in Hcf.
  destruct (entries s) as [|e es] eqn:Ee; [by exists 1|].
  destruct (Z.eqb_spec (Z.of_nat (length (e :: es))) 0); [cbn [length] in *; lia|].
  unfold slave_table_alloc. rewrite c_assert_true by (apply Z.ltb_lt; cbn [length] in *; lia). cbn [obind].
  rewrite !Hmem by (done || unfold SIZEOF_SLAVE_TABLE, SIZEOF_SLAVE_ELEMENT in *; lia). cbn [negb slave numslaves num_slavenbs_readers].
  rewrite Nat2Z.id. change (@zlen slave_element_st []) with 0 in Hcf. change (@zlen Z []) with 0 in Hcf.
  cbn [app] in Hcf |- *.
  pose proof (entries_configured (e :: es)) as Hec.
  destruct (entries_of port default_opts (e :: es)) as [cs| |]; [| |by rewrite Hcf].
  - destruct (Hec cs eq_refl) as [HF Hlen]. rewrite Hcf. cbn [obind negb Z.eqb].
    pose proof (number_readers_spec noaaport (map (element_of new_slave) cs) 0) as Hnr.
    destruct (number_readers noaaport 0 (map (element_of new_slave) cs)) as [l k]. cbv zeta in Hnr. cbn [fst snd] in Hnr.
    destruct Hnr as (Hk & Hll & HF2 & Hix). rewrite length_map in Hll.
    destruct cs as [|c cs]; [done|]. eexists. split; [reflexivity|]. cbn [slave numslaves num_slavenbs_readers].
    specialize (HF2 _ HF). split_and!; [unfold zlen; lia|done| |].
    + rewrite Hk. lia.
    + intros i sl Hs Ht. rewrite (Hix i sl Hs Ht). lia.
  - destruct Hcf as (l & -> & Hrel & Hlen). cbn [obind]. change (negb (1 =? 0)) with true. cbv iota.
    unfold slave_table_destroy. cbn [slave numslaves]. rewrite release_all_ok; [done|].
    by apply Forall_take.
Qed.
End theory.

(** when there is no memory for the port, the name that has been freed stays in
    the element, and the clean up of the table frees it again *)
Lemma configure2_double_free {Hp : Heap} sl ty n p args d : ty = SLAVETYPE_NBS1 \/ ty = SLAVETYPE_NBS2 ->
  malloc_ok (zlen n + 1) = true -> malloc_ok (zlen p + 1) = false ->
  exists sl', slave_element_configure2 sl ty (Some n) (Some p) None args d = Done (-1, sl') /\
    slave_element_release sl' = Undef.
Proof.
  intros Hty Hn Hpp. unfold slave_element_configure2.
  destruct Hty as [-> | ->]; cbn [Z.eqb Pos.eqb orb SLAVETYPE_INFIFO SLAVETYPE_NBS1 SLAVETYPE_NBS2];
    rewrite Hn, Hpp; cbn [negb]; by eexists.
Qed.

(** the numbers and names of the examples *)
Definition demo_options : slave_options_st :=
  SlaveOptions 0 (PStr [103]) (PStr [102]) (PStr [49; 50]) 10 2 2 (-1) 60.
