(* ===== verification/Slavenbs.v ===== *)
(** * Slavenbs: src/src/slavenbs/framep.c and reader.c, receiving whole products

    The reader of a server that sends whole products ([Nbs1]): it assembles the
    blocks in its channel of the product control ([Pctl]), as the frame
    processor does with the frames of the satellite, and sends the complete
    product to the processor.

    The state is that of the frame processor ([Framep.fstate]); the file system
    is only asked if a file exists. *)

From stdpp Require Import gmap.
From S2P Require Import Prelude Util CLib Mfile Sbn Stats Pctldb Pctl Framep Nreadn.
From S2P Require Import Packfp File Mspool Nbs1 Emwin Serverc Slavet.

(** [cvt_to_uc] on a text *)
Definition cvt_to_uc (s : list Z) : list Z := map toupper s.

(** the parts of the name after the station: the WMO id, the AWIPS id and the
    other one; [None]: one of them is too long *)
Definition split_ids (p1 : list Z) : option (list Z * list Z * list Z) :=
  match strchr_split FNAME_AWIPS_SEP_CHAR p1 with
  | Some (id, awips) =>
      if WMO_ID_SIZE <? zlen id then None
      else if WMO_AWIPS_SIZE <? zlen awips then None else Some (id, awips, [])
  | None =>
      match strchr_split FNAME_NOTAWIPS_SEP_CHAR p1 with
      | Some (id, notawips) =>
          if WMO_ID_SIZE <? zlen id then None
          else if WMO_NOTAWIPS_SIZE <? zlen notawips then None else Some (id, [], notawips)
      | None => if WMO_ID_SIZE <? zlen p1 then None else Some (p1, [], [])
      end
  end.

(** 0, or 1 for a bad name; what it has set of the element when the name is
    bad is not used: the element is closed *)
Definition split_fbasename (g : globals) (e : pctl_element_st) : outcome (Z * pctl_element_st) :=
  if FBASENAME_SIZE <? zlen (fbasename e) then Done (1, e) else
  match strchr_split 46 (fbasename e) with
  | None => Done (1, e)
  | Some (name, _) =>
      if FNAME_SIZE <? zlen name then Done (1, e) else
      let* a := strncpy (fname e) 0 name (FNAME_SIZE + 1) in
      let e := set_fname a e in
      match strchr_split FNAME_WMOID_SEP_CHAR name with
      | None => Done (1, e)
      | Some (station, p1) =>
          if WMO_STATION_SIZE <? zlen station then Done (1, e) else
          match split_ids p1 with
          | None => Done (1, e)
          | Some (id, awips, notawips) =>
              let (n, path) := snprintf (fpath_size e)
                (spooldir g ++ [47] ++ station ++ [47] ++ fbasename e) in
              let e := set_fpath path e in
              if fpath_size e <=? n then Done (1, e) else
              Done (0, set_pce_wmo (WmoHeader (cvt_to_uc id) (cvt_to_uc station) []
                                      (cvt_to_uc awips) (cvt_to_uc notawips)) e)
          end
      end
  end.

Section slavenbs.
Context `{Hp : Heap} `{D : Db} `{C : Clock} `{Rx : Regex} `{FS : FileSys}.

(** the element opened for the first block, after sending an unfinished one *)
Definition open_for_block (i : Z) (s : fstate) : outcome (pctl_element_st * fstate) :=
  let* o := open_pctl_activepce (f_pctl s) i in
  match o with
  | Some e => Done (e, s)
  | None =>
      let s := with_stats update_stats_products_missed s in
      let* (_, c) := esend_pctl_activepce (f_pctl s) i in
      let* c := close_pctl_activepce c i in
      let* o := open_pctl_activepce c i in
      match o with
      | Some e => Done (e, with_pctl c s)
      | None => Abrt
      end
  end.

(** the members filled before the name is split; [f_has_ccb] is not one of
    them *)
Definition fill_block_pce (g : globals) (n : nbs1_packet_st) (ts : timespec) (e : pctl_element_st)
  : outcome pctl_element_st :=
  let e := set_pce_num_fragments (nb_num_blocks n) (set_f_complete 0 e) in
  let e := set_seq_number (nb_seq_number n) (set_recv_fragments 0 e) in
  let e := set_pce_orig_seq_number 0 e in
  let e := set_pce_sbn_datstream 0 e in
  let e := set_psh_product_type (nb_product_type n) e in
  let e := set_psh_product_category (nb_product_category n) e in
  let e := set_psh_product_code (nb_product_code n) e in
  let e := set_pce_np_channel_index (nb_np_channel_index n) e in
  let e := set_pce_ts ts e in
  let e := set_rtxdb_flag 0 (set_saveunz_flag 0 (set_save_format (spoolsavefmt g) e)) in
  let est := u64 (s32 (NBS1_PACKET_MAXSIZE * pce_num_fragments e)) in
  let est := if est <? u64 (memfile_minsize g) then u64 (memfile_minsize g) else est in
  let e := set_pce_mf (adjust_memfile_size (pce_mf e) est).2 e in
  let* a := wr (pce_ctrlhdr e) 0 [0] in
  let e := set_pce_ctrlhdr_size 0 (set_pce_ctrlhdr a e) in
  Done (set_fbasename (ztake FBASENAME_SIZE (text_of (nb_fbasename n))) e).

(** the name and the filters: 0, 1 rejected, 2 a bad name; whether it is the
    regular expression that rejects the name *)
Definition name_block_pce (g : globals) (slave_reject_duplicates : Z) (fs : fsys) (n : nbs1_packet_st)
    (e : pctl_element_st) : outcome (Z * bool * pctl_element_st) :=
  let* (st, e) := split_fbasename g e in
  if negb (st =? 0) then Done (2, false, e) else
  let* name := cstr (fname e) in
  if np_regex_match name =? 1 then Done (1, true, e) else
  if (slave_reject_duplicates =? 1) && (file_exists fs (fpath e) =? 0) then Done (1, false, e) else
  Done (0, false,
    if negb (nb_f_zip n =? 0) && (savez_regex_match name =? 1) then set_saveunz_flag 1 e else e).

Definition estart_activepce (g : globals) (slave_reject_duplicates : Z) (fs : fsys) (n : nbs1_packet_st)
    (s : fstate) : outcome (Z * fstate) :=
  let i := nb_reader_index n in
  c_assert (nb_block_number n =? 1)
    (let s := with_stats update_stats_products_transmitted s in
     let* (e, s) := open_for_block i s in
     let* (ts, c) := read_clock (f_pctl s) in
     let s := with_pctl c s in
     let* e := fill_block_pce g n ts e in
     let* (status, rejected, e) := name_block_pce g slave_reject_duplicates fs n e in
     let s := if rejected then with_stats update_stats_products_rejected s else s in
     let s := with_pctl (put_channel (f_pctl s) i e) s in
     if negb (status =? 0) then
       let* c := close_pctl_activepce (f_pctl s) i in
       let s := with_pctl c s in
       Done (status, if negb (status =? 1) then with_stats update_stats_products_missed s else s)
     else Done (0, s)).

Definition msave_nbs_block (n : nbs1_packet_st) (s : fstate) : outcome (Z * fstate) :=
  let i := nb_reader_index n in
  let* o := get_pctl_activepce (f_pctl s) i (nb_seq_number n) in
  match o with
  | None => Done (1, s)
  | Some e =>
      let block := zdrop (nb_block n) (nb_packet n) in
      let* (k, mf) :=
        if saveunz_flag e =? 0 then write_memfile (pce_mf e) block (nb_block_size n)
        else write_memframe (pce_mf e) block (nb_block_size n) (u8 (nb_f_zip n)) in
      Done (if k <? 0 then -1 else 0, with_pctl (put_channel (f_pctl s) i (set_pce_mf mf e)) s)
  end.

Definition eupdate_activepce (n : nbs1_packet_st) (s : fstate) : outcome (Z * fstate) :=
  let i := nb_reader_index n in
  let* (status, c) := update_activepce_framecounter (f_pctl s) i (nb_seq_number n) (nb_block_number n - 1) in
  let s := with_pctl c s in
  if status =? 1 then Done (1, s) else
  let* (status, s) := if status =? 0 then msave_nbs_block n s else Done (status, s) in
  if negb (status =? 0) then
    let s := with_stats update_stats_products_missed s in
    let* c := close_pctl_activepce (f_pctl s) i in
    Done (status, with_pctl c s)
  else Done (0, s).

Definition eend_activepce (fs : fsys) (n : nbs1_packet_st) (s : fstate) : outcome (Z * fstate) :=
  let i := nb_reader_index n in
  let* (status, c) := complete_activepce (f_pctl s) i (nb_seq_number n) in
  let s := with_pctl c s in
  c_assert (negb (status =? -1))
    (let* (status, s) :=
       if (status =? 1) || (status =? 2) then Done (status, s)
       else
         let* o := get_pctl_activepce (f_pctl s) i (nb_seq_number n) in
         match o with
         | None => Undef
         | Some e =>
             if file_exists fs (fpath e) =? 0 then Done (status, s)
             else
               let s := with_stats update_stats_products_completed s in
               let* (st, c) := esend_pctl_activepce (f_pctl s) i in
               Done (if negb (st =? 0) then -1 else status, with_pctl c s)
         end in
     let* c := close_pctl_activepce (f_pctl s) i in
     Done (status, with_pctl c s)).

Definition slavenbsproc (g : globals) (slave_reject_duplicates : Z) (fs : fsys) (n : nbs1_packet_st)
    (s : fstate) : outcome (Z * fstate) :=
  let s := with_stats (update_stats_frames_received (nb_packet_size n)) s in
  let* (status, s) :=
    if nb_block_number n =? 1 then estart_activepce g slave_reject_duplicates fs n s else Done (0, s) in
  let* (status, s) := if status =? 0 then eupdate_activepce n s else Done (status, s) in
  if (status =? 0) && (nb_block_number n =? nb_num_blocks n) then eend_activepce fs n s
  else Done (status, s).

(** ** The reader *)

(** 0, 1 a reading error, 2 a processing error; [n0]: what the packet
    structure held; [tick]: the time, and if the file of the statistics can be
    opened. The wait on a descriptor that is -1 times out *)
Definition slavenet_loop_nbs1 (tick : Z * bool) (g : globals) (slave_reject_duplicates : Z) (fs : fsys)
    (n0 : nbs1_packet_st) (sl : slave_element_st) (s : fstate) : outcome (Z * slave_element_st * fstate) :=
  match slave_fd sl with
  | None => Done (1, slave_stats_update_connect_errors sl, s)
  | Some f =>
      let* (status, n, f) := recv_nbs_packet f n0 (slave_read_timeout_retry (options sl)) in
      let n := set_nb_reader_index (slavenbs_reader_index sl) n in
      let sl := set_sl_fd (Some f) sl in
      if negb (status =? 0) then Done (1, slave_stats_update_connect_errors sl, s)
      else
        let* (status, s) := slavenbsproc g slave_reject_duplicates fs n s in
        if (status =? -1) || (status =? 1) then Done (2, slave_stats_update_errors sl, s)
        else if status =? 0 then
          Done (0, slave_stats_report tick.1 tick.2 (slave_stats_update_packets (nb_packet_size n) sl), s)
        else Done (0, sl, s)
  end.

(** a turn of the reader for each tick, with their values *)
Fixpoint slave_run (ticks : list (Z * bool)) (g : globals) (slave_reject_duplicates : Z) (fs : fsys)
    (n0 : nbs1_packet_st) (sl : slave_element_st) (s : fstate)
  : outcome (list Z * slave_element_st * fstate) :=
  match ticks with
  | [] => Done ([], sl, s)
  | tick :: ticks =>
      let* (st, sl, s) := slavenet_loop_nbs1 tick g slave_reject_duplicates fs n0 sl s in
      let* (sts, sl, s) := slave_run ticks g slave_reject_duplicates fs n0 sl s in
      Done (st :: sts, sl, s)
  end.
End slavenbs.

(** ** Names *)

(** a name of a product file: [station_id...], a point, and the rest *)
Record good_base (base name station : list Z) : Prop := GoodBase {
  gb_len : zlen base <= FBASENAME_SIZE;
  gb_nonul : nonul base;
  gb_name : exists r, strchr_split 46 base = Some (name, r);
  gb_name_len : zlen name <= FNAME_SIZE;
  gb_station : exists p1, strchr_split FNAME_WMOID_SEP_CHAR name = Some (station, p1) /\
    split_ids p1 <> None;
  gb_station_len : zlen station <= WMO_STATION_SIZE
}.

(** what the element of a received product has *)
Record nbs_named (g : globals) (n : nbs1_packet_st) (base name station : list Z) (e : pctl_element_st)
  : Prop := NbsNamed {
  nn_seq : seq_number e = nb_seq_number n;
  nn_orig : pce_orig_seq_number e = 0;
  nn_type : psh_product_type e = nb_product_type n;
  nn_category : psh_product_category e = nb_product_category n;
  nn_code : psh_product_code e = nb_product_code n;
  nn_channel : pce_np_channel_index e = nb_np_channel_index n;
  nn_num : pce_num_fragments e = nb_num_blocks n;
  nn_format : save_format e = spoolsavefmt g;
  nn_saveunz : saveunz_flag e = 0;
  nn_fname : cstr (fname e) = Done name;
  nn_fbasename : fbasename e = base;
  nn_fpath : fpath e = spooldir g ++ 47 :: station ++ 47 :: base
}.

Lemma strchr_split_nonul c s l r : strchr_split c s = Some (l, r) -> nonul s -> nonul l.
Proof. intros [-> _]%strchr_split_Some Hn. by apply Forall_app in Hn as [? _]. Qed.

Lemma split_fbasename_spec g e base name station :
  fbasename e = base -> good_base base name station -> zlen (fname e) = FNAME_SIZE + 1 ->
  fpath_size e = const_fpath_maxsize (spooldir g) + 1 ->
  exists a w, split_fbasename g e = Done (0, set_pce_wmo w (set_fpath
      (spooldir g ++ 47 :: station ++ 47 :: base) (set_fname a e))) /\
    cstr a = Done name /\ zlen a = FNAME_SIZE + 1.
Proof.
  intros Eb [Hl Hn (r & Hs) Hnl (p1 & Hst & Hids) Hsl] Hf Hp. unfold split_fbasename. rewrite Eb.
  destruct (Z.ltb_spec FBASENAME_SIZE (zlen base)); [lia|]. rewrite Hs.
  destruct (Z.ltb_spec FNAME_SIZE (zlen name)); [lia|]. unfold strncpy.
  assert (nonul name) as Hnn by (by eapply strchr_split_nonul).
  pose proof (strncpy_bytes_length name (FNAME_SIZE + 1) ltac:(unfold FNAME_SIZE; lia)) as Hsn.
  rewrite wr_0 by lia. cbn [obind]. rewrite zdrop_ge, app_nil_r by lia. rewrite Hst.
  destruct (Z.ltb_spec WMO_STATION_SIZE (zlen station)); [lia|].
  destruct (split_ids p1) as [[[id aw] na]|]; [|done].
  unfold snprintf. cbn [fpath_size set_fname fbasename app set_fpath].
  rewrite Eb. set (t := spooldir g ++ 47 :: station ++ 47 :: base).
  assert (zlen t <= zlen (spooldir g) + 2 + 4 + 36) as Ht.
  { subst t. unfold WMO_STATION_SIZE, FBASENAME_SIZE in *. autorewrite with zlen. lia. }
  rewrite Hp. unfold const_fpath_maxsize, WMO_STATION_SIZE, FBASENAME_SIZE in *.
  destruct (Z.leb_spec (zlen (spooldir g) + 4 + 36 + 2 + 1) (zlen t)); [lia|].
  rewrite ztake_ge by lia. eexists _, _. split; [reflexivity|]. split; [|done].
  pose proof (strncpy_bytes_cstr name (FNAME_SIZE + 1) [] Hnn ltac:(lia)) as E. by rewrite app_nil_r in E.
Qed.

(** ** Assembling a product *)

Section assembly.
Context `{HS : HeapSpec} `{DR : DbReliable} `{CS : ClockSpec} `{Rx : Regex} `{FS : FileSys}.
Hypothesis Hmem : forall n, n < 2 ^ 40 -> malloc_ok n = true.
Context (g : globals) (Hmin : 0 <= memfile_minsize g < 2 ^ 31).
Context (slave_reject_duplicates : Z) (fs : fsys).

(** the queue works, and there is an element for each channel *)
Record slave_wf (c : pctl_st) : Prop := SlaveWf {
  sw_num : num_activechannels c = zlen (activepce c);
  sw_db : pctldb_inv (pctldb c);
  sw_lim : limits_ok (pctldb c);
  sw_exact : pctldb_exact (pctldb c)
}.

(** channel [i] has the element [e] *)
Definition chan (c : pctl_st) (i : Z) (e : pctl_element_st) : Prop :=
  0 <= i /\ activepce c !! Z.to_nat i = Some e.

Lemma at_channel {A} c i e (k : pctl_element_st -> outcome A) :
  slave_wf c -> chan c i e -> with_channel c i k = k e.
Proof.
  intros Hw [Hi He]. pose proof (lookup_lt_Some _ _ _ He). unfold with_channel.
  rewrite c_assert_true by (rewrite (sw_num _ Hw); unfold zlen; apply andb_true_iff; split;
    [apply Z.leb_le|apply Z.ltb_lt]; lia).
  assert (rd (activepce c) i = Done e) as ->; [|done]. apply rd_Done. by rewrite znth_lookup.
Qed.

Lemma put_chan c i e e' : slave_wf c -> chan c i e ->
  slave_wf (put_channel c i e') /\ chan (put_channel c i e') i e'.
Proof.
  intros [Hn ? ? ?] [Hi He]. pose proof (lookup_lt_Some _ _ _ He). split.
  - split; cbn; try done. rewrite Hn. unfold zlen. by rewrite length_insert.
  - split; [done|]. cbn. by rewrite list_lookup_insert_eq.
Qed.

(** a channel that no product uses *)
Record free_pce (e : pctl_element_st) : Prop := FreePce {
  fp_open : open_pce e = 0;
  fp_wf : memfile_wf (pce_mf e);
  fp_fname : zlen (fname e) = FNAME_SIZE + 1;
  fp_ctrlhdr : zlen (pce_ctrlhdr e) = MAX_CTRLHDR_SIZE;
  fp_fpath : fpath_size e = const_fpath_maxsize (spooldir g) + 1
}.

(** the element of the product [n] after [k] blocks, the bytes [data] *)
Record filling (n : nbs1_packet_st) (base name station : list Z) (k : Z) (data : list Z)
  (e : pctl_element_st) : Prop := Filling {
  fl_named : nbs_named g n base name station e;
  fl_recv : recv_fragments e = k;
  fl_wf : memfile_wf (pce_mf e);
  fl_nread : mf_nread (pce_mf e) = 0;
  fl_data : mf_p (pce_mf e) = data;
  fl_fname : zlen (fname e) = FNAME_SIZE + 1;
  fl_ctrlhdr : zlen (pce_ctrlhdr e) = MAX_CTRLHDR_SIZE;
  fl_fpath : fpath_size e = const_fpath_maxsize (spooldir g) + 1
}.

(** a first block that is accepted *)
Record acceptable (n : nbs1_packet_st) (base name station : list Z) : Prop := Acceptable {
  ac_base : text_of (nb_fbasename n) = base;
  ac_good : good_base base name station;
  ac_num : 0 < nb_num_blocks n < 32735;
  ac_zip : nb_f_zip n = 0;
  ac_regex : np_regex_match name <> 1;
  ac_new : file_exists fs (spooldir g ++ 47 :: station ++ 47 :: base) <> 0
}.

Lemma fill_spec n base name station ts e : acceptable n base name station -> free_pce e ->
  exists e1, fill_block_pce g n ts e = Done e1 /\ fbasename e1 = base /\ zlen (fname e1) = FNAME_SIZE + 1 /\
    fpath_size e1 = const_fpath_maxsize (spooldir g) + 1 /\
    forall a w p, cstr a = Done name -> zlen a = FNAME_SIZE + 1 -> p = spooldir g ++ 47 :: station ++ 47 :: base ->
    filling n base name station 0 [] (set_pce_wmo w (set_fpath p (set_fname a e1))).
Proof.
  intros [Hb Hgood Hnum Hz Hrx Hnew] [Ho Hwf Hfn Hch Hfp]. unfold fill_block_pce.
  cbn [pce_ctrlhdr set_pce_mf set_pce_num_fragments set_f_complete set_recv_fragments set_seq_number
    set_pce_orig_seq_number set_pce_sbn_datstream set_psh_product_type set_psh_product_category
    set_psh_product_code set_pce_np_channel_index set_pce_ts set_rtxdb_flag set_saveunz_flag set_save_format
    pce_num_fragments pce_mf].
  change NBS1_PACKET_MAXSIZE with 65602.
  rewrite s32_small by lia. rewrite !u64_small by lia.
  set (est := if _ <? memfile_minsize g then _ else _).
  assert (0 <= est < 2 ^ 62) as Hest by (subst est; destruct (_ <? _); lia). clearbody est.
  assert (mf_size (pce_mf e) = 0 /\ mf_nread (pce_mf e) = 0) as [Hm0 Hr0].
  { unfold open_pce, open_memfile in Ho. destruct (seq_number e =? 0); [|done].
    destruct (Z.eqb_spec (mf_size (pce_mf e)) 0), (Z.eqb_spec (mf_nread (pce_mf e)) 0); done. }
  destruct (adjust_memfile_size (pce_mf e) est) as [st mf'] eqn:Ea.
  destruct (adjust_wf _ _ _ _ Hwf ltac:(lia) Hest Ea) as (Hwf' & Hsame & _).
  cbn [snd]. rewrite wr_ok by (rewrite ?Hch; done || lia). cbn [obind].
  set (ch := _ ++ _ ++ _).
  assert (zlen ch = MAX_CTRLHDR_SIZE) as Hch'.
  { subst ch. rewrite !zlen_app, zlen_take, zlen_drop by (rewrite ?Hch; change (zlen [0]) with 1; done || lia).
    change (zlen [0]) with 1. lia. }
  eexists. split; [reflexivity|].
  rewrite Hb. rewrite (ztake_ge _ base) by apply Hgood.
  split; [done|]. split; [done|]. split; [done|]. intros a w p Ha Hl ->.
  pose proof (wf_p _ Hwf') as Hp. destruct Hsame as (Ep & Es & En).
  split; cbn; try done; [lia|].
  destruct (mf_p mf') as [|c r]; [done|]. rewrite zlen_cons in Hp. pose proof (zlen_nonneg r). lia.
Qed.

Lemma start_spec n base name station s e : slave_wf (f_pctl s) -> chan (f_pctl s) (nb_reader_index n) e ->
  free_pce e -> acceptable n base name station -> nb_block_number n = 1 ->
  exists s' e', estart_activepce g slave_reject_duplicates fs n s = Done (0, s') /\ slave_wf (f_pctl s') /\
    chan (f_pctl s') (nb_reader_index n) e' /\ filling n base name station 0 [] e' /\
    same_queue (pctldb (f_pctl s)) (pctldb (f_pctl s')).
Proof.
  intros Hw Hc Hfree Hacc Hbn. unfold estart_activepce. rewrite Hbn. cbn [Z.eqb c_assert].
  change (1 =? 1) with true. cbn [c_assert]. unfold open_for_block, open_pctl_activepce.
  set (s0 := with_stats update_stats_products_transmitted s).
  change (f_pctl s0) with (f_pctl s). rewrite (at_channel _ _ _ _ Hw Hc), (fp_open _ Hfree). cbn [Z.eqb negb obind].
  change (f_pctl s0) with (f_pctl s). unfold read_clock. destruct (clock_works (tick (pctldb (f_pctl s)))) as [ts ->].
  cbn [obind]. destruct (fill_spec n base name station ts e Hacc Hfree) as (e1 & -> & Hfb & Hfn & Hfp & Hfill).
  cbn [obind]. unfold name_block_pce.
  destruct (split_fbasename_spec g e1 base name station) as (a & w & -> & Ha & Hal); try done; [apply Hacc|].
  cbn [obind Z.eqb negb fname set_pce_wmo set_fpath set_fname]. rewrite Ha. cbn [obind].
  destruct (Z.eqb_spec (np_regex_match name) 1); [by destruct (ac_regex _ _ _ _ Hacc)|].
  cbn [fpath set_pce_wmo set_fpath set_fname]. destruct (Z.eqb_spec (file_exists fs (spooldir g ++ 47 :: station ++ 47 :: base)) 0) as [E|_];
    [by destruct (ac_new _ _ _ _ Hacc)|].
  rewrite andb_false_r, (ac_zip _ _ _ _ Hacc). cbn [Z.eqb negb andb obind].
  set (e2 := set_pce_wmo w _). set (c1 := set_pctldb _ (f_pctl s)).
  assert (slave_wf c1) as Hw1.
  { destruct Hw as [Hn [In Is If Il It Ib Ir] [] []]. split; try done. split; cbn; try done.
    - intros i' t' k Hi'. apply If. lia.
    - intros i' t' Hi'. apply Il. lia. }
  destruct (put_chan c1 (nb_reader_index n) e e2 Hw1 Hc) as [Hw2 Hc2].
  eexists _, e2. split; [reflexivity|]. cbn. split; [exact Hw2|]. split; [exact Hc2|].
  split; [by apply Hfill|]. by split_and!.
Qed.

(** the packet [r] has the block [b], the number [k] of the product [n] *)
Record block_of (n r : nbs1_packet_st) (k : Z) (b : list Z) : Prop := BlockOf {
  bo_seq : nb_seq_number r = nb_seq_number n;
  bo_index : nb_reader_index r = nb_reader_index n;
  bo_number : nb_block_number r = k;
  bo_size : nb_block_size r = zlen b;
  bo_block : 0 <= nb_block r /\ nb_block r + zlen b <= zlen (nb_packet r) /\
    zsub (nb_block r) (zlen b) (nb_packet r) = b;
  bo_bytes : bytes b;
  bo_small : zlen b < 2 ^ 31
}.

Lemma update_spec n r base name station s e k data b : slave_wf (f_pctl s) ->
  chan (f_pctl s) (nb_reader_index n) e -> filling n base name station k data e ->
  block_of n r (k + 1) b -> 0 <= k < 2 ^ 30 -> zlen data + zlen b < 2 ^ 38 ->
  exists s' e', eupdate_activepce r s = Done (0, s') /\ slave_wf (f_pctl s') /\
    chan (f_pctl s') (nb_reader_index n) e' /\ filling n base name station (k + 1) (data ++ b) e' /\
    pctldb (f_pctl s') = pctldb (f_pctl s).
Proof.
  intros Hw Hc Hf [Hq Hix Hno Hsz (Hb0 & Hb1 & Hbk) Hby Hsm] Hk Hl. pose proof Hf as [Hnm Hr Hwf Hnr Hd Hfn Hch Hfp].
  unfold eupdate_activepce, update_activepce_framecounter. rewrite Hix, Hq, Hno.
  rewrite (at_channel _ _ _ _ Hw Hc), (nn_seq _ _ _ _ _ _ Hnm), Z.eqb_refl. cbn [negb].
  replace (k + 1 - 1) with k by lia. rewrite Hr, Z.eqb_refl. cbn [obind Z.eqb].
  rewrite s32_small by lia. set (e1 := set_recv_fragments (k + 1) e).
  destruct (put_chan _ _ e e1 Hw Hc) as [Hw1 Hc1]. set (c1 := put_channel _ _ e1) in *.
  unfold msave_nbs_block, get_pctl_activepce. rewrite Hix, Hq.
  change (f_pctl (with_pctl c1 s)) with c1. rewrite (at_channel _ _ _ _ Hw1 Hc1).
  change (seq_number e1) with (seq_number e). rewrite (nn_seq _ _ _ _ _ _ Hnm), Z.eqb_refl. cbn [negb obind].
  change (saveunz_flag e1) with (saveunz_flag e). rewrite (nn_saveunz _ _ _ _ _ _ Hnm). cbn [Z.eqb].
  rewrite Hsz. change (pce_mf e1) with (pce_mf e). pose proof (wf_p _ Hwf) as Hp. rewrite Hd in Hp.
  pose proof (zlen_nonneg b).
  rewrite write_memfile_prefix by (rewrite ?zlen_drop; lia).
  change (ztake (zlen b) (zdrop (nb_block r) (nb_packet r))) with (zsub (nb_block r) (zlen b) (nb_packet r)).
  rewrite Hbk.
  destruct (write_memfile_ok Hmem (pce_mf e) b (zlen b)) as (mf' & -> & Hwf' & Hn' & Hp'); [done|done|lia|lia|lia|].
  rewrite (ztake_ge _ b) in Hp' by lia.
  cbn [obind]. change (0 <? 0) with false. cbn [Z.eqb negb].
  set (e2 := set_pce_mf mf' e1). destruct (put_chan _ _ e1 e2 Hw1 Hc1) as [Hw2 Hc2].
  eexists _, e2. split; [reflexivity|]. split; [exact Hw2|]. split; [exact Hc2|]. split; [|done].
  split; cbn; try done; [by destruct Hnm; split|congruence|]. by rewrite Hp', Hd.
Qed.

Lemma end_spec n r base name station s e k data : slave_wf (f_pctl s) ->
  chan (f_pctl s) (nb_reader_index n) e -> filling n base name station k data e ->
  nb_seq_number r = nb_seq_number n -> nb_reader_index r = nb_reader_index n -> nb_num_blocks n <= k ->
  file_exists fs (spooldir g ++ 47 :: station ++ 47 :: base) <> 0 -> zlen data < 2 ^ 32 ->
  queue_room (pctldb (f_pctl s)) (zlen data) ->
  exists s' e' e2, eend_activepce fs r s = Done (0, s') /\ slave_wf (f_pctl s') /\
    chan (f_pctl s') (nb_reader_index n) e2 /\ free_pce e2 /\ f_complete e' = 1 /\
    nbs_named g n base name station e' /\ f_has_ccb e' = f_has_ccb e /\
    absq (pctldb (f_pctl s')) = absq (pctldb (f_pctl s)) ++ [(info e', data)].
Proof.
  intros Hw Hc Hf Hq Hix Hnum Hnew Hl Hroom. pose proof Hf as [Hnm Hr Hwf Hnr Hd Hfn Hch Hfp].
  unfold eend_activepce, complete_activepce. rewrite Hix, Hq.
  rewrite (at_channel _ _ _ _ Hw Hc), (nn_seq _ _ _ _ _ _ Hnm), Z.eqb_refl. cbn [negb].
  rewrite Hr, (nn_num _ _ _ _ _ _ Hnm). destruct (Z.ltb_spec k (nb_num_blocks n)); [lia|]. cbn [obind Z.eqb negb c_assert orb].
  set (e1 := set_f_complete 1 e). destruct (put_chan _ _ e e1 Hw Hc) as [Hw1 Hc1]. set (c1 := put_channel _ _ e1) in *.
  change (f_pctl (with_pctl c1 s)) with c1. unfold get_pctl_activepce. rewrite (at_channel _ _ _ _ Hw1 Hc1).
  change (seq_number e1) with (seq_number e). rewrite (nn_seq _ _ _ _ _ _ Hnm), Z.eqb_refl. cbn [negb obind].
  change (fpath e1) with (fpath e). rewrite (nn_fpath _ _ _ _ _ _ Hnm).
  destruct (Z.eqb_spec (file_exists fs (spooldir g ++ 47 :: station ++ 47 :: base)) 0); [done|].
  change (f_pctl (with_stats update_stats_products_completed (with_pctl c1 s))) with c1.
  unfold esend_pctl_activepce, epctl_send. rewrite (at_channel _ _ _ _ Hw1 Hc1).
  change (pctldb c1) with (pctldb (f_pctl s)). set (d := pctldb (f_pctl s)) in *.
  pose proof (wf_p _ Hwf) as Hp. rewrite Hd in Hp. destruct Hw as [_ Hinv Hlim Hex].
  assert (mf_size (pce_mf e1) < 4294967296) as Hsz by (change (pce_mf e1) with (pce_mf e); lia).
  pose proof (limits_room d e1 Hlim Hinv Hsz) as Hrm.
  destruct (pctldb_send_pce_spec d e1 Hinv Hwf Hsz Hrm) as (st & kk & d' & Es & Hinv' & _ & _ & Hkk & Hst).
  rewrite Es. cbn [obind].
  pose proof (send_limits d e1 st _ d' Hinv Hlim (conj Hwf Hsz) Es) as Hlim'.
  pose proof (pctldb_send_reliable d e1 st _ d' Hinv Hwf Hsz Hrm Es) as Hnf.
  assert (pctldb_hard_limit d (mf_size (pce_mf e1)) = 0) as Hh.
  { apply hard_limit_iff; [done|by destruct Hrm as (_ & ? & _)| |]; change (pce_mf e1) with (pce_mf e).
    - pose proof (wf_size _ Hwf). lia.
    - destruct Hroom. lia. }
  destruct Hst as [(_ & Hx & _)|[[? _]|(Hst & _ & Hqc & _ & Hmm & Ht)]]; [congruence|done|].
  set (c2 := set_status_current st _).
  assert (slave_wf c2 /\ chan c2 (nb_reader_index n) (set_tsqueue kk e1)) as [Hw2 Hc2].
  { destruct Hc1 as [Hi Hc1']. pose proof (lookup_lt_Some _ _ _ Hc1'). split.
    - split; try done; [|exact (exact_send d d' e1 kk Hex Hwf Hkk Hqc Hmm Ht)].
      pose proof (sw_num _ Hw1) as En. cbn in En |- *. unfold zlen in *. by rewrite !length_insert in *.
    - split; [done|]. cbn. by rewrite list_lookup_insert_eq. }
  assert ((if negb ((if st =? 1 then 0 else st) =? 0) then -1 else 0) = 0) as -> by (destruct Hst as [-> | ->]; done).
  change (f_pctl (with_pctl c2 _)) with c2. unfold close_pctl_activepce.
  rewrite (at_channel _ _ _ _ Hw2 Hc2). cbn [obind].
  destruct (put_chan _ _ _ (close_pce (set_tsqueue kk e1)) Hw2 Hc2) as [Hw3 Hc3].
  eexists _, (set_tsqueue kk e1), _. split; [reflexivity|]. split; [exact Hw3|]. split; [exact Hc3|].
  split; [split; cbn; try done; by apply close_wf|]. split; [done|].
  split; [by destruct Hnm; split|]. split; [done|].
  cbn. rewrite <- Hd. by apply (absq_send d d' e1).
Qed.

(** the product has been queued, and the channel is free again *)
Definition nbs_delivered (n : nbs1_packet_st) (base name station data : list Z) (s s' : fstate) : Prop :=
  exists e' e2, absq (pctldb (f_pctl s')) = absq (pctldb (f_pctl s)) ++ [(info e', data)] /\
    f_complete e' = 1 /\ nbs_named g n base name station e' /\ slave_wf (f_pctl s') /\
    chan (f_pctl s') (nb_reader_index n) e2 /\ free_pce e2.

(** the state in which [k] blocks, the bytes [data], have been received *)
Record receiving (n : nbs1_packet_st) (base name station : list Z) (k : Z) (data : list Z) (s0 s : fstate)
  : Prop := Receiving {
  rc_wf : slave_wf (f_pctl s);
  rc_elem : exists e, chan (f_pctl s) (nb_reader_index n) e /\ filling n base name station k data e;
  rc_queue : same_queue (pctldb (f_pctl s0)) (pctldb (f_pctl s))
}.

(** the part of [slavenbsproc] after the start *)
Lemma block_step n r base name station k data b total s0 s : receiving n base name station k data s0 s ->
  block_of n r (k + 1) b -> nb_num_blocks r = nb_num_blocks n -> 0 <= k < nb_num_blocks n ->
  nb_num_blocks n < 32735 ->
  zlen data + zlen b <= total < 2 ^ 32 -> (k + 1 = nb_num_blocks n -> total = zlen data + zlen b) ->
  file_exists fs (spooldir g ++ 47 :: station ++ 47 :: base) <> 0 ->
  queue_room (pctldb (f_pctl s0)) total ->
  exists s', (let* (status, s) := eupdate_activepce r s in
    if (status =? 0) && (nb_block_number r =? nb_num_blocks r) then eend_activepce fs r s else Done (status, s))
    = Done (0, s') /\
    (k + 1 < nb_num_blocks n -> receiving n base name station (k + 1) (data ++ b) s0 s') /\
    (k + 1 = nb_num_blocks n -> nbs_delivered n base name station (data ++ b) s0 s').
Proof.
  intros [Hw (e & Hc & Hf) Hsq] Hb Hnum Hk Hnn Htot Hlast Hnew Hroom. pose proof (zlen_nonneg data). pose proof (zlen_nonneg b).
  destruct (update_spec n r base name station s e k data b Hw Hc Hf Hb) as (s1 & e1 & -> & Hw1 & Hc1 & Hf1 & Edb); [lia|lia|].
  cbn [obind Z.eqb andb]. rewrite Hnum, (bo_number _ _ _ _ Hb).
  destruct (Z.eqb_spec (k + 1) (nb_num_blocks n)) as [E|E].
  - specialize (Hlast E).
    destruct (end_spec n r base name station s1 e1 (k + 1) (data ++ b) Hw1 Hc1 Hf1)
      as (s2 & e' & e2 & -> & Hw2 & Hc2 & Hfree & Hcmp & Hnm & _ & Habs);
      [apply Hb|apply Hb|lia|done|rewrite zlen_app; lia| |].
    { rewrite Edb, zlen_app. destruct Hsq as (_ & _ & E1 & E2 & E3 & E4), Hroom as [R1 R2].
      split; rewrite ?E1, ?E2, ?E3, ?E4; lia. }
    exists s2. split; [done|]. split; [lia|]. intros _. exists e', e2. rewrite Habs, Edb.
    by rewrite (same_queue_absq _ _ Hsq).
  - exists s1. split; [done|]. split; [|done]. intros _. split; [done|by exists e1|]. by rewrite Edb.
Qed.

(** ** The whole product *)

(** the slave is connected, and what it can read *)
Definition sl_fd (sl : slave_element_st) : fd_st := default (Fd [] [] []) (slave_fd sl).
Definition ready (sl : slave_element_st) : Prop := is_Some (slave_fd sl) /\ data_only (sl_fd sl).

Lemma report_same now opened sl : slave_fd (slave_stats_report now opened sl) = slave_fd sl /\
  slavenbs_reader_index (slave_stats_report now opened sl) = slavenbs_reader_index sl.
Proof.
  unfold slave_stats_report. destruct (_ <? _); [done|]. destruct (slavestatsfile _), opened; done.
Qed.

Context (n0 : nbs1_packet_st) (Hn0 : zlen (nb_packet n0) = NBS1_PACKET_MAXSIZE).

(** a turn of the reader, when the next packet on the connection is processed
    without errors *)
Lemma loop_step tick sl s N k b more (P : nbs1_packet_st -> fstate -> Prop) : ready sl ->
  nbs_ok (set_nb_next (zlen b) k N) -> zlen b <= NBS1_BLOCK_SIZE ->
  stream (sl_fd sl) = nbs_packet (set_nb_next (zlen b) k N) b ++ more ->
  (forall r, received (set_nb_next (zlen b) k N) r b -> nb_reader_index r = slavenbs_reader_index sl ->
     exists s', slavenbsproc g slave_reject_duplicates fs r s = Done (0, s') /\ P r s') ->
  exists r sl' s', slavenet_loop_nbs1 tick g slave_reject_duplicates fs n0 sl s = Done (0, sl', s') /\ P r s' /\
    received (set_nb_next (zlen b) k N) r b /\ nb_reader_index r = slavenbs_reader_index sl /\
    stream (sl_fd sl') = more /\ ready sl' /\ slavenbs_reader_index sl' = slavenbs_reader_index sl.
Proof.
  intros [[f Ef] Hd] Hok Hl Es Hproc. unfold slavenet_loop_nbs1. unfold sl_fd in Hd, Es. rewrite Ef in *. cbn [default] in Hd, Es.
  change (id f) with f in *.
  destruct (recv_spec f n0 (set_nb_next (zlen b) k N) b more (slave_read_timeout_retry (options sl)))
    as (r & f' & -> & Es' & Hd' & Hr & _); try done.
  cbn [obind Z.eqb negb]. set (r1 := set_nb_reader_index (slavenbs_reader_index sl) r).
  destruct (Hproc r1) as (s' & -> & HP); [done|done|]. cbn [obind Z.eqb orb].
  set (sl1 := slave_stats_update_packets _ _). destruct (report_same tick.1 tick.2 sl1) as [Efd Eix].
  exists r1, (slave_stats_report tick.1 tick.2 sl1), s'. split; [done|]. unfold ready, sl_fd. rewrite Efd, Eix.
  split_and!; try done.
Qed.

Lemma received_block n N k b r : received (set_nb_next (zlen b) k N) r b ->
  nb_seq_number n = nb_seq_number N -> nb_reader_index r = nb_reader_index n ->
  zlen b <= NBS1_BLOCK_SIZE -> bytes b -> block_of n r k b.
Proof.
  intros (E1 & _ & _ & _ & _ & _ & _ & _ & E9 & E10 & _ & E12 & E13 & E14) Hs Hi Hl Hb.
  unfold NBS1_BLOCK_SIZE in Hl. pose proof (zlen_nonneg b).
  split; [by rewrite E1, Hs|done|done|done| |done|lia].
  rewrite E13, E12. rewrite E13 in E14. split_and!; [done| |done].
  unfold NBS1_PACKET_MAXSIZE, NBS1_BLOCK_SIZE. lia.
Qed.

(** the sizes of the first of [m] blocks and of the rest *)
Lemma split_block m (rest : list Z) : (Z.of_nat m) * NBS1_BLOCK_SIZE < zlen rest <= (Z.of_nat m + 1) * NBS1_BLOCK_SIZE ->
  let b := ztake NBS1_BLOCK_SIZE rest in let r := zdrop NBS1_BLOCK_SIZE rest in
  rest = b ++ r /\ 0 < zlen b <= NBS1_BLOCK_SIZE /\
  match m with
  | O => r = []
  | S m' => Z.of_nat m' * NBS1_BLOCK_SIZE < zlen r <= (Z.of_nat m' + 1) * NBS1_BLOCK_SIZE
  end.
Proof.
  intros Hl b r. unfold NBS1_BLOCK_SIZE in *. split; [symmetry; apply ztake_zdrop|].
  destruct m as [|m'].
  - subst b r. rewrite ztake_ge, zdrop_ge by lia. split; [lia|done].
  - subst b r. rewrite zlen_take, zlen_drop by lia. lia.
Qed.

Section product.
Context (N : nbs1_packet_st) (base name station : list Z) (i : Z).
Hypothesis HN : 0 <= nb_seq_number N < 2 ^ 32.
Hypothesis Hbase : nb_fbasename N = strncpy_bytes base (FBASENAME_SIZE + 1).
Hypothesis Hzip : nb_f_zip N = 0.
Hypothesis Hgood : good_base base name station.
Hypothesis Hrx : np_regex_match name <> 1.
Hypothesis Hnew : file_exists fs (spooldir g ++ 47 :: station ++ 47 :: base) <> 0.
Hypothesis Hnum : 0 < nb_num_blocks N < 32735.

Lemma N_ok k size : 0 <= k < 2 ^ 16 -> nbs_ok (set_nb_next size k N).
Proof.
  intros Hk. split; cbn; try done; [|lia]. rewrite Hbase, text_strncpy.
  - apply Hgood.
  - apply Hgood.
  - pose proof (gb_len _ _ _ Hgood). lia.
Qed.

(** the packet [n] is one of this product *)
Definition of_product (n : nbs1_packet_st) : Prop :=
  nb_seq_number n = nb_seq_number N /\ nb_reader_index n = i /\ nb_num_blocks n = nb_num_blocks N.

(** a block after the first one *)
Lemma next_block tick n k (data b rest : list Z) s0 s sl more : of_product n ->
  receiving n base name station k data s0 s -> 1 <= k < nb_num_blocks N -> bytes b ->
  0 < zlen b <= NBS1_BLOCK_SIZE -> (k + 1 = nb_num_blocks N -> rest = []) ->
  zlen data + zlen b + zlen rest < 2 ^ 32 ->
  queue_room (pctldb (f_pctl s0)) (zlen data + zlen b + zlen rest) ->
  ready sl -> slavenbs_reader_index sl = i ->
  stream (sl_fd sl) = nbs_packet (set_nb_next (zlen b) (k + 1) N) b ++ more ->
  exists sl' s', slavenet_loop_nbs1 tick g slave_reject_duplicates fs n0 sl s = Done (0, sl', s') /\
    (k + 1 < nb_num_blocks N -> receiving n base name station (k + 1) (data ++ b) s0 s') /\
    (k + 1 = nb_num_blocks N -> nbs_delivered n base name station (data ++ b) s0 s') /\
    stream (sl_fd sl') = more /\ ready sl' /\ slavenbs_reader_index sl' = i.
Proof.
  intros (Hn1 & Hn2 & Hn3) Hrc Hk Hbb Hb Hrest Htot Hroom Hdo Hix Es. pose proof (zlen_nonneg rest) as Hrest0.
  destruct (loop_step tick sl s N (k + 1) b more (fun _ s' =>
    (k + 1 < nb_num_blocks N -> receiving n base name station (k + 1) (data ++ b) s0 s') /\
    (k + 1 = nb_num_blocks N -> nbs_delivered n base name station (data ++ b) s0 s')))
    as (r & sl' & s' & E & [Hc0 Hc1] & _ & _ & Es' & Hd' & Hx'); [done|apply N_ok; lia|lia|done| |].
  - intros r Hr Hi. pose proof Hr as (_ & _ & _ & _ & _ & _ & _ & En & Enum & _).
    cbn [nb_num_blocks nb_block_number set_nb_next] in En, Enum.
    unfold slavenbsproc. rewrite Enum. destruct (Z.eqb_spec (k + 1) 1); [lia|]. cbn [obind Z.eqb].
    set (s1 := with_stats _ s).
    assert (receiving n base name station k data s0 s1) as Hrc1 by (by destruct Hrc).
    destruct (block_step n r base name station k data b (zlen data + zlen b + zlen rest) s0 s1 Hrc1) as (s' & E' & Hc0 & Hc1);
      try done; try lia.
    { apply (received_block n N); try done; lia || congruence. }
    { intros E1. rewrite Hrest by lia. change (zlen []) with 0. lia. }
    rewrite Enum in E'. rewrite E'. exists s'. rewrite Hn3 in *. done.
  - exists sl', s'. split_and!; try done. congruence.
Qed.

Lemma run_blocks n m : forall ticks k rest data s0 s sl more, length ticks = S m -> of_product n ->
  receiving n base name station k data s0 s ->
  Z.of_nat (S m) = nb_num_blocks N - k -> 1 <= k -> bytes rest ->
  Z.of_nat m * NBS1_BLOCK_SIZE < zlen rest <= (Z.of_nat m + 1) * NBS1_BLOCK_SIZE ->
  zlen data + zlen rest < 2 ^ 32 -> queue_room (pctldb (f_pctl s0)) (zlen data + zlen rest) ->
  ready sl -> slavenbs_reader_index sl = i ->
  stream (sl_fd sl) = concat (nbs_packets (S m) N k rest) ++ more ->
  exists sl' s', slave_run ticks g slave_reject_duplicates fs n0 sl s = Done (replicate (S m) 0, sl', s') /\
    nbs_delivered n base name station (data ++ rest) s0 s' /\ stream (sl_fd sl') = more /\ ready sl'.
Proof.
  induction m as [|m IH]; intros ticks k rest data s0 s sl more Htk Hn Hrc Hm Hk Hby Hl Htot Hroom Hdo Hix Es;
    (destruct ticks as [|tick ticks]; [done|]); injection Htk as Htk;
    destruct (split_block _ rest Hl) as (Erest & Hb & Hr);
    cbn [nbs_packets concat] in Es; rewrite <- app_assoc in Es;
    set (b := ztake NBS1_BLOCK_SIZE rest) in *; set (r0 := zdrop NBS1_BLOCK_SIZE rest) in *;
    rewrite Erest, zlen_app, Z.add_assoc in Htot, Hroom; rewrite Erest in Hby; apply bytes_app in Hby as [Hbb Hbr];
    (edestruct (next_block tick n k data b r0 s0 s sl) as (sl1 & s1 & E1 & H0 & H1 & Es1 & Hd1 & Hx1);
      [done|done|lia|done|lia| |done|done|done|done|exact Es|]).
  - done.
  - destruct ticks; [|done]. exists sl1, s1. cbn [slave_run]. rewrite E1. cbn [obind]. split; [done|].
    rewrite Erest, Hr, app_nil_r. split; [apply H1; lia|done].
  - lia.
  - destruct (IH ticks (k + 1) r0 (data ++ b) s0 s1 sl1 more) as (sl2 & s2 & E2 & H2 & Es2 & Hd2); try done; try lia.
    + apply H0. lia.
    + rewrite zlen_app. lia.
    + by rewrite zlen_app.
    + exists sl2, s2. split; [|by rewrite Erest, app_assoc].
      cbn [slave_run]. rewrite E1. cbn [obind]. rewrite E2. done.
Qed.

(** the first block, on a free channel *)
Lemma first_nbs_block tick (b rest : list Z) s sl e more : slave_wf (f_pctl s) -> chan (f_pctl s) i e -> free_pce e -> bytes b ->
  0 < zlen b <= NBS1_BLOCK_SIZE -> (1 = nb_num_blocks N -> rest = []) ->
  zlen b + zlen rest < 2 ^ 32 -> queue_room (pctldb (f_pctl s)) (zlen b + zlen rest) ->
  ready sl -> slavenbs_reader_index sl = i ->
  stream (sl_fd sl) = nbs_packet (set_nb_next (zlen b) 1 N) b ++ more ->
  exists n sl' s', slavenet_loop_nbs1 tick g slave_reject_duplicates fs n0 sl s = Done (0, sl', s') /\
    of_product n /\ received (set_nb_next (zlen b) 1 N) n b /\
    (1 < nb_num_blocks N -> receiving n base name station 1 b s s') /\
    (1 = nb_num_blocks N -> nbs_delivered n base name station b s s') /\
    stream (sl_fd sl') = more /\ ready sl' /\ slavenbs_reader_index sl' = i.
Proof.
  intros Hw Hc Hfree Hbb Hb Hrest Htot Hroom Hdo Hix Es. pose proof (zlen_nonneg rest) as Hrest0.
  destruct (loop_step tick sl s N 1 b more (fun n s' =>
    (1 < nb_num_blocks N -> receiving n base name station 1 b s s') /\
    (1 = nb_num_blocks N -> nbs_delivered n base name station b s s')))
    as (r & sl' & s' & E & [Hc0 Hc1] & Hr & Hi & Es' & Hd' & Hx'); [done|apply N_ok; lia|lia|done| |].
  - intros r Hr Hi. pose proof Hr as (Eseq & _ & _ & _ & _ & Ebase & Ezip & En & Enum & _).
    cbn [nb_num_blocks nb_block_number set_nb_next nb_seq_number nb_fbasename nb_f_zip] in *.
    assert (acceptable r base name station) as Hacc.
    { split; try done.
      - rewrite Ebase, Hbase. pose proof (gb_len _ _ _ Hgood). pose proof (gb_nonul _ _ _ Hgood).
        rewrite !text_strncpy; try done; rewrite ?text_strncpy; try done; lia.
      - by rewrite En.
      - rewrite Ezip, Hzip. done. }
    unfold slavenbsproc. rewrite Enum. change (1 =? 1) with true. cbv iota.
    set (s1 := with_stats _ s). rewrite <- Hix, <- Hi in Hc.
    destruct (start_spec r base name station s1 e) as (s2 & e2 & -> & Hw2 & Hc2 & Hf2 & Hsq); try done.
    cbn [obind]. change (0 =? 0) with true. cbv iota.
    destruct (block_step r r base name station 0 [] b (zlen b + zlen rest) s1 s2) as (s' & E' & H0' & H1'); try done; try lia.
    { split; [done|by exists e2|done]. }
    { apply (received_block r N 1); try done; lia. }
    { change (zlen []) with 0. lia. }
    { intros E1. rewrite Hrest by lia. change (zlen []) with 0. lia. }
    rewrite Enum in E'. rewrite E'. exists s'. rewrite En in *. split; [done|]. split; [|done].
    intros Hlt. by destruct (H0' Hlt).
  - exists r, sl', s'. split_and!; try done; [|congruence]. split_and!; [apply Hr|congruence|apply Hr].
Qed.

(** all the packets of a product *)
Lemma run_product_nbs ticks (data : list Z) s sl e more : length ticks = Z.to_nat (nb_num_blocks N) ->
  slave_wf (f_pctl s) -> chan (f_pctl s) i e -> free_pce e -> bytes data ->
  (nb_num_blocks N - 1) * NBS1_BLOCK_SIZE < zlen data <= nb_num_blocks N * NBS1_BLOCK_SIZE ->
  queue_room (pctldb (f_pctl s)) (zlen data) -> ready sl -> slavenbs_reader_index sl = i ->
  stream (sl_fd sl) = concat (nbs_packets (Z.to_nat (nb_num_blocks N)) N 0 data) ++ more ->
  exists n sl' s', slave_run ticks g slave_reject_duplicates fs n0 sl s =
      Done (replicate (Z.to_nat (nb_num_blocks N)) 0, sl', s') /\ of_product n /\
    received (set_nb_next (zlen (ztake NBS1_BLOCK_SIZE data)) 1 N) n (ztake NBS1_BLOCK_SIZE data) /\
    nbs_delivered n base name station data s s' /\ stream (sl_fd sl') = more /\ ready sl'.
Proof.
  intros Htk Hw Hc Hfree Hby Hl Hroom Hdo Hix Es.
  destruct (Z.to_nat (nb_num_blocks N)) as [|m] eqn:Em; [lia|]. destruct ticks as [|tick ticks]; [done|]. injection Htk as Htk. cbn [nbs_packets concat] in Es.
  rewrite <- app_assoc in Es. change (0 + 1) with 1 in Es.
  destruct (split_block m data) as (Edata & Hb & Hr); [unfold NBS1_BLOCK_SIZE in *; lia|].
  set (b := ztake NBS1_BLOCK_SIZE data) in *. set (r0 := zdrop NBS1_BLOCK_SIZE data) in *.
  assert (zlen data = zlen b + zlen r0) as Hlen by (rewrite Edata at 1; apply zlen_app).
  rewrite Hlen in Hroom. rewrite Edata in Hby. apply bytes_app in Hby as [Hbb Hbr].
  assert (zlen b + zlen r0 < 2 ^ 32) as Htot by (unfold NBS1_BLOCK_SIZE in *; lia).
  destruct (first_nbs_block tick b r0 s sl e (concat (nbs_packets m N 1 r0) ++ more))
    as (n & sl1 & s1 & E1 & Hn & Hrcv & H0 & H1 & Es1 & Hd1 & Hx1); try done.
  { intros E1. assert (m = 0%nat) as -> by lia. done. }
  cbn [slave_run]. rewrite E1. cbn [obind]. destruct m as [|m].
  - destruct ticks; [|done]. cbn [slave_run obind]. exists n, sl1, s1. rewrite Edata. subst r0. rewrite Hr, app_nil_r.
    split_and!; try done. apply H1. lia.
  - destruct (run_blocks n m ticks 1 r0 b s s1 sl1 more) as (sl2 & s2 & E2 & Hdel & Es2 & Hd2); try done; try lia.
    { apply H0. lia. }
    rewrite E2. cbn [obind]. exists n, sl2, s2. rewrite <- Edata in Hdel. by split_and!.
Qed.
End product.
End assembly.

(** ** From the server to the slave *)

Lemma u8_schar x : u8 (schar (u8 x)) = u8 x.
Proof.
  unfold schar, u8. change (2 ^ 8) with 256. destruct (_ <? _); [apply Zmod_mod|].
  rewrite <- (Z_mod_plus_full (x mod 256 - 256) 1 256).
  replace (x mod 256 - 256 + 1 * 256) with (x mod 256) by lia. apply Zmod_mod.
Qed.

Section transfer.
Context `{HS : HeapSpec} `{DR : DbReliable} `{CS : ClockSpec} `{Rx : Regex}
  {FS : FileSys} {FSS : FileSysSpec FS} {FSR : FileSysReliable FS FSS} {FR : FileRead FS}
  {FRR : FileReadReliable FS FSS FR} `{SR : SpoolBdbReliable}.
Hypothesis Hmem : forall n, n < 2 ^ 40 -> malloc_ok n = true.
Context (junk : Z -> list Z) (Hjunk : forall n, 0 <= n -> zlen (junk n) = n).
Context (g : globals) (Hmin : 0 <= memfile_minsize g < 2 ^ 31).
Context (slave_reject_duplicates : Z) (fs : fsys).
Context (n0 n1 : nbs1_packet_st) (Hn0 : zlen (nb_packet n0) = NBS1_PACKET_MAXSIZE)
  (Hn1 : zlen (nb_packet n1) = NBS1_PACKET_MAXSIZE).

(** From a client thread to a slave. The client thread of a server, with a product
    that is in its spool, files or memory, either closes the connection or sends
    packets; a slave that reads those bytes, whatever comes after them, takes
    one turn for each packet, without errors, and puts one complete element in
    its processing queue, with the bytes, the sequence number, the name and the
    codes of the product, and a path in its own directory. *)
Lemma nbs_transfer m ce f e d base name station (data : list Z) :
  product_stored m (fpath e) data -> bytes data -> 0 < zlen data <= 32734 * NBS1_BLOCK_SIZE ->
  pce_named e -> fpath e = d ++ 47 :: base -> Forall (fun c => c <> 47) base -> good_base base name station ->
  np_regex_match name <> 1 -> file_exists fs (spooldir g ++ 47 :: station ++ 47 :: base) <> 0 ->
  connected ce f ->
  exists st ce' m', send_nbs1_client junk [] n0 m ce (fp_packet e) = Done (Some (st, ce', m')) /\
    (st <> 0 -> ce_fd ce' = None) /\
    (st = 0 -> exists f' packets, connected ce' f' /\ sent f' = sent f ++ packets /\
      forall ticks sl s e0 more, length ticks = Z.to_nat (get_num_blocks (zlen data)) -> slave_wf (f_pctl s) -> chan (f_pctl s) (slavenbs_reader_index sl) e0 -> free_pce g e0 ->
        queue_room (pctldb (f_pctl s)) (zlen data) -> ready sl ->
        stream (sl_fd sl) = packets ++ more ->
        exists sl' s' e', slave_run ticks g slave_reject_duplicates fs n1 sl s =
            Done (replicate (length ticks) 0, sl', s') /\
          absq (pctldb (f_pctl s')) = absq (pctldb (f_pctl s)) ++ [(info e', data)] /\
          f_complete e' = 1 /\ seq_number e' = seq_number e /\ fbasename e' = base /\
          cstr (fname e') = Done name /\ fpath e' = spooldir g ++ 47 :: station ++ 47 :: base /\
          psh_product_type e' = u8 (psh_product_type e) /\
          psh_product_category e' = u8 (psh_product_category e) /\
          psh_product_code e' = u8 (psh_product_code e) /\
          pce_np_channel_index e' = u8 (pce_np_channel_index e) /\
          stream (sl_fd sl') = more /\ slave_wf (f_pctl s')).
Proof.
  intros Hst Hby Hl He Hfp Hsl Hgood Hrx Hnew Hc.
  destruct (block_counts (zlen data)) as (Hlast & Hnb & Hsz); [lia|].
  assert (get_num_blocks (zlen data) < 32735) by (unfold NBS1_BLOCK_SIZE in *; lia).
  destruct (send_nbs1_spec junk Hjunk m ce f e base data n0) as (st & ce' & m' & E & Hok & Hko); try done.
  - unfold NBS1_BLOCK_SIZE in *; lia.
  - rewrite Hfp. apply findbasename_app; [done|apply Hgood| |].
    + intros ->. destruct (gb_name _ _ _ Hgood) as [r Hr]. done.
    + pose proof (pn_nonul _ He) as Hn. rewrite Hfp in Hn. by apply Forall_app in Hn as [? _].
  - apply Hgood.
  - exists st, ce', m'. split; [done|]. split; [done|]. intros E0. destruct (Hok E0) as (f' & Hc' & Es).
    exists f', (nbs_stream e base data). split; [done|]. split; [done|].
    intros ticks sl s e0 more Htk Hw Hch Hfree Hroom Hdo Hs. rewrite Htk.
    destruct (run_product_nbs Hmem g Hmin slave_reject_duplicates fs n1 Hn1 (nbs_of e base (zlen data)) base name
      station (slavenbs_reader_index sl)) with (ticks := ticks) (data := data) (s := s) (sl := sl) (e := e0) (more := more)
      as (n & sl' & s' & Er & Hn & Hrcv & (e' & e2 & Habs & Hcmp & Hnm & Hw' & _) & Es' & _); try done.
    + apply He.
    + cbn [nbs_of nb_num_blocks]. unfold NBS1_BLOCK_SIZE in *. lia.
    + exists sl', s', e'. destruct Hrcv as (R1 & R2 & R3 & R4 & R5 & _), Hnm.
      cbn in R1, R2, R3, R4, R5. rewrite u8_schar in *.
      split_and!; try done; congruence.
Qed.
End transfer.

(** ** Witness *)

(** the file [/p/kwbc_sx.1] of the server, with two bytes *)
Definition nbs_name : list Z := [107; 119; 98; 99; 95; 115; 120].
Definition nbs_base : list Z := nbs_name ++ [46; 49].
Definition nbs_item : pctl_element_st :=
  Pce 1 1 1 77 0 0 3 200 5 2 (Timespec 0 0) (Timespec 0 0) 0 0 0 (Memfile 8192 8192 0 0 [])
    [] 0 0 (WmoHeader [] [] [] [] []) (nbs_name ++ replicate 11 0) nbs_base 45 ([47; 112; 47] ++ nbs_base).
Definition nbs_spools : @spools map_filesys map_sdb :=
  @Spools map_filesys map_sdb SPOOLTYPE_FS {| mfs_files := {[ [47; 112; 47] ++ nbs_base := [72; 73] ]}; mfs_dirs := ∅ |} None None.
Definition nbs_client : conn_element_st :=
  ConnElement (Some (Fd [EvRoom 40; EvTimeout; EvRoom 100] [] [])) 0 0 (ConnStats 0 0 0 0 0 0) 0 3 1 true.
Definition nbs_buf : nbs1_packet_st :=
  Nbs1 (replicate (Z.to_nat NBS1_PACKET_MAXSIZE) 0) 0 0 0 0 0 0 None (-1) (-1) 0 0 0 0 0 [] 0 0.
Definition nbs_zero (n : Z) : list Z := replicate (Z.to_nat n) 0.

(** a slave that has received [d] *)
Definition nbs_slave (d : list Z) : slave_element_st :=
  Slave SLAVETYPE_NBS1 PNull PNull PNull demo_options 1 (Some (Fd [EvData d] [] [])) 1 zero_stats.

#[local] Existing Instances demo_heap demo_heap_spec demo_clock demo_clock_spec demo_regex
  list_db_reliable map_sdb map_sdb_spec map_sdb_reliable map_fileread map_fileread_reliable.

(** the packet is sent whole *)
Lemma nbs_sent :
  match send_nbs1_client nbs_zero [] nbs_buf nbs_spools nbs_client (fp_packet nbs_item) with
  | Done (Some (st, ce', _)) => (st, zlen (from_option sent [] (ce_fd ce')))
  | _ => (1, 0)
  end = (0, 68).
Proof. by vm_compute. Qed.
