(* ===== verification/Per.v ===== *)
(** * Per: src/src/per.c, the periodic events of the main loop

    A table of functions with a period and the time of the next call, and
    another of functions that are called when the minute changes. The functions
    are named by constructors; the result of [periodic] is the list of the
    calls it makes. [tm_min]: the minute of the local time. *)

From S2P Require Import Prelude.

Class LocalTime := { tm_min : Z -> Z }.

Inductive per_proc :=
| Rept_pctl_quota | Report_quota | Log_qstate | Nbspstats_update | Set_server_state_flag
| Set_filterserver_state_flag | Verify_load_ave_condition | Set_rtxdb_truncate_flag
| Mspoolbdb_dbstats | Exec_scheduler | Set_reopen_qstatefifo_flag | Set_reload_filters_flag
| Set_reload_server_filters_flag.
#[export] Instance per_proc_eq : EqDecision per_proc.
Proof. solve_decision. Defined.

Record periodic_event_st := PerEvent { ev_period : Z; ev_next : Z; ev_proc : per_proc }.
Record minutely_event_st := MinEvent { mev_last_minute : Z; mev_proc : per_proc }.

(** the members of the configuration *)
Record per_conf := PerConf {
  queue_quota_logperiod_secs : Z;
  qstate_logperiod_secs : Z;
  nbspstats_logperiod_secs : Z;
  serverstate_logperiod_secs : Z;
  loadave_checkperiod_secs : Z;
  rtxdb_truncate_minutes : Z;
  mspoolbdb_dbstats_logperiod_secs : Z
}.

(** the tables, up to the elements that end them *)
Record per_st := PerSt { gevents : list periodic_event_st; gmevents : list minutely_event_st }.

Definition gevents_init : list periodic_event_st :=
  [PerEvent 60 0 Rept_pctl_quota; PerEvent 60 0 Report_quota; PerEvent 60 0 Log_qstate;
   PerEvent 60 0 Nbspstats_update; PerEvent 60 0 Set_server_state_flag;
   PerEvent 60 0 Set_filterserver_state_flag; PerEvent 30 0 Verify_load_ave_condition;
   PerEvent 7200 0 Set_rtxdb_truncate_flag; PerEvent 60 0 Mspoolbdb_dbstats].
Definition gmevents_init : list minutely_event_st := [MinEvent 0 Exec_scheduler].

(** the periods of the configuration, in the order of the table *)
Definition conf_periods (g : per_conf) : list Z :=
  [queue_quota_logperiod_secs g; queue_quota_logperiod_secs g; qstate_logperiod_secs g;
   nbspstats_logperiod_secs g; serverstate_logperiod_secs g; serverstate_logperiod_secs g;
   loadave_checkperiod_secs g; s32 (rtxdb_truncate_minutes g * 60);
   mspoolbdb_dbstats_logperiod_secs g].

Section per.
Context {L : LocalTime}.

Definition current_minute (now : Z) : Z := tm_min now.

Definition init_periodic (g : per_conf) (now : Z) (s : per_st) : per_st :=
  let evs := zip_with (fun p ev => PerEvent p (ev_next ev) (ev_proc ev)) (conf_periods g) (gevents s) in
  PerSt (map (fun ev => PerEvent (ev_period ev) (now + ev_period ev) (ev_proc ev)) evs)
    (map (fun mev => MinEvent (current_minute now) (mev_proc mev)) (gmevents s)).

(** a turn of each of the loops *)
Definition event_turn (now : Z) (ev : periodic_event_st) : periodic_event_st * list per_proc :=
  if ev_next ev <=? now
  then (PerEvent (ev_period ev) (ev_next ev + ev_period ev) (ev_proc ev), [ev_proc ev])
  else (ev, []).
Definition minute_turn (minute_now : Z) (mev : minutely_event_st) : minutely_event_st * list per_proc :=
  if negb (minute_now =? mev_last_minute mev)
  then (MinEvent minute_now (mev_proc mev), [mev_proc mev])
  else (mev, []).

Definition periodic (now hup : Z) (s : per_st) : per_st * list per_proc :=
  let evs := map (event_turn now) (gevents s) in
  let mevs := map (minute_turn (current_minute now)) (gmevents s) in
  (PerSt (map fst evs) (map fst mevs),
   concat (map snd evs) ++ concat (map snd mevs) ++ [Set_reopen_qstatefifo_flag] ++
   if negb (hup =? 0) then [Set_reload_filters_flag; Set_reload_server_filters_flag] else []).

(** calls at the times of a list, with the hup flag then *)
Fixpoint periodic_run (calls : list (Z * Z)) (s : per_st) : per_st * list per_proc :=
  match calls with
  | [] => (s, [])
  | (now, hup) :: calls =>
      let (s, l) := periodic now hup s in
      let (s, k) := periodic_run calls s in (s, l ++ k)
  end.

(** ** The schedule *)

Definition times (p : per_proc) (l : list per_proc) : Z := zlen (List.filter (fun q => bool_decide (q = p)) l).

Lemma times_app p l k : times p (l ++ k) = times p l + times p k.
Proof. unfold times. by rewrite List.filter_app, zlen_app. Qed.

(** the times go from [t] on, with no gap of more than [p] *)
Fixpoint no_gap (p t : Z) (calls : list (Z * Z)) : Prop :=
  match calls with
  | [] => True
  | (now, _) :: calls => t <= now <= t + p /\ no_gap p now calls
  end.
Fixpoint last_time (t : Z) (calls : list (Z * Z)) : Z :=
  match calls with
  | [] => t
  | (now, _) :: calls => last_time now calls
  end.

(** how many times the minute changes *)
Fixpoint minute_changes (m : Z) (calls : list (Z * Z)) : Z :=
  match calls with
  | [] => 0
  | (now, _) :: calls => (if tm_min now =? m then 0 else 1) + minute_changes (tm_min now) calls
  end.

(** the functions of the tables do not change *)
Record per_wf (s : per_st) : Prop := PerWf {
  pw_events : map ev_proc (gevents s) = map ev_proc gevents_init;
  pw_minute : map mev_proc (gmevents s) = [Exec_scheduler]
}.

Lemma event_turn_proc now ev : ev_proc (event_turn now ev).1 = ev_proc ev.
Proof. unfold event_turn. by destruct (_ <=? _). Qed.
Lemma minute_turn_proc m mev : mev_proc (minute_turn m mev).1 = mev_proc mev.
Proof. unfold minute_turn. by destruct (negb _). Qed.

Lemma periodic_wf now hup s : per_wf s -> per_wf (periodic now hup s).1.
Proof.
  intros [He Hm]. split; cbn [periodic fst gevents gmevents]; rewrite !map_map; [rewrite <- He|rewrite <- Hm];
    apply map_ext; intros; [apply event_turn_proc|apply minute_turn_proc].
Qed.

Lemma times_one p q : times p [q] = if bool_decide (q = p) then 1 else 0.
Proof. unfold times. cbn. by destruct (bool_decide _). Qed.

Lemma times_events_none now evs p : p ∉ map ev_proc evs ->
  times p (concat (map snd (map (event_turn now) evs))) = 0.
Proof.
  induction evs as [|ev evs IH]; intros Hp; [done|]. cbn [map concat] in *. rewrite times_app.
  apply not_elem_of_cons in Hp as [Hn Hp]. rewrite IH by done. unfold event_turn.
  destruct (_ <=? _); cbn [snd]; [|done]. rewrite times_one. by rewrite bool_decide_eq_false_2 by congruence.
Qed.

Lemma times_events now evs : forall j ev, NoDup (map ev_proc evs) -> evs !! j = Some ev ->
  times (ev_proc ev) (concat (map snd (map (event_turn now) evs))) = if ev_next ev <=? now then 1 else 0.
Proof.
  induction evs as [|e evs IH]; intros j ev Hd Hj; [done|]. cbn [map concat] in *. rewrite times_app.
  apply list.NoDup_cons in Hd as [Hn Hd]. destruct j as [|j].
  - injection Hj as ->. rewrite times_events_none by done. unfold event_turn.
    destruct (_ <=? _); cbn [snd]; [|done]. rewrite times_one. by rewrite bool_decide_eq_true_2.
  - cbn in Hj. rewrite (IH j ev Hd Hj). unfold event_turn. destruct (ev_next e <=? now); cbn [snd]; [|done].
    rewrite times_one, bool_decide_eq_false_2; [done|]. intros E. apply Hn. rewrite E.
    apply list_elem_of_fmap. exists ev. split; [done|]. by eapply list_elem_of_lookup_2.
Qed.

(** the calls of [periodic]: those of an event of the table, and the others *)
Lemma periodic_event now hup s j ev : per_wf s -> gevents s !! j = Some ev ->
  times (ev_proc ev) (periodic now hup s).2 = (if ev_next ev <=? now then 1 else 0) /\
  gevents (periodic now hup s).1 !! j = Some (event_turn now ev).1.
Proof.
  intros [He Hm] Hj. split.
  - cbn [periodic snd]. rewrite times_app, (times_events now _ j ev); [|rewrite He|done].
    2: { apply (bool_decide_unpack _). by vm_compute. }
    rewrite <- (Z.add_0_r (if _ <=? _ then _ else _)) at 2. f_equal.
    destruct (gmevents s) as [|mev [|? ?]]; try done. injection Hm as Hm. cbn [map concat app].
    assert (ev_proc ev ∈ map ev_proc gevents_init) as Hin.
    { rewrite <- He. apply list_elem_of_fmap. exists ev. split; [done|]. by eapply list_elem_of_lookup_2. }
    unfold minute_turn. rewrite !times_app. destruct (negb (current_minute _ =? _)), (negb (hup =? 0)); cbn [snd];
      rewrite ?Hm; cbn [map ev_proc gevents_init] in Hin; rewrite !elem_of_cons, elem_of_nil in Hin;
      repeat (destruct Hin as [-> |Hin]; [by vm_compute|]); done.
  - cbn [periodic fst gevents]. rewrite map_map. by rewrite (list_lookup_fmap (fun x => (event_turn now x).1)), Hj.
Qed.

Lemma periodic_minute now hup s mev : per_wf s -> gmevents s = [mev] ->
  times Exec_scheduler (periodic now hup s).2 = (if tm_min now =? mev_last_minute mev then 0 else 1) /\
  gmevents (periodic now hup s).1 = [MinEvent (tm_min now) Exec_scheduler].
Proof.
  intros [He Hm] Hg. rewrite Hg in Hm. injection Hm as Hm. cbn [periodic fst snd gmevents]. rewrite Hg.
  cbn [map concat app]. split.
  - rewrite times_app, times_events_none.
    2: { rewrite He. apply (bool_decide_unpack _). by vm_compute. }
    unfold minute_turn, current_minute. rewrite !times_app.
    destruct (_ =? _), (negb (hup =? 0)); cbn [negb snd]; rewrite ?Hm; by vm_compute.
  - unfold minute_turn, current_minute. destruct (Z.eqb_spec (tm_min now) (mev_last_minute mev)) as [E|E]; cbn [negb fst].
    + destruct mev. cbn in *. by subst.
    + by rewrite Hm.
Qed.

(** [n] calls so far of a function with the period [p], the last time [t] *)
Lemma periodic_run_event p t0 calls : forall s j ev t, 0 < p -> per_wf s -> gevents s !! j = Some ev ->
  ev_period ev = p -> no_gap p t calls -> ev_next ev = t0 + p * ((t - t0) / p + 1) ->
  times (ev_proc ev) (periodic_run calls s).2 = (last_time t calls - t0) / p - (t - t0) / p.
Proof.
  induction calls as [|[now hup] calls IH]; intros s j ev t Hp Hw Hj Hper Hgap Hnext; cbn [periodic_run last_time].
  { change (0 = (t - t0) / p - (t - t0) / p). lia. }
  destruct Hgap as [Hnow Hgap]. destruct (periodic_event now hup s j ev Hw Hj) as [Ht Hj'].
  pose proof (periodic_wf now hup s Hw) as Hw'. destruct (periodic now hup s) as [s1 l]. cbn [fst snd] in *.
  pose proof (event_turn_proc now ev) as Hproc.
  specialize (IH s1 j (event_turn now ev).1 now Hp Hw' Hj'). rewrite Hproc in IH.
  destruct (periodic_run calls s1) as [s2 k]. cbn [snd] in *. rewrite times_app, Ht.
  pose proof (Z.mul_div_le (t - t0) p Hp). pose proof (Z.mul_succ_div_gt (t - t0) p Hp).
  assert ((now - t0) / p = (t - t0) / p + (if ev_next ev <=? now then 1 else 0)) as Hq.
  { symmetry. apply Z.div_unique_pos with (now - t0 - p * ((t - t0) / p + (if ev_next ev <=? now then 1 else 0)));
      destruct (Z.leb_spec (ev_next ev) now); lia. }
  rewrite IH; [|unfold event_turn; destruct (_ <=? _); exact Hper|done|]; [lia|].
  rewrite Hq. unfold event_turn. destruct (_ <=? _); cbn [fst ev_next]; lia.
Qed.

Lemma periodic_run_minute calls : forall s mev, per_wf s -> gmevents s = [mev] ->
  times Exec_scheduler (periodic_run calls s).2 = minute_changes (mev_last_minute mev) calls.
Proof.
  induction calls as [|[now hup] calls IH]; intros s mev Hw Hg; cbn [periodic_run minute_changes]; [done|].
  destruct (periodic_minute now hup s mev Hw Hg) as [Ht Hg']. pose proof (periodic_wf now hup s Hw) as Hw'.
  destruct (periodic now hup s) as [s1 l]. cbn [fst snd] in *. specialize (IH s1 _ Hw' Hg').
  destruct (periodic_run calls s1) as [s2 k]. cbn [snd] in *. by rewrite times_app, Ht, IH.
Qed.

(** C33: The schedule. If the main loop calls [periodic] with no gap longer
    than the period of an event, the event has been called as many times as
    whole periods have passed since the start; [exec_scheduler] is called once
    for each change of the minute. *)
Theorem periodic_on_time (g : per_conf) (t0 : Z) (calls : list (Z * Z)) :
  let s := init_periodic g t0 (PerSt gevents_init gmevents_init) in
  (forall j ev, gevents s !! j = Some ev -> 0 < ev_period ev -> no_gap (ev_period ev) t0 calls ->
     times (ev_proc ev) (periodic_run calls s).2 = (last_time t0 calls - t0) / ev_period ev) /\
  times Exec_scheduler (periodic_run calls s).2 = minute_changes (tm_min t0) calls.
Proof.
  intros s. assert (per_wf s) as Hw by done. split.
  - intros j ev Hj Hp Hgap.
    rewrite (periodic_run_event (ev_period ev) t0 calls s j ev t0) by (done || (rewrite Z.sub_diag, Z.div_0_l by lia;
      repeat (destruct j as [|j]; [injection Hj as <-; cbn; lia|]); done)).
    rewrite Z.sub_diag, Z.div_0_l by lia. lia.
  - by apply (periodic_run_minute calls s (MinEvent (tm_min t0) Exec_scheduler)).
Qed.
End per.

(** with calls every fifty seconds, a function with the period of a minute has
    been called twice after 150 seconds *)
Lemma periodic_on_time_witness :
  let L := {| tm_min t := (t / 60) mod 60 |} in
  let s := init_periodic (PerConf 60 60 60 60 60 120 60) 1000 (PerSt gevents_init gmevents_init) in
  let calls := [(1050, 0); (1100, 1); (1150, 0)] in
  times Log_qstate (periodic_run calls s).2 = 2 /\ times Exec_scheduler (periodic_run calls s).2 = 3.
Proof.
  intros L s calls. destruct (periodic_on_time (PerConf 60 60 60 60 60 120 60) 1000 calls) as [Hp Hm].
  fold s in Hp, Hm. split.
  - etrans; [apply (Hp 2%nat (PerEvent 60 1060 Log_qstate)); by vm_compute|by vm_compute].
  - rewrite Hm. by vm_compute.
Defined.
