(* ===== verification/Slavefp.v ===== *)
(** * Slavefp: src/src/slavefp and src/src/slavein, receiving paths of products

    The readers for products that are already in the spool: from a server that
    sends the packets of [Packfp] (slavefp), or from a fifo with lines of text
    (slavein). Both put the packet in the distribution queues ([Qdb]).

    The state of a reader is its element of the table ([Slavet]) and its
    [info], which is passed beside it. [tick] is as in [Slavenbs]. The report of
    the state of the queues is left out. *)

From stdpp Require Import gmap.
From S2P Require Import Prelude Util CLib Mfile Pctldb Pctl Nreadn Packfp Qdb File Mspool.
From S2P Require Import Nbsp Nbs1 Emwin Serverc Strsplit Stoi Slavet.

Section slavefp.
Context `{Hp : Heap} `{Q : QueueDb} {Rx : QueueRegex}.

(** the queues have patterns for the names; without one [uwildregex_match] does
    not look at the name *)
Context (filterq_used serverq_used : bool).

Definition regex_on (used : bool) (regex_match : list Z -> Z) (name : outcome (list Z)) : outcome Z :=
  if used then let* nm := name in Done (regex_match nm) else Done (regex_match []).

(** [fc], [sc]: the filter and the server threads have been created *)
Definition slavefpproc (fc sc : Z) (pi : packet_info_st) (qt : nbsp_qtable_st)
  : outcome (Z * nbsp_qtable_st) :=
  match pi_packet pi with
  | Some p =>
      let name := match pi_fname pi with Some i => cstr (zdrop i p) | None => Undef end in
      let packet := ztake (pi_packet_size pi) p in
      let* m := regex_on filterq_used filterq_regex_match name in
      let* (status1, qt) := if m =? 0 then e_nbspq_snd_filter fc qt packet else Done (0, qt) in
      let* m := regex_on serverq_used serverq_regex_match name in
      let* (status2, qt) := if m =? 0 then e_nbspq_snd_server sc qt packet else Done (0, qt) in
      Done (if status1 =? 0 then status2 else status1, qt)
  | None => Undef
  end.

(** 0, or the status of the allocation; [junk], [pi0]: what the memory holds *)
Definition slavenet_init_nbs2 (spooldir junk : list Z) (pi0 : packet_info_st) : Z * option packet_info_st :=
  match nbsfp_packetinfo_create spooldir junk pi0 with
  | Some pi => (0, Some pi)
  | None => (-1, None)
  end.

(** 0, 1 a reading error, 2 a processing error *)
Definition slavenet_loop_nbs2 (tick : Z * bool) (fc sc : Z) (sl : slave_element_st) (pi : packet_info_st)
    (qt : nbsp_qtable_st) : outcome (Z * slave_element_st * packet_info_st * nbsp_qtable_st) :=
  match slave_fd sl with
  | None => Done (1, slave_stats_update_connect_errors sl, pi, qt)
  | Some f =>
      let* (status, pi, f) := recv_fp_packet f pi (slave_read_timeout_retry (options sl)) in
      let sl := set_sl_fd (Some f) sl in
      if negb (status =? 0) then Done (1, slave_stats_update_connect_errors sl, pi, qt) else
      let* (status, qt) := slavefpproc fc sc pi qt in
      if negb (status =? 0) then Done (2, slave_stats_update_errors sl, pi, qt) else
      Done (0, slave_stats_report tick.1 tick.2 (slave_stats_update_packets (pi_packet_size pi) sl), pi, qt)
  end.

(** ** Lines from a fifo *)

Definition slaveinproc := slavefpproc.

Record slavein_info_st := SlaveinInfo {
  in_packetinfo : packet_info_st;
  in_pce : pctl_element_st;
  in_buffer : option (list Z);
  in_buffer_size : Z
}.
Definition set_in_packetinfo v (i : slavein_info_st) := SlaveinInfo v (in_pce i) (in_buffer i) (in_buffer_size i).
Definition set_in_pce v (i : slavein_info_st) := SlaveinInfo (in_packetinfo i) v (in_buffer i) (in_buffer_size i).
Definition set_in_buffer v n (i : slavein_info_st) := SlaveinInfo (in_packetinfo i) (in_pce i) v n.

(** [pce_size]: [const_pce_size()]; 32 the size of the structure *)
Definition slavein_info_create (spooldir junk : list Z) (pi0 : packet_info_st) (pce_size : Z)
    (pce0 : pctl_element_st) : Z * option slavein_info_st :=
  if negb (malloc_ok 32) then (-1, None)
  else if negb (malloc_ok pce_size) then (-1, None)
  else
    match nbsfp_packetinfo_create spooldir junk pi0 with
    | None => (-1, None)
    | Some pi => (0, Some (SlaveinInfo pi (set_fpath_size (const_fpath_maxsize spooldir + 1) pce0) None 0))
    end.

(** ["%u"] and ["%d"] of [sscanf]: the value, the rest of the text *)
Definition scan_u (s : list Z) : option (Z * list Z) :=
  let '(v, none, r, _) := strtoul s in if none then None else Some (u32 v, r).
Definition scan_d (s : list Z) : option (Z * list Z) :=
  let '(v, none, r, _) := strtol s in if none then None else Some (s32 v, r).

(** ["%u %d %d %d %d"]: the number of conversions, and the element *)
Definition sscanf_info (s : list Z) (e : pctl_element_st) : Z * pctl_element_st :=
  match scan_u s with
  | None => (0, e)
  | Some (v, s) =>
      let e := set_seq_number v e in
      match scan_d s with
      | None => (1, e)
      | Some (v, s) =>
          let e := set_psh_product_type v e in
          match scan_d s with
          | None => (2, e)
          | Some (v, s) =>
              let e := set_psh_product_category v e in
              match scan_d s with
              | None => (3, e)
              | Some (v, s) =>
                  let e := set_psh_product_code v e in
                  match scan_d s with
                  | None => (4, e)
                  | Some (v, _) => (5, set_pce_np_channel_index v e)
                  end
              end
          end
      end
  end.

(** the text before and after the last blank *)
Definition last_blank (s : list Z) : option (list Z * list Z) :=
  match strrchr_after 32 s with
  | None => None
  | Some r => Some (ztake (zlen s - zlen r - 1) s, r)
  end.

(** what [recv_in_packet] does with the line *)
Definition parse_info (text : list Z) (i : slavein_info_st) : outcome (Z * slavein_info_st) :=
  let (n, e) := sscanf_info text (in_pce i) in
  let i := set_in_pce e i in
  if negb (n =? 5) then Done (3, i) else
  match last_blank text with
  | None => Done (4, i)
  | Some (front, path) =>
      match last_blank front with
      | None => Done (5, i)
      | Some (_, name) =>
          if fpath_size (in_pce i) <? zlen path + 1 then Done (6, i) else
          let i := set_in_pce (set_fpath path (in_pce i)) i in
          match findbasename (Some path) with
          | None => Done (7, i)
          | Some b =>
              if FBASENAME_SIZE <? zlen b then Done (8, i) else
              let i := set_in_pce (set_fbasename b (in_pce i)) i in
              if FNAME_SIZE <? zlen name then Done (9, i) else
              let* a := strncpy (fname (in_pce i)) 0 name (FNAME_SIZE + 1) in
              let i := set_in_pce (set_fname a (in_pce i)) i in
              let* (status, pi) := nbsfp_pack_fpath (in_packetinfo i) (in_pce i) in
              Done (status, set_in_packetinfo pi i)
          end
      end
  end.

(** [junk4], [junk]: what the array and the memory from [malloc] hold *)
Definition recv_in_packet (f : fd_st) (i : slavein_info_st) (junk4 : list Z) (junk : Z -> list Z)
  : outcome (Z * slavein_info_st * fd_st) :=
  let* (n, b, f) := readn f junk4 0 4 0 in
  let n := s32 n in
  let status := if n =? -1 then -1 else if n =? -2 then -2 else if n =? 0 then -3
                else if negb (n =? 4) then 1 else 0 in
  if negb (status =? 0) then Done (status, i, f) else
  let* v := unpack_uint32 b 0 in
  let finfo_size := s32 v in
  let size := s32 (finfo_size + 1) in
  let i := if in_buffer_size i <? size
           then set_in_buffer (if malloc_ok (u64 size) then Some (junk size) else None) size i else i in
  match in_buffer i with
  | None => Done (-1, set_in_buffer None 0 i, f)
  | Some buf =>
      let* (n, buf, f) := readn f buf 0 (u64 size) 0 in
      let i := set_in_buffer (Some buf) (in_buffer_size i) i in
      let n := s32 n in
      let status := if n =? -1 then -1 else if negb (n =? size) then 1 else 0 in
      if negb (status =? 0) then Done (status, i, f) else
      let* c := rd buf finfo_size in
      if negb (c =? 10) then Done (2, i, f) else
      let* buf := wr buf finfo_size [0] in
      let i := set_in_buffer (Some buf) (in_buffer_size i) i in
      let* text := cstr buf in
      let* (status, i) := parse_info text i in
      Done (status, i, f)
  end.

(** 0, 1 a reading error, 2 a processing error *)
Definition slavein_loop (tick : Z * bool) (fc sc : Z) (junk4 : list Z) (junk : Z -> list Z) (sl : slave_element_st)
    (i : slavein_info_st) (qt : nbsp_qtable_st)
  : outcome (Z * slave_element_st * slavein_info_st * nbsp_qtable_st) :=
  match slave_fd sl with
  | None => Done (0, sl, i, qt)
  | Some f =>
      let* (status, i, f) := recv_in_packet f i junk4 junk in
      let sl := set_sl_fd (Some f) sl in
      if negb (status =? 0) then
        if status =? -2 then Done (0, sl, i, qt)
        else Done (1, slave_stats_update_connect_errors sl, i, qt)
      else
        let* (status, qt) := slaveinproc fc sc (in_packetinfo i) qt in
        if negb (status =? 0) then Done (2, slave_stats_update_errors sl, i, qt) else
        Done (0, slave_stats_report tick.1 tick.2
                   (slave_stats_update_packets (pi_packet_size (in_packetinfo i)) sl), i, qt)
  end.
End slavefp.

(** ** What is queued *)

Section theory.
Context `{Hp : Heap} `{QR : QueueDbReliable} {Rx : QueueRegex}.
Context (filterq_used serverq_used : bool).

(** the two queues, with room for a packet of [n] bytes *)
Record queues_room (n : Z) (qf qv : list (list Z)) (qt : nbsp_qtable_st) : Prop := QueuesRoom {
  qm_rep : table_rep qt [qf; qv];
  qm_n : qt_n qt = 2;
  qm_reclen : qt_reclen qt = n;
  qm_filter : qt_hardlimit qt <= 0 \/ zlen qf < qt_hardlimit qt;
  qm_server : qt_hardlimit qt <= 0 \/ zlen qv < qt_hardlimit qt;
  qm_short : zlen qf + 1 < 2 ^ 31 /\ zlen qv + 1 < 2 ^ 31
}.

Lemma room_test hard (q : list (list Z)) : hard <= 0 \/ zlen q < hard -> (0 <? hard) && (hard <=? zlen q) = false.
Proof. intros H. destruct (Z.ltb_spec 0 hard), (Z.leb_spec hard (zlen q)); try done. lia. Qed.

(** the name is accepted by both patterns, if there are any *)
Definition accepted (nm : list Z) : Prop :=
  filterq_regex_match (if filterq_used then nm else []) = 0 /\ serverq_regex_match (if serverq_used then nm else []) = 0.

Lemma slavefpproc_spec fc sc pi p nm n qf qv qt : pi_packet pi = Some p -> pi_packet_size pi = n -> zlen p = n ->
  (filterq_used || serverq_used = true -> exists i, pi_fname pi = Some i /\ cstr (zdrop i p) = Done nm) ->
  accepted nm -> fc <> 0 -> sc <> 0 -> queues_room n qf qv qt ->
  exists qt', slavefpproc filterq_used serverq_used fc sc pi qt = Done (0, qt') /\
    table_rep qt' [qf ++ [p]; qv ++ [p]] /\
    qt_n qt' = qt_n qt /\ qt_reclen qt' = qt_reclen qt /\ qt_hardlimit qt' = qt_hardlimit qt.
Proof.
  intros Hpp Hsz Hl Hnm [Hf Hs] Hfc Hsc [Hr Hn Hrl Hrf Hrs [Hsf Hsv]]. unfold slavefpproc. rewrite Hpp, Hsz, ztake_ge by lia.
  set (name := match pi_fname pi with Some i => cstr (zdrop i p) | None => Undef end).
  assert (filterq_used || serverq_used = true -> name = Done nm) as Hname.
  { intros H. destruct (Hnm H) as (i & E & Ec). subst name. by rewrite E. }
  assert (regex_on filterq_used filterq_regex_match name = Done 0) as ->.
  { unfold regex_on. destruct filterq_used; [rewrite Hname by done|]; cbn [obind]; by rewrite Hf. }
  assert (regex_on serverq_used serverq_regex_match name = Done 0) as ->.
  { unfold regex_on. destruct serverq_used; [rewrite Hname by (by rewrite orb_true_r)|]; cbn [obind]; by rewrite Hs. }
  cbn [obind Z.eqb]. unfold e_nbspq_snd_filter, e_nbspq_snd_server.
  destruct (Z.eqb_spec fc 0); [done|]. destruct (Z.eqb_spec sc 0); [done|]. cbn [negb].
  destruct (snd1_spec qt [qf; qv] FILTER_Q_INDEX p Hr) as (qt1 & -> & Hr1 & En1 & El1 & Eh1);
    [split; [rewrite Hn; done|lia]|done|].
  cbn [q_spec] in *. change ([qf; qv] !!! Z.to_nat FILTER_Q_INDEX) with qf in *. rewrite room_test in * by done.
  cbn [fst snd obind] in *. change (<[Z.to_nat FILTER_Q_INDEX:=qf ++ [p]]> [qf; qv]) with [qf ++ [p]; qv] in *.
  destruct (snd1_spec qt1 [qf ++ [p]; qv] SERVER_Q_INDEX p Hr1) as (qt2 & -> & Hr2 & En2 & El2 & Eh2);
    [split; [rewrite En1, Hn; done|lia]|done|].
  cbn [q_spec] in *. change ([qf ++ [p]; qv] !!! Z.to_nat SERVER_Q_INDEX) with qv in *. rewrite Eh1 in Hr2 |- *.
  rewrite room_test in * by done. cbn [fst snd obind] in *.
  exists qt2. split; [done|]. split; [exact Hr2|]. split_and!; congruence.
Qed.

(** a packet is sent whole to the client, or its connection is closed *)
Lemma send_nbs2_spec ce f packet : connected ce f -> zlen packet < 2 ^ 31 ->
  let '(st, ce') := send_nbs2_client ce packet in
  (st = 0 -> exists f', connected ce' f' /\ sent f' = sent f ++ packet) /\ (st <> 0 -> ce_fd ce' = None).
Proof.
  intros Hc Hl. pose proof Hc as [Hf _]. unfold send_nbs2_client. rewrite Hf. pose proof (zlen_nonneg packet).
  destruct (writem f packet (zlen packet) (ce_write_retry ce)) as [k f'] eqn:E.
  pose proof (write_or_close ce f packet (zlen packet)
    (if k =? -1 then -1 else if negb (u64 k =? zlen packet) then 1 else 0) k f' Hc ltac:(lia) E) as Hw.
  rewrite ztake_ge in Hw by lia. apply Hw. intros Hk.
  destruct (Z.eqb_spec k (-1)); [done|]. rewrite u64_small by lia. by destruct (Z.eqb_spec k (zlen packet)).
Qed.

(** C35: Relay of a path. The packet of a product that a server sends to a client
    of this type is sent whole, or the connection is closed; a slave that reads
    it puts in both of its queues a packet, of the size of its own records, that
    starts with the one sent and has the same name and path in it, and leaves
    what follows on the connection. *)
Theorem nbs2_relayed (ce : conn_element_st) (f : fd_st) (e : pctl_element_st) (n : Z)
  (He : pce_named e) (Hc : connected ce f) (Hn : zlen (fp_packet e) <= n < 2 ^ 31)
  (Hacc : accepted (text_of (fname e))) :
  let '(st, ce') := send_nbs2_client ce (fp_packet e) in
  (st <> 0 -> ce_fd ce' = None) /\
  (st = 0 -> exists f', connected ce' f' /\ sent f' = sent f ++ fp_packet e) /\
  forall tick fc sc sl fd pi qf qv qt more, fc <> 0 -> sc <> 0 -> slave_fd sl = Some fd -> data_only fd ->
    stream fd = fp_packet e ++ more -> packet_buf pi n -> queues_room n qf qv qt ->
    exists fd' sl' pi' qt' p, slavenet_loop_nbs2 filterq_used serverq_used tick fc sc sl pi qt =
        Done (0, sl', pi', qt') /\
      slave_fd sl' = Some fd' /\ stream fd' = more /\ table_rep qt' [qf ++ [p]; qv ++ [p]] /\
      zlen p = n /\ ztake (zlen (fp_packet e)) p = fp_packet e /\
      pi_packet pi' = Some p /\ pi_seq_number pi' = seq_number e /\
      (exists i, pi_fname pi' = Some i /\ cstr (zdrop i p) = Done (text_of (fname e))) /\
      (exists i, pi_fpath pi' = Some i /\ cstr (zdrop i p) = Done (fpath e)).
Proof.
  pose proof (send_nbs2_spec ce f (fp_packet e) Hc ltac:(lia)) as Hsend.
  destruct (send_nbs2_client ce (fp_packet e)) as [st ce']. destruct Hsend as [H0 H1].
  split; [done|]. split; [done|].
  intros tick fc sc sl fd pi qf qv qt more Hfc Hsc Hfd Hdo Es (Hsz & p0 & Hp0 & Hl0) Hq.
  unfold slavenet_loop_nbs2. rewrite Hfd.
  destruct (recv_fp_packet_spec fd pi e more p0 (slave_read_timeout_retry (options sl)))
    as (fd' & -> & Es'); try done; [lia|lia|].
  cbn [obind Z.eqb negb]. set (p := fp_packet e ++ zdrop (zlen (fp_packet e)) p0).
  assert (zlen p = n) as Hpl by (subst p; rewrite zlen_app, zlen_drop; pose proof (zlen_nonneg (fp_packet e)); lia).
  destruct (fp_packet_names e (zdrop (zlen (fp_packet e)) p0) He) as [N1 N2]. fold p in N1, N2.
  destruct (slavefpproc_spec fc sc (unpacked_fp e p (zlen p0)) p (text_of (fname e)) n qf qv qt)
    as (qt' & -> & Hr & _); try done; [by eexists|].
  cbn [obind Z.eqb negb]. set (sl1 := slave_stats_update_packets _ _).
  assert (slave_fd (slave_stats_report tick.1 tick.2 sl1) = Some fd') as Hsl.
  { unfold slave_stats_report. destruct (_ <? _); [done|]. by destruct (slavestatsfile _), tick.2. }
  eexists fd', _, _, qt', p. split; [reflexivity|]. split; [done|].
  split_and!; try done; [|by eexists|by eexists].
  subst p. by apply ztake_app_exact.
Qed.

(** ** A line from the fifo *)

Definition info_line (seq ty ca co ch : Z) (name path : list Z) : list Z :=
  dec seq ++ 32 :: sdec ty ++ 32 :: sdec ca ++ 32 :: sdec co ++ 32 :: sdec ch ++ 32 :: name ++ 32 :: path.

Definition int_range (n : Z) : Prop := - 2 ^ 31 <= n < 2 ^ 31.

(** the names of a line *)
Record line_ok (e : pctl_element_st) (seq ty ca co ch : Z) (name path base : list Z) : Prop := LineOk {
  lo_seq : 0 <= seq < 2 ^ 32;
  lo_ints : int_range ty /\ int_range ca /\ int_range co /\ int_range ch;
  lo_name : nonul name /\ Forall (fun c => c <> 32) name /\ zlen name <= FNAME_SIZE;
  lo_path : nonul path /\ Forall (fun c => c <> 32) path /\ zlen path < fpath_size e < 2 ^ 31 - 100;
  lo_base : findbasename (Some path) = Some base /\ zlen base <= FBASENAME_SIZE;
  lo_array : zlen (fname e) = FNAME_SIZE + 1
}.

Lemma scan_u_dec n r : 0 <= n < 2 ^ 32 -> no_digit r -> scan_u (dec n ++ r) = Some (n, r).
Proof.
  intros Hn Hr. unfold scan_u, strtoul. rewrite scan_dec by (done || lia).
  destruct (Z.leb_spec (2 ^ 64) n); [lia|]. by rewrite u32_small.
Qed.

Lemma scan_d_sdec n r : int_range n -> no_digit r -> scan_d (32 :: sdec n ++ r) = Some (n, r).
Proof.
  intros Hn Hr. unfold int_range in Hn. unfold scan_d, strtol. rewrite scan_blank, scan_sdec by (done || lia).
  assert ((if n <? 0 then - Z.abs n else Z.abs n) = n) as -> by (destruct (Z.ltb_spec n 0); lia).
  destruct (Z.ltb_spec n (- 2 ^ 63)), (Z.leb_spec (2 ^ 63) n); try lia. by rewrite s32_small by lia.
Qed.

(** the element that the line describes *)
Definition line_pce (e : pctl_element_st) (seq ty ca co ch : Z) : pctl_element_st :=
  set_pce_np_channel_index ch (set_psh_product_code co (set_psh_product_category ca
    (set_psh_product_type ty (set_seq_number seq e)))).

Lemma sscanf_line e seq ty ca co ch r : 0 <= seq < 2 ^ 32 -> int_range ty -> int_range ca -> int_range co -> int_range ch ->
  sscanf_info (dec seq ++ 32 :: sdec ty ++ 32 :: sdec ca ++ 32 :: sdec co ++ 32 :: sdec ch ++ 32 :: r) e =
    (5, line_pce e seq ty ca co ch).
Proof.
  intros H1 H2 H3 H4 H5. unfold sscanf_info. rewrite scan_u_dec by done. rewrite !scan_d_sdec by done. done.
Qed.

Lemma last_blank_app a b : Forall (fun c => c <> 32) b -> last_blank (a ++ 32 :: b) = Some (a, b).
Proof.
  intros Hb. unfold last_blank.
  assert (strrchr_after 32 b = None) as Hno.
  { induction Hb as [|c b Hc _ IH]; [done|]. cbn. rewrite IH. by destruct (Z.eqb_spec c 32). }
  assert (strrchr_after 32 (a ++ 32 :: b) = Some b) as ->.
  { induction a as [|c a IH]; cbn; [by rewrite Hno|by rewrite IH]. }
  do 2 f_equal. apply ztake_app_exact. rewrite zlen_app, zlen_cons. lia.
Qed.

Lemma parse_line i seq ty ca co ch name path base : line_ok (in_pce i) seq ty ca co ch name path base ->
  packet_buf (in_packetinfo i) (NBS_ENVELOPE_SIZE + NBSFP_PINFO_SIZE + fpath_size (in_pce i)) ->
  exists i', parse_info (info_line seq ty ca co ch name path) i = Done (0, i') /\
    let e := in_pce i' in
    pce_named e /\ seq_number e = seq /\ psh_product_type e = ty /\ psh_product_category e = ca /\
    psh_product_code e = co /\ pce_np_channel_index e = ch /\ text_of (fname e) = name /\ fpath e = path /\
    fbasename e = base /\ pi_packet (in_packetinfo i') = Some (fp_packet e) /\
    pi_packet_size (in_packetinfo i') = zlen (fp_packet e) /\ zlen (fp_packet e) = pi_packet_size (in_packetinfo i) /\
    pi_fname (in_packetinfo i') = pi_fname (in_packetinfo i) /\
    fpath_size e = fpath_size (in_pce i) /\ zlen (fname e) = FNAME_SIZE + 1 /\
    (in_buffer i' = in_buffer i /\ in_buffer_size i' = in_buffer_size i).
Proof.
  intros [Hseq (Hty & Hca & Hco & Hch) (Hnn & Hnb & Hnl) (Hpn & Hpb & Hpl) [Hbase Hbl] Harr] Hbuf.
  unfold parse_info, info_line. rewrite sscanf_line by done. change (negb (5 =? 5)) with false. cbv iota.
  set (e1 := line_pce _ _ _ _ _ _).
  assert (forall x y, dec seq ++ 32 :: sdec ty ++ 32 :: sdec ca ++ 32 :: sdec co ++ 32 :: sdec ch ++ 32 :: x ++ 32 :: y =
    (dec seq ++ 32 :: sdec ty ++ 32 :: sdec ca ++ 32 :: sdec co ++ 32 :: sdec ch ++ 32 :: x) ++ 32 :: y) as ->.
  { intros x y. repeat first [rewrite <- app_assoc | progress cbn [app]]. done. }
  rewrite last_blank_app by done.
  assert (forall x, dec seq ++ 32 :: sdec ty ++ 32 :: sdec ca ++ 32 :: sdec co ++ 32 :: sdec ch ++ 32 :: x =
    (dec seq ++ 32 :: sdec ty ++ 32 :: sdec ca ++ 32 :: sdec co ++ 32 :: sdec ch) ++ 32 :: x) as ->.
  { intros x. repeat first [rewrite <- app_assoc | progress cbn [app]]. done. }
  rewrite last_blank_app by done. cbn [in_pce set_in_pce]. change (fpath_size e1) with (fpath_size (in_pce i)).
  destruct (Z.ltb_spec (fpath_size (in_pce i)) (zlen path + 1)); [lia|]. rewrite Hbase.
  destruct (Z.ltb_spec FBASENAME_SIZE (zlen base)); [lia|]. destruct (Z.ltb_spec FNAME_SIZE (zlen name)); [lia|].
  cbn [in_pce set_in_pce fname set_fbasename set_fpath]. change (fname e1) with (fname (in_pce i)).
  unfold strncpy. pose proof (strncpy_bytes_length name (FNAME_SIZE + 1) ltac:(unfold FNAME_SIZE; lia)) as Hsn.
  rewrite wr_0 by lia. cbn [obind]. rewrite zdrop_ge, app_nil_r by lia. cbn [in_packetinfo set_in_pce in_pce].
  set (e2 := set_fname _ _).
  assert (text_of (fname e2) = name) as Hfn.
  { cbn. apply text_strncpy; [done|]. unfold FNAME_SIZE in *. lia. }
  assert (pce_named e2) as Hnm by (split; [by rewrite Hfn|exact Hpl|done|done]).
  rewrite (nbsfp_pack_fpath_spec (in_packetinfo i) e2 Hnm Hbuf). cbn [obind].
  eexists. split; [reflexivity|]. cbn [in_pce set_in_packetinfo in_packetinfo set_in_pce].
  destruct Hbuf as [Hsz _]. pose proof (fp_packet_length e2 Hnm) as Hfp.
  change (fpath_size e2) with (fpath_size (in_pce i)) in Hfp. split_and!; try done; cbn [pi_packet_size]; lia.
Qed.

(** the buffer of the lines *)
Definition buffer_ok (i : slavein_info_st) : Prop :=
  match in_buffer i with None => in_buffer_size i = 0 | Some b => zlen b = in_buffer_size i end.

Context (Hmem : forall n, n < 2 ^ 40 -> malloc_ok n = true).
Context (junk4 : list Z) (Hjunk4 : zlen junk4 = 4) (junk : Z -> list Z) (Hjunk : forall n, 0 <= n -> zlen (junk n) = n).

(** the size, a line and its end are read *)
Lemma recv_line f i text more : data_only f -> stream f = split32 (zlen text) ++ text ++ 10 :: more ->
  nonul text -> zlen text < 2 ^ 31 - 1 -> buffer_ok i ->
  exists f' buf n, recv_in_packet f i junk4 junk =
      (let* (status, i) := parse_info text (set_in_buffer (Some buf) n i) in Done (status, i, f')) /\
    zlen buf = n /\ stream f' = more /\ data_only f'.
Proof.
  intros Hd Es Hn Hl Hb. pose proof (zlen_nonneg text). pose proof (zlen_nonneg more). unfold recv_in_packet.
  assert (zlen (split32 (zlen text)) = 4) as H4 by done.
  destruct (readn_data f junk4 0 4 0) as (b1 & f1 & -> & Ew1 & Es1 & Hd1);
    [done|lia|lia|lia|rewrite Es, zlen_app; pose proof (zlen_nonneg (text ++ 10 :: more)); lia|].
  rewrite Es in Ew1, Es1. rewrite ztake_app_exact in Ew1 by done. rewrite zdrop_app_exact in Es1 by done.
  rewrite wr_0 in Ew1 by lia. rewrite zdrop_ge, app_nil_r in Ew1 by lia. injection Ew1 as <-.
  cbn [obind]. change (s32 4) with 4. change (if 4 =? -1 then _ else _) with 0. change (negb (0 =? 0)) with false. cbv iota.
  pose proof (unpack_split32_0 [] (zlen text)) as Eu. rewrite app_nil_r in Eu. rewrite Eu by lia. cbn [obind].
  rewrite !s32_small by (rewrite ?s32_small; lia). set (size := zlen text + 1).
  set (i1 := if in_buffer_size i <? size then _ else i).
  assert (exists buf0, in_buffer i1 = Some buf0 /\ zlen buf0 = in_buffer_size i1 /\ size <= zlen buf0 /\
    i1 = set_in_buffer (Some buf0) (zlen buf0) i) as (buf0 & E0 & Eb & Hsize & Ei1).
  { subst i1. destruct (Z.ltb_spec (in_buffer_size i) size).
    - rewrite u64_small, Hmem by lia. exists (junk size). cbn. rewrite Hjunk by lia. split_and!; done || lia.
    - unfold buffer_ok in Hb. destruct (in_buffer i) as [b|] eqn:E; [|lia]. exists b. split_and!; try done; [lia|].
      rewrite Hb. destruct i. cbn in *. by subst. }
  rewrite E0. rewrite u64_small by lia.
  destruct (readn_data f1 buf0 0 size 0) as (b2 & f2 & -> & Ew2 & Es2 & Hd2);
    [done|lia|lia|lia|rewrite Es1, zlen_app, zlen_cons; lia|].
  rewrite Es1 in Ew2, Es2.
  replace (text ++ 10 :: more) with ((text ++ [10]) ++ more) in Ew2, Es2 by (by rewrite <- app_assoc).
  assert (zlen (text ++ [10]) = size) as Hts by (by rewrite zlen_app).
  rewrite ztake_app_exact in Ew2 by done. rewrite zdrop_app_exact in Es2 by done.
  rewrite wr_0 in Ew2 by lia. injection Ew2 as <-. rewrite Hts. cbn [obind]. rewrite s32_small by lia.
  destruct (Z.eqb_spec size (-1)); [lia|]. rewrite Z.eqb_refl. cbn [negb Z.eqb]. rewrite <- app_assoc. cbn [app].
  set (tl := zdrop size buf0).
  rewrite (proj2 (rd_Done _ _ 10)) by (rewrite znth_app_r, Z.sub_diag by lia; done). cbn [obind].
  change (negb (10 =? 10)) with false. cbv iota.
  rewrite wr_app by (done || (rewrite !zlen_cons; change (@zlen Z []) with 0; pose proof (zlen_nonneg tl); lia)).
  cbn [obind]. change (zdrop (zlen [0]) (10 :: tl)) with tl. cbn [app]. rewrite cstr_app by done. cbn [obind].
  exists f2, (text ++ 0 :: tl), (zlen buf0). rewrite Ei1.
  split; [done|]. split; [|done]. subst tl. rewrite zlen_app, zlen_cons, zlen_drop by lia. lia.
Qed.

Lemma info_line_nonul seq ty ca co ch name path : 0 <= seq -> int_range ty -> int_range ca -> int_range co -> int_range ch ->
  nonul name -> nonul path -> nonul (info_line seq ty ca co ch name path).
Proof.
  assert (forall l, Forall (fun c => isdigit c = true) l -> nonul l) as Hd.
  { intros l. apply List.Forall_impl. intros c Hc ->. done. }
  assert (forall n, int_range n -> nonul (sdec n)) as Hs.
  { intros n Hn. unfold int_range in Hn. unfold sdec. destruct (Z.ltb_spec n 0).
    - constructor; [done|]. apply Hd, dec_digits. lia.
    - apply Hd, dec_digits. lia. }
  intros H1 H2 H3 H4 H5 Hn Hpp. unfold info_line.
  assert (forall l r, nonul l -> nonul r -> nonul (l ++ 32 :: r)) as Ha.
  { intros l r Hl Hr. apply Forall_app. split; [done|]. by constructor. }
  repeat (apply Ha; [try by apply Hs|]); try done; by apply Hd, dec_digits.
Qed.

(** a line whose names fit, for paths of at most [n] bytes *)
Record fifo_line := FifoLine {
  fl_seq : Z;
  fl_type : Z;
  fl_category : Z;
  fl_code : Z;
  fl_channel : Z;
  fl_name : list Z;
  fl_path : list Z;
  fl_base : list Z
}.
Definition line_text (l : fifo_line) : list Z :=
  info_line (fl_seq l) (fl_type l) (fl_category l) (fl_code l) (fl_channel l) (fl_name l) (fl_path l).
Definition line_bytes (l : fifo_line) : list Z := split32 (zlen (line_text l)) ++ line_text l ++ [10].

Definition line_fits (e : pctl_element_st) (l : fifo_line) : Prop :=
  line_ok e (fl_seq l) (fl_type l) (fl_category l) (fl_code l) (fl_channel l) (fl_name l) (fl_path l) (fl_base l) /\
  zlen (line_text l) < 2 ^ 31 - 1.

(** the element has what the line says *)
Record line_element (l : fifo_line) (e : pctl_element_st) : Prop := LineElement {
  le_named : pce_named e;
  le_seq : seq_number e = fl_seq l;
  le_type : psh_product_type e = fl_type l;
  le_category : psh_product_category e = fl_category l;
  le_code : psh_product_code e = fl_code l;
  le_channel : pce_np_channel_index e = fl_channel l;
  le_name : text_of (fname e) = fl_name l;
  le_path : fpath e = fl_path l;
  le_base : fbasename e = fl_base l
}.

(** the reader of the fifo is between two lines *)
Record in_ready (n : Z) (i : slavein_info_st) : Prop := InReady {
  ir_buffer : buffer_ok i;
  ir_packet : packet_buf (in_packetinfo i) (NBS_ENVELOPE_SIZE + NBSFP_PINFO_SIZE + n);
  ir_path : fpath_size (in_pce i) = n;
  ir_name : zlen (fname (in_pce i)) = FNAME_SIZE + 1
}.

(** a turn, with a line on the fifo; without patterns the packet is queued, with
    one for the filters a pointer that has not been set is followed *)
Lemma slavein_line_turn tick fc sc sl fd i n qf qv qt l more (Hfc : fc <> 0) (Hsc : sc <> 0)
  (Hfd : slave_fd sl = Some fd) (Hdo : data_only fd) (Hi : in_ready n i) (Hline : line_fits (in_pce i) l)
  (Hes : stream fd = line_bytes l ++ more) (Hacc : accepted [])
  (Hq : queues_room (NBS_ENVELOPE_SIZE + NBSFP_PINFO_SIZE + n) qf qv qt) :
  let r := slavein_loop filterq_used serverq_used tick fc sc junk4 junk sl i qt in
  (filterq_used = false -> serverq_used = false ->
     exists fd' sl' i' qt', r = Done (0, sl', i', qt') /\ slave_fd sl' = Some fd' /\ stream fd' = more /\
       data_only fd' /\ in_ready n i' /\ line_element l (in_pce i') /\
       table_rep qt' [qf ++ [fp_packet (in_pce i')]; qv ++ [fp_packet (in_pce i')]] /\
       qt_n qt' = qt_n qt /\ qt_reclen qt' = qt_reclen qt /\ qt_hardlimit qt' = qt_hardlimit qt) /\
  (pi_fname (in_packetinfo i) = None -> filterq_used = true -> r = Undef).
Proof.
  destruct Hline as [Hok Hl], Hi as [Hb Hbuf Hfs Hfn]. intros r. subst r. unfold slavein_loop. rewrite Hfd.
  assert (nonul (line_text l)) as Hnt.
  { destruct Hok as [Hs (? & ? & ? & ?) [? _] [? _] _ _]. apply info_line_nonul; done || lia. }
  assert (stream fd = split32 (zlen (line_text l)) ++ line_text l ++ 10 :: more) as Es.
  { rewrite Hes. unfold line_bytes. by rewrite <- !app_assoc. }
  destruct (recv_line fd i _ more Hdo Es Hnt Hl Hb) as (fd' & buf & m & -> & Hbz & Es' & Hd').
  rewrite <- Hfs in Hbuf, Hq.
  destruct (parse_line (set_in_buffer (Some buf) m i) _ _ _ _ _ _ _ _ Hok Hbuf)
    as (i' & Ep & He & E1 & E2 & E3 & E4 & E5 & E6 & E7 & E8 & Hp1 & Hp2 & Hp3 & Hp4 & Hk1 & Hk2 & Hk3).
  unfold line_text. rewrite Ep.
  cbn [obind Z.eqb negb]. cbn [in_packetinfo set_in_buffer in_pce in_buffer in_buffer_size] in Hp3, Hp4, Hk1, Hk2, Hk3. split.
  - intros Hf Hs. destruct Hbuf as [Hbs _].
    destruct (slavefpproc_spec fc sc (in_packetinfo i') (fp_packet (in_pce i')) [] (pi_packet_size (in_packetinfo i)) qf qv qt)
      as (qt' & Eq & Hr & Q1 & Q2 & Q3); try done; [lia|by rewrite Hf, Hs|by rewrite Hbs|].
    unfold slaveinproc. rewrite Eq. cbn [obind Z.eqb negb]. set (sl1 := slave_stats_update_packets _ _).
    assert (slave_fd (slave_stats_report tick.1 tick.2 sl1) = Some fd') as Hsl.
    { unfold slave_stats_report. destruct (_ <? _); [done|]. by destruct (slavestatsfile _), tick.2. }
    eexists fd', _, i', qt'. split; [reflexivity|]. split_and!; try done.
    destruct Hk3 as [Hk3 Hk4]. split; [unfold buffer_ok; by rewrite Hk3, Hk4| |by rewrite Hk1|done].
    rewrite <- Hfs. split; [lia|]. exists (fp_packet (in_pce i')). split; [done|lia].
  - intros Hno Hf. unfold slaveinproc, slavefpproc. rewrite Hp1, Hp4, Hno, Hf. done.
Qed.
End theory.

(** ** Witnesses *)

#[local] Existing Instances demo_heap demo_qregex.

Lemma demo_room : queues_room (QS := fixed_qd_spec demo_reclen) demo_reclen [] [] demo_qt.
Proof.
  split; try done; [|by right|by right]. split; [done|done|]. by repeat constructor.
Qed.

Definition relay_client : conn_element_st :=
  ConnElement (Some (Fd [EvRoom 200] [] [])) 0 0 (ConnStats 0 0 0 0 0 0) PROTOCOL_NBS2 3 1 true.
Definition relay_slave (d : list Z) : slave_element_st :=
  Slave SLAVETYPE_NBS2 PNull PNull PNull demo_options 1 (Some (Fd [EvData d] [] [])) (-1) zero_stats.
Definition relay_info : packet_info_st :=
  PacketInfo 0 0 0 0 0 None None (Some (replicate (Z.to_nat demo_reclen) 0)) demo_reclen.

Lemma nbs2_relayed_witness : exists qt' sl' pi' p,
  slavenet_loop_nbs2 true true (0, true) 1 1 (relay_slave (fp_packet (demo_item 1 7 0 98))) relay_info demo_qt =
    Done (0, sl', pi', qt') /\
  table_rep (H := fixed_qd_spec demo_reclen) qt' [[p]; [p]] /\
  ztake (zlen (fp_packet (demo_item 1 7 0 98))) p = fp_packet (demo_item 1 7 0 98).
Proof.
  pose proof demo_items_ok as Hok. inversion Hok as [|? ? ? ? [Hit _] _]; subst. destruct Hit as [Hnm _ _ _ _ _].
  assert (pce_named (demo_item 1 7 0 98)) as Hnm' by (destruct Hnm; by split).
  pose proof (nbs2_relayed (QR := fixed_qd_reliable demo_reclen) true true relay_client (Fd [EvRoom 200] [] [])
    (demo_item 1 7 0 98) demo_reclen) as H.
  destruct (send_nbs2_client relay_client (fp_packet (demo_item 1 7 0 98))) as [st ce'].
  destruct H as (_ & _ & H).
  - exact Hnm'.
  - split; [done|]. by repeat constructor.
  - by vm_compute.
  - done.
  - destruct (H (0, true) 1 1 (relay_slave (fp_packet (demo_item 1 7 0 98)))
      (Fd [EvData (fp_packet (demo_item 1 7 0 98))] [] []) relay_info [] [] demo_qt [])
      as (fd' & sl' & pi' & qt' & p & E & _ & _ & Hr & _ & Hp & _).
    + done.
    + done.
    + done.
    + split; [done|]. constructor; [|constructor]. by eexists.
    + cbn. by rewrite !app_nil_r.
    + split; [done|]. by eexists.
    + apply demo_room.
    + exists qt', sl', pi', p. split; [exact E|]. split; [exact Hr|exact Hp].
Defined.

(** the line [1 2 3 4 5 b /s/b] *)
Definition in_info : slavein_info_st :=
  SlaveinInfo relay_info (set_fname (replicate 19 0) (demo_item 0 0 0 98)) None 0.
Definition in_text : list Z := info_line 1 2 3 4 5 [98] [47; 115; 47; 98].
Definition in_slave : slave_element_st := relay_slave (split32 (zlen in_text) ++ in_text ++ [10]).
Definition in_loop (used : bool) :=
  slavein_loop (Q := fixed_qd demo_reclen) used used (0, true) 1 1 (replicate 4 0)
    (fun n => replicate (Z.to_nat n) 0) in_slave in_info demo_qt.

Lemma in_line_ok : line_ok (in_pce in_info) 1 2 3 4 5 [98] [47; 115; 47; 98] [98].
Proof.
  split; unfold int_range; split_and?; try done; try (by vm_compute);
    unfold nonul; repeat first [apply Forall_nil_2 | apply Forall_cons_2]; done.
Qed.

Lemma demo_junk n : 0 <= n -> zlen (replicate (Z.to_nat n) 0) = n.
Proof. intros Hn. rewrite zlen_replicate. lia. Qed.
