(* ===== verification/Conn.v ===== *)
(** * Conn: src/src/libconnth and src/src/appdata.c, the table of connections

    The main thread of the server keeps a table with an entry for the socket on
    which it listens and one for each client: the descriptor that is polled, and
    an element with the names of the client, its options, its protocol, its
    queue and what is shared with its thread.

    The two arrays of the table are lists with [nmax] entries, of which [n] are
    used; the memory from [realloc] holds anything ([junk_pfd], [junk_ce]). The
    open descriptors of the process are a set: [close] fails only on one that is
    not open. The statistics of an element, but the time of the connection, are
    those of the copy that the client thread uses ([Serverc]); so is [fd], which
    the main thread does not read again. A pointer to a queue can be dangling
    ([CqFreed]). Locking does not fail. *)

From stdpp Require Import gmap.
From S2P Require Import Prelude Util CLib Mfile Qdb Serverc.

Definition PROTOCOL_UNKNOWN : Z := 8.
Definition PROTOCOL_DEFAULT : Z := PROTOCOL_EMWIN.
Definition PROTOCOL_NBS1_STR : list Z := [78; 66; 83; 49].
Definition PROTOCOL_NBS2_STR : list Z := [78; 66; 83; 50].
Definition PROTOCOL_EMWIN_STR : list Z := [69; 77; 87; 73; 78].

Definition CONN_TYPE_SERVER_LOCAL : Z := 1.
Definition CONN_TYPE_SERVER_NET : Z := 2.
Definition CONN_TYPE_CLIENT_LOCAL : Z := 3.
Definition CONN_TYPE_CLIENT_NET : Z := 4.

Definition POLLIN : Z := 1.
Definition POLLERR : Z := 8.
Definition POLLHUP : Z := 16.
Definition POLLNVAL : Z := 32.

(** sizes of the structures *)
Definition SIZEOF_POLLFD : Z := 8.
Definition SIZEOF_CONN_ELEMENT : Z := 160.
Definition SIZEOF_CONN_TABLE : Z := 104.
Definition SIZEOF_THREAD_INFO : Z := 64.
Definition SIZEOF_CONNQUEUE : Z := 24.
Definition SIZEOF_APPDATA : Z := 16.
Definition INITIAL_SIZE : Z := 1.
Definition GROW_FACTOR : Z := 2.

Definition close (fd : Z) (os : gset Z) : Z * gset Z :=
  if decide (fd ∈ os) then (0, os ∖ {[fd]}) else (-1, os).

(** a descriptor that is not open: [fd], if it is not *)
Definition new_fd (fd : Z) (os : gset Z) : Z :=
  if decide (fd ∈ os) then 1 + foldr Z.max 0 (elements os) else fd.

Section conn.
Context `{Hp : Heap} `{Q : QueueDb}.
(** closing a database; its status *)
Context (qd_close : qd -> Z).

(** ** The queue of a client *)

Record connqueue_param_st := CqParam { cp_reclen : Z; cp_softlimit : Z; cp_hardlimit : Z }.
Record connqueue_st := Connqueue {
  cq_qt : nbsp_qtable_st;
  cq_data : list Z;
  cq_data_size_max : Z;
  cq_data_size : Z
}.
Definition set_cq_qt v (c : connqueue_st) := Connqueue v (cq_data c) (cq_data_size_max c) (cq_data_size c).

(** [junk]: the memory from [malloc] *)
Definition connqueue_open (junk : Z -> list Z) (p : connqueue_param_st) : option connqueue_st :=
  if negb (malloc_ok SIZEOF_CONNQUEUE) || negb (malloc_ok (cp_reclen p)) then None
  else match nbspqt_open 1 (cp_softlimit p) (cp_hardlimit p) None (cp_reclen p) with
       | Some qt => Some (Connqueue qt (junk (cp_reclen p)) (cp_reclen p) 0)
       | None => None
       end.

Definition qdb_close (q : nbspq_st) : Z := if qd_close (nq_dbp q) =? 0 then 0 else -1.
Definition nbspqt_close (qt : nbsp_qtable_st) : Z :=
  fold_left (fun status q => if status =? 0 then qdb_close q else status) (ztake (qt_n qt) (qt_nbspq qt)) 0.
Definition connqueue_close (c : connqueue_st) : Z := nbspqt_close (cq_qt c).

Definition connqueue_snd (c : connqueue_st) (data : list Z) : outcome (Z * connqueue_st) :=
  let* (status, qt) := nbspqt_snd (cq_qt c) 0 data in
  Done (status, set_cq_qt qt c).

(** the status and the data; [None]: still waiting *)
Definition connqueue_rcv (c : connqueue_st) (wakeups : list (Z * nbspq_st))
  : outcome (option (Z * list Z * connqueue_st)) :=
  let* r := nbspqt_rcv (cq_qt c) 0 (Some (cq_data c)) (cq_data_size_max c) wakeups in
  match r with
  | None => Done None
  | Some (status, p, size, qt) =>
      match p with
      | None => Undef
      | Some b =>
          Done (Some (status, ztake size b,
            Connqueue qt b (if (status =? 0) && (cq_data_size_max c <? size) then size else cq_data_size_max c) size))
      end
  end.

Definition connqueue_n (c : connqueue_st) : outcome Z := nbspqt_n (cq_qt c) 0.

(** ** Elements *)

Record thread_info_st := ThreadInfo {
  f_thread_created : Z;
  f_thread_finished : Z;
  connection_status : Z;
  client_fd : Z
}.
Definition set_finished (ti : thread_info_st) := ThreadInfo (f_thread_created ti) 1 (connection_status ti) (client_fd ti).
Definition set_created (ti : thread_info_st) := ThreadInfo 1 (f_thread_finished ti) (connection_status ti) (client_fd ti).
Definition set_connection (status fd : Z) (ti : thread_info_st) :=
  ThreadInfo (f_thread_created ti) (f_thread_finished ti) status fd.

Record appdata_st := Appdata { ad_protocol : Z; ad_qlimit_log_last : Z }.

Inductive cq_ptr := CqNull | CqPtr (c : connqueue_st) | CqFreed.

Record conn_element_st := ConnElement {
  cn_ctime : Z;
  cn_type : Z;
  cn_pid : Z;
  cn_ip : option (list Z);
  cn_name : option (list Z);
  cn_write_timeout_ms : Z;
  cn_write_timeout_retry : Z;
  cn_reconnect_wait_sleep_secs : Z;
  cn_reconnect_wait_sleep_retry : Z;
  cn_queue_read_timeout_ms : Z;
  cn_fd : Z;
  cn_appdata : option appdata_st;
  cn_filterdata : option Z;
  cn_cq : cq_ptr;
  cn_threadinfo : option thread_info_st
}.

Definition set_cn_options a b c d q (ce : conn_element_st) :=
  ConnElement (cn_ctime ce) (cn_type ce) (cn_pid ce) (cn_ip ce) (cn_name ce) a b c d q
    (cn_fd ce) (cn_appdata ce) (cn_filterdata ce) (cn_cq ce) (cn_threadinfo ce).
Definition set_cn_appdata v (ce : conn_element_st) :=
  ConnElement (cn_ctime ce) (cn_type ce) (cn_pid ce) (cn_ip ce) (cn_name ce) (cn_write_timeout_ms ce)
    (cn_write_timeout_retry ce) (cn_reconnect_wait_sleep_secs ce) (cn_reconnect_wait_sleep_retry ce)
    (cn_queue_read_timeout_ms ce) (cn_fd ce) v (cn_filterdata ce) (cn_cq ce) (cn_threadinfo ce).
Definition set_cn_filterdata v (ce : conn_element_st) :=
  ConnElement (cn_ctime ce) (cn_type ce) (cn_pid ce) (cn_ip ce) (cn_name ce) (cn_write_timeout_ms ce)
    (cn_write_timeout_retry ce) (cn_reconnect_wait_sleep_secs ce) (cn_reconnect_wait_sleep_retry ce)
    (cn_queue_read_timeout_ms ce) (cn_fd ce) (cn_appdata ce) v (cn_cq ce) (cn_threadinfo ce).
Definition set_cn_cq v (ce : conn_element_st) :=
  ConnElement (cn_ctime ce) (cn_type ce) (cn_pid ce) (cn_ip ce) (cn_name ce) (cn_write_timeout_ms ce)
    (cn_write_timeout_retry ce) (cn_reconnect_wait_sleep_secs ce) (cn_reconnect_wait_sleep_retry ce)
    (cn_queue_read_timeout_ms ce) (cn_fd ce) (cn_appdata ce) (cn_filterdata ce) v (cn_threadinfo ce).
Definition set_cn_threadinfo v (ce : conn_element_st) :=
  ConnElement (cn_ctime ce) (cn_type ce) (cn_pid ce) (cn_ip ce) (cn_name ce) (cn_write_timeout_ms ce)
    (cn_write_timeout_retry ce) (cn_reconnect_wait_sleep_secs ce) (cn_reconnect_wait_sleep_retry ce)
    (cn_queue_read_timeout_ms ce) (cn_fd ce) (cn_appdata ce) (cn_filterdata ce) (cn_cq ce) v.

Record client_options_st := ClientOptions {
  co_write_timeout_ms : Z;
  co_write_timeout_retry : Z;
  co_reconnect_wait_sleep_secs : Z;
  co_reconnect_wait_sleep_retry : Z;
  co_queue_read_timeout_ms : Z
}.

Definition conn_element_init1 (now fd type pid : Z) (ip name : option (list Z)) (o : client_options_st)
  : conn_element_st :=
  ConnElement now type pid ip name (co_write_timeout_ms o) (co_write_timeout_retry o)
    (co_reconnect_wait_sleep_secs o) (co_reconnect_wait_sleep_retry o) (co_queue_read_timeout_ms o)
    fd None None CqNull None.
Definition conn_element_init2 (appdata : option appdata_st) (ce : conn_element_st) := set_cn_appdata appdata ce.
Definition conn_element_init3 (filterdata : option Z) (ce : conn_element_st) := set_cn_filterdata filterdata ce.

(** [created]: the status of [pthread_create] *)
Definition client_thread_create (created : Z) : Z :=
  if malloc_ok SIZEOF_CONN_ELEMENT then created else -1.

(** when the thread is not created the queue is closed, and [cq] left as it is *)
Definition conn_element_init4 (junk : Z -> list Z) (created : Z) (p : connqueue_param_st) (ce : conn_element_st)
  : Z * conn_element_st :=
  if negb (malloc_ok SIZEOF_THREAD_INFO) then (-1, set_cn_threadinfo None ce) else
  let ti := ThreadInfo 0 0 0 (cn_fd ce) in
  match connqueue_open junk p with
  | None => (-1, set_cn_threadinfo None (set_cn_cq CqNull ce))
  | Some c =>
      if negb (client_thread_create created =? 0)
      then (-1, set_cn_threadinfo None (set_cn_cq CqFreed ce))
      else (0, set_cn_threadinfo (Some (set_created ti)) (set_cn_cq (CqPtr c) ce))
  end.

(** the thread is stopped ([client_thread_kill] returns 0), everything is freed *)
Definition conn_element_release (ce : conn_element_st) : outcome Z :=
  match cn_cq ce with
  | CqNull => Done 0
  | CqPtr c => Done (connqueue_close c)
  | CqFreed => Undef
  end.

Definition conn_element_isclient (ce : conn_element_st) : bool :=
  (cn_type ce =? CONN_TYPE_CLIENT_LOCAL) || (cn_type ce =? CONN_TYPE_CLIENT_NET).
Definition conn_element_isnetclient (ce : conn_element_st) : bool := cn_type ce =? CONN_TYPE_CLIENT_NET.
Definition conn_element_isserver (ce : conn_element_st) : bool :=
  (cn_type ce =? CONN_TYPE_SERVER_LOCAL) || (cn_type ce =? CONN_TYPE_SERVER_NET).
Definition conn_element_get_created_flag (ce : conn_element_st) : Z :=
  match cn_threadinfo ce with None => 0 | Some ti => f_thread_created ti end.
Definition conn_element_get_finished_flag (ce : conn_element_st) : Z :=
  match cn_threadinfo ce with None => 0 | Some ti => f_thread_finished ti end.
Definition conn_element_isnetclient_running (ce : conn_element_st) : bool :=
  conn_element_isnetclient ce && negb (conn_element_get_created_flag ce =? 0) &&
  (conn_element_get_finished_flag ce =? 0).
Definition conn_element_isnetclient_stoped (ce : conn_element_st) : bool :=
  conn_element_isnetclient ce && negb (conn_element_get_created_flag ce =? 0) &&
  negb (conn_element_get_finished_flag ce =? 0).
Definition conn_element_get_nameorip (ce : conn_element_st) : option (list Z) :=
  match cn_name ce with Some n => Some n | None => cn_ip ce end.

(** done by the client thread *)
Definition conn_element_set_finished_flag (ce : conn_element_st) : outcome (Z * conn_element_st) :=
  match cn_threadinfo ce with
  | None => Abrt
  | Some ti => Done (0, set_cn_threadinfo (Some (set_finished ti)) ce)
  end.

Definition conn_element_get_connection_status (ce : conn_element_st) : Z :=
  match cn_threadinfo ce with None => 0 | Some ti => connection_status ti end.
Definition conn_element_get_connection_status_un (ce : conn_element_st) : Z :=
  match cn_threadinfo ce with None => -1 | Some ti => connection_status ti end.
Definition conn_element_set_connection_status (fd : Z) (ce : conn_element_st) : outcome (Z * conn_element_st) :=
  match cn_threadinfo ce with
  | None => Abrt
  | Some ti => Done (0, set_cn_threadinfo (Some (set_connection (if fd =? -1 then 1 else 0) fd ti)) ce)
  end.

(** ** The table *)

Record pollfd := Pollfd { pf_fd : Z; pf_events : Z; pf_revents : Z }.

Record conn_table_st := ConnTable {
  ct_n : Z;
  ct_nmax : Z;
  ct_nclients : Z;
  ct_nclientsmax : Z;
  ct_pfd : list pollfd;
  ct_ce : list conn_element_st;
  ct_status : Z
}.
Definition set_ct_pfd v (t : conn_table_st) :=
  ConnTable (ct_n t) (ct_nmax t) (ct_nclients t) (ct_nclientsmax t) v (ct_ce t) (ct_status t).
Definition set_ct_ce v (t : conn_table_st) :=
  ConnTable (ct_n t) (ct_nmax t) (ct_nclients t) (ct_nclientsmax t) (ct_pfd t) v (ct_status t).

Context (junk_pfd : Z -> list pollfd) (junk_ce : Z -> list conn_element_st).

Definition conn_table_create (maxclients : Z) : option conn_table_st :=
  if negb (malloc_ok SIZEOF_CONN_TABLE) || negb (malloc_ok (SIZEOF_POLLFD * INITIAL_SIZE)) ||
     negb (malloc_ok (SIZEOF_CONN_ELEMENT * INITIAL_SIZE)) then None
  else Some (ConnTable 0 INITIAL_SIZE 0 maxclients (junk_pfd INITIAL_SIZE) (junk_ce INITIAL_SIZE) 0).

(** when only the first array can grow it is shrunk again *)
Definition conn_table_grow (t : conn_table_st) : Z * conn_table_st :=
  let new := s32 (ct_nmax t * GROW_FACTOR) in
  if negb (malloc_ok (u64 (SIZEOF_POLLFD * new))) then (-1, t)
  else if negb (malloc_ok (u64 (SIZEOF_CONN_ELEMENT * new))) then (-1, t)
  else (0, ConnTable (ct_n t) new (ct_nclients t) (ct_nclientsmax t)
             (ct_pfd t ++ junk_pfd (new - ct_nmax t)) (ct_ce t ++ junk_ce (new - ct_nmax t)) (ct_status t)).

Definition conn_table_add_element_un (now fd type pid : Z) (ip name : option (list Z)) (o : client_options_st)
    (t : conn_table_st) : outcome (Z * conn_table_st) :=
  let (status, t) := if ct_n t =? ct_nmax t then conn_table_grow t else (0, t) in
  if negb (status =? 0) then Done (-1, t) else
  let* pfd := wr (ct_pfd t) (ct_n t) [Pollfd fd POLLIN 0] in
  let* ce := wr (ct_ce t) (ct_n t) [conn_element_init1 now fd type pid ip name o] in
  Done (0, ConnTable (ct_n t + 1) (ct_nmax t)
             (if type =? CONN_TYPE_CLIENT_NET then ct_nclients t + 1 else ct_nclients t)
             (ct_nclientsmax t) pfd ce 0).
Definition conn_table_add_element := conn_table_add_element_un.

(** [memmove(&a[i], &a[i + 1], ...)] of the [n - (i + 1)] entries above [i] *)
Definition shift_down {A} (a : list A) (i n : Z) : outcome (list A) :=
  let* d := rdn a (i + 1) (n - (i + 1)) in wr a i d.

Definition conn_table_del_element_un (i : Z) (t : conn_table_st) (os : gset Z)
  : outcome (Z * conn_table_st * gset Z) :=
  c_assert ((0 <=? i) && (i <? ct_n t))
    (let* ce := rd (ct_ce t) i in
     let* p := rd (ct_pfd t) i in
     let* status := conn_element_release ce in
     let ct_st := status in
     let (status, os) :=
       if negb (pf_fd p =? -1) && conn_element_isclient ce then
         let (status1, os) := close (pf_fd p) os in
         (if status =? 0 then status1 else status, os)
       else (status, os) in
     let* pfd := shift_down (ct_pfd t) i (ct_n t) in
     let* ces := shift_down (ct_ce t) i (ct_n t) in
     Done (status,
           ConnTable (ct_n t - 1) (ct_nmax t)
             (if conn_element_isnetclient ce then ct_nclients t - 1 else ct_nclients t)
             (ct_nclientsmax t) pfd ces ct_st, os)).
Definition conn_table_del_element := conn_table_del_element_un.

(** the first [i < n] entries: their descriptors closed, their elements released *)
Fixpoint destroy_loop (l : list (pollfd * conn_element_st)) (os : gset Z) : outcome (gset Z) :=
  match l with
  | [] => Done os
  | (p, ce) :: l =>
      let os := if negb (pf_fd p =? -1) && conn_element_isclient ce then (close (pf_fd p) os).2 else os in
      let* _ := conn_element_release ce in
      destroy_loop l os
  end.
Definition conn_table_destroy (t : conn_table_st) (os : gset Z) : outcome (gset Z) :=
  destroy_loop (zip (ztake (ct_n t) (ct_pfd t)) (ztake (ct_n t) (ct_ce t))) os.

(** the functions [conn_table_get_element_...] assert the index *)
Definition conn_table_element (t : conn_table_st) (i : Z) : outcome conn_element_st :=
  c_assert ((0 <=? i) && (i <? ct_n t)) (rd (ct_ce t) i).
Definition conn_table_get_element_fd (t : conn_table_st) (i : Z) : outcome Z :=
  c_assert ((0 <=? i) && (i <? ct_n t)) (let* p := rd (ct_pfd t) i in Done (pf_fd p)).
Definition conn_table_get_element_pid (t : conn_table_st) (i : Z) : outcome Z :=
  let* ce := conn_table_element t i in Done (cn_pid ce).
Definition conn_table_get_element_ip (t : conn_table_st) (i : Z) : outcome (option (list Z)) :=
  let* ce := conn_table_element t i in Done (cn_ip ce).
Definition conn_table_get_element_appdata (t : conn_table_st) (i : Z) : outcome (option appdata_st) :=
  let* ce := conn_table_element t i in Done (cn_appdata ce).

Definition upd_ce (t : conn_table_st) (i : Z) (ce : conn_element_st) : outcome conn_table_st :=
  let* a := wr (ct_ce t) i [ce] in Done (set_ct_ce a t).
Definition conn_table_set_element_appdata (t : conn_table_st) (i : Z) (d : option appdata_st)
  : outcome conn_table_st :=
  let* ce := conn_table_element t i in upd_ce t i (set_cn_appdata d ce).

(** the index of the first element with the address, or -1 *)
Fixpoint find_byip (l : list conn_element_st) (ip : list Z) (i : Z) : Z :=
  match l with
  | [] => -1
  | ce :: l =>
      match cn_ip ce with
      | Some s => if decide (s = ip) then i else find_byip l ip (i + 1)
      | None => find_byip l ip (i + 1)
      end
  end.
Definition conn_table_find_element_byip (t : conn_table_st) (ip : list Z) : Z :=
  find_byip (ztake (ct_n t) (ct_ce t)) ip 0.

(** ** The protocol of a client: appdata.c *)

Definition get_client_protocol_byce (ce : conn_element_st) : Z :=
  match cn_appdata ce with None => PROTOCOL_UNKNOWN | Some p => ad_protocol p end.
Definition get_client_protocol (t : conn_table_st) (i : Z) : outcome Z :=
  let* d := conn_table_get_element_appdata t i in
  Done (match d with None => PROTOCOL_UNKNOWN | Some p => ad_protocol p end).

Definition set_client_protocol (t : conn_table_st) (i protocol : Z) : outcome (Z * conn_table_st) :=
  if negb (malloc_ok SIZEOF_APPDATA) then Done (-1, t)
  else let* t := conn_table_set_element_appdata t i (Some (Appdata protocol 0)) in Done (0, t).

(** the protocol that a message names, and 0, or the default one, and 1 *)
Definition protocol_of (msg : list Z) : Z * Z :=
  if decide (msg = PROTOCOL_NBS1_STR) then (PROTOCOL_NBS1, 0)
  else if decide (msg = PROTOCOL_NBS2_STR) then (PROTOCOL_NBS2, 0)
  else if decide (msg = PROTOCOL_EMWIN_STR) then (PROTOCOL_EMWIN, 0)
  else (PROTOCOL_DEFAULT, 1).

Definition ident_client_protocol (t : conn_table_st) (i : Z) (msg : list Z) : outcome (Z * conn_table_st) :=
  let* p := get_client_protocol t i in
  if negb (p =? PROTOCOL_UNKNOWN) then Done (2, t) else
  let (p, r) := protocol_of msg in
  let* (status, t) := set_client_protocol t i p in
  Done (if negb (status =? 0) then -1 else r, t).

Definition get_client_qlimit_log_last (ce : conn_element_st) : Z :=
  match cn_appdata ce with None => 0 | Some p => ad_qlimit_log_last p end.
Definition set_client_qlimit_log_last (now : Z) (ce : conn_element_st) : conn_element_st :=
  match cn_appdata ce with
  | None => ce
  | Some p => set_cn_appdata (Some (Appdata (ad_protocol p) now)) ce
  end.

(** ** Polling: poll.c *)

(** what [tcp_server_accept_conn] (a negative status, or a descriptor, which
    another one replaces if it is in use), [get_peer_ip], [get_peer_name] and the
    access function return *)
Record accept_st := Accept {
  ac_fd : Z;
  ac_ip : option (list Z);
  ac_name : option (list Z);
  ac_allow : Z
}.

(** what happens on the descriptors in a turn *)
Record poll_input := PollInput {
  in_now : Z;
  in_poll : Z;                    (* the value of poll() *)
  in_revents : Z -> Z;            (* for each descriptor *)
  in_peek : Z -> Z;               (* the value of recvfrom() *)
  in_read : Z -> Z * list Z;      (* the value of read1() and the bytes *)
  in_accept : Z -> accept_st
}.
Context (inp : poll_input).

Definition poll_del_connection := conn_table_del_element.
Definition poll_kill_client_connection := poll_del_connection.

Definition poll_restore_connection (ip : list Z) (fd : Z) (t : conn_table_st) (os : gset Z)
  : outcome (Z * conn_table_st * gset Z) :=
  let i := conn_table_find_element_byip t ip in
  if i =? -1 then Done (-1, t, os) else
  let* ce := rd (ct_ce t) i in
  let status := conn_element_get_connection_status ce in
  if (status =? -1) || (status =? 0) then
    let* (status, t, os) := poll_del_connection i t os in
    Done (if status =? 0 then -1 else 1, t, os)
  else
    let* (status, ce) := conn_element_set_connection_status fd ce in
    let* t := upd_ce t i ce in
    if negb (status =? 0) then Done (1, t, os) else
    let* p := rd (ct_pfd t) i in
    let* a := wr (ct_pfd t) i [Pollfd fd (pf_events p) (pf_revents p)] in
    Done (0, set_ct_pfd a t, os).

(** the local sockets of the library are not used by this program *)
Definition poll_add_connection_net (o : client_options_st) (sindex : Z) (t : conn_table_st) (os : gset Z)
  : outcome (Z * conn_table_st * gset Z) :=
  let* ce := rd (ct_ce t) sindex in
  let* p := rd (ct_pfd t) sindex in
  c_assert (cn_type ce =? CONN_TYPE_SERVER_NET) (c_assert (negb (pf_fd p =? -1))
    (let a := in_accept inp (pf_fd p) in
     if ac_fd a <? 0 then Done (ac_fd a, t, os) else
     let fd := new_fd (ac_fd a) os in
     let os := os ∪ {[fd]} in
     match ac_ip a with
     | None => Done (-1, t, (close fd os).2)
     | Some ip =>
         let* (status, t, os) := poll_restore_connection ip fd t os in
         if status =? 0 then Done (0, t, os)
         else if status =? 1 then Done (-3, t, (close fd os).2)
         else if ac_allow a =? 0 then Done (-3, t, (close fd os).2)
         else if (0 <=? ct_nclientsmax t) && (ct_nclients t =? ct_nclientsmax t)
         then Done (-3, t, (close fd os).2)
         else
           let* (status, t) := conn_table_add_element (in_now inp) fd CONN_TYPE_CLIENT_NET (-1) (Some ip)
                                 (ac_name a) o t in
           Done (status, t, if negb (status =? 0) then (close fd os).2 else os)
     end)).
Definition poll_add_connection (o : client_options_st) (sindex : Z) (t : conn_table_st) (os : gset Z)
  : outcome (Z * conn_table_st * gset Z) :=
  let* ce := rd (ct_ce t) sindex in
  if cn_type ce =? CONN_TYPE_SERVER_NET then poll_add_connection_net o sindex t os
  else Done (0, t, os).

(** 0, or the condition of the hangup, which is passed to [handle_client_hup] *)
Definition poll_client_hangup (p : pollfd) : Z :=
  if negb (Z.land (pf_revents p) (Z.lor POLLHUP (Z.lor POLLERR POLLNVAL)) =? 0) then 1
  else if negb (Z.land (pf_revents p) POLLIN =? 0) then
    let n := in_peek inp (pf_fd p) in
    if n =? 0 then 2 else if n <? 0 then -1 else 0
  else 0.

(** the loop through the servers. The status: 0, or what [poll_loop_wait]
    returns at once *)
Fixpoint poll_servers (fuel : nat) (o : client_options_st) (i : Z) (t : conn_table_st) (os : gset Z)
  : outcome (option Z * conn_table_st * gset Z) :=
  if i <=? ct_n t - 1 then
    match fuel with
    | O => Undef
    | S fuel =>
        let* ce := rd (ct_ce t) i in
        let* p := rd (ct_pfd t) i in
        if negb (conn_element_isserver ce) || (Z.land (pf_revents p) POLLIN =? 0)
        then poll_servers fuel o (i + 1) t os
        else
          let* (status, t, os) := poll_add_connection o i t os in
          if status =? -1 then Done (Some (-2), t, os)
          else if (status =? -2) || (status =? -3) then Done (Some 0, t, os)
          else poll_servers fuel o (i + 1) t os
    end
  else Done (None, t, os).

(** the function that handles what a client sends *)
Context (connproc : conn_table_st -> gset Z -> Z -> outcome (Z * conn_table_st * gset Z)).

Fixpoint poll_clients (fuel : nat) (i : Z) (t : conn_table_st) (os : gset Z)
  : outcome (Z * conn_table_st * gset Z) :=
  if i <=? ct_n t - 1 then
    match fuel with
    | O => Undef
    | S fuel =>
        let* ce := rd (ct_ce t) i in
        let* p := rd (ct_pfd t) i in
        if conn_element_isserver ce then poll_clients fuel (i + 1) t os
        else if pf_revents p =? 0 then poll_clients fuel (i + 1) t os
        else
          let* (status, t, os) :=
            if negb (poll_client_hangup p =? 0) then
              let* (status, t, os) := poll_del_connection i t os in
              c_assert (status =? 0) (Done (status, t, os))
            else if negb (Z.land (pf_revents p) POLLIN =? 0) then connproc t os i
            else Done (0, t, os) in
          if status =? 0 then poll_clients fuel (i + 1) t os else Done (status, t, os)
    end
  else Done (0, t, os).

(** what [poll] writes in the [n] entries; it ignores a negative descriptor *)
Definition set_revents (p : pollfd) : pollfd :=
  Pollfd (pf_fd p) POLLIN
    (if (in_poll inp =? 0) || (pf_fd p <? 0) then 0 else in_revents inp (pf_fd p)).

Definition poll_loop_wait (o : client_options_st) (t : conn_table_st) (os : gset Z)
  : outcome (Z * conn_table_st * gset Z) :=
  if in_poll inp =? -1 then Done (-1, t, os) else
  let t := set_ct_pfd (map set_revents (ztake (ct_n t) (ct_pfd t)) ++ zdrop (ct_n t) (ct_pfd t)) t in
  if in_poll inp =? 0 then Done (0, t, os) else
  let* (r, t, os) := poll_servers (2 * Z.to_nat (ct_n t)) o 0 t os in
  match r with
  | Some status => Done (status, t, os)
  | None => poll_clients (Z.to_nat (ct_n t)) 0 t os
  end.
Definition poll_loop_nowait := poll_loop_wait.
End conn.

(** ** The table as a list of entries *)

Section table.
Context `{Hp : Heap} {HS : HeapSpec Hp} `{Q : QueueDb} (qd_close : qd -> Z).
Context (junk_pfd : Z -> list pollfd) (junk_ce : Z -> list conn_element_st).
Context (Hjp : forall n, 0 <= n -> zlen (junk_pfd n) = n) (Hjc : forall n, 0 <= n -> zlen (junk_ce n) = n).

#[local] Abbreviation entry := (pollfd * conn_element_st)%type.

Definition netclients (l : list entry) : Z :=
  Z.of_nat (length (List.filter (fun e => conn_element_isnetclient e.2) l)).

Lemma netclients_app l1 l2 : netclients (l1 ++ l2) = netclients l1 + netclients l2.
Proof. unfold netclients. rewrite List.filter_app, length_app. lia. Qed.
Lemma netclients_cons e l :
  netclients (e :: l) = (if conn_element_isnetclient e.2 then 1 else 0) + netclients l.
Proof. unfold netclients. cbn [List.filter]. destruct (conn_element_isnetclient e.2); cbn [length]; lia. Qed.
Lemma netclients_nonneg l : 0 <= netclients l.
Proof. unfold netclients. lia. Qed.

Record table_is (t : conn_table_st) (l : list entry) : Prop := TableIs {
  ti_n : ct_n t = zlen l;
  ti_pfd : exists r, ct_pfd t = l.*1 ++ r;
  ti_ce : exists r, ct_ce t = l.*2 ++ r;
  ti_pfd_len : zlen (ct_pfd t) = ct_nmax t;
  ti_ce_len : zlen (ct_ce t) = ct_nmax t;
  ti_nmax : 0 < ct_nmax t < 2 ^ 31;
  ti_count : ct_nclients t = netclients l
}.

Lemma zlen_fmap {A B} (f : A -> B) (l : list A) : zlen (f <$> l) = zlen l.
Proof. unfold zlen. by rewrite length_fmap. Qed.

Lemma table_is_room t l : table_is t l -> zlen l <= ct_nmax t.
Proof.
  intros [_ [r E] _ Hl _ _ _]. rewrite E, zlen_app, zlen_fmap in Hl. pose proof (zlen_nonneg r). lia.
Qed.

Lemma rd_at {A} (a b r : list A) x i : i = zlen a -> rd ((a ++ x :: b) ++ r) i = Done x.
Proof.
  intros ->. apply rd_Done. pose proof (zlen_nonneg a). pose proof (zlen_nonneg b).
  rewrite znth_app_l by (rewrite zlen_app, zlen_cons; lia).
  rewrite znth_app_r by lia. by rewrite Z.sub_diag.
Qed.

Lemma wr_at {A} (a b r : list A) x y i : i = zlen a -> wr ((a ++ x :: b) ++ r) i [y] = Done ((a ++ y :: b) ++ r).
Proof.
  intros ->. rewrite <- !app_assoc. cbn [app]. pose proof (zlen_nonneg (b ++ r)).
  rewrite wr_app; [done|done|]. rewrite !zlen_cons. change (@zlen A []) with 0. lia.
Qed.

Lemma table_rd t l1 e l2 : table_is t (l1 ++ e :: l2) ->
  rd (ct_ce t) (zlen l1) = Done e.2 /\ rd (ct_pfd t) (zlen l1) = Done e.1.
Proof.
  intros [_ [r1 E1] [r2 E2] _ _ _ _]. rewrite E1, E2, !fmap_app, !fmap_cons.
  split; apply rd_at; by rewrite zlen_fmap.
Qed.

Lemma table_index t l1 e l2 : table_is t (l1 ++ e :: l2) -> (0 <=? zlen l1) && (zlen l1 <? ct_n t) = true.
Proof.
  intros [Hn _ _ _ _ _ _]. rewrite Hn, zlen_app, zlen_cons. pose proof (zlen_nonneg l1). pose proof (zlen_nonneg l2).
  rewrite (proj2 (Z.leb_le 0 (zlen l1))) by lia. apply Z.ltb_lt. lia.
Qed.

Lemma table_element t l1 e l2 : table_is t (l1 ++ e :: l2) -> conn_table_element t (zlen l1) = Done e.2.
Proof.
  intros H. unfold conn_table_element. rewrite (table_index _ _ _ _ H). cbn [c_assert].
  by destruct (table_rd _ _ _ _ H).
Qed.

(** an element is replaced by one of the same type *)
Lemma table_upd_ce t l1 e l2 ce : table_is t (l1 ++ e :: l2) -> cn_type ce = cn_type e.2 ->
  exists t', upd_ce t (zlen l1) ce = Done t' /\ table_is t' (l1 ++ (e.1, ce) :: l2) /\
    ct_nclientsmax t' = ct_nclientsmax t.
Proof.
  intros [Hn [r1 E1] [r2 E2] Hl1 Hl2 Hm Hc] Hty. unfold upd_ce. rewrite E2, fmap_app, fmap_cons.
  rewrite (wr_at (l1.*2) (l2.*2) r2 e.2 ce) by (by rewrite zlen_fmap). cbn [obind]. eexists. split; [done|]. split; [|done].
  split; cbn [ct_n set_ct_ce ct_pfd ct_ce ct_nmax ct_nclients]; try done.
  - rewrite Hn, !zlen_app, !zlen_cons. done.
  - exists r1. rewrite E1, !fmap_app, !fmap_cons. done.
  - exists r2. rewrite fmap_app, fmap_cons. done.
  - rewrite <- Hl2, E2, fmap_app, fmap_cons, !zlen_app, !zlen_cons. done.
  - rewrite Hc, !netclients_app, !netclients_cons. unfold conn_element_isnetclient. cbn [snd]. by rewrite Hty.
Qed.

Lemma table_upd_pfd t l1 e l2 p : table_is t (l1 ++ e :: l2) ->
  exists a, wr (ct_pfd t) (zlen l1) [p] = Done a /\ table_is (set_ct_pfd a t) (l1 ++ (p, e.2) :: l2).
Proof.
  intros [Hn [r1 E1] [r2 E2] Hl1 Hl2 Hm Hc]. rewrite E1, fmap_app, fmap_cons.
  rewrite (wr_at (l1.*1) (l2.*1) r1 e.1 p) by (by rewrite zlen_fmap). eexists. split; [done|].
  split; cbn [ct_n set_ct_pfd ct_pfd ct_ce ct_nmax ct_nclients]; try done.
  - rewrite Hn, !zlen_app, !zlen_cons. done.
  - exists r1. rewrite fmap_app, fmap_cons. done.
  - exists r2. rewrite E2, !fmap_app, !fmap_cons. done.
  - rewrite <- Hl1, E1, fmap_app, fmap_cons, !zlen_app, !zlen_cons. done.
  - rewrite Hc, !netclients_app, !netclients_cons. done.
Qed.

(** growing keeps the entries *)
Lemma table_grow t l : table_is t l ->
  let '(status, t') := conn_table_grow junk_pfd junk_ce t in
  table_is t' l /\ ct_nclientsmax t' = ct_nclientsmax t /\ (status = 0 -> ct_nmax t < ct_nmax t') /\
  (status <> 0 -> status = -1).
Proof.
  intros H. unfold conn_table_grow, GROW_FACTOR. set (new := s32 (ct_nmax t * 2)).
  pose proof H as [Hn [r1 E1] [r2 E2] Hl1 Hl2 Hm Hc].
  destruct (malloc_ok (u64 (SIZEOF_POLLFD * new))) eqn:Em1; cbn [negb]; [|done].
  destruct (malloc_ok (u64 (SIZEOF_CONN_ELEMENT * new))) eqn:Em2; cbn [negb]; [|done].
  assert (ct_nmax t * 2 < 2 ^ 31) as Hsm.
  { destruct (Z.lt_ge_cases (ct_nmax t * 2) (2 ^ 31)); [done|]. exfalso.
    assert (new = ct_nmax t * 2 - 2 ^ 32) as En.
    { subst new. unfold s32. rewrite <- (Z_mod_plus_full _ (-1)), Z.mod_small by lia. lia. }
    rewrite malloc_bound in Em1; [done|]. unfold u64, SIZEOF_POLLFD.
    rewrite <- (Z_mod_plus_full (8 * new) 1 (2 ^ 64)), Z.mod_small by lia. lia. }
  assert (new = ct_nmax t * 2) as -> by (subst new; apply s32_small; lia).
  replace (ct_nmax t * 2 - ct_nmax t) with (ct_nmax t) by lia.
  split; [|split; [done|]; cbn [ct_nmax]; split; [lia|done]].
  split; cbn [ct_n ct_pfd ct_ce ct_nmax ct_nclients]; try done.
  - exists (r1 ++ junk_pfd (ct_nmax t)). by rewrite E1, app_assoc.
  - exists (r2 ++ junk_ce (ct_nmax t)). by rewrite E2, app_assoc.
  - rewrite zlen_app, Hjp; lia.
  - rewrite zlen_app, Hjc; lia.
  - lia.
Qed.

(** a new entry at the end, or no room for it *)
Lemma table_add t l now fd type pid ip name o : table_is t l ->
  exists status t', conn_table_add_element junk_pfd junk_ce now fd type pid ip name o t = Done (status, t') /\
    ct_nclientsmax t' = ct_nclientsmax t /\
    (status = 0 /\ table_is t' (l ++ [(Pollfd fd POLLIN 0, conn_element_init1 now fd type pid ip name o)]) \/
     status = -1 /\ table_is t' l).
Proof.
  intros H. unfold conn_table_add_element, conn_table_add_element_un.
  set (g := if ct_n t =? ct_nmax t then _ else _).
  assert (exists status t1, g = (status, t1) /\ table_is t1 l /\ ct_nclientsmax t1 = ct_nclientsmax t /\
    (status = 0 -> ct_n t1 < ct_nmax t1) /\ (status <> 0 -> status = -1)) as (status & t1 & -> & H1 & Hmx & Hr & Hs).
  { subst g. pose proof (table_is_room _ _ H) as Hroom. pose proof (ti_n _ _ H) as Hn0.
    destruct (Z.eqb_spec (ct_n t) (ct_nmax t)) as [E|E].
    - pose proof (table_grow t l H) as Hg. destruct (conn_table_grow junk_pfd junk_ce t) as [st t1].
      destruct Hg as (H1 & Hmx & Hlt & Hs). exists st, t1. split_and!; try done. intros E0. pose proof (ti_n _ _ H1).
      specialize (Hlt E0). lia.
    - exists 0, t. split_and!; try done. lia. }
  destruct (Z.eqb_spec status 0) as [E|E]; cbn [negb]; [|exists (-1), t1; split_and!; try done; by right].
  pose proof H1 as [Hn [r1 E1] [r2 E2] Hl1 Hl2 Hm Hc]. specialize (Hr E). pose proof (zlen_nonneg l).
  rewrite E1, zlen_app, zlen_fmap in Hl1. rewrite E2, zlen_app, zlen_fmap in Hl2.
  destruct r1 as [|x1 r1]; [rewrite zlen_nil in Hl1; lia|]. destruct r2 as [|x2 r2]; [rewrite zlen_nil in Hl2; lia|].
  rewrite E1, E2, Hn. rewrite zlen_cons in Hl1. rewrite zlen_cons in Hl2.
  rewrite !wr_app by (rewrite ?zlen_fmap, ?zlen_cons, ?zlen_nil; try done; pose proof (zlen_nonneg r1);
    pose proof (zlen_nonneg r2); lia).
  cbn [obind]. eexists 0, _. split; [done|]. split; [done|]. left. split; [done|].
  change (zdrop (zlen [Pollfd fd POLLIN 0]) (x1 :: r1)) with r1.
  change (zdrop (zlen [conn_element_init1 now fd type pid ip name o]) (x2 :: r2)) with r2.
  split; cbn [ct_n ct_pfd ct_ce ct_nmax ct_nclients]; try done.
  - rewrite zlen_app, zlen_cons, zlen_nil. lia.
  - exists r1. by rewrite fmap_app, <- app_assoc.
  - exists r2. by rewrite fmap_app, <- app_assoc.
  - rewrite !zlen_app, zlen_fmap. change (zlen [Pollfd fd POLLIN 0]) with 1. lia.
  - rewrite !zlen_app, zlen_fmap. change (zlen [conn_element_init1 now fd type pid ip name o]) with 1. lia.
  - rewrite netclients_app, netclients_cons. change (netclients []) with 0. rewrite Hc.
    unfold conn_element_isnetclient, conn_element_init1. cbn [snd cn_type]. destruct (type =? CONN_TYPE_CLIENT_NET); lia.
Qed.

Lemma shift_down_spec {A} (a b r : list A) x i n : i = zlen a -> n = zlen (a ++ x :: b) ->
  exists r', shift_down ((a ++ x :: b) ++ r) i n = Done ((a ++ b) ++ r') /\
    zlen ((a ++ b) ++ r') = zlen ((a ++ x :: b) ++ r).
Proof.
  intros -> ->. unfold shift_down. pose proof (zlen_nonneg a). pose proof (zlen_nonneg b). pose proof (zlen_nonneg r).
  replace ((a ++ x :: b) ++ r) with ((a ++ [x]) ++ b ++ r) by (by rewrite <- !app_assoc).
  replace (zlen (a ++ x :: b) - (zlen a + 1)) with (zlen b) by (rewrite zlen_app, zlen_cons; lia).
  rewrite rdn_ok by (rewrite ?zlen_app, ?zlen_cons, ?zlen_nil; lia).
  rewrite zsub_app_exact by (rewrite ?zlen_app, ?zlen_cons, ?zlen_nil; lia). cbn [obind].
  rewrite <- app_assoc. cbn [app]. rewrite wr_app by (rewrite ?zlen_cons, ?zlen_app; done || lia).
  exists (zdrop (zlen b) (x :: b ++ r)). rewrite <- app_assoc. split; [done|].
  rewrite !zlen_app, zlen_drop by (rewrite zlen_cons, zlen_app; lia). rewrite !zlen_cons, zlen_app. lia.
Qed.

(** what happens to the descriptor of an entry that is deleted *)
Definition close_entry (e : entry) (os : gset Z) : Z * gset Z :=
  if negb (pf_fd e.1 =? -1) && conn_element_isclient e.2 then close (pf_fd e.1) os else (0, os).

Lemma table_del t l1 e l2 os st : table_is t (l1 ++ e :: l2) -> conn_element_release qd_close e.2 = Done st ->
  exists t', conn_table_del_element qd_close (zlen l1) t os =
      Done (if st =? 0 then (close_entry e os).1 else st, t', (close_entry e os).2) /\
    table_is t' (l1 ++ l2) /\ ct_nclientsmax t' = ct_nclientsmax t.
Proof.
  intros H Hr. unfold conn_table_del_element, conn_table_del_element_un. rewrite (table_index _ _ _ _ H). cbn [c_assert].
  destruct (table_rd _ _ _ _ H) as [-> ->]. cbn [obind]. rewrite Hr. cbn [obind].
  pose proof H as [Hn [r1 E1] [r2 E2] Hl1 Hl2 Hm Hc]. rewrite E1, E2, Hn, !fmap_app, !fmap_cons.
  destruct (shift_down_spec (l1.*1) (l2.*1) r1 e.1 (zlen l1) (zlen (l1 ++ e :: l2))) as (r1' & -> & Hr1);
    [by rewrite zlen_fmap|by rewrite !zlen_app, !zlen_cons, !zlen_fmap|].
  destruct (shift_down_spec (l1.*2) (l2.*2) r2 e.2 (zlen l1) (zlen (l1 ++ e :: l2))) as (r2' & -> & Hr2);
    [by rewrite zlen_fmap|by rewrite !zlen_app, !zlen_cons, !zlen_fmap|].
  unfold close_entry. rewrite E1, fmap_app, fmap_cons in Hl1. rewrite E2, fmap_app, fmap_cons in Hl2.
  set (d := close (pf_fd e.1) os).
  assert ((if negb (pf_fd e.1 =? -1) && conn_element_isclient e.2
           then let (status1, os0) := d in (if st =? 0 then status1 else st, os0) else (st, os)) =
    (if st =? 0 then (if negb (pf_fd e.1 =? -1) && conn_element_isclient e.2 then d else (0, os)).1 else st,
     (if negb (pf_fd e.1 =? -1) && conn_element_isclient e.2 then d else (0, os)).2)) as ->.
  { destruct (_ && _); [by destruct d|]. cbn. by destruct (Z.eqb_spec st 0) as [->|]. }
  cbn [obind]. eexists. split; [done|]. split; [|done].
  split; cbn [ct_n ct_pfd ct_ce ct_nmax ct_nclients]; try done.
  - rewrite !zlen_app, zlen_cons. lia.
  - exists r1'. by rewrite fmap_app.
  - exists r2'. by rewrite fmap_app.
  - by rewrite Hr1.
  - by rewrite Hr2.
  - rewrite Hc, !netclients_app, netclients_cons. destruct (conn_element_isnetclient e.2); lia.
Qed.

(** the search by address *)
Lemma find_byip_spec (l : list entry) ip i :
  (find_byip (l.*2) ip i = -1 /\ Forall (fun e => cn_ip e.2 <> Some ip) l) \/
  exists l1 e l2, l = l1 ++ e :: l2 /\ find_byip (l.*2) ip i = i + zlen l1 /\ cn_ip e.2 = Some ip /\
    Forall (fun e => cn_ip e.2 <> Some ip) l1.
Proof.
  revert i. induction l as [|e l IH]; intros i; [by left|]. cbn [fmap list_fmap find_byip].
  assert (cn_ip e.2 <> Some ip -> match cn_ip e.2 with
    | Some s => if decide (s = ip) then i else find_byip (l.*2) ip (i + 1)
    | None => find_byip (l.*2) ip (i + 1) end = find_byip (l.*2) ip (i + 1)) as Hno.
  { intros Hn. destruct (cn_ip e.2) as [s|]; [|done]. destruct (decide (s = ip)) as [->|]; done. }
  destruct (decide (cn_ip e.2 = Some ip)) as [E|E].
  - right. exists [], e, l. split; [done|]. rewrite E, decide_True by done. split_and!; [rewrite zlen_nil; lia|done|done].
  - rewrite Hno by done. destruct (IH (i + 1)) as [[-> HF]|(l1 & e' & l2 & -> & -> & Hip & HF)].
    + left. by split; [|constructor].
    + right. exists (e :: l1), e', l2. split; [done|]. rewrite zlen_cons. split_and!; [lia|done|by constructor].
Qed.

Lemma table_find t l ip : table_is t l -> conn_table_find_element_byip t ip = find_byip (l.*2) ip 0.
Proof.
  intros [Hn _ [r E] _ _ _ _]. unfold conn_table_find_element_byip. rewrite E, Hn, ztake_app_exact by (by rewrite zlen_fmap).
  done.
Qed.
End table.
