(* ===== verification/Serverm.v ===== *)
(** * Serverm: src/src/serverm.c and src/src/serverf.c, the main server thread

    The thread takes the packets from the queue of the servers and puts each one
    in the queues of the clients, asks the EMWIN filter for the file of the
    EMWIN clients, and once a second looks after the table of connections
    ([Conn]): clients that come, identify themselves, get a thread, lose their
    connection and go away.

    The Tcl interpreter of the access filter is a parameter ([NetFilter]); the
    EMWIN filter is a process at the end of a pipe and of a fifo ([Nreadn]). The
    statuses of [pthread_create], the time and what happens on the sockets are
    inputs. *)

From stdpp Require Import gmap.
From S2P Require Import Prelude Util CLib Mfile Pctldb Pctl Nreadn Packfp Qdb Emwin Serverc Stoi.
From S2P Require Import Nbsp Slavet Slavefp Conn.

Definition SERVER_PROCESS_CONNECTIONS_PERIOD_SECS : Z := 1.
Definition CLIENTOPTION_SEP_CHAR : Z := 44.
Definition NETFILTER_ALLOW_DEFAULT : Z := 0.
Definition EMWIN_FPATHOUT_SIZE : Z := 4096.
Definition SIZEOF_ALLOW_FILTER : Z := 4.

(** the members of [g] that are only read *)
Record server_conf := ServerConf {
  g_servertype : Z;
  g_f_server_thread_created : Z;
  g_f_emwinserver_enabled : Z;
  g_emwinfilter_always : Z;
  g_netfilter_enable : Z;
  g_server_clientid_timeout_secs : Z;
  g_server_clientqlimit_logperiod_secs : Z;
  g_clientoptions : option (list Z);
  g_client_options : client_options_st;
  g_client_queue_maxsize_soft : Z;
  g_client_queue_maxsize_hard : Z;
  g_packet_size : Z                      (* gpacketinfo.packet_size *)
}.

(** The interpreter of the access filter: the script is run for a client, with
    its name and address; then [allow(index)] can be read. *)
Class NetFilter := {
  nf : Type;
  nf_exec : nf -> option (list Z) -> option (list Z) -> Z * nf;
  nf_allow : nf -> option (list Z) -> option Z
}.
Definition ALLOW_DEFAULT_INDEX : list Z := [48].

(** ** The EMWIN filter *)

(** [pl_results]: what the next calls to write return, then success *)
Record pfilter_st := Pfilter {
  pl_fifo : fd_st;
  pl_written : list Z;
  pl_results : list Z
}.

Definition pfilter_put (text : list Z) (ok : Z) (f : pfilter_st) : Z * pfilter_st :=
  match pl_results f with
  | [] => (ok, Pfilter (pl_fifo f) (pl_written f ++ text) [])
  | r :: l => (r, Pfilter (pl_fifo f) (if r <? 0 then pl_written f else pl_written f ++ text) l)
  end.
Definition pfilter_vprintf (text : list Z) (f : pfilter_st) : Z * pfilter_st := pfilter_put text (zlen text) f.
Definition pfilter_flush (f : pfilter_st) : Z * pfilter_st := pfilter_put [] 0 f.

(** into [a]; -1, 1 less than [size], 0 *)
Definition pfilter_read (f : pfilter_st) (a : list Z) (size : Z) : outcome (Z * list Z * pfilter_st) :=
  let* (n, a, fd) := readn_fifo (pl_fifo f) a 0 size in
  Done (if n =? -1 then -1 else if u64 n <? size then 1 else 0, a, Pfilter fd (pl_written f) (pl_results f)).

Section serverm.
Context `{Hp : Heap} `{Q : QueueDb} `{N : NetFilter}.
Context (qd_close : qd -> Z) (junk_pfd : Z -> list pollfd) (junk_ce : Z -> list conn_element_st)
  (junk : Z -> list Z).
Context (g : server_conf).

(** [opened]: what [pfilter_open_wr] returns *)
Definition open_emwin_filter (opened : option pfilter_st) (f : option pfilter_st)
  : outcome (Z * option pfilter_st) :=
  match f with
  | Some _ => Abrt
  | None => Done (match opened with Some _ => 0 | None => -1 end, opened)
  end.

(** the script is told to end, and the pipe closed *)
Definition close_emwin_filter (f : option pfilter_st) : outcome (option pfilter_st) :=
  if g_f_emwinserver_enabled g =? 0 then Done f else
  match f with None => Abrt | Some _ => Done None end.

(** the filter is a global variable: [f] is what it points to *)
Definition e_emwin_pfilter_read (f : option pfilter_st) (a : list Z) (size : Z)
  : outcome (Z * list Z * option pfilter_st) :=
  match f with
  | None => Undef
  | Some p =>
      let* (status, a, p) := pfilter_read p a size in
      let status := if negb (status =? 0) then -1 else 0 in
      if negb (status =? 0) then let* f := close_emwin_filter (Some p) in Done (status, a, f)
      else Done (status, a, Some p)
  end.

(** the line that is sent to the filter *)
Definition filter_line (pi : packet_info_st) (fname fpath : list Z) : list Z :=
  info_line (pi_seq_number pi) (pi_product_type pi) (pi_product_category pi) (pi_product_code pi)
    (pi_np_channel_index pi) fname fpath ++ [10].

(** the line is sent: 0 or -1 *)
Definition write_emwin_filter (line : list Z) (f : option pfilter_st) : outcome (Z * option pfilter_st) :=
  match f with
  | None => Undef
  | Some p =>
      let (n, p) := pfilter_vprintf line p in
      let (status, p) := if n <? 0 then (-1, p) else pfilter_flush p in
      if negb (status =? 0) then let* f := close_emwin_filter (Some p) in Done (-1, f)
      else Done (0, Some p)
  end.

(** a string of [n] bytes of the answer, to the array [a] of [size] bytes *)
Definition read_answer (f : option pfilter_st) (a : list Z) (n size : Z)
  : outcome (Z * list Z * option pfilter_st) :=
  if size - 1 <? n then let* f := close_emwin_filter f in Done (-1, a, f)
  else
    let* (status, a, f) := e_emwin_pfilter_read f a n in
    let* a := wr a n [0] in
    Done (status, a, f).

(** The answer of the filter: 0 and the two strings, in the arrays of the
    structure; 1 (or another number) not to be sent; -1 an error. [b]: what the
    array holds. *)
Definition read_emwin_filter (b fpathout emwinfname : list Z) (f : option pfilter_st)
  : outcome (Z * list Z * list Z * option pfilter_st) :=
  let* (status, b, f) := e_emwin_pfilter_read f b 1 in
  if negb (status =? 0) then Done (-1, fpathout, emwinfname, f) else
  let* output_status := rd b 0 in
  if negb (output_status =? 0) then Done (output_status, fpathout, emwinfname, f) else
  let* (status, b, f) := e_emwin_pfilter_read f b 4 in
  if negb (status =? 0) then Done (status, fpathout, emwinfname, f) else
  let* n1 := unpack_uint16 b 0 in
  let* n2 := unpack_uint16 b 2 in
  let* (status, fpathout, f) := read_answer f fpathout n1 (EMWIN_FPATHOUT_SIZE + 1) in
  if negb (status =? 0) then Done (status, fpathout, emwinfname, f) else
  let* (status, emwinfname, f) := read_answer f emwinfname n2 (EMWIN_HEADER_FNAMESIZE + 1) in
  Done (status, fpathout, emwinfname, f).

(** [emwin_regex]: the pattern of the names *)
Definition exec_emwin_filter (emwin_regex : list Z -> Z) (opened : option pfilter_st) (b : list Z)
    (pi : packet_info_st) (fpathout emwinfname : list Z) (f : option pfilter_st)
  : outcome (Z * list Z * list Z * option pfilter_st) :=
  match pi_packet pi, pi_fname pi, pi_fpath pi with
  | Some p, Some i, Some j =>
      let* fname := cstr (zdrop i p) in
      let status := emwin_regex fname in
      if negb (status =? 0) then Done (status, fpathout, emwinfname, f) else
      let* (status, f) := match f with
                          | Some _ => Done (0, f)
                          | None => open_emwin_filter opened f
                          end in
      if negb (status =? 0) then Done (-1, fpathout, emwinfname, f) else
      let* fpath := cstr (zdrop j p) in
      let* (status, f) := write_emwin_filter (filter_line pi fname fpath) f in
      if negb (status =? 0) then Done (-1, fpathout, emwinfname, f) else
      read_emwin_filter b fpathout emwinfname f
  | _, _, _ => Undef
  end.

(** ** The access filter: serverf.c *)

Definition allow_filter_init (ce : conn_element_st) : Z * conn_element_st :=
  if negb (malloc_ok SIZEOF_ALLOW_FILTER) then (-1, ce)
  else (0, conn_element_init3 (Some NETFILTER_ALLOW_DEFAULT) ce).
Definition allow_filter_get_flag (ce : conn_element_st) : outcome Z :=
  match cn_filterdata ce with None => Abrt | Some v => Done v end.
Definition allow_filter_set_flag (flag : Z) (ce : conn_element_st) : outcome conn_element_st :=
  match cn_filterdata ce with None => Abrt | Some _ => Done (set_cn_filterdata (Some flag) ce) end.

(** the value for a client, after the script has run for it: that of its name,
    that of its address, the default of the filter, the default *)
Definition allow_value (x : nf) (name ip : option (list Z)) : Z :=
  let filter_default := match nf_allow x (Some ALLOW_DEFAULT_INDEX) with
                        | Some v => v
                        | None => NETFILTER_ALLOW_DEFAULT
                        end in
  let by_ip := match nf_allow x ip with Some v => v | None => filter_default end in
  match name with
  | None => by_ip
  | Some _ => match nf_allow x name with Some v => v | None => by_ip end
  end.

(** [k] entries from [i] on *)
Fixpoint exec_net_filter_loop (k : nat) (i : Z) (x : nf) (t : conn_table_st)
  : outcome (Z * nf * conn_table_st) :=
  match k with
  | O => Done (0, x, t)
  | S k =>
      let* ce := conn_table_element t i in
      if negb (conn_element_isclient ce) || (conn_element_get_created_flag ce =? 0) ||
         negb (conn_element_get_finished_flag ce =? 0)
      then exec_net_filter_loop k (i + 1) x t
      else
        let (status, x) := nf_exec x (cn_name ce) (cn_ip ce) in
        if negb (status =? 0) then Done (status, x, t) else
        let* ce := allow_filter_set_flag (allow_value x (cn_name ce) (cn_ip ce)) ce in
        let* t := upd_ce t i ce in
        exec_net_filter_loop k (i + 1) x t
  end.
Definition exec_net_filter (x : nf) (t : conn_table_st) : outcome (Z * nf * conn_table_st) :=
  exec_net_filter_loop (Z.to_nat (ct_n t)) 0 x t.

(** ** Distribution *)

Definition emwin_queue_info_get_size : Z := EMWIN_HEADER_FNAMESIZE + 1 + (EMWIN_FPATHOUT_SIZE + 1).

Fixpoint count_emwin (k : nat) (i : Z) (t : conn_table_st) : outcome Z :=
  match k with
  | O => Done 0
  | S k =>
      let* ce := rd (ct_ce t) i in
      let* n := count_emwin k (i + 1) t in
      if conn_element_isnetclient_running ce then
        let* protocol := get_client_protocol t i in
        Done (if protocol =? PROTOCOL_EMWIN then 1 + n else n)
      else Done n
  end.

(** the status for the report of the limits *)
Definition report_qlimit (now status : Z) (ce : conn_element_st) : conn_element_st :=
  if (status =? -1) || (status =? 0) then ce
  else if get_client_qlimit_log_last ce + g_server_clientqlimit_logperiod_secs g <? now
  then set_client_qlimit_log_last now ce else ce.

(** what is sent to a client: the data for the EMWIN clients, the packet, or
    nothing and [status] stays as it was *)
Definition queue_for (protocol status1 : Z) (emwindata packet : list Z) : option (list Z) :=
  if (protocol =? PROTOCOL_EMWIN) && (status1 =? 0) then Some emwindata
  else if (protocol =? PROTOCOL_NBS1) || (protocol =? PROTOCOL_NBS2) then Some packet
  else None.

Definition send_queue (data : list Z) (ce : conn_element_st) : outcome (Z * conn_element_st) :=
  match cn_cq ce with
  | CqPtr c => let* (status, c) := connqueue_snd c data in Done (status, set_cn_cq (CqPtr c) ce)
  | _ => Undef
  end.

(** the loop over the clients; [status] is that of the last client that was
    sent something *)
Fixpoint send_queues_loop (k : nat) (i now status status1 : Z) (emwindata packet : list Z) (t : conn_table_st)
  : outcome conn_table_st :=
  match k with
  | O => Done t
  | S k =>
      let* ce := rd (ct_ce t) i in
      if negb (conn_element_isnetclient ce) then send_queues_loop k (i + 1) now status status1 emwindata packet t
      else
        let* protocol := get_client_protocol t i in
        if negb (conn_element_isnetclient_running ce)
        then send_queues_loop k (i + 1) now status status1 emwindata packet t
        else
          let* denied := if g_netfilter_enable g =? 1
                         then let* v := allow_filter_get_flag ce in Done (v =? 0)
                         else Done false in
          if denied then send_queues_loop k (i + 1) now status status1 emwindata packet t
          else
            let* (status, ce) := match queue_for protocol status1 emwindata packet with
                                 | Some d => send_queue d ce
                                 | None => Done (status, ce)
                                 end in
            let* t := upd_ce t i (report_qlimit now status ce) in
            send_queues_loop k (i + 1) now status status1 emwindata packet t
  end.

(** what the environment does while a packet is distributed: the time, the
    answer of [pfilter_open_wr], the memory of the local variables, the pattern
    of the names *)
Record send_input := SendInput {
  si_now : Z;
  si_opened : option pfilter_st;
  si_b : list Z;
  si_fpathout : list Z;
  si_emwinfname : list Z;
  si_regex : list Z -> Z
}.

(** the global pointers to the filters *)
Record filters_st := Filters { fl_emwin : option pfilter_st; fl_net : option nf }.

Definition server_send_client_queues (si : send_input) (pi : packet_info_st) (fl : filters_st) (t : conn_table_st)
  : outcome (Z * filters_st * conn_table_st) :=
  let* emwinclients := count_emwin (Z.to_nat (ct_n t)) 0 t in
  let* (status1, fpathout, emwinfname, fe) :=
    if (0 <? emwinclients) || (negb (g_f_emwinserver_enabled g =? 0) && negb (g_emwinfilter_always g =? 0))
    then exec_emwin_filter (si_regex si) (si_opened si) (si_b si) pi (si_fpathout si) (si_emwinfname si)
           (fl_emwin fl)
    else Done (0, si_fpathout si, si_emwinfname si, fl_emwin fl) in
  let fl := Filters fe (fl_net fl) in
  if ct_nclients t =? 0 then Done (0, fl, t) else
  let* (status, fn, t) :=
    match fl_net fl with
    | None => Done (0, None, t)
    | Some x => let* (status, x, t) := exec_net_filter x t in Done (status, Some x, t)
    end in
  let fl := Filters fe fn in
  if negb (status =? 0) then Done (0, fl, t) else
  match pi_packet pi with
  | None => Undef
  | Some p =>
      let* t := send_queues_loop (Z.to_nat (ct_n t)) 0 (si_now si) 0 status1 (emwinfname ++ fpathout)
                  (ztake (pi_packet_size pi) p) t in
      Done (0, fl, t)
  end.

(** [init_sfilter_input] is not in the model: [input] is its status. [None]:
    waiting for a packet *)
Definition process_server_queue (si : send_input) (input : Z) (wakeups : list (Z * nbspq_st)) (pi : packet_info_st)
    (qt : nbsp_qtable_st) (fl : filters_st) (t : conn_table_st)
  : outcome (option (Z * packet_info_st * nbsp_qtable_st * filters_st * conn_table_st)) :=
  match pi_packet pi with
  | None => Abrt
  | Some _ =>
      let* r := e_nbspq_rcv_server qt (pi_packet pi) (pi_packet_size pi) wakeups in
      match r with
      | None => Done None
      | Some (status, p, size, qt) =>
          c_assert (size =? pi_packet_size pi)
            (let pi := PacketInfo (pi_seq_number pi) (pi_product_type pi) (pi_product_category pi)
                         (pi_product_code pi) (pi_np_channel_index pi) (pi_fname pi) (pi_fpath pi) p
                         (pi_packet_size pi) in
             if status =? 1 then Done (Some (0, pi, qt, fl, t))
             else if negb (status =? 0) then Done (Some (-1, pi, qt, fl, t))
             else
               let* (status, pi) := nbsfp_unpack_fpath pi in
               if negb (status =? 0) then Done (Some (status, pi, qt, fl, t)) else
               let status := match fl_net fl with Some _ => input | None => 0 end in
               if negb (status =? 0) then Done (Some (status, pi, qt, fl, t)) else
               let* (status, fl, t) := server_send_client_queues si pi fl t in
               Done (Some (status, pi, qt, fl, t)))
      end
  end.

(** ** The connections *)

Definition match_client_protocol (t : conn_table_st) (i : Z) : outcome Z :=
  c_assert (negb (g_f_server_thread_created g =? 0))
    (let* protocol := get_client_protocol t i in
     Done (if negb (Z.land (g_servertype g) protocol =? 0) then 0 else 1)).

Definition kill (t : conn_table_st) (os : gset Z) (i : Z) : outcome (conn_table_st * gset Z) :=
  let* (_, t, os) := poll_kill_client_connection qd_close i t os in Done (t, os).

Definition handle_client (inp : poll_input) (t : conn_table_st) (os : gset Z) (i : Z)
  : outcome (Z * conn_table_st * gset Z) :=
  let* pid := conn_table_get_element_pid t i in
  c_assert (pid =? -1)
    (let* fd := conn_table_get_element_fd t i in
     let (n, d) := in_read inp fd in
     let* (t, os) :=
       if 0 <? n then
         let* (status, t) := ident_client_protocol t i (ztake n d) in
         if status =? -1 then kill t os i
         else if (status =? 0) || (status =? 1) then
           let* m := match_client_protocol t i in
           if negb (m =? 0) then kill t os i else Done (t, os)
         else Done (t, os)
       else kill t os i in
     Done (0, t, os)).

(** after an element is deleted the loops go on with the next index *)
Fixpoint process_unidentified_loop (fuel : nat) (now i n : Z) (t : conn_table_st) (os : gset Z)
  : outcome (conn_table_st * gset Z) :=
  if i <? n then
    match fuel with
    | O => Undef
    | S fuel =>
        let* ce := rd (ct_ce t) i in
        if negb (conn_element_isnetclient ce) then process_unidentified_loop fuel now (i + 1) n t os
        else
          let* protocol := get_client_protocol t i in
          if (protocol =? PROTOCOL_UNKNOWN) && (cn_ctime ce + g_server_clientid_timeout_secs g <? now) then
            let* (status, t) := ident_client_protocol t i PROTOCOL_EMWIN_STR in
            if negb (status =? 0) then
              let* (t, os) := kill t os i in
              process_unidentified_loop fuel now (i + 1) (ct_n t) t os
            else process_unidentified_loop fuel now (i + 1) n t os
          else process_unidentified_loop fuel now (i + 1) n t os
    end
  else Done (t, os).
Definition process_unidentified_connections (now : Z) (t : conn_table_st) (os : gset Z)
  : outcome (conn_table_st * gset Z) :=
  process_unidentified_loop (Z.to_nat (ct_n t)) now 0 (ct_n t) t os.

Fixpoint process_finished_loop (fuel : nat) (i n : Z) (t : conn_table_st) (os : gset Z)
  : outcome (conn_table_st * gset Z) :=
  if i <? n then
    match fuel with
    | O => Undef
    | S fuel =>
        let* ce := rd (ct_ce t) i in
        if negb (conn_element_isnetclient_stoped ce) then process_finished_loop fuel (i + 1) n t os
        else
          let* (t, os) := kill t os i in
          process_finished_loop fuel (i + 1) (ct_n t) t os
    end
  else Done (t, os).
Definition process_finished_connections (t : conn_table_st) (os : gset Z) : outcome (conn_table_st * gset Z) :=
  process_finished_loop (Z.to_nat (ct_n t)) 0 (ct_n t) t os.

Fixpoint process_dirty_loop (k : nat) (i : Z) (t : conn_table_st) (os : gset Z)
  : outcome (conn_table_st * gset Z) :=
  match k with
  | O => Done (t, os)
  | S k =>
      let* ce := rd (ct_ce t) i in
      if negb (conn_element_isnetclient_running ce) || (conn_element_get_connection_status_un ce =? 0)
      then process_dirty_loop k (i + 1) t os
      else
        let* p := rd (ct_pfd t) i in
        if negb (pf_fd p =? -1) then
          let (status, os) := close (pf_fd p) os in
          if status =? 0 then
            let* a := wr (ct_pfd t) i [Pollfd (-1) (pf_events p) (pf_revents p)] in
            process_dirty_loop k (i + 1) (set_ct_pfd a t) os
          else process_dirty_loop k (i + 1) t os
        else process_dirty_loop k (i + 1) t os
  end.
Definition process_dirty_connections (t : conn_table_st) (os : gset Z) : outcome (conn_table_st * gset Z) :=
  process_dirty_loop (Z.to_nat (ct_n t)) 0 t os.

(** ** The threads of the clients *)

Fixpoint strstr (s p : list Z) : option (list Z) :=
  if decide (ztake (zlen p) s = p) then Some s
  else match s with [] => None | _ :: r => strstr r p end.

(** [count] turns have been made; each finds the next separator *)
Fixpoint client_options_loop (fuel : nat) (s : list Z) (count : Z) (a : list Z) : outcome (list Z) :=
  match fuel with
  | O => Done a
  | S fuel =>
      match strchr_split CLIENTOPTION_SEP_CHAR s with
      | None => Done a
      | Some (_, s) =>
          let* a := match scan_d s with
                    | Some (v, _) => if 0 <? v then wr a count [v] else Done a
                    | None => Done a
                    end in
          client_options_loop fuel s (count + 1) a
      end
  end.

Definition lookup_client_options (clientoptions : list Z) (ce : conn_element_st) : outcome conn_element_st :=
  match conn_element_get_nameorip ce with
  | None => Undef
  | Some nm =>
      match strstr clientoptions nm with
      | None => Done ce
      | Some s =>
          let* a := client_options_loop 5 s 0
            [cn_write_timeout_ms ce; cn_write_timeout_retry ce; cn_reconnect_wait_sleep_secs ce;
             cn_reconnect_wait_sleep_retry ce; cn_queue_read_timeout_ms ce] in
          match a with
          | [a0; a1; a2; a3; a4] => Done (set_cn_options a0 a1 a2 a3 a4 ce)
          | _ => Undef
          end
      end
  end.

(** the element is filled and its thread started: 0 or an error.
    [created]: the status of [pthread_create] *)
Definition spawn_client (created protocol : Z) (ce : conn_element_st) : outcome (Z * conn_element_st) :=
  let reclen := if protocol =? PROTOCOL_EMWIN then emwin_queue_info_get_size else g_packet_size g in
  let* ce := if negb (valid_str (g_clientoptions g) =? 0)
             then lookup_client_options (default [] (g_clientoptions g)) ce else Done ce in
  let (status, ce) := allow_filter_init ce in
  Done (if status =? 0
        then conn_element_init4 junk created
               (CqParam reclen (g_client_queue_maxsize_soft g) (g_client_queue_maxsize_hard g)) ce
        else (status, ce)).

Fixpoint spawn_client_loop (fuel : nat) (create : Z -> Z) (i n : Z) (t : conn_table_st) (os : gset Z)
  : outcome (conn_table_st * gset Z) :=
  if i <? n then
    match fuel with
    | O => Undef
    | S fuel =>
        let* ce := conn_table_element t i in
        let* protocol := get_client_protocol t i in
        if negb (conn_element_get_created_flag ce =? 0) || negb (conn_element_isclient ce) ||
           (protocol =? PROTOCOL_UNKNOWN)
        then spawn_client_loop fuel create (i + 1) n t os
        else
          let* (status, ce) := spawn_client (create i) protocol ce in
          let* t := upd_ce t i ce in
          if negb (status =? 0) then
            let* (t, os) := kill t os i in
            spawn_client_loop fuel create (i + 1) (ct_n t) t os
          else spawn_client_loop fuel create (i + 1) n t os
    end
  else Done (t, os).
Definition spawn_client_threads (create : Z -> Z) (t : conn_table_st) (os : gset Z)
  : outcome (conn_table_st * gset Z) :=
  spawn_client_loop (Z.to_nat (ct_n t)) create 0 (ct_n t) t os.

(** 1 when the time has come, which is then set to the next second *)
Definition get_process_connections_flag (now next : Z) : Z * Z :=
  if now <? next then (0, next) else (1, now + SERVER_PROCESS_CONNECTIONS_PERIOD_SECS).

(** the errors of polling are only reported *)
Definition process_connections (inp : poll_input) (create : Z -> Z) (t : conn_table_st) (os : gset Z)
  : outcome (conn_table_st * gset Z) :=
  let* (t, os) := process_finished_connections t os in
  let* (t, os) := process_unidentified_connections (in_now inp) t os in
  let* (t, os) := process_dirty_connections t os in
  let* (t, os) := spawn_client_threads create t os in
  let* (_, t, os) := poll_loop_nowait qd_close junk_pfd junk_ce inp (handle_client inp)
                       (g_client_options g) t os in
  Done (t, os).

(** the table with the entry of the listening socket [fd] *)
Definition init_server_conn (now fd maxclients : Z) : outcome (Z * option conn_table_st) :=
  match conn_table_create junk_pfd junk_ce maxclients with
  | None => Done (-1, None)
  | Some t =>
      let* (status, t) := conn_table_add_element junk_pfd junk_ce now fd CONN_TYPE_SERVER_NET 0 None None
                            (ClientOptions 0 0 0 0 0) t in
      Done (status, Some t)
  end.
End serverm.
