(* ===== verification/Serverinv.v ===== *)
(** * Serverinv: the invariant of the main server thread

    What holds of the table of connections ([Conn]) between the operations of the
    main thread ([Serverm]), that each of them keeps it, and that none fails. *)

From stdpp Require Import gmap.
From S2P Require Import Prelude Util CLib Mfile Pctldb Pctl Nreadn Packfp Qdb Emwin Serverc Stoi.
From S2P Require Import Nbsp Slavet Slavefp Conn Serverm.

(** ** The entries of the table *)

Section entries.
Context `{Q : QueueDb}.

#[local] Abbreviation entry := (pollfd * conn_element_st)%type.

(** the queue of a client *)
Definition cq_ok (c : connqueue_st) : Prop := qt_n (cq_qt c) = 1 /\ exists q, qt_nbspq (cq_qt c) = [q].

Definition thread_ok (ce : conn_element_st) : Prop :=
  match cn_threadinfo ce with
  | None => cn_cq ce = CqNull
  | Some ti => f_thread_created ti = 1 /\ is_Some (cn_filterdata ce) /\ exists c, cn_cq ce = CqPtr c /\ cq_ok c
  end.

Record client_ok (ce : conn_element_st) : Prop := ClientOk {
  cl_type : cn_type ce = CONN_TYPE_CLIENT_NET;
  cl_pid : cn_pid ce = -1;
  cl_ip : is_Some (cn_ip ce);
  cl_thread : thread_ok ce
}.

Record server_entry (e : entry) : Prop := ServerEntry {
  se_fd : pf_fd e.1 <> -1;
  se_type : cn_type e.2 = CONN_TYPE_SERVER_NET;
  se_ip : cn_ip e.2 = None;
  se_thread : cn_threadinfo e.2 = None;
  se_appdata : cn_appdata e.2 = None
}.

Definition ips (l : list entry) : list (list Z) := omap (fun e => cn_ip e.2) l.
Definition fds (l : list entry) : list Z := List.filter (fun fd => negb (fd =? -1)) ((fun e => pf_fd e.1) <$> l).

(** the descriptors are open, and none is in two entries *)
Definition owned (l : list entry) (os : gset Z) : Prop := NoDup (fds l) /\ Forall (fun fd => fd ∈ os) (fds l).

Record entries_ok (l : list entry) (os : gset Z) : Prop := EntriesOk {
  eo_shape : exists s r, l = s :: r /\ server_entry s /\ Forall (fun e => client_ok e.2) r;
  eo_ips : NoDup (ips l);
  eo_fds : owned l os
}.

Record server_ok (t : conn_table_st) (os : gset Z) : Prop := ServerOk {
  so_entries : exists l, table_is t l /\ entries_ok l os;
  so_limit : 0 <= ct_nclientsmax t -> ct_nclients t <= ct_nclientsmax t
}.

(** [e] is the entry [i] *)
Definition at_entry (t : conn_table_st) (os : gset Z) (i : Z) (e : entry) : Prop :=
  (exists l1 l2, table_is t (l1 ++ e :: l2) /\ zlen l1 = i /\ entries_ok (l1 ++ e :: l2) os) /\
  (0 <= ct_nclientsmax t -> ct_nclients t <= ct_nclientsmax t).

Lemma at_server_ok t os i e : at_entry t os i e -> server_ok t os.
Proof. intros [(l1 & l2 & H & _ & He) Hb]. split; [by eexists|done]. Qed.

Lemma server_ok_at t os i : server_ok t os -> 0 <= i < ct_n t -> exists e, at_entry t os i e.
Proof.
  intros [(l & H & He) Hb] Hi. pose proof (ti_n _ _ H) as Hn.
  destruct (znth_is_Some l i) as [e Ez]; [lia|]. rewrite znth_lookup in Ez by lia.
  apply list_elem_of_split_length in Ez as (l1 & l2 & -> & El). exists e. split; [|done]. exists l1, l2.
  split_and!; try done. unfold zlen. lia.
Qed.

Lemma at_rd t os i e : at_entry t os i e ->
  rd (ct_ce t) i = Done e.2 /\ rd (ct_pfd t) i = Done e.1 /\ conn_table_element t i = Done e.2.
Proof.
  intros [(l1 & l2 & H & <- & _) _]. destruct (table_rd _ _ _ _ H). by rewrite (table_element _ _ _ _ H).
Qed.

Lemma at_protocol t os i e : at_entry t os i e -> get_client_protocol t i = Done (get_client_protocol_byce e.2).
Proof.
  intros H. unfold get_client_protocol, conn_table_get_element_appdata.
  by destruct (at_rd _ _ _ _ H) as (_ & _ & ->).
Qed.

(** the first entry is that of the server, the others are clients *)
Lemma at_kind t os i e : at_entry t os i e -> (i = 0 /\ server_entry e) \/ (0 < i /\ client_ok e.2).
Proof.
  intros [(l1 & l2 & H & <- & [(s & r & E & Hs & HF) _ _]) _]. destruct l1 as [|s1 l1]; cbn [app] in E; injection E as -> <-.
  - left. by split.
  - right. pose proof (zlen_nonneg l1). rewrite zlen_cons. split; [lia|]. apply Forall_app in HF as [_ HF].
    by inversion HF.
Qed.

Lemma at_client t os i e : at_entry t os i e -> cn_type e.2 <> CONN_TYPE_SERVER_NET -> 0 < i /\ client_ok e.2.
Proof. intros H Ht. destruct (at_kind _ _ _ _ H) as [[_ [_ Hs _ _ _]]|]; done. Qed.

Lemma ips_app l1 l2 : ips (l1 ++ l2) = ips l1 ++ ips l2.
Proof. apply omap_app. Qed.
Lemma ips_cons e l ip : cn_ip e.2 = Some ip -> ips (e :: l) = ip :: ips l.
Proof. intros E. unfold ips. cbn. by rewrite E. Qed.
Lemma fds_app l1 l2 : fds (l1 ++ l2) = fds l1 ++ fds l2.
Proof. unfold fds. by rewrite fmap_app, List.filter_app. Qed.
Lemma fds_cons e l : fds (e :: l) = (if pf_fd e.1 =? -1 then [] else [pf_fd e.1]) ++ fds l.
Proof. unfold fds. cbn [fmap list_fmap List.filter]. by destruct (pf_fd e.1 =? -1). Qed.

(** replacing a client by another with the same address *)
Lemma entries_upd l1 e l2 ce os : entries_ok (l1 ++ e :: l2) os -> client_ok e.2 -> client_ok ce ->
  cn_ip ce = cn_ip e.2 -> entries_ok (l1 ++ (e.1, ce) :: l2) os.
Proof.
  intros [(s & r & E & Hs & HF) Hips Hf] He Hce Hip. split.
  - destruct l1 as [|s1 l1]; cbn [app] in E; injection E as -> <-.
    + destruct Hs as [_ Hs _ _ _]. by rewrite (cl_type _ He) in Hs.
    + exists s, (l1 ++ (e.1, ce) :: l2). split; [done|]. split; [done|]. apply Forall_app in HF as [HF1 HF2].
      apply Forall_app. split; [done|]. inversion HF2; subst. by constructor.
  - rewrite ips_app in *. cbn [ips omap list_omap snd] in *. by rewrite Hip.
  - unfold owned in *. rewrite fds_app, fds_cons in *. done.
Qed.

Lemma at_upd t os i e ce : at_entry t os i e -> client_ok e.2 -> client_ok ce -> cn_ip ce = cn_ip e.2 ->
  exists t', upd_ce t i ce = Done t' /\ at_entry t' os i (e.1, ce) /\ ct_n t' = ct_n t.
Proof.
  intros [(l1 & l2 & H & <- & He) Hb] Hc Hc' Hip.
  destruct (table_upd_ce t l1 e l2 ce H) as (t' & Eu & H' & Hm); [by rewrite (cl_type _ Hc), (cl_type _ Hc')|].
  exists t'. split; [done|]. split.
  - split; [exists l1, l2; split_and!; [done|done|by apply entries_upd]|]. rewrite Hm. intros Hmx. specialize (Hb Hmx).
    rewrite (ti_count _ _ H), netclients_app, netclients_cons in Hb. rewrite (ti_count _ _ H'), netclients_app, netclients_cons.
    unfold conn_element_isnetclient in *. cbn [snd]. rewrite (cl_type _ Hc') in *. by rewrite (cl_type _ Hc) in Hb.
  - rewrite (ti_n _ _ H), (ti_n _ _ H'), !zlen_app, !zlen_cons. done.
Qed.

(** without an entry, whose descriptor has been closed *)
Lemma owned_del l1 e l2 os : owned (l1 ++ e :: l2) os -> owned (l1 ++ l2) (os ∖ {[pf_fd e.1]}).
Proof.
  intros [Hd HF]. unfold owned in *. rewrite fds_app in *. rewrite fds_cons in Hd, HF.
  assert (NoDup (fds l1 ++ fds l2) /\ Forall (fun fd => fd <> pf_fd e.1) (fds l1 ++ fds l2)) as [Hd' Hne].
  { destruct (Z.eqb_spec (pf_fd e.1) (-1)) as [E|E]; cbn [app] in Hd.
    - split; [done|]. rewrite <- fds_app, E. apply List.Forall_forall. intros fd Hin. unfold fds in Hin.
      apply List.filter_In in Hin as [_ Hin]. by destruct (Z.eqb_spec fd (-1)).
    - rewrite <- Permutation_middle in Hd. apply list.NoDup_cons in Hd as [Hni Hd]. split; [done|].
      apply list.Forall_forall. intros fd Hin ->. done. }
  split; [done|]. rewrite !Forall_app in *. destruct HF as (HF1 & _ & HF2). destruct Hne as [Hn1 Hn2].
  split; apply list.Forall_forall; intros fd Hin.
  - rewrite list.Forall_forall in HF1. rewrite list.Forall_forall in Hn1. specialize (HF1 _ Hin). specialize (Hn1 _ Hin). set_solver.
  - rewrite list.Forall_forall in HF2. rewrite list.Forall_forall in Hn2. specialize (HF2 _ Hin). specialize (Hn2 _ Hin). set_solver.
Qed.

Lemma owned_fd l1 e l2 os : owned (l1 ++ e :: l2) os -> pf_fd e.1 <> -1 -> pf_fd e.1 ∈ os.
Proof.
  intros [_ HF] Hne. rewrite fds_app, fds_cons in HF. destruct (Z.eqb_spec (pf_fd e.1) (-1)); [done|].
  apply Forall_app in HF as [_ HF]. by inversion HF.
Qed.

Lemma owned_del_none l1 e l2 os : owned (l1 ++ e :: l2) os -> pf_fd e.1 = -1 -> owned (l1 ++ l2) os.
Proof.
  intros H E. destruct (owned_del _ _ _ _ H) as [Hd HF]. split; [done|].
  eapply List.Forall_impl; [|exact HF]. cbn. set_solver.
Qed.

Lemma entries_del l1 e l2 os : entries_ok (l1 ++ e :: l2) os -> client_ok e.2 ->
  (close_entry e os).1 = 0 /\ entries_ok (l1 ++ l2) (close_entry e os).2 /\
  (forall fd, fd ∈ os -> ~ fd ∈ fds (l1 ++ e :: l2) -> fd ∈ (close_entry e os).2).
Proof.
  intros [(s & r & E & Hs & HF) Hips Hf] He. unfold close_entry, conn_element_isclient, close.
  rewrite (cl_type _ He). cbn [orb]. change (CONN_TYPE_CLIENT_NET =? CONN_TYPE_CLIENT_LOCAL) with false.
  rewrite Z.eqb_refl. cbn [orb]. rewrite andb_true_r.
  assert (forall os', owned (l1 ++ l2) os' -> entries_ok (l1 ++ l2) os') as Hok.
  { intros os' Ho. split; [|rewrite ips_app in *|done].
    - destruct l1 as [|s1 l1]; cbn [app] in E; injection E as -> <-.
      + destruct Hs as [_ Hs _ _ _]. by rewrite (cl_type _ He) in Hs.
      + exists s, (l1 ++ l2). split; [done|]. split; [done|]. apply Forall_app in HF as [HF1 HF2].
        apply Forall_app. split; [done|]. by inversion HF2.
    - destruct (cl_ip _ He) as [ip Eip]. rewrite (ips_cons _ _ ip Eip) in Hips. rewrite <- Permutation_middle in Hips.
      by apply list.NoDup_cons in Hips as [_ Hips]. }
  destruct (Z.eqb_spec (pf_fd e.1) (-1)) as [E1|E1]; cbn [negb].
  - split_and!; [done|apply Hok; by eapply owned_del_none|done].
  - rewrite decide_True by (by eapply owned_fd). cbn [fst snd]. split_and!; [done|apply Hok; by apply owned_del|].
    intros fd Hin Hni. assert (fd <> pf_fd e.1); [|set_solver]. intros ->. apply Hni. rewrite fds_app, fds_cons.
    destruct (Z.eqb_spec (pf_fd e.1) (-1)); [done|]. set_solver.
Qed.

Lemma foldr_max_ge (l : list Z) x : x ∈ l -> x <= foldr Z.max 0 l.
Proof. induction l as [|y l IH]; intros Hx; [by apply not_elem_of_nil in Hx|]. cbn. set_unfold in Hx. destruct Hx as [->|Hx]; [lia|]. specialize (IH Hx). lia. Qed.


Lemma new_fd_spec fd os : 0 <= fd -> ~ new_fd fd os ∈ os /\ 0 <= new_fd fd os.
Proof.
  intros Hfd. unfold new_fd. destruct (decide (fd ∈ os)) as [Hin|Hin]; [|done].
  assert (0 <= foldr Z.max 0 (elements os)) by (induction (elements os); cbn; lia).
  split; [|lia]. intros Hn. apply elem_of_elements, foldr_max_ge in Hn. lia.
Qed.


Lemma entries_more l os os' : entries_ok l os -> (forall fd, fd ∈ fds l -> fd ∈ os -> fd ∈ os') -> entries_ok l os'.
Proof.
  intros [H1 H2 [H3 H4]] Hsub. split; [done|done|]. split; [done|]. rewrite list.Forall_forall in *. eauto.
Qed.


Lemma fresh_fds l os fd : entries_ok l os -> ~ fd ∈ os -> ~ fd ∈ fds l.
Proof. intros [_ _ [_ HF]] Hn Hin. rewrite list.Forall_forall in HF. by apply Hn, HF. Qed.


(** another descriptor in an entry *)
Lemma entries_fd l1 e l2 os p : entries_ok (l1 ++ e :: l2) os -> client_ok e.2 ->
  ~ pf_fd p ∈ fds (l1 ++ e :: l2) -> pf_fd p ∈ os -> pf_fd p <> -1 -> entries_ok (l1 ++ (p, e.2) :: l2) os.
Proof.
  intros [(s & r & E & Hs & HF) Hips [Hd Ho]] Hc Hn Hin Hne. split.
  - destruct l1 as [|s1 l1]; cbn [app] in E; injection E as -> <-.
    + destruct Hs as [_ Hs _ _ _]. by rewrite (cl_type _ Hc) in Hs.
    + exists s. eexists. split; [done|]. split; [done|]. apply Forall_app in HF as [HF1 HF2].
      apply Forall_app. split; [done|]. inversion HF2; subst. by constructor.
  - rewrite ips_app in *. exact Hips.
  - unfold owned. rewrite !fds_app, !fds_cons in *. cbn [fst]. destruct (Z.eqb_spec (pf_fd p) (-1)); [done|].
    cbn [app]. rewrite <- Permutation_middle. rewrite !Forall_app in *. destruct Ho as (Ho1 & _ & Ho2).
    split; [|constructor; [done|by apply Forall_app]].
    apply list.NoDup_cons. split; [|].
    + intros Hx. apply Hn. rewrite elem_of_app in *. set_solver.
    + destruct (pf_fd e.1 =? -1); [done|]. cbn [app] in Hd. rewrite <- Permutation_middle in Hd. by apply list.NoDup_cons in Hd as [_ Hd].
Qed.


End entries.

Section invariant.
Context `{Hp : Heap} {HS : HeapSpec Hp} `{Q : QueueDb} `{N : NetFilter}.
Context (qd_close : qd -> Z) (junk_pfd : Z -> list pollfd) (junk_ce : Z -> list conn_element_st)
  (junk : Z -> list Z).
Context (Hclose : forall q, qd_close q = 0).
Context (Hjp : forall n, 0 <= n -> zlen (junk_pfd n) = n) (Hjc : forall n, 0 <= n -> zlen (junk_ce n) = n).
Context (Hthread : malloc_ok SIZEOF_CONN_ELEMENT = true).
Context (g : server_conf) (Hg : g_f_server_thread_created g <> 0).

#[local] Abbreviation entry := (pollfd * conn_element_st)%type.

Lemma release_ok ce : client_ok ce -> conn_element_release qd_close ce = Done 0.
Proof.
  intros [_ _ _ Ht]. unfold conn_element_release. unfold thread_ok in Ht. destruct (cn_threadinfo ce).
  - destruct Ht as (_ & _ & c & -> & [_ [q Eq]]). f_equal. unfold connqueue_close, nbspqt_close. rewrite Eq.
    unfold ztake. destruct (Z.to_nat _) as [|k]; [done|]. destruct k; cbn; unfold qdb_close; by rewrite Hclose.
  - by rewrite Ht.
Qed.

Lemma at_del t os i e : at_entry t os i e -> client_ok e.2 ->
  exists t' os', conn_table_del_element qd_close i t os = Done (0, t', os') /\ server_ok t' os' /\
    ct_n t' = ct_n t - 1 /\ ct_nclientsmax t' = ct_nclientsmax t.
Proof.
  intros [(l1 & l2 & H & <- & He) Hb] Hc. destruct (table_del qd_close t l1 e l2 os 0 H (release_ok _ Hc)) as (t' & -> & H' & Hm).
  destruct (entries_del _ _ _ _ He Hc) as (-> & He' & _). rewrite Z.eqb_refl. exists t', (close_entry e os).2.
  split; [done|]. split; [|by rewrite (ti_n _ _ H), (ti_n _ _ H'), !zlen_app, zlen_cons; split; [lia|]].
  split; [by eexists|]. rewrite Hm. intros Hmx. specialize (Hb Hmx). rewrite (ti_count _ _ H') , netclients_app.
  rewrite (ti_count _ _ H), netclients_app, netclients_cons in Hb. destruct (conn_element_isnetclient e.2); lia.
Qed.

Lemma at_kill t os i e : at_entry t os i e -> client_ok e.2 ->
  exists t' os', kill qd_close t os i = Done (t', os') /\ server_ok t' os' /\ ct_n t' = ct_n t - 1.
Proof.
  intros H Hc. destruct (at_del _ _ _ _ H Hc) as (t' & os' & E & Hok & Hn & _). exists t', os'.
  unfold kill, poll_kill_client_connection, poll_del_connection. rewrite E. done.
Qed.
(** ** Each pass over the table *)

Lemma isnetclient_client t os i e : at_entry t os i e -> conn_element_isnetclient e.2 = true -> client_ok e.2.
Proof.
  intros H Hn. apply Z.eqb_eq in Hn. apply (at_client t os i e H). by rewrite Hn.
Qed.

Lemma stoped_isnet ce : conn_element_isnetclient_stoped ce = true -> conn_element_isnetclient ce = true.
Proof. unfold conn_element_isnetclient_stoped. by destruct (conn_element_isnetclient ce). Qed.
Lemma running_isnet ce : conn_element_isnetclient_running ce = true -> conn_element_isnetclient ce = true.
Proof. unfold conn_element_isnetclient_running. by destruct (conn_element_isnetclient ce). Qed.

Lemma process_finished_ok fuel : forall i t os, server_ok t os -> 0 <= i -> ct_n t - i <= Z.of_nat fuel ->
  exists t' os', process_finished_loop qd_close fuel i (ct_n t) t os = Done (t', os') /\ server_ok t' os'.
Proof.
  induction fuel as [|fuel IH]; intros i t os H Hi Hf; cbn [process_finished_loop];
    destruct (Z.ltb_spec i (ct_n t)); try lia; try (by exists t, os).
  destruct (server_ok_at t os i H) as [e He]; [lia|]. destruct (at_rd _ _ _ _ He) as (-> & _ & _). cbn [obind].
  destruct (conn_element_isnetclient_stoped e.2) eqn:Es; cbn [negb]; [|apply IH; done || lia].
  destruct (at_kill t os i e He) as (t1 & os1 & -> & H1 & Hn); [by eapply isnetclient_client, stoped_isnet|].
  cbn [obind]. apply IH; done || lia.
Qed.

(** storing the protocol *)
Lemma ident_ok t os i e msg : at_entry t os i e -> client_ok e.2 ->
  exists st t' ce, ident_client_protocol t i msg = Done (st, t') /\ at_entry t' os i (e.1, ce) /\ client_ok ce /\
    ct_n t' = ct_n t.
Proof.
  intros H Hc. unfold ident_client_protocol. rewrite (at_protocol _ _ _ _ H). cbn [obind].
  assert (at_entry t os i (e.1, e.2)) as H' by (by destruct e).
  destruct (negb _); [by exists 2, t, e.2|]. destruct (protocol_of msg) as [p r]. unfold set_client_protocol.
  destruct (malloc_ok SIZEOF_APPDATA); cbn [negb obind]; [|by exists (-1), t, e.2].
  unfold conn_table_set_element_appdata. destruct (at_rd _ _ _ _ H) as (_ & _ & ->). cbn [obind].
  assert (client_ok (set_cn_appdata (Some (Appdata p 0)) e.2)) as Hc'.
  { destruct Hc as [H1 H2 H3 H4]. by split. }
  destruct (at_upd t os i e (set_cn_appdata (Some (Appdata p 0)) e.2) H Hc Hc' eq_refl) as (t' & -> & Ha & Hn).
  cbn [obind]. by eexists _, t', _.
Qed.

Lemma process_unidentified_ok now fuel : forall i t os, server_ok t os -> 0 <= i -> ct_n t - i <= Z.of_nat fuel ->
  exists t' os', process_unidentified_loop qd_close g fuel now i (ct_n t) t os = Done (t', os') /\ server_ok t' os'.
Proof.
  induction fuel as [|fuel IH]; intros i t os H Hi Hf; cbn [process_unidentified_loop];
    destruct (Z.ltb_spec i (ct_n t)); try lia; try (by exists t, os).
  destruct (server_ok_at t os i H) as [e He]; [lia|]. destruct (at_rd _ _ _ _ He) as (-> & _ & _). cbn [obind].
  destruct (conn_element_isnetclient e.2) eqn:En; cbn [negb]; [|apply IH; done || lia].
  pose proof (isnetclient_client _ _ _ _ He En) as Hc.
  rewrite (at_protocol _ _ _ _ He). cbn [obind]. destruct (_ && _); [|apply IH; done || lia].
  destruct (ident_ok t os i e PROTOCOL_EMWIN_STR He Hc) as (st & t1 & ce & -> & H1 & Hc1 & Hn1). cbn [obind].
  destruct (negb (st =? 0)).
  - destruct (at_kill t1 os i _ H1 Hc1) as (t2 & os2 & -> & H2 & Hn2). cbn [obind]. apply IH; done || lia.
  - rewrite <- Hn1. apply IH; [by eapply at_server_ok|lia|lia].
Qed.

(** closing the descriptor of an entry *)
Lemma at_close t os i e : at_entry t os i e -> client_ok e.2 -> pf_fd e.1 <> -1 ->
  exists a, close (pf_fd e.1) os = (0, os ∖ {[pf_fd e.1]}) /\
    wr (ct_pfd t) i [Pollfd (-1) (pf_events e.1) (pf_revents e.1)] = Done a /\
    server_ok (set_ct_pfd a t) (os ∖ {[pf_fd e.1]}).
Proof.
  intros [(l1 & l2 & H & <- & [(s & r & E & Hs & HF) Hips Hf]) Hb] Hc Hfd.
  destruct (table_upd_pfd t l1 e l2 (Pollfd (-1) (pf_events e.1) (pf_revents e.1)) H) as (a & Ea & H').
  exists a. unfold close. rewrite decide_True by (by eapply owned_fd). split_and!; [done|done|].
  split; [eexists; split; [exact H'|]|exact Hb]. split.
  - destruct l1 as [|s1 l1]; cbn [app] in E; injection E as -> <-.
    + destruct Hs as [_ Hs _ _ _]. by rewrite (cl_type _ Hc) in Hs.
    + exists s. eexists. split; [done|]. split; [done|]. apply Forall_app in HF as [HF1 HF2].
      apply Forall_app. split; [done|]. inversion HF2; subst. by constructor.
  - rewrite ips_app in *. exact Hips.
  - pose proof (owned_del _ _ _ _ Hf) as Ho. unfold owned in *. rewrite fds_app in *. rewrite fds_cons. exact Ho.
Qed.

Lemma process_dirty_ok k : forall i t os, server_ok t os -> 0 <= i -> i + Z.of_nat k <= ct_n t ->
  exists t' os', process_dirty_loop k i t os = Done (t', os') /\ server_ok t' os'.
Proof.
  induction k as [|k IH]; intros i t os H Hi Hk; cbn [process_dirty_loop]; [by exists t, os|].
  destruct (server_ok_at t os i H) as [e He]; [lia|]. destruct (at_rd _ _ _ _ He) as (-> & -> & _). cbn [obind].
  destruct (conn_element_isnetclient_running e.2) eqn:Er; cbn [negb orb]; [|apply IH; done || lia].
  destruct (_ =? 0); [apply IH; done || lia|]. destruct (Z.eqb_spec (pf_fd e.1) (-1)); cbn [negb]; [apply IH; done || lia|].
  destruct (at_close t os i e He) as (a & -> & -> & H1); [by eapply isnetclient_client, running_isnet|done|].
  rewrite Z.eqb_refl. cbn [obind]. apply IH; [done|lia|]. cbn [ct_n set_ct_pfd]. lia.
Qed.

(** *** The threads *)

Lemma client_options_ok fuel : forall s count a, zlen a = 5 -> 0 <= count -> count + Z.of_nat fuel <= 5 ->
  exists a', client_options_loop fuel s count a = Done a' /\ zlen a' = 5.
Proof.
  induction fuel as [|fuel IH]; intros s count a Ha Hc Hf; cbn [client_options_loop]; [by exists a|].
  destruct (strchr_split _ s) as [[x r]|]; [|by exists a].
  destruct (scan_d r) as [[v r']|]; cbn [obind]; [|apply IH; lia].
  destruct (0 <? v); cbn [obind]; [|apply IH; lia].
  destruct (wr a count [v]) as [a1| |] eqn:Ew.
  - cbn [obind]. apply IH; [by rewrite (wr_length _ _ _ _ Ew)|lia|lia].
  - unfold wr in Ew. by destruct (_ && _).
  - exfalso. rewrite wr_ok in Ew; [done|lia|]. change (zlen [v]) with 1. lia.
Qed.

Lemma lookup_options_ok s ce : client_ok ce -> exists ce', lookup_client_options s ce = Done ce' /\ client_ok ce' /\
  cn_ip ce' = cn_ip ce /\ cn_threadinfo ce' = cn_threadinfo ce /\ cn_cq ce' = cn_cq ce.
Proof.
  intros Hc. unfold lookup_client_options, conn_element_get_nameorip. destruct (cl_ip _ Hc) as [ip Eip].
  assert (exists nm, match cn_name ce with Some n => Some n | None => cn_ip ce end = Some nm) as [nm ->].
  { destruct (cn_name ce); [by eexists|by rewrite Eip; eexists]. }
  destruct (strstr s nm) as [r|]; [|by exists ce].
  edestruct (client_options_ok 5 r 0) as (a & -> & Ha); [done|lia|lia|]. cbn [obind].
  destruct a as [|a0 [|a1 [|a2 [|a3 [|a4 [|]]]]]]; try (unfold zlen in Ha; cbn in Ha; lia).
  eexists. split; [done|]. split; [|done]. destruct Hc as [H1 H2 H3 H4]. by split.
Qed.

Lemma connqueue_open_ok p c : connqueue_open junk p = Some c -> cq_ok c.
Proof.
  unfold connqueue_open, nbspqt_open. intros H. repeat (case_match; try done). simplify_eq. split; [done|]. cbn.
  match goal with H : qdb_open_loop _ _ _ _ = _ |- _ => change (Z.to_nat 1) with 1%nat in H; cbn [qdb_open_loop] in H end.
  repeat (case_match; try done). simplify_eq. by eexists.
Qed.

(** when [pthread_create] does not fail, the element has a thread, or can be released *)
Lemma spawn_ok protocol ce : client_ok ce -> cn_threadinfo ce = None -> exists st ce',
  spawn_client junk g 0 protocol ce = Done (st, ce') /\ client_ok ce' /\ cn_ip ce' = cn_ip ce.
Proof.
  intros Hc Ht. unfold spawn_client.
  assert (exists ce1, (if negb (valid_str (g_clientoptions g) =? 0)
    then lookup_client_options (default [] (g_clientoptions g)) ce else Done ce) = Done ce1 /\ client_ok ce1 /\
    cn_ip ce1 = cn_ip ce /\ cn_threadinfo ce1 = None /\ cn_cq ce1 = cn_cq ce) as (ce1 & -> & Hc1 & Hip1 & Ht1 & Hq1).
  { destruct (negb _); [|by exists ce]. destruct (lookup_options_ok (default [] (g_clientoptions g)) ce Hc)
      as (ce' & ? & ? & ? & E & ?). exists ce'. by rewrite E. }
  cbn [obind]. unfold allow_filter_init. destruct (malloc_ok SIZEOF_ALLOW_FILTER); cbn [negb Z.eqb]; [|by exists (-1), ce1].
  unfold conn_element_init4, conn_element_init3. pose proof Hc1 as [H1 H2 H3 H4]. unfold thread_ok in H4. rewrite Ht1 in H4.
  destruct (malloc_ok SIZEOF_THREAD_INFO); cbn [negb]; [|eexists _, _; split; [done|]; split; [by split|done]].
  destruct (connqueue_open junk _) as [c|] eqn:Eo; [|eexists _, _; split; [done|]; split; [by split|done]].
  unfold client_thread_create. rewrite Hthread. cbn [negb Z.eqb]. eexists _, _. split; [done|]. split; [|done].
  split; try done. cbn. split; [done|]. split; [by eexists|]. exists c. split; [done|]. by eapply connqueue_open_ok.
Qed.

Lemma spawn_loop_ok fuel : forall i t os, server_ok t os -> 0 <= i -> ct_n t - i <= Z.of_nat fuel ->
  exists t' os', spawn_client_loop qd_close junk g fuel (fun _ => 0) i (ct_n t) t os = Done (t', os') /\ server_ok t' os'.
Proof.
  induction fuel as [|fuel IH]; intros i t os H Hi Hf; cbn [spawn_client_loop];
    destruct (Z.ltb_spec i (ct_n t)); try lia; try (by exists t, os).
  destruct (server_ok_at t os i H) as [e He]; [lia|]. destruct (at_rd _ _ _ _ He) as (_ & _ & ->). cbn [obind].
  rewrite (at_protocol _ _ _ _ He). cbn [obind].
  destruct (Z.eqb_spec (conn_element_get_created_flag e.2) 0) as [Ec|Ec]; cbn [negb orb]; [|apply IH; done || lia].
  destruct (conn_element_isclient e.2) eqn:En; cbn [negb orb]; [|apply IH; done || lia].
  destruct (_ =? PROTOCOL_UNKNOWN); [apply IH; done || lia|].
  assert (client_ok e.2) as Hc.
  { apply (at_client t os i e He). intros E. unfold conn_element_isclient in En. by rewrite E in En. }
  assert (cn_threadinfo e.2 = None) as Ht.
  { pose proof (cl_thread _ Hc) as Ht. unfold thread_ok, conn_element_get_created_flag in *.
    destruct (cn_threadinfo e.2); [|done]. destruct Ht as [Ht _]. lia. }
  destruct (spawn_ok (get_client_protocol_byce e.2) e.2 Hc Ht) as (st & ce & -> & Hc1 & Hip). cbn [obind].
  destruct (at_upd t os i e ce He Hc Hc1 Hip) as (t1 & -> & H1 & Hn1). cbn [obind].
  destruct (negb (st =? 0)).
  - destruct (at_kill t1 os i _ H1 Hc1) as (t2 & os2 & -> & H2 & Hn2). cbn [obind]. apply IH; done || lia.
  - rewrite <- Hn1. apply IH; [by eapply at_server_ok|lia|lia].
Qed.
(** *** Polling *)

Lemma handle_client_ok inp t os i e : at_entry t os i e -> client_ok e.2 ->
  exists t' os', handle_client qd_close g inp t os i = Done (0, t', os') /\ server_ok t' os' /\ ct_n t' <= ct_n t.
Proof.
  intros H Hc. unfold handle_client, conn_table_get_element_pid, conn_table_get_element_fd.
  pose proof (at_rd _ _ _ _ H) as (_ & Ep & ->). cbn [obind]. rewrite (cl_pid _ Hc). cbn [Z.eqb Pos.eqb c_assert].
  assert ((0 <=? i) && (i <? ct_n t) = true) as ->.
  { destruct H as [(l1 & l2 & H & <- & _) _]. by eapply table_index. }
  rewrite Ep. cbn [c_assert obind]. destruct (in_read inp (pf_fd e.1)) as [n d].
  assert (forall t1 os1 e1, at_entry t1 os1 i e1 -> client_ok e1.2 -> ct_n t1 = ct_n t -> exists t' os',
    (let* (t2, os2) := kill qd_close t1 os1 i in Done (0, t2, os2)) = Done (0, t', os') /\ server_ok t' os' /\
    ct_n t' <= ct_n t) as Hk.
  { intros t1 os1 e1 H1 Hc1 Hn1. destruct (at_kill t1 os1 i e1 H1 Hc1) as (t' & os' & -> & Hok & Hn).
    exists t', os'. split_and!; [done|done|lia]. }
  destruct (0 <? n); [|by apply (Hk t os e)].
  destruct (ident_ok t os i e (ztake n d) H Hc) as (st & t1 & ce & -> & H1 & Hc1 & Hn1). cbn [obind].
  pose proof (at_server_ok _ _ _ _ H1) as Hok1.
  destruct (st =? -1); [by apply (Hk t1 os (e.1, ce))|].
  destruct (_ || _); [|exists t1, os; cbn [obind]; split_and!; [done|done|lia]].
  unfold match_client_protocol. destruct (Z.eqb_spec (g_f_server_thread_created g) 0); [done|]. cbn [negb c_assert].
  rewrite (at_protocol _ _ _ _ H1). cbn [obind].
  destruct (negb (Z.land _ _ =? 0)); cbn [Z.eqb negb]; [exists t1, os; cbn [obind]; split_and!; [done|done|lia]|].
  by apply (Hk t1 os (e.1, ce)).
Qed.

(** a client that has been accepted and is not in the table yet *)
Record pending (t : conn_table_st) (os : gset Z) (ip : list Z) (fd : Z) (l : list entry) : Prop := Pending {
  pd_table : table_is t l;
  pd_entries : entries_ok l os;
  pd_fd : fd ∈ os /\ ~ fd ∈ fds l /\ fd <> -1;
  pd_ip : Forall (fun e => cn_ip e.2 <> Some ip) l;
  pd_limit : 0 <= ct_nclientsmax t -> ct_nclients t <= ct_nclientsmax t
}.

Lemma pending_close t os ip fd l : pending t os ip fd l -> server_ok t (close fd os).2.
Proof.
  intros [Ht He (Hf1 & Hf2 & Hf3) _ Hb]. split; [|done]. exists l. split; [done|]. unfold close. rewrite decide_True by done.
  eapply entries_more; [exact He|]. cbn. intros x Hx Hos. assert (x <> fd) by (by intros ->). set_solver.
Qed.

(** a connection is given back to the client, or there is no entry for it *)
Lemma restore_ok ip fd t os : server_ok t os -> ~ fd ∈ os -> 0 <= fd ->
  exists st t' os', poll_restore_connection qd_close ip fd t (os ∪ {[fd]}) = Done (st, t', os') /\
    ct_n t' <= ct_n t /\
    (st = 0 /\ server_ok t' os' \/ st = -1 /\ exists l, pending t' os' ip fd l).
Proof.
  intros [(l & H & He) Hb] Hfd H0. unfold poll_restore_connection. rewrite (table_find t l ip H).
  assert (entries_ok l (os ∪ {[fd]})) as He1 by (eapply entries_more; [exact He|set_solver]).
  pose proof (fresh_fds l os fd He Hfd) as Hnf.
  destruct (find_byip_spec l ip 0) as [[-> HF]|(l1 & e & l2 & -> & -> & Hip & _)].
  { rewrite Z.eqb_refl. eexists _, t, _. split; [done|]. split; [lia|]. right. split; [done|]. exists l.
    split; try done. split_and!; [set_solver|done|lia]. }
  rewrite Z.add_0_l. pose proof (zlen_nonneg l1). destruct (Z.eqb_spec (zlen l1) (-1)); [lia|].
  assert (at_entry t (os ∪ {[fd]}) (zlen l1) e) as Ha by (split; [by exists l1, l2|done]).
  destruct (at_rd _ _ _ _ Ha) as (-> & _ & _). cbn [obind].
  assert (client_ok e.2) as Hc.
  { destruct (at_kind _ _ _ _ Ha) as [[_ [_ _ Hs _ _]]|[_ Hc]]; [by rewrite Hs in Hip|done]. }
  destruct (_ || _) eqn:Est.
  - destruct (table_del qd_close t l1 e l2 (os ∪ {[fd]}) 0 H (release_ok _ Hc)) as (t' & E & H' & Hm).
    unfold poll_del_connection. rewrite E. destruct (entries_del _ _ _ _ He1 Hc) as (-> & He' & Hk). cbn [Z.eqb obind].
    eexists _, t', _. split; [done|]. split; [rewrite (ti_n _ _ H), (ti_n _ _ H'), !zlen_app, zlen_cons; lia|].
    right. split; [done|]. exists (l1 ++ l2).
    assert (NoDup (ips (l1 ++ e :: l2))) as Hips by (by destruct He). rewrite ips_app, (ips_cons _ _ ip Hip) in Hips.
    rewrite <- Permutation_middle in Hips. apply list.NoDup_cons in Hips as [Hni _]. rewrite <- ips_app in Hni.
    split; try done.
    + rewrite fds_app, fds_cons in Hnf. split_and!; [apply Hk; [set_solver|by rewrite fds_app, fds_cons]| |lia].
      rewrite fds_app. set_solver.
    + apply list.Forall_forall. intros e' Hin E'. apply Hni.
      apply list_elem_of_omap. by exists e'.
    + rewrite Hm. intros Hmx. specialize (Hb Hmx). rewrite (ti_count _ _ H'), netclients_app.
      rewrite (ti_count _ _ H), netclients_app, netclients_cons in Hb. destruct (conn_element_isnetclient e.2); lia.
  - unfold conn_element_set_connection_status. unfold conn_element_get_connection_status in Est.
    destruct (cn_threadinfo e.2) as [ti|] eqn:Eti; [|by rewrite orb_true_r in Est]. cbn [obind].
    set (ce := set_cn_threadinfo _ e.2).
    assert (client_ok ce) as Hc'.
    { destruct Hc as [? ? ? Hth]. split; try done. unfold thread_ok in *. rewrite Eti in Hth. done. }
    destruct (table_upd_ce t l1 e l2 ce H) as (t1 & -> & Ht1 & Hm1); [by rewrite (cl_type _ Hc), (cl_type _ Hc')|].
    cbn [obind Z.eqb negb]. destruct (table_rd _ _ _ _ Ht1) as [_ ->]. cbn [obind fst].
    destruct (table_upd_pfd t1 l1 (e.1, ce) l2 (Pollfd fd (pf_events e.1) (pf_revents e.1)) Ht1) as (a & -> & H2).
    cbn [obind]. eexists 0, _, _. split; [done|].
    split; [cbn [ct_n set_ct_pfd]; rewrite (ti_n _ _ H), (ti_n _ _ Ht1), !zlen_app, !zlen_cons; lia|].
    left. split; [done|]. split.
    + eexists. split; [exact H2|]. apply (entries_fd l1 (e.1, ce) l2); [by apply entries_upd|done| |set_solver|cbn; lia].
      unfold fds in *. rewrite !fmap_app, !fmap_cons in *. exact Hnf.
    + cbn [ct_nclientsmax ct_nclients set_ct_pfd]. rewrite Hm1. intros Hmx. specialize (Hb Hmx).
      rewrite (ti_count _ _ H), netclients_app, netclients_cons in Hb. rewrite (ti_count _ _ Ht1), netclients_app, netclients_cons.
      unfold conn_element_isnetclient in *. cbn [snd]. rewrite (cl_type _ Hc') in *. by rewrite (cl_type _ Hc) in Hb.
Qed.
(** a new entry for a client that is not in the table *)
Lemma pending_add now t os ip fd l name o : pending t os ip fd l ->
  ct_nclientsmax t < 0 \/ ct_nclients t < ct_nclientsmax t ->
  exists st t', conn_table_add_element junk_pfd junk_ce now fd CONN_TYPE_CLIENT_NET (-1) (Some ip) name o t = Done (st, t') /\
    ct_n t' <= ct_n t + 1 /\
    (st = 0 /\ server_ok t' os \/ st = -1 /\ pending t' os ip fd l).
Proof.
  intros [Ht He (Hf1 & Hf2 & Hf3) Hip Hb] Hroom.
  destruct (table_add junk_pfd junk_ce Hjp Hjc t l now fd CONN_TYPE_CLIENT_NET (-1) (Some ip) name o Ht)
    as (st & t' & -> & Hm & [[-> H']|[-> H']]); [exists 0, t'|exists (-1), t'];
    pose proof (ti_n _ _ Ht) as Hn; pose proof (ti_n _ _ H') as Hn'.
  - rewrite zlen_app, zlen_cons, zlen_nil in Hn'. split; [done|]. split; [lia|]. left. split; [done|].
    split.
    + eexists. split; [exact H'|]. destruct He as [(s & r & -> & Hs & HF) Hips [Hd Ho]]. split.
      * exists s. eexists. split; [reflexivity|]. split; [done|]. apply Forall_app. split; [done|]. constructor; [|constructor].
        by split.
      * rewrite ips_app. apply list.NoDup_app. split; [done|]. split; [|apply list.NoDup_singleton].
        intros x Hx Hx'. cbn in Hx'. apply list_elem_of_singleton in Hx' as ->. unfold ips in Hx.
        apply list_elem_of_omap in Hx as (e & Hin & Ee). rewrite list.Forall_forall in Hip. by apply (Hip e).
      * unfold owned. rewrite fds_app.
        assert (forall ce, fds [(Pollfd fd POLLIN 0, ce)] = [fd]) as Efd.
        { intros ce. rewrite fds_cons. cbn [pf_fd fst]. by destruct (Z.eqb_spec fd (-1)). }
        rewrite Efd. split.
        -- apply list.NoDup_app. split; [done|]. split; [|apply list.NoDup_singleton].
           intros x Hx Hx'. apply list_elem_of_singleton in Hx' as ->. done.
        -- apply Forall_app. split; [done|]. by constructor.
    + rewrite Hm, (ti_count _ _ H'), netclients_app, <- (ti_count _ _ Ht). change (netclients [_]) with 1. lia.
  - split; [done|]. split; [lia|]. right. split; [done|]. split; try done.
    rewrite Hm, (ti_count _ _ H'), <- (ti_count _ _ Ht). done.
Qed.

Lemma add_connection_ok inp o t os e : at_entry t os 0 e -> exists st t' os',
  poll_add_connection qd_close junk_pfd junk_ce inp o 0 t os = Done (st, t', os') /\ server_ok t' os' /\ ct_n t' <= ct_n t + 1.
Proof.
  intros H. pose proof (at_server_ok _ _ _ _ H) as Hok.
  destruct (at_kind _ _ _ _ H) as [[_ Hs]|[? _]]; [|lia]. destruct (at_rd _ _ _ _ H) as (Er & Ep & _).
  unfold poll_add_connection, poll_add_connection_net. rewrite Er, Ep. cbn [obind]. rewrite (se_type _ Hs), Z.eqb_refl.
  destruct (Z.eqb_spec (pf_fd e.1) (-1)) as [E|_]; [by destruct Hs|]. cbn [negb c_assert]. set (a := in_accept inp (pf_fd e.1)).
  destruct (Z.ltb_spec (ac_fd a) 0) as [|H0]; [exists (ac_fd a), t, os; split_and!; [done|done|lia]|].
  destruct (new_fd_spec (ac_fd a) os H0) as [Hnf Hn0]. set (fd := new_fd (ac_fd a) os) in *.
  destruct (ac_ip a) as [ip|].
  2:{ eexists _, t, _. split; [done|]. split; [|lia]. unfold close. rewrite decide_True by set_solver. cbn [snd].
      destruct Hok as [(l & Ht & He) Hb]. split; [|done]. exists l. split; [done|].
      eapply entries_more; [exact He|]. set_solver. }
  destruct (restore_ok ip fd t os Hok Hnf Hn0) as (st & t1 & os1 & -> & Hn1 & [[-> Hok1]|[-> (l & Hpd)]]); cbn [obind Z.eqb].
  { exists 0, t1, os1. split_and!; [done|done|lia]. }
  destruct (ac_allow a =? 0); [eexists _, t1, _; split; [done|]; split; [by eapply pending_close|lia]|].
  destruct (_ && _) eqn:Elim; [eexists _, t1, _; split; [done|]; split; [by eapply pending_close|lia]|].
  destruct (pending_add (in_now inp) t1 os1 ip fd l (ac_name a) o Hpd) as (st2 & t2 & -> & Hn2 & [[-> Hok2]|[-> Hpd2]]).
  { pose proof (pd_limit _ _ _ _ _ Hpd) as Hb. apply andb_false_iff in Elim as [El|El]; [apply Z.leb_gt in El; by left|].
    apply Z.eqb_neq in El. destruct (Z.lt_ge_cases (ct_nclientsmax t1) 0); [by left|right]. specialize (Hb ltac:(done)). lia. }
  - cbn [obind Z.eqb negb]. exists 0, t2, os1. split_and!; [done|done|lia].
  - cbn [obind Z.eqb negb]. eexists _, t2, _. split; [done|]. split; [by eapply pending_close|lia].
Qed.

Lemma poll_servers_rest inp o fuel : forall i t os, server_ok t os -> 0 < i -> ct_n t - i <= Z.of_nat fuel ->
  poll_servers qd_close junk_pfd junk_ce inp fuel o i t os = Done (None, t, os).
Proof.
  induction fuel as [|fuel IH]; intros i t os H Hi Hf; cbn [poll_servers];
    destruct (Z.leb_spec i (ct_n t - 1)); try lia; try done.
  destruct (server_ok_at t os i H) as [e He]; [lia|]. destruct (at_rd _ _ _ _ He) as (-> & -> & _). cbn [obind].
  destruct (at_kind _ _ _ _ He) as [[? _]|[_ Hc]]; [lia|]. unfold conn_element_isserver. rewrite (cl_type _ Hc).
  cbn [Z.eqb Pos.eqb orb negb CONN_TYPE_CLIENT_NET CONN_TYPE_SERVER_LOCAL CONN_TYPE_SERVER_NET]. apply IH; done || lia.
Qed.

Lemma server_ok_n t os : server_ok t os -> 0 < ct_n t.
Proof.
  intros [(l & H & [(s & r & -> & _) _ _]) _]. rewrite (ti_n _ _ H), zlen_cons. pose proof (zlen_nonneg r). lia.
Qed.

Lemma poll_servers_ok inp o t os : server_ok t os -> exists r t' os',
  poll_servers qd_close junk_pfd junk_ce inp (2 * Z.to_nat (ct_n t)) o 0 t os = Done (r, t', os') /\ server_ok t' os' /\
  ct_n t' <= ct_n t + 1.
Proof.
  intros H. pose proof (server_ok_n _ _ H) as Hn. destruct (2 * Z.to_nat (ct_n t))%nat as [|fuel] eqn:Ef; [lia|].
  cbn [poll_servers]. destruct (Z.leb_spec 0 (ct_n t - 1)); [|lia].
  destruct (server_ok_at t os 0 H) as [e He]; [lia|]. destruct (at_rd _ _ _ _ He) as (-> & -> & _). cbn [obind].
  destruct (_ || _); [exists None, t, os; split_and!; [by apply poll_servers_rest; [done|lia|lia]|done|lia]|].
  destruct (add_connection_ok inp o t os e He) as (st & t1 & os1 & -> & H1 & Hn1). cbn [obind].
  destruct (st =? -1); [by eexists _, t1, os1|]. destruct (_ || _); [by eexists _, t1, os1|].
  exists None, t1, os1. split_and!; [by apply poll_servers_rest; [done|lia|lia]|done|lia].
Qed.

Lemma poll_clients_ok inp fuel : forall i t os, server_ok t os -> 0 <= i -> ct_n t - i <= Z.of_nat fuel -> exists st t' os',
  poll_clients qd_close inp (handle_client qd_close g inp) fuel i t os = Done (st, t', os') /\ server_ok t' os'.
Proof.
  induction fuel as [|fuel IH]; intros i t os H Hi Hf; cbn [poll_clients];
    destruct (Z.leb_spec i (ct_n t - 1)); try lia; try (by exists 0, t, os).
  destruct (server_ok_at t os i H) as [e He]; [lia|]. destruct (at_rd _ _ _ _ He) as (-> & -> & _). cbn [obind].
  destruct (conn_element_isserver e.2) eqn:Es; [apply IH; done || lia|].
  destruct (pf_revents e.1 =? 0); [apply IH; done || lia|].
  assert (client_ok e.2) as Hc.
  { apply (at_client t os i e He). intros E. unfold conn_element_isserver in Es. by rewrite E in Es. }
  destruct (negb (poll_client_hangup inp e.1 =? 0)).
  { unfold poll_del_connection. destruct (at_del t os i e He Hc) as (t1 & os1 & -> & H1 & Hn1 & _). cbn [obind Z.eqb c_assert].
    apply IH; done || lia. }
  destruct (negb _); [|cbn [obind Z.eqb]; apply IH; done || lia].
  destruct (handle_client_ok inp t os i e He Hc) as (t1 & os1 & -> & H1 & Hn1). cbn [obind Z.eqb]. apply IH; done || lia.
Qed.

Lemma poll_loop_ok inp o t os : server_ok t os -> exists st t' os',
  poll_loop_nowait qd_close junk_pfd junk_ce inp (handle_client qd_close g inp) o t os = Done (st, t', os') /\ server_ok t' os'.
Proof.
  intros H. unfold poll_loop_nowait, poll_loop_wait. destruct (in_poll inp =? -1); [by exists (-1), t, os|].
  set (t1 := set_ct_pfd _ t).
  assert (server_ok t1 os) as H1.
  { destruct H as [(l & [Hn [r E] Hce Hl1 Hl2 Hm Hc] & [(s & r' & -> & Hs & HF) Hips Ho]) Hb]. split; [|done].
    exists ((fun e => (set_revents inp e.1, e.2)) <$> (s :: r')).
    assert (forall l : list entry, ((fun e => (set_revents inp e.1, e.2)) <$> l).*2 = l.*2) as E2.
    { intros l. induction l as [|x l IH]; [done|]. cbn. by f_equal. }
    assert (forall l : list entry, ((fun e => (set_revents inp e.1, e.2)) <$> l).*1 = map (set_revents inp) (l.*1)) as E1.
    { intros l. induction l as [|x l IH]; [done|]. cbn. by f_equal. }
    split.
    - split; cbn [t1 ct_n ct_pfd ct_ce ct_nmax ct_nclients set_ct_pfd]; rewrite ?E1, ?E2; try done.
      + by rewrite zlen_fmap.
      + rewrite E, Hn, ztake_app_exact, zdrop_app_exact by (by rewrite zlen_fmap). by exists r.
      + rewrite <- Hl1. rewrite <- (ztake_zdrop (ct_n t) (ct_pfd t)) at 3. rewrite !zlen_app.
        unfold zlen at 1 3. by rewrite length_map.
      + rewrite Hc. unfold netclients. f_equal. generalize (s :: r'). intros l. induction l as [|x l IH]; [done|].
        cbn. destruct (conn_element_isnetclient x.2); cbn; by rewrite IH.
    - split.
      + eexists _, _. split; [reflexivity|]. destruct Hs. split; [by split|]. apply Forall_fmap.
        eapply List.Forall_impl; [|exact HF]. done.
      + assert (ips ((fun e => (set_revents inp e.1, e.2)) <$> (s :: r')) = ips (s :: r')) as ->; [|done].
        generalize (s :: r'). intros l. induction l as [|x l IH]; [done|]. unfold ips in *. cbn. destruct (cn_ip x.2); [f_equal|]; exact IH.
      + unfold owned in *. assert (fds ((fun e => (set_revents inp e.1, e.2)) <$> (s :: r')) = fds (s :: r')) as ->; [|done].
        unfold fds. by rewrite <- list_fmap_compose. }
  destruct (in_poll inp =? 0); [by exists 0, t1, os|]. change (ct_n t) with (ct_n t1).
  destruct (poll_servers_ok inp o t1 os H1) as (r & t2 & os2 & -> & H2 & Hn2). cbn [obind].
  destruct r as [st|]; [by exists st, t2, os2|]. apply poll_clients_ok; [done|lia|lia].
Qed.

Lemma process_connections_ok inp t os : server_ok t os -> exists t' os',
  process_connections qd_close junk_pfd junk_ce junk g inp (fun _ => 0) t os = Done (t', os') /\ server_ok t' os'.
Proof.
  intros H. unfold process_connections, process_finished_connections, process_unidentified_connections,
    process_dirty_connections, spawn_client_threads.
  destruct (process_finished_ok (Z.to_nat (ct_n t)) 0 t os H) as (t1 & os1 & -> & H1); [lia|lia|]. cbn [obind].
  destruct (process_unidentified_ok (in_now inp) (Z.to_nat (ct_n t1)) 0 t1 os1 H1) as (t2 & os2 & -> & H2); [lia|lia|]. cbn [obind].
  pose proof (server_ok_n _ _ H2).
  destruct (process_dirty_ok (Z.to_nat (ct_n t2)) 0 t2 os2 H2) as (t3 & os3 & -> & H3); [lia|lia|]. cbn [obind].
  destruct (spawn_loop_ok (Z.to_nat (ct_n t3)) 0 t3 os3 H3) as (t4 & os4 & -> & H4); [lia|lia|]. cbn [obind].
  destruct (poll_loop_ok inp (g_client_options g) t4 os4 H4) as (st & t5 & os5 & -> & H5). cbn [obind]. by exists t5, os5.
Qed.

Lemma init_server_ok now fd maxclients os : malloc_ok SIZEOF_CONN_TABLE = true -> malloc_ok (SIZEOF_POLLFD * INITIAL_SIZE) = true ->
  malloc_ok (SIZEOF_CONN_ELEMENT * INITIAL_SIZE) = true -> fd ∈ os -> fd <> -1 ->
  exists t, init_server_conn junk_pfd junk_ce now fd maxclients = Done (0, Some t) /\ server_ok t os.
Proof.
  intros M1 M2 M3 Hfd Hne. unfold init_server_conn, conn_table_create. rewrite M1, M2, M3. cbn [negb orb].
  set (t0 := ConnTable _ _ _ _ _ _ _).
  assert (table_is t0 []) as H0.
  { split; cbn; try done; try (by eexists); try by (apply Hjp || apply Hjc). }
  destruct (table_add junk_pfd junk_ce Hjp Hjc t0 [] now fd CONN_TYPE_SERVER_NET 0 None None (ClientOptions 0 0 0 0 0) H0)
    as (st & t & E & Hm & H).
  unfold conn_table_add_element, conn_table_add_element_un in *. change (ct_n t0 =? ct_nmax t0) with false in *. cbn [negb Z.eqb] in *.
  destruct (wr (ct_pfd t0) _ _) as [a| |]; [|done|done]. cbn [obind] in *.
  destruct (wr (ct_ce t0) _ _) as [b| |]; [|done|done]. cbn [obind] in *. injection E as <- <-.
  destruct H as [[_ H]|[? _]]; [|done]. eexists. split; [done|]. split.
  - eexists. split; [exact H|]. split.
    + eexists _, []. split; [done|]. by split.
    + constructor.
    + unfold owned. cbn [app]. rewrite fds_cons. cbn [pf_fd fst]. destruct (Z.eqb_spec fd (-1)); [done|].
      change ([fd] ++ fds []) with [fd]. split; [apply list.NoDup_singleton|by constructor].
  - cbn. done.
Qed.

(** ** Distribution never fails *)

Lemma snd_ok c data : cq_ok c -> exists st c', connqueue_snd c data = Done (st, c') /\ cq_ok c'.
Proof.
  intros [Hn [q Eq]]. unfold connqueue_snd, nbspqt_snd. rewrite Hn. cbn [Z.leb Z.compare Z.sub andb c_assert Pos.sub].
  change ((0 <=? 0) && (0 <=? 1 - 1)) with true. cbn [c_assert]. rewrite Eq. change (rd [q] 0) with (Done q). cbn [obind].
  destruct (if (if _ : bool then 2 else 0) =? 0 then _ else _) as [st1 q1]. destruct (if st1 =? 0 then _ else _) as [st2 q2].
  cbn [obind]. eexists _, _. split; [done|]. split; [done|]. cbn [cq_qt set_cq_qt put_queue qt_nbspq]. rewrite Eq. by eexists.
Qed.

Lemma rcv_ok c ws st d c' : cq_ok c -> connqueue_rcv c ws = Done (Some (st, d, c')) -> cq_ok c'.
Proof.
  intros [Hn [q Eq]]. unfold connqueue_rcv, nbspqt_rcv. rewrite Hn. change ((0 <=? 0) && (0 <=? 1 - 1)) with true.
  cbn [c_assert]. rewrite Eq. change (rd [q] 0) with (Done q). cbn [obind]. destruct (rcv_wait q 0 ws) as [[st1 q1]|]; [|done].
  assert (forall q2, qt_n (put_queue (cq_qt c) 0 q2) = 1 /\ exists q', qt_nbspq (put_queue (cq_qt c) 0 q2) = [q']) as Hput.
  { intros q2. split; [done|]. cbn [put_queue qt_nbspq]. rewrite Eq. by eexists. }
  destruct (nq_n q1 =? 0); cbn [obind]; [intros [= _ _ <-]; apply Hput|].
  destruct (qdb_rcv q1 _ _) as [[[[st2 p] size] q2]| |]; [|done|done]. cbn [obind]. destruct p; [|done].
  intros [= _ _ <-]. apply Hput.
Qed.

Lemma running_thread ce : client_ok ce -> conn_element_isnetclient_running ce = true ->
  is_Some (cn_filterdata ce) /\ exists c, cn_cq ce = CqPtr c /\ cq_ok c.
Proof.
  intros [_ _ _ Ht]. unfold conn_element_isnetclient_running, conn_element_get_created_flag, thread_ok in *.
  destruct (cn_threadinfo ce); [by destruct Ht as (_ & ? & ?)|]. by rewrite andb_false_r.
Qed.

Lemma set_cn_cq_ok c ce : client_ok ce -> cq_ok c -> is_Some (cn_threadinfo ce) -> client_ok (set_cn_cq (CqPtr c) ce).
Proof.
  intros [H1 H2 H3 Ht] Hc [ti Eti]. split; try done. unfold thread_ok in *. cbn [cn_threadinfo set_cn_cq]. rewrite Eti in *.
  destruct Ht as (? & ? & _). split_and!; [done|done|]. by exists c.
Qed.

Lemma running_info ce : conn_element_isnetclient_running ce = true -> is_Some (cn_threadinfo ce).
Proof.
  unfold conn_element_isnetclient_running, conn_element_get_created_flag. destruct (cn_threadinfo ce); [by eexists|].
  by rewrite andb_false_r.
Qed.

Lemma report_qlimit_ok now st ce : client_ok ce -> client_ok (report_qlimit g now st ce) /\
  cn_ip (report_qlimit g now st ce) = cn_ip ce.
Proof.
  intros Hc. unfold report_qlimit, set_client_qlimit_log_last. destruct (_ || _); [done|]. destruct (_ <? _); [|done].
  destruct (cn_appdata ce); [|done]. split; [|done]. destruct Hc as [? ? ? ?]. by split.
Qed.

Lemma send_queues_ok k : forall i now st st1 ed pk t os, server_ok t os -> 0 <= i -> i + Z.of_nat k <= ct_n t ->
  exists t', send_queues_loop g k i now st st1 ed pk t = Done t' /\ server_ok t' os.
Proof.
  induction k as [|k IH]; intros i now st st1 ed pk t os H Hi Hk; cbn [send_queues_loop]; [by exists t|].
  destruct (server_ok_at t os i H) as [e He]; [lia|]. destruct (at_rd _ _ _ _ He) as (-> & _ & _). cbn [obind].
  destruct (conn_element_isnetclient e.2) eqn:En; cbn [negb]; [|apply IH; done || lia].
  pose proof (isnetclient_client _ _ _ _ He En) as Hc. rewrite (at_protocol _ _ _ _ He). cbn [obind].
  destruct (conn_element_isnetclient_running e.2) eqn:Er; cbn [negb]; [|apply IH; done || lia].
  destruct (running_thread _ Hc Er) as ([v Ev] & c & Ecq & Hcq). unfold allow_filter_get_flag. rewrite Ev.
  assert (exists b, (if g_netfilter_enable g =? 1 then let* v := Done v in Done (v =? 0) else Done false) = Done b) as [b ->].
  { destruct (_ =? 1); cbn; by eexists. }
  cbn [obind]. destruct b; [apply IH; done || lia|].
  assert (exists st' ce, match queue_for (get_client_protocol_byce e.2) st1 ed pk with
    | Some d => send_queue d e.2 | None => Done (st, e.2) end = Done (st', ce) /\ client_ok ce /\ cn_ip ce = cn_ip e.2)
    as (st' & ce & -> & Hc' & Hip).
  { destruct (queue_for _ _ _ _) as [d|]; [|by exists st, e.2]. unfold send_queue. rewrite Ecq.
    destruct (snd_ok c d Hcq) as (st' & c' & -> & Hcq'). cbn [obind]. eexists _, _. split; [done|]. split; [|done].
    apply set_cn_cq_ok; [done|done|by apply running_info]. }
  cbn [obind]. destruct (report_qlimit_ok now st' ce Hc') as [Hc2 Hip2].
  destruct (at_upd t os i e _ He Hc Hc2) as (t1 & -> & H1 & Hn1); [by rewrite Hip2|]. cbn [obind].
  apply IH; [by eapply at_server_ok|lia|lia].
Qed.

Lemma count_emwin_ok k : forall i t os, server_ok t os -> 0 <= i -> i + Z.of_nat k <= ct_n t ->
  exists n, count_emwin k i t = Done n.
Proof.
  induction k as [|k IH]; intros i t os H Hi Hk; cbn [count_emwin]; [by exists 0|].
  destruct (server_ok_at t os i H) as [e He]; [lia|]. destruct (at_rd _ _ _ _ He) as (-> & _ & _). cbn [obind].
  destruct (IH (i + 1) t os H) as [n ->]; [lia|lia|]. cbn [obind]. rewrite (at_protocol _ _ _ _ He). cbn [obind].
  destruct (conn_element_isnetclient_running e.2); by eexists.
Qed.

Lemma exec_net_filter_ok k : forall i x t os, server_ok t os -> 0 <= i -> i + Z.of_nat k <= ct_n t ->
  exists st x' t', exec_net_filter_loop k i x t = Done (st, x', t') /\ server_ok t' os /\ ct_n t' = ct_n t.
Proof.
  induction k as [|k IH]; intros i x t os H Hi Hk; cbn [exec_net_filter_loop]; [by exists 0, x, t|].
  destruct (server_ok_at t os i H) as [e He]; [lia|]. destruct (at_rd _ _ _ _ He) as (_ & _ & ->). cbn [obind].
  destruct (conn_element_isclient e.2) eqn:En; cbn [negb orb]; [|apply IH; done || lia].
  destruct (Z.eqb_spec (conn_element_get_created_flag e.2) 0) as [Ec|Ec]; cbn [orb]; [apply IH; done || lia|].
  destruct (negb _); [apply IH; done || lia|]. destruct (nf_exec x _ _) as [st x1].
  destruct (negb (st =? 0)); [by exists st, x1, t|].
  assert (client_ok e.2) as Hc.
  { apply (at_client t os i e He). intros E. unfold conn_element_isclient in En. by rewrite E in En. }
  unfold allow_filter_set_flag. pose proof Hc as [H1 H2 H3 Ht]. unfold thread_ok, conn_element_get_created_flag in *.
  destruct (cn_threadinfo e.2) as [ti|] eqn:Eti; [|done]. destruct Ht as (Ht1 & [v Ev] & Ht3). rewrite Ev. cbn [obind].
  set (ce := set_cn_filterdata _ e.2).
  assert (client_ok ce) as Hc'.
  { split; try done. unfold thread_ok. cbn [cn_threadinfo ce set_cn_filterdata]. rewrite Eti. split_and!; [done|by eexists|done]. }
  destruct (at_upd t os i e ce He Hc Hc' eq_refl) as (t1 & -> & Ha & Hn1). cbn [obind].
  destruct (IH (i + 1) x1 t1 os) as (st2 & x2 & t2 & E2 & Hok2 & Hn2); [by eapply at_server_ok|lia|lia|].
  exists st2, x2, t2. split_and!; [done|done|lia].
Qed.

(** *** The EMWIN filter *)

Definition filter_ok (f : option pfilter_st) : Prop :=
  match f with None => True | Some p => bytes (stream (pl_fifo p)) end.

Lemma sys_read_bytes f size n d f' : sys_read f size = (n, d, f') -> 0 <= size -> bytes (stream f) ->
  bytes d /\ zlen d <= size /\ bytes (stream f').
Proof.
  unfold sys_read, stream. destruct f as [ev it sn]. cbn [events intr sent].
  destruct ev as [|[| | |dd| | |m|] ev]; intros [= <- <- <-] Hs Hb; try (split_and!; [by constructor|rewrite zlen_nil; lia|exact Hb]).
  cbn in Hb. apply bytes_app in Hb as [Hb1 Hb2]. split_and!; [by apply bytes_ztake| |].
  - pose proof (zlen_take_le size dd). lia.
  - destruct (zlen dd <=? size); [done|]. cbn. apply bytes_app. split; [by apply bytes_zdrop|done].
Qed.


Lemma pfilter_read_ok p a size : bytes (stream (pl_fifo p)) -> bytes a -> 0 <= size <= zlen a ->
  exists st a' p', pfilter_read p a size = Done (st, a', p') /\ bytes a' /\ zlen a' = zlen a /\ bytes (stream (pl_fifo p')).
Proof.
  intros Hpb Ha Hs. unfold pfilter_read, readn_fifo, readm_fifo, readm.
  destruct (sreadm_spec (pl_fifo p) a 0 size 0 None) as (n & a1 & eof & f1 & d & -> & [Es Ew] & Hd & _); [lia|lia|lia|].
  rewrite Es in Hpb. apply bytes_app in Hpb as [Hd1 Hf1]. pose proof (wr_bytes _ _ _ _ Ew Ha Hd1) as Ha1.
  pose proof (wr_length _ _ _ _ Ew) as Hl1. cbn [obind]. destruct (n =? -2); [|by eexists _, _, _].
  destruct (sys_read f1 size) as [[m d2] f2] eqn:E2. destruct (sys_read_bytes _ _ _ _ _ E2 ltac:(lia) Hf1) as (Hd2 & Hl2 & Hf2).
  destruct (wr a1 0 d2) as [a2| |] eqn:Ew2.
  - cbn [obind]. eexists _, _, _. split; [done|]. split; [by eapply wr_bytes|]. split; [by rewrite (wr_length _ _ _ _ Ew2)|done].
  - unfold wr in Ew2. by destruct (_ && _).
  - rewrite wr_ok in Ew2 by lia. done.
Qed.

Lemma e_read_ok p a size : bytes (stream (pl_fifo p)) -> bytes a -> 0 <= size <= zlen a ->
  exists st a' f', e_emwin_pfilter_read g (Some p) a size = Done (st, a', f') /\ bytes a' /\ zlen a' = zlen a /\ filter_ok f' /\
    (st = 0 -> is_Some f').
Proof.
  intros Hpb Ha Hs. unfold e_emwin_pfilter_read. destruct (pfilter_read_ok p a size Hpb Ha Hs) as (st & a' & p' & -> & Hb & Hl & Hf).
  cbn [obind]. destruct (st =? 0); cbn [negb Z.eqb]; [by eexists _, _, _|]. change (negb (-1 =? 0)) with true. cbv iota.
  unfold close_emwin_filter. destruct (_ =? 0); cbn [obind]; by eexists _, _, _.
Qed.

Lemma read_answer_ok p a n size : bytes (stream (pl_fifo p)) -> bytes a -> zlen a = size -> 0 <= n ->
  exists st a' f', read_answer g (Some p) a n size = Done (st, a', f') /\ bytes a' /\ zlen a' = zlen a /\ filter_ok f' /\
    (st = 0 -> is_Some f').
Proof.
  intros Hpb Ha Hl Hn. unfold read_answer. destruct (Z.ltb_spec (size - 1) n).
  - unfold close_emwin_filter. destruct (_ =? 0); cbn [obind]; by eexists _, _, _.
  - destruct (e_read_ok p a n Hpb Ha) as (st & a' & f' & -> & Hb & Hl' & Hf & Hs); [lia|]. cbn [obind].
    destruct (wr a' n [0]) as [a2| |] eqn:Ew.
    + cbn [obind]. eexists _, _, _. split; [done|]. split; [eapply wr_bytes; [done|done|by repeat constructor]|].
      split; [|done]. by rewrite (wr_length _ _ _ _ Ew).
    + unfold wr in Ew. by destruct (_ && _).
    + rewrite wr_ok in Ew; [done|lia|change (zlen [0]) with 1; lia].
Qed.

Lemma uint16_ok b i : 0 <= i -> i + 1 < zlen b -> exists n, unpack_uint16 b i = Done n /\ 0 <= n.
Proof.
  intros Hi Hl. unfold unpack_uint16. destruct (znth_is_Some b i) as [x Ex]; [lia|]. destruct (znth_is_Some b (i + 1)) as [y Ey]; [lia|].
  rewrite (proj2 (rd_Done _ _ x)), (proj2 (rd_Done _ _ y)) by done. cbn [obind]. eexists. split; [done|].
  unfold be16, u16. apply Z.mod_pos_bound. lia.
Qed.

Record send_ok (si : send_input) : Prop := SendOk {
  sk_b : bytes (si_b si) /\ zlen (si_b si) = 4;
  sk_fpathout : bytes (si_fpathout si) /\ zlen (si_fpathout si) = EMWIN_FPATHOUT_SIZE + 1;
  sk_emwinfname : bytes (si_emwinfname si) /\ zlen (si_emwinfname si) = EMWIN_HEADER_FNAMESIZE + 1;
  sk_opened : filter_ok (si_opened si)
}.

(** a packet that has been unpacked *)
Definition unpacked (pi : packet_info_st) : Prop :=
  exists p i j fname fpath, pi_packet pi = Some p /\ pi_fname pi = Some i /\ pi_fpath pi = Some j /\
    cstr (zdrop i p) = Done fname /\ cstr (zdrop j p) = Done fpath.

Lemma read_emwin_ok si p : send_ok si -> bytes (stream (pl_fifo p)) -> exists st a1 a2 f',
  read_emwin_filter g (si_b si) (si_fpathout si) (si_emwinfname si) (Some p) = Done (st, a1, a2, f') /\ filter_ok f'.
Proof.
  intros [[Hb Hbl] [Hf Hfl] [Hn Hnl] _] Hpb. unfold read_emwin_filter.
  destruct (e_read_ok p (si_b si) 1 Hpb Hb) as (st & b & f1 & -> & Hb1 & Hl1 & Hf1 & Hs1); [lia|]. cbn [obind].
  destruct (Z.eqb_spec st 0); cbn [negb]; [|by eexists _, _, _, _]. destruct (Hs1 ltac:(done)) as [p1 ->].
  destruct (znth_is_Some b 0) as [o Eo]; [lia|]. rewrite (proj2 (rd_Done _ _ o)) by done. cbn [obind].
  destruct (negb (o =? 0)); [by eexists _, _, _, _|].
  destruct (e_read_ok p1 b 4 Hf1 Hb1) as (st2 & b2 & f2 & -> & Hb2 & Hl2 & Hf2 & Hs2); [lia|]. cbn [obind].
  destruct (Z.eqb_spec st2 0); cbn [negb]; [|by eexists _, _, _, _]. destruct (Hs2 ltac:(done)) as [p2 ->].
  destruct (uint16_ok b2 0) as (n1 & -> & Hn1); [lia|lia|]. destruct (uint16_ok b2 2) as (n2 & -> & Hn2); [lia|lia|]. cbn [obind].
  destruct (read_answer_ok p2 (si_fpathout si) n1 (EMWIN_FPATHOUT_SIZE + 1) Hf2 Hf Hfl Hn1)
    as (st3 & a1 & f3 & -> & _ & _ & Hf3 & Hs3). cbn [obind].
  destruct (Z.eqb_spec st3 0); cbn [negb]; [|by eexists _, _, _, _]. destruct (Hs3 ltac:(done)) as [p3 ->].
  destruct (read_answer_ok p3 (si_emwinfname si) n2 (EMWIN_HEADER_FNAMESIZE + 1) Hf3 Hn Hnl Hn2)
    as (st4 & a2 & f4 & -> & _ & _ & Hf4 & _). cbn [obind]. by eexists _, _, _, _.
Qed.

Lemma exec_emwin_ok si pi f : send_ok si -> unpacked pi -> filter_ok f -> exists st a1 a2 f',
  exec_emwin_filter g (si_regex si) (si_opened si) (si_b si) pi (si_fpathout si) (si_emwinfname si) f =
    Done (st, a1, a2, f') /\ filter_ok f'.
Proof.
  intros Hsi (p & i & j & fname & fpath & E1 & E2 & E3 & E4 & E5) Hf. unfold exec_emwin_filter.
  rewrite E1, E2, E3, E4, E5. cbn [obind]. destruct (negb _); [by eexists _, _, _, f|].
  assert (exists st f1, match f with Some _ => Done (0, f) | None => open_emwin_filter (si_opened si) f end = Done (st, f1) /\
    filter_ok f1 /\ (st = 0 -> is_Some f1)) as (st & f1 & -> & Hf1 & Hs1).
  { destruct f; [by eexists 0, _|]. unfold open_emwin_filter. eexists _, _. split; [done|]. split; [by destruct Hsi|].
    destruct (si_opened si); [by eexists|done]. }
  cbn [obind]. destruct (Z.eqb_spec st 0); cbn [negb]; [|by eexists _, _, _, _]. destruct (Hs1 ltac:(done)) as [p1 ->].
  unfold write_emwin_filter.
  destruct (pfilter_vprintf (filter_line pi fname fpath) p1) as [n p2] eqn:Ev.
  assert (pl_fifo p2 = pl_fifo p1) as Ep2.
  { unfold pfilter_vprintf, pfilter_put in Ev. by destruct (pl_results p1); injection Ev as _ <-. }
  set (r := if n <? 0 then (-1, p2) else pfilter_flush p2).
  assert (exists st3 p3, r = (st3, p3) /\ pl_fifo p3 = pl_fifo p1) as (st3 & p3 & -> & Ep3).
  { subst r. destruct (n <? 0); [by eexists _, _|]. unfold pfilter_flush, pfilter_put.
    destruct (pl_results p2); by eexists _, _. }
  destruct (st3 =? 0); cbn [negb].
  - cbn [obind Z.eqb negb]. apply read_emwin_ok; [done|]. by rewrite Ep3.
  - unfold close_emwin_filter. destruct (_ =? 0); cbn [obind]; change (negb (-1 =? 0)) with true; cbv iota;
      eexists _, _, _, _; (split; [done|]); [cbn; by rewrite Ep3|done].
Qed.

Lemma server_send_ok si pi fl t os : send_ok si -> unpacked pi -> filter_ok (fl_emwin fl) -> server_ok t os ->
  exists fl' t', server_send_client_queues g si pi fl t = Done (0, fl', t') /\ filter_ok (fl_emwin fl') /\ server_ok t' os.
Proof.
  intros Hsi Hpi Hfl H. unfold server_send_client_queues. pose proof (server_ok_n _ _ H).
  destruct (count_emwin_ok (Z.to_nat (ct_n t)) 0 t os H) as [n ->]; [lia|lia|]. cbn [obind].
  set (r := if _ || _ then _ else _).
  assert (exists st a1 a2 f', r = Done (st, a1, a2, f') /\ filter_ok f') as (st1 & a1 & a2 & f' & -> & Hf').
  { subst r. destruct (_ || _); [by apply exec_emwin_ok|by eexists _, _, _, _]. }
  cbn [obind]. destruct (ct_nclients t =? 0); [by eexists _, t|].
  set (r := match fl_net _ with None => _ | Some _ => _ end).
  assert (exists st fn t1, r = Done (st, fn, t1) /\ server_ok t1 os) as (st & fn & t1 & -> & H1).
  { subst r. cbn [fl_net]. destruct (fl_net fl) as [x|]; [|by eexists _, _, _]. unfold exec_net_filter.
    destruct (exec_net_filter_ok (Z.to_nat (ct_n t)) 0 x t os H) as (st & x' & t1 & -> & H1 & _); [lia|lia|]. cbn [obind].
    by eexists _, _, _. }
  cbn [obind]. destruct (negb (st =? 0)); [by eexists _, t1|].
  destruct Hpi as (p & i & j & fname & fpath & -> & _). pose proof (server_ok_n _ _ H1).
  destruct (send_queues_ok (Z.to_nat (ct_n t1)) 0 (si_now si) 0 st1 (a2 ++ a1) (ztake (pi_packet_size pi) p) t1 os H1)
    as (t2 & -> & Hok2); [lia|lia|]. cbn [obind]. by eexists _, t2.
Qed.

(** ** The life of the server *)

(** What the main thread does, and between its turns the threads of the clients:
    one ends, loses its connection, or takes an element from its queue *)
Inductive server_op :=
| OpConnections (inp : poll_input)
| OpSend (si : send_input) (pi : packet_info_st)
| OpFinished (i : Z)
| OpLost (i : Z)
| OpTake (i : Z) (wakeups : list (Z * nbspq_st)).

Definition client_op (f : conn_element_st -> outcome conn_element_st) (i : Z) (t : conn_table_st) : outcome conn_table_st :=
  if (0 <=? i) && (i <? ct_n t) then
    let* ce := rd (ct_ce t) i in
    if conn_element_isnetclient_running ce then let* ce := f ce in upd_ce t i ce else Done t
  else Done t.

Definition take_queue (wakeups : list (Z * nbspq_st)) (ce : conn_element_st) : outcome conn_element_st :=
  match cn_cq ce with
  | CqPtr c => match connqueue_rcv c wakeups with
               | Done (Some (_, _, c)) => Done (set_cn_cq (CqPtr c) ce)
               | _ => Done ce
               end
  | _ => Undef
  end.

Definition run_op (op : server_op) (s : conn_table_st * gset Z * filters_st) : outcome (conn_table_st * gset Z * filters_st) :=
  let '(t, os, fl) := s in
  match op with
  | OpConnections inp =>
      let* (t, os) := process_connections qd_close junk_pfd junk_ce junk g inp (fun _ => 0) t os in Done (t, os, fl)
  | OpSend si pi => let* (_, fl, t) := server_send_client_queues g si pi fl t in Done (t, os, fl)
  | OpFinished i =>
      let* t := client_op (fun ce => let* (_, ce) := conn_element_set_finished_flag ce in Done ce) i t in Done (t, os, fl)
  | OpLost i =>
      let* t := client_op (fun ce => let* (_, ce) := conn_element_set_connection_status (-1) ce in Done ce) i t in
      Done (t, os, fl)
  | OpTake i ws => let* t := client_op (take_queue ws) i t in Done (t, os, fl)
  end.
Fixpoint run_ops (ops : list server_op) (s : conn_table_st * gset Z * filters_st)
  : outcome (conn_table_st * gset Z * filters_st) :=
  match ops with [] => Done s | op :: ops => let* s := run_op op s in run_ops ops s end.

Definition op_ok (op : server_op) : Prop :=
  match op with OpSend si pi => send_ok si /\ unpacked pi | _ => True end.

Lemma client_op_ok f i t os : server_ok t os ->
  (forall ce, client_ok ce -> conn_element_isnetclient_running ce = true -> exists ce', f ce = Done ce' /\ client_ok ce' /\ cn_ip ce' = cn_ip ce) ->
  exists t', client_op f i t = Done t' /\ server_ok t' os.
Proof.
  intros H Hf. unfold client_op. destruct (_ && _) eqn:Ei; [|by exists t]. apply andb_true_iff in Ei as [E1 E2].
  apply Z.leb_le in E1. apply Z.ltb_lt in E2. destruct (server_ok_at t os i H) as [e He]; [lia|].
  destruct (at_rd _ _ _ _ He) as (-> & _ & _). cbn [obind]. destruct (conn_element_isnetclient_running e.2) eqn:Er; [|by exists t].
  pose proof (isnetclient_client _ _ _ _ He (running_isnet _ Er)) as Hc.
  destruct (Hf e.2 Hc Er) as (ce & -> & Hc' & Hip). cbn [obind].
  destruct (at_upd t os i e ce He Hc Hc' Hip) as (t' & -> & Ha & _). exists t'. split; [done|]. by eapply at_server_ok.
Qed.

Lemma threadinfo_ok ce ti ti' : client_ok ce -> cn_threadinfo ce = Some ti -> f_thread_created ti' = f_thread_created ti ->
  client_ok (set_cn_threadinfo (Some ti') ce).
Proof.
  intros [H1 H2 H3 Ht] E E'. split; try done. unfold thread_ok in *. rewrite E in Ht. cbn [cn_threadinfo set_cn_threadinfo].
  by rewrite E'.
Qed.

Lemma run_op_ok op t os fl : op_ok op -> server_ok t os -> filter_ok (fl_emwin fl) ->
  exists t' os' fl', run_op op (t, os, fl) = Done (t', os', fl') /\ server_ok t' os' /\ filter_ok (fl_emwin fl').
Proof.
  intros Hop H Hfl. destruct op as [inp|si pi|i|i|i ws]; cbn [run_op].
  - destruct (process_connections_ok inp t os H) as (t' & os' & -> & H'). by exists t', os', fl.
  - destruct Hop as [Hsi Hpi]. destruct (server_send_ok si pi fl t os Hsi Hpi Hfl H) as (fl' & t' & -> & Hfl' & H').
    by exists t', os, fl'.
  - edestruct (client_op_ok (fun ce => let* (_, ce) := conn_element_set_finished_flag ce in Done ce) i t os H) as (t' & -> & H');
      [|by exists t', os, fl].
    intros ce Hc Hr. destruct (running_info _ Hr) as [ti Eti]. unfold conn_element_set_finished_flag. rewrite Eti.
    eexists. split; [done|]. split; [|done]. by eapply threadinfo_ok.
  - edestruct (client_op_ok (fun ce => let* (_, ce) := conn_element_set_connection_status (-1) ce in Done ce) i t os H)
      as (t' & -> & H'); [|by exists t', os, fl].
    intros ce Hc Hr. destruct (running_info _ Hr) as [ti Eti]. unfold conn_element_set_connection_status. rewrite Eti.
    eexists. split; [done|]. split; [|done]. by eapply threadinfo_ok.
  - edestruct (client_op_ok (take_queue ws) i t os H) as (t' & -> & H'); [|by exists t', os, fl].
    intros ce Hc Hr. destruct (running_thread _ Hc Hr) as (_ & c & Ec & Hcq). unfold take_queue. rewrite Ec.
    destruct (connqueue_rcv c ws) as [[[[st d] c']|]| |] eqn:Er; [|by exists ce..].
    eexists. split; [done|]. split; [|done]. apply set_cn_cq_ok; [done|by eapply rcv_ok|by apply running_info].
Qed.
End invariant.

Section theorems.
Context `{Hp : Heap} {HS : HeapSpec Hp} `{Q : QueueDb} `{N : NetFilter}.
Context (qd_close : qd -> Z) (junk_pfd : Z -> list pollfd) (junk_ce : Z -> list conn_element_st)
  (junk : Z -> list Z).

(** C6: The table of connections. From the start of the server, whatever the
    sockets, the clients, the filters and the threads of the clients do, and in
    whatever order, the main thread never fails an assertion nor accesses what
    it should not, and in every state: the listening socket has the first entry;
    each other entry is that of a client, with its thread, queue and flag or
    without any of them; no address and no descriptor is in two entries, all the
    descriptors are open, and the clients are counted and not more than allowed.
    It is supposed that threads can be created and databases closed. *)
Theorem server_table_safe (g : server_conf) now fd maxclients os fl ops
  (Hclose : forall q, qd_close q = 0)
  (Hjunk : (forall n, 0 <= n -> zlen (junk_pfd n) = n) /\ (forall n, 0 <= n -> zlen (junk_ce n) = n))
  (Hmem : malloc_ok SIZEOF_CONN_TABLE = true /\ malloc_ok (SIZEOF_POLLFD * INITIAL_SIZE) = true /\
     malloc_ok SIZEOF_CONN_ELEMENT = true)
  (Hg : g_f_server_thread_created g <> 0) (Hfd : fd ∈ os /\ fd <> -1)
  (Hfl : filter_ok (fl_emwin fl)) (Hops : Forall op_ok ops) :
  exists t0, init_server_conn junk_pfd junk_ce now fd maxclients = Done (0, Some t0) /\
    exists t' os' fl', run_ops qd_close junk_pfd junk_ce junk g ops (t0, os, fl) = Done (t', os', fl') /\ server_ok t' os'.
Proof.
  destruct Hjunk as [Hjp Hjc], Hmem as (M1 & M2 & M3), Hfd as [Hin Hne].
  destruct (init_server_ok junk_pfd junk_ce Hjp Hjc now fd maxclients os M1 M2 M3 Hin Hne) as (t0 & -> & H0).
  exists t0. split; [done|]. clear now fd maxclients Hin Hne. revert t0 os fl H0 Hfl.
  induction Hops as [|op ops Hop _ IH]; intros t os fl H Hfl; cbn [run_ops]; [by exists t, os, fl|].
  destruct (run_op_ok qd_close junk_pfd junk_ce junk Hclose Hjp Hjc M3 g Hg op t os fl Hop H Hfl)
    as (t' & os' & fl' & -> & H' & Hfl'). cbn [obind]. by apply IH.
Qed.
End theorems.

(** ** Witness *)

Definition unit_netfilter : NetFilter :=
  {| nf := unit; nf_exec := fun x _ _ => (0, x); nf_allow := fun _ _ => Some 1 |}.

Section witness.
#[local] Existing Instances demo_heap demo_heap_spec unit_netfilter.
#[local] Instance demo_qd : QueueDb := fixed_qd 45.

Definition demo_coptions : client_options_st := ClientOptions 1000 2 10 3 1000.
Definition demo_sconf : server_conf :=
  ServerConf 7 1 1 0 0 20 60 (Some [44]) demo_coptions 100 200 45.
Definition no_junk_pfd (n : Z) : list pollfd := replicate (Z.to_nat n) (Pollfd 77 77 77).
Definition no_junk_ce (n : Z) : list conn_element_st :=
  replicate (Z.to_nat n) (conn_element_init1 5 6 7 8 None None demo_coptions).
Definition no_junk (n : Z) : list Z := replicate (Z.to_nat n) 170.

Lemma no_junk_ok : (forall n, 0 <= n -> zlen (no_junk_pfd n) = n) /\ (forall n, 0 <= n -> zlen (no_junk_ce n) = n).
Proof. split; intros n Hn; unfold no_junk_pfd, no_junk_ce, zlen; rewrite length_replicate; lia. Qed.

(** a client connects, sends NBS2 and gets a packet *)
Definition demo_poll (now : Z) (ready : Z) : poll_input :=
  PollInput now 1 (fun fd => if fd =? ready then POLLIN else 0) (fun _ => 4)
    (fun _ => (4, PROTOCOL_NBS2_STR)) (fun _ => Accept 9 (Some [49]) (Some [97]) 1).
Definition demo_send : send_input :=
  SendInput 3 None (replicate 4 0) (replicate (Z.to_nat (EMWIN_FPATHOUT_SIZE + 1)) 0)
    (replicate (Z.to_nat (EMWIN_HEADER_FNAMESIZE + 1)) 0) (fun _ => 1).
Definition demo_sent : packet_info_st := PacketInfo 0 0 0 0 0 (Some 40) (Some 42) (Some (replicate 45 0)) 45.
Definition demo_sops : list server_op :=
  [OpConnections (demo_poll 1 3); OpConnections (demo_poll 2 9); OpConnections (demo_poll 3 0);
   OpSend demo_send demo_sent; OpTake 1 []; OpLost 1; OpConnections (demo_poll 4 3); OpFinished 1;
   OpConnections (demo_poll 5 0)].

Lemma demo_sops_ok : Forall op_ok demo_sops.
Proof.
  assert (op_ok (OpSend demo_send demo_sent)) as Hsend.
  { split; [split; try (split; [apply Forall_replicate; unfold is_byte; lia|by vm_compute]); done|].
    exists (replicate 45 0), 40, 42, [], []. by split_and!. }
  by repeat (constructor; [done|]).
Qed.

Lemma server_table_safe_witness : exists t0,
  init_server_conn no_junk_pfd no_junk_ce 0 3 5 = Done (0, Some t0) /\
  exists t' os' fl', run_ops (fun _ => 0) no_junk_pfd no_junk_ce no_junk demo_sconf demo_sops
    (t0, {[3]}, Filters None None) = Done (t', os', fl') /\ server_ok t' os'.
Proof.
  apply (server_table_safe (fun _ => 0) no_junk_pfd no_junk_ce no_junk demo_sconf 0 3 5 {[3]} (Filters None None)
    demo_sops); [done|exact no_junk_ok|done|done|by split; [apply elem_of_singleton|]|done|exact demo_sops_ok].
Defined.
End witness.
