(* ===== verification/Serverdist.v ===== *)
(** * Serverdist: what the main server thread does for its clients

    The distribution of a product to the queues of the clients, the removal of
    the clients that have finished, their reconnection, and two failures
    ([Serverm], [Conn]). *)

From stdpp Require Import gmap.
From S2P Require Import Prelude Util CLib Mfile Pctldb Pctl Nreadn Packfp Qdb Emwin Serverc Stoi.
From S2P Require Import Nbsp Slavet Slavefp Conn Serverm Serverinv.

(** ** What each client gets *)

Section delivery.
Context `{Hp : Heap} `{QR : QueueDbReliable} `{N : NetFilter}.
Context (g : server_conf).
#[local] Abbreviation entry := (pollfd * conn_element_st)%type.

(** the queue of the client holds [c] *)
Definition queue_is (ce : conn_element_st) (c : list (list Z)) : Prop :=
  exists k q, cn_cq ce = CqPtr k /\ qt_n (cq_qt k) = 1 /\ qt_nbspq (cq_qt k) = [q] /\
    queue_rep (qt_reclen (cq_qt k)) q c.
Definition queue_reclen (ce : conn_element_st) : Z :=
  match cn_cq ce with CqPtr k => qt_reclen (cq_qt k) | _ => 0 end.

Definition allowed (ce : conn_element_st) : bool :=
  if g_netfilter_enable g =? 1 then match cn_filterdata ce with Some v => negb (v =? 0) | None => false end else true.

(** the data for the client, if it is to be sent any: [status1] is that of the
    EMWIN filter *)
Definition wanted (status1 : Z) (emwindata packet : list Z) (ce : conn_element_st) : option (list Z) :=
  let protocol := get_client_protocol_byce ce in
  if conn_element_isnetclient_running ce && allowed ce then
    if decide (protocol = PROTOCOL_EMWIN) then if decide (status1 = 0) then Some emwindata else None
    else if decide (protocol ∈ [PROTOCOL_NBS1; PROTOCOL_NBS2]) then Some packet else None
  else None.

Lemma wanted_queue_for status1 emwindata packet ce :
  wanted status1 emwindata packet ce = if conn_element_isnetclient_running ce && allowed ce
    then queue_for (get_client_protocol_byce ce) status1 emwindata packet else None.
Proof.
  unfold wanted, queue_for. destruct (_ && _); [|done]. set (p := get_client_protocol_byce ce).
  destruct (decide (p = PROTOCOL_EMWIN)) as [->|Hne].
  - change (PROTOCOL_EMWIN =? PROTOCOL_EMWIN) with true. cbn [andb].
    by destruct (decide (status1 = 0)) as [->|Hs]; [|rewrite (proj2 (Z.eqb_neq _ _) Hs)].
  - rewrite (proj2 (Z.eqb_neq _ _) Hne). cbn [andb]. case_decide as Hin.
    + destruct (Z.eqb_spec p PROTOCOL_NBS1); [done|]. destruct (Z.eqb_spec p PROTOCOL_NBS2); [done|]. set_solver.
    + destruct (Z.eqb_spec p PROTOCOL_NBS1); [set_solver|]. destruct (Z.eqb_spec p PROTOCOL_NBS2); [set_solver|]. done.
Qed.

(** a client that can be sent [d] *)
Definition sendable (d : list Z) (ce : conn_element_st) : Prop :=
  exists c, queue_is ce c /\ zlen d = queue_reclen ce /\ zlen c + 1 < 2 ^ 31.

Definition ready (status1 : Z) (emwindata packet : list Z) (e : entry) : Prop :=
  (conn_element_isnetclient_running e.2 = true -> is_Some (cn_filterdata e.2)) /\
  forall d, wanted status1 emwindata packet e.2 = Some d -> sendable d e.2.

(** the entry after the packet has been distributed: only its queue has changed,
    and the time of the last report of its limits *)
Record delivered (now status1 : Z) (emwindata packet : list Z) (e e' : entry) : Prop := Delivered {
  dl_pfd : e'.1 = e.1;
  dl_same : e'.2 = set_cn_appdata (cn_appdata e'.2) (set_cn_cq (cn_cq e'.2) e.2);
  dl_appdata : cn_appdata e'.2 = cn_appdata e.2 \/
    exists p, cn_appdata e.2 = Some p /\ cn_appdata e'.2 = Some (Appdata (ad_protocol p) now);
  dl_none : wanted status1 emwindata packet e.2 = None -> cn_cq e'.2 = cn_cq e.2;
  dl_some : forall d k q c, wanted status1 emwindata packet e.2 = Some d -> cn_cq e.2 = CqPtr k -> qt_nbspq (cq_qt k) = [q] ->
    queue_rep (qt_reclen (cq_qt k)) q c ->
    exists q', cn_cq e'.2 = CqPtr (set_cq_qt (put_queue (cq_qt k) 0 q') k) /\ nq_f_memory_based q' = nq_f_memory_based q /\
      queue_rep (qt_reclen (cq_qt k)) q'
        (if (0 <? qt_hardlimit (cq_qt k)) && (qt_hardlimit (cq_qt k) <=? zlen c) then c else c ++ [d])
}.

Lemma set_flag_memory q flag b : nq_f_memory_based (set_qdb_status_flag q flag b) = nq_f_memory_based q.
Proof. by destruct q. Qed.
Lemma qdb_snd_memory q d : nq_f_memory_based (qdb_snd q d).2 = nq_f_memory_based q.
Proof. unfold qdb_snd. destruct (qd_put _ _) as [st x]. by destruct (st =? 0). Qed.

Lemma snd_delivers k q c d : qt_n (cq_qt k) = 1 -> qt_nbspq (cq_qt k) = [q] -> queue_rep (qt_reclen (cq_qt k)) q c ->
  zlen d = qt_reclen (cq_qt k) -> zlen c + 1 < 2 ^ 31 ->
  exists st q', connqueue_snd k d = Done (st, set_cq_qt (put_queue (cq_qt k) 0 q') k) /\ nq_f_memory_based q' = nq_f_memory_based q /\
    queue_rep (qt_reclen (cq_qt k)) q'
      (if (0 <? qt_hardlimit (cq_qt k)) && (qt_hardlimit (cq_qt k) <=? zlen c) then c else c ++ [d]).
Proof.
  intros Hn Eq Hr Hd Hl. pose proof (zlen_nonneg c). unfold connqueue_snd, nbspqt_snd. rewrite Hn.
  change ((0 <=? 0) && (0 <=? 1 - 1)) with true. cbn [c_assert]. rewrite Eq. change (rd [q] 0) with (Done q). cbn [obind].
  rewrite (qr_n _ _ _ Hr), s32_small by lia. unfold queue_hard_limit.
  destruct ((0 <? qt_hardlimit (cq_qt k)) && (qt_hardlimit (cq_qt k) <=? zlen c)) eqn:Eh; cbn [Z.eqb negb Pos.eqb].
  - cbn [obind]. eexists _, _. split; [done|]. split; [apply set_flag_memory|by apply set_flag_rep].
  - pose proof (qdb_snd_memory (set_qdb_status_flag q QDB_FSTATUS_MAX_HARD 0) d) as Hmem. rewrite set_flag_memory in Hmem.
    destruct (qdb_snd_rep (qt_reclen (cq_qt k)) (set_qdb_status_flag q QDB_FSTATUS_MAX_HARD 0) c d)
      as (q1 & E1 & Hq1 & _); [by apply set_flag_rep|done|lia|]. rewrite E1 in *. cbn [Z.eqb snd] in *.
    destruct (queue_soft_limit (zlen c + 1) (qt_softlimit (cq_qt k)) =? 0); cbn [negb Z.eqb obind Pos.eqb];
      (eexists _, _; split; [done|]; split; [by rewrite !set_flag_memory|by repeat apply set_flag_rep]).
Qed.

Lemma report_qlimit_same now st ce : let ce' := report_qlimit g now st ce in
  ce' = set_cn_appdata (cn_appdata ce') ce /\
  (cn_appdata ce' = cn_appdata ce \/ exists p, cn_appdata ce = Some p /\ cn_appdata ce' = Some (Appdata (ad_protocol p) now)).
Proof.
  assert (ce = set_cn_appdata (cn_appdata ce) ce) as Hid by (by destruct ce).
  unfold report_qlimit, set_client_qlimit_log_last. destruct (_ || _); [by split; [|left]|]. destruct (_ <? _); [|by split; [|left]].
  destruct (cn_appdata ce) as [p|] eqn:E; cbn zeta; [|rewrite E; by split; [|left]]. split; [by destruct ce|right; by exists p].
Qed.

Lemma delivered_same now status1 ed pk e : wanted status1 ed pk e.2 = None -> delivered now status1 ed pk e e.
Proof.
  intros H. split; try done; [by destruct e as [x []]|by left|]. intros d k q c H'. by rewrite H in H'.
Qed.

(** only the elements of the table have changed *)
Definition same_table (t t' : conn_table_st) : Prop := t' = set_ct_ce (ct_ce t') t.

Lemma same_table_refl t : same_table t t.
Proof. by destruct t. Qed.
Lemma same_table_trans t1 t2 t3 : same_table t1 t2 -> same_table t2 t3 -> same_table t1 t3.
Proof. unfold same_table. intros E1 E2. rewrite E2, E1. done. Qed.
Lemma upd_same_table t i ce t' : upd_ce t i ce = Done t' -> same_table t t'.
Proof. unfold upd_ce. destruct (wr _ _ _) as [a| |]; try done. by intros [= <-]. Qed.

Lemma send_delivers now status1 ed pk e d : wanted status1 ed pk e.2 = Some d -> sendable d e.2 ->
  exists st ce, send_queue d e.2 = Done (st, ce) /\ delivered now status1 ed pk e (e.1, report_qlimit g now st ce).
Proof.
  intros Ew (c & (k & q & Ek & Hn1 & Eq & Hr) & Hdl & Hcl). unfold queue_reclen in Hdl. rewrite Ek in Hdl.
  destruct (snd_delivers k q c d Hn1 Eq Hr Hdl Hcl) as (st & q' & Es & Hm & Hr').
  unfold send_queue. rewrite Ek, Es. cbn [obind]. eexists _, _. split; [done|].
  destruct (report_qlimit_same now st (set_cn_cq (CqPtr (set_cq_qt (put_queue (cq_qt k) 0 q') k)) e.2)) as [R1 R2].
  set (ce := report_qlimit _ _ _ _) in *. split; cbn [fst snd]; [done| |exact R2| |].
  - rewrite R1 at 1. f_equal. by rewrite R1.
  - intros Hno. by rewrite Hno in Ew.
  - intros d' k2 q2 c' Ed' Ek2 Eq2 Hr2. rewrite Ek in Ek2. injection Ek2 as <-. rewrite Eq in Eq2. injection Eq2 as <-.
    assert (c' = c) as -> by (destruct Hr, Hr2; congruence). assert (d' = d) as -> by congruence.
    exists q'. split; [by rewrite R1|done].
Qed.

Lemma send_queues_spec now status1 ed pk l2 : forall l1 t st, table_is t (l1 ++ l2) -> Forall (ready status1 ed pk) l2 ->
  exists t' l2', send_queues_loop g (length l2) (zlen l1) now st status1 ed pk t = Done t' /\
    table_is t' (l1 ++ l2') /\ same_table t t' /\ Forall2 (delivered now status1 ed pk) l2 l2'.
Proof.
  induction l2 as [|e l2 IH]; intros l1 t st H HF; cbn [length send_queues_loop].
  { exists t, []. by split_and!; [|rewrite app_nil_r in *|apply same_table_refl|]. }
  inversion HF as [|? ? [Hfd Hw] HF']; subst. destruct (table_rd _ _ _ _ H) as [-> _]. cbn [obind].
  assert (forall t1 st1 ce, table_is t1 (l1 ++ (e.1, ce) :: l2) -> same_table t t1 -> delivered now status1 ed pk e (e.1, ce) ->
    exists t' l2', send_queues_loop g (length l2) (zlen l1 + 1) now st1 status1 ed pk t1 = Done t' /\
      table_is t' (l1 ++ l2') /\ same_table t t' /\ Forall2 (delivered now status1 ed pk) (e :: l2) l2') as Hnext.
  { intros t1 st1 ce H1 Hs Hd. replace (l1 ++ (e.1, ce) :: l2) with ((l1 ++ [(e.1, ce)]) ++ l2) in H1 by (by rewrite <- app_assoc).
    destruct (IH _ t1 st1 H1 HF') as (t' & l2' & E & H' & Hs' & HF2).
    rewrite zlen_app, zlen_cons, zlen_nil in E. replace (zlen l1 + (1 + 0)) with (zlen l1 + 1) in E by lia.
    exists t', ((e.1, ce) :: l2'). rewrite <- app_assoc in H'. split_and!; [done|done|by eapply same_table_trans|by constructor]. }
  assert (wanted status1 ed pk e.2 = None -> exists t' l2', send_queues_loop g (length l2) (zlen l1 + 1) now st status1 ed pk t = Done t' /\
      table_is t' (l1 ++ l2') /\ same_table t t' /\ Forall2 (delivered now status1 ed pk) (e :: l2) l2') as Hskip.
  { intros Hno. apply (Hnext t st e.2); [by destruct e|apply same_table_refl|]. pose proof (delivered_same now status1 ed pk e Hno). by destruct e. }
  rewrite wanted_queue_for in Hskip.
  destruct (conn_element_isnetclient e.2) eqn:En; cbn [negb].
  2:{ apply Hskip. unfold conn_element_isnetclient_running. by rewrite En. }
  unfold get_client_protocol, conn_table_get_element_appdata. rewrite (table_element _ _ _ _ H). cbn [obind].
  change (match cn_appdata e.2 with Some p => ad_protocol p | None => PROTOCOL_UNKNOWN end) with (get_client_protocol_byce e.2).
  destruct (conn_element_isnetclient_running e.2) eqn:Er; cbn [negb]; [|by apply Hskip].
  destruct (Hfd eq_refl) as [v Ev]. unfold allow_filter_get_flag. rewrite Ev.
  assert ((if g_netfilter_enable g =? 1 then let* v0 := Done v in Done (v0 =? 0) else Done false) = Done (negb (allowed e.2))) as ->.
  { unfold allowed. rewrite Ev. destruct (_ =? 1); cbn; [by rewrite negb_involutive|done]. }
  cbn [obind]. destruct (allowed e.2) eqn:Eal; cbn [negb]; [|by apply Hskip].
  assert (wanted status1 ed pk e.2 = queue_for (get_client_protocol_byce e.2) status1 ed pk) as Ew.
  { by rewrite wanted_queue_for, Er, Eal. }
  assert (exists st' ce, match queue_for (get_client_protocol_byce e.2) status1 ed pk with
    | Some d => send_queue d e.2 | None => Done (st, e.2) end = Done (st', ce) /\
    delivered now status1 ed pk e (e.1, report_qlimit g now st' ce)) as (st' & ce & -> & Hd).
  { destruct (queue_for _ _ _ _) as [d|].
    - by apply send_delivers, Hw.
    - exists st, e.2. split; [done|]. destruct (report_qlimit_same now st e.2) as [R1 R2]. set (ce := report_qlimit _ _ _ _) in *.
      split; cbn [fst snd]; [done| |exact R2| |].
      + rewrite R1 at 1. f_equal. rewrite R1. by destruct e as [? []].
      + intros _. by rewrite R1.
      + intros d k q c Hd. by rewrite Hd in Ew. }
  cbn [obind]. destruct (table_upd_ce t l1 e l2 (report_qlimit g now st' ce) H) as (t1 & E1 & H1 & _).
  { pose proof (dl_same _ _ _ _ _ _ Hd) as Hsm. cbn [snd] in Hsm. by rewrite Hsm. }
  rewrite E1. cbn [obind]. apply (Hnext t1 st' _ H1); [by eapply upd_same_table|done].
Qed.

(** ** The access filter *)

(** the filter is run for the client *)
Definition judged (e : entry) : bool :=
  conn_element_isclient e.2 && negb (conn_element_get_created_flag e.2 =? 0) && (conn_element_get_finished_flag e.2 =? 0).

(** the filter is run for each client in turn, and its flag set, until it fails *)
Fixpoint judge (x : nf) (l : list entry) : Z * nf * list entry :=
  match l with
  | [] => (0, x, [])
  | e :: r =>
      if judged e then
        let (status, x) := nf_exec x (cn_name e.2) (cn_ip e.2) in
        if status =? 0 then
          let '(status, x', r) := judge x r in
          (status, x', (e.1, set_cn_filterdata (Some (allow_value x (cn_name e.2) (cn_ip e.2))) e.2) :: r)
        else (status, x, l)
      else let '(status, x, r) := judge x r in (status, x, e :: r)
  end.
Definition judge_all (f : option nf) (l : list entry) : Z * option nf * list entry :=
  match f with None => (0, None, l) | Some x => let '(status, x, l) := judge x l in (status, Some x, l) end.

Lemma judge_spec l2 : forall l1 x t, table_is t (l1 ++ l2) -> Forall (fun e => judged e = true -> is_Some (cn_filterdata e.2)) l2 ->
  let '(status, x', l2') := judge x l2 in
  exists t', exec_net_filter_loop (length l2) (zlen l1) x t = Done (status, x', t') /\ table_is t' (l1 ++ l2') /\ same_table t t'.
Proof.
  induction l2 as [|e l2 IH]; intros l1 x t H HF; cbn [judge length exec_net_filter_loop].
  { exists t. by split_and!; [| |apply same_table_refl]. }
  apply Forall_cons_iff in HF as [He HF]. rewrite (table_element _ _ _ _ H). cbn [obind].
  assert (forall t1 e1 x1, table_is t1 (l1 ++ e1 :: l2) -> same_table t t1 -> let '(status, x', l2') := judge x1 l2 in
    exists t', exec_net_filter_loop (length l2) (zlen l1 + 1) x1 t1 = Done (status, x', t') /\ table_is t' (l1 ++ e1 :: l2') /\ same_table t t') as Hnext.
  { intros t1 e1 x1 H1 Hs. replace (l1 ++ e1 :: l2) with ((l1 ++ [e1]) ++ l2) in H1 by (by rewrite <- app_assoc).
    specialize (IH _ x1 t1 H1 HF). destruct (judge x1 l2) as [[status x'] l2']. destruct IH as (t' & E & H' & Hs').
    rewrite zlen_app, zlen_cons, zlen_nil in E. replace (zlen l1 + (1 + 0)) with (zlen l1 + 1) in E by lia.
    exists t'. rewrite <- app_assoc in H'. split_and!; [done|done|by eapply same_table_trans]. }
  assert (negb (conn_element_isclient e.2) || (conn_element_get_created_flag e.2 =? 0) || negb (conn_element_get_finished_flag e.2 =? 0) =
    negb (judged e)) as ->.
  { unfold judged. by destruct (conn_element_isclient e.2), (_ =? 0), (conn_element_get_finished_flag e.2 =? 0). }
  destruct (judged e) eqn:Ej; cbn [negb].
  - destruct (nf_exec x (cn_name e.2) (cn_ip e.2)) as [status x1]. destruct (status =? 0); cbn [negb].
    2: { exists t. by split_and!; [| |apply same_table_refl]. }
    destruct (He eq_refl) as [v Ev]. unfold allow_filter_set_flag. rewrite Ev. cbn [obind].
    set (v1 := allow_value _ _ _). destruct (table_upd_ce t l1 e l2 (set_cn_filterdata (Some v1) e.2) H eq_refl) as (t1 & E1 & H1 & _).
    rewrite E1. cbn [obind]. specialize (Hnext t1 _ x1 H1 (upd_same_table _ _ _ _ E1)). destruct (judge x1 l2) as [[st x'] l2']. exact Hnext.
  - specialize (Hnext t e x H (same_table_refl t)). destruct (judge x l2) as [[st x'] l2']. exact Hnext.
Qed.

(** the number of EMWIN clients *)
Definition emwin_clients (l : list entry) : Z :=
  Z.of_nat (length (List.filter (fun e => conn_element_isnetclient_running e.2 &&
    (get_client_protocol_byce e.2 =? PROTOCOL_EMWIN)) l)).

Lemma count_emwin_spec l2 : forall l1 t, table_is t (l1 ++ l2) -> count_emwin (length l2) (zlen l1) t = Done (emwin_clients l2).
Proof.
  induction l2 as [|e l2 IH]; intros l1 t H; cbn [length count_emwin]; [done|].
  destruct (table_rd _ _ _ _ H) as [-> _]. cbn [obind].
  pose proof H as H1. replace (l1 ++ e :: l2) with ((l1 ++ [e]) ++ l2) in H1 by (by rewrite <- app_assoc).
  apply IH in H1. rewrite zlen_app, zlen_cons, zlen_nil in H1. replace (zlen l1 + (1 + 0)) with (zlen l1 + 1) in H1 by lia.
  rewrite H1. cbn [obind]. unfold emwin_clients. cbn [List.filter].
  destruct (conn_element_isnetclient_running e.2); cbn [andb]; [|done].
  unfold get_client_protocol, conn_table_get_element_appdata. rewrite (table_element _ _ _ _ H). cbn [obind].
  change (match cn_appdata e.2 with Some p => ad_protocol p | None => PROTOCOL_UNKNOWN end) with (get_client_protocol_byce e.2).
  destruct (_ =? PROTOCOL_EMWIN); [|done]. cbn [length]. f_equal. lia.
Qed.

(** the EMWIN filter is run: there is somebody to send the file to, or always *)
Definition emwin_run (l : list entry) : bool :=
  (0 <? emwin_clients l) || (negb (g_f_emwinserver_enabled g =? 0) && negb (g_emwinfilter_always g =? 0)).

(** C7: Distribution of a product. When there are clients the EMWIN filter
    answers, and the access filter sets the flag of each client that has a thread
    which has not finished, until it fails for one of them; then nothing is
    sent. Otherwise the packet of the product is put at the end of the queue of
    each client that takes packets, and the file that the EMWIN filter has made at
    the end of the queue of each EMWIN client, if it made one; provided that the
    thread of the client is running, that the client is allowed, and that its
    queue has not reached its hard limit. Nothing else in the table changes but
    the status flags of those queues and the times of the reports of the limits:
    not the numbers of the table, nor anything else of an entry. *)
Theorem product_distributed si pi fl t l p st1 fpathout emwinfname fe
  (Ht : table_is t l) (Hn : ct_nclients t <> 0) (Hp1 : pi_packet pi = Some p)
  (Hem : exec_emwin_filter g (si_regex si) (si_opened si) (si_b si) pi (si_fpathout si) (si_emwinfname si) (fl_emwin fl) =
     Done (st1, fpathout, emwinfname, fe))
  (Hflags : Forall (fun e => judged e = true -> is_Some (cn_filterdata e.2)) l) :
  let run := emwin_run l in
  let status1 := if run then st1 else 0 in
  let emwindata := if run then emwinfname ++ fpathout else si_emwinfname si ++ si_fpathout si in
  let packet := ztake (pi_packet_size pi) p in
  let '(status, fn, l1) := judge_all (fl_net fl) l in
  (status = 0 -> Forall (ready status1 emwindata packet) l1) ->
  exists t' l', server_send_client_queues g si pi fl t =
      Done (0, Filters (if run then fe else fl_emwin fl) fn, t') /\
    table_is t' l' /\ same_table t t' /\
    (status = 0 -> Forall2 (delivered (si_now si) status1 emwindata packet) l1 l') /\ (status <> 0 -> l' = l1).
Proof.
  intros run status1 emwindata packet. destruct (judge_all (fl_net fl) l) as [[status fn] l1] eqn:Ejudge. intros HF. unfold server_send_client_queues.
  assert (Z.to_nat (ct_n t) = length l) as -> by (rewrite (ti_n _ _ Ht); unfold zlen; lia).
  pose proof (count_emwin_spec l [] t Ht) as Ec. change (zlen (@nil entry)) with 0 in Ec. rewrite Ec. cbn [obind]. fold (emwin_run l). fold run.
  set (r := if run then _ else _).
  assert (r = Done (status1, if run then fpathout else si_fpathout si, if run then emwinfname else si_emwinfname si,
    if run then fe else fl_emwin fl)) as ->.
  { subst r status1. by destruct run. }
  cbn [obind fl_net]. destruct (Z.eqb_spec (ct_nclients t) 0); [done|].
  assert (exists t1, match fl_net fl with
    | Some x => let* (status, x0, t0) := exec_net_filter x t in Done (status, Some x0, t0)
    | None => Done (0, None, t) end = Done (status, fn, t1) /\ table_is t1 l1 /\ same_table t t1) as (t1 & -> & Ht1 & Hs1).
  { unfold judge_all in Ejudge. destruct (fl_net fl) as [x|].
    - pose proof (judge_spec l [] x t Ht Hflags) as Hj. destruct (judge x l) as [[st x'] l']. injection Ejudge as -> <- ->.
      destruct Hj as (t1 & E & H1 & Hs). unfold exec_net_filter. rewrite (ti_n _ _ Ht). unfold zlen at 1. rewrite Nat2Z.id.
      change (zlen (@nil entry)) with 0 in E. rewrite E. by exists t1.
    - injection Ejudge as <- <- <-. exists t. by split_and!; [| |apply same_table_refl]. }
  cbn [obind]. destruct (Z.eqb_spec status 0) as [Es|Es]; cbn [negb]; [|by exists t1, l1]. rewrite Hp1.
  assert (Z.to_nat (ct_n t1) = length l1) as -> by (rewrite (ti_n _ _ Ht1); unfold zlen; lia).
  destruct (send_queues_spec (si_now si) status1 emwindata packet l1 [] t1 0 Ht1 (HF Es)) as (t' & l' & E & H' & Hs' & HF').
  change (zlen (@nil entry)) with 0 in E. exists t', l'.
  split; [subst emwindata packet; destruct run; rewrite E; done|]. split_and!; [done|by eapply same_table_trans|done|done].
Qed.
End delivery.

(** ** Finding the entry of an address *)

Lemma table_split_at `{Q : QueueDb} (l1 : list (pollfd * conn_element_st)) e l2 ip :
  cn_ip e.2 = Some ip -> NoDup (ips (l1 ++ e :: l2)) -> find_byip ((l1 ++ e :: l2).*2) ip 0 = zlen l1.
Proof.
  intros Hip Hd. rewrite ips_app, (ips_cons _ _ ip Hip), <- Permutation_middle in Hd.
  apply list.NoDup_cons in Hd as [Hni _]. rewrite elem_of_app in Hni.
  assert (forall i, find_byip ((l1 ++ e :: l2).*2) ip i = i + zlen l1) as ->; [|lia].
  assert (~ ip ∈ ips l1) as Hn1 by tauto. clear -Hip Hn1. induction l1 as [|x l1 IH]; intros i; cbn [app fmap list_fmap find_byip].
  - rewrite Hip, decide_True by done. rewrite zlen_nil. lia.
  - rewrite zlen_cons. assert (~ ip ∈ ips l1) as Hn2.
    { intros Hin. apply Hn1. destruct (cn_ip x.2) as [ip'|] eqn:E; [rewrite (ips_cons _ _ ip' E); set_solver|].
      unfold ips. cbn. by rewrite E. }
    change (@fmap list list_fmap _ _ snd (l1 ++ e :: l2)) with ((l1 ++ e :: l2).*2). rewrite (IH Hn2).
    destruct (cn_ip x.2) as [ip'|] eqn:E; [|lia]. destruct (decide (ip' = ip)) as [->|]; [|lia].
    exfalso. apply Hn1. rewrite (ips_cons _ _ ip E). set_solver.
Qed.

(** ** Clients that have finished *)

Section finished.
#[local] Abbreviation entry := (pollfd * conn_element_st)%type.
Context `{Hp : Heap} `{Q : QueueDb}.

Definition stoped (e : entry) : bool := conn_element_isnetclient_stoped e.2.
Definition finished (l : list entry) : list entry := List.filter stoped l.
Definition alive (l : list entry) : list entry := List.filter (fun e => negb (stoped e)) l.

(** A pass: the entry after one that is deleted takes its place, and is not
    looked at. *)
Fixpoint sweep (l : list entry) : list entry :=
  match l with
  | [] => []
  | e :: r => if stoped e then match r with [] => [] | e2 :: r2 => e2 :: sweep r2 end else e :: sweep r
  end.

Lemma sweep_ind (P : list entry -> Prop) : P [] -> (forall e, P [e]) ->
  (forall e e2 r, P r -> P (e2 :: r) -> P (e :: e2 :: r)) -> forall l, P l.
Proof.
  intros H0 H1 H2 l. assert (P l /\ forall e, P (e :: l)) as [? _]; [|done].
  induction l as [|e l [IH1 IH2]]; [done|]. split; [done|]. intros e'. by apply H2.
Qed.

Lemma sweep_cons2 e e2 r : sweep (e :: e2 :: r) = if stoped e then e2 :: sweep r else e :: sweep (e2 :: r).
Proof. done. Qed.
Lemma filter_cons (f : entry -> bool) e l : List.filter f (e :: l) = if f e then e :: List.filter f l else List.filter f l.
Proof. done. Qed.

Lemma sweep_alive l : alive (sweep l) = alive l.
Proof.
  unfold alive. induction l as [|e|e e2 r IH1 IH2] using sweep_ind; [done| |].
  - cbn. destruct (stoped e) eqn:E; cbn; [done|]. by rewrite E.
  - rewrite sweep_cons2, (filter_cons _ e (e2 :: r)). destruct (stoped e) eqn:E; cbn [negb].
    + by rewrite !filter_cons, IH1.
    + by rewrite filter_cons, E, IH2.
Qed.

Lemma sweep_finished l : (2 * length (finished (sweep l)) <= length (finished l))%nat.
Proof.
  unfold finished. induction l as [|e|e e2 r IH1 IH2] using sweep_ind; [cbn; lia| |].
  - cbn. destruct (stoped e) eqn:E; cbn; [lia|]. rewrite E. cbn. lia.
  - rewrite sweep_cons2, (filter_cons _ e (e2 :: r)). destruct (stoped e) eqn:E.
    + rewrite !filter_cons. destruct (stoped e2); cbn [length]; lia.
    + by rewrite filter_cons, E.
Qed.

Context (qd_close : qd -> Z) (Hclose : forall q, qd_close q = 0).

Lemma process_finished_sweep fuel : forall l2 l1 t os, table_is t (l1 ++ l2) -> entries_ok (l1 ++ l2) os ->
  (length l2 <= fuel)%nat -> exists t' os', process_finished_loop qd_close fuel (zlen l1) (ct_n t) t os = Done (t', os') /\
    table_is t' (l1 ++ sweep l2) /\ entries_ok (l1 ++ sweep l2) os' /\ ct_nclientsmax t' = ct_nclientsmax t.
Proof.
  induction fuel as [|fuel IH]; intros l2 l1 t os H He Hf; pose proof (ti_n _ _ H) as Hn; rewrite zlen_app in Hn;
    (destruct l2 as [|e l2]; [cbn [process_finished_loop]; rewrite zlen_nil in Hn;
      destruct (Z.ltb_spec (zlen l1) (ct_n t)); [lia|by exists t, os]|]); cbn [length] in Hf; [lia|].
  cbn [process_finished_loop]. rewrite zlen_cons in Hn. pose proof (zlen_nonneg l2).
  destruct (Z.ltb_spec (zlen l1) (ct_n t)); [|lia].
  destruct (table_rd _ _ _ _ H) as [-> _]. cbn [obind sweep]. unfold stoped.
  assert (forall a b : list entry, a ++ e :: b = (a ++ [e]) ++ b) as Eapp by (intros a b; by rewrite <- app_assoc).
  destruct (conn_element_isnetclient_stoped e.2) eqn:Es; cbn [negb].
  - assert (client_ok e.2) as Hc.
    { destruct He as [(s & r & E & Hs & HF) _ _]. destruct l1 as [|s1 l1]; cbn [app] in E; injection E as -> <-.
      - apply stoped_isnet, Z.eqb_eq in Es. destruct Hs as [_ Hs _ _ _]. by rewrite Es in Hs.
      - apply Forall_app in HF as [_ HF]. by inversion HF. }
    destruct (table_del qd_close t l1 e l2 os 0 H (release_ok qd_close Hclose _ Hc)) as (t1 & E & Ht1 & Hm).
    destruct (entries_del _ _ _ _ He Hc) as (Ez & He1 & _). unfold kill, poll_kill_client_connection, poll_del_connection.
    rewrite E. cbn [obind]. destruct l2 as [|e2 l2].
    + rewrite app_nil_r in *. exists t1, (close_entry e os).2. split; [|done].
      destruct fuel; cbn [process_finished_loop]; rewrite (ti_n _ _ Ht1); destruct (Z.ltb_spec (zlen l1 + 1) (zlen l1)); done || lia.
    + replace (l1 ++ e2 :: l2) with ((l1 ++ [e2]) ++ l2) in Ht1, He1 by (by rewrite <- app_assoc).
      destruct (IH l2 (l1 ++ [e2]) t1 _ Ht1 He1) as (t' & os' & E' & H' & He' & Hm'); [cbn [length] in Hf; lia|].
      rewrite zlen_app, zlen_cons, zlen_nil in E'. replace (zlen l1 + (1 + 0)) with (zlen l1 + 1) in E' by lia.
      exists t', os'. rewrite <- app_assoc in H', He'. split_and!; try done. by rewrite Hm'.
  - rewrite Eapp in H, He. destruct (IH l2 (l1 ++ [e]) t os H He) as (t' & os' & E' & H' & He' & Hm'); [lia|].
    rewrite zlen_app, zlen_cons, zlen_nil in E'. replace (zlen l1 + (1 + 0)) with (zlen l1 + 1) in E' by lia.
    exists t', os'. rewrite <- app_assoc in H', He'. done.
Qed.

(** [k] turns of the removal *)
Fixpoint finished_passes (k : nat) (t : conn_table_st) (os : gset Z) : outcome (conn_table_st * gset Z) :=
  match k with
  | O => Done (t, os)
  | S k => let* (t, os) := process_finished_connections qd_close t os in finished_passes k t os
  end.

Lemma pass_sweeps t os l : table_is t l -> entries_ok l os ->
  exists t' os', process_finished_connections qd_close t os = Done (t', os') /\
    table_is t' (sweep l) /\ entries_ok (sweep l) os' /\ ct_nclientsmax t' = ct_nclientsmax t.
Proof.
  intros Ht He. destruct (process_finished_sweep (Z.to_nat (ct_n t)) l [] t os Ht He) as (t1 & os1 & E & H1).
  { rewrite (ti_n _ _ Ht). unfold zlen. lia. }
  exists t1, os1. by split.
Qed.

Lemma passes_remove k : forall t os l, table_is t l -> entries_ok l os -> Z.of_nat (length (finished l)) < 2 ^ Z.of_nat k ->
  exists t' os', finished_passes k t os = Done (t', os') /\ table_is t' (alive l) /\ entries_ok (alive l) os' /\
    ct_nclientsmax t' = ct_nclientsmax t.
Proof.
  induction k as [|k IH]; intros t os l Ht He Hk; cbn [finished_passes].
  - assert (alive l = l) as ->; [|by exists t, os]. change (2 ^ Z.of_nat 0) with 1 in Hk.
    assert (length (finished l) = 0%nat) as Hz by lia. clear -Hz. unfold finished, alive in *.
    induction l as [|e l IH]; [done|]. cbn [List.filter] in *. destruct (stoped e); cbn [length negb] in *; [lia|].
    f_equal. by apply IH.
  - destruct (pass_sweeps t os l Ht He) as (t1 & os1 & -> & H1 & He1 & Hm). cbn [obind].
    destruct (IH t1 os1 (sweep l) H1 He1) as (t' & os' & -> & H' & He' & Hm').
    { pose proof (sweep_finished l). rewrite Nat2Z.inj_succ, Z.pow_succ_r in Hk by lia. lia. }
    exists t', os'. rewrite sweep_alive in H', He'. split_and!; try done. by rewrite Hm'.
Qed.

(** C26: Clients that have finished are removed. A pass over the table skips the
    entry that takes the place of a removed one, so that it can leave some of
    them; but each pass at least halves their number, so [k] passes, one each
    second, remove fewer than [2 ^ k] of them, and keep all the other entries in
    their order. *)
Theorem finished_removed (k : nat) t os l (Ht : table_is t l) (He : entries_ok l os)
  (Hk : Z.of_nat (length (finished l)) < 2 ^ Z.of_nat k) :
  (exists t' os', process_finished_connections qd_close t os = Done (t', os') /\ table_is t' (sweep l) /\
     alive (sweep l) = alive l /\ (2 * length (finished (sweep l)) <= length (finished l))%nat) /\
  exists t' os' l', finished_passes k t os = Done (t', os') /\ table_is t' l' /\ entries_ok l' os' /\
    l' = alive l /\ ct_nclientsmax t' = ct_nclientsmax t.
Proof.
  split.
  - destruct (pass_sweeps t os l Ht He) as (t' & os' & E & H' & _). exists t', os'.
    split_and!; [done|done|apply sweep_alive|apply sweep_finished].
  - destruct (passes_remove k t os l Ht He Hk) as (t' & os' & E & H1 & H2 & H3). by exists t', os', (alive l).
Qed.
End finished.

Section theorems.
Context `{Hp : Heap} {HS : HeapSpec Hp} `{Q : QueueDb} `{N : NetFilter}.
Context (qd_close : qd -> Z) (junk_pfd : Z -> list pollfd) (junk_ce : Z -> list conn_element_st)
  (junk : Z -> list Z).

(** C27: A client that reconnects. When the connection of a client has been lost
    and a new one comes from the same address, the entry of the client stays,
    with its thread and its queue; it has the new descriptor, which its thread
    finds with the status of the connection; the other entries are not touched
    and nothing is added. *)
Theorem reconnection_keeps_queue inp o t os l1 e l2 ip ti
  (Ht : table_is t (l1 ++ e :: l2)) (He : entries_ok (l1 ++ e :: l2) os)
  (Hip : cn_ip e.2 = Some ip) (Hti : cn_threadinfo e.2 = Some ti) (Hlost : connection_status ti = 1)
  (Hacc : exists s r, l1 = s :: r /\ let a := in_accept inp (pf_fd s.1) in 0 <= ac_fd a /\ ac_ip a = Some ip) :
  exists fd t', ~ fd ∈ os /\
    poll_add_connection qd_close junk_pfd junk_ce inp o 0 t os = Done (0, t', os ∪ {[fd]}) /\
    table_is t' (l1 ++ (Pollfd fd (pf_events e.1) (pf_revents e.1),
                        set_cn_threadinfo (Some (ThreadInfo (f_thread_created ti) (f_thread_finished ti) 0 fd)) e.2) :: l2).
Proof.
  destruct Hacc as (s & r & -> & H0 & Eip).
  pose proof He as [(s' & r' & E & Hs & HF) Hips _]. cbn [app] in E. injection E as <- <-.
  destruct (table_rd t [] s (r ++ e :: l2) Ht) as [Er Ep]. change (zlen (@nil (pollfd * conn_element_st))) with 0 in Er, Ep.
  unfold poll_add_connection, poll_add_connection_net. rewrite Er, Ep. cbn [obind]. rewrite (se_type _ Hs), Z.eqb_refl.
  destruct (Z.eqb_spec (pf_fd s.1) (-1)) as [Ef|_]; [by destruct Hs|]. cbn [negb c_assert].
  set (a := in_accept inp (pf_fd s.1)) in *. destruct (Z.ltb_spec (ac_fd a) 0); [lia|].
  destruct (new_fd_spec (ac_fd a) os H0) as [Hnf Hn0]. set (fd := new_fd (ac_fd a) os) in *. rewrite Eip.
  unfold poll_restore_connection. rewrite (table_find t _ ip Ht).
  rewrite (table_split_at (s :: r) e l2 ip Hip Hips).
  pose proof (zlen_nonneg (s :: r)). destruct (Z.eqb_spec (zlen (s :: r)) (-1)); [lia|].
  destruct (table_rd _ _ _ _ Ht) as [-> _]. cbn [obind]. unfold conn_element_get_connection_status, conn_element_set_connection_status.
  rewrite Hti, Hlost. cbn [Z.eqb orb Pos.eqb obind]. destruct (Z.eqb_spec fd (-1)); [lia|].
  set (ce := set_cn_threadinfo _ e.2).
  destruct (table_upd_ce t (s :: r) e l2 ce Ht) as (t1 & -> & Ht1 & _); [done|]. cbn [obind Z.eqb negb].
  destruct (table_rd _ _ _ _ Ht1) as [_ ->]. cbn [obind fst].
  destruct (table_upd_pfd t1 (s :: r) (e.1, ce) l2 (Pollfd fd (pf_events e.1) (pf_revents e.1)) Ht1) as (b & -> & Ht2).
  cbn [obind Z.eqb]. exists fd, (set_ct_pfd b t1). split_and!; [done|done|exact Ht2].
Qed.

(** C28: A thread that cannot be created. The queue of the client has been opened
    and is closed, but the element keeps the pointer to it; the element is then
    removed from the table, which closes the queue again: memory that has been
    freed is used. *)
Theorem spawn_failure_double_free (g : server_conf) (create : Z -> Z) t os l1 e l2 c
  (Ht : table_is t (l1 ++ e :: l2)) (He : client_ok e.2) (Hti : cn_threadinfo e.2 = None)
  (Hproto : get_client_protocol_byce e.2 <> PROTOCOL_UNKNOWN)
  (Hopt : valid_str (g_clientoptions g) = 0)
  (Hmem : malloc_ok SIZEOF_ALLOW_FILTER = true /\ malloc_ok SIZEOF_THREAD_INFO = true /\
     connqueue_open junk (CqParam (if get_client_protocol_byce e.2 =? PROTOCOL_EMWIN then emwin_queue_info_get_size
        else g_packet_size g) (g_client_queue_maxsize_soft g) (g_client_queue_maxsize_hard g)) = Some c)
  (Hcreate : create (zlen l1) <> 0) (fuel : nat) :
  spawn_client_loop qd_close junk g (S fuel) create (zlen l1) (ct_n t) t os = Undef.
Proof.
  destruct Hmem as (M1 & M2 & Ho). cbn [spawn_client_loop]. pose proof (table_index _ _ _ _ Ht) as Hi.
  apply andb_true_iff in Hi as [_ ->]. rewrite (table_element _ _ _ _ Ht). cbn [obind].
  unfold get_client_protocol, conn_table_get_element_appdata. rewrite (table_element _ _ _ _ Ht). cbn [obind].
  change (match cn_appdata e.2 with Some p => ad_protocol p | None => PROTOCOL_UNKNOWN end) with (get_client_protocol_byce e.2).
  unfold conn_element_get_created_flag, conn_element_isclient. rewrite Hti, (cl_type _ He).
  destruct (Z.eqb_spec (get_client_protocol_byce e.2) PROTOCOL_UNKNOWN); [done|].
  change (negb (0 =? 0) || negb ((CONN_TYPE_CLIENT_NET =? CONN_TYPE_CLIENT_LOCAL) || (CONN_TYPE_CLIENT_NET =? CONN_TYPE_CLIENT_NET)) || false) with false.
  cbv iota. unfold spawn_client. rewrite Hopt. cbn [Z.eqb negb obind]. unfold allow_filter_init. rewrite M1. cbn [negb Z.eqb].
  unfold conn_element_init4. rewrite M2. cbn [negb]. rewrite Ho.
  assert (client_thread_create (create (zlen l1)) <> 0) as Hct.
  { unfold client_thread_create. by destruct (malloc_ok SIZEOF_CONN_ELEMENT). }
  destruct (Z.eqb_spec (client_thread_create (create (zlen l1))) 0); [done|]. cbn [negb obind Z.eqb].
  set (ce := set_cn_threadinfo None _). destruct (table_upd_ce t l1 e l2 ce Ht) as (t1 & -> & H1 & _); [done|].
  cbn [obind]. change (negb (-1 =? 0)) with true. cbv iota.
  unfold kill, poll_kill_client_connection, poll_del_connection, conn_table_del_element, conn_table_del_element_un.
  rewrite (table_index _ _ _ _ H1). cbn [c_assert]. destruct (table_rd _ _ _ _ H1) as [-> ->]. done.
Qed.

(** A filter that does not answer in time. When nothing comes through the
    fifo of the EMWIN filter each read times out, but the value that tells so is
    compared as an unsigned number and taken for a success: the answer is made of
    what the arrays on the stack held before. *)
Theorem emwin_timeout_accepted (g : server_conf) p b0 b1 b2 b3 fpathout emwinfname
  (Hto : events (pl_fifo p) = [] /\ intr (pl_fifo p) = [])
  (Hf : zlen fpathout = EMWIN_FPATHOUT_SIZE + 1 /\ zlen emwinfname = EMWIN_HEADER_FNAMESIZE + 1) :
  let b := [b0; b1; b2; b3] in
  let n1 := be16 b0 b1 in
  let n2 := be16 b2 b3 in
  (b0 <> 0 -> read_emwin_filter g b fpathout emwinfname (Some p) = Done (b0, fpathout, emwinfname, Some p)) /\
  (b0 = 0 -> 0 < n1 <= EMWIN_FPATHOUT_SIZE -> 0 < n2 <= EMWIN_HEADER_FNAMESIZE ->
     read_emwin_filter g b fpathout emwinfname (Some p) =
       Done (0, ztake n1 fpathout ++ 0 :: zdrop (n1 + 1) fpathout, ztake n2 emwinfname ++ 0 :: zdrop (n2 + 1) emwinfname, Some p)).
Proof.
  intros b n1 n2. destruct Hto as [Hev Hin], Hf as [Hfl Hnl].
  assert (forall a size, 0 < size <= zlen a -> zlen a <= 5000 -> e_emwin_pfilter_read g (Some p) a size = Done (0, a, Some p)) as Hread.
  { intros a size Hs Ha. unfold e_emwin_pfilter_read, pfilter_read, readn_fifo, readm_fifo, readm, sreadm.
    destruct (Z.to_nat size) as [|k] eqn:Ek; [lia|]. cbn [sreadm_loop]. destruct (Z.leb_spec size 0); [lia|].
    assert (read1 (pl_fifo p) (size - 0) 0 = (-2, [], pl_fifo p)) as ->.
    { unfold read1. change (tries 0) with 1%nat. cbn [poll_loop]. unfold get_retry_interrupt. rewrite Hin. cbn [Z.eqb negb].
      unfold sys_poll. by rewrite Hev. }
    assert (wr a 0 [] = Done a) as Hw.
    { rewrite wr_ok; [by rewrite ztake_0|lia|change (zlen (@nil Z)) with 0; lia]. }
    change (0 + 0) with 0. rewrite Hw. cbn [obind]. change (-2 <? 0) with true. change ((-2 =? -2) && (0 <? 0)) with false. cbv iota.
    cbn [obind]. change (-2 =? -2) with true. cbv iota. unfold sys_read. rewrite Hev, Hw. cbn [obind].
    change (-1 =? 0) with false. cbv iota. change (-2 =? -1) with false. cbv iota.
    assert ((u64 (-2) <? size) = false) as ->.
    { apply Z.ltb_ge. change (u64 (-2)) with (2 ^ 64 - 2). lia. }
    cbn [Z.eqb negb obind]. by destruct p. }
  unfold read_emwin_filter. rewrite Hread by (unfold b, zlen; cbn; lia). cbn [obind Z.eqb negb].
  change (rd b 0) with (Done b0). cbn [obind]. split.
  - intros Hb0. by destruct (Z.eqb_spec b0 0).
  - intros -> Hn1 Hn2. cbn [Z.eqb negb]. rewrite Hread by (unfold b, zlen; cbn; lia). cbn [obind Z.eqb negb].
    change (unpack_uint16 b 0) with (Done n1). change (unpack_uint16 b 2) with (Done n2). cbn [obind].
    unfold EMWIN_FPATHOUT_SIZE, EMWIN_HEADER_FNAMESIZE in *.
    assert (forall a n size, zlen a = size -> size <= 5000 -> 0 < n < size -> read_answer g (Some p) a n size =
      Done (0, ztake n a ++ 0 :: zdrop (n + 1) a, Some p)) as Hans.
    { intros a n size Ha Hs Hn. unfold read_answer. destruct (Z.ltb_spec (size - 1) n); [lia|].
      rewrite Hread by lia. cbn [obind]. rewrite wr_ok by (change (zlen [0]) with 1; lia). done. }
    rewrite (Hans fpathout n1 (4096 + 1)) by lia. cbn [obind Z.eqb negb]. rewrite (Hans emwinfname n2 (12 + 1)) by lia. done.
Qed.
End theorems.

(** ** Witnesses *)

Section witnesses.
#[local] Existing Instances demo_heap demo_heap_spec unit_netfilter demo_qd.
#[local] Instance demo_qd_spec : QueueDbSpec demo_qd := fixed_qd_spec 45.
#[local] Instance demo_qd_reliable : QueueDbReliable demo_qd demo_qd_spec := fixed_qd_reliable 45.

Definition table_of (l : list (pollfd * conn_element_st)) : conn_table_st :=
  ConnTable (zlen l) (zlen l) (netclients l) 10 (l.*1) (l.*2) 0.
Lemma table_of_is l : 0 < zlen l < 2 ^ 31 -> table_is (table_of l) l.
Proof.
  intros Hl. split; cbn [ct_n ct_nmax ct_pfd ct_ce ct_nclients table_of]; rewrite ?zlen_fmap; try done;
    exists []; by rewrite app_nil_r.
Qed.

Definition demo_nbspq : nbspq_st := Nbspq [] 0 0 0.
Definition demo_cq : connqueue_st := Connqueue (Qtable 1 0 100 45 [(0, 0)] [demo_nbspq]) (replicate 45 0) 45 0.
Definition demo_listening : pollfd * conn_element_st :=
  (Pollfd 3 POLLIN 0, conn_element_init1 0 3 CONN_TYPE_SERVER_NET 0 None None demo_coptions).
Definition demo_unspawned (fd : Z) : pollfd * conn_element_st :=
  (Pollfd fd POLLIN 0, conn_element_init2 (Some (Appdata PROTOCOL_NBS2 0))
     (conn_element_init1 0 fd CONN_TYPE_CLIENT_NET (-1) (Some [fd]) None demo_coptions)).
Definition demo_client (fd finished status : Z) : pollfd * conn_element_st :=
  ((demo_unspawned fd).1, set_cn_threadinfo (Some (ThreadInfo 1 finished status fd))
     (set_cn_cq (CqPtr demo_cq) (conn_element_init3 (Some 1) (demo_unspawned fd).2))).

Lemma demo_client_ok fd f s : client_ok (demo_client fd f s).2.
Proof. split; try done. split; [done|]. split; [done|]. exists demo_cq. split; [done|]. split; [done|]. by exists demo_nbspq. Qed.
Lemma demo_unspawned_ok fd : client_ok (demo_unspawned fd).2.
Proof. by split. Qed.
Lemma demo_listening_ok : server_entry demo_listening.
Proof. by split. Qed.

Definition demo_table : list (pollfd * conn_element_st) :=
  [demo_listening; demo_client 9 1 0; demo_client 7 1 0; demo_client 8 0 1].
Lemma demo_table_ok : entries_ok demo_table {[3; 7; 8; 9]}.
Proof.
  split.
  - eexists demo_listening, _. split; [done|]. split; [exact demo_listening_ok|].
    by repeat (constructor; [apply demo_client_ok|]).
  - apply (bool_decide_unpack _). by vm_compute.
  - split; apply (bool_decide_unpack _); by vm_compute.
Qed.

Lemma demo_queue fd f s : queue_is (demo_client fd f s).2 [].
Proof. exists demo_cq, demo_nbspq. by repeat split. Qed.

Lemma product_distributed_witness : exists t' l',
  server_send_client_queues demo_sconf demo_send demo_sent (Filters None None) (table_of [demo_listening; demo_client 9 0 0]) =
    Done (0, Filters None None, t') /\
  table_is t' l' /\ same_table (table_of [demo_listening; demo_client 9 0 0]) t' /\
  Forall2 (delivered demo_sconf (si_now demo_send) 0 (si_emwinfname demo_send ++ si_fpathout demo_send) (replicate 45 0))
    [demo_listening; demo_client 9 0 0] l'.
Proof.
  destruct (product_distributed demo_sconf demo_send demo_sent (Filters None None) (table_of [demo_listening; demo_client 9 0 0])
    [demo_listening; demo_client 9 0 0] (replicate 45 0) 1 (si_fpathout demo_send) (si_emwinfname demo_send) None)
    as (t' & l' & E & H1 & H2 & H3 & _).
  - by apply table_of_is.
  - done.
  - done.
  - done.
  - constructor; [done|]. constructor; [|done]. by eexists.
  - intros _. constructor; [by split|]. constructor; [|done]. split; [by eexists|]. intros d Hd.
    exists []. split; [apply demo_queue|]. injection Hd as <-. split; [done|]. by vm_compute.
  - exists t', l'. split_and!; [exact E|exact H1|exact H2|by apply H3].
Defined.

Lemma finished_removed_witness :
  (exists t1 os1, process_finished_connections (fun _ => 0) (table_of demo_table) {[3; 7; 8; 9]} = Done (t1, os1) /\
     table_is t1 [demo_listening; demo_client 7 1 0; demo_client 8 0 1]) /\
  exists t' os' l', finished_passes (fun _ => 0) 2 (table_of demo_table) {[3; 7; 8; 9]} = Done (t', os') /\
  table_is t' l' /\ entries_ok l' os' /\ l' = [demo_listening; demo_client 8 0 1] /\ ct_nclientsmax t' = 10.
Proof.
  destruct (finished_removed (fun _ => 0) (fun _ => eq_refl) 2 (table_of demo_table) {[3; 7; 8; 9]} demo_table) as [(t1 & os1 & E & H1 & _) H2];
    [by apply table_of_is|exact demo_table_ok|done|]. split; [by exists t1, os1|exact H2].
Defined.

Lemma reconnection_keeps_queue_witness : exists fd t', ~ fd ∈ ({[3; 7; 8; 9]} : gset Z) /\
  poll_add_connection (fun _ => 0) no_junk_pfd no_junk_ce
    (PollInput 1 1 (fun _ => 1) (fun _ => 4) (fun _ => (4, [])) (fun _ => Accept 5 (Some [8]) None 1))
    demo_coptions 0 (table_of demo_table) {[3; 7; 8; 9]} = Done (0, t', {[3; 7; 8; 9]} ∪ {[fd]}) /\
  table_is t' ([demo_listening; demo_client 9 1 0; demo_client 7 1 0] ++
    [(Pollfd fd POLLIN 0, set_cn_threadinfo (Some (ThreadInfo 1 0 0 fd)) (demo_client 8 0 1).2)]).
Proof.
  apply (reconnection_keeps_queue (fun _ => 0) no_junk_pfd no_junk_ce
    (PollInput 1 1 (fun _ => 1) (fun _ => 4) (fun _ => (4, [])) (fun _ => Accept 5 (Some [8]) None 1)) demo_coptions
    (table_of demo_table) {[3; 7; 8; 9]} [demo_listening; demo_client 9 1 0; demo_client 7 1 0] (demo_client 8 0 1) []
    [8] (ThreadInfo 1 0 1 8)); [by apply table_of_is|exact demo_table_ok|done|done|done|by eexists _, _].
Defined.

Lemma spawn_failure_double_free_witness :
  spawn_client_loop (fun _ => 0) no_junk (ServerConf 7 1 1 0 0 20 60 None demo_coptions 100 200 45) 2 (fun _ => 11) 1 2
    (table_of [demo_listening; demo_unspawned 9]) {[3; 9]} = Undef.
Proof.
  pose proof (spawn_failure_double_free (fun _ => 0) no_junk
    (ServerConf 7 1 1 0 0 20 60 None demo_coptions 100 200 45) (fun _ => 11)
    (table_of [demo_listening; demo_unspawned 9]) {[3; 9]} [demo_listening] (demo_unspawned 9) []
    (Connqueue (Qtable 1 100 200 45 [] [Nbspq [] 0 1 0]) (no_junk 45) 45 0)) as H.
  apply H; [by apply table_of_is|apply demo_unspawned_ok|done|done|done| |done].
  split; [done|]. split; [done|]. by vm_compute.
Defined.

Lemma emwin_timeout_accepted_witness :
  read_emwin_filter demo_sconf [0; 1; 0; 1] (replicate 4097 47) (replicate 13 46) (Some (Pfilter (Fd [] [] []) [] [])) =
    Done (0, ztake 1 (replicate 4097 47) ++ 0 :: zdrop 2 (replicate 4097 47),
      ztake 1 (replicate 13 46) ++ 0 :: zdrop 2 (replicate 13 46), Some (Pfilter (Fd [] [] []) [] [])).
Proof.
  destruct (emwin_timeout_accepted demo_sconf (Pfilter (Fd [] [] []) [] []) 0 1 0 1 (replicate 4097 47) (replicate 13 46))
    as [_ H]; [by split|by split|]. apply H; [done|by split|by split].
Defined.
End witnesses.
