(* ===== verification/Filters.v ===== *)
(** * Filters: src/src/filters.c and src/src/pfilter.c, the filter thread

    The thread takes the packets from the queue of the filters and gives each one
    to the filters that it has: programs at the other end of a fifo, which get
    the packet, or of a pipe, which get a line with its fields. The filters are
    those of a list in the configuration and those found in a directory; when
    the thread is told so, it closes the pipes and looks for the filters again.

    The array of filters is a list with [nmax] entries, [n] of them used; a null
    pointer is [None]. A fifo that is open is the sequence of what will happen
    on it ([Nreadn]), a pipe what has been written to it and the values of the
    next writes. What the calls to the system return in a turn of the thread is
    an input, [filter_env]. *)

From stdpp Require Import list.
From S2P Require Import Prelude Util CLib Mfile Pctldb Pctl Nreadn Packfp Qdb Strsplit Mspool.
From S2P Require Import Nbsp Slavet Slavefp Serverm.

Definition INITIAL_SIZE : Z := 1.
Definition GROW_FACTOR : Z := 2.
Definition FILTER_TYPE_NONE : Z := 0.
Definition FILTER_TYPE_FIFO : Z := 1.
Definition FILTER_TYPE_PIPE : Z := 2.
Definition FILTERLIST_SEP_CHARS : list Z := [58; 32; 9].
Definition SIZEOF_FILTER_ENTRY : Z := 40.
Definition SIZEOF_PFILTER : Z := 32.
Definition ENOENT : Z := 2.
Definition ENXIO : Z := 6.

(** the tests of [st_mode] *)
Definition S_ISFIFO (mode : Z) : bool := Z.land mode 61440 =? 4096.
Definition S_ISREG (mode : Z) : bool := Z.land mode 61440 =? 32768.
Definition S_IXUSR : Z := 64.

Record filter_entry_st := FilterEntry {
  fe_fd : option fd_st;            (* None: -1 *)
  fe_pfp : option pfilter_st;
  fe_type : Z;
  fe_fname : option (list Z);
  fe_files_sent : Z;
  fe_errors : Z
}.
Definition set_fe_fd v (e : filter_entry_st) :=
  FilterEntry v (fe_pfp e) (fe_type e) (fe_fname e) (fe_files_sent e) (fe_errors e).
Definition set_fe_pfp v (e : filter_entry_st) :=
  FilterEntry (fe_fd e) v (fe_type e) (fe_fname e) (fe_files_sent e) (fe_errors e).
Definition set_fe_stats s r (e : filter_entry_st) :=
  FilterEntry (fe_fd e) (fe_pfp e) (fe_type e) (fe_fname e) s r.

Record filter_list_st := FilterList {
  gl_n : Z;
  gl_nmax : Z;
  gl_filters : option (list filter_entry_st)
}.

(** the members of [g] that are only read *)
Record filter_conf := FilterConf {
  g_sysfilterlist : option (list Z);
  g_filterdevdir : option (list Z);
  g_fspooltype : Z
}.

Inductive open_result := Opened (f : fd_st) | OpenErr (errno : Z).

(** What the system returns in a turn: one answer for each name. A fifo that is
    closed after a write that failed and opened again in the same turn, when the
    list is read again, gets the answer that it had at first. *)
Record filter_env := FilterEnv {
  fv_open : list Z -> open_result;           (* open, of a fifo *)
  fv_popen : list Z -> option (list Z);      (* popen: the values of the writes to come *)
  fv_dir_exists : Z;                         (* dir_exists(g.filterdevdir) *)
  fv_dir : option (list (list Z));           (* the names that readdir returns *)
  fv_stat : list Z -> option Z;              (* stat: the mode *)
  fv_fpathsize : list Z -> Z * Z             (* nbsp_mspoolbdb_fpathsize *)
}.

Section filters.
Context `{Hp : Heap} `{Q : QueueDb}.
Context (g : filter_conf) (v : filter_env).

(** ** Pipes: pfilter.c *)

Definition pfilter_open_script (script : list Z) (fifo : option (list Z)) : outcome (option pfilter_st) :=
  c_assert (negb (zlen script =? 0))
    (let cmdlen := zlen script + match fifo with Some s => zlen s + 1 | None => 0 end in
     if negb (malloc_ok (cmdlen + 1)) then Done None else
     let cmd := match fifo with None => script | Some s => script ++ 32 :: s end in
     c_assert (cmdlen =? zlen cmd)
       (if negb (malloc_ok SIZEOF_PFILTER) then Done None
        else Done (match fv_popen v cmd with
                   | Some r => Some (Pfilter (Fd [] [] []) [] r)
                   | None => None
                   end))).
Definition pfilter_open (script : list Z) : outcome (option pfilter_st) := pfilter_open_script script None.

(** ** The list *)

Definition empty_entry : filter_entry_st := FilterEntry None None FILTER_TYPE_NONE None 0 0.

Definition entry_at (gl : filter_list_st) (i : Z) : outcome filter_entry_st :=
  match gl_filters gl with Some l => rd l i | None => Undef end.
Definition upd_entry (gl : filter_list_st) (i : Z) (e : filter_entry_st) : outcome filter_list_st :=
  match gl_filters gl with
  | Some l => let* l := wr l i [e] in Done (FilterList (gl_n gl) (gl_nmax gl) (Some l))
  | None => Undef
  end.

Definition init_filter_list : Z * filter_list_st :=
  if negb (malloc_ok (INITIAL_SIZE * SIZEOF_FILTER_ENTRY)) then (-1, FilterList 0 0 None)
  else (0, FilterList 0 INITIAL_SIZE (Some (replicate (Z.to_nat INITIAL_SIZE) empty_entry))).

(** [newsize] is an [int] *)
Definition grow_list (gl : filter_list_st) : outcome (Z * filter_list_st) :=
  match gl_filters gl with
  | None => Undef
  | Some l =>
      let newsize := s32 (s32 (gl_nmax gl * GROW_FACTOR) * SIZEOF_FILTER_ENTRY) in
      if negb (malloc_ok (u64 newsize)) then Done (-1, gl) else
      let nmax := s32 (gl_nmax gl * GROW_FACTOR) in
      Done (0, FilterList (gl_n gl) nmax (Some (l ++ replicate (Z.to_nat (nmax - gl_nmax gl)) empty_entry)))
  end.

(** the first index at which [f] holds, or -1 *)
Fixpoint find_index (f : filter_entry_st -> bool) (l : list filter_entry_st) (i : Z) : Z :=
  match l with [] => -1 | e :: l => if f e then i else find_index f l (i + 1) end.
Definition find_empty_entry (gl : filter_list_st) : outcome Z :=
  match gl_filters gl with
  | Some l => Done (find_index (fun e => bool_decide (fe_fname e = None)) l 0)
  | None => Undef
  end.
Definition find_entry (gl : filter_list_st) (path : list Z) : outcome Z :=
  match gl_filters gl with
  | Some l => Done (find_index (fun e => bool_decide (fe_fname e = Some path)) l 0)
  | None => Undef
  end.

Definition add_filter_entry (fname : list Z) (type : Z) (gl : filter_list_st) : outcome (Z * filter_list_st) :=
  let* i := find_entry gl fname in
  if 0 <=? i then Done (0, gl) else
  let* (status, gl, n) :=
    if gl_n gl =? gl_nmax gl
    then let* (status, gl) := grow_list gl in Done (status, gl, gl_n gl)
    else let* n := find_empty_entry gl in Done (0, gl, n) in
  if status =? 0 then
    c_assert (negb (n =? -1))
      (if negb (malloc_ok (zlen fname + 1)) then Done (-1, gl) else
       let* e := entry_at gl n in
       let* gl := upd_entry gl n (FilterEntry (fe_fd e) (fe_pfp e) type (Some fname) 0 0) in
       Done (status, FilterList (gl_n gl + 1) (gl_nmax gl) (gl_filters gl)))
  else Done (status, gl).

(** a pipe is told to end; its errors are ignored *)
Definition delete_filter_entry (i : Z) (gl : filter_list_st) : outcome filter_list_st :=
  let* _ := entry_at gl i in
  let* gl := upd_entry gl i empty_entry in
  Done (FilterList (gl_n gl - 1) (gl_nmax gl) (gl_filters gl)).

Fixpoint delete_all (k : nat) (i : Z) (gl : filter_list_st) : outcome filter_list_st :=
  match k with
  | O => Done gl
  | S k => let* gl := delete_filter_entry i gl in delete_all k (i + 1) gl
  end.
Definition kill_filter_list (gl : filter_list_st) : outcome filter_list_st :=
  match gl_filters gl with
  | None => Done gl
  | Some _ => let* _ := delete_all (Z.to_nat (gl_nmax gl)) 0 gl in Done (FilterList 0 0 None)
  end.

(** ** Finding the filters *)

Definition process_dir_entry (dir name : list Z) (gl : filter_list_st) : outcome (Z * filter_list_st) :=
  let size := zlen dir + zlen name + 2 in
  if negb (malloc_ok size) then Done (-1, gl) else
  let path := dir ++ 47 :: name in
  c_assert (zlen path =? size - 1)
    (match fv_stat v path with
     | Some mode =>
         if S_ISFIFO mode then add_filter_entry path FILTER_TYPE_FIFO gl
         else if S_ISREG mode && negb (Z.land mode S_IXUSR =? 0) then add_filter_entry path FILTER_TYPE_PIPE gl
         else Done (0, gl)
     | None => Done (-1, gl)
     end).

Fixpoint dir_loop (dir : list Z) (names : list (list Z)) (gl : filter_list_st) : outcome (Z * filter_list_st) :=
  match names with
  | [] => Done (0, gl)
  | name :: names =>
      let* (status, gl) := process_dir_entry dir name gl in
      if status =? 0 then dir_loop dir names gl else Done (status, gl)
  end.
Definition get_dev_filters (dir : list Z) (gl : filter_list_st) : outcome (Z * filter_list_st) :=
  match fv_dir v with None => Done (-1, gl) | Some names => dir_loop dir names gl end.

(** [i]: the pointer [q] in the copy *)
Fixpoint sys_loop (fuel : nat) (sp : list Z) (i type : Z) (gl : filter_list_st) : outcome (Z * filter_list_st) :=
  match fuel with
  | O => Undef
  | S fuel =>
      let* (sp, q) := strsep FILTERLIST_SEP_CHARS sp i in
      let* c := rd sp i in
      let* (status, gl) :=
        if negb (c =? 0) then let* p := cstr (zdrop i sp) in add_filter_entry p type gl
        else Done (0, gl) in
      match q with
      | Some i => if status =? 0 then sys_loop fuel sp i type gl else Done (status, gl)
      | None => Done (status, gl)
      end
  end.
Definition get_sys_filters (flist : list Z) (type : Z) (gl : filter_list_st) : outcome (Z * filter_list_st) :=
  if negb (malloc_ok (zlen flist + 1)) then Done (-1, gl)
  else sys_loop (S (length flist)) (flist ++ [0]) 0 type gl.

Definition e_get_filters (gl : filter_list_st) : outcome (Z * filter_list_st) :=
  let* (status, gl) :=
    if valid_str (g_sysfilterlist g) =? 1
    then get_sys_filters (default [] (g_sysfilterlist g)) FILTER_TYPE_PIPE gl else Done (0, gl) in
  if status =? 0 then
    if (valid_str (g_filterdevdir g) =? 1) && (fv_dir_exists v =? 0)
    then get_dev_filters (default [] (g_filterdevdir g)) gl else Done (status, gl)
  else Done (status, gl).

(** ** Opening and closing *)

(** 0, 1 nobody listens, -1 error *)
Definition open_fifo_filter (i : Z) (gl : filter_list_st) : outcome (Z * filter_list_st) :=
  let* e := entry_at gl i in
  c_assert (bool_decide (fe_fd e = None))
    (match fe_fname e with
     | None => Undef
     | Some fname =>
         match fv_open v fname with
         | OpenErr errno => Done (if (errno =? ENOENT) || (errno =? ENXIO) then 1 else -1, gl)
         | Opened f => let* gl := upd_entry gl i (set_fe_fd (Some f) e) in Done (0, gl)
         end
     end).

Definition open_pipe_filter (i : Z) (gl : filter_list_st) : outcome (Z * filter_list_st) :=
  let* e := entry_at gl i in
  match fe_pfp e with
  | Some _ => Abrt
  | None =>
      match fe_fname e with
      | None => Undef
      | Some fname =>
          let* pfp := pfilter_open fname in
          match pfp with
          | None => Done (-1, gl)
          | Some p => let* gl := upd_entry gl i (set_fe_pfp (Some p) e) in Done (0, gl)
          end
      end
  end.

Definition close_fifo_filter (i : Z) (gl : filter_list_st) : outcome filter_list_st :=
  let* e := entry_at gl i in
  match fe_fd e with None => Abrt | Some _ => upd_entry gl i (set_fe_fd None e) end.
Definition close_pipe_filter (i : Z) (gl : filter_list_st) : outcome filter_list_st :=
  let* e := entry_at gl i in
  match fe_pfp e with None => Abrt | Some _ => upd_entry gl i (set_fe_pfp None e) end.

Definition open_one_filter (i : Z) (gl : filter_list_st) : outcome (Z * filter_list_st) :=
  c_assert ((0 <=? i) && (i <? gl_nmax gl))
    (let* e := entry_at gl i in
     match fe_fname e with
     | None => Done (0, gl)
     | Some _ =>
         c_assert (negb (fe_type e =? FILTER_TYPE_NONE))
           (if fe_type e =? FILTER_TYPE_FIFO then open_fifo_filter i gl
            else if fe_type e =? FILTER_TYPE_PIPE then open_pipe_filter i gl
            else Done (0, gl))
     end).

Definition reopen_one_filter (i : Z) (gl : filter_list_st) : outcome (Z * filter_list_st) :=
  c_assert ((0 <=? i) && (i <? gl_nmax gl))
    (let* e := entry_at gl i in
     match fe_fname e with
     | None => Done (0, gl)
     | Some _ =>
         c_assert (negb (fe_type e =? FILTER_TYPE_NONE))
           (if (fe_type e =? FILTER_TYPE_FIFO) && bool_decide (fe_fd e = None) then open_fifo_filter i gl
            else if (fe_type e =? FILTER_TYPE_PIPE) && match fe_pfp e with None => true | _ => false end
            then open_pipe_filter i gl
            else Done (0, gl))
     end).

Fixpoint open_filters_loop (reopen_flag : bool) (k : nat) (i : Z) (gl : filter_list_st) : outcome filter_list_st :=
  match k with
  | O => Done gl
  | S k =>
      let* (status, gl) := if reopen_flag then reopen_one_filter i gl else open_one_filter i gl in
      let* gl := if (status =? -1) || (status =? 1) then delete_filter_entry i gl else Done gl in
      open_filters_loop reopen_flag k (i + 1) gl
  end.
Definition open_filters1 (reopen_flag : bool) (gl : filter_list_st) : outcome filter_list_st :=
  if gl_n gl =? 0 then Done gl else open_filters_loop reopen_flag (Z.to_nat (gl_nmax gl)) 0 gl.
Definition open_filters := open_filters1 false.
Definition reopen_filters := open_filters1 true.

Fixpoint delete_pipes (k : nat) (i : Z) (gl : filter_list_st) : outcome filter_list_st :=
  match k with
  | O => Done gl
  | S k =>
      let* e := entry_at gl i in
      let* gl := if fe_type e =? FILTER_TYPE_PIPE then delete_filter_entry i gl else Done gl in
      delete_pipes k (i + 1) gl
  end.
Definition e_reload_filters (gl : filter_list_st) : outcome (Z * filter_list_st) :=
  let* gl := delete_pipes (Z.to_nat (gl_nmax gl)) 0 gl in
  let* (status, gl) := e_get_filters gl in
  let* gl := reopen_filters gl in
  Done (status, gl).

(** ** Sending *)

(** 0, 1 nobody listens, -1 error, -2 timeout *)
Definition sendto_fifo_filter (i : Z) (pi : packet_info_st) (gl : filter_list_st) : outcome (Z * filter_list_st) :=
  let* e := entry_at gl i in
  let* (status, gl) := match fe_fd e with None => open_fifo_filter i gl | Some _ => Done (0, gl) end in
  if negb (status =? 0) then Done (status, gl) else
  let* e := entry_at gl i in
  match fe_fd e, pi_packet pi with
  | Some f, Some p =>
      let (n, f) := writem f p (pi_packet_size pi) 0 in
      let* gl := upd_entry gl i (set_fe_fd (Some f) e) in
      let status := if n =? -1 then -1 else if negb (u64 n =? pi_packet_size pi) then -2 else 0 in
      let* gl := if negb (status =? 0) then close_fifo_filter i gl else Done gl in
      Done (status, gl)
  | _, _ => Undef
  end.

(** the line, with the size of the file when it is in the memory spool *)
Definition pipe_line (pi : packet_info_st) (fname fpath : list Z) (p : pfilter_st) : Z * pfilter_st :=
  let mspool := negb (spooltype_mspool (g_fspooltype g) =? 0) in
  let fsize := let (st, n) := fv_fpathsize v fpath in if negb (st =? 0) then 0 else n in
  let (n, p) := pfilter_vprintf
                  (info_line (pi_seq_number pi) (pi_product_type pi) (pi_product_category pi)
                     (pi_product_code pi) (pi_np_channel_index pi) fname fpath) p in
  let status := if n <? 0 then -1 else 0 in
  let (status, p) := if mspool && (status =? 0) then
                       let (n, p) := pfilter_vprintf (32 :: dec fsize) p in (if n <? 0 then -1 else status, p)
                     else (status, p) in
  let (status, p) := if status =? 0 then
                       let (n, p) := pfilter_vprintf [10] p in (if n <? 0 then -1 else status, p)
                     else (status, p) in
  if status =? 0 then pfilter_flush p else (status, p).

Definition sendto_pipe_filter (i : Z) (pi : packet_info_st) (gl : filter_list_st) : outcome (Z * filter_list_st) :=
  let* e := entry_at gl i in
  let* (status, gl) := match fe_pfp e with None => open_pipe_filter i gl | Some _ => Done (0, gl) end in
  if negb (status =? 0) then Done (status, gl) else
  let* e := entry_at gl i in
  match fe_pfp e, pi_packet pi, pi_fname pi, pi_fpath pi with
  | Some p, Some b, Some a, Some c =>
      let* fname := cstr (zdrop a b) in
      let* fpath := cstr (zdrop c b) in
      let (status, p) := pipe_line pi fname fpath p in
      let* gl := upd_entry gl i (set_fe_pfp (Some p) e) in
      let* gl := if negb (status =? 0) then close_pipe_filter i gl else Done gl in
      Done (status, gl)
  | _, _, _, _ => Undef
  end.

Definition sendto_one_filter (i : Z) (pi : packet_info_st) (gl : filter_list_st) : outcome (Z * filter_list_st) :=
  c_assert ((0 <=? i) && (i <? gl_nmax gl))
    (let* e := entry_at gl i in
     match fe_fname e with
     | None => Done (0, gl)
     | Some _ =>
         c_assert (negb (fe_type e =? FILTER_TYPE_NONE))
           (let* (status, gl) :=
              if fe_type e =? FILTER_TYPE_FIFO then sendto_fifo_filter i pi gl
              else if fe_type e =? FILTER_TYPE_PIPE then sendto_pipe_filter i pi gl
              else Done (0, gl) in
            let* e := entry_at gl i in
            let* gl := upd_entry gl i (set_fe_stats (u32 (fe_files_sent e + 1))
                         (if negb (status =? 0) then u32 (fe_errors e + 1) else fe_errors e) e) in
            Done (status, gl))
     end).

(** the errors are only reported *)
Fixpoint sendto_loop (k : nat) (i : Z) (pi : packet_info_st) (gl : filter_list_st) : outcome filter_list_st :=
  match k with
  | O => Done gl
  | S k => let* (_, gl) := sendto_one_filter i pi gl in sendto_loop k (i + 1) pi gl
  end.
Definition sendto_filters (pi : packet_info_st) (gl : filter_list_st) : outcome filter_list_st :=
  if gl_n gl =? 0 then Done gl else sendto_loop (Z.to_nat (gl_nmax gl)) 0 pi gl.

(** ** The thread *)

(** [None]: waiting for a packet *)
Definition process_filter_queue (wakeups : list (Z * nbspq_st)) (pi : packet_info_st) (qt : nbsp_qtable_st)
    (gl : filter_list_st) : outcome (option (Z * packet_info_st * nbsp_qtable_st * filter_list_st)) :=
  match pi_packet pi with
  | None => Abrt
  | Some _ =>
      let* r := e_nbspq_rcv_filter qt (pi_packet pi) (pi_packet_size pi) wakeups in
      match r with
      | None => Done None
      | Some (status, p, size, qt) =>
          c_assert (size =? pi_packet_size pi)
            (let pi := PacketInfo (pi_seq_number pi) (pi_product_type pi) (pi_product_category pi)
                         (pi_product_code pi) (pi_np_channel_index pi) (pi_fname pi) (pi_fpath pi) p
                         (pi_packet_size pi) in
             if status =? 1 then Done (Some (0, pi, qt, gl))
             else if negb (status =? 0) then Done (Some (-1, pi, qt, gl))
             else
               let* (status, pi) := nbsfp_unpack_fpath pi in
               let* gl := if status =? 0 then sendto_filters pi gl else Done gl in
               Done (Some (status, pi, qt, gl)))
      end
  end.

(** the text of the report *)
Definition report_filters_stats (now : Z) (gl : filter_list_st) : list Z :=
  [45; 32] ++ dec (u32 now) ++ [10] ++
  concat (map (fun e => match fe_fname e with
                        | Some fname => [32; 32] ++ fname ++ 32 :: dec (fe_files_sent e) ++ 32 :: dec (fe_errors e) ++ [10]
                        | None => []
                        end) (default [] (gl_filters gl))).
Definition reset_filters_stats (gl : filter_list_st) : filter_list_st :=
  FilterList (gl_n gl) (gl_nmax gl) (map (set_fe_stats 0 0) <$> gl_filters gl).

(** a turn of the loop; [reload] and [state]: the flags that are read *)
Definition filter_loop_turn (wakeups : list (Z * nbspq_st)) (reload state : Z) (pi : packet_info_st)
    (qt : nbsp_qtable_st) (gl : filter_list_st)
  : outcome (option (Z * packet_info_st * nbsp_qtable_st * filter_list_st)) :=
  let* r := process_filter_queue wakeups pi qt gl in
  match r with
  | None => Done None
  | Some (status, pi, qt, gl) =>
      let* (status, gl) := if (status =? 0) && (reload =? 1) then e_reload_filters gl else Done (status, gl) in
      Done (Some (status, pi, qt, if negb (state =? 0) then reset_filters_stats gl else gl))
  end.

(** [spooldir], [junk]: for the memory of the packet *)
Definition open_filter_server (spooldir junk : list Z) (pi : packet_info_st)
  : outcome (Z * packet_info_st * filter_list_st) :=
  let (status, pi) := nbsfp_packetinfo_init spooldir junk pi in
  if negb (status =? 0) then Done (-1, pi, FilterList 0 0 None) else
  let (status, gl) := init_filter_list in
  if negb (status =? 0) then Done (status, pi, gl) else
  let* (status, gl) := e_get_filters gl in
  let* gl := open_filters gl in
  Done (status, pi, gl).
Definition close_filter_server (pi : packet_info_st) (gl : filter_list_st)
  : outcome (packet_info_st * filter_list_st) :=
  let* gl := kill_filter_list gl in
  Done (nbsfp_packetinfo_cleanup pi, gl).
End filters.
