(* ===== verification/Filterinv.v ===== *)
(** * Filterinv: what the filter thread does

    The invariant of the list of filters ([Filters]), what each filter gets for a
    product, and which filters there are after the list is read again. *)

From stdpp Require Import gmap.
From S2P Require Import Prelude Util CLib Mfile Pctldb Pctl Nreadn Packfp Qdb Strsplit Mspool.
From S2P Require Import Nbsp Slavet Slavefp Serverm Filters.

(** ** The list of entries *)

Definition names (l : list filter_entry_st) : list (list Z) := omap fe_fname l.

Lemma names_app l1 l2 : names (l1 ++ l2) = names l1 ++ names l2.
Proof. apply omap_app. Qed.
Lemma names_cons e l : names (e :: l) = match fe_fname e with Some nm => nm :: names l | None => names l end.
Proof. done. Qed.
Lemma names_skip l1 l2 : names (l1 ++ empty_entry :: l2) = names (l1 ++ l2).
Proof. by rewrite !names_app, names_cons. Qed.
Lemma names_empty n : names (replicate n empty_entry) = [].
Proof. by induction n. Qed.

Definition fd_ok (f : option fd_st) : Prop := match f with Some f => Forall room_ok (events f) | None => True end.

(** an entry: not used, or a fifo, or a pipe *)
Definition entry_ok (e : filter_entry_st) : Prop :=
  match fe_fname e with
  | None => e = empty_entry
  | Some nm => nm <> [] /\ fd_ok (fe_fd e) /\
      (fe_type e = FILTER_TYPE_FIFO /\ fe_pfp e = None \/ fe_type e = FILTER_TYPE_PIPE /\ fe_fd e = None)
  end.

Record list_is (gl : filter_list_st) (l : list filter_entry_st) : Prop := ListIs {
  li_filters : gl_filters gl = Some l;
  li_nmax : gl_nmax gl = zlen l;
  li_n : gl_n gl = zlen (names l);
  li_size : 0 < zlen l /\ zlen l * SIZEOF_FILTER_ENTRY < 2 ^ 31;
  li_entries : Forall entry_ok l;
  li_names : NoDup (names l)
}.

(** what is opened can be written to *)
Definition env_ok (v : filter_env) : Prop := forall nm f, fv_open v nm = Opened f -> Forall room_ok (events f).

Section list.
Context `{Hp : Heap} {HS : HeapSpec Hp}.

Lemma names_le l : zlen (names l) <= zlen l.
Proof.
  induction l as [|e l IH]; [done|]. rewrite names_cons, zlen_cons. destruct (fe_fname e); rewrite ?zlen_cons; lia.
Qed.

Lemma list_entry gl l1 e l2 : list_is gl (l1 ++ e :: l2) -> entry_at gl (zlen l1) = Done e.
Proof.
  intros H. unfold entry_at. rewrite (li_filters _ _ H). apply rd_Done.
  pose proof (zlen_nonneg l1). by rewrite znth_app_r, Z.sub_diag by lia.
Qed.

Lemma list_index gl l1 e l2 : list_is gl (l1 ++ e :: l2) -> (0 <=? zlen l1) && (zlen l1 <? gl_nmax gl) = true.
Proof.
  intros H. rewrite (li_nmax _ _ H), zlen_app, zlen_cons. pose proof (zlen_nonneg l1). pose proof (zlen_nonneg l2).
  apply andb_true_iff. split; [apply Z.leb_le|apply Z.ltb_lt]; lia.
Qed.

Lemma list_entry_ok gl l1 e l2 : list_is gl (l1 ++ e :: l2) -> entry_ok e.
Proof. intros [_ _ _ _ HF _]. apply Forall_app in HF as [_ HF]. by inversion HF. Qed.

(** an entry is replaced by another; the count is adjusted afterwards *)
Lemma list_upd gl l1 e l2 e' d : list_is gl (l1 ++ e :: l2) -> entry_ok e' ->
  NoDup (names (l1 ++ e' :: l2)) -> d = zlen (names (l1 ++ e' :: l2)) - zlen (names (l1 ++ e :: l2)) ->
  exists gl', upd_entry gl (zlen l1) e' = Done gl' /\ gl_n gl' = gl_n gl /\
    list_is (FilterList (gl_n gl' + d) (gl_nmax gl') (gl_filters gl')) (l1 ++ e' :: l2).
Proof.
  intros [E Em En Es HF Hn] He' Hn' ->. unfold upd_entry. rewrite E.
  rewrite wr_app by (done || (rewrite !zlen_cons, zlen_nil; pose proof (zlen_nonneg l2); lia)).
  change (zdrop (zlen [e']) (e :: l2)) with l2. cbn [obind app]. eexists. split; [done|]. split; [done|].
  assert (zlen (l1 ++ e' :: l2) = zlen (l1 ++ e :: l2)) as El by (by rewrite !zlen_app, !zlen_cons).
  split; cbn [gl_n gl_nmax gl_filters]; [done|by rewrite El|lia|by rewrite El| |done].
  apply Forall_app in HF as [HF1 HF2]. inversion HF2; subst. apply Forall_app. split; [done|by constructor].
Qed.

(** the same with the same name *)
Lemma list_set gl l1 e l2 e' : list_is gl (l1 ++ e :: l2) -> entry_ok e' -> fe_fname e' = fe_fname e ->
  exists gl', upd_entry gl (zlen l1) e' = Done gl' /\ list_is gl' (l1 ++ e' :: l2).
Proof.
  intros H He' En. assert (names (l1 ++ e' :: l2) = names (l1 ++ e :: l2)) as E by (by rewrite !names_app, !names_cons, En).
  destruct (list_upd gl l1 e l2 e' 0 H He') as (gl' & -> & Eg & H'); [rewrite E; apply (li_names _ _ H)|rewrite E; lia|].
  exists gl'. split; [done|]. rewrite Z.add_0_r in H'. by destruct gl'.
Qed.

Lemma empty_ok : entry_ok empty_entry.
Proof. done. Qed.

Lemma NoDup_drop_name l1 (e : filter_entry_st) l2 nm : fe_fname e = Some nm -> NoDup (names (l1 ++ e :: l2)) -> NoDup (names (l1 ++ l2)) /\ ~ nm ∈ names (l1 ++ l2).
Proof.
  intros E H. rewrite names_app, names_cons, E in H. rewrite names_app. rewrite <- Permutation_middle in H.
  apply list.NoDup_cons in H. tauto.
Qed.

(** deleting an entry that is used *)
Lemma list_delete gl l1 e l2 nm : list_is gl (l1 ++ e :: l2) -> fe_fname e = Some nm ->
  exists gl', delete_filter_entry (zlen l1) gl = Done gl' /\ list_is gl' (l1 ++ empty_entry :: l2).
Proof.
  intros H E. unfold delete_filter_entry. rewrite (list_entry _ _ _ _ H). cbn [obind].
  destruct (NoDup_drop_name _ _ _ _ E (li_names _ _ H)) as [Hn _].
  destruct (list_upd gl l1 e l2 empty_entry (-1) H empty_ok) as (gl' & -> & Eg & H').
  - by rewrite names_skip.
  - rewrite !names_app, !names_cons, E, !zlen_app, zlen_cons. cbn [fe_fname empty_entry]. lia.
  - cbn [obind]. by eexists.
Qed.

Lemma find_index_spec f l : forall i,
  find_index f l i = -1 /\ Forall (fun e => f e = false) l \/
  exists l1 e l2, l = l1 ++ e :: l2 /\ find_index f l i = i + zlen l1 /\ f e = true /\ Forall (fun e => f e = false) l1.
Proof.
  induction l as [|e l IH]; intros i; cbn [find_index]; [by left|]. destruct (f e) eqn:Ef.
  - right. exists [], e, l. rewrite zlen_nil. split_and!; [done|lia|done|done].
  - destruct (IH (i + 1)) as [[-> HF]|(l1 & e' & l2 & -> & -> & Hf & HF)].
    + left. split; [done|by constructor].
    + right. exists (e :: l1), e', l2. rewrite zlen_cons. split_and!; [done|lia|done|by constructor].
Qed.

Lemma not_in_names l nm : Forall (fun e => bool_decide (fe_fname e = Some nm) = false) l -> ~ nm ∈ names l.
Proof.
  intros HF Hin. apply list_elem_of_omap in Hin as (e & He & E). rewrite list.Forall_forall in HF. specialize (HF e He).
  by apply bool_decide_eq_false in HF.
Qed.

Lemma full_names l : Forall (fun e => bool_decide (fe_fname e = None) = false) l -> zlen (names l) = zlen l.
Proof.
  induction 1 as [|e l He _ IH]; [done|]. apply bool_decide_eq_false in He. rewrite names_cons, zlen_cons.
  destruct (fe_fname e); [|done]. rewrite zlen_cons. lia.
Qed.

(** growing keeps the entries *)
Lemma list_grow gl l : list_is gl l -> exists st gl', grow_list gl = Done (st, gl') /\
  (st = -1 /\ gl' = gl /\ malloc_ok (u64 (s32 (zlen l * 2 * SIZEOF_FILTER_ENTRY))) = false \/ st = 0 /\ list_is gl' (l ++ replicate (length l) empty_entry)).
Proof.
  intros [E Em En [H1 H2] HF Hn]. unfold grow_list. rewrite E, Em. unfold GROW_FACTOR, SIZEOF_FILTER_ENTRY in *.
  rewrite (s32_small (zlen l * 2)) by lia.
  destruct (malloc_ok (u64 (s32 (zlen l * 2 * 40)))) eqn:Ea; cbn [negb]; [|eexists _, _; split; [done|left; by split_and!]].
  assert (zlen l * 2 * 40 < 2 ^ 31) as Hlt.
  { destruct (Z.lt_ge_cases (zlen l * 2 * 40) (2 ^ 31)) as [|Hge]; [done|]. exfalso.
    assert (s32 (zlen l * 2 * 40) = zlen l * 2 * 40 - 2 ^ 32) as Es.
    { unfold s32. rewrite <- (Z_mod_plus_full _ (-1)), Z.mod_small by lia. lia. }
    rewrite malloc_bound in Ea; [done|]. rewrite Es. unfold u64.
    rewrite <- (Z_mod_plus_full _ 1 (2 ^ 64)), Z.mod_small by lia. lia. }
  eexists _, _. split; [done|]. right. split; [done|].
  replace (Z.to_nat (zlen l * 2 - zlen l)) with (length l) by (unfold zlen in *; lia).
  assert (zlen (l ++ replicate (length l) empty_entry) = zlen l * 2) as El.
  { rewrite zlen_app. unfold zlen. rewrite length_replicate. lia. }
  split; cbn [gl_n gl_nmax gl_filters]; rewrite ?names_app, ?names_empty, ?app_nil_r; try done.
  - rewrite El. unfold SIZEOF_FILTER_ENTRY. lia.
  - apply Forall_app. split; [done|]. apply Forall_replicate, empty_ok.
Qed.

(** the entries that are used *)
Definition used (l : list filter_entry_st) : list filter_entry_st := filter (fun e => is_Some (fe_fname e)) l.

Lemma used_app l1 l2 : used (l1 ++ l2) = used l1 ++ used l2.
Proof. apply list.filter_app. Qed.
Lemma used_some e l : is_Some (fe_fname e) -> used (e :: l) = e :: used l.
Proof. intros H. unfold used. by rewrite list.filter_cons_True. Qed.
Lemma used_none e l : fe_fname e = None -> used (e :: l) = used l.
Proof. intros H. unfold used. rewrite list.filter_cons_False; [done|]. rewrite H. apply is_Some_None. Qed.
Lemma used_empty n : used (replicate n empty_entry) = [].
Proof. induction n; [done|]. cbn [replicate]. by rewrite used_none. Qed.
Lemma names_used l : names (used l) = names l.
Proof.
  induction l as [|e l IH]; [done|]. destruct (fe_fname e) as [nm|] eqn:E.
  - rewrite used_some by by eexists. by rewrite !names_cons, E, IH.
  - by rewrite used_none, names_cons, E.
Qed.
Lemma names_Permutation l l' : used l ≡ₚ used l' -> names l ≡ₚ names l'.
Proof. intros H. rewrite <- (names_used l), <- (names_used l'). unfold names. by rewrite H. Qed.

Definition new_entry (nm : list Z) (type : Z) : filter_entry_st := FilterEntry None None type (Some nm) 0 0.

(** a new name takes an entry that is not used; the used ones stay *)
Lemma list_add gl l nm type : list_is gl l -> nm <> [] -> type = FILTER_TYPE_FIFO \/ type = FILTER_TYPE_PIPE ->
  exists st gl' l', add_filter_entry nm type gl = Done (st, gl') /\ list_is gl' l' /\
    (nm ∈ names l /\ st = 0 /\ used l' = used l \/
     ~ nm ∈ names l /\ st = 0 /\ used l' ≡ₚ new_entry nm type :: used l \/
     st = -1 /\ used l' = used l /\
       (malloc_ok (zlen nm + 1) = false \/ malloc_ok (u64 (s32 (zlen l * 2 * SIZEOF_FILTER_ENTRY))) = false)).
Proof.
  intros H Hnm Hty. unfold add_filter_entry, find_entry. rewrite (li_filters _ _ H). cbn [obind].
  destruct (find_index_spec (fun e => bool_decide (fe_fname e = Some nm)) l 0)
    as [[-> HF]|(l1 & e & l2 & El & -> & Ef & _)].
  2:{ pose proof (zlen_nonneg l1). destruct (Z.leb_spec 0 (0 + zlen l1)); [|lia]. exists 0, gl, l.
      split; [done|]. split; [done|]. left. split; [|done]. apply bool_decide_eq_true in Ef.
      rewrite El, names_app, names_cons, Ef. set_solver. }
  apply not_in_names in HF. change (0 <=? -1) with false. cbv iota.
  (* an unused entry, at the end or among the others *)
  set (r := if gl_n gl =? gl_nmax gl then _ else _).
  assert (exists st gl1 n, r = Done (st, gl1, n) /\
    (st = -1 /\ gl1 = gl /\ malloc_ok (u64 (s32 (zlen l * 2 * SIZEOF_FILTER_ENTRY))) = false \/
     st = 0 /\ exists l1 l2, n = zlen l1 /\ list_is gl1 (l1 ++ empty_entry :: l2) /\ used (l1 ++ empty_entry :: l2) = used l))
    as (st & gl1 & n & -> & Hr).
  { subst r. destruct (Z.eqb_spec (gl_n gl) (gl_nmax gl)) as [Ef|Ef].
    - destruct (list_grow gl l H) as (st & gl1 & -> & Hg). cbn [obind]. exists st, gl1, (gl_n gl1). split; [done|].
      destruct Hg as [(-> & -> & Ha)|[-> Hg]]; [left; by split_and!|right]. split; [done|].
      destruct (li_size _ _ H) as [Hs _]. destruct l as [|e0 l0] eqn:El; [done|].
      change (length (e0 :: l0)) with (S (length l0)) in Hg. rewrite <- El in *. cbn [replicate] in Hg.
      exists l, (replicate (length l0) empty_entry). split; [|split; [done|]].
      + rewrite (li_n _ _ Hg), names_app, names_cons, names_empty. cbn [fe_fname empty_entry]. rewrite app_nil_r.
        rewrite <- (li_n _ _ H), Ef. by rewrite (li_nmax _ _ H).
      + rewrite used_app, used_none, used_empty by done. by rewrite app_nil_r.
    - unfold find_empty_entry. rewrite (li_filters _ _ H). cbn [obind]. eexists _, _, _. split; [done|]. right. split; [done|].
      destruct (find_index_spec (fun e => bool_decide (fe_fname e = None)) l 0)
        as [[_ HF2]|(l1 & e & l2 & El & -> & Efe & _)].
      + apply full_names in HF2. exfalso. apply Ef. by rewrite (li_n _ _ H), HF2, (li_nmax _ _ H).
      + apply bool_decide_eq_true in Efe. rewrite El in H. pose proof (list_entry_ok _ _ _ _ H) as He. unfold entry_ok in He.
        rewrite Efe in He. subst e. exists l1, l2. split; [lia|]. by rewrite El. }
  cbn [obind]. destruct Hr as [(-> & -> & Ha)|(-> & l1 & l2 & -> & H1 & Hu)].
  - change (-1 =? 0) with false. cbv iota. exists (-1), gl, l. split; [done|]. split; [done|]. right. right. by auto.
  - pose proof (zlen_nonneg l1). cbn [Z.eqb]. destruct (Z.eqb_spec (zlen l1) (-1)); [lia|]. cbn [negb c_assert].
    destruct (malloc_ok (zlen nm + 1)) eqn:Ea; cbn [negb].
    2:{ exists (-1), gl1, (l1 ++ empty_entry :: l2). split; [done|]. split; [done|]. right. right. by auto. }
    rewrite (list_entry _ _ _ _ H1). cbn [obind fe_fd fe_pfp empty_entry]. fold (new_entry nm type).
    assert (~ nm ∈ names (l1 ++ l2)) as Hni.
    { rewrite <- names_used in HF. rewrite <- Hu, names_used in HF. by rewrite names_skip in HF. }
    destruct (list_upd gl1 l1 empty_entry l2 (new_entry nm type) 1 H1) as (gl' & -> & Eg & H').
    + unfold entry_ok. cbn. split; [done|]. split; [done|]. destruct Hty as [->| ->]; [by left|by right].
    + rewrite names_app, names_cons. cbn [fe_fname new_entry]. rewrite <- Permutation_middle.
      apply list.NoDup_cons. rewrite <- names_app. split; [done|].
      pose proof (li_names _ _ H1) as Hn. by rewrite names_skip in Hn.
    + rewrite !names_app, !names_cons, !zlen_app. cbn [fe_fname new_entry empty_entry]. rewrite zlen_cons. lia.
    + cbn [obind]. eexists _, _, _. split; [done|]. split; [exact H'|]. right. left. split; [done|]. split; [done|].
      rewrite <- Hu, !used_app, used_some, (used_none empty_entry) by (done || by eexists).
      by rewrite Permutation_middle.
Qed.

(** ** Opening *)

Context (v : filter_env) (Hv : env_ok v).

(** the other end of a fifo, or of a pipe, if it is open or can be opened *)
Definition listener (e : filter_entry_st) : option fd_st :=
  match fe_fd e, fe_fname e with
  | Some f, _ => Some f
  | None, Some nm => match fv_open v nm with Opened f => Some f | OpenErr _ => None end
  | None, None => None
  end.
Definition program (e : filter_entry_st) : option pfilter_st :=
  match fe_pfp e, fe_fname e with
  | Some p, _ => Some p
  | None, Some nm =>
      if malloc_ok (zlen nm + 1) && malloc_ok SIZEOF_PFILTER then Pfilter (Fd [] [] []) [] <$> fv_popen v nm else None
  | None, None => None
  end.

Lemma listener_ok e f : entry_ok e -> listener e = Some f -> fd_ok (Some f).
Proof.
  unfold listener, entry_ok. destruct (fe_fd e) as [f0|] eqn:Ef, (fe_fname e) as [nm|] eqn:En.
  - intros (_ & Hf & _) [= ->]. exact Hf.
  - intros ->. done.
  - intros _. destruct (fv_open v nm) eqn:Eo; intros [= <-]. by eapply Hv.
  - done.
Qed.

Lemma open_fifo_at gl l1 e l2 nm : list_is gl (l1 ++ e :: l2) -> fe_fname e = Some nm -> fe_type e = FILTER_TYPE_FIFO ->
  fe_fd e = None -> exists st gl', open_fifo_filter v (zlen l1) gl = Done (st, gl') /\
    match listener e with
    | Some f => st = 0 /\ list_is gl' (l1 ++ set_fe_fd (Some f) e :: l2)
    | None => (st = 1 \/ st = -1) /\ gl' = gl
    end.
Proof.
  intros H En Et Ef. pose proof (list_entry_ok _ _ _ _ H) as He. pose proof (listener_ok e) as Hl.
  unfold open_fifo_filter, listener in *. rewrite (list_entry _ _ _ _ H). cbn [obind]. rewrite Ef in *. rewrite En in *.
  cbn [bool_decide c_assert]. rewrite bool_decide_true by done. cbn [c_assert].
  destruct (fv_open v nm) as [f|errno] eqn:Eo.
  - destruct (list_set gl l1 e l2 (set_fe_fd (Some f) e) H) as (gl' & -> & H'); [|done|].
    + unfold entry_ok in *. cbn [fe_fname set_fe_fd fe_fd fe_type fe_pfp]. rewrite En in *.
      pose proof He as (? & _ & [[_ Hpf]|[Et' _]]); [|by rewrite Et in Et']. split; [done|]. split; [by apply (Hl f He)|by left].
    + cbn [obind]. eexists _, _. by split.
  - eexists _, _. split; [done|]. split; [|done]. destruct (_ || _); auto.
Qed.

Lemma open_pipe_at gl l1 e l2 nm : list_is gl (l1 ++ e :: l2) -> fe_fname e = Some nm -> fe_type e = FILTER_TYPE_PIPE ->
  fe_pfp e = None -> exists st gl', open_pipe_filter v (zlen l1) gl = Done (st, gl') /\
    match program e with
    | Some p => st = 0 /\ list_is gl' (l1 ++ set_fe_pfp (Some p) e :: l2)
    | None => st = -1 /\ gl' = gl
    end.
Proof.
  intros H En Et Ep. pose proof (list_entry_ok _ _ _ _ H) as He.
  unfold open_pipe_filter, program. rewrite (list_entry _ _ _ _ H). cbn [obind]. rewrite Ep, En.
  unfold pfilter_open, pfilter_open_script. unfold entry_ok in He. rewrite En in He. destruct He as (Hnm & Hf & Ht).
  assert (0 < zlen nm) by (destruct nm; [done|rewrite zlen_cons; pose proof (zlen_nonneg nm); lia]).
  destruct (Z.eqb_spec (zlen nm) 0); [lia|]. cbn [negb c_assert]. rewrite Z.add_0_r.
  destruct (malloc_ok (zlen nm + 1)); cbn [negb andb obind]; [|by eexists _, _].
  rewrite Z.eqb_refl. cbn [c_assert]. destruct (malloc_ok SIZEOF_PFILTER); cbn [negb obind]; [|by eexists _, _].
  destruct (fv_popen v nm) as [r|]; cbn [obind fmap option_fmap option_map]; [|by eexists _, _].
  destruct (list_set gl l1 e l2 (set_fe_pfp (Some (Pfilter (Fd [] [] []) [] r)) e) H) as (gl' & -> & H'); [|done|].
  - unfold entry_ok. cbn [fe_fname set_fe_pfp fe_fd fe_type fe_pfp]. rewrite En. split; [done|]. split; [done|].
    destruct Ht as [[Et' _]|[_ Hfd]]; [by rewrite Et in Et'|]. by right.
  - cbn [obind]. eexists _, _. by split.
Qed.

(** the entry after the filters have been opened: those that cannot be are
    removed *)
Definition opened (e : filter_entry_st) : filter_entry_st :=
  match fe_fname e with
  | None => e
  | Some _ =>
      if fe_type e =? FILTER_TYPE_FIFO
      then match listener e with Some f => set_fe_fd (Some f) e | None => empty_entry end
      else match program e with Some p => set_fe_pfp (Some p) e | None => empty_entry end
  end.

Definition closed (e : filter_entry_st) : Prop := fe_fd e = None /\ fe_pfp e = None.

Lemma entry_cases e nm : entry_ok e -> fe_fname e = Some nm ->
  (fe_type e =? FILTER_TYPE_NONE) = false /\
  (fe_type e = FILTER_TYPE_FIFO /\ fe_pfp e = None \/ fe_type e = FILTER_TYPE_PIPE /\ fe_fd e = None).
Proof. unfold entry_ok. intros He En. rewrite En in He. destruct He as (_ & _ & Ht). split; [|done]. by destruct Ht as [[-> _]|[-> _]]. Qed.

Lemma set_fd_id e f : fe_fd e = Some f -> set_fe_fd (Some f) e = e.
Proof. destruct e. cbn. by intros ->. Qed.
Lemma set_pfp_id e p : fe_pfp e = Some p -> set_fe_pfp (Some p) e = e.
Proof. destruct e. cbn. by intros ->. Qed.

Lemma open_step gl l1 e l2 flag : list_is gl (l1 ++ e :: l2) -> (flag = false -> closed e) ->
  exists gl', (let* (status, gl) := if flag then reopen_one_filter v (zlen l1) gl else open_one_filter v (zlen l1) gl in
    if (status =? -1) || (status =? 1) then delete_filter_entry (zlen l1) gl else Done gl) = Done gl' /\
    list_is gl' (l1 ++ opened e :: l2).
Proof.
  intros H Hc. unfold opened.
  assert ((if flag then reopen_one_filter v (zlen l1) gl else open_one_filter v (zlen l1) gl) =
    match fe_fname e with
    | None => Done (0, gl)
    | Some _ =>
        if fe_type e =? FILTER_TYPE_FIFO then
          if bool_decide (fe_fd e = None) then open_fifo_filter v (zlen l1) gl else Done (0, gl)
        else match fe_pfp e with None => open_pipe_filter v (zlen l1) gl | Some _ => Done (0, gl) end
    end) as ->.
  { unfold reopen_one_filter, open_one_filter. rewrite (list_index _ _ _ _ H), (list_entry _ _ _ _ H). cbn [c_assert obind].
    destruct (fe_fname e) as [nm|] eqn:En; [|by destruct flag].
    destruct (entry_cases e nm (list_entry_ok _ _ _ _ H) En) as [-> Ht]. cbn [negb c_assert].
    destruct flag; [|destruct Hc as [-> ->]; [done|]; rewrite bool_decide_true by done];
      (destruct Ht as [[-> ?]|[-> ?]]; cbn [Z.eqb FILTER_TYPE_FIFO FILTER_TYPE_PIPE Pos.eqb andb]; [|by destruct (fe_pfp e)]).
    - by destruct (bool_decide _).
    - done. }
  destruct (fe_fname e) as [nm|] eqn:En; [|by exists gl].
  assert (forall r st, r = Done (st, gl) -> st = 1 \/ st = -1 -> exists gl',
    (let* (status, gl) := r in if (status =? -1) || (status =? 1) then delete_filter_entry (zlen l1) gl else Done gl) = Done gl' /\
      list_is gl' (l1 ++ empty_entry :: l2)) as Hdel.
  { intros r st -> Hst. cbn [obind]. destruct (list_delete gl l1 e l2 nm H En) as (gl' & Ed & H').
    exists gl'. split; [|done]. by destruct Hst as [-> | ->]. }
  destruct (entry_cases e nm (list_entry_ok _ _ _ _ H) En) as [_ [[Et Hpf]|[Et Hf]]]; rewrite Et.
  - change (FILTER_TYPE_FIFO =? FILTER_TYPE_FIFO) with true. cbv iota. destruct (fe_fd e) as [f|] eqn:Ef.
    + rewrite bool_decide_false by done. exists gl. split; [done|]. unfold listener. rewrite Ef. by rewrite set_fd_id.
    + rewrite bool_decide_true by done. destruct (open_fifo_at gl l1 e l2 nm H En Et Ef) as (st & gl' & Eo & Ho).
      destruct (listener e) as [f|]; [destruct Ho as [-> Ho]; rewrite Eo; by exists gl'|]. destruct Ho as [Hst ->]. by eapply Hdel.
  - change (FILTER_TYPE_PIPE =? FILTER_TYPE_FIFO) with false. cbv iota. destruct (fe_pfp e) as [p|] eqn:Ep.
    + exists gl. split; [done|]. unfold program. rewrite Ep. by rewrite set_pfp_id.
    + destruct (open_pipe_at gl l1 e l2 nm H En Et Ep) as (st & gl' & Eo & Ho).
      destruct (program e) as [p|]; [destruct Ho as [-> Ho]; rewrite Eo; by exists gl'|]. destruct Ho as [Hst ->]. eapply Hdel; [done|by right].
Qed.

(** a step of a loop over the entries *)
Lemma next_entry {A} (l1 : list A) e e' l2 :
  l1 ++ e' :: l2 = (l1 ++ [e']) ++ l2 /\ zlen (l1 ++ [e']) = zlen l1 + 1 /\ l1 ++ e :: l2 = (l1 ++ [e]) ++ l2.
Proof. split_and!; [by rewrite <- app_assoc|by rewrite zlen_app|by rewrite <- app_assoc]. Qed.

Lemma open_loop_spec flag l2 : forall l1 gl, list_is gl (l1 ++ l2) -> (flag = false -> Forall closed l2) ->
  exists gl', open_filters_loop v flag (length l2) (zlen l1) gl = Done gl' /\ list_is gl' (l1 ++ map opened l2).
Proof.
  induction l2 as [|e l2 IH]; intros l1 gl H Hc; cbn [length open_filters_loop map]; [by exists gl|].
  destruct (open_step gl l1 e l2 flag H) as (gl1 & E & H1); [intros Hf; specialize (Hc Hf); by inversion Hc|].
  destruct (next_entry l1 e (opened e) l2) as (En & El & _). rewrite En in H1.
  destruct (IH _ gl1 H1) as (gl' & E' & H'); [intros Hf; specialize (Hc Hf); by inversion Hc|].
  destruct (if flag then _ else _) as [[st gl0]| |]; cbn [obind] in *; try done. rewrite E. cbn [obind]. rewrite El in E'.
  exists gl'. split; [done|]. by rewrite <- app_assoc in H'.
Qed.

Lemma open_filters_spec flag gl l : list_is gl l -> (flag = false -> Forall closed l) ->
  exists gl', open_filters1 v flag gl = Done gl' /\ list_is gl' (map opened l).
Proof.
  intros H Hc. unfold open_filters1. rewrite (li_nmax _ _ H).
  replace (Z.to_nat (zlen l)) with (length l) by (unfold zlen; lia).
  destruct (open_loop_spec flag l [] gl H Hc) as (gl' & E & H'). change (zlen (@nil filter_entry_st)) with 0 in E.
  destruct (Z.eqb_spec (gl_n gl) 0) as [E0|]; [|by exists gl'].
  exists gl. split; [done|]. rewrite (li_n _ _ H) in E0.
  assert (map opened l = l) as ->; [|done]. assert (names l = []) as Hnil.
  { destruct (names l) as [|x r]; [done|]. rewrite zlen_cons in E0. pose proof (zlen_nonneg r). lia. }
  clear -Hnil. induction l as [|e l IH]; [done|]. rewrite names_cons in Hnil. cbn [map]. unfold opened at 1.
  destruct (fe_fname e); [done|]. by rewrite IH.
Qed.

(** ** Sending *)

Context (g : filter_conf).

(** the line for a pipe *)
Definition pipe_text (pi : packet_info_st) (fname fpath : list Z) : list Z :=
  info_line (pi_seq_number pi) (pi_product_type pi) (pi_product_category pi) (pi_product_code pi)
    (pi_np_channel_index pi) fname fpath ++
  (if decide (spooltype_mspool (g_fspooltype g) = 0) then []
   else 32 :: dec (if decide ((fv_fpathsize v fpath).1 = 0) then (fv_fpathsize v fpath).2 else 0)) ++ [10].

(** one of [k] writes fails, or the flush that follows them *)
Fixpoint pipe_fails (k : nat) (results : list Z) : bool :=
  match results, k with
  | [], _ => false
  | r :: _, O => negb (r =? 0)
  | r :: rs, S k => (r <? 0) || pipe_fails k rs
  end.
Definition pipe_writes : nat := if decide (spooltype_mspool (g_fspooltype g) = 0) then 2 else 3.

Lemma vprintf_spec text p : let '(n, p') := pfilter_vprintf text p in
  (n <? 0) = match pl_results p with [] => false | r :: _ => r <? 0 end /\
  pl_results p' = match pl_results p with [] => [] | _ :: l => l end /\
  ((n <? 0) = false -> pl_written p' = pl_written p ++ text).
Proof.
  unfold pfilter_vprintf, pfilter_put. destruct (pl_results p) as [|r l] eqn:E; cbn [pl_results pl_written].
  - pose proof (zlen_nonneg text). split_and!; [by apply Z.ltb_ge|done|done].
  - split_and!; [done|done|]. by intros ->.
Qed.

Lemma flush_spec p : let '(st, p') := pfilter_flush p in
  (st =? 0) = negb (pipe_fails 0 (pl_results p)) /\ pl_written p' = pl_written p.
Proof.
  unfold pfilter_flush, pfilter_put. destruct (pl_results p) as [|r l] eqn:E; cbn [pl_results pl_written pipe_fails]; rewrite app_nil_r.
  - done.
  - split; [by rewrite negb_involutive|]. by destruct (r <? 0).
Qed.

Lemma pipe_line_spec pi fname fpath p : let '(st, p') := pipe_line g v pi fname fpath p in
  (st =? 0) = negb (pipe_fails pipe_writes (pl_results p)) /\
  ((st =? 0) = true -> pl_written p' = pl_written p ++ pipe_text pi fname fpath).
Proof.
  unfold pipe_line, pipe_text, pipe_writes. set (line := info_line _ _ _ _ _ _ _).
  set (size := if decide (_ = 0) then (fv_fpathsize v fpath).2 else 0).
  assert ((let (st, n) := fv_fpathsize v fpath in if negb (st =? 0) then 0 else n) = size) as ->.
  { subst size. destruct (fv_fpathsize v fpath) as [st n]. cbn [fst snd]. by destruct (Z.eqb_spec st 0), (decide (st = 0)). }
  pose proof (vprintf_spec line p) as H1. destruct (pfilter_vprintf line p) as [n1 p1]. destruct H1 as (E1 & R1 & W1).
  rewrite E1 in *. set (ms := spooltype_mspool (g_fspooltype g)).
  assert (forall p2 text, pl_written p2 = pl_written p ++ text ->
    let '(st, p') := (let (status, p) := let (n, p) := pfilter_vprintf [10] p2 in (if n <? 0 then -1 else 0, p) in
                      if status =? 0 then pfilter_flush p else (status, p)) in
    (st =? 0) = negb (pipe_fails 1 (pl_results p2)) /\ ((st =? 0) = true -> pl_written p' = pl_written p ++ text ++ [10])) as Hend.
  { intros p2 text Hw. pose proof (vprintf_spec [10] p2) as H3. destruct (pfilter_vprintf [10] p2) as [n3 p3].
    destruct H3 as (E3 & R3 & W3). rewrite E3 in *.
    destruct (pl_results p2) as [|r rs] eqn:Er; cbn [pipe_fails].
    - cbn [Z.eqb]. pose proof (flush_spec p3) as H4. destruct (pfilter_flush p3) as [n4 p4]. destruct H4 as [E4 W4].
      rewrite R3 in E4. split; [done|]. intros _. by rewrite W4, W3, Hw, app_assoc.
    - destruct (r <? 0); cbn [orb Z.eqb]; [by split|].
      pose proof (flush_spec p3) as H4. destruct (pfilter_flush p3) as [n4 p4]. destruct H4 as [E4 W4].
      rewrite R3 in E4. split; [done|]. intros _. by rewrite W4, W3, Hw, app_assoc. }
  destruct (decide (ms = 0)) as [Em|Em].
  - rewrite Em. cbn [Z.eqb negb andb].
    destruct (pl_results p) as [|r rs] eqn:Er; cbn [pipe_fails].
    + cbn [Z.eqb]. specialize (Hend p1 line (W1 eq_refl)). rewrite R1 in Hend. exact Hend.
    + destruct (r <? 0) eqn:Ec; cbn [orb Z.eqb]; [by split|]. specialize (Hend p1 line (W1 eq_refl)).
      rewrite R1 in Hend. exact Hend.
  - rewrite (proj2 (Z.eqb_neq _ _) Em). cbn [negb andb].
    pose proof (vprintf_spec (32 :: dec size) p1) as H2. destruct (pfilter_vprintf (32 :: dec size) p1) as [n2 p2].
    destruct H2 as (E2 & R2 & W2). rewrite E2, R1 in *.
    destruct (pl_results p) as [|r rs] eqn:Er; cbn [pipe_fails Z.eqb].
    + specialize (Hend p2 (line ++ 32 :: dec size)). rewrite R2, <- app_assoc in Hend. apply Hend.
      by rewrite W2, W1, app_assoc.
    + destruct (r <? 0) eqn:Ec; cbn [orb Z.eqb]; [by split|].
      destruct rs as [|r2 rs]; cbn [pipe_fails].
      * cbn [Z.eqb]. specialize (Hend p2 (line ++ 32 :: dec size)). rewrite R2, <- app_assoc in Hend. apply Hend.
        by rewrite W2, W1, app_assoc.
      * destruct (r2 <? 0) eqn:Ec2; cbn [orb Z.eqb]; [by split|].
        specialize (Hend p2 (line ++ 32 :: dec size)). rewrite R2, <- app_assoc in Hend. apply Hend.
        by rewrite W2, W1, app_assoc.
Qed.

(** the filter cannot be reached, or does not take all that is sent *)
Definition fails (packet : list Z) (e : filter_entry_st) : bool :=
  if fe_type e =? FILTER_TYPE_FIFO then
    match listener e with Some f => negb ((writem f packet (zlen packet) 0).1 =? zlen packet) | None => true end
  else match program e with Some p => pipe_fails pipe_writes (pl_results p) | None => true end.

(** an entry after a product has been sent: [packet] to a fifo, [text] to a pipe *)
Record handled (packet text : list Z) (e e' : filter_entry_st) : Prop := Handled {
  hd_unused : fe_fname e = None -> e' = e;
  hd_name : fe_fname e' = fe_fname e /\ fe_type e' = fe_type e;
  hd_count : fe_fname e <> None -> fe_files_sent e' = u32 (fe_files_sent e + 1) /\
    fe_errors e' = if fails packet e then u32 (fe_errors e + 1) else fe_errors e;
  hd_failed : fe_fname e <> None -> fails packet e = true -> closed e';
  hd_fifo : fe_type e = FILTER_TYPE_FIFO -> fails packet e = false ->
    exists f f', listener e = Some f /\ fe_fd e' = Some f' /\ sent f' = sent f ++ packet;
  hd_pipe : fe_type e = FILTER_TYPE_PIPE -> fails packet e = false ->
    exists p p', program e = Some p /\ fe_pfp e' = Some p' /\ pl_written p' = pl_written p ++ text
}.

Lemma send_fifo_at gl l1 e l2 nm pi b : list_is gl (l1 ++ e :: l2) -> fe_fname e = Some nm -> fe_type e = FILTER_TYPE_FIFO ->
  pi_packet pi = Some b -> zlen b = pi_packet_size pi /\ zlen b < 2 ^ 31 ->
  exists st gl' e', sendto_fifo_filter v (zlen l1) pi gl = Done (st, gl') /\ list_is gl' (l1 ++ e' :: l2) /\
    fe_fname e' = fe_fname e /\ fe_type e' = fe_type e /\ fe_files_sent e' = fe_files_sent e /\ fe_errors e' = fe_errors e /\
    (st =? 0) = negb (fails b e) /\ (fails b e = true -> closed e') /\
    (fails b e = false -> exists f f', listener e = Some f /\ fe_fd e' = Some f' /\ sent f' = sent f ++ b).
Proof.
  intros H En Et Eb Hb. pose proof (list_entry_ok _ _ _ _ H) as He. unfold sendto_fifo_filter.
  rewrite (list_entry _ _ _ _ H). cbn [obind].
  destruct (entry_cases e nm He En) as [_ [[_ Epf]|[Et2 _]]]; [|by rewrite Et in Et2].
  set (r := match fe_fd e with None => _ | Some _ => _ end).
  assert (exists st gl1, r = Done (st, gl1) /\ match listener e with
    | Some f => st = 0 /\ list_is gl1 (l1 ++ set_fe_fd (Some f) e :: l2)
    | None => (st = 1 \/ st = -1) /\ gl1 = gl /\ fe_fd e = None end) as (st & gl1 & -> & Hr).
  { subst r. destruct (fe_fd e) as [f|] eqn:Ef.
    - unfold listener. rewrite Ef. exists 0, gl. by rewrite (set_fd_id _ _ Ef).
    - destruct (open_fifo_at gl l1 e l2 nm H En Et Ef) as (st & gl1 & -> & Ho). exists st, gl1. split; [done|].
      by destruct (listener e); [|destruct Ho]. }
  cbn [obind]. unfold fails. rewrite Et. change (FILTER_TYPE_FIFO =? FILTER_TYPE_FIFO) with true. cbv iota.
  destruct (listener e) as [f|] eqn:El.
  2:{ destruct Hr as (Hst & -> & Ef). exists st, gl, e. assert ((st =? 0) = false) as Es by (by destruct Hst as [->| ->]).
      rewrite Es. cbn [negb]. by split_and!. }
  destruct Hr as [-> H1]. cbn [Z.eqb negb]. rewrite (list_entry _ _ _ _ H1). cbn [obind fe_fd set_fe_fd]. rewrite Eb, <- (proj1 Hb).
  pose proof (listener_ok e f He El) as Hf. destruct (writem f b (zlen b) 0) as [n f'] eqn:Ew. cbn [fst].
  pose proof (zlen_nonneg b).
  destruct (writem_loop_spec (Z.to_nat (zlen b)) f b 0 (zlen b) 0) as (n2 & f2 & Ew2 & Hn & _); [done|lia..|].
  change (writem_loop _ _ _ _ _ _) with (writem f b (zlen b) 0) in Ew2. rewrite Ew in Ew2. injection Ew2 as <- <-.
  assert (Forall room_ok (events f')) as Hf' by (by eapply writem_loop_room).
  assert (forall fd, fd_ok fd -> entry_ok (set_fe_fd fd (set_fe_fd (Some f) e))) as Hok.
  { intros fd Hfd. unfold entry_ok in *. cbn [fe_fname set_fe_fd fe_fd fe_type fe_pfp]. rewrite En in *. destruct He as (Hne & _ & _).
    split; [done|]. split; [done|]. by left. }
  destruct (list_set gl1 l1 _ l2 (set_fe_fd (Some f') (set_fe_fd (Some f) e)) H1) as (gl2 & -> & H2); [by apply Hok|done|].
  cbn [obind].
  assert ((if n =? -1 then -1 else if negb (u64 n =? zlen b) then -2 else 0) =
    if n =? zlen b then 0 else if n =? -1 then -1 else -2) as ->.
  { destruct (Z.eqb_spec n (-1)) as [->|]; [by destruct (Z.eqb_spec (-1) (zlen b)); [lia|]|].
    rewrite u64_small by lia. by destruct (n =? zlen b). }
  destruct (Z.eqb_spec n (zlen b)) as [Enb|Enb]; cbn [Z.eqb negb obind].
  - eexists 0, gl2, _. split; [done|]. split; [exact H2|]. cbn [fe_fname fe_type fe_files_sent fe_errors set_fe_fd fe_fd].
    split_and!; try done. intros _. exists f, f'. split_and!; [done|done|]. subst n.
    destruct (writem_full f b (zlen b) 0 f' Ew Hf) as [-> _]; [lia|]. by rewrite ztake_ge by lia.
  - set (st := if n =? -1 then -1 else -2). assert ((st =? 0) = false) as -> by (subst st; by destruct (n =? -1)). cbn [negb].
    unfold close_fifo_filter. rewrite (list_entry _ _ _ _ H2). cbn [obind fe_fd set_fe_fd].
    destruct (list_set gl2 l1 _ l2 (set_fe_fd None (set_fe_fd (Some f') (set_fe_fd (Some f) e))) H2) as (gl3 & -> & H3);
      [by apply (Hok None)|done|]. cbn [obind].
    eexists st, gl3, _. split; [done|]. split; [exact H3|]. cbn [fe_fname fe_type fe_files_sent fe_errors set_fe_fd fe_fd].
    split_and!; try done. by subst st; destruct (n =? -1).
Qed.

Lemma send_pipe_at gl l1 e l2 nm pi b i j fname fpath : list_is gl (l1 ++ e :: l2) -> fe_fname e = Some nm -> fe_type e = FILTER_TYPE_PIPE ->
  pi_packet pi = Some b -> pi_fname pi = Some i -> pi_fpath pi = Some j ->
  cstr (zdrop i b) = Done fname -> cstr (zdrop j b) = Done fpath ->
  exists st gl' e', sendto_pipe_filter g v (zlen l1) pi gl = Done (st, gl') /\ list_is gl' (l1 ++ e' :: l2) /\
    fe_fname e' = fe_fname e /\ fe_type e' = fe_type e /\ fe_files_sent e' = fe_files_sent e /\ fe_errors e' = fe_errors e /\
    (st =? 0) = negb (fails b e) /\ (fails b e = true -> closed e') /\
    (fails b e = false -> exists p p', program e = Some p /\ fe_pfp e' = Some p' /\ pl_written p' = pl_written p ++ pipe_text pi fname fpath).
Proof.
  intros H En Et Eb Ei Ej Ef Ep. pose proof (list_entry_ok _ _ _ _ H) as He. unfold sendto_pipe_filter.
  rewrite (list_entry _ _ _ _ H). cbn [obind].
  destruct (entry_cases e nm He En) as [_ [[Et2 _]|[_ Efd]]]; [by rewrite Et in Et2|].
  set (r := match fe_pfp e with None => _ | Some _ => _ end).
  assert (exists st gl1, r = Done (st, gl1) /\ match program e with
    | Some p => st = 0 /\ list_is gl1 (l1 ++ set_fe_pfp (Some p) e :: l2)
    | None => st = -1 /\ gl1 = gl /\ fe_pfp e = None end) as (st & gl1 & -> & Hr).
  { subst r. destruct (fe_pfp e) as [p|] eqn:Epf.
    - unfold program. rewrite Epf. exists 0, gl. by rewrite (set_pfp_id _ _ Epf).
    - destruct (open_pipe_at gl l1 e l2 nm H En Et Epf) as (st & gl1 & -> & Ho). exists st, gl1. split; [done|].
      by destruct (program e); [|destruct Ho]. }
  cbn [obind]. unfold fails. rewrite Et. change (FILTER_TYPE_PIPE =? FILTER_TYPE_FIFO) with false. cbv iota.
  destruct (program e) as [p|] eqn:El.
  2:{ destruct Hr as (-> & -> & Epf). exists (-1), gl, e. change (-1 =? 0) with false. cbn [negb]. by split_and!. }
  destruct Hr as [-> H1]. cbn [Z.eqb negb]. rewrite (list_entry _ _ _ _ H1). cbn [obind fe_pfp set_fe_pfp]. rewrite Eb, Ei, Ej, Ef, Ep.
  cbn [obind]. pose proof (pipe_line_spec pi fname fpath p) as Hl. destruct (pipe_line g v pi fname fpath p) as [st p'].
  destruct Hl as [Es Hw].
  assert (forall q, entry_ok (set_fe_pfp q (set_fe_pfp (Some p) e))) as Hok.
  { intros q. unfold entry_ok in *. cbn [fe_fname set_fe_pfp fe_fd fe_type fe_pfp]. rewrite En in *. destruct He as (Hne & _ & _).
    split; [done|]. split; [by rewrite Efd|]. by right. }
  destruct (list_set gl1 l1 _ l2 (set_fe_pfp (Some p') (set_fe_pfp (Some p) e)) H1) as (gl2 & -> & H2); [by apply Hok|done|].
  cbn [obind]. rewrite Es in *. destruct (pipe_fails pipe_writes (pl_results p)); cbn [negb].
  - unfold close_pipe_filter. rewrite (list_entry _ _ _ _ H2). cbn [obind fe_pfp set_fe_pfp].
    destruct (list_set gl2 l1 _ l2 (set_fe_pfp None (set_fe_pfp (Some p') (set_fe_pfp (Some p) e))) H2) as (gl3 & -> & H3);
      [by apply (Hok None)|done|]. cbn [obind].
    eexists st, gl3, _. split; [done|]. split; [exact H3|]. cbn [fe_fname fe_type fe_files_sent fe_errors set_fe_pfp fe_pfp].
    split_and!; try done.
  - eexists st, gl2, _. split; [done|]. split; [exact H2|]. cbn [fe_fname fe_type fe_files_sent fe_errors set_fe_pfp fe_pfp].
    split_and!; try done. intros _. exists p, p'. split_and!; [done|done|by apply Hw].
Qed.

(** an unpacked packet, whole in its memory *)
Record product_in (pi : packet_info_st) (b fname fpath : list Z) : Prop := ProductIn {
  pr_packet : pi_packet pi = Some b;
  pr_size : zlen b = pi_packet_size pi /\ zlen b < 2 ^ 31;
  pr_names : exists i j, pi_fname pi = Some i /\ pi_fpath pi = Some j /\
    cstr (zdrop i b) = Done fname /\ cstr (zdrop j b) = Done fpath
}.

Lemma send_one_at gl l1 e l2 pi b fname fpath : list_is gl (l1 ++ e :: l2) -> product_in pi b fname fpath ->
  exists st gl' e', sendto_one_filter g v (zlen l1) pi gl = Done (st, gl') /\ list_is gl' (l1 ++ e' :: l2) /\
    handled b (pipe_text pi fname fpath) e e'.
Proof.
  intros H [Eb Hb (i & j & Ei & Ej & Ef & Ep)]. pose proof (list_entry_ok _ _ _ _ H) as He. unfold sendto_one_filter.
  rewrite (list_index _ _ _ _ H), (list_entry _ _ _ _ H). cbn [c_assert obind].
  destruct (fe_fname e) as [nm|] eqn:En.
  2:{ exists 0, gl, e. split; [done|]. split; [done|]. unfold entry_ok in He. rewrite En in He. subst e. by split. }
  destruct (entry_cases e nm He En) as [-> Ht]. cbn [negb c_assert].
  assert (exists st gl1 e1, (if fe_type e =? FILTER_TYPE_FIFO then sendto_fifo_filter v (zlen l1) pi gl
      else if fe_type e =? FILTER_TYPE_PIPE then sendto_pipe_filter g v (zlen l1) pi gl else Done (0, gl)) = Done (st, gl1) /\
    list_is gl1 (l1 ++ e1 :: l2) /\ fe_fname e1 = fe_fname e /\ fe_type e1 = fe_type e /\ fe_files_sent e1 = fe_files_sent e /\
    fe_errors e1 = fe_errors e /\ (st =? 0) = negb (fails b e) /\ (fails b e = true -> closed e1) /\
    (fe_type e = FILTER_TYPE_FIFO -> fails b e = false ->
       exists f f', listener e = Some f /\ fe_fd e1 = Some f' /\ sent f' = sent f ++ b) /\
    (fe_type e = FILTER_TYPE_PIPE -> fails b e = false ->
       exists p p', program e = Some p /\ fe_pfp e1 = Some p' /\ pl_written p' = pl_written p ++ pipe_text pi fname fpath))
    as (st & gl1 & e1 & -> & H1 & Enm & Ety & Efs & Eer & Est & Hcl & Hfi & Hpi).
  { destruct Ht as [[Et _]|[Et _]]; rewrite Et.
    - destruct (send_fifo_at gl l1 e l2 nm pi b H En Et Eb Hb) as (st & gl1 & e1 & Es & H1 & R1 & R2 & R3 & R4 & R5 & R6 & R7).
      exists st, gl1, e1. rewrite Et in R2. split; [exact Es|]. split; [done|]. by split_and!.
    - destruct (send_pipe_at gl l1 e l2 nm pi b i j fname fpath H En Et Eb Ei Ej Ef Ep) as (st & gl1 & e1 & Es & H1 & R1 & R2 & R3 & R4 & R5 & R6 & R7).
      exists st, gl1, e1. rewrite Et in R2. split; [exact Es|]. split; [done|]. by split_and!. }
  cbn [obind]. rewrite (list_entry _ _ _ _ H1). cbn [obind]. rewrite Est, negb_involutive.
  destruct (list_set gl1 l1 e1 l2 (set_fe_stats (u32 (fe_files_sent e1 + 1))
    (if fails b e then u32 (fe_errors e1 + 1) else fe_errors e1) e1) H1) as (gl2 & -> & H2); [|done|].
  { pose proof (list_entry_ok _ _ _ _ H1) as He1. unfold entry_ok in *. rewrite Enm, En in He1.
    cbn [fe_fname set_fe_stats fe_fd fe_type fe_pfp]. by rewrite Enm, En. }
  cbn [obind]. eexists st, gl2, _. split; [done|]. split; [exact H2|].
  split; cbn [fe_fname fe_type fe_files_sent fe_errors fe_fd fe_pfp set_fe_stats]; try done.
  - by rewrite En.
  - intros _. by rewrite Efs, Eer.
Qed.

Lemma send_loop_spec pi b fname fpath l2 : product_in pi b fname fpath -> forall l1 gl, list_is gl (l1 ++ l2) ->
  exists gl' l2', sendto_loop g v (length l2) (zlen l1) pi gl = Done gl' /\ list_is gl' (l1 ++ l2') /\
    Forall2 (handled b (pipe_text pi fname fpath)) l2 l2'.
Proof.
  intros Hpr. induction l2 as [|e l2 IH]; intros l1 gl H; cbn [length sendto_loop]; [by exists gl, []|].
  destruct (send_one_at gl l1 e l2 pi b fname fpath H Hpr) as (st & gl1 & e' & -> & H1 & He). cbn [obind].
  destruct (next_entry l1 e e' l2) as (En & El & _). rewrite En in H1.
  destruct (IH _ gl1 H1) as (gl' & l2' & E' & H' & HF). rewrite El in E'. exists gl', (e' :: l2').
  split; [done|]. rewrite <- app_assoc in H'. split; [done|]. by constructor.
Qed.

Lemma unused_handled packet text l : names l = [] -> Forall entry_ok l -> Forall2 (handled packet text) l l.
Proof.
  intros Hn HF. induction HF as [|e l He _ IH]; [done|]. rewrite names_cons in Hn. unfold entry_ok in He.
  destruct (fe_fname e) as [nm|] eqn:En; [done|]. subst e. constructor; [by split|by apply IH].
Qed.

Lemma send_filters_spec gl l pi b fname fpath : list_is gl l -> product_in pi b fname fpath ->
  exists gl' l', sendto_filters g v pi gl = Done gl' /\ list_is gl' l' /\
    Forall2 (handled b (pipe_text pi fname fpath)) l l'.
Proof.
  intros H Hpr. unfold sendto_filters. rewrite (li_nmax _ _ H).
  replace (Z.to_nat (zlen l)) with (length l) by (unfold zlen; lia).
  destruct (Z.eqb_spec (gl_n gl) 0) as [E0|].
  - exists gl, l. split; [done|]. split; [done|]. apply unused_handled; [|apply (li_entries _ _ H)].
    rewrite (li_n _ _ H) in E0. destruct (names l) as [|x r]; [done|]. rewrite zlen_cons in E0. pose proof (zlen_nonneg r). lia.
  - destruct (send_loop_spec pi b fname fpath l Hpr [] gl H) as (gl' & l' & E & H' & HF). by exists gl', l'.
Qed.

(** ** Finding the filters *)

(** [st] is 0 or -1; the filters that are asked for, [ws], are those of the list
    that were not there, with the first type that they are given *)
Fixpoint added (ws : list (list Z * Z)) (l : list filter_entry_st) : list filter_entry_st :=
  match ws with
  | [] => l
  | (nm, ty) :: ws => added ws (if decide (nm ∈ names l) then l else new_entry nm ty :: l)
  end.

Lemma added_app ws1 ws2 l : added (ws1 ++ ws2) l = added ws2 (added ws1 l).
Proof. revert l. induction ws1 as [|[nm ty] ws1 IH]; intros l; [done|]. apply IH. Qed.

Lemma added_Permutation ws : forall l l', l ≡ₚ l' -> added ws l ≡ₚ added ws l'.
Proof.
  induction ws as [|[nm ty] ws IH]; intros l l' E; [done|]. cbn [added]. apply IH.
  assert (names l ≡ₚ names l') as En by (unfold names; by rewrite E).
  destruct (decide (nm ∈ names l)); [rewrite decide_True by (by rewrite <- En)|rewrite decide_False by (by rewrite <- En)];
    [done|by rewrite E].
Qed.

(** the list after some filters have been asked for: all of them, or not when
    something has failed *)
Definition adds (ws : list (list Z * Z)) (st : Z) (l l' : list filter_entry_st) : Prop :=
  (st = 0 \/ st = -1) /\ exists ws', used l' ≡ₚ added ws' (used l) /\ ws' `prefix_of` ws /\ (st = 0 -> ws' = ws).

Lemma adds_add gl l nm type : list_is gl l -> nm <> [] -> type = FILTER_TYPE_FIFO \/ type = FILTER_TYPE_PIPE ->
  exists st gl' l', add_filter_entry nm type gl = Done (st, gl') /\ list_is gl' l' /\ adds [(nm, type)] st l l'.
Proof.
  intros H Hnm Hty. destruct (list_add gl l nm type H Hnm Hty) as (st & gl' & l' & -> & H' & Hc). exists st, gl', l'.
  split; [done|]. split; [done|]. destruct Hc as [(Hin & -> & E)|[(Hni & -> & E)|(-> & E & _)]].
  - split; [by left|]. exists [(nm, type)]. cbn [added]. rewrite names_used, decide_True, E by done. by split_and!.
  - split; [by left|]. exists [(nm, type)]. cbn [added]. rewrite names_used, decide_False, E by done. by split_and!.
  - split; [by right|]. exists []. rewrite E. split_and!; [done|apply prefix_nil|done].
Qed.

Lemma adds_nil l : adds [] 0 l l.
Proof. split; [by left|]. exists []. by split_and!. Qed.

Lemma adds_trans ws1 ws2 st l l1 l2 : adds ws1 0 l l1 -> adds ws2 st l1 l2 -> adds (ws1 ++ ws2) st l l2.
Proof.
  intros [_ (w1 & E1 & _ & Ew1)] [Hst (w2 & E2 & Hp2 & Ew2)]. rewrite (Ew1 eq_refl) in E1. split; [done|].
  exists (ws1 ++ w2). split_and!; [|by apply prefix_app|intros Hs; by rewrite (Ew2 Hs)].
  rewrite E2, added_app. by apply added_Permutation.
Qed.

Lemma adds_stop ws1 ws2 st l l1 : st <> 0 -> adds ws1 st l l1 -> adds (ws1 ++ ws2) st l l1.
Proof.
  intros Hst [H0 (w1 & E1 & Hpx & _)]. split; [done|]. exists w1. split_and!; [done|by apply prefix_app_r|done].
Qed.

(** the filters in the directory *)
Definition dir_wanted (dir name : list Z) : list (list Z * Z) :=
  let path := dir ++ 47 :: name in
  match fv_stat v path with
  | Some mode =>
      if S_ISFIFO mode then [(path, FILTER_TYPE_FIFO)]
      else if S_ISREG mode && negb (Z.land mode S_IXUSR =? 0) then [(path, FILTER_TYPE_PIPE)] else []
  | None => []
  end.

Lemma dir_entry_spec gl l dir name : list_is gl l ->
  exists st gl' l', process_dir_entry v dir name gl = Done (st, gl') /\ list_is gl' l' /\ adds (dir_wanted dir name) st l l'.
Proof.
  intros H. unfold process_dir_entry, dir_wanted.
  assert (forall ws, exists st gl' l', Done (-1, gl) = Done (st, gl') /\ list_is gl' l' /\ adds ws st l l') as Hno.
  { intros ws. exists (-1), gl, l. split; [done|]. split; [done|]. apply (adds_stop [] ws); [done|].
    split; [by right|]. exists []. by split_and!. }
  destruct (malloc_ok _); cbn [negb]; [|apply Hno].
  set (path := dir ++ 47 :: name). assert (path <> []) as Hne by (subst path; by destruct dir).
  assert ((zlen path =? zlen dir + zlen name + 2 - 1) = true) as ->.
  { apply Z.eqb_eq. subst path. rewrite zlen_app, zlen_cons. lia. }
  cbn [c_assert]. destruct (fv_stat v path) as [mode|]; [|apply Hno].
  destruct (S_ISFIFO mode); [by apply adds_add; [| |left]|]. destruct (_ && _); [by apply adds_add; [| |right]|].
  exists 0, gl, l. split; [done|]. split; [done|]. apply adds_nil.
Qed.

Lemma dir_loop_spec dir names : forall gl l, list_is gl l ->
  exists st gl' l', dir_loop v dir names gl = Done (st, gl') /\ list_is gl' l' /\
    adds (concat (map (dir_wanted dir) names)) st l l'.
Proof.
  induction names as [|name names IH]; intros gl l H; cbn [dir_loop map concat].
  - exists 0, gl, l. split; [done|]. split; [done|]. apply adds_nil.
  - destruct (dir_entry_spec gl l dir name H) as (st & gl1 & l1 & -> & H1 & Ha). cbn [obind].
    destruct (Z.eqb_spec st 0) as [->|Hst].
    + destruct (IH gl1 l1 H1) as (st & gl' & l' & -> & H' & Ha'). exists st, gl', l'. split; [done|]. split; [done|].
      by eapply adds_trans.
    + exists st, gl1, l1. split; [done|]. split; [done|]. by apply adds_stop.
Qed.

(** the filters of the list *)
Definition sys_wanted (flist : list Z) (type : Z) : list (list Z * Z) :=
  map (fun nm => (nm, type)) (split_fields FILTERLIST_SEP_CHARS STRSPLIT_FLAG_IGNEMPTY flist).

Lemma field_add gl l pre f a type : list_is gl l -> nonul f -> type = FILTER_TYPE_FIFO \/ type = FILTER_TYPE_PIPE ->
  exists st gl' l', (let* c := rd (pre ++ f ++ 0 :: a) (zlen pre) in
     if negb (c =? 0) then let* p := cstr (zdrop (zlen pre) (pre ++ f ++ 0 :: a)) in add_filter_entry p type gl
     else Done (0, gl)) = Done (st, gl') /\ list_is gl' l' /\
    adds (if kept STRSPLIT_FLAG_IGNEMPTY f then [(f, type)] else []) st l l'.
Proof.
  intros H Hn Hty. destruct (field_char STRSPLIT_FLAG_IGNEMPTY pre f a Hn) as (c & -> & Ek). cbn [obind].
  change (STRSPLIT_FLAG_IGNEMPTY =? STRSPLIT_FLAG_INCEMPTY) with false in Ek. rewrite orb_false_r in Ek. rewrite Ek.
  destruct f as [|x f]; cbn [kept].
  - change (STRSPLIT_FLAG_IGNEMPTY =? STRSPLIT_FLAG_INCEMPTY) with false. cbv iota.
    exists 0, gl, l. split; [done|]. split; [done|]. apply adds_nil.
  - rewrite zdrop_app_exact, cstr_app by done. cbn [obind]. by apply adds_add.
Qed.

Lemma sys_loop_spec type k : type = FILTER_TYPE_FIFO \/ type = FILTER_TYPE_PIPE ->
  forall s pre gl l, (length s < k)%nat -> nonul s -> list_is gl l ->
  exists st gl' l', sys_loop k (pre ++ s ++ [0]) (zlen pre) type gl = Done (st, gl') /\ list_is gl' l' /\
    adds (sys_wanted s type) st l l'.
Proof.
  intros Hty. induction k as [|k IH]; intros s pre gl l Hk Hn H; [lia|]. cbn [sys_loop]. unfold sys_wanted, split_fields in *.
  destruct (split_on_cases FILTERLIST_SEP_CHARS s) as [[E Hs]|(f & c & r & -> & Hf & Hc & E)]; rewrite E in *.
  - rewrite strsep_last by done. cbn [obind List.filter map].
    destruct (field_add gl l pre s [] type H Hn Hty) as (st & gl' & l' & Ea & H' & Ha).
    destruct (rd (pre ++ s ++ [0]) (zlen pre)) as [c| |]; cbn [obind] in *; try done. rewrite Ea. cbn [obind].
    exists st, gl', l'. split; [done|]. split; [done|]. by destruct (kept _ s).
  - apply Forall_app in Hn as [Hnf [Hc0 Hnr]%Forall_cons_iff]. rewrite length_app in Hk. cbn [length] in Hk.
    rewrite strsep_next by done. cbn [obind List.filter]. rewrite <- (app_assoc pre), <- (app_assoc f). cbn [app].
    destruct (field_add gl l pre f (r ++ [0]) type H Hnf Hty) as (st & gl1 & l1 & Ea & H1 & Ha).
    destruct (rd (pre ++ f ++ 0 :: r ++ [0]) (zlen pre)) as [d| |]; cbn [obind] in *; try done. rewrite Ea. cbn [obind].
    set (ws := map (fun nm => (nm, type)) (List.filter (kept STRSPLIT_FLAG_IGNEMPTY) (split_on FILTERLIST_SEP_CHARS r))).
    assert (map (fun nm => (nm, type)) (if kept STRSPLIT_FLAG_IGNEMPTY f then f :: List.filter (kept STRSPLIT_FLAG_IGNEMPTY)
      (split_on FILTERLIST_SEP_CHARS r) else List.filter (kept STRSPLIT_FLAG_IGNEMPTY) (split_on FILTERLIST_SEP_CHARS r)) =
      (if kept STRSPLIT_FLAG_IGNEMPTY f then [(f, type)] else []) ++ ws) as -> by (by destruct (kept _ f)).
    destruct (Z.eqb_spec st 0) as [->|Hst].
    + replace (pre ++ f ++ 0 :: r ++ [0]) with ((pre ++ f ++ [0]) ++ r ++ [0]) by (by rewrite <- !app_assoc).
      destruct (IH r (pre ++ f ++ [0]) gl1 l1) as (st & gl' & l' & -> & H' & Ha'); [lia|done|done|].
      exists st, gl', l'. split; [done|]. split; [done|]. by eapply adds_trans.
    + exists st, gl1, l1. split; [done|]. split; [done|]. by apply adds_stop.
Qed.

(** the strings of the configuration *)
Definition conf_ok : Prop := nonul (default [] (g_sysfilterlist g)).

(** all the filters that are looked for *)
Definition filters_wanted : list (list Z * Z) :=
  (if valid_str (g_sysfilterlist g) =? 1 then sys_wanted (default [] (g_sysfilterlist g)) FILTER_TYPE_PIPE else []) ++
  (if (valid_str (g_filterdevdir g) =? 1) && (fv_dir_exists v =? 0)
   then concat (map (dir_wanted (default [] (g_filterdevdir g))) (default [] (fv_dir v))) else []).

Lemma adds_fail ws l : adds ws (-1) l l.
Proof. split; [by right|]. exists []. split_and!; [done|apply prefix_nil|done]. Qed.

Lemma get_filters_spec gl l : conf_ok -> list_is gl l -> exists st gl' l', e_get_filters g v gl = Done (st, gl') /\
  list_is gl' l' /\ adds filters_wanted st l l'.
Proof.
  intros Hcf H. unfold e_get_filters, filters_wanted.
  set (r := if valid_str (g_sysfilterlist g) =? 1 then get_sys_filters _ _ _ else _).
  assert (exists st gl1 l1, r = Done (st, gl1) /\ list_is gl1 l1 /\
    adds (if valid_str (g_sysfilterlist g) =? 1 then sys_wanted (default [] (g_sysfilterlist g)) FILTER_TYPE_PIPE else []) st l l1)
    as (st & gl1 & l1 & -> & H1 & Ha).
  { subst r. destruct (valid_str _ =? 1).
    - unfold get_sys_filters. destruct (malloc_ok _); cbn [negb].
      + apply (sys_loop_spec FILTER_TYPE_PIPE _ (or_intror eq_refl) _ [] gl l); [lia|done|done].
      + exists (-1), gl, l. split; [done|]. split; [done|]. apply adds_fail.
    - exists 0, gl, l. split; [done|]. split; [done|]. apply adds_nil. }
  cbn [obind]. destruct (Z.eqb_spec st 0) as [->|Hst].
  2:{ exists st, gl1, l1. split; [done|]. split; [done|]. by apply adds_stop. }
  destruct (_ && _).
  - unfold get_dev_filters. destruct (fv_dir v) as [nms|]; cbn [default].
    + destruct (dir_loop_spec (default [] (g_filterdevdir g)) nms gl1 l1 H1) as (st & gl' & l' & -> & H' & Ha').
      exists st, gl', l'. split; [done|]. split; [done|]. by eapply adds_trans.
    + exists (-1), gl1, l1. split; [done|]. split; [done|]. eapply adds_trans; [done|apply adds_fail].
  - exists 0, gl1, l1. split; [done|]. split; [done|]. eapply adds_trans; [done|apply adds_nil].
Qed.

(** *** Reading the list again *)

Definition is_pipe (e : filter_entry_st) : bool := fe_type e =? FILTER_TYPE_PIPE.
Definition drop_pipe (e : filter_entry_st) : filter_entry_st := if is_pipe e then empty_entry else e.

Lemma delete_pipes_spec l2 : forall l1 gl, list_is gl (l1 ++ l2) ->
  exists gl', delete_pipes (length l2) (zlen l1) gl = Done gl' /\ list_is gl' (l1 ++ map drop_pipe l2).
Proof.
  induction l2 as [|e l2 IH]; intros l1 gl H; cbn [length delete_pipes map]; [by exists gl|].
  rewrite (list_entry _ _ _ _ H). cbn [obind].
  assert (exists gl1, (if fe_type e =? FILTER_TYPE_PIPE then delete_filter_entry (zlen l1) gl else Done gl) = Done gl1 /\
    list_is gl1 (l1 ++ drop_pipe e :: l2)) as (gl1 & -> & H1).
  { unfold drop_pipe, is_pipe. destruct (fe_type e =? FILTER_TYPE_PIPE) eqn:Et; [|by exists gl].
    pose proof (list_entry_ok _ _ _ _ H) as He. unfold entry_ok in He. destruct (fe_fname e) as [nm|] eqn:En; [|by subst e].
    destruct (list_delete gl l1 e l2 nm H En) as (gl1 & Ed & H1). by exists gl1. }
  cbn [obind]. destruct (next_entry l1 e (drop_pipe e) l2) as (En & El & _). rewrite En in H1.
  destruct (IH _ gl1 H1) as (gl' & E' & H'). rewrite El in E'. exists gl'. split; [done|]. by rewrite <- app_assoc in H'.
Qed.

Lemma reload_spec gl l : conf_ok -> list_is gl l -> exists st gl' l1, e_reload_filters g v gl = Done (st, gl') /\
  list_is gl' (map opened l1) /\ adds filters_wanted st (map drop_pipe l) l1.
Proof.
  intros Hcf H. unfold e_reload_filters. rewrite (li_nmax _ _ H). replace (Z.to_nat (zlen l)) with (length l) by (unfold zlen; lia).
  destruct (delete_pipes_spec l [] gl H) as (gl1 & E & H1). change (zlen (@nil filter_entry_st)) with 0 in E. rewrite E.
  cbn [obind app] in *. destruct (get_filters_spec gl1 _ Hcf H1) as (st & gl2 & l2 & -> & H2 & Ha). cbn [obind].
  destruct (open_filters_spec true gl2 l2 H2) as (gl' & Eo & H'); [done|]. unfold reopen_filters. rewrite Eo. cbn [obind].
  by exists st, gl', l2.
Qed.
End list.

(** ** The turns of the thread *)

Section turns.
Context `{Hp : Heap} {HS : HeapSpec Hp} `{QR : QueueDbReliable}.
Context (g : filter_conf).

(** the memory of the packet *)
Definition packet_buffer_ok (reclen : Z) (pi : packet_info_st) : Prop :=
  exists b, pi_packet pi = Some b /\ zlen b = reclen /\ pi_packet_size pi = reclen.

(** the products [es] wait in the queue of the filters *)
Record queue_of (reclen : Z) (qt : nbsp_qtable_st) (es : list pctl_element_st) (other : list (list Z)) : Prop := QueueOf {
  qo_rep : table_rep qt [map fp_packet es; other];
  qo_reclen : qt_reclen qt = reclen;
  qo_named : Forall (fun e => pce_named e /\ zlen (fp_packet e) = reclen) es;
  qo_size : zlen es < 2 ^ 31
}.

Definition filter_text (v : filter_env) (e : pctl_element_st) : list Z :=
  pipe_text v g (unpacked_fp e (fp_packet e) 0) (text_of (fname e)) (fpath e).

Lemma queue_turn v reclen pi qt es other gl l : env_ok v -> 0 <= reclen < 2 ^ 31 -> packet_buffer_ok reclen pi ->
  queue_of reclen qt es other -> list_is gl l ->
  exists pi' qt' gl' l', process_filter_queue g v (alone qt FILTER_Q_INDEX) pi qt gl = Done (Some (0, pi', qt', gl')) /\
    packet_buffer_ok reclen pi' /\ list_is gl' l' /\ queue_of reclen qt' (tail es) other /\
    match es with
    | [] => l' = l
    | e :: _ => Forall2 (handled v g (fp_packet e) (filter_text v e)) l l'
    end.
Proof.
  intros Hv Hr (b & Eb & Hb & Hs) [Hrep Hrl Hes Hsz] H. unfold process_filter_queue. rewrite Eb, Hs.
  pose proof (rcv1_spec qt _ FILTER_Q_INDEX b Hrep) as Hq.
  assert (0 <= FILTER_Q_INDEX < qt_n qt) as Hix.
  { destruct Hrep as [-> _ HF]. apply Forall2_length in HF. unfold zlen, FILTER_Q_INDEX. rewrite HF. cbn. lia. }
  specialize (Hq Hix). rewrite Hrl in Hq. change (Z.to_nat FILTER_Q_INDEX) with 0%nat in Hq.
  destruct es as [|e es]; cbn [map] in Hq; cbn [q_spec] in Hq;
    change ([[]; other] !!! Z.to_nat FILTER_Q_INDEX) with (@nil (list Z)) in Hq;
    try change ((fp_packet e :: map fp_packet es) :: [other]) with [fp_packet e :: map fp_packet es; other] in Hq.
  - destruct Hq as (p & qt' & Er & -> & Hrep' & _ & Hrl' & _); [done|lia|done|]. unfold e_nbspq_rcv_filter. rewrite Er. cbn [obind].
    rewrite Z.eqb_refl. cbn [c_assert Z.eqb Pos.eqb]. eexists _, qt', gl, l. split; [done|]. split; [by exists b|]. split; [done|].
    split; [|done]. split; [done|by rewrite Hrl'|done|done].
  - change ([fp_packet e :: map fp_packet es; other] !!! Z.to_nat FILTER_Q_INDEX) with (fp_packet e :: map fp_packet es) in Hq.
    cbv iota beta in Hq. rewrite zlen_cons in Hsz. inversion Hes as [|? ? [Hn Hl] Hes']; subst x l0.
    destruct Hq as (p & qt' & Er & -> & Hrep' & _ & Hrl' & _); [done|lia| |].
    { change ([fp_packet e :: map fp_packet es; other] !!! 0%nat) with (fp_packet e :: map fp_packet es).
      rewrite zlen_cons. unfold zlen in *. rewrite length_map. lia. }
    unfold e_nbspq_rcv_filter. rewrite Er. cbn [obind].
    rewrite Z.eqb_refl. cbn [c_assert Z.eqb Pos.eqb negb].
    rewrite (nbsfp_unpack_spec _ e []) by (done || (cbn [pi_packet]; by rewrite app_nil_r)). cbn [obind Z.eqb pi_packet_size].
    rewrite app_nil_r. set (pi2 := unpacked_fp e (fp_packet e) reclen).
    destruct (send_filters_spec v Hv g gl l pi2 (fp_packet e) (text_of (fname e)) (fpath e) H) as (gl' & l' & -> & H' & HF).
    { split; [done|split; [done|lia]|]. exists 20, 39. destruct (fp_packet_names e [] Hn) as [E1 E2]. rewrite app_nil_r in *.
      by split_and!. }
    cbn [obind]. exists pi2, qt', gl', l'. split; [done|]. split; [by exists (fp_packet e)|]. split; [done|].
    split; [|done]. cbn [tail]. split; [done|by rewrite Hrl'|done|lia].
Qed.

Lemma reset_ok gl l : list_is gl l -> list_is (reset_filters_stats gl) (map (set_fe_stats 0 0) l).
Proof.
  intros [E Em En Es HF Hn]. assert (names (map (set_fe_stats 0 0) l) = names l) as E2.
  { clear. induction l as [|e l IH]; [done|]. cbn [map]. rewrite !names_cons, IH. done. }
  assert (zlen (map (set_fe_stats 0 0) l) = zlen l) as E3 by (unfold zlen; by rewrite length_map).
  unfold reset_filters_stats. rewrite E. split; cbn [gl_n gl_nmax gl_filters fmap option_fmap option_map]; rewrite ?E2, ?E3; try done.
  clear -HF. induction HF as [|e l He _ IH]; cbn [map]; constructor; [|done].
  unfold entry_ok in *. cbn [fe_fname set_fe_stats fe_fd fe_pfp fe_type]. by destruct (fe_fname e); [|subst e].
Qed.

(** A turn of the thread: the state of the queue, which the other threads
    change, the environment, and the flags *)
Record turn := Turn { tn_env : filter_env; tn_qt : nbsp_qtable_st; tn_reload : Z; tn_state : Z }.
Definition turn_ok (reclen : Z) (t : turn) : Prop :=
  env_ok (tn_env t) /\ exists es other, queue_of reclen (tn_qt t) es other.

(** the thread goes on whatever the status is *)
Fixpoint run_turns (ts : list turn) (pi : packet_info_st) (gl : filter_list_st)
  : outcome (packet_info_st * filter_list_st) :=
  match ts with
  | [] => Done (pi, gl)
  | t :: ts =>
      let* r := filter_loop_turn g (tn_env t) (alone (tn_qt t) FILTER_Q_INDEX) (tn_reload t) (tn_state t) pi (tn_qt t) gl in
      match r with
      | Some (_, pi, _, gl) => run_turns ts pi gl
      | None => Done (pi, gl)
      end
  end.

Lemma run_turns_ok reclen ts : conf_ok g -> 0 <= reclen < 2 ^ 31 -> Forall (turn_ok reclen) ts ->
  forall pi gl l, packet_buffer_ok reclen pi -> list_is gl l ->
  exists pi' gl' l', run_turns ts pi gl = Done (pi', gl') /\ packet_buffer_ok reclen pi' /\ list_is gl' l'.
Proof.
  intros Hcf Hr. induction 1 as [|t ts [Hv (es & other & Hq)] _ IH]; intros pi gl l Hb H; cbn [run_turns].
  { by exists pi, gl, l. }
  unfold filter_loop_turn.
  destruct (queue_turn (tn_env t) reclen pi (tn_qt t) es other gl l Hv Hr Hb Hq H) as (pi1 & qt1 & gl1 & l1 & -> & Hb1 & H1 & _).
  cbn [obind Z.eqb andb].
  assert (exists st gl2 l2, (if tn_reload t =? 1 then e_reload_filters g (tn_env t) gl1 else Done (0, gl1)) = Done (st, gl2) /\
    list_is gl2 l2) as (st & gl2 & l2 & -> & H2).
  { destruct (tn_reload t =? 1); [|by exists 0, gl1, l1].
    destruct (reload_spec (tn_env t) Hv g gl1 l1 Hcf H1) as (st & gl2 & l2 & -> & H2 & _). by eexists _, _, _. }
  cbn [obind]. destruct (negb (tn_state t =? 0)); [|by apply (IH pi1 gl2 l2)].
  apply (IH pi1 _ _ Hb1 (reset_ok _ _ H2)).
Qed.

Lemma kill_ok gl l : gl_filters gl = Some l -> gl_nmax gl = zlen l -> kill_filter_list gl = Done (FilterList 0 0 None).
Proof.
  intros E Em. unfold kill_filter_list. rewrite E, Em. replace (Z.to_nat (zlen l)) with (length l) by (unfold zlen; lia). clear Em.
  assert (exists gl', delete_all (length l) 0 gl = Done gl') as [gl' ->]; [|done].
  change 0 with (zlen (@nil filter_entry_st)). change l with ([] ++ l) in E.
  generalize (@nil filter_entry_st) as l1, E. clear E. revert gl. induction l as [|e l IH]; intros gl l1 E; cbn [length delete_all].
  { by exists gl. }
  unfold delete_filter_entry, entry_at, upd_entry. rewrite E. pose proof (zlen_nonneg l1).
  rewrite (proj2 (rd_Done _ _ e)) by (rewrite znth_app_r by lia; by rewrite Z.sub_diag). cbn [obind].
  rewrite wr_app by (done || (rewrite !zlen_cons, zlen_nil; pose proof (zlen_nonneg l); lia)). cbn [obind].
  change (zdrop (zlen [empty_entry]) (e :: l)) with l. cbn [app].
  destruct (next_entry l1 e empty_entry l) as (En & <- & _). apply IH. cbn [gl_filters]. by rewrite En.
Qed.
End turns.

(** ** Theorems *)

Section theorems.
Context `{Hp : Heap} {HS : HeapSpec Hp} `{QR : QueueDbReliable}.
Context (g : filter_conf).

(** C8: The filter thread. From the start of the thread, whatever products come,
    whatever opening, writing to and reading the directory of the filters return,
    and whenever the thread is told to read the list again, no assertion fails
    and nothing is accessed out of bounds; the list stays well formed: the
    filters that are counted have different names, each is a fifo or a pipe and
    has only that end open, and the other entries are empty. Then the thread
    ends without errors too. *)
Theorem filter_thread_safe (v0 : filter_env) (spooldir junk : list Z) (pi0 : packet_info_st) (ts : list turn)
  (Hcf : conf_ok g) (Hv : env_ok v0)
  (Hjunk : 0 <= const_fpath_packet_maxsize spooldir < 2 ^ 31 /\ const_fpath_packet_maxsize spooldir <= zlen junk)
  (Hts : Forall (turn_ok (const_fpath_packet_maxsize spooldir)) ts) :
  exists st pi gl, open_filter_server g v0 spooldir junk pi0 = Done (st, pi, gl) /\
    (st <> 0 -> exists r, close_filter_server pi gl = Done r) /\
    (st = 0 -> exists pi' gl' l', run_turns g ts pi gl = Done (pi', gl') /\ list_is gl' l' /\
       exists r, close_filter_server pi' gl' = Done r).
Proof.
  assert (forall pi gl l, list_is gl l -> exists r, close_filter_server pi gl = Done r) as Hclose.
  { intros pi gl l H. unfold close_filter_server. rewrite (kill_ok gl l) by apply H. by eexists. }
  unfold open_filter_server, nbsfp_packetinfo_init. set (n := const_fpath_packet_maxsize spooldir) in *.
  destruct (malloc_ok n); cbn [Z.eqb negb].
  2:{ change (-1 =? 0) with false. eexists _, _, _. split; [done|]. split; [by eexists|done]. }
  set (pi := PacketInfo _ _ _ _ _ _ _ _ _). assert (packet_buffer_ok n pi) as Hb.
  { exists (ztake n junk). split_and!; [done|rewrite zlen_take; lia|done]. }
  unfold init_filter_list. destruct (malloc_ok (INITIAL_SIZE * SIZEOF_FILTER_ENTRY)); cbn [negb Z.eqb].
  2:{ change (-1 =? 0) with false. eexists _, _, _. split; [done|]. split; [by eexists|done]. }
  change (Z.to_nat INITIAL_SIZE) with 1%nat. cbn [replicate].
  assert (list_is (FilterList 0 INITIAL_SIZE (Some [empty_entry])) [empty_entry]) as H0.
  { split; try done. - by repeat constructor. - constructor. }
  destruct (get_filters_spec v0 g _ _ Hcf H0) as (st & gl1 & l1 & -> & H1 & _ & ws & Hu & _). cbn [obind].
  destruct (open_filters_spec v0 Hv false gl1 l1 H1) as (gl2 & Eo & H2).
  { intros _. apply list.Forall_forall. intros e Hin. destruct (fe_fname e) as [nm|] eqn:En.
    - assert (e ∈ used l1) as Hin2 by (apply list_elem_of_filter; split; [by eexists|done]). rewrite Hu in Hin2.
      clear -Hin2. change (used [empty_entry]) with (@nil filter_entry_st) in Hin2.
      assert (forall ws l, Forall closed l -> Forall closed (added ws l)) as Hadd.
      { clear. induction ws as [|[nm ty] ws IH]; intros l Hl; [done|]. apply IH. destruct (decide _); [done|]. by constructor. }
      pose proof (Hadd ws [] (List.Forall_nil _)) as HF. rewrite list.Forall_forall in HF. by apply HF.
    - pose proof (li_entries _ _ H1) as HF. rewrite list.Forall_forall in HF. specialize (HF e Hin). unfold entry_ok in HF.
      rewrite En in HF. by subst e. }
  unfold open_filters. rewrite Eo. cbn [obind]. exists st, pi, gl2. split; [done|]. split; [intros _; by eapply Hclose|]. intros _.
  destruct (run_turns_ok g n ts Hcf ltac:(lia) Hts pi gl2 _ Hb H2) as (pi' & gl' & l' & -> & _ & H').
  exists pi', gl', l'. split; [done|]. split; [done|]. by eapply Hclose.
Qed.

(** C9: A product for the filters. A turn takes the oldest packet of the queue;
    each fifo that is open, or can be opened, and takes it all, gets the bytes
    of the packet after what it got before, and each pipe the line with its
    fields; the others are closed and the failure is counted. The list has the
    same filters as before. *)
Theorem product_filtered (v : filter_env) reclen pi qt e es other gl l (Hv : env_ok v) (Hr : 0 <= reclen < 2 ^ 31)
  (Hb : packet_buffer_ok reclen pi) (Hq : queue_of reclen qt (e :: es) other) (H : list_is gl l) :
  exists pi' qt' gl' l', process_filter_queue g v (alone qt FILTER_Q_INDEX) pi qt gl = Done (Some (0, pi', qt', gl')) /\
    packet_buffer_ok reclen pi' /\ queue_of reclen qt' es other /\ list_is gl' l' /\
    Forall2 (handled v g (fp_packet e) (filter_text g v e)) l l'.
Proof.
  destruct (queue_turn g v reclen pi qt (e :: es) other gl l Hv Hr Hb Hq H) as (pi' & qt' & gl' & l' & -> & Hb' & H' & Hq' & HF).
  by exists pi', qt', gl', l'.
Qed.

(** C10: Reading the list again. When it succeeds the filters are: the fifos that
    were there, and then those that the configuration and the directory name and
    that are not already there, each with the type that comes first; less the
    ones that cannot be opened. A fifo that was open is left as it was. *)
Theorem reload_finds_filters (v : filter_env) gl l (Hcf : conf_ok g) (Hv : env_ok v) (H : list_is gl l) :
  exists st gl' l', e_reload_filters g v gl = Done (st, gl') /\ list_is gl' l' /\
    (st = 0 -> used l' ≡ₚ map (opened v)
       (filter (fun e => is_Some (fe_fname (opened v e)))
          (added (filters_wanted v g) (filter (fun e => fe_type e = FILTER_TYPE_FIFO) l)))) /\
    (forall e f, fe_fd e = Some f -> fe_type e = FILTER_TYPE_FIFO -> fe_fname e <> None -> opened v e = e).
Proof.
  destruct (reload_spec v Hv g gl l Hcf H) as (st & gl' & l1 & -> & H' & Hst & ws & Hu & _ & Hws).
  exists st, gl', (map (opened v) l1). split; [done|]. split; [done|]. split.
  - intros Hs. rewrite (Hws Hs) in Hu.
    assert (used (map drop_pipe l) = filter (fun e => fe_type e = FILTER_TYPE_FIFO) l) as Ed.
    { pose proof (li_entries _ _ H) as HF. clear -HF. induction HF as [|e l He _ IH]; [done|]. cbn [map].
      unfold drop_pipe at 1, is_pipe. unfold entry_ok in He. destruct (fe_fname e) as [nm|] eqn:En.
      - destruct He as (_ & _ & [[Et _]|[Et _]]); rewrite Et.
        + change (FILTER_TYPE_FIFO =? FILTER_TYPE_PIPE) with false. cbv iota. rewrite used_some by (rewrite En; by eexists).
          by rewrite list.filter_cons_True, IH.
        + change (FILTER_TYPE_PIPE =? FILTER_TYPE_PIPE) with true. cbv iota. rewrite used_none by done.
          rewrite list.filter_cons_False; [done|]. by rewrite Et.
      - subst e. cbn [fe_type empty_entry]. change (FILTER_TYPE_NONE =? FILTER_TYPE_PIPE) with false. cbv iota.
        rewrite used_none by done. rewrite list.filter_cons_False; done. }
    rewrite Ed in Hu. rewrite <- Hu. clear. induction l1 as [|e l1 IH]; [done|]. cbn [map].
    destruct (fe_fname e) as [nm|] eqn:En.
    + rewrite (used_some e) by (rewrite En; by eexists). destruct (decide (is_Some (fe_fname (opened v e)))) as [Hs|Hs].
      * rewrite list.filter_cons_True by done. cbn [map]. rewrite used_some by done. by rewrite IH.
      * rewrite list.filter_cons_False by done. rewrite used_none; [done|]. destruct (fe_fname (opened v e)); [|done]. by destruct Hs; eexists.
    + rewrite (used_none e) by done. assert (opened v e = e) as -> by (unfold opened; by rewrite En). by rewrite used_none.
  - intros e f Ef Et En. unfold opened, listener. rewrite Et, Ef. destruct (fe_fname e); [|done].
    change (FILTER_TYPE_FIFO =? FILTER_TYPE_FIFO) with true. cbv iota. by apply set_fd_id.
Qed.
End theorems.

(** ** Witnesses *)

Section witnesses.
#[local] Existing Instances demo_heap demo_heap_spec.
#[local] Instance demo_qd84 : QueueDb := fixed_qd demo_reclen.
#[local] Instance demo_qd84_spec : QueueDbSpec demo_qd84 := fixed_qd_spec demo_reclen.
#[local] Instance demo_qd84_reliable : QueueDbReliable demo_qd84 demo_qd84_spec := fixed_qd_reliable demo_reclen.

(** the list "a:b", and a directory d with a directory and a fifo *)
Definition demo_fconf : filter_conf := FilterConf (Some [97; 58; 98]) (Some [100]) SPOOLTYPE_FS.
Definition demo_fenv : filter_env :=
  FilterEnv (fun _ => Opened (Fd [EvRoom 200] [] [])) (fun nm => if decide (nm = [98]) then None else Some []) 0
    (Some [[46]; [102]]) (fun p => if decide (p = [100; 47; 102]) then Some 4480 else Some 16877) (fun _ => (0, 0)).

Lemma demo_fenv_ok : env_ok demo_fenv.
Proof. intros nm f [= <-]. by repeat constructor. Qed.
Lemma demo_fconf_ok : conf_ok demo_fconf.
Proof. by repeat constructor. Qed.

Definition demo_waiting : pctl_element_st := demo_item 1 7 0 98.
Lemma demo_waiting_ok : pce_named demo_waiting.
Proof.
  pose proof demo_items_ok as Hok. inversion Hok as [|? ? ? ? [Hit _] _]; subst. destruct Hit as [Hnm _ _ _ _ _].
  by destruct Hnm; split.
Qed.
Lemma demo_waiting_length : zlen (fp_packet demo_waiting) = demo_reclen.
Proof. reflexivity. Qed.

Definition demo_waiting_qt : nbsp_qtable_st :=
  Qtable 2 0 2 demo_reclen [(0, 0); (0, 0)]
    [Nbspq ([exist _ (fp_packet demo_waiting) demo_waiting_length] : @qd demo_qd84) 1 1 0; Nbspq ([] : @qd demo_qd84) 0 1 0].

Lemma demo_queue_of : queue_of demo_reclen demo_waiting_qt [demo_waiting] [].
Proof.
  split; [|done|constructor; [split; [exact demo_waiting_ok|done]|done]|done].
  split; [done|done|]. by repeat constructor.
Qed.

Lemma filter_thread_safe_witness : exists st pi gl,
  open_filter_server demo_fconf demo_fenv [47; 115] (replicate 84 0) (PacketInfo 0 0 0 0 0 None None None 0) = Done (st, pi, gl) /\
  (st <> 0 -> exists r, close_filter_server pi gl = Done r) /\
  (st = 0 -> exists pi' gl' l', run_turns demo_fconf [Turn demo_fenv demo_waiting_qt 1 1] pi gl = Done (pi', gl') /\
     list_is gl' l' /\ exists r, close_filter_server pi' gl' = Done r).
Proof.
  apply (filter_thread_safe demo_fconf demo_fenv [47; 115] (replicate 84 0) (PacketInfo 0 0 0 0 0 None None None 0)
    [Turn demo_fenv demo_waiting_qt 1 1]); [exact demo_fconf_ok|exact demo_fenv_ok|by split|].
  constructor; [|done]. split; [exact demo_fenv_ok|]. exists [demo_waiting], []. exact demo_queue_of.
Defined.

Definition demo_fl : list filter_entry_st :=
  [FilterEntry None (Some (Pfilter (Fd [] [] []) [] [])) FILTER_TYPE_PIPE (Some [97]) 0 0; empty_entry;
   FilterEntry (Some (Fd [EvRoom 200] [] [])) None FILTER_TYPE_FIFO (Some [100; 47; 102]) 0 0].
Definition demo_gl : filter_list_st := FilterList 2 3 (Some demo_fl).
Lemma demo_fl_is : list_is demo_gl demo_fl.
Proof.
  split; try done.
  - constructor; [split; [done|split; [done|by right]]|]. constructor; [done|]. constructor; [|done].
    split; [done|]. split; [by repeat constructor|by left].
  - apply (bool_decide_unpack _). by vm_compute.
Qed.

Lemma product_filtered_witness : exists pi' qt' gl' l',
  process_filter_queue demo_fconf demo_fenv (alone demo_waiting_qt FILTER_Q_INDEX)
    (PacketInfo 0 0 0 0 0 None None (Some (replicate 84 0)) 84) demo_waiting_qt demo_gl = Done (Some (0, pi', qt', gl')) /\
  packet_buffer_ok demo_reclen pi' /\ queue_of demo_reclen qt' [] [] /\ list_is gl' l' /\
  Forall2 (handled demo_fenv demo_fconf (fp_packet demo_waiting) (filter_text demo_fconf demo_fenv demo_waiting)) demo_fl l'.
Proof.
  apply (product_filtered demo_fconf demo_fenv demo_reclen (PacketInfo 0 0 0 0 0 None None (Some (replicate 84 0)) 84)
    demo_waiting_qt demo_waiting [] [] demo_gl demo_fl); [exact demo_fenv_ok|done|by exists (replicate 84 0)|exact demo_queue_of|exact demo_fl_is].
Defined.

Lemma reload_finds_filters_witness : exists st gl' l', e_reload_filters demo_fconf demo_fenv demo_gl = Done (st, gl') /\
  list_is gl' l' /\ st = 0 /\
  used l' ≡ₚ [FilterEntry None (Some (Pfilter (Fd [] [] []) [] [])) FILTER_TYPE_PIPE (Some [97]) 0 0;
              FilterEntry (Some (Fd [EvRoom 200] [] [])) None FILTER_TYPE_FIFO (Some [100; 47; 102]) 0 0].
Proof.
  destruct (reload_finds_filters demo_fconf demo_fenv demo_gl demo_fl demo_fconf_ok demo_fenv_ok demo_fl_is)
    as (st & gl' & l' & E & H & Hu & _).
  exists st, gl', l'. split; [exact E|]. split; [exact H|].
  assert (st = 0) as -> by (vm_compute in E; by injection E). split; [done|]. exact (Hu eq_refl).
Defined.
End witnesses.
