(* ===== verification/Slave.v ===== *)
(** * Slave: src/src/slave.c, slave_net.c and slave_in.c, the threads of the slaves

    The configuration says which feeds there are; the table of the slaves
    ([Slavet]) is made from the names of the fifo and of the servers, and each
    slave has a thread. The thread of a server connects to it, says what protocol
    it wants, and reads packets ([Slavenbs], [Slavefp]); that of the fifo makes
    the fifo and reads lines. After an error of the connection they close it and
    try again.

    The state of a thread is its element of the table, its [info] and what it
    feeds. What happens outside in a turn of a thread (the connection that the
    system gives, the status of [close], the time) is an argument; the program
    ends when there are no more turns. *)

From stdpp Require Import gmap.
From S2P Require Import Prelude Util CLib Mfile Pctldb Pctl Framep Nreadn Packfp Qdb File Mspool.
From S2P Require Import Nbsp Nbs1 Emwin Serverc Strsplit Stoi Slavet Slavenbs Slavefp Conn.

Definition FEEDMODE_NOAAPORT : Z := 1.
Definition FEEDMODE_MASTERSERVERS : Z := 2.
Definition FEEDMODE_INPUTFIFO : Z := 4.
Definition SLAVE_STRING_JOIN1 : list Z := [10].
Definition SLAVE_STRING_JOIN2 : list Z := [44].

(** the part of the globals; [None]: a null pointer *)
Record slave_globals := SlaveGlobals {
  feedmode : Z;
  g_infifo : option (list Z);
  g_masterservers : option (list Z);
  slave_defaults : slave_options_st;
  g_slavet : option slave_table_st
}.
Definition set_slavet v (g : slave_globals) :=
  SlaveGlobals (feedmode g) (g_infifo g) (g_masterservers g) (slave_defaults g) v.

Definition feedmode_noaaport_enabled (g : slave_globals) : Z :=
  if negb (Z.land (feedmode g) FEEDMODE_NOAAPORT =? 0) then 1 else 0.
Definition feedmode_masterservers_enabled (g : slave_globals) : Z :=
  if negb (Z.land (feedmode g) FEEDMODE_MASTERSERVERS =? 0) then 1 else 0.
Definition feedmode_inputfifo_enabled (g : slave_globals) : Z :=
  if negb (Z.land (feedmode g) FEEDMODE_INPUTFIFO =? 0) then 1 else 0.
Definition feedmode_slave_enabled (g : slave_globals) : Z :=
  if negb (feedmode_inputfifo_enabled g =? 0) || negb (feedmode_masterservers_enabled g =? 0) then 1 else 0.
Definition feedmode_slave_nbs1_enabled (g : slave_globals) : outcome Z :=
  if feedmode_masterservers_enabled g =? 0 then Done 0 else
  match g_slavet g with
  | None => Undef
  | Some t => Done (if negb (num_slavenbs_readers t =? 0) then 1 else 0)
  end.

(** ** The configuration *)

Section config.
Context {Hp : Heap}.

(** [None]: an error. [snprintf] gives the length of the text *)
Definition slave_make_configuration_string (g : slave_globals) : option (list Z) :=
  if valid_str (g_infifo g) =? 0 then None else
  let infifo := default [] (g_infifo g) in
  let n := zlen infifo + 1 + zlen SLAVE_STRING_JOIN2 in
  let masters := negb (feedmode_masterservers_enabled g =? 0) in
  if masters && (valid_str (g_masterservers g) =? 0) then None else
  let servers := default [] (g_masterservers g) in
  let n := s32 (if masters then n + (zlen servers + zlen SLAVE_STRING_JOIN1) else n) in
  if negb (malloc_ok (u64 (n + 1))) then None else
  let text := 51 :: SLAVE_STRING_JOIN2 ++ infifo ++ if masters then SLAVE_STRING_JOIN1 ++ servers else [] in
  if negb (s32 (zlen text) =? n) then None else Some text.

Definition init_slavet (g : slave_globals) : outcome (Z * slave_globals) :=
  if negb (feedmode_masterservers_enabled g =? 0) && (valid_str (g_masterservers g) =? 0) then Done (-1, g) else
  if negb (feedmode_inputfifo_enabled g =? 0) && (valid_str (g_infifo g) =? 0) then Done (-1, g) else
  let create s := slave_table_create (negb (feedmode_noaaport_enabled g =? 0)) s (slave_defaults g) in
  let* (status, t) :=
    if negb (feedmode_inputfifo_enabled g =? 0) then
      match slave_make_configuration_string g with
      | None => Done (-1, None)
      | Some conf_str => create (Some conf_str)
      end
    else create (g_masterservers g) in
  Done (status, if status =? 0 then set_slavet t g else g).

Definition cleanup_slavet (g : slave_globals) : outcome slave_globals :=
  match g_slavet g with
  | None => Done g
  | Some t => let* _ := slave_table_destroy t in Done (set_slavet None g)
  end.
End config.

(** ** The threads

    [run]: the indexes in the table of the threads that exist; [status]: what
    [pthread_create] returns. *)

Definition set_sl_created v (sl : slave_element_st) :=
  Slave (slavetype sl) (mastername sl) (masterport sl) (infifo sl) (options sl) v (slave_fd sl)
    (slavenbs_reader_index sl) (stats sl).

Definition slavenet_spawn_thread (status i : Z) (sl : slave_element_st) (run : list Z)
  : Z * slave_element_st * list Z :=
  if negb (status =? 0) then (status, sl, run) else (status, set_sl_created 1 sl, run ++ [i]).
Definition slavein_spawn_thread := slavenet_spawn_thread.

(** the thread is told to end, and has ended when the join returns *)
Definition slavenet_kill_thread (i : Z) (sl : slave_element_st) (run : list Z) : list Z :=
  if f_slave_thread_created sl =? 0 then run else List.filter (fun j => negb (j =? i)) run.
Definition slavein_kill_thread := slavenet_kill_thread.

Definition slave_spawn_thread (status i : Z) (sl : slave_element_st) (run : list Z)
  : Z * slave_element_st * list Z :=
  if slavetype sl =? SLAVETYPE_NBS1 then slavenet_spawn_thread status i sl run
  else if slavetype sl =? SLAVETYPE_NBS2 then slavenet_spawn_thread status i sl run
  else if slavetype sl =? SLAVETYPE_INFIFO then slavein_spawn_thread status i sl run
  else (1, sl, run).
Definition slave_kill_thread (i : Z) (sl : slave_element_st) (run : list Z) : list Z :=
  if slavetype sl =? SLAVETYPE_NBS1 then slavenet_kill_thread i sl run
  else if slavetype sl =? SLAVETYPE_NBS2 then slavenet_kill_thread i sl run
  else if slavetype sl =? SLAVETYPE_INFIFO then slavein_kill_thread i sl run
  else run.

(** the loops go to [numslaves], which is the number of elements; [create]: the
    status of [pthread_create] for each one *)
Fixpoint spawn_slave_threads (create : Z -> Z) (i : Z) (l : list slave_element_st) (run : list Z)
  : Z * list slave_element_st * list Z :=
  match l with
  | [] => (0, [], run)
  | sl :: l =>
      let '(status, sl, run) := slave_spawn_thread (create i) i sl run in
      if negb (status =? 0) then (status, sl :: l, run) else
      let '(status, l, run) := spawn_slave_threads create (i + 1) l run in (status, sl :: l, run)
  end.
Fixpoint kill_slave_threads (i : Z) (l : list slave_element_st) (run : list Z) : list Z :=
  match l with
  | [] => run
  | sl :: l => kill_slave_threads (i + 1) l (slave_kill_thread i sl run)
  end.

(** ** The thread of a server *)

(** what happens in a turn: the connection that [tcp_client_open_conn] gives if
    it is called, the status of [close], the time and if the file of the
    counters can be opened *)
Record net_turn := NetTurn {
  nt_conn : option fd_st;
  nt_close : Z;
  nt_tick : Z * bool
}.

(** what the thread feeds: the processing queue or the distribution queues *)
Section net_state.
Context `{D : Db} `{Q : QueueDb}.

Record net_state := NetState {
  ns_frame : fstate;
  ns_info : option packet_info_st;
  ns_queues : nbsp_qtable_st
}.
Definition set_ns_info v (s : net_state) := NetState (ns_frame s) v (ns_queues s).
End net_state.

Section net.
Context `{Hp : Heap} `{D : Db} `{C : Clock} `{Rx : Regex} `{FS : FileSys} `{Q : QueueDb} {QRx : QueueRegex}.
Context (g : globals) (slave_reject_duplicates : Z) (fs : fsys) (n0 : nbs1_packet_st).
Context (filterq_used serverq_used : bool) (fc sc : Z).
Context (junk : list Z) (pi0 : packet_info_st).

Definition slavenet_init_info (sl : slave_element_st) (s : net_state) : Z * net_state :=
  if slavetype sl =? SLAVETYPE_NBS1 then (0, s)
  else if slavetype sl =? SLAVETYPE_NBS2 then
    let (status, p) := slavenet_init_nbs2 (spooldir g) junk pi0 in
    (status, if status =? 0 then set_ns_info p s else s)
  else (1, s).
Definition slavenet_cleanup_info (sl : slave_element_st) (s : net_state) : net_state :=
  if slavetype sl =? SLAVETYPE_NBS2 then set_ns_info None s else s.

Definition protocol_str (type : Z) : option (list Z) :=
  if type =? SLAVETYPE_NBS1 then Some PROTOCOL_NBS1_STR
  else if type =? SLAVETYPE_NBS2 then Some PROTOCOL_NBS2_STR else None.

(** 0, 1 timed out, 2 configuration error, -1 error *)
Definition slavenet_open (conn : option fd_st) (sl : slave_element_st) : outcome (Z * slave_element_st) :=
  let* name := cvalue (mastername sl) in
  if valid_str name =? 0 then Done (2, sl) else
  let* port := cvalue (masterport sl) in
  if valid_str port =? 0 then Done (2, sl) else
  match protocol_str (slavetype sl) with
  | None => Done (2, sl)
  | Some nbs_str =>
      match conn with
      | None => Done (-1, set_sl_fd None sl)
      | Some f =>
          let (n, f) := writen f nbs_str (zlen nbs_str) 0 in
          let status := if n =? -1 then -1 else if negb (u64 n =? zlen nbs_str) then 1 else 0 in
          Done (status, set_sl_fd (if negb (status =? 0) then None else Some f) sl)
      end
  end.

Definition slavenet_close (status : Z) (sl : slave_element_st) : Z * slave_element_st :=
  match slave_fd sl with
  | None => (0, sl)
  | Some _ => (status, if status =? 0 then set_sl_fd None sl else sl)
  end.
Definition slavenet_try_close (status : Z) (sl : slave_element_st) : slave_element_st := (slavenet_close status sl).2.

Definition slavenet_reopen (t : net_turn) (sl : slave_element_st) : outcome (Z * slave_element_st) :=
  slavenet_open (nt_conn t) (slavenet_close (nt_close t) sl).2.

Definition slavenet_loop (t : net_turn) (sl : slave_element_st) (s : net_state)
  : outcome (Z * slave_element_st * net_state) :=
  if slavetype sl =? SLAVETYPE_NBS1 then
    let* (status, sl, st) := slavenet_loop_nbs1 (nt_tick t) g slave_reject_duplicates fs n0 sl (ns_frame s) in
    Done (status, sl, NetState st (ns_info s) (ns_queues s))
  else if slavetype sl =? SLAVETYPE_NBS2 then
    match ns_info s with
    | None => Undef
    | Some pi =>
        let* (status, sl, pi, qt) := slavenet_loop_nbs2 filterq_used serverq_used (nt_tick t) fc sc sl pi (ns_queues s) in
        Done (status, sl, NetState (ns_frame s) (Some pi) qt)
    end
  else Done (0, sl, s).

(** the body of the [while] of [slavenet_main] *)
Definition slavenet_turn (t : net_turn) (sl : slave_element_st) (s : net_state)
  : outcome (slave_element_st * net_state) :=
  let* sl :=
    match slave_fd sl with
    | None =>
        let* (_, sl) := slavenet_reopen t sl in
        Done (match slave_fd sl with None => sl | Some _ => slave_stats_connect (nt_tick t).1 sl end)
    | Some _ => Done sl
    end in
  match slave_fd sl with
  | None => Done (sl, s)
  | Some _ =>
      let* (status, sl, s) := slavenet_loop t sl s in
      Done (if status =? 1 then (slavenet_close (nt_close t) sl).2 else sl, s)
  end.
Fixpoint slavenet_turns (ts : list net_turn) (sl : slave_element_st) (s : net_state)
  : outcome (slave_element_st * net_state) :=
  match ts with
  | [] => Done (sl, s)
  | t :: ts => let* (sl, s) := slavenet_turn t sl s in slavenet_turns ts sl s
  end.

(** the value: the thread has told the program to quit; [t0]: what happens in
    the first opening; [tn]: the last status of [close] *)
Definition slavenet_start (t0 : net_turn) (sl : slave_element_st) (s : net_state)
  : outcome (bool * slave_element_st * net_state) :=
  let (status, s) := slavenet_init_info sl s in
  if negb (status =? 0) then Done (true, sl, s) else
  let* (status, sl) := slavenet_open (nt_conn t0) sl in
  Done (status =? 2, if status =? 0 then slave_stats_connect (nt_tick t0).1 sl else sl, s).
Definition slavenet_main (t0 : net_turn) (ts : list net_turn) (tn : Z) (sl : slave_element_st) (s : net_state)
  : outcome (bool * slave_element_st * net_state) :=
  let* (quit, sl, s) := slavenet_start t0 sl s in
  let* (sl, s) := if quit then Done (sl, s) else slavenet_turns ts sl s in
  let sl := slavenet_try_close tn sl in
  Done (quit, sl, slavenet_cleanup_info sl s).
End net.

(** ** The thread of the fifo *)

(** what the system answers: the status of [mkfifo] and of [chgrpmode], the
    descriptor, the status of [close], the time; the line that comes next is in
    the descriptor *)
Record in_turn := InTurn {
  it_mkfifo : Z;
  it_chgrpmode : Z;
  it_open : option fd_st;
  it_close : Z;
  it_tick : Z * bool
}.

Section in_state.
Context `{Q : QueueDb}.

(** [is_fifo]: the fifo is in the file system *)
Record in_state := InState {
  is_fifo : bool;
  is_info : option slavein_info_st;
  is_queues : nbsp_qtable_st
}.
Definition set_is_fifo v (s : in_state) := InState v (is_info s) (is_queues s).
Definition set_is_info v (s : in_state) := InState (is_fifo s) v (is_queues s).
End in_state.

Section infifo.
Context `{Hp : Heap} `{Q : QueueDb} {QRx : QueueRegex}.
Context (spooldir : list Z) (filterq_used serverq_used : bool) (fc sc : Z).
Context (junk4 : list Z) (junk : Z -> list Z) (packet_junk : list Z) (pi0 : packet_info_st).
Context (pce_size : Z) (pce0 : pctl_element_st).

Definition slavein_init (s : in_state) : Z * in_state :=
  let (status, p) := slavein_info_create spooldir packet_junk pi0 pce_size pce0 in
  (status, if status =? 0 then set_is_info p s else s).
Definition slavein_cleanup (s : in_state) : in_state := set_is_info None s.
Definition slavein_init_info := slavein_init.
Definition slavein_cleanup_info := slavein_cleanup.

Definition slavein_open (t : in_turn) (sl : slave_element_st) (s : in_state) : Z * slave_element_st * in_state :=
  let s := set_is_fifo false s in
  let status := it_mkfifo t in
  let s := set_is_fifo (status =? 0) s in
  let status := if status =? 0 then it_chgrpmode t else status in
  let sl := if status =? 0 then set_sl_fd (it_open t) sl else sl in
  (match slave_fd sl with None => -1 | Some _ => status end, sl, s).

Definition slavein_close (status : Z) (sl : slave_element_st) (s : in_state) : Z * slave_element_st * in_state :=
  match slave_fd sl with
  | None => (0, sl, s)
  | Some _ => if status =? 0 then (0, set_sl_fd None sl, set_is_fifo false s) else (status, sl, s)
  end.
Definition slavein_try_close (status : Z) (sl : slave_element_st) (s : in_state) : slave_element_st * in_state :=
  let '(_, sl, s) := slavein_close status sl s in (sl, s).

Definition slavein_reopen (t : in_turn) (sl : slave_element_st) (s : in_state) : Z * slave_element_st * in_state :=
  let '(status, sl, s) := slavein_close (it_close t) sl s in
  if status =? 0 then slavein_open t sl s else (status, sl, s).

(** the body of the [while] of [slavein_main] *)
Definition slavein_turn (t : in_turn) (sl : slave_element_st) (s : in_state)
  : outcome (slave_element_st * in_state) :=
  let '(sl, s) :=
    match slave_fd sl with
    | None => let '(_, sl, s) := slavein_reopen t sl s in (sl, s)
    | Some _ => (sl, s)
    end in
  match slave_fd sl with
  | None => Done (sl, s)
  | Some _ =>
      match is_info s with
      | None => Undef
      | Some i =>
          let* (status, sl, i, qt) :=
            slavein_loop filterq_used serverq_used (it_tick t) fc sc junk4 junk sl i (is_queues s) in
          let s := InState (is_fifo s) (Some i) qt in
          if status =? 1 then let '(_, sl, s) := slavein_close (it_close t) sl s in Done (sl, s) else Done (sl, s)
      end
  end.
Fixpoint slavein_turns (ts : list in_turn) (sl : slave_element_st) (s : in_state)
  : outcome (slave_element_st * in_state) :=
  match ts with
  | [] => Done (sl, s)
  | t :: ts => let* (sl, s) := slavein_turn t sl s in slavein_turns ts sl s
  end.

(** the value: the thread has told the program to quit; [tn]: the last status of
    [close] *)
Definition slavein_main (t0 : in_turn) (ts : list in_turn) (tn : Z) (sl : slave_element_st) (s : in_state)
  : outcome (bool * slave_element_st * in_state) :=
  let (status, s) := slavein_init_info s in
  let '(status, sl, s) := if status =? 0 then slavein_open t0 sl s else (status, sl, s) in
  let quit := negb (status =? 0) in
  let* (sl, s) := if quit then Done (sl, s) else slavein_turns ts sl s in
  let (sl, s) := slavein_try_close tn sl s in
  Done (quit, sl, slavein_cleanup_info s).
End infifo.

(** ** What the configuration gives *)

Definition enabled (mode : Z) (g : slave_globals) : bool := negb (Z.land (feedmode g) mode =? 0).
Definition fifo_text (g : slave_globals) : list Z := default [] (g_infifo g).
Definition servers_text (g : slave_globals) : list Z := default [] (g_masterservers g).

(** the entries: that of the fifo, and those of the servers *)
Definition wanted_entries (g : slave_globals) : list (list Z) :=
  (if enabled FEEDMODE_INPUTFIFO g then entries (51 :: 44 :: fifo_text g) else []) ++
  (if enabled FEEDMODE_MASTERSERVERS g then entries (servers_text g) else []).

Lemma split_on_delim delim a c b : is_delim delim c = true ->
  split_on delim (a ++ c :: b) = split_on delim a ++ split_on delim b.
Proof.
  intros Hc. induction a as [|x a IH]; cbn [app split_on]; [by rewrite Hc|].
  destruct (is_delim delim x); [by rewrite IH|]. rewrite IH. pose proof (split_on_nonempty delim a).
  by destruct (split_on delim a).
Qed.

Lemma split_on_plain delim a : no_delim delim a -> split_on delim a = [a].
Proof. induction 1 as [|x a Hx _ IH]; [done|]. cbn [split_on]. by rewrite Hx, IH. Qed.

Lemma entries_join a b : entries (a ++ SLAVE_STRING_JOIN1 ++ b) = entries a ++ entries b.
Proof. unfold entries, split_fields. cbn [SLAVE_STRING_JOIN1 app]. by rewrite split_on_delim, List.filter_app. Qed.

(** the entry of a fifo whose name has no separators *)
Lemma fifo_entry port opts f : no_delim SLAVE_STRING_SEP1 f -> no_delim SLAVE_STRING_SEP2 f -> f <> [] ->
  entries (51 :: 44 :: f) = [51 :: 44 :: f] /\
  entry_of port opts (split_on SLAVE_STRING_SEP2 (51 :: 44 :: f)) =
    Entry (SlaveConf SLAVETYPE_INFIFO None None (Some f) opts).
Proof.
  intros H1 H2 Hne. split.
  - unfold entries, split_fields. by rewrite split_on_plain by (by repeat constructor).
  - change (51 :: 44 :: f) with ([51] ++ 44 :: f). rewrite split_on_delim by done.
    rewrite (split_on_plain _ f) by done. change (split_on SLAVE_STRING_SEP2 [51]) with [[51]]. cbn [app].
    unfold entry_of. change (strto_int [51]) with (0, Some 3). cbv beta iota. change (3 =? SLAVETYPE_INFIFO) with true.
    cbv iota. destruct f as [|x f]; [done|]. cbn [is_nil orb]. change (5 <? zlen []) with false. cbv iota.
    by destruct opts.
Qed.

Lemma feedmode_flags g :
  negb (feedmode_noaaport_enabled g =? 0) = enabled FEEDMODE_NOAAPORT g /\
  negb (feedmode_masterservers_enabled g =? 0) = enabled FEEDMODE_MASTERSERVERS g /\
  negb (feedmode_inputfifo_enabled g =? 0) = enabled FEEDMODE_INPUTFIFO g.
Proof.
  unfold enabled, feedmode_noaaport_enabled, feedmode_masterservers_enabled, feedmode_inputfifo_enabled.
  split_and!; by destruct (Z.land _ _ =? 0).
Qed.

Lemma valid_default s : nonul (default [] s) -> (valid_str s =? 0) = is_nil (default [] s).
Proof. destruct s as [s|]; [apply valid_nil|done]. Qed.

Section config_theory.
Context {Hp : Heap} (Hmem : forall n, n < 2 ^ 40 -> malloc_ok n = true).
Context (g : slave_globals) (port grp file : list Z).
Let d := slave_defaults g.
Hypothesis Hport : slave_masterport d = PStr port.
Hypothesis Hgrp : infifo_grp d = PStr grp.
Hypothesis Hfile : slavestatsfile d = PStr file.
Hypothesis Hsizes : nonul port /\ zlen port < 2 ^ 31 /\ zlen grp < 2 ^ 31 /\ zlen file < 2 ^ 31.

(** C34: The configuration of the slaves. When the feeds of the fifo or of the
    servers are enabled, the name of what is enabled has to be set. Then the
    table has an element for the fifo, if it is enabled and its name has no
    separators, and one for each entry of the servers, in order, with the names
    and numbers of the entry or the defaults; the slaves that receive whole
    products have each a channel of their own, after those of the noaaport
    readers. With an invalid entry, or none, there is no table; but if the
    invalid entry is one for a fifo, the program prints a number as a string. *)
Theorem init_slavet_correct (Hen : feedmode_slave_enabled g = 1)
  (Hn : nonul (fifo_text g) /\ nonul (servers_text g))
  (Hl : zlen (fifo_text g) + zlen (servers_text g) < 2 ^ 31 - 8) :
  let fifo := enabled FEEDMODE_INPUTFIFO g in
  let servers := enabled FEEDMODE_MASTERSERVERS g in
  let read := entries_of port (default_opts d) in
  (fifo && is_nil (fifo_text g) || servers && is_nil (servers_text g) = true -> init_slavet g = Done (-1, g)) /\
  (fifo && is_nil (fifo_text g) || servers && is_nil (servers_text g) = false ->
     match read (wanted_entries g) with
     | AllGood [] => exists st, st <> 0 /\ init_slavet g = Done (st, g)
     | AllGood cs => exists t, init_slavet g = Done (0, set_slavet (Some t) g) /\ numslaves t = zlen (slave t) /\
         Forall2 configured cs (slave t) /\ num_slavenbs_readers t = nbs1_before (slave t) /\
         forall i sl, slave t !! i = Some sl -> slavetype sl = SLAVETYPE_NBS1 ->
           slavenbs_reader_index sl = first_channel (enabled FEEDMODE_NOAAPORT g) + nbs1_before (take i (slave t))
     | SomeBad => init_slavet g = Done (1, g)
     | SomeBadFifo => init_slavet g = Undef
     end /\
     (no_delim SLAVE_STRING_SEP1 (fifo_text g) -> no_delim SLAVE_STRING_SEP2 (fifo_text g) ->
        read (wanted_entries g) =
          let r := read (if servers then entries (servers_text g) else []) in
          if fifo then
            match r with
            | AllGood cs => AllGood (SlaveConf SLAVETYPE_INFIFO None None (Some (fifo_text g)) (default_opts d) :: cs)
            | r => r
            end
          else r)).
Proof.
  intros fifo servers read. destruct Hn as [Hnf Hns]. pose proof (zlen_nonneg (fifo_text g)). pose proof (zlen_nonneg (servers_text g)).
  destruct (feedmode_flags g) as (Ea & Em & Ef).
  assert (fifo || servers = true) as Hon.
  { revert Hen. unfold feedmode_slave_enabled. rewrite Em, Ef. fold fifo servers. by destruct fifo, servers. }
  unfold init_slavet. rewrite Ea, Em, Ef, !valid_default by done. fold fifo servers (fifo_text g) (servers_text g). split.
  { intros [-> | ->]%orb_true_iff; [by destruct (servers && _)|done]. }
  intros [Huf Hus]%orb_false_iff. rewrite Hus, Huf. split.
  - pose proof (slave_table_create_spec Hmem d port grp file Hport Hgrp Hfile Hsizes (enabled FEEDMODE_NOAAPORT g)) as Hcr.
    assert (exists s, (if fifo then match slave_make_configuration_string g with None => Done (-1, None)
                        | Some c => slave_table_create (enabled FEEDMODE_NOAAPORT g) (Some c) (slave_defaults g) end
                       else slave_table_create (enabled FEEDMODE_NOAAPORT g) (g_masterservers g) (slave_defaults g)) =
              slave_table_create (enabled FEEDMODE_NOAAPORT g) (Some s) d /\
              nonul s /\ zlen s < 2 ^ 31 - 2 /\ entries s = wanted_entries g) as (s & -> & Hs & Hls & <-).
    + destruct fifo eqn:Ex.
      * cbn [andb] in Huf. unfold slave_make_configuration_string. rewrite Em, !valid_default by done.
        fold servers (fifo_text g) (servers_text g). rewrite Huf, Hus.
        set (conf := 51 :: SLAVE_STRING_JOIN2 ++ fifo_text g ++ if servers then SLAVE_STRING_JOIN1 ++ servers_text g else []).
        assert (zlen conf = (if servers then zlen (fifo_text g) + 1 + zlen SLAVE_STRING_JOIN2 + (zlen (servers_text g) + zlen SLAVE_STRING_JOIN1)
                  else zlen (fifo_text g) + 1 + zlen SLAVE_STRING_JOIN2)) as <-.
        { subst conf. change SLAVE_STRING_JOIN2 with [44]. change SLAVE_STRING_JOIN1 with [10]. cbn [app].
          rewrite !zlen_cons, zlen_app. destruct servers; rewrite ?zlen_cons; change (@zlen Z [44]) with 1;
            change (@zlen Z [10]) with 1; change (@zlen Z []) with 0; lia. }
        assert (0 <= zlen conf < 2 ^ 31 - 4) as Hlc.
        { subst conf. change SLAVE_STRING_JOIN2 with [44]. change SLAVE_STRING_JOIN1 with [10]. cbn [app].
          rewrite !zlen_cons, zlen_app. destruct servers; rewrite ?zlen_cons; change (@zlen Z []) with 0; lia. }
        rewrite s32_small, u64_small, Hmem by lia. cbn [negb]. rewrite Z.eqb_refl. cbn [negb].
        exists conf. split_and!; [done| |lia|].
        -- subst conf. repeat (constructor; [done|]). apply Forall_app. split; [done|]. destruct servers; [|constructor].
           by constructor.
        -- unfold wanted_entries. fold fifo servers. rewrite Ex. subst conf. change SLAVE_STRING_JOIN2 with [44]. cbn [app].
           destruct servers; [|by rewrite !app_nil_r]. change (51 :: 44 :: fifo_text g ++ ?r) with ((51 :: 44 :: fifo_text g) ++ r).
           apply entries_join.
      * rewrite orb_false_l in Hon. rewrite Hon in Hus. cbn [andb] in Hus. exists (servers_text g).
        assert (g_masterservers g = Some (servers_text g)) as ->.
        { unfold servers_text in *. by destruct (g_masterservers g). }
        split_and!; [done|done|lia|]. unfold wanted_entries. fold fifo servers. by rewrite Ex, Hon.
    + specialize (Hcr s Hs Hls). cbv zeta in Hcr. fold read in Hcr.
      destruct (read (entries s)) as [[|c cs]| |].
      * destruct Hcr as (st & Hst & ->). exists st. split; [done|]. cbn [obind]. by destruct (Z.eqb_spec st 0).
      * destruct Hcr as (t & -> & Hr). by exists t.
      * by rewrite Hcr.
      * by rewrite Hcr.
  - intros H1 H2. unfold wanted_entries. fold fifo servers. destruct fifo; [|done]. cbn [andb] in Huf.
    destruct (fifo_entry port (default_opts d) (fifo_text g) H1 H2) as [-> E]; [by intros E0; rewrite E0 in Huf|].
    cbn [app]. unfold read. cbn [entries_of]. rewrite E. cbv zeta. by destruct (entries_of _ _ _).
Qed.
End config_theory.

(** ** Witness *)

(** all the feeds, the fifo [/f] and the servers [1,h] and [1,k,,,5] *)
Definition slave_demo_g : slave_globals :=
  SlaveGlobals 7 (Some [47; 102]) (Some [49; 44; 104; 124; 32; 49; 44; 107; 44; 44; 44; 53]) demo_options None.

Lemma init_slavet_correct_witness : exists t,
  init_slavet (Hp := demo_heap) slave_demo_g = Done (0, set_slavet (Some t) slave_demo_g) /\
  Forall2 configured
    [SlaveConf 3 None None (Some [47; 102]) [10; 2; 2; -1; 60];
     SlaveConf 1 (Some [104]) (Some [49; 50]) None [10; 2; 2; -1; 60];
     SlaveConf 1 (Some [107]) (Some [49; 50]) None [10; 5; 2; -1; 60]] (slave t) /\
  num_slavenbs_readers t = nbs1_before (slave t) /\
  (forall sl, slave t !! 2%nat = Some sl -> slavenbs_reader_index sl = 9 + nbs1_before (take 2 (slave t))).
Proof.
  destruct (init_slavet_correct (Hp := demo_heap) (fun n Hn => proj2 (Z.ltb_lt n _) Hn) slave_demo_g
    [49; 50] [103] [102] eq_refl eq_refl eq_refl ltac:(split_and!; try done; by repeat constructor) eq_refl
    ltac:(split; by repeat constructor) ltac:(by vm_compute)) as [_ H].
  destruct (H eq_refl) as [H1 _]. clear H. revert H1.
  match goal with |- match ?e with _ => _ end -> _ => let v := eval vm_compute in e in
    assert (e = v) as -> by (by vm_compute) end.
  intros (t & Hr & _ & HF & Hk & Hi). exists t. split_and!; try done.
  intros sl Hs. rewrite (Hi 2%nat sl Hs); [done|].
  destruct (Forall2_lookup_r _ _ _ _ _ HF Hs) as (c & [= <-] & Hc). apply Hc.
Defined.
