(* ===== verification/Slavethr.v ===== *)
(** * Slavethr: what the threads of the slaves do

    The thread of a server tries to connect until it can, and then receives
    products ([Slavenbs]); that of the fifo passes on the lines ([Slavefp]).
    When some thread cannot be created the others are still ended. *)

From stdpp Require Import gmap.
From S2P Require Import Prelude Util CLib Mfile Sbn Stats Pctldb Pctl Framep Nreadn Packfp Qdb File Mspool.
From S2P Require Import Nbsp Nbs1 Emwin Serverc Strsplit Stoi Slavet Slavenbs Slavefp Conn Slave.

(** ** Creating and ending the threads *)

(** what the table has before: no threads, and the types that the configuration
    can give *)
Definition not_created (sl : slave_element_st) : Prop := f_slave_thread_created sl = 0 /\ 1 <= slavetype sl <= 3.

Lemma slave_spawn_type status i sl run : 1 <= slavetype sl <= 3 ->
  slave_spawn_thread status i sl run = slavenet_spawn_thread status i sl run.
Proof.
  intros H. unfold slave_spawn_thread, slavein_spawn_thread, SLAVETYPE_NBS1, SLAVETYPE_NBS2, SLAVETYPE_INFIFO.
  destruct (Z.eqb_spec (slavetype sl) 1), (Z.eqb_spec (slavetype sl) 2), (Z.eqb_spec (slavetype sl) 3); done || lia.
Qed.

Lemma slave_kill_type i sl run : 1 <= slavetype sl <= 3 -> slave_kill_thread i sl run = slavenet_kill_thread i sl run.
Proof.
  intros H. unfold slave_kill_thread, slavein_kill_thread, SLAVETYPE_NBS1, SLAVETYPE_NBS2, SLAVETYPE_INFIFO.
  destruct (Z.eqb_spec (slavetype sl) 1), (Z.eqb_spec (slavetype sl) 2), (Z.eqb_spec (slavetype sl) 3); done || lia.
Qed.

Lemma kill_none l : Forall not_created l -> forall i run, kill_slave_threads i l run = run.
Proof.
  induction 1 as [|sl l [H0 H1] _ IH]; intros i run; [done|]. cbn [kill_slave_threads].
  rewrite slave_kill_type by done. unfold slavenet_kill_thread. by rewrite H0, IH.
Qed.

Lemma filter_comm {A} (f h : A -> bool) l : List.filter f (List.filter h l) = List.filter h (List.filter f l).
Proof.
  induction l as [|x l IH]; [done|]. cbn [List.filter]. destruct (f x) eqn:Ef, (h x) eqn:Eh; cbn [List.filter];
    rewrite ?Ef, ?Eh, IH; done.
Qed.

Lemma kill_filter f l : forall i run, kill_slave_threads i l (List.filter f run) = List.filter f (kill_slave_threads i l run).
Proof.
  induction l as [|sl l IH]; intros i run; [done|]. cbn [kill_slave_threads]. rewrite <- IH. f_equal.
  unfold slave_kill_thread, slavein_kill_thread, slavenet_kill_thread.
  repeat case_match; auto using filter_comm.
Qed.

(** the threads are created in order, up to the first error, and all that have
    been created are ended *)
Lemma spawn_kill create : forall l i run0, Forall not_created l -> Forall (fun j => j < i) run0 ->
  let '(st, l', run) := spawn_slave_threads create i l run0 in
  kill_slave_threads i l' run = run0 /\
  exists k, run = run0 ++ seqZ i k /\ 0 <= k <= zlen l /\ (st = 0 <-> k = zlen l).
Proof.
  induction l as [|sl l IH]; intros i run0 Hl Hr; cbn [spawn_slave_threads].
  { split; [done|]. exists 0. rewrite app_nil_r. change (zlen []) with 0. split_and!; done || lia. }
  inversion Hl as [|? ? [H0 H1] Hl']; subst. pose proof (zlen_nonneg l). rewrite zlen_cons.
  rewrite slave_spawn_type by done. unfold slavenet_spawn_thread.
  destruct (Z.eqb_spec (create i) 0) as [E|E]; cbn [negb].
  2:{ destruct (Z.eqb_spec (create i) 0); [done|]. cbn [negb]. split; [by apply kill_none|]. exists 0.
      rewrite app_nil_r. split_and!; done || lia. }
  rewrite E. cbn [Z.eqb negb]. specialize (IH (i + 1) (run0 ++ [i]) Hl').
  destruct (spawn_slave_threads create (i + 1) l (run0 ++ [i])) as [[st l'] run].
  destruct IH as (Hk & k & -> & Hkl & Hst).
  { apply Forall_app. split; [|repeat constructor; lia]. revert Hr. apply List.Forall_impl. lia. }
  split.
  - cbn [kill_slave_threads]. rewrite slave_kill_type by done. unfold slavenet_kill_thread. cbn [f_slave_thread_created set_sl_created].
    change (1 =? 0) with false. cbv iota. rewrite kill_filter, Hk, List.filter_app. cbn [List.filter]. rewrite Z.eqb_refl, app_nil_r.
    clear -Hr. induction Hr as [|j r Hj _ IH]; [done|]. cbn [List.filter]. destruct (Z.eqb_spec j i); [lia|]. cbn. by rewrite IH.
  - exists (k + 1). split_and!; try lia. rewrite <- app_assoc. f_equal. rewrite (seqZ_cons i (k + 1)) by lia.
    cbn [app]. f_equal. by replace (Z.pred (k + 1)) with k by lia.
Qed.

(** ** Connecting *)

Section net.
Context `{Hp : Heap} `{D : Db} `{C : Clock} `{Rx : Regex} `{FS : FileSys} `{Q : QueueDb} {QRx : QueueRegex}.
Context (g : globals) (slave_reject_duplicates : Z) (fs : fsys) (n0 : nbs1_packet_st).
Context (filterq_used serverq_used : bool) (fc sc : Z).
#[local] Abbreviation net_turn_of := (slavenet_turn g slave_reject_duplicates fs n0 filterq_used serverq_used fc sc).
#[local] Abbreviation net_turns := (slavenet_turns g slave_reject_duplicates fs n0 filterq_used serverq_used fc sc).

(** a slave of a server, with its names *)
Record net_slave (sl : slave_element_st) (str : list Z) : Prop := NetSlave {
  nl_str : protocol_str (slavetype sl) = Some str;
  nl_name : exists c r, mastername sl = PStr (c :: r) /\ c <> 0;
  nl_port : exists c r, masterport sl = PStr (c :: r) /\ c <> 0
}.

(** the connection takes the whole text; there is none, or it does not *)
Definition accepts (str : list Z) (c : option fd_st) (f' : fd_st) : Prop :=
  exists f, c = Some f /\ writen f str (zlen str) 0 = (zlen str, f').
Definition refuses (str : list Z) (c : option fd_st) : Prop :=
  match c with
  | None => True
  | Some f => Forall room_ok (events f) /\ (writen f str (zlen str) 0).1 <> zlen str
  end.

Lemma protocol_length sl str : net_slave sl str -> zlen str = 4.
Proof. intros [H _ _]. revert H. unfold protocol_str. destruct (_ =? _); [by intros [= <-]|]. destruct (_ =? _); [by intros [= <-]|done]. Qed.

Lemma valid_cons c r : c <> 0 -> (valid_str (Some (c :: r)) =? 0) = false.
Proof. intros H. cbn. by destruct (Z.eqb_spec c 0). Qed.

Lemma open_unfold c sl str : net_slave sl str -> slavenet_open c sl =
  match c with
  | None => Done (-1, set_sl_fd None sl)
  | Some f =>
      let (n, f) := writen f str (zlen str) 0 in
      let status := if n =? -1 then -1 else if negb (u64 n =? zlen str) then 1 else 0 in
      Done (status, set_sl_fd (if negb (status =? 0) then None else Some f) sl)
  end.
Proof.
  intros [Hs (c1 & r1 & Hn & H1) (c2 & r2 & Hpt & H2)]. unfold slavenet_open. rewrite Hn, Hpt, Hs. cbn [cvalue obind].
  by rewrite !valid_cons by done.
Qed.

Lemma open_accepts c sl str f' : net_slave sl str -> accepts str c f' ->
  slavenet_open c sl = Done (0, set_sl_fd (Some f') sl).
Proof.
  intros Hn (f & -> & E). rewrite (open_unfold _ _ str) by done. rewrite E. pose proof (protocol_length _ _ Hn) as ->.
  done.
Qed.

Lemma open_refuses c sl str : net_slave sl str -> refuses str c -> exists st, st <> 0 /\ st <> 2 /\
  slavenet_open c sl = Done (st, set_sl_fd None sl).
Proof.
  intros Hn Hr. rewrite (open_unfold _ _ str) by done. pose proof (protocol_length _ _ Hn) as Hl.
  destruct c as [f|]; [|by exists (-1)]. destruct Hr as [HF Hr]. rewrite Hl in *.
  destruct (writem_loop_spec (Z.to_nat 4) f str 0 4 0 HF) as (n & f' & E & Hb & _); [lia|lia|lia|].
  unfold writen, writem in *. rewrite E in *. cbn [fst] in Hr.
  destruct (Z.eqb_spec n (-1)); [by exists (-1)|]. rewrite u64_small by lia.
  destruct (Z.eqb_spec n 4); [done|]. by exists 1.
Qed.

Lemma close_none st sl : slave_fd sl = None -> (slavenet_close st sl).2 = sl.
Proof. intros H. unfold slavenet_close. by rewrite H. Qed.

Lemma set_fd_same sl : slave_fd sl = None -> set_sl_fd None sl = sl.
Proof. destruct sl. cbn. by intros ->. Qed.

(** the turns in which it cannot connect *)
Lemma refused_turns str ts sl s more : net_slave sl str -> slave_fd sl = None ->
  Forall (fun t => refuses str (nt_conn t)) ts -> net_turns (ts ++ more) sl s = net_turns more sl s.
Proof.
  intros Hn Hf. induction 1 as [|t ts Hr _ IH]; [done|]. cbn [app slavenet_turns]. unfold slavenet_turn at 1. rewrite Hf.
  unfold slavenet_reopen. rewrite close_none by done.
  destruct (open_refuses (nt_conn t) sl str Hn Hr) as (st & _ & _ & ->). cbn [obind slave_fd set_sl_fd].
  by rewrite set_fd_same.
Qed.

(** the turn in which it connects goes on as if it were connected *)
Lemma connecting_turn str t f' ts sl s : net_slave sl str -> slave_fd sl = None -> accepts str (nt_conn t) f' ->
  net_turns (t :: ts) sl s = net_turns (t :: ts) (slave_stats_connect (nt_tick t).1 (set_sl_fd (Some f') sl)) s.
Proof.
  intros Hn Hf Ha. cbn [slavenet_turns]. unfold slavenet_turn. rewrite Hf. unfold slavenet_reopen. rewrite close_none by done.
  rewrite (open_accepts _ _ _ _ Hn Ha). done.
Qed.

Lemma report_keeps now opened sl : slave_fd (slave_stats_report now opened sl) = slave_fd sl /\
  slavetype (slave_stats_report now opened sl) = slavetype sl.
Proof. unfold slave_stats_report. destruct (_ <? _); [done|]. by destruct (slavestatsfile _), opened. Qed.

Lemma loop_nbs1_keeps tick sl st r sl' st' : slavenet_loop_nbs1 tick g slave_reject_duplicates fs n0 sl st = Done (r, sl', st') ->
  slavetype sl' = slavetype sl /\ (is_Some (slave_fd sl) -> is_Some (slave_fd sl')).
Proof.
  unfold slavenet_loop_nbs1. destruct (slave_fd sl) as [f|]; [|by intros [= <- <- <-]].
  destruct (recv_nbs_packet _ _ _) as [[[status n] f1]| |]; try done. cbn [obind].
  destruct (status =? 0); cbn [negb]; [|by intros [= <- <- <-]].
  destruct (slavenbsproc _ _ _ _ _) as [[status2 st2]| |]; try done. cbn [obind].
  destruct (_ || _); [by intros [= <- <- <-]|]. destruct (status2 =? 0); intros [= <- <- <-]; [|done].
  match goal with |- context [slave_stats_report ?a ?b ?c] => destruct (report_keeps a b c) as [-> ->] end. done.
Qed.

(** while there are no errors, the turns of the thread are those of the reader *)
Lemma turns_run info qt : forall ts sl st sl' st', slavetype sl = SLAVETYPE_NBS1 -> is_Some (slave_fd sl) ->
  slave_run (map nt_tick ts) g slave_reject_duplicates fs n0 sl st = Done (replicate (length ts) 0, sl', st') ->
  net_turns ts sl (NetState st info qt) = Done (sl', NetState st' info qt) /\
  slavetype sl' = SLAVETYPE_NBS1 /\ is_Some (slave_fd sl').
Proof.
  induction ts as [|t ts IH]; intros sl st sl' st' Ht Hf; cbn [map slave_run length replicate slavenet_turns].
  { by intros [= <- <-]. }
  destruct (slavenet_loop_nbs1 _ _ _ _ _ _ _) as [[[r sl1] st1]| |] eqn:E; try done. cbn [obind].
  destruct (slave_run _ _ _ _ _ _ _) as [[[rs sl2] st2]| |] eqn:Er; try done. cbn [obind]. intros [= -> -> -> ->].
  destruct (loop_nbs1_keeps _ _ _ _ _ _ E) as [Et Ef]. destruct (Ef Hf) as [f1 Hf1].
  unfold slavenet_turn. destruct Hf as [f Hf]. rewrite Hf. cbn [obind]. rewrite Hf. unfold slavenet_loop. rewrite Ht.
  change (SLAVETYPE_NBS1 =? SLAVETYPE_NBS1) with true. cbv iota. cbn [ns_frame ns_info ns_queues]. rewrite E. cbn [obind].
  change (0 =? 1) with false. cbv iota. apply IH; [by rewrite Et|by eexists|done].
Qed.

(** a thread that connects, in the first attempt or after those of [fails] *)
Definition connects (str : list Z) (t0 : net_turn) (fails : list net_turn) (t1 : net_turn) (f' : fd_st) : Prop :=
  (accepts str (nt_conn t0) f' /\ fails = []) \/
  (refuses str (nt_conn t0) /\ Forall (fun t => refuses str (nt_conn t)) fails /\ accepts str (nt_conn t1) f').

Lemma thread_start junk pi0 t0 fails t1 ts sl s f' : net_slave sl PROTOCOL_NBS1_STR -> slavetype sl = SLAVETYPE_NBS1 ->
  slave_fd sl = None -> connects PROTOCOL_NBS1_STR t0 fails t1 f' ->
  exists now sl0, slavenet_start g junk pi0 t0 sl s = Done (false, sl0, s) /\
    net_turns (fails ++ t1 :: ts) sl0 s = net_turns (t1 :: ts) (slave_stats_connect now (set_sl_fd (Some f') sl)) s.
Proof.
  intros Hn Ht Hf Hc. unfold slavenet_start, slavenet_init_info. rewrite Ht. cbn [Z.eqb Pos.eqb SLAVETYPE_NBS1 negb].
  destruct Hc as [[Ha ->]|(Hr & HF & Ha)].
  - rewrite (open_accepts _ _ _ _ Hn Ha). cbn [obind Z.eqb]. by exists (nt_tick t0).1, (slave_stats_connect (nt_tick t0).1 (set_sl_fd (Some f') sl)).
  - destruct (open_refuses _ _ _ Hn Hr) as (st & H0 & H2 & ->). cbn [obind]. rewrite set_fd_same by done.
    destruct (Z.eqb_spec st 2); [done|]. destruct (Z.eqb_spec st 0); [done|]. exists (nt_tick t1).1, sl. split; [done|].
    by rewrite (refused_turns PROTOCOL_NBS1_STR), (connecting_turn PROTOCOL_NBS1_STR _ f').
Qed.
End net.

(** ** A product, from a server to the queue of a slave *)

Section transfer.
Context `{HS : HeapSpec} `{DR : DbReliable} `{CS : ClockSpec} `{Rx : Regex}
  {FS : FileSys} {FSS : FileSysSpec FS} {FSR : FileSysReliable FS FSS} {FR : FileRead FS}
  {FRR : FileReadReliable FS FSS FR} `{SR : SpoolBdbReliable} {Q : QueueDb} {QRx : QueueRegex}.
Hypothesis Hmem : forall n, n < 2 ^ 40 -> malloc_ok n = true.
Context (junk : Z -> list Z) (Hjunk : forall n, 0 <= n -> zlen (junk n) = n).
Context (g : globals) (Hmin : 0 <= memfile_minsize g < 2 ^ 31).
Context (slave_reject_duplicates : Z) (fs : fsys).
Context (n0 n1 : nbs1_packet_st) (Hn0 : zlen (nb_packet n0) = NBS1_PACKET_MAXSIZE)
  (Hn1 : zlen (nb_packet n1) = NBS1_PACKET_MAXSIZE).
Context (filterq_used serverq_used : bool) (fc sc : Z) (packet_junk : list Z) (pi0 : packet_info_st).

(** C4: Transfer of a product. The client thread of a server, with a product
    that is in its spool, files or memory, either closes the connection or sends
    packets. The thread of a slave, after any number of attempts in which there
    is no connection or the server does not take the name of the protocol,
    connects to it; if it can read those bytes, and whatever comes after them,
    then in one turn for each packet it puts one complete element in its
    processing queue, with the bytes, the sequence number, the name and the
    codes of the product, and a path in its own directory. *)
Theorem product_transferred m ce f e d base name station (data : list Z)
  (Hst : product_stored m (fpath e) data) (Hby : bytes data) (Hl : 0 < zlen data <= 32734 * NBS1_BLOCK_SIZE)
  (He : pce_named e) (Hfp : fpath e = d ++ 47 :: base) (Hsl : Forall (fun c => c <> 47) base)
  (Hgood : good_base base name station) (Hrx : np_regex_match name <> 1)
  (Hnew : file_exists fs (spooldir g ++ 47 :: station ++ 47 :: base) <> 0) (Hc : connected ce f) :
  exists st ce' m', send_nbs1_client junk [] n0 m ce (fp_packet e) = Done (Some (st, ce', m')) /\
    (st <> 0 -> ce_fd ce' = None) /\
    (st = 0 -> exists f' packets, connected ce' f' /\ sent f' = sent f ++ packets /\
      forall t0 fails t1 ts tn sl s fl e0 more,
        net_slave sl PROTOCOL_NBS1_STR -> slavetype sl = SLAVETYPE_NBS1 -> slave_fd sl = None ->
        connects PROTOCOL_NBS1_STR t0 fails t1 fl -> data_only fl -> stream fl = packets ++ more ->
        length (t1 :: ts) = Z.to_nat (get_num_blocks (zlen data)) ->
        let c := f_pctl (ns_frame s) in
        slave_wf c -> chan c (slavenbs_reader_index sl) e0 -> free_pce g e0 -> queue_room (pctldb c) (zlen data) ->
        exists sl' s' e',
          slavenet_main g slave_reject_duplicates fs n1 filterq_used serverq_used fc sc packet_junk pi0
            t0 (fails ++ t1 :: ts) tn sl s = Done (false, sl', s') /\
          (tn = 0 -> slave_fd sl' = None) /\
          let c' := f_pctl (ns_frame s') in
          absq (pctldb c') = absq (pctldb c) ++ [(info e', data)] /\
          f_complete e' = 1 /\ seq_number e' = seq_number e /\ fbasename e' = base /\
          cstr (fname e') = Done name /\ fpath e' = spooldir g ++ 47 :: station ++ 47 :: base /\
          psh_product_type e' = u8 (psh_product_type e) /\
          psh_product_category e' = u8 (psh_product_category e) /\
          psh_product_code e' = u8 (psh_product_code e) /\
          pce_np_channel_index e' = u8 (pce_np_channel_index e) /\ slave_wf c').
Proof.
  destruct (nbs_transfer Hmem junk Hjunk g Hmin slave_reject_duplicates fs n0 n1 Hn0 Hn1 m ce f e d base name station data)
    as (st & ce' & m' & E & Hbad & Hok); try done.
  exists st, ce', m'. split; [done|]. split; [done|]. intros H0. destruct (Hok H0) as (f' & packets & Hc' & Es & Hrun).
  exists f', packets. split; [done|]. split; [done|].
  intros t0 fails t1 ts tn sl s fl e0 more Hn Ht Hf Hcon Hdo Hs Hlen c Hw Hch Hfree Hroom.
  destruct (thread_start g slave_reject_duplicates fs n1 filterq_used serverq_used fc sc packet_junk pi0
    t0 fails t1 ts sl s fl Hn Ht Hf Hcon) as (now & sl0 & E0 & Et).
  set (sl1 := slave_stats_connect now (set_sl_fd (Some fl) sl)) in *.
  destruct (Hrun (map nt_tick (t1 :: ts)) sl1 (ns_frame s) e0 more) as (sl2 & s2 & e' & Er & Hq); try done.
  { by rewrite length_map. }
  rewrite length_map in Er. destruct s as [sf si sq]. cbn [ns_frame] in *.
  destruct (turns_run g slave_reject_duplicates fs n1 filterq_used serverq_used fc sc si sq (t1 :: ts) sl1 sf sl2 s2 Ht ltac:(by exists fl) Er)
    as (E2 & Ht2 & Hf2).
  unfold slavenet_main. rewrite E0. cbn [obind]. rewrite Et, E2. cbn [obind].
  unfold slavenet_try_close, slavenet_cleanup_info, slavenet_close. destruct Hf2 as [f2 Hf2]. rewrite Hf2.
  eexists _, _, e'. split; [reflexivity|]. split; [intros ->; done|].
  assert (slavetype (if tn =? 0 then set_sl_fd None sl2 else sl2) = SLAVETYPE_NBS1) as Ht3 by (by destruct (tn =? 0)).
  cbn [snd]. rewrite Ht3. cbn [Z.eqb Pos.eqb SLAVETYPE_NBS1 SLAVETYPE_NBS2 ns_frame]. split_and!; try apply Hq.
Qed.
End transfer.

(** ** Lines, from the fifo to the queues *)

(** the fifo is made and opened *)
Definition fifo_opened (t : in_turn) : option fd_st :=
  if (it_mkfifo t =? 0) && (it_chgrpmode t =? 0) then it_open t else None.

(** the line fits in the element of a reader whose paths have [n] bytes *)
Definition fits (n : Z) (l : fifo_line) : Prop :=
  forall e, fpath_size e = n -> zlen (fname e) = FNAME_SIZE + 1 -> line_fits e l.

Section infifo.
Context `{Hp : Heap} `{QR : QueueDbReliable} {Rx : QueueRegex}.
Context (Hmem : forall n, n < 2 ^ 40 -> malloc_ok n = true).
Context (spooldir : list Z) (Hsd : zlen spooldir < 2 ^ 31 - 1000).
Context (filterq_used serverq_used : bool) (fc sc : Z) (Hfc : fc <> 0) (Hsc : sc <> 0).
Context (junk4 : list Z) (Hjunk4 : zlen junk4 = 4) (junk : Z -> list Z) (Hjunk : forall n, 0 <= n -> zlen (junk n) = n).
Context (packet_junk : list Z) (pi0 : packet_info_st) (pce_size : Z) (pce0 : pctl_element_st).
#[local] Abbreviation maxpath := (const_fpath_maxsize spooldir + 1).
#[local] Abbreviation reclen := (NBS_ENVELOPE_SIZE + NBSFP_PINFO_SIZE + maxpath).

(** the queues have room for [k] packets more *)
Record room_for (k : Z) (qf qv : list (list Z)) (qt : nbsp_qtable_st) : Prop := RoomFor {
  rf_rep : table_rep qt [qf; qv];
  rf_n : qt_n qt = 2;
  rf_reclen : qt_reclen qt = reclen;
  rf_hard : qt_hardlimit qt <= 0 \/ zlen qf + k <= qt_hardlimit qt /\ zlen qv + k <= qt_hardlimit qt;
  rf_short : zlen qf + k < 2 ^ 31 /\ zlen qv + k < 2 ^ 31
}.

Lemma room_one k qf qv qt : 0 < k -> room_for k qf qv qt -> queues_room reclen qf qv qt.
Proof. intros Hk [H1 H2 H3 H4 H5]. split; try done; [destruct H4; [by left|right; lia]|destruct H4; [by left|right; lia]|lia]. Qed.

Lemma room_next k qf qv qt qt' p p' : room_for (1 + k) qf qv qt -> table_rep qt' [qf ++ [p]; qv ++ [p']] ->
  qt_n qt' = qt_n qt -> qt_reclen qt' = qt_reclen qt -> qt_hardlimit qt' = qt_hardlimit qt ->
  room_for k (qf ++ [p]) (qv ++ [p']) qt'.
Proof.
  intros [H1 H2 H3 H4 H5] Hr E1 E2 E3. split; [done|congruence|congruence|rewrite E3|];
    rewrite !zlen_app, !zlen_cons; change (@zlen (list Z) []) with 0; lia.
Qed.

Lemma lines_relayed b tick_turns : forall ls sl i qf qv qt fd more, filterq_used = false -> serverq_used = false ->
  length tick_turns = length ls -> slave_fd sl = Some fd -> data_only fd -> in_ready maxpath i ->
  Forall (fits maxpath) ls -> stream fd = concat (map line_bytes ls) ++ more -> accepted filterq_used serverq_used [] ->
  room_for (zlen ls) qf qv qt ->
  exists sl' i' qt' fd' es,
    slavein_turns filterq_used serverq_used fc sc junk4 junk tick_turns sl (InState b (Some i) qt) =
      Done (sl', InState b (Some i') qt') /\
    slave_fd sl' = Some fd' /\ stream fd' = more /\ Forall2 line_element ls es /\
    table_rep qt' [qf ++ map fp_packet es; qv ++ map fp_packet es].
Proof.
  induction tick_turns as [|t ts IH]; intros ls sl i qf qv qt fd more Hf Hs Hlen Hfd Hdo Hi Hfit Hes Hacc Hroom;
    (destruct ls as [|l ls]; [|]); try done.
  { eexists sl, i, qt, fd, []. split; [reflexivity|]. cbn in Hes. cbn [map]. rewrite !app_nil_r. by destruct Hroom. }
  injection Hlen as Hlen. apply Forall_cons_iff in Hfit as [Hl Hfit']. cbn [map concat] in Hes. rewrite <- app_assoc in Hes.
  rewrite zlen_cons in Hroom. pose proof (zlen_nonneg ls).
  destruct (slavein_line_turn filterq_used serverq_used Hmem junk4 Hjunk4 junk Hjunk (it_tick t) fc sc sl fd i maxpath
    qf qv qt l (concat (map line_bytes ls) ++ more)) as [H0 _]; try done.
  { apply Hl; apply Hi. }
  { eapply room_one; [|exact Hroom]. lia. }
  destruct (H0 Hf Hs) as (fd1 & sl1 & i1 & qt1 & E & Hfd1 & Es1 & Hd1 & Hi1 & He1 & Hr1 & Q1 & Q2 & Q3).
  destruct (IH ls sl1 i1 (qf ++ [fp_packet (in_pce i1)]) (qv ++ [fp_packet (in_pce i1)]) qt1 fd1 more)
    as (sl' & i' & qt' & fd' & es & E' & Hfd' & Es' & HF & Hr'); try done.
  { by apply (room_next (zlen ls) qf qv qt). }
  exists sl', i', qt', fd', (in_pce i1 :: es). split.
  - cbn [slavein_turns]. unfold slavein_turn. rewrite Hfd. rewrite Hfd. cbn [is_info is_queues is_fifo]. rewrite E. cbn [obind].
    change (0 =? 1) with false. cbv iota. exact E'.
  - cbn [map]. rewrite <- !app_assoc in Hr'. cbn [app] in Hr'. split_and!; try done. by constructor.
Qed.

Lemma slavein_open_cases t sl b i qt : slave_fd sl = None ->
  match fifo_opened t with
  | Some fl => slavein_open t sl (InState b i qt) = (0, set_sl_fd (Some fl) sl, InState true i qt)
  | None => exists b', slavein_open t sl (InState b i qt) = (-1, sl, InState b' i qt)
  end.
Proof.
  intros Hf. unfold slavein_open, fifo_opened, set_is_fifo. cbn [is_info is_queues].
  destruct (it_mkfifo t =? 0) eqn:E1; cbn [andb]; [|rewrite E1, Hf; by eexists].
  destruct (it_chgrpmode t =? 0) eqn:E2; [|rewrite Hf; by eexists]. cbn [slave_fd set_sl_fd].
  destruct (it_open t); [by apply Z.eqb_eq in E2 as ->|]. rewrite set_fd_same by done. by eexists.
Qed.

(** C36: The lines of the fifo. When the fifo cannot be made and opened at the
    start, the program is told to quit. Otherwise, with a turn for each line on
    it, the packets of the products that the lines name are put in both queues,
    in order; at the end the fifo is closed and removed. But the pointer to the
    name, which the patterns of the queues read, is not set: with a pattern for
    the filters, the first line makes the program read where an uninitialized
    pointer points. *)
Theorem slavein_thread_relays t0 ts tn sl b qf qv qt ls more (Hfd : slave_fd sl = None)
  (Hpj : reclen <= zlen packet_junk) (Hsz : pce_size < 2 ^ 40) (Hfn : zlen (fname pce0) = FNAME_SIZE + 1)
  (Hacc : accepted filterq_used serverq_used []) (Hroom : room_for (zlen ls) qf qv qt)
  (Hfit : Forall (fits maxpath) ls) (Hlen : length ts = length ls) :
  let r := slavein_main spooldir filterq_used serverq_used fc sc junk4 junk packet_junk pi0 pce_size pce0
             t0 ts tn sl (InState b None qt) in
  (fifo_opened t0 = None -> exists b', r = Done (true, sl, InState b' None qt)) /\
  (forall fl, fifo_opened t0 = Some fl -> data_only fl -> stream fl = concat (map line_bytes ls) ++ more ->
     (filterq_used = false -> serverq_used = false ->
        exists sl' s' es, r = Done (false, sl', s') /\ Forall2 line_element ls es /\
          table_rep (is_queues s') [qf ++ map fp_packet es; qv ++ map fp_packet es] /\ is_info s' = None /\
          (tn = 0 -> slave_fd sl' = None /\ is_fifo s' = false)) /\
     (filterq_used = true -> pi_fname pi0 = None -> ls <> [] -> r = Undef)).
Proof.
  intros r. subst r. unfold slavein_main, slavein_init_info, slavein_init, slavein_info_create, nbsfp_packetinfo_create, nbsfp_packetinfo_init.
  pose proof (zlen_nonneg spooldir).
  assert (const_fpath_packet_maxsize spooldir = reclen) as -> by (unfold const_fpath_packet_maxsize; lia).
  assert (0 < reclen < 2 ^ 31) as Hrl.
  { unfold const_fpath_maxsize, WMO_STATION_SIZE, FBASENAME_SIZE, NBSFP_PINFO_SIZE, FNAME_SIZE, NBS_ENVELOPE_SIZE. lia. }
  rewrite !Hmem by lia. cbn [negb Z.eqb]. set (i0 := SlaveinInfo _ _ _ _).
  change (set_is_info (Some i0) (InState b None qt)) with (InState b (Some i0) qt).
  pose proof (slavein_open_cases t0 sl b (Some i0) qt Hfd) as Hopen. split.
  - intros Ho. rewrite Ho in Hopen. destruct Hopen as [b' ->]. change (negb (-1 =? 0)) with true. cbn [obind].
    unfold slavein_try_close, slavein_close. rewrite Hfd. by eexists.
  - intros fl Ho Hdo Hes. rewrite Ho in Hopen. rewrite Hopen. change (negb (0 =? 0)) with false. cbv iota.
    assert (in_ready maxpath i0) as Hi.
    { split; try done. split; [done|]. exists (ztake reclen packet_junk). split; [done|]. rewrite zlen_take; lia. }
    split.
    + intros Hf Hs.
      destruct (lines_relayed true ts ls (set_sl_fd (Some fl) sl) i0 qf qv qt fl more)
        as (sl' & i' & qt' & fd' & es & E & Hfd' & _ & HF & Hr); try done.
      rewrite E. cbn [obind].
      unfold slavein_try_close, slavein_close. rewrite Hfd'.
      destruct (Z.eqb_spec tn 0); eexists _, _, es; (split; [reflexivity|]); by split_and!.
    + intros Hf Hno Hne. destruct ls as [|l ls]; [done|]. destruct ts as [|t ts]; [done|].
      apply Forall_cons_iff in Hfit as [Hl Hfit']. rewrite zlen_cons in Hroom. pose proof (zlen_nonneg ls).
      cbn [map concat] in Hes. rewrite <- app_assoc in Hes.
      destruct (slavein_line_turn filterq_used serverq_used Hmem junk4 Hjunk4 junk Hjunk (it_tick t) fc sc (set_sl_fd (Some fl) sl) fl i0 maxpath
        qf qv qt l (concat (map line_bytes ls) ++ more)) as [_ H1]; try done.
      { apply Hl; apply Hi. }
      { eapply room_one; [|exact Hroom]. lia. }
      cbn [slavein_turns]. unfold slavein_turn. cbn [slave_fd set_sl_fd is_info is_queues set_is_fifo]. by rewrite H1.
Qed.
End infifo.

(** ** Witnesses *)

#[local] Existing Instances demo_heap demo_heap_spec demo_clock demo_clock_spec demo_regex
  list_db_reliable map_sdb map_sdb_spec map_sdb_reliable map_fileread map_fileread_reliable demo_qregex.

(** a slave of the server [h], port 12, with the second channel *)
Definition waiting_slave : slave_element_st :=
  Slave SLAVETYPE_NBS1 (PStr [104]) (PStr [49; 50]) PNull demo_options 1 None 1 zero_stats.
Definition no_conn : net_turn := NetTurn None 0 (0, true).
Definition deaf_conn : net_turn := NetTurn (Some (Fd [EvTimeout] [] [])) 0 (0, true).
Definition good_conn (d : list Z) : net_turn := NetTurn (Some (Fd [EvRoom 4; EvData d] [] [])) 0 (0, true).
Definition thread_state : @net_state list_db (fixed_qd demo_reclen) :=
  @NetState list_db (fixed_qd demo_reclen) demo_state None demo_qt.
Definition empty_fs : @fsys map_filesys := {| mfs_files := ∅; mfs_dirs := ∅ |}.

Lemma waiting_net : net_slave waiting_slave PROTOCOL_NBS1_STR.
Proof. split; [done|by exists 104, []|by exists 49, [50]]. Qed.

Lemma waiting_connects d : connects PROTOCOL_NBS1_STR no_conn [deaf_conn] (good_conn d) (Fd [EvData d] [] PROTOCOL_NBS1_STR).
Proof.
  right. split; [done|]. split; [|by eexists]. constructor; [|constructor]. split; [by repeat constructor|by vm_compute].
Qed.

Lemma waiting_data d : zlen d <> 0 -> data_only (Fd [EvData d] [] PROTOCOL_NBS1_STR).
Proof. intros Hd. split; [done|]. constructor; [|constructor]. exists d. split; [done|]. by intros ->. Qed.

Lemma product_transferred_witness :
  exists ce' m' f' packets sl' s' e',
    send_nbs1_client nbs_zero [] nbs_buf nbs_spools nbs_client (fp_packet nbs_item) = Done (Some (0, ce', m')) /\
    ce_fd ce' = Some f' /\ sent f' = packets /\
    slavenet_main (Q := fixed_qd demo_reclen) demo_g 1 empty_fs nbs_buf false false 0 0 [] (demo_pinfo 0)
      no_conn [deaf_conn; good_conn packets] 0 waiting_slave thread_state = Done (false, sl', s') /\
    absq (pctldb (f_pctl (ns_frame s'))) = [(info e', [72; 73])] /\ seq_number e' = 77 /\ slave_fd sl' = None.
Proof.
  destruct (product_transferred (Q := fixed_qd demo_reclen) (QRx := demo_qregex) demo_heap_mem nbs_zero
    (fun n Hn => eq_trans (zlen_replicate _ _) (Z2Nat.id n Hn)) demo_g ltac:(by vm_compute) 1
    empty_fs nbs_buf nbs_buf ltac:(by vm_compute) ltac:(by vm_compute) false false 0 0 [] (demo_pinfo 0)
    nbs_spools nbs_client (Fd [EvRoom 40; EvTimeout; EvRoom 100] [] []) nbs_item [47; 112] nbs_base nbs_name
    [107; 119; 98; 99] [72; 73]) as (st & ce' & m' & E & _ & Hrun).
  - left. split; [done|]. by vm_compute.
  - by repeat constructor.
  - by vm_compute.
  - split; [done|by vm_compute| |done]. by repeat constructor.
  - done.
  - by repeat constructor.
  - split; [by vm_compute|by repeat constructor|by exists [49]|by vm_compute| |by vm_compute].
    by exists [115; 120].
  - done.
  - by vm_compute.
  - split; [done|]. by repeat constructor.
  - pose proof nbs_sent as E0. rewrite E in E0. injection E0 as -> Hlen.
    destruct (Hrun eq_refl) as (f' & packets & [Hf _] & Hs & Hsl). rewrite Hf in Hlen. cbn [from_option option_fmap] in Hlen.
    change (sent (Fd [EvRoom 40; EvTimeout; EvRoom 100] [] []) ++ packets) with packets in Hs.
    destruct (Hsl no_conn [deaf_conn] (good_conn packets) [] 0 waiting_slave thread_state (Fd [EvData packets] [] PROTOCOL_NBS1_STR)
      idle_pce []) as (sl' & s' & e' & Er & Hcl & Hq & _ & H1 & _).
    + apply waiting_net.
    + reflexivity.
    + reflexivity.
    + apply waiting_connects.
    + apply waiting_data. by rewrite <- Hs, Hlen.
    + cbn. by rewrite !app_nil_r.
    + reflexivity.
    + split; [done|apply demo_db_inv|apply demo_db_limits|apply demo_db_exact].
    + by split.
    + split; [done|apply demo_mf_wf|done|done|done].
    + split; by vm_compute.
    + exists ce', m', f', packets, sl', s', e'. split; [exact E|]. split; [exact Hf|]. split; [exact Hs|]. split; [exact Er|]. split; [exact Hq|]. split; [exact H1|]. by apply Hcl.
Defined.

(** the lines [1 2 3 4 5 b /s/b] and [2 2 3 4 5 c /s/c] *)
Definition fifo_lines : list fifo_line :=
  [FifoLine 1 2 3 4 5 [98] [47; 115; 47; 98] [98]; FifoLine 2 2 3 4 5 [99] [47; 115; 47; 99] [99]].
Definition fifo_slave : slave_element_st :=
  Slave SLAVETYPE_INFIFO PNull PNull (PStr [47; 102]) demo_options 1 None (-1) zero_stats.
Definition fifo_fd : fd_st := Fd [EvData (concat (map line_bytes fifo_lines))] [] [].
Definition fifo_turn : in_turn := InTurn 0 0 (Some fifo_fd) 0 (0, true).
Definition fifo_main (used : bool) :=
  slavein_main (Q := fixed_qd demo_reclen) [47; 115] used used 1 1 (replicate 4 0) (fun n => replicate (Z.to_nat n) 0)
    (replicate 84 0) (demo_pinfo 0) 264 idle_pce fifo_turn [fifo_turn; fifo_turn] 0 fifo_slave
    (@InState (fixed_qd demo_reclen) false None demo_qt).

Lemma fifo_lines_fit : Forall (fits 45) fifo_lines.
Proof.
  repeat constructor; unfold int_range; rewrite ?H; split_and?; try done; try (by vm_compute);
    unfold nonul; repeat first [apply Forall_nil_2 | apply Forall_cons_2]; done.
Qed.

Lemma fifo_room : room_for [47; 115] (QS := fixed_qd_spec demo_reclen) 2 [] [] demo_qt.
Proof. destruct demo_room as [H1 H2 H3 _ _ _]. split; try done. by right. Qed.

Lemma fifo_data : data_only fifo_fd.
Proof.
  split; [done|]. constructor; [|constructor]. exists (concat (map line_bytes fifo_lines)). split; [reflexivity|].
  by vm_compute.
Qed.

Lemma slavein_thread_relays_witness :
  (exists sl' s' es, fifo_main false = Done (false, sl', s') /\ Forall2 line_element fifo_lines es /\
     table_rep (H := fixed_qd_spec demo_reclen) (is_queues s') [map fp_packet es; map fp_packet es]) /\
  fifo_main true = Undef.
Proof.
  pose proof (fun used : bool => slavein_thread_relays (QR := fixed_qd_reliable demo_reclen)
    (fun n Hn => proj2 (Z.ltb_lt n (2 ^ 40)) Hn) [47; 115] ltac:(by vm_compute) used used 1 1 ltac:(done) ltac:(done)
    (replicate 4 0) eq_refl (fun n => replicate (Z.to_nat n) 0) demo_junk (replicate 84 0) (demo_pinfo 0) 264 idle_pce
    fifo_turn [fifo_turn; fifo_turn] 0 fifo_slave false [] [] demo_qt fifo_lines [] eq_refl ltac:(by vm_compute) ltac:(by vm_compute)
    eq_refl) as H.
  split.
  - destruct (H false ltac:(done) fifo_room fifo_lines_fit eq_refl) as [_ H1].
    destruct (H1 fifo_fd eq_refl) as [H2 _]; [apply fifo_data|reflexivity|].
    destruct (H2 eq_refl eq_refl) as (sl' & s' & es & E & HF & Hr & _). exists sl', s', es.
    split; [exact E|]. split; [exact HF|exact Hr].
  - destruct (H true ltac:(done) fifo_room fifo_lines_fit eq_refl) as [_ H1].
    destruct (H1 fifo_fd eq_refl) as [_ H2]; [apply fifo_data|reflexivity|].
    by apply H2.
Defined.
