(* ===== verification/Npcast.v ===== *)
(** * Npcast: src/src/npcast.c and reader.c, the noaaport readers

    The satellite receiver multicasts the frames, on a group for each channel.
    The configuration has the addresses and the ports of the groups; npcast.c
    joins them, and reader.c has a thread for each one, which gives the
    datagrams to the frame processor ([Framep]).

    The calls of the system are inputs: what joining a group returns
    ([mcast_rcv], in mcast.c), and what comes on a socket ([recv_event]). The
    open descriptors are kept as a list. A socket is its number; to use one out
    of the range of an [fd_set] is [Undef]. *)

From S2P Require Import Prelude Util CLib Mfile Sbn Stats Pctldb Pctl Framep SbnPack EndToEnd Strsplit Slavet.

Definition NP_DELIM_STR : list Z := [58; 32; 9; 10].
Definition IFNAMSIZ : Z := 16.
Definition INET_ADDRSTRLEN : Z := 16.
Definition FD_SETSIZE : Z := 1024.
Definition SIZEOF_NPCAST_CHANNEL : Z := 72.

(** [ch_ip], [ch_port]: pointers into the strings that have been split; [ch_sa],
    [ch_sender_sa]: there is memory for the address *)
Record npcast_channel_st := Channel {
  ch_ip : Z;
  ch_port : Z;
  ch_udprcvsize : Z;
  ch_enable : Z;
  ch_sfd : Z;
  ch_sa : bool;
  ch_sa_len : Z;
  ch_sender_sa : bool;
  ch_sender_sa_len : Z
}.

(** the variables of npcast.c, and the open descriptors *)
Record npcast_st := Npcast {
  np_channel : option (list npcast_channel_st);
  np_numchannels : Z;
  gip : option strsplit_st;
  gport : option strsplit_st;
  gifname : option (list Z);
  gifip : option (list Z);
  gmaxfd : Z;
  open_fds : list Z
}.
Definition set_np_channel v (p : npcast_st) := Npcast v (np_numchannels p) (gip p) (gport p) (gifname p) (gifip p) (gmaxfd p) (open_fds p).
Definition set_np_num v (p : npcast_st) := Npcast (np_channel p) v (gip p) (gport p) (gifname p) (gifip p) (gmaxfd p) (open_fds p).
Definition set_gip v (p : npcast_st) := Npcast (np_channel p) (np_numchannels p) v (gport p) (gifname p) (gifip p) (gmaxfd p) (open_fds p).
Definition set_gport v (p : npcast_st) := Npcast (np_channel p) (np_numchannels p) (gip p) v (gifname p) (gifip p) (gmaxfd p) (open_fds p).
Definition set_gifname v (p : npcast_st) := Npcast (np_channel p) (np_numchannels p) (gip p) (gport p) v (gifip p) (gmaxfd p) (open_fds p).
Definition set_gifip v (p : npcast_st) := Npcast (np_channel p) (np_numchannels p) (gip p) (gport p) (gifname p) v (gmaxfd p) (open_fds p).
Definition set_gmaxfd v (p : npcast_st) := Npcast (np_channel p) (np_numchannels p) (gip p) (gport p) (gifname p) (gifip p) v (open_fds p).
Definition set_open_fds v (p : npcast_st) := Npcast (np_channel p) (np_numchannels p) (gip p) (gport p) (gifname p) (gifip p) (gmaxfd p) v.

Definition fd_close (fd : Z) (p : npcast_st) : npcast_st :=
  set_open_fds (List.filter (fun x => negb (x =? fd)) (open_fds p)) p.

(** ** Opening and closing *)

Section npcast.
Context {Hp : Heap}.

(** a copy in [size] bytes, cut if it does not fit *)
Definition copy_name (s : list Z) (size : Z) : list Z := ztake (size - 1) s.

(** what is freed after an error in [np_init] *)
Definition np_release (p : npcast_st) : npcast_st :=
  set_np_channel None (set_gport None (set_gip None (set_gifip None (set_gifname None p)))).

Definition empty_channel : npcast_channel_st := Channel 0 0 0 0 (-1) false 0 false 0.

(** the channels that the loop over the words enables; the words are where
    their pointers say *)
Fixpoint enable_channels (ips ports : list Z) (udprcvsize : Z) (l : list npcast_channel_st) : list npcast_channel_st :=
  match ips, ports, l with
  | ip :: ips, port :: ports, c :: l =>
      Channel ip port udprcvsize 1 (ch_sfd c) (ch_sa c) (ch_sa_len c) (ch_sender_sa c) (ch_sender_sa_len c)
        :: enable_channels ips ports udprcvsize l
  | _, _, _ => l
  end.

(** the part of [np_init] after the names of the interface *)
Definition np_init_channels (np_ip np_port : option (list Z)) (udprcvsize : Z) (p : npcast_st) : outcome (Z * npcast_st) :=
  let* ip := strsplit_create np_ip NP_DELIM_STR STRSPLIT_FLAG_IGNEMPTY in
  let p := set_gip ip p in
  match ip with
  | None => Done (-1, p)
  | Some si =>
      let* port := strsplit_create np_port NP_DELIM_STR STRSPLIT_FLAG_IGNEMPTY in
      let p := set_gport port p in
      match port with
      | None => Done (-1, p)
      | Some sp =>
          if (ss_argc si =? 0) || (ss_argc sp =? 0) || negb (ss_argc si =? ss_argc sp) then Done (1, p)
          else if NPCAST_NUM_CHANNELS <? ss_argc si then Done (1, p)
          else
            let p := set_np_num (ss_argc si) p in
            if negb (malloc_ok (NPCAST_NUM_CHANNELS * SIZEOF_NPCAST_CHANNEL)) then Done (-1, set_np_channel None p) else
            Done (0, set_np_channel
                       (Some (enable_channels (ss_argv si) (ss_argv sp) udprcvsize
                                (replicate (Z.to_nat NPCAST_NUM_CHANNELS) empty_channel))) p)
      end
  end.

Definition np_init (np_ip np_port ifname ifip : option (list Z)) (udprcvsize : Z) (p : npcast_st) : outcome (Z * npcast_st) :=
  if (valid_str np_ip =? 0) || (valid_str np_port =? 0) then Done (1, p) else
  let (status, p) :=
    if negb (valid_str ifname =? 0) then
      if malloc_ok IFNAMSIZ then (0, set_gifname (Some (copy_name (default [] ifname) IFNAMSIZ)) p)
      else (-1, set_gifname None p)
    else (0, p) in
  let (status, p) :=
    if (status =? 0) && negb (valid_str ifip =? 0) then
      if malloc_ok INET_ADDRSTRLEN then (0, set_gifip (Some (copy_name (default [] ifip) INET_ADDRSTRLEN)) p)
      else (-1, set_gifip None p)
    else (status, p) in
  let* (status, p) := if status =? 0 then np_init_channels np_ip np_port udprcvsize p else Done (status, p) in
  Done (status, if negb (status =? 0) then np_release p else p).

Definition channel_at (p : npcast_st) (id : Z) : outcome npcast_channel_st :=
  match np_channel p with Some l => rd l id | None => Undef end.
Definition upd_channel (id : Z) (c : npcast_channel_st) (p : npcast_st) : outcome npcast_st :=
  match np_channel p with
  | Some l => let* l := wr l id [c] in Done (set_np_channel (Some l) p)
  | None => Undef
  end.
Definition get_npcast_channel_enable (p : npcast_st) (i : Z) : outcome Z :=
  let* c := channel_at p i in Done (ch_enable c).
Definition get_npcast_numchannels (p : npcast_st) : Z := np_numchannels p.

(** a pointer to one of the words *)
Definition np_word (s : option strsplit_st) (i : Z) : outcome (list Z) :=
  match s with Some st => field st i | None => Undef end.

(** what [mcast_rcv] returns: the descriptor or a negative number, the size of
    the address and the error of [getaddrinfo] *)
Record mcast_result := McastResult {
  mr_sfd : Z;
  mr_sa_len : Z;
  mr_gai_code : Z
}.
Definition EAI_SYSTEM : Z := -11.
Context (mcast_rcv : Z -> list Z -> list Z -> option (list Z) -> option (list Z) -> Z -> mcast_result).

(** the number of the call is that of the channel *)
Definition open_channel (id : Z) (p : npcast_st) : outcome (Z * npcast_st) :=
  c_assert (id <? NPCAST_NUM_CHANNELS)
    (let* c := channel_at p id in
     let* ip := np_word (gip p) (ch_ip c) in
     let* port := np_word (gport p) (ch_port c) in
     let r := mcast_rcv id ip port (gifname p) (gifip p) (ch_udprcvsize c) in
     if mr_sfd r <? 0 then
       Done (if (mr_gai_code r =? 0) || (mr_gai_code r =? EAI_SYSTEM) then -1 else 1, p)
     else
       let p := set_open_fds (open_fds p ++ [mr_sfd r]) p in
       if negb (malloc_ok (mr_sa_len r)) then Done (-1, fd_close (mr_sfd r) p) else
       let* p := upd_channel id (Channel (ch_ip c) (ch_port c) (ch_udprcvsize c) (ch_enable c) (mr_sfd r) true
                                   (mr_sa_len r) true (mr_sa_len r)) p in
       Done (0, p)).

Definition close_channel (id : Z) (p : npcast_st) : outcome npcast_st :=
  c_assert (id <? NPCAST_NUM_CHANNELS)
    (let* c := channel_at p id in
     let p := if negb (ch_sfd c =? -1) then fd_close (ch_sfd c) p else p in
     upd_channel id (Channel (ch_ip c) (ch_port c) (ch_udprcvsize c) (ch_enable c) (-1) false 0 false 0) p).

(** the loops over the channels, from [id] on *)
Fixpoint open_channels_loop (k : nat) (id : Z) (p : npcast_st) : outcome (Z * npcast_st) :=
  match k with
  | O => Done (0, p)
  | S k =>
      let* en := get_npcast_channel_enable p id in
      if en =? 0 then open_channels_loop k (id + 1) p else
      let* (status, p) := open_channel id p in
      if negb (status =? 0) then Done (status, p) else
      let* c := channel_at p id in
      open_channels_loop k (id + 1) (if gmaxfd p <? ch_sfd c then set_gmaxfd (ch_sfd c) p else p)
  end.
Definition np_open_channels (p : npcast_st) : outcome (Z * npcast_st) :=
  let* (status, p) := open_channels_loop (Z.to_nat NPCAST_NUM_CHANNELS) 0 (set_gmaxfd (-1) p) in
  Done (if (status =? 0) && (gmaxfd p =? -1) then 1 else status, p).

Fixpoint close_channels_loop (k : nat) (id : Z) (p : npcast_st) : outcome npcast_st :=
  match k with
  | O => Done p
  | S k => let* p := close_channel id p in close_channels_loop k (id + 1) p
  end.
Definition np_close_channels (p : npcast_st) : outcome npcast_st :=
  close_channels_loop (Z.to_nat NPCAST_NUM_CHANNELS) 0 p.

Definition np_open (np_ip np_port ifname ifip : option (list Z)) (udprcvsize : Z) (p : npcast_st) : outcome (Z * npcast_st) :=
  let* (status, p) := np_init np_ip np_port ifname ifip udprcvsize p in
  if status =? 0 then np_open_channels p else Done (status, p).

Definition np_close (p : npcast_st) : outcome npcast_st :=
  let p := set_gport None (set_gip None (set_gifip None (set_gifname None p))) in
  match np_channel p with
  | None => Done p
  | Some _ => let* p := np_close_channels p in Done (set_np_channel None p)
  end.
End npcast.

(** ** Receiving *)

(** what happens in a wait: [select] fails, times out or returns with the
    descriptor ready or not, and then [recvfrom] *)
Inductive recv_event :=
| SelErr
| SelTimeout
| SelOther
| RecvErr
| Datagram (d : list Z).

(** what is received of a datagram, in a buffer of [len] bytes; the rest of it
    is lost *)
Definition recvfrom_channel_nowait (p : npcast_st) (id : Z) (ev : recv_event) (buf : list Z) (len : Z)
  : outcome (Z * list Z) :=
  c_assert (id <? NPCAST_NUM_CHANNELS)
    (let* _ := channel_at p id in
     match ev with
     | Datagram d => let* buf := wr buf 0 (ztake len d) in Done (Z.min len (zlen d), buf)
     | _ => Done (-1, buf)
     end).

(** the descriptor is put in an [fd_set] *)
Definition fd_set_ok (fd : Z) : bool := (0 <=? fd) && (fd <? FD_SETSIZE).

Definition recvfrom_channel_timed (p : npcast_st) (id : Z) (ev : recv_event) (buf : list Z) (len : Z)
  : outcome (Z * list Z) :=
  let* c := channel_at p id in
  if negb (fd_set_ok (ch_sfd c)) then Undef else
  match ev with
  | SelErr => Done (-1, buf)
  | SelTimeout | SelOther => Done (0, buf)
  | _ => recvfrom_channel_nowait p id ev buf len
  end.

(** all the channels in one set; [grdset]: the set, which is not cleared
    between calls; [ready]: the descriptors that [select] leaves in it *)
Fixpoint set_fds (l : list npcast_channel_st) (grdset : list Z) : outcome (list Z) :=
  match l with
  | [] => Done grdset
  | c :: l =>
      if ch_sfd c =? -1 then set_fds l grdset
      else if fd_set_ok (ch_sfd c) then set_fds l (grdset ++ [ch_sfd c]) else Undef
  end.
Definition np_select (p : npcast_st) (status : Z) (ready : list Z) (grdset : list Z) : outcome (Z * list Z) :=
  match np_channel p with
  | None => Undef
  | Some l => let* s := set_fds l grdset in Done (status, if status =? -1 then s else ready)
  end.
Definition np_read_channel (p : npcast_st) (id : Z) (grdset : list Z) (ev : recv_event) (buf : list Z) (len : Z)
  : outcome (Z * list Z) :=
  let* c := channel_at p id in
  if negb (ch_sfd c =? -1) && existsb (Z.eqb (ch_sfd c)) grdset then recvfrom_channel_nowait p id ev buf len
  else Done (0, buf).

(** ** The threads *)

Definition NUM_READERS : Z := NPCAST_NUM_CHANNELS.

(** [create]: the status of [pthread_create]; the value, [f_reader_thread_created]
    and the threads that exist *)
Definition create_reader_thread (create : Z -> Z) (i : Z) (created run : list Z) : outcome (Z * list Z * list Z) :=
  if negb (create i =? 0) then Done (create i, created, run)
  else let* created := wr created i [1] in Done (0, created, run ++ [i]).
Fixpoint spawn_loop (p : npcast_st) (create : Z -> Z) (k : nat) (i : Z) (created run : list Z)
  : outcome (Z * list Z * list Z) :=
  match k with
  | O => Done (0, created, run)
  | S k =>
      let* en := get_npcast_channel_enable p i in
      if en =? 0 then spawn_loop p create k (i + 1) created run else
      let* (status, created, run) := create_reader_thread create i created run in
      if negb (status =? 0) then Done (status, created, run) else spawn_loop p create k (i + 1) created run
  end.
Definition spawn_readers (p : npcast_st) (create : Z -> Z) (created run : list Z) : outcome (Z * list Z * list Z) :=
  spawn_loop p create (Z.to_nat NUM_READERS) 0 created run.

(** each thread that has been created is told to end, and joined *)
Fixpoint join_loop (k : nat) (i : Z) (created run : list Z) : outcome (list Z) :=
  match k with
  | O => Done run
  | S k =>
      let* c := rd created i in
      join_loop k (i + 1) created (if c =? 1 then List.filter (fun j => negb (j =? i)) run else run)
  end.
Definition kill_reader_threads (created run : list Z) : outcome (list Z) :=
  join_loop (Z.to_nat NUM_READERS) 0 created run.

Section reader.
Context `{Hp : Heap} `{D : Db} `{C : Clock} `{Zl : Zlib} `{Rx : Regex}.
Context (g : globals) (p : npcast_st).

(** the frame of the reader, with what has been received *)
Definition received_frame (buf : list Z) (n i : Z) (f : sbn_frame) : sbn_frame :=
  SbnFrame buf n (fh f) (pdh f) (psh f) i (ctrlhdr f) (ctrlhdr_size f) (frdata f) (frdata_size f) (blkdata f)
    (blkdata_size f) (ccb f) (ccb_size f) (pdata f) (pdata_size f) (f_frdata_compressed f) (f_unzstatus f).

Definition loop_channel (i : Z) (ev : recv_event) (f : sbn_frame) (s : fstate)
  : outcome (Z * sbn_frame * fstate) :=
  let* (n, buf) := recvfrom_channel_timed p i ev (rawdata f) SBN_FRAME_SIZE in
  if n =? -1 then Done (-1, set_rawdata buf f, s)
  else if n =? 0 then Done (0, set_rawdata buf f, s)
  else sbnframeproc g (received_frame buf n i f) s.

(** until an error, or the program ends ([evs] is over); the events left *)
Fixpoint reader_thread_loop (i : Z) (evs : list recv_event) (f : sbn_frame) (s : fstate)
  : outcome (Z * list recv_event * sbn_frame * fstate) :=
  match evs with
  | [] => Done (0, [], f, s)
  | ev :: evs =>
      let* (status, f, s) := loop_channel i ev f s in
      if status =? 0 then reader_thread_loop i evs f s else Done (status, evs, f, s)
  end.
Fixpoint reader_thread_main (fuel : nat) (i : Z) (evs : list recv_event) (f : sbn_frame) (s : fstate)
  : outcome (sbn_frame * fstate) :=
  match evs, fuel with
  | [], _ => Done (f, s)
  | _ :: _, O => Undef
  | _ :: _, S fuel =>
      let* (_, evs, f, s) := reader_thread_loop i evs f s in reader_thread_main fuel i evs f s
  end.
End reader.

(** ** What the configuration opens *)

Section opens.
Context {Hp : Heap} (Hmem : forall n, n < 2 ^ 40 -> malloc_ok n = true).
Context (mcast_rcv : Z -> list Z -> list Z -> option (list Z) -> option (list Z) -> Z -> mcast_result).
Context (Hsa : forall k ip port name ifip size, mr_sa_len (mcast_rcv k ip port name ifip size) < 2 ^ 40).
Context (udprcvsize : Z) (name addr : option (list Z)).

(** joining the groups in order, up to the first error: the status and the
    descriptors *)
Fixpoint joins (k : Z) (groups : list (list Z * list Z)) : Z * list Z :=
  match groups with
  | [] => (0, [])
  | (ip, port) :: groups =>
      let r := mcast_rcv k ip port name addr udprcvsize in
      if mr_sfd r <? 0 then (if (mr_gai_code r =? 0) || (mr_gai_code r =? EAI_SYSTEM) then -1 else 1, [])
      else let (st, fds) := joins (k + 1) groups in (st, mr_sfd r :: fds)
  end.

Lemma joins_length groups : forall k, (length (joins k groups).2 <= length groups)%nat.
Proof.
  induction groups as [|[ip port] ws IH]; intros k; cbn [joins]; [done|]. destruct (_ <? 0); [cbn; lia|].
  specialize (IH (k + 1)). destruct (joins (k + 1) ws). cbn [snd length] in *. lia.
Qed.

Lemma joins_fds groups : forall k, Forall (fun fd => 0 <= fd) (joins k groups).2.
Proof.
  induction groups as [|[ip port] ws IH]; intros k; cbn [joins]; [constructor|].
  destruct (Z.ltb_spec (mr_sfd (mcast_rcv k ip port name addr udprcvsize)) 0); [constructor|].
  specialize (IH (k + 1)). destruct (joins (k + 1) ws). by constructor.
Qed.

Lemma joins_none groups k : groups <> [] -> joins k groups <> (0, []).
Proof.
  destruct groups as [|[ip port] ws]; [done|]. intros _. cbn [joins]. destruct (_ <? 0); [by destruct (_ || _)|].
  by destruct (joins (k + 1) ws).
Qed.

(** the channel is enabled and has the words, and is not open *)
Record to_open (si sp : strsplit_st) (w : list Z * list Z) (c : npcast_channel_st) : Prop := ToOpen {
  to_en : ch_enable c = 1;
  to_size : ch_udprcvsize c = udprcvsize;
  to_ip : field si (ch_ip c) = Done w.1;
  to_port : field sp (ch_port c) = Done w.2;
  to_sfd : ch_sfd c = -1
}.

Record np_names (si sp : strsplit_st) (p : npcast_st) : Prop := NpNames {
  nn_ip : gip p = Some si;
  nn_port : gport p = Some sp;
  nn_name : gifname p = name;
  nn_addr : gifip p = addr
}.

Lemma channel_split p l1 c l2 : np_channel p = Some (l1 ++ c :: l2) -> channel_at p (zlen l1) = Done c.
Proof. intros E. unfold channel_at. rewrite E. apply rd_Done. by rewrite znth_app_r, Z.sub_diag by lia. Qed.

Lemma upd_split p l1 c l2 c' : np_channel p = Some (l1 ++ c :: l2) ->
  upd_channel (zlen l1) c' p = Done (set_np_channel (Some (l1 ++ c' :: l2)) p).
Proof.
  intros E. unfold upd_channel. rewrite E. rewrite wr_app by (done || (rewrite !zlen_cons; change (zlen []) with 0; pose proof (zlen_nonneg l2); lia)).
  cbn [obind]. done.
Qed.

(** the channels that are not enabled are passed over *)
Lemma open_disabled m : forall l1 p, np_channel p = Some (l1 ++ replicate m empty_channel) ->
  open_channels_loop mcast_rcv m (zlen l1) p = Done (0, p).
Proof.
  induction m as [|m IH]; intros l1 p E; [done|]. cbn [open_channels_loop replicate] in *. unfold get_npcast_channel_enable.
  rewrite (channel_split p l1 empty_channel (replicate m empty_channel) E). cbn [obind ch_enable empty_channel Z.eqb].
  specialize (IH (l1 ++ [empty_channel]) p). rewrite zlen_app in IH. apply IH. by rewrite E, <- app_assoc.
Qed.

Lemma open_loop si sp m ws : forall cs l1 p, Forall2 (to_open si sp) ws cs -> np_names si sp p ->
  np_channel p = Some (l1 ++ cs ++ replicate m empty_channel) -> zlen l1 + zlen cs <= NPCAST_NUM_CHANNELS ->
  let (st, fds) := joins (zlen l1) ws in
  exists cs' p', open_channels_loop mcast_rcv (length cs + m) (zlen l1) p = Done (st, p') /\
    np_names si sp p' /\ np_channel p' = Some (l1 ++ cs' ++ replicate m empty_channel) /\
    map ch_sfd cs' = fds ++ replicate (length cs - length fds) (-1) /\ map ch_enable cs' = map ch_enable cs /\
    open_fds p' = open_fds p ++ fds /\ np_numchannels p' = np_numchannels p /\ gmaxfd p' = fold_left Z.max fds (gmaxfd p).
Proof.
  induction ws as [|[ip port] ws IH]; intros cs l1 p Hws Hnn E Hl; cbn [joins].
  { apply Forall2_nil_inv_l in Hws as ->. exists [], p. rewrite !app_nil_r. cbn [app length Nat.add] in *.
    rewrite open_disabled by done. by split_and!. }
  apply Forall2_cons_inv_l in Hws as (c & cs0 & Hc & Hws & ->). cbn [app] in E. rewrite zlen_cons in Hl. pose proof (zlen_nonneg cs0).
  pose proof Hc as [He Hs Hip Hpt Hsf]. cbn [fst snd] in Hip, Hpt. cbn [length Nat.add open_channels_loop]. unfold get_npcast_channel_enable.
  rewrite (channel_split p l1 c _ E). cbn [obind]. rewrite He. change (1 =? 0) with false. cbv iota.
  unfold open_channel. rewrite c_assert_true by (apply Z.ltb_lt; lia). rewrite (channel_split p l1 c _ E). cbn [obind].
  pose proof Hnn as [N1 N2 N3 N4]. unfold np_word. rewrite N1, Hip. cbn [obind]. rewrite N2, Hpt. cbn [obind].
  rewrite N3, N4, Hs. set (r := mcast_rcv (zlen l1) ip port name addr udprcvsize).
  destruct (mr_sfd r <? 0) eqn:Er.
  - exists (c :: cs0), p. set (stt := if _ || _ then -1 else 1). cbn [obind].
    assert (negb (stt =? 0) = true) as -> by (subst stt; by destruct (_ || _)). rewrite app_nil_r. split_and!; try done. cbn [app length Nat.sub replicate map]. rewrite Hsf. f_equal.
    clear -Hws. induction Hws as [|w c ws cs [_ _ _ _ Hc] _ IH]; [done|]. cbn [map length replicate]. by rewrite Hc, IH.
  - rewrite Hmem by apply Hsa. cbn [negb]. set (c' := Channel _ _ _ _ _ _ _ _ _).
    rewrite (upd_split _ l1 c (cs0 ++ replicate m empty_channel)) by done. cbn [obind Z.eqb negb].
    set (p1 := set_np_channel _ _). rewrite (channel_split p1 l1 c' (cs0 ++ replicate m empty_channel)) by done. cbn [obind].
    set (p2 := if _ <? _ then _ else _). assert (zlen (l1 ++ [c']) = zlen l1 + 1) as El by (by rewrite zlen_app).
    specialize (IH cs0 (l1 ++ [c']) p2 Hws). rewrite El in IH.
    destruct (joins (zlen l1 + 1) ws) as [st fds].
    destruct IH as (cs' & p' & -> & Hn' & E' & F1 & F2 & F3 & F4 & F5).
    + assert (np_names si sp p1) as Hn1 by (by split). subst p2. destruct (gmaxfd p1 <? ch_sfd c'); [|done]. by destruct Hn1; split.
    + assert (np_channel p2 = np_channel p1) as -> by (unfold p2; by destruct (gmaxfd p1 <? ch_sfd c')). subst p1. by rewrite <- app_assoc.
    + lia.
    + exists (c' :: cs'), p'. split; [done|]. split; [done|]. rewrite E', <- app_assoc. split; [done|].
      cbn [map length Nat.sub app]. rewrite F1, F2, F3, F4, F5. split_and!; try done.
      * assert (open_fds p2 = open_fds p ++ [mr_sfd r]) as -> by (unfold p2; by destruct (gmaxfd p1 <? ch_sfd c')). by rewrite <- app_assoc.
      * unfold p2. by destruct (gmaxfd p1 <? ch_sfd c').
      * cbn [fold_left]. f_equal. unfold p2. change (gmaxfd p1) with (gmaxfd p). change (ch_sfd c') with (mr_sfd r).
        destruct (Z.ltb_spec (gmaxfd p) (mr_sfd r)); cbn [gmaxfd set_gmaxfd]; [lia|]. change (gmaxfd p1) with (gmaxfd p). lia.
Qed.

(** closing the channels closes what they have *)
Lemma close_loop l2 : forall l1 p, np_channel p = Some (l1 ++ l2) -> zlen l1 + zlen l2 <= NPCAST_NUM_CHANNELS ->
  exists l2' p', close_channels_loop (length l2) (zlen l1) p = Done p' /\ np_channel p' = Some (l1 ++ l2') /\
    gip p' = gip p /\ gport p' = gport p /\ gifname p' = gifname p /\ gifip p' = gifip p /\
    open_fds p' = fold_left (fun fds c => if ch_sfd c =? -1 then fds else List.filter (fun x => negb (x =? ch_sfd c)) fds)
                    l2 (open_fds p).
Proof.
  induction l2 as [|c l2 IH]; intros l1 p E Hl; [by exists [], p|]. cbn [length close_channels_loop].
  rewrite zlen_cons in Hl. pose proof (zlen_nonneg l2). unfold close_channel. rewrite c_assert_true by (apply Z.ltb_lt; lia).
  rewrite (channel_split p l1 c l2 E). cbn [obind]. set (p1 := if negb _ then _ else _). set (c' := Channel _ _ _ _ _ _ _ _ _).
  assert (np_channel p1 = np_channel p) as E1 by (subst p1; by destruct (_ =? _)).
  rewrite (upd_split p1 l1 c l2 c') by (by rewrite E1). cbn [obind].
  destruct (IH (l1 ++ [c']) (set_np_channel (Some (l1 ++ c' :: l2)) p1)) as (l2' & p' & Er & E' & G1 & G2 & G3 & G4 & G5).
  { cbn [np_channel set_np_channel]. by rewrite <- app_assoc. }
  { rewrite zlen_app. change (zlen [c']) with 1. lia. }
  rewrite zlen_app in Er. change (zlen [c']) with 1 in Er. rewrite Er. exists (c' :: l2'), p'. split; [done|].
  rewrite E', <- app_assoc. split; [done|].
  assert (gip p1 = gip p /\ gport p1 = gport p /\ gifname p1 = gifname p /\ gifip p1 = gifip p) as (P1 & P2 & P3 & P4)
    by (subst p1; by destruct (_ =? _)).
  rewrite G1, G2, G3, G4, G5. split_and!; try done. cbn [fold_left]. f_equal. subst p1. by destruct (_ =? _).
Qed.
End opens.

(** opening what the configuration names *)
Section np_open.
Context {Hp : Heap} (Hmem : forall n, n < 2 ^ 40 -> malloc_ok n = true).
Context (mcast_rcv : Z -> list Z -> list Z -> option (list Z) -> option (list Z) -> Z -> mcast_result).
Context (Hsa : forall k ip port name ifip size, mr_sa_len (mcast_rcv k ip port name ifip size) < 2 ^ 40).

(** nothing is open *)
Record np_closed (p : npcast_st) : Prop := NpClosed {
  nc_channel : np_channel p = None;
  nc_ip : gip p = None;
  nc_port : gport p = None;
  nc_name : gifname p = None;
  nc_addr : gifip p = None
}.

(** the name of the interface, cut to its size *)
Definition cut_name (s : option (list Z)) (size : Z) : option (list Z) :=
  if valid_str s =? 0 then None else Some (copy_name (default [] s) size).
Definition np_words (s : list Z) : list (list Z) := split_fields NP_DELIM_STR STRSPLIT_FLAG_IGNEMPTY s.

Lemma map_replicate_eq {A B} (f : A -> B) x n : map f (replicate n x) = replicate n (f x).
Proof. induction n as [|n IH]; [done|]. cbn. by rewrite IH. Qed.

Lemma enable_spec si sp size : forall ips ports xs ys m, length ips = length ports -> (length ips <= m)%nat ->
  Forall2 (fun i f => field si i = Done f) xs ips -> Forall2 (fun i f => field sp i = Done f) ys ports ->
  exists cs, enable_channels xs ys size (replicate m empty_channel) = cs ++ replicate (m - length ips) empty_channel /\
    Forall2 (to_open size si sp) (zip ips ports) cs /\ length cs = length ips /\ map ch_enable cs = replicate (length ips) 1.
Proof.
  induction ips as [|ip ips IH]; intros ports xs ys m Hl Hm Hi Hpt.
  { destruct ports; [|done]. apply Forall2_nil_inv_r in Hi as ->. exists []. rewrite Nat.sub_0_r. by repeat constructor. }
  destruct ports as [|port ports]; [done|]. injection Hl as Hl. destruct m as [|m]; [cbn in Hm; lia|].
  apply Forall2_cons_inv_r in Hi as (i0 & xs0 & H1 & Hi & ->). apply Forall2_cons_inv_r in Hpt as (p0 & ys0 & H2 & Hpt & ->).
  destruct (IH ports xs0 ys0 m Hl ltac:(cbn in Hm; lia) Hi Hpt) as (cs & E & HF & Hc & He).
  cbn [enable_channels replicate zip zip_with length Nat.sub]. rewrite E. eexists (_ :: cs). split; [reflexivity|].
  split; [|cbn; by rewrite Hc, He]. by constructor.
Qed.

Lemma words_spec s : nonul s -> zlen s + 1 < 2 ^ 31 -> s <> [] ->
  exists st, strsplit_create (Some s) NP_DELIM_STR STRSPLIT_FLAG_IGNEMPTY = Done (Some st) /\
    ss_argc st = zlen (np_words s) /\ Forall2 (fun i f => field st i = Done f) (ss_argv st) (np_words s).
Proof.
  intros Hn Hl Hs. destruct (strsplit_create_ok s NP_DELIM_STR STRSPLIT_FLAG_IGNEMPTY Hs Hn Hl Hmem) as (st & E & Hc & HF).
  exists st. split; [done|]. split; [|done]. rewrite Hc. unfold zlen. f_equal. by eapply Forall2_length.
Qed.

Lemma valid_nonempty s : nonul s -> (valid_str (Some s) =? 0) = bool_decide (s = []).
Proof. intros Hn. rewrite valid_nil by done. by destruct s. Qed.

(** the names, before the channels *)
Lemma np_init_names ip port ifname ifip size p : np_closed p -> nonul ip -> nonul port -> ip <> [] -> port <> [] ->
  exists p1, np_closed (set_gifname None (set_gifip None p1)) /\ open_fds p1 = open_fds p /\
    gifname p1 = cut_name ifname IFNAMSIZ /\ gifip p1 = cut_name ifip INET_ADDRSTRLEN /\
    np_init (Some ip) (Some port) ifname ifip size p =
      (let* (status, p) := np_init_channels (Some ip) (Some port) size p1 in
       Done (status, if negb (status =? 0) then np_release p else p)).
Proof.
  intros [C1 C2 C3 C4 C5] Hni Hnp Hip Hpt. unfold np_init. rewrite !valid_nonempty by done. rewrite !bool_decide_eq_false_2 by done.
  cbn [orb]. unfold cut_name. destruct (valid_str ifname =? 0), (valid_str ifip =? 0); cbn [negb andb]; rewrite ?Hmem by done;
    cbn [Z.eqb andb]; rewrite ?Hmem by done; eexists; (split; [|split; [|split; [|split; [|reflexivity]]]]); done.
Qed.

Definition bad_words (ips ports : list (list Z)) : Prop :=
  ips = [] \/ ports = [] \/ length ips <> length ports \/ NPCAST_NUM_CHANNELS < zlen ips.

Lemma np_init_bad ip port ifname ifip size p : np_closed p -> nonul ip /\ nonul port ->
  zlen ip + 1 < 2 ^ 31 /\ zlen port + 1 < 2 ^ 31 -> bad_words (np_words ip) (np_words port) ->
  exists p', np_init (Some ip) (Some port) ifname ifip size p = Done (1, p') /\ np_closed p' /\ open_fds p' = open_fds p.
Proof.
  intros Hc [Hni Hnp] [Hli Hlp] Hbad. destruct (decide (ip = [] \/ port = [])) as [He|He].
  { exists p. split; [|done]. unfold np_init. rewrite !valid_nonempty by done. by destruct He as [-> | ->]; rewrite ?orb_true_r. }
  assert (ip <> [] /\ port <> []) as [Hi Hpt] by tauto.
  destruct (np_init_names ip port ifname ifip size p Hc Hni Hnp Hi Hpt) as (p1 & [C1 C2 C3 C4 C5] & Ef & _ & _ & ->).
  unfold np_init_channels.
  destruct (words_spec ip Hni Hli Hi) as (si & -> & Ei & _). destruct (words_spec port Hnp Hlp Hpt) as (sp & -> & Ep & _).
  cbn [obind]. rewrite Ei, Ep. unfold bad_words in Hbad.
  assert ((zlen (np_words ip) =? 0) || (zlen (np_words port) =? 0) || negb (zlen (np_words ip) =? zlen (np_words port)) = true
    \/ NPCAST_NUM_CHANNELS < zlen (np_words ip)) as Hb.
  { destruct Hbad as [-> | [-> | [Hl|Hl]]]; [by left|left; by rewrite orb_true_r| |by right].
    left. apply orb_true_iff. right. unfold zlen. destruct (Z.eqb_spec (Z.of_nat (length (np_words ip))) (Z.of_nat (length (np_words port)))); [lia|done]. }
  destruct (_ || negb _).
  - cbn [obind Z.eqb negb]. eexists. split; [reflexivity|]. by split.
  - destruct Hb as [Hb|Hb]; [done|]. destruct (Z.ltb_spec NPCAST_NUM_CHANNELS (zlen (np_words ip))); [|lia].
    cbn [obind Z.eqb negb]. eexists. split; [reflexivity|]. by split.
Qed.

Lemma np_init_good ip port ifname ifip size p : np_closed p -> nonul ip /\ nonul port ->
  zlen ip + 1 < 2 ^ 31 /\ zlen port + 1 < 2 ^ 31 -> ~ bad_words (np_words ip) (np_words port) ->
  exists si sp p' cs, np_init (Some ip) (Some port) ifname ifip size p = Done (0, p') /\
    np_names (cut_name ifname IFNAMSIZ) (cut_name ifip INET_ADDRSTRLEN) si sp p' /\
    np_channel p' = Some (cs ++ replicate (9 - length (np_words ip)) empty_channel) /\
    Forall2 (to_open size si sp) (zip (np_words ip) (np_words port)) cs /\ length cs = length (np_words ip) /\
    map ch_enable cs = replicate (length (np_words ip)) 1 /\ open_fds p' = open_fds p /\ np_numchannels p' = zlen (np_words ip).
Proof.
  intros Hc [Hni Hnp] [Hli Hlp] Hgood. unfold bad_words in Hgood.
  assert (ip <> [] /\ port <> []) as [Hi Hpt] by (split; intros ->; apply Hgood; auto).
  assert (length (np_words ip) = length (np_words port)) as Hlen by (destruct (decide (length (np_words ip) = length (np_words port))); [done|tauto]).
  assert (zlen (np_words ip) <= NPCAST_NUM_CHANNELS) as H9 by (apply Z.nlt_ge; tauto).
  destruct (np_init_names ip port ifname ifip size p Hc Hni Hnp Hi Hpt) as (p1 & [C1 C2 C3 C4 C5] & Ef & N3 & N4 & ->).
  unfold np_init_channels.
  destruct (words_spec ip Hni Hli Hi) as (si & -> & Ei & Fi). destruct (words_spec port Hnp Hlp Hpt) as (sp & -> & Ep & Fp).
  cbn [obind]. rewrite Ei, Ep.
  destruct (enable_spec si sp size (np_words ip) (np_words port) (ss_argv si) (ss_argv sp) 9 Hlen) as (cs & Ec & HF & Hcl & He);
    [unfold zlen, NPCAST_NUM_CHANNELS in H9; lia|done|done|].
  assert ((zlen (np_words ip) =? 0) = false) as -> by (apply Z.eqb_neq; destruct (np_words ip); [tauto|rewrite zlen_cons; pose proof (zlen_nonneg l0); lia]).
  assert ((zlen (np_words port) =? 0) = false) as -> by (apply Z.eqb_neq; destruct (np_words port); [tauto|rewrite zlen_cons; pose proof (zlen_nonneg l0); lia]).
  assert ((zlen (np_words ip) =? zlen (np_words port)) = true) as -> by (unfold zlen; rewrite Hlen; apply Z.eqb_refl).
  cbn [orb negb]. destruct (Z.ltb_spec NPCAST_NUM_CHANNELS (zlen (np_words ip))); [lia|].
  rewrite Hmem by done. cbn [negb obind Z.eqb]. change (Z.to_nat NPCAST_NUM_CHANNELS) with 9%nat. rewrite Ec.
  exists si, sp. eexists _, cs. split; [reflexivity|]. split_and!; done.
Qed.

Lemma np_close_spec p : match np_channel p with None => True | Some l => length l = 9%nat end ->
  exists p2, np_close p = Done p2 /\ np_closed p2 /\
    open_fds p2 = fold_left (fun fds c => if ch_sfd c =? -1 then fds else List.filter (fun x => negb (x =? ch_sfd c)) fds)
                    (default [] (np_channel p)) (open_fds p).
Proof.
  intros Hl. unfold np_close. cbn [np_channel set_gport set_gip set_gifip set_gifname].
  destruct (np_channel p) as [l|] eqn:E; [|eexists; split; [reflexivity|]; by repeat split].
  set (p0 := set_gport _ _). unfold np_close_channels. change (Z.to_nat NPCAST_NUM_CHANNELS) with 9%nat. rewrite <- Hl.
  destruct (close_loop l [] p0) as (l' & p' & Er & _ & G1 & G2 & G3 & G4 & G5); [done|unfold zlen; rewrite Hl; done|].
  change (zlen (@nil npcast_channel_st)) with 0 in Er. rewrite Er. cbn [obind]. eexists. split; [reflexivity|]. split; [|exact G5].
  by split.
Qed.

Lemma filter_out fds x : ~ In x fds -> List.filter (fun y => negb (y =? x)) fds = fds.
Proof.
  induction fds as [|y fds IH]; intros Hx; [done|]. cbn [List.filter]. cbn in Hx. destruct (Z.eqb_spec y x); [tauto|]. cbn [negb].
  f_equal. apply IH. tauto.
Qed.

Lemma fold_max_ge fds : forall m x, In x fds \/ x = m -> x <= fold_left Z.max fds m.
Proof.
  induction fds as [|y fds IH]; intros m x Hx; [destruct Hx as [[] | ->]; cbn; lia|]. cbn [fold_left].
  destruct Hx as [[-> | Hx] | ->]; [|by apply IH; left|].
  - transitivity (Z.max m x); [lia|]. apply IH. by right.
  - transitivity (Z.max m y); [lia|]. apply IH. by right.
Qed.

(** closing each descriptor once *)
Lemma close_all cs : forall fds0 fds k, map ch_sfd cs = fds ++ replicate k (-1) -> Forall (fun fd => 0 <= fd) fds ->
  NoDup (fds0 ++ fds) ->
  fold_left (fun fds c => if ch_sfd c =? -1 then fds else List.filter (fun x => negb (x =? ch_sfd c)) fds) cs (fds0 ++ fds) = fds0.
Proof.
  induction cs as [|c cs IH]; intros fds0 fds k Em Hge Hnd; cbn [map fold_left] in *.
  { destruct fds; [by rewrite app_nil_r|done]. }
  destruct fds as [|fd fds].
  - destruct k as [|k]; [done|]. cbn [app replicate] in Em. injection Em as -> Em. cbn [Z.eqb Pos.eqb]. by apply (IH fds0 [] k).
  - cbn [app] in Em. injection Em as -> Em. apply Forall_cons_iff in Hge as [H0 Hge]. destruct (Z.eqb_spec fd (-1)); [lia|].
    apply NoDup_ListNoDup in Hnd. pose proof (NoDup_remove_1 _ _ _ Hnd) as Hnd1. pose proof (NoDup_remove_2 _ _ _ Hnd) as Hni.
    rewrite List.filter_app. cbn [List.filter]. rewrite Z.eqb_refl. cbn [negb]. rewrite <- List.filter_app, filter_out by done.
    apply (IH fds0 fds k); [done|done|]. by apply NoDup_ListNoDup.
Qed.

(** C31: Joining the groups. When the addresses and the ports are not as many, or
    none, or more than there are channels, nothing is opened and everything is
    freed. Otherwise the channels are enabled, one for each address with the
    port in the same place, and their groups are joined in order; at the first
    error the rest stay closed. In any case closing leaves the program with the
    descriptors that it had before. *)
Theorem np_open_joins (ip port : list Z) (ifname ifip : option (list Z)) (udprcvsize : Z) (p : npcast_st)
  (Hc : np_closed p) (Hn : nonul ip /\ nonul port) (Hl : zlen ip + 1 < 2 ^ 31 /\ zlen port + 1 < 2 ^ 31) :
  let ips := np_words ip in
  let ports := np_words port in
  let (st, fds) := joins mcast_rcv udprcvsize (cut_name ifname IFNAMSIZ) (cut_name ifip INET_ADDRSTRLEN) 0 (zip ips ports) in
  exists st' p', np_open mcast_rcv (Some ip) (Some port) ifname ifip udprcvsize p = Done (st', p') /\
    ((ips = [] \/ ports = [] \/ length ips <> length ports \/ NPCAST_NUM_CHANNELS < zlen ips) ->
       st' = 1 /\ np_closed p' /\ open_fds p' = open_fds p) /\
    (ips <> [] -> length ips = length ports -> zlen ips <= NPCAST_NUM_CHANNELS ->
       st' = st /\ get_npcast_numchannels p' = zlen ips /\ open_fds p' = open_fds p ++ fds /\
       exists cs, np_channel p' = Some cs /\ length cs = 9%nat /\
         map ch_enable cs = replicate (length ips) 1 ++ replicate (9 - length ips) 0 /\
         map ch_sfd cs = fds ++ replicate (9 - length fds) (-1)) /\
    (NoDup (open_fds p ++ fds) -> exists p2, np_close p' = Done p2 /\ np_closed p2 /\ open_fds p2 = open_fds p).
Proof.
  intros ips ports. set (name := cut_name ifname IFNAMSIZ). set (addr := cut_name ifip INET_ADDRSTRLEN).
  destruct (joins mcast_rcv udprcvsize name addr 0 (zip ips ports)) as [st fds] eqn:Ej.
  destruct (decide (ips = [] \/ ports = [] \/ length ips <> length ports \/ NPCAST_NUM_CHANNELS < zlen ips)) as [Hbad|Hgood].
  - destruct (np_init_bad ip port ifname ifip udprcvsize p Hc Hn Hl Hbad) as (p' & E & Hc' & Ef).
    exists 1, p'. unfold np_open. rewrite E. cbn [obind]. change (1 =? 0) with false. cbv iota. split; [done|]. split; [done|]. split.
    + intros Hi He H9. exfalso. destruct Hbad as [?|[Hp0|[?|?]]]; [done| |done|lia]. rewrite Hp0 in He. by destruct ips.
    + intros _. destruct (np_close_spec p') as (p2 & E2 & Hc2 & Ef2); [by rewrite (nc_channel _ Hc')|].
      exists p2. split_and!; try done. by rewrite Ef2, (nc_channel _ Hc').
  - destruct (np_init_good ip port ifname ifip udprcvsize p Hc Hn Hl Hgood) as (si & sp & p1 & cs & E & Hnn & Ech & HF & Hcl & Hen & Ef & Hnum).
    fold ips ports in HF, Hcl, Hen, Ech, Hnum. fold name addr in Hnn.
    pose proof (open_loop Hmem mcast_rcv Hsa udprcvsize name addr si sp (9 - length ips) (zip ips ports) cs [] (set_gmaxfd (-1) p1)) as Hop.
    change (zlen (@nil npcast_channel_st)) with 0 in Hop. rewrite Ej in Hop.
    assert (zlen ips <= NPCAST_NUM_CHANNELS) as H9 by (apply Z.nlt_ge; tauto).
    assert (length ips <= 9)%nat as H9' by (unfold zlen, NPCAST_NUM_CHANNELS in H9; lia).
    destruct Hop as (cs' & p2 & Eo & _ & Ech2 & Hsf & Hen2 & Ef2 & Hn2 & Hmax); [done|by destruct Hnn|done|unfold zlen in *; lia|].
    rewrite Hcl in Eo, Hsf. replace (length ips + (9 - length ips))%nat with 9%nat in Eo by lia.
    pose proof (joins_fds mcast_rcv udprcvsize name addr (zip ips ports) 0) as Hge. rewrite Ej in Hge. cbn [snd] in Hge.
    pose proof (joins_length mcast_rcv udprcvsize name addr (zip ips ports) 0) as Hlj. rewrite Ej in Hlj. cbn [snd] in Hlj.
    rewrite length_zip_with in Hlj.
    assert (length cs' = length ips) as Hcl' by (apply (f_equal length) in Hen2; rewrite !length_map in Hen2; lia).
    assert (map ch_sfd (cs' ++ replicate (9 - length ips) empty_channel) = fds ++ replicate (9 - length fds) (-1)) as Hall.
    { rewrite map_app, Hsf, <- app_assoc, map_replicate_eq. f_equal. change (ch_sfd empty_channel) with (-1).
      rewrite <- replicate_add. f_equal. lia. }
    exists st, p2. unfold np_open. rewrite E. cbn [obind Z.eqb]. unfold np_open_channels.
    change (Z.to_nat NPCAST_NUM_CHANNELS) with 9%nat. rewrite Eo. cbn [obind]. cbn [app] in Ech2. split.
    { do 2 f_equal. destruct (Z.eqb_spec st 0) as [Es|]; [|done]. cbn [andb].
      destruct (Z.eqb_spec (gmaxfd p2) (-1)) as [Em|]; [|done]. exfalso. cbn [gmaxfd set_gmaxfd] in Hmax.
      assert (fds <> []) as Hne.
      { intros E0. rewrite E0, Es in Ej. eapply joins_none; [|exact Ej]. destruct ips, ports; try done; tauto. }
      pose proof (fold_max_ge fds (-1)) as Hfm. destruct fds as [|fd fds]; [done|]. apply Forall_cons_iff in Hge as [Hfd _].
      specialize (Hfm fd (or_introl (or_introl eq_refl))). lia. }
    split; [tauto|]. split.
    + intros _ _ _. split; [done|]. split; [by unfold get_npcast_numchannels; rewrite Hn2|]. split; [by rewrite Ef2, <- Ef|].
      eexists. split; [exact Ech2|]. split; [rewrite length_app, length_replicate; lia|]. split; [|exact Hall].
      by rewrite map_app, Hen2, Hen, map_replicate_eq.
    + intros Hnd. destruct (np_close_spec p2) as (p3 & E3 & Hc3 & Ef3); [rewrite Ech2, length_app, length_replicate; lia|].
      exists p3. split; [done|]. split; [done|]. rewrite Ef3, Ech2, Ef2. cbn [default]. change (open_fds (set_gmaxfd (-1) p1)) with (open_fds p1).
      rewrite Ef. eapply close_all; done.
Qed.
End np_open.

(** ** From datagrams to frames *)

(** the datagrams that are not empty *)
Definition datagrams (evs : list recv_event) : list (list Z) :=
  omap (fun ev => match ev with Datagram d => if zlen d =? 0 then None else Some d | _ => None end) evs.

(** a datagram smaller than the buffer, which leaves its end as it is *)
Definition frame_sized (d : list Z) : Prop := bytes d /\ zlen d <= SBN_FRAME_SIZE - 10.

(** the buffer of a reader: in a static variable, its last bytes are zeros *)
Record reader_buffer (f : sbn_frame) : Prop := ReaderBuffer {
  rb_wf : frame_wf f;
  rb_zeros : zdrop (SBN_FRAME_SIZE - 10) (rawdata f) = replicate 10 0
}.

Definition with_datagram (i : Z) (d : list Z) (f : sbn_frame) : sbn_frame :=
  received_frame (d ++ zdrop (zlen d) (rawdata f)) (zlen d) i f.

Lemma datagram_buffer i d f : reader_buffer f -> frame_sized d -> reader_buffer (with_datagram i d f).
Proof.
  intros [[H1 H2 H3 H4 H5] Hz] [Hb Hd]. pose proof (zlen_nonneg d). unfold SBN_FRAME_SIZE in *.
  split; [split; cbn [with_datagram received_frame rawdata rawdata_size blkdata]|].
  - rewrite zlen_app, zlen_drop; unfold SBN_FRAME_SIZE; lia.
  - apply bytes_app. split; [done|]. by apply Forall_drop.
  - unfold SBN_FRAME_SIZE. lia.
  - done.
  - done.
  - cbn [with_datagram received_frame rawdata]. unfold SBN_FRAME_SIZE.
    rewrite zdrop_app_ge by lia. rewrite zdrop_drop by lia. rewrite <- Hz. f_equal. lia.
Qed.

Lemma datagram_holds i d f : reader_buffer f -> frame_sized d ->
  holds d (with_datagram i d f).
Proof.
  intros Hb Hd. pose proof (datagram_buffer i d f Hb Hd) as [Hw _]. split; [done|]. split; [done|].
  exists (zdrop (zlen d) (rawdata f)). split; [done|]. destruct Hb as [[H1 _ _ _ _] Hz], Hd as [_ Hd].
  pose proof (zlen_nonneg d). unfold SBN_FRAME_SIZE in *. split; [|rewrite zlen_drop; lia].
  assert (zdrop (zlen d) (rawdata f) = ztake (5200 - 10 - zlen d) (zdrop (zlen d) (rawdata f)) ++ replicate 10 0) as ->.
  { rewrite <- (ztake_zdrop (5200 - 10 - zlen d) (zdrop (zlen d) (rawdata f))) at 1. f_equal.
    rewrite zdrop_drop by lia. rewrite <- Hz. f_equal. lia. }
  apply elem_of_app. right. cbn. left.
Qed.

Section runs.
Context `{Hp : Heap} `{D : Db} `{C : Clock} `{ZS : ZlibSpec} `{Rx : Regex}.
Context (g : globals) (p : npcast_st) (i : Z).

Lemma data_frame_buffer f s st f' s' : data_frame g f s = Done (st, f', s') ->
  same_raw f f' /\ blkdata f' = blkdata f.
Proof.
  unfold data_frame. destruct (has_flag _ (Z.lor _ _)).
  { destruct (abort_activepce f s); try done. cbn [obind]. by intros [= <- <- <-]. }
  destruct (start_stage g f s) as [[[st1 f1] s1]| |] eqn:E1; try done. cbn [obind].
  destruct (if _ && _ then _ else _) as [[st2 s2]| |]; try done. cbn [obind].
  destruct (if _ && _ then _ else _) as [[st3 s3]| |]; try done. cbn [obind]. intros [= <- <- <-].
  revert E1. unfold start_stage. destruct (has_flag _ _); [|by intros [= <- <- <-]].
  destruct (has_flag _ _); destruct (e_start_activepce _ _ _) as [[? ?]| |]; try done; cbn [obind]; by intros [= <- <- <-].
Qed.

(** the frame that is left has the bytes of the one processed *)
Lemma sbnframeproc_buffer f s st f' s' : frame_wf f -> sbnframeproc g f s = Done (st, f', s') ->
  frame_wf f' /\ rawdata f' = rawdata f.
Proof.
  intros Hw. unfold sbnframeproc, e_sbn_unpack_frame.
  destruct (sbn_unpack_frame_spec f Hw) as (st0 & f1 & -> & Hw1 & (R1 & R2 & R3) & _). cbn [obind].
  assert (exists s1, (if (st0 =? 0) || (st0 =? 3) then
      let s := with_stats (update_stats_frames 0) (with_stats (update_stats_frames_received (rawdata_size f)) s) in
      let* s := update_framep_info f1 s in Done (st0, f1, s)
    else Done (st0, f1, with_stats (update_stats_frames st0) (with_stats (update_stats_frames_received (rawdata_size f)) s))) = s1)
    as [s1 E1] by eauto. cbn zeta in E1 |- *. rewrite E1.
  destruct s1 as [[[st1 f2] s2]| |]; try done. cbn [obind].
  assert (f2 = f1) as ->.
  { destruct (_ || _); [|by injection E1]. destruct (update_framep_info f1 _); try done. cbn [obind] in E1. by injection E1. }
  destruct (st1 =? 0); cbn [negb]; [|by intros [= <- <- <-]].
  destruct (sbn_command (fh f1) =? _); cbn [negb]; [|by intros [= <- <- <-]].
  intros [(Q1 & Q2 & Q3) Q4]%data_frame_buffer. split; [|congruence].
  destruct Hw1. split; congruence.
Qed.

Hypothesis Hi : 0 <= i < NPCAST_NUM_CHANNELS.
Hypothesis Hch : exists c, channel_at p i = Done c /\ fd_set_ok (ch_sfd c) = true.

Lemma receive_datagram d f s : reader_buffer f -> frame_sized d -> zlen d <> 0 ->
  loop_channel g p i (Datagram d) f s = sbnframeproc g (with_datagram i d f) s.
Proof.
  intros [[H1 _ _ _ _] _] [_ Hd] Hne. destruct Hch as (c & Ec & Hfd). pose proof (zlen_nonneg d).
  unfold loop_channel, recvfrom_channel_timed, recvfrom_channel_nowait. rewrite Ec. cbn [obind]. rewrite Hfd. cbn [negb].
  rewrite c_assert_true by (apply Z.ltb_lt; lia). cbn [obind]. unfold SBN_FRAME_SIZE in *. rewrite ztake_ge, wr_0 by lia. cbn [obind].
  rewrite Z.min_r by lia. destruct (Z.eqb_spec (zlen d) (-1)); [lia|]. by destruct (Z.eqb_spec (zlen d) 0).
Qed.

Lemma receive_nothing ev f s : reader_buffer f -> datagrams [ev] = [] ->
  exists st, loop_channel g p i ev f s = Done (st, f, s).
Proof.
  intros [[H1 _ _ _ _] _] Hev. destruct Hch as (c & Ec & Hfd).
  unfold loop_channel, recvfrom_channel_timed, recvfrom_channel_nowait. rewrite Ec. cbn [obind]. rewrite Hfd. cbn [negb].
  rewrite c_assert_true by (apply Z.ltb_lt; lia). assert (set_rawdata (rawdata f) f = f) as Es by (by destruct f).
  destruct ev as [| | | |d]; cbn [obind]; rewrite ?Es; try (eexists; reflexivity).
  cbn in Hev. destruct (Z.eqb_spec (zlen d) 0) as [E|]; [|done]. destruct d; [|rewrite zlen_cons in E; pose proof (zlen_nonneg d); lia].
  change (ztake SBN_FRAME_SIZE []) with (@nil Z). rewrite wr_0 by (change (zlen (@nil Z)) with 0; apply zlen_nonneg).
  change (zlen (@nil Z)) with 0. rewrite zdrop_0. cbn [obind app].
  change (Z.min SBN_FRAME_SIZE 0) with 0. cbn [Z.eqb]. rewrite Es. by eexists.
Qed.

(** the turns one after the other, whatever their statuses *)
Fixpoint all_turns (evs : list recv_event) (f : sbn_frame) (s : fstate) : outcome (sbn_frame * fstate) :=
  match evs with
  | [] => Done (f, s)
  | ev :: evs => let* (_, f, s) := loop_channel g p i ev f s in all_turns evs f s
  end.

Lemma loop_turns evs : forall f s,
  match reader_thread_loop g p i evs f s with
  | Done (_, rest, f', s') => all_turns evs f s = all_turns rest f' s' /\ (length rest <= pred (length evs))%nat
  | Abrt => all_turns evs f s = Abrt
  | Undef => all_turns evs f s = Undef
  end.
Proof.
  induction evs as [|ev evs IH]; intros f s; cbn [reader_thread_loop all_turns]; [by split|].
  destruct (loop_channel g p i ev f s) as [[[st f1] s1]| |]; cbn [obind]; try done.
  destruct (st =? 0); [|by split]. specialize (IH f1 s1).
  destruct (reader_thread_loop g p i evs f1 s1) as [[[[st2 rest] f2] s2]| |]; try done.
  destruct IH as [-> Hl]. split; [done|]. cbn [length pred]. lia.
Qed.

(** after an error the thread goes on *)
Lemma main_turns fuel : forall evs f s, (length evs <= fuel)%nat ->
  reader_thread_main g p fuel i evs f s = all_turns evs f s.
Proof.
  induction fuel as [|fuel IH]; intros [|ev evs] f s Hl; try done; [cbn in Hl; lia|]. cbn [reader_thread_main].
  pose proof (loop_turns (ev :: evs) f s) as H.
  destruct (reader_thread_loop g p i (ev :: evs) f s) as [[[[st rest] f1] s1]| |]; cbn [obind]; try done.
  destruct H as [-> Hr]. apply IH. cbn [length pred] in *. lia.
Qed.

Lemma fill_frames f ds : reader_buffer f -> Forall frame_sized ds ->
  Forall2 holds ds (map (fun d => with_datagram i d f) ds) /\
  Forall (fun f => np_channel_index f = i) (map (fun d => with_datagram i d f) ds).
Proof.
  intros Hf. induction 1 as [|d ds Hd _ [IH1 IH2]]; [by split; constructor|]. split; constructor; try done.
  by apply datagram_holds.
Qed.

(** what every run over frame buffers that hold the datagrams does, the thread
    does, whatever happens between them *)
Lemma reader_turns (P : fstate -> Prop) evs : forall f s, reader_buffer f -> Forall frame_sized (datagrams evs) ->
  (forall fs, Forall2 holds (datagrams evs) fs -> Forall (fun f => np_channel_index f = i) fs ->
     exists sts s', run_frames g fs s = Done (sts, s') /\ P s') ->
  exists f' s', all_turns evs f s = Done (f', s') /\ P s'.
Proof.
  induction evs as [|ev evs IH]; intros f s Hf Hds Hrun.
  { destruct (Hrun [] ltac:(constructor) ltac:(constructor)) as (sts & s' & [= <- <-] & HP). by exists f, s. }
  cbn [all_turns]. assert (datagrams (ev :: evs) = datagrams [ev] ++ datagrams evs) as Eds.
  { destruct ev as [| | | |d]; try done. cbn. by destruct (zlen d =? 0). }
  destruct (datagrams [ev]) as [|d ds] eqn:Ed.
  - destruct (receive_nothing ev f s Hf Ed) as [st ->]. cbn [obind]. rewrite Eds in *. by apply IH.
  - assert (ev = Datagram d /\ zlen d <> 0 /\ ds = []) as (-> & Hne & ->).
    { destruct ev as [| | | |d']; try done. cbn in Ed. destruct (Z.eqb_spec (zlen d') 0); [done|]. by injection Ed as <- <-. }
    rewrite Eds in Hds, Hrun. cbn [app] in Hds, Hrun. apply Forall_cons_iff in Hds as [Hd Hds].
    rewrite receive_datagram by done. set (f1 := with_datagram i d f).
    pose proof (datagram_holds i d f Hf Hd) as Hh. destruct (fill_frames f _ Hf Hds) as [Hfs Hci].
    assert (exists st f2 s2, sbnframeproc g f1 s = Done (st, f2, s2)) as (st & f2 & s2 & E).
    { destruct (Hrun (f1 :: map (fun d => with_datagram i d f) (datagrams evs))) as (sts & s' & E & _);
        [by constructor|by constructor|]. cbn [run_frames] in E.
      destruct (sbnframeproc g f1 s) as [[[st f2] s2]| |]; try done. by eauto. }
    rewrite E. cbn [obind]. pose proof (datagram_buffer i d f Hf Hd) as [Hw1 Hz1]. fold f1 in Hw1, Hz1.
    destruct (sbnframeproc_buffer f1 s st f2 s2 Hw1 E) as [Hw2 R2].
    apply IH; [split; [done|by rewrite R2]|done|]. intros fs Hfs2 Hci2.
    destruct (Hrun (f1 :: fs)) as (sts & s' & E2 & HP); [by constructor|by constructor|]. cbn [run_frames] in E2. rewrite E in E2.
    cbn [obind] in E2. destruct (run_frames g fs s2) as [[l s3]| |]; try done. cbn [obind] in E2. injection E2 as <- <-. by eauto.
Qed.
End runs.

(** ** From a file to the processing queue *)

Section delivery.
Context `{HS : HeapSpec} `{DS : DbSpec} `{CS : ClockSpec} `{ZS : ZlibSpec} `{Rx : Regex}.
Context {DR : DbReliable D DS}.
Context (g : globals) (Hg : globals_ok g).
Hypothesis Hmem : forall n, n < 2 ^ 40 -> malloc_ok n = true.

(** C1: From a file to the processing queue. The packets that the packer writes
    for a file that starts with a standard WMO heading, when they come in order
    on the socket of a free channel, with errors, timeouts and empty datagrams
    anywhere between them, make the reader thread of the channel leave exactly
    one more element at the end of the processing queue: complete, with the
    product sequence number given to the packer and the names made from the
    heading, and with the CCB followed by the bytes of the file. The thread
    ends its turns without any error of its own, whatever its buffer held. *)
Theorem packed_file_received (junk : list Z) (junkf : sbnpack_frame_st) (sp : sbnpack_st)
  (id station time awips body : list Z) (prod sbn flag i : Z)
  (p : npcast_st) (c : npcast_channel_st) (s : fstate) (e : pctl_element_st)
  (Hjunkf : zlen (sp_frame junkf) = FRAME_SIZE_MAX) (Hsp : sbnpack_wf sp)
  (Hid : zlen id = 6 /\ Forall (fun c => isalnum c = true) id)
  (Hstation : zlen station = 4 /\ Forall (fun c => isalpha c = true) station)
  (Htime : zlen time = 6 /\ Forall (fun c => isdigit c = true) time)
  (Hawips : zlen awips = 6 /\ word awips)
  (Hawips0 : exists c s, awips = c :: s /\ isalpha c = true)
  (Hs : fstate_wf g s) (Hi : 0 <= i < num_activechannels (f_pctl s)) (Hnp : i < NPCAST_NUM_CHANNELS)
  (Hp : channel_at p i = Done c /\ fd_set_ok (ch_sfd c) = true)
  (Hfree : activepce (f_pctl s) !! Z.to_nat i = Some e) (Hopen : open_pce e = 0)
  (Hex : pctldb_exact (pctldb (f_pctl s))) :
  let w := WmoHeader id station time awips [] in
  let text := wmo_heading id station time awips ++ body in
  np_regex_match (fname_text w) <> 1 ->
  zlen text + 24 < 65535 * 4000 -> zlen text + 24 <= zlen junk ->
  queue_room (pctldb (f_pctl s)) (zlen text + 24) ->
  exists sp' packets,
    init_sbnpack junk junkf sp (Some text) prod sbn flag = Done (0, sp') /\
    write_sbnpack (fun n => n) sp' = Done (0, packets) /\
    forall evs f, datagrams evs = packets -> Forall bytes packets -> reader_buffer f ->
    exists f' s', reader_thread_main g p (length evs) i evs f s = Done (f', s') /\
      delivered g i (u32 prod) w (ccb_bytes ++ text) s s'.
Proof.
  intros w text Hre Hc Hj Hroom.
  destruct (packed_file_frames g Hg Hmem junk junkf sp id station time awips body prod sbn flag i s e)
    as (sp' & packets & E & Ew & Hsz & Hrun); try done.
  exists sp', packets. split; [done|]. split; [done|]. intros evs f <- Hb Hf.
  rewrite main_turns by lia.
  destruct (reader_turns g p i ltac:(lia) (ex_intro _ c Hp) (delivered g i (u32 prod) w (ccb_bytes ++ text) s) evs f s)
    as (f' & s' & Er & Hd); [done| | |by exists f', s'].
  - apply list.Forall_forall. intros d Hd. rewrite list.Forall_forall in Hb. rewrite list.Forall_forall in Hsz.
    split; [by apply Hb|]. specialize (Hsz d Hd). unfold SBN_FRAME_SIZE. lia.
  - intros fs Hfs Hci. destruct (Hrun fs Hfs Hci) as (s' & Er & Hd). by eauto.
Qed.
End delivery.

(** ** Witnesses *)

#[local] Existing Instances demo_heap demo_heap_spec demo_clock demo_clock_spec
  demo_zlib demo_zlib_spec demo_regex list_db_reliable.

(** a channel that has been opened, the descriptor 5 *)
Definition demo_channel : npcast_channel_st := Channel 0 0 0 1 5 true 16 true 16.
Definition demo_npcast : npcast_st := Npcast (Some [demo_channel]) 1 None None None None 5 [5].
Definition demo_buffer : sbn_frame := recv_frame [].
Definition demo_evs : list recv_event :=
  match demo_packets with
  | [a; b] => [SelTimeout; Datagram a; RecvErr; SelErr; Datagram []; Datagram b; SelOther]
  | _ => []
  end.

Lemma demo_buffer_ok : reader_buffer demo_buffer.
Proof. split; [|by vm_compute]. apply recv_frame_wf. constructor. Qed.

Lemma packed_file_received_witness :
  exists sp' f' s',
    init_sbnpack (replicate (Z.to_nat 6000) 9) demo_junk_frame create_sbnpack
      (Some (demo_heading ++ demo_body)) 11 22 0 = Done (0, sp') /\
    write_sbnpack (fun n => n) sp' = Done (0, demo_packets) /\
    reader_thread_main demo_g demo_npcast 7 0 demo_evs demo_buffer demo_state = Done (f', s') /\
    delivered demo_g 0 11 demo_wmo (ccb_bytes ++ demo_heading ++ demo_body) demo_state s'.
Proof.
  destruct (packed_file_received demo_g demo_g_ok demo_heap_mem (replicate (Z.to_nat 6000) 9)
    demo_junk_frame create_sbnpack (wmo_id demo_wmo) (wmo_station demo_wmo) (wmo_time demo_wmo)
    (wmo_awips demo_wmo) demo_body 11 22 0 0 demo_npcast demo_channel demo_state idle_pce) as (sp' & ps & E & Ew & Hfs).
  - done.
  - by split.
  - split; [done|]. by repeat constructor.
  - split; [done|]. by repeat constructor.
  - split; [done|]. by repeat constructor.
  - split; [done|]. by repeat constructor.
  - by eexists _, _.
  - apply demo_state_wf.
  - done.
  - done.
  - done.
  - done.
  - done.
  - apply demo_db_exact.
  - done.
  - by vm_compute.
  - by vm_compute.
  - split; by vm_compute.
  - assert (ps = demo_packets) as ->.
    { vm_compute in E. injection E as <-. vm_compute in Ew. injection Ew as <-. by vm_compute. }
    destruct (Hfs demo_evs demo_buffer) as (f' & s' & Er & Hd).
    + by vm_compute.
    + unfold demo_packets. constructor; [apply (bool_decide_unpack _); by vm_compute|].
      constructor; [apply (bool_decide_unpack _); by vm_compute|]. constructor.
    + apply demo_buffer_ok.
    + exists sp', f', s'. split; [exact E|]. split; [exact Ew|]. split; [exact Er|exact Hd].
Defined.

(** the groups [a] and [b], ports 1 and 2; the second cannot be joined *)
Definition demo_mcast (k : Z) (ip port : list Z) (name addr : option (list Z)) (size : Z) : mcast_result :=
  if k =? 0 then McastResult 5 16 0 else McastResult (-1) 0 (-2).
Definition closed_npcast : npcast_st := Npcast None 0 None None None None (-1) [3].

Lemma np_open_joins_witness : exists p' p2 cs,
  np_open demo_mcast (Some [97; 32; 98]) (Some [49; 32; 50]) None None 0 closed_npcast = Done (1, p') /\
  np_channel p' = Some cs /\ map ch_enable cs = [1; 1; 0; 0; 0; 0; 0; 0; 0] /\
  map ch_sfd cs = [5; -1; -1; -1; -1; -1; -1; -1; -1] /\ open_fds p' = [3; 5] /\
  np_close p' = Done p2 /\ open_fds p2 = [3].
Proof.
  destruct (np_open_joins demo_heap_mem demo_mcast) with (ip := [97; 32; 98]) (port := [49; 32; 50])
    (ifname := @None (list Z)) (ifip := @None (list Z)) (udprcvsize := 0) (p := closed_npcast)
    as (st' & p' & E & _ & Hgood & Hclose).
  - intros k ip port name ifip size. unfold demo_mcast. by destruct (k =? 0).
  - by split.
  - split; by repeat constructor.
  - by split.
  - destruct Hgood as (-> & _ & Ef & cs & Ec & _ & Hen & Hsf); [done|done|by vm_compute|].
    destruct Hclose as (p2 & E2 & _ & E3); [apply (bool_decide_unpack _); by vm_compute|].
    exists p', p2, cs. by split_and!.
Defined.
