(* ===== verification/Nbspinsert.v ===== *)
(** * Nbspinsert: src/tools/nbspinsert, inserting a file from the command line

    The tool takes the numbers, the name and the path of a product, writes what
    it reads from its input to the path if so asked, and sends the line of the
    product to the fifo of the server, where [Slavefp] reads it. Its own copies
    of the functions of util.c and stoi.c (nutil.c) are those of [Util] and
    [Stoi].

    The system is an input: what happens on the descriptors ([Nreadn.event]; a
    blocking [write] transfers a part at a time), and the results of the calls
    that open the fifo. The parsing of the options is left out. *)

From stdpp Require Import gmap.
From S2P Require Import Prelude Util CLib Mfile Pctl Nreadn Packfp Qdb File Mspool.
From S2P Require Import Nbsp Nbs1 Emwin Serverc Strsplit Stoi Slavet Slavefp Filters.

Definition FINFO_BUFFER_SIZE : Z := 1024.
Definition FPATH_INPUT_BUFFER_SIZE : Z := 1024.

(** the arguments, and the option to read the file *)
Record insert_args := InsertArgs {
  ia_seq : list Z;
  ia_type : list Z;
  ia_cat : list Z;
  ia_code : list Z;
  ia_npchidx : list Z;
  ia_fname : list Z;
  ia_fpath : list Z;
  opt_i : Z
}.

(** the storage of the line: the static buffer, the dynamic one, which of them
    has the data ([true]: the dynamic one) and their size *)
Record finfo_st := Finfo {
  finfo_buffer_s : list Z;
  finfo_buffer_d : option (list Z);
  finfo_data : option bool;
  finfo_data_size : Z
}.

(** ** The arguments *)

Definition check_uchar (s : list Z) : Z :=
  match strto_uint s with
  | (0, Some u) => if 255 <? u then 1 else 0
  | (st, _) => st
  end.
(** [None]: the program exits *)
Definition validate_input (a : insert_args) : option Z :=
  if negb ((strto_u32 (ia_seq a)).1 =? 0) then None
  else if negb (check_uchar (ia_type a) =? 0) then None
  else if negb (check_uchar (ia_cat a) =? 0) then None
  else if negb (check_uchar (ia_code a) =? 0) then None
  else if negb (check_uchar (ia_npchidx a) =? 0) then None
  else Some 0.

(** ** The line *)

Definition finfo_text (a : insert_args) : list Z :=
  ia_seq a ++ 32 :: ia_type a ++ 32 :: ia_cat a ++ 32 :: ia_code a ++ 32 :: ia_npchidx a ++ 32 ::
  ia_fname a ++ 32 :: ia_fpath a.

(** [snprintf], which fails when the length is not an [int] *)
Definition snprintf_n (text : list Z) : Z := if zlen text <? 2 ^ 31 then zlen text else -1.

Definition delete_finfo (f : finfo_st) : finfo_st :=
  Finfo (finfo_buffer_s f) None (finfo_data f) (finfo_data_size f).

Section insert.
Context {Hp : Heap}.

(** the text and its end, in the buffer [p] from the fifth byte on, and the
    size before it *)
Definition fill_finfo (p : list Z) (size : Z) (text : list Z) : outcome (list Z) :=
  let* p := wr p 4 (ztake (size - 1) text ++ [0]) in
  let* p := wr p (4 + zlen text) [10] in
  wr p 0 (split32 (zlen text)).

(** [junk]: what the memory holds *)
Definition create_finfo (junk : list Z) (a : insert_args) (f : finfo_st) : outcome (Z * finfo_st) :=
  let text := finfo_text a in
  let p_size := FINFO_BUFFER_SIZE - 4 in
  let n := snprintf_n text in
  if n <? 0 then Done (1, f) else
  let finfo_size := n + 1 + 4 in
  if 2 ^ 31 <=? finfo_size then Undef else
  if n <? p_size then
    let* p := fill_finfo (finfo_buffer_s f) p_size text in
    Done (0, Finfo p (finfo_buffer_d f) (Some false) finfo_size)
  else
    let* p := wr (finfo_buffer_s f) 4 (ztake (p_size - 1) text ++ [0]) in
    if negb (malloc_ok finfo_size) then Done (1, Finfo p None (finfo_data f) (finfo_data_size f)) else
    let* d := fill_finfo (ztake finfo_size junk) (finfo_size - 4) text in
    Done (0, Finfo p (Some d) (Some true) finfo_size).

Definition finfo_bytes (f : finfo_st) : outcome (list Z) :=
  match finfo_data f with
  | Some true => match finfo_buffer_d f with Some d => Done d | None => Undef end
  | Some false => Done (finfo_buffer_s f)
  | None => Undef
  end.

(** each turn writes something, or stops *)
Fixpoint writef_loop (fuel : nat) (fd : fd_st) (d : list Z) (i size : Z) : Z * fd_st :=
  if size <=? i then (i, fd) else
  match fuel with
  | O => (i, fd)
  | S fuel =>
      let (n, fd) := sys_write fd (zsub i (size - i) d) in
      if n =? -1 then (-1, fd) else if n =? 0 then (i, fd) else writef_loop fuel fd d (i + n) size
  end.
Definition writef (fd : fd_st) (d : list Z) (size : Z) : Z * fd_st := writef_loop (Z.to_nat size) fd d 0 size.

Definition send_finfo (fd : fd_st) (f : finfo_st) : outcome (Z * fd_st) :=
  let* d := finfo_bytes f in
  let* d := rdn d 0 (finfo_data_size f) in
  let (n, fd) := writef fd d (finfo_data_size f) in
  Done (if n =? -1 then 1 else if negb (u64 n =? finfo_data_size f) then 1 else 0, fd).

(** ** The file *)

(** a file that is open for writing: it is not truncated, so what is written
    replaces the bytes that were there *)
Definition overwrite (old : list Z) (fd : fd_st) : list Z := sent fd ++ zdrop (zlen (sent fd)) old.

(** the loop of [save_fpath]: the status, if the last [read] failed, the
    descriptors. Each turn reads something *)
Fixpoint save_loop (fuel : nat) (stdin fd : fd_st) : outcome (Z * bool * fd_st * fd_st) :=
  let '(nread, d, stdin) := sys_read stdin FPATH_INPUT_BUFFER_SIZE in
  if nread <=? 0 then Done (0, nread =? -1, stdin, fd) else
  match fuel with
  | O => Undef
  | S fuel =>
      let (nwrite, fd) := sys_write fd d in
      if negb (nwrite =? nread) then Done (1, false, stdin, fd) else save_loop fuel stdin fd
  end.

(** [file]: the content of the path, if it exists; [fd]: the descriptor that
    [open] returns *)
Definition save_fpath (stdin : fd_st) (fd : option fd_st) (file : option (list Z)) : outcome (Z * fd_st * option (list Z)) :=
  match fd with
  | None => Done (1, stdin, file)
  | Some fd =>
      let* (status, failed, stdin, fd) := save_loop (length (stream stdin)) stdin fd in
      let file := Some (overwrite (default [] file) fd) in
      let status := if failed then 1 else status in
      Done (status, stdin, if negb (status =? 0) then None else file)
  end.

(** ** The fifo *)

(** what the calls return: the mode from [stat], the descriptor, [flock] and
    [fcntl] *)
Record fifo_calls := FifoCalls {
  fi_mode : option Z;
  fi_open : option fd_st;
  fi_flock : Z;
  fi_fcntl : Z
}.
Definition check_fifo (mode : option Z) : Z :=
  match mode with None => -1 | Some m => if S_ISFIFO m then 0 else 1 end.
Definition open_nbsp_infifo (c : fifo_calls) : Z * option fd_st :=
  let status := check_fifo (fi_mode c) in
  if negb (status =? 0) then (if status =? -1 then -1 else 1, None) else
  match fi_open c with
  | None => (-1, None)
  | Some fd =>
      if fi_flock c =? -1 then (-1, None) else if fi_fcntl c =? -1 then (-1, None) else (0, Some fd)
  end.

(** ** The program *)

Definition process_file (junk : list Z) (a : insert_args) (f : finfo_st) (stdin : fd_st) (ffd : option fd_st)
    (file : option (list Z)) (fifo : fd_st) : outcome (Z * finfo_st * option (list Z) * fd_st) :=
  let* (status, _, file) := if opt_i a =? 1 then save_fpath stdin ffd file else Done (0, stdin, file) in
  if negb (status =? 0) then Done (1, f, file, fifo) else
  let* (status, f) := create_finfo junk a f in
  let* (status, fifo, f) :=
    if status =? 0 then let* (status, fifo) := send_finfo fifo f in Done (status, fifo, delete_finfo f)
    else Done (status, fifo, f) in
  Done (status, f, if negb (status =? 0) && (opt_i a =? 1) then None else file, fifo).

(** what [main] does after the options: the exit status, the content of the path
    and what has happened on the fifo, if it was opened *)
Definition nbspinsert (junk : list Z) (a : insert_args) (f : finfo_st) (stdin : fd_st) (ffd : option fd_st)
    (file : option (list Z)) (c : fifo_calls) : outcome (Z * option (list Z) * option fd_st) :=
  match validate_input a with
  | None => Done (1, file, None)
  | Some _ =>
      let (status, fifo) := open_nbsp_infifo c in
      match fifo with
      | Some fifo =>
          let* (status, _, file, fifo) := process_file junk a f stdin ffd file fifo in
          Done (if negb (status =? 0) then 1 else 0, file, Some fifo)
      | None => Done (1, file, None)
      end
  end.
End insert.

(** ** Lemmas *)

(** a number of 64 bits is cut to 32 *)
Lemma strto_uint_dec n : 0 <= n < 2 ^ 64 -> strto_uint (dec n) = (0, Some (u32 n)).
Proof.
  intros Hn. unfold strto_uint, strtoul. pose proof (scan_dec n [] ltac:(lia) I) as E. rewrite app_nil_r in E. rewrite E.
  destruct (Z.leb_spec (2 ^ 64) n); [lia|]. cbn [orb negb]. by rewrite bool_decide_eq_true_2 by done.
Qed.

Lemma strto_u32_dec n : 0 <= n < 2 ^ 64 -> (strto_u32 (dec n)).1 = 0.
Proof.
  intros Hn. unfold strto_u32. rewrite strto_uint_dec by done. pose proof (u32_range n). by destruct (Z.leb_spec (u32 n) 4294967295); [|lia].
Qed.

Section theory.
Context {Hp : Heap} (Hmem : forall n, n < 2 ^ 40 -> malloc_ok n = true).
Context (junk : list Z).

Lemma fill_finfo_spec p size text : zlen text < size -> zlen text + 5 <= zlen p ->
  exists rest, fill_finfo p size text = Done (split32 (zlen text) ++ text ++ 10 :: rest).
Proof.
  intros Hs Hl. pose proof (zlen_nonneg text). unfold fill_finfo. rewrite ztake_ge by lia.
  rewrite <- (ztake_zdrop 4 p). set (h := ztake 4 p). set (r := zdrop 4 p).
  assert (zlen h = 4) as Hh by (apply zlen_take; lia). assert (zlen r = zlen p - 4) as Hr by (apply zlen_drop; lia).
  rewrite wr_app by (rewrite ?zlen_app, ?zlen_cons, ?zlen_nil; lia). cbn [obind].
  set (r1 := zdrop _ r). replace (h ++ (text ++ [0]) ++ r1) with ((h ++ text) ++ 0 :: r1) by (by rewrite <- !app_assoc).
  pose proof (zlen_nonneg r1). rewrite wr_app by (rewrite ?zlen_app, ?zlen_cons; change (@zlen Z []) with 0; lia). cbn [obind].
  rewrite <- !app_assoc. rewrite (wr_0 (h ++ _)).
  2: { rewrite zlen_app. match goal with |- _ <= _ + zlen ?x => pose proof (zlen_nonneg x) end. change (zlen (split32 _)) with 4. lia. }
  change (zlen (split32 (zlen text))) with 4. rewrite zdrop_app_exact by done. by eexists.
Qed.

(** the buffer has the line, its size and its end *)
Lemma create_finfo_spec a f : zlen (finfo_buffer_s f) = FINFO_BUFFER_SIZE -> zlen (finfo_text a) < 2 ^ 31 - 5 ->
  zlen (finfo_text a) + 5 <= zlen junk ->
  exists f' d rest, create_finfo junk a f = Done (0, f') /\ finfo_bytes f' = Done d /\
    finfo_data_size f' = zlen (finfo_text a) + 5 /\
    d = split32 (zlen (finfo_text a)) ++ finfo_text a ++ 10 :: rest.
Proof.
  intros Hs Hl Hj. set (text := finfo_text a) in *. pose proof (zlen_nonneg text). unfold create_finfo. fold text.
  unfold snprintf_n. destruct (Z.ltb_spec (zlen text) (2 ^ 31)); [|lia]. destruct (Z.ltb_spec (zlen text) 0); [lia|].
  destruct (Z.leb_spec (2 ^ 31) (zlen text + 1 + 4)); [lia|].
  unfold FINFO_BUFFER_SIZE in *. destruct (Z.ltb_spec (zlen text) (1024 - 4)).
  - destruct (fill_finfo_spec (finfo_buffer_s f) (1024 - 4) text) as [rest ->]; [lia|lia|].
    cbn [obind]. eexists _, _, rest. split; [done|]. split; [done|]. cbn. split; [lia|done].
  - rewrite wr_ok by (rewrite ?zlen_app, ?zlen_take; change (zlen [0]) with 1; lia). cbn [obind].
    rewrite Hmem by lia. cbn [negb]. destruct (fill_finfo_spec (ztake (zlen text + 1 + 4) junk) (zlen text + 1 + 4 - 4) text) as [rest ->];
      [lia|rewrite zlen_take; lia|].
    cbn [obind]. eexists _, _, rest. split; [done|]. split; [done|]. cbn. split; [lia|done].
Qed.
End theory.

(** the reader of the fifo takes what is written, a part at a time *)
Definition all_room (fd : fd_st) : Prop := Forall (fun e => exists m, e = EvRoom m /\ 0 < m) (events fd).
Definition ev_room (e : event) : Z := match e with EvRoom m => m | _ => 0 end.
Definition room (fd : fd_st) : Z := fold_right (fun e n => ev_room e + n) 0 (events fd).

Lemma writef_loop_room fuel : forall fd d i, all_room fd -> 0 <= i <= zlen d -> zlen d - i <= room fd ->
  zlen d - i <= Z.of_nat fuel ->
  exists fd', writef_loop fuel fd d i (zlen d) = (zlen d, fd') /\ sent fd' = sent fd ++ zdrop i d.
Proof.
  induction fuel as [|fuel IH]; intros fd d i Hr Hi Hroom Hf; cbn [writef_loop];
    (destruct (Z.leb_spec (zlen d) i); [rewrite zdrop_ge, app_nil_r by lia; exists fd; split; [f_equal; lia|done]|]); [lia|].
  destruct fd as [[|e ev] it sn]; unfold all_room, room in Hr, Hroom; cbn [events fold_right] in Hr, Hroom; [lia|].
  apply Forall_cons_iff in Hr as [(m & -> & Hm) Hr]. cbn [ev_room] in Hroom. unfold sys_write. cbn [events].
  assert (zlen (zsub i (zlen d - i) d) = zlen d - i) as Hz by (apply zlen_sub; lia). rewrite Hz.
  destruct (Z.eqb_spec (Z.min m (zlen d - i)) (-1)); [lia|]. destruct (Z.eqb_spec (Z.min m (zlen d - i)) 0); [lia|].
  cbn [intr sent]. set (f1 := Fd _ it _).
  assert (zsub i (zlen d - i) d = zdrop i d) as Hzs by (unfold zsub; apply ztake_ge; rewrite zlen_drop; lia).
  destruct (IH f1 d (i + Z.min m (zlen d - i))) as (fd' & -> & Es); subst f1; try lia.
  - unfold all_room. cbn [events]. destruct (Z.leb_spec m (zlen d - i)); [done|]. constructor; [|done]. eexists. split; [done|lia].
  - unfold room. cbn [events]. destruct (Z.leb_spec m (zlen d - i)); cbn [fold_right ev_room]; lia.
  - exists fd'. split; [done|]. rewrite Es. cbn [sent]. rewrite <- app_assoc. f_equal. rewrite Hzs.
    rewrite <- zdrop_drop by lia. destruct (Z.min_spec m (zlen d - i)) as [[? ->]|[? ->]]; [apply ztake_zdrop|].
    rewrite ztake_ge, (zdrop_ge (zlen d - i)) by (rewrite zlen_drop; lia). by rewrite app_nil_r.
Qed.

Lemma writef_loop_range fuel : forall fd d i size, Forall room_ok (events fd) -> 0 <= i <= size ->
  let n := (writef_loop fuel fd d i size).1 in n = -1 \/ 0 <= n <= size.
Proof.
  induction fuel as [|fuel IH]; intros fd d i size Hr Hi; cbn [writef_loop]; (destruct (Z.leb_spec size i); [by right|]);
    [by right|].
  destruct fd as [ev it sn]. unfold sys_write. cbn [events intr sent] in *.
  destruct Hr as [|e ev He Hr]; [by left|]. destruct e; try by left. cbn [room_ok] in He.
  assert (zlen (zsub i (size - i) d) <= size - i) as Hz by (unfold zsub; pose proof (zlen_take_le (size - i) (zdrop i d)); lia).
  pose proof (zlen_nonneg (zsub i (size - i) d)). set (z := zlen _) in *.
  destruct (Z.eqb_spec (Z.min n z) (-1)); [by left|]. destruct (Z.eqb_spec (Z.min n z) 0); [by right|]. apply IH; [|lia].
  cbn [events]. destruct (Z.leb_spec n z); [done|]. constructor; [cbn; lia|done].
Qed.

Lemma writef_room fd d : all_room fd -> zlen d <= room fd ->
  exists fd', writef fd d (zlen d) = (zlen d, fd') /\ sent fd' = sent fd ++ d.
Proof.
  intros Hr Hroom. pose proof (zlen_nonneg d). unfold writef.
  destruct (writef_loop_room (Z.to_nat (zlen d)) fd d 0) as (fd' & E & Es); try (done || lia); []. by exists fd'.
Qed.

(** a standard input with the data [ds] *)
Definition input (fd : fd_st) (ds : list (list Z)) : Prop := events fd = map EvData ds ++ [EvEof] /\ Forall (fun d => d <> []) ds.
(** a regular file, on a disk that has room for [n] bytes *)
Definition disk_room (fd : fd_st) (n : Z) : Prop := n = 0 \/ exists m ev, events fd = EvRoom m :: ev /\ n <= m.

Lemma save_loop_spec fuel : forall stdin fd ds, input stdin ds -> disk_room fd (zlen (concat ds)) ->
  zlen (concat ds) <= Z.of_nat fuel ->
  exists stdin' fd', save_loop fuel stdin fd = Done (0, false, stdin', fd') /\ sent fd' = sent fd ++ concat ds.
Proof.
  induction fuel as [|fuel IH]; intros stdin fd ds [Hev Hne] Hroom Hf; cbn [save_loop]; unfold sys_read; rewrite Hev.
  all: destruct Hne as [|d ds Hd Hne]; [cbn [map app]; eexists _, fd; split; [done|by rewrite app_nil_r]|].
  all: assert (0 < zlen d) as Hzd by (destruct d; [done|rewrite zlen_cons; pose proof (zlen_nonneg d); lia]).
  all: cbn [concat] in *; rewrite zlen_app in *; pose proof (zlen_nonneg (concat ds)); try (exfalso; lia). cbn [map app].
  destruct (Z.leb_spec (Z.min FPATH_INPUT_BUFFER_SIZE (zlen d)) 0); [unfold FPATH_INPUT_BUFFER_SIZE in *; lia|].
  destruct Hroom as [?|(m & ev & Efd & Hm)]; [lia|]. unfold sys_write. rewrite Efd.
  set (k := FPATH_INPUT_BUFFER_SIZE) in *. assert (zlen (ztake k d) = Z.min k (zlen d)) as Hk.
  { destruct (Z.min_spec k (zlen d)) as [[? ->]|[? ->]]; [apply zlen_take; lia|]. by rewrite ztake_ge by lia. }
  rewrite Hk. destruct (Z.eqb_spec (Z.min m (Z.min k (zlen d))) (Z.min k (zlen d))); [|lia]. cbn [negb].
  set (f1 := set_events _ stdin). set (f2 := Fd _ _ _).
  assert (exists ds', input f1 ds' /\ concat ds' = zdrop k d ++ concat ds) as (ds' & Hin & Ec).
  { destruct (Z.leb_spec (zlen d) k); [exists ds; split; [by split|by rewrite zdrop_ge by lia]|].
    exists (zdrop k d :: ds). split; [|done]. split; [done|]. constructor; [|done]. intros E.
    assert (zlen (zdrop k d) = zlen d - k) as E2 by (apply zlen_drop; lia). rewrite E in E2. change (@zlen Z []) with 0 in E2. lia. }
  assert (zlen (concat ds') = zlen d + zlen (concat ds) - Z.min k (zlen d)) as Hz.
  { rewrite Ec, zlen_app. destruct (Z.min_spec k (zlen d)) as [[? ->]|[? ->]]; [rewrite zlen_drop by lia; lia|].
    rewrite zdrop_ge by lia. change (@zlen Z []) with 0. lia. }
  destruct (IH f1 f2 ds') as (s' & fd' & E & Es); [done| |lia|].
  - subst f2. unfold disk_room. cbn [events]. destruct (Z.leb_spec m (Z.min k (zlen d))); [left; lia|].
    right. eexists _, _. split; [done|lia].
  - exists s', fd'. split; [exact E|]. rewrite Es, Ec. subst f2. cbn [sent]. rewrite <- app_assoc. f_equal.
    rewrite app_assoc. f_equal. destruct (Z.min_spec m (Z.min k (zlen d))); rewrite (ztake_ge m) by lia; apply ztake_zdrop.
Qed.

(** ** The program *)

Lemma sdec_dec n : 0 <= n -> sdec n = dec n.
Proof. intros Hn. unfold sdec. by destruct (Z.ltb_spec n 0); [lia|]. Qed.

(** the command that inserts the product of a line *)
Definition insert_command (l : fifo_line) (i : Z) : insert_args :=
  InsertArgs (dec (fl_seq l)) (dec (fl_type l)) (dec (fl_category l)) (dec (fl_code l)) (dec (fl_channel l))
    (fl_name l) (fl_path l) i.
Definition uchars (l : fifo_line) : list Z := [fl_type l; fl_category l; fl_code l; fl_channel l].

(** the calls on the fifo succeed *)
Definition fifo_opens (c : fifo_calls) (fd : fd_st) : Prop :=
  (exists m, fi_mode c = Some m /\ S_ISFIFO m = true) /\ fi_open c = Some fd /\ fi_flock c <> -1 /\ fi_fcntl c <> -1.

Lemma finfo_line l i : Forall (fun n => 0 <= n) (uchars l) -> finfo_text (insert_command l i) = line_text l.
Proof.
  unfold uchars. rewrite !Forall_cons_iff. intros (H1 & H2 & H3 & H4 & _). unfold line_text, info_line. by rewrite !sdec_dec.
Qed.

(** what the program takes for a byte: the low 32 bits are one *)
Definition taken (n : Z) : bool := u32 n <? 256.

(** the arguments are valid when the four numbers are taken *)
Lemma validate_line l i : 0 <= fl_seq l < 2 ^ 64 -> Forall (fun n => 0 <= n < 2 ^ 64) (uchars l) ->
  validate_input (insert_command l i) = if forallb taken (uchars l) then Some 0 else None.
Proof.
  intros Hs. unfold uchars. rewrite !Forall_cons_iff. intros (H1 & H2 & H3 & H4 & _). unfold validate_input, insert_command.
  cbn [ia_seq ia_type ia_cat ia_code ia_npchidx forallb]. rewrite strto_u32_dec by done. cbn [Z.eqb negb].
  assert (forall n, 0 <= n < 2 ^ 64 -> negb (check_uchar (dec n) =? 0) = negb (taken n)) as Hc.
  { intros n Hn. unfold check_uchar, taken. rewrite strto_uint_dec by done.
    by destruct (Z.ltb_spec 255 (u32 n)), (Z.ltb_spec (u32 n) 256); try lia. }
  rewrite !Hc by done. by do 4 (destruct (taken _); [|done]).
Qed.

Lemma open_fifo_ok c fd : fifo_opens c fd -> open_nbsp_infifo c = (0, Some fd).
Proof.
  intros ((m & Hm & Hf) & Ho & Hl & Hc). unfold open_nbsp_infifo, check_fifo. rewrite Hm, Hf, Ho. cbn [Z.eqb negb].
  destruct (Z.eqb_spec (fi_flock c) (-1)); [done|]. by destruct (Z.eqb_spec (fi_fcntl c) (-1)).
Qed.

(** what is kept of the path: the data from the input, and what an older file
    had after them *)
Definition saved (i : Z) (data : list Z) (file : option (list Z)) : option (list Z) :=
  if i =? 1 then Some (data ++ zdrop (zlen data) (default [] file)) else file.

Section inserted.
Context {Hp : Heap} (Hmem : forall n, n < 2 ^ 40 -> malloc_ok n = true).
Context (junk : list Z) (f : finfo_st) (Hf : zlen (finfo_buffer_s f) = FINFO_BUFFER_SIZE).
Context (c : fifo_calls) (fifo : fd_st) (Hopen : fifo_opens c fifo) (Hrok : Forall room_ok (events fifo)).
Context (l : fifo_line) (Hseq : 0 <= fl_seq l < 2 ^ 64) (Hnum : Forall (fun n => 0 <= n < 2 ^ 64) (uchars l)).
Context (Htaken : forallb taken (uchars l) = true).
Context (Hlen : zlen (line_text l) < 2 ^ 31 - 5) (Hjunk : zlen (line_text l) + 5 <= zlen junk).

Lemma uchars_valid i : validate_input (insert_command l i) = Some 0.
Proof using Hseq Hnum Htaken. by rewrite validate_line, Htaken. Qed.

(** the line is written: the status is that of the writing *)
Lemma insert_sends i stdin ffd file ds : i = 0 \/ i = 1 ->
  (i = 1 -> input stdin ds /\ exists fd, ffd = Some fd /\ sent fd = [] /\ disk_room fd (zlen (concat ds))) ->
  let r := writef fifo (line_bytes l) (zlen (line_bytes l)) in
  nbspinsert junk (insert_command l i) f stdin ffd file c =
    if r.1 =? zlen (line_bytes l) then Done (0, saved i (concat ds) file, Some r.2)
    else Done (1, if i =? 1 then None else file, Some r.2).
Proof using All.
  intros Hi Hin r. unfold nbspinsert. rewrite uchars_valid, (open_fifo_ok c fifo Hopen). unfold process_file.
  change (opt_i (insert_command l i)) with i.
  assert (exists s', (if i =? 1 then save_fpath stdin ffd file else Done (0, stdin, file)) = Done (0, s', saved i (concat ds) file))
    as [s' ->].
  { unfold saved. destruct (Z.eqb_spec i 1) as [E|E]; [|by eexists]. destruct (Hin E) as (Hst & fd & -> & Hs & Hroom).
    unfold save_fpath. destruct (save_loop_spec (length (stream stdin)) stdin fd ds Hst Hroom) as (s' & fd' & -> & Es).
    - destruct Hst as [Hev _]. unfold stream. rewrite Hev, map_app, concat_app, map_map. cbn [map ev_data concat].
      rewrite app_nil_r, map_id. done.
    - cbn [obind Z.eqb negb]. exists s'. do 3 f_equal. unfold overwrite. by rewrite Es, Hs. }
  cbn [obind Z.eqb negb]. pose proof (zlen_nonneg (line_text l)).
  assert (finfo_text (insert_command l i) = line_text l) as Et.
  { apply finfo_line. eapply List.Forall_impl; [|exact Hnum]. cbn. lia. }
  destruct (create_finfo_spec Hmem junk (insert_command l i) f) as (f' & d & rest & -> & Ed & En & Edd); rewrite ?Et; try done.
  rewrite Et in En, Edd. cbn [obind Z.eqb]. unfold send_finfo. rewrite Ed. cbn [obind].
  assert (zlen (line_bytes l) = zlen (line_text l) + 5) as Hz.
  { unfold line_bytes. rewrite !zlen_app. change (zlen (split32 _)) with 4. change (zlen [10]) with 1. lia. }
  assert (d = line_bytes l ++ rest) as -> by (rewrite Edd; unfold line_bytes; by rewrite <- !app_assoc).
  pose proof (zlen_nonneg rest). rewrite rdn_ok by (rewrite ?zlen_app; lia). cbn [obind]. rewrite En, <- Hz.
  unfold zsub. rewrite zdrop_0, ztake_app_exact by done. fold r. destruct r as [n fd'] eqn:Er. cbn [fst snd obind].
  pose proof (zlen_nonneg (line_bytes l)).
  pose proof (writef_loop_range (Z.to_nat (zlen (line_bytes l))) fifo (line_bytes l) 0 (zlen (line_bytes l)) Hrok ltac:(lia)) as Hn.
  fold (writef fifo (line_bytes l) (zlen (line_bytes l))) in Hn. fold r in Hn. rewrite Er in Hn. cbn [fst] in Hn.
  assert ((if n =? -1 then 1 else if negb (u64 n =? zlen (line_bytes l)) then 1 else 0) = if n =? zlen (line_bytes l) then 0 else 1) as ->.
  { destruct Hn as [->|Hn]; [by destruct (Z.eqb_spec (-1) (zlen (line_bytes l))); [lia|]|]. rewrite u64_small by lia.
    destruct (Z.eqb_spec n (-1)); [lia|]. by destruct (n =? zlen (line_bytes l)). }
  destruct (n =? zlen (line_bytes l)); cbn [Z.eqb negb andb]; [done|]. unfold saved. by destruct (Z.eqb_spec i 1).
Qed.
End inserted.

Section queued.
Context {Hp : Heap} `{QR : QueueDbReliable} {Rx : QueueRegex}.
Context (Hmem : forall n, n < 2 ^ 40 -> malloc_ok n = true).
Context (junk4 : list Z) (Hjunk4 : zlen junk4 = 4) (mem : Z -> list Z) (Hmjunk : forall n, 0 <= n -> zlen (mem n) = n).

(** C37: Inserting a file. The numbers are up to 64 bits. The program takes the
    four that should be of 8 bits when their low 32 bits are a byte, and any
    sequence number; otherwise it does nothing. So a number like [2 ^ 32] is
    taken, and it is sent as it was given. When they are taken the program sends
    the line of the product to the fifo, however the kernel divides the transfer,
    and when asked to it saves its input at the path, keeping what a longer file
    had beyond it. When the line is not sent in full the status is 1 and the path
    is removed. The server's reader, which gets those bytes from the fifo, queues
    the packet of the product for the filters and for the servers, when the
    numbers are in the range of its variables. *)
Theorem inserted_line_queued junk f c fifo l i stdin ffd file ds
  (Hf : zlen (finfo_buffer_s f) = FINFO_BUFFER_SIZE) (Hopen : fifo_opens c fifo) (Hrok : Forall room_ok (events fifo))
  (Hseq : 0 <= fl_seq l < 2 ^ 64) (Hnum : Forall (fun n => 0 <= n < 2 ^ 64) (uchars l)) (Hi : i = 0 \/ i = 1)
  (Hlen : zlen (line_text l) < 2 ^ 31 - 5) (Hjunk : zlen (line_text l) + 5 <= zlen junk)
  (Hin : i = 1 -> input stdin ds /\ exists fd, ffd = Some fd /\ sent fd = [] /\ disk_room fd (zlen (concat ds))) :
  let run := nbspinsert junk (insert_command l i) f stdin ffd file c in
  (forallb taken (uchars l) = false -> run = Done (1, file, None)) /\
  (forallb taken (uchars l) = true ->
     (all_room fifo -> zlen (line_bytes l) <= room fifo ->
        exists fifo', run = Done (0, saved i (concat ds) file, Some fifo') /\ sent fifo' = sent fifo ++ line_bytes l) /\
     ((writef fifo (line_bytes l) (zlen (line_bytes l))).1 <> zlen (line_bytes l) ->
        exists fifo', run = Done (1, if i =? 1 then None else file, Some fifo')) /\
     (forall tick fc sc sl fd inf n qf qv qt more, fc <> 0 -> sc <> 0 -> slave_fd sl = Some fd -> data_only fd ->
        in_ready n inf -> line_fits (in_pce inf) l -> stream fd = line_bytes l ++ more -> accepted false false [] ->
        queues_room (NBS_ENVELOPE_SIZE + NBSFP_PINFO_SIZE + n) qf qv qt ->
        exists sl' inf' qt', slavein_loop false false tick fc sc junk4 mem sl inf qt = Done (0, sl', inf', qt') /\
          line_element l (in_pce inf') /\
          table_rep qt' [qf ++ [fp_packet (in_pce inf')]; qv ++ [fp_packet (in_pce inf')]])).
Proof.
  intros run. split.
  - intros Hno. subst run. unfold nbspinsert. by rewrite validate_line, Hno.
  - intros Hyes. pose proof (insert_sends Hmem junk f Hf c fifo Hopen Hrok l Hseq Hnum Hyes Hlen Hjunk i stdin ffd file ds Hi Hin) as Hrun.
    cbn zeta in Hrun. fold run in Hrun. split_and!.
    + intros Hr Hroom. destruct (writef_room fifo (line_bytes l) Hr Hroom) as (fd' & E & Es). rewrite E in Hrun. cbn [fst snd] in Hrun.
      rewrite Z.eqb_refl in Hrun. by exists fd'.
    + intros Hne. apply Z.eqb_neq in Hne. rewrite Hne in Hrun. by eexists.
    + intros tick fc sc sl fd inf n qf qv qt more Hfc Hsc Hfd Hdo Hir Hfit Hes Hacc Hq.
      destruct (slavein_line_turn false false Hmem junk4 Hjunk4 mem Hmjunk tick fc sc sl fd inf n qf qv qt l more) as [H1 _]; try done.
      destruct (H1 eq_refl eq_refl) as (fd' & sl' & i' & qt' & E & _ & _ & _ & _ & Hle & Hr & _). by exists sl', i', qt'.
Qed.
End queued.

(** ** Witness *)

#[local] Existing Instances demo_heap demo_qregex.

(** [nbspinsert -i 1 2 3 4 5 b /s/b], with a file of three bytes at the path *)
Definition cl_line : fifo_line := FifoLine 1 2 3 4 5 [98] [47; 115; 47; 98] [98].
Definition cl_fifo : fd_st := Fd [EvRoom 7; EvRoom 100] [] [].
Definition cl_run : outcome (Z * option (list Z) * option fd_st) :=
  nbspinsert (Hp := demo_heap) (replicate 100 0) (insert_command cl_line 1) (Finfo (replicate 1024 0) None None 0)
    (Fd [EvData [65; 66]; EvEof] [] []) (Some (Fd [EvRoom 9] [] [])) (Some [1; 2; 3]) (FifoCalls (Some 4480) (Some cl_fifo) 0 0).

(** [nbspinsert 1 4294967296 3 4 5 b /s/b] *)
Definition cut_line : fifo_line := FifoLine 1 4294967296 3 4 5 [98] [47; 115; 47; 98] [98].

Lemma inserted_line_queued_witness :
  (exists fifo', nbspinsert (Hp := demo_heap) (replicate 100 0) (insert_command cut_line 0) (Finfo (replicate 1024 0) None None 0)
     (Fd [] [] []) None None (FifoCalls (Some 4480) (Some cl_fifo) 0 0) = Done (0, None, Some fifo') /\ sent fifo' = line_bytes cut_line) /\
  (exists fifo', cl_run = Done (0, Some [65; 66; 3], Some fifo') /\ sent fifo' = line_bytes cl_line) /\
  exists sl' inf' qt', in_loop false = Done (0, sl', inf', qt') /\ line_element cl_line (in_pce inf') /\
    table_rep (H := fixed_qd_spec demo_reclen) qt' [[fp_packet (in_pce inf')]; [fp_packet (in_pce inf')]].
Proof.
  split.
  { destruct (inserted_line_queued (Hp := demo_heap) (QR := fixed_qd_reliable demo_reclen) (fun n Hn => proj2 (Z.ltb_lt n (2 ^ 40)) Hn) (replicate 4 0) eq_refl
      (fun n => replicate (Z.to_nat n) 0) demo_junk (replicate 100 0) (Finfo (replicate 1024 0) None None 0)
      (FifoCalls (Some 4480) (Some cl_fifo) 0 0) cl_fifo cut_line 0 (Fd [] [] []) None None []) as [_ H1].
    - by vm_compute.
    - split; [by exists 4480|done].
    - by repeat constructor.
    - done.
    - by repeat constructor.
    - by left.
    - by vm_compute.
    - by vm_compute.
    - done.
    - destruct H1 as (H1 & _); [done|]. apply H1; [|by vm_compute]. constructor; [by exists 7|]. constructor; [by exists 100|constructor]. }
  destruct (inserted_line_queued (Hp := demo_heap) (QR := fixed_qd_reliable demo_reclen) (fun n Hn => proj2 (Z.ltb_lt n (2 ^ 40)) Hn) (replicate 4 0) eq_refl
    (fun n => replicate (Z.to_nat n) 0) demo_junk (replicate 100 0) (Finfo (replicate 1024 0) None None 0)
    (FifoCalls (Some 4480) (Some cl_fifo) 0 0) cl_fifo cl_line 1 (Fd [EvData [65; 66]; EvEof] [] [])
    (Some (Fd [EvRoom 9] [] [])) (Some [1; 2; 3]) [[65; 66]]) as [_ H1].
  - by vm_compute.
  - split; [by exists 4480|done].
  - by repeat constructor.
  - done.
  - by repeat constructor.
  - by right.
  - by vm_compute.
  - by vm_compute.
  - intros _. split; [split; [done|by repeat constructor]|]. eexists. split; [done|]. split; [done|]. right. by eexists _, _.
  - destruct H1 as (H1 & _ & H2); [done|]. split.
    + apply H1; [|by vm_compute]. constructor; [by exists 7|]. constructor; [by exists 100|constructor].
    + destruct (H2 (0, true) 1 1 in_slave (Fd [EvData (line_bytes cl_line)] [] []) in_info 45 [] [] demo_qt [])
        as (sl' & i' & qt' & E & He & Hr).
      * done.
      * done.
      * reflexivity.
      * split; [done|]. constructor; [|constructor]. by eexists.
      * split; [done|split; [done|by eexists]|done|done].
      * split; [apply in_line_ok|by vm_compute].
      * reflexivity.
      * done.
      * apply demo_room.
      * exists sl', i', qt'. split; [exact E|]. split; [exact He|exact Hr].
Defined.
