(* ===== verification/Double.v ===== *)
(** * Double: the arithmetic of [double]

    A [double] is a binary64 number of the standard library's [SpecFloat], with
    the operations of C rounding to the nearest even. The value of a finite
    number, in units of the smallest one ([2 ^ -1074]), is an integer: what is
    shown of the operations is about it. The decoders of data formats use this
    file. *)

From S2P Require Import Prelude.
From Stdlib Require Export SpecFloat.

Abbreviation double := spec_float.
Definition dprec : Z := 53.
Definition demax : Z := 1024.

Definition dadd : double -> double -> double := SFadd dprec demax.
Definition dsub : double -> double -> double := SFsub dprec demax.
Definition dmul : double -> double -> double := SFmul dprec demax.
Definition ddiv : double -> double -> double := SFdiv dprec demax.
Definition dlt : double -> double -> bool := SFltb.

(** [(double)n] *)
Definition d_of_Z (n : Z) : double := binary_normalize dprec demax n 0 false.
(** the literal [n / 10 ^ k] *)
Definition d_lit (n k : Z) : double := ddiv (d_of_Z n) (d_of_Z (10 ^ k)).

(** [(int)x], where it is defined *)
Definition d_trunc (x : double) : outcome Z :=
  match x with
  | S754_zero _ => Done 0
  | S754_finite s m e =>
      let n := cond_Zopp s (if 0 <=? e then Zpos m * 2 ^ e else Zpos m / 2 ^ (- e)) in
      if (- 2 ^ 31 <=? n) && (n <? 2 ^ 31) then Done n else Undef
  | _ => Undef
  end.

(** ** Values *)

Definition dmin : Z := 1074.

Definition dval (x : double) : Z :=
  match x with
  | S754_finite s m e => cond_Zopp s (Zpos m * 2 ^ (e + dmin))
  | _ => 0
  end.

(** a number, neither infinite nor NaN, in its canonical form *)
Definition dfin (x : double) : Prop :=
  match x with
  | S754_zero _ => True
  | S754_finite _ m e => bounded dprec demax m e = true
  | _ => False
  end.

(** ** Digits *)

Lemma digits_log2 p : Zpos (digits2_pos p) = Z.log2 (Zpos p) + 1.
Proof.
  induction p as [p IH|p IH|]; cbn [digits2_pos]; [..|done]; rewrite Pos2Z.inj_succ, IH.
  - rewrite Pos2Z.inj_xI, Z.log2_succ_double by lia. lia.
  - rewrite Pos2Z.inj_xO, Z.log2_double by lia. lia.
Qed.

Lemma digits_bounds p : 2 ^ (Zpos (digits2_pos p) - 1) <= Zpos p < 2 ^ Zpos (digits2_pos p).
Proof.
  rewrite digits_log2. pose proof (Z.log2_spec (Zpos p) ltac:(lia)) as H.
  replace (Z.log2 (Zpos p) + 1 - 1) with (Z.log2 (Zpos p)) by lia. by rewrite Z.add_1_r.
Qed.

Lemma digits_unique p d : 2 ^ (d - 1) <= Zpos p < 2 ^ d -> 0 < d -> Zpos (digits2_pos p) = d.
Proof.
  intros H Hd. rewrite digits_log2. rewrite (Z.log2_unique (Zpos p) (d - 1)); [lia..|].
  by replace (Z.succ (d - 1)) with d by lia.
Qed.

Lemma digits_le p d : Zpos p < 2 ^ d -> 0 <= d -> Zpos (digits2_pos p) <= d.
Proof. intros H Hd. rewrite digits_log2. apply Z.log2_lt_pow2 in H; lia. Qed.

Lemma fexp_eq e : fexp dprec demax e = Z.max (e - 53) (- 1074).
Proof. done. Qed.

Lemma bounded_iff m e : bounded dprec demax m e = true <->
  Z.max (Zpos (digits2_pos m) + e - 53) (- 1074) = e /\ e <= 971.
Proof. unfold bounded, canonical_mantissa. rewrite fexp_eq. rewrite andb_true_iff, Z.eqb_eq, Z.leb_le. done. Qed.

(** ** Comparison *)

Lemma cmp_exp m1 e1 m2 e2 : bounded dprec demax m1 e1 = true -> bounded dprec demax m2 e2 = true -> e1 < e2 ->
  Zpos m1 * 2 ^ (e1 + dmin) < Zpos m2 * 2 ^ (e2 + dmin).
Proof.
  rewrite !bounded_iff. intros [H1 _] [H2 _] He. pose proof (digits_bounds m1) as [_ B1]. pose proof (digits_bounds m2) as [B2 _].
  assert (Zpos (digits2_pos m1) <= 53) as D1 by lia. assert (Zpos (digits2_pos m2) = 53) as D2 by lia. rewrite D2 in B2. unfold dmin.
  assert (Zpos m1 < 2 ^ 53) as M1.
  { eapply Z.lt_le_trans; [exact B1|]. by apply Z.pow_le_mono_r; lia. }
  change (2 ^ (53 - 1)) with 4503599627370496 in B2. change (2 ^ 53) with 9007199254740992 in M1.
  replace (e2 + 1074) with (1 + (e2 - e1 - 1) + (e1 + 1074)) by lia. rewrite (Z.pow_add_r 2 (1 + _)), (Z.pow_add_r 2 1) by lia.
  pose proof (Z.pow_pos_nonneg 2 (e1 + 1074) ltac:(lia) ltac:(lia)). pose proof (Z.pow_pos_nonneg 2 (e2 - e1 - 1) ltac:(lia) ltac:(lia)).
  change (2 ^ 1) with 2. set (P := 2 ^ (e2 - e1 - 1)) in *. set (K := 2 ^ (e1 + 1074)) in *.
  assert (Zpos m1 < Zpos m2 * (2 * P)) by nia. rewrite Z.mul_assoc. apply Z.mul_lt_mono_pos_r; lia.
Qed.

Lemma dlt_spec x y : dfin x -> dfin y -> dlt x y = (dval x <? dval y).
Proof.
  assert (forall m e, dfin (S754_finite false m e) -> 0 < Zpos m * 2 ^ (e + dmin)) as Hpos.
  { intros m e H. apply bounded_iff in H. unfold dmin. pose proof (Z.pow_pos_nonneg 2 (e + 1074) ltac:(lia) ltac:(lia)). nia. }
  intros Hx Hy. unfold dlt, SFltb. destruct x as [sx|sx| |sx mx ex]; [..|destruct sx]; try done;
    (destruct y as [sy|sy| |sy my ey]; [..|destruct sy]); try done; cbn [SFcompare dval cond_Zopp];
    try (pose proof (Hpos mx ex Hx)); try (pose proof (Hpos my ey Hy)).
  all: try (symmetry; first [apply Z.ltb_lt; lia | apply Z.ltb_ge; lia]).
  all: destruct (Z.compare_spec ex ey) as [->|He|He];
    [|pose proof (cmp_exp mx ex my ey Hx Hy He); symmetry; first [apply Z.ltb_lt; lia | apply Z.ltb_ge; lia]
     |pose proof (cmp_exp my ey mx ex Hy Hx He); symmetry; first [apply Z.ltb_lt; lia | apply Z.ltb_ge; lia]].
  all: set (k := 2 ^ (ey + dmin)) in *; assert (0 < k) by nia.
  all: change (Pos.compare_cont Eq mx my) with (mx ?= my)%positive; destruct (Pos.compare_spec mx my) as [->|Hm|Hm]; cbn [CompOpp];
    symmetry; first [apply Z.ltb_lt; nia | apply Z.ltb_ge; nia].
Qed.

(** ** Rounding *)

(** shifting to the right by [k] bits *)
Definition shr_ok (k : Z) (a b : shr_record) : Prop :=
  shr_m b = shr_m a / 2 ^ k /\
  (shr_m a mod 2 ^ k = 0 -> shr_r a = false -> shr_s a = false -> shr_r b = false /\ shr_s b = false).

Lemma shr_1_ok a : 0 <= shr_m a -> shr_ok 1 a (shr_1 a).
Proof.
  destruct a as [m r s]. cbn [shr_m]. intros Hm. unfold shr_ok. change (2 ^ 1) with 2. rewrite <- Z.div2_div, Zmod_odd.
  destruct m as [|[p|p|]|]; cbn; (split; [done|]); try lia; intros _ -> ->; done.
Qed.

Lemma shr_trans j k a b c : 0 <= j -> 0 <= k -> shr_ok j a b -> shr_ok k b c -> shr_ok (j + k) a c.
Proof.
  intros Hj Hk [E1 H1] [E2 H2]. pose proof (Z.pow_pos_nonneg 2 j ltac:(lia) Hj). pose proof (Z.pow_pos_nonneg 2 k ltac:(lia) Hk).
  rewrite E1 in E2. unfold shr_ok. rewrite Z.pow_add_r by lia. split; [by rewrite E2, Z.div_div by lia|].
  intros Hm Hr Hs. rewrite Z.rem_mul_r in Hm by lia.
  pose proof (Z.mod_pos_bound (shr_m a) (2 ^ j) ltac:(lia)). pose proof (Z.mod_pos_bound (shr_m a / 2 ^ j) (2 ^ k) ltac:(lia)).
  destruct H1 as [? ?]; [nia|done..|]. apply H2; [|done..]. rewrite E1. nia.
Qed.

Lemma iter_shr_ok p : forall a, 0 <= shr_m a -> shr_ok (Zpos p) a (iter_pos shr_1 p a).
Proof.
  assert (forall k a b, 0 <= k -> shr_ok k a b -> 0 <= shr_m a -> 0 <= shr_m b) as Hp.
  { intros k a b Hk [E _] Ha. rewrite E. apply Z.div_pos; [done|]. by apply Z.pow_pos_nonneg. }
  induction p as [p IH|p IH|]; intros a Ha; cbn [iter_pos]; [..|by apply shr_1_ok].
  - pose proof (shr_1_ok a Ha) as H0. pose proof (Hp 1 _ _ ltac:(lia) H0 Ha) as A0.
    pose proof (IH _ A0) as H1. pose proof (Hp (Zpos p) _ _ ltac:(lia) H1 A0) as A1. pose proof (IH _ A1) as H2.
    rewrite Pos2Z.inj_xI. replace (2 * Zpos p + 1) with (1 + Zpos p + Zpos p) by lia.
    eapply shr_trans; [lia|lia| |exact H2]. eapply shr_trans; [lia|lia|exact H0|exact H1].
  - pose proof (IH _ Ha) as H1. pose proof (Hp (Zpos p) _ _ ltac:(lia) H1 Ha) as A1. pose proof (IH _ A1) as H2.
    rewrite Pos2Z.inj_xO. replace (2 * Zpos p) with (Zpos p + Zpos p) by lia. eapply shr_trans; [lia|lia|exact H1|exact H2].
Qed.

Lemma shr_spec a e n : 0 <= shr_m a -> 0 <= n -> exists b, shr a e n = (b, e + n) /\ shr_ok n a b.
Proof.
  intros Ha Hn. unfold shr. destruct n as [|p|p]; [|by eexists; split; [|apply iter_shr_ok]|lia].
  exists a. split; [f_equal; lia|]. split; [by rewrite Z.div_1_r|done].
Qed.

Lemma rne_spec q l : q <= round_nearest_even q l <= q + 1 /\ (l = loc_Exact -> round_nearest_even q l = q).
Proof. destruct l as [|[]]; cbn; [|destruct (Z.even q)|..]; (split; [lia|done]). Qed.

Lemma shr_of_loc m l : shr_m (shr_record_of_loc m l) = m /\
  (l = loc_Exact -> shr_r (shr_record_of_loc m l) = false /\ shr_s (shr_record_of_loc m l) = false).
Proof. destruct l as [|[]]; done. Qed.

(** a number that is not too large is rounded to one of its neighbours *)
Lemma round_aux_spec s m e l : let t := fexp dprec demax (Zpos (digits2_pos m) + e) in
  e <= t < 971 ->
  exists q, Zpos m / 2 ^ (t - e) <= q <= Zpos m / 2 ^ (t - e) + 1 /\
    (Zpos m mod 2 ^ (t - e) = 0 -> l = loc_Exact -> q = Zpos m / 2 ^ (t - e)) /\
    let r := binary_round_aux dprec demax s (Zpos m) e l in dfin r /\ dval r = cond_Zopp s (q * 2 ^ (t + dmin)).
Proof.
  intros t Ht. destruct (shr_of_loc (Zpos m) l) as [E0 X0]. set (a := shr_record_of_loc (Zpos m) l) in *.
  destruct (shr_spec a e (t - e)) as (b & Eb & [Hb Xb]); [by rewrite E0|lia|]. rewrite E0 in Hb, Xb.
  set (q0 := Zpos m / 2 ^ (t - e)) in *.
  destruct (rne_spec (shr_m b) (loc_of_shr_record b)) as [Hq Xq]. rewrite Hb in Hq, Xq. set (q := round_nearest_even _ _) in *.
  exists q. split; [done|]. split.
  { intros Hm Hl. destruct (X0 Hl) as [R S]. destruct (Xb Hm R S) as [R' S']. rewrite Xq; [done|].
    destruct b as [mb rb sb]. cbn in R', S'. by subst. }
  pose proof (digits_bounds m) as [D1 D2]. set (d := Zpos (digits2_pos m)) in *. unfold t in Ht. rewrite fexp_eq in Ht.
  assert (t = Z.max (d + e - 53) (- 1074)) as Et by (unfold t; by rewrite fexp_eq). rewrite <- Et in Ht.
  assert (0 <= q0 < 2 ^ 53) as Hq0.
  { split; [apply Z.div_pos; [lia|by apply Z.pow_pos_nonneg; lia]|]. apply Z.div_lt_upper_bound; [by apply Z.pow_pos_nonneg; lia|].
    rewrite <- Z.pow_add_r by lia. eapply Z.lt_le_trans; [exact D2|]. apply Z.pow_le_mono_r; lia. }
  assert (- 1074 < t -> 2 ^ 52 <= q0) as Hlow.
  { intros H. apply Z.div_le_lower_bound; [by apply Z.pow_pos_nonneg; lia|]. rewrite <- Z.pow_add_r by lia.
    eapply Z.le_trans; [|exact D1]. apply Z.pow_le_mono_r; lia. }
  unfold binary_round_aux, shr_fexp. cbn [Zdigits2]. fold d. fold t. fold a. rewrite Eb, Hb. replace (e + (t - e)) with t by lia. fold q.
  cbn [shr_record_of_loc]. rewrite fexp_eq.
  destruct (Z.eq_dec q (2 ^ 53)) as [Eq|Eq].
  - rewrite Eq. change (Zdigits2 (2 ^ 53)) with 54. replace (Z.max (54 + t - 53) (- 1074) - t) with 1 by lia.
    unfold shr. cbn [iter_pos]. change (shr_m (shr_1 _)) with (2 ^ 52). cbv iota beta zeta.
    change (demax - dprec) with 971. destruct (Z.leb_spec (t + 1) 971); [|lia]. change (2 ^ 52) with (Zpos (2 ^ 52)%positive).
    cbv iota. cbn [dfin dval]. split.
    + apply bounded_iff. change (Zpos (digits2_pos (2 ^ 52))) with 53. lia.
    + f_equal. unfold dmin. replace (t + 1 + 1074) with (1 + (t + 1074)) by lia. rewrite (Z.pow_add_r 2 1) by lia. lia.
  - assert (q < 2 ^ 53) as Hq2 by lia. assert (Zdigits2 q <= 53) as Hd.
    { destruct q as [|p|p] eqn:E; cbn [Zdigits2]; [lia| |lia]. apply digits_le; lia. }
    assert (shr {| shr_m := q; shr_r := false; shr_s := false |} t (Z.max (Zdigits2 q + t - 53) (- 1074) - t) =
      ({| shr_m := q; shr_r := false; shr_s := false |}, t)) as ->.
    { unfold shr. by destruct (Z.max (Zdigits2 q + t - 53) (- 1074) - t) eqn:E; [|lia|]. }
    cbn [shr_m]. change (demax - dprec) with 971. destruct q as [|p|p] eqn:E; [by destruct s| |lia].
    destruct (Z.leb_spec t 971); [|lia]. cbn [dfin dval]. split; [|done]. apply bounded_iff. split; [|lia]. cbn [Zdigits2] in Hd.
    destruct (Z.eq_dec t (- 1074)); [lia|]. rewrite (digits_unique p 53); [lia| |lia].
    change (53 - 1) with 52. split; [|done]. specialize (Hlow ltac:(lia)). lia.
Qed.

(** [r] is [x], in units, up to the relative error of a rounding *)
Definition near (r : double) (x : Z) : Prop := dfin r /\ Z.abs (dval r - x) * 2 ^ 52 <= Z.abs x.

Lemma iter_xO d m : Zpos (Pos.iter xO m d) = Zpos m * 2 ^ Zpos d.
Proof.
  induction d as [|d IH] using Pos.peano_ind; [cbn; lia|].
  rewrite Pos.iter_succ, Pos2Z.inj_xO, IH, Pos2Z.inj_succ, Z.pow_succ_r by lia. lia.
Qed.

Lemma digits_shift m d : Zpos (digits2_pos (Pos.iter xO m d)) = Zpos (digits2_pos m) + Zpos d.
Proof. rewrite !digits_log2, iter_xO, Z.log2_mul_pow2 by lia. lia. Qed.

(** a positive number of units, from a mantissa *)
Lemma round_near s m e : - dmin <= e -> Zpos (digits2_pos m) + e <= 1000 ->
  near (binary_round dprec demax s m e) (cond_Zopp s (Zpos m * 2 ^ (e + dmin))).
Proof.
  unfold dmin. intros He Hd. unfold binary_round. set (t := fexp dprec demax (Zpos (digits2_pos m) + e)).
  assert (t = Z.max (Zpos (digits2_pos m) + e - 53) (- 1074)) as Et by apply fexp_eq.
  assert (exists mz ez, shl_align m e t = (mz, ez) /\ ez <= t /\ - 1074 <= ez /\ Zpos (digits2_pos mz) + ez = Zpos (digits2_pos m) + e /\
    Zpos mz * 2 ^ (ez + 1074) = Zpos m * 2 ^ (e + 1074)) as (mz & ez & -> & Hz & Hez & Ed & <-).
  { unfold shl_align. destruct (t - e) as [|d|d] eqn:E; [exists m, e; split_and!; try done; lia|exists m, e; split_and!; try done; lia|].
    exists (Pos.iter xO m d), t. split; [done|]. split; [lia|]. split; [lia|]. rewrite digits_shift, iter_xO. split; [lia|].
    rewrite <- Z.mul_assoc, <- Z.pow_add_r by lia. do 2 f_equal. lia. }
  pose proof (round_aux_spec s mz ez loc_Exact) as H. rewrite Ed in H. fold t in H. cbn zeta in H.
  destruct H as (q & Hq & Hx & Hf & Hv); [lia|]. split; [done|]. rewrite Hv. unfold dmin.
  pose proof (digits_bounds mz) as [D1 _]. set (d := Zpos (digits2_pos mz)) in *.
  pose proof (Z.pow_pos_nonneg 2 (ez + 1074) ltac:(lia) ltac:(lia)) as Pz. pose proof (Z.pow_pos_nonneg 2 (t - ez) ltac:(lia) ltac:(lia)) as Pn.
  replace (t + 1074) with ((t - ez) + (ez + 1074)) by lia. rewrite Z.pow_add_r by lia.
  set (n := 2 ^ (t - ez)) in *. set (z := 2 ^ (ez + 1074)) in *.
  pose proof (Z.div_mod (Zpos mz) n ltac:(lia)) as Em. pose proof (Z.mod_pos_bound (Zpos mz) n ltac:(lia)) as Bm.
  assert (Z.abs (q * n - Zpos mz) * 2 ^ 52 <= Zpos mz) as Hr.
  { destruct (Z.eq_dec (Zpos mz mod n) 0) as [E0|E0].
    - rewrite (Hx E0 eq_refl). replace (Zpos mz / n * n - Zpos mz) with 0 by lia. cbn. lia.
    - assert (t = d + ez - 53) as Et2.
      { destruct (Z.eq_dec t (- 1074)) as [E|E]; [|lia]. exfalso. apply E0. subst n. replace (t - ez) with 0 by lia. apply Z.mod_1_r. }
      assert (n * 2 ^ 52 = 2 ^ (d - 1)) as En by (subst n; rewrite <- Z.pow_add_r by lia; f_equal; lia).
      assert (Z.abs (q * n - Zpos mz) <= n) by nia. nia. }
  destruct s; cbn [cond_Zopp]; [replace (- (q * (n * z)) - - (Zpos mz * z)) with (- (q * n - Zpos mz) * z) by ring
    |replace (q * (n * z) - Zpos mz * z) with ((q * n - Zpos mz) * z) by ring]; rewrite Z.abs_mul, ?Z.abs_opp, ?(Z.abs_eq z) by lia;
    rewrite (Z.abs_eq (_ * z)) by nia; nia.
Qed.

Lemma near_0 : near (S754_zero false) 0.
Proof. by split. Qed.

Lemma normalize_near m e : - dmin <= e -> Z.abs (m * 2 ^ (e + dmin)) < 2 ^ (1000 + dmin) ->
  near (binary_normalize dprec demax m e false) (m * 2 ^ (e + dmin)).
Proof.
  intros He Hm. assert (forall p, Zpos p * 2 ^ (e + dmin) < 2 ^ (1000 + dmin) -> Zpos (digits2_pos p) + e <= 1000) as Hd.
  { intros p Hp. pose proof (digits_bounds p) as [D _]. unfold dmin in *.
    destruct (Z.le_gt_cases (Zpos (digits2_pos p) + e) 1000); [done|]. exfalso. apply (Z.lt_irrefl (2 ^ (1000 + 1074))).
    eapply Z.le_lt_trans; [|exact Hp]. transitivity (2 ^ (Zpos (digits2_pos p) - 1) * 2 ^ (e + 1074)).
    - rewrite <- Z.pow_add_r by lia. apply Z.pow_le_mono_r; lia.
    - apply Z.mul_le_mono_nonneg_r; [apply Z.pow_nonneg; lia|done]. }
  pose proof (Z.pow_pos_nonneg 2 (e + dmin) ltac:(lia) ltac:(lia)).
  destruct m as [|p|p]; cbn [binary_normalize]; [apply near_0|..].
  - apply (round_near false); [done|]. apply Hd. lia.
  - pose proof (round_near true p e He) as Hr. cbn [cond_Zopp] in Hr. rewrite <- Z.mul_opp_l in Hr. apply Hr, Hd. lia.
Qed.

(** ** The operations *)

Lemma of_Z_near n : Z.abs n < 2 ^ 1000 -> near (d_of_Z n) (n * 2 ^ dmin).
Proof.
  intros Hn. unfold d_of_Z. apply (normalize_near n 0); [done|]. rewrite Z.abs_mul, (Z.pow_add_r 2 1000) by done.
  rewrite (Z.abs_eq (2 ^ (0 + dmin))) by (by apply Z.pow_nonneg). rewrite Z.add_0_l. apply Z.mul_lt_mono_pos_r; [by apply Z.pow_pos_nonneg|done].
Qed.

Lemma align_val m e e' : e' <= e -> - dmin <= e' ->
  Zpos (fst (shl_align m e e')) * 2 ^ (e' + dmin) = Zpos m * 2 ^ (e + dmin).
Proof.
  unfold dmin. intros He Hm. unfold shl_align. destruct (e' - e) as [|d|d] eqn:E; cbn [fst]; [do 2 f_equal; lia|lia|].
  rewrite iter_xO, <- Z.mul_assoc, <- Z.pow_add_r by lia. do 2 f_equal. lia.
Qed.

Lemma fin_exp s m e : dfin (S754_finite s m e) -> - dmin <= e <= 971 /\ Zpos (digits2_pos m) <= 53.
Proof. intros H%bounded_iff. unfold dmin. lia. Qed.

Lemma add_near x y : dfin x -> dfin y -> Z.abs (dval x + dval y) < 2 ^ (1000 + dmin) -> near (dadd x y) (dval x + dval y).
Proof.
  intros Hx Hy Hs. assert (forall z, dfin z -> near z (dval z)) as Hid.
  { intros z Hz. split; [done|]. rewrite Z.sub_diag. cbn. lia. }
  destruct x as [sx|sx| |sx mx ex]; try done; destruct y as [sy|sy| |sy my ey]; try done; cbn [dadd SFadd dval] in *.
  - unfold dadd. cbn. destruct sx, sy; apply near_0.
  - rewrite Z.add_0_l. apply (Hid (S754_finite sy my ey) Hy).
  - rewrite Z.add_0_r. apply (Hid (S754_finite sx mx ex) Hx).
  - unfold dadd, SFadd. pose proof (fin_exp _ _ _ Hx) as [Bx _]. pose proof (fin_exp _ _ _ Hy) as [By _]. set (ez := Z.min ex ey).
    assert (forall s m e, ez <= e -> - dmin <= ez ->
      cond_Zopp s (Zpos (fst (shl_align m e ez))) * 2 ^ (ez + dmin) = cond_Zopp s (Zpos m * 2 ^ (e + dmin))) as Ha.
    { intros s m e He Hz. pose proof (align_val m e ez He Hz). destruct s; cbn [cond_Zopp]; lia. }
    pose proof (Ha sx mx ex ltac:(lia) ltac:(lia)) as Ax. pose proof (Ha sy my ey ltac:(lia) ltac:(lia)) as Ay.
    rewrite <- Ax, <- Ay, <- Z.mul_add_distr_r in Hs |- *. apply normalize_near; [lia|done].
Qed.

(** the quotient of two numbers *)
Lemma div_core m1 e1 m2 e2 s : Zpos (digits2_pos m1) <= 53 ->
  let D := Zpos (digits2_pos m1) + e1 - (Zpos (digits2_pos m2) + e2) in - 1000 <= D <= 900 ->
  let '(q, e, l) := SFdiv_core_binary dprec demax (Zpos m1) e1 (Zpos m2) e2 in
  let r := binary_round_aux dprec demax s q e l in
  dfin r /\ exists k, dval r = cond_Zopp s (k * 2 ^ (D - 53 + dmin)) /\
    Z.abs (k * Zpos m2 - Zpos m1 * 2 ^ (e1 - e2 - (D - 53))) * 2 ^ 52 <= Zpos m1 * 2 ^ (e1 - e2 - (D - 53)).
Proof.
  intros Hd1 D HD. unfold SFdiv_core_binary. cbn [Zdigits2]. fold D. rewrite fexp_eq.
  pose proof (digits_bounds m1) as [A1 A2]. pose proof (digits_bounds m2) as [B1 B2].
  set (d1 := Zpos (digits2_pos m1)) in *. set (d2 := Zpos (digits2_pos m2)) in *. assert (0 < d1 /\ 0 < d2) as [P1 P2] by lia.
  replace (Z.min (Z.max (D - 53) (- 1074)) (e1 - e2)) with (D - 53) by lia.
  set (w := e1 - e2 - (D - 53)). assert (w = 53 - d1 + d2) as Ew by lia.
  assert (match w with Z0 => Zpos m1 | Zpos _ => Z.shiftl (Zpos m1) w | Zneg _ => 0 end = Zpos m1 * 2 ^ w) as ->.
  { destruct w as [|p|p] eqn:E; [lia| |lia]. rewrite Z.shiftl_mul_pow2; lia. }
  set (m := Zpos m1 * 2 ^ w). pose proof (Z.pow_pos_nonneg 2 w ltac:(lia) ltac:(lia)) as Pw.
  assert (2 ^ (52 + d2) <= m < 2 ^ (53 + d2)) as Hm.
  { subst m. split.
    - replace (52 + d2) with (d1 - 1 + w) by lia. rewrite Z.pow_add_r by lia. apply Z.mul_le_mono_nonneg_r; lia.
    - replace (53 + d2) with (d1 + w) by lia. rewrite Z.pow_add_r by lia. apply Z.mul_lt_mono_pos_r; lia. }
  destruct (Z.div_eucl m (Zpos m2)) as [q0 r0] eqn:Ee.
  assert (q0 = m / Zpos m2) as -> by (unfold Z.div; by rewrite Ee).
  pose proof (Z.div_mod m (Zpos m2) ltac:(lia)) as Em. pose proof (Z.mod_pos_bound m (Zpos m2) ltac:(lia)) as Bm.
  set (q := m / Zpos m2) in *.
  assert (2 ^ 52 <= q < 2 ^ 54) as Hq.
  { split; [apply Z.div_le_lower_bound; [lia|]|apply Z.div_lt_upper_bound; [lia|]].
    - rewrite Z.pow_add_r in Hm by lia. nia.
    - eapply Z.lt_le_trans; [apply Hm|]. replace (53 + d2) with (d2 - 1 + 54) by lia. rewrite Z.pow_add_r by lia.
      apply Z.mul_le_mono_nonneg_r; [done|lia]. }
  destruct q as [|p|p] eqn:Eq; [lia| |lia]. set (l := new_location _ _).
  pose proof (digits_bounds p) as [Q1 Q2]. set (dq := Zpos (digits2_pos p)) in *.
  assert (53 <= dq <= 54) as Hdq.
  { split; [|apply digits_le; lia]. assert (52 < dq); [apply (Z.pow_lt_mono_r_iff 2); lia|lia]. }
  pose proof (round_aux_spec s p (D - 53) l) as H. fold dq in H. cbn zeta in H. rewrite fexp_eq in H.
  replace (Z.max (dq + (D - 53) - 53) (- 1074)) with (dq + (D - 53) - 53) in H by lia.
  destruct H as (k & Hk & _ & Hf & Hv); [lia|]. split; [done|].
  replace (dq + (D - 53) - 53 - (D - 53)) with (dq - 53) in Hk by lia.
  exists (k * 2 ^ (dq - 53)). split.
  - rewrite Hv. f_equal. rewrite <- Z.mul_assoc, <- Z.pow_add_r by (unfold dmin; lia). do 2 f_equal. lia.
  - pose proof (Z.pow_pos_nonneg 2 (dq - 53) ltac:(lia) ltac:(lia)) as Pn.
    assert (2 ^ (dq - 53) * 2 ^ 52 = 2 ^ (dq - 1)) as En by (rewrite <- Z.pow_add_r by lia; f_equal; lia).
    set (n := 2 ^ (dq - 53)) in *. pose proof (Z.div_mod (Zpos p) n ltac:(lia)) as Ep. pose proof (Z.mod_pos_bound (Zpos p) n ltac:(lia)) as Bp.
    assert (Z.abs (k * n * Zpos m2 - m) <= n * Zpos m2) as Herr.
    { apply Z.abs_le. split; nia. }
    nia.
Qed.

Lemma ratio_exps m1 e1 m2 e2 : - dmin <= e1 -> - dmin <= e2 ->
  Zpos m1 * 2 ^ (e1 + dmin) < 2 ^ 800 * (Zpos m2 * 2 ^ (e2 + dmin)) ->
  Zpos (digits2_pos m1) + e1 - (Zpos (digits2_pos m2) + e2) <= 801.
Proof.
  unfold dmin. intros H1 H2 H. pose proof (digits_bounds m1) as [A _]. pose proof (digits_bounds m2) as [_ B].
  set (d1 := Zpos (digits2_pos m1)) in *. set (d2 := Zpos (digits2_pos m2)) in *. assert (0 < d1 /\ 0 < d2) as [P1 P2] by lia.
  assert (2 ^ (d1 - 1 + (e1 + 1074)) < 2 ^ (800 + (d2 + (e2 + 1074)))) as Hl; [|apply Z.pow_lt_mono_r_iff in Hl; lia].
  eapply Z.le_lt_trans; [|eapply Z.lt_le_trans; [exact H|]].
  - rewrite Z.pow_add_r by lia. apply Z.mul_le_mono_nonneg_r; [apply Z.pow_nonneg; lia|done].
  - rewrite (Z.pow_add_r 2 800), (Z.pow_add_r 2 d2) by lia. apply Z.mul_le_mono_nonneg_l; [apply Z.pow_nonneg; lia|].
    apply Z.mul_le_mono_nonneg_r; [apply Z.pow_nonneg; lia|lia].
Qed.

Lemma div_near x y : dfin x -> dfin y -> 0 < dval y -> Z.abs (dval x) < 2 ^ 800 * dval y -> dval y < 2 ^ 800 * Z.abs (dval x) ->
  dfin (ddiv x y) /\ Z.abs (dval (ddiv x y) * dval y - dval x * 2 ^ dmin) * 2 ^ 52 <= Z.abs (dval x) * 2 ^ dmin.
Proof.
  intros Hx Hy Hy0 Hlt Hgt. destruct y as [sy|sy| |sy my ey]; [cbn in Hy0; lia|done|done|].
  destruct (fin_exp _ _ _ Hy) as [Ey Dy]. pose proof (Z.pow_pos_nonneg 2 (ey + dmin) ltac:(lia) ltac:(lia)) as Py.
  destruct sy; cbn [dval cond_Zopp] in *; [lia|].
  destruct x as [sx|sx| |sx mx ex]; [cbn in Hgt; lia|done|done|]. cbn [dval] in *.
  destruct (fin_exp _ _ _ Hx) as [Ex Dx]. pose proof (Z.pow_pos_nonneg 2 (ex + dmin) ltac:(lia) ltac:(lia)) as Px.
  assert (Z.abs (cond_Zopp sx (Zpos mx * 2 ^ (ex + dmin))) = Zpos mx * 2 ^ (ex + dmin)) as Ea by (destruct sx; cbn; lia).
  rewrite Ea in *. pose proof (ratio_exps mx ex my ey ltac:(lia) ltac:(lia) Hlt) as R1.
  pose proof (ratio_exps my ey mx ex ltac:(lia) ltac:(lia) Hgt) as R2.
  unfold ddiv, SFdiv. pose proof (div_core mx ex my ey (xorb sx false) Dx) as H. cbv zeta in H.
  destruct (SFdiv_core_binary dprec demax (Zpos mx) ex (Zpos my) ey) as [[q e] l].
  set (D := Zpos (digits2_pos mx) + ex - (Zpos (digits2_pos my) + ey)) in *.
  destruct H as (Hf & k & Hv & Herr); [lia|]. split; [done|]. rewrite Hv, xorb_false_r. set (w := ex - ey - (D - 53)) in *.
  unfold dmin in *. set (P := 2 ^ (D - 53 + 1074)). set (Q := 2 ^ (ey + 1074)) in *. set (X := 2 ^ w) in *.
  assert (Zpos mx * 2 ^ (ex + 1074) * 2 ^ 1074 = Zpos mx * X * (P * Q)) as Ex2.
  { subst X P Q. rewrite <- !Z.mul_assoc, <- !Z.pow_add_r by lia. do 2 f_equal. lia. }
  assert (0 < P) as HP by (apply Z.pow_pos_nonneg; lia).
  assert (cond_Zopp sx (k * P) * (Zpos my * Q) - cond_Zopp sx (Zpos mx * 2 ^ (ex + 1074)) * 2 ^ 1074 =
    cond_Zopp sx (k * Zpos my - Zpos mx * X) * (P * Q)) as ->.
  { destruct sx; cbn [cond_Zopp]; rewrite ?Z.mul_opp_l, Ex2; ring. }
  rewrite Ex2, Z.abs_mul, (Z.abs_eq (P * Q)) by nia.
  assert (Z.abs (cond_Zopp sx (k * Zpos my - Zpos mx * X)) = Z.abs (k * Zpos my - Zpos mx * X)) as -> by (destruct sx; cbn; lia).
  nia.
Qed.

Lemma div_zero s y : dfin y -> 0 < dval y -> exists s', ddiv (S754_zero s) y = S754_zero s'.
Proof. intros Hy H. destruct y as [sy|sy| |sy my ey]; try done; eexists; reflexivity. Qed.

(** ** Loops

    At most [2 ^ k] turns of a loop; the result says if the condition is false at
    its end *)
Fixpoint while {S} (k : nat) (cond : S -> bool) (body : S -> outcome S) (s : S) : outcome (S * bool) :=
  match k with
  | O => if cond s then let* s := body s in Done (s, false) else Done (s, true)
  | Datatypes.S k =>
      let* (s, e) := while k cond body s in
      if e then Done (s, true) else while k cond body s
  end.
(** 2 ^ 64 turns *)
Definition while64 {S} (cond : S -> bool) (body : S -> outcome S) (s : S) : outcome S :=
  let* (s, e) := while 64 cond body s in
  if e then Done s else if cond s then Undef else Done s.

Section steps.
Context {X S : Type} (cond : X -> bool) (step : X -> X).

(** the values of the variable of a loop before and after each turn, its last
    value, and if the condition is false then *)
Fixpoint steps (k : nat) (x : X) : list (X * X) * X * bool :=
  match k with
  | O => if cond x then ([(x, step x)], step x, false) else ([], x, true)
  | Datatypes.S k =>
      let '(l1, x1, e1) := steps k x in
      if e1 then (l1, x1, true) else let '(l2, x2, e2) := steps k x1 in (l1 ++ l2, x2, e2)
  end.

(** the effect of the turns *)
Fixpoint run_steps (eff : X -> X -> S -> outcome S) (l : list (X * X)) (s : S) : outcome S :=
  match l with
  | [] => Done s
  | (x, x') :: l => let* s := eff x x' s in run_steps eff l s
  end.

Lemma run_steps_app eff l1 l2 s : run_steps eff (l1 ++ l2) s = (let* s := run_steps eff l1 s in run_steps eff l2 s).
Proof.
  revert s. induction l1 as [|[x x'] l1 IH]; intros s; [done|]. cbn. destruct (eff x x' s); cbn; [apply IH|done..].
Qed.

(** a loop whose variable does not depend on its effect *)
Lemma while_steps eff k x s :
  while k (fun p : X * S => cond p.1) (fun p => let* s := eff p.1 (step p.1) p.2 in Done (step p.1, s)) (x, s) =
  (let '(l, x', e) := steps k x in let* s := run_steps eff l s in Done ((x', s), e)).
Proof.
  revert x s. induction k as [|k IH]; intros x s; cbn [while steps fst snd].
  - destruct (cond x); [|done]. cbn. by destruct (eff x (step x) s).
  - rewrite IH. destruct (steps k x) as [[l1 x1] e1]. destruct (run_steps eff l1 s) as [s1| |] eqn:E1; cbn [obind].
    2,3: destruct e1; [by rewrite E1|]; destruct (steps k x1) as [[l2 x2] e2]; by rewrite run_steps_app, E1.
    destruct e1; [by rewrite E1|]. rewrite IH. destruct (steps k x1) as [[l2 x2] e2]. by rewrite run_steps_app, E1.
Qed.

(** the values chain, and satisfy the condition but for the last one *)
Fixpoint chain (x : X) (l : list (X * X)) (x' : X) : Prop :=
  match l with
  | [] => x = x'
  | (a, b) :: l => a = x /\ b = step x /\ cond x = true /\ chain b l x'
  end.

Lemma chain_app x l1 x1 l2 x2 : chain x l1 x1 -> chain x1 l2 x2 -> chain x (l1 ++ l2) x2.
Proof.
  revert x. induction l1 as [|[a b] l1 IH]; intros x; cbn; [by intros ->|]. intros (-> & -> & Hc & H1) H2. split_and!; auto.
Qed.

Lemma steps_chain k : forall x, let '(l, x', e) := steps k x in
  chain x l x' /\ (if e then cond x' = false else length l = (2 ^ k)%nat).
Proof.
  induction k as [|k IH]; intros x; cbn [steps].
  - destruct (cond x) eqn:E; cbn; [by split_and!|done].
  - pose proof (IH x) as H1. destruct (steps k x) as [[l1 x1] e1]. destruct H1 as [C1 L1]. destruct e1; [done|].
    pose proof (IH x1) as H2. destruct (steps k x1) as [[l2 x2] e2]. destruct H2 as [C2 L2].
    split; [by eapply chain_app|]. destruct e2; [done|]. rewrite length_app, L1, L2. cbn. lia.
Qed.

(** the loop ends when a measure decreases by [d] at each turn but the last *)
Context (I : X -> Prop) (m : X -> Z) (d : Z) (Hd : 0 < d).
Context (HI : forall x, I x -> cond x = true -> I (step x)).
Context (Hm : forall x, I x -> cond x = true -> 0 <= m x /\ (cond (step x) = false \/ m (step x) <= m x - d)).

Lemma chain_inv l : forall x x', chain x l x' -> I x -> I x' /\ Forall (fun p => I p.1 /\ I p.2 /\ cond p.1 = true) l.
Proof using HI.
  induction l as [|[a b] l IH]; intros x x'; cbn; [by intros ->|]. intros (-> & -> & Hc & H) Hx.
  destruct (IH _ _ H (HI _ Hx Hc)) as [H1 H2]. split; [done|]. constructor; [|done]. cbn. auto.
Qed.

Lemma chain_measure l : forall x x', chain x l x' -> I x -> l <> [] -> (zlen l - 1) * d <= m x.
Proof using HI Hm Hd.
  induction l as [|[a b] l IH]; intros x x'; [done|]. cbn. intros (-> & -> & Hc & H) Hx _. rewrite zlen_cons.
  destruct (Hm x Hx Hc) as [H0 [H1|H1]].
  - destruct l as [|[a' b'] l]; [change (@zlen (X * X) []) with 0; lia|]. cbn in H. destruct H as (_ & _ & H & _). congruence.
  - destruct l as [|p l]; [change (@zlen (X * X) []) with 0; lia|]. specialize (IH _ _ H (HI _ Hx Hc) ltac:(done)). rewrite zlen_cons in *. nia.
Qed.

Lemma steps_end k x : I x -> m x < (2 ^ Z.of_nat k - 1) * d -> exists l x', steps k x = (l, x', true) /\
  chain x l x' /\ cond x' = false /\ Forall (fun p => I p.1 /\ I p.2 /\ cond p.1 = true) l.
Proof using HI Hm Hd.
  intros Hx Hb. pose proof (steps_chain k x) as H. destruct (steps k x) as [[l x'] e]. destruct H as [Hc He].
  destruct (chain_inv l x x' Hc Hx) as [_ Hf]. destruct e; [by exists l, x'|].
  exfalso. assert (zlen l = 2 ^ Z.of_nat k) as Hl.
  { unfold zlen. rewrite He, Nat2Z.inj_pow. done. }
  pose proof (Z.pow_pos_nonneg 2 (Z.of_nat k) ltac:(lia) ltac:(lia)).
  assert (l <> []) as Hne by (intros ->; unfold zlen in Hl; cbn [length] in Hl; lia).
  pose proof (chain_measure l x x' Hc Hx Hne). rewrite Hl in *. lia.
Qed.
End steps.

Lemma while64_run {X S} (cond : X -> bool) (step : X -> X) (eff : X -> X -> S -> outcome S) x s l x' :
  steps cond step 64 x = (l, x', true) ->
  while64 (fun p : X * S => cond p.1) (fun p => let* s := eff p.1 (step p.1) p.2 in Done (step p.1, s)) (x, s) =
  (let* s := run_steps eff l s in Done (x', s)).
Proof.
  intros E. unfold while64. rewrite (while_steps cond step eff 64 x s), E. by destruct (run_steps eff l s).
Qed.

(** ** The bytes of a double *)

Definition sign_bit (s : bool) : Z := if s then 2 ^ 63 else 0.
Definition d_bits (x : double) : Z :=
  match x with
  | S754_zero s => sign_bit s
  | S754_infinity s => sign_bit s + 2047 * 2 ^ 52
  | S754_nan => 2047 * 2 ^ 52 + 2 ^ 51
  | S754_finite s m e =>
      sign_bit s + (if Zpos m <? 2 ^ 52 then Zpos m else (e + 1075) * 2 ^ 52 + (Zpos m - 2 ^ 52))
  end.

Definition d_of_bits (b : Z) : double :=
  let s := 2 ^ 63 <=? b in
  let b := b mod 2 ^ 63 in
  let e := b / 2 ^ 52 in
  let m := b mod 2 ^ 52 in
  if e =? 2047 then (if m =? 0 then S754_infinity s else S754_nan)
  else if e =? 0 then (if m =? 0 then S754_zero s else S754_finite s (Z.to_pos m) (-1074))
  else S754_finite s (Z.to_pos (m + 2 ^ 52)) (e - 1075).

Lemma sign_split s b : 0 <= b < 2 ^ 63 -> (2 ^ 63 <=? sign_bit s + b) = s /\ (sign_bit s + b) mod 2 ^ 63 = b.
Proof.
  intros Hb. unfold sign_bit. destruct s; split.
  - apply Z.leb_le. lia.
  - replace (2 ^ 63 + b) with (b + 1 * 2 ^ 63) by lia. rewrite Z_mod_plus_full. by apply Z.mod_small.
  - apply Z.leb_gt. lia.
  - by apply Z.mod_small.
Qed.

Lemma field_split e m : 0 <= m < 2 ^ 52 -> (e * 2 ^ 52 + m) / 2 ^ 52 = e /\ (e * 2 ^ 52 + m) mod 2 ^ 52 = m.
Proof.
  intros Hm. rewrite (Z.add_comm (e * 2 ^ 52)). rewrite Z.div_add, Z_mod_plus_full by done. split; [rewrite Z.div_small by done; lia|by apply Z.mod_small].
Qed.

(** the finite numbers and the infinities are what their bytes say *)
Lemma d_bits_round x : dfin x \/ (exists s, x = S754_infinity s) -> 0 <= d_bits x < 2 ^ 64 /\ d_of_bits (d_bits x) = x.
Proof.
  assert (forall s b, 0 <= b < 2 ^ 63 -> 0 <= sign_bit s + b < 2 ^ 64) as Hr by (intros []; cbn [sign_bit]; lia).
  intros Hx. destruct x as [s|s| |s m e].
  - destruct s; split; done.
  - destruct s; split; done.
  - destruct Hx as [[]|[s ?]]; done.
  - assert (dfin (S754_finite s m e)) as Hf by (destruct Hx as [?|[? ?]]; done). cbn [dfin] in Hf. apply bounded_iff in Hf as [Hc He].
    pose proof (digits_bounds m) as [B1 B2]. set (d := Zpos (digits2_pos m)) in *. cbn [d_bits].
    destruct (Z.ltb_spec (Zpos m) (2 ^ 52)) as [Hlt|Hge].
    + assert (e = - 1074) as ->.
      { destruct (Z.le_gt_cases d 52); [lia|]. exfalso. assert (2 ^ 52 <= 2 ^ (d - 1)) by (apply Z.pow_le_mono_r; lia). lia. }
      destruct (sign_split s (Zpos m) ltac:(lia)) as [E1 E2]. split; [apply Hr; lia|]. unfold d_of_bits. rewrite E1, E2.
      rewrite Z.div_small, Z.mod_small by lia. done.
    + assert (d = 53) as Hd.
      { assert (d <= 53) by lia. destruct (Z.le_gt_cases d 52); [|lia]. exfalso. assert (2 ^ d <= 2 ^ 52) by (apply Z.pow_le_mono_r; lia). lia. }
      rewrite Hd in *. change (53 - 1) with 52 in B1. assert (0 <= Zpos m - 2 ^ 52 < 2 ^ 52) as Hm by lia.
      assert (0 <= (e + 1075) * 2 ^ 52 + (Zpos m - 2 ^ 52) < 2 ^ 63) as Hb by lia.
      destruct (sign_split s _ Hb) as [E1 E2]. split; [by apply Hr|]. unfold d_of_bits. rewrite E1, E2.
      destruct (field_split (e + 1075) _ Hm) as [-> ->]. destruct (Z.eqb_spec (e + 1075) 2047), (Z.eqb_spec (e + 1075) 0); try lia.
      f_equal; [|lia]. by replace (Zpos m - 2 ^ 52 + 2 ^ 52) with (Zpos m) by lia.
Qed.
