(* ===== verification/Nids.v ===== *)
(** * Nids: src/filters/filterlib/c/dcnids, decoding radar products

    The programs nbspradgis and nbspradinfo read a radar product, its headers
    (dcnids_header.c, dcnids_misc.c) and its radials, which are converted to
    polygons (dcnids_decode_radials_af1f.c, dcnids_decode_digital_radials_16.c,
    dcnids_transform.c). The sine and the cosine, and libbz2, are parameters. A
    call of [log_err(1, ...)], which ends the program, is [None]. *)

From stdpp Require Import gmap.
From S2P Require Import Prelude Util CLib Mfile Nreadn Double.

Definition CTRLHDR_WMO_SIZE : Z := 21.
Definition WMO_AWIPS_SIZE : Z := 6.
Definition WMOAWIPS_HEADER_SIZE : Z := 30.
Definition GMPK_HEADER_SIZE : Z := 11.
Definition NIDS_HEADER_SIZE : Z := 120.

(** ** Numbers (dcnids_extract.c)

    [b] is an index in the buffer [d]; the identifiers of the halfwords start
    at 1 *)

Definition extract_uint8 (d : list Z) (b halfwordid : Z) : outcome Z := rd d (b + (halfwordid - 1) * 2).

Definition extract_uint16 (d : list Z) (b halfwordid : Z) : outcome Z :=
  let b := b + (halfwordid - 1) * 2 in
  let* b0 := rd d b in
  let* b1 := rd d (b + 1) in
  Done (u16 (Z.shiftl b0 8 + b1)).

Definition extract_uint32 (d : list Z) (b halfwordid : Z) : outcome Z :=
  let b := b + (halfwordid - 1) * 2 in
  let* b0 := rd d b in
  let* b1 := rd d (b + 1) in
  let* b2 := rd d (b + 2) in
  let* b3 := rd d (b + 3) in
  Done (u32 (Z.shiftl b0 24 + Z.shiftl b1 16 + Z.shiftl b2 8 + b3)).

(** the conversion to [int16_t] *)
Definition s16 (z : Z) : Z := (z + 2 ^ 15) mod 2 ^ 16 - 2 ^ 15.
Definition extract_int16 (d : list Z) (b halfwordid : Z) : outcome Z :=
  let* r := extract_uint16 d b halfwordid in Done (s16 r).
Definition extract_int32 (d : list Z) (b halfwordid : Z) : outcome Z :=
  let* r := extract_uint32 d b halfwordid in Done (s32 r).

(** ** Geometry (dcnids_transform.c) *)

Class Libm := {
  d_sin : double -> double;
  d_cos : double -> double
}.

Definition KM_PER_DEG : double := d_lit 111111 3.
Definition RAD_PER_DEG : double := d_lit 174 4.
Definition DEG_PER_RAD : double := d_lit 572173 4.

(** the four corners, from the lower left one, as [lon] and [lat] *)
Record dcnids_polygon_st := Polygon {
  pg_lon : list double;
  pg_lat : list double;
  pg_code : Z;
  pg_level : Z
}.

Record dcnids_polygon_map_st := PolygonMap {
  polygons : list dcnids_polygon_st;
  numpolygons : Z;
  lon_min : double;
  lat_min : double;
  lon_max : double;
  lat_max : double;
  level_min : Z;
  level_max : Z;
  flag_usefilter : Z
}.
Definition set_polygons v n (m : dcnids_polygon_map_st) :=
  PolygonMap v n (lon_min m) (lat_min m) (lon_max m) (lat_max m) (level_min m) (level_max m) (flag_usefilter m).
Definition set_filter f lo hi (m : dcnids_polygon_map_st) :=
  PolygonMap (polygons m) (numpolygons m) (lon_min m) (lat_min m) (lon_max m) (lat_max m) lo hi f.
Definition set_box a b c d (m : dcnids_polygon_map_st) :=
  PolygonMap (polygons m) (numpolygons m) a b c d (level_min m) (level_max m) (flag_usefilter m).

Section geometry.
Context {LM : Libm}.

Definition dcnids_sine_cosine (theta_deg : double) : double * double :=
  let theta := dmul theta_deg RAD_PER_DEG in (d_sin theta, d_cos theta).

Definition dcnids_xytolatlon (lon0 lat0 x y : double) : double * double :=
  let dlat := ddiv y KM_PER_DEG in
  let lat := dadd lat0 dlat in
  let avg_lat := dmul (dadd lat0 (ddiv dlat (d_of_Z 2))) RAD_PER_DEG in
  let dlon := ddiv x (dmul KM_PER_DEG (d_cos avg_lat)) in
  (dadd lon0 dlon, lat).

(** the sines and cosines are pairs *)
Definition dcnids_define_polygon (lon0 lat0 r1 r2 : double) (sc1 sc2 : double * double) (code level : Z) : dcnids_polygon_st :=
  let corner r (sc : double * double) := dcnids_xytolatlon lon0 lat0 (dmul r sc.1) (dmul r sc.2) in
  let ps := [corner r1 sc1; corner r2 sc1; corner r2 sc2; corner r1 sc2] in
  Polygon ps.*1 ps.*2 code level.
End geometry.

(** the smallest and the largest coordinate: the initial value of [lat_max] is
    the one that the memory holds *)
Definition bb_point (b : double * double * double * double) (p : double * double) : double * double * double * double :=
  let '(x0, y0, x1, y1) := b in
  let (lon, lat) := (p : double * double) in
  (if dlt lon x0 then lon else x0, if dlt lat y0 then lat else y0,
   if dlt x1 lon then lon else x1, if dlt y1 lat then lat else y1).
Definition dcnids_polygonmap_bb (pm : dcnids_polygon_map_st) : dcnids_polygon_map_st :=
  let start := (d_of_Z 180, d_of_Z 180, d_of_Z (-180), lat_max pm) in
  let '(x0, y0, x1, y1) :=
    fold_left (fun b p => fold_left bb_point (zip (pg_lon p) (pg_lat p)) b) (ztake (numpolygons pm) (polygons pm)) start in
  set_box x0 y0 x1 y1 pm.

(** ** Levels *)

Definition NIDS_PDB_MODE_MAINTENANCE : Z := 0.
Definition NIDS_PDB_MODE_CLEAR : Z := 1.
Definition NIDS_PDB_MODE_PRECIPITATION : Z := 2.
Definition NIDS_PDB_CODE_NXR : Z := 19.
Definition NIDS_PDB_CODE_N0Z : Z := 20.
Definition NIDS_PDB_CODE_NXQ : Z := 94.
Definition NIDS_PDB_CODE_NXV : Z := 27.
Definition NIDS_PDB_CODE_NXU : Z := 99.
Definition NIDS_PDB_CODE_NXP : Z := 78.
Definition NIDS_PDB_CODE_NTP : Z := 80.
Definition NIDS_PDB_CODE_NXS : Z := 56.
Definition NIDS_RVEL_LEVEL_ND_MIN : Z := -65.
Definition NIDS_RVEL_LEVEL_ND_MAX : Z := 65.
Definition NIDS_SRVEL_LEVEL_ND_MIN : Z := -65.
Definition NIDS_SRVEL_LEVEL_ND_MAX : Z := 65.

(** [None]: the program ends *)
Definition nids_decode_bref_codetolevel (pdb_mode run_code : Z) : option Z :=
  if pdb_mode =? NIDS_PDB_MODE_PRECIPITATION then Some (run_code * 5)
  else if pdb_mode =? NIDS_PDB_MODE_CLEAR then Some (run_code * 4 - 32)
  else None.

Definition nids_decode_rvel_codetolevel (run_code : Z) : option Z :=
  match run_code with
  | 0 => Some NIDS_RVEL_LEVEL_ND_MIN
  | 1 => Some (-64) | 2 => Some (-50) | 3 => Some (-36) | 4 => Some (-26) | 5 => Some (-20) | 6 => Some (-10) | 7 => Some (-1)
  | 8 => Some 0 | 9 => Some 10 | 10 => Some 20 | 11 => Some 26 | 12 => Some 36 | 13 => Some 50 | 14 => Some 64
  | 15 => Some NIDS_RVEL_LEVEL_ND_MAX
  | _ => None
  end.

(** hundredths of an inch *)
Definition nids_decode_nxp_codetolevel (run_code : Z) : option Z :=
  match run_code with
  | 0 => Some 0 | 1 => Some 5 | 2 => Some 10 | 3 => Some 25 | 4 => Some 50 | 5 => Some 75 | 6 => Some 100 | 7 => Some 125
  | 8 => Some 150 | 9 => Some 175 | 10 => Some 200 | 11 => Some 250 | 12 => Some 300 | 13 => Some 400 | 14 => Some 600 | 15 => Some 800
  | _ => None
  end.

Definition nids_decode_srvel_codetolevel (run_code : Z) : option Z :=
  match run_code with
  | 0 => Some NIDS_SRVEL_LEVEL_ND_MIN
  | 1 => Some (-50) | 2 => Some (-40) | 3 => Some (-30) | 4 => Some (-22) | 5 => Some (-10) | 6 => Some (-5) | 7 => Some (-1)
  | 8 => Some 0 | 9 => Some 5 | 10 => Some 10 | 11 => Some 22 | 12 => Some 30 | 13 => Some 40 | 14 => Some 50
  | 15 => Some NIDS_SRVEL_LEVEL_ND_MAX
  | _ => None
  end.

Definition af1f_level (pdb_code pdb_mode run_code : Z) : option Z :=
  if (pdb_code =? NIDS_PDB_CODE_NXR) || (pdb_code =? NIDS_PDB_CODE_N0Z) then nids_decode_bref_codetolevel pdb_mode run_code
  else if pdb_code =? NIDS_PDB_CODE_NXV then nids_decode_rvel_codetolevel run_code
  else if (pdb_code =? NIDS_PDB_CODE_NXP) || (pdb_code =? NIDS_PDB_CODE_NTP) then nids_decode_nxp_codetolevel run_code
  else if pdb_code =? NIDS_PDB_CODE_NXS then nids_decode_srvel_codetolevel run_code
  else None.

(** the digital products *)
Definition digital_bref_codetolevel (pdb_mode run_code : Z) : option Z :=
  if (pdb_mode =? NIDS_PDB_MODE_PRECIPITATION) || (pdb_mode =? NIDS_PDB_MODE_CLEAR) then Some (Z.quot run_code 2 - 32) else None.
Definition digital_rvel_codetolevel (run_code : Z) : outcome Z :=
  let run_code := run_code - 1 in d_trunc (dsub (dmul (d_lit 5 1) (d_of_Z run_code)) (d_lit 635 1)).
Definition digital_level (pdb_code pdb_mode run_code : Z) : outcome (option Z) :=
  if pdb_code =? NIDS_PDB_CODE_NXQ then Done (digital_bref_codetolevel pdb_mode run_code)
  else if pdb_code =? NIDS_PDB_CODE_NXU then let* l := digital_rvel_codetolevel run_code in Done (Some l)
  else Done None.

(** ** Radials *)

Definition NIDS_PACKET_RADIALS_START_RUNS : Z := 30.

Record nids_radial_packet_st := RadialPacket {
  num_rle_halfwords : Z;         (* num_bytes in the digital products *)
  angle_start_deg : double;
  angle_delta_deg : double
}.

(** what the decoding of the radials uses of the headers *)
Record nids_radials := Radials {
  rad_lon : double;
  rad_lat : double;
  rad_pdb_code : Z;
  rad_pdb_mode : Z;
  rad_scale : Z;
  rad_numradials : Z
}.

Definition read_radial (d : list Z) (b : Z) : outcome nids_radial_packet_st :=
  let* num := extract_uint16 d b 1 in
  let* start := extract_int16 d b 2 in
  let* delta := extract_uint16 d b 3 in
  Done (RadialPacket num (ddiv (d_of_Z start) (d_of_Z 10)) (ddiv (d_of_Z delta) (d_of_Z 10))).

(** [++n] of an [int] *)
Definition incr (n : Z) : outcome Z := if n + 1 <? 2 ^ 31 then Done (n + 1) else Undef.

(** the radius of [total] bins, in km *)
Definition bins_radius (scale total : Z) : outcome double :=
  if total * scale <? 2 ^ 31 then Done (ddiv (d_of_Z (total * scale)) (d_of_Z 1000)) else Undef.

Definition dtheta_at (delta r : double) : double :=
  let dtheta := ddiv DEG_PER_RAD r in if dlt delta dtheta then delta else dtheta.

Definition theta_next (theta2 dtheta theta : double) : double :=
  let theta := dadd theta dtheta in if dlt theta2 theta then theta2 else theta.
Definition radius_next (r : double) : double := dadd r (d_of_Z 1).

(** the loop over the angles of an arc *)
Definition count_thetas (theta1 theta2 dtheta : double) (n : Z) : outcome Z :=
  let* p := while64 (fun p : double * Z => dlt p.1 theta2)
    (fun p => let* n := incr p.2 in Done (theta_next theta2 dtheta p.1, n)) (theta1, n) in
  Done p.2.

(** a byte of a radial, with [total] bins before it; the number of polygons *)
Definition count_run (scale : Z) (rp : nids_radial_packet_st) (byte total n : Z) : outcome (Z * Z) :=
  let run_bins := Z.shiftr byte 4 in
  if run_bins =? 0 then Done (total, n) else
  let* r1 := bins_radius scale total in
  let total := total + run_bins in
  let* r2 := bins_radius scale total in
  let theta1 := angle_start_deg rp in
  let theta2 := dadd (angle_start_deg rp) (angle_delta_deg rp) in
  let* p := while64 (fun p : double * Z => dlt p.1 r2)
    (fun p => let* n := count_thetas theta1 theta2 (dtheta_at (angle_delta_deg rp) (radius_next p.1)) p.2 in
       Done (radius_next p.1, n)) (r1, n) in
  Done (total, p.2).

(** the byte of a digital radial *)
Definition count_bin (scale : Z) (rp : nids_radial_packet_st) (byte total n : Z) : outcome (Z * Z) :=
  let total := total + 1 in
  let* r2 := bins_radius scale total in
  if byte <? 2 then Done (total, n) else
  let theta1 := angle_start_deg rp in
  let theta2 := dadd (angle_start_deg rp) (angle_delta_deg rp) in
  let* n := count_thetas theta1 theta2 (dtheta_at (angle_delta_deg rp) r2) n in
  Done (total, n).

(** the bytes of a radial and the radials, with what is done of each byte: [S]
    is what is kept, [None] the end of the program *)
Section walk.
Context {S : Type} (f : nids_radial_packet_st -> Z -> Z -> S -> outcome (option (Z * S))).

Fixpoint walk_bytes (rp : nids_radial_packet_st) (d : list Z) (n : nat) (b total : Z) (s : S) : outcome (option (Z * S)) :=
  match n with
  | O => Done (Some (b, s))
  | Datatypes.S n =>
      let* byte := rd d b in
      let* r := f rp byte total s in
      match r with None => Done None | Some (total, s) => walk_bytes rp d n (b + 1) total s end
  end.

Fixpoint walk_radials (per : Z) (d : list Z) (n : nat) (b : Z) (s : S) : outcome (option S) :=
  match n with
  | O => Done (Some s)
  | Datatypes.S n =>
      let* rp := read_radial d b in
      let* r := walk_bytes rp d (Z.to_nat (num_rle_halfwords rp * per)) (b + 6) 0 s in
      match r with None => Done None | Some (b, s) => walk_radials per d n b s end
  end.
End walk.

Definition never {A} (m : outcome A) : outcome (option A) := let* x := m in Done (Some x).

Definition nids_count_polygons_radials_af1f (d : list Z) (h : nids_radials) : outcome (option Z) :=
  walk_radials (fun rp byte total n => never (count_run (rad_scale h) rp byte total n)) 2 d (Z.to_nat (rad_numradials h))
    NIDS_PACKET_RADIALS_START_RUNS 0.
Definition nids_count_polygons_radials_16 (d : list Z) (h : nids_radials) : outcome (option Z) :=
  walk_radials (fun rp byte total n => never (count_bin (rad_scale h) rp byte total n)) 1 d (Z.to_nat (rad_numradials h))
    NIDS_PACKET_RADIALS_START_RUNS 0.

Section decode.
Context {LM : Libm} {Hp : Heap}.

(** the polygon is written at the end of those in the array of [alloc] *)
Definition put_polygon (alloc : Z) (p : dcnids_polygon_st) (ps : list dcnids_polygon_st) : outcome (list dcnids_polygon_st) :=
  if zlen ps <? alloc then Done (ps ++ [p]) else Undef.

(** the polygons of an arc between [ra] and [rb] *)
Definition draw_thetas (alloc : Z) (h : nids_radials) (theta1 theta2 dtheta ra rb : double) (code level : Z)
    (ps : list dcnids_polygon_st) : outcome (list dcnids_polygon_st) :=
  let* p := while64 (fun p : double * ((double * double) * list dcnids_polygon_st) => dlt p.1 theta2)
    (fun p =>
       let* s :=
         let (sc1, ps) := p.2 in
         let sc2 := dcnids_sine_cosine (theta_next theta2 dtheta p.1) in
         let* ps := put_polygon alloc (dcnids_define_polygon (rad_lon h) (rad_lat h) ra rb sc1 sc2 code level) ps in
         Done (sc2, ps) in
       Done (theta_next theta2 dtheta p.1, s)) (theta1, (dcnids_sine_cosine theta1, ps)) in
  Done p.2.2.

Definition filtered (pm : dcnids_polygon_map_st) (level : Z) : bool :=
  (flag_usefilter pm =? 1) && ((level <? level_min pm) || (level_max pm <? level)).

Definition draw_run (alloc : Z) (h : nids_radials) (pm : dcnids_polygon_map_st) (rp : nids_radial_packet_st) (byte total : Z)
    (ps : list dcnids_polygon_st) : outcome (option (Z * list dcnids_polygon_st)) :=
  let run_code := Z.land byte 15 in
  let run_bins := Z.shiftr byte 4 in
  if run_bins =? 0 then Done (Some (total, ps)) else
  let* r1 := bins_radius (rad_scale h) total in
  let total := total + run_bins in
  let* r2 := bins_radius (rad_scale h) total in
  match af1f_level (rad_pdb_code h) (rad_pdb_mode h) run_code with
  | None => Done None
  | Some run_level =>
      if filtered pm run_level then Done (Some (total, ps)) else
      let theta1 := angle_start_deg rp in
      let theta2 := dadd (angle_start_deg rp) (angle_delta_deg rp) in
      let* p := while64 (fun p : double * list dcnids_polygon_st => dlt p.1 r2)
        (fun p =>
           let* ps := draw_thetas alloc h theta1 theta2 (dtheta_at (angle_delta_deg rp) (radius_next p.1))
             (dsub (radius_next p.1) (d_of_Z 1)) (radius_next p.1) run_code run_level p.2 in
           Done (radius_next p.1, ps)) (r1, ps) in
      Done (Some (total, p.2))
  end.

Definition draw_bin (alloc : Z) (h : nids_radials) (pm : dcnids_polygon_map_st) (rp : nids_radial_packet_st) (byte total : Z)
    (ps : list dcnids_polygon_st) : outcome (option (Z * list dcnids_polygon_st)) :=
  let* r1 := bins_radius (rad_scale h) total in
  let total := total + 1 in
  let* r2 := bins_radius (rad_scale h) total in
  if byte <? 2 then Done (Some (total, ps)) else
  let* level := digital_level (rad_pdb_code h) (rad_pdb_mode h) byte in
  match level with
  | None => Done None
  | Some run_level =>
      if filtered pm run_level then Done (Some (total, ps)) else
      let theta1 := angle_start_deg rp in
      let theta2 := dadd (angle_start_deg rp) (angle_delta_deg rp) in
      let* ps := draw_thetas alloc h theta1 theta2 (dtheta_at (angle_delta_deg rp) r2) r1 r2 byte run_level ps in
      Done (Some (total, ps))
  end.

(** the polygons are counted, their array allocated and filled, and their box
    computed *)
Definition decode_radials (count : outcome (option Z))
    (draw : Z -> nids_radial_packet_st -> Z -> Z -> list dcnids_polygon_st -> outcome (option (Z * list dcnids_polygon_st)))
    (per : Z) (d : list Z) (h : nids_radials) (pm : dcnids_polygon_map_st) : outcome (option dcnids_polygon_map_st) :=
  let* n := count in
  match n with
  | None => Done None
  | Some n =>
      if negb (malloc_ok (72 * n)) then Done None else
      let* ps := walk_radials (draw n) per d (Z.to_nat (rad_numradials h)) NIDS_PACKET_RADIALS_START_RUNS [] in
      match ps with
      | None => Done None
      | Some ps =>
          c_assert (zlen ps <=? n) (Done (Some (dcnids_polygonmap_bb (set_polygons ps (zlen ps) pm))))
      end
  end.
Definition nids_decode_radials_af1f (d : list Z) (h : nids_radials) (pm : dcnids_polygon_map_st) :=
  decode_radials (nids_count_polygons_radials_af1f d h) (fun n => draw_run n h pm) 2 d h pm.
Definition nids_decode_digital_radials_16 (d : list Z) (h : nids_radials) (pm : dcnids_polygon_map_st) :=
  decode_radials (nids_count_polygons_radials_16 d h) (fun n => draw_bin n h pm) 1 d h pm.
End decode.

(** ** The headers *)

Record nids_header_st := NidsHeader {
  hd_buffer : list Z;
  awipsid : list Z;
  m_code : Z;
  m_days : Z;
  m_seconds : Z;
  m_msglength : Z;
  m_source : Z;
  m_destination : Z;
  m_numblocks : Z;
  pdb_divider : Z;
  pdb_lat : Z;
  pdb_lon : Z;
  pdb_height : Z;
  pdb_code : Z;
  pdb_mode : Z;
  pdb_version : Z;
  pdb_symbol_block_offset : Z;
  pdb_graphic_block_offset : Z;
  pdb_tabular_block_offset : Z;
  hd_lat : double;
  hd_lon : double;
  unixseconds : Z;
  hd_time : Z * Z * Z * Z * Z * Z      (* year, month, day, hour, min, sec *)
}.

(** [gmtime_r]: the date of a number of seconds, in the proleptic Gregorian
    calendar *)
Definition civil_from_days (days : Z) : Z * Z * Z :=
  let z := days + 719468 in
  let era := z / 146097 in
  let doe := z mod 146097 in
  let yoe := (doe - doe / 1460 + doe / 36524 - doe / 146096) / 365 in
  let doy := doe - (365 * yoe + yoe / 4 - yoe / 100) in
  let mp := (5 * doy + 2) / 153 in
  let d := doy - (153 * mp + 2) / 5 + 1 in
  let m := if mp <? 10 then mp + 3 else mp - 9 in
  (yoe + era * 400 + (if m <=? 2 then 1 else 0), m, d).
Definition gmtime (s : Z) : Z * Z * Z * Z * Z * Z :=
  let '(y, m, d) := civil_from_days (s / 86400) in
  let r := s mod 86400 in
  (y, m, d, r / 3600, r mod 3600 / 60, r mod 60).

(** the product of [int]s *)
Definition imul (a b : Z) : outcome Z := if (- 2 ^ 31 <=? a * b) && (a * b <? 2 ^ 31) then Done (a * b) else Undef.

Definition nids_verify_pdb_header (divider : Z) : Z := if negb (divider =? -1) then 1 else 0.

Definition dcnids_decode_header (buffer : list Z) : outcome (Z * nids_header_st) :=
  let* awips := rdn buffer CTRLHDR_WMO_SIZE WMO_AWIPS_SIZE in
  let b := WMOAWIPS_HEADER_SIZE in
  let* code := extract_uint16 buffer b 1 in
  let* days := extract_uint16 buffer b 2 in
  let days := days - 1 in
  let* seconds := extract_uint32 buffer b 3 in
  let* msglength := extract_uint32 buffer b 5 in
  let* source := extract_uint16 buffer b 7 in
  let* destination := extract_uint16 buffer b 8 in
  let* numblocks := extract_uint16 buffer b 9 in
  let* divider := extract_int16 buffer b 10 in
  let* lat := extract_int32 buffer b 11 in
  let* lon := extract_int32 buffer b 13 in
  let* height := extract_uint16 buffer b 15 in
  let* pcode := extract_uint16 buffer b 16 in
  let* mode := extract_uint16 buffer b 17 in
  let* version := extract_uint8 buffer b 54 in
  let* symbol := extract_uint32 buffer b 55 in
  let* graphic := extract_uint32 buffer b 57 in
  let* tabular := extract_uint32 buffer b 59 in
  let* hours := imul days 24 in
  let* daysecs := imul hours 3600 in
  let unix := u32 (daysecs + seconds) in
  Done (nids_verify_pdb_header divider,
    NidsHeader buffer (map tolower awips) code days seconds msglength source destination numblocks divider lat lon height pcode mode
      version (u32 (symbol * 2)) (u32 (graphic * 2)) (u32 (tabular * 2)) (ddiv (d_of_Z lat) (d_of_Z 1000))
      (ddiv (d_of_Z lon) (d_of_Z 1000)) unix (gmtime unix)).

(** printable characters, for a [char] *)
Definition isprint (c : Z) : bool := (32 <=? c) && (c <? 127).

Definition check_line (d : list Z) (b n : Z) : outcome bool :=
  let* text := rdn d b n in
  if negb (forallb isprint text) then Done false else
  let* eol := rdn d (b + n) 3 in Done (bool_decide (eol = [13; 13; 10])).
Definition dcnids_verify_wmo_header (d : list Z) : outcome Z :=
  let* ok := check_line d 0 (CTRLHDR_WMO_SIZE - 3) in Done (if ok then 0 else 1).
Definition dcnids_verify_awips_header (d : list Z) : outcome Z :=
  let* ok := check_line d CTRLHDR_WMO_SIZE WMO_AWIPS_SIZE in Done (if ok then 0 else 1).
Definition dcnids_verify_wmoawips_header (d : list Z) : outcome Z :=
  let* s := dcnids_verify_wmo_header d in
  if negb (s =? 0) then Done 1 else
  let* s := dcnids_verify_awips_header d in
  Done (if s =? 0 then 0 else 1).

(** ** Reading the file (misc.c, io.c)

    Each turn reads something, or stops *)

Fixpoint read_skip_loop (fuel : nat) (fd : fd_st) (nleft buffer_size : Z) : Z * fd_st :=
  if nleft <=? 0 then (0, fd) else
  match fuel with
  | O => (1, fd)
  | S fuel =>
      let ntry := if buffer_size <? nleft then buffer_size else nleft in
      let '(n, _, fd) := sys_read fd ntry in
      if n =? -1 then (-1, fd) else if negb (n =? ntry) then (1, fd) else read_skip_loop fuel fd (nleft - n) buffer_size
  end.
(** [count] is converted to a [size_t] *)
Definition read_skip_count (fd : fd_st) (count buffer_size : Z) : Z * fd_st :=
  read_skip_loop (S (length (stream fd))) fd (u64 count) buffer_size.

Definition dcnids_read_header (fd : fd_st) (skipcount : Z) : outcome (Z * list Z * fd_st) :=
  let buffer := replicate (Z.to_nat (WMOAWIPS_HEADER_SIZE + NIDS_HEADER_SIZE)) 0 in
  let b_size := WMOAWIPS_HEADER_SIZE + NIDS_HEADER_SIZE in
  let '(status, fd) := if negb (skipcount =? 0) then read_skip_count fd skipcount 4096 else (0, fd) in
  if negb (status =? 0) then Done (status, buffer, fd) else
  let '(n, d, fd) := sys_read fd 1 in
  if negb (n =? 1) then Done (-1, buffer, fd) else
  let* buffer := wr buffer 0 d in
  let* c := rd buffer 0 in
  let '(status, b, b_size, fd) :=
    if negb (isalnum c) then
      let (status, fd) := read_skip_count fd (GMPK_HEADER_SIZE - 1) 4096 in (status, 0, b_size, fd)
    else (0, 1, b_size - 1, fd) in
  if negb (status =? 0) then Done (status, buffer, fd) else
  let '(n, d, fd) := sys_read fd b_size in
  if n =? -1 then Done (-1, buffer, fd) else
  let* buffer := wr buffer b d in
  Done (if n <? b_size then 1 else 0, buffer, fd).

Fixpoint readf_loop (fuel : nat) (fd : fd_st) (buf : list Z) (p nleft : Z) : outcome (Z * list Z * fd_st) :=
  if nleft <=? 0 then Done (p, buf, fd) else
  match fuel with
  | O => Undef
  | S fuel =>
      let '(nread, d, fd) := sys_read fd nleft in
      if nread =? -1 then Done (-1, buf, fd) else if nread =? 0 then Done (p, buf, fd) else
      let* buf := wr buf p d in
      readf_loop fuel fd buf (p + nread) (nleft - nread)
  end.
Definition readf (fd : fd_st) (buf : list Z) (nbytes : Z) : outcome (Z * list Z * fd_st) :=
  readf_loop (S (length (stream fd))) fd buf 0 nbytes.

(** ** The data *)

(** [BZ2_bzBuffToBuffDecompress], for an output buffer of a size *)
Inductive bz_result :=
| BzOk (out : list Z)
| BzFull
| BzErr (e : Z).
Class Bzlib := { bz_decompress : list Z -> Z -> bz_result }.

Definition DCNIDS_BUNZ_BUFFER_SIZE : Z := 262144.

Section data.
Context {LM : Libm} {Hp : Heap} {BZ : Bzlib}.

(** the size of the output is doubled until the data fit in it: the status and
    the data; [None]: the loop has not ended after its turns. The storage of the
    data is the output only, not the rest of the buffer: a read beyond the data
    is [Undef] also where the buffer goes on. *)
Fixpoint bunz_loop (fuel : nat) (data : list Z) (size : Z) : option (Z * list Z) :=
  match fuel with
  | O => None
  | S fuel =>
      if negb (malloc_ok size) then Some (-1, data) else
      match bz_decompress data size with
      | BzOk out => Some (0, out)
      | BzFull => bunz_loop fuel data (u32 (size * 2))
      | BzErr _ => Some (1, data)
      end
  end.
Definition dcnids_bunz (fuel : nat) (data : list Z) : option (Z * list Z) := bunz_loop fuel data DCNIDS_BUNZ_BUFFER_SIZE.

(** the levels that are kept, by default and as the user says *)
Definition NIDS_BREF_LEVEL_MIN_VAL : Z := 1.
Definition NIDS_BREF_LEVEL_MAX_VAL : Z := 96.
Definition NIDS_RVEL_LEVEL_MIN_VAL : Z := -64.
Definition NIDS_RVEL_LEVEL_MAX_VAL : Z := 64.
Definition NIDS_NXP_LEVEL_MIN_VAL : Z := 5.
Definition NIDS_NXP_LEVEL_MAX_VAL : Z := 800.
Definition NIDS_SRVEL_LEVEL_MIN_VAL : Z := -50.
Definition NIDS_SRVEL_LEVEL_MAX_VAL : Z := 50.
Definition NIDS_PACKET_RADIALS_AF1F : Z := 44831.
Definition NIDS_PACKET_DIGITAL_RADIALS_16 : Z := 16.

Definition default_levels (code : Z) : option (Z * Z) :=
  if (code =? NIDS_PDB_CODE_NXR) || (code =? NIDS_PDB_CODE_N0Z) || (code =? NIDS_PDB_CODE_NXQ)
  then Some (NIDS_BREF_LEVEL_MIN_VAL, NIDS_BREF_LEVEL_MAX_VAL)
  else if (code =? NIDS_PDB_CODE_NXV) || (code =? NIDS_PDB_CODE_NXU) then Some (NIDS_RVEL_LEVEL_MIN_VAL, NIDS_RVEL_LEVEL_MAX_VAL)
  else if (code =? NIDS_PDB_CODE_NXP) || (code =? NIDS_PDB_CODE_NTP) then Some (NIDS_NXP_LEVEL_MIN_VAL, NIDS_NXP_LEVEL_MAX_VAL)
  else if code =? NIDS_PDB_CODE_NXS then Some (NIDS_SRVEL_LEVEL_MIN_VAL, NIDS_SRVEL_LEVEL_MAX_VAL)
  else None.

Record nids_data_st := NidsData {
  nd_data : list Z;
  nd_header : nids_header_st;
  nd_psb : Z * Z * Z * Z;                (* blockid, blocklength, numlayers, psb_layer_blocklength *)
  nd_packet : Z * Z * Z * Z * Z * Z * Z; (* packet_code, first_bin_index, numbins, center_i, center_j, scale, numradials *)
  nd_map : dcnids_polygon_map_st
}.

(** the options: [-D], which [main] always sets, [-M] and [-N] *)
Record radgis_opts := RadgisOpts {
  opt_skipcount : Z;
  opt_filter : Z;
  opt_level_min : Z;
  opt_level_max : Z
}.

(** the levels of the filter; [None]: the program ends *)
Definition set_levels (o : radgis_opts) (code : Z) (pm : dcnids_polygon_map_st) : option dcnids_polygon_map_st :=
  if negb (opt_filter o =? 1) then Some (set_filter 0 (level_min pm) (level_max pm) pm) else
  match default_levels code with
  | None => None
  | Some (lo, hi) =>
      Some (if negb (opt_level_min o =? opt_level_max o) then set_filter 1 (opt_level_min o) (opt_level_max o) pm
            else set_filter 1 lo hi pm)
  end.

(** [fuel]: of [dcnids_bunz]. The new data, and [None] at the end of the program *)
Definition nids_uncompress (fuel : nat) (data : list Z) : outcome (option (list Z)) :=
  let* divider := extract_int16 data 0 1 in
  let* r :=
    if negb (divider =? -1) then
      match dcnids_bunz fuel data with
      | None => Undef
      | Some (status, data) => Done (if status =? 0 then Some data else None)
      end
    else Done (Some data) in
  match r with
  | None => Done None
  | Some data =>
      let* divider := extract_int16 data 0 1 in
      Done (if divider =? -1 then Some data else None)
  end.

Definition nids_decode_data (fuel : nat) (o : radgis_opts) (data : list Z) (hd : nids_header_st) (pm : dcnids_polygon_map_st)
    : outcome (option nids_data_st) :=
  let* r := nids_uncompress fuel data in
  match r with
  | None => Done None
  | Some data =>
      let* blockid := extract_uint16 data 0 2 in
      let* blocklength := extract_uint32 data 0 3 in
      let* numlayers := extract_uint16 data 0 5 in
      let* layer := extract_uint32 data 10 2 in
      let* packet_code := extract_uint16 data 16 1 in
      if negb (packet_code =? NIDS_PACKET_RADIALS_AF1F) && negb (packet_code =? NIDS_PACKET_DIGITAL_RADIALS_16) then Done None else
      let* first := extract_int16 data 16 2 in
      let* numbins := extract_uint16 data 16 3 in
      let* ci := extract_int16 data 16 4 in
      let* cj := extract_int16 data 16 5 in
      let* scale := extract_uint16 data 16 6 in
      let* numradials := extract_uint16 data 16 7 in
      match set_levels o (pdb_code hd) pm with
      | None => Done None
      | Some pm =>
          let h := Radials (hd_lon hd) (hd_lat hd) (pdb_code hd) (pdb_mode hd) scale numradials in
          let* r :=
            if packet_code =? NIDS_PACKET_RADIALS_AF1F then nids_decode_radials_af1f data h pm
            else nids_decode_digital_radials_16 data h pm in
          Done (match r with
                | None => None
                | Some pm => Some (NidsData data hd (blockid, blocklength, numlayers, layer)
                                     (packet_code, first, numbins, ci, cj, scale, numradials) pm)
                end)
      end
  end.

(** nbspradgis up to the output of the data; [mem]: what the memory holds *)
Definition radgis_process_file (fuel : nat) (o : radgis_opts) (fd : fd_st) (mem : Z -> list Z) (pm : dcnids_polygon_map_st)
    : outcome (option nids_data_st) :=
  let* (status, buffer, fd) := dcnids_read_header fd (opt_skipcount o) in
  if negb (status =? 0) then Done None else
  let* v := dcnids_verify_wmoawips_header buffer in
  if negb (v =? 0) then Done None else
  let* (v, hd) := dcnids_decode_header buffer in
  if negb (v =? 0) then Done None else
  let n := s32 (u32 (m_msglength hd - NIDS_HEADER_SIZE)) in
  if n <=? 0 then Done None else
  if negb (malloc_ok n) then Done None else
  let* (n', data, fd) := readf fd (mem n) n in
  if negb (n' =? n) then Done None else
  nids_decode_data fuel o data hd pm.

(** nbspradinfo: the fields that it prints, or the exit status *)
Definition radinfo_process_file (skipcount : Z) (quiet : bool) (fd : fd_st) : outcome (Z + nids_header_st) :=
  let* (status, buffer, fd) := dcnids_read_header fd skipcount in
  if negb (status =? 0) then Done (inl 1) else
  let* v := dcnids_verify_wmoawips_header buffer in
  if negb (v =? 0) then Done (inl 1) else
  let* (v, hd) := dcnids_decode_header buffer in
  if negb (v =? 0) then Done (inl (if quiet then 2 else 1)) else Done (inr hd).
End data.
