(* ===== verification/Nidspoly.v ===== *)
(** * Nidspoly: the polygons of a radar product

    The two passes over the radials ([Nids]) against a reference definition,
    the list of the cells of the radials: the loops end, the first pass counts
    the cells and the second one draws those that the filter keeps, inside the
    array that was allocated. The bounds are for the rounded operations. *)

From stdpp Require Import gmap.
From S2P Require Import Prelude Util CLib Mfile Nreadn Double Nids.

(** ** Bounds of the values

    [dunit] is the value of 1 *)

Definition dunit : Z := 2 ^ dmin.

Lemma dunit_pos : 0 < dunit.
Proof. by apply Z.pow_pos_nonneg. Qed.

(** [2 ^ 40] parts of 1 *)
Lemma dunit_parts : exists u, dunit = 2 ^ 40 * u /\ 2 ^ 100 < u.
Proof. exists (2 ^ (dmin - 40)). split; [unfold dunit; by rewrite <- Z.pow_add_r|]. apply Z.pow_lt_mono_r; done. Qed.

Lemma dunit_eq : 2 ^ dmin = dunit.
Proof. done. Qed.

#[local] Opaque dunit.

Lemma near_int n : Z.abs n < 2 ^ 40 -> near (d_of_Z n) (n * dunit).
Proof. intros H. rewrite <- dunit_eq. apply of_Z_near. eapply Z.lt_le_trans; [exact H|]. by apply Z.pow_le_mono_r. Qed.

Lemma near_bounds r x : near r x -> 0 <= x -> x - x / 2 ^ 40 - 1 <= dval r <= x + x / 2 ^ 40 + 1.
Proof.
  intros [_ H] Hx. rewrite (Z.abs_eq x) in H by done. pose proof (Z.div_mod x (2 ^ 40) ltac:(done)).
  pose proof (Z.mod_pos_bound x (2 ^ 40) ltac:(done)). lia.
Qed.

(** a quotient by a small integer *)
Lemma div_int x y k : dfin x -> dfin y -> 0 < k < 2 ^ 32 -> dval y = k * dunit ->
  dval x = 0 \/ dunit <= 2 * Z.abs (dval x) < 2 ^ 100 * dunit ->
  dfin (ddiv x y) /\ Z.abs (k * dval (ddiv x y) - dval x) * 2 ^ 52 <= Z.abs (dval x).
Proof.
  intros Hx Hy Hk Ey Hb. pose proof dunit_pos as HU. destruct Hb as [E|Hb].
  - destruct x as [s|s| |s m e]; try done.
    + destruct (div_zero s y Hy ltac:(nia)) as [s' ->]. cbn. split; [done|lia].
    + exfalso. destruct (fin_exp _ _ _ Hx) as [He _]. pose proof (Z.pow_pos_nonneg 2 (e + dmin) ltac:(lia) ltac:(lia)).
      destruct s; cbn in E; nia.
  - destruct (div_near x y Hx Hy) as [H1 H2]; rewrite ?Ey; [nia| | |].
    + assert (Z.abs (dval x) < 2 ^ 100 * (k * dunit)) by nia. eapply Z.lt_le_trans; [eassumption|].
      apply Z.mul_le_mono_nonneg_r; [nia|]. by apply Z.pow_le_mono_r.
    + assert (k * dunit < 2 ^ 33 * Z.abs (dval x)) by nia. eapply Z.lt_le_trans; [eassumption|].
      apply Z.mul_le_mono_nonneg_r; [lia|]. by apply Z.pow_le_mono_r.
    + split; [done|]. rewrite Ey, dunit_eq in H2.
      replace (dval (ddiv x y) * (k * dunit) - dval x * dunit) with ((k * dval (ddiv x y) - dval x) * dunit) in H2 by ring.
      rewrite Z.abs_mul, (Z.abs_eq dunit) in H2 by lia. nia.
Qed.

Lemma ten : dfin (d_of_Z 10) /\ dval (d_of_Z 10) = 10 * dunit.
Proof. split; vm_compute; reflexivity. Qed.
Lemma thousand : dfin (d_of_Z 1000) /\ dval (d_of_Z 1000) = 1000 * dunit.
Proof. split; vm_compute; reflexivity. Qed.
Lemma one : dfin (d_of_Z 1) /\ dval (d_of_Z 1) = dunit.
Proof. split; vm_compute; reflexivity. Qed.
Lemma deg_per_rad : dfin DEG_PER_RAD /\ 57 * dunit <= dval DEG_PER_RAD <= 58 * dunit.
Proof. split; [vm_compute; reflexivity|]. split; vm_compute; discriminate. Qed.

Lemma int_value n : n = 0 \/ 1 <= Z.abs n < 2 ^ 40 ->
  dfin (d_of_Z n) /\ (dval (d_of_Z n) = 0 /\ n = 0 \/ dunit <= 2 * Z.abs (dval (d_of_Z n)) /\ Z.abs (dval (d_of_Z n) - n * dunit) <= dunit).
Proof.
  intros Hn. pose proof dunit_pos as HU. destruct Hn as [->|Hn]; [by split; [|left]|].
  destruct (near_int n ltac:(lia)) as [H1 H2]. split; [done|]. right. rewrite Z.abs_mul, (Z.abs_eq dunit) in H2 by lia. nia.
Qed.

(** [n / 10] and [n / 1000] for the integers of the headers *)
Lemma quotient_value n y k : dfin y -> dval y = k * dunit -> 10 <= k <= 1000 -> Z.abs n < 2 ^ 31 ->
  let q := ddiv (d_of_Z n) y in dfin q /\ Z.abs (k * dval q - n * dunit) <= 2 * dunit /\
  (n = 0 -> dval q = 0) /\ (1 <= n -> dunit <= 4 * k * dval q).
Proof.
  intros Hy Ey Hk Hn q. pose proof dunit_pos as HU. destruct (int_value n) as [Hf Hv]; [lia|].
  destruct (div_int (d_of_Z n) y k Hf Hy ltac:(lia) Ey) as [Hq He].
  { destruct Hv as [[Hv _]|[H1 H2]]; [by left|]. right. split; [done|]. change (2 ^ 100) with (2 ^ 50 * 2 ^ 50). nia. }
  fold q in Hq, He. split; [done|]. destruct Hv as [[Hv ->]|[H1 H2]].
  - rewrite Hv in He. split; [lia|]. split; [intros _; nia|lia].
  - assert (Z.abs (dval (d_of_Z n)) <= 2 ^ 32 * dunit) by nia.
    assert (Z.abs (k * dval q - dval (d_of_Z n)) <= dunit) by nia. split; [lia|]. split; [intros ->; change (dval (d_of_Z 0)) with 0 in H1; lia|]. intros H3.
    assert (Z.abs (k * dval q - dval (d_of_Z n)) * 2 <= Z.abs (dval (d_of_Z n))) by nia. nia.
Qed.

Lemma add_value x y : dfin x -> dfin y -> Z.abs (dval x + dval y) <= 2 ^ 40 * dunit -> near (dadd x y) (dval x + dval y).
Proof.
  intros Hx Hy H. apply add_near; [done..|]. pose proof dunit_pos. eapply Z.le_lt_trans; [exact H|].
  rewrite Z.pow_add_r, dunit_eq by done. apply Z.mul_lt_mono_pos_r; [done|]. by apply Z.pow_lt_mono_r.
Qed.

(** ** The radius *)

Lemma radius_value scale total : 0 <= scale -> 0 <= total -> total * scale < 2 ^ 31 ->
  exists r, bins_radius scale total = Done r /\ dfin r /\ 0 <= dval r <= 2 ^ 22 * dunit /\
    (total * scale = 0 -> r = S754_zero false) /\ (1 <= total * scale -> dunit <= 4000 * dval r).
Proof.
  intros Hs Ht Hb. destruct thousand as [Hf Hv]. pose proof dunit_pos. unfold bins_radius. destruct (Z.ltb_spec (total * scale) (2 ^ 31)); [|lia].
  eexists. split; [reflexivity|]. destruct (quotient_value (total * scale) _ 1000 Hf Hv) as (H1 & H2 & H3 & H4); [lia|lia|].
  split; [done|]. split; [|split; [by intros ->|lia]].
  destruct (Z.eq_dec (total * scale) 0) as [E|E]; [rewrite (H3 E); lia|]. specialize (H4 ltac:(lia)). nia.
Qed.

Definition radius_ok (r : double) : Prop := dfin r /\ 0 <= dval r <= 2 ^ 23 * dunit.

Lemma radius_step r : radius_ok r -> dfin (radius_next r) /\ 2 * dval r + dunit <= 2 * dval (radius_next r) <= 2 * dval r + 3 * dunit.
Proof.
  intros [Hf Hb]. destruct one as [H1 E1]. pose proof dunit_pos. unfold radius_next.
  destruct (add_value r (d_of_Z 1) Hf H1) as [Hf' Hn]; rewrite E1 in *; [lia|]. split; [done|]. lia.
Qed.

(** the radii of the arcs of a run, before and after each turn *)
Definition radius_pairs (r1 r2 : double) : list (double * double) := (steps (fun r => dlt r r2) radius_next 64 r1).1.1.

Lemma radius_loop r1 r2 : dfin r1 -> dfin r2 -> 0 <= dval r1 <= 2 ^ 22 * dunit -> dval r2 <= 2 ^ 22 * dunit ->
  exists x, steps (fun r => dlt r r2) radius_next 64 r1 = (radius_pairs r1 r2, x, true) /\
    Forall (fun p => p.2 = radius_next p.1 /\ radius_ok p.1 /\ dunit <= 2 * dval p.2 <= 2 ^ 24 * dunit) (radius_pairs r1 r2).
Proof.
  intros F1 F2 B1 B2. pose proof dunit_pos.
  assert (forall r, radius_ok r -> dlt r r2 = true -> dval r < dval r2) as Hlt.
  { intros r [Hf _] Hc. rewrite dlt_spec in Hc by done. by apply Z.ltb_lt. }
  destruct (steps_end (fun r => dlt r r2) radius_next radius_ok (fun r => 2 * (dval r2 - dval r)) dunit ltac:(lia)) with (k := 64%nat) (x := r1)
    as (l & x & E & Hc & _ & Hl).
  - intros r Hr Hd. specialize (Hlt r Hr Hd). destruct (radius_step r Hr). destruct Hr. split; [done|]. lia.
  - intros r Hr Hd. specialize (Hlt r Hr Hd). destruct (radius_step r Hr). split; [lia|]. right. lia.
  - split; [done|]. lia.
  - change (2 ^ Z.of_nat 64) with (2 ^ 64). lia.
  - unfold radius_pairs. rewrite E. exists x. split; [done|]. cbn [fst].
    assert (Forall (fun p => p.2 = radius_next p.1) l) as Hs.
    { clear E Hl. revert Hc. generalize r1. induction l as [|[a b] l IH]; intros y; cbn; [constructor|].
      intros (-> & -> & _ & H1). constructor; [done|]. by apply (IH _ H1). }
    apply list.Forall_forall. intros [a b] Hin. pose proof (proj1 (list.Forall_forall _ _) Hl _ Hin) as (H1 & H2 & H3).
    pose proof (proj1 (list.Forall_forall _ _) Hs _ Hin) as H4. cbn [fst snd] in H1, H2, H3, H4 |- *. subst b. clear E. split; [done|]. split; [done|].
    specialize (Hlt a H1 H3). destruct (radius_step a H1). destruct H1. lia.
Qed.

(** ** The angle *)

Definition theta_pairs (theta1 theta2 dtheta : double) : list (double * double) :=
  (steps (fun t => dlt t theta2) (theta_next theta2 dtheta) 64 theta1).1.1.

Definition dtheta_ok (x : double) : Prop := dfin x /\ dunit <= 2 ^ 20 * dval x /\ dval x <= 2 ^ 18 * dunit.

(** the angles of a radial *)
Record radial_ok (rp : nids_radial_packet_st) : Prop := RadialOk {
  ro_num : 0 <= num_rle_halfwords rp < 2 ^ 16;
  ro_start : exists n, - 2 ^ 15 <= n < 2 ^ 15 /\ angle_start_deg rp = ddiv (d_of_Z n) (d_of_Z 10);
  ro_delta : exists n, 0 <= n < 2 ^ 16 /\ angle_delta_deg rp = ddiv (d_of_Z n) (d_of_Z 10)
}.

Lemma angles_value rp : radial_ok rp ->
  let t1 := angle_start_deg rp in let dl := angle_delta_deg rp in let t2 := dadd t1 dl in
  dfin t1 /\ Z.abs (dval t1) <= 2 ^ 12 * dunit /\ dfin t2 /\ Z.abs (dval t2) <= 2 ^ 14 * dunit /\
  dfin dl /\ (dval dl = 0 /\ dlt t1 t2 = false \/ dunit <= 40 * dval dl <= 2 ^ 19 * dunit).
Proof.
  intros [_ (n & Hn & E1) (k & Hk & E2)] t1 dl t2. destruct ten as [Hf Hv]. pose proof dunit_pos.
  destruct (quotient_value n _ 10 Hf Hv) as (A1 & A2 & _ & _); [lia|lia|]. destruct (quotient_value k _ 10 Hf Hv) as (B1 & B2 & B3 & B4); [lia|lia|].
  rewrite <- E1 in A1, A2. rewrite <- E2 in B1, B2, B3, B4. fold t1 in A1, A2. fold dl in B1, B2, B3, B4.
  assert (Z.abs (dval t1) <= 2 ^ 12 * dunit) as Ht by nia. assert (Z.abs (dval dl) <= 2 ^ 13 * dunit) as Hdl by nia.
  destruct (add_value t1 dl A1 B1) as [C1 C2]; [lia|]. fold t2 in C1, C2.
  split; [done|]. split; [done|]. split; [done|]. split; [lia|]. split; [done|].
  destruct (Z.eq_dec k 0) as [E|E].
  - left. specialize (B3 E). split; [done|]. rewrite dlt_spec by done. apply Z.ltb_ge.
    assert (t2 = t1 \/ dval t1 = 0 /\ dval t2 = 0) as [->|[-> ->]]; [|lia..].
    subst t2 dl. rewrite E2, E in *. destruct t1 as [s|s| |s m e]; try done; [right; by destruct s|by left].
  - right. specialize (B4 ltac:(lia)). lia.
Qed.

Lemma dtheta_value dl r : dfin dl -> dunit <= 40 * dval dl <= 2 ^ 19 * dunit -> dfin r ->
  r = S754_zero false \/ dunit <= 2 ^ 12 * dval r /\ dval r <= 2 ^ 24 * dunit -> dtheta_ok (dtheta_at dl r).
Proof.
  intros Hdl Bdl Hr Br. pose proof dunit_pos. destruct deg_per_rad as [Hd Bd].
  assert (dtheta_ok dl) as Hok by (split; [done|]; lia). unfold dtheta_at. destruct Br as [->|Br].
  - assert (dlt dl (ddiv DEG_PER_RAD (S754_zero false)) = true) as ->; [|done].
    change (ddiv DEG_PER_RAD (S754_zero false)) with (S754_infinity false).
    clear - Hdl. destruct dl as [s|s| |s m e]; [reflexivity|contradiction|contradiction|reflexivity].
  - destruct (div_near DEG_PER_RAD r Hd Hr) as [Hq He]; [lia| | |].
    + eapply (Z.lt_le_trans _ (2 ^ 30 * dval r)); [lia|]. apply Z.mul_le_mono_nonneg_r; [lia|]. apply Z.pow_le_mono_r; lia.
    + eapply (Z.lt_le_trans _ (2 ^ 30 * Z.abs (dval DEG_PER_RAD))); [lia|]. apply Z.mul_le_mono_nonneg_r; [lia|]. apply Z.pow_le_mono_r; lia.
    + destruct (dlt dl _) eqn:E; [done|]. set (q := ddiv DEG_PER_RAD r) in *. rewrite dunit_eq in He.
      rewrite dlt_spec in E by done. apply Z.ltb_ge in E. split; [done|].
      rewrite (Z.abs_eq (dval DEG_PER_RAD)) in He by lia. set (D := dval DEG_PER_RAD) in *. set (R := dval r) in *. set (Q := dval q) in *.
      split; [|lia]. destruct (Z.le_gt_cases dunit (2 ^ 20 * Q)) as [Hle|Hgt]; [done|]. exfalso.
      assert (Q * R * 2 <= 64 * dunit * dunit) as H1 by nia. assert (114 * dunit * dunit <= 2 * (D * dunit)) as H2 by nia.
      assert (2 * Z.abs (Q * R - D * dunit) <= D * dunit) as H3 by nia. nia.
Qed.

Lemma theta_loop t1 t2 dt : dfin t1 -> dfin t2 -> Z.abs (dval t1) <= 2 ^ 14 * dunit -> Z.abs (dval t2) <= 2 ^ 14 * dunit -> dtheta_ok dt ->
  exists x, steps (fun t => dlt t t2) (theta_next t2 dt) 64 t1 = (theta_pairs t1 t2 dt, x, true).
Proof.
  intros F1 F2 B1 B2 (Fd & Bd1 & Bd2). pose proof dunit_pos.
  assert (forall t, dfin t -> Z.abs (dval t) <= 2 ^ 14 * dunit ->
    dfin (dadd t dt) /\ 2 ^ 21 * dval t + dunit <= 2 ^ 21 * dval (dadd t dt)) as Hs.
  { intros t Ft Bt. destruct (add_value t dt Ft Fd) as [H1 H2]; [lia|]. split; [done|]. lia. }
  set (I := fun t => dfin t /\ Z.abs (dval t) <= 2 ^ 14 * dunit).
  assert (forall t, I t -> dlt t t2 = true -> dval t < dval t2) as Hlt.
  { intros t [Ft _] Hc. rewrite dlt_spec in Hc by done. by apply Z.ltb_lt. }
  assert (forall t, I t -> dlt t t2 = true -> I (theta_next t2 dt t) /\
    (dlt (theta_next t2 dt t) t2 = false \/ 2 ^ 21 * dval t + dunit <= 2 ^ 21 * dval (theta_next t2 dt t))) as Hn.
  { intros t Ht Hc. specialize (Hlt t Ht Hc). destruct Ht as [Ft Bt]. destruct (Hs t Ft Bt) as [Fn Bn]. unfold theta_next.
    destruct (dlt t2 (dadd t dt)) eqn:E; rewrite dlt_spec in E by done.
    - split; [done|]. left. rewrite dlt_spec by done. apply Z.ltb_irrefl.
    - apply Z.ltb_ge in E. split; [split; [done|lia]|]. by right. }
  destruct (steps_end (fun t => dlt t t2) (theta_next t2 dt) I (fun t => 2 ^ 21 * (dval t2 - dval t)) dunit ltac:(lia)) with (k := 64%nat) (x := t1)
    as (l & x & E & _).
  - intros t Ht Hc. apply Hn; done.
  - intros t Ht Hc. specialize (Hlt t Ht Hc). destruct (Hn t Ht Hc) as [_ [H1|H1]]; (split; [lia|]); [by left|]. right. lia.
  - done.
  - change (2 ^ Z.of_nat 64) with (2 ^ 64). lia.
  - unfold theta_pairs. rewrite E. by exists x.
Qed.

(** ** The cells

    A cell of a radial is between two radii and two angles *)

Record cell := Cell {
  cell_code : Z;
  cell_ra : double;
  cell_rb : double;
  cell_t1 : double;
  cell_t2 : double
}.

Definition radius (scale total : Z) : double := ddiv (d_of_Z (total * scale)) (d_of_Z 1000).
Definition theta2_of (rp : nids_radial_packet_st) : double := dadd (angle_start_deg rp) (angle_delta_deg rp).

Definition arc_cells (rp : nids_radial_packet_st) (code : Z) (ra rb : double) : list cell :=
  map (fun p => Cell code ra rb p.1 p.2) (theta_pairs (angle_start_deg rp) (theta2_of rp) (dtheta_at (angle_delta_deg rp) rb)).

(** the bins of a byte, its code and its cells *)
Record packet := Packet {
  pk_per : Z;
  pk_width : Z -> Z;
  pk_empty : Z -> bool;
  pk_code : Z -> Z;
  pk_cells : Z -> nids_radial_packet_st -> Z -> Z -> list cell
}.
Definition af1f : packet :=
  Packet 2 (fun y => Z.shiftr y 4) (fun y => Z.shiftr y 4 =? 0) (fun y => Z.land y 15) (fun scale rp y total =>
    flat_map (fun p => arc_cells rp (Z.land y 15) (dsub p.2 (d_of_Z 1)) p.2)
      (radius_pairs (radius scale total) (radius scale (total + Z.shiftr y 4)))).
Definition digital : packet :=
  Packet 1 (fun _ => 1) (fun y => y <? 2) (fun y => y) (fun scale rp y total =>
    arc_cells rp y (radius scale total) (radius scale (total + 1))).

Fixpoint bytes_cells (k : packet) (scale : Z) (rp : nids_radial_packet_st) (l : list Z) (total : Z) : list cell :=
  match l with
  | [] => []
  | y :: l => (if pk_empty k y then [] else pk_cells k scale rp y total) ++ bytes_cells k scale rp l (total + pk_width k y)
  end.
Definition radials_cells (k : packet) (scale : Z) (rs : list (nids_radial_packet_st * list Z)) : list cell :=
  flat_map (fun r => bytes_cells k scale r.1 r.2 0) rs.

Definition bins_of (k : packet) (l : list Z) : Z := fold_right (fun y n => pk_width k y + n) 0 l.

(** the radials that the data has *)
Fixpoint read_radials (per : Z) (d : list Z) (n : nat) (b : Z) : outcome (list (nids_radial_packet_st * list Z)) :=
  match n with
  | O => Done []
  | S n =>
      let* rp := read_radial d b in
      let* l := rdn d (b + 6) (num_rle_halfwords rp * per) in
      let* rs := read_radials per d n (b + 6 + num_rle_halfwords rp * per) in
      Done ((rp, l) :: rs)
  end.

(** ** Walking over the radials *)

Lemma rdn_inv (d : list Z) b n l : rdn d b n = Done l -> 0 <= b /\ 0 <= n /\ b + n <= zlen d /\ l = zsub b n d.
Proof.
  unfold rdn. destruct (Z.leb_spec 0 b), (Z.leb_spec 0 n), (Z.leb_spec (b + n) (zlen d)); cbn [andb]; try done.
  intros [= <-]. done.
Qed.

Lemma rdn_uncons (d : list Z) b n l : rdn d b n = Done l -> 0 < n ->
  exists y l', l = y :: l' /\ rd d b = Done y /\ rdn d (b + 1) (n - 1) = Done l'.
Proof.
  intros (Hb & Hn & Hl & ->)%rdn_inv Hp. destruct (rd_total d b ltac:(lia)) as [y Hy].
  exists y, (zsub (b + 1) (n - 1) d). split; [|split; [done|apply rdn_ok; lia]].
  apply rd_Done in Hy. rewrite znth_lookup in Hy by done. unfold zsub, ztake, zdrop. rewrite (drop_S _ _ _ Hy).
  replace (Z.to_nat n) with (S (Z.to_nat (n - 1))) by lia. replace (Z.to_nat (b + 1)) with (S (Z.to_nat b)) by lia. done.
Qed.

Lemma extract16_range (d : list Z) b h r : extract_uint16 d b h = Done r -> 0 <= r < 2 ^ 16.
Proof.
  unfold extract_uint16. destruct (rd d _); cbn [obind]; [|done..]. destruct (rd d _); cbn [obind]; [|done..]. intros [= <-]. apply u16_range.
Qed.

Lemma extract16_inside (d : list Z) b h r : extract_uint16 d b h = Done r -> 0 <= b + (h - 1) * 2 /\ b + (h - 1) * 2 + 1 < zlen d.
Proof.
  unfold extract_uint16. destruct (rd d _) eqn:E1; cbn [obind]; [|done..]. destruct (rd d (_ + 1)) eqn:E2; cbn [obind]; [|done..].
  intros _. apply rd_Done, znth_Some_lt in E1, E2. lia.
Qed.

Lemma read_radial_ok d b rp : read_radial d b = Done rp -> radial_ok rp /\ b + 6 <= zlen d.
Proof.
  unfold read_radial, extract_int16. destruct (extract_uint16 d b 1) as [n| |] eqn:E1; cbn [obind]; [|done..].
  destruct (extract_uint16 d b 2) as [s| |] eqn:E2; cbn [obind]; [|done..].
  destruct (extract_uint16 d b 3) as [dl| |] eqn:E3; cbn [obind]; [|done..]. intros [= <-].
  pose proof (extract16_inside _ _ _ _ E3). apply extract16_range in E1, E2, E3. split; [|lia]. split; cbn; [done|exists (s16 s)|by exists dl].
  split; [|done]. unfold s16. pose proof (Z.mod_pos_bound (s + 2 ^ 15) (2 ^ 16) ltac:(done)). lia.
Qed.

Section walks.
Context {S : Type} (f : nids_radial_packet_st -> Z -> Z -> S -> outcome (option (Z * S))).

Fixpoint fold_bytes (rp : nids_radial_packet_st) (l : list Z) (total : Z) (s : S) : outcome (option S) :=
  match l with
  | [] => Done (Some s)
  | y :: l =>
      let* r := f rp y total s in
      match r with None => Done None | Some (total, s) => fold_bytes rp l total s end
  end.
Fixpoint fold_radials (rs : list (nids_radial_packet_st * list Z)) (s : S) : outcome (option S) :=
  match rs with
  | [] => Done (Some s)
  | (rp, l) :: rs =>
      let* r := fold_bytes rp l 0 s in
      match r with None => Done None | Some s => fold_radials rs s end
  end.

Lemma walk_bytes_fold rp d n : forall b total s l, rdn d b (Z.of_nat n) = Done l ->
  walk_bytes f rp d n b total s =
    (let* r := fold_bytes rp l total s in Done (match r with None => None | Some s => Some (b + Z.of_nat n, s) end)).
Proof.
  induction n as [|n IH]; intros b total s l Hl; cbn [walk_bytes].
  - apply rdn_inv in Hl as (Hb & _ & _ & ->). unfold zsub. rewrite ztake_0. cbn. do 3 f_equal. lia.
  - rewrite Nat2Z.inj_succ in Hl. destruct (rdn_uncons _ _ _ _ Hl ltac:(lia)) as (y & l' & -> & Hy & Hl').
    replace (Z.succ (Z.of_nat n) - 1) with (Z.of_nat n) in Hl' by lia. rewrite Hy. cbn [obind fold_bytes].
    destruct (f rp y total s) as [[[t' s']|]| |]; cbn [obind]; try done. rewrite (IH _ _ _ _ Hl').
    destruct (fold_bytes rp l' t' s') as [[s2|]| |]; cbn [obind]; try done. do 3 f_equal. lia.
Qed.

Lemma walk_fold per d n : forall b s rs, 0 <= per -> read_radials per d n b = Done rs ->
  walk_radials f per d n b s = fold_radials rs s.
Proof.
  induction n as [|n IH]; intros b s rs Hper; cbn [read_radials walk_radials]; [by intros [= <-]|].
  destruct (read_radial d b) as [rp| |] eqn:Er; cbn [obind]; try done.
  destruct (rdn d (b + 6) (num_rle_halfwords rp * per)) as [l| |] eqn:El; cbn [obind]; try done.
  destruct (read_radials per d n (b + 6 + num_rle_halfwords rp * per)) as [rs'| |] eqn:Ers; cbn [obind]; try done. intros [= <-].
  pose proof (rdn_inv _ _ _ _ El) as (Hb & Hn & _).
  rewrite <- (Z2Nat.id (num_rle_halfwords rp * per)) in El by lia. rewrite (walk_bytes_fold rp d _ _ 0 s l El). cbn [fold_radials].
  destruct (fold_bytes rp l 0 s) as [[s'|]| |]; cbn [obind]; try done. rewrite Z2Nat.id by lia. by apply IH.
Qed.

(** the walk reads beyond the data when the radials are not there *)
Context (Hf : forall rp y total s, (exists r, f rp y total s = Done (Some r)) \/ f rp y total s = Undef).

Lemma walk_bytes_short rp d n : forall b total s, 0 <= b <= zlen d -> zlen d < b + Z.of_nat n -> walk_bytes f rp d n b total s = Undef.
Proof using Hf.
  induction n as [|n IH]; intros b total s Hb Hn; [lia|]. cbn [walk_bytes].
  destruct (Z.eq_dec b (zlen d)) as [E|E].
  - assert (rd d b = Undef) as ->; [|done]. unfold rd. destruct (znth d b) eqn:Ez; [|done]. apply znth_Some_lt in Ez. lia.
  - destruct (rd_total d b ltac:(lia)) as [y ->]. cbn [obind]. destruct (Hf rp y total s) as [[[t' s'] ->]| ->]; [|done].
    cbn [obind]. apply IH; lia.
Qed.

Lemma fold_bytes_some rp l : forall total s, (exists r, fold_bytes rp l total s = Done (Some r)) \/ fold_bytes rp l total s = Undef.
Proof using Hf.
  induction l as [|y l IH]; intros total s; cbn [fold_bytes]; [left; by eexists|].
  destruct (Hf rp y total s) as [[[t' s'] ->]| ->]; [apply IH|by right].
Qed.

Lemma walk_short per d n : forall b s, 0 <= per -> 0 <= b -> read_radials per d n b = Undef -> walk_radials f per d n b s = Undef.
Proof using Hf.
  induction n as [|n IH]; intros b s Hper Hb; cbn [read_radials walk_radials]; [done|].
  destruct (read_radial d b) as [rp| |] eqn:Er; cbn [obind]; try done.
  destruct (read_radial_ok d b rp Er) as [Hrp Hlen].
  destruct (rdn d (b + 6) (num_rle_halfwords rp * per)) as [l| |] eqn:El; cbn [obind]; try done.
  - destruct (read_radials per d n (b + 6 + num_rle_halfwords rp * per)) as [rs'| |] eqn:Ers; cbn [obind]; try done. intros _.
    pose proof (rdn_inv _ _ _ _ El) as (Hb6 & Hn & _).
    rewrite <- (Z2Nat.id (num_rle_halfwords rp * per)) in El by lia. rewrite (walk_bytes_fold rp d _ _ 0 s l El).
    destruct (fold_bytes_some rp l 0 s) as [[s' ->]| ->]; cbn [obind]; [|done]. rewrite Z2Nat.id by lia. apply IH; done || lia.
  - intros _. rewrite walk_bytes_short; [done|lia|]. destruct Hrp as [Hnum _ _].
    destruct (Z.le_gt_cases (b + 6 + num_rle_halfwords rp * per) (zlen d)); [|lia]. rewrite rdn_ok in El; [done|lia|nia|lia].
Qed.
End walks.

(** ** The counting *)

Lemma run_incr {X} (l : list (X * X)) : forall n, n + zlen l < 2 ^ 31 -> run_steps (fun _ _ => incr) l n = Done (n + zlen l).
Proof.
  induction l as [|[x x'] l IH]; intros n Hn; cbn [run_steps]; [by rewrite Z.add_0_r|]. rewrite zlen_cons in *. pose proof (zlen_nonneg l).
  unfold incr. destruct (Z.ltb_spec (n + 1) (2 ^ 31)); [|lia]. cbn [obind]. rewrite IH by lia. f_equal. lia.
Qed.

(** the radial is well formed and has a width *)
Definition radial_wide (rp : nids_radial_packet_st) : Prop := dlt (angle_start_deg rp) (theta2_of rp) = true.

Lemma arc_loop rp r : radial_ok rp -> dfin r -> r = S754_zero false \/ dunit <= 2 ^ 12 * dval r /\ dval r <= 2 ^ 24 * dunit ->
  exists x, steps (fun t => dlt t (theta2_of rp)) (theta_next (theta2_of rp) (dtheta_at (angle_delta_deg rp) r)) 64 (angle_start_deg rp) =
    (theta_pairs (angle_start_deg rp) (theta2_of rp) (dtheta_at (angle_delta_deg rp) r), x, true).
Proof.
  intros Hrp Fr Br. destruct (angles_value rp Hrp) as (F1 & B1 & F2 & B2 & Fd & Bd). fold (theta2_of rp) in F2, B2, Bd.
  destruct Bd as [[_ Hno]|Bd].
  - unfold theta_pairs.
    assert (forall k, steps (fun t => dlt t (theta2_of rp)) (theta_next (theta2_of rp) (dtheta_at (angle_delta_deg rp) r)) k (angle_start_deg rp) =
      ([], angle_start_deg rp, true)) as E.
    { induction k as [|k IH]; cbn [steps]; [by rewrite Hno|by rewrite IH]. }
    rewrite E. by eexists.
  - apply theta_loop; try done; [pose proof dunit_pos; lia|]. by apply dtheta_value.
Qed.

#[local] Opaque theta_pairs radius_pairs.

Lemma zlen_map {A B} (f : A -> B) l : zlen (map f l) = zlen l.
Proof. unfold zlen. by rewrite length_map. Qed.

Lemma count_arc rp code ra r n : radial_ok rp -> dfin r -> r = S754_zero false \/ dunit <= 2 ^ 12 * dval r /\ dval r <= 2 ^ 24 * dunit ->
  n + zlen (arc_cells rp code ra r) < 2 ^ 31 ->
  count_thetas (angle_start_deg rp) (theta2_of rp) (dtheta_at (angle_delta_deg rp) r) n = Done (n + zlen (arc_cells rp code ra r)).
Proof.
  intros Hrp Fr Br. destruct (arc_loop rp r Hrp Fr Br) as [x E]. unfold arc_cells. rewrite zlen_map. intros Hn. unfold count_thetas.
  rewrite (while64_run _ _ (fun _ _ => incr) _ n _ _ E), run_incr by exact Hn. reflexivity.
Qed.

(** the arcs of a run *)
Definition arc_radius (r : double) : Prop := dfin r /\ dunit <= 2 ^ 12 * dval r /\ dval r <= 2 ^ 24 * dunit.

Lemma count_arcs rp code l : radial_ok rp -> Forall (fun p => arc_radius p.2) l -> forall n,
  let cells := flat_map (fun p => arc_cells rp code (dsub p.2 (d_of_Z 1)) p.2) l in n + zlen cells < 2 ^ 31 ->
  run_steps (fun _ r' n => count_thetas (angle_start_deg rp) (theta2_of rp) (dtheta_at (angle_delta_deg rp) r') n) l n = Done (n + zlen cells).
Proof.
  intros Hrp Hl. induction Hl as [|[r r'] l [Fr Br] _ IH]; intros n; cbn [flat_map run_steps fst snd]; [by rewrite Z.add_0_r|].
  rewrite zlen_app. pose proof (zlen_nonneg (flat_map (fun p => arc_cells rp code (dsub p.2 (d_of_Z 1)) p.2) l)). intros Hn.
  rewrite (count_arc rp code (dsub r' (d_of_Z 1))) by first [done | by right | lia]. cbn [obind]. cbn zeta in IH. rewrite IH by lia. f_equal. lia.
Qed.

(** the radii before and after a byte of [w] bins *)
Lemma radii scale total w : 0 <= scale -> 0 <= total -> 0 <= w -> (total + w) * scale < 2 ^ 31 ->
  bins_radius scale total = Done (radius scale total) /\ bins_radius scale (total + w) = Done (radius scale (total + w)) /\
  dfin (radius scale total) /\ 0 <= dval (radius scale total) <= 2 ^ 22 * dunit /\
  dfin (radius scale (total + w)) /\ 0 <= dval (radius scale (total + w)) <= 2 ^ 22 * dunit /\
  (radius scale (total + w) = S754_zero false \/ dunit <= 2 ^ 12 * dval (radius scale (total + w)) /\ dval (radius scale (total + w)) <= 2 ^ 24 * dunit).
Proof.
  intros Hs Ht Hw Hb. pose proof dunit_pos. destruct (radius_value scale total) as (r1 & E1 & F1 & B1 & _ & _); [lia|lia|nia|].
  destruct (radius_value scale (total + w)) as (r2 & E2 & F2 & B2 & Z2 & O2); [lia|lia|lia|].
  assert (radius scale total = r1) as <-.
  { unfold bins_radius in E1. destruct (Z.ltb_spec (total * scale) (2 ^ 31)); [|done]. injection E1 as <-. done. }
  assert (radius scale (total + w) = r2) as <-.
  { unfold bins_radius in E2. destruct (Z.ltb_spec ((total + w) * scale) (2 ^ 31)); [|done]. injection E2 as <-. done. }
  split_and!; try done; try lia; []. destruct (Z.eq_dec ((total + w) * scale) 0) as [E|E]; [left; auto|]. right. specialize (O2 ltac:(nia)). lia.
Qed.

Lemma run_radii r1 r2 : dfin r1 -> dfin r2 -> 0 <= dval r1 <= 2 ^ 22 * dunit -> dval r2 <= 2 ^ 22 * dunit ->
  exists x, steps (fun r => dlt r r2) radius_next 64 r1 = (radius_pairs r1 r2, x, true) /\ Forall (fun p => arc_radius p.2) (radius_pairs r1 r2).
Proof.
  intros F1 F2 B1 B2. destruct (radius_loop r1 r2 F1 F2 B1 B2) as (x & E & Hl). exists x. split; [exact E|]. clear E.
  eapply List.Forall_impl; [|exact Hl]. intros [a b] (H1 & H2 & H3). cbn [fst snd] in H1, H2, H3 |- *. subst b. pose proof dunit_pos.
  destruct (radius_step a H2). split; [done|]. lia.
Qed.

(** what is known of a byte of a radial *)
Record byte_ok (k : packet) (scale : Z) (y total : Z) : Prop := ByteOk {
  bo_byte : 0 <= y < 256;
  bo_scale : 0 <= scale;
  bo_total : 0 <= total;
  bo_end : (total + pk_width k y) * scale < 2 ^ 31
}.

Lemma run_width y : 0 <= y < 256 -> 0 <= Z.shiftr y 4 < 16.
Proof. intros H. rewrite Z.shiftr_div_pow2 by done. change (2 ^ 4) with 16. split; [apply Z.div_pos; lia|apply Z.div_lt_upper_bound; lia]. Qed.

Definition byte_cells (k : packet) (scale : Z) (rp : nids_radial_packet_st) (y total : Z) : list cell :=
  if pk_empty k y then [] else pk_cells k scale rp y total.

Lemma count_run_spec scale rp y total n : radial_ok rp -> byte_ok af1f scale y total -> n + zlen (byte_cells af1f scale rp y total) < 2 ^ 31 ->
  count_run scale rp y total n = Done (total + Z.shiftr y 4, n + zlen (byte_cells af1f scale rp y total)).
Proof.
  intros Hrp [Hy Hs Ht Hb]. pose proof (run_width y Hy) as Hw. cbn [pk_width af1f] in Hb. unfold byte_cells. cbn [pk_empty pk_cells af1f].
  unfold count_run. destruct (Z.eqb_spec (Z.shiftr y 4) 0) as [E|E]; [intros _; rewrite E; f_equal; f_equal; rewrite ?Z.add_0_r; done|]. intros Hn.
  destruct (radii scale total (Z.shiftr y 4) Hs Ht ltac:(lia) Hb) as (-> & -> & F1 & B1 & F2 & B2 & _). cbn [obind].
  destruct (run_radii _ _ F1 F2 B1 ltac:(lia)) as (x & Ex & Hl). fold (theta2_of rp).
  rewrite (while64_run _ _ (fun _ r' n => count_thetas (angle_start_deg rp) (theta2_of rp) (dtheta_at (angle_delta_deg rp) r') n) _ n _ _ Ex).
  rewrite (count_arcs rp (Z.land y 15) _ Hrp Hl n Hn). reflexivity.
Qed.

Lemma count_bin_spec scale rp y total n : radial_ok rp -> byte_ok digital scale y total -> n + zlen (byte_cells digital scale rp y total) < 2 ^ 31 ->
  count_bin scale rp y total n = Done (total + 1, n + zlen (byte_cells digital scale rp y total)).
Proof.
  intros Hrp [Hy Hs Ht Hb]. cbn [pk_width digital] in Hb. unfold byte_cells. cbn [pk_empty pk_cells digital].
  destruct (radii scale total 1 Hs Ht ltac:(lia) Hb) as (_ & E2 & _ & _ & F2 & B2 & Z2). unfold count_bin. rewrite E2. cbn [obind].
  destruct (y <? 2); [intros _; by rewrite Z.add_0_r|]. intros Hn. fold (theta2_of rp).
  by rewrite (count_arc rp y (radius scale total) _ n Hrp F2 Z2 Hn).
Qed.

(** ** The drawing *)

Section drawing.
Context {LM : Libm} (h : nids_radials) (pm : dcnids_polygon_map_st).

Definition polygon_of (c : cell) (level : Z) : dcnids_polygon_st :=
  dcnids_define_polygon (rad_lon h) (rad_lat h) (cell_ra c) (cell_rb c) (dcnids_sine_cosine (cell_t1 c))
    (dcnids_sine_cosine (cell_t2 c)) (cell_code c) level.

Definition draw_turn (alloc : Z) (ra rb : double) (code level : Z) (t t' : double) (s : (double * double) * list dcnids_polygon_st) :=
  let (sc1, ps) := s in
  let sc2 := dcnids_sine_cosine t' in
  let* ps := put_polygon alloc (dcnids_define_polygon (rad_lon h) (rad_lat h) ra rb sc1 sc2 code level) ps in
  Done (sc2, ps).

Lemma run_put alloc ra rb code level cond step l : forall t x ps, chain cond step t l x -> zlen ps + zlen l <= alloc ->
  run_steps (draw_turn alloc ra rb code level) l (dcnids_sine_cosine t, ps) =
    Done (dcnids_sine_cosine x, ps ++ map (fun p => polygon_of (Cell code ra rb p.1 p.2) level) l).
Proof.
  induction l as [|[a b] l IH]; intros t x ps; cbn [chain run_steps map]; [intros ->; by rewrite app_nil_r|].
  intros (-> & -> & _ & Hc). rewrite zlen_cons. pose proof (zlen_nonneg l). intros Hn. unfold draw_turn at 1, put_polygon.
  destruct (Z.ltb_spec (zlen ps) alloc); [|lia]. cbn [obind]. rewrite (IH _ _ _ Hc).
  - by rewrite <- app_assoc.
  - rewrite zlen_app, zlen_cons. change (@zlen dcnids_polygon_st []) with 0. lia.
Qed.

(** the arc of a radial *)
Lemma draw_arc alloc rp code ra r level ps : radial_ok rp -> dfin r ->
  r = S754_zero false \/ dunit <= 2 ^ 12 * dval r /\ dval r <= 2 ^ 24 * dunit -> zlen ps + zlen (arc_cells rp code ra r) <= alloc ->
  draw_thetas alloc h (angle_start_deg rp) (theta2_of rp) (dtheta_at (angle_delta_deg rp) r) ra r code level ps =
    Done (ps ++ map (fun c => polygon_of c level) (arc_cells rp code ra r)).
Proof.
  intros Hrp Fr Br. destruct (arc_loop rp r Hrp Fr Br) as [x E].
  pose proof (steps_chain (fun t => dlt t (theta2_of rp)) (theta_next (theta2_of rp) (dtheta_at (angle_delta_deg rp) r)) 64 (angle_start_deg rp)) as Hc.
  rewrite E in Hc. destruct Hc as [Hc _]. unfold arc_cells. rewrite zlen_map, map_map. intros Hn. unfold draw_thetas.
  rewrite (while64_run _ _ (draw_turn alloc ra r code level) _ (dcnids_sine_cosine (angle_start_deg rp), ps) _ _ E).
  rewrite (run_put _ _ _ _ _ _ _ _ _ _ _ Hc Hn). reflexivity.
Qed.

Definition kept (lv : Z -> option Z) (cs : list cell) : list dcnids_polygon_st :=
  omap (fun c => match lv (cell_code c) with
                 | Some v => if filtered pm v then None else Some (polygon_of c v)
                 | None => None
                 end) cs.

Lemma kept_app lv a b : kept lv (a ++ b) = kept lv a ++ kept lv b.
Proof. apply omap_app. Qed.

Lemma kept_length lv cs : zlen (kept lv cs) <= zlen cs.
Proof.
  unfold kept. induction cs as [|c cs IH]; [done|]. cbn [omap list_omap]. rewrite zlen_cons.
  destruct (lv (cell_code c)) as [v|]; [destruct (filtered pm v)|]; rewrite ?zlen_cons; lia.
Qed.

(** the cells of a single code *)
Lemma kept_one lv code v cs : Forall (fun c => cell_code c = code) cs -> lv code = Some v ->
  kept lv cs = if filtered pm v then [] else map (fun c => polygon_of c v) cs.
Proof.
  intros Hc Hv. induction Hc as [|c cs E _ IH]; [by destruct (filtered pm v)|]. unfold kept in *. cbn [omap list_omap map].
  rewrite E, Hv. destruct (filtered pm v); [done|by f_equal].
Qed.

Lemma arc_code rp code ra rb : Forall (fun c => cell_code c = code) (arc_cells rp code ra rb).
Proof. unfold arc_cells. by apply Forall_map, list.Forall_true. Qed.

Lemma arcs_code rp code l : Forall (fun c => cell_code c = code) (flat_map (fun p : double * double => arc_cells rp code (dsub p.2 (d_of_Z 1)) p.2) l).
Proof. induction l as [|p l IH]; cbn [flat_map]; [constructor|]. apply Forall_app. split; [apply arc_code|done]. Qed.

Lemma draw_arcs alloc rp code level l : radial_ok rp -> Forall (fun p => arc_radius p.2) l -> forall ps,
  let cells := flat_map (fun p => arc_cells rp code (dsub p.2 (d_of_Z 1)) p.2) l in zlen ps + zlen cells <= alloc ->
  run_steps (fun _ r' ps => draw_thetas alloc h (angle_start_deg rp) (theta2_of rp) (dtheta_at (angle_delta_deg rp) r')
    (dsub r' (d_of_Z 1)) r' code level ps) l ps = Done (ps ++ map (fun c => polygon_of c level) cells).
Proof.
  intros Hrp Hl. induction Hl as [|[r r'] l [Fr Br] _ IH]; intros ps; cbn [flat_map run_steps fst snd map]; [by rewrite app_nil_r|].
  rewrite zlen_app. pose proof (zlen_nonneg (flat_map (fun p => arc_cells rp code (dsub p.2 (d_of_Z 1)) p.2) l)). intros Hn.
  rewrite draw_arc by first [done | by right | lia]. cbn [obind]. cbn zeta in IH. rewrite IH by (rewrite zlen_app, zlen_map; lia).
  by rewrite map_app, <- app_assoc.
Qed.

Lemma draw_run_spec alloc rp y total ps v : radial_ok rp -> byte_ok af1f (rad_scale h) y total ->
  (pk_empty af1f y = false -> af1f_level (rad_pdb_code h) (rad_pdb_mode h) (Z.land y 15) = Some v) ->
  let new := kept (af1f_level (rad_pdb_code h) (rad_pdb_mode h)) (byte_cells af1f (rad_scale h) rp y total) in
  zlen ps + zlen new <= alloc ->
  draw_run alloc h pm rp y total ps = Done (Some (total + Z.shiftr y 4, ps ++ new)).
Proof.
  intros Hrp [Hy Hs Ht Hb] Hv new. subst new. pose proof (run_width y Hy) as Hw. cbn [pk_width af1f] in Hb. unfold byte_cells.
  cbn [pk_empty pk_cells af1f] in *. unfold draw_run. destruct (Z.eqb_spec (Z.shiftr y 4) 0) as [E|E].
  { intros _. rewrite E, Z.add_0_r. cbn. by rewrite app_nil_r. }
  specialize (Hv eq_refl). rewrite (kept_one _ _ v _ (arcs_code _ _ _) Hv). intros Hn.
  destruct (radii (rad_scale h) total (Z.shiftr y 4) Hs Ht ltac:(lia) Hb) as (-> & -> & F1 & B1 & F2 & B2 & _). cbn [obind]. rewrite Hv.
  destruct (filtered pm v); [by rewrite app_nil_r|]. rewrite zlen_map in Hn.
  destruct (run_radii _ _ F1 F2 B1 ltac:(lia)) as (x & Ex & Hl). fold (theta2_of rp).
  rewrite (while64_run _ _ (fun _ r' ps => draw_thetas alloc h (angle_start_deg rp) (theta2_of rp) (dtheta_at (angle_delta_deg rp) r')
    (dsub r' (d_of_Z 1)) r' (Z.land y 15) v ps) _ ps _ _ Ex).
  rewrite (draw_arcs alloc rp (Z.land y 15) v _ Hrp Hl ps Hn). reflexivity.
Qed.

Lemma draw_bin_spec alloc lv rp y total ps v : radial_ok rp -> byte_ok digital (rad_scale h) y total ->
  (forall y, 2 <= y < 256 -> digital_level (rad_pdb_code h) (rad_pdb_mode h) y = Done (lv y)) ->
  (pk_empty digital y = false -> lv y = Some v) ->
  let new := kept lv (byte_cells digital (rad_scale h) rp y total) in
  zlen ps + zlen new <= alloc ->
  draw_bin alloc h pm rp y total ps = Done (Some (total + 1, ps ++ new)).
Proof.
  intros Hrp [Hy Hs Ht Hb] Hlv Hv new. subst new. cbn [pk_width digital] in Hb. unfold byte_cells.
  cbn [pk_empty pk_cells digital] in *. unfold draw_bin.
  destruct (radii (rad_scale h) total 1 Hs Ht ltac:(lia) Hb) as (-> & -> & _ & _ & F2 & B2 & Z2). cbn [obind].
  destruct (Z.ltb_spec y 2); [intros _; cbn; by rewrite app_nil_r|]. specialize (Hv eq_refl).
  rewrite (kept_one _ _ v _ (arc_code _ _ _ _) Hv). intros Hn. rewrite Hlv by lia. cbn [obind]. rewrite Hv.
  destruct (filtered pm v); [by rewrite app_nil_r|]. rewrite zlen_map in Hn. fold (theta2_of rp). by rewrite draw_arc.
Qed.
End drawing.

(** ** Whole radials *)

(** radials whose bytes satisfy [P] and whose bins are not too many *)
Definition radials_ok (k : packet) (scale : Z) (P : Z -> Prop) (rs : list (nids_radial_packet_st * list Z)) : Prop :=
  Forall (fun r => radial_ok r.1 /\ Forall (fun y => is_byte y /\ P y) r.2 /\ bins_of k r.2 * scale < 2 ^ 31) rs.

Section folding.
Context {S : Type} (k : packet) (scale : Z) (Hscale : 0 <= scale) (P : Z -> Prop).
Context (f : nids_radial_packet_st -> Z -> Z -> S -> outcome (option (Z * S))).
Context (size : S -> Z) (sz : list cell -> Z) (add : S -> list cell -> S) (M : Z).
Context (sz_nonneg : forall a, 0 <= sz a) (sz_app : forall a b, sz (a ++ b) = sz a + sz b).
Context (add_nil : forall s, add s [] = s) (add_app : forall s a b, add (add s a) b = add s (a ++ b)).
Context (size_add : forall s a, size (add s a) = size s + sz a).
Context (Hwidth : forall y, is_byte y -> 0 <= pk_width k y).
Context (Hf : forall rp y total s, radial_ok rp -> byte_ok k scale y total -> P y -> size s + sz (byte_cells k scale rp y total) <= M ->
  f rp y total s = Done (Some (total + pk_width k y, add s (byte_cells k scale rp y total)))).

Lemma bins_nonneg l : Forall (fun y => is_byte y /\ P y) l -> 0 <= bins_of k l.
Proof using Hwidth. induction 1 as [|y l [Hy _] _ IH]; cbn; [lia|]. specialize (Hwidth y Hy). fold (bins_of k l). lia. Qed.

Lemma fold_bytes_cells rp l : radial_ok rp -> Forall (fun y => is_byte y /\ P y) l -> forall total s, 0 <= total ->
  (total + bins_of k l) * scale < 2 ^ 31 -> size s + sz (bytes_cells k scale rp l total) <= M ->
  fold_bytes f rp l total s = Done (Some (add s (bytes_cells k scale rp l total))).
Proof using All.
  intros Hrp. induction 1 as [|y l [Hy Py] Hl IH]; intros total s Ht Hb Hn; cbn [fold_bytes bytes_cells] in *; [by rewrite add_nil|].
  change (bins_of k (y :: l)) with (pk_width k y + bins_of k l) in Hb. pose proof (bins_nonneg l Hl). pose proof (Hwidth y Hy).
  fold (byte_cells k scale rp y total) in *. rewrite sz_app in Hn. pose proof (sz_nonneg (bytes_cells k scale rp l (total + pk_width k y))).
  rewrite Hf; [|done| |done|lia].
  - cbn [obind]. rewrite IH, add_app; [done|lia| |rewrite size_add; lia]. by rewrite <- Z.add_assoc.
  - split; [exact Hy|done|done|]. nia.
Qed.

Lemma fold_radials_cells rs : radials_ok k scale P rs -> forall s, size s + sz (radials_cells k scale rs) <= M ->
  fold_radials f rs s = Done (Some (add s (radials_cells k scale rs))).
Proof using All.
  induction 1 as [|[rp l] rs (Hrp & Hl & Hb) _ IH]; intros s Hn; cbn [fold_radials]; [by rewrite <- (add_nil s) at 1|].
  unfold radials_cells in *. cbn [flat_map fst snd] in *. rewrite sz_app in Hn.
  pose proof (sz_nonneg (flat_map (fun r => bytes_cells k scale r.1 r.2 0) rs)).
  rewrite fold_bytes_cells; [|done|done|done|by rewrite Z.add_0_l|lia]. cbn [obind]. rewrite IH, add_app; [done|rewrite size_add; lia].
Qed.
End folding.

Lemma width_af1f y : is_byte y -> 0 <= pk_width af1f y.
Proof. intros H. apply (run_width y H). Qed.
Lemma width_digital y : is_byte y -> 0 <= pk_width digital y.
Proof. cbn. lia. Qed.

Lemma radials_ok_weaken k scale (P Q : Z -> Prop) rs : (forall y, P y -> Q y) -> radials_ok k scale P rs -> radials_ok k scale Q rs.
Proof.
  intros H. apply List.Forall_impl. intros r (H1 & H2 & H3). split; [done|]. split; [|done].
  eapply List.Forall_impl; [|exact H2]. cbn. intros y [? ?]. auto.
Qed.

(** the first pass *)
Lemma count_all k scale (count : nids_radial_packet_st -> Z -> Z -> Z -> outcome (Z * Z)) rs :
  0 <= scale -> (forall y, is_byte y -> 0 <= pk_width k y) ->
  (forall rp y total n, radial_ok rp -> byte_ok k scale y total -> n + zlen (byte_cells k scale rp y total) < 2 ^ 31 ->
     count rp y total n = Done (total + pk_width k y, n + zlen (byte_cells k scale rp y total))) ->
  radials_ok k scale (fun _ => True) rs -> zlen (radials_cells k scale rs) < 2 ^ 31 ->
  fold_radials (fun rp y total n => never (count rp y total n)) rs 0 = Done (Some (zlen (radials_cells k scale rs))).
Proof.
  intros Hs Hw Hc Hr Hn.
  apply (fold_radials_cells k scale Hs (fun _ => True) _ (fun n => n) zlen (fun n a => n + zlen a) (2 ^ 31 - 1)); try done.
  - intros a. apply zlen_nonneg.
  - intros a b. apply zlen_app.
  - intros s. apply Z.add_0_r.
  - intros s a b. rewrite zlen_app. lia.
  - intros rp y total s H1 H2 _ H3. rewrite Hc; [done..|]. lia.
  - lia.
Qed.

(** the second pass *)
Lemma draw_all {LM : Libm} h pm k lv alloc draw rs :
  0 <= rad_scale h -> (forall y, is_byte y -> 0 <= pk_width k y) ->
  (forall rp y total ps v, radial_ok rp -> byte_ok k (rad_scale h) y total -> (pk_empty k y = false -> lv (pk_code k y) = Some v) ->
     let new := kept h pm lv (byte_cells k (rad_scale h) rp y total) in zlen ps + zlen new <= alloc ->
     draw rp y total ps = Done (Some (total + pk_width k y, ps ++ new))) ->
  radials_ok k (rad_scale h) (fun y => pk_empty k y = false -> is_Some (lv (pk_code k y))) rs ->
  zlen (radials_cells k (rad_scale h) rs) <= alloc ->
  fold_radials draw rs [] = Done (Some (kept h pm lv (radials_cells k (rad_scale h) rs))).
Proof.
  intros Hs Hw Hd Hr Hn.
  change (kept h pm lv (radials_cells k (rad_scale h) rs)) with ([] ++ kept h pm lv (radials_cells k (rad_scale h) rs)).
  apply (fold_radials_cells k (rad_scale h) Hs (fun y => pk_empty k y = false -> is_Some (lv (pk_code k y))) _ zlen
    (fun a => zlen (kept h pm lv a)) (fun ps a => ps ++ kept h pm lv a) alloc); try done.
  - intros a. apply zlen_nonneg.
  - intros a b. by rewrite kept_app, zlen_app.
  - intros s. apply app_nil_r.
  - intros s a b. by rewrite kept_app, <- app_assoc.
  - intros s a. apply zlen_app.
  - intros rp y total s H1 H2 H3 H4. destruct (pk_empty k y) eqn:E; [apply (Hd rp y total s 0); congruence || done|].
    destruct (H3 eq_refl) as [v Hv]. by apply (Hd rp y total s v).
  - pose proof (kept_length h pm lv (radials_cells k (rad_scale h) rs)). change (@zlen dcnids_polygon_st []) with 0. lia.
Qed.

(** ** The two kinds of packets *)

Definition packet_of (dig : bool) : packet := if dig then digital else af1f.
Definition decode_of {LM : Libm} {Hp : Heap} (dig : bool) (d : list Z) (h : nids_radials) (pm : dcnids_polygon_map_st) :=
  if dig then nids_decode_digital_radials_16 d h pm else nids_decode_radials_af1f d h pm.

(** the level of a code *)
Definition digital_lv (pdb_code pdb_mode y : Z) : option Z :=
  if pdb_code =? NIDS_PDB_CODE_NXQ then digital_bref_codetolevel pdb_mode y
  else if pdb_code =? NIDS_PDB_CODE_NXU then Some (Z.quot (y - 128) 2)
  else None.
Definition level_of (dig : bool) (h : nids_radials) : Z -> option Z :=
  (if dig then digital_lv else af1f_level) (rad_pdb_code h) (rad_pdb_mode h).

(** the products that the decoder knows *)
Definition supported (dig : bool) (h : nids_radials) : bool :=
  let mode_ok := (rad_pdb_mode h =? NIDS_PDB_MODE_PRECIPITATION) || (rad_pdb_mode h =? NIDS_PDB_MODE_CLEAR) in
  let known c := rad_pdb_code h =? c in
  if dig then (if known NIDS_PDB_CODE_NXQ then mode_ok else known NIDS_PDB_CODE_NXU)
  else if known NIDS_PDB_CODE_NXR || known NIDS_PDB_CODE_N0Z then mode_ok
  else known NIDS_PDB_CODE_NXV || (known NIDS_PDB_CODE_NXP || known NIDS_PDB_CODE_NTP) || known NIDS_PDB_CODE_NXS.

Lemma nibble n : 0 <= n < 16 -> In n [0; 1; 2; 3; 4; 5; 6; 7; 8; 9; 10; 11; 12; 13; 14; 15].
Proof. intros H. cbn. lia. Qed.

Lemma low_nibble y : 0 <= Z.land y 15 < 16.
Proof. change 15 with (Z.ones 4). rewrite Z.land_ones by done. by apply Z.mod_pos_bound. Qed.

Lemma bref_some mode n : (mode =? NIDS_PDB_MODE_PRECIPITATION) || (mode =? NIDS_PDB_MODE_CLEAR) = true ->
  is_Some (nids_decode_bref_codetolevel mode n) /\ is_Some (digital_bref_codetolevel mode n).
Proof.
  unfold nids_decode_bref_codetolevel, digital_bref_codetolevel. intros H. rewrite H.
  destruct (mode =? NIDS_PDB_MODE_PRECIPITATION); [by split; eexists|]. cbn [orb] in H. rewrite H. by split; eexists.
Qed.

Lemma tables_some n : 0 <= n < 16 ->
  is_Some (nids_decode_rvel_codetolevel n) /\ is_Some (nids_decode_nxp_codetolevel n) /\ is_Some (nids_decode_srvel_codetolevel n).
Proof. intros H%nibble. cbn [In] in H. by repeat (destruct H as [<-|H]; [by split_and!; eexists|]). Qed.

Lemma supported_level dig h y : supported dig h = true -> is_Some (level_of dig h (pk_code (packet_of dig) y)).
Proof.
  unfold supported, level_of. intros H. destruct dig; cbn [packet_of pk_code digital af1f]; [unfold digital_lv|unfold af1f_level].
  - destruct (_ =? NIDS_PDB_CODE_NXQ); [by apply bref_some|]. rewrite H. by eexists.
  - destruct (tables_some _ (low_nibble y)) as (H1 & H2 & H3). destruct (_ || (_ =? NIDS_PDB_CODE_N0Z)); [by apply bref_some|].
    destruct (_ =? NIDS_PDB_CODE_NXV); [done|]. cbn [orb] in H. destruct (_ || (_ =? NIDS_PDB_CODE_NTP)); [done|]. cbn [orb] in H. by rewrite H.
Qed.

(** the level of a digital velocity, which the code computes with doubles *)
Lemma digital_rvel_value y : is_byte y -> digital_rvel_codetolevel y = Done (Z.quot (y - 128) 2).
Proof.
  assert (forallb (fun n => let y := Z.of_nat n in
    match digital_rvel_codetolevel y with Done l => l =? Z.quot (y - 128) 2 | _ => false end) (seq 0 256) = true) as H by (vm_compute; reflexivity).
  intros Hy. rewrite forallb_forall in H. unfold is_byte in Hy. specialize (H (Z.to_nat y) (proj2 (in_seq 256 0 (Z.to_nat y)) ltac:(lia))). cbv zeta in H.
  rewrite Z2Nat.id in H by lia. destruct (digital_rvel_codetolevel y); [|done..]. by apply Z.eqb_eq in H as ->.
Qed.

Lemma digital_level_value h y : is_byte y -> digital_level (rad_pdb_code h) (rad_pdb_mode h) y = Done (level_of true h y).
Proof.
  intros Hy. unfold digital_level, level_of, digital_lv. destruct (_ =? NIDS_PDB_CODE_NXQ); [done|].
  destruct (_ =? NIDS_PDB_CODE_NXU); [|done]. by rewrite digital_rvel_value.
Qed.

Lemma read_radials_ok per d n : forall b rs, bytes d -> read_radials per d n b = Done rs ->
  Forall (fun r => radial_ok r.1 /\ bytes r.2) rs.
Proof.
  induction n as [|n IH]; intros b rs Hd; cbn [read_radials]; [by intros [= <-]|].
  destruct (read_radial d b) as [rp| |] eqn:Er; cbn [obind]; try done. destruct (read_radial_ok d b rp Er) as [Hrp _].
  destruct (rdn d (b + 6) (num_rle_halfwords rp * per)) as [l| |] eqn:El; cbn [obind]; try done.
  destruct (read_radials per d n _) as [rs'| |] eqn:Ers; cbn [obind]; try done. intros [= <-].
  constructor; [|by apply (IH _ _ Hd Ers)]. cbn. apply rdn_inv in El as (_ & _ & _ & ->). split; [done|]. by apply bytes_zsub.
Qed.

Section decoded.
Context {LM : Libm} {Hp : Heap}.

(** the cells of all the radials, and the polygons of those that are kept *)
Definition all_cells (dig : bool) (h : nids_radials) (rs : list (nids_radial_packet_st * list Z)) : list cell :=
  radials_cells (packet_of dig) (rad_scale h) rs.
Definition all_polygons (dig : bool) (h : nids_radials) (pm : dcnids_polygon_map_st) rs : list dcnids_polygon_st :=
  kept h pm (level_of dig h) (all_cells dig h rs).

Lemma decode_spec dig d h pm rs : bytes d -> 0 <= rad_scale h -> supported dig h = true ->
  read_radials (pk_per (packet_of dig)) d (Z.to_nat (rad_numradials h)) NIDS_PACKET_RADIALS_START_RUNS = Done rs ->
  Forall (fun r => bins_of (packet_of dig) r.2 * rad_scale h < 2 ^ 31) rs ->
  let n := zlen (all_cells dig h rs) in n < 2 ^ 31 -> malloc_ok (72 * n) = true ->
  let ps := all_polygons dig h pm rs in
  decode_of dig d h pm = Done (Some (dcnids_polygonmap_bb (set_polygons ps (zlen ps) pm))).
Proof.
  intros Hd Hs Hsup Hrs Hbins n Hn Hm ps.
  assert (radials_ok (packet_of dig) (rad_scale h) (fun y => pk_empty (packet_of dig) y = false ->
    is_Some (level_of dig h (pk_code (packet_of dig) y))) rs) as Hok.
  { apply list.Forall_forall. intros r Hr. pose proof (proj1 (list.Forall_forall _ _) (read_radials_ok _ _ _ _ _ Hd Hrs) r Hr) as [H1 H2].
    split; [done|]. split; [|by apply (proj1 (list.Forall_forall _ _) Hbins r Hr)].
    eapply List.Forall_impl; [|exact H2]. intros y Hy. split; [exact Hy|]. intros _. by apply supported_level. }
  pose proof (radials_ok_weaken _ _ _ (fun _ => True) _ (fun _ _ => I) Hok) as Hok'.
  unfold all_cells in n.
  destruct dig; cbn [packet_of decode_of] in *; unfold nids_decode_digital_radials_16, nids_decode_radials_af1f, decode_radials,
    nids_count_polygons_radials_16, nids_count_polygons_radials_af1f.
  - rewrite (walk_fold _ 1 d _ _ _ rs) by done. rewrite (count_all digital (rad_scale h) (count_bin (rad_scale h)) rs Hs width_digital (count_bin_spec _) Hok' Hn).
    cbn [obind]. fold n. rewrite Hm. cbn [negb]. rewrite (walk_fold _ 1 d _ _ _ rs) by done.
    rewrite (draw_all h pm digital (level_of true h) n (draw_bin n h pm) rs Hs width_digital); [| |exact Hok|done].
    { pose proof (proj2 (Z.leb_le _ _) (kept_length h pm (level_of true h) (radials_cells digital (rad_scale h) rs))) as Hle.
      fold n in Hle. cbn [obind]. by rewrite Hle. }
    intros rp y total ps0 v Hrp Hy Hv. apply draw_bin_spec with (v := v); try done. intros z Hz. apply digital_level_value. unfold is_byte. lia.
  - rewrite (walk_fold _ 2 d _ _ _ rs) by done. rewrite (count_all af1f (rad_scale h) (count_run (rad_scale h)) rs Hs width_af1f (count_run_spec _) Hok' Hn).
    cbn [obind]. fold n. rewrite Hm. cbn [negb]. rewrite (walk_fold _ 2 d _ _ _ rs) by done.
    rewrite (draw_all h pm af1f (level_of false h) n (draw_run n h pm) rs Hs width_af1f); [| |exact Hok|done].
    { pose proof (proj2 (Z.leb_le _ _) (kept_length h pm (level_of false h) (radials_cells af1f (rad_scale h) rs))) as Hle.
      fold n in Hle. cbn [obind]. by rewrite Hle. }
    intros rp y total ps0 v Hrp Hy Hv. by apply draw_run_spec with (v := v).
Qed.
End decoded.

(** ** Compressed data *)

Section compressed.
Context {Hp : Heap} {BZ : Bzlib}.
Context (data out : list Z).
Context (Hmalloc : forall n, 0 <= n <= 2 ^ 31 -> malloc_ok n = true).
(** libbz2 gives the data when they fit *)
Context (Hbz : forall n, bz_decompress data n = if zlen out <=? n then BzOk out else BzFull).

Lemma bunz_fits fuel : forall i, 0 <= i -> i < 32 -> 32 <= i + Z.of_nat fuel -> zlen out <= 2 ^ 31 ->
  bunz_loop fuel data (2 ^ i) = Some (0, out).
Proof using Hmalloc Hbz.
  induction fuel as [|fuel IH]; intros i H1 H2 H3 H4; cbn [bunz_loop]; [lia|].
  rewrite Hmalloc, Hbz by (split; [by apply Z.pow_nonneg|apply Z.pow_le_mono_r; lia]). cbn [negb].
  destruct (Z.leb_spec (zlen out) (2 ^ i)) as [|Hgt]; [done|]. assert (i <> 31) by (intros ->; lia).
  rewrite Z.mul_comm, <- Z.pow_succ_r by done. rewrite u32_small; [apply IH; lia|].
  split; [by apply Z.pow_nonneg|]. change 4294967296 with (2 ^ 32). apply Z.pow_lt_mono_r; lia.
Qed.

(** the size is a power of two, or zero after the last one *)
Lemma bunz_endless fuel : forall size, size = 0 \/ (exists i, 0 <= i < 32 /\ size = 2 ^ i) -> 2 ^ 31 < zlen out -> bunz_loop fuel data size = None.
Proof using Hmalloc Hbz.
  induction fuel as [|fuel IH]; intros size Hs Hlen; cbn [bunz_loop]; [done|].
  assert (0 <= size <= 2 ^ 31) as Hle.
  { destruct Hs as [->|(i & Hi & ->)]; [done|]. split; [by apply Z.pow_nonneg|apply Z.pow_le_mono_r; lia]. }
  rewrite Hmalloc, Hbz by done. cbn [negb].
  destruct (Z.leb_spec (zlen out) size); [lia|]. apply IH; [|done]. destruct Hs as [->|(i & Hi & ->)]; [by left|].
  rewrite Z.mul_comm, <- Z.pow_succ_r by lia. destruct (Z.eq_dec i 31) as [->|Hne]; [by left|right]. exists (Z.succ i). split; [lia|].
  apply u32_small. split; [apply Z.pow_nonneg; lia|]. change 4294967296 with (2 ^ 32). apply Z.pow_lt_mono_r; lia.
Qed.

(** C40: Expanding the data. When memory is available and libbz2 expands the data
    to what fits in the storage, the loop gives them after at most 14 turns, when
    there are no more than 2 ^ 31 bytes. Beyond that it never ends: the size is
    doubled to zero, and then it stays there. *)
Theorem bunz_expands fuel : (14 <= fuel)%nat ->
  dcnids_bunz fuel data = if zlen out <=? 2 ^ 31 then Some (0, out) else None.
Proof using Hmalloc Hbz.
  intros Hf. unfold dcnids_bunz. change DCNIDS_BUNZ_BUFFER_SIZE with (2 ^ 18). destruct (Z.leb_spec (zlen out) (2 ^ 31)).
  - apply bunz_fits; lia.
  - apply bunz_endless; [right; by exists 18|done].
Qed.
End compressed.

(** ** The box *)

Definition least (x y : double) : double := if dlt y x then y else x.
Definition greatest (x y : double) : double := if dlt x y then y else x.

Definition points (ps : list dcnids_polygon_st) : list (double * double) := flat_map (fun p => zip (pg_lon p) (pg_lat p)) ps.

Lemma fold_points ps : forall b, fold_left (fun b p => fold_left bb_point (zip (pg_lon p) (pg_lat p)) b) ps b = fold_left bb_point (points ps) b.
Proof. induction ps as [|p ps IH]; intros b; cbn; [done|]. unfold points in *. cbn [flat_map]. by rewrite fold_left_app, IH. Qed.

Lemma fold_box l : forall x0 y0 x1 y1, fold_left bb_point l (x0, y0, x1, y1) =
  (fold_left least l.*1 x0, fold_left least l.*2 y0, fold_left greatest l.*1 x1, fold_left greatest l.*2 y1).
Proof. induction l as [|[a b] l IH]; intros; cbn [fold_left]; [done|]. cbn [bb_point]. rewrite IH. done. Qed.

Lemma fold_least l : forall x, dfin x -> Forall dfin l -> let r := fold_left least l x in
  dfin r /\ (r = x \/ r ∈ l) /\ dval r <= dval x /\ Forall (fun y => dval r <= dval y) l.
Proof.
  induction l as [|y l IH]; intros x Hx; [intros _; cbn; split_and!; [done|by left|lia|constructor]|]. intros [Hy Hl]%Forall_cons_iff.
  cbn [fold_left]. assert (dfin (least x y) /\ (least x y = x \/ least x y = y) /\ dval (least x y) <= dval x /\ dval (least x y) <= dval y) as (H1 & H2 & H3 & H4).
  { unfold least. rewrite dlt_spec by done. destruct (Z.ltb_spec (dval y) (dval x)); split_and!; try done; try lia; [by right|by left]. }
  destruct (IH (least x y) H1 Hl) as (K1 & K2 & K3 & K4). split; [done|]. split; [|split; [lia|]].
  - destruct K2 as [->|K2]; [|by right; right]. destruct H2 as [->| ->]; [by left|right; by left].
  - constructor; [lia|done].
Qed.

Lemma fold_greatest l : forall x, dfin x -> Forall dfin l -> let r := fold_left greatest l x in
  dfin r /\ (r = x \/ r ∈ l) /\ dval x <= dval r /\ Forall (fun y => dval y <= dval r) l.
Proof.
  induction l as [|y l IH]; intros x Hx; [intros _; cbn; split_and!; [done|by left|lia|constructor]|]. intros [Hy Hl]%Forall_cons_iff.
  cbn [fold_left]. assert (dfin (greatest x y) /\ (greatest x y = x \/ greatest x y = y) /\ dval x <= dval (greatest x y) /\ dval y <= dval (greatest x y))
    as (H1 & H2 & H3 & H4).
  { unfold greatest. rewrite dlt_spec by done. destruct (Z.ltb_spec (dval x) (dval y)); split_and!; try done; try lia; [by right|by left]. }
  destruct (IH (greatest x y) H1 Hl) as (K1 & K2 & K3 & K4). split; [done|]. split; [|split; [lia|]].
  - destruct K2 as [->|K2]; [|by right; right]. destruct H2 as [->| ->]; [by left|right; by left].
  - constructor; [lia|done].
Qed.

Lemma fold_greatest_start l : forall x, dfin x -> Forall dfin l -> Forall (fun y => dval y <= dval x) l -> fold_left greatest l x = x.
Proof.
  induction l as [|y l IH]; intros x Hx; cbn [fold_left]; [done|]. intros [Hy Hl]%Forall_cons_iff [Hle Hl']%Forall_cons_iff.
  assert (greatest x y = x) as -> by (unfold greatest; rewrite dlt_spec by done; by destruct (Z.ltb_spec (dval x) (dval y)); [lia|]). auto.
Qed.

Lemma box_start : dfin (d_of_Z 180) /\ dfin (d_of_Z (-180)).
Proof. split; vm_compute; reflexivity. Qed.

(** [r] is the least of the coordinates [l], when some of them is not beyond the
    initial value [start]; otherwise it is that value *)
Definition least_of (start r : double) (l : list double) : Prop :=
  Forall (fun y => dval r <= dval y) l /\ (r = start \/ r ∈ l) /\
  (Exists (fun y => dval y <= dval start) l -> Exists (fun y => dval r = dval y) l).
Definition greatest_of (start r : double) (l : list double) : Prop :=
  Forall (fun y => dval y <= dval r) l /\ (r = start \/ r ∈ l) /\
  (Exists (fun y => dval start <= dval y) l -> Exists (fun y => dval r = dval y) l).

Lemma fold_least_of l x : dfin x -> Forall dfin l -> least_of x (fold_left least l x) l.
Proof.
  intros Hx Hl. destruct (fold_least l x Hx Hl) as (_ & H1 & _ & H2). split_and!; [done..|]. rewrite !list.Exists_exists. intros (y & Hy & Hle).
  rewrite list.Forall_forall in H2. pose proof (H2 y Hy). destruct H1 as [E|Hin]; [|by eexists; split; [exact Hin|]].
  exists y. split; [done|]. rewrite E in *. lia.
Qed.
Lemma fold_greatest_of l x : dfin x -> Forall dfin l -> greatest_of x (fold_left greatest l x) l.
Proof.
  intros Hx Hl. destruct (fold_greatest l x Hx Hl) as (_ & H1 & _ & H2). split_and!; [done..|]. rewrite !list.Exists_exists. intros (y & Hy & Hle).
  rewrite list.Forall_forall in H2. pose proof (H2 y Hy). destruct H1 as [E|Hin]; [|by eexists; split; [exact Hin|]].
  exists y. split; [done|]. rewrite E in *. lia.
Qed.

(** the values that are not numbers *)
Lemma greatest_stays x l : x = S754_nan \/ x = S754_infinity false -> Forall dfin l -> fold_left greatest l x = x.
Proof.
  intros Hx. induction 1 as [|y l Hy _ IH]; [done|]. cbn [fold_left].
  assert (greatest x y = x) as -> by (by destruct Hx as [-> | ->], y as [[]|[]| |[]]). done.
Qed.
Lemma greatest_from_below l : l <> [] -> Forall dfin l ->
  let r := fold_left greatest l (S754_infinity true) in r ∈ l /\ Forall (fun y => dval y <= dval r) l.
Proof.
  intros Hne Hl. destruct Hl as [|y l Hy Hl]; [done|]. cbn [fold_left].
  assert (greatest (S754_infinity true) y = y) as -> by (by destruct y as [[]|[]| |[]]).
  destruct (fold_greatest l y Hy Hl) as (_ & H1 & H2 & H3). cbn zeta. split; [|by constructor].
  destruct H1 as [-> |H1]; [by left|by right].
Qed.

(** C39: The box of the polygons, whose coordinates are finite. The points are
    not west, south or east of the box, and these limits are the coordinates of
    some points, unless all the points are beyond the initial 180 or -180 degrees,
    or there are none, and then the limits are those. The northern limit starts
    with what the memory holds, because the code sets the eastern one twice
    instead. If that is a finite number the limit is the largest of it and of the
    latitudes, so it is north of the points, and it stays if it is beyond them; if
    it is not a number, or infinite, it stays; if it is minus infinity and there
    are points, the limit is right. *)
Theorem bounding_box pm : let ps := points (polygons pm) in
  numpolygons pm = zlen (polygons pm) -> Forall (fun p => dfin p.1 /\ dfin p.2) ps ->
  let b := dcnids_polygonmap_bb pm in
  least_of (d_of_Z 180) (lon_min b) ps.*1 /\ least_of (d_of_Z 180) (lat_min b) ps.*2 /\ greatest_of (d_of_Z (-180)) (lon_max b) ps.*1 /\
  (dfin (lat_max pm) -> greatest_of (lat_max pm) (lat_max b) ps.*2 /\
     (Forall (fun y => dval y <= dval (lat_max pm)) ps.*2 -> lat_max b = lat_max pm)) /\
  (lat_max pm = S754_nan \/ lat_max pm = S754_infinity false -> lat_max b = lat_max pm) /\
  (lat_max pm = S754_infinity true -> ps <> [] -> lat_max b ∈ ps.*2 /\ Forall (fun y => dval y <= dval (lat_max b)) ps.*2) /\
  (ps = [] -> lon_min b = d_of_Z 180 /\ lat_min b = d_of_Z 180 /\ lon_max b = d_of_Z (-180) /\ lat_max b = lat_max pm) /\
  polygons b = polygons pm.
Proof.
  intros l Hn Hf b. destruct box_start as [S1 S2]. subst b. unfold dcnids_polygonmap_bb. rewrite Hn, ztake_ge by lia.
  rewrite fold_points, fold_box. fold l.
  assert (Forall dfin l.*1) as F1 by (apply Forall_map; eapply List.Forall_impl; [|exact Hf]; by intros p []).
  assert (Forall dfin l.*2) as F2 by (apply Forall_map; eapply List.Forall_impl; [|exact Hf]; by intros p []).
  cbn [lon_min lon_max lat_min lat_max set_box polygons].
  split_and!; [by apply fold_least_of|by apply fold_least_of|by apply fold_greatest_of| | | | |done].
  - intros Hm. split; [by apply fold_greatest_of|]. by apply fold_greatest_start.
  - intros Hm. by apply greatest_stays.
  - intros -> Hne. apply greatest_from_below; [|done]. intros E. by apply fmap_nil_inv in E.
  - by intros ->.
Qed.

(** ** The program *)

Lemma extract16_total (d : list Z) b h : 0 <= b + (h - 1) * 2 -> b + (h - 1) * 2 + 1 < zlen d -> exists r, extract_uint16 d b h = Done r.
Proof.
  intros H1 H2. unfold extract_uint16. destruct (rd_total d (b + (h - 1) * 2)) as [x ->]; [lia|].
  destruct (rd_total d (b + (h - 1) * 2 + 1)) as [y ->]; [lia|]. by eexists.
Qed.

Lemma extract32_total (d : list Z) b h : 0 <= b + (h - 1) * 2 -> b + (h - 1) * 2 + 3 < zlen d -> exists r, extract_uint32 d b h = Done r.
Proof.
  intros H1 H2. unfold extract_uint32. destruct (rd_total d (b + (h - 1) * 2)) as [x ->]; [lia|].
  destruct (rd_total d (b + (h - 1) * 2 + 1)) as [y ->]; [lia|]. destruct (rd_total d (b + (h - 1) * 2 + 2)) as [z ->]; [lia|].
  destruct (rd_total d (b + (h - 1) * 2 + 3)) as [w ->]; [lia|]. by eexists.
Qed.

(** the header of a file that can be read at once *)
Lemma read_header_spec buffer data : zlen buffer = WMOAWIPS_HEADER_SIZE + NIDS_HEADER_SIZE ->
  (exists c r, buffer = c :: r /\ isalnum c = true) -> data <> [] ->
  dcnids_read_header (Fd [EvData (buffer ++ data)] [] []) 0 = Done (0, buffer, Fd [EvData data] [] []).
Proof.
  unfold WMOAWIPS_HEADER_SIZE, NIDS_HEADER_SIZE. intros Hl (c & r & -> & Hc) Hd. rewrite zlen_cons in Hl.
  assert (0 < zlen data) as Hp by (destruct data; [done|rewrite zlen_cons; pose proof (zlen_nonneg data); lia]).
  unfold dcnids_read_header. cbn [Z.eqb negb]. unfold sys_read at 1. cbn [events]. change ((c :: r) ++ data) with (c :: (r ++ data)).
  pose proof (zlen_nonneg (r ++ data)). assert (0 < zlen (r ++ data)) by (rewrite zlen_app; lia).
  destruct (Z.leb_spec (zlen (c :: r ++ data)) 1) as [Hle|_]; [rewrite zlen_cons in Hle; lia|].
  rewrite Z.min_l by (rewrite zlen_cons; lia). change (ztake 1 (c :: r ++ data)) with [c]. change (zdrop 1 (c :: r ++ data)) with (r ++ data).
  change (negb (1 =? 1)) with false. cbv iota. unfold WMOAWIPS_HEADER_SIZE, NIDS_HEADER_SIZE. change (Z.to_nat (30 + 120)) with 150%nat.
  rewrite wr_0 by (change (zlen [c]) with 1; rewrite zlen_replicate; lia). cbn [obind]. change (rd ([c] ++ zdrop (zlen [c]) (replicate 150 0)) 0) with (Done c). cbn [obind]. rewrite Hc. cbn [negb].
  cbn [Z.eqb negb]. unfold sys_read. cbn [events set_events intr sent]. change (30 + 120 - 1) with 149.
  rewrite zlen_app in *. rewrite Z.min_l by lia. rewrite ztake_app_exact by lia. rewrite zdrop_app_exact by lia.
  destruct (Z.leb_spec (zlen r + zlen data) 149); [lia|]. change (149 =? -1) with false. cbv iota.
  rewrite (wr_app [c]); [|done|change (zlen (zdrop (zlen [c]) (replicate 150 0))) with 149; lia]. cbn [obind]. change (149 <? 149) with false.
  do 3 f_equal. cbn [app]. f_equal. rewrite zdrop_ge by (change (zlen (zdrop (zlen [c]) (replicate 150 0))) with 149; lia). by rewrite app_nil_r.
Qed.

Lemma readf_spec data mem : zlen mem = zlen data -> data <> [] ->
  readf (Fd [EvData data] [] []) mem (zlen data) = Done (zlen data, data, Fd [] [] []).
Proof.
  intros Hm Hd. assert (0 < zlen data) as Hp by (destruct data; [done|rewrite zlen_cons; pose proof (zlen_nonneg data); lia]).
  unfold readf. cbn [readf_loop]. destruct (Z.leb_spec (zlen data) 0); [lia|]. unfold sys_read. cbn [events].
  rewrite Z.min_id, Z.leb_refl, ztake_ge by lia. destruct (Z.eqb_spec (zlen data) (-1)), (Z.eqb_spec (zlen data) 0); try lia.
  rewrite wr_0 by lia. rewrite zdrop_ge, app_nil_r by lia. cbn [obind]. rewrite Z.sub_diag, Z.add_0_l.
  destruct (length (stream _)); done.
Qed.

Lemma supported_levels o dig h pm : supported dig h = true -> exists pm', set_levels o (rad_pdb_code h) pm = Some pm' /\
  (opt_filter o = 1 -> flag_usefilter pm' = 1) /\ polygons pm' = polygons pm /\ lat_max pm' = lat_max pm.
Proof.
  intros H. unfold set_levels. destruct (Z.eqb_spec (opt_filter o) 1) as [E|E]; cbn [negb].
  2: { eexists. split; [reflexivity|]. split; [intros E2; contradiction|done]. }
  assert (exists p, default_levels (rad_pdb_code h) = Some p) as [[lo hi] ->].
  { unfold supported in H. cbv beta zeta in H. unfold default_levels. destruct (rad_pdb_code h =? NIDS_PDB_CODE_NXR); [by eexists|].
    destruct (rad_pdb_code h =? NIDS_PDB_CODE_N0Z); [by eexists|]. destruct (rad_pdb_code h =? NIDS_PDB_CODE_NXQ); [by eexists|]. cbn [orb] in *.
    destruct (rad_pdb_code h =? NIDS_PDB_CODE_NXV); [by eexists|]. destruct (rad_pdb_code h =? NIDS_PDB_CODE_NXU); [by eexists|]. cbn [orb] in *.
    destruct dig; [done|]. destruct (_ || (_ =? NIDS_PDB_CODE_NTP)); [by eexists|]. cbn [orb] in H. rewrite H. by eexists. }
  destruct (negb (_ =? _)); eexists; by split_and!.
Qed.

(** the level of a polygon that is kept *)
Lemma kept_levels {LM : Libm} h pm lv cs : flag_usefilter pm = 1 ->
  Forall (fun p => level_min pm <= pg_level p <= level_max pm) (kept h pm lv cs).
Proof.
  intros Hf. unfold kept. induction cs as [|c cs IH]; [constructor|]. cbn [omap list_omap].
  destruct (lv (cell_code c)) as [v|]; [|done]. destruct (filtered pm v) eqn:E; [done|]. constructor; [|done].
  unfold filtered in E. rewrite Hf in E. cbn in E. apply orb_false_iff in E as [E1%Z.ltb_ge E2%Z.ltb_ge]. cbn. lia.
Qed.

Lemma while_no_abrt {S} k (cond : S -> bool) body : (forall s, body s <> Abrt) -> forall s, while k cond body s <> Abrt.
Proof.
  intros Hb. induction k as [|k IH]; intros s; cbn [while].
  - destruct (cond s); [|done]. specialize (Hb s). by destruct (body s).
  - specialize (IH s) as H1. destruct (while k cond body s) as [[s' []]| |]; cbn [obind]; try done.
Qed.

Lemma while64_no_abrt {S} (cond : S -> bool) body s : (forall s, body s <> Abrt) -> while64 cond body s <> Abrt.
Proof.
  intros Hb. unfold while64. pose proof (while_no_abrt 64 cond body Hb s) as H.
  destruct (while 64 cond body s) as [[s' []]| |]; cbn [obind]; try done. by destruct (cond s').
Qed.

Lemma count_thetas_no_abrt t1 t2 dt n : count_thetas t1 t2 dt n <> Abrt.
Proof.
  unfold count_thetas. match goal with |- obind (while64 ?c ?b ?s) _ <> _ => pose proof (while64_no_abrt c b s) as H; destruct (while64 c b s) end;
    cbn [obind]; [done| |done]. intros _. apply H; [|done]. intros [x m]. unfold incr. by destruct (_ <? _).
Qed.

Lemma count_run_no_abrt scale rp y total n : count_run scale rp y total n <> Abrt.
Proof.
  unfold count_run. destruct (_ =? 0); [done|]. unfold bins_radius. destruct (_ <? _); [|done]. destruct (_ <? _); [|done]. cbn [obind].
  match goal with |- obind (while64 ?c ?b ?s) _ <> _ => pose proof (while64_no_abrt c b s) as H; destruct (while64 c b s) end;
    cbn [obind]; [done| |done]. intros _. apply H; [|done]. intros [x m].
  match goal with |- obind (count_thetas ?a ?b ?c ?d) _ <> _ => pose proof (count_thetas_no_abrt a b c d); by destruct (count_thetas a b c d) end.
Qed.

Lemma count_bin_no_abrt scale rp y total n : count_bin scale rp y total n <> Abrt.
Proof.
  unfold count_bin, bins_radius. destruct (_ <? _); [|done]. cbn [obind]. destruct (_ <? 2); [done|].
  match goal with |- obind (count_thetas ?a ?b ?c ?d) _ <> _ => pose proof (count_thetas_no_abrt a b c d); by destruct (count_thetas a b c d) end.
Qed.

Lemma never_cases {A} (m : outcome A) : m <> Abrt -> (exists r, never m = Done (Some r)) \/ never m = Undef.
Proof. unfold never. destruct m; cbn; [left; by eexists|done|by right]. Qed.

(** the first pass reads beyond the data that are too short *)
Lemma decode_short {LM : Libm} {Hp : Heap} dig d h pm :
  read_radials (pk_per (packet_of dig)) d (Z.to_nat (rad_numradials h)) NIDS_PACKET_RADIALS_START_RUNS = Undef ->
  decode_of dig d h pm = Undef.
Proof.
  intros Hu. destruct dig; cbn [packet_of pk_per digital af1f decode_of] in *;
    unfold nids_decode_digital_radials_16, nids_decode_radials_af1f, decode_radials, nids_count_polygons_radials_16, nids_count_polygons_radials_af1f.
  - rewrite (walk_short _ (fun rp y t s => never_cases _ (count_bin_no_abrt _ rp y t s)) 1 d _ NIDS_PACKET_RADIALS_START_RUNS 0 ltac:(lia) ltac:(done) Hu). done.
  - rewrite (walk_short _ (fun rp y t s => never_cases _ (count_run_no_abrt _ rp y t s)) 2 d _ NIDS_PACKET_RADIALS_START_RUNS 0 ltac:(lia) ltac:(done) Hu). done.
Qed.

Section program.
Context {LM : Libm} {Hp : Heap} {BZ : Bzlib}.

(** what the data say before the radials *)
Record radials_header (data : list Z) (dig : bool) (hd : nids_header_st) (h : nids_radials) : Prop := RadialsHeader {
  rh_divider : extract_int16 data 0 1 = Done (-1);
  rh_code : extract_uint16 data 16 1 = Done (if dig then NIDS_PACKET_DIGITAL_RADIALS_16 else NIDS_PACKET_RADIALS_AF1F);
  rh_scale : extract_uint16 data 16 6 = Done (rad_scale h);
  rh_num : extract_uint16 data 16 7 = Done (rad_numradials h);
  rh_site : rad_lon h = hd_lon hd /\ rad_lat h = hd_lat hd /\ rad_pdb_code h = pdb_code hd /\ rad_pdb_mode h = pdb_mode hd;
  rh_known : supported dig h = true
}.

Lemma decode_data_spec fuel o data dig hd h pm : radials_header data dig hd h -> exists psb pk pm',
  nids_decode_data fuel o data hd pm =
    (let* r := decode_of dig data h pm' in
     Done (match r with None => None | Some m => Some (NidsData data hd psb pk m) end)) /\
  (opt_filter o = 1 -> flag_usefilter pm' = 1) /\ polygons pm' = polygons pm /\ lat_max pm' = lat_max pm /\
  set_levels o (pdb_code hd) pm = Some pm'.
Proof.
  intros [Hdiv Hcode Hscale Hnum (E1 & E2 & E3 & E4) Hknown]. pose proof (extract16_inside _ _ _ _ Hnum) as [_ Hlen].
  destruct (supported_levels o dig h pm Hknown) as (pm' & Hpm & P1 & P2 & P3).
  destruct (extract16_total data 0 2) as [a Ea]; [lia|lia|]. destruct (extract32_total data 0 3) as [b Eb]; [lia|lia|].
  destruct (extract16_total data 0 5) as [c Ec]; [lia|lia|]. destruct (extract32_total data 10 2) as [d Ed]; [lia|lia|].
  destruct (extract16_total data 16 2) as [x2 X2]; [lia|lia|]. destruct (extract16_total data 16 3) as [x3 X3]; [lia|lia|].
  destruct (extract16_total data 16 4) as [x4 X4]; [lia|lia|]. destruct (extract16_total data 16 5) as [x5 X5]; [lia|lia|].
  exists (a, b, c, d), (if dig then NIDS_PACKET_DIGITAL_RADIALS_16 else NIDS_PACKET_RADIALS_AF1F, s16 x2, x3, s16 x4, s16 x5, rad_scale h, rad_numradials h), pm'.
  split; [|split_and!; [done..|by rewrite <- E3]]. unfold nids_decode_data, nids_uncompress. rewrite Hdiv. cbn [obind]. change (negb (-1 =? -1)) with false. cbv iota. cbn [obind]. rewrite Hdiv. cbn [obind].
  change (if -1 =? -1 then Some data else None) with (Some data). cbv iota.
  rewrite Ea, Eb, Ec, Ed. cbn [obind]. rewrite Hcode. cbn [obind].
  unfold extract_int16. rewrite X2, X3, X4, X5, Hscale, Hnum. cbn [obind]. rewrite <- E3, Hpm, <- E1, <- E2, <- E4.
  assert (Radials (rad_lon h) (rad_lat h) (rad_pdb_code h) (rad_pdb_mode h) (rad_scale h) (rad_numradials h) = h) as -> by (by destruct h).
  destruct dig; reflexivity.
Qed.

(** C14: Decoding a radar product. When the file has the headers and, not
    compressed, the data of a product that is known, the two passes over the
    radials end and agree: the first one counts the cells of the runs, an array
    of that many polygons is allocated, and the second one writes in it, in
    order, the polygons of the cells whose level passes the filter, with the
    levels that [set_levels] gives it, never more than were counted. But neither pass looks at the size of the data: when the
    numbers of the radials go beyond them, what follows in memory is read. *)
Theorem radar_product_decoded fuel o buffer data hd mem pm dig h :
  zlen buffer = WMOAWIPS_HEADER_SIZE + NIDS_HEADER_SIZE -> (exists c r, buffer = c :: r /\ isalnum c = true) ->
  dcnids_verify_wmoawips_header buffer = Done 0 -> dcnids_decode_header buffer = Done (0, hd) ->
  m_msglength hd = NIDS_HEADER_SIZE + zlen data -> zlen data < 2 ^ 31 - 120 -> malloc_ok (zlen data) = true -> zlen (mem (zlen data)) = zlen data ->
  bytes data -> radials_header data dig hd h -> opt_skipcount o = 0 -> opt_filter o = 1 ->
  let run := radgis_process_file fuel o (Fd [EvData (buffer ++ data)] [] []) mem pm in
  (forall rs, read_radials (pk_per (packet_of dig)) data (Z.to_nat (rad_numradials h)) NIDS_PACKET_RADIALS_START_RUNS = Done rs ->
     Forall (fun r => bins_of (packet_of dig) r.2 * rad_scale h < 2 ^ 31) rs ->
     let n := zlen (all_cells dig h rs) in n < 2 ^ 31 -> malloc_ok (72 * n) = true ->
     exists nd pm', run = Done (Some nd) /\ set_levels o (pdb_code hd) pm = Some pm' /\ flag_usefilter pm' = 1 /\ polygons (nd_map nd) = all_polygons dig h pm' rs /\
       numpolygons (nd_map nd) = zlen (polygons (nd_map nd)) /\ numpolygons (nd_map nd) <= n /\
       level_min (nd_map nd) = level_min pm' /\ level_max (nd_map nd) = level_max pm' /\
       Forall (fun p => level_min pm' <= pg_level p <= level_max pm') (polygons (nd_map nd))) /\
  (read_radials (pk_per (packet_of dig)) data (Z.to_nat (rad_numradials h)) NIDS_PACKET_RADIALS_START_RUNS = Undef -> run = Undef).
Proof.
  intros Hbuf Hstart Hver Hdec Hmsg Hlen Hmal Hmem Hbytes Hh Hskip Hfil run.
  assert (data <> []) as Hne.
  { intros ->. destruct Hh as [_ _ _ H _ _]. apply extract16_inside in H. change (@zlen Z []) with 0 in H. lia. }
  assert (0 < zlen data) as Hpos by (destruct data; [done|rewrite zlen_cons; pose proof (zlen_nonneg data); lia]).
  destruct (decode_data_spec fuel o data dig hd h pm Hh) as (psb & pk & pm' & Edec & Hflag & _ & _ & Hlev).
  assert (run = nids_decode_data fuel o data hd pm) as ->.
  { subst run. unfold radgis_process_file. rewrite Hskip, (read_header_spec buffer data Hbuf Hstart Hne). cbn [obind Z.eqb negb].
    rewrite Hver. cbn [obind Z.eqb negb]. rewrite Hdec. cbn [obind Z.eqb negb]. rewrite Hmsg. unfold NIDS_HEADER_SIZE.
    replace (120 + zlen data - 120) with (zlen data) by lia. rewrite u32_small, s32_small by lia.
    destruct (Z.leb_spec (zlen data) 0); [lia|]. rewrite Hmal. cbn [negb]. rewrite (readf_spec data _ Hmem Hne). cbn [obind].
    rewrite Z.eqb_refl. done. }
  rewrite Edec. split.
  - intros rs Hrs Hbins n Hn Hm. assert (0 <= rad_scale h) as Hs.
    { destruct Hh as [_ _ H _ _ _]. apply extract16_range in H. lia. }
    rewrite (decode_spec dig data h pm' rs Hbytes Hs (rh_known _ _ _ _ Hh) Hrs Hbins Hn Hm). cbn [obind].
    eexists _, pm'. split; [reflexivity|]. split; [exact Hlev|]. split; [auto|]. cbn [nd_map].
    unfold dcnids_polygonmap_bb. destruct (fold_left _ _ _) as [[[x0 y0] x1] y1].
    cbn [set_box set_polygons polygons numpolygons level_min level_max]. split_and!; try done; [apply kept_length|].
    apply kept_levels. auto.
  - intros Hu. by rewrite (decode_short dig data h pm' Hu).
Qed.
End program.

(** ** Witnesses *)

#[local] Transparent theta_pairs radius_pairs.

Lemma Forall_check {A} (f : A -> bool) (P : A -> Prop) l : (forall x, f x = true -> P x) -> forallb f l = true -> Forall P l.
Proof.
  intros Hf H. apply list.Forall_forall. intros x Hx. rewrite forallb_forall in H. by apply Hf, H, list_elem_of_In.
Qed.

Lemma bytes_check l : forallb (fun b => (0 <=? b) && (b <? 256)) l = true -> bytes l.
Proof. apply Forall_check. intros b [H1%Z.leb_le H2%Z.ltb_lt]%andb_true_iff. by split. Qed.

(** sines and cosines that are enough to run the program *)
Definition demo_libm : Libm := {| d_sin := fun x => x; d_cos := fun _ => d_of_Z 1 |}.
Definition demo_bz : Bzlib := {| bz_decompress := fun d n => if zlen d <=? n then BzOk d else BzFull |}.

(** a product of the site JAX, with a radial of a degree that has a run of two
    bins of a kilometer *)
Definition demo_data (radials : Z) : list Z :=
  [255; 255; 0; 1; 0; 0; 0; 38; 0; 1] ++ [255; 255; 0; 0; 0; 22] ++
  [175; 31; 0; 0; 0; 2; 0; 0; 0; 0; 3; 232; 0; radials] ++ [0; 1; 0; 0; 0; 10; 37; 0].
Definition demo_headers : list Z :=
  [83; 68; 85; 83; 53; 50; 32; 75; 74; 65; 88; 32; 48; 49; 48; 48; 48; 48; 13; 13; 10] ++ [78; 48; 82; 74; 65; 88; 13; 13; 10] ++
  [0; 19; 66; 0; 0; 0; 1; 0; 0; 0; 0; 158; 0; 0; 0; 0; 0; 2; 255; 255; 0; 0; 118; 96; 255; 254; 193; 128; 0; 20; 0; 19; 0; 2] ++
  replicate 86 0.
Definition demo_opts : radgis_opts := RadgisOpts 0 1 0 0.
Definition demo_map : dcnids_polygon_map_st :=
  PolygonMap [] 0 (d_of_Z 0) (d_of_Z 0) (d_of_Z 0) (d_of_Z 0) 0 0 0.
Definition demo_run (data : list Z) : outcome (option nids_data_st) :=
  radgis_process_file (LM := demo_libm) (Hp := demo_heap) (BZ := demo_bz) 1 demo_opts (Fd [EvData (demo_headers ++ data)] [] [])
    (fun n => replicate (Z.to_nat n) 0) demo_map.
Definition demo_hd : option nids_header_st := match dcnids_decode_header demo_headers with Done (0, hd) => Some hd | _ => None end.
Definition demo_h (radials : Z) : nids_radials :=
  match demo_hd with Some hd => Radials (hd_lon hd) (hd_lat hd) (pdb_code hd) (pdb_mode hd) 1000 radials | None => Radials (d_of_Z 0) (d_of_Z 0) 0 0 0 0 end.

Lemma demo_headers_ok : exists hd, dcnids_decode_header demo_headers = Done (0, hd) /\ demo_hd = Some hd /\ m_msglength hd = 158.
Proof. eexists. split; [vm_compute; reflexivity|split; vm_compute; reflexivity]. Qed.

Lemma radar_product_decoded_witness :
  (exists nd, demo_run (demo_data 1) = Done (Some nd) /\ numpolygons (nd_map nd) = 2) /\ demo_run (demo_data 2) = Undef.
Proof.
  destruct demo_headers_ok as (hd & E & Ehd & Hm).
  assert (forall n, n = 1 \/ n = 2 -> radials_header (demo_data n) false hd (demo_h n)) as Hh.
  { intros n Hn. unfold demo_h. rewrite Ehd. vm_compute in E. injection E as <-.
    by destruct Hn as [->| ->]; split; split_and?; vm_compute. }
  assert (forall n, n = 1 \/ n = 2 -> bytes (demo_data n)) as Hb.
  { intros n [->| ->]; apply bytes_check; vm_compute; reflexivity. }
  pose proof (fun (n : Z) (Hn : n = 1 \/ n = 2) => radar_product_decoded (LM := demo_libm) (Hp := demo_heap) (BZ := demo_bz) 1 demo_opts demo_headers (demo_data n) hd
    (fun n => replicate (Z.to_nat n) 0) demo_map false (demo_h n) eq_refl ltac:(by exists 83, (list.tail demo_headers)) eq_refl E Hm eq_refl eq_refl eq_refl
    (Hb n Hn) (Hh n Hn) eq_refl eq_refl) as H.
  split.
  - destruct (H 1 (or_introl eq_refl)) as [H1 _].
    destruct (H1 (match read_radials 2 (demo_data 1) 1 30 with Done rs => rs | _ => [] end)) as (nd & pm' & Erun & _ & Ep & En & _).
    + vm_compute. reflexivity.
    + apply (Forall_check (fun r => bins_of (packet_of false) r.2 * rad_scale (demo_h 1) <? 2 ^ 31)); [intros r; apply Z.ltb_lt|].
      vm_compute. reflexivity.
    + vm_compute. reflexivity.
    + vm_compute. reflexivity.
    + exists nd. split; [exact Erun|].
      assert (match demo_run (demo_data 1) with Done (Some nd) => numpolygons (nd_map nd) = 2 | _ => False end) as Hc by (vm_compute; reflexivity).
      unfold demo_run in Hc. rewrite Erun in Hc. exact Hc.
  - apply (H 2 (or_intror eq_refl)). vm_compute. reflexivity.
Defined.

Lemma bunz_expands_witness : dcnids_bunz (Hp := demo_heap) (BZ := demo_bz) 14 [66; 90; 104] = Some (0, [66; 90; 104]).
Proof.
  exact (bunz_expands (Hp := demo_heap) (BZ := demo_bz) [66; 90; 104] [66; 90; 104]
    (fun n Hn => proj2 (Z.ltb_lt n (2 ^ 40)) ltac:(lia)) (fun _ => eq_refl) 14 ltac:(lia)).
Defined.

(** two points, and memory that holds the latitude 90 or is not a number *)
Definition demo_polygons : list dcnids_polygon_st :=
  [Polygon [d_of_Z (-66); d_of_Z (-65)] [d_of_Z 18; d_of_Z 19] 5 25].
Definition demo_box (north : double) : dcnids_polygon_map_st :=
  PolygonMap demo_polygons 1 (d_of_Z 0) (d_of_Z 0) (d_of_Z 0) north 0 0 0.
Lemma bounding_box_witness :
  lat_max (dcnids_polygonmap_bb (demo_box (d_of_Z 90))) = d_of_Z 90 /\ lat_max (dcnids_polygonmap_bb (demo_box S754_nan)) = S754_nan /\
  Exists (fun y => dval (lon_min (dcnids_polygonmap_bb (demo_box S754_nan))) = dval y) [d_of_Z (-66); d_of_Z (-65)].
Proof.
  assert (Forall (fun p => dfin p.1 /\ dfin p.2) (points demo_polygons)) as Hf.
  { repeat (apply Forall_cons_2; [by split; vm_compute|]). apply Forall_nil_2. }
  pose proof (fun north => bounding_box (demo_box north) eq_refl Hf) as H. cbv zeta in H. split; [|split].
  - destruct (H (d_of_Z 90)) as (_ & _ & _ & H4 & _). apply H4; [by vm_compute|].
    repeat (apply Forall_cons_2; [vm_compute; discriminate|]). apply Forall_nil_2.
  - destruct (H S754_nan) as (_ & _ & _ & _ & H5 & _). apply H5. by left.
  - destruct (H S754_nan) as ((_ & _ & H1) & _). apply H1. apply Exists_cons_hd. vm_compute. discriminate.
Defined.
