(* ===== verification/Nidsout.v ===== *)
(** * Nidsout: the files that nbspradgis writes

    The shapefile and its index (dcnids_shp.c) and the table of the levels
    (dcnids_dbf.c) of the polygons of [Nids], and the names of the files
    (dcnids_name.c). A buffer is a list of bytes; [junk] is what the memory
    holds. The files are read back from what was written. *)

From stdpp Require Import gmap.
From S2P Require Import Prelude Util CLib Mfile Nreadn Double Nids Nidspoly.

(** ** Numbers in a buffer *)

Definition split32_little (u : Z) : list Z := rev (split32 u).

Fixpoint le_bytes (n : nat) (z : Z) : list Z :=
  match n with O => [] | S n => z mod 256 :: le_bytes n (z / 256) end.
Fixpoint le_val (l : list Z) : Z := match l with [] => 0 | b :: l => b + 256 * le_val l end.

Definition dcnids_shp_extract_uint32_big (p : list Z) (pos : Z) : outcome Z := unpack_uint32 p pos.
Definition dcnids_shp_extract_uint32_little (p : list Z) (pos : Z) : outcome Z :=
  let* b0 := rd p pos in
  let* b1 := rd p (pos + 1) in
  let* b2 := rd p (pos + 2) in
  let* b3 := rd p (pos + 3) in
  Done (be32 b3 b2 b1 b0).
Definition dcnids_shp_insert_uint32_big (p : list Z) (pos u : Z) : outcome (list Z) := wr p pos (split32 u).
Definition dcnids_shp_insert_uint32_little (p : list Z) (pos u : Z) : outcome (list Z) := wr p pos (split32_little u).
Definition dcnids_shp_extract_double_little (p : list Z) (pos : Z) : outcome double :=
  let* b := rdn p pos 8 in Done (d_of_bits (le_val b)).
Definition double_bytes (r : double) : list Z := le_bytes 8 (d_bits r).
Definition dcnids_shp_insert_double_little (p : list Z) (pos : Z) (r : double) : outcome (list Z) := wr p pos (double_bytes r).

(** ** The shapefile *)

Definition SHAPEFILE_HEADER_SIZE_BYTES : Z := 100.
Definition SHAPEFILE_HEADER_SIZE_WORDS : Z := 50.
Definition SHAPETYPE_POLYGON : Z := 5.

(** the fields of a record, at their places from its start; the box of the
    points is computed from the initial limits that are given *)
Definition polygon_fields (record_number : Z) (lon lat : list double) : list (Z * list Z) :=
  let '(x0, y0, x1, y1) := fold_left bb_point (zip lon lat) (d_of_Z 180, d_of_Z 180, d_of_Z (-180), d_of_Z (-180)) in
  let at_ i l := double_bytes (nth i l S754_nan) in
  [(0, split32 (u32 record_number)); (4, split32 64); (8, split32_little SHAPETYPE_POLYGON);
   (12, double_bytes x0); (20, double_bytes y0); (28, double_bytes x1); (36, double_bytes y1);
   (44, split32_little 1); (48, split32_little 5); (52, split32_little 0);
   (56, at_ 0%nat lon); (64, at_ 0%nat lat); (72, at_ 1%nat lon); (80, at_ 1%nat lat);
   (88, at_ 2%nat lon); (96, at_ 2%nat lat); (104, at_ 3%nat lon); (112, at_ 3%nat lat);
   (120, at_ 0%nat lon); (128, at_ 0%nat lat)].

Definition dcnids_shp_insert_polygon (p : list Z) (pos record_number : Z) (lon lat : list double) : outcome (Z * list Z) :=
  let* lon := rdn lon 0 4 in
  let* lat := rdn lat 0 4 in
  let* p := wrs p pos (polygon_fields record_number lon lat) in
  Done (68, p).

Definition dcnids_shp_polygon_record_size_words : Z := 68.

Definition int_ok {A} (z : Z) (k : outcome A) : outcome A := if (- 2 ^ 31 <=? z) && (z <? 2 ^ 31) then k else Undef.

Definition dcnids_shp_polygon_file_size_words (numpolygons : Z) : outcome Z :=
  let r := SHAPEFILE_HEADER_SIZE_WORDS + dcnids_shp_polygon_record_size_words * numpolygons in
  int_ok r (Done r).
Definition dcnids_shp_header_record_size_bytes : Z := SHAPEFILE_HEADER_SIZE_BYTES.
Definition dcnids_shx_polygon_file_size_words (numpolygons : Z) : outcome Z :=
  let r := SHAPEFILE_HEADER_SIZE_WORDS + numpolygons * 4 in
  int_ok r (Done r).

Definition header_fields (filelength : Z) (x0 y0 x1 y1 : double) : list (Z * list Z) :=
  [(0, split32 9994); (4, split32 0); (8, split32 0); (12, split32 0); (16, split32 0); (20, split32 0);
   (24, split32 filelength); (28, split32_little 1000); (32, split32_little SHAPETYPE_POLYGON);
   (36, double_bytes x0); (44, double_bytes y0); (52, double_bytes x1); (60, double_bytes y1);
   (68, double_bytes (S754_zero false)); (76, double_bytes (S754_zero false)); (84, double_bytes (S754_zero false));
   (92, double_bytes (S754_zero false))].

(** [p]: the place of the header in the buffer *)
Definition dcnids_shp_insert_header (buf : list Z) (p : Z) (pm : dcnids_polygon_map_st) : outcome (list Z) :=
  let* filelength := dcnids_shp_polygon_file_size_words (numpolygons pm) in
  wrs buf p (header_fields (u32 filelength) (lon_min pm) (lat_min pm) (lon_max pm) (lat_max pm)).

Fixpoint shp_content_loop (n : nat) (buf : list Z) (b i record_number : Z) (ps : list dcnids_polygon_st) : outcome (list Z) :=
  match n with
  | O => Done buf
  | S n =>
      let record_size_bytes := dcnids_shp_polygon_record_size_words * 2 in
      let* p := rd ps i in
      let* (nwords, buf) := dcnids_shp_insert_polygon buf b record_number (pg_lon p) (pg_lat p) in
      c_assert (nwords * 2 =? record_size_bytes) (shp_content_loop n buf (b + record_size_bytes) (i + 1) (record_number + 1) ps)
  end.
Definition dcnids_shp_insert_content (buf : list Z) (p : Z) (pm : dcnids_polygon_map_st) : outcome (list Z) :=
  let* buf := dcnids_shp_insert_header buf p pm in
  shp_content_loop (Z.to_nat (numpolygons pm)) buf (p + SHAPEFILE_HEADER_SIZE_BYTES) 0 1 (polygons pm).

Fixpoint shx_content_loop (n : nat) (buf : list Z) (b record_offset_words : Z) : outcome (list Z) :=
  match n with
  | O => Done buf
  | S n =>
      let record_size_words := dcnids_shp_polygon_record_size_words in
      let* buf := dcnids_shp_insert_uint32_big buf b record_offset_words in
      let* buf := dcnids_shp_insert_uint32_big buf (b + 4) record_size_words in
      shx_content_loop n buf (b + 8) (u32 (record_offset_words + record_size_words))
  end.
Definition dcnids_shx_insert_content (buf : list Z) (p : Z) (pm : dcnids_polygon_map_st) : outcome (list Z) :=
  let* filelength := dcnids_shx_polygon_file_size_words (numpolygons pm) in
  let* buf := dcnids_shp_insert_header buf p pm in
  let* buf := dcnids_shp_insert_uint32_big buf (p + 24) (u32 filelength) in
  shx_content_loop (Z.to_nat (numpolygons pm)) buf (p + SHAPEFILE_HEADER_SIZE_BYTES) SHAPEFILE_HEADER_SIZE_WORDS.

Record dcnids_shp_st := Shp {
  shp_b : list Z;
  shp_size : Z;
  shp_shpsize : Z;
  shp_shxsize : Z
}.

Section files.
Context {Hp : Heap}.

(** [None]: no memory; 24 is the size of the structure *)
Definition dcnids_shp_create (junk : Z -> list Z) (pm : dcnids_polygon_map_st) : outcome (option dcnids_shp_st) :=
  if negb (malloc_ok 24) then Done None else
  let* shpsize := dcnids_shp_polygon_file_size_words (numpolygons pm) in
  let* shxsize := dcnids_shx_polygon_file_size_words (numpolygons pm) in
  let shpsize := u32 (u32 shpsize * 2) in
  let shxsize := u32 (u32 shxsize * 2) in
  let size := u32 (shpsize + shxsize) in
  if negb (malloc_ok size) then Done None else
  let* b := dcnids_shp_insert_content (junk size) 0 pm in
  let* b := dcnids_shx_insert_content b shpsize pm in
  Done (Some (Shp b size shpsize shxsize)).

(** a descriptor that is not open is [None]. The status and the descriptors *)
Definition dcnids_shp_write_data (junk : Z -> list Z) (shp_fd shx_fd : option fd_st) (pm : dcnids_polygon_map_st)
    : outcome (Z * option fd_st * option fd_st) :=
  let* s := dcnids_shp_create junk pm in
  match s with
  | None => Done (-1, shp_fd, shx_fd)
  | Some s =>
      let* (n, shp_fd) :=
        match shp_fd with
        | Some fd => let* d := rdn (shp_b s) 0 (shp_shpsize s) in let (n, fd) := sys_write fd d in Done (n, Some fd)
        | None => Done (0, None)
        end in
      if n =? -1 then Done (-1, shp_fd, shx_fd) else
      let* (n, shx_fd) :=
        match shx_fd with
        | Some fd => let* d := rdn (shp_b s) (shp_shpsize s) (shp_shxsize s) in let (n, fd) := sys_write fd d in Done (n, Some fd)
        | None => Done (0, None)
        end in
      Done (if n =? -1 then -1 else 0, shp_fd, shx_fd)
  end.

(** a file that is not asked for is [None], one that cannot be opened is
    [Some None]. [None]: the program ends *)
Definition dcnids_shp_write (junk : Z -> list Z) (shpfile shxfile : option (option fd_st)) (pm : dcnids_polygon_map_st)
    : outcome (option (option fd_st * option fd_st)) :=
  match shpfile, shxfile with
  | Some None, _ | _, Some None => Done None
  | _, _ =>
      let* (status, shp_fd, shx_fd) := dcnids_shp_write_data junk (default None shpfile) (default None shxfile) pm in
      Done (if negb (status =? 0) then None else Some (shp_fd, shx_fd))
  end.

(** ** The names of the files *)

(** ["%02d"], of the fields of a time *)
Definition fmt02d (n : Z) : list Z := replicate (2 - length (sdec n)) 48 ++ sdec n.

(** ["%s_%d%02d%02d_%02d%02d"] and the suffix *)
Definition default_name_text (nheader : nids_header_st) (prefix : list Z) (suffix : option (list Z)) : list Z :=
  let '(year, month, day, hour, min, _) := hd_time nheader in
  prefix ++ [95] ++ sdec year ++ fmt02d month ++ fmt02d day ++ [95] ++ fmt02d hour ++ fmt02d min ++ default [] suffix.

(** the text has no zeros, and is written to a storage of its size *)
Definition dcnids_default_name (nheader : nids_header_st) (prefix suffix : option (list Z)) : outcome (option (list Z)) :=
  let prefix := default (awipsid nheader) prefix in
  let fname_size := zlen (default_name_text nheader prefix suffix) in
  if negb (malloc_ok (fname_size + 1)) then Done None else
  let (n, fname) := snprintf (fname_size + 1) (default_name_text nheader prefix suffix) in
  c_assert (n =? fname_size) (Done (Some fname)).

Definition dcnids_optional_name (base : list Z) (suffix : option (list Z)) : outcome (option (list Z)) :=
  let fname_size := zlen base in
  let fname_size := match suffix with Some s => fname_size + zlen s | None => fname_size end in
  if negb (malloc_ok (fname_size + 1)) then Done None else
  let (n, fname) := snprintf (fname_size + 1) (base ++ default [] suffix) in
  c_assert (n =? fname_size) (Done (Some fname)).

(** [None]: the program ends *)
Definition nids_file_name (nheader : nids_header_st) (opt_basename : option (list Z)) (suffix : list Z) : outcome (option (list Z)) :=
  match opt_basename with
  | Some b => dcnids_optional_name b (Some suffix)
  | None => dcnids_default_name nheader None (Some suffix)
  end.

(** ** The table of the levels *)

Record dcnids_dbfinfo_st := DbfInfo {
  numfields : Z;
  fieldwidth : Z;
  numrecords : Z
}.
Definition DCNIDS_DBF_HEADER_SIZE : Z := 32.
Definition DCNIDS_DBF_FIELD_DESC_SIZE : Z := 32.
Definition DCNIDS_DBF_FIELDNAME_LEN : Z := 10.
Definition DCNIDS_DBF_FIELDWIDTH : Z := 3.
Definition DCNIDS_DBF_NUMFIELDS : Z := 2.
Definition DCNIDS_DBF_FIELDNAME_0 : list Z := [99; 111; 100; 101].
Definition DCNIDS_DBF_FIELDNAME_1 : list Z := [108; 101; 118; 101; 108].
Definition DCNIDS_DBF_RECORD_VALID_FLAG : Z := 32.

Definition dcnids_dbf_insert_uint16_little (p : list Z) (pos u : Z) : outcome (list Z) := wr p pos (rev (split16 u)).

Definition dcnids_dbf_record_size_bytes (i : dcnids_dbfinfo_st) : Z := 1 + fieldwidth i * numfields i.
Definition dcnids_dbf_header_size_bytes (i : dcnids_dbfinfo_st) : Z :=
  DCNIDS_DBF_HEADER_SIZE + numfields i * DCNIDS_DBF_FIELD_DESC_SIZE + 1.
Definition dcnids_dbf_total_size_bytes (i : dcnids_dbfinfo_st) : outcome Z :=
  let r := dcnids_dbf_header_size_bytes i + dcnids_dbf_record_size_bytes i * numrecords i + 1 in
  int_ok r (Done r).

(** the storage, which [calloc] clears; 24 is the size of the structure *)
Definition dcnids_dbf_create (numrecords : Z) : outcome (option (list Z * Z * dcnids_dbfinfo_st)) :=
  if negb (malloc_ok 24) then Done None else
  let i := DbfInfo DCNIDS_DBF_NUMFIELDS DCNIDS_DBF_FIELDWIDTH numrecords in
  let* totalsize := dcnids_dbf_total_size_bytes i in
  if negb (malloc_ok totalsize) then Done None else
  Done (Some (replicate (Z.to_nat totalsize) 0, totalsize, i)).

(** ["%3d"] *)
Definition fmt3d (n : Z) : list Z := replicate (3 - length (sdec n)) 32 ++ sdec n.

Fixpoint dbf_content_loop (n : nat) (buf : list Z) (b i : Z) (ps : list dcnids_polygon_st) : outcome (list Z) :=
  match n with
  | O => Done buf
  | S n =>
      let* p := rd ps i in
      let* buf := wr buf b [DCNIDS_DBF_RECORD_VALID_FLAG] in
      let b := b + 1 in
      let text := fmt3d (pg_code p) ++ fmt3d (pg_level p) in
      let* buf := wr buf b (ztake (2 * DCNIDS_DBF_FIELDWIDTH) text ++ [0]) in
      c_assert (zlen text =? 2 * DCNIDS_DBF_FIELDWIDTH)
        (dbf_content_loop n buf (b + 2 * DCNIDS_DBF_FIELDWIDTH) (i + 1) ps)
  end.

(** the descriptor of a field *)
Definition insert_field (buf : list Z) (b : Z) (name : list Z) : outcome (list Z) :=
  let* buf := wr buf b (strncpy_bytes name DCNIDS_DBF_FIELDNAME_LEN) in
  let* buf := wr buf (b + 11) [78] in
  wr buf (b + 16) [DCNIDS_DBF_FIELDWIDTH; 0].

Definition dcnids_dbf_insert_content (buf : list Z) (i : dcnids_dbfinfo_st) (pm : dcnids_polygon_map_st) : outcome (list Z) :=
  let recordsize := u16 (dcnids_dbf_record_size_bytes i) in
  let headersize := u16 (dcnids_dbf_header_size_bytes i) in
  let* buf := dcnids_shp_insert_uint32_little buf 4 (u32 (numrecords i)) in
  let* buf := dcnids_dbf_insert_uint16_little buf 8 headersize in
  let* buf := dcnids_dbf_insert_uint16_little buf 10 recordsize in
  let* buf := insert_field buf 32 DCNIDS_DBF_FIELDNAME_0 in
  let* buf := insert_field buf 64 DCNIDS_DBF_FIELDNAME_1 in
  let* buf := wr buf 96 [13] in
  dbf_content_loop (Z.to_nat (numpolygons pm)) buf 97 0 (polygons pm).

(** [fd]: what [open] returns *)
Definition dcnids_dbf_write (fd : option fd_st) (pm : dcnids_polygon_map_st) : outcome (Z * option fd_st) :=
  let* r := dcnids_dbf_create (numpolygons pm) in
  match r with
  | None => Done (-1, fd)
  | Some (buf, size, i) =>
      let* buf := dcnids_dbf_insert_content buf i pm in
      match fd with
      | None => Done (-1, None)
      | Some fd =>
          let* d := rdn buf 0 size in
          let (n, fd) := sys_write fd d in
          Done (if n <? 0 then -1 else 0, Some fd)
      end
  end.
End files.

(** dbfread.c: a reader of the table. [file] is what [read] gives, at most the
    size of the array [b], [mem] what the array held. The numbers of the header
    and the texts of the rows *)
Definition DBFREAD_SIZE : Z := 128000.

Fixpoint dbfread_rows (n : nat) (b : list Z) (p : Z) : outcome (list (list Z * list Z)) :=
  match n with
  | O => Done []
  | S n =>
      let* code := rdn b (p + 1) 3 in
      let* level := rdn b (p + 4) 3 in
      let* l := dbfread_rows n b (p + 7) in
      Done ((code, level) :: l)
  end.

(** what is done with the array *)
Definition dbfread_array (b : list Z) : outcome (Z * Z * Z * Z * list (list Z * list Z)) :=
  let* version := rd b 0 in
  let* numrecords := dcnids_shp_extract_uint32_little b 4 in
  let numrecords := s32 numrecords in
  let* h0 := rd b 8 in
  let* h1 := rd b 9 in
  let headerlength := h0 + Z.shiftl h1 8 in
  let* r0 := rd b 10 in
  let* r1 := rd b 11 in
  let recordlength := r0 + Z.shiftl r1 8 in
  let* l := dbfread_rows (Z.to_nat numrecords) b headerlength in
  Done (version, numrecords, headerlength, recordlength, l).

Definition dbfread (file mem : list Z) : outcome (Z * Z * Z * Z * list (list Z * list Z)) :=
  dbfread_array (ztake DBFREAD_SIZE file ++ zdrop (zlen (ztake DBFREAD_SIZE file)) mem).

(** ** Reading what was written *)

(** the buffer holds [bs] at [pos] *)
Definition holds (p : list Z) (pos : Z) (bs : list Z) : Prop :=
  0 <= pos /\ pos + zlen bs <= zlen p /\ zsub pos (zlen bs) p = bs.

(** nothing changes outside of [lo, hi) *)
Definition keeps (lo hi : Z) (p p' : list Z) : Prop :=
  zlen p' = zlen p /\ forall pos bs, holds p pos bs -> pos + zlen bs <= lo \/ hi <= pos -> holds p' pos bs.

Lemma keeps_refl lo hi p : keeps lo hi p p.
Proof. by split. Qed.
Lemma keeps_trans lo1 hi1 lo2 hi2 lo hi p1 p2 p3 : keeps lo1 hi1 p1 p2 -> keeps lo2 hi2 p2 p3 ->
  lo <= lo1 -> lo <= lo2 -> hi1 <= hi -> hi2 <= hi -> keeps lo hi p1 p3.
Proof.
  intros [E1 K1] [E2 K2] ????. split; [congruence|]. intros pos bs Hh Ho. apply K2; [|lia]. apply K1; [done|lia].
Qed.

Lemma wr_holds (p p' : list Z) off d : wr p off d = Done p' -> holds p' off d /\ keeps off (off + zlen d) p p'.
Proof.
  intros E. pose proof (wr_length _ _ _ _ E) as El. pose proof (zlen_nonneg d) as Hd. unfold wr in E.
  destruct ((0 <=? off) && (off + zlen d <=? zlen p)) eqn:Eb; [|done]. zbool. injection E as E.
  assert (zlen (ztake off p) = off) as Ht by (apply zlen_take; lia).
  split; [split_and!; [lia|lia|]|split; [done|]].
  - rewrite <- E. apply zsub_app_exact; [by rewrite Ht|done].
  - intros pos bs (H1 & H2 & H3) Ho. pose proof (zlen_nonneg bs). split_and!; [lia|lia|].
    transitivity (zsub pos (zlen bs) p); [|done]. rewrite <- E. clear H3 E. generalize dependent (zlen bs). intros n **. destruct Ho as [Ho|Ho].
    + rewrite zsub_app_l by lia. rewrite <- (ztake_zdrop off p) at 2. by rewrite zsub_app_l by lia.
    + rewrite zsub_app_r by lia. rewrite zsub_app_r by lia. unfold zsub. rewrite zdrop_drop by lia. do 2 f_equal. lia.
Qed.

Lemma wr_total (p d : list Z) off : 0 <= off -> off + zlen d <= zlen p -> exists p', wr p off d = Done p'.
Proof. intros. eexists. by apply wr_ok. Qed.

Definition fields_len (l : list (Z * list Z)) : Z := zlen (concat (snd <$> l)).

(** consecutive fields are all there, and nothing else changes *)
Lemma wrs_holds l : forall p base k, contig k l -> 0 <= base + k -> base + k + fields_len l <= zlen p ->
  exists p', wrs p base l = Done p' /\ keeps (base + k) (base + k + fields_len l) p p' /\
    Forall (fun f => holds p' (base + f.1) f.2) l.
Proof.
  induction l as [|[o d] l IH]; intros p base k Hc Hk Hl.
  { exists p. by split_and!; [|apply keeps_refl|constructor]. }
  destruct Hc as [-> Hc]. unfold fields_len in *. cbn [fmap list_fmap concat snd] in *. rewrite zlen_app in *.
  pose proof (zlen_nonneg d). pose proof (zlen_nonneg (concat (snd <$> l))).
  destruct (wr_total p d (base + k)) as [p1 E1]; [lia|lia|]. destruct (wr_holds _ _ _ _ E1) as [Hh K1].
  destruct (IH p1 base (k + zlen d) Hc) as (p2 & E2 & K2 & HF); [lia|rewrite (proj1 K1); lia|].
  exists p2. cbn [wrs]. rewrite E1. split_and!; [done|eapply keeps_trans; [exact K1|exact K2|lia..]|].
  constructor; [|done]. apply K2; [done|cbn [fst snd]; lia].
Qed.

Lemma fields_inside l : forall k, contig k l -> Forall (fun f => k <= f.1 /\ f.1 + zlen f.2 <= k + fields_len l) l.
Proof.
  induction l as [|[o d] l IH]; intros k Hc; [constructor|]. destruct Hc as [-> Hc]. unfold fields_len in *.
  cbn [fmap list_fmap concat snd]. rewrite zlen_app. pose proof (zlen_nonneg d). pose proof (zlen_nonneg (concat (snd <$> l))).
  constructor; [cbn [fst snd]; lia|]. eapply List.Forall_impl; [|exact (IH _ Hc)]. cbn beta. intros f Hf. lia.
Qed.

(** *** The numbers *)

Lemma holds_rd p pos bs i : holds p pos bs -> 0 <= i < zlen bs -> rd p (pos + i) = rd bs i.
Proof.
  intros (H1 & H2 & H3) Hi. unfold rd. rewrite !znth_lookup by lia.
  transitivity (match zsub pos (zlen bs) p !! Z.to_nat i with Some b => Done b | None => Undef end); [|by rewrite H3].
  unfold zsub, ztake, zdrop. rewrite lookup_take_lt by lia. rewrite lookup_drop.
  by replace (Z.to_nat pos + Z.to_nat i)%nat with (Z.to_nat (pos + i)) by lia.
Qed.

Lemma holds_word p pos b0 b1 b2 b3 : holds p pos [b0; b1; b2; b3] ->
  rd p pos = Done b0 /\ rd p (pos + 1) = Done b1 /\ rd p (pos + 2) = Done b2 /\ rd p (pos + 3) = Done b3.
Proof.
  intros Hh. rewrite <- (Z.add_0_r pos) at 1. split_and!;
    (rewrite (holds_rd _ _ _ _ Hh); [done|change (zlen [b0; b1; b2; b3]) with 4; lia]).
Qed.

Lemma holds_big p pos u : holds p pos (split32 u) -> 0 <= u < 2 ^ 32 -> dcnids_shp_extract_uint32_big p pos = Done u.
Proof.
  intros Hh Hu. destruct (holds_word _ _ _ _ _ _ Hh) as (E0 & E1 & E2 & E3).
  unfold dcnids_shp_extract_uint32_big, unpack_uint32. rewrite E0, E1, E2, E3. cbn [obind]. by rewrite be32_split.
Qed.

Lemma holds_little p pos u : holds p pos (split32_little u) -> 0 <= u < 2 ^ 32 -> dcnids_shp_extract_uint32_little p pos = Done u.
Proof.
  intros Hh Hu. destruct (holds_word _ _ _ _ _ _ Hh) as (E0 & E1 & E2 & E3).
  unfold dcnids_shp_extract_uint32_little. rewrite E0, E1, E2, E3. cbn [obind]. by rewrite be32_split.
Qed.

Lemma le_val_bytes n : forall z, 0 <= z < 256 ^ Z.of_nat n -> le_val (le_bytes n z) = z.
Proof.
  induction n as [|n IH]; intros z Hz; cbn [le_bytes le_val]; [cbn in Hz; lia|].
  rewrite Nat2Z.inj_succ, Z.pow_succ_r in Hz by lia. pose proof (Z.div_mod z 256 ltac:(done)).
  rewrite IH; [lia|]. split; [apply Z.div_pos; lia|]. apply Z.div_lt_upper_bound; lia.
Qed.
Lemma zlen_le_bytes n : forall z, zlen (le_bytes n z) = Z.of_nat n.
Proof. induction n as [|n IH]; intros z; cbn [le_bytes]; [done|]. rewrite zlen_cons, IH. lia. Qed.
Lemma zlen_double_bytes r : zlen (double_bytes r) = 8.
Proof. apply zlen_le_bytes. Qed.

Lemma holds_double p pos r : holds p pos (double_bytes r) -> dfin r -> dcnids_shp_extract_double_little p pos = Done r.
Proof.
  intros (H1 & H2 & H3) Hr. rewrite zlen_double_bytes in *. unfold dcnids_shp_extract_double_little.
  rewrite rdn_ok by lia. cbn [obind]. rewrite H3. unfold double_bytes.
  destruct (d_bits_round r (or_introl Hr)) as [Hb E]. by rewrite le_val_bytes, E by exact Hb.
Qed.

#[local] Opaque double_bytes split32 split32_little.

(** *** The records *)

Lemma zlen_big u : zlen (split32 u) = 4.
Proof. done. Qed.
Lemma zlen_little u : zlen (split32_little u) = 4.
Proof. done. Qed.

Lemma polygon_fields_contig k lon lat : contig 0 (polygon_fields k lon lat) /\ fields_len (polygon_fields k lon lat) = 136.
Proof.
  unfold polygon_fields, fields_len. destruct (fold_left _ _ _) as [[[x0 y0] x1] y1]. cbn [contig fmap list_fmap concat snd].
  rewrite !zlen_app, !zlen_double_bytes, !zlen_big, !zlen_little. by repeat split.
Qed.
Lemma header_fields_contig n x0 y0 x1 y1 : contig 0 (header_fields n x0 y0 x1 y1) /\ fields_len (header_fields n x0 y0 x1 y1) = 100.
Proof.
  unfold header_fields, fields_len. cbn [contig fmap list_fmap concat snd].
  rewrite !zlen_app, !zlen_double_bytes, !zlen_big, !zlen_little. by repeat split.
Qed.

#[local] Opaque polygon_fields header_fields.

Definition four_corners (p : dcnids_polygon_st) : Prop :=
  zlen (pg_lon p) = 4 /\ zlen (pg_lat p) = 4 /\ Forall dfin (pg_lon p) /\ Forall dfin (pg_lat p).

Lemma rdn_whole {A} (l : list A) n : zlen l = n -> rdn l 0 n = Done l.
Proof. intros <-. rewrite rdn_ok by (pose proof (zlen_nonneg l); lia). unfold zsub. by rewrite zdrop_0, ztake_ge. Qed.

Lemma insert_polygon_holds p pos k lon lat : zlen lon = 4 -> zlen lat = 4 -> 0 <= pos -> pos + 136 <= zlen p ->
  exists p', dcnids_shp_insert_polygon p pos k lon lat = Done (68, p') /\ keeps pos (pos + 136) p p' /\
    Forall (fun f => holds p' (pos + f.1) f.2) (polygon_fields k lon lat).
Proof.
  intros E1 E2 Hp1 Hp2. unfold dcnids_shp_insert_polygon. rewrite !rdn_whole by done. cbn [obind].
  destruct (polygon_fields_contig k lon lat) as [Hc El].
  destruct (wrs_holds _ p pos 0 Hc) as (p' & E & K & HF); [lia|lia|]. rewrite El in *. exists p'. rewrite E. cbn [obind].
  split_and!; [done|by rewrite Z.add_0_r in K|done].
Qed.

Lemma shp_content_holds ps : Forall four_corners ps -> forall n buf b i k, 0 <= b -> b + 136 * Z.of_nat n <= zlen buf ->
  0 <= i -> i + Z.of_nat n <= zlen ps ->
  exists buf', shp_content_loop n buf b i k ps = Done buf' /\ keeps b (b + 136 * Z.of_nat n) buf buf' /\
    forall j p, 0 <= j < Z.of_nat n -> znth ps (i + j) = Some p ->
      Forall (fun f => holds buf' (b + 136 * j + f.1) f.2) (polygon_fields (k + j) (pg_lon p) (pg_lat p)).
Proof.
  intros Hps. induction n as [|n IH]; intros buf b i k Hb Hl Hi Hn; cbn [shp_content_loop].
  { exists buf. split_and!; [done|apply keeps_refl|lia]. }
  destruct (znth_is_Some ps i) as [p Ep]; [lia|]. pose proof (znth_Forall _ _ _ _ Hps Ep) as (L1 & L2 & _).
  rewrite (proj2 (rd_Done _ _ _) Ep). cbn [obind].
  destruct (insert_polygon_holds buf b k _ _ L1 L2) as (b1 & E1 & K1 & F1); [lia|lia|]. rewrite E1. cbn [obind]. rewrite c_assert_true by done.
  change (dcnids_shp_polygon_record_size_words * 2) with 136.
  destruct (IH b1 (b + 136) (i + 1) (k + 1)) as (b2 & E2 & K2 & F2); [lia|rewrite (proj1 K1); lia|lia|lia|]. exists b2. rewrite E2.
  split_and!; [done|eapply keeps_trans; [exact K1|exact K2|lia..]|]. intros j q Hj Eq. destruct (Z.eq_dec j 0) as [->|Hj0].
  - rewrite Z.add_0_r in Eq. assert (q = p) as -> by congruence. rewrite !Z.add_0_r.
    destruct (polygon_fields_contig k (pg_lon p) (pg_lat p)) as [Hc El].
    pose proof (fields_inside _ _ Hc) as Hin. rewrite El in Hin.
    apply list.Forall_forall. intros f Hf. pose proof (proj1 (list.Forall_forall _ _) F1 f Hf). pose proof (proj1 (list.Forall_forall _ _) Hin f Hf).
    cbn beta in *. rewrite ?Z.mul_0_r, ?Z.add_0_r. apply K2; [done|lia].
  - replace (b + 136 * j) with (b + 136 + 136 * (j - 1)) by lia. replace (k + j) with (k + 1 + (j - 1)) by lia.
    apply F2; [lia|]. by replace (i + 1 + (j - 1)) with (i + j) by lia.
Qed.

Lemma shx_content_holds : forall n buf b off, 0 <= b -> b + 8 * Z.of_nat n <= zlen buf -> 0 <= off -> off + 68 * Z.of_nat n < 2 ^ 32 ->
  exists buf', shx_content_loop n buf b off = Done buf' /\ keeps b (b + 8 * Z.of_nat n) buf buf' /\
    forall j, 0 <= j < Z.of_nat n -> holds buf' (b + 8 * j) (split32 (off + 68 * j)) /\ holds buf' (b + 8 * j + 4) (split32 68).
Proof.
  induction n as [|n IH]; intros buf b off Hb Hl Ho Hs; cbn [shx_content_loop].
  { exists buf. split_and!; [done|apply keeps_refl|lia]. }
  unfold dcnids_shp_insert_uint32_big. pose proof zlen_big as L.
  destruct (wr_total buf (split32 off) b) as [b1 E1]; [lia|rewrite L; lia|]. destruct (wr_holds _ _ _ _ E1) as [H1 K1].
  destruct (wr_total b1 (split32 68) (b + 4)) as [b2 E2]; [lia|rewrite L, (proj1 K1); lia|]. destruct (wr_holds _ _ _ _ E2) as [H2 K2].
  rewrite L in K1, K2. change dcnids_shp_polygon_record_size_words with 68. rewrite E1. cbn [obind]. rewrite E2. cbn [obind]. rewrite u32_small by lia.
  destruct (IH b2 (b + 8) (off + 68)) as (b3 & E3 & K3 & F3); [lia|rewrite (proj1 K2), (proj1 K1); lia|lia|lia|].
  exists b3. rewrite E3. pose proof (keeps_trans _ _ _ _ b (b + 8) _ _ _ K1 K2 ltac:(lia) ltac:(lia) ltac:(lia) ltac:(lia)) as K12.
  split_and!; [done|eapply keeps_trans; [exact K12|exact K3|lia..]|]. intros j Hj. destruct (Z.eq_dec j 0) as [->|Hj0].
  - rewrite Z.mul_0_r, !Z.add_0_r. split; apply K3; rewrite ?L; [|lia|done|lia]. apply K2; [done|rewrite L; lia].
  - replace (b + 8 * j) with (b + 8 + 8 * (j - 1)) by lia. replace (off + 68 * j) with (off + 68 + 68 * (j - 1)) by lia. apply F3. lia.
Qed.

(** *** The files *)

(** a reader finds the polygon [p] with the number [k] at the byte [r] of [b]:
    one part of five points, the first of which is repeated, inside of their box *)
Definition polygon_at (b : list Z) (r k : Z) (p : dcnids_polygon_st) : Prop :=
  dcnids_shp_extract_uint32_big b r = Done k /\ dcnids_shp_extract_uint32_big b (r + 4) = Done 64 /\
  dcnids_shp_extract_uint32_little b (r + 8) = Done SHAPETYPE_POLYGON /\
  dcnids_shp_extract_uint32_little b (r + 44) = Done 1 /\ dcnids_shp_extract_uint32_little b (r + 48) = Done 5 /\
  dcnids_shp_extract_uint32_little b (r + 52) = Done 0 /\
  (exists x0 y0 x1 y1, dcnids_shp_extract_double_little b (r + 12) = Done x0 /\ dcnids_shp_extract_double_little b (r + 20) = Done y0 /\
     dcnids_shp_extract_double_little b (r + 28) = Done x1 /\ dcnids_shp_extract_double_little b (r + 36) = Done y1 /\
     Forall (fun x => dval x0 <= dval x <= dval x1) (pg_lon p) /\ Forall (fun y => dval y0 <= dval y <= dval y1) (pg_lat p)) /\
  forall i, 0 <= i <= 4 ->
    dcnids_shp_extract_double_little b (r + 56 + 16 * i) = rd (pg_lon p) (i mod 4) /\
    dcnids_shp_extract_double_little b (r + 64 + 16 * i) = rd (pg_lat p) (i mod 4).

(** the header of either file, of [size] bytes, at the byte [r] *)
Definition header_at (b : list Z) (r size : Z) (pm : dcnids_polygon_map_st) : Prop :=
  dcnids_shp_extract_uint32_big b r = Done 9994 /\ dcnids_shp_extract_uint32_big b (r + 24) = Done (size / 2) /\
  dcnids_shp_extract_uint32_little b (r + 28) = Done 1000 /\ dcnids_shp_extract_uint32_little b (r + 32) = Done SHAPETYPE_POLYGON /\
  dcnids_shp_extract_double_little b (r + 36) = Done (lon_min pm) /\ dcnids_shp_extract_double_little b (r + 44) = Done (lat_min pm) /\
  dcnids_shp_extract_double_little b (r + 52) = Done (lon_max pm) /\ dcnids_shp_extract_double_little b (r + 60) = Done (lat_max pm).

Definition map_ready (pm : dcnids_polygon_map_st) : Prop :=
  numpolygons pm = zlen (polygons pm) /\ Forall four_corners (polygons pm) /\
  dfin (lon_min pm) /\ dfin (lat_min pm) /\ dfin (lon_max pm) /\ dfin (lat_max pm).

Lemma four_inv {A} (l : list A) : zlen l = 4 -> exists a b c d, l = [a; b; c; d].
Proof.
  intros H. unfold zlen in H. destruct l as [|a [|b [|c [|d [|]]]]]; cbn in H; try lia. by exists a, b, c, d.
Qed.

Lemma upto4 i : 0 <= i <= 4 -> i = 0 \/ i = 1 \/ i = 2 \/ i = 3 \/ i = 4.
Proof. lia. Qed.

#[local] Transparent polygon_fields header_fields.

Ltac open_fields HF := repeat (let H := fresh "F" in apply Forall_cons_iff in HF as [H HF]; cbn [fst snd] in H).

Lemma polygon_reads b r k p : Forall (fun f => holds b (r + f.1) f.2) (polygon_fields k (pg_lon p) (pg_lat p)) ->
  four_corners p -> 0 <= k < 2 ^ 32 -> polygon_at b r k p.
Proof.
  intros HF (L1 & L2 & D1 & D2) Hk. unfold polygon_at. destruct p as [lon lat c l]. cbn [pg_lon pg_lat] in *.
  destruct (four_inv lon L1) as (a0 & a1 & a2 & a3 & ->), (four_inv lat L2) as (b0 & b1 & b2 & b3 & ->).
  unfold polygon_fields in HF. rewrite fold_box in HF.
  change (zip [a0; a1; a2; a3] [b0; b1; b2; b3]).*1 with [a0; a1; a2; a3] in HF. change (zip [a0; a1; a2; a3] [b0; b1; b2; b3]).*2 with [b0; b1; b2; b3] in HF.
  destruct box_start as [S1 S2].
  destruct (fold_least _ _ S1 D1) as (X0 & _ & _ & X0'), (fold_least _ _ S1 D2) as (Y0 & _ & _ & Y0').
  destruct (fold_greatest _ _ S2 D1) as (X1 & _ & _ & X1'), (fold_greatest _ _ S2 D2) as (Y1 & _ & _ & Y1').
  set (x0 := fold_left least [a0; a1; a2; a3] _) in *. set (y0 := fold_left least [b0; b1; b2; b3] _) in *.
  set (x1 := fold_left greatest [a0; a1; a2; a3] _) in *. set (y1 := fold_left greatest [b0; b1; b2; b3] _) in *.
  clearbody x0 y0 x1 y1. cbn [nth] in HF. open_fields HF. rewrite Z.add_0_r in F. rewrite u32_small in F by lia.
  open_fields D1. open_fields D2.
  split_and!; try (by eapply holds_big + eapply holds_little; [eassumption|]).
  - exists x0, y0, x1, y1. split_and!; try (by eapply holds_double); by apply Forall_and.
  - intros i Hi. destruct (upto4 i Hi) as [->|[->|[->|[->| ->]]]]; split; rewrite <- Z.add_assoc; by apply holds_double.
Qed.

Lemma insert_header_holds buf r pm : map_ready pm -> numpolygons pm <= 29826160 -> 0 <= r -> r + 100 <= zlen buf ->
  exists buf', dcnids_shp_insert_header buf r pm = Done buf' /\ keeps r (r + 100) buf buf' /\
    Forall (fun f => holds buf' (r + f.1) f.2) (header_fields (50 + 68 * numpolygons pm) (lon_min pm) (lat_min pm) (lon_max pm) (lat_max pm)).
Proof.
  intros (En & _) Hn Hr Hl. pose proof (zlen_nonneg (polygons pm)). unfold dcnids_shp_insert_header, dcnids_shp_polygon_file_size_words, int_ok.
  change SHAPEFILE_HEADER_SIZE_WORDS with 50. change dcnids_shp_polygon_record_size_words with 68.
  rewrite (proj2 (Z.leb_le _ _)), (proj2 (Z.ltb_lt _ _)) by lia. cbn [andb obind]. rewrite u32_small by lia.
  destruct (header_fields_contig (50 + 68 * numpolygons pm) (lon_min pm) (lat_min pm) (lon_max pm) (lat_max pm)) as [Hc El].
  destruct (wrs_holds _ buf r 0 Hc) as (p' & E & K & HF); [lia|lia|]. rewrite El, Z.add_0_r in *. by exists p'.
Qed.

(** the fields of a header but its length *)
Definition header_rest (x0 y0 x1 y1 : double) : list (Z * list Z) := List.filter (fun f => negb (f.1 =? 24)) (header_fields 0 x0 y0 x1 y1).

Lemma header_split (P : Z * list Z -> Prop) len x0 y0 x1 y1 : Forall P (header_fields len x0 y0 x1 y1) ->
  P (24, split32 len) /\ Forall P (header_rest x0 y0 x1 y1).
Proof.
  unfold header_rest, header_fields. intros HF. cbn [List.filter fst negb Z.eqb Pos.eqb].
  open_fields HF. split; [done|]. repeat constructor; done.
Qed.

Lemma header_rest_inside x0 y0 x1 y1 : Forall (fun f => 0 <= f.1 /\ (f.1 + zlen f.2 <= 24 \/ 28 <= f.1) /\ f.1 + zlen f.2 <= 100) (header_rest x0 y0 x1 y1).
Proof.
  unfold header_rest, header_fields. cbn [List.filter fst negb Z.eqb Pos.eqb]. 
  repeat (apply Forall_cons; [cbn [fst snd]; rewrite ?zlen_big, ?zlen_little, ?zlen_double_bytes; lia|]). constructor.
Qed.

Lemma header_reads b r len pm : let l := header_rest (lon_min pm) (lat_min pm) (lon_max pm) (lat_max pm) in
  Forall (fun f => holds b (r + f.1) f.2) l -> map_ready pm -> holds b (r + 24) (split32 len) -> 0 <= len < 2 ^ 32 -> header_at b r (2 * len) pm.
Proof.
  intros l HF (_ & _ & D1 & D2 & D3 & D4) H24 Hlen. unfold header_at. rewrite (Z.mul_comm 2), Z.div_mul by done.
  unfold l, header_rest, header_fields in HF. cbn [List.filter fst negb Z.eqb Pos.eqb] in HF. open_fields HF. rewrite Z.add_0_r in F.
  split_and!; first [by eapply holds_double | by eapply holds_big | by eapply holds_little].
Qed.

#[local] Opaque polygon_fields header_fields header_rest.

Lemma fields_kept b b' r (l : list (Z * list Z)) (Q : Z * list Z -> Prop) : Forall (fun f => holds b (r + f.1) f.2) l -> Forall Q l ->
  (forall f, Q f -> holds b (r + f.1) f.2 -> holds b' (r + f.1) f.2) -> Forall (fun f => holds b' (r + f.1) f.2) l.
Proof. intros HF HQ Hk. apply (List.Forall_impl _ (P := fun f => Q f /\ holds b (r + f.1) f.2)); [naive_solver|]. by apply Forall_and. Qed.

Lemma shp_content buf r pm : map_ready pm -> numpolygons pm <= 29826160 -> 0 <= r -> r + 100 + 136 * numpolygons pm <= zlen buf ->
  exists buf', dcnids_shp_insert_content buf r pm = Done buf' /\ keeps r (r + 100 + 136 * numpolygons pm) buf buf' /\
    Forall (fun f => holds buf' (r + f.1) f.2) (header_fields (50 + 68 * numpolygons pm) (lon_min pm) (lat_min pm) (lon_max pm) (lat_max pm)) /\
    forall j p, znth (polygons pm) j = Some p ->
      Forall (fun f => holds buf' (r + 100 + 136 * j + f.1) f.2) (polygon_fields (1 + j) (pg_lon p) (pg_lat p)).
Proof.
  intros Hm Hn Hr Hl. pose proof Hm as (En & Hps & _). pose proof (zlen_nonneg (polygons pm)).
  destruct (insert_header_holds buf r pm Hm Hn Hr) as (b1 & E1 & K1 & F1); [lia|].
  destruct (shp_content_holds _ Hps (Z.to_nat (numpolygons pm)) b1 (r + 100) 0 1) as (b2 & E2 & K2 & F2); [lia|rewrite (proj1 K1); lia|lia|lia|].
  exists b2. unfold dcnids_shp_insert_content. rewrite E1. cbn [obind]. change SHAPEFILE_HEADER_SIZE_BYTES with 100. rewrite E2.
  split_and!; [done|eapply keeps_trans; [exact K1|exact K2|lia..]| |].
  - destruct (header_fields_contig (50 + 68 * numpolygons pm) (lon_min pm) (lat_min pm) (lon_max pm) (lat_max pm)) as [Hc El].
    pose proof (fields_inside _ _ Hc) as Hin. rewrite El in Hin. apply (fields_kept _ _ _ _ _ F1 Hin). intros f Hi Hf. cbn beta in Hi. apply K2; [done|lia].
  - intros j p Hj. pose proof (znth_Some_lt _ _ _ Hj). apply F2; [lia|done].
Qed.

Lemma shx_content buf r pm : map_ready pm -> numpolygons pm <= 29826160 -> 0 <= r -> r + 100 + 8 * numpolygons pm <= zlen buf ->
  exists buf', dcnids_shx_insert_content buf r pm = Done buf' /\ keeps r (r + 100 + 8 * numpolygons pm) buf buf' /\
    header_at buf' r (100 + 8 * numpolygons pm) pm /\
    forall j, 0 <= j < numpolygons pm ->
      dcnids_shp_extract_uint32_big buf' (r + 100 + 8 * j) = Done (50 + 68 * j) /\ dcnids_shp_extract_uint32_big buf' (r + 104 + 8 * j) = Done 68.
Proof.
  intros Hm Hn Hr Hl. pose proof Hm as (En & Hps & _). pose proof (zlen_nonneg (polygons pm)).
  destruct (insert_header_holds buf r pm Hm Hn Hr) as (b1 & E1 & K1 & F1); [lia|].
  unfold dcnids_shx_insert_content, dcnids_shx_polygon_file_size_words, int_ok, dcnids_shp_insert_uint32_big.
  change SHAPEFILE_HEADER_SIZE_WORDS with 50. change SHAPEFILE_HEADER_SIZE_BYTES with 100.
  rewrite (proj2 (Z.leb_le _ _)), (proj2 (Z.ltb_lt _ _)) by lia. cbn [andb obind]. rewrite E1, u32_small by lia. cbn [obind].
  pose proof zlen_big as L. set (len := 50 + numpolygons pm * 4) in *.
  destruct (wr_total b1 (split32 len) (r + 24)) as [b2 E2]; [lia|rewrite L, (proj1 K1); lia|]. destruct (wr_holds _ _ _ _ E2) as [H2 K2]. rewrite L in K2.
  destruct (shx_content_holds (Z.to_nat (numpolygons pm)) b2 (r + 100) 50) as (b3 & E3 & K3 & F3);
    [lia|rewrite (proj1 K2), (proj1 K1); lia|lia|lia|].
  exists b3. rewrite E2. cbn [obind]. rewrite E3. split_and!; [done| | |].
  - pose proof (keeps_trans _ _ _ _ r (r + 100) _ _ _ K1 K2 ltac:(lia) ltac:(lia) ltac:(lia) ltac:(lia)) as K12.
    eapply keeps_trans; [exact K12|exact K3|lia..].
  - replace (100 + 8 * numpolygons pm) with (2 * len) by lia.
    apply header_reads; [|done|apply K3; [done|rewrite L; lia]|lia]. destruct (header_split _ _ _ _ _ _ F1) as [_ F1'].
    apply (fields_kept _ _ _ _ _ F1' (header_rest_inside _ _ _ _)). intros f Hi Hf. apply K3; [|lia]. apply K2; [done|lia].
  - intros j Hj. destruct (F3 j) as [G1 G2]; [lia|]. split; [by apply holds_big; [|lia]|].
    replace (r + 104 + 8 * j) with (r + 100 + 8 * j + 4) by lia. by apply holds_big.
Qed.

(** C15: The shapefile and its index can be read back. For any number of
    polygons up to 29826160, with four finite corners each, the storage is
    large enough for all the writes and its two parts are the two files: the
    headers have their lengths in words and the box of the map; the record of
    the polygon i is at the byte 100 + 136 i, with the number i + 1 and the length
    64, and has the four corners, the first one again, and a box that contains
    them; and the entry i of the index has half of the place of this record. The
    length that the entry has is 68, four words more than what the record has. *)
Theorem shapefile_reads_back {Hp : Heap} junk pm : let n := numpolygons pm in
  map_ready pm -> n <= 29826160 -> malloc_ok 24 = true -> malloc_ok (200 + 144 * n) = true ->
  zlen (junk (200 + 144 * n)) = 200 + 144 * n ->
  exists b, dcnids_shp_create junk pm = Done (Some (Shp b (200 + 144 * n) (100 + 136 * n) (100 + 8 * n))) /\
    zlen b = 200 + 144 * n /\ header_at b 0 (100 + 136 * n) pm /\ header_at b (100 + 136 * n) (100 + 8 * n) pm /\
    forall i p, znth (polygons pm) i = Some p ->
      polygon_at b (100 + 136 * i) (1 + i) p /\
      dcnids_shp_extract_uint32_big b (100 + 136 * n + 100 + 8 * i) = Done ((100 + 136 * i) / 2) /\
      dcnids_shp_extract_uint32_big b (100 + 136 * n + 104 + 8 * i) = Done 68.
Proof.
  intros n Hm Hn Hm1 Hm2 Hj. pose proof Hm as (En & Hps & _). fold n in En. pose proof (zlen_nonneg (polygons pm)).
  unfold dcnids_shp_create, dcnids_shp_polygon_file_size_words, dcnids_shx_polygon_file_size_words, int_ok. fold n.
  change SHAPEFILE_HEADER_SIZE_WORDS with 50. change dcnids_shp_polygon_record_size_words with 68.
  rewrite Hm1, !(proj2 (Z.leb_le _ _)), !(proj2 (Z.ltb_lt _ _)) by lia. cbn [andb obind negb].
  rewrite (u32_small (50 + 68 * n)), (u32_small (50 + n * 4)) by lia.
  rewrite (u32_small ((50 + 68 * n) * 2)), (u32_small ((50 + n * 4) * 2)) by lia. rewrite u32_small by lia.
  replace ((50 + 68 * n) * 2) with (100 + 136 * n) by lia. replace ((50 + n * 4) * 2) with (100 + 8 * n) by lia.
  replace (100 + 136 * n + (100 + 8 * n)) with (200 + 144 * n) by lia. rewrite Hm2. cbn [negb].
  destruct (shp_content (junk (200 + 144 * n)) 0 pm Hm Hn) as (b1 & E1 & K1 & F1 & G1); [lia|fold n; lia|]. fold n in K1, F1, G1. rewrite E1. cbn [obind].
  destruct (shx_content b1 (100 + 136 * n) pm Hm Hn) as (b2 & E2 & K2 & F2 & G2); [lia|rewrite (proj1 K1); fold n; lia|]. fold n in K2, F2, G2. rewrite E2. cbn [obind].
  exists b2. split_and!; [done|rewrite (proj1 K2), (proj1 K1); done| |done|].
  - replace (100 + 136 * n) with (2 * (50 + 68 * n)) by lia. destruct (header_split _ _ _ _ _ _ F1) as [F0 F1'].
    apply header_reads; [|done|apply K2; [done|rewrite zlen_big; lia]|lia].
    apply (fields_kept _ _ _ _ _ F1' (header_rest_inside _ _ _ _)). intros f Hi Hf. cbn beta in Hi. apply K2; [done|lia].
  - intros i p Hi. pose proof (znth_Some_lt _ _ _ Hi) as Hlt. destruct (G2 i) as [I1 I2]; [lia|]. split_and!; [| |done].
    + apply polygon_reads; [|exact (znth_Forall _ _ _ _ Hps Hi)|lia].
      destruct (polygon_fields_contig (1 + i) (pg_lon p) (pg_lat p)) as [Hc El]. pose proof (fields_inside _ _ Hc) as Hin. rewrite El in Hin.
      apply (fields_kept _ _ _ _ _ (G1 i p Hi) Hin). intros f Hf Hh. apply K2; [done|lia].
    + rewrite I1. replace (100 + 136 * i) with ((50 + 68 * i) * 2) by lia. by rewrite Z.div_mul.
Qed.

(** *** The table *)

Lemma dec_loop_length_ge f : forall n k, (k <= f)%nat -> 10 ^ Z.of_nat k <= n -> (k < length (dec_loop f n))%nat.
Proof.
  induction f as [|f IH]; intros n k Hk Hn; cbn [dec_loop]; [cbn; lia|].
  destruct (Z.ltb_spec n 10) as [Hs|Hs].
  - destruct k as [|k]; [cbn; lia|]. rewrite Nat2Z.inj_succ, Z.pow_succ_r in Hn by lia. pose proof (Z.pow_pos_nonneg 10 (Z.of_nat k)). lia.
  - rewrite length_app. cbn [length]. destruct k as [|k]; [lia|]. rewrite Nat2Z.inj_succ, Z.pow_succ_r in Hn by lia.
    enough (k < length (dec_loop f (n / 10)))%nat by lia. apply IH; [lia|]. apply Z.div_le_lower_bound; lia.
Qed.

(** what fits in three characters *)
Definition fits3 (n : Z) : Prop := -99 <= n <= 999.
#[global] Instance fits3_dec n : Decision (fits3 n) := ltac:(unfold fits3; apply _).

Lemma sdec_length3 n : (length (sdec n) <= 3)%nat <-> fits3 n.
Proof.
  unfold sdec, fits3, dec. destruct (Z.ltb_spec n 0) as [Hn|Hn]; cbn [length].
  - split.
    + intros H. destruct (Z_le_gt_dec 100 (- n)) as [Hb|Hb]; [|lia]. pose proof (dec_loop_length_ge 20 (- n) 2 ltac:(lia) Hb). lia.
    + intros H. pose proof (dec_loop_length 20 (- n) 1 ltac:(change (10 ^ Z.of_nat 2) with 100; lia) ltac:(lia)). lia.
  - split.
    + intros H. destruct (Z_le_gt_dec 1000 n) as [Hb|Hb]; [|lia]. pose proof (dec_loop_length_ge 20 n 3 ltac:(lia) Hb). lia.
    + intros H. apply (dec_loop_length 20 n 2); [change (10 ^ Z.of_nat 3) with 1000; lia|lia].
Qed.

Lemma fmt3d_length n : 3 <= zlen (fmt3d n) /\ (zlen (fmt3d n) = 3 <-> fits3 n).
Proof.
  unfold fmt3d. rewrite zlen_app, zlen_replicate. rewrite <- sdec_length3. unfold zlen. lia.
Qed.

Definition row_text (p : dcnids_polygon_st) : list Z := fmt3d (pg_code p) ++ fmt3d (pg_level p).
Definition row_fits (p : dcnids_polygon_st) : Prop := fits3 (pg_code p) /\ fits3 (pg_level p).
#[global] Instance row_fits_dec p : Decision (row_fits p) := ltac:(unfold row_fits; apply _).

Lemma row_length p : 6 <= zlen (row_text p) /\ (zlen (row_text p) = 6 <-> row_fits p).
Proof.
  unfold row_text, row_fits. rewrite zlen_app. destruct (fmt3d_length (pg_code p)) as [? <-], (fmt3d_length (pg_level p)) as [? <-]. lia.
Qed.

Lemma znth_zdrop {A} (l : list A) i x : znth l i = Some x -> zdrop i l = x :: zdrop (i + 1) l.
Proof.
  intros H. pose proof (znth_Some_lt _ _ _ H). rewrite znth_lookup in H by lia. unfold zdrop.
  rewrite (drop_S _ _ _ H). do 2 f_equal. lia.
Qed.
Lemma ztake_S {A} n (x : A) l : ztake (Z.of_nat (S n)) (x :: l) = x :: ztake (Z.of_nat n) l.
Proof. unfold ztake. by rewrite !Nat2Z.id. Qed.

Definition table_row (p : dcnids_polygon_st) : list Z := DCNIDS_DBF_RECORD_VALID_FLAG :: row_text p.

#[local] Opaque fmt3d.

(** the zero that ends the text of a row is overwritten by the next row *)
Lemma row_written s r p : 8 <= zlen r ->
  (let* buf := wr (s ++ r) (zlen s) [DCNIDS_DBF_RECORD_VALID_FLAG] in wr buf (zlen s + 1) (ztake 6 (row_text p) ++ [0])) =
  Done ((s ++ DCNIDS_DBF_RECORD_VALID_FLAG :: ztake 6 (row_text p)) ++ 0 :: zdrop 8 r).
Proof.
  intros Hr. pose proof (row_length p) as [Hl _]. assert (zlen (ztake 6 (row_text p)) = 6) as L6 by (apply zlen_take; lia).
  rewrite wr_app by (change (zlen [DCNIDS_DBF_RECORD_VALID_FLAG]) with 1; lia). cbn [obind]. change (zlen [DCNIDS_DBF_RECORD_VALID_FLAG]) with 1.
  rewrite app_assoc, wr_app; [|rewrite zlen_app; done|rewrite zlen_app, L6, zlen_drop by lia; change (zlen [0]) with 1; lia].
  rewrite zlen_app, L6, zdrop_drop by (change (zlen [0]) with 1; lia). change (1 + (6 + zlen [0])) with 8. by rewrite <- !app_assoc.
Qed.

Lemma dbf_content_spec ps : forall n s r i, 0 <= i -> i + Z.of_nat n <= zlen ps -> zdrop (7 * Z.of_nat n) r = [0] ->
  let rows := ztake (Z.of_nat n) (zdrop i ps) in
  dbf_content_loop n (s ++ r) (zlen s) i ps =
    if decide (Forall row_fits rows) then Done (s ++ concat (map table_row rows) ++ [0]) else Abrt.
Proof.
  induction n as [|n IH]; intros s r i Hi Hn Hr rows.
  { subst rows. rewrite ztake_0, decide_True by constructor. cbn. rewrite zdrop_0 in Hr. by rewrite Hr. }
  assert (zlen r = 7 * Z.of_nat n + 8) as Lr.
  { destruct (Z_le_gt_dec (zlen r) (7 * Z.of_nat (S n))); [by rewrite zdrop_ge in Hr|].
    apply (f_equal zlen) in Hr. rewrite zlen_drop in Hr by lia. change (zlen [0]) with 1 in Hr. lia. }
  destruct (znth_is_Some ps i) as [p Ep]; [lia|]. subst rows. rewrite (znth_zdrop _ _ _ Ep), ztake_S.
  cbn [dbf_content_loop]. rewrite (proj2 (rd_Done _ _ _) Ep). cbn [obind]. fold (row_text p). change (2 * DCNIDS_DBF_FIELDWIDTH) with 6.
  pose proof (row_length p) as [Hr1 Hr2]. pose proof (row_written s r p ltac:(lia)) as E. unfold c_assert.
  destruct (wr (s ++ r) (zlen s) [DCNIDS_DBF_RECORD_VALID_FLAG]) as [b1| |]; try done. cbn [obind] in *. rewrite E. cbn [obind].
  destruct (Z.eqb_spec (zlen (row_text p)) 6) as [El|El].
  - rewrite ztake_ge by lia. fold (table_row p). replace (zlen s + 1 + 6) with (zlen (s ++ table_row p)).
    2: { rewrite zlen_app. unfold table_row. rewrite zlen_cons, El. lia. }
    rewrite IH; [|lia|lia|].
    + set (rows := ztake (Z.of_nat n) (zdrop (i + 1) ps)). cbn [map concat].
      destruct (decide (Forall row_fits rows)), (decide (Forall row_fits (p :: rows))) as [D|D]; rewrite Forall_cons_iff in D; try tauto.
      by rewrite <- !app_assoc.
    + destruct n as [|n]; [rewrite zdrop_0, zdrop_ge by lia; done|].
      change (0 :: zdrop 8 r) with ([0] ++ zdrop 8 r). rewrite zdrop_app_ge by (change (zlen [0]) with 1; lia). change (zlen [0]) with 1.
      rewrite zdrop_drop by lia. rewrite <- Hr. f_equal. lia.
  - rewrite decide_False; [done|]. rewrite Forall_cons_iff. tauto.
Qed.

(** the bytes before the rows *)
Definition table_field (name : list Z) : list Z :=
  name ++ replicate (11 - length name) 0 ++ [78; 0; 0; 0; 0; DCNIDS_DBF_FIELDWIDTH] ++ replicate 15 0.
Definition table_header (n : Z) : list Z :=
  replicate 4 0 ++ split32_little n ++ [97; 0; 7; 0] ++ replicate 20 0 ++
  table_field DCNIDS_DBF_FIELDNAME_0 ++ table_field DCNIDS_DBF_FIELDNAME_1 ++ [13].

Lemma wr_inside {A} (h h' r d : list A) off : wr h off d = Done h' -> wr (h ++ r) off d = Done (h' ++ r).
Proof.
  unfold wr. pose proof (zlen_nonneg d). destruct ((0 <=? off) && (off + zlen d <=? zlen h)) eqn:E; [|done]. zbool. intros [= <-].
  rewrite (proj2 (Z.leb_le _ _)), (proj2 (Z.leb_le _ _)) by (rewrite ?zlen_app; pose proof (zlen_nonneg r); lia).
  cbn [andb]. rewrite ztake_app_le, zdrop_app_le by lia. by rewrite <- !app_assoc.
Qed.

Lemma rows_length ps : Forall row_fits ps -> zlen (concat (map table_row ps)) = 7 * zlen ps.
Proof.
  induction 1 as [|p ps Hp _ IH]; [done|]. cbn [map concat]. rewrite zlen_app, IH, zlen_cons. unfold table_row. rewrite zlen_cons.
  rewrite (proj2 (proj2 (row_length p)) Hp). lia.
Qed.

Lemma insert_table_header {Hp : Heap} r pm n : zlen (polygons pm) = n -> n = numpolygons pm -> 0 <= n < 2 ^ 32 ->
  dcnids_dbf_insert_content (replicate 97 0 ++ r) (DbfInfo DCNIDS_DBF_NUMFIELDS DCNIDS_DBF_FIELDWIDTH n) pm =
  dbf_content_loop (Z.to_nat n) (table_header n ++ r) 97 0 (polygons pm).
Proof.
  intros E1 E2 Hn. unfold dcnids_dbf_insert_content, insert_field, dcnids_shp_insert_uint32_little, dcnids_dbf_insert_uint16_little.
  cbn [numrecords]. rewrite u32_small by lia. unfold table_header.
  assert (exists b0 b1 b2 b3, split32_little n = [b0; b1; b2; b3]) as (b0 & b1 & b2 & b3 & ->).
  { destruct (four_inv (split32_little n) (zlen_little n)) as (b0 & b1 & b2 & b3 & ->). by exists b0, b1, b2, b3. }
  repeat (erewrite wr_inside by reflexivity; cbn [obind]). by rewrite <- E2.
Qed.

(** the codes of the cells *)
Definition codes (dig : bool) : Z := if dig then 256 else 16.

Lemma cells_codes dig scale rs : Forall (fun r : nids_radial_packet_st * list Z => bytes r.2) rs ->
  Forall (fun c => 0 <= cell_code c < codes dig) (radials_cells (packet_of dig) scale rs).
Proof.
  intros Hrs. unfold radials_cells. induction Hrs as [|[rp l] rs Hl _ IH]; cbn [flat_map]; [constructor|]. apply Forall_app. split; [clear IH|done].
  cbn [fst snd] in *. generalize 0 at 2. induction Hl as [|y l Hy Hl IH]; intros total; cbn [bytes_cells]; [constructor|].
  apply Forall_app. split; [|apply IH]. destruct (pk_empty _ y); [constructor|]. unfold is_byte in Hy. destruct dig; cbn [codes packet_of digital af1f pk_cells].
  - eapply List.Forall_impl; [|apply arc_code]. cbn beta. intros c ->. lia.
  - eapply List.Forall_impl; [|apply arcs_code]. cbn beta. intros c ->. apply low_nibble.
Qed.

Lemma level_fits dig h y v : 0 <= y < codes dig -> level_of dig h y = Some v -> fits3 v.
Proof.
  unfold level_of, fits3, codes. intros Hy. destruct dig.
  - unfold digital_lv, digital_bref_codetolevel. pose proof (Z.quot_rem' y 2). pose proof (Z.quot_rem' (y - 128) 2).
    pose proof (Z.rem_bound_abs y 2). pose proof (Z.rem_bound_abs (y - 128) 2).
    destruct (_ =? NIDS_PDB_CODE_NXQ); [destruct (_ || _); [|done]|destruct (_ =? NIDS_PDB_CODE_NXU); [|done]]; intros [= <-]; lia.
  - unfold af1f_level, nids_decode_bref_codetolevel. destruct (_ || _).
    { destruct (_ =? _); [intros [= <-]; lia|]. destruct (_ =? _); [intros [= <-]; lia|done]. }
    pose proof (nibble y Hy) as Hin. cbn [In] in Hin. destruct (_ =? NIDS_PDB_CODE_NXV); [|destruct (_ || _); [|destruct (_ =? NIDS_PDB_CODE_NXS); [|done]]];
      repeat (destruct Hin as [<-|Hin]; [intros [= <-]; done|]); done.
Qed.

Lemma kept_fits {LM : Libm} dig h pm cs : Forall (fun c => 0 <= cell_code c < codes dig) cs -> Forall row_fits (kept h pm (level_of dig h) cs).
Proof.
  induction 1 as [|c cs Hc _ IH]; [constructor|]. unfold kept in *. cbn [omap list_omap].
  destruct (level_of dig h (cell_code c)) as [v|] eqn:Ev; [|done]. destruct (filtered pm v); [done|].
  constructor; [|done]. split; [change (fits3 (cell_code c)); unfold fits3; unfold codes in Hc; destruct dig; lia|]. by apply (level_fits dig h (cell_code c)).
Qed.

(** *** The reader of the table *)

Lemma rdn_app {A} (s m r : list A) k n : k = zlen s -> n = zlen m -> rdn (s ++ m ++ r) k n = Done m.
Proof.
  intros -> ->. pose proof (zlen_nonneg s). pose proof (zlen_nonneg m). pose proof (zlen_nonneg r).
  rewrite rdn_ok by (rewrite ?zlen_app; lia). by rewrite zsub_app_exact.
Qed.

Lemma read_rows ps : forall s r, Forall row_fits ps ->
  dbfread_rows (length ps) (s ++ concat (map table_row ps) ++ r) (zlen s) = Done (map (fun p => (fmt3d (pg_code p), fmt3d (pg_level p))) ps).
Proof.
  induction ps as [|p ps IH]; intros s r; [done|]. intros [[F1 F2] Hps]%Forall_cons_iff. cbn [length map concat dbfread_rows].
  apply fmt3d_length in F1, F2. unfold table_row, row_text. cbn [app]. set (c := fmt3d (pg_code p)) in *. set (v := fmt3d (pg_level p)) in *.
  rewrite <- !app_assoc, (cons_middle DCNIDS_DBF_RECORD_VALID_FLAG s), (app_assoc s [_]). rewrite rdn_app by (rewrite ?zlen_app, ?F1, ?F2; change (zlen [DCNIDS_DBF_RECORD_VALID_FLAG]) with 1; lia). cbn [obind].
  rewrite (app_assoc _ c). rewrite rdn_app by (rewrite ?zlen_app, ?F1, ?F2; change (zlen [DCNIDS_DBF_RECORD_VALID_FLAG]) with 1; lia). cbn [obind].
  rewrite (app_assoc _ v). replace (zlen s + 7) with (zlen (((s ++ [DCNIDS_DBF_RECORD_VALID_FLAG]) ++ c) ++ v)).
  - by rewrite IH.
  - rewrite !zlen_app, F1, F2. change (zlen [DCNIDS_DBF_RECORD_VALID_FLAG]) with 1. lia.
Qed.

#[local] Transparent split32 split32_little.

Lemma read_table_header n rest : 0 <= n < 2 ^ 31 ->
  dbfread_array (table_header n ++ rest) =
    let* l := dbfread_rows (Z.to_nat n) (table_header n ++ rest) (zlen (table_header n)) in Done (0, n, 97, 7, l).
Proof.
  intros Hn. unfold dbfread_array. change (rd (table_header n ++ rest) 0) with (@Done Z 0). cbn [obind].
  assert (dcnids_shp_extract_uint32_little (table_header n ++ rest) 4 = Done n) as ->.
  { rewrite <- (be32_split n) at 2 by lia. reflexivity. }
  cbn [obind]. rewrite s32_small by lia.
  change (rd (table_header n ++ rest) 8) with (Done 97). change (rd (table_header n ++ rest) 9) with (Done 0).
  change (rd (table_header n ++ rest) 10) with (Done 7). change (rd (table_header n ++ rest) 11) with (Done 0). cbn [obind].
  change (97 + Z.shiftl 0 8) with (zlen (table_header n)). reflexivity.
Qed.

Lemma rdn_cases {A} (l : list A) off n : rdn l off n = Undef \/ (exists x, rdn l off n = Done x) /\ off + n <= zlen l.
Proof.
  unfold rdn. destruct ((0 <=? off) && (0 <=? n) && (off + n <=? zlen l)) eqn:E; [right|by left].
  zbool. split; [by eexists|done].
Qed.

Lemma rows_beyond n : forall b p, (0 < n)%nat -> zlen b < p + 7 * Z.of_nat n -> dbfread_rows n b p = Undef.
Proof.
  induction n as [|n IH]; intros b p H0 Hl; [lia|]. cbn [dbfread_rows].
  destruct (rdn_cases b (p + 1) 3) as [->|[[x ->] _]]; [done|]. cbn [obind].
  destruct (rdn_cases b (p + 4) 3) as [->|[[y ->] Hp]]; [done|]. cbn [obind].
  rewrite IH; [done|lia|lia].
Qed.

(** the rows of the table, when they fit in the array *)
Lemma dbfread_table ps mem : let n := zlen ps in Forall row_fits ps -> 97 + 7 * n < 2 ^ 31 -> zlen mem = DBFREAD_SIZE ->
  dbfread (table_header n ++ concat (map table_row ps) ++ [0]) mem =
    if n <=? 18271 then Done (0, n, 97, 7, map (fun p => (fmt3d (pg_code p), fmt3d (pg_level p))) ps) else Undef.
Proof.
  intros n Hps Hn Hm. pose proof (zlen_nonneg ps). unfold dbfread, DBFREAD_SIZE in *. set (rows := concat (map table_row ps)).
  assert (zlen (table_header n ++ rows ++ [0]) = 98 + 7 * n) as Hz.
  { rewrite !zlen_app. unfold rows. rewrite (rows_length _ Hps). change (zlen (table_header n)) with 97. change (zlen [0]) with 1. unfold n. lia. }
  destruct (Z.leb_spec n 18271) as [Hs|Hs].
  - rewrite ztake_ge, <- !app_assoc, read_table_header by lia. replace (Z.to_nat n) with (length ps) by (unfold n, zlen; lia).
    unfold rows. by rewrite read_rows.
  - pose proof (zlen_take 128000 (table_header n ++ rows ++ [0]) ltac:(lia)) as Ht. rewrite Ht, (zdrop_ge 128000 mem), app_nil_r by lia.
    change 128000 with (97 + 127903) in Ht |- *. rewrite ztake_add, (ztake_app_exact 97), (zdrop_app_exact 97) in Ht |- * by done.
    rewrite read_table_header by lia. rewrite rows_beyond; [done|lia|]. rewrite Ht. change (zlen (table_header n)) with 97. lia.
Qed.

(** C38: The table of the levels. For any number of polygons up to 306783364
    the storage is large enough, and the bytes that are written are a header with
    the number of rows and the sizes, the fields "code" and "level", and a row of
    seven characters for each polygon, followed by the zero of the last one; the
    program aborts just when a code or a level does not fit in three characters.
    The codes and levels of a radar product always fit. With up to 18271 polygons
    dbfread finds in the table the code and the level of each one; with more, the
    table is larger than its array, and it reads beyond it. *)
Theorem levels_table {LM : Libm} {Hp : Heap} fd pm : let n := numpolygons pm in
  n = zlen (polygons pm) -> n <= 306783364 -> malloc_ok 24 = true -> malloc_ok (98 + 7 * n) = true ->
  dcnids_dbf_write (Some fd) pm =
    (if decide (Forall row_fits (polygons pm))
     then let (k, fd') := sys_write fd (table_header n ++ concat (map table_row (polygons pm)) ++ [0]) in
          Done (if k <? 0 then -1 else 0, Some fd')
     else Abrt) /\
  (forall mem, Forall row_fits (polygons pm) -> zlen mem = DBFREAD_SIZE ->
     dbfread (table_header n ++ concat (map table_row (polygons pm)) ++ [0]) mem =
       if n <=? 18271 then Done (0, n, 97, 7, map (fun p => (fmt3d (pg_code p), fmt3d (pg_level p))) (polygons pm)) else Undef) /\
  forall dig h pm' rs, Forall (fun r : nids_radial_packet_st * list Z => bytes r.2) rs -> Forall row_fits (all_polygons dig h pm' rs).
Proof.
  intros n En Hn Hm1 Hm2. pose proof (zlen_nonneg (polygons pm)). split; [|split].
  2: { intros mem Hps. rewrite En. apply dbfread_table; [done|lia]. }
  2: { intros dig h pm' rs Hrs. by apply kept_fits, cells_codes. }
  unfold dcnids_dbf_write, dcnids_dbf_create, dcnids_dbf_total_size_bytes, dcnids_dbf_record_size_bytes, dcnids_dbf_header_size_bytes, int_ok. fold n.
  cbn [numfields fieldwidth numrecords]. change (DCNIDS_DBF_HEADER_SIZE + DCNIDS_DBF_NUMFIELDS * DCNIDS_DBF_FIELD_DESC_SIZE + 1) with 97.
  change (1 + DCNIDS_DBF_FIELDWIDTH * DCNIDS_DBF_NUMFIELDS) with 7. replace (97 + 7 * n + 1) with (98 + 7 * n) by lia.
  rewrite Hm1, (proj2 (Z.leb_le _ _)), (proj2 (Z.ltb_lt _ _)) by lia. cbn [negb andb obind]. rewrite Hm2. cbn [negb obind].
  replace (Z.to_nat (98 + 7 * n)) with (97 + Z.to_nat (7 * n + 1))%nat by lia. rewrite replicate_add, insert_table_header by (done || lia).
  pose proof (dbf_content_spec (polygons pm) (Z.to_nat n) (table_header n) (replicate (Z.to_nat (7 * n + 1)) 0) 0 ltac:(lia) ltac:(lia)) as E.
  change (zlen (table_header n)) with 97 in E. rewrite E.
  2: { unfold zdrop. rewrite drop_replicate. by replace (Z.to_nat (7 * n + 1) - Z.to_nat (7 * Z.of_nat (Z.to_nat n)))%nat with 1%nat by lia. }
  rewrite zdrop_0, ztake_ge by lia. destruct (decide _) as [HF|HF]; [|done]. cbn [obind]. rewrite rdn_whole; [done|].
  rewrite !zlen_app, (rows_length _ HF). change (zlen (table_header n)) with 97. change (zlen [0]) with 1. lia.
Qed.

(** ** Examples *)

Definition demo_cell : dcnids_polygon_st :=
  Polygon [d_of_Z (-66); d_of_Z (-65); d_of_Z (-65); d_of_Z (-66)] [d_of_Z 18; d_of_Z 18; d_of_Z 19; d_of_Z 19] 5 25.
Definition demo_cells (p : dcnids_polygon_st) : dcnids_polygon_map_st :=
  PolygonMap [demo_cell; p] 2 (d_of_Z (-66)) (d_of_Z 18) (d_of_Z (-65)) (d_of_Z 19) 0 75 1.

Lemma demo_cells_ready : map_ready (demo_cells demo_cell).
Proof. by repeat constructor. Qed.

Lemma shapefile_reads_back_witness : exists b,
  dcnids_shp_create (Hp := demo_heap) (fun n => replicate (Z.to_nat n) 255) (demo_cells demo_cell) = Done (Some (Shp b 488 372 116)) /\
  polygon_at b 236 2 demo_cell /\ dcnids_shp_extract_uint32_big b 480 = Done 118.
Proof.
  destruct (shapefile_reads_back (Hp := demo_heap) (fun n => replicate (Z.to_nat n) 255) (demo_cells demo_cell) demo_cells_ready) as (b & E & _ & _ & _ & H);
    [done|done|done|done|].
  exists b. split; [exact E|]. destruct (H 1 demo_cell eq_refl) as (H1 & H2 & _). split; [exact H1|exact H2].
Defined.

Lemma levels_table_witness : 
  dcnids_dbf_write (Hp := demo_heap) (Some (Fd [EvRoom 200] [] [])) (demo_cells demo_cell) =
    Done (0, Some (Fd [EvRoom 88] [] (table_header 2 ++ [32; 32; 32; 53; 32; 50; 53; 32; 32; 32; 53; 32; 50; 53; 0]))) /\
  dcnids_dbf_write (Hp := demo_heap) (Some (Fd [] [] [])) (demo_cells (Polygon [] [] 5 1000)) = Abrt.
Proof.
  pose proof (fun fd p => proj1 (levels_table (LM := demo_libm) (Hp := demo_heap) fd (demo_cells p) eq_refl ltac:(done) eq_refl eq_refl)) as H.
  rewrite !H. split; vm_compute; reflexivity.
Defined.
